(* ===== verification/_CoqProject ===== *)
-Q . S2P
Prelude.v
Lock.v
Refcount.v
Mutex.v
Semaphore.v
Rwlock.v
WaitQueue.v
Lockdep.v
Runqueue.v
Thread.v
Signal.v
Bytes.v
Channel.v
Pipe.v
Klog.v
Pmm.v
Heap.v
MmBoot.v
Paging.v
Vmm.v
AddressSpace.v
Isolation.v
NetPacket.v
Ethernet.v
Arp.v
Ipv4.v
Udp.v
Tcp.v
Ipv6.v
Transport6.v
Device.v
Dhcp.v
Ring.v
NetStack.v
Socket.v
SocketInv.v
SocketStream.v
SocketUdp.v
Socket6.v
Block.v
BlockCache.v
Journal.v
RixInode.v
RixFs.v
RixDir.v
RixRename.v
RixFsck.v
RixRules.v
RixFiles.v
RixDemo.v
RixCheck.v
RixMount.v
RixFsckSound.v
Tty.v
TtyInv.v
TtyBounds.v
TtyLine.v
TtyDemo.v
Elf.v
LibcUtf8.v
Process.v
VfsPath.v
Vfs.v
VfsFds.v
VfsToy.v
VfsCalls.v
ProcessImage.v
ProcessArgs.v
ProcessTable.v
Scheduler.v
SchedulerInv.v
SchedulerSwitch.v
