(* ===== verification/Prelude.v ===== *)
(** * RixuriOS kernel verification: root file and prelude

    RixuriOS is a 64-bit operating system in C: a kernel ([src/kernel]) with its
    own memory managers, scheduler, process table, network stack, virtual file system,
    journaling file system and terminals, and a user land ([src/user]) with a C library. This development
    models the kernel's core in Rocq, one file per part, and proves what makes each
    part correct. Paths below are relative to [src/].

    ** The program's parts, and the files that model them

    - Synchronisation ([kernel/sync]). [Lock]: [lock.c], the spin lock, the interrupt
      flag and the irqsave bracket around every guarded object. [Refcount]:
      [refcount.h]. [Mutex], [Semaphore], [Rwlock], [WaitQueue], [Lockdep]: [mutex.c],
      [sem.c], [rwlock.c], [waitqueue.c], [lockdep.c].
    - Scheduling ([kernel/sched]). [Runqueue]: [runqueue.c]. [Thread]: [thread.c].
      [Scheduler]: the whole of [scheduler.c] and the exchange of contexts of
      [switch.S], with [SchedulerInv] and [SchedulerSwitch] for its theorems. A yield
      picks from the run queues, releases the scheduler lock and then switches
      contexts; the model keeps these as separate steps.
    - Processes ([kernel/process]). [Signal]: [signal.c]. [Process]: the part of
      [process.c] that works on the table (creation, exit, wait, credentials,
      capabilities, sessions, listings). [ProcessImage]: the calls that give a process its
      address space, stacks and program (user processes, fork, exec and the argument
      block). [ProcessArgs] holds the theorem on the argument block, [ProcessTable] those
      on all these calls together. The scheduler, the file system, the memory managers and
      the ELF loader are reached through the class [Host].
    - Communication and log. [Channel], [Pipe]: [kernel/ipc/channel.c], [pipe.c].
      [Klog]: [kernel/log/klog.c].
    - Memory ([kernel/mm]). [Pmm]: [pmm.c], from the firmware map on. [Heap]: [heap.c],
      over any page allocator with the class [PageAlloc]. [MmBoot]: both from boot.
      [Paging], [Vmm]: the walks, and mapping and unmapping of [vmm.c] over physical
      memory as words, over the class [FrameAlloc]. [AddressSpace], [Isolation]:
      [kernel/process/address_space.c] and [kernel/mm/ptmap.c].
    - Network ([kernel/net]). [NetPacket]: [net.c]. [Ethernet], [Arp], [Ipv4], [Udp],
      [Tcp]: the files of these names. [Ipv6], [Transport6]: [ipv6.c]. [Device]:
      [device.c] and [loopback.c], over the class [Nic] for the two controllers.
      [Dhcp]: [dhcp.c]. [NetStack]: [stack.c], which ties them together. [Socket],
      [Socket6]: [socket.c], with [SocketInv], [SocketStream] and [SocketUdp].
    - Storage ([kernel/storage], [kernel/fs]). [Block]: [block_submit] of [block.c] and
      the disk it reaches. [BlockCache]: [block_cache.c]. [Journal]: the journal of
      [rixfs.c] and [rixfs_ops.c]. [RixInode], [RixFs], [RixDir], [RixRename]: the rest of
      [rixfs.c], [rixfs_ops.c] and [rixfs_dir.c], as a monad [FS] whose state is the handle,
      over the disk of [Block]. [RixFsck]: [rixfs_fsck.c]. [RixRules] (devices that do what
      they are told, the class [Reliable]), [RixFiles], [RixCheck] (what a consistent disk
      is), [RixMount] and [RixFsckSound] hold their theorems, [RixDemo] concrete disks.
    - Virtual file system ([kernel/vfs]). [VfsPath]: path names. [Vfs]: lookup with links
      and permissions, descriptors, pipes and the calls of [vfs.c], over the class [Below]
      for the file system, the scheduler and the lock-order checker. [VfsFds] and [VfsCalls] hold the
      theorems, [VfsToy] a small file system to run it on.
    - Terminals ([kernel/tty]). [Tty]: [tty.c] with the font of [font_psf.h], over the class
      [TtyHost]. [TtyInv], [TtyBounds] and [TtyLine] hold the theorems, [TtyDemo] sessions.
    - Programs. [Elf]: [kernel/elf/elf.c]. [LibcUtf8]: the UTF-8 and wide-character
      conversions of [user/libc/src/libc.c].
    - [Prelude], [Bytes], [Ring] hold what the others share: the state monad, C's
      integer conversions and counted loops, byte copies, ring queues.

    ** How the code is rendered

    A struct is a [Record] with the source's field names; a static array is a list
    read with [aget] and written with [aset]; an integer is a [Z], and [u8], [u16],
    [u32], [u64] reduce it where the C type does. A pointer into a table is its index,
    a possibly null pointer an [option] (or 0 where the code keeps it as an integer).
    A function that changes state is a computation of [M S A], that is
    [S -> option (A * S)]; its [None] means that the code never returns (it spins on a
    lock it holds, or freezes), so a theorem that gives [Some] says that it returns.
    Return codes are the source's. A guarded section is one step of the interleavings
    in [SpinSteps], [RwSteps], [RefSteps] and the histories of the scheduler, because
    the lock serialises it; where the code works outside its lock (reference counts,
    context switches, disk requests) each access is a step of its own.

    Code that is not modelled is reached through classes whose fields are the calls
    made and whose laws are what the documentation of that code promises: [PageAlloc]
    and [FrameAlloc] (proved of [Pmm]), [Smp] (TLB shootdown), [Machine] and [Drives] (block drivers),
    [Nic] (network controllers), [Clock], [Platform] (addresses of the boot CPU, the task
    stacks and the task entry), [Host] (what the process table calls), [UserStack] (the
    bytes a program sees), [Below] (what the virtual file system calls), [TtyHost] (what the
    terminals call), [Reliable] (a device without faults). Each property
    that relies on such laws has a witness at a concrete instance.

    ** What the theorems show

    - Storage: a journaled sector survives power loss whole, old or new
      ([journal_crash_atomic]); recovery ends ([journal_recovery_completes]); the cache
      is a plain store ([block_cache_refines_store]) whose flush ends
      ([block_cache_flush_ends]).
    - Files: files are arrays of bytes ([rixfs_files_are_arrays]); a clean report of the
      check means a consistent disk ([fsck_clean_consistent]); path names resolve as they
      should ([vfs_normalize_exact]) and the books on pipes and descriptors balance
      ([vfs_pipes_accounted]).
    - Terminals: the consoles are line editors ([consoles_are_line_editors]) and nothing
      leaves its array or the frame buffer ([tty_stays_in_bounds]).
    - Memory: no page and no heap block is handed out twice ([pmm_no_double_allocation],
      [heap_blocks_disjoint], [kmalloc_contract]); mapping and unmapping change exactly
      the page asked for ([vmm_map_correct], [vmm_unmap_correct]); address spaces keep
      apart, and their operations and destruction touch their own pages only
      ([address_space_isolation], [address_space_effects], [address_space_destroy_safe]).
    - Processes: the table implements a tree of processes ([process_table_refines_tree]),
      keeps its invariant and loses no address space or stack ([process_table_invariant]),
      and lets nobody make up a capability or an identity ([no_privilege_from_nothing]); a
      new program finds its arguments ([stack_build_args_layout]).
    - Scheduling: masks and task table agree after any history ([scheduler_masks_exact]);
      tasks of the boot CPU resume where they were left ([bsp_resumes_where_left]); CPUs
      take only tasks placed on them ([claims_respect_placement]); round robin is fair
      ([round_robin_fair], [hipri_cap_enforced]); the thread table is a map
      ([thread_table_refines_map]); and a race that loses a context
      ([yield_races_with_claim]).
    - Synchronisation: exclusion ([spin_mutual_exclusion], [rwlock_exclusion],
      [mutex_refines_lock]), one teardown ([refcount_teardown_once]), no circular wait
      among accepted acquisitions ([lockdep_no_circular_wait]), no use of a stale wait
      handle ([stale_handle_rejected]).
    - Streams: channels are FIFOs ([ipc_channel_refines_fifo]); a pipe and a TCP socket
      deliver a prefix of what was sent ([pipe_stream_integrity], [tcp_stream_integrity]);
      loopback datagrams arrive in order ([udp_loopback_fifo]).
    - Network: socket tables stay well formed ([socket_tables_well_formed]); a reply
      releases the packet that waited for it ([arp_resolution_releases_packet]); TCP's
      state machine ([tcp_lifecycle]), DHCP ([dhcp_run_configures]) and the choice of
      routes ([route_lookup_longest_prefix]) do what they should. The codecs have their
      round trips as lemmas.
    - Programs: [elf_validate_exact] and [utf8_decode_exact] characterise what is
      accepted, [utf8_strings_inverse] is a round trip.

    ** Bounds and fuel

    Loops over a table are counted by its size, so they need no fuel. The other loops
    carry a count that is shown, or plainly is, enough: [fold_loop] folds a sum of less
    than 2^32 twice; [sum_words] and [parse_loop] run once per byte; [mbs_loop] once per
    byte of the string; [ref_acquire_loop] once when run alone; [drain_loop] once more
    than the reassembly window has segments ([drain_enough] shows that more changes
    nothing); [evict_tries] has the bound of the code; [flush_loop] runs once more
    than the cache has entries, and [block_cache_flush_ends] shows that this is enough;
    [normalize_loop] and [walk] have a turn for every byte of the path and use one per name,
    and [lookup_restart] has the code's limit on symbolic links; the walks over a directory
    have a turn for every byte of it and advance by at least one; [reach_loop] has a
    turn for every inode and one more, and every turn but the last reaches a new one. The other loops of RixFS
    are counted by sectors, extents or inodes, those of the terminal by bytes. Sequence
    numbers, times and ids wrap as in the code unless a hypothesis keeps them apart.

    ** Not modelled

    Of parts that are modelled: [process_brk], the activation of an address space with its
    diagnostics, [process_validate_user_entry] and [process_set_state]; the clone of an
    address space; the kernel's own start-up mappings and MMIO registry in [vmm.c]; and the
    registry of block devices. Diagnostic output is left out everywhere.

    Whole parts: the system-call dispatcher, which routes calls to other parts; the ELF
    loader, shared memory and user copies; the drivers for USB, PCI, NVMe and the
    network controllers, which are register protocols of devices; start-up, interrupt
    entry and multiprocessor bring-up, which are privileged instructions; the rest of
    the C library and the user programs; tests and scripts. *)
From stdpp Require Import base tactics decidable option list numbers.
From Stdlib Require Import ZArith Lia Bool.

#[global] Open Scope Z_scope.

(** ** Tactics *)

(** Splits the boolean tests that drive the branches of a definition and
    turns them into arithmetic facts. *)
Ltac bool_to_prop :=
  repeat match goal with
  | H : _ && _ = true |- _ => apply andb_true_iff in H; destruct H
  | H : _ || _ = false |- _ => apply orb_false_iff in H; destruct H
  | H : _ || _ = true |- _ => apply orb_true_iff in H
  | H : _ && _ = false |- _ => apply andb_false_iff in H
  | H : negb _ = true |- _ => apply negb_true_iff in H
  | H : negb _ = false |- _ => apply negb_false_iff in H
  | H : (_ =? _) = true |- _ => apply Z.eqb_eq in H
  | H : (_ =? _) = false |- _ => apply Z.eqb_neq in H
  | H : (_ <? _) = true |- _ => apply Z.ltb_lt in H
  | H : (_ <? _) = false |- _ => apply Z.ltb_ge in H
  | H : (_ <=? _) = true |- _ => apply Z.leb_le in H
  | H : (_ <=? _) = false |- _ => apply Z.leb_gt in H
  | H : bool_decide _ = true |- _ => apply bool_decide_eq_true in H
  | H : bool_decide _ = false |- _ => apply bool_decide_eq_false in H
  end.

Ltac case_if :=
  match goal with
  | |- context [if ?b then _ else _] => destruct b eqn:?
  | H : context [if ?b then _ else _] |- _ => destruct b eqn:?
  end; bool_to_prop.

Ltac split_ifs := repeat case_if.

(** [upd r f x] is the record [r] with field [f] set to [x]. A record type gets
    its [Eta] instance once: the constructor applied to the projections. *)
Class Eta (R : Type) := eta : R -> R.
Ltac upd r f x :=
  let e := eval hnf in (eta r) in
  let e := eval pattern (f r) in e in
  match e with ?g _ => let t := eval cbv beta in (g x) in exact t end.

(** ** Fixed-width unsigned arithmetic

    A C unsigned value of width [w] is an integer of [0, 2^w); every
    operation that may leave that range is followed by the wrap of its type. *)

Definition u8 (x : Z) : Z := x mod 2 ^ 8.
Definition u16 (x : Z) : Z := x mod 2 ^ 16.
Definition u32 (x : Z) : Z := x mod 2 ^ 32.
Definition u64 (x : Z) : Z := x mod 2 ^ 64.

Definition UINT8_MAX : Z := 255.
Definition UINT32_MAX : Z := 2 ^ 32 - 1.
Definition UINT64_MAX : Z := 2 ^ 64 - 1.

Definition is_u8 (x : Z) : Prop := 0 <= x < 2 ^ 8.
Definition is_u16 (x : Z) : Prop := 0 <= x < 2 ^ 16.
Definition is_u32 (x : Z) : Prop := 0 <= x < 2 ^ 32.
Definition is_u64 (x : Z) : Prop := 0 <= x < 2 ^ 64.

(** C truth value of an integer, and the integer a C comparison yields. *)
Definition truthy (x : Z) : bool := negb (x =? 0).
Definition b2z (b : bool) : Z := if b then 1 else 0.

Lemma u8_range x : is_u8 (u8 x).
Proof. apply Z.mod_pos_bound. lia. Qed.
Lemma u16_range x : is_u16 (u16 x).
Proof. apply Z.mod_pos_bound. lia. Qed.
Lemma u32_range x : is_u32 (u32 x).
Proof. apply Z.mod_pos_bound. lia. Qed.
Lemma u64_range x : is_u64 (u64 x).
Proof. apply Z.mod_pos_bound. lia. Qed.

Lemma u8_id x : is_u8 x -> u8 x = x.
Proof. apply Z.mod_small. Qed.
Lemma u16_id x : is_u16 x -> u16 x = x.
Proof. apply Z.mod_small. Qed.
Lemma u32_id x : is_u32 x -> u32 x = x.
Proof. apply Z.mod_small. Qed.
Lemma u64_id x : is_u64 x -> u64 x = x.
Proof. apply Z.mod_small. Qed.

(** ** Single-bit masks: [x & (1 << n)], [x | (1 << n)], [x & ~(1 << n)] *)

Definition bit (n : Z) : Z := Z.shiftl 1 n.

Lemma bit_testbit n m : 0 <= n -> Z.testbit (bit n) m = (m =? n).
Proof.
  intros Hn. unfold bit. rewrite Z.shiftl_1_l.
  destruct (m =? n) eqn:E; bool_to_prop; [subst; by apply Z.pow2_bits_true|].
  apply Z.pow2_bits_false. lia.
Qed.

Lemma land_bit_test x n : 0 <= n -> truthy (Z.land x (bit n)) = Z.testbit x n.
Proof.
  intros Hn. unfold truthy.
  assert (H : Z.land x (bit n) = if Z.testbit x n then bit n else 0).
  { apply Z.bits_inj'. intros m Hm. rewrite Z.land_spec, bit_testbit by done.
    destruct (m =? n) eqn:E; bool_to_prop; [subst|];
      destruct (Z.testbit x n); rewrite ?bit_testbit, ?Z.bits_0 by done; try done;
      rewrite ?Z.eqb_refl, ?andb_false_r; try done.
    symmetry. by apply Z.eqb_neq. }
  rewrite H. destruct (Z.testbit x n); [|done].
  unfold bit. rewrite Z.shiftl_1_l. pose proof (Z.pow_pos_nonneg 2 n).
  apply negb_true_iff, Z.eqb_neq. lia.
Qed.

Lemma lor_bit_testbit x n m :
  0 <= n -> Z.testbit (Z.lor x (bit n)) m = Z.testbit x m || (m =? n).
Proof. intros. by rewrite Z.lor_spec, bit_testbit. Qed.

(** [x & ~(1 << n)] is [Z.ldiff x (bit n)] on non-negative words. *)
Lemma ldiff_bit_testbit x n m :
  0 <= n -> Z.testbit (Z.ldiff x (bit n)) m = Z.testbit x m && negb (m =? n).
Proof. intros. by rewrite Z.ldiff_spec, bit_testbit. Qed.

(** Complement at the width of the type: [~x]. *)
Definition not32 (x : Z) : Z := u32 (Z.lnot x).
Definition not64 (x : Z) : Z := u64 (Z.lnot x).

Lemma testbit_high x n m : 0 <= x < 2 ^ n -> n <= m -> Z.testbit x m = false.
Proof.
  intros Hx Hm. destruct (decide (0 <= n)).
  - rewrite <- (Z.mod_small x (2 ^ n)) by lia. apply Z.mod_pow2_bits_high. lia.
  - rewrite Z.pow_neg_r in Hx by lia. lia.
Qed.

Lemma land_not32_testbit x n m :
  is_u32 x -> 0 <= n -> 0 <= m ->
  Z.testbit (Z.land x (not32 (bit n))) m = Z.testbit x m && negb (m =? n).
Proof.
  intros Hx Hn Hm. unfold not32, u32. rewrite Z.land_spec.
  destruct (decide (m < 32)).
  - by rewrite Z.mod_pow2_bits_low, Z.lnot_spec, bit_testbit by lia.
  - rewrite (testbit_high x 32 m) by (unfold is_u32 in *; lia). done.
Qed.

Lemma land_not64_testbit x n m :
  is_u64 x -> 0 <= n -> 0 <= m ->
  Z.testbit (Z.land x (not64 (bit n))) m = Z.testbit x m && negb (m =? n).
Proof.
  intros Hx Hn Hm. unfold not64, u64. rewrite Z.land_spec.
  destruct (decide (m < 64)).
  - by rewrite Z.mod_pow2_bits_low, Z.lnot_spec, bit_testbit by lia.
  - rewrite (testbit_high x 64 m) by (unfold is_u64 in *; lia). done.
Qed.

(** A word bounded bit by bit is bounded. *)
Lemma bits_bound x n : 0 <= n -> 0 <= x -> (forall m, n <= m -> Z.testbit x m = false) -> x < 2 ^ n.
Proof.
  intros Hn Hx Hb. destruct (decide (x = 0)) as [->|]; [apply Z.pow_pos_nonneg; lia|].
  apply Z.log2_lt_pow2; [lia|]. destruct (decide (Z.log2 x < n)); [done|].
  pose proof (Z.bit_log2 x ltac:(lia)) as H. rewrite Hb in H by lia. done.
Qed.

Lemma land_range x y n : 0 <= n -> 0 <= x < 2 ^ n -> 0 <= Z.land x y < 2 ^ n.
Proof.
  intros Hn Hx. assert (0 <= Z.land x y) by (apply Z.land_nonneg; lia). split; [done|].
  apply bits_bound; [done|done|]. intros m Hm. rewrite Z.land_spec.
  by rewrite (testbit_high x n m) by lia.
Qed.

Lemma lor_range x y n : 0 <= n -> 0 <= x < 2 ^ n -> 0 <= y < 2 ^ n -> 0 <= Z.lor x y < 2 ^ n.
Proof.
  intros Hn Hx Hy. assert (0 <= Z.lor x y) by (apply Z.lor_nonneg; lia). split; [done|].
  apply bits_bound; [done|done|]. intros m Hm. rewrite Z.lor_spec.
  by rewrite (testbit_high x n m), (testbit_high y n m) by lia.
Qed.

Lemma bit_range n w : 0 <= n < w -> 0 <= bit n < 2 ^ w.
Proof.
  intros Hn. unfold bit. rewrite Z.shiftl_1_l. split; [apply Z.pow_nonneg; lia|].
  apply Z.pow_lt_mono_r; lia.
Qed.

(** [x & ~(2^k - 1)]: rounding down to a power of two. *)
Lemma land_not64_low x k : 0 <= x < 2 ^ 64 -> 0 <= k -> Z.land x (not64 (2 ^ k - 1)) = x / 2 ^ k * 2 ^ k.
Proof.
  intros Hx Hk. apply Z.bits_inj'. intros n Hn. rewrite Z.land_spec. unfold not64, u64.
  rewrite <- Z.shiftl_mul_pow2, <- Z.shiftr_div_pow2 by lia.
  replace (2 ^ k - 1) with (Z.ones k) by (rewrite Z.ones_equiv; lia).
  destruct (decide (n < k)).
  - rewrite Z.shiftl_spec_low by lia. destruct (decide (n < 64)).
    + rewrite Z.mod_pow2_bits_low, Z.lnot_spec, Z.ones_spec_low by lia. by rewrite andb_false_r.
    + by rewrite (testbit_high x 64 n) by lia.
  - rewrite Z.shiftl_spec, Z.shiftr_spec by lia. replace (n - k + k) with n by lia.
    destruct (decide (n < 64)).
    + rewrite Z.mod_pow2_bits_low, Z.lnot_spec, Z.ones_spec_high by lia. by rewrite andb_true_r.
    + by rewrite (testbit_high x 64 n) by lia.
Qed.

(** [x & (x - 1)] is zero exactly for the powers of two. *)
Lemma land_pred_pow2 x : 0 < x -> Z.land x (x - 1) = 0 <-> exists k, 0 <= k /\ x = 2 ^ k.
Proof.
  intros Hx. split.
  - intros H0. pose proof (Z.log2_spec x Hx) as [Hl Hh]. pose proof (Z.log2_nonneg x) as Hk. exists (Z.log2 x). split; [done|].
    destruct (decide (x = 2 ^ Z.log2 x)); [done|]. exfalso.
    assert (Hb : Z.testbit (Z.land x (x - 1)) (Z.log2 x) = true); [|by rewrite H0, Z.bits_0 in Hb].
    rewrite Z.land_spec, Z.bit_log2 by lia. assert (E : Z.log2 (x - 1) = Z.log2 x) by (apply Z.log2_unique; lia).
    rewrite <- E at 1. rewrite Z.bit_log2 by lia. done.
  - intros (k & Hk & ->). replace (2 ^ k - 1) with (Z.ones k) by (rewrite Z.ones_equiv; lia).
    rewrite Z.land_ones by lia. apply Z.mod_same. lia.
Qed.

(** A non-zero word has a set bit within its width. *)
Lemma nonzero_has_bit x n : 0 <= x < 2 ^ n -> x <> 0 -> exists m, 0 <= m < n /\ Z.testbit x m = true.
Proof.
  intros Hx Hnz. exists (Z.log2 x). split; [|apply Z.bit_log2; lia].
  split; [apply Z.log2_nonneg|]. apply Z.log2_lt_pow2; lia.
Qed.

(** [__builtin_ctzll] of a non-zero word. *)
Fixpoint ctz_from (k : nat) (i x : Z) : Z :=
  match k with
  | O => i
  | S k => if Z.testbit x i then i else ctz_from k (i + 1) x
  end.
Definition ctz64 (x : Z) : Z := ctz_from 64 0 x.

Lemma ctz_from_spec k i x :
  0 <= i -> (exists j, i <= j < i + Z.of_nat k /\ Z.testbit x j = true) ->
  i <= ctz_from k i x < i + Z.of_nat k /\ Z.testbit x (ctz_from k i x) = true /\
  forall j, i <= j < ctz_from k i x -> Z.testbit x j = false.
Proof.
  revert i. induction k as [|k IH]; intros i Hi (j & Hj & Hb); [lia|]. cbn [ctz_from].
  destruct (Z.testbit x i) eqn:E; [split; [lia|split; [done|lia]]|].
  destruct (IH (i + 1) ltac:(lia)) as (H1 & H2 & H3).
  { exists j. split; [|done]. destruct (decide (j = i)); [congruence|lia]. }
  split; [lia|]. split; [done|]. intros j' Hj'. destruct (decide (j' = i)) as [->|]; [done|]. apply H3. lia.
Qed.

Lemma ctz64_spec x : is_u64 x -> x <> 0 ->
  0 <= ctz64 x < 64 /\ Z.testbit x (ctz64 x) = true /\ forall j, 0 <= j < ctz64 x -> Z.testbit x j = false.
Proof.
  intros Hx Hnz. destruct (nonzero_has_bit x 64 Hx Hnz) as (m & Hm & Hb).
  apply (ctz_from_spec 64 0 x); [lia|]. exists m. split; [lia|done].
Qed.

Create HintDb rix.
#[export] Hint Resolve u8_range u16_range u32_range u64_range : rix.

Lemma lor_shiftl a b k : 0 <= k -> 0 <= b < 2 ^ k -> Z.lor (Z.shiftl a k) b = a * 2 ^ k + b.
Proof.
  intros Hk Hb. rewrite Z.shiftl_mul_pow2 by done. symmetry. rewrite Z.add_nocarry_lxor.
  - apply Z.bits_inj'. intros n Hn. rewrite Z.lxor_spec, Z.lor_spec. destruct (decide (n < k)).
    + by rewrite Z.mul_pow2_bits_low by lia.
    + rewrite (testbit_high b k n) by lia. by rewrite orb_false_r, xorb_false_r.
  - apply Z.bits_inj'. intros n Hn. rewrite Z.land_spec, Z.bits_0. destruct (decide (n < k)).
    + by rewrite Z.mul_pow2_bits_low by lia.
    + by rewrite (testbit_high b k n), andb_false_r by lia.
Qed.

(** ** The state monad of the model

    [M S A] is a computation over the state [S]; [None] is a computation
    that never returns (a spin loop with nobody to end it). *)

Definition M (S A : Type) : Type := S -> option (A * S).

#[global] Instance M_ret S : MRet (M S) := fun A a s => Some (a, s).
#[global] Instance M_bind S : MBind (M S) := fun A B k m s =>
  match m s with
  | Some (a, s') => k a s'
  | None => None
  end.

Definition get {S} : M S S := fun s => Some (s, s).
Definition gets {S A} (f : S -> A) : M S A := fun s => Some (f s, s).
Definition modify {S} (f : S -> S) : M S unit := fun s => Some (tt, f s).
Definition diverge {S A} : M S A := fun _ => None.

(** [act f] performs a total transition [f]. *)
Definition act {S A} (f : S -> A * S) : M S A := fun s => Some (f s).

(** [on_fst m] runs a computation on the first component of a pair. *)
Definition on_fst {S T A} (m : M S A) : M (S * T) A := fun '(s, t) =>
  match m s with
  | Some (a, s') => Some (a, (s', t))
  | None => None
  end.
Definition on_snd {S T A} (m : M T A) : M (S * T) A := fun '(s, t) =>
  match m t with
  | Some (a, t') => Some (a, (s, t'))
  | None => None
  end.

Lemma bind_Some {S A B} (m : M S A) (k : A -> M S B) s a s' :
  m s = Some (a, s') -> (m ≫= k) s = k a s'.
Proof. intros H. unfold mbind, M_bind. by rewrite H. Qed.

Lemma bind_inv {S A B} (m : M S A) (k : A -> M S B) s r : (m ≫= k) s = Some r -> exists a s', m s = Some (a, s') /\ k a s' = Some r.
Proof. unfold mbind, M_bind. destruct (m s) as [[a s']|]; [|done]. by exists a, s'. Qed.

(** ** Arrays indexed by integers *)

Definition aget {A} (d : A) (l : list A) (i : Z) : A := default d (l !! Z.to_nat i).
Definition aset {A} (i : Z) (x : A) (l : list A) : list A := <[Z.to_nat i := x]> l.

Lemma aget_aset_eq {A} (d : A) l i x :
  (Z.to_nat i < length l)%nat -> aget d (aset i x l) i = x.
Proof. intros H. unfold aget, aset. by rewrite list_lookup_insert_eq. Qed.

Lemma aget_aset_ne {A} (d : A) l i j x :
  0 <= i -> 0 <= j -> i <> j -> aget d (aset i x l) j = aget d l j.
Proof. intros Hi Hj Hne. unfold aget, aset. rewrite list_lookup_insert_ne; [done | lia]. Qed.

Lemma length_aset {A} i (x : A) l : length (aset i x l) = length l.
Proof. apply length_insert. Qed.

(** ** Sums and counts over arrays

    [sumz f l] adds [f] over the entries of [l]; [countb f l] is the number of
    entries that satisfy [f], what the loops
    [for (i = 0; i < N; i++) if (f(a[i])) n++;] of the code compute. *)

Fixpoint sumz {A} (f : A -> Z) (l : list A) : Z :=
  match l with [] => 0 | x :: l' => f x + sumz f l' end.

Lemma sumz_insert {A} (f : A -> Z) l i x y :
  l !! i = Some x -> sumz f (<[i := y]> l) = sumz f l - f x + f y.
Proof.
  revert i. induction l as [|z l IH]; intros [|i] H; try done.
  - inv H. cbn. lia.
  - change (f z + sumz f (<[i := y]> l) = f z + sumz f l - f x + f y). rewrite (IH i H). lia.
Qed.

Lemma sumz_nonneg {A} (f : A -> Z) l : Forall (fun x => 0 <= f x) l -> 0 <= sumz f l.
Proof. induction 1; cbn; lia. Qed.

Lemma sumz_ge {A} (f : A -> Z) l i x :
  Forall (fun x => 0 <= f x) l -> l !! i = Some x -> f x <= sumz f l.
Proof.
  intros HF. revert i. induction HF as [|z l Hz HF IH]; intros [|i] H; cbn in *; try done.
  - inv H. pose proof (sumz_nonneg f l HF). lia.
  - specialize (IH i H). lia.
Qed.

Lemma sumz_replicate {A} (f : A -> Z) n x : sumz f (replicate n x) = Z.of_nat n * f x.
Proof. induction n as [|n IH]; cbn -[Z.mul Z.of_nat]; lia. Qed.

Definition countb {A} (f : A -> bool) : list A -> Z := sumz (fun x => b2z (f x)).
Arguments countb : simpl never.

Lemma countb_nonneg {A} (f : A -> bool) l : 0 <= countb f l.
Proof. apply sumz_nonneg, Forall_true. intros x. destruct (f x); cbn; lia. Qed.

Lemma countb_cons {A} (f : A -> bool) x l : countb f (x :: l) = b2z (f x) + countb f l.
Proof. done. Qed.

Lemma countb_le_length {A} (f : A -> bool) l : countb f l <= Z.of_nat (length l).
Proof. induction l as [|x l IH]; [done|]. rewrite countb_cons. destruct (f x); cbn [b2z length]; lia. Qed.

Lemma countb_app {A} (f : A -> bool) l k : countb f (l ++ k) = countb f l + countb f k.
Proof. induction l as [|x l IH]; [done|]. cbn [app]. rewrite !countb_cons. lia. Qed.

Lemma countb_insert {A} (f : A -> bool) l i x y :
  l !! i = Some x -> countb f (<[i := y]> l) = countb f l - b2z (f x) + b2z (f y).
Proof.
  apply (sumz_insert (fun x => b2z (f x))).
Qed.

Lemma countb_replicate {A} (f : A -> bool) n x :
  countb f (replicate n x) = if f x then Z.of_nat n else 0.
Proof. unfold countb. rewrite sumz_replicate. destruct (f x); cbn [b2z]; lia. Qed.

Lemma countb_pos {A} (f : A -> bool) l i x :
  l !! i = Some x -> f x = true -> 1 <= countb f l.
Proof.
  intros H Hf. pose proof (sumz_ge (fun x => b2z (f x)) l i x) as Hs. cbn in Hs. rewrite Hf in Hs.
  apply Hs; [|done]. apply Forall_true. intros y. destruct (f y); cbn; lia.
Qed.

Lemma countb_witness {A} (f : A -> bool) l :
  1 <= countb f l -> exists i x, l !! i = Some x /\ f x = true.
Proof.
  induction l as [|z l IH]; [done|]. rewrite countb_cons. destruct (f z) eqn:E; cbn; intros H.
  - by exists 0%nat, z.
  - destruct IH as (i & x & Hi & Hx); [lia|]. by exists (S i), x.
Qed.

Lemma countb_zero {A} (f : A -> bool) l i x :
  countb f l = 0 -> l !! i = Some x -> f x = false.
Proof.
  intros H0 Hl. destruct (f x) eqn:E; [|done].
  pose proof (countb_pos f l i x Hl E). lia.
Qed.

(** At most one counted entry means any two counted entries coincide. *)
Lemma countb_le_1_unique {A} (f : A -> bool) l i j x y :
  countb f l <= 1 -> l !! i = Some x -> l !! j = Some y ->
  f x = true -> f y = true -> i = j.
Proof.
  revert i j. induction l as [|z l IH]; intros [|i] [|j] Hc Hi Hj Hx Hy; try done;
    rewrite countb_cons in Hc; cbn in Hi, Hj.
  - inv Hi. rewrite Hx in Hc. cbn in Hc. pose proof (countb_pos f l j y Hj Hy). lia.
  - inv Hj. rewrite Hy in Hc. cbn in Hc. pose proof (countb_pos f l i x Hi Hx). lia.
  - f_equal. apply (IH i j); try done. destruct (f z); cbn in Hc; lia.
Qed.

(** ** Bounded loops with early exit

    [for_ lo n body s] is [for (i = lo; i < lo + n; i++) body]: the body goes on
    with a new state ([inl], also the code's [continue]) or leaves the loop
    ([inr], its [break] and [return]). The bound is binary, so loops of millions
    of possible iterations still evaluate when they leave early. *)
Section Loops.
Context {S R : Type}.

Fixpoint loop_pos (p : positive) (f : S -> S + R) (s : S) : S + R :=
  match p with
  | xH => f s
  | xO p => match loop_pos p f s with inl s' => loop_pos p f s' | inr r => inr r end
  | xI p => match f s with
            | inl s0 => match loop_pos p f s0 with inl s' => loop_pos p f s' | inr r => inr r end
            | inr r => inr r
            end
  end.

Definition loop (n : Z) (f : S -> S + R) (s : S) : S + R :=
  match n with Zpos p => loop_pos p f s | _ => inl s end.

Lemma loop_pos_inv (I : Z -> S -> Prop) (Q : R -> Prop) (f : S -> S + R) p k n s :
  I k s -> k + Zpos p <= n ->
  (forall i s, k <= i < n -> I i s -> match f s with inl s' => I (i + 1) s' | inr r => Q r end) ->
  match loop_pos p f s with inl s' => I (k + Zpos p) s' | inr r => Q r end.
Proof.
  revert k s. induction p as [p IH|p IH|]; intros k s Hk Hn Hf; cbn [loop_pos].
  - pose proof (Hf k s ltac:(lia) Hk) as H0. destruct (f s) as [s0|r]; [|done].
    pose proof (IH (k + 1) s0 H0 ltac:(lia) ltac:(intros; apply Hf; [lia|done])) as H1.
    destruct (loop_pos p f s0) as [s1|r]; [|done].
    pose proof (IH (k + 1 + Zpos p) s1 H1 ltac:(lia) ltac:(intros; apply Hf; [lia|done])) as H2.
    destruct (loop_pos p f s1); [|done]. by replace (k + Zpos p~1) with (k + 1 + Zpos p + Zpos p) by lia.
  - pose proof (IH k s Hk ltac:(lia) ltac:(intros; apply Hf; [lia|done])) as H1.
    destruct (loop_pos p f s) as [s1|r]; [|done].
    pose proof (IH (k + Zpos p) s1 H1 ltac:(lia) ltac:(intros; apply Hf; [lia|done])) as H2.
    destruct (loop_pos p f s1); [|done]. by replace (k + Zpos p~0) with (k + Zpos p + Zpos p) by lia.
  - apply Hf; [lia|done].
Qed.

(** The invariant rule of a bounded loop. *)
Lemma loop_inv (I : Z -> S -> Prop) (Q : R -> Prop) (f : S -> S + R) n s :
  0 <= n -> I 0 s ->
  (forall i s, 0 <= i < n -> I i s -> match f s with inl s' => I (i + 1) s' | inr r => Q r end) ->
  match loop n f s with inl s' => I n s' | inr r => Q r end.
Proof.
  intros Hn H0 Hf. destruct n as [|p|p]; [done| |lia].
  apply (loop_pos_inv I Q f p 0 (Zpos p)); [done|lia|done].
Qed.
End Loops.

Section For.
Context {S R : Type}.

Definition for_ (lo n : Z) (body : Z -> S -> S + R) (s : S) : S + R :=
  match loop n (fun '(i, s) => match body i s with inl s' => inl (i + 1, s') | inr r => inr r end) (lo, s) with
  | inl (_, s') => inl s'
  | inr r => inr r
  end.

Lemma for_inv (I : Z -> S -> Prop) (Q : R -> Prop) lo n body s :
  0 <= n -> I lo s ->
  (forall i s, lo <= i < lo + n -> I i s -> match body i s with inl s' => I (i + 1) s' | inr r => Q r end) ->
  match for_ lo n body s with inl s' => I (lo + n) s' | inr r => Q r end.
Proof.
  intros Hn H0 Hb. unfold for_.
  pose proof (loop_inv (fun k '(i, s) => i = lo + k /\ I i s) Q
    (fun '(i, s) => match body i s with inl s' => inl (i + 1, s') | inr r => inr r end) n (lo, s) Hn) as H.
  destruct (loop n _ (lo, s)) as [[i s']|r].
  - destruct H as [-> H]; [split; [lia|done]| |done].
    intros k [j s1] Hk [-> Hi]. specialize (Hb (lo + k) s1 ltac:(lia) Hi).
    destruct (body (lo + k) s1); [|done]. split; [lia|done].
  - apply H; [split; [lia|done]|]. intros k [j s1] Hk [-> Hi]. specialize (Hb (lo + k) s1 ltac:(lia) Hi).
    destruct (body (lo + k) s1); [|done]. split; [lia|done].
Qed.
End For.

(** A search loop stops at the first index that satisfies [f], if there is one. *)
Lemma for_search (f : Z -> bool) (body : Z -> unit -> unit + unit) lo n :
  (forall i s, body i s = if f i then inr tt else inl tt) ->
  (for_ lo n body tt = inl tt /\ (forall i, lo <= i < lo + n -> f i = false)) \/
  (for_ lo n body tt = inr tt /\ exists i, lo <= i < lo + n /\ f i = true).
Proof.
  intros Hb. destruct (decide (n <= 0)) as [Hn|Hn].
  { left. split; [|lia]. unfold for_. destruct n; [done|lia|done]. }
  pose proof (for_inv (fun i _ => forall j, lo <= j < i -> f j = false)
    (fun _ => exists i, lo <= i < lo + n /\ f i = true) lo n body tt ltac:(lia) ltac:(cbn; intros; lia)) as H.
  destruct (for_ lo n body tt) as [[]|[]].
  - left. split; [done|]. apply H. intros i s Hi Hf. rewrite Hb. destruct (f i) eqn:E; [by exists i|].
    intros j Hj. destruct (decide (j = i)) as [->|]; [done|apply Hf; lia].
  - right. split; [done|]. apply H. intros i s Hi Hf. rewrite Hb. destruct (f i) eqn:E; [by exists i|].
    intros j Hj. destruct (decide (j = i)) as [->|]; [done|apply Hf; lia].
Qed.

(** The same with the index found. *)
Lemma for_first (f : Z -> bool) (body : Z -> unit -> unit + Z) lo n :
  (forall i s, body i s = if f i then inr i else inl tt) ->
  (for_ lo n body tt = inl tt /\ (forall i, lo <= i < lo + n -> f i = false)) \/
  (exists i, for_ lo n body tt = inr i /\ lo <= i < lo + n /\ f i = true).
Proof.
  intros Hb. destruct (decide (n <= 0)) as [Hn|Hn].
  { left. split; [|lia]. unfold for_. destruct n; [done|lia|done]. }
  pose proof (for_inv (fun i _ => forall j, lo <= j < i -> f j = false)
    (fun r => lo <= r < lo + n /\ f r = true) lo n body tt ltac:(lia) ltac:(cbn; intros; lia)) as H.
  assert (Hstep : forall i s, lo <= i < lo + n -> (forall j, lo <= j < i -> f j = false) ->
    match body i s with inl _ => forall j, lo <= j < i + 1 -> f j = false | inr r => lo <= r < lo + n /\ f r = true end).
  { intros i s Hi Hf. rewrite Hb. destruct (f i) eqn:E; [done|]. intros j Hj. destruct (decide (j = i)) as [->|]; [done|apply Hf; lia]. }
  specialize (H Hstep). destruct (for_ lo n body tt) as [[]|r]; [by left|]. right. by exists r.
Qed.

(** A loop that never leaves early. *)
Definition for_all {S} (lo n : Z) (body : Z -> S -> S) (s : S) : S :=
  match for_ (R := Empty_set) lo n (fun i s => inl (body i s)) s with inl s' => s' | inr e => match e with end end.

Lemma for_all_inv {S} (I : Z -> S -> Prop) lo n body (s : S) :
  0 <= n -> I lo s -> (forall i s, lo <= i < lo + n -> I i s -> I (i + 1) (body i s)) ->
  I (lo + n) (for_all lo n body s).
Proof.
  intros Hn H0 Hb. unfold for_all.
  pose proof (for_inv (R := Empty_set) I (fun _ => True) lo n (fun i s => inl (body i s)) s Hn H0 Hb) as H.
  by destruct (for_ lo n _ s) as [s'|[]].
Qed.

(** ** Loops with effects

    [mfor n i body] is [for (k = i; k < i + n; k++) body(k)]; [mfor_rc] stops with
    the first result that is not zero. *)
Fixpoint mfor {S} (n : nat) (i : Z) (body : Z -> M S unit) : M S unit :=
  match n with
  | O => mret tt
  | Datatypes.S n => _ ← body i; mfor n (i + 1) body
  end.

Fixpoint mfor_rc {S} (n : nat) (i : Z) (body : Z -> M S Z) : M S Z :=
  match n with
  | O => mret 0
  | Datatypes.S n => rc ← body i; if rc =? 0 then mfor_rc n (i + 1) body else mret rc
  end.

Lemma mfor_run {S} (I : Z -> S -> Prop) (n : nat) i (body : Z -> M S unit) s :
  I i s -> (forall k s, i <= k < i + Z.of_nat n -> I k s -> exists s', body k s = Some (tt, s') /\ I (k + 1) s') ->
  exists s', mfor n i body s = Some (tt, s') /\ I (i + Z.of_nat n) s'.
Proof.
  revert i s. induction n as [|n IH]; intros i s Hi Hb; cbn [mfor].
  - exists s. split; [done|]. by rewrite Z.add_0_r.
  - destruct (Hb i s ltac:(lia) Hi) as (s1 & E1 & H1). destruct (IH (i + 1) s1 H1) as (s2 & E2 & H2); [intros k s0 Hk; apply Hb; lia|].
    exists s2. rewrite (bind_Some _ _ _ tt s1) by done. split; [done|]. by replace (i + Z.of_nat (Datatypes.S n)) with (i + 1 + Z.of_nat n) by lia.
Qed.

Lemma mfor_rc_run {S} (I : Z -> S -> Prop) (Q : Z -> S -> Prop) (n : nat) i (body : Z -> M S Z) s :
  I i s ->
  (forall k s, i <= k < i + Z.of_nat n -> I k s -> exists rc s', body k s = Some (rc, s') /\ (rc = 0 /\ I (k + 1) s' \/ rc <> 0 /\ Q rc s')) ->
  exists rc s', mfor_rc n i body s = Some (rc, s') /\ (rc = 0 /\ I (i + Z.of_nat n) s' \/ rc <> 0 /\ Q rc s').
Proof.
  revert i s. induction n as [|n IH]; intros i s Hi Hb; cbn [mfor_rc].
  - exists 0, s. split; [done|]. left. by rewrite Z.add_0_r.
  - destruct (Hb i s ltac:(lia) Hi) as (rc & s1 & E1 & H1). rewrite (bind_Some _ _ _ rc s1) by done. destruct H1 as [[-> H1]|[Hne HQ]].
    + destruct (IH (i + 1) s1 H1) as (rc & s2 & E2 & H2); [intros k s0 Hk; apply Hb; lia|].
      exists rc, s2. split; [done|]. by replace (i + Z.of_nat (Datatypes.S n)) with (i + 1 + Z.of_nat n) by lia.
    + rewrite (proj2 (Z.eqb_neq rc 0) Hne). exists rc, s1. split; [done|]. by right.
Qed.

(** ** Counting over an interval of indices *)

Lemma countb_ext {A} (f g : A -> bool) l : (forall x, x ∈ l -> f x = g x) -> countb f l = countb g l.
Proof.
  induction l as [|x l IH]; intros H; [done|]. rewrite !countb_cons, (H x), IH; [done| |by left].
  intros y Hy. apply H. by right.
Qed.

Lemma countb_change (f g : Z -> bool) n p :
  0 <= p < n -> (forall q, 0 <= q < n -> q <> p -> f q = g q) ->
  countb g (seqZ 0 n) = countb f (seqZ 0 n) - b2z (f p) + b2z (g p).
Proof.
  intros Hp H. replace n with (p + (1 + (n - p - 1))) by lia.
  rewrite !seqZ_app by lia. rewrite !Z.add_0_l. rewrite !countb_app.
  change (seqZ p 1) with [Z.of_nat 0 + p]. rewrite !countb_cons. change (Z.of_nat 0 + p) with p.
  rewrite (countb_ext g f (seqZ 0 p)), (countb_ext g f (seqZ (p + 1) _)).
  - change (countb f []) with 0. change (countb g []) with 0. lia.
  - intros x Hx. apply elem_of_seqZ in Hx. symmetry. apply H; lia.
  - intros x Hx. apply elem_of_seqZ in Hx. symmetry. apply H; lia.
Qed.

Lemma countb_seqZ_le (f : Z -> bool) n : 0 <= n -> 0 <= countb f (seqZ 0 n) <= n.
Proof. intros Hn. pose proof (countb_nonneg f (seqZ 0 n)). pose proof (countb_le_length f (seqZ 0 n)). rewrite length_seqZ in *. lia. Qed.

Lemma countb_seqZ_pos (f : Z -> bool) n p : 0 <= p < n -> f p = true -> 1 <= countb f (seqZ 0 n).
Proof.
  intros Hp Hf. apply (countb_pos f _ (Z.to_nat p) p); [|done].
  rewrite lookup_seqZ_lt by lia. f_equal. lia.
Qed.
