(* ===== verification/Lock.v ===== *)
(** * Spinlocks and interrupt masking ([kernel/sync/lock.h], [kernel/sync/lock.c])

    The CPU-local interrupt flag, the test-and-set spinlock, and the
    [irqsave]/[irqrestore] bracket every guarded object of the kernel uses.
    [SpinSteps] is the same lock as a step relation over any number of CPUs. *)
From stdpp Require Import base tactics list numbers relations.
From S2P Require Import Prelude.

(** ** The CPU a computation runs on

    [rflags] is the flags register, [cpu_pid] what [process_current()] returns
    for the task running there, [cpu_index] the CPU's number. *)
Record cpu := { rflags : Z; cpu_pid : Z; cpu_index : Z }.

Definition set_rflags (f : Z) (c : cpu) : cpu :=
  {| rflags := f; cpu_pid := cpu_pid c; cpu_index := cpu_index c |}.

Definition IF_BIT : Z := 9.

Definition read_rflags : M cpu Z := gets rflags.
Definition cli : M cpu unit := modify (fun c => set_rflags (Z.clearbit (rflags c) IF_BIT) c).
Definition sti : M cpu unit := modify (fun c => set_rflags (Z.setbit (rflags c) IF_BIT) c).

Definition rix_irq_save : M cpu Z := f ← read_rflags; _ ← cli; mret f.
Definition rix_irq_restore (flags : Z) : M cpu unit :=
  if truthy (Z.land flags (Z.shiftl 1 9)) then sti else cli.

(** ** The spinlock word *)

Record rix_spinlock_t := { value : Z }.

Definition spin_free : rix_spinlock_t := {| value := 0 |}.
Definition spin_held : rix_spinlock_t := {| value := 1 |}.

(** [__atomic_exchange_n(&lock->value, 1u, __ATOMIC_ACQUIRE)]. *)
Definition exchange_1 (l : rix_spinlock_t) : Z * rix_spinlock_t := (value l, spin_held).

(** Operations take a nullable pointer: [None] is [NULL]. *)
Definition rix_spin_init (lock : option rix_spinlock_t) : option rix_spinlock_t :=
  match lock with Some _ => Some spin_free | None => None end.

(** Executed alone, a failed exchange is followed by a wait on a word nobody
    else writes: the call does not return. *)
Definition rix_spin_lock : M (option rix_spinlock_t) unit := fun lock =>
  match lock with
  | None => Some (tt, None)
  | Some l => let '(old, l') := exchange_1 l in
              if truthy old then None else Some (tt, Some l')
  end.

Definition rix_spin_trylock : M (option rix_spinlock_t) bool := fun lock =>
  match lock with
  | None => Some (false, None)
  | Some l => let '(old, l') := exchange_1 l in Some (old =? 0, Some l')
  end.

Definition rix_spin_unlock : M (option rix_spinlock_t) unit := fun lock =>
  match lock with
  | None => Some (tt, None)
  | Some _ => Some (tt, Some spin_free)
  end.

(** ** Guarded objects

    A kernel object that embeds the spinlock guarding it. *)
Class HasGuard (O : Type) := {
  guard : O -> rix_spinlock_t;
  with_guard : rix_spinlock_t -> O -> O;
  guard_with : forall l o, guard (with_guard l o) = l;
  with_guard_id : forall o, with_guard (guard o) o = o;
  with_guard_twice : forall l l' o, with_guard l (with_guard l' o) = with_guard l o;
}.

Section Guarded.
Context {O : Type} {G : HasGuard O}.

Definition on_guard {A} (m : M (option rix_spinlock_t) A) : M (cpu * O) A := fun '(c, o) =>
  match m (Some (guard o)) with
  | Some (a, Some l) => Some (a, (c, with_guard l o))
  | _ => None
  end.

Definition rix_spin_lock_irqsave : M (cpu * O) Z :=
  f ← on_fst rix_irq_save; _ ← on_guard rix_spin_lock; mret f.

Definition rix_spin_unlock_irqrestore (flags : Z) : M (cpu * O) unit :=
  _ ← on_guard rix_spin_unlock; on_fst (rix_irq_restore flags).

(** The bracket [lock_irqsave; body; unlock_irqrestore] of the code. *)
Definition locked_section {R} (body : M (cpu * O) R) : M (cpu * O) R :=
  irq ← rix_spin_lock_irqsave;
  rc ← body;
  _ ← rix_spin_unlock_irqrestore irq;
  mret rc.

(** A body that only reads the CPU and updates the object. *)
Definition locked {R} (body : cpu -> O -> R * O) : M (cpu * O) R :=
  locked_section (fun '(c, o) => let '(r, o') := body c o in Some (r, (c, o'))).

(** A null check in front of an operation on [O]: [NULL] returns [d]. *)
Definition null_check {R} (d : R) (m : M (cpu * O) R) : M (cpu * option O) R := fun '(c, p) =>
  match p with
  | None => Some (d, (c, None))
  | Some o => match m (c, o) with
              | Some (r, (c', o')) => Some (r, (c', Some o'))
              | None => None
              end
  end.

Lemma irq_save_run c :
  rix_irq_save c = Some (rflags c, set_rflags (Z.clearbit (rflags c) IF_BIT) c).
Proof. reflexivity. Qed.

Lemma irq_restore_after_cli c :
  rix_irq_restore (rflags c) (set_rflags (Z.clearbit (rflags c) IF_BIT) c) = Some (tt, c).
Proof.
  unfold rix_irq_restore. change (Z.shiftl 1 9) with (bit 9). rewrite land_bit_test by done.
  destruct c as [f p i]; unfold IF_BIT; cbn [rflags].
  destruct (Z.testbit f 9) eqn:E; unfold sti, cli, modify, set_rflags, IF_BIT;
    cbn [rflags cpu_pid cpu_index]; do 3 f_equal;
    apply Z.bits_inj'; intros n Hn; destruct (decide (n = 9)) as [->|Hne].
  - rewrite E. by apply Z.setbit_eq.
  - by rewrite Z.setbit_neq, Z.clearbit_neq by lia.
  - rewrite E. apply Z.clearbit_eq.
  - by rewrite !Z.clearbit_neq by lia.
Qed.

(** Entering a free section masks interrupts and takes the word; leaving it
    gives both back. The body runs with the guard held. *)
Lemma locked_section_run {R} (body : M (cpu * O) R) c o r o' :
  guard o = spin_free ->
  body (set_rflags (Z.clearbit (rflags c) IF_BIT) c, with_guard spin_held o)
    = Some (r, (set_rflags (Z.clearbit (rflags c) IF_BIT) c, o')) ->
  locked_section body (c, o) = Some (r, (c, with_guard spin_free o')).
Proof.
  intros Hg Hb. unfold locked_section, rix_spin_lock_irqsave, rix_spin_unlock_irqrestore.
  unfold mbind, M_bind, mret, M_ret, on_fst, on_guard.
  rewrite irq_save_run, Hg. cbn -[Z.clearbit rix_irq_restore guard with_guard]. rewrite Hb.
  cbn -[Z.clearbit rix_irq_restore guard with_guard]. by rewrite irq_restore_after_cli.
Qed.

Lemma locked_run {R} (body : cpu -> O -> R * O) c o :
  guard o = spin_free ->
  locked body (c, o) =
    let '(r, o') := body (set_rflags (Z.clearbit (rflags c) IF_BIT) c) (with_guard spin_held o) in
    Some (r, (c, with_guard spin_free o')).
Proof.
  intros Hg. destruct (body _ _) as [r o'] eqn:E. unfold locked.
  apply locked_section_run; [done|]. by rewrite E.
Qed.

(** A body that neither looks at the guard nor at the flags register runs as
    if there were no bracket at all. *)
Lemma null_check_locked_run {R} (d : R) (body : cpu -> O -> R * O) c o :
  guard o = spin_free ->
  body (set_rflags (Z.clearbit (rflags c) IF_BIT) c) (with_guard spin_held o)
    = (fst (body c o), with_guard spin_held (snd (body c o))) ->
  guard (snd (body c o)) = spin_free ->
  null_check d (locked body) (c, Some o) = Some (fst (body c o), (c, Some (snd (body c o)))).
Proof.
  intros Hg Hb Hg'. unfold null_check. rewrite locked_run by done. rewrite Hb.
  rewrite with_guard_twice. do 4 f_equal. rewrite <- Hg'. apply with_guard_id.
Qed.

(** A held guard blocks: executed alone, the section never returns. *)
Lemma locked_section_blocked {R} (body : M (cpu * O) R) c o :
  value (guard o) <> 0 -> locked_section body (c, o) = None.
Proof.
  intros Hv. unfold locked_section, rix_spin_lock_irqsave, mbind, M_bind, on_fst.
  rewrite irq_save_run.
  cbn -[Z.clearbit guard with_guard]. unfold truthy. destruct (value (guard o) =? 0) eqn:E; [|done].
  bool_to_prop. lia.
Qed.
End Guarded.

(** ** The lock contended by many CPUs *)
Module SpinSteps.

(** Where a CPU is in [rix_spin_lock]: outside, about to exchange, in the
    inner wait loop, or past the lock. *)
Inductive pc := Outside | AtExchange | Waiting | InSection.

#[global] Instance pc_eq_dec : EqDecision pc.
Proof. solve_decision. Defined.

Record state := { lockword : rix_spinlock_t; pcs : list pc }.

Definition in_section (p : pc) : bool := match p with InSection => true | _ => false end.

Inductive step : state -> state -> Prop :=
| step_call l ps i :
    ps !! i = Some Outside ->
    step {| lockword := l; pcs := ps |} {| lockword := l; pcs := <[i := AtExchange]> ps |}
| step_exchange_won l l' ps i old :
    ps !! i = Some AtExchange -> exchange_1 l = (old, l') -> truthy old = false ->
    step {| lockword := l; pcs := ps |} {| lockword := l'; pcs := <[i := InSection]> ps |}
| step_exchange_lost l l' ps i old :
    ps !! i = Some AtExchange -> exchange_1 l = (old, l') -> truthy old = true ->
    step {| lockword := l; pcs := ps |} {| lockword := l'; pcs := <[i := Waiting]> ps |}
| step_wait_again l ps i :
    ps !! i = Some Waiting -> truthy (value l) = true ->
    step {| lockword := l; pcs := ps |} {| lockword := l; pcs := ps |}
| step_wait_done l ps i :
    ps !! i = Some Waiting -> truthy (value l) = false ->
    step {| lockword := l; pcs := ps |} {| lockword := l; pcs := <[i := AtExchange]> ps |}
| step_try l l' ps i won :
    ps !! i = Some Outside -> rix_spin_trylock (Some l) = Some (won, Some l') ->
    step {| lockword := l; pcs := ps |}
         {| lockword := l'; pcs := <[i := if won then InSection else Outside]> ps |}
| step_unlock l l' ps i :
    ps !! i = Some InSection -> rix_spin_unlock (Some l) = Some (tt, Some l') ->
    step {| lockword := l; pcs := ps |} {| lockword := l'; pcs := <[i := Outside]> ps |}.

Definition initial (n : nat) : state := {| lockword := spin_free; pcs := replicate n Outside |}.

(** The lock word counts the CPUs inside: it is 0 or 1 and equals their number. *)
Definition inv (s : state) : Prop :=
  0 <= value (lockword s) <= 1 /\ countb in_section (pcs s) = value (lockword s).

Lemma spin_inv_initial n : inv (initial n).
Proof. split; cbn; [lia|]. by rewrite countb_replicate. Qed.

Lemma spin_inv_step s s' : inv s -> step s s' -> inv s'.
Proof.
  intros [Hv Hc] Hs. unfold inv. inv Hs; unfold exchange_1, truthy in *; cbn in *; simplify_eq;
    try (erewrite countb_insert by eassumption); bool_to_prop; cbn; try lia.
  - destruct (value l =? 0) eqn:E; bool_to_prop; cbn; lia.
  - match goal with H : _ !! _ = Some InSection |- _ =>
      pose proof (countb_pos in_section _ _ _ H eq_refl) end. lia.
Qed.

Lemma spin_inv_reachable n s : rtc step (initial n) s -> inv s.
Proof.
  intros H. assert (Hi := spin_inv_initial n). induction H; [done|]. eauto using spin_inv_step.
Qed.

(** C16: mutual exclusion and no lost lock. In every state that any number of
    CPUs can reach by interleaving [rix_spin_lock], [rix_spin_trylock] and
    [rix_spin_unlock] (unlock called from inside the section only), at most one
    CPU is inside the section, and when nobody is inside the word is free, so
    the next exchange wins. *)
Theorem spin_mutual_exclusion n s (Hr : rtc step (initial n) s) :
  (∀ i j : nat, pcs s !! i = Some InSection → pcs s !! j = Some InSection → i = j) ∧
  ((∀ i : nat, pcs s !! i ≠ Some InSection) →
     rix_spin_lock (Some (lockword s)) = Some (tt, Some spin_held)).
Proof.
  destruct (spin_inv_reachable n s Hr) as [Hv Hc]. split.
  - intros i j Hi Hj. eapply (countb_le_1_unique in_section); eauto. lia.
  - intros Hn. unfold rix_spin_lock, exchange_1, truthy.
    destruct (value (lockword s) =? 0) eqn:E; [done|]. bool_to_prop. exfalso.
    destruct (countb_witness in_section (pcs s)) as (i & x & Hi & Hx); [lia|].
    destruct x; try done. by apply (Hn i).
Qed.

(** Two CPUs call, the first wins the exchange, the second waits. *)
Lemma spin_mutual_exclusion_witness :
  ∃ s, rtc step (initial 2) s ∧ pcs s = [InSection; Waiting] ∧
    (∀ i j : nat, pcs s !! i = Some InSection → pcs s !! j = Some InSection → i = j).
Proof.
  set (s := {| lockword := spin_held; pcs := [InSection; Waiting] |}).
  assert (Hr : rtc step (initial 2) s).
  { eapply rtc_l; [apply (step_call spin_free [Outside; Outside] 0); reflexivity|].
    eapply rtc_l; [apply (step_call spin_free [AtExchange; Outside] 1); reflexivity|].
    eapply rtc_l; [apply (step_exchange_won spin_free spin_held [AtExchange; AtExchange] 0 0); reflexivity|].
    eapply rtc_l; [apply (step_exchange_lost spin_held spin_held [InSection; AtExchange] 1 1); reflexivity|].
    apply rtc_refl. }
  exists s. split; [exact Hr|]. split; [reflexivity|]. exact (proj1 (spin_mutual_exclusion 2 s Hr)).
Defined.
End SpinSteps.
