(* ===== verification/Refcount.v ===== *)
(** * Intrusive reference counts ([kernel/sync/refcount.h])

    The three operations run alone, and the same operations as the sequence of
    atomic accesses they compile to, interleaved over any number of threads. *)
From stdpp Require Import base tactics list numbers relations.
From S2P Require Import Prelude.

Record rix_refcount_t := { refs : Z }.

(** The atomic accesses of the header. *)
Definition ref_load (r : rix_refcount_t) : Z := refs r.
Definition ref_store (v : Z) (r : rix_refcount_t) : rix_refcount_t := {| refs := v |}.
Definition ref_compare_exchange (expected desired : Z) (r : rix_refcount_t) : bool * rix_refcount_t :=
  if refs r =? expected then (true, {| refs := desired |}) else (false, r).
Definition ref_fetch_sub (d : Z) (r : rix_refcount_t) : Z * rix_refcount_t :=
  (refs r, {| refs := u64 (refs r - d) |}).

Definition rix_ref_init (r : option rix_refcount_t) : option rix_refcount_t :=
  match r with Some r => Some (ref_store 1 r) | None => None end.

(** Alone on the object the compare-and-exchange sees the value just loaded, so
    the retry loop runs once: one unit of [fuel] is enough (see
    [rix_ref_acquire_alone]); [None] is a loop cut short. *)
Fixpoint ref_acquire_loop (fuel : nat) (r : rix_refcount_t) : option (Z * rix_refcount_t) :=
  match fuel with
  | O => None
  | S fuel =>
      let n := ref_load r in
      if n =? 0 then Some (-1, r)
      else let '(ok, r') := ref_compare_exchange n (u64 (n + 1)) r in
           if ok then Some (0, r') else ref_acquire_loop fuel r'
  end.

Definition rix_ref_acquire (r : option rix_refcount_t) : option (Z * option rix_refcount_t) :=
  match r with
  | None => Some (-1, None)
  | Some r => match ref_acquire_loop 1 r with
              | Some (rc, r') => Some (rc, Some r')
              | None => None
              end
  end.

Definition rix_ref_release (r : option rix_refcount_t) : Z * option rix_refcount_t :=
  match r with
  | None => (-1, None)
  | Some r =>
      let '(before, r') := ref_fetch_sub 1 r in
      if before =? 0 then (-1, Some (ref_store 0 r'))
      else ((if before =? 1 then 1 else 0), Some r')
  end.

Lemma rix_ref_acquire_alone r :
  rix_ref_acquire (Some r) =
    Some (if refs r =? 0 then (-1, Some r) else (0, Some {| refs := u64 (refs r + 1) |})).
Proof.
  unfold rix_ref_acquire, ref_acquire_loop, ref_load, ref_compare_exchange.
  destruct (refs r =? 0); [done|]. by rewrite Z.eqb_refl.
Qed.

(** ** Interleaved semantics *)
Module RefSteps.

(** A thread outside the operations, before the load of the acquire loop,
    between that load and its compare-and-exchange, or between the decrement
    of a release that found zero and the store that repairs it. *)
Inductive pc := Idle | AcqLoad | AcqCas (n : Z) | RelFix.

(** [held] counts the references a thread obtained and did not release;
    [torn] counts the releases that returned 1. *)
Record thread := { tpc : pc; held : Z }.
Record state := { obj : rix_refcount_t; threads : list thread; torn : Z }.

(** [disc] selects disciplined clients: a thread releases only a reference it
    holds, and fewer than [2^64 - 1] references exist. *)
Inductive step (disc : bool) : state -> state -> Prop :=
| acq_call r ts k i h :
    ts !! i = Some {| tpc := Idle; held := h |} ->
    step disc {| obj := r; threads := ts; torn := k |}
         {| obj := r; threads := <[i := {| tpc := AcqLoad; held := h |}]> ts; torn := k |}
| acq_load r ts k i h :
    ts !! i = Some {| tpc := AcqLoad; held := h |} ->
    step disc {| obj := r; threads := ts; torn := k |}
         {| obj := r; torn := k;
            threads := <[i := {| tpc := if ref_load r =? 0 then Idle else AcqCas (ref_load r);
                                 held := h |}]> ts |}
| acq_cas r r' ok ts k i h n :
    ts !! i = Some {| tpc := AcqCas n; held := h |} ->
    (disc = true -> n < UINT64_MAX) ->
    ref_compare_exchange n (u64 (n + 1)) r = (ok, r') ->
    step disc {| obj := r; threads := ts; torn := k |}
         {| obj := r'; torn := k;
            threads := <[i := if ok then {| tpc := Idle; held := h + 1 |}
                              else {| tpc := AcqLoad; held := h |}]> ts |}
| rel_sub r r' before ts k i h :
    ts !! i = Some {| tpc := Idle; held := h |} ->
    (disc = true -> 0 < h) ->
    ref_fetch_sub 1 r = (before, r') ->
    step disc {| obj := r; threads := ts; torn := k |}
         {| obj := r'; torn := if before =? 1 then k + 1 else k;
            threads := <[i := if before =? 0 then {| tpc := RelFix; held := h |}
                              else {| tpc := Idle; held := h - 1 |}]> ts |}
| rel_fix r ts k i h :
    ts !! i = Some {| tpc := RelFix; held := h |} ->
    step disc {| obj := r; threads := ts; torn := k |}
         {| obj := ref_store 0 r; torn := k;
            threads := <[i := {| tpc := Idle; held := h |}]> ts |}.

(** The creator holds the initial reference; [n] other threads hold none. *)
Definition initial (n : nat) : state :=
  {| obj := {| refs := 1 |}; torn := 0;
     threads := {| tpc := Idle; held := 1 |} :: replicate n {| tpc := Idle; held := 0 |} |}.

Definition total (ts : list thread) : Z := sumz held ts.
#[local] Arguments total _ : simpl never.

Lemma total_insert ts i t t' :
  ts !! i = Some t -> total (<[i := t']> ts) = total ts - held t + held t'.
Proof. apply sumz_insert. Qed.

Lemma total_ge_held ts i t :
  Forall (fun t => 0 <= held t) ts -> ts !! i = Some t -> held t <= total ts.
Proof. apply sumz_ge. Qed.

(** The count is the number of references held; a thread that waits to
    compare loaded a live value; teardown happened exactly when none is left. *)
Definition thread_ok (t : thread) : Prop :=
  0 <= held t /\ match tpc t with RelFix => False | AcqCas n => 0 < n | _ => True end.

Definition inv (s : state) : Prop :=
  refs (obj s) = total (threads s) /\ 0 <= refs (obj s) < 2 ^ 64 /\
  Forall thread_ok (threads s) /\ torn s = (if refs (obj s) =? 0 then 1 else 0).

Lemma thread_ok_held ts : Forall thread_ok ts -> Forall (fun t => 0 <= held t) ts.
Proof. intros H. eapply Forall_impl; [exact H|]. by intros t [? _]. Qed.

Lemma ref_inv_initial n : inv (initial n).
Proof.
  unfold inv, initial; cbn. repeat split; try lia.
  - unfold total. cbn. rewrite sumz_replicate. cbn. lia.
  - constructor; [by split; cbn|]. apply Forall_replicate. by split; cbn.
Qed.

Lemma ref_inv_step s s' : inv s -> step true s s' -> inv s'.
Proof.
  intros (Hr & Hb & Hf & Ht) Hs. unfold inv.
  inv Hs; cbn in *; pose proof (Forall_lookup_1 _ _ _ _ Hf H) as [Hh Hpc]; cbn in *.
  - rewrite (total_insert _ _ _ _ H). cbn. repeat split; try lia.
    apply Forall_insert; [done|by split].
  - rewrite (total_insert _ _ _ _ H). cbn. repeat split; try lia.
    apply Forall_insert; [done|]. unfold ref_load. split; cbn; [done|]. case_if; [done|lia].
  - unfold ref_compare_exchange in *. specialize (H0 eq_refl). unfold UINT64_MAX in H0.
    destruct (refs r =? n) eqn:E; bool_to_prop; simplify_eq; cbn.
    + rewrite (total_insert _ _ _ _ H). cbn. rewrite u64_id by (unfold is_u64; lia).
      repeat split; try lia.
      * apply Forall_insert; [done|]. split; cbn; [lia|done].
      * destruct (refs r =? 0) eqn:E0, (refs r + 1 =? 0) eqn:E1; bool_to_prop; lia.
    + rewrite (total_insert _ _ _ _ H). cbn. repeat split; try lia.
      apply Forall_insert; [done|by split].
  - unfold ref_fetch_sub in *. specialize (H0 eq_refl). simplify_eq. cbn.
    pose proof (total_ge_held _ _ _ (thread_ok_held _ Hf) H) as Hle. cbn in Hle.
    rewrite u64_id by (unfold is_u64; lia).
    destruct (refs r =? 0) eqn:E0; bool_to_prop; [lia|].
    rewrite (total_insert _ _ _ _ H). cbn. repeat split; try lia.
    + apply Forall_insert; [done|]. split; cbn; [lia|done].
    + destruct (refs r =? 1) eqn:E1, (refs r - 1 =? 0) eqn:E2; bool_to_prop; lia.
  - done.
Qed.

Lemma ref_inv_reachable n s : rtc (step true) (initial n) s -> inv s.
Proof. intros H. assert (Hi := ref_inv_initial n). induction H; eauto using ref_inv_step. Qed.

(** C32: teardown happens exactly once. However the atomic accesses of
    disciplined threads interleave, the count is the number of references
    held, a release never finds zero, exactly one release has returned 1 when
    (and only when) the last reference is gone, and from then on every acquire
    fails: no thread takes a reference on the dead object. *)
Theorem refcount_teardown_once n s (Hr : rtc (step true) (initial n) s) :
  refs (obj s) = total (threads s) ∧
  torn s = (if total (threads s) =? 0 then 1 else 0) ∧
  (∀ (i : nat) t, threads s !! i = Some t → tpc t ≠ RelFix) ∧
  (total (threads s) = 0 → ∀ s', step true s s' →
     total (threads s') = 0 ∧ torn s' = 1 ∧
     rix_ref_acquire (Some (obj s')) = Some (-1, Some (obj s'))).
Proof.
  pose proof (ref_inv_reachable n s Hr) as Hinv. pose proof Hinv as (Hr' & Hb & Hf & Ht).
  split; [done|]. split; [by rewrite <- Hr'|]. split.
  - intros i t Hi E. destruct (Forall_lookup_1 _ _ _ _ Hf Hi) as [_ Hp]. by rewrite E in Hp.
  - intros H0 s' Hs. pose proof (ref_inv_step _ _ Hinv Hs) as (Hr2 & _ & _ & Ht2).
    assert (total (threads s') = 0) as H0'; [|rewrite Ht2, Hr2, H0', rix_ref_acquire_alone, Hr2, H0'; auto].
    inv Hs; cbn in *; rewrite (total_insert _ _ _ _ H); cbn; try lia.
    + unfold ref_compare_exchange in *. rewrite Hr', H0 in *.
      pose proof (Forall_lookup_1 _ _ _ _ Hf H) as [_ Hn]. cbn in Hn.
      match goal with Hx : (if ?b then _ else _) = (_, _) |- _ => destruct b eqn:? end;
        bool_to_prop; simplify_eq; cbn; lia.
    + pose proof (total_ge_held _ _ _ (thread_ok_held _ Hf) H) as Hle. cbn in Hle.
      specialize (H1 eq_refl). lia.
Qed.

Lemma refcount_teardown_once_witness :
  total (threads {| obj := {| refs := 0 |}; torn := 1; threads := [{| tpc := Idle; held := 0 |}] |}) = 0 ∧
  torn {| obj := {| refs := 0 |}; torn := 1; threads := [{| tpc := Idle; held := 0 |}] |} = 1.
Proof.
  destruct (refcount_teardown_once 0
    {| obj := {| refs := 0 |}; torn := 1; threads := [{| tpc := Idle; held := 0 |}] |})
    as (H1 & H2 & _ & _).
  - apply rtc_once. exact (rel_sub true {| refs := 1 |} {| refs := 0 |} 1
      [{| tpc := Idle; held := 1 |}] 0 0 1 eq_refl (fun _ => ltac:(lia)) eq_refl).
  - split; [exact (eq_sym H1)|exact H2].
Defined.

(** The repair of an underflow is not atomic. The header says that acquire
    on a zero count fails and that underflow is reported, never wrapped; but
    with one release too many the decrement wraps the word to [2^64 - 1] before
    the store of 0, and an acquire that runs in between succeeds on the dead
    object (and leaves a count of 0 behind it). *)
Theorem refcount_underflow_window :
  ∃ s, rtc (step false) (initial 1) s ∧ torn s = 1 ∧ refs (obj s) = 0 ∧
       threads s !! 0%nat = Some {| tpc := RelFix; held := 0 |} ∧
       threads s !! 1%nat = Some {| tpc := Idle; held := 1 |}.
Proof.
  eexists. split; [|split; [|split; [|split]]].
  - eapply rtc_l; [eapply (rel_sub false _ _ 1 _ _ 0%nat 1); done|]. cbn.
    eapply rtc_l; [eapply (rel_sub false _ _ 0 _ _ 0%nat 0); done|]. cbn.
    eapply rtc_l; [eapply (acq_call false _ _ _ 1%nat 0); done|]. cbn.
    eapply rtc_l; [eapply (acq_load false _ _ _ 1%nat 0); done|]. cbn.
    eapply rtc_l; [eapply (acq_cas false _ _ true _ _ 1%nat 0 (2 ^ 64 - 1)); done|]. cbn.
    apply rtc_refl.
  - done.
  - done.
  - done.
  - done.
Qed.
End RefSteps.
