(* ===== verification/Mutex.v ===== *)
(** * Cooperative mutex ([kernel/sync/mutex.h], [kernel/sync/mutex.c])

    The mutex object, its operations inside the [irqsave] spinlock bracket, an
    abstract lock specification and the refinement between the two. *)
From stdpp Require Import base tactics list numbers.
From S2P Require Import Prelude Lock.

Record rix_mutex_t := { mguard : rix_spinlock_t; owner : Z; is_locked : Z }.

#[global] Program Instance mutex_guard : HasGuard rix_mutex_t := {|
  guard := mguard;
  with_guard l m := {| mguard := l; owner := owner m; is_locked := is_locked m |};
|}.
Next Obligation. done. Qed.
Next Obligation. by intros []. Qed.
Next Obligation. done. Qed.

Definition rix_mutex_init (m : option rix_mutex_t) : option rix_mutex_t :=
  match m with
  | None => None
  | Some m => match rix_spin_init (Some (mguard m)) with
              | Some g => Some {| mguard := g; owner := 0; is_locked := 0 |}
              | None => None
              end
  end.

(** [(uint64_t)self_pid()]. *)
Definition self_pid (c : cpu) : Z := u64 (cpu_pid c).

(** The body of [rix_mutex_trylock] between lock and unlock of the guard. *)
Definition mutex_trylock_body (c : cpu) (m : rix_mutex_t) : Z * rix_mutex_t :=
  if is_locked m =? 0 then (0, {| mguard := mguard m; owner := self_pid c; is_locked := 1 |})
  else if owner m =? self_pid c then (-2, m)
  else (1, m).

Definition mutex_unlock_body (c : cpu) (m : rix_mutex_t) : Z * rix_mutex_t :=
  if (is_locked m =? 0) || negb (owner m =? self_pid c) then (-3, m)
  else (0, {| mguard := mguard m; owner := 0; is_locked := 0 |}).

Definition rix_mutex_trylock : M (cpu * option rix_mutex_t) Z :=
  null_check (-1) (locked mutex_trylock_body).

Definition rix_mutex_unlock : M (cpu * option rix_mutex_t) Z :=
  null_check (-1) (locked mutex_unlock_body).

(** [scheduler_yield()] hands the CPU to other tasks. What they do to this
    mutex until the caller runs again is one entry of the schedule; a schedule
    that ends while the caller still waits leaves it waiting ([None]). *)
Definition schedule := list (rix_mutex_t -> rix_mutex_t).

Definition yield_to (y : rix_mutex_t -> rix_mutex_t) : M (cpu * option rix_mutex_t) unit :=
  modify (fun '(c, m) => (c, y <$> m)).

Fixpoint mutex_lock_loop (sched : schedule) : M (cpu * option rix_mutex_t) Z :=
  rc ← rix_mutex_trylock;
  if (rc =? 0) || (rc <? 0) then mret rc
  else match sched with
       | [] => diverge
       | y :: sched => _ ← yield_to y; mutex_lock_loop sched
       end.

Definition rix_mutex_lock (sched : schedule) : M (cpu * option rix_mutex_t) Z := fun '(c, m) =>
  match m with
  | None => Some (-1, (c, None))
  | Some _ => mutex_lock_loop sched (c, m)
  end.

(** Returns the code and the value stored through [flags]. *)
Definition rix_mutex_lock_irqsave (sched : schedule) : M (cpu * option rix_mutex_t) (Z * option Z) := fun '(c, m) =>
  match m with
  | None => Some ((-1, None), (c, None))
  | Some _ =>
      (saved ← on_fst rix_irq_save;
       rc ← mutex_lock_loop sched;
       if negb (rc =? 0) then (_ ← on_fst (rix_irq_restore saved); mret (rc, Some saved))
       else mret (rc, Some saved)) (c, m)
  end.

Definition rix_mutex_unlock_irqrestore (flags : Z) : M (cpu * option rix_mutex_t) Z :=
  rc ← rix_mutex_unlock; _ ← on_fst (rix_irq_restore flags); mret rc.

Definition rix_mutex_owner (m : option rix_mutex_t) (want_out : bool) : Z * option Z :=
  match m with
  | Some m => if want_out then (0, Some (if truthy (is_locked m) then owner m else 0)) else (-1, None)
  | None => (-1, None)
  end.

(** ** Abstract lock *)
Module MutexSpec.
(** A lock is free or owned by a task. *)
Definition lock := option Z.

Definition trylock (self : Z) (l : lock) : Z * lock :=
  match l with
  | None => (0, Some self)
  | Some p => if p =? self then (-2, l) else (1, l)
  end.

Definition unlock (self : Z) (l : lock) : Z * lock :=
  match l with
  | None => (-3, None)
  | Some p => if p =? self then (0, None) else (-3, l)
  end.
End MutexSpec.

Definition mutex_abs (m : rix_mutex_t) : MutexSpec.lock :=
  if truthy (is_locked m) then Some (owner m) else None.

(** A mutex between operations: guard free, flag a C boolean. *)
Definition mutex_wf (m : rix_mutex_t) : Prop :=
  mguard m = spin_free /\ (is_locked m = 0 /\ owner m = 0 \/ is_locked m = 1).

(** ** Histories of operations by several tasks *)

Inductive mutex_op := OpTry (pid : Z) | OpUnlock (pid : Z).

(** One operation, executed on a CPU that runs the task; [holders] is the list
    of tasks whose last successful operation was a lock. *)
Definition mutex_exec (fl : Z) (op : mutex_op) (m : rix_mutex_t) (holders : list Z)
  : option (rix_mutex_t * list Z) :=
  match op with
  | OpTry p =>
      match rix_mutex_trylock ({| rflags := fl; cpu_pid := p; cpu_index := 0 |}, Some m) with
      | Some (rc, (_, Some m')) => Some (m', if rc =? 0 then u64 p :: holders else holders)
      | _ => None
      end
  | OpUnlock p =>
      match rix_mutex_unlock ({| rflags := fl; cpu_pid := p; cpu_index := 0 |}, Some m) with
      | Some (rc, (_, Some m')) =>
          Some (m', if rc =? 0 then filter (fun q => q <> u64 p) holders else holders)
      | _ => None
      end
  end.

Fixpoint mutex_history (fl : Z) (ops : list mutex_op) (m : rix_mutex_t) (holders : list Z)
  : option (rix_mutex_t * list Z) :=
  match ops with
  | [] => Some (m, holders)
  | op :: ops => match mutex_exec fl op m holders with
                 | Some (m', h') => mutex_history fl ops m' h'
                 | None => None
                 end
  end.

(** ** Lemmas *)

Lemma trylock_run c m :
  mguard m = spin_free ->
  rix_mutex_trylock (c, Some m) =
    let '(rc, m') := mutex_trylock_body c m in Some (rc, (c, Some m')).
Proof.
  intros Hg. unfold rix_mutex_trylock, null_check. rewrite locked_run by done.
  destruct m as [g o l]; cbn in Hg; subst g. unfold mutex_trylock_body, self_pid. cbn. by split_ifs.
Qed.

Lemma unlock_run c m :
  mguard m = spin_free ->
  rix_mutex_unlock (c, Some m) =
    let '(rc, m') := mutex_unlock_body c m in Some (rc, (c, Some m')).
Proof.
  intros Hg. unfold rix_mutex_unlock, null_check. rewrite locked_run by done.
  destruct m as [g o l]; cbn in Hg; subst g. unfold mutex_unlock_body, self_pid. cbn. by split_ifs.
Qed.

Lemma trylock_body_refines c m :
  mutex_wf m -> let '(rc, m') := mutex_trylock_body c m in
  mutex_wf m' /\ MutexSpec.trylock (self_pid c) (mutex_abs m) = (rc, mutex_abs m').
Proof.
  intros [Hg Hl]. unfold mutex_trylock_body, mutex_wf, mutex_abs, truthy.
  destruct (is_locked m =? 0) eqn:E; [cbn; auto|].
  destruct (owner m =? self_pid c) eqn:E2; rewrite E; cbn; rewrite E2; auto.
Qed.

Lemma unlock_body_refines c m :
  mutex_wf m -> let '(rc, m') := mutex_unlock_body c m in
  mutex_wf m' /\ MutexSpec.unlock (self_pid c) (mutex_abs m) = (rc, mutex_abs m').
Proof.
  intros [Hg Hl]. unfold mutex_unlock_body, mutex_wf, mutex_abs, truthy.
  destruct (is_locked m =? 0) eqn:E; cbn; [rewrite E; auto|].
  destruct (owner m =? self_pid c) eqn:E2; cbn; rewrite ?E; auto.
Qed.

(** C31: the mutex implements the abstract lock. From any state between
    operations, trylock and unlock return with the guard released and the
    interrupt flag as it was, and their return code and effect are exactly
    those of the abstract lock: 0 for a free lock, -2 for a recursive attempt,
    1 when somebody else holds it; unlock gives 0 to the owner only and -3
    otherwise. *)
Theorem mutex_refines_lock c m (Hwf : mutex_wf m) :
  (∃ rc m', rix_mutex_trylock (c, Some m) = Some (rc, (c, Some m')) ∧ mutex_wf m' ∧
            MutexSpec.trylock (self_pid c) (mutex_abs m) = (rc, mutex_abs m')) ∧
  (∃ rc m', rix_mutex_unlock (c, Some m) = Some (rc, (c, Some m')) ∧ mutex_wf m' ∧
            MutexSpec.unlock (self_pid c) (mutex_abs m) = (rc, mutex_abs m')).
Proof.
  pose proof Hwf as [Hg _]. rewrite trylock_run, unlock_run by done.
  pose proof (trylock_body_refines c m Hwf) as H1. pose proof (unlock_body_refines c m Hwf) as H2.
  destruct (mutex_trylock_body c m), (mutex_unlock_body c m). eauto 10.
Qed.

Lemma mutex_refines_lock_witness :
  (∃ rc m', rix_mutex_trylock ({| rflags := 512; cpu_pid := 7; cpu_index := 0 |},
               Some {| mguard := spin_free; owner := 3; is_locked := 1 |}) =
             Some (rc, ({| rflags := 512; cpu_pid := 7; cpu_index := 0 |}, Some m')) ∧ mutex_wf m' ∧
      MutexSpec.trylock 7 (Some 3) = (rc, mutex_abs m')).
Proof.
  exact (proj1 (mutex_refines_lock {| rflags := 512; cpu_pid := 7; cpu_index := 0 |}
    {| mguard := spin_free; owner := 3; is_locked := 1 |} (conj eq_refl (or_intror eq_refl)))).
Defined.

(** One operation of a history keeps "the holders are the abstract owner". *)
Lemma mutex_exec_holders fl op m holders :
  mutex_wf m -> holders = option_list (mutex_abs m) ->
  exists m' h', mutex_exec fl op m holders = Some (m', h') /\ mutex_wf m' /\
                h' = option_list (mutex_abs m').
Proof.
  intros Hwf ->. pose proof Hwf as [Hg _]. destruct op as [p|p]; unfold mutex_exec.
  - rewrite trylock_run by done.
    pose proof (trylock_body_refines {| rflags := fl; cpu_pid := p; cpu_index := 0 |} m Hwf) as H.
    destruct (mutex_trylock_body _ m) as [rc m']. destruct H as [Hw' Hs]. eexists _, _.
    split; [done|]. split; [done|]. unfold MutexSpec.trylock, self_pid in Hs. cbn in Hs.
    destruct (mutex_abs m) as [q|]; [destruct (q =? u64 p)|]; injection Hs as <- <-; done.
  - rewrite unlock_run by done.
    pose proof (unlock_body_refines {| rflags := fl; cpu_pid := p; cpu_index := 0 |} m Hwf) as H.
    destruct (mutex_unlock_body _ m) as [rc m']. destruct H as [Hw' Hs]. eexists _, _.
    split; [done|]. split; [done|]. unfold MutexSpec.unlock, self_pid in Hs. cbn in Hs.
    destruct (mutex_abs m) as [q|]; [destruct (q =? u64 p) eqn:E|]; injection Hs as <- <-; try done.
    bool_to_prop. subst. cbn. by rewrite decide_False by congruence.
Qed.

(** Mutual exclusion over histories. Whatever sequence of trylock and
    unlock calls any tasks make on an initialised mutex, every call returns,
    and at every point at most one task has locked without unlocking since. *)
Theorem mutex_history_exclusive fl ops m0 :
  ∃ m holders, mutex_history fl ops (default m0 (rix_mutex_init (Some m0))) [] = Some (m, holders) ∧
    mutex_wf m ∧ holders = option_list (mutex_abs m) ∧ (length holders <= 1)%nat.
Proof.
  assert (Hgen : ∀ ops m h, mutex_wf m → h = option_list (mutex_abs m) →
    ∃ m' h', mutex_history fl ops m h = Some (m', h') ∧ mutex_wf m' ∧ h' = option_list (mutex_abs m')).
  { clear. intros ops. induction ops as [|op ops IH]; intros m h Hw Hh; cbn; [eauto|].
    destruct (mutex_exec_holders fl op m h Hw Hh) as (m' & h' & -> & Hw' & Hh'). eauto. }
  destruct (Hgen ops (default m0 (rix_mutex_init (Some m0))) []) as (m & h & E & Hw & Hh).
  - split; [done|]. by left.
  - done.
  - exists m, h. split; [done|]. split; [done|]. split; [done|].
    rewrite Hh. destruct (mutex_abs m); cbn; lia.
Qed.

(** ** The blocking loops *)

(** The mutex as the caller finds it after [k] yields of the schedule. *)
Definition after_yields (sched : schedule) (k : nat) (m : rix_mutex_t) : rix_mutex_t :=
  foldl (fun m y => y m) m (take k sched).

(** Others own the mutex during the first [k] attempts and it is free at the next. *)
Definition freed_after (self : Z) (sched : schedule) (k : nat) (m : rix_mutex_t) : Prop :=
  (k <= length sched)%nat /\
  (forall j, (j <= k)%nat -> mutex_wf (after_yields sched j m)) /\
  (forall j, (j < k)%nat -> exists q, mutex_abs (after_yields sched j m) = Some q /\ q <> self) /\
  mutex_abs (after_yields sched k m) = None.

Definition owned_by (self : Z) : rix_mutex_t :=
  {| mguard := spin_free; owner := self; is_locked := 1 |}.

Lemma trylock_free c m :
  mutex_wf m -> mutex_abs m = None ->
  rix_mutex_trylock (c, Some m) = Some (0, (c, Some (owned_by (self_pid c)))).
Proof.
  intros [Hg Hl] Ha. rewrite trylock_run by done.
  unfold mutex_trylock_body, mutex_abs, truthy in *.
  destruct (is_locked m =? 0); [|done]. unfold owned_by. by rewrite <- Hg.
Qed.

Lemma trylock_busy c m q :
  mutex_wf m -> mutex_abs m = Some q -> q <> self_pid c ->
  rix_mutex_trylock (c, Some m) = Some (1, (c, Some m)).
Proof.
  intros [Hg Hl] Ha Hq. rewrite trylock_run by done.
  unfold mutex_trylock_body, mutex_abs, truthy in *.
  destruct (is_locked m =? 0); [done|]. injection Ha as <-.
  by rewrite (proj2 (Z.eqb_neq _ _) Hq).
Qed.

Lemma mutex_lock_loop_acquires c sched k m :
  freed_after (self_pid c) sched k m ->
  mutex_lock_loop sched (c, Some m) = Some (0, (c, Some (owned_by (self_pid c)))).
Proof.
  revert k m. induction sched as [|y sched IH]; intros k m (Hk & Hwf & Hbusy & Hfree).
  - destruct k; cbn in Hk; [|lia]. unfold after_yields in *. cbn in *.
    unfold mbind, M_bind. rewrite trylock_free by (done || exact (Hwf 0%nat ltac:(lia))). done.
  - unfold after_yields in *. cbn [mutex_lock_loop]. unfold mbind, M_bind. destruct k as [|k].
    + rewrite trylock_free by (done || exact (Hwf 0%nat ltac:(lia))). done.
    + destruct (Hbusy 0%nat) as (q & Hq & Hne); [lia|]. cbn in Hq.
      rewrite (trylock_busy c m q) by (done || exact (Hwf 0%nat ltac:(lia))). cbn -[mutex_lock_loop].
      apply (IH k). split; [cbn in Hk; lia|]. split; [|split; [|exact Hfree]].
      * intros j Hj. exact (Hwf (S j) ltac:(lia)).
      * intros j Hj. exact (Hbusy (S j) ltac:(lia)).
Qed.

(** The blocking variants acquire as soon as the lock is seen free, and the
    irqsave pair is balanced. If other tasks own the mutex for the caller's
    first [k] attempts and it is free at the next one, [rix_mutex_lock] returns
    0 with the caller as owner; [rix_mutex_lock_irqsave] does the same with
    interrupts left masked and the previous flags handed back, and the matching
    [rix_mutex_unlock_irqrestore] frees the mutex and restores the CPU exactly. *)
Theorem mutex_lock_acquires c sched k m (H : freed_after (self_pid c) sched k m) :
  rix_mutex_lock sched (c, Some m) = Some (0, (c, Some (owned_by (self_pid c)))) ∧
  ∃ c', Z.testbit (rflags c') IF_BIT = false ∧
    rix_mutex_lock_irqsave sched (c, Some m)
      = Some ((0, Some (rflags c)), (c', Some (owned_by (self_pid c)))) ∧
    rix_mutex_unlock_irqrestore (rflags c) (c', Some (owned_by (self_pid c)))
      = Some (0, (c, Some {| mguard := spin_free; owner := 0; is_locked := 0 |})).
Proof.
  split; [by apply (mutex_lock_loop_acquires c sched k)|].
  exists (set_rflags (Z.clearbit (rflags c) IF_BIT) c). split; [apply Z.clearbit_eq|]. split.
  - unfold rix_mutex_lock_irqsave, mbind, M_bind, on_fst. rewrite irq_save_run.
    rewrite (mutex_lock_loop_acquires (set_rflags _ c) sched k) by exact H. done.
  - unfold rix_mutex_unlock_irqrestore, mbind, M_bind, on_fst. rewrite unlock_run by done.
    unfold mutex_unlock_body, owned_by, self_pid. cbn -[Z.clearbit rix_irq_restore u64].
    rewrite Z.eqb_refl. cbn -[Z.clearbit rix_irq_restore u64]. by rewrite irq_restore_after_cli.
Qed.

Lemma mutex_lock_acquires_witness :
  rix_mutex_lock [fun _ => {| mguard := spin_free; owner := 0; is_locked := 0 |}]
    ({| rflags := 512; cpu_pid := 7; cpu_index := 0 |}, Some (owned_by 3))
  = Some (0, ({| rflags := 512; cpu_pid := 7; cpu_index := 0 |}, Some (owned_by 7))).
Proof.
  apply (mutex_lock_acquires {| rflags := 512; cpu_pid := 7; cpu_index := 0 |} _ 1).
  split; [cbn; lia|]. split; [|split; [|done]].
  - intros [|[|j]] Hj; [split; [done|by right] | split; [done|by left] | lia].
  - intros [|j] Hj; [exists 3; split; [done|discriminate] | lia].
Defined.
