(* ===== verification/Semaphore.v ===== *)
(** * Counting semaphore ([kernel/sync/sem.h], [kernel/sync/sem.c]) *)
From stdpp Require Import base tactics list numbers.
From S2P Require Import Prelude Lock.

Record rix_sem_t := { sguard : rix_spinlock_t; count : Z; max : Z }.

#[global] Program Instance sem_guard : HasGuard rix_sem_t := {|
  guard := sguard;
  with_guard l s := {| sguard := l; count := count s; max := max s |};
|}.
Next Obligation. done. Qed.
Next Obligation. by intros []. Qed.
Next Obligation. done. Qed.

Definition rix_sem_init (s : option rix_sem_t) (initial mx : Z) : option rix_sem_t :=
  match s with
  | None => None
  | Some s =>
      match rix_spin_init (Some (sguard s)) with
      | None => None
      | Some g =>
          let initial := if mx <? initial then mx else initial in
          let mx' := if truthy mx then mx else 1 in
          Some {| sguard := g; count := if mx' <? initial then mx' else initial; max := mx' |}
      end
  end.

Definition sem_trydown_body (c : cpu) (s : rix_sem_t) : Z * rix_sem_t :=
  if 0 <? count s then (0, {| sguard := sguard s; count := u32 (count s - 1); max := max s |})
  else (1, s).

Definition sem_up_body (c : cpu) (s : rix_sem_t) : Z * rix_sem_t :=
  if max s <=? count s then (-2, s)
  else (0, {| sguard := sguard s; count := u32 (count s + 1); max := max s |}).

Definition rix_sem_trydown : M (cpu * option rix_sem_t) Z := null_check (-1) (locked sem_trydown_body).
Definition rix_sem_up : M (cpu * option rix_sem_t) Z := null_check (-1) (locked sem_up_body).

(** What other tasks do to the semaphore during one [scheduler_yield()]. *)
Definition sem_yield (y : rix_sem_t -> rix_sem_t) : M (cpu * option rix_sem_t) unit :=
  modify (fun '(c, s) => (c, y <$> s)).

Fixpoint sem_down_loop (sched : list (rix_sem_t -> rix_sem_t)) : M (cpu * option rix_sem_t) Z :=
  rc ← rix_sem_trydown;
  if (rc =? 0) || (rc <? 0) then mret rc
  else match sched with
       | [] => diverge
       | y :: sched => _ ← sem_yield y; sem_down_loop sched
       end.

Definition rix_sem_down (sched : list (rix_sem_t -> rix_sem_t)) : M (cpu * option rix_sem_t) Z := fun '(c, s) =>
  match s with None => Some (-1, (c, None)) | Some _ => sem_down_loop sched (c, s) end.

(** A turn of the timed loop: what [time_monotonic_ns()] returns after the
    failed attempt, and what the yield that may follow does. *)
Record turn := { now : Z; during : rix_sem_t -> rix_sem_t }.

Fixpoint sem_timeout_loop (deadline : Z) (turns : list turn) : M (cpu * option rix_sem_t) Z :=
  rc ← rix_sem_trydown;
  if (rc =? 0) || (rc <? 0) then mret rc
  else match turns with
       | [] => diverge
       | t :: turns =>
           if deadline <=? now t then mret 1
           else _ ← sem_yield (during t); sem_timeout_loop deadline turns
       end.

Definition sem_deadline (start timeout_ns : Z) : Z :=
  let deadline := u64 (start + timeout_ns) in
  if deadline <? start then UINT64_MAX else deadline.

Definition rix_sem_down_timeout (start timeout_ns : Z) (turns : list turn)
  : M (cpu * option rix_sem_t) Z := fun '(c, s) =>
  match s with
  | None => Some (-1, (c, None))
  | Some _ => sem_timeout_loop (sem_deadline start timeout_ns) turns (c, s)
  end.

Definition rix_sem_count (s : option rix_sem_t) (want_out : bool) : Z * option Z :=
  match s with
  | Some s => if want_out then (0, Some (count s)) else (-1, None)
  | None => (-1, None)
  end.

(** ** Invariant and histories *)

Definition sem_wf (s : rix_sem_t) : Prop :=
  sguard s = spin_free /\ 0 <= count s <= max s /\ 1 <= max s < 2 ^ 32.

Lemma trydown_run c s :
  sguard s = spin_free ->
  rix_sem_trydown (c, Some s) = let '(rc, s') := sem_trydown_body c s in Some (rc, (c, Some s')).
Proof.
  intros Hg. unfold rix_sem_trydown, null_check. rewrite locked_run by done.
  destruct s as [g n mx]; cbn in Hg; subst g. unfold sem_trydown_body. cbn -[u32]. by split_ifs.
Qed.

Lemma up_run c s :
  sguard s = spin_free ->
  rix_sem_up (c, Some s) = let '(rc, s') := sem_up_body c s in Some (rc, (c, Some s')).
Proof.
  intros Hg. unfold rix_sem_up, null_check. rewrite locked_run by done.
  destruct s as [g n mx]; cbn in Hg; subst g. unfold sem_up_body. cbn -[u32]. by split_ifs.
Qed.

Lemma sem_init_wf s initial mx s' :
  is_u32 initial -> is_u32 mx -> rix_sem_init (Some s) initial mx = Some s' -> sem_wf s'.
Proof.
  unfold is_u32, rix_sem_init, truthy. cbn. intros Hi Hm H. injection H as <-.
  unfold sem_wf; cbn. split; [done|].
  destruct (mx =? 0) eqn:E, (mx <? initial) eqn:E2; bool_to_prop; cbn;
    split_ifs; lia.
Qed.

Inductive sem_op := OpDown | OpUp.

(** Runs a history and counts the tokens handed out and returned. *)
Fixpoint sem_history (c : cpu) (ops : list sem_op) (s : rix_sem_t) (downs ups : Z)
  : option (rix_sem_t * Z * Z) :=
  match ops with
  | [] => Some (s, downs, ups)
  | OpDown :: ops =>
      match rix_sem_trydown (c, Some s) with
      | Some (rc, (_, Some s')) => sem_history c ops s' (if rc =? 0 then downs + 1 else downs) ups
      | _ => None
      end
  | OpUp :: ops =>
      match rix_sem_up (c, Some s) with
      | Some (rc, (_, Some s')) => sem_history c ops s' downs (if rc =? 0 then ups + 1 else ups)
      | _ => None
      end
  end.

(** Token accounting. Over any sequence of trydown and up calls on a
    semaphore, every call returns, the count never leaves [0, max], and it is
    always the initial count minus the tokens taken plus the tokens returned,
    so at most [count + ups] downs ever succeed: no token is invented or lost
    on the error paths. *)
Theorem sem_accounting c ops s (Hwf : sem_wf s) :
  ∃ s' downs ups, sem_history c ops s 0 0 = Some (s', downs, ups) ∧ sem_wf s' ∧
    max s' = max s ∧ count s' = count s - downs + ups ∧ 0 <= count s' <= max s.
Proof.
  assert (Hgen : ∀ ops s d u, sem_wf s → ∃ s' d' u',
    sem_history c ops s d u = Some (s', d', u') ∧ sem_wf s' ∧
    max s' = max s ∧ count s' - u' + d' = count s - u + d).
  { clear. intros ops. induction ops as [|[] ops IH]; intros s d u Hw; cbn [sem_history].
    - exists s, d, u. auto.
    - pose proof Hw as (Hg & Hc & Hm). rewrite trydown_run by done. unfold sem_trydown_body.
      destruct (0 <? count s) eqn:E; bool_to_prop; cbn -[u32].
      + edestruct (IH {| sguard := sguard s; count := u32 (count s - 1); max := max s |})
          as (s' & d' & u' & -> & Hw' & Hm' & Hcount).
        { unfold sem_wf; cbn. rewrite u32_id by (unfold is_u32; lia). split; [done|lia]. }
        eexists _, _, _. split; [done|]. split; [done|]. split; [done|].
        cbn in Hcount. rewrite u32_id in Hcount by (unfold is_u32; lia). cbn in Hcount. lia.
      + destruct (IH s d u Hw) as (s' & d' & u' & -> & ?). eauto 10.
    - pose proof Hw as (Hg & Hc & Hm). rewrite up_run by done. unfold sem_up_body.
      destruct (max s <=? count s) eqn:E; bool_to_prop; cbn -[u32].
      + destruct (IH s d u Hw) as (s' & d' & u' & -> & ?). eauto 10.
      + edestruct (IH {| sguard := sguard s; count := u32 (count s + 1); max := max s |})
          as (s' & d' & u' & -> & Hw' & Hm' & Hcount).
        { unfold sem_wf; cbn. rewrite u32_id by (unfold is_u32; lia). split; [done|lia]. }
        eexists _, _, _. split; [done|]. split; [done|]. split; [done|].
        cbn in Hcount. rewrite u32_id in Hcount by (unfold is_u32; lia). cbn in Hcount. lia. }
  destruct (Hgen ops s 0 0 Hwf) as (s' & d & u & E & Hw & Hm & Hc).
  exists s', d, u. destruct Hw as (? & ? & ?). repeat split; try done; lia.
Qed.

Lemma sem_accounting_witness :
  ∃ s' downs ups, sem_history {| rflags := 0; cpu_pid := 1; cpu_index := 0 |}
      [OpDown; OpDown; OpUp] {| sguard := spin_free; count := 1; max := 2 |} 0 0 = Some (s', downs, ups)
    ∧ sem_wf s' ∧ max s' = 2 ∧ count s' = 1 - downs + ups ∧ 0 <= count s' <= 2.
Proof.
  apply (sem_accounting {| rflags := 0; cpu_pid := 1; cpu_index := 0 |} [OpDown; OpDown; OpUp]
    {| sguard := spin_free; count := 1; max := 2 |}).
  split; [done|]. cbn. lia.
Defined.

(** ** The timed wait *)

Definition sem_after (turns : list turn) (k : nat) (s : rix_sem_t) : rix_sem_t :=
  foldl (fun s t => during t s) s (take k turns).

Lemma trydown_empty c s :
  sguard s = spin_free -> count s = 0 -> rix_sem_trydown (c, Some s) = Some (1, (c, Some s)).
Proof. intros Hg Hc. rewrite trydown_run by done. unfold sem_trydown_body. by rewrite Hc. Qed.

Lemma trydown_token c s :
  sguard s = spin_free -> 0 < count s ->
  rix_sem_trydown (c, Some s) =
    Some (0, (c, Some {| sguard := spin_free; count := u32 (count s - 1); max := max s |})).
Proof.
  intros Hg Hc. rewrite trydown_run by done. unfold sem_trydown_body.
  rewrite (proj2 (Z.ltb_lt _ _) Hc). by rewrite Hg.
Qed.

Lemma sem_deadline_bounds start timeout_ns :
  is_u64 start -> is_u64 timeout_ns ->
  sem_deadline start timeout_ns = Z.min UINT64_MAX (start + timeout_ns).
Proof.
  unfold is_u64, sem_deadline, UINT64_MAX, u64. intros Hs Ht.
  destruct (decide (start + timeout_ns < 2 ^ 64)).
  - rewrite Z.mod_small by lia. split_ifs; lia.
  - assert ((start + timeout_ns) mod 2 ^ 64 = start + timeout_ns - 2 ^ 64) as ->
      by (symmetry; apply (Z.mod_unique_pos _ _ 1); lia). split_ifs; lia.
Qed.

(** The timed wait ends, and for the right reason. If the clock read after
    some failed attempt has reached the deadline [min(start + timeout, 2^64-1)],
    the call returns: either 0, having taken a token at an attempt where one was
    available with no earlier reading past the deadline; or 1, at a reading at or
    past the deadline with no token available at any attempt so far. *)
Theorem sem_down_timeout_returns c s turns start timeout_ns
    (Hs : is_u64 start) (Ht : is_u64 timeout_ns)
    (Hwf : ∀ k : nat, sem_wf (sem_after turns k s))
    (Hclock : Exists (fun t => Z.min UINT64_MAX (start + timeout_ns) <= now t) turns) :
  ∃ rc k s', rix_sem_down_timeout start timeout_ns turns (c, Some s) = Some (rc, (c, Some s')) ∧
    (k < length turns)%nat ∧
    (∀ (j : nat) t, (j < k)%nat → turns !! j = Some t → now t < Z.min UINT64_MAX (start + timeout_ns)) ∧
    (∀ j : nat, (j < k)%nat → count (sem_after turns j s) = 0) ∧
    ((rc = 0 ∧ 0 < count (sem_after turns k s) ∧ count s' = count (sem_after turns k s) - 1) ∨
     (rc = 1 ∧ count (sem_after turns k s) = 0 ∧ s' = sem_after turns k s ∧
      ∃ t, turns !! k = Some t ∧ Z.min UINT64_MAX (start + timeout_ns) <= now t)).
Proof.
  unfold rix_sem_down_timeout. rewrite sem_deadline_bounds by done.
  set (dl := Z.min UINT64_MAX (start + timeout_ns)) in *. clearbody dl.
  revert s Hwf. induction Hclock as [t turns Hnow|t turns Hex IH]; intros s Hwf;
    pose proof (Hwf 0%nat) as (Hg & Hc & Hm); cbn in Hg, Hc, Hm;
    cbn [sem_timeout_loop]; unfold mbind, M_bind;
    (destruct (decide (0 < count s)) as [Hpos|Hz];
     [rewrite trydown_token by done; exists 0, 0%nat; eexists; split; [done|]; cbn [sem_after take foldl];
      split; [cbn; lia|]; split; [intros; lia|]; split; [intros; lia|]; left;
      unfold sem_after; cbn; rewrite u32_id by (unfold is_u32; lia); auto
     |rewrite trydown_empty by (done || lia)]).
  - cbn -[sem_timeout_loop Z.leb]. rewrite (proj2 (Z.leb_le _ _) Hnow).
    exists 1, 0%nat, s. split; [done|]. split; [cbn; lia|]. split; [intros; lia|].
    split; [intros; lia|]. right. split; [done|]. unfold sem_after. cbn.
    split; [lia|]. eauto.
  - cbn -[sem_timeout_loop Z.leb]. destruct (dl <=? now t) eqn:E; bool_to_prop.
    + exists 1, 0%nat, s. split; [done|]. split; [cbn; lia|]. split; [intros; lia|].
      split; [intros; lia|]. right. split; [done|]. unfold sem_after. cbn.
      split; [lia|]. eauto.
    + destruct (IH (during t s)) as (rc & k & s' & Hrun & Hk & Hearly & Hempty & Hres).
      { intros k. exact (Hwf (S k)). }
      exists rc, (S k), s'. split; [exact Hrun|]. split; [cbn; lia|]. split.
      { intros [|j] t' Hj Ht'; cbn in Ht'; [by simplify_eq|]. apply (Hearly j); [lia|done]. }
      split; [|exact Hres]. intros [|j] Hj; [unfold sem_after; cbn; lia|]. apply (Hempty j). lia.
Qed.

Lemma sem_down_timeout_returns_witness :
  ∃ rc k s', rix_sem_down_timeout 100 5 [{| now := 107; during := fun s => s |}]
      ({| rflags := 0; cpu_pid := 1; cpu_index := 0 |}, Some {| sguard := spin_free; count := 0; max := 1 |})
      = Some (rc, ({| rflags := 0; cpu_pid := 1; cpu_index := 0 |}, Some s')) ∧ (k < 1)%nat ∧ rc = 1.
Proof.
  destruct (sem_down_timeout_returns {| rflags := 0; cpu_pid := 1; cpu_index := 0 |}
    {| sguard := spin_free; count := 0; max := 1 |} [{| now := 107; during := fun s => s |}] 100 5)
    as (rc & k & s' & Hrun & Hk & _ & _ & Hres).
  - split; reflexivity || lia.
  - split; reflexivity || lia.
  - intros [|[|k]]; (split; [done|cbn; lia]).
  - constructor. cbn. unfold UINT64_MAX. lia.
  - exists rc, k, s'. split; [exact Hrun|]. split; [exact Hk|].
    destruct k as [|k]; [|cbn in Hk; lia]. cbn in Hres. destruct Hres as [(_ & H & _)|(H & _)]; [lia|exact H].
Defined.
