(* ===== verification/Rwlock.v ===== *)
(** * Reader/writer lock ([kernel/sync/rwlock.h], [kernel/sync/rwlock.c])

    The lock object and its operations, and [RwSteps]: any number of tasks
    using it, one guarded section per step. *)
From stdpp Require Import base tactics list numbers relations.
From S2P Require Import Prelude Lock.

Record rix_rwlock_t := {
  rwguard : rix_spinlock_t;
  readers : Z;
  waiting_writers : Z;
  writer : Z;
  write_locked : Z;
}.

#[global] Program Instance rwlock_guard : HasGuard rix_rwlock_t := {|
  guard := rwguard;
  with_guard l rw := {| rwguard := l; readers := readers rw; waiting_writers := waiting_writers rw;
                        writer := writer rw; write_locked := write_locked rw |};
|}.
Next Obligation. done. Qed.
Next Obligation. by intros []. Qed.
Next Obligation. done. Qed.

Definition set_readers (n : Z) (rw : rix_rwlock_t) : rix_rwlock_t :=
  {| rwguard := rwguard rw; readers := n; waiting_writers := waiting_writers rw;
     writer := writer rw; write_locked := write_locked rw |}.
Definition set_waiting (n : Z) (rw : rix_rwlock_t) : rix_rwlock_t :=
  {| rwguard := rwguard rw; readers := readers rw; waiting_writers := n;
     writer := writer rw; write_locked := write_locked rw |}.
Definition set_writer (w l : Z) (rw : rix_rwlock_t) : rix_rwlock_t :=
  {| rwguard := rwguard rw; readers := readers rw; waiting_writers := waiting_writers rw;
     writer := w; write_locked := l |}.

Definition rix_rwlock_init (rw : option rix_rwlock_t) : option rix_rwlock_t :=
  match rw with
  | None => None
  | Some rw => match rix_spin_init (Some (rwguard rw)) with
               | Some g => Some {| rwguard := g; readers := 0; waiting_writers := 0;
                                   writer := 0; write_locked := 0 |}
               | None => None
               end
  end.

Definition read_trylock_body (c : cpu) (rw : rix_rwlock_t) : Z * rix_rwlock_t :=
  if (write_locked rw =? 0) && (waiting_writers rw =? 0)
  then (0, set_readers (u32 (readers rw + 1)) rw) else (1, rw).

Definition read_unlock_body (c : cpu) (rw : rix_rwlock_t) : Z * rix_rwlock_t :=
  if readers rw =? 0 then (-3, rw) else (0, set_readers (u32 (readers rw - 1)) rw).

Definition write_trylock_body (c : cpu) (rw : rix_rwlock_t) : Z * rix_rwlock_t :=
  let self := u64 (cpu_pid c) in
  if truthy (write_locked rw) && (writer rw =? self) then (-2, rw)
  else if (write_locked rw =? 0) && (readers rw =? 0) then (0, set_writer self 1 rw)
  else (1, rw).

Definition write_unlock_body (c : cpu) (rw : rix_rwlock_t) : Z * rix_rwlock_t :=
  let self := u64 (cpu_pid c) in
  if (write_locked rw =? 0) || negb (writer rw =? self) then (-3, rw)
  else (0, set_writer 0 0 rw).

(** The two guarded sections around the loop of [rix_rwlock_write_lock]. *)
Definition waiting_inc_body (c : cpu) (rw : rix_rwlock_t) : unit * rix_rwlock_t :=
  (tt, set_waiting (u32 (waiting_writers rw + 1)) rw).
Definition waiting_dec_body (c : cpu) (rw : rix_rwlock_t) : unit * rix_rwlock_t :=
  (tt, set_waiting (u32 (waiting_writers rw - 1)) rw).

Definition rix_rwlock_read_trylock : M (cpu * option rix_rwlock_t) Z := null_check (-1) (locked read_trylock_body).
Definition rix_rwlock_read_unlock : M (cpu * option rix_rwlock_t) Z := null_check (-1) (locked read_unlock_body).
Definition rix_rwlock_write_trylock : M (cpu * option rix_rwlock_t) Z := null_check (-1) (locked write_trylock_body).
Definition rix_rwlock_write_unlock : M (cpu * option rix_rwlock_t) Z := null_check (-1) (locked write_unlock_body).
Definition waiting_inc : M (cpu * option rix_rwlock_t) unit := null_check tt (locked waiting_inc_body).
Definition waiting_dec : M (cpu * option rix_rwlock_t) unit := null_check tt (locked waiting_dec_body).

(** What other tasks do to the lock during one [scheduler_yield()]. *)
Definition rw_yield (y : rix_rwlock_t -> rix_rwlock_t) : M (cpu * option rix_rwlock_t) unit :=
  modify (fun '(c, rw) => (c, y <$> rw)).

Fixpoint read_lock_loop (sched : list (rix_rwlock_t -> rix_rwlock_t)) : M (cpu * option rix_rwlock_t) Z :=
  rc ← rix_rwlock_read_trylock;
  if (rc =? 0) || (rc <? 0) then mret rc
  else match sched with
       | [] => diverge
       | y :: sched => _ ← rw_yield y; read_lock_loop sched
       end.

Definition rix_rwlock_read_lock (sched : list (rix_rwlock_t -> rix_rwlock_t))
  : M (cpu * option rix_rwlock_t) Z := fun '(c, rw) =>
  match rw with None => Some (-1, (c, None)) | Some _ => read_lock_loop sched (c, rw) end.

Fixpoint write_lock_loop (sched : list (rix_rwlock_t -> rix_rwlock_t)) : M (cpu * option rix_rwlock_t) Z :=
  rc ← rix_rwlock_write_trylock;
  if (rc =? 0) || (rc <? 0) then (_ ← waiting_dec; mret rc)
  else match sched with
       | [] => diverge
       | y :: sched => _ ← rw_yield y; write_lock_loop sched
       end.

Definition rix_rwlock_write_lock (sched : list (rix_rwlock_t -> rix_rwlock_t))
  : M (cpu * option rix_rwlock_t) Z := fun '(c, rw) =>
  match rw with
  | None => Some (-1, (c, None))
  | Some _ => (_ ← waiting_inc; write_lock_loop sched) (c, rw)
  end.

(** Each operation alone on a lock whose guard is free. *)
Ltac rw_body :=
  match goal with
  | |- context [with_guard _ ?rw] => destruct rw as [? ? ? ? ?]
  end;
  unfold read_trylock_body, read_unlock_body, write_trylock_body, write_unlock_body,
    waiting_inc_body, waiting_dec_body, set_readers, set_waiting, set_writer; cbn -[u32 u64];
  by split_ifs.

Ltac rw_free :=
  match goal with
  | |- guard (snd (_ ?c ?rw)) = _ => destruct rw as [? ? ? ? ?]
  end;
  unfold read_trylock_body, read_unlock_body, write_trylock_body, write_unlock_body,
    waiting_inc_body, waiting_dec_body, set_readers, set_waiting, set_writer; cbn -[u32 u64] in *;
  by split_ifs.

Lemma read_trylock_run c rw :
  rwguard rw = spin_free -> rix_rwlock_read_trylock (c, Some rw)
    = Some (fst (read_trylock_body c rw), (c, Some (snd (read_trylock_body c rw)))).
Proof. intros. apply null_check_locked_run; [done|rw_body|rw_free]. Qed.
Lemma read_unlock_run c rw :
  rwguard rw = spin_free -> rix_rwlock_read_unlock (c, Some rw)
    = Some (fst (read_unlock_body c rw), (c, Some (snd (read_unlock_body c rw)))).
Proof. intros. apply null_check_locked_run; [done|rw_body|rw_free]. Qed.
Lemma write_trylock_run c rw :
  rwguard rw = spin_free -> rix_rwlock_write_trylock (c, Some rw)
    = Some (fst (write_trylock_body c rw), (c, Some (snd (write_trylock_body c rw)))).
Proof. intros. apply null_check_locked_run; [done|rw_body|rw_free]. Qed.
Lemma write_unlock_run c rw :
  rwguard rw = spin_free -> rix_rwlock_write_unlock (c, Some rw)
    = Some (fst (write_unlock_body c rw), (c, Some (snd (write_unlock_body c rw)))).
Proof. intros. apply null_check_locked_run; [done|rw_body|rw_free]. Qed.
Lemma waiting_inc_run c rw :
  rwguard rw = spin_free -> waiting_inc (c, Some rw)
    = Some (fst (waiting_inc_body c rw), (c, Some (snd (waiting_inc_body c rw)))).
Proof. intros. apply null_check_locked_run; [done|rw_body|rw_free]. Qed.
Lemma waiting_dec_run c rw :
  rwguard rw = spin_free -> waiting_dec (c, Some rw)
    = Some (fst (waiting_dec_body c rw), (c, Some (snd (waiting_dec_body c rw)))).
Proof. intros. apply null_check_locked_run; [done|rw_body|rw_free]. Qed.

(** ** Many tasks on one lock *)
Module RwSteps.

(** Where a task is with respect to writing: not writing, queued in the loop of
    [write_lock], past a successful or failed attempt of that loop but before
    the decrement of [waiting_writers], or holding the write lock. *)
Inductive wstate := NoWrite | Queued | Leaving (got : bool) | Holding.

Record task := { tpid : Z; reads : Z; wst : wstate }.
Record state := { lk : rix_rwlock_t; tasks : list task }.

Definition on_cpu (t : task) : cpu := {| rflags := 512; cpu_pid := tpid t; cpu_index := 0 |}.
Definition set_reads (n : Z) (t : task) : task := {| tpid := tpid t; reads := n; wst := wst t |}.
Definition set_wst (w : wstate) (t : task) : task := {| tpid := tpid t; reads := reads t; wst := w |}.

(** A task unlocks only what it holds, and the 32-bit counters do not
    overflow: fewer than [2^32 - 1] read holds and queued writers exist. *)
Inductive step : state -> state -> Prop :=
| st_read_try lk lk' ts i t rc c' :
    ts !! i = Some t -> readers lk < UINT32_MAX ->
    rix_rwlock_read_trylock (on_cpu t, Some lk) = Some (rc, (c', Some lk')) ->
    step {| lk := lk; tasks := ts |}
         {| lk := lk'; tasks := if rc =? 0 then <[i := set_reads (reads t + 1) t]> ts else ts |}
| st_read_unlock lk lk' ts i t rc c' :
    ts !! i = Some t -> 0 < reads t ->
    rix_rwlock_read_unlock (on_cpu t, Some lk) = Some (rc, (c', Some lk')) ->
    step {| lk := lk; tasks := ts |}
         {| lk := lk'; tasks := if rc =? 0 then <[i := set_reads (reads t - 1) t]> ts else ts |}
| st_write_begin lk lk' ts i t c' :
    ts !! i = Some t -> wst t = NoWrite -> waiting_writers lk < UINT32_MAX ->
    waiting_inc (on_cpu t, Some lk) = Some (tt, (c', Some lk')) ->
    step {| lk := lk; tasks := ts |} {| lk := lk'; tasks := <[i := set_wst Queued t]> ts |}
| st_write_attempt lk lk' ts i t rc c' :
    ts !! i = Some t -> wst t = Queued ->
    rix_rwlock_write_trylock (on_cpu t, Some lk) = Some (rc, (c', Some lk')) ->
    step {| lk := lk; tasks := ts |}
         {| lk := lk'; tasks := if (rc =? 0) || (rc <? 0)
                                then <[i := set_wst (Leaving (rc =? 0)) t]> ts else ts |}
| st_write_leave lk lk' ts i t got c' :
    ts !! i = Some t -> wst t = Leaving got ->
    waiting_dec (on_cpu t, Some lk) = Some (tt, (c', Some lk')) ->
    step {| lk := lk; tasks := ts |}
         {| lk := lk'; tasks := <[i := set_wst (if got then Holding else NoWrite) t]> ts |}
| st_write_try lk lk' ts i t rc c' :
    ts !! i = Some t -> wst t = NoWrite ->
    rix_rwlock_write_trylock (on_cpu t, Some lk) = Some (rc, (c', Some lk')) ->
    step {| lk := lk; tasks := ts |}
         {| lk := lk'; tasks := if rc =? 0 then <[i := set_wst Holding t]> ts else ts |}
| st_write_unlock lk lk' ts i t rc c' :
    ts !! i = Some t -> wst t = Holding ->
    rix_rwlock_write_unlock (on_cpu t, Some lk) = Some (rc, (c', Some lk')) ->
    step {| lk := lk; tasks := ts |}
         {| lk := lk'; tasks := if rc =? 0 then <[i := set_wst NoWrite t]> ts else ts |}.

Definition fresh_lock : rix_rwlock_t :=
  {| rwguard := spin_free; readers := 0; waiting_writers := 0; writer := 0; write_locked := 0 |}.
Definition initial (pids : list Z) : state :=
  {| lk := fresh_lock; tasks := (fun p => {| tpid := p; reads := 0; wst := NoWrite |}) <$> pids |}.

Definition owns_write (t : task) : bool :=
  match wst t with Leaving true | Holding => true | _ => false end.
Definition is_queued (t : task) : bool :=
  match wst t with Queued | Leaving _ => true | _ => false end.

(** The lock's fields summarise the tasks: [readers] their read holds,
    [waiting_writers] the queued ones, [write_locked] the number of owners. *)
Definition inv (s : state) : Prop :=
  rwguard (lk s) = spin_free /\
  Forall (fun t => 0 <= reads t) (tasks s) /\
  readers (lk s) = sumz reads (tasks s) /\ readers (lk s) < 2 ^ 32 /\
  waiting_writers (lk s) = countb is_queued (tasks s) /\ waiting_writers (lk s) < 2 ^ 32 /\
  write_locked (lk s) = countb owns_write (tasks s) /\ write_locked (lk s) <= 1 /\
  (write_locked (lk s) = 1 -> readers (lk s) = 0) /\
  (forall i t, tasks s !! i = Some t -> owns_write t = true -> writer (lk s) = u64 (tpid t)).

Lemma rw_inv_initial pids : inv (initial pids).
Proof.
  unfold inv, initial; cbn. repeat split; try lia.
  - apply Forall_fmap, Forall_true. cbn. lia.
  - induction pids; cbn in *; lia.
  - induction pids as [|p pids IH]; [done|]. cbn. rewrite countb_cons. cbn in *. lia.
  - induction pids as [|p pids IH]; [done|]. cbn. rewrite countb_cons. cbn in *. lia.
  - intros i t H. apply list_lookup_fmap_Some in H as (p & -> & _). done.
Qed.

(** One task changes; the lock's fields change by the task's contribution. *)
Lemma inv_update lk0 lk1 ts i t t' :
  inv {| lk := lk0; tasks := ts |} -> ts !! i = Some t -> tpid t' = tpid t -> 0 <= reads t' ->
  rwguard lk1 = spin_free ->
  readers lk1 = readers lk0 - reads t + reads t' -> readers lk1 < 2 ^ 32 ->
  waiting_writers lk1 = waiting_writers lk0 - b2z (is_queued t) + b2z (is_queued t') ->
  waiting_writers lk1 < 2 ^ 32 ->
  write_locked lk1 = write_locked lk0 - b2z (owns_write t) + b2z (owns_write t') ->
  write_locked lk1 <= 1 -> (write_locked lk1 = 1 -> readers lk1 = 0) ->
  (owns_write t' = true -> writer lk1 = u64 (tpid t)) ->
  (writer lk1 = writer lk0 \/ write_locked lk1 = b2z (owns_write t')) ->
  inv {| lk := lk1; tasks := <[i := t']> ts |}.
Proof.
  intros (Hg & Hnn & Hr & Hrb & Hw & Hwb & Hl & Hlb & Hx & Hown) Hi Hp Hrd Hg' Hr' Hrb' Hw' Hwb' Hl' Hlb' Hx' Ho' Hwr.
  unfold inv; cbn in *. split; [done|]. split; [by apply Forall_insert|].
  rewrite (sumz_insert _ _ _ _ _ Hi), !(countb_insert _ _ _ _ _ Hi).
  repeat (split; [done || lia|]). intros j u Hj Hu.
  destruct (decide (i = j)) as [<-|Hne].
  - assert (i < length ts)%nat by eauto using lookup_lt_Some.
    rewrite list_lookup_insert_eq in Hj by done. simplify_eq. rewrite Hp. auto.
  - destruct Hwr as [->|Hw1].
    + rewrite list_lookup_insert_ne in Hj by done. eauto.
    + exfalso. pose proof (countb_insert owns_write ts i t t' Hi) as Hc.
      assert (Hi' : <[i := t']> ts !! i = Some t')
        by (apply list_lookup_insert_eq; eauto using lookup_lt_Some).
      destruct (owns_write t') eqn:E; cbn in *.
      * apply Hne. eapply (countb_le_1_unique owns_write (<[i := t']> ts) i j t' u); eauto. lia.
      * pose proof (countb_pos owns_write _ _ _ Hj Hu). lia.
Qed.

Lemma rw_inv_step s s' : inv s -> step s s' -> inv s'.
Proof.
  intros Hinv Hs.
  assert (Hg : rwguard (lk s) = spin_free) by apply Hinv.
  assert (Hrn : 0 <= readers (lk s)).
  { destruct Hinv as (_ & Hnn & -> & _). by apply sumz_nonneg. }
  assert (Hwn : 0 <= waiting_writers (lk s) /\ 0 <= write_locked (lk s)).
  { destruct Hinv as (_ & _ & _ & _ & -> & _ & -> & _). split; apply countb_nonneg. }
  pose proof Hinv as (_ & Hnn & Hr & Hrb & Hw & Hwb & Hl & Hlb & Hx & Hown).
  inv Hs; cbn [lk tasks] in *;
    rewrite ?read_trylock_run, ?read_unlock_run, ?write_trylock_run, ?write_unlock_run,
      ?waiting_inc_run, ?waiting_dec_run in * by done; simplify_eq;
    pose proof (Forall_lookup_1 _ _ _ _ Hnn H) as Hrt; cbn in Hrt.
  - unfold read_trylock_body. case_if; cbn -[u32]; [|exact Hinv].
    eapply (inv_update lk0); eauto; cbn -[u32]; unfold UINT32_MAX, is_queued, owns_write in *; cbn;
      rewrite ?u32_id by (unfold is_u32; lia); try lia.
  - pose proof (sumz_ge reads _ _ _ Hnn H). unfold read_unlock_body. case_if; cbn -[u32]; [lia|].
    eapply (inv_update lk0); eauto; cbn -[u32]; unfold is_queued, owns_write in *; cbn;
      rewrite ?u32_id by (unfold is_u32; lia); try lia.
  - eapply (inv_update lk0); eauto; cbn -[u32]; unfold UINT32_MAX, is_queued, owns_write in *;
      rewrite ?H0; cbn -[u32]; rewrite ?u32_id by (unfold is_u32; lia); try lia; try done.
  - unfold write_trylock_body, truthy. destruct (negb _ && _) eqn:E1; cbn -[u32 u64].
    + eapply (inv_update lk0); eauto; cbn; unfold is_queued, owns_write; rewrite ?H0; cbn; try lia; done.
    + case_if; cbn -[u32 u64]; [|exact Hinv].
      eapply (inv_update lk0); eauto; cbn -[u64]; unfold is_queued, owns_write; rewrite ?H0; cbn; try lia;
        try done; lia.
  - assert (1 <= waiting_writers lk0).
    { rewrite Hw. eapply countb_pos; [exact H|]. unfold is_queued. by rewrite H0. }
    eapply (inv_update lk0); eauto; cbn -[u32]; unfold is_queued, owns_write; rewrite ?H0;
      cbn -[u32]; rewrite ?u32_id by (unfold is_u32; lia); destruct got; cbn; try lia; try done.
    intros _. apply (Hown i t H). unfold owns_write. by rewrite H0.
  - unfold write_trylock_body, truthy. destruct (negb _ && _) eqn:E1; cbn -[u32 u64]; [exact Hinv|].
    case_if; cbn -[u32 u64]; [|exact Hinv].
    eapply (inv_update lk0); eauto; cbn -[u64]; unfold is_queued, owns_write; rewrite ?H0; cbn; try lia;
      try done; lia.
  - unfold write_unlock_body. case_if; cbn -[u32 u64]; [exact Hinv|].
    eapply (inv_update lk0); eauto; cbn -[u64]; unfold is_queued, owns_write; rewrite ?H0; cbn; try lia;
      try done; try lia.
Qed.

Lemma rw_inv_reachable pids s : rtc step (initial pids) s -> inv s.
Proof. intros H. assert (Hi := rw_inv_initial pids). induction H; eauto using rw_inv_step. Qed.

(** C27: reader/writer exclusion and writer preference, for tasks that keep to the lock's
    discipline. Tasks interleave one guarded section at a time and call a read or write
    unlock only while they hold the lock that way (the code checks the owner of a write
    unlock but not that of a read unlock: a stray one would take away somebody else's
    hold), and fewer than [2^32 - 1] read holds and queued writers exist. In every state they
    reach from a fresh lock: a task
    owning the write lock excludes every reader and every other writer; the
    owner's write unlock succeeds; and while any writer is queued, every read
    attempt of every task is refused with 1 and changes nothing, so a stream of
    readers cannot starve a writer. *)
Theorem rwlock_exclusion pids s (Hr : rtc step (initial pids) s) :
  (∀ (i j : nat) t u, tasks s !! i = Some t → tasks s !! j = Some u →
     owns_write t = true → reads u = 0 ∧ (owns_write u = true → i = j)) ∧
  (∀ (i : nat) t, tasks s !! i = Some t → wst t = Holding →
     ∃ lk', rix_rwlock_write_unlock (on_cpu t, Some (lk s)) = Some (0, (on_cpu t, Some lk')) ∧
            write_locked lk' = 0) ∧
  (∀ (i : nat) t u, tasks s !! i = Some t → wst t = Queued →
     rix_rwlock_read_trylock (on_cpu u, Some (lk s)) = Some (1, (on_cpu u, Some (lk s)))).
Proof.
  destruct (rw_inv_reachable pids s Hr) as (Hg & Hnn & Hrd & Hrb & Hw & Hwb & Hl & Hlb & Hx & Hown).
  split; [|split].
  - intros i j t u Hi Hj Ho.
    assert (write_locked (lk s) = 1) as Hl1.
    { pose proof (countb_pos owns_write _ _ _ Hi Ho). lia. }
    split; [|intros Hu; eapply (countb_le_1_unique owns_write); eauto; lia].
    pose proof (sumz_ge reads _ _ _ Hnn Hj). pose proof (Forall_lookup_1 _ _ _ _ Hnn Hj) as H0.
    cbn in H0. specialize (Hx Hl1). lia.
  - intros i t Hi Hh. assert (Ho : owns_write t = true) by (unfold owns_write; by rewrite Hh).
    rewrite write_unlock_run by done. unfold write_unlock_body. cbn [on_cpu cpu_pid].
    rewrite <- (Hown i t Hi Ho), Z.eqb_refl.
    pose proof (countb_pos owns_write _ _ _ Hi Ho).
    destruct (write_locked (lk s) =? 0) eqn:E; bool_to_prop; [lia|]. cbn. eauto.
  - intros i t u Hi Hq. rewrite read_trylock_run by done. unfold read_trylock_body.
    assert (1 <= waiting_writers (lk s)).
    { rewrite Hw. eapply countb_pos; [exact Hi|]. unfold is_queued. by rewrite Hq. }
    destruct (waiting_writers (lk s) =? 0) eqn:E; bool_to_prop; [lia|]. by rewrite andb_false_r.
Qed.

(** Task 4 writes, task 5 queues behind it, task 6 would like to read. *)
Definition contended : state :=
  {| lk := {| rwguard := spin_free; readers := 0; waiting_writers := 1; writer := 4; write_locked := 1 |};
     tasks := [{| tpid := 4; reads := 0; wst := Holding |}; {| tpid := 5; reads := 0; wst := Queued |}; {| tpid := 6; reads := 0; wst := NoWrite |}] |}.

Lemma contended_reachable : rtc step (initial [4; 5; 6]) contended.
Proof.
  eapply rtc_l; [exact (st_write_try fresh_lock {| rwguard := spin_free; readers := 0; waiting_writers := 0; writer := 4; write_locked := 1 |}
    (tasks (initial [4; 5; 6])) 0 {| tpid := 4; reads := 0; wst := NoWrite |} 0 {| rflags := 512; cpu_pid := 4; cpu_index := 0 |} eq_refl eq_refl eq_refl)|].
  apply rtc_once. exact (st_write_begin {| rwguard := spin_free; readers := 0; waiting_writers := 0; writer := 4; write_locked := 1 |} (lk contended)
    [{| tpid := 4; reads := 0; wst := Holding |}; {| tpid := 5; reads := 0; wst := NoWrite |}; {| tpid := 6; reads := 0; wst := NoWrite |}] 1 {| tpid := 5; reads := 0; wst := NoWrite |} {| rflags := 512; cpu_pid := 5; cpu_index := 0 |} eq_refl eq_refl eq_refl eq_refl).
Qed.

Lemma rwlock_exclusion_witness :
  (∃ lk', rix_rwlock_write_unlock (on_cpu {| tpid := 4; reads := 0; wst := Holding |}, Some (lk contended)) =
     Some (0, (on_cpu {| tpid := 4; reads := 0; wst := Holding |}, Some lk')) ∧ write_locked lk' = 0) ∧
  rix_rwlock_read_trylock (on_cpu {| tpid := 6; reads := 0; wst := NoWrite |}, Some (lk contended)) =
    Some (1, (on_cpu {| tpid := 6; reads := 0; wst := NoWrite |}, Some (lk contended))) ∧
  ∀ u j, tasks contended !! j = Some u → reads u = 0 ∧ (owns_write u = true → j = 0%nat).
Proof.
  destruct (rwlock_exclusion [4; 5; 6] contended contended_reachable) as (H1 & H2 & H3). split; [|split].
  - exact (H2 0%nat _ eq_refl eq_refl).
  - exact (H3 1%nat _ {| tpid := 6; reads := 0; wst := NoWrite |} eq_refl eq_refl).
  - intros u j Hj. destruct (H1 0%nat j _ u eq_refl Hj eq_refl) as [A B]. split; [exact A|]. intros Hu. symmetry. exact (B Hu).
Defined.
End RwSteps.
