(* ===== verification/WaitQueue.v ===== *)
(** * Wait queues ([kernel/sync/waitqueue.h], [kernel/sync/waitqueue.c])

    A bounded registry of waiters addressed by generation-counted handles. *)
From stdpp Require Import base tactics list numbers.
From S2P Require Import Prelude Lock.

Definition RIX_WQ_MAX_WAITERS : Z := 64.

Inductive rix_wait_state_t := RIX_WAIT_UNUSED | RIX_WAIT_READY | RIX_WAIT_BLOCKED | RIX_WAIT_WOKEN.

#[global] Instance rix_wait_state_eq_dec : EqDecision rix_wait_state_t.
Proof. solve_decision. Defined.

Record rix_wait_handle_t := { index : Z; hgen : Z }.
Record rix_waiter_t := { wid : Z; wgen : Z; wstate : rix_wait_state_t }.
Record rix_waitqueue_t := { wq_lock : rix_spinlock_t; waiters : list rix_waiter_t; wcount : Z; generation : Z }.

#[global] Program Instance wq_guard : HasGuard rix_waitqueue_t := {|
  guard := wq_lock;
  with_guard l q := {| wq_lock := l; waiters := waiters q; wcount := wcount q; generation := generation q |};
|}.
Next Obligation. done. Qed.
Next Obligation. by intros []. Qed.
Next Obligation. done. Qed.

Definition state_eqb (a b : rix_wait_state_t) : bool :=
  match a, b with
  | RIX_WAIT_UNUSED, RIX_WAIT_UNUSED | RIX_WAIT_READY, RIX_WAIT_READY
  | RIX_WAIT_BLOCKED, RIX_WAIT_BLOCKED | RIX_WAIT_WOKEN, RIX_WAIT_WOKEN => true
  | _, _ => false
  end.
Definition is_state (st : rix_wait_state_t) (w : rix_waiter_t) : bool := state_eqb (wstate w) st.

Lemma is_state_spec st w : is_state st w = true <-> wstate w = st.
Proof. unfold is_state. destruct (wstate w), st; cbn; split; congruence. Qed.
Lemma is_state_true st w : wstate w = st -> is_state st w = true.
Proof. apply is_state_spec. Qed.
Lemma is_state_false st w : wstate w <> st -> is_state st w = false.
Proof. intros H. apply not_true_is_false. by rewrite is_state_spec. Qed.
Lemma is_state_ne st w : is_state st w = false -> wstate w <> st.
Proof. intros H E. by rewrite is_state_true in H. Qed.

Definition set_wstate (st : rix_wait_state_t) (w : rix_waiter_t) : rix_waiter_t :=
  {| wid := wid w; wgen := wgen w; wstate := st |}.
Definition set_waiters (ws : list rix_waiter_t) (q : rix_waitqueue_t) : rix_waitqueue_t :=
  {| wq_lock := wq_lock q; waiters := ws; wcount := wcount q; generation := generation q |}.

Definition rix_waitqueue_init (queue : option rix_waitqueue_t) : option rix_waitqueue_t :=
  match queue with
  | None => None
  | Some q =>
      match rix_spin_init (Some (wq_lock q)) with
      | None => None
      | Some l => Some {| wq_lock := l; wcount := 0; generation := 1;
                          waiters := replicate (Z.to_nat RIX_WQ_MAX_WAITERS)
                                       {| wid := 0; wgen := 0; wstate := RIX_WAIT_UNUSED |} |}
      end
  end.

(** The slot a handle names, if it is in range, in use and of that generation. *)
Definition resolve (q : rix_waitqueue_t) (h : rix_wait_handle_t) : option (nat * rix_waiter_t) :=
  if RIX_WQ_MAX_WAITERS <=? index h then None
  else match waiters q !! Z.to_nat (index h) with
       | None => None
       | Some w => if is_state RIX_WAIT_UNUSED w || negb (wgen w =? hgen h) then None
                   else Some (Z.to_nat (index h), w)
       end.

(** First slot in the given state, scanning from 0. *)
Definition first_in_state (st : rix_wait_state_t) (q : rix_waitqueue_t) : option (nat * rix_waiter_t) :=
  list_find (fun w => wstate w = st) (waiters q).

(** [queue->generation++; if (queue->generation == 0) queue->generation = 1]. *)
Definition next_generation (g : Z) : Z := if u64 (g + 1) =? 0 then 1 else u64 (g + 1).

Definition prepare_body (id : Z) (c : cpu) (q : rix_waitqueue_t) : (Z * option rix_wait_handle_t) * rix_waitqueue_t :=
  match first_in_state RIX_WAIT_UNUSED q with
  | None => ((-1, None), q)
  | Some (i, w) =>
      let g := generation q in
      ((0, Some {| index := Z.of_nat i; hgen := g |}),
       {| wq_lock := wq_lock q;
          waiters := <[i := {| wid := id; wgen := g; wstate := RIX_WAIT_READY |}]> (waiters q);
          wcount := u32 (wcount q + 1);
          generation := next_generation g |})
  end.

Definition block_body (h : rix_wait_handle_t) (c : cpu) (q : rix_waitqueue_t) : Z * rix_waitqueue_t :=
  match resolve q h with
  | None => (-1, q)
  | Some (i, w) =>
      if negb (is_state RIX_WAIT_READY w) then (-1, q)
      else (0, set_waiters (<[i := set_wstate RIX_WAIT_BLOCKED w]> (waiters q)) q)
  end.

Definition take_wakeup_body (h : rix_wait_handle_t) (c : cpu) (q : rix_waitqueue_t) : Z * rix_waitqueue_t :=
  match resolve q h with
  | None => (-1, q)
  | Some (i, w) =>
      if is_state RIX_WAIT_WOKEN w
      then (0, set_waiters (<[i := set_wstate RIX_WAIT_READY w]> (waiters q)) q)
      else (1, q)
  end.

Definition wake_one_body (c : cpu) (q : rix_waitqueue_t) : Z * rix_waitqueue_t :=
  match first_in_state RIX_WAIT_BLOCKED q with
  | Some (i, w) => (0, set_waiters (<[i := set_wstate RIX_WAIT_WOKEN w]> (waiters q)) q)
  | None => (1, q)
  end.

Definition wake_waiter (w : rix_waiter_t) : rix_waiter_t :=
  if is_state RIX_WAIT_BLOCKED w then set_wstate RIX_WAIT_WOKEN w else w.

Definition wake_all_body (c : cpu) (q : rix_waitqueue_t) : Z * rix_waitqueue_t :=
  (countb (is_state RIX_WAIT_BLOCKED) (waiters q), set_waiters (wake_waiter <$> waiters q) q).

Definition remove_body (h : rix_wait_handle_t) (c : cpu) (q : rix_waitqueue_t) : Z * rix_waitqueue_t :=
  match resolve q h with
  | None => (-1, q)
  | Some (i, w) =>
      (0, {| wq_lock := wq_lock q;
             waiters := <[i := {| wid := 0; wgen := wgen w; wstate := RIX_WAIT_UNUSED |}]> (waiters q);
             wcount := if truthy (wcount q) then u32 (wcount q - 1) else wcount q;
             generation := generation q |})
  end.

(** The exported calls: null check, then the body under the queue's lock.
    [prepare] also fails on a null [out] pointer. *)
Definition rix_waitqueue_prepare (id : Z) (has_out : bool)
  : M (cpu * option rix_waitqueue_t) (Z * option rix_wait_handle_t) :=
  if has_out then null_check (-1, None) (locked (prepare_body id)) else mret (-1, None).
Definition rix_waitqueue_block (h : rix_wait_handle_t) : M (cpu * option rix_waitqueue_t) Z :=
  null_check (-1) (locked (block_body h)).
Definition rix_waitqueue_take_wakeup (h : rix_wait_handle_t) : M (cpu * option rix_waitqueue_t) Z :=
  null_check (-1) (locked (take_wakeup_body h)).
Definition rix_waitqueue_wake_one : M (cpu * option rix_waitqueue_t) Z :=
  null_check (-1) (locked wake_one_body).
Definition rix_waitqueue_wake_all : M (cpu * option rix_waitqueue_t) Z :=
  null_check (-1) (locked wake_all_body).
Definition rix_waitqueue_remove (h : rix_wait_handle_t) : M (cpu * option rix_waitqueue_t) Z :=
  null_check (-1) (locked (remove_body h)).

(** ** Histories *)

Inductive wq_op :=
| WPrepare (id : Z) | WBlock (h : rix_wait_handle_t) | WTake (h : rix_wait_handle_t)
| WWakeOne | WWakeAll | WRemove (h : rix_wait_handle_t).

Definition wq_body (op : wq_op) (c : cpu) (q : rix_waitqueue_t) : Z * rix_waitqueue_t :=
  match op with
  | WPrepare id => let '((rc, _), q') := prepare_body id c q in (rc, q')
  | WBlock h => block_body h c q
  | WTake h => take_wakeup_body h c q
  | WWakeOne => wake_one_body c q
  | WWakeAll => wake_all_body c q
  | WRemove h => remove_body h c q
  end.

(** An operation through the exported function. *)
Definition wq_exec (c : cpu) (op : wq_op) (q : rix_waitqueue_t) : option (Z * rix_waitqueue_t) :=
  let run (m : M (cpu * option rix_waitqueue_t) Z) :=
    match m (c, Some q) with Some (rc, (_, Some q')) => Some (rc, q') | _ => None end in
  match op with
  | WPrepare id => match rix_waitqueue_prepare id true (c, Some q) with
                   | Some ((rc, _), (_, Some q')) => Some (rc, q')
                   | _ => None
                   end
  | WBlock h => run (rix_waitqueue_block h)
  | WTake h => run (rix_waitqueue_take_wakeup h)
  | WWakeOne => run rix_waitqueue_wake_one
  | WWakeAll => run rix_waitqueue_wake_all
  | WRemove h => run (rix_waitqueue_remove h)
  end.

(** All the return codes of a history. *)
Fixpoint wq_history (c : cpu) (ops : list wq_op) (q : rix_waitqueue_t) : option (list Z * rix_waitqueue_t) :=
  match ops with
  | [] => Some ([], q)
  | op :: ops =>
      match wq_exec c op q with
      | None => None
      | Some (rc, q') => match wq_history c ops q' with
                         | Some (rcs, q'') => Some (rc :: rcs, q'')
                         | None => None
                         end
      end
  end.

(** A queue between operations. *)
Definition wq_wf (q : rix_waitqueue_t) : Prop :=
  wq_lock q = spin_free /\ length (waiters q) = Z.to_nat RIX_WQ_MAX_WAITERS /\
  wcount q = countb (fun w => negb (is_state RIX_WAIT_UNUSED w)) (waiters q) /\
  1 <= generation q < 2 ^ 64 /\
  Forall (fun w => wgen w < generation q) (waiters q).

Ltac wq_indep :=
  unfold prepare_body, block_body, take_wakeup_body, wake_one_body, wake_all_body, remove_body,
    resolve, first_in_state, set_waiters in *; cbn -[u32 u64 countb list_find];
  repeat case_match; simplify_eq; done.

Lemma wq_exec_run c op q :
  wq_lock q = spin_free -> wq_exec c op q = Some (wq_body op c q).
Proof.
  intros Hg. destruct q as [l ws n g]; cbn in Hg; subst l.
  destruct op; unfold wq_exec, wq_body, rix_waitqueue_prepare, rix_waitqueue_block,
    rix_waitqueue_take_wakeup, rix_waitqueue_wake_one, rix_waitqueue_wake_all, rix_waitqueue_remove;
    rewrite null_check_locked_run by (done || wq_indep);
    match goal with |- context [fst ?x] => destruct x as [r q'] eqn:E end; cbn; by destruct r.
Qed.

(** ** Slots under an operation *)

Lemma resolve_Some q h i w :
  resolve q h = Some (i, w) ->
  index h < RIX_WQ_MAX_WAITERS /\ i = Z.to_nat (index h) /\ waiters q !! i = Some w /\
  wstate w <> RIX_WAIT_UNUSED /\ wgen w = hgen h.
Proof.
  unfold resolve. intros H. case_if; [done|]. case_match; [|done]. case_if; [done|].
  simplify_eq. repeat split; auto using is_state_ne.
Qed.

Lemma first_in_state_Some st q i w :
  first_in_state st q = Some (i, w) -> waiters q !! i = Some w /\ wstate w = st.
Proof. intros H. apply list_find_Some in H. by destruct H as (? & ? & _). Qed.

(** Every slot keeps its generation and does not come into use, or was just
    prepared with the queue's current generation. *)
Lemma wq_body_slot op c q i w' :
  waiters (snd (wq_body op c q)) !! i = Some w' ->
  exists w, waiters q !! i = Some w /\
    (wgen w' = wgen w /\ (wstate w = RIX_WAIT_UNUSED -> wstate w' = RIX_WAIT_UNUSED) \/
     wgen w' = generation q /\
     generation (snd (wq_body op c q)) = next_generation (generation q)).
Proof.
  assert (Hins : forall j w0 w1 (ws : list rix_waiter_t),
    ws !! j = Some w0 -> <[j := w1]> ws !! i = Some w' ->
    (j = i /\ w' = w1 /\ ws !! i = Some w0) \/ ws !! i = Some w').
  { intros j w0 w1 ws H0 H1. destruct (decide (j = i)) as [->|Hne].
    - rewrite list_lookup_insert_eq in H1 by eauto using lookup_lt_Some. simplify_eq. auto.
    - rewrite list_lookup_insert_ne in H1 by done. auto. }
  destruct op; cbn; unfold prepare_body, block_body, take_wakeup_body, wake_one_body, wake_all_body, remove_body.
  - destruct (first_in_state _ q) as [[j w0]|] eqn:E; cbn; [|eauto].
    apply first_in_state_Some in E as [Hj _]. intros H.
    destruct (Hins _ _ _ _ Hj H) as [(-> & -> & H')|H']; eauto.
  - destruct (resolve q h) as [[j w0]|] eqn:E; cbn; [|eauto].
    apply resolve_Some in E as (_ & _ & Hj & Hu & _). case_if; cbn; [eauto|]. intros H.
    destruct (Hins _ _ _ _ Hj H) as [(-> & -> & H')|H']; eauto. exists w0. cbn. split; [done|]. left. done.
  - destruct (resolve q h) as [[j w0]|] eqn:E; cbn; [|eauto].
    apply resolve_Some in E as (_ & _ & Hj & Hu & _). case_if; cbn; [|eauto]. intros H.
    destruct (Hins _ _ _ _ Hj H) as [(-> & -> & H')|H']; eauto. exists w0. cbn. split; [done|]. left. done.
  - destruct (first_in_state _ q) as [[j w0]|] eqn:E; cbn; [|eauto].
    apply first_in_state_Some in E as [Hj Hst]. intros H.
    destruct (Hins _ _ _ _ Hj H) as [(-> & -> & H')|H']; eauto. exists w0. cbn. split; [done|].
    left. split; [done|]. congruence.
  - intros H. apply list_lookup_fmap_Some in H as (w & -> & H). exists w. split; [done|]. left.
    unfold wake_waiter. case_if; [|done]. apply is_state_spec in Heqb. cbn. split; [done|congruence].
  - destruct (resolve q h) as [[j w0]|] eqn:E; cbn; [|eauto].
    apply resolve_Some in E as (_ & _ & Hj & Hu & _). intros H.
    destruct (Hins _ _ _ _ Hj H) as [(-> & -> & H')|H']; eauto.
Qed.

Lemma wq_body_length op c q : length (waiters (snd (wq_body op c q))) = length (waiters q).
Proof.
  destruct op; cbn; unfold prepare_body, block_body, take_wakeup_body, wake_one_body, wake_all_body, remove_body;
    repeat case_match; simplify_eq; cbn; rewrite ?length_insert, ?length_fmap; done.
Qed.

Lemma wq_body_generation op c q :
  1 <= generation q < 2 ^ 64 - 1 ->
  generation q <= generation (snd (wq_body op c q)) <= generation q + 1.
Proof.
  intros Hg.
  assert (Hn : next_generation (generation q) = generation q + 1).
  { unfold next_generation. rewrite u64_id by (unfold is_u64; lia). case_if; lia. }
  destruct op; cbn; unfold prepare_body, block_body, take_wakeup_body, wake_one_body,
    wake_all_body, remove_body; repeat case_match; simplify_eq; cbn; lia.
Qed.

Definition used (w : rix_waiter_t) : bool := negb (is_state RIX_WAIT_UNUSED w).

Lemma countb_fmap_same {A} (f : A -> bool) (g : A -> A) l :
  (forall x, f (g x) = f x) -> countb f (g <$> l) = countb f l.
Proof. intros H. induction l as [|x l IH]; [done|]. cbn. rewrite !countb_cons, H. lia. Qed.

Lemma wq_body_count op c q :
  wq_wf q -> wcount (snd (wq_body op c q)) = countb used (waiters (snd (wq_body op c q))).
Proof.
  intros (Hl & Hlen & Hc & Hg & Hgen).
  pose proof (countb_le_length used (waiters q)) as Hle. rewrite Hlen in Hle.
  change (Z.of_nat (Z.to_nat RIX_WQ_MAX_WAITERS)) with 64 in Hle.
  pose proof (countb_nonneg used (waiters q)) as Hn0. fold used in Hc.
  destruct op; cbn -[u32 u64]; unfold prepare_body, block_body, take_wakeup_body, wake_one_body,
    wake_all_body, remove_body.
  - destruct (first_in_state _ q) as [[j w0]|] eqn:E; cbn -[u32 u64]; [|done].
    apply first_in_state_Some in E as [Hj Hst].
    assert (Hu : used w0 = false) by (unfold used; by rewrite is_state_true).
    match goal with |- _ = countb used ?l =>
      pose proof (countb_le_length used l) as Hle2; rewrite length_insert, Hlen in Hle2 end.
    rewrite (countb_insert _ _ _ _ _ Hj), Hu in *.
    cbn -[u32 Z.of_nat Z.to_nat] in *. unfold RIX_WQ_MAX_WAITERS in Hle2. rewrite Hc, u32_id by (unfold is_u32; lia). lia.
  - destruct (resolve q h) as [[j w0]|] eqn:E; cbn; [|done].
    apply resolve_Some in E as (_ & _ & Hj & Hu & _). case_if; cbn; [done|].
    rewrite (countb_insert _ _ _ _ _ Hj). unfold used at 2. rewrite is_state_false by done. cbn. lia.
  - destruct (resolve q h) as [[j w0]|] eqn:E; cbn; [|done].
    apply resolve_Some in E as (_ & _ & Hj & Hu & _). case_if; cbn; [|done].
    rewrite (countb_insert _ _ _ _ _ Hj). unfold used at 2. rewrite is_state_false by done. cbn. lia.
  - destruct (first_in_state _ q) as [[j w0]|] eqn:E; cbn; [|done].
    apply first_in_state_Some in E as [Hj Hst]. rewrite (countb_insert _ _ _ _ _ Hj).
    unfold used at 2. rewrite is_state_false by congruence. cbn. lia.
  - rewrite countb_fmap_same; [done|]. intros w. unfold wake_waiter, used.
    case_if; [|done]. apply is_state_spec in Heqb. unfold is_state. by rewrite Heqb.
  - destruct (resolve q h) as [[j w0]|] eqn:E; cbn -[u32]; [|done].
    apply resolve_Some in E as (_ & _ & Hj & Hu & _). rewrite (countb_insert _ _ _ _ _ Hj).
    assert (used w0 = true) as Huse by (unfold used; by rewrite is_state_false).
    pose proof (countb_pos used _ _ _ Hj Huse). rewrite Huse. unfold truthy. rewrite Hc.
    destruct (countb used (waiters q) =? 0) eqn:E0; bool_to_prop; [lia|].
    cbn -[u32]. rewrite u32_id by (unfold is_u32; lia). lia.
Qed.

Lemma wq_body_wf op c q :
  wq_wf q -> generation q < 2 ^ 64 - 1 -> wq_wf (snd (wq_body op c q)).
Proof.
  intros Hwf Hlt. pose proof (wq_body_count op c q Hwf) as Hcount.
  pose proof Hwf as (Hl & Hlen & Hc & Hg & Hgen).
  pose proof (wq_body_generation op c q ltac:(lia)) as Hgen'.
  split; [|split; [|split; [|split]]].
  - destruct op; cbn; unfold prepare_body, block_body, take_wakeup_body, wake_one_body, wake_all_body,
      remove_body; repeat case_match; simplify_eq; done.
  - by rewrite wq_body_length.
  - exact Hcount.
  - lia.
  - apply Forall_lookup. intros i w' Hi.
    destruct (wq_body_slot op c q i w' Hi) as (w & Hw & [[-> _]|[-> Hn]]).
    + pose proof (Forall_lookup_1 _ _ _ _ Hgen Hw) as Hlt'. cbn in Hlt'. lia.
    + rewrite Hn. unfold next_generation. rewrite u64_id by (unfold is_u64; lia). case_if; lia.
Qed.

(** ** Stale handles *)

(** A handle that names nothing now and whose generation will not come back. *)
Definition dead (h : rix_wait_handle_t) (q : rix_waitqueue_t) : Prop :=
  resolve q h = None /\ hgen h < generation q.

Lemma dead_body h op c q :
  wq_wf q -> generation q < 2 ^ 64 - 1 -> dead h q -> dead h (snd (wq_body op c q)).
Proof.
  intros Hwf Hlt [Hr Hh]. pose proof Hwf as (_ & _ & _ & Hg & _).
  pose proof (wq_body_generation op c q ltac:(lia)) as Hg'. split; [|lia].
  unfold resolve in *. destruct (RIX_WQ_MAX_WAITERS <=? index h); [done|].
  destruct (waiters (snd _) !! _) as [w'|] eqn:E; [|done].
  destruct (wq_body_slot op c q _ _ E) as (w & Hw & Hcase). rewrite Hw in Hr.
  destruct Hcase as [[Hgen Hun]|[Hgen _]].
  - rewrite Hgen. destruct (is_state RIX_WAIT_UNUSED w) eqn:Eu; cbn in Hr.
    + apply is_state_spec in Eu. by rewrite is_state_true by auto.
    + destruct (negb (wgen w =? hgen h)); [|done]. by rewrite orb_true_r.
  - rewrite Hgen. destruct (generation q =? hgen h) eqn:Eg; bool_to_prop; [lia|]. by rewrite orb_true_r.
Qed.

Lemma wq_history_run c ops q :
  wq_wf q -> generation q + Z.of_nat (length ops) < 2 ^ 64 ->
  exists rcs q', wq_history c ops q = Some (rcs, q') /\ wq_wf q' /\
    (forall h, dead h q -> dead h q').
Proof.
  revert q. induction ops as [|op ops IH]; intros q Hwf Hlen; cbn [wq_history length] in *.
  - eauto 10.
  - pose proof Hwf as (Hl & _ & _ & Hg & _). rewrite wq_exec_run by done.
    pose proof (wq_body_wf op c q Hwf ltac:(lia)) as Hwf'.
    pose proof (wq_body_generation op c q ltac:(lia)) as Hg'.
    destruct (wq_body op c q) as [rc q1] eqn:E. cbn in Hwf', Hg'.
    destruct (IH q1 Hwf') as (rcs & q' & -> & Hwf2 & Hd); [lia|].
    eexists _, _. split; [done|]. split; [done|]. intros h Hh. apply Hd.
    pose proof (dead_body h op c q Hwf ltac:(lia) Hh) as Hh'. by rewrite E in Hh'.
Qed.

(** C36: stale handles are rejected. Once a waiter has been removed from a
    well-formed queue, its handle is refused by block, take_wakeup and remove (-1, nothing changed) after any
    further history of operations, including ones that reuse the slot, as long
    as the 64-bit generation has not wrapped; the registry stays well formed
    (its count is the number of slots in use) throughout. *)
Theorem stale_handle_rejected c h q q1 ops
    (Hwf : wq_wf q)
    (Hrem : wq_exec c (WRemove h) q = Some (0, q1))
    (Hlen : generation q1 + Z.of_nat (length ops) < 2 ^ 64) :
  ∃ rcs q2, wq_history c ops q1 = Some (rcs, q2) ∧ wq_wf q2 ∧
    wq_exec c (WBlock h) q2 = Some (-1, q2) ∧
    wq_exec c (WTake h) q2 = Some (-1, q2) ∧
    wq_exec c (WRemove h) q2 = Some (-1, q2).
Proof.
  pose proof Hwf as (Hl & Hln & Hc & Hg & Hgen). rewrite wq_exec_run in Hrem by done.
  cbn [wq_body] in Hrem. unfold remove_body in Hrem.
  destruct (resolve q h) as [[i w]|] eqn:E; [|simplify_eq]. injection Hrem as Hq1.
  pose proof (wq_body_count (WRemove h) c q Hwf) as Hcount. cbn [wq_body] in Hcount.
  unfold remove_body in Hcount. rewrite E in Hcount. cbn [snd] in Hcount. rewrite Hq1 in Hcount.
  apply resolve_Some in E as (Hidx & -> & Hw & Hu & Hgw).
  pose proof (Forall_lookup_1 _ _ _ _ Hgen Hw) as Hlt. cbn in Hlt.
  assert (Hd : dead h q1).
  { subst q1. split; cbn; [|lia]. unfold resolve. cbn.
    rewrite list_lookup_insert_eq by eauto using lookup_lt_Some. by case_if. }
  assert (Hwf1 : wq_wf q1).
  { subst q1. unfold wq_wf; cbn. rewrite length_insert. repeat split; try done; try lia.
    apply Forall_insert; [done|]. cbn. lia. }
  destruct (wq_history_run c ops q1 Hwf1 Hlen) as (rcs & q2 & Hh & Hwf2 & Hdead).
  destruct (Hdead h Hd) as [Hr2 _]. pose proof Hwf2 as (Hl2 & _).
  exists rcs, q2. rewrite !wq_exec_run by done. cbn [wq_body].
  unfold block_body, take_wakeup_body, remove_body. rewrite Hr2. auto.
Qed.

Definition fresh_queue : rix_waitqueue_t :=
  {| wq_lock := spin_free; wcount := 0; generation := 1;
     waiters := replicate 64 {| wid := 0; wgen := 0; wstate := RIX_WAIT_UNUSED |} |}.

Lemma fresh_queue_wf : wq_wf fresh_queue.
Proof.
  split; [done|]. split; [done|]. split; [done|]. split; [cbn; lia|].
  apply Forall_replicate. cbn. lia.
Qed.

Lemma stale_handle_rejected_witness :
  let c := {| rflags := 0; cpu_pid := 1; cpu_index := 0 |} in
  let h := {| index := 0; hgen := 1 |} in
  let q := snd (prepare_body 9 c fresh_queue) in
  let q1 := snd (remove_body h c q) in
  ∃ rcs q2, wq_history c [WPrepare 10; WWakeAll] q1 = Some (rcs, q2) ∧ wq_wf q2 ∧
    wq_exec c (WBlock h) q2 = Some (-1, q2) ∧
    wq_exec c (WTake h) q2 = Some (-1, q2) ∧ wq_exec c (WRemove h) q2 = Some (-1, q2).
Proof.
  intros c h q q1. apply (stale_handle_rejected c h q q1).
  - exact (wq_body_wf (WPrepare 9) c fresh_queue fresh_queue_wf ltac:(cbn; lia)).
  - vm_compute. reflexivity.
  - vm_compute. reflexivity.
Defined.

(** ** Wakeups are neither lost nor duplicated *)

(** Wakeups an operation delivers, consumes, and drops with a removed waiter. *)
Definition delivered (op : wq_op) (rc : Z) : Z :=
  match op with WWakeOne => if rc =? 0 then 1 else 0 | WWakeAll => rc | _ => 0 end.
Definition consumed (op : wq_op) (rc : Z) : Z :=
  match op with WTake _ => if rc =? 0 then 1 else 0 | _ => 0 end.
Definition dropped (op : wq_op) (q : rix_waitqueue_t) : Z :=
  match op with
  | WRemove h => match resolve q h with Some (_, w) => b2z (is_state RIX_WAIT_WOKEN w) | None => 0 end
  | _ => 0
  end.

Definition woken (q : rix_waitqueue_t) : Z := countb (is_state RIX_WAIT_WOKEN) (waiters q).
Definition blocked (q : rix_waitqueue_t) : Z := countb (is_state RIX_WAIT_BLOCKED) (waiters q).

Lemma wake_all_counts ws :
  countb (is_state RIX_WAIT_WOKEN) (wake_waiter <$> ws)
    = countb (is_state RIX_WAIT_WOKEN) ws + countb (is_state RIX_WAIT_BLOCKED) ws /\
  countb (is_state RIX_WAIT_BLOCKED) (wake_waiter <$> ws) = 0.
Proof.
  induction ws as [|w ws [IH1 IH2]]; [done|]. cbn [fmap list_fmap]. rewrite !countb_cons, IH1, IH2.
  unfold wake_waiter, is_state. destruct w as [i g []]; cbn; lia.
Qed.

Lemma wq_body_woken op c q :
  woken (snd (wq_body op c q)) =
    woken q + delivered op (fst (wq_body op c q)) - consumed op (fst (wq_body op c q)) - dropped op q.
Proof.
  unfold woken. destruct op; cbn -[u32 u64]; unfold prepare_body, block_body, take_wakeup_body,
    wake_one_body, wake_all_body, remove_body.
  - destruct (first_in_state _ q) as [[j w0]|] eqn:E; cbn -[u32 u64]; [|lia].
    apply first_in_state_Some in E as [Hj Hst]. rewrite (countb_insert _ _ _ _ _ Hj).
    unfold is_state. rewrite Hst. cbn. lia.
  - destruct (resolve q h) as [[j w0]|] eqn:E; cbn; [|lia].
    apply resolve_Some in E as (_ & _ & Hj & Hu & _).
    destruct (is_state RIX_WAIT_READY w0) eqn:Er; cbn; [|lia]. apply is_state_spec in Er.
    rewrite (countb_insert _ _ _ _ _ Hj). unfold is_state. rewrite Er. cbn. lia.
  - destruct (resolve q h) as [[j w0]|] eqn:E; cbn; [|lia].
    apply resolve_Some in E as (_ & _ & Hj & Hu & _).
    destruct (is_state RIX_WAIT_WOKEN w0) eqn:Er; cbn; [|lia].
    rewrite (countb_insert _ _ _ _ _ Hj), Er. cbn. lia.
  - destruct (first_in_state _ q) as [[j w0]|] eqn:E; cbn; [|lia].
    apply first_in_state_Some in E as [Hj Hst]. rewrite (countb_insert _ _ _ _ _ Hj).
    unfold is_state. rewrite Hst. cbn. lia.
  - destruct (wake_all_counts (waiters q)) as [-> _]. lia.
  - destruct (resolve q h) as [[j w0]|] eqn:E; cbn -[u32]; [|lia].
    apply resolve_Some in E as (_ & _ & Hj & Hu & _). rewrite (countb_insert _ _ _ _ _ Hj). cbn. lia.
Qed.

(** A history with its running totals of delivered and consumed wakeups. *)
Fixpoint wq_tally (c : cpu) (ops : list wq_op) (q : rix_waitqueue_t) (d t x : Z)
  : option (rix_waitqueue_t * Z * Z * Z) :=
  match ops with
  | [] => Some (q, d, t, x)
  | op :: ops =>
      match wq_exec c op q with
      | None => None
      | Some (rc, q') => wq_tally c ops q' (d + delivered op rc) (t + consumed op rc) (x + dropped op q)
      end
  end.

(** Wakeups are conserved. Over any history on a well-formed queue every
    wakeup that wake_one or wake_all reports is pending on exactly one waiter
    until that waiter's take_wakeup returns 0 once or the waiter is removed:
    delivered + pending before = consumed + dropped + pending after. wake_all
    leaves no waiter blocked, and wake_one reports 1 exactly when none is. *)
Theorem wakeups_conserved c ops q (Hwf : wq_wf q)
    (Hlen : generation q + Z.of_nat (length ops) < 2 ^ 64) :
  (∃ q' d t x, wq_tally c ops q 0 0 0 = Some (q', d, t, x) ∧ wq_wf q' ∧
     woken q + d = t + x + woken q') ∧
  (∃ n q', wq_exec c WWakeAll q = Some (n, q') ∧ n = blocked q ∧ blocked q' = 0) ∧
  (∃ rc q', wq_exec c WWakeOne q = Some (rc, q') ∧ (rc = 1 ↔ blocked q = 0) ∧
     (rc = 0 → blocked q' = blocked q - 1)).
Proof.
  assert (Hgen : ∀ ops q d t x, wq_wf q → generation q + Z.of_nat (length ops) < 2 ^ 64 →
    ∃ q' d' t' x', wq_tally c ops q d t x = Some (q', d', t', x') ∧ wq_wf q' ∧
      woken q + d' - d = t' - t + (x' - x) + woken q').
  { clear. intros ops. induction ops as [|op ops IH]; intros q d t x Hwf Hlen; cbn [wq_tally length] in *.
    - exists q, d, t, x. split; [done|]. split; [done|]. lia.
    - pose proof Hwf as (Hl & _ & _ & Hg & _). rewrite wq_exec_run by done.
      pose proof (wq_body_wf op c q Hwf ltac:(lia)) as Hwf'.
      pose proof (wq_body_generation op c q ltac:(lia)) as Hg'.
      pose proof (wq_body_woken op c q) as Hw.
      destruct (wq_body op c q) as [rc q1] eqn:E. cbn [fst snd] in *.
      edestruct (IH q1) as (q' & d' & t' & x' & -> & Hwf2 & Heq); [done|lia|].
      eexists _, _, _, _. split; [done|]. split; [done|]. lia. }
  pose proof Hwf as (Hl & _). rewrite !wq_exec_run by done. split; [|split].
  - destruct (Hgen ops q 0 0 0 Hwf Hlen) as (q' & d & t & x & E & Hwf' & Heq).
    exists q', d, t, x. split; [done|]. split; [done|]. lia.
  - eexists _, _. split; [done|]. split; [done|]. apply wake_all_counts.
  - eexists _, _. split; [apply f_equal, surjective_pairing|]. cbn [wq_body]. unfold wake_one_body, blocked.
    destruct (first_in_state _ q) as [[j w0]|] eqn:E; cbn.
    + apply first_in_state_Some in E as [Hj Hst]. apply is_state_spec in Hst.
      pose proof (countb_pos _ _ _ _ Hj Hst). split; [lia|]. intros _.
      rewrite (countb_insert _ _ _ _ _ Hj), Hst. cbn. lia.
    + split; [|done]. split; [|done]. intros _. apply list_find_None in E.
      clear -E. induction E as [|w ws Hw E IH]; [done|]. rewrite countb_cons, IH.
      by rewrite is_state_false.
Qed.

Lemma wakeups_conserved_witness :
  let c := {| rflags := 0; cpu_pid := 1; cpu_index := 0 |} in
  let h := {| index := 0; hgen := 1 |} in
  ∃ q' d t x, wq_tally c [WPrepare 9; WBlock h; WWakeOne; WTake h] fresh_queue 0 0 0 = Some (q', d, t, x)
    ∧ wq_wf q' ∧ woken fresh_queue + d = t + x + woken q'.
Proof.
  intros c h.
  exact (proj1 (wakeups_conserved c [WPrepare 9; WBlock h; WWakeOne; WTake h] fresh_queue
    fresh_queue_wf ltac:(cbn; lia))).
Defined.
