(* ===== verification/Lockdep.v ===== *)
(** * Lock-order checker ([kernel/sync/lockdep.h], [kernel/sync/lockdep.c])

    The class registry, the per-CPU stacks of held classes, and what a clean
    report means: classes accepted by the checker cannot wait in a circle. *)
From stdpp Require Import base tactics list numbers strings relations.
From S2P Require Import Prelude Lock.

Definition RIX_LOCKDEP_MAX_CLASSES : Z := 32.
Definition RIX_LOCKDEP_MAX_DEPTH : Z := 8.
Definition RIX_LOCKDEP_CPUS : Z := 64.
Definition RIX_LOCKDEP_UNTRACKED : Z := 0.

(** The static variables of the file; [serial_out] is what [serial_write]
    printed, newest first. *)
Record lockdep_t := {
  registry_lock : rix_spinlock_t;
  class_names : list (option string);
  class_ranks : list Z;
  class_count : Z;
  violations : Z;
  held_stack : list (list Z);
  held_depth : list Z;
  serial_out : list string;
}.

#[global] Program Instance registry_guard : HasGuard lockdep_t := {|
  guard := registry_lock;
  with_guard l s := {| registry_lock := l; class_names := class_names s; class_ranks := class_ranks s;
    class_count := class_count s; violations := violations s; held_stack := held_stack s;
    held_depth := held_depth s; serial_out := serial_out s |};
|}.
Next Obligation. done. Qed.
Next Obligation. by intros []. Qed.
Next Obligation. done. Qed.

(** The initial values of the static variables. *)
Definition lockdep_boot : lockdep_t := {|
  registry_lock := spin_free;
  class_names := replicate 32 None;
  class_ranks := replicate 32 0;
  class_count := 1;
  violations := 0;
  held_stack := replicate 64 (replicate 8 0);
  held_depth := replicate 64 0;
  serial_out := [];
|}.

Definition cpu_slot (c : cpu) : Z :=
  let id := cpu_index c in
  if (id <? 0) || (RIX_LOCKDEP_CPUS <=? id) then 0 else id.

(** [klass < RIX_LOCKDEP_MAX_CLASSES && class_names[klass]]. *)
Definition name_of (s : lockdep_t) (klass : Z) : option string :=
  if klass <? RIX_LOCKDEP_MAX_CLASSES then aget None (class_names s) klass else None.

Definition rix_lockdep_name (s : lockdep_t) (klass : Z) : string :=
  match name_of s klass with Some n => n | None => "?" end.

Definition warn_order (what : string) (klass top : Z) (s : lockdep_t) : lockdep_t :=
  {| registry_lock := registry_lock s; class_names := class_names s; class_ranks := class_ranks s;
     class_count := class_count s; violations := u32 (violations s + 1);
     held_stack := held_stack s; held_depth := held_depth s;
     serial_out := ("LOCKDEP: " +:+ what +:+ " class=" +:+ rix_lockdep_name s klass +:+
                    " top=" +:+ rix_lockdep_name s top)%string :: serial_out s |}.

Definition register_body (name : string) (rank : Z) (c : cpu) (s : lockdep_t)
  : (Z * option Z) * lockdep_t :=
  if RIX_LOCKDEP_MAX_CLASSES <=? class_count s then ((-1, None), s)
  else
    let id := class_count s in
    ((0, Some id),
     {| registry_lock := registry_lock s;
        class_names := aset id (Some name) (class_names s);
        class_ranks := aset id rank (class_ranks s);
        class_count := class_count s + 1;
        violations := violations s; held_stack := held_stack s; held_depth := held_depth s;
        serial_out := serial_out s |}).

Definition rix_lockdep_register (name : option string) (rank : Z) (has_out : bool)
  : M (cpu * lockdep_t) (Z * option Z) :=
  match name with
  | Some n => if bool_decide (n = ""%string) || negb has_out then mret (-1, None)
              else locked (register_body n rank)
  | None => mret (-1, None)
  end.

(** The held classes of a CPU's stack, bottom first. *)
Definition stack_of (s : lockdep_t) (cpu : Z) : list Z := aget [] (held_stack s) cpu.
Definition depth_of (s : lockdep_t) (cpu : Z) : Z := aget 0 (held_depth s) cpu.
Definition top_of (s : lockdep_t) (cpu : Z) : Z := aget 0 (stack_of s cpu) (depth_of s cpu - 1).

(** [held_stack[cpu][held_depth[cpu]++] = klass]. *)
Definition push_held (cpu klass : Z) (s : lockdep_t) : lockdep_t :=
  {| registry_lock := registry_lock s; class_names := class_names s; class_ranks := class_ranks s;
     class_count := class_count s; violations := violations s;
     held_stack := aset cpu (aset (depth_of s cpu) klass (stack_of s cpu)) (held_stack s);
     held_depth := aset cpu (depth_of s cpu + 1) (held_depth s); serial_out := serial_out s |}.
Definition pop_held (cpu : Z) (s : lockdep_t) : lockdep_t :=
  {| registry_lock := registry_lock s; class_names := class_names s; class_ranks := class_ranks s;
     class_count := class_count s; violations := violations s; held_stack := held_stack s;
     held_depth := aset cpu (depth_of s cpu - 1) (held_depth s); serial_out := serial_out s |}.

Definition rank_of (s : lockdep_t) (klass : Z) : Z := aget 0 (class_ranks s) klass.

Definition acquire_body (klass : Z) (c : cpu) (s : lockdep_t) : Z * lockdep_t :=
  let cpu := cpu_slot c in
  if RIX_LOCKDEP_MAX_DEPTH <=? depth_of s cpu then
    (-2, warn_order "depth-overflow" klass (aget 0 (stack_of s cpu) (RIX_LOCKDEP_MAX_DEPTH - 1)) s)
  else if 0 <? depth_of s cpu then
    let top := top_of s cpu in
    if match name_of s top with None => true | Some _ => false end || (rank_of s klass <=? rank_of s top)
    then (-2, warn_order "order-violation" klass top s)
    else (0, push_held cpu klass s)
  else (0, push_held cpu klass s).

Definition release_body (klass : Z) (c : cpu) (s : lockdep_t) : Z * lockdep_t :=
  let cpu := cpu_slot c in
  if (depth_of s cpu =? 0) || negb (top_of s cpu =? klass) then
    (-2, warn_order "release-mismatch" klass (if truthy (depth_of s cpu) then top_of s cpu else 0) s)
  else (0, pop_held cpu s).

(** Interrupts are masked around the body; no lock is taken. *)
Definition irq_masked {R} (body : cpu -> lockdep_t -> R * lockdep_t) : M (cpu * lockdep_t) R :=
  irq ← on_fst rix_irq_save;
  r ← (fun '(c, s) => let '(r, s') := body c s in Some (r, (c, s')));
  _ ← on_fst (rix_irq_restore irq);
  mret r.

Definition rix_lockdep_acquire (klass : Z) : M (cpu * lockdep_t) Z := fun '(c, s) =>
  if klass =? RIX_LOCKDEP_UNTRACKED then Some (0, (c, s))
  else match name_of s klass with
       | None => Some (-1, (c, s))
       | Some _ => irq_masked (acquire_body klass) (c, s)
       end.

Definition rix_lockdep_release (klass : Z) : M (cpu * lockdep_t) Z := fun '(c, s) =>
  if klass =? RIX_LOCKDEP_UNTRACKED then Some (0, (c, s))
  else match name_of s klass with
       | None => Some (-1, (c, s))
       | Some _ => irq_masked (release_body klass) (c, s)
       end.

Definition rix_lockdep_violations (s : lockdep_t) : Z := violations s.

(** ** Invariant *)

(** Classes held by a CPU. *)
Definition held (s : lockdep_t) (cpu : Z) : list Z := take (Z.to_nat (depth_of s cpu)) (stack_of s cpu).

(** Strictly increasing ranks from the bottom of the stack to the top. *)
Fixpoint increasing (rank : Z -> Z) (l : list Z) : Prop :=
  match l with
  | [] => True
  | x :: l' => Forall (fun y => rank x < rank y) l' /\ increasing rank l'
  end.

Definition slot_ok (cpu : Z) : Prop := 0 <= cpu < RIX_LOCKDEP_CPUS.

Definition ld_wf (s : lockdep_t) : Prop :=
  registry_lock s = spin_free /\
  length (class_names s) = 32%nat /\ length (class_ranks s) = 32%nat /\ 1 <= class_count s <= 32 /\
  (forall k, 0 <= k -> is_Some (name_of s k) <-> 1 <= k < class_count s) /\
  length (held_stack s) = 64%nat /\ length (held_depth s) = 64%nat /\
  (forall i, slot_ok i -> length (stack_of s i) = 8%nat /\ 0 <= depth_of s i <= 8 /\
     Forall (fun k => 1 <= k < class_count s) (held s i) /\ increasing (rank_of s) (held s i)).

Lemma cpu_slot_ok c : slot_ok (cpu_slot c).
Proof. unfold slot_ok, cpu_slot, RIX_LOCKDEP_CPUS. case_if; lia. Qed.
#[export] Hint Resolve cpu_slot_ok : rix.

Lemma irq_masked_run {R} (body : cpu -> lockdep_t -> R * lockdep_t) c s :
  irq_masked body (c, s) =
    let '(r, s') := body (set_rflags (Z.clearbit (rflags c) IF_BIT) c) s in Some (r, (c, s')).
Proof.
  unfold irq_masked, mbind, M_bind, on_fst. rewrite irq_save_run.
  destruct (body _ s) as [r s'] eqn:E. by rewrite irq_restore_after_cli.
Qed.

Lemma acquire_run klass c s :
  rix_lockdep_acquire klass (c, s) =
    if klass =? 0 then Some (0, (c, s))
    else match name_of s klass with
         | None => Some (-1, (c, s))
         | Some _ => let '(r, s') := acquire_body klass c s in Some (r, (c, s'))
         end.
Proof. unfold rix_lockdep_acquire, RIX_LOCKDEP_UNTRACKED. case_if; [done|]. case_match; [|done]. apply irq_masked_run. Qed.

Lemma release_run klass c s :
  rix_lockdep_release klass (c, s) =
    if klass =? 0 then Some (0, (c, s))
    else match name_of s klass with
         | None => Some (-1, (c, s))
         | Some _ => let '(r, s') := release_body klass c s in Some (r, (c, s'))
         end.
Proof. unfold rix_lockdep_release, RIX_LOCKDEP_UNTRACKED. case_if; [done|]. case_match; [|done]. apply irq_masked_run. Qed.

(** ** Stacks of increasing rank *)

Lemma increasing_app rank l k :
  increasing rank (l ++ [k]) <-> increasing rank l /\ Forall (fun x => rank x < rank k) l.
Proof.
  induction l as [|x l IH]; cbn; [by repeat split; constructor|].
  rewrite IH, Forall_app, Forall_singleton, Forall_cons. tauto.
Qed.

Lemma increasing_last rank l t :
  increasing rank l -> last l = Some t -> Forall (fun x => rank x <= rank t) l.
Proof.
  intros Hi Hl. apply last_Some in Hl as [l' ->]. apply increasing_app in Hi as [_ HF].
  apply Forall_app. split; [|by constructor; [lia|constructor]].
  eapply Forall_impl; [exact HF|]. cbn. lia.
Qed.

Lemma increasing_prefix rank l n : increasing rank l -> increasing rank (take n l).
Proof.
  revert n. induction l as [|x l IH]; intros [|n] Hi; cbn in *; try done.
  destruct Hi as [HF Hi]. split; [by apply Forall_take|auto].
Qed.

Lemma increasing_ext rank rank' l :
  (forall x, x ∈ l -> rank x = rank' x) -> increasing rank l -> increasing rank' l.
Proof.
  induction l as [|x l IH]; cbn; [done|]. intros He [HF Hi]. split.
  - rewrite Forall_forall in HF |- *. intros y Hy. specialize (HF y Hy). cbn in HF.
    rewrite <- !He by set_solver. done.
  - apply IH; [|done]. intros y Hy. apply He. set_solver.
Qed.

Section Stacks.
Context (s : lockdep_t) (Hwf : ld_wf s).

Lemma stack_facts i : slot_ok i ->
  length (stack_of s i) = 8%nat /\ 0 <= depth_of s i <= 8 /\
  Forall (fun k => 1 <= k < class_count s) (held s i) /\ increasing (rank_of s) (held s i).
Proof using Hwf. apply Hwf. Qed.

Lemma top_is_last i : slot_ok i -> 0 < depth_of s i -> last (held s i) = Some (top_of s i).
Proof using Hwf.
  intros Hi Hd. destruct (stack_facts i Hi) as (Hlen & Hdep & _).
  unfold held. rewrite last_lookup, length_take, Hlen, lookup_take_lt by lia.
  unfold top_of, aget. replace (Init.Nat.pred _) with (Z.to_nat (depth_of s i - 1)) by lia.
  destruct (stack_of s i !! Z.to_nat (depth_of s i - 1)) as [t|] eqn:E; [done|].
  apply lookup_ge_None in E. lia.
Qed.

Lemma aget_aset_slot {A} (d : A) l i j x :
  length l = 64%nat -> slot_ok i -> slot_ok j ->
  aget d (aset i x l) j = if j =? i then x else aget d l j.
Proof.
  unfold slot_ok, RIX_LOCKDEP_CPUS. intros Hl Hi Hj. case_if.
  - subst. apply aget_aset_eq. lia.
  - apply aget_aset_ne; lia.
Qed.

Lemma held_push i j k : slot_ok i -> slot_ok j -> depth_of s i < 8 ->
  held (push_held i k s) j = if j =? i then held s i ++ [k] else held s j.
Proof using Hwf.
  intros Hi Hj Hd. pose proof Hwf as (_ & _ & _ & _ & _ & Hs & Hp & _).
  destruct (stack_facts i Hi) as (Hlen & Hdep & _).
  unfold held, stack_of, depth_of at 1. cbn. rewrite !aget_aset_slot by done.
  destruct (j =? i) eqn:E; [|done]. unfold aset.
  replace (Z.to_nat (depth_of s i + 1)) with (S (Z.to_nat (depth_of s i))) by lia.
  rewrite (take_S_r _ _ k).
  - by rewrite take_insert_ge by lia.
  - apply list_lookup_insert_eq. lia.
Qed.

Lemma held_pop i j : slot_ok i -> slot_ok j ->
  held (pop_held i s) j = if j =? i then take (Z.to_nat (depth_of s i - 1)) (held s i) else held s j.
Proof using Hwf.
  intros Hi Hj. pose proof Hwf as (_ & _ & _ & _ & _ & Hs & Hp & _).
  destruct (stack_facts i Hi) as (Hlen & Hdep & _).
  unfold held, depth_of at 1. cbn. rewrite !aget_aset_slot by done.
  destruct (j =? i) eqn:E; [|done]. bool_to_prop. subst. rewrite take_take. f_equal. lia.
Qed.
End Stacks.

Lemma push_wf i k s :
  ld_wf s -> slot_ok i -> depth_of s i < 8 -> 1 <= k < class_count s ->
  Forall (fun x => rank_of s x < rank_of s k) (held s i) -> ld_wf (push_held i k s).
Proof.
  intros Hwf Hi Hd Hk HF. pose proof Hwf as (Hg & Hn & Hr & Hc & Hnm & Hs & Hp & _).
  repeat (split; [done|]). cbn. rewrite !length_aset. repeat (split; [done|]). intros j Hj.
  rewrite held_push by done. unfold stack_of, depth_of; cbn. rewrite !aget_aset_slot by done.
  destruct (stack_facts s Hwf i Hi) as (Hlen & Hdep & Hcl & Hinc).
  destruct (stack_facts s Hwf j Hj) as (Hlenj & Hdepj & Hclj & Hincj).
  destruct (j =? i); [|done]. rewrite length_aset. split; [done|]. split; [unfold depth_of in *; lia|].
  split; [apply Forall_app; split; [done|by constructor]|]. by apply increasing_app.
Qed.

Lemma pop_wf i s : ld_wf s -> slot_ok i -> 0 < depth_of s i -> ld_wf (pop_held i s).
Proof.
  intros Hwf Hi Hd. pose proof Hwf as (Hg & Hn & Hr & Hc & Hnm & Hs & Hp & _).
  repeat (split; [done|]). cbn. rewrite !length_aset. repeat (split; [done|]). intros j Hj.
  rewrite held_pop by done. unfold depth_of; cbn. rewrite !aget_aset_slot by done.
  destruct (stack_facts s Hwf i Hi) as (Hlen & Hdep & Hcl & Hinc).
  destruct (stack_facts s Hwf j Hj) as (Hlenj & Hdepj & Hclj & Hincj).
  destruct (j =? i) eqn:E; [|done]. split; [done|]. split; [unfold depth_of in *; lia|].
  split; [by apply Forall_take|by apply increasing_prefix].
Qed.

Lemma warn_wf what k t s : ld_wf s -> ld_wf (warn_order what k t s).
Proof. intros Hwf. exact Hwf. Qed.

(** An accepted acquisition outranks everything the CPU holds. *)
Lemma acquire_accepted k c s s' :
  ld_wf s -> acquire_body k c s = (0, s') ->
  s' = push_held (cpu_slot c) k s /\ depth_of s (cpu_slot c) < 8 /\
  Forall (fun x => rank_of s x < rank_of s k) (held s (cpu_slot c)).
Proof.
  intros Hwf. unfold acquire_body, RIX_LOCKDEP_MAX_DEPTH.
  destruct (stack_facts s Hwf _ (cpu_slot_ok c)) as (Hlen & Hdep & Hcl & Hinc).
  destruct (8 <=? _) eqn:E8; [by intros|]. destruct (0 <? _) eqn:E0; bool_to_prop.
  - destruct (_ || _) eqn:Eo; [by intros|]. intros H. injection H as <-.
    split; [done|]. split; [done|]. bool_to_prop.
    pose proof (top_is_last s Hwf _ (cpu_slot_ok c) E0) as Hl.
    eapply Forall_impl; [exact (increasing_last _ _ _ Hinc Hl)|]. cbn. intros x Hx. lia.
  - intros H. injection H as <-. split; [done|]. split; [done|].
    unfold held. replace (Z.to_nat _) with 0%nat by lia. rewrite take_0. constructor.
Qed.

Lemma acquire_body_wf k c s :
  ld_wf s -> is_Some (name_of s k) -> 0 <= k -> ld_wf (snd (acquire_body k c s)).
Proof.
  intros Hwf Hn Hk. pose proof Hwf as (_ & _ & _ & _ & Hnm & _).
  destruct (acquire_body k c s) as [rc s'] eqn:E. cbn.
  destruct (decide (rc = 0)) as [->|Hne].
  - destruct (acquire_accepted k c s s' Hwf E) as (-> & Hd & HF).
    apply push_wf; auto using cpu_slot_ok. by apply Hnm.
  - unfold acquire_body in E. repeat case_match; simplify_eq; done.
Qed.

Lemma release_body_wf k c s : ld_wf s -> ld_wf (snd (release_body k c s)).
Proof.
  intros Hwf. unfold release_body. case_if; cbn; [done|]. apply pop_wf; auto using cpu_slot_ok.
  destruct (stack_facts s Hwf _ (cpu_slot_ok c)) as (_ & Hdep & _). lia.
Qed.

Lemma register_body_wf name rank c s : ld_wf s -> ld_wf (snd (register_body name rank c s)).
Proof.
  intros Hwf. pose proof Hwf as (Hg & Hn & Hr & Hc & Hnm & Hs & Hp & Hst).
  unfold register_body, RIX_LOCKDEP_MAX_CLASSES. case_if; cbn; [done|].
  split; [done|]. cbn. rewrite !length_aset. split; [done|]. split; [done|]. split; [lia|].
  split; [|split; [done|split; [done|]]].
  - intros k Hk. unfold name_of, RIX_LOCKDEP_MAX_CLASSES in *. cbn. specialize (Hnm k Hk).
    destruct (decide (k = class_count s)) as [->|Hne].
    + rewrite (proj2 (Z.ltb_lt _ _)) by lia. rewrite aget_aset_eq by lia.
      split; [lia|]. intros _. by eexists.
    + destruct (k <? 32) eqn:E; bool_to_prop.
      * rewrite aget_aset_ne by lia. rewrite Hnm. lia.
      * split; [by intros [? ?]|lia].
  - intros i Hi. specialize (Hst i Hi) as (Hlen & Hdep & Hcl & Hinc).
    split; [done|]. split; [done|]. split.
    + eapply Forall_impl; [exact Hcl|]. cbn. lia.
    + eapply increasing_ext; [|exact Hinc]. intros x Hx. unfold rank_of; cbn.
      rewrite Forall_forall in Hcl. specialize (Hcl x Hx). cbn in Hcl.
      rewrite aget_aset_ne; [done|lia|lia|lia].
Qed.

Lemma lockdep_boot_wf : ld_wf lockdep_boot.
Proof.
  split; [done|]. split; [done|]. split; [done|]. split; [cbn; lia|].
  split; [|split; [done|split; [done|]]].
  - intros k Hk. unfold name_of, RIX_LOCKDEP_MAX_CLASSES, aget. cbn -[replicate].
    split; [|lia]. case_if; [|by intros [? ?]].
    rewrite lookup_replicate_2 by lia. by intros [? ?].
  - intros i Hi. unfold slot_ok, RIX_LOCKDEP_CPUS in Hi.
    unfold held, stack_of, depth_of, aget. cbn -[replicate].
    rewrite !lookup_replicate_2 by lia. cbn. repeat split; try lia; constructor.
Qed.

(** ** Any CPUs, any order of calls *)

Inductive ld_step : lockdep_t -> lockdep_t -> Prop :=
| ld_register s s' name rank has_out r c c' :
    rix_lockdep_register name rank has_out (c, s) = Some (r, (c', s')) -> ld_step s s'
| ld_acquire s s' k rc c c' :
    0 <= k -> rix_lockdep_acquire k (c, s) = Some (rc, (c', s')) -> ld_step s s'
| ld_release s s' k rc c c' :
    rix_lockdep_release k (c, s) = Some (rc, (c', s')) -> ld_step s s'.

Lemma register_run name rank has_out c s :
  registry_lock s = spin_free ->
  exists r s', rix_lockdep_register name rank has_out (c, s) = Some (r, (c, s')) /\
    (s' = s \/ exists n, s' = snd (register_body n rank c s)).
Proof.
  intros Hg. unfold rix_lockdep_register. destruct name as [n|]; [|eexists _, _; by split; [|left]].
  case_if; [eexists _, _; by split; [|left]|]. rewrite locked_run by done.
  destruct s as [g nm rk cc v hs hd so]; cbn in Hg; subst g. unfold register_body. cbn.
  case_if; cbn; eexists _, _; (split; [done|]); [by left|]. right. exists n. cbn.
  destruct (RIX_LOCKDEP_MAX_CLASSES <=? cc) eqn:E; bool_to_prop; [lia|done].
Qed.

Lemma ld_step_wf s s' : ld_wf s -> ld_step s s' -> ld_wf s'.
Proof.
  intros Hwf Hs. inv Hs.
  - destruct (register_run name rank has_out c s) as (r0 & s0 & E & Hs0); [apply Hwf|].
    rewrite E in H. simplify_eq. destruct Hs0 as [->|[n ->]]; [done|by apply register_body_wf].
  - rewrite acquire_run in H0. repeat case_match; simplify_eq; try done.
    match goal with E : acquire_body ?k ?c ?s = _ |- _ =>
      pose proof (acquire_body_wf k c s Hwf ltac:(eexists; eassumption) ltac:(assumption)) as Hw;
      by rewrite E in Hw end.
  - rewrite release_run in H. repeat case_match; simplify_eq; try done.
    match goal with E : release_body ?k ?c ?s = _ |- _ =>
      pose proof (release_body_wf k c s Hwf) as Hw; by rewrite E in Hw end.
Qed.

Lemma ld_reachable_wf s : rtc ld_step lockdep_boot s -> ld_wf s.
Proof. intros H. assert (Hi := lockdep_boot_wf). induction H; eauto using ld_step_wf. Qed.

(** CPU [a] waits for CPU [b]: [a] is about to take a class the checker accepts
    and that class is held by [b]. *)
Definition waits_for (s : lockdep_t) (a b : cpu) : Prop :=
  exists k s', k <> RIX_LOCKDEP_UNTRACKED /\
    rix_lockdep_acquire k (a, s) = Some (0, (a, s')) /\ k ∈ held s (cpu_slot b).

Lemma acquire_zero k c s s' :
  ld_wf s -> k <> 0 -> rix_lockdep_acquire k (c, s) = Some (0, (c, s')) ->
  Forall (fun x => rank_of s x < rank_of s k) (held s (cpu_slot c)).
Proof.
  intros Hwf Hk. rewrite acquire_run. case_if; [done|]. case_match; [|done].
  destruct (acquire_body k c s) as [rc s''] eqn:E. intros H1. simplify_eq.
  by destruct (acquire_accepted k c s s' Hwf E) as (_ & _ & ?).
Qed.

Lemma waits_for_chain s a b :
  ld_wf s -> tc (waits_for s) a b ->
  exists k s' k', k <> 0 /\ rix_lockdep_acquire k (a, s) = Some (0, (a, s')) /\
    k' ∈ held s (cpu_slot b) /\ rank_of s k <= rank_of s k'.
Proof.
  intros Hwf H. induction H as [a b (k & s' & Hk & Ha & Hb)|a b d (k & s' & Hk & Ha & Hb) _ IH].
  - exists k, s', k. repeat split; try done.
  - destruct IH as (k2 & s2 & k' & Hk2 & Ha2 & Hd & Hle).
    exists k, s', k'. repeat split; try done.
    pose proof (acquire_zero k2 b s s2 Hwf Hk2 Ha2) as HF. rewrite Forall_forall in HF.
    specialize (HF k Hb). cbn in HF. lia.
Qed.

(** C28: what a clean report means. In every state reachable from boot by
    registrations, acquisitions and releases on any CPUs: the classes each CPU
    holds are registered and have strictly increasing ranks, and among
    acquisitions the checker accepts there is no circular wait (no cycle of
    CPUs each about to take a class the next one holds), so locks taken only
    where the checker returned 0 cannot deadlock on ordering. *)
Theorem lockdep_no_circular_wait s (Hr : rtc ld_step lockdep_boot s) :
  (∀ c, Forall (fun k => is_Some (name_of s k)) (held s (cpu_slot c)) ∧
        increasing (rank_of s) (held s (cpu_slot c))) ∧
  (∀ c, ¬ tc (waits_for s) c c).
Proof.
  pose proof (ld_reachable_wf s Hr) as Hwf. split.
  - intros c. destruct (stack_facts s Hwf _ (cpu_slot_ok c)) as (_ & _ & Hcl & Hinc).
    split; [|done]. eapply Forall_impl; [exact Hcl|]. cbn. intros k Hk.
    destruct Hwf as (_ & _ & _ & _ & Hnm & _). apply Hnm; lia.
  - intros c Hc. destruct (waits_for_chain s c c Hwf Hc) as (k & s' & k' & Hk & Ha & Hin & Hle).
    pose proof (acquire_zero k c s s' Hwf Hk Ha) as HF. rewrite Forall_forall in HF.
    specialize (HF k' Hin). cbn in HF. lia.
Qed.

Definition cpu_n (i : Z) : cpu := {| rflags := 0; cpu_pid := 0; cpu_index := i |}.

(** Two classes registered at ranks 10 and 20, each held by its own CPU. *)
Definition two_held : lockdep_t :=
  snd (acquire_body 2 (cpu_n 1) (snd (acquire_body 1 (cpu_n 0)
    (snd (register_body "b" 20 (cpu_n 0) (snd (register_body "a" 10 (cpu_n 0) lockdep_boot))))))).

Lemma lockdep_no_circular_wait_witness :
  held two_held 0 = [1] ∧ held two_held 1 = [2] ∧ ¬ tc (waits_for two_held) (cpu_n 0) (cpu_n 0).
Proof.
  split; [vm_compute; reflexivity|]. split; [vm_compute; reflexivity|].
  refine (proj2 (lockdep_no_circular_wait two_held _) (cpu_n 0)).
  eapply rtc_l; [eapply (ld_register _ _ (Some "a"%string) 10 true _ (cpu_n 0)); vm_compute; reflexivity|].
  eapply rtc_l; [eapply (ld_register _ _ (Some "b"%string) 20 true _ (cpu_n 0)); vm_compute; reflexivity|].
  eapply rtc_l; [eapply (ld_acquire _ _ 1 _ (cpu_n 0)); [discriminate|vm_compute; reflexivity]|].
  eapply rtc_l; [eapply (ld_acquire _ _ 2 _ (cpu_n 1)); [discriminate|vm_compute; reflexivity]|].
  apply rtc_refl.
Defined.
