(* ===== verification/Runqueue.v ===== *)
(** * Per-CPU runqueue ([kernel/sched/runqueue.h], [kernel/sched/runqueue.c])

    A bitmask of task slots with a round-robin cursor and a cap on consecutive
    high-priority picks. *)
From stdpp Require Import base tactics list numbers.
From S2P Require Import Prelude.

Definition RIX_RQ_SLOTS : Z := 32.
Definition RIX_RQ_HIPRI_CAP : Z := 4.

Record rix_runqueue_t := { mask : Z; cursor : Z; hipri_streak : Z }.

Definition rq_init_locked (rq : option rix_runqueue_t) : option rix_runqueue_t :=
  match rq with Some _ => Some {| mask := 0; cursor := 0; hipri_streak := 0 |} | None => None end.

Definition set_mask (m : Z) (rq : rix_runqueue_t) : rix_runqueue_t :=
  {| mask := m; cursor := cursor rq; hipri_streak := hipri_streak rq |}.

Definition rq_add_locked (rq : option rix_runqueue_t) (idx : Z) : option rix_runqueue_t :=
  match rq with
  | None => None
  | Some rq => if RIX_RQ_SLOTS <=? idx then Some rq else Some (set_mask (Z.lor (mask rq) (bit idx)) rq)
  end.

Definition rq_remove_locked (rq : option rix_runqueue_t) (idx : Z) : option rix_runqueue_t :=
  match rq with
  | None => None
  | Some rq => if RIX_RQ_SLOTS <=? idx then Some rq
               else Some (set_mask (Z.land (mask rq) (not32 (bit idx))) rq)
  end.

(** The loop of [rq_scan_locked] with [k] iterations left, at iteration [n]. *)
Fixpoint scan_loop (k : nat) (pool start n : Z) : option Z :=
  match k with
  | O => None
  | S k => let i := (start + n) mod RIX_RQ_SLOTS in
           if truthy (Z.land pool (bit i)) then Some i else scan_loop k pool start (n + 1)
  end.

Definition rq_scan_locked (rq : rix_runqueue_t) (pool start : Z) : Z * rix_runqueue_t :=
  match scan_loop 32 pool start 0 with
  | Some i => (i, {| mask := mask rq; cursor := (i + 1) mod RIX_RQ_SLOTS; hipri_streak := hipri_streak rq |})
  | None => (-1, rq)
  end.

Definition set_streak (n : Z) (rq : rix_runqueue_t) : rix_runqueue_t :=
  {| mask := mask rq; cursor := cursor rq; hipri_streak := n |}.

(** The whole-mask pass with the streak reset. *)
Definition rq_normal_pass (rq : rix_runqueue_t) (start : Z) : Z * rix_runqueue_t :=
  let '(pick, rq') := rq_scan_locked rq (mask rq) start in (pick, set_streak 0 rq').

Definition rq_pick_locked (rq : option rix_runqueue_t) (himask : Z) : Z * option rix_runqueue_t :=
  match rq with
  | None => (-1, None)
  | Some rq =>
      if mask rq =? 0 then (-1, Some rq)
      else
        let start := cursor rq mod RIX_RQ_SLOTS in
        let pool := Z.land (mask rq) himask in
        if truthy pool && (hipri_streak rq <? RIX_RQ_HIPRI_CAP) then
          let '(pick, rq') := rq_scan_locked rq pool start in
          if 0 <=? pick then (pick, Some (set_streak (u32 (hipri_streak rq' + 1)) rq'))
          else let '(pick, rq'') := rq_normal_pass rq' start in (pick, Some rq'')
        else let '(pick, rq') := rq_normal_pass rq start in (pick, Some rq')
  end.

Definition rq_empty_locked (rq : option rix_runqueue_t) : bool :=
  match rq with None => true | Some rq => mask rq =? 0 end.

(** The [while (m)] loop of [rq_count_locked]; [k] bounds the iterations and
    32 of them clear any 32-bit word (see [count_loop_spec]). *)
Fixpoint count_loop (k : nat) (m n : Z) : Z :=
  match k with
  | O => n
  | S k => if m =? 0 then n else count_loop k (Z.shiftr m 1) (u32 (n + Z.land m 1))
  end.

Definition rq_count_locked (rq : option rix_runqueue_t) : Z :=
  match rq with None => 0 | Some rq => count_loop 32 (mask rq) 0 end.

Definition rq_contains_locked (rq : option rix_runqueue_t) (idx : Z) : bool :=
  match rq with
  | None => false
  | Some rq => if RIX_RQ_SLOTS <=? idx then false else truthy (Z.land (mask rq) (bit idx))
  end.

(** ** The scan *)

(** How far slot [i] is ahead of position [c] on the ring. *)
Definition ahead (c i : Z) : Z := (i - c) mod 32.

Lemma ahead_range c i : 0 <= ahead c i < 32.
Proof. apply Z.mod_pos_bound. lia. Qed.

Lemma ahead_back c i : 0 <= i < 32 -> (c + ahead c i) mod 32 = i.
Proof. intros Hi. unfold ahead. rewrite Zplus_mod_idemp_r. replace (c + (i - c)) with i by lia. by apply Z.mod_small. Qed.

Lemma scan_loop_spec k pool start n :
  0 <= n ->
  match scan_loop k pool start n with
  | Some i => exists d, n <= d < n + Z.of_nat k /\ i = (start + d) mod 32 /\ Z.testbit pool i = true /\
                forall e, n <= e < d -> Z.testbit pool ((start + e) mod 32) = false
  | None => forall e, n <= e < n + Z.of_nat k -> Z.testbit pool ((start + e) mod 32) = false
  end.
Proof.
  revert n. induction k as [|k IH]; intros n Hn; cbn [scan_loop]; [lia|].
  unfold RIX_RQ_SLOTS. pose proof (Z.mod_pos_bound (start + n) 32) as Hb.
  rewrite land_bit_test by lia. destruct (Z.testbit pool _) eqn:E.
  - exists n. repeat split; try lia; done.
  - specialize (IH (n + 1) ltac:(lia)). destruct (scan_loop k pool start (n + 1)) as [i|].
    + destruct IH as (d & Hd & -> & Ht & Hf). exists d. repeat split; try lia; try done.
      intros e He. destruct (decide (e = n)) as [->|]; [done|]. apply Hf. lia.
    + intros e He. destruct (decide (e = n)) as [->|]; [done|]. apply IH. lia.
Qed.

(** The scan finds the set bit nearest ahead of [start]; it fails only on 0. *)
Lemma scan_32 pool start :
  is_u32 pool -> pool <> 0 ->
  exists i, scan_loop 32 pool start 0 = Some i /\ 0 <= i < 32 /\ Z.testbit pool i = true /\
    forall j, 0 <= j < 32 -> Z.testbit pool j = true -> ahead start i <= ahead start j.
Proof.
  intros Hp Hnz. pose proof (scan_loop_spec 32 pool start 0 ltac:(lia)) as Hs.
  destruct (nonzero_has_bit pool 32 Hp Hnz) as (m & Hm & Hbit).
  destruct (scan_loop 32 pool start 0) as [i|].
  - destruct Hs as (d & Hd & -> & Ht & Hf). eexists. split; [done|].
    split; [apply Z.mod_pos_bound; lia|]. split; [done|]. intros j Hj Hbj.
    assert (ahead start ((start + d) mod 32) = d) as ->.
    { unfold ahead. rewrite Zminus_mod_idemp_l. replace (start + d - start) with d by lia.
      apply Z.mod_small. lia. }
    destruct (decide (d <= ahead start j)); [done|]. exfalso. pose proof (ahead_range start j).
    specialize (Hf (ahead start j) ltac:(lia)). rewrite ahead_back in Hf by lia. congruence.
  - exfalso. pose proof (ahead_range start m). specialize (Hs (ahead start m) ltac:(lia)).
    rewrite ahead_back in Hs by lia. congruence.
Qed.

Lemma pow2_testbit_range m i : is_u32 m -> Z.testbit m i = true -> 0 <= i < 32.
Proof.
  intros Hm Hb. destruct (decide (i < 0)); [by rewrite Z.testbit_neg_r in Hb by lia|].
  destruct (decide (i < 32)); [lia|]. rewrite (testbit_high m 32 i) in Hb by (unfold is_u32 in *; lia). done.
Qed.

Definition rq_wf (rq : rix_runqueue_t) : Prop :=
  is_u32 (mask rq) /\ 0 <= cursor rq < 32 /\ 0 <= hipri_streak rq <= RIX_RQ_HIPRI_CAP.

(** What one pick does: which pass ran and where it landed. *)
Lemma rq_pick_spec rq himask :
  rq_wf rq -> mask rq <> 0 -> 0 <= himask ->
  exists i rq', rq_pick_locked (Some rq) himask = (i, Some rq') /\ rq_wf rq' /\
    mask rq' = mask rq /\ Z.testbit (mask rq) i = true /\ cursor rq' = (i + 1) mod 32 /\
    ((Z.testbit himask i = true /\ hipri_streak rq < 4 /\ hipri_streak rq' = hipri_streak rq + 1 /\
      forall j, Z.testbit (mask rq) j = true -> Z.testbit himask j = true -> ahead (cursor rq) i <= ahead (cursor rq) j) \/
     (hipri_streak rq' = 0 /\ (Z.land (mask rq) himask = 0 \/ hipri_streak rq = 4) /\
      forall j, Z.testbit (mask rq) j = true -> ahead (cursor rq) i <= ahead (cursor rq) j)).
Proof.
  intros (Hm & Hc & Hs) Hnz Hh. unfold RIX_RQ_HIPRI_CAP in Hs.
  unfold rq_pick_locked, rq_normal_pass, rq_scan_locked, RIX_RQ_SLOTS, RIX_RQ_HIPRI_CAP.
  destruct (mask rq =? 0) eqn:E0; bool_to_prop; [done|].
  rewrite (Z.mod_small (cursor rq)) by lia.
  assert (Hcm : forall i, 0 <= (i + 1) mod 32 < 32) by (intros; apply Z.mod_pos_bound; lia).
  assert (Hpool : is_u32 (Z.land (mask rq) himask)) by (apply land_range; [lia|done]).
  destruct (truthy _ && _) eqn:Eh; bool_to_prop.
  - unfold truthy in H. bool_to_prop.
    destruct (scan_32 (Z.land (mask rq) himask) (cursor rq) Hpool H) as (i & -> & Hi & Hb & Hmin).
    cbn. rewrite (proj2 (Z.leb_le 0 i)) by lia. rewrite Z.land_spec in Hb. bool_to_prop.
    eexists i, _. split; [done|]. unfold rq_wf, RIX_RQ_HIPRI_CAP. cbn.
    rewrite u32_id by (unfold is_u32; lia). repeat split; try apply Hm; try apply Hcm; try lia; try done.
    left. repeat split; try done; try lia. intros j Hj Hj2. apply Hmin; [exact (pow2_testbit_range _ _ Hm Hj)|].
    rewrite Z.land_spec, Hj, Hj2. done.
  - destruct (scan_32 (mask rq) (cursor rq) Hm Hnz) as (i & -> & Hi & Hb & Hmin). cbn.
    eexists i, _. split; [done|]. unfold rq_wf, RIX_RQ_HIPRI_CAP. cbn.
    repeat split; try apply Hm; try apply Hcm; try lia; try done.
    right. repeat split; try done.
    + unfold truthy in Eh. destruct Eh as [Eh|Eh]; bool_to_prop; [by left|right; lia].
    + intros j Hj. apply Hmin; [exact (pow2_testbit_range _ _ Hm Hj)|done].
Qed.

(** ** Sequences of picks *)

(** [n] picks in a row with the mask left alone; the picked slots, oldest first. *)
Fixpoint picks (n : nat) (himask : Z) (rq : rix_runqueue_t) : list Z * rix_runqueue_t :=
  match n with
  | O => ([], rq)
  | S n => match rq_pick_locked (Some rq) himask with
           | (i, Some rq') => let '(l, rq'') := picks n himask rq' in (i :: l, rq'')
           | (i, None) => ([i], rq)
           end
  end.

(** A pick that is not [j] brings the cursor closer to [j]. *)
Lemma ahead_decreases c i j :
  0 <= i < 32 -> 0 <= j < 32 -> i <> j -> ahead c i <= ahead c j ->
  ahead ((i + 1) mod 32) j < ahead c j.
Proof.
  intros Hi Hj Hne Hle. unfold ahead in *.
  assert (Hlt : (i - c) mod 32 < (j - c) mod 32).
  { destruct (decide ((i - c) mod 32 = (j - c) mod 32)) as [E|]; [|lia]. exfalso. apply Hne.
    assert ((c + (i - c) mod 32) mod 32 = (c + (j - c) mod 32) mod 32) as E2 by congruence.
    rewrite !Zplus_mod_idemp_r in E2. replace (c + (i - c)) with i in E2 by lia.
    replace (c + (j - c)) with j in E2 by lia. rewrite !Z.mod_small in E2 by lia. done. }
  rewrite Zminus_mod_idemp_r.
  replace (j - (i + 1)) with ((j - c) - (i - c) - 1) by lia.
  rewrite <- Zminus_mod_idemp_l, (Zminus_mod (j - c)).
  pose proof (Z.mod_pos_bound (j - c) 32). pose proof (Z.mod_pos_bound (i - c) 32).
  rewrite Zminus_mod_idemp_l, Z.mod_small by lia. lia.
Qed.

Lemma picks_reach n rq j :
  rq_wf rq -> Z.testbit (mask rq) j = true -> ahead (cursor rq) j < Z.of_nat n ->
  j ∈ (picks n 0 rq).1.
Proof.
  revert rq. induction n as [|n IH]; intros rq Hwf Hj Hn.
  { pose proof (ahead_range (cursor rq) j). lia. }
  assert (Hnz : mask rq <> 0) by (intros E; by rewrite E, Z.bits_0 in Hj).
  destruct (rq_pick_spec rq 0 Hwf Hnz ltac:(lia)) as (i & rq' & E & Hwf' & Hm & Hb & Hc & Hcase).
  cbn [picks]. rewrite E. destruct (picks n 0 rq') as [l rq''] eqn:Ep. cbn.
  destruct (decide (i = j)) as [->|Hne]; [left|]. right.
  replace l with ((picks n 0 rq').1) by (by rewrite Ep). apply IH; [done|by rewrite Hm|].
  destruct Hcase as [(Hh & _)|(_ & _ & Hmin)]; [by rewrite Z.bits_0 in Hh|].
  rewrite Hc. pose proof (pow2_testbit_range _ _ (proj1 Hwf) Hb).
  pose proof (pow2_testbit_range _ _ (proj1 Hwf) Hj).
  pose proof (ahead_decreases (cursor rq) i j ltac:(done) ltac:(done) Hne (Hmin j Hj)). lia.
Qed.

(** Round robin is fair. With no high-priority slots, every slot in the mask
    is picked within any 32 consecutive picks, and every pick is a slot of the
    mask: no runnable task starves. *)
Theorem round_robin_fair rq (Hwf : rq_wf rq) (Hnz : mask rq ≠ 0) :
  (∀ j, Z.testbit (mask rq) j = true → j ∈ (picks 32 0 rq).1) ∧
  (∀ n, Forall (fun i => Z.testbit (mask rq) i = true) (picks n 0 rq).1 ∧ length (picks n 0 rq).1 = n).
Proof.
  split.
  - intros j Hj. apply picks_reach; [done|done|]. pose proof (ahead_range (cursor rq) j). lia.
  - intros n. revert rq Hwf Hnz. induction n as [|n IH]; intros rq Hwf Hnz; [by split|].
    destruct (rq_pick_spec rq 0 Hwf Hnz ltac:(lia)) as (i & rq' & E & Hwf' & Hm & Hb & _).
    cbn [picks]. rewrite E. destruct (IH rq' Hwf') as [HF HL]; [by rewrite Hm|].
    destruct (picks n 0 rq') as [l rq''] eqn:Ep. cbn in *. rewrite Hm in HF.
    split; [by constructor|by rewrite HL].
Qed.

Lemma round_robin_fair_witness :
  31 ∈ (picks 32 0 {| mask := 0x80000005; cursor := 7; hipri_streak := 0 |}).1 ∧
  length (picks 5 0 {| mask := 0x80000005; cursor := 7; hipri_streak := 0 |}).1 = 5%nat.
Proof.
  destruct (round_robin_fair {| mask := 0x80000005; cursor := 7; hipri_streak := 0 |}) as [H1 H2].
  - split; [split; cbn; lia|]. unfold RIX_RQ_HIPRI_CAP; cbn; lia.
  - cbn. lia.
  - split; [apply H1; reflexivity|apply H2].
Defined.

(** ** The high-priority cap *)

(** The cap on high-priority picks. For any priority mask, a pick lands in
    the mask and keeps the queue well formed; the streak counts consecutive
    high-priority passes and never exceeds 4; and when it has reached 4 the next
    pick runs the whole-mask pass (nearest slot ahead of the cursor, whatever
    its priority) and resets the streak. So of any 5 consecutive picks at least
    one is a whole-mask pass. *)
Theorem hipri_cap_enforced rq himask (Hwf : rq_wf rq) (Hnz : mask rq ≠ 0) (Hh : 0 <= himask) :
  ∃ i rq', rq_pick_locked (Some rq) himask = (i, Some rq') ∧ rq_wf rq' ∧
    rq_contains_locked (Some rq) i = true ∧ mask rq' = mask rq ∧
    (hipri_streak rq' = hipri_streak rq + 1 ∨ hipri_streak rq' = 0) ∧
    (hipri_streak rq = 4 → hipri_streak rq' = 0 ∧
       ∀ j, Z.testbit (mask rq) j = true → ahead (cursor rq) i <= ahead (cursor rq) j).
Proof.
  destruct (rq_pick_spec rq himask Hwf Hnz Hh) as (i & rq' & E & Hwf' & Hm & Hb & Hc & Hcase).
  exists i, rq'. split; [done|]. split; [done|]. split.
  { pose proof (pow2_testbit_range _ _ (proj1 Hwf) Hb). unfold rq_contains_locked, RIX_RQ_SLOTS.
    rewrite (proj2 (Z.leb_gt _ _)) by lia. by rewrite land_bit_test by lia. }
  split; [done|]. destruct Hcase as [(_ & Hlt & Hs & _)|(Hs & _ & Hmin)].
  - split; [by left|]. lia.
  - split; [by right|]. by intros _.
Qed.

Lemma hipri_cap_enforced_witness :
  ∃ i rq', rq_pick_locked (Some {| mask := 0x54; cursor := 5; hipri_streak := 4 |}) 0x10 = (i, Some rq') ∧
    rq_wf rq' ∧ hipri_streak rq' = 0.
Proof.
  destruct (hipri_cap_enforced {| mask := 0x54; cursor := 5; hipri_streak := 4 |} 0x10)
    as (i & rq' & E & Hw & _ & _ & _ & H4).
  - split; [split; cbn; lia|]. unfold RIX_RQ_HIPRI_CAP; cbn; lia.
  - cbn. lia.
  - lia.
  - exists i, rq'. split; [exact E|]. split; [exact Hw|]. exact (proj1 (H4 eq_refl)).
Defined.

(** Normal work can starve. The header promises that with the cap "normal
    work always drains". It does not: with slots 2, 4 and 6 runnable and slot 4
    high priority, slot 2 is never picked, however long the queue runs, because
    every forced whole-mask pass starts just after slot 4 and finds slot 6. *)
Theorem normal_slot_starves n :
  Z.testbit 0x54 2 = true ∧
  2 ∉ (picks n 0x10 {| mask := 0x54; cursor := 0; hipri_streak := 0 |}).1.
Proof.
  split; [done|].
  assert (Hinv : ∀ n c st, (c = 0 ∧ st = 0) ∨ (c = 7 ∧ st = 0) ∨ (c = 5 ∧ (st = 1 ∨ st = 2 ∨ st = 3 ∨ st = 4)) →
    2 ∉ (picks n 0x10 {| mask := 0x54; cursor := c; hipri_streak := st |}).1).
  { clear n. induction n as [|n IH]; intros c st Hc; [apply not_elem_of_nil|].
    cbn [picks].
    assert (Hgo : ∀ i c' st', i ≠ 2 →
      rq_pick_locked (Some {| mask := 0x54; cursor := c; hipri_streak := st |}) 0x10
        = (i, Some {| mask := 0x54; cursor := c'; hipri_streak := st' |}) →
      2 ∉ (picks n 0x10 {| mask := 0x54; cursor := c'; hipri_streak := st' |}).1 →
      2 ∉ (match rq_pick_locked (Some {| mask := 0x54; cursor := c; hipri_streak := st |}) 0x10 with
           | (i, Some rq') => let '(l, rq'') := picks n 0x10 rq' in (i :: l, rq'')
           | (i, None) => ([i], {| mask := 0x54; cursor := c; hipri_streak := st |})
           end).1).
    { intros i c' st' Hi -> Hn. destruct (picks n _ _) as [l rq'']. cbn in *.
      apply not_elem_of_cons. split; [congruence|done]. }
    destruct Hc as [ [-> ->] | [ [-> ->] | [-> [-> | [-> | [-> | ->] ] ] ] ] ];
      (eapply Hgo; [|vm_compute; reflexivity|apply IH; lia]; discriminate). }
  apply Hinv. lia.
Qed.

(** ** The mask as a set of slots *)

Lemma countb_shift m k :
  countb (Z.testbit m) (seqZ 0 (Z.of_nat (S k)))
    = Z.land m 1 + countb (Z.testbit (Z.shiftr m 1)) (seqZ 0 (Z.of_nat k)).
Proof.
  rewrite seqZ_cons by lia. rewrite countb_cons. f_equal.
  - change 1 with (Z.ones 1) at 1. rewrite Z.land_ones, Z.bit0_odd by lia. change (2 ^ 1) with 2.
    rewrite Zmod_odd. by destruct (Z.odd m).
  - replace (Z.succ 0) with (1 + 0) by lia. replace (Z.pred (Z.of_nat (S k))) with (Z.of_nat k) by lia.
    rewrite <- (fmap_add_seqZ 1 0).
    assert (Hge : Forall (fun i => 0 <= i) (seqZ 0 (Z.of_nat k))).
    { apply Forall_forall. intros i Hi. apply list_elem_of_In, elem_of_seqZ in Hi. lia. }
    induction Hge as [|i l Hi Hge IHl]; [done|]. rewrite fmap_cons, !countb_cons, IHl.
    rewrite Z.shiftr_spec by done. do 3 f_equal. lia.
Qed.

Lemma count_loop_spec k m n :
  0 <= m < 2 ^ Z.of_nat k -> 0 <= n -> n + Z.of_nat k < 2 ^ 32 ->
  count_loop k m n = n + countb (Z.testbit m) (seqZ 0 (Z.of_nat k)).
Proof.
  revert m n. induction k as [|k IH]; intros m n Hm Hn Hb; [symmetry; apply Z.add_0_r|].
  rewrite countb_shift. cbn [count_loop].
  assert (Hl : 0 <= Z.land m 1 <= 1).
  { pose proof (Z.land_ones m 1 ltac:(lia)) as El. change (Z.ones 1) with 1 in El. rewrite El. pose proof (Z.mod_pos_bound m (2 ^ 1)). lia. }
  destruct (m =? 0) eqn:E; bool_to_prop.
  - subst m. change (Z.land 0 1) with 0. change (Z.shiftr 0 1) with 0.
    assert (H0 : count_loop k 0 0 = 0) by (by destruct k).
    rewrite IH in H0; [lia | split; [lia|apply Z.pow_pos_nonneg; lia] | lia | lia].
  - rewrite u32_id by (split; lia). rewrite IH; try lia.
    rewrite Z.shiftr_div_pow2 by lia. change (2 ^ 1) with 2.
    rewrite Nat2Z.inj_succ, Z.pow_succ_r in Hm by lia.
    split; [apply Z.div_pos; lia|apply Z.div_lt_upper_bound; lia].
Qed.

Definition op_add (i : Z) (rq : rix_runqueue_t) : rix_runqueue_t := default rq (rq_add_locked (Some rq) i).
Definition op_remove (i : Z) (rq : rix_runqueue_t) : rix_runqueue_t := default rq (rq_remove_locked (Some rq) i).

Lemma contains_testbit rq i :
  is_u32 (mask rq) -> 0 <= i -> rq_contains_locked (Some rq) i = (i <? 32) && Z.testbit (mask rq) i.
Proof.
  intros Hm Hi. unfold rq_contains_locked, RIX_RQ_SLOTS. case_if.
  - destruct (i <? 32) eqn:E; bool_to_prop; [lia|done].
  - rewrite land_bit_test by done. by destruct (i <? 32) eqn:E; bool_to_prop; [|lia].
Qed.

(** The mask is a finite set of slots. Adding a slot makes exactly that
    slot a member, removing it makes exactly that slot a non-member, other slots
    and out-of-range indices are untouched, neither moves the cursor or the
    streak, and [rq_count_locked] is the number of members. *)
Theorem rq_set_semantics rq i (Hm : is_u32 (mask rq)) (Hi : is_u32 i) :
  (∀ j, is_u32 j →
     rq_contains_locked (Some (op_add i rq)) j = rq_contains_locked (Some rq) j || (j =? i) && (i <? 32) ∧
     rq_contains_locked (Some (op_remove i rq)) j = rq_contains_locked (Some rq) j && negb (j =? i)) ∧
  is_u32 (mask (op_add i rq)) ∧ is_u32 (mask (op_remove i rq)) ∧
  cursor (op_add i rq) = cursor rq ∧ cursor (op_remove i rq) = cursor rq ∧
  hipri_streak (op_add i rq) = hipri_streak rq ∧ hipri_streak (op_remove i rq) = hipri_streak rq ∧
  rq_count_locked (Some rq) = countb (rq_contains_locked (Some rq)) (seqZ 0 32).
Proof.
  assert (Ha : is_u32 (mask (op_add i rq)) /\ is_u32 (mask (op_remove i rq))).
  { unfold op_add, op_remove, rq_add_locked, rq_remove_locked, RIX_RQ_SLOTS. case_if; cbn [default mask set_mask];
      [done|]. unfold is_u32 in *. split; [apply lor_range|apply land_range]; try lia.
    apply bit_range; lia. }
  destruct Ha as [Ha Hr]. split.
  - intros j Hj. unfold is_u32 in *. rewrite !contains_testbit by (unfold is_u32; lia).
    unfold op_add, op_remove, rq_add_locked, rq_remove_locked, RIX_RQ_SLOTS.
    destruct (32 <=? i) eqn:E; bool_to_prop; cbn [default mask set_mask id].
    + destruct (i <? 32) eqn:E1; bool_to_prop; [lia|]. rewrite andb_false_r, orb_false_r.
      split; [done|]. destruct (j <? 32) eqn:E2; bool_to_prop; [|done].
      destruct (j =? i) eqn:E3; bool_to_prop; [lia|]. by rewrite andb_true_r.
    + destruct (i <? 32) eqn:E1; bool_to_prop; [|lia].
      rewrite lor_bit_testbit, land_not32_testbit by (try done; lia).
      destruct (j <? 32) eqn:E2; bool_to_prop; destruct (j =? i) eqn:E3; bool_to_prop; try lia;
        cbn; rewrite ?andb_true_r, ?orb_false_r; done.
  - split; [done|]. split; [done|]. unfold op_add, op_remove, rq_add_locked, rq_remove_locked.
    do 4 (split; [by case_if|]).
    unfold rq_count_locked. rewrite count_loop_spec by (try done; lia).
    change (Z.of_nat 32) with 32. rewrite Z.add_0_l. unfold countb.
    assert (Hf : Forall (fun j => 0 <= j < 32) (seqZ 0 32)).
    { apply Forall_forall. intros j Hj. apply list_elem_of_In, elem_of_seqZ in Hj. lia. }
    induction Hf as [|j l Hj Hf IH]; [done|]. cbn [sumz]. rewrite IH, contains_testbit by (try done; lia).
    by destruct (j <? 32) eqn:E; bool_to_prop; [|lia].
Qed.

Lemma rq_set_semantics_witness :
  rq_contains_locked (Some (op_add 7 {| mask := 0x11; cursor := 3; hipri_streak := 1 |})) 7 = true ∧
  rq_count_locked (Some {| mask := 0x11; cursor := 3; hipri_streak := 1 |}) = 2.
Proof.
  destruct (rq_set_semantics {| mask := 0x11; cursor := 3; hipri_streak := 1 |} 7
              ltac:(unfold is_u32; cbn; lia) ltac:(unfold is_u32; lia)) as [H [_ [_ [_ [_ [_ [_ Hc]]]]]]].
  split.
  - exact (proj1 (H 7 ltac:(unfold is_u32; lia))).
  - exact Hc.
Defined.
