(* ===== verification/Thread.v ===== *)
(** * Thread objects ([kernel/sched/thread.h], [kernel/sched/thread.c])

    The fixed table of thread objects behind the scheduler's task slots. Process
    liveness is the caller's: [proc_state] stands for [process_lookup], and gives
    the state of a process, if there is one with that pid. *)
From Stdlib Require Import Sorting.Sorted.
From stdpp Require Import base tactics list numbers gmap.
From S2P Require Import Prelude.

Definition RIX_THREAD_MAX : Z := 64.
Definition RIX_THREAD_UNUSED : Z := 0.
Definition RIX_THREAD_ACTIVE : Z := 1.
Definition RIX_THREAD_DETACHED : Z := 2.
Definition RIX_PROC_UNUSED : Z := 0.
Definition RIX_PROC_ZOMBIE : Z := 3.

Record rix_thread_info_t := { info_tid : Z; info_owner_pid : Z; info_state : Z; info_flags : Z }.
Record rix_thread_t := { tid : Z; owner_pid : Z; state : Z }.
Record thread_table := { threads : list rix_thread_t; next_tid : Z }.

Definition unused_thread : rix_thread_t := {| tid := 0; owner_pid := 0; state := RIX_THREAD_UNUSED |}.

Definition thread_table_init : thread_table :=
  {| threads := replicate (Z.to_nat RIX_THREAD_MAX) unused_thread; next_tid := 1 |}.

Definition in_use (t : rix_thread_t) : bool := negb (state t =? RIX_THREAD_UNUSED).

(** First index whose entry satisfies [p]: the search loops of the file. *)
Fixpoint find_slot (p : rix_thread_t -> bool) (i : Z) (l : list rix_thread_t) : option Z :=
  match l with
  | [] => None
  | t :: l => if p t then Some i else find_slot p (i + 1) l
  end.

Definition find_locked (T : thread_table) (id : Z) : option Z :=
  if id =? 0 then None else find_slot (fun t => in_use t && (tid t =? id)) 0 (threads T).

Definition owner_live (proc_state : Z -> option Z) (pid : Z) : bool :=
  if pid =? 0 then true
  else match proc_state pid with
       | None => false
       | Some s => negb ((s =? RIX_PROC_UNUSED) || (s =? RIX_PROC_ZOMBIE))
       end.

(** [out] says whether the result pointer is non-null; the second component is
    what is stored through it. *)
Definition thread_alloc_locked (proc_state : Z -> option Z) (owner : Z) (out : bool) (T : thread_table)
  : Z * option Z * thread_table :=
  if negb out then (-1, None, T)
  else if negb (owner_live proc_state owner) then (-1, None, T)
  else match find_slot (fun t => negb (in_use t)) 0 (threads T) with
       | None => (-2, None, T)
       | Some i =>
           let '(id, next) := (next_tid T, u64 (next_tid T + 1)) in
           let '(id, next) := if id =? 0 then (next, u64 (next + 1)) else (id, next) in
           (0, Some id, {| threads := aset i {| tid := id; owner_pid := owner; state := RIX_THREAD_ACTIVE |} (threads T);
                           next_tid := next |})
       end.

Definition thread_free_locked (id : Z) (T : thread_table) : thread_table :=
  match find_locked T id with
  | None => T
  | Some i => {| threads := aset i unused_thread (threads T); next_tid := next_tid T |}
  end.

Definition active_of (pid : Z) (t : rix_thread_t) : bool := (state t =? RIX_THREAD_ACTIVE) && (owner_pid t =? pid).

Definition detach (pid : Z) (t : rix_thread_t) : rix_thread_t :=
  if active_of pid t then {| tid := tid t; owner_pid := owner_pid t; state := RIX_THREAD_DETACHED |} else t.

Definition thread_detach_pid_locked (pid : Z) (T : thread_table) : thread_table :=
  {| threads := detach pid <$> threads T; next_tid := next_tid T |}.

Definition thread_count_locked (pid : Z) (T : thread_table) : Z := countb (active_of pid) (threads T).

Definition snapshot (t : rix_thread_t) : rix_thread_info_t :=
  {| info_tid := tid t; info_owner_pid := owner_pid t; info_state := state t; info_flags := 0 |}.

Definition thread_lookup_locked (id : Z) (out : bool) (T : thread_table) : Z * option rix_thread_info_t :=
  if negb out then (-1, None)
  else match find_locked T id with
       | None => (-1, None)
       | Some i => (0, Some (snapshot (aget unused_thread (threads T) i)))
       end.

Definition thread_live_count_locked (T : thread_table) : Z := countb in_use (threads T).

(** The second component is what the call stores in [out] and [*count]. *)
Definition thread_list_locked (out : bool) (capacity : Z) (count : bool) (T : thread_table)
  : Z * option (list rix_thread_info_t * Z) :=
  if negb count || (negb out && truthy capacity) then (-1, None)
  else
    let total := countb in_use (threads T) in
    if capacity <? total then (-1, None)
    else (0, Some (snapshot <$> List.filter in_use (threads T), total)).

(** ** Specification: a finite map from thread ids to owners and states *)

Record spec := { live : gmap Z (Z * Z); upcoming : Z }.

Definition spec_alloc (proc_state : Z -> option Z) (owner : Z) (s : spec) : Z * option Z * spec :=
  if negb (owner_live proc_state owner) then (-1, None, s)
  else if Z.of_nat (size (live s)) =? RIX_THREAD_MAX then (-2, None, s)
  else (0, Some (upcoming s), {| live := <[upcoming s := (owner, RIX_THREAD_ACTIVE)]> (live s); upcoming := upcoming s + 1 |}).

Definition spec_free (id : Z) (s : spec) : spec := {| live := delete id (live s); upcoming := upcoming s |}.

Definition spec_detach (pid : Z) (s : spec) : spec :=
  {| live := (fun '(o, st) => (o, if (st =? RIX_THREAD_ACTIVE) && (o =? pid) then RIX_THREAD_DETACHED else st)) <$> live s;
     upcoming := upcoming s |}.

(** ** Abstraction *)

Definition entry (t : rix_thread_t) : Z * (Z * Z) := (tid t, (owner_pid t, state t)).
Definition entries (l : list rix_thread_t) : list (Z * (Z * Z)) := entry <$> List.filter in_use l.

(** Live ids are distinct, non-zero and already handed out. *)
Definition table_ok (T : thread_table) : Prop :=
  length (threads T) = Z.to_nat RIX_THREAD_MAX /\ NoDup (entries (threads T)).*1 /\
  Forall (fun t => in_use t = true -> 0 < tid t < next_tid T) (threads T) /\ 0 < next_tid T < 2 ^ 64.

Definition abs (T : thread_table) : spec := {| live := list_to_map (entries (threads T)); upcoming := next_tid T |}.

Lemma find_slot_spec p i l :
  match find_slot p i l with
  | Some j => exists l1 t l2, l = l1 ++ t :: l2 /\ j = i + Z.of_nat (length l1) /\ p t = true /\ Forall (fun t => p t = false) l1
  | None => Forall (fun t => p t = false) l
  end.
Proof.
  revert i. induction l as [|t l IH]; intros i; cbn [find_slot]; [constructor|]. destruct (p t) eqn:E.
  - exists [], t, l. split; [done|]. split; [cbn; lia|]. by split.
  - specialize (IH (i + 1)). destruct (find_slot p (i + 1) l) as [j|].
    + destruct IH as (l1 & x & l2 & -> & -> & Hx & Hl). exists (t :: l1), x, l2. split; [done|]. split; [cbn [length]; lia|].
      split; [done|]. by constructor.
    + by constructor.
Qed.

Lemma aset_middle {A} (l1 l2 : list A) t x : aset (0 + Z.of_nat (length l1)) x (l1 ++ t :: l2) = l1 ++ x :: l2.
Proof. unfold aset. rewrite Z.add_0_l, Nat2Z.id, insert_app_r_alt, Nat.sub_diag by lia. done. Qed.

Lemma entries_app l k : entries (l ++ k) = entries l ++ entries k.
Proof. unfold entries. by rewrite List.filter_app, fmap_app. Qed.

Lemma entries_cons t l : entries (t :: l) = if in_use t then entry t :: entries l else entries l.
Proof. unfold entries. cbn [List.filter]. by destruct (in_use t). Qed.

Lemma elem_of_entries l e : e ∈ entries l <-> exists t, t ∈ l /\ in_use t = true /\ e = entry t.
Proof.
  unfold entries. rewrite list_elem_of_fmap. split.
  - intros (t & -> & Ht). apply list_elem_of_In, filter_In in Ht as [H1 H2]. exists t. split; [by apply list_elem_of_In|done].
  - intros (t & H1 & H2 & ->). exists t. split; [done|]. apply list_elem_of_In, filter_In. split; [by apply list_elem_of_In|done].
Qed.

Lemma length_entries l : Z.of_nat (length (entries l)) = countb in_use l.
Proof.
  unfold entries. rewrite length_fmap. induction l as [|t l IH]; [done|]. rewrite countb_cons. cbn [List.filter].
  destruct (in_use t); cbn [length b2z]; lia.
Qed.

(** ** Each operation refines its specification *)

Lemma live_size T : table_ok T -> Z.of_nat (size (live (abs T))) = countb in_use (threads T).
Proof. intros (_ & Hnd & _). cbn [abs live]. rewrite map_size_list_to_map by done. apply length_entries. Qed.

Lemma live_lookup T id v : table_ok T -> live (abs T) !! id = Some v <-> exists t, t ∈ threads T /\ in_use t = true /\ entry t = (id, v).
Proof.
  intros (_ & Hnd & _). cbn [abs live]. rewrite <- elem_of_list_to_map by done. rewrite elem_of_entries.
  split; intros (t & H1 & H2 & H3); exists t; done.
Qed.

(** What a search for a thread id finds. *)
Lemma find_locked_spec T id :
  table_ok T ->
  match find_locked T id with
  | Some i => exists l1 t l2, threads T = l1 ++ t :: l2 /\ i = 0 + Z.of_nat (length l1) /\ in_use t = true /\ tid t = id /\
                live (abs T) !! id = Some (owner_pid t, state t)
  | None => live (abs T) !! id = None
  end.
Proof.
  intros Hok. pose proof Hok as (Hlen & Hnd & Hpos & _). unfold find_locked. destruct (id =? 0) eqn:E0; bool_to_prop.
  { subst id. apply eq_None_not_Some. intros [v Hv]. apply live_lookup in Hv as (t & H1 & H2 & H3); [|done].
    rewrite Forall_forall in Hpos. specialize (Hpos t H1 H2). injection H3 as H3 _. lia. }
  pose proof (find_slot_spec (fun t => in_use t && (tid t =? id)) 0 (threads T)) as H.
  destruct (find_slot _ 0 _) as [i|].
  - destruct H as (l1 & t & l2 & E & -> & Ht & _). apply andb_prop in Ht as [Hu Hi]. bool_to_prop.
    exists l1, t, l2. do 4 (split; [done|]). apply live_lookup; [done|]. exists t. split; [rewrite E; set_solver|]. split; [done|].
    unfold entry. by rewrite Hi.
  - apply eq_None_not_Some. intros [v Hv]. apply live_lookup in Hv as (t & H1 & H2 & H3); [|done].
    rewrite Forall_forall in H. specialize (H t H1). cbn in H. rewrite H2 in H. injection H3 as H3 _.
    cbn in H. bool_to_prop. lia.
Qed.

Lemma alloc_refines ps owner T :
  table_ok T -> next_tid T + 1 < 2 ^ 64 ->
  let '(rc, id, T') := thread_alloc_locked ps owner true T in
  (rc, id, abs T') = spec_alloc ps owner (abs T) /\ table_ok T' /\ next_tid T <= next_tid T' <= next_tid T + 1.
Proof.
  intros Hok Hn. pose proof (live_size T Hok) as Hsz. pose proof Hok as (Hlen & Hnd & Hpos & Hnx).
  unfold thread_alloc_locked, spec_alloc. cbn [negb]. destruct (owner_live ps owner); cbn [negb]; [|split; [done|split; [done|lia]]].
  pose proof (find_slot_spec (fun t => negb (in_use t)) 0 (threads T)) as H. rewrite Hsz.
  destruct (find_slot _ 0 _) as [i|].
  - destruct H as (l1 & t & l2 & E & -> & Ht & _). apply negb_true_iff in Ht.
    destruct (next_tid T =? 0) eqn:E0; bool_to_prop; [lia|]. rewrite u64_id by (unfold is_u64; lia).
    assert (Hc : countb in_use (threads T) <> RIX_THREAD_MAX).
    { rewrite E, countb_app, countb_cons, Ht in *. pose proof (countb_le_length in_use l1). pose proof (countb_le_length in_use l2).
      rewrite length_app in Hlen. cbn [length b2z] in *. unfold RIX_THREAD_MAX in *. lia. }
    destruct (_ =? RIX_THREAD_MAX) eqn:E1; bool_to_prop; [done|].
    rewrite E, aset_middle. set (t' := {| tid := next_tid T; owner_pid := owner; state := RIX_THREAD_ACTIVE |}).
    assert (Ee : entries (l1 ++ t' :: l2) ≡ₚ entry t' :: entries (threads T)).
    { rewrite E, !entries_app, !entries_cons, Ht. cbn [in_use t' state]. change (in_use t') with true. cbv iota. by rewrite Permutation_middle. }
    assert (Hfresh : next_tid T ∉ (entries (threads T)).*1).
    { intros Hin. apply list_elem_of_fmap in Hin as (e & He & Hin). apply elem_of_entries in Hin as (x & Hx & Hux & ->).
      rewrite Forall_forall in Hpos. specialize (Hpos x Hx Hux). cbn in He. lia. }
    assert (Hnd' : NoDup (entries (l1 ++ t' :: l2)).*1).
    { rewrite Ee. cbn [fmap list_fmap]. by constructor. }
    split; [|split].
    + f_equal. unfold abs. cbn [threads next_tid live upcoming]. f_equal.
      by rewrite (list_to_map_proper _ (entry t' :: entries (threads T)) Hnd' Ee).
    + split; [|split; [exact Hnd'|]].
      * cbn [threads]. rewrite <- Hlen, E, !length_app. done.
      * cbn [threads next_tid]. split; [|lia]. rewrite E, Forall_app, Forall_cons in Hpos. destruct Hpos as (P1 & _ & P2).
        apply Forall_app. split; [|apply Forall_cons; split].
        -- eapply Forall_impl; [exact P1|]. cbn. intros x Hx Hu. specialize (Hx Hu). lia.
        -- intros _. cbn. lia.
        -- eapply Forall_impl; [exact P2|]. cbn. intros x Hx Hu. specialize (Hx Hu). lia.
    + cbn [next_tid]. lia.
  - assert (Hc : countb in_use (threads T) = RIX_THREAD_MAX).
    { assert (G : forall l, Forall (fun t => negb (in_use t) = false) l -> countb in_use l = Z.of_nat (length l)).
      { induction 1 as [|x l Hx Hl IH]; [done|]. rewrite countb_cons, IH. apply negb_false_iff in Hx. rewrite Hx. cbn [length b2z]. lia. }
      rewrite G, Hlen by done. done. }
    rewrite Hc, Z.eqb_refl. split; [done|]. split; [done|lia].
Qed.

Lemma free_refines id T :
  table_ok T -> abs (thread_free_locked id T) = spec_free id (abs T) /\ table_ok (thread_free_locked id T).
Proof.
  intros Hok. pose proof (find_locked_spec T id Hok) as H. pose proof Hok as (Hlen & Hnd & Hpos & Hnx).
  unfold thread_free_locked. destruct (find_locked T id) as [i|].
  - destruct H as (l1 & t & l2 & E & -> & Hu & Hid & Hl). rewrite E, aset_middle.
    assert (Ee : entries (threads T) ≡ₚ entry t :: entries (l1 ++ unused_thread :: l2)).
    { rewrite E, !entries_app, !entries_cons, Hu. change (in_use unused_thread) with false. cbv iota. by rewrite Permutation_middle. }
    assert (Hnd' : NoDup (tid t :: (entries (l1 ++ unused_thread :: l2)).*1)) by (rewrite Ee in Hnd; exact Hnd).
    apply NoDup_cons in Hnd' as [Hni Hnd']. split.
    + unfold abs, spec_free. cbn [threads next_tid live upcoming]. f_equal.
      rewrite (list_to_map_proper _ _ Hnd Ee). unfold entry at 1. rewrite list_to_map_cons. subst id.
      rewrite delete_insert_id; [done|]. by apply not_elem_of_list_to_map.
    + split; [cbn [threads]; rewrite <- Hlen, E, !length_app; done|]. split; [exact Hnd'|]. split; [|done]. cbn [threads next_tid].
      rewrite E, Forall_app, Forall_cons in Hpos. destruct Hpos as (P1 & _ & P2). apply Forall_app. split; [done|].
      apply Forall_cons. split; [done|done].
  - split; [|done]. unfold spec_free, abs in *. cbn [live upcoming] in *. f_equal. by rewrite delete_id.
Qed.

Lemma in_use_detach pid t : in_use (detach pid t) = in_use t.
Proof.
  unfold detach, active_of. destruct (state t =? RIX_THREAD_ACTIVE) eqn:E; cbn [andb]; [|done]. case_if; [|done].
  bool_to_prop. unfold in_use. rewrite E. done.
Qed.

Definition detach_value (pid : Z) (v : Z * Z) : Z * Z :=
  let '(o, st) := v in (o, if (st =? RIX_THREAD_ACTIVE) && (o =? pid) then RIX_THREAD_DETACHED else st).

Lemma entry_detach pid t : entry (detach pid t) = (tid t, detach_value pid (owner_pid t, state t)).
Proof. unfold detach, entry, active_of. cbn [detach_value]. by case_if. Qed.

Lemma entries_detach pid l : entries (detach pid <$> l) = prod_map id (detach_value pid) <$> entries l.
Proof.
  induction l as [|t l IH]; [done|]. cbn [fmap list_fmap]. rewrite !entries_cons, in_use_detach. destruct (in_use t); [|exact IH].
  cbn [fmap list_fmap]. by rewrite entry_detach, <- IH.
Qed.

Lemma detach_refines pid T :
  table_ok T -> abs (thread_detach_pid_locked pid T) = spec_detach pid (abs T) /\ table_ok (thread_detach_pid_locked pid T).
Proof.
  intros (Hlen & Hnd & Hpos & Hnx). unfold thread_detach_pid_locked. split.
  - unfold abs, spec_detach. cbn [threads next_tid live upcoming]. f_equal. rewrite entries_detach. by rewrite list_to_map_fmap.
  - split; [cbn [threads]; by rewrite length_fmap|]. split; [|split; [|done]]; cbn [threads next_tid].
    + rewrite entries_detach, <- list_fmap_compose. erewrite list_fmap_ext; [exact Hnd|]. by intros i [? ?] _.
    + apply Forall_fmap. eapply Forall_impl; [exact Hpos|]. cbn. intros t Ht Hu. rewrite in_use_detach in Hu. specialize (Ht Hu).
      unfold detach. by case_if.
Qed.

Lemma lookup_refines id T :
  table_ok T ->
  thread_lookup_locked id true T = match live (abs T) !! id with
    | Some (o, st) => (0, Some {| info_tid := id; info_owner_pid := o; info_state := st; info_flags := 0 |})
    | None => (-1, None)
    end.
Proof.
  intros Hok. pose proof (find_locked_spec T id Hok) as H. unfold thread_lookup_locked. cbn [negb].
  destruct (find_locked T id) as [i|]; [|by rewrite H]. destruct H as (l1 & t & l2 & E & -> & Hu & <- & ->).
  rewrite E. unfold aget. rewrite Z.add_0_l, Nat2Z.id, lookup_app_r, Nat.sub_diag by lia. done.
Qed.

Lemma count_refines pid T :
  table_ok T ->
  thread_count_locked pid T = Z.of_nat (size (filter (fun '(_, (o, st)) => st = RIX_THREAD_ACTIVE /\ o = pid) (live (abs T)))).
Proof.
  intros (Hlen & Hnd & _). unfold thread_count_locked. cbn [abs live]. revert Hnd. generalize (threads T) as l. clear.
  induction l as [|t l IH]; intros Hnd; [done|]. rewrite countb_cons. rewrite entries_cons in *. destruct (in_use t) eqn:Hu.
  - cbn [fmap list_fmap] in Hnd. apply NoDup_cons in Hnd as [Hni Hnd]. rewrite IH by done. cbn [list_to_map foldr]. unfold entry at 2. cbn [fst snd].
    apply not_elem_of_list_to_map in Hni. rewrite map_filter_insert. unfold active_of. destruct (decide _) as [[-> ->]|Hn].
    + rewrite !Z.eqb_refl. rewrite map_size_insert_None; [cbn [andb b2z]; lia|]. rewrite map_lookup_filter, Hni. done.
    + rewrite delete_id by done. destruct (state t =? _) eqn:E1, (owner_pid t =? pid) eqn:E2; bool_to_prop; cbn [andb b2z]; lia.
  - rewrite IH by done. unfold active_of, in_use in *. apply negb_false_iff in Hu. bool_to_prop. rewrite Hu. done.
Qed.

Lemma init_ok : table_ok thread_table_init /\ live (abs thread_table_init) = ∅.
Proof.
  split; [|reflexivity]. split; [reflexivity|]. split; [constructor|]. split; [|cbn; lia].
  apply Forall_replicate. intros H. discriminate H.
Qed.

(** ** Histories *)

Inductive op :=
  | Alloc (proc_state : Z -> option Z) (owner : Z)
  | Free (id : Z)
  | Detach (pid : Z)
  | Lookup (id : Z)
  | Count (pid : Z)
  | LiveCount.

Inductive result := RAlloc (rc : Z) (id : option Z) | RUnit | RInfo (r : Z * option rix_thread_info_t) | RNum (n : Z).

Definition exec (o : op) (T : thread_table) : result * thread_table :=
  match o with
  | Alloc ps owner => let '(rc, id, T') := thread_alloc_locked ps owner true T in (RAlloc rc id, T')
  | Free id => (RUnit, thread_free_locked id T)
  | Detach pid => (RUnit, thread_detach_pid_locked pid T)
  | Lookup id => (RInfo (thread_lookup_locked id true T), T)
  | Count pid => (RNum (thread_count_locked pid T), T)
  | LiveCount => (RNum (thread_live_count_locked T), T)
  end.

Definition exec_spec (o : op) (s : spec) : result * spec :=
  match o with
  | Alloc ps owner => let '(rc, id, s') := spec_alloc ps owner s in (RAlloc rc id, s')
  | Free id => (RUnit, spec_free id s)
  | Detach pid => (RUnit, spec_detach pid s)
  | Lookup id => (RInfo (match live s !! id with
      | Some (o, st) => (0, Some {| info_tid := id; info_owner_pid := o; info_state := st; info_flags := 0 |})
      | None => (-1, None)
      end), s)
  | Count pid => (RNum (Z.of_nat (size (filter (fun '(_, (o, st)) => st = RIX_THREAD_ACTIVE /\ o = pid) (live s)))), s)
  | LiveCount => (RNum (Z.of_nat (size (live s))), s)
  end.

Fixpoint run {S} (step : op -> S -> result * S) (os : list op) (s : S) : list result * S :=
  match os with
  | [] => ([], s)
  | o :: os => let '(r, s) := step o s in let '(rs, s) := run step os s in (r :: rs, s)
  end.

(** The ids a history handed out, in order. *)
Definition tids (rs : list result) : list Z := omap (fun r => match r with RAlloc _ (Some id) => Some id | _ => None end) rs.

Lemma exec_refines o T :
  table_ok T -> next_tid T + 1 < 2 ^ 64 ->
  let '(r, T') := exec o T in
  exec_spec o (abs T) = (r, abs T') /\ table_ok T' /\ next_tid T <= next_tid T' <= next_tid T + 1 /\
  match r with RAlloc _ (Some id) => id = next_tid T /\ next_tid T < next_tid T' | _ => True end.
Proof.
  intros Hok Hn. destruct o as [ps owner|id|pid|id|pid|]; cbn [exec exec_spec].
  - pose proof (alloc_refines ps owner T Hok Hn) as H. destruct (thread_alloc_locked ps owner true T) as [[rc id] T'].
    destruct H as (E & Hok' & Hb). rewrite <- E. split; [done|]. split; [done|]. split; [done|]. destruct id as [id|]; [|done].
    unfold spec_alloc in E. destruct (negb _); [done|]. destruct (_ =? RIX_THREAD_MAX); [done|].
    injection E as _ -> _ Eu. cbn in Eu. split; [done|lia].
  - destruct (free_refines id T Hok) as [E Hok']. rewrite E. split; [done|]. split; [done|].
    apply (f_equal upcoming) in E. cbn [upcoming abs spec_free spec_detach] in E. split; [lia|done].
  - destruct (detach_refines pid T Hok) as [E Hok']. rewrite E. split; [done|]. split; [done|].
    apply (f_equal upcoming) in E. cbn [upcoming abs spec_free spec_detach] in E. split; [lia|done].
  - rewrite lookup_refines by done. split; [done|]. split; [done|]. split; [lia|done].
  - rewrite count_refines by done. split; [done|]. split; [done|]. split; [lia|done].
  - rewrite live_size by done. split; [done|]. split; [done|]. split; [lia|done].
Qed.

Lemma run_refines os T :
  table_ok T -> next_tid T + Z.of_nat (length os) < 2 ^ 64 ->
  let '(rs, T') := run exec os T in
  run exec_spec os (abs T) = (rs, abs T') /\ Forall (fun id => next_tid T <= id) (tids rs) /\ StronglySorted Z.lt (tids rs).
Proof.
  revert T. induction os as [|o os IH]; intros T Hok Hn; [repeat constructor|]. cbn [run length] in *.
  pose proof (exec_refines o T Hok ltac:(lia)) as H. destruct (exec o T) as [r T1]. destruct H as (E & Hok1 & Hb & Hr).
  specialize (IH T1 Hok1 ltac:(lia)). destruct (run exec os T1) as [rs T2]. destruct IH as (E2 & Hge & Hs). rewrite E, E2.
  split; [done|]. assert (Hge' : forall x, x <= next_tid T1 -> Forall (fun id => x <= id) (tids rs)).
  { intros x Hx. eapply Forall_impl; [exact Hge|]. cbn. lia. }
  destruct r as [rc [id|]| | |]; cbn [tids omap list_omap]; try (split; [apply Hge'; lia|done]).
  destruct Hr as [-> Hlt]. fold (tids rs). split; [constructor; [lia|apply Hge'; lia]|]. constructor; [done|].
  eapply Forall_impl; [exact Hge|]. cbn. lia.
Qed.

(** C30: the thread table behaves as a finite map of at most 64 entries. For every
    history of allocations, frees, detaches and queries the results are those of
    the map specification, and the thread ids handed out strictly increase, so an
    id is never given to a second thread while the first [2^64 - 2] ids last. *)
Theorem thread_table_refines_map os (Hn : Z.of_nat (length os) < 2 ^ 64 - 2) :
  fst (run exec os thread_table_init) = fst (run exec_spec os {| live := ∅; upcoming := 1 |}) ∧
  StronglySorted Z.lt (tids (fst (run exec os thread_table_init))).
Proof.
  destruct init_ok as [Hok Hl]. pose proof (run_refines os thread_table_init Hok ltac:(cbn [next_tid thread_table_init]; lia)) as H.
  destruct (run exec os thread_table_init) as [rs T']. destruct H as (E & _ & Hs). split; [|exact Hs].
  change {| live := ∅; upcoming := 1 |} with (abs thread_table_init). by rewrite E.
Qed.

Lemma thread_table_refines_map_witness :
  let os := [Alloc (fun _ => Some 1) 7; Alloc (fun _ => Some 3) 8; Free 1; Alloc (fun _ => None) 0; Detach 0; Count 0] in
  fst (run exec os thread_table_init) = [RAlloc 0 (Some 1); RAlloc (-1) None; RUnit; RAlloc 0 (Some 2); RUnit; RNum 0] ∧
  StronglySorted Z.lt (tids (fst (run exec os thread_table_init))).
Proof.
  split; [vm_compute; reflexivity|]. apply thread_table_refines_map. cbn. lia.
Defined.
