(* ===== verification/Signal.v ===== *)
(** * Signals ([kernel/process/signal.h], [kernel/process/signal.c])

    Pending and masked signals of the process table, with [process_lookup] and
    [process_signal_group] of [kernel/process/process.c]. Of a process only the
    fields these functions touch are modelled. Calls to [scheduler_wake_pid] are
    recorded in order. *)
From stdpp Require Import base tactics list numbers.
From S2P Require Import Prelude.

Definition RIX_SIG_MIN : Z := 1.
Definition RIX_SIG_MAX : Z := 64.
Definition RIX_SIGKILL : Z := 9.
Definition RIX_SIGSTOP : Z := 19.

Inductive rix_process_state_t := RIX_PROC_UNUSED | RIX_PROC_RUNNING | RIX_PROC_SLEEPING | RIX_PROC_ZOMBIE.
#[export] Instance rix_process_state_eq_dec : EqDecision rix_process_state_t.
Proof. solve_decision. Defined.

Record rix_process_t := {
  pid : Z; process_group : Z; state : rix_process_state_t; signal_pending : Z; signal_mask : Z }.

(** The table, and the pids handed to the scheduler's wake-up, latest last. *)
Record world := { table : list rix_process_t; woken : list Z }.

Definition with_state (s : rix_process_state_t) (p : rix_process_t) : rix_process_t :=
  {| pid := pid p; process_group := process_group p; state := s; signal_pending := signal_pending p; signal_mask := signal_mask p |}.
Definition with_pending (v : Z) (p : rix_process_t) : rix_process_t :=
  {| pid := pid p; process_group := process_group p; state := state p; signal_pending := v; signal_mask := signal_mask p |}.
Definition with_mask (v : Z) (p : rix_process_t) : rix_process_t :=
  {| pid := pid p; process_group := process_group p; state := state p; signal_pending := signal_pending p; signal_mask := v |}.

Definition unused (p : rix_process_t) : bool := bool_decide (state p = RIX_PROC_UNUSED).
Definition dead (p : rix_process_t) : bool := unused p || bool_decide (state p = RIX_PROC_ZOMBIE).

(** Index and contents of the process, in place of a pointer into the table. *)
Definition process_lookup (w : world) (id : Z) : option (nat * rix_process_t) :=
  list_find (fun p => negb (unused p) && (pid p =? id) = true) (table w).

Definition store (i : nat) (p : rix_process_t) (w : world) : world := {| table := <[i := p]> (table w); woken := woken w |}.
Definition scheduler_wake_pid (id : Z) (w : world) : world := {| table := table w; woken := woken w ++ [id] |}.

Definition valid_signal (signal : Z) : bool := (RIX_SIG_MIN <=? signal) && (signal <=? RIX_SIG_MAX).
Definition signal_bit (signal : Z) : Z := u64 (Z.shiftl 1 (u32 (signal - 1))).

(** The body shared by [process_signal_send] and the loop of
    [process_signal_group]. *)
Definition post_signal (b : Z) (p : rix_process_t) : rix_process_t :=
  let p := with_pending (Z.lor (signal_pending p) b) p in
  if bool_decide (state p = RIX_PROC_SLEEPING) && (Z.land (signal_mask p) b =? 0) then with_state RIX_PROC_RUNNING p else p.

Definition process_signal_send (id signal : Z) (w : world) : Z * world :=
  if negb (valid_signal signal) then (-1, w)
  else match process_lookup w id with
       | None => (-1, w)
       | Some (i, p) =>
           if (id =? 0) || dead p then (-1, w)
           else (0, scheduler_wake_pid id (store i (post_signal (signal_bit signal) p) w))
       end.

Definition process_signal_mask (id mask : Z) (w : world) : Z * world :=
  match process_lookup w id with
  | None => (-1, w)
  | Some (i, p) =>
      if dead p then (-1, w)
      else (0, store i (with_mask (Z.land mask (not64 (Z.lor (signal_bit RIX_SIGKILL) (signal_bit RIX_SIGSTOP)))) p) w)
  end.

(** [out] is whether the result pointer is non-null. *)
Definition process_signal_get_mask (id : Z) (out : bool) (w : world) : Z * option Z :=
  match process_lookup w id with
  | None => (-1, None)
  | Some (i, p) => if negb out || dead p then (-1, None) else (0, Some (signal_mask p))
  end.

Definition process_signal_pending (id : Z) (out : bool) (w : world) : Z * option Z :=
  match process_lookup w id with
  | None => (-1, None)
  | Some (i, p) => if negb out then (-1, None) else (0, Some (Z.land (signal_pending p) (not64 (signal_mask p))))
  end.

Definition process_signal_take (id : Z) (out : bool) (w : world) : Z * option Z * world :=
  match process_lookup w id with
  | None => (-1, None, w)
  | Some (i, p) =>
      if negb out then (-1, None, w)
      else
        let ready := Z.land (signal_pending p) (not64 (signal_mask p)) in
        if ready =? 0 then (1, None, w)
        else
          let b := ctz64 ready in
          (0, Some (b + 1), store i (with_pending (Z.land (signal_pending p) (not64 (u64 (Z.shiftl 1 b)))) p) w)
  end.

(** One turn of the group loop. *)
Definition group_turn (group b : Z) (i : nat) (acc : Z * world) : Z * world :=
  let '(sent, w) := acc in
  match table w !! i with
  | None => acc
  | Some p =>
      if negb (dead p) && (process_group p =? group)
      then (sent + 1, scheduler_wake_pid (pid p) (store i (post_signal b p) w)) else acc
  end.

Definition process_signal_group (group signal : Z) (w : world) : Z * world :=
  if (group =? 0) || (signal <? 1) || (64 <? signal) then (-1, w)
  else
    let b := u64 (Z.shiftl 1 (u32 (signal - 1))) in
    let '(sent, w) := foldl (fun acc i => group_turn group b i acc) (0, w) (seq 0 (length (table w))) in
    (if truthy sent then 0 else -1, w).

(** ** Sets of signals *)

Definition has (v n : Z) : bool := Z.testbit v (n - 1).

Definition proc_ok (p : rix_process_t) : Prop :=
  is_u64 (signal_pending p) /\ is_u64 (signal_mask p) /\ has (signal_mask p) RIX_SIGKILL = false /\ has (signal_mask p) RIX_SIGSTOP = false.

Definition world_ok (w : world) : Prop := Forall proc_ok (table w).

Lemma signal_bit_val n : 1 <= n <= 64 -> signal_bit n = bit (n - 1).
Proof.
  intros Hn. unfold signal_bit, bit. rewrite (u32_id (n - 1)) by (unfold is_u32; lia). apply u64_id.
  exact (bit_range (n - 1) 64 ltac:(lia)).
Qed.

Lemma has_bit n k : 1 <= n <= 64 -> has (bit (n - 1)) k = (k =? n).
Proof.
  intros Hn. unfold has. rewrite bit_testbit by lia.
  destruct (k - 1 =? n - 1) eqn:E1, (k =? n) eqn:E2; bool_to_prop; done || lia.
Qed.

(** [x & ~y] on 64-bit words is set difference. *)
Lemma has_without x y n : is_u64 x -> has (Z.land x (not64 y)) n = has x n && negb (has y n).
Proof.
  intros Hx. unfold has, not64, u64. rewrite Z.land_spec. destruct (decide (0 <= n - 1 < 64)).
  - by rewrite Z.mod_pow2_bits_low, Z.lnot_spec by lia.
  - destruct (decide (n - 1 < 0)); [by rewrite !Z.testbit_neg_r by lia|]. by rewrite (testbit_high x 64) by (done || lia).
Qed.

Lemma without_u64 x y : is_u64 x -> is_u64 (Z.land x (not64 y)).
Proof. intros Hx. apply (land_range x _ 64); [lia|exact Hx]. Qed.

(** ** The invariant *)

Lemma post_signal_ok n p : 1 <= n <= 64 -> proc_ok p -> proc_ok (post_signal (bit (n - 1)) p).
Proof.
  intros Hn (H1 & H2 & H3 & H4). unfold post_signal.
  assert (Hp : is_u64 (Z.lor (signal_pending p) (bit (n - 1)))).
  { apply (lor_range _ _ 64); [lia|exact H1|]. exact (bit_range (n - 1) 64 ltac:(lia)). }
  case_if; repeat split; cbn [with_pending with_state signal_pending signal_mask]; done || apply Hp || apply H2.
Qed.

Lemma lookup_spec w id i p :
  process_lookup w id = Some (i, p) -> table w !! i = Some p /\ pid p = id /\ unused p = false.
Proof.
  intros H. apply list_find_Some in H as (H1 & H2 & _). split; [done|]. apply andb_prop in H2 as [Ha Hb].
  apply negb_true_iff in Ha. bool_to_prop. done.
Qed.

Lemma store_ok i p w : world_ok w -> proc_ok p -> world_ok (store i p w).
Proof. intros Hw Hp. unfold world_ok, store. cbn [table]. by apply Forall_insert. Qed.

Lemma lookup_ok w id i p : world_ok w -> process_lookup w id = Some (i, p) -> proc_ok p.
Proof. intros Hw H. apply lookup_spec in H as (H & _). unfold world_ok in Hw. rewrite Forall_lookup in Hw. by eapply Hw. Qed.

Lemma send_ok id n w : world_ok w -> world_ok (snd (process_signal_send id n w)).
Proof.
  intros Hw. unfold process_signal_send, valid_signal, RIX_SIG_MIN, RIX_SIG_MAX. destruct (negb _) eqn:E; [done|]. apply negb_false_iff in E. bool_to_prop.
  destruct (process_lookup w id) as [[i p]|] eqn:El; [|done]. case_if; [done|]. cbn [snd scheduler_wake_pid].
  rewrite signal_bit_val by lia. apply store_ok; [done|]. apply post_signal_ok; [lia|]. by eapply lookup_ok.
Qed.

Lemma mask_ok id m w : world_ok w -> is_u64 m -> world_ok (snd (process_signal_mask id m w)).
Proof.
  intros Hw Hm. unfold process_signal_mask. destruct (process_lookup w id) as [[i p]|] eqn:El; [|done]. case_if; [done|]. cbn [snd].
  pose proof (lookup_ok w id i p Hw El) as (H1 & _). apply store_ok; [done|]. split; [done|]. cbn [with_mask signal_mask].
  split; [by apply without_u64|]. rewrite !has_without by done. split; apply andb_false_iff; right; reflexivity.
Qed.

Lemma take_ok id out w : world_ok w -> world_ok (snd (process_signal_take id out w)).
Proof.
  intros Hw. unfold process_signal_take. destruct (process_lookup w id) as [[i p]|] eqn:El; [|done]. case_if; [done|]. case_if; [done|].
  cbn [snd]. pose proof (lookup_ok w id i p Hw El) as (H1 & H2). apply store_ok; [done|]. split; [by apply without_u64|exact H2].
Qed.

Lemma group_turns_ok g n l acc : 1 <= n <= 64 -> world_ok (snd acc) ->
  world_ok (snd (foldl (fun acc i => group_turn g (bit (n - 1)) i acc) acc l)).
Proof.
  intros Hn. revert acc. induction l as [|i l IH]; intros [s w] Hw; [done|]. cbn [foldl]. apply IH. cbn [snd] in Hw. unfold group_turn.
  destruct (table w !! i) as [p|] eqn:E; [|done]. case_if; [|done]. cbn [snd]. apply store_ok; [done|]. apply post_signal_ok; [done|].
  unfold world_ok in Hw. rewrite Forall_lookup in Hw. by eapply Hw.
Qed.

Lemma group_ok g n w : world_ok w -> world_ok (snd (process_signal_group g n w)).
Proof.
  intros Hw. unfold process_signal_group. destruct (_ || _) eqn:E; [done|].
  apply orb_false_iff in E as [E E3]. apply orb_false_iff in E as [_ E2]. assert (Hn : 1 <= n <= 64) by (bool_to_prop; lia).
  fold (signal_bit n). rewrite signal_bit_val by done.
  pose proof (group_turns_ok g n (seq 0 (length (table w))) (0, w) Hn Hw) as H. by destruct (foldl _ _ _).
Qed.

(** ** Histories *)

Inductive op := Send (id n : Z) | Mask (id m : Z) | Take (id : Z) | Group (g n : Z).

Definition exec (o : op) (w : world) : world :=
  match o with
  | Send id n => snd (process_signal_send id n w)
  | Mask id m => snd (process_signal_mask id (u64 m) w)
  | Take id => snd (process_signal_take id true w)
  | Group g n => snd (process_signal_group g n w)
  end.

Lemma exec_ok o w : world_ok w -> world_ok (exec o w).
Proof. destruct o; intros H; cbn [exec]; [by apply send_ok|apply mask_ok; [done|apply u64_range]|by apply take_ok|by apply group_ok]. Qed.

Lemma run_ok os w : world_ok w -> world_ok (foldl (fun w o => exec o w) w os).
Proof. revert w. induction os as [|o os IH]; intros w H; [done|]. cbn [foldl]. apply IH. by apply exec_ok. Qed.

(** The process found again after its entry was rewritten. *)
Lemma lookup_store w id i p p' :
  process_lookup w id = Some (i, p) -> pid p' = id -> unused p' = false -> process_lookup (store i p' w) id = Some (i, p').
Proof.
  intros H Hp Hu. pose proof H as H'. unfold process_lookup in *. apply list_find_Some in H as (H1 & H2 & H3). apply list_find_Some.
  assert (Hi : (i < length (table w))%nat) by (by eapply lookup_lt_Some). cbn [store table].
  split; [by rewrite list_lookup_insert_eq|]. split; [by rewrite Hu, Hp, Z.eqb_refl|].
  intros j y Hj Hlt. rewrite list_lookup_insert_ne in Hj by lia. by eapply H3.
Qed.

(** SIGKILL and SIGSTOP cannot be blocked. After any history of sends, group
    sends, mask changes and takes, sending one of them to a live process
    succeeds, shows up as deliverable whatever the process has masked, makes a
    sleeping process runnable and wakes it. *)
Theorem kill_unblockable os w id n i p
    (Hw : world_ok w) (Hn : n = RIX_SIGKILL ∨ n = RIX_SIGSTOP) (Hid : id ≠ 0)
    (Hp : process_lookup (foldl (fun w o => exec o w) w os) id = Some (i, p)) (Hlive : dead p = false) :
  let '(rc, w') := process_signal_send id n (foldl (fun w o => exec o w) w os) in
  rc = 0 ∧ (∃ l, woken w' = l ++ [id]) ∧
  (∃ v, process_signal_pending id true w' = (0, Some v) ∧ has v n = true) ∧
  (∃ p', process_lookup w' id = Some (i, p') ∧ state p' ≠ RIX_PROC_SLEEPING).
Proof.
  assert (Hn' : 1 <= n <= 64) by (destruct Hn as [->| ->]; unfold RIX_SIGKILL, RIX_SIGSTOP; lia).
  pose proof (run_ok os w Hw) as Hok. set (v := foldl _ w os) in *. pose proof (lookup_ok v id i p Hok Hp) as (H1 & H2 & H3 & H4).
  unfold process_signal_send. replace (valid_signal n) with true by (unfold valid_signal, RIX_SIG_MIN, RIX_SIG_MAX; symmetry; apply andb_true_iff; bool_to_prop; lia).
  cbn [negb]. rewrite Hp, Hlive. destruct (id =? 0) eqn:E; bool_to_prop; [done|]. cbn [orb]. rewrite signal_bit_val by done.
  assert (Hm : has (signal_mask p) n = false) by (destruct Hn as [->| ->]; done).
  assert (Hland : Z.land (signal_mask p) (bit (n - 1)) = 0).
  { pose proof (land_bit_test (signal_mask p) (n - 1) ltac:(lia)) as Hl. fold (has (signal_mask p) n) in Hl. rewrite Hm in Hl.
    unfold truthy in Hl. apply negb_false_iff in Hl. by bool_to_prop. }
  set (p' := post_signal (bit (n - 1)) p).
  assert (Hp' : pid p' = id /\ unused p' = false /\ state p' <> RIX_PROC_SLEEPING /\ signal_mask p' = signal_mask p /\
    signal_pending p' = Z.lor (signal_pending p) (bit (n - 1))).
  { destruct (lookup_spec v id i p Hp) as (_ & Hpid & Hu). unfold p', post_signal. cbn [with_pending signal_mask state]. rewrite Hland. change (0 =? 0) with true.
    rewrite andb_true_r. destruct (bool_decide (state p = RIX_PROC_SLEEPING)) eqn:Es; bool_to_prop; cbn; done. }
  destruct Hp' as (Q1 & Q2 & Q3 & Q4 & Q5).
  assert (Hl' : process_lookup (scheduler_wake_pid id (store i p' v)) id = Some (i, p')) by exact (lookup_store v id i p p' Hp Q1 Q2).
  split; [done|]. split; [by eexists|]. split; [|by exists p'].
  eexists. unfold process_signal_pending. rewrite Hl'. split; [reflexivity|]. rewrite Q4, Q5, has_without.
  - unfold has at 1. rewrite Z.lor_spec. fold (has (bit (n - 1)) n). rewrite has_bit, Hm, Z.eqb_refl, orb_true_r by done. done.
  - apply (lor_range _ _ 64); [lia|exact H1|]. exact (bit_range (n - 1) 64 ltac:(lia)).
Qed.

(** [process_signal_take] delivers the lowest-numbered signal that is pending
    and not masked, removes exactly that one from the pending set, and reports 1
    without touching anything when there is none. *)
Theorem signal_take_lowest w id i p (Hw : world_ok w) (Hp : process_lookup w id = Some (i, p)) :
  let deliverable n := has (signal_pending p) n && negb (has (signal_mask p) n) in
  let '(rc, out, w') := process_signal_take id true w in
  (rc = 1 ∧ out = None ∧ w' = w ∧ ∀ n, deliverable n = false) ∨
  (∃ n p', rc = 0 ∧ out = Some n ∧ 1 <= n <= 64 ∧ deliverable n = true ∧ (∀ k, k < n → deliverable k = false) ∧
     process_lookup w' id = Some (i, p') ∧ signal_mask p' = signal_mask p ∧ state p' = state p ∧
     ∀ k, has (signal_pending p') k = has (signal_pending p) k && negb (k =? n)).
Proof.
  intros deliverable. pose proof (lookup_ok w id i p Hw Hp) as (H1 & H2 & _). destruct (lookup_spec w id i p Hp) as (_ & Hpid & Hu).
  assert (Hd : forall n, has (Z.land (signal_pending p) (not64 (signal_mask p))) n = deliverable n) by (intros n; by apply has_without).
  unfold process_signal_take. rewrite Hp. cbn [negb]. set (ready := Z.land _ _) in *. destruct (ready =? 0) eqn:E; bool_to_prop.
  { left. split; [done|]. split; [done|]. split; [done|]. intros n. rewrite <- Hd, E. apply Z.testbit_0_l. }
  right. destruct (ctz64_spec ready (without_u64 _ _ H1) E) as (Hr & Hset & Hclr). set (b := ctz64 ready) in *.
  set (p' := with_pending _ p). exists (b + 1), p'. split; [done|]. split; [done|]. split; [lia|].
  assert (Hb : forall k, has (bit b) k = (k =? b + 1)).
  { intros k. pose proof (has_bit (b + 1) k ltac:(lia)) as Hh. replace (b + 1 - 1) with b in Hh by lia. exact Hh. }
  split; [rewrite <- Hd; unfold has; replace (b + 1 - 1) with b by lia; exact Hset|].
  split; [|split; [by apply (lookup_store w id i p p')|split; [done|split; [done|]]]].
  - intros k Hk. rewrite <- Hd. unfold has. destruct (decide (k - 1 < 0)); [by apply Z.testbit_neg_r|]. apply Hclr. lia.
  - intros k. cbn [p' with_pending signal_pending]. change (Z.shiftl 1 b) with (bit b).
    rewrite (u64_id (bit b)) by (exact (bit_range b 64 Hr)). rewrite has_without, Hb by done. done.
Qed.

Definition demo_world : world :=
  {| table := [{| pid := 3; process_group := 3; state := RIX_PROC_SLEEPING; signal_pending := 0; signal_mask := 0 |}]; woken := [] |}.

Lemma demo_world_ok : world_ok demo_world.
Proof. constructor; [|constructor]. repeat split; cbn; lia. Qed.

Lemma kill_unblockable_witness :
  fst (process_signal_send 3 RIX_SIGKILL (exec (Mask 3 (2 ^ 64 - 1)) demo_world)) = 0 ∧
  ∃ l, woken (snd (process_signal_send 3 RIX_SIGKILL (exec (Mask 3 (2 ^ 64 - 1)) demo_world))) = l ++ [3].
Proof.
  set (w := exec (Mask 3 (2 ^ 64 - 1)) demo_world).
  pose proof (kill_unblockable [Mask 3 (2 ^ 64 - 1)] demo_world 3 RIX_SIGKILL 0 (hd (Build_rix_process_t 0 0 RIX_PROC_UNUSED 0 0) (table w))
    demo_world_ok (or_introl eq_refl) ltac:(lia) ltac:(vm_compute; reflexivity) ltac:(vm_compute; reflexivity)) as H.
  cbn [foldl] in H. fold w in H. destruct (process_signal_send 3 RIX_SIGKILL w) as [rc w']. cbn [fst snd]. destruct H as (-> & H & _).
  split; [reflexivity|exact H].
Defined.

Lemma signal_take_lowest_witness :
  let w := exec (Send 3 5) (exec (Send 3 2) demo_world) in
  process_lookup w 3 ≠ None ∧ ∃ n, snd (fst (process_signal_take 3 true w)) = Some n ∧ n = 2.
Proof.
  set (w := exec (Send 3 5) (exec (Send 3 2) demo_world)). cbv zeta.
  assert (Hl : process_lookup w 3 = Some (0%nat, hd (Build_rix_process_t 0 0 RIX_PROC_UNUSED 0 0) (table w))) by (vm_compute; reflexivity).
  split; [rewrite Hl; discriminate|].
  pose proof (signal_take_lowest w 3 0 _ (exec_ok _ _ (exec_ok _ _ demo_world_ok)) Hl) as H. cbv zeta in H.
  assert (E : fst (process_signal_take 3 true w) = (0, Some 2)) by (vm_compute; reflexivity).
  destruct (process_signal_take 3 true w) as [[rc out] w']. cbn [fst snd] in *. injection E as -> ->.
  destruct H as [(H & _)|(n & p' & _ & E & _)]; [discriminate H|]. injection E as <-. exists 2. split; reflexivity.
Defined.
