(* ===== verification/Bytes.v ===== *)
(** * Byte buffers: copy loops, slices, ring views and big-endian fields

    The parts of the kernel that move bytes (channels, the log ring, network
    packets) all do it with index loops over fixed arrays. Their loops and the
    list facts that describe them are shared here. *)
From stdpp Require Import base tactics list numbers.
From S2P Require Import Prelude.

(** [for (i = 0; i < n; i++) d[doff + i] = s[soff + i];] *)
Fixpoint copy (n : nat) (d : list Z) (doff : Z) (s : list Z) (soff : Z) : list Z :=
  match n with
  | O => d
  | S n => copy n (aset doff (aget 0 s soff) d) (doff + 1) s (soff + 1)
  end.

(** [for (i = 0; i < n; i++) d[doff + i] = v;] *)
Fixpoint fill (n : nat) (d : list Z) (doff v : Z) : list Z :=
  match n with
  | O => d
  | S n => fill n (aset doff v d) (doff + 1) v
  end.

Lemma length_copy n d doff s soff : length (copy n d doff s soff) = length d.
Proof. revert d doff soff. induction n as [|n IH]; intros; cbn; [done|]. by rewrite IH, length_aset. Qed.

Lemma length_fill n d doff v : length (fill n d doff v) = length d.
Proof. revert d doff. induction n as [|n IH]; intros; cbn; [done|]. by rewrite IH, length_aset. Qed.

Lemma aget_copy n d doff s soff j :
  0 <= doff -> doff + Z.of_nat n <= Z.of_nat (length d) -> 0 <= j ->
  aget 0 (copy n d doff s soff) j =
    if (doff <=? j) && (j <? doff + Z.of_nat n) then aget 0 s (soff + (j - doff)) else aget 0 d j.
Proof.
  revert d doff soff. induction n as [|n IH]; intros d doff soff H0 Hl Hj; cbn [copy].
  - split_ifs; [lia|done].
  - rewrite IH by (rewrite ?length_aset; lia).
    destruct (decide (j = doff)) as [->|].
    + destruct (doff + 1 <=? doff) eqn:E1; bool_to_prop; [lia|]. cbn [andb].
      rewrite aget_aset_eq by lia.
      destruct (doff <=? doff) eqn:E2; bool_to_prop; [|lia].
      destruct (doff <? doff + Z.of_nat (S n)) eqn:E3; bool_to_prop; [|lia]. cbn [andb]. f_equal. lia.
    + rewrite aget_aset_ne by lia.
      destruct (doff + 1 <=? j) eqn:E1, (j <? doff + 1 + Z.of_nat n) eqn:E2,
        (doff <=? j) eqn:E3, (j <? doff + Z.of_nat (S n)) eqn:E4; bool_to_prop; cbn [andb]; try lia; try done.
      f_equal. lia.
Qed.

Lemma aget_fill n d doff v j :
  0 <= doff -> doff + Z.of_nat n <= Z.of_nat (length d) -> 0 <= j ->
  aget 0 (fill n d doff v) j =
    if (doff <=? j) && (j <? doff + Z.of_nat n) then v else aget 0 d j.
Proof.
  revert d doff. induction n as [|n IH]; intros d doff H0 Hl Hj; cbn [fill].
  - split_ifs; [lia|done].
  - rewrite IH by (rewrite ?length_aset; lia).
    destruct (decide (j = doff)) as [->|].
    + rewrite aget_aset_eq by lia.
      destruct (doff <=? doff) eqn:E2; bool_to_prop; [|lia].
      destruct (doff <? doff + Z.of_nat (S n)) eqn:E3; bool_to_prop; [|lia]. by case_if.
    + rewrite aget_aset_ne by lia.
      destruct (doff + 1 <=? j) eqn:E1, (j <? doff + 1 + Z.of_nat n) eqn:E2,
        (doff <=? j) eqn:E3, (j <? doff + Z.of_nat (S n)) eqn:E4; bool_to_prop; cbn [andb]; try lia; try done.
Qed.

(** ** Slices *)

(** The [n] bytes of [l] from offset [off], as the code would read them. *)
Definition slice (l : list Z) (off n : Z) : list Z := (fun k => aget 0 l (off + k)) <$> seqZ 0 n.

Lemma length_slice l off n : 0 <= n -> Z.of_nat (length (slice l off n)) = n.
Proof. intros. unfold slice. rewrite length_fmap, length_seqZ. lia. Qed.

Lemma lookup_seqZ_fmap (f : Z -> Z) n i :
  0 <= i < n -> aget 0 (f <$> seqZ 0 n) i = f i.
Proof.
  intros Hi. unfold aget. rewrite list_lookup_fmap, lookup_seqZ_lt by lia. cbn. f_equal. lia.
Qed.

Lemma aget_slice l off n i : 0 <= i < n -> aget 0 (slice l off n) i = aget 0 l (off + i).
Proof. intros. unfold slice. by rewrite lookup_seqZ_fmap by lia. Qed.

Lemma list_ext_aget (l k : list Z) :
  length l = length k ->
  (forall i, 0 <= i < Z.of_nat (length l) -> aget 0 l i = aget 0 k i) -> l = k.
Proof.
  intros Hl Hi. apply list_eq_same_length with (n := length l); [done|done|].
  intros i x y Hlt Hx Hy. specialize (Hi (Z.of_nat i) ltac:(lia)).
  unfold aget in Hi. rewrite Nat2Z.id, Hx, Hy in Hi. done.
Qed.

Lemma aget_app (l k : list Z) i :
  0 <= i -> aget 0 (l ++ k) i =
    if i <? Z.of_nat (length l) then aget 0 l i else aget 0 k (i - Z.of_nat (length l)).
Proof.
  intros Hi. unfold aget. split_ifs.
  - by rewrite lookup_app_l by lia.
  - rewrite lookup_app_r by lia. do 2 f_equal. lia.
Qed.

Lemma aget_take (l : list Z) n i : 0 <= i < Z.of_nat n -> aget 0 (take n l) i = aget 0 l i.
Proof. intros. unfold aget. by rewrite lookup_take_lt by lia. Qed.

Lemma aget_drop (l : list Z) n i : 0 <= i -> aget 0 (drop n l) i = aget 0 l (Z.of_nat n + i).
Proof. intros. unfold aget. rewrite lookup_drop. do 2 f_equal. lia. Qed.

Lemma slice_whole (l : list Z) : slice l 0 (Z.of_nat (length l)) = l.
Proof.
  apply list_ext_aget; [pose proof (length_slice l 0 (Z.of_nat (length l))); lia|].
  intros i Hi. pose proof (length_slice l 0 (Z.of_nat (length l))). rewrite aget_slice by lia. done.
Qed.

Lemma slice_take (l : list Z) n : 0 <= n <= Z.of_nat (length l) -> slice l 0 n = take (Z.to_nat n) l.
Proof.
  intros Hn. pose proof (length_slice l 0 n). apply list_ext_aget; [rewrite length_take; lia|].
  intros i Hi. rewrite aget_slice, aget_take by lia. done.
Qed.

Lemma slice_cons l off n : 0 < n -> slice l off n = aget 0 l off :: slice l (off + 1) (n - 1).
Proof.
  intros Hn. unfold slice. rewrite seqZ_cons by lia. rewrite fmap_cons, Z.add_0_r. f_equal.
  replace (Z.pred n) with (n - 1) by lia. change (Z.succ 0) with (1 + 0).
  rewrite <- fmap_add_seqZ, <- list_fmap_compose. apply list_fmap_ext. intros ? x _. cbn. f_equal. lia.
Qed.

Lemma slice_nil l off n : n <= 0 -> slice l off n = [].
Proof. intros Hn. unfold slice. by rewrite seqZ_nil. Qed.

Lemma slice_app (l k : list Z) : slice (l ++ k) (Z.of_nat (length l)) (Z.of_nat (length k)) = k.
Proof.
  pose proof (length_slice (l ++ k) (Z.of_nat (length l)) (Z.of_nat (length k))). apply list_ext_aget; [lia|].
  intros i Hi. rewrite aget_slice, aget_app by lia. case_if; [lia|]. f_equal. lia.
Qed.

(** The middle of three runs. *)
Lemma slice_mid (l m k : list Z) off n :
  off = Z.of_nat (length l) -> n = Z.of_nat (length m) -> slice (l ++ m ++ k) off n = m.
Proof.
  intros -> ->. pose proof (length_slice (l ++ m ++ k) (Z.of_nat (length l)) (Z.of_nat (length m))).
  apply list_ext_aget; [lia|]. intros i Hi. rewrite aget_slice, aget_app by lia. case_if; [lia|].
  rewrite aget_app by lia. case_if; [|lia]. f_equal. lia.
Qed.

Lemma Forall_slice (P : Z -> Prop) l off n : Forall P l -> P 0 -> Forall P (slice l off n).
Proof.
  intros Hl H0. unfold slice. apply Forall_fmap, Forall_true. intros k. cbn. unfold aget.
  destruct (l !! _) eqn:E; [|done]. by eapply Forall_lookup_1.
Qed.

(** ** Ring buffers *)

(** [n] bytes of the ring [d] of size [cap], oldest first, starting at [h]. *)
Definition ring_view (cap : Z) (d : list Z) (h n : Z) : list Z :=
  (fun k => aget 0 d ((h + k) mod cap)) <$> seqZ 0 n.

Lemma length_ring_view cap d h n : 0 <= n -> Z.of_nat (length (ring_view cap d h n)) = n.
Proof. intros. unfold ring_view. rewrite length_fmap, length_seqZ. lia. Qed.

Lemma aget_ring_view cap d h n i :
  0 <= i < n -> aget 0 (ring_view cap d h n) i = aget 0 d ((h + i) mod cap).
Proof. intros. unfold ring_view. by rewrite lookup_seqZ_fmap by lia. Qed.

(** Reduction of an index that wraps at most once. *)
Lemma mod_once cap x : 0 < cap -> 0 <= x < 2 * cap -> x mod cap = if x <? cap then x else x - cap.
Proof.
  intros Hc Hx. split_ifs; [apply Z.mod_small; lia|].
  symmetry. apply Z.mod_unique_pos with 1; lia.
Qed.

(** Storing [m] bytes at position [t] of a ring in two runs, up to the end and
    then from the start. *)
Definition ring_store (cap : Z) (d : list Z) (t : Z) (s : list Z) (m : Z) : list Z :=
  let a := if cap - t <? m then cap - t else m in
  let d := copy (Z.to_nat a) d t s 0 in
  if a <? m then copy (Z.to_nat (m - a)) d 0 s a else d.

Lemma length_ring_store cap d t s m : length (ring_store cap d t s m) = length d.
Proof. unfold ring_store. case_if; rewrite !length_copy; done. Qed.

Lemma aget_ring_store cap d t s m j :
  Z.of_nat (length d) = cap -> 0 <= t < cap -> 0 <= m <= cap -> 0 <= j < cap ->
  aget 0 (ring_store cap d t s m) j =
    if (j - t) mod cap <? m then aget 0 s ((j - t) mod cap) else aget 0 d j.
Proof.
  intros Hl Ht Hm Hj. unfold ring_store.
  assert (Hmod : (j - t) mod cap = if t <=? j then j - t else j - t + cap).
  { case_if; [apply Z.mod_small; lia|]. symmetry. apply Z.mod_unique_pos with (-1); lia. }
  rewrite Hmod. destruct (cap - t <? m) eqn:E; bool_to_prop.
  - destruct (cap - t <? m) eqn:E'; bool_to_prop; [|lia].
    rewrite aget_copy by (rewrite ?length_copy; lia). rewrite aget_copy by lia.
    rewrite !Z2Nat.id by lia.
    destruct (0 <=? j) eqn:E1, (j <? 0 + (m - (cap - t))) eqn:E2, (t <=? j) eqn:E3,
      (j <? t + (cap - t)) eqn:E4; bool_to_prop; cbn [andb]; try lia; case_if; try lia; try done;
      f_equal; lia.
  - destruct (m <? m) eqn:E'; bool_to_prop; [lia|].
    rewrite aget_copy by lia. rewrite !Z2Nat.id by lia.
    destruct (t <=? j) eqn:E3, (j <? t + m) eqn:E4; bool_to_prop; cbn [andb]; try lia; case_if; try lia; try done.
Qed.

(** Fetching [m] bytes from position [h] of a ring into the front of [b]. *)
Definition ring_fetch (cap : Z) (d : list Z) (h : Z) (b : list Z) (m : Z) : list Z :=
  let a := if cap - h <? m then cap - h else m in
  let b := copy (Z.to_nat a) b 0 d h in
  if a <? m then copy (Z.to_nat (m - a)) b a d 0 else b.

Lemma ring_fetch_view cap d h b m :
  Z.of_nat (length d) = cap -> 0 <= h < cap -> 0 <= m <= cap -> m <= Z.of_nat (length b) ->
  ring_fetch cap d h b m = ring_view cap d h m ++ drop (Z.to_nat m) b.
Proof.
  intros Hl Hh Hm Hb. pose proof (length_ring_view cap d h m ltac:(lia)) as Hlv.
  assert (Hlen : length (ring_fetch cap d h b m) = length b).
  { unfold ring_fetch. case_if; rewrite !length_copy; done. }
  apply list_ext_aget; [rewrite Hlen, length_app, length_drop; lia|].
  intros i Hi. rewrite Hlen in Hi. rewrite aget_app by lia. rewrite Hlv.
  unfold ring_fetch. destruct (cap - h <? m) eqn:E; bool_to_prop.
  - destruct (cap - h <? m) eqn:E'; bool_to_prop; [|lia].
    rewrite aget_copy by (rewrite ?length_copy; lia). rewrite aget_copy by lia. rewrite !Z2Nat.id by lia.
    destruct (i <? m) eqn:Em; bool_to_prop.
    + rewrite aget_ring_view by lia. rewrite mod_once by lia.
      destruct (cap - h <=? i) eqn:E1, (i <? cap - h + (m - (cap - h))) eqn:E2, (0 <=? i) eqn:E3,
        (i <? 0 + (cap - h)) eqn:E4, (h + i <? cap) eqn:E5; bool_to_prop; cbn [andb]; try lia; f_equal; lia.
    + rewrite aget_drop by lia.
      destruct (cap - h <=? i) eqn:E1, (i <? cap - h + (m - (cap - h))) eqn:E2, (0 <=? i) eqn:E3,
        (i <? 0 + (cap - h)) eqn:E4; bool_to_prop; cbn [andb]; try lia; f_equal; lia.
  - destruct (m <? m) eqn:E'; bool_to_prop; [lia|].
    rewrite aget_copy by lia. rewrite !Z2Nat.id by lia.
    destruct (i <? m) eqn:Em; bool_to_prop.
    + rewrite aget_ring_view, mod_once by lia.
      destruct (0 <=? i) eqn:E3, (i <? 0 + m) eqn:E4, (h + i <? cap) eqn:E5; bool_to_prop; cbn [andb];
        try lia; f_equal; lia.
    + rewrite aget_drop by lia.
      destruct (0 <=? i) eqn:E3, (i <? 0 + m) eqn:E4; bool_to_prop; cbn [andb]; try lia; f_equal; lia.
Qed.

(** A store behind the [n] queued bytes appends to the view. *)
Lemma ring_view_store cap d h n s m :
  Z.of_nat (length d) = cap -> 0 <= h < cap -> 0 <= n -> 0 <= m -> n + m <= cap ->
  m <= Z.of_nat (length s) ->
  ring_view cap (ring_store cap d ((h + n) mod cap) s m) h (n + m)
    = ring_view cap d h n ++ take (Z.to_nat m) s.
Proof.
  intros Hl Hh Hn Hm Hnm Hs. pose proof (length_ring_view cap d h n ltac:(lia)) as Hln.
  pose proof (length_ring_view cap (ring_store cap d ((h + n) mod cap) s m) h (n + m) ltac:(lia)) as Hlm.
  apply list_ext_aget; [rewrite length_app, length_take; lia|].
  intros i Hi. rewrite Hlm in Hi. rewrite aget_ring_view, aget_app, Hln by lia.
  pose proof (Z.mod_pos_bound (h + i) cap ltac:(lia)). pose proof (Z.mod_pos_bound (h + n) cap ltac:(lia)).
  rewrite aget_ring_store by lia.
  assert (Hd : ((h + i) mod cap - (h + n) mod cap) mod cap = (i - n) mod cap).
  { rewrite <- Zminus_mod. f_equal. lia. }
  rewrite Hd. destruct (i <? n) eqn:E; bool_to_prop.
  - assert ((i - n) mod cap = i - n + cap) as ->.
    { symmetry. apply Z.mod_unique_pos with (-1); lia. }
    case_if; [lia|]. by rewrite aget_ring_view by lia.
  - rewrite (Z.mod_small (i - n)) by lia. case_if; [|lia]. by rewrite aget_take by lia.
Qed.

Lemma ring_view_split cap d h n m :
  0 <= h < cap -> 0 <= m <= n ->
  ring_view cap d h n = ring_view cap d h m ++ ring_view cap d ((h + m) mod cap) (n - m).
Proof.
  intros Hh Hm. pose proof (length_ring_view cap d h n ltac:(lia)) as Hln.
  pose proof (length_ring_view cap d h m ltac:(lia)) as Hlm.
  pose proof (length_ring_view cap d ((h + m) mod cap) (n - m) ltac:(lia)) as Hlk.
  apply list_ext_aget; [rewrite length_app; lia|].
  intros i Hi. rewrite aget_app, Hlm, aget_ring_view by lia. case_if; rewrite aget_ring_view by lia; [done|].
  f_equal. rewrite Zplus_mod_idemp_l. f_equal. lia.
Qed.

(** ** Little-endian fields *)

(** [__builtin_memcpy(&x, d + off, n)]: a little-endian load of [n] bytes. *)
Fixpoint le_load (n : nat) (d : list Z) (off : Z) : Z :=
  match n with
  | O => 0
  | S n => aget 0 d off + 256 * le_load n d (off + 1)
  end.

Lemma le_load_nonneg n d off : Forall is_u8 d -> 0 <= le_load n d off.
Proof.
  intros Hd. revert off. induction n as [|n IH]; intros off; cbn [le_load]; [lia|].
  assert (0 <= aget 0 d off).
  { unfold aget. destruct (d !! Z.to_nat off) eqn:E; cbn; [|lia].
    pose proof (proj1 (Forall_lookup _ _) Hd _ _ E) as H. unfold is_u8 in H. lia. }
  specialize (IH (off + 1)). lia.
Qed.

Lemma aget_u8 d i : Forall is_u8 d -> is_u8 (aget 0 d i).
Proof. intros Hd. unfold aget. destruct (d !! Z.to_nat i) eqn:E; cbn; [by eapply Forall_lookup_1|]. unfold is_u8. lia. Qed.

Lemma le_load_range n d off : Forall is_u8 d -> 0 <= le_load n d off < 2 ^ (8 * Z.of_nat n).
Proof.
  intros Hd. revert off. induction n as [|n IH]; intros off; cbn [le_load]; [lia|].
  pose proof (aget_u8 d off Hd) as H. unfold is_u8 in H. specialize (IH (off + 1)).
  replace (8 * Z.of_nat (S n)) with (8 + 8 * Z.of_nat n) by lia. rewrite Z.pow_add_r by lia. lia.
Qed.
