(* ===== verification/Channel.v ===== *)
(** * Byte channels ([kernel/ipc/channel.h], [kernel/ipc/channel.c])

    A 4096-byte ring guarded by a spinlock, specified as a bounded FIFO. *)
From stdpp Require Import base tactics list numbers.
From S2P Require Import Prelude Lock Bytes.

Definition RIX_IPC_CAPACITY : Z := 4096.

Record rix_ipc_channel_t := {
  data : list Z; head : Z; tail : Z; count : Z; closed : Z; lock : rix_spinlock_t }.

#[global] Program Instance channel_guard : HasGuard rix_ipc_channel_t := {|
  guard := lock;
  with_guard l c := {| data := data c; head := head c; tail := tail c; count := count c;
                       closed := closed c; lock := l |};
|}.
Next Obligation. done. Qed.
Next Obligation. by intros []. Qed.
Next Obligation. done. Qed.

Definition copy_in (d : list Z) (doff : Z) (s : list Z) (soff n : Z) : list Z :=
  copy (Z.to_nat n) d doff s soff.

Definition ipc_channel_init (c : option rix_ipc_channel_t) : option rix_ipc_channel_t :=
  match c with
  | None => None
  | Some c => match rix_spin_init (Some (lock c)) with
              | None => None
              | Some l => Some {| data := data c; head := 0; tail := 0; count := 0; closed := 0; lock := l |}
              end
  end.

(** The critical section of [ipc_write]: result code and the value [*w] ends
    with, when the caller passed a pointer. *)
Definition ipc_write_body (buf : list Z) (n : Z) (_ : cpu) (c : rix_ipc_channel_t)
  : (Z * Z) * rix_ipc_channel_t :=
  if truthy (closed c) then ((-2, 0), c)
  else
    let m := n in
    let m := if RIX_IPC_CAPACITY - count c <? m then RIX_IPC_CAPACITY - count c else m in
    let a := m in
    let a := if RIX_IPC_CAPACITY - tail c <? a then RIX_IPC_CAPACITY - tail c else a in
    let d := copy_in (data c) (tail c) buf 0 a in
    let d := if a <? m then copy_in d 0 buf a (m - a) else d in
    ((if m =? n then 0 else -3, m),
     {| data := d; head := head c; tail := (tail c + m) mod RIX_IPC_CAPACITY;
        count := count c + m; closed := closed c; lock := lock c |}).

(** [buf = None] is a null buffer; [w] is the cell behind the out pointer. *)
Definition ipc_write (buf : option (list Z)) (n : Z) (w : option Z)
  : M (cpu * option rix_ipc_channel_t) (Z * option Z) := fun '(cp, c) =>
  let w := (fun _ => 0) <$> w in
  match c, buf with
  | None, _ => Some ((-1, w), (cp, c))
  | Some _, None => if truthy n then Some ((-1, w), (cp, c)) else
      match null_check (-1, 0) (locked (ipc_write_body [] n)) (cp, c) with
      | Some ((rc, m), s) => Some ((rc, (fun _ => m) <$> w), s)
      | None => None
      end
  | Some _, Some b =>
      match null_check (-1, 0) (locked (ipc_write_body b n)) (cp, c) with
      | Some ((rc, m), s) => Some ((rc, (fun _ => m) <$> w), s)
      | None => None
      end
  end.

Definition ipc_read_body (buf : list Z) (n : Z) (_ : cpu) (c : rix_ipc_channel_t)
  : (Z * Z * list Z) * rix_ipc_channel_t :=
  let m := n in
  let m := if count c <? m then count c else m in
  let a := m in
  let a := if RIX_IPC_CAPACITY - head c <? a then RIX_IPC_CAPACITY - head c else a in
  let d := copy_in buf 0 (data c) (head c) a in
  let d := if a <? m then copy_in d a (data c) 0 (m - a) else d in
  ((if negb (truthy m) && truthy (closed c) then -2 else if m =? n then 0 else -3, m, d),
   {| data := data c; head := (head c + m) mod RIX_IPC_CAPACITY; tail := tail c;
      count := count c - m; closed := closed c; lock := lock c |}).

Definition ipc_read (buf : option (list Z)) (n : Z) (r : option Z)
  : M (cpu * option rix_ipc_channel_t) (Z * option Z * option (list Z)) := fun '(cp, c) =>
  let r := (fun _ => 0) <$> r in
  match c, buf with
  | None, _ => Some ((-1, r, buf), (cp, c))
  | Some _, None => if truthy n then Some ((-1, r, buf), (cp, c)) else
      match null_check (-1, 0, []) (locked (ipc_read_body [] n)) (cp, c) with
      | Some ((rc, m, _), s) => Some ((rc, (fun _ => m) <$> r, None), s)
      | None => None
      end
  | Some _, Some b =>
      match null_check (-1, 0, []) (locked (ipc_read_body b n)) (cp, c) with
      | Some ((rc, m, b'), s) => Some ((rc, (fun _ => m) <$> r, Some b'), s)
      | None => None
      end
  end.

Definition ipc_close_body (_ : cpu) (c : rix_ipc_channel_t) : Z * rix_ipc_channel_t :=
  (0, {| data := data c; head := head c; tail := tail c; count := count c; closed := 1; lock := lock c |}).

Definition ipc_close : M (cpu * option rix_ipc_channel_t) Z := null_check (-1) (locked ipc_close_body).

(** ** Specification: a bounded FIFO of bytes *)

Record fifo := { queued : list Z; fclosed : bool }.

Definition room (q : fifo) : Z := RIX_IPC_CAPACITY - Z.of_nat (length (queued q)).

(** Accepts a prefix of the offered bytes: all of them, or as many as fit. *)
Definition fifo_write (bytes : list Z) (q : fifo) : (Z * Z) * fifo :=
  let n := Z.of_nat (length bytes) in
  if fclosed q then ((-2, 0), q)
  else let m := Z.min n (room q) in
       ((if m =? n then 0 else -3, m),
        {| queued := queued q ++ take (Z.to_nat m) bytes; fclosed := false |}).

(** Delivers the oldest bytes; an empty closed queue reports end of stream. *)
Definition fifo_read (n : Z) (q : fifo) : (Z * list Z) * fifo :=
  let got := take (Z.to_nat n) (queued q) in
  let m := Z.of_nat (length got) in
  ((if (m =? 0) && fclosed q then -2 else if m =? n then 0 else -3, got),
   {| queued := drop (Z.to_nat n) (queued q); fclosed := fclosed q |}).

Definition abs (c : rix_ipc_channel_t) : fifo :=
  {| queued := ring_view RIX_IPC_CAPACITY (data c) (head c) (count c); fclosed := truthy (closed c) |}.

(** ** Invariant *)

Definition channel_wf (c : rix_ipc_channel_t) : Prop :=
  Z.of_nat (length (data c)) = RIX_IPC_CAPACITY /\ 0 <= head c < RIX_IPC_CAPACITY /\
  0 <= count c <= RIX_IPC_CAPACITY /\ tail c = (head c + count c) mod RIX_IPC_CAPACITY /\
  lock c = spin_free.

Lemma length_queued c : channel_wf c -> Z.of_nat (length (queued (abs c))) = count c.
Proof. intros (_ & _ & Hc & _). cbn. apply length_ring_view. lia. Qed.

Lemma write_body_store buf n cp c :
  ipc_write_body buf n cp c =
    if truthy (closed c) then ((-2, 0), c)
    else let m := if RIX_IPC_CAPACITY - count c <? n then RIX_IPC_CAPACITY - count c else n in
         ((if m =? n then 0 else -3, m),
          {| data := ring_store RIX_IPC_CAPACITY (data c) (tail c) buf m; head := head c;
             tail := (tail c + m) mod RIX_IPC_CAPACITY; count := count c + m; closed := closed c; lock := lock c |}).
Proof. reflexivity. Qed.

Lemma write_body_refines buf cp c :
  channel_wf c ->
  let '(r, c') := ipc_write_body buf (Z.of_nat (length buf)) cp c in
  channel_wf c' /\ (r, abs c') = fifo_write buf (abs c).
Proof.
  intros Hwf. pose proof (length_queued c Hwf) as Hq. destruct Hwf as (Hd & Hh & Hc & Ht & Hl).
  rewrite write_body_store. unfold fifo_write, room. rewrite Hq. cbn [fclosed abs queued].
  destruct (truthy (closed c)) eqn:Ecl; [done|]. cbv zeta.
  set (n := Z.of_nat (length buf)).
  assert (Hm : (if RIX_IPC_CAPACITY - count c <? n then RIX_IPC_CAPACITY - count c else n)
               = Z.min n (RIX_IPC_CAPACITY - count c)) by (case_if; lia).
  rewrite Hm. set (m := Z.min n _). split.
  - split; cbn [data head tail count closed lock]; [by rewrite length_ring_store|].
    split; [done|]. split; [lia|]. split; [|done]. rewrite Ht, Zplus_mod_idemp_l. f_equal. lia.
  - f_equal. unfold abs. cbn [data head tail count closed lock]. rewrite Ecl, Ht.
    f_equal. apply ring_view_store; lia.
Qed.

Lemma read_body_refines buf n cp c :
  channel_wf c -> 0 <= n <= Z.of_nat (length buf) ->
  let '((rc, m, buf'), c') := ipc_read_body buf n cp c in
  let '((rc', got), q') := fifo_read n (abs c) in
  channel_wf c' /\ rc = rc' /\ abs c' = q' /\ m = Z.of_nat (length got) /\
  buf' = got ++ drop (Z.to_nat m) buf.
Proof.
  intros Hwf Hn. pose proof (length_queued c Hwf) as Hq. destruct Hwf as (Hd & Hh & Hc & Ht & Hl).
  unfold ipc_read_body, fifo_read.
  assert (Hm : (if count c <? n then count c else n) = Z.min n (count c)) by (case_if; lia).
  rewrite Hm. set (m := Z.min n (count c)).
  pose proof (ring_view_split RIX_IPC_CAPACITY (data c) (head c) (count c) m Hh ltac:(lia)) as Hs.
  pose proof (length_ring_view RIX_IPC_CAPACITY (data c) (head c) m ltac:(lia)) as Hlm.
  assert (Hgot : take (Z.to_nat n) (queued (abs c)) = ring_view RIX_IPC_CAPACITY (data c) (head c) m).
  { destruct (decide (n <= count c)).
    - cbn [abs queued]. rewrite Hs. apply take_app_length'. lia.
    - rewrite take_ge by lia. cbn [abs queued]. by replace m with (count c) by lia. }
  assert (Hrest : drop (Z.to_nat n) (queued (abs c))
                  = ring_view RIX_IPC_CAPACITY (data c) ((head c + m) mod RIX_IPC_CAPACITY) (count c - m)).
  { destruct (decide (n <= count c)).
    - cbn [abs queued]. rewrite Hs. apply drop_app_length'. lia.
    - rewrite drop_ge by lia. replace m with (count c) by lia. by rewrite Z.sub_diag. }
  rewrite Hgot, Hrest, Hlm. split; [|split; [|split; [|split]]].
  - split; cbn [data head tail count closed lock]; [done|].
    split; [apply Z.mod_pos_bound; unfold RIX_IPC_CAPACITY; lia|]. split; [lia|]. split; [|done].
    rewrite Ht, Zplus_mod_idemp_l. f_equal. lia.
  - cbn [abs fclosed]. unfold truthy. by rewrite negb_involutive.
  - done.
  - done.
  - change (ring_fetch RIX_IPC_CAPACITY (data c) (head c) buf m
              = ring_view RIX_IPC_CAPACITY (data c) (head c) m ++ drop (Z.to_nat m) buf).
    apply ring_fetch_view; lia.
Qed.

Lemma write_locked_run buf n cp c :
  lock c = spin_free ->
  null_check (-1, 0) (locked (ipc_write_body buf n)) (cp, Some c)
    = let '(r, c') := ipc_write_body buf n cp c in Some (r, (cp, Some c')).
Proof.
  intros Hl. rewrite null_check_locked_run; [by destruct (ipc_write_body buf n cp c)|done| |];
    rewrite !write_body_store; destruct c as [d h t n' cl l]; cbn in Hl |- *; subst l;
    destruct (truthy cl); done.
Qed.

Lemma read_locked_run buf n cp c d :
  lock c = spin_free ->
  null_check d (locked (ipc_read_body buf n)) (cp, Some c)
    = let '(r, c') := ipc_read_body buf n cp c in Some (r, (cp, Some c')).
Proof. intros Hl. rewrite null_check_locked_run; done. Qed.

Lemma close_run cp c :
  lock c = spin_free ->
  ipc_close (cp, Some c) = let '(r, c') := ipc_close_body cp c in Some (r, (cp, Some c')).
Proof. intros Hl. unfold ipc_close. rewrite null_check_locked_run; done. Qed.

Lemma write_refines cp c buf w :
  channel_wf c ->
  exists rc m c', ipc_write (Some buf) (Z.of_nat (length buf)) w (cp, Some c)
      = Some ((rc, (fun _ => m) <$> w), (cp, Some c')) /\
    channel_wf c' /\ ((rc, m), abs c') = fifo_write buf (abs c).
Proof.
  intros Hwf. pose proof (write_body_refines buf cp c Hwf) as H. unfold ipc_write.
  rewrite write_locked_run by apply Hwf.
  destruct (ipc_write_body buf (Z.of_nat (length buf)) cp c) as [[rc m] c'].
  exists rc, m, c'. split; [|done]. by destruct w.
Qed.

Lemma read_refines cp c buf n r :
  channel_wf c -> 0 <= n <= Z.of_nat (length buf) ->
  exists rc got c', ipc_read (Some buf) n r (cp, Some c)
      = Some ((rc, (fun _ => Z.of_nat (length got)) <$> r, Some (got ++ drop (length got) buf)), (cp, Some c')) /\
    channel_wf c' /\ ((rc, got), abs c') = fifo_read n (abs c).
Proof.
  intros Hwf Hn. pose proof (read_body_refines buf n cp c Hwf Hn) as H. unfold ipc_read.
  rewrite read_locked_run by apply Hwf.
  destruct (ipc_read_body buf n cp c) as [[[rc m] buf'] c'].
  destruct (fifo_read n (abs c)) as [[rc' got] q']. destruct H as (Hw & -> & <- & -> & ->).
  exists rc', got, c'. split; [|done]. rewrite Nat2Z.id. by destruct r.
Qed.

Lemma close_refines cp c :
  channel_wf c ->
  exists c', ipc_close (cp, Some c) = Some (0, (cp, Some c')) /\ channel_wf c' /\
    abs c' = {| queued := queued (abs c); fclosed := true |}.
Proof. intros Hwf. rewrite close_run by apply Hwf. eexists. split; [done|]. by split. Qed.

(** The channel is a bounded FIFO of bytes. On a channel in its invariant
    every write, read and close returns (the guard is free and freed again),
    keeps the invariant, and acts on the queued bytes exactly as the
    specification: a write appends the longest prefix that fits and reports how
    much, a read delivers the oldest bytes into the front of the caller's buffer
    and leaves the rest of it alone, close keeps what is queued; wrap-around of
    the ring is invisible. *)
Theorem ipc_channel_refines_fifo cp c (Hwf : channel_wf c) :
  (∀ buf w, ∃ rc m c',
     ipc_write (Some buf) (Z.of_nat (length buf)) w (cp, Some c)
       = Some ((rc, (fun _ => m) <$> w), (cp, Some c')) ∧
     channel_wf c' ∧ ((rc, m), abs c') = fifo_write buf (abs c)) ∧
  (∀ buf n r, 0 <= n <= Z.of_nat (length buf) → ∃ rc got c',
     ipc_read (Some buf) n r (cp, Some c)
       = Some ((rc, (fun _ => Z.of_nat (length got)) <$> r, Some (got ++ drop (length got) buf)), (cp, Some c')) ∧
     channel_wf c' ∧ ((rc, got), abs c') = fifo_read n (abs c)) ∧
  (∃ c', ipc_close (cp, Some c) = Some (0, (cp, Some c')) ∧ channel_wf c' ∧
     abs c' = {| queued := queued (abs c); fclosed := true |}).
Proof.
  split; [|split].
  - intros buf w. by apply write_refines.
  - intros buf n r Hn. by apply read_refines.
  - by apply close_refines.
Qed.

(** A channel with three bytes queued across the end of the ring. *)
Definition wrapped_channel : rix_ipc_channel_t :=
  {| data := aset 0 30 (aset 4095 20 (aset 4094 10 (replicate 4096 0))); head := 4094; tail := 1;
     count := 3; closed := 0; lock := spin_free |}.

Lemma ipc_channel_refines_fifo_witness :
  channel_wf wrapped_channel ∧ queued (abs wrapped_channel) = [10; 20; 30] ∧
  ∃ c', ipc_read (Some [7; 7; 7; 7]) 2 (Some 9) ({| rflags := 0x202; cpu_pid := 1; cpu_index := 0 |}, Some wrapped_channel)
        = Some ((0, Some 2, Some [10; 20; 7; 7]), ({| rflags := 0x202; cpu_pid := 1; cpu_index := 0 |}, Some c')) ∧
        queued (abs c') = [30].
Proof.
  assert (Hwf : channel_wf wrapped_channel).
  { unfold channel_wf. split; [vm_compute; done|]. unfold wrapped_channel, RIX_IPC_CAPACITY. cbn [head count tail lock].
    split; [lia|]. split; [lia|]. done. }
  split; [done|]. split; [vm_compute; done|].
  destruct (ipc_channel_refines_fifo {| rflags := 0x202; cpu_pid := 1; cpu_index := 0 |} _ Hwf) as [_ [Hr _]].
  destruct (Hr [7; 7; 7; 7] 2 (Some 9) ltac:(cbn; lia)) as (rc & got & c' & E & _ & Hf).
  exists c'. assert (Hspec : fifo_read 2 (abs wrapped_channel) = ((0, [10; 20]), {| queued := [30]; fclosed := false |}))
    by (vm_compute; done).
  rewrite Hspec in Hf. pose proof (f_equal (fun x => queued x.2) Hf) as Hq. cbn [snd queued abs] in Hq.
  pose proof (f_equal fst Hf) as Hrc. cbn [fst] in Hrc. injection Hrc as -> ->. split; [exact E|exact Hq].
Defined.
