(* ===== verification/Pipe.v ===== *)
(** * Pipes ([kernel/ipc/pipe.h], [kernel/ipc/pipe.c])

    A channel with counted read and write ends. *)
From stdpp Require Import base tactics list numbers.
From S2P Require Import Prelude Lock Bytes Channel.

Record rix_pipe_t := {
  channel : rix_ipc_channel_t; read_open : Z; write_open : Z; read_refs : Z; write_refs : Z }.

Definition pipe_init (p : option rix_pipe_t) : option rix_pipe_t :=
  match p with
  | None => None
  | Some p => match ipc_channel_init (Some (channel p)) with
              | None => None
              | Some ch => Some {| channel := ch; read_open := 1; write_open := 1; read_refs := 1; write_refs := 1 |}
              end
  end.

Definition set_channel (ch : rix_ipc_channel_t) (p : rix_pipe_t) : rix_pipe_t :=
  {| channel := ch; read_open := read_open p; write_open := write_open p;
     read_refs := read_refs p; write_refs := write_refs p |}.
Definition set_read (o r : Z) (p : rix_pipe_t) : rix_pipe_t :=
  {| channel := channel p; read_open := o; write_open := write_open p; read_refs := r; write_refs := write_refs p |}.
Definition set_write (o r : Z) (p : rix_pipe_t) : rix_pipe_t :=
  {| channel := channel p; read_open := read_open p; write_open := o; read_refs := read_refs p; write_refs := r |}.

Definition pipe_retain_read (p : option rix_pipe_t) : Z * option rix_pipe_t :=
  match p with
  | None => (-1, None)
  | Some q => if negb (truthy (read_open q)) || (read_refs q =? UINT8_MAX) then (-1, p)
              else (0, Some (set_read (read_open q) (u8 (read_refs q + 1)) q))
  end.

Definition pipe_retain_write (p : option rix_pipe_t) : Z * option rix_pipe_t :=
  match p with
  | None => (-1, None)
  | Some q => if negb (truthy (write_open q)) || (write_refs q =? UINT8_MAX) then (-1, p)
              else (0, Some (set_write (write_open q) (u8 (write_refs q + 1)) q))
  end.

(** Runs a channel operation on the pipe's channel. *)
Definition on_channel {A} (m : M (cpu * option rix_ipc_channel_t) A) (cp : cpu) (p : rix_pipe_t)
  : option (A * (cpu * option rix_pipe_t)) :=
  match m (cp, Some (channel p)) with
  | Some (a, (cp', Some ch)) => Some (a, (cp', Some (set_channel ch p)))
  | _ => None
  end.

Definition pipe_read (buffer : option (list Z)) (capacity : Z) (readn : option Z)
  : M (cpu * option rix_pipe_t) (Z * option Z * option (list Z)) := fun '(cp, p) =>
  let readn := (fun _ => 0) <$> readn in
  match p with
  | None => Some ((-1, readn, buffer), (cp, p))
  | Some q => if negb (truthy (read_open q)) then Some ((-1, readn, buffer), (cp, p))
              else on_channel (ipc_read buffer capacity readn) cp q
  end.

Definition pipe_write (buffer : option (list Z)) (length : Z) (written : option Z)
  : M (cpu * option rix_pipe_t) (Z * option Z) := fun '(cp, p) =>
  let written := (fun _ => 0) <$> written in
  match p with
  | None => Some ((-1, written), (cp, p))
  | Some q => if negb (truthy (write_open q)) then Some ((-1, written), (cp, p))
              else if negb (truthy (read_open q)) then Some ((-2, written), (cp, p))
              else on_channel (ipc_write buffer length written) cp q
  end.

Definition pipe_close_read (p : option rix_pipe_t) : Z * option rix_pipe_t :=
  match p with
  | None => (-1, None)
  | Some q => if negb (truthy (read_open q)) || negb (truthy (read_refs q)) then (-1, p)
              else let r := u8 (read_refs q - 1) in
                   (0, Some (set_read (if negb (truthy r) then 0 else read_open q) r q))
  end.

Definition pipe_close_write : M (cpu * option rix_pipe_t) Z := fun '(cp, p) =>
  match p with
  | None => Some (-1, (cp, None))
  | Some q => if negb (truthy (write_open q)) || negb (truthy (write_refs q)) then Some (-1, (cp, p))
              else let r := u8 (write_refs q - 1) in
                   if negb (truthy r) then on_channel ipc_close cp (set_write 0 r q)
                   else Some (0, (cp, Some (set_write (write_open q) r q)))
  end.

(** ** Invariant: an end is open exactly while it is referenced, and the
    channel is closed exactly when the last writer has left. *)
Definition pipe_wf (p : rix_pipe_t) : Prop :=
  channel_wf (channel p) /\ is_u8 (read_refs p) /\ is_u8 (write_refs p) /\
  read_open p = b2z (truthy (read_refs p)) /\ write_open p = b2z (truthy (write_refs p)) /\
  truthy (closed (channel p)) = negb (truthy (write_refs p)).

(** ** Specification: a byte stream between counted ends *)

Record stream := { pending : list Z; readers : Z; writers : Z }.

Definition pipe_abs (p : rix_pipe_t) : stream :=
  {| pending := queued (abs (channel p)); readers := read_refs p; writers := write_refs p |}.

Inductive pipe_op :=
| PWrite (bytes : list Z) | PRead (n : nat)
| PRetainRead | PRetainWrite | PCloseRead | PCloseWrite.

(** What a call shows its caller: the result code, the bytes it accepted and
    the bytes it delivered. *)
Record outcome := { code : Z; accepted : list Z; delivered : list Z }.

Definition just (rc : Z) : outcome := {| code := rc; accepted := []; delivered := [] |}.

Definition stream_step (op : pipe_op) (s : stream) : outcome * stream :=
  match op with
  | PWrite bytes =>
      if writers s =? 0 then (just (-1), s)
      else if readers s =? 0 then (just (-2), s)
      else let m := Nat.min (length bytes) (Z.to_nat RIX_IPC_CAPACITY - length (pending s)) in
           ({| code := if (m =? length bytes)%nat then 0 else -3; accepted := take m bytes; delivered := [] |},
            {| pending := pending s ++ take m bytes; readers := readers s; writers := writers s |})
  | PRead n =>
      if readers s =? 0 then (just (-1), s)
      else let got := take n (pending s) in
           ({| code := if (length got =? 0)%nat && (writers s =? 0) then -2
                       else if (length got =? n)%nat then 0 else -3;
               accepted := []; delivered := got |},
            {| pending := drop n (pending s); readers := readers s; writers := writers s |})
  | PRetainRead =>
      if (readers s =? 0) || (readers s =? 255) then (just (-1), s)
      else (just 0, {| pending := pending s; readers := readers s + 1; writers := writers s |})
  | PRetainWrite =>
      if (writers s =? 0) || (writers s =? 255) then (just (-1), s)
      else (just 0, {| pending := pending s; readers := readers s; writers := writers s + 1 |})
  | PCloseRead =>
      if readers s =? 0 then (just (-1), s)
      else (just 0, {| pending := pending s; readers := readers s - 1; writers := writers s |})
  | PCloseWrite =>
      if writers s =? 0 then (just (-1), s)
      else (just 0, {| pending := pending s; readers := readers s; writers := writers s - 1 |})
  end.

(** The same calls on the implementation. A read passes a buffer of the size it
    asks for; the bytes delivered are the first [*readn] of it. *)
Definition pipe_step (op : pipe_op) (cp : cpu) (p : rix_pipe_t) : option (outcome * rix_pipe_t) :=
  let ret r := match r with (rc, Some p') => Some (just rc, p') | _ => None end in
  match op with
  | PWrite bytes =>
      match pipe_write (Some bytes) (Z.of_nat (length bytes)) (Some 0) (cp, Some p) with
      | Some ((rc, Some w), (_, Some p')) =>
          Some ({| code := rc; accepted := take (Z.to_nat w) bytes; delivered := [] |}, p')
      | _ => None
      end
  | PRead n =>
      match pipe_read (Some (replicate n 0)) (Z.of_nat n) (Some 0) (cp, Some p) with
      | Some ((rc, Some r, Some buf), (_, Some p')) =>
          Some ({| code := rc; accepted := []; delivered := take (Z.to_nat r) buf |}, p')
      | _ => None
      end
  | PRetainRead => ret (pipe_retain_read (Some p))
  | PRetainWrite => ret (pipe_retain_write (Some p))
  | PCloseRead => ret (pipe_close_read (Some p))
  | PCloseWrite =>
      match pipe_close_write (cp, Some p) with
      | Some (rc, (_, Some p')) => Some (just rc, p')
      | _ => None
      end
  end.

Lemma write_open_test p : pipe_wf p -> truthy (write_open p) = truthy (write_refs p).
Proof. intros (_ & _ & _ & _ & -> & _). by destruct (truthy (write_refs p)). Qed.
Lemma read_open_test p : pipe_wf p -> truthy (read_open p) = truthy (read_refs p).
Proof. intros (_ & _ & _ & -> & _). by destruct (truthy (read_refs p)). Qed.

Lemma fclosed_abs p : pipe_wf p -> fclosed (abs (channel p)) = (write_refs p =? 0).
Proof. intros (_ & _ & _ & _ & _ & Hc). cbn. rewrite Hc. unfold truthy. by rewrite negb_involutive. Qed.

Lemma pipe_wf_channel p ch :
  pipe_wf p -> channel_wf ch -> fclosed (abs ch) = fclosed (abs (channel p)) -> pipe_wf (set_channel ch p).
Proof. intros (_ & H1 & H2 & H3 & H4 & H5) Hch E. unfold pipe_wf. cbn in *. by rewrite E. Qed.

Ltac abs_fields :=
  cbn [pipe_step stream_step];
  repeat match goal with
  | |- context [writers (pipe_abs ?p)] => change (writers (pipe_abs p)) with (write_refs p)
  | |- context [readers (pipe_abs ?p)] => change (readers (pipe_abs p)) with (read_refs p)
  | |- context [pending (pipe_abs ?p)] => change (pending (pipe_abs p)) with (queued (abs (channel p)))
  end.

Lemma write_step_refines bytes cp p :
  pipe_wf p ->
  exists o p', pipe_step (PWrite bytes) cp p = Some (o, p') /\ pipe_wf p' /\
    (o, pipe_abs p') = stream_step (PWrite bytes) (pipe_abs p).
Proof.
  intros Hwf. abs_fields.
  unfold pipe_write. cbn [fmap option_fmap option_map]. rewrite write_open_test, read_open_test by done.
  unfold truthy. rewrite !negb_involutive.
  destruct (write_refs p =? 0) eqn:Ew; [eexists _, _; split; [reflexivity|split; [exact Hwf|reflexivity]]|].
  destruct (read_refs p =? 0) eqn:Er; [eexists _, _; split; [reflexivity|split; [exact Hwf|reflexivity]]|].
  destruct (write_refines cp (channel p) bytes (Some 0) (proj1 Hwf)) as (rc & m & c' & E & Hc' & Hf).
  unfold on_channel. rewrite E. cbn [fmap option_fmap option_map].
  pose proof (length_queued _ (proj1 Hwf)) as Hlen. destruct (proj1 Hwf) as (_ & _ & Hcnt & _).
  pose proof (fclosed_abs p Hwf) as Hcl. rewrite Ew in Hcl.
  unfold fifo_write, room in Hf. rewrite Hcl in Hf.
  pose proof (f_equal snd Hf) as Hq. cbn [snd] in Hq. pose proof (f_equal fst Hf) as Hr. cbn [fst] in Hr.
  clear Hf. injection Hr as -> ->. eexists _, _. split; [done|]. split.
  { apply pipe_wf_channel; [done..|]. by rewrite Hq. }
  unfold pipe_abs. cbn [set_channel channel read_refs write_refs pending]. rewrite Hq. cbn [queued].
  replace (Nat.min (length bytes) (Z.to_nat RIX_IPC_CAPACITY - length (queued (abs (channel p)))))%nat
    with (Z.to_nat (Z.min (Z.of_nat (length bytes)) (RIX_IPC_CAPACITY - Z.of_nat (length (queued (abs (channel p)))))))
    by (unfold RIX_IPC_CAPACITY in *; lia).
  do 2 f_equal. unfold RIX_IPC_CAPACITY in *.
  change (ring_view 4096 (data (channel p)) (head (channel p)) (count (channel p)))
    with (queued (abs (channel p))).
  case_if; destruct (_ =? _)%nat eqn:E2; try done; rewrite ?Nat.eqb_eq, ?Nat.eqb_neq in *; lia.
Qed.

Lemma read_step_refines n cp p :
  pipe_wf p ->
  exists o p', pipe_step (PRead n) cp p = Some (o, p') /\ pipe_wf p' /\
    (o, pipe_abs p') = stream_step (PRead n) (pipe_abs p).
Proof.
  intros Hwf. abs_fields.
  unfold pipe_read. cbn [fmap option_fmap option_map]. rewrite read_open_test by done.
  unfold truthy. rewrite !negb_involutive.
  destruct (read_refs p =? 0) eqn:Er; [eexists _, _; split; [reflexivity|split; [exact Hwf|reflexivity]]|].
  destruct (read_refines cp (channel p) (replicate n 0) (Z.of_nat n) (Some 0) (proj1 Hwf))
    as (rc & got & c' & E & Hc' & Hf); [rewrite length_replicate; lia|].
  unfold on_channel. rewrite E. cbn [fmap option_fmap option_map].
  pose proof (fclosed_abs p Hwf) as Hcl. unfold fifo_read in Hf. rewrite Hcl, Nat2Z.id in Hf.
  pose proof (f_equal snd Hf) as Hq. cbn [snd] in Hq. pose proof (f_equal fst Hf) as Hr. cbn [fst] in Hr.
  clear Hf. injection Hr as -> ->. eexists _, _. split; [done|]. split.
  { apply pipe_wf_channel; [done..|]. by rewrite Hq, Hcl. }
  unfold pipe_abs. cbn [set_channel channel read_refs write_refs pending]. rewrite Hq. cbn [queued].
  rewrite Nat2Z.id, take_app_length. do 2 f_equal.
  set (k := length _). destruct (k =? 0)%nat eqn:E1, (Z.of_nat k =? 0) eqn:E2,
    (k =? n)%nat eqn:E3, (Z.of_nat k =? Z.of_nat n) eqn:E4; bool_to_prop;
    rewrite ?Nat.eqb_eq, ?Nat.eqb_neq in *; try lia; done.
Qed.

(** Changing the reference counts keeps the invariant as long as the open flags
    follow them and the channel is closed exactly at zero writers. *)
Lemma refs_wf p q :
  pipe_wf p -> channel_wf (channel q) -> is_u8 (read_refs q) -> is_u8 (write_refs q) ->
  read_open q = b2z (truthy (read_refs q)) -> write_open q = b2z (truthy (write_refs q)) ->
  truthy (closed (channel q)) = negb (truthy (write_refs q)) -> pipe_wf q.
Proof. by intros _ H1 H2 H3 H4 H5 H6. Qed.

Ltac ends_arith :=
  unfold truthy, is_u8, b2z, UINT8_MAX in *;
  repeat match goal with
  | H : context [?x =? ?y] |- _ => destruct (Z.eqb_spec x y); cbn [negb andb orb] in *
  | |- context [?x =? ?y] => destruct (Z.eqb_spec x y); cbn [negb andb orb] in *
  end; subst; try done; try lia.

Lemma ends_step_refines op cp p :
  op ∈ [PRetainRead; PRetainWrite; PCloseRead] ->
  pipe_wf p ->
  exists o p', pipe_step op cp p = Some (o, p') /\ pipe_wf p' /\
    (o, pipe_abs p') = stream_step op (pipe_abs p).
Proof.
  intros Hop Hwf. pose proof Hwf as (Hch & Hr & Hw & Hro & Hwo & Hcl).
  rewrite !elem_of_cons, elem_of_nil in Hop. destruct Hop as [->|[->|[->|[]]]]; abs_fields.
  - unfold pipe_retain_read. rewrite Hro. destruct (_ || _) eqn:E.
    + eexists _, _. split; [reflexivity|]. split; [done|]. case_if; [done|]. ends_arith.
    + eexists _, _. split; [reflexivity|]. rewrite u8_id by ends_arith. split.
      * apply (refs_wf p); cbn; ends_arith.
      * case_if; ends_arith.
  - unfold pipe_retain_write. rewrite Hwo. destruct (_ || _) eqn:E.
    + eexists _, _. split; [reflexivity|]. split; [done|]. case_if; [done|]. ends_arith.
    + eexists _, _. split; [reflexivity|]. rewrite u8_id by ends_arith. split.
      * apply (refs_wf p); cbn; ends_arith.
      * case_if; ends_arith.
  - unfold pipe_close_read. rewrite Hro. destruct (_ || _) eqn:E.
    + eexists _, _. split; [reflexivity|]. split; [done|]. case_if; [done|]. ends_arith.
    + eexists _, _. split; [reflexivity|]. rewrite u8_id by ends_arith. split.
      * apply (refs_wf p); cbn; ends_arith.
      * case_if; ends_arith.
Qed.

Lemma close_write_step_refines cp p :
  pipe_wf p ->
  exists o p', pipe_step PCloseWrite cp p = Some (o, p') /\ pipe_wf p' /\
    (o, pipe_abs p') = stream_step PCloseWrite (pipe_abs p).
Proof.
  intros Hwf. pose proof Hwf as (Hch & Hr & Hw & Hro & Hwo & Hcl). abs_fields.
  unfold pipe_close_write. rewrite Hwo. destruct (_ || _) eqn:E.
  - eexists _, _. split; [reflexivity|]. split; [done|]. case_if; [done|]. ends_arith.
  - rewrite u8_id by ends_arith. destruct (negb (truthy (write_refs p - 1))) eqn:E1.
    + destruct (close_refines cp (channel p) Hch) as (c' & Ec & Hc' & Ha).
      unfold on_channel. cbn [channel set_write]. rewrite Ec. eexists _, _. split; [reflexivity|].
      pose proof (f_equal fclosed Ha) as Hcl'. cbn [fclosed abs] in Hcl'. split.
      * apply (refs_wf p); cbn; ends_arith.
      * unfold pipe_abs at 1. cbn [set_channel set_write channel read_refs write_refs]. rewrite Ha.
        case_if; ends_arith.
    + eexists _, _. split; [reflexivity|]. split.
      * apply (refs_wf p); cbn; ends_arith.
      * case_if; ends_arith.
Qed.

Lemma pipe_step_refines op cp p :
  pipe_wf p ->
  exists o p', pipe_step op cp p = Some (o, p') /\ pipe_wf p' /\
    (o, pipe_abs p') = stream_step op (pipe_abs p).
Proof.
  destruct op; [apply write_step_refines|apply read_step_refines| | | |apply close_write_step_refines];
    apply ends_step_refines; rewrite !elem_of_cons; tauto.
Qed.

(** ** Histories *)

Fixpoint pipe_history (ops : list pipe_op) (cp : cpu) (p : rix_pipe_t) : option (list outcome * rix_pipe_t) :=
  match ops with
  | [] => Some ([], p)
  | op :: ops =>
      match pipe_step op cp p with
      | None => None
      | Some (o, p') => match pipe_history ops cp p' with
                        | None => None
                        | Some (os, p'') => Some (o :: os, p'')
                        end
      end
  end.

Fixpoint stream_history (ops : list pipe_op) (s : stream) : list outcome * stream :=
  match ops with
  | [] => ([], s)
  | op :: ops => let '(o, s') := stream_step op s in
                 let '(os, s'') := stream_history ops s' in (o :: os, s'')
  end.

Lemma pipe_history_refines ops cp p :
  pipe_wf p -> exists os p', pipe_history ops cp p = Some (os, p') /\ pipe_wf p' /\
    stream_history ops (pipe_abs p) = (os, pipe_abs p').
Proof.
  revert p. induction ops as [|op ops IH]; intros p Hwf; cbn [pipe_history stream_history].
  - by exists [], p.
  - destruct (pipe_step_refines op cp p Hwf) as (o & p1 & -> & Hwf1 & <-).
    destruct (IH p1 Hwf1) as (os & p2 & -> & Hwf2 & ->). by exists (o :: os), p2.
Qed.

Lemma stream_step_conserves op s :
  let '(o, s') := stream_step op s in pending s ++ accepted o = delivered o ++ pending s'.
Proof.
  destruct op; cbn [stream_step]; repeat case_if; cbn; rewrite ?app_nil_r, ?take_drop; done.
Qed.

Lemma stream_history_conserves ops s :
  let '(os, s') := stream_history ops s in
  pending s ++ concat (accepted <$> os) = concat (delivered <$> os) ++ pending s'.
Proof.
  revert s. induction ops as [|op ops IH]; intros s; cbn [stream_history].
  - cbn. by rewrite app_nil_r.
  - pose proof (stream_step_conserves op s) as H1. destruct (stream_step op s) as [o s1].
    specialize (IH s1). destruct (stream_history ops s1) as [os s2]. cbn.
    by rewrite (assoc_L (++)), H1, <- !(assoc_L (++)), IH.
Qed.

Lemma pipe_init_wf p p' :
  Z.of_nat (length (data (channel p))) = RIX_IPC_CAPACITY ->
  pipe_init (Some p) = Some p' -> pipe_wf p' /\ pipe_abs p' = {| pending := []; readers := 1; writers := 1 |}.
Proof.
  intros Hd H. cbn in H. injection H as <-. split; [|done].
  unfold pipe_wf, channel_wf, RIX_IPC_CAPACITY, is_u8 in *. cbn. by rewrite Hd.
Qed.

(** C29: a pipe is a byte stream. After [pipe_init], whatever sequence of reads,
    writes, end duplications and closes follows, every call returns; the result
    codes and bytes are those of the stream specification (short and full
    counts, -2 to a writer with no reader, -2 to a reader only once the last
    writer is gone and the stream is drained, -1 on a closed end or 255
    references); and the bytes accepted are exactly the bytes delivered, in
    order, followed by those still pending. *)
Theorem pipe_stream_integrity ops cp p p0
    (Hlen : Z.of_nat (length (data (channel p))) = RIX_IPC_CAPACITY)
    (Hinit : pipe_init (Some p) = Some p0) :
  ∃ os p', pipe_history ops cp p0 = Some (os, p') ∧ pipe_wf p' ∧
    stream_history ops {| pending := []; readers := 1; writers := 1 |} = (os, pipe_abs p') ∧
    concat (accepted <$> os) = concat (delivered <$> os) ++ queued (abs (channel p')).
Proof.
  destruct (pipe_init_wf p p0 Hlen Hinit) as [Hwf Ha].
  destruct (pipe_history_refines ops cp p0 Hwf) as (os & p' & H1 & H2 & H3).
  exists os, p'. rewrite Ha in H3. split; [done|]. split; [done|]. split; [done|].
  pose proof (stream_history_conserves ops {| pending := []; readers := 1; writers := 1 |}) as H4.
  rewrite H3 in H4. exact H4.
Qed.

Definition demo_cpu : cpu := {| rflags := 0x202; cpu_pid := 1; cpu_index := 0 |}.

Definition raw_pipe : rix_pipe_t :=
  {| channel := {| data := replicate 4096 0; head := 5; tail := 9; count := 77; closed := 1; lock := spin_held |};
     read_open := 0; write_open := 0; read_refs := 0; write_refs := 0 |}.

Lemma pipe_stream_integrity_witness :
  ∃ p0 os p', pipe_init (Some raw_pipe) = Some p0 ∧
    pipe_history [PWrite [1; 2; 3]; PRead 2; PCloseWrite; PRead 2; PRead 2] demo_cpu p0 = Some (os, p') ∧
    code <$> os = [0; 0; 0; -3; -2] ∧ concat (delivered <$> os) = [1; 2; 3].
Proof.
  eexists. destruct (pipe_stream_integrity [PWrite [1; 2; 3]; PRead 2; PCloseWrite; PRead 2; PRead 2]
                       demo_cpu raw_pipe _ ltac:(vm_compute; reflexivity) eq_refl)
    as (os & p' & H1 & _ & H3 & _).
  exists os, p'. split; [reflexivity|]. split; [exact H1|].
  pose proof (f_equal fst H3) as H4. cbn [fst] in H4. rewrite <- H4. split; vm_compute; reflexivity.
Defined.
