(* ===== verification/Klog.v ===== *)
(** * Kernel log ring ([kernel/log/klog.h], [kernel/log/klog.c])

    A 64 KiB byte ring with an ever-increasing sequence number. Writers try the
    lock once and drop the message when it is taken. *)
From stdpp Require Import base tactics list numbers.
From S2P Require Import Prelude Lock Bytes.

Definition KLOG_SIZE : Z := 65536.

Record klog := {
  klog_ring : list Z; klog_seq : Z; klog_drop : Z; klog_lock : rix_spinlock_t; klog_ready : Z }.

Definition set_lock (l : rix_spinlock_t) (k : klog) : klog :=
  {| klog_ring := klog_ring k; klog_seq := klog_seq k; klog_drop := klog_drop k;
     klog_lock := l; klog_ready := klog_ready k |}.

Definition klog_ensure (k : klog) : klog :=
  if truthy (klog_ready k) then k
  else {| klog_ring := klog_ring k; klog_seq := klog_seq k; klog_drop := klog_drop k;
          klog_lock := default (klog_lock k) (rix_spin_init (Some (klog_lock k))); klog_ready := 1 |}.

(** [rix_spin_trylock(&klog_lock)] and [rix_spin_unlock(&klog_lock)]. *)
Definition klog_trylock : M (cpu * klog) bool := fun '(c, k) =>
  match rix_spin_trylock (Some (klog_lock k)) with
  | Some (won, Some l) => Some (won, (c, set_lock l k))
  | _ => None
  end.
Definition klog_unlock : M (cpu * klog) unit := fun '(c, k) =>
  match rix_spin_unlock (Some (klog_lock k)) with
  | Some (_, Some l) => Some (tt, (c, set_lock l k))
  | _ => None
  end.

Definition klog_add_drop (n : Z) (k : klog) : klog :=
  {| klog_ring := klog_ring k; klog_seq := klog_seq k; klog_drop := u64 (klog_drop k + n);
     klog_lock := klog_lock k; klog_ready := klog_ready k |}.

(** One iteration of the store loop: a byte at [seq % KLOG_SIZE], [seq++]. *)
Definition klog_put (b : Z) (k : klog) : klog :=
  {| klog_ring := aset (klog_seq k mod KLOG_SIZE) (u8 b) (klog_ring k); klog_seq := u64 (klog_seq k + 1);
     klog_drop := klog_drop k; klog_lock := klog_lock k; klog_ready := klog_ready k |}.

Fixpoint klog_store (n : nat) (i : Z) (data : list Z) (k : klog) : klog :=
  match n with
  | O => k
  | S n => klog_store n (i + 1) data (klog_put (aget 0 data i) k)
  end.

Definition klog_push (data : option (list Z)) (length : Z) : M (cpu * klog) unit :=
  match data with
  | None => mret tt
  | Some data =>
      if length =? 0 then mret tt
      else
        _ ← modify (fun '(c, k) => (c, klog_ensure k));
        irq ← on_fst rix_irq_save;
        won ← klog_trylock;
        if negb won then
          _ ← modify (fun '(c, k) => (c, klog_add_drop length k));
          on_fst (rix_irq_restore irq)
        else
          _ ← modify (fun '(c, k) => (c, klog_store (Z.to_nat length) 0 data k));
          _ ← klog_unlock;
          on_fst (rix_irq_restore irq)
  end.

Definition klog_write_seq : M (cpu * klog) Z := fun '(c, k) =>
  let k := klog_ensure k in Some (klog_seq k, (c, k)).

Definition klog_oldest : M (cpu * klog) Z :=
  seq ← klog_write_seq;
  mret (if KLOG_SIZE <? seq then seq - KLOG_SIZE else 0).

(** The copy loop [dst[i] = klog_ring[(start + i) % KLOG_SIZE]]. *)
Fixpoint klog_fetch (n : nat) (i start : Z) (ring dst : list Z) : list Z :=
  match n with
  | O => dst
  | S n => klog_fetch n (i + 1) start ring (aset i (aget 0 ring (u64 (start + i) mod KLOG_SIZE)) dst)
  end.

Definition klog_copy (start : Z) (dst : option (list Z)) (count : Z)
  : M (cpu * klog) (Z * option (list Z)) :=
  match dst with
  | None => mret (0, None)
  | Some d =>
      if count =? 0 then mret (0, dst)
      else
        _ ← modify (fun '(c, k) => (c, klog_ensure k));
        irq ← on_fst rix_irq_save;
        won ← klog_trylock;
        if negb won then
          _ ← on_fst (rix_irq_restore irq); mret (0, dst)
        else
          seq ← gets (fun '(_, k) => klog_seq k);
          let oldest := if KLOG_SIZE <? seq then seq - KLOG_SIZE else 0 in
          let start := if start <? oldest then oldest else start in
          if seq <=? start then
            _ ← klog_unlock; _ ← on_fst (rix_irq_restore irq); mret (0, dst)
          else
            let avail := seq - start in
            let count := if avail <? count then avail else count in
            ring ← gets (fun '(_, k) => klog_ring k);
            let d := klog_fetch (Z.to_nat count) 0 start ring d in
            _ ← klog_unlock;
            _ ← on_fst (rix_irq_restore irq);
            mret (count, Some d)
  end.

Definition klog_dropped : M (cpu * klog) Z := gets (fun '(_, k) => klog_drop k).

(** ** The ring holds the end of the stream of logged bytes *)

Definition oldest (n : Z) : Z := if KLOG_SIZE <? n then n - KLOG_SIZE else 0.

Definition holds (k : klog) (logged : list Z) : Prop :=
  let n := Z.of_nat (length logged) in
  Z.of_nat (length (klog_ring k)) = KLOG_SIZE /\ n < 2 ^ 64 /\ klog_seq k = n /\
  forall i, oldest n <= i < n -> aget 0 (klog_ring k) (i mod KLOG_SIZE) = aget 0 logged i.

Lemma put_holds k logged b :
  holds k logged -> Z.of_nat (length logged) + 1 < 2 ^ 64 -> is_u8 b ->
  holds (klog_put b k) (logged ++ [b]).
Proof.
  intros (Hl & Hn & Hs & Hi) Hlt Hb. unfold holds. rewrite length_app. cbn [length].
  set (n := Z.of_nat (length logged)) in *. replace (Z.of_nat (length logged + 1)) with (n + 1) by lia.
  unfold klog_put. cbn [klog_ring klog_seq]. rewrite length_aset, Hs, u64_id, u8_id by (done || (unfold is_u64; lia)).
  split; [done|]. split; [done|]. split; [done|]. intros i Hr. unfold oldest, KLOG_SIZE in *.
  pose proof (Z.mod_pos_bound i 65536). pose proof (Z.mod_pos_bound n 65536).
  rewrite aget_app by (split_ifs; lia). fold n. destruct (decide (i = n)) as [->|Hne].
  - rewrite aget_aset_eq by lia. case_if; [lia|]. by rewrite Z.sub_diag.
  - assert (i < n) by lia. case_if; [|lia].
    rewrite aget_aset_ne; [apply Hi; split_ifs; lia|lia|lia|].
    intros E. assert (n - 65536 < i) by (split_ifs; lia).
    assert (Hd : (n - i) mod 65536 = 0) by (rewrite Zminus_mod, E, Z.sub_diag; done).
    rewrite Z.mod_small in Hd; lia.
Qed.

Lemma store_holds n i data k logged :
  holds k logged -> Z.of_nat (length logged) + Z.of_nat n < 2 ^ 64 -> 0 <= i ->
  i + Z.of_nat n <= Z.of_nat (length data) -> Forall is_u8 data ->
  holds (klog_store n i data k) (logged ++ slice data i (Z.of_nat n)).
Proof.
  revert i k logged. induction n as [|n IH]; intros i k logged Hh Hlt Hi Hd Hb.
  - cbn. by rewrite app_nil_r.
  - cbn [klog_store].
    assert (Hs : slice data i (Z.of_nat (S n)) = aget 0 data i :: slice data (i + 1) (Z.of_nat n)).
    { rewrite slice_cons by lia. do 2 f_equal. lia. }
    rewrite Hs. change (?x :: ?l) with ([x] ++ l) at 1. rewrite (assoc_L (++)). apply IH; try lia; [|rewrite length_app; cbn; lia|done].
    apply put_holds; [done|lia|].
    rewrite Forall_lookup in Hb. unfold aget. destruct (data !! Z.to_nat i) as [x|] eqn:E; [by apply (Hb _ _ E)|].
    apply lookup_ge_None in E. lia.
Qed.

Lemma aget_klog_fetch n i start ring dst j :
  0 <= i -> i + Z.of_nat n <= Z.of_nat (length dst) -> 0 <= j ->
  aget 0 (klog_fetch n i start ring dst) j =
    if (i <=? j) && (j <? i + Z.of_nat n) then aget 0 ring (u64 (start + j) mod KLOG_SIZE) else aget 0 dst j.
Proof.
  revert i dst. induction n as [|n IH]; intros i dst Hi Hl Hj; cbn [klog_fetch].
  - destruct (i <=? j) eqn:E1, (j <? i + Z.of_nat 0) eqn:E2; bool_to_prop; cbn; try lia; done.
  - rewrite IH by (rewrite ?length_aset; lia). destruct (decide (j = i)) as [->|].
    + destruct (i + 1 <=? i) eqn:E1; bool_to_prop; [lia|]. cbn [andb]. rewrite aget_aset_eq by lia.
      destruct (i <=? i) eqn:E2; bool_to_prop; [|lia].
      destruct (i <? i + Z.of_nat (S n)) eqn:E3; bool_to_prop; [done|lia].
    + rewrite aget_aset_ne by lia.
      destruct (i + 1 <=? j) eqn:E1, (j <? i + 1 + Z.of_nat n) eqn:E2, (i <=? j) eqn:E3,
        (j <? i + Z.of_nat (S n)) eqn:E4; bool_to_prop; cbn [andb]; try lia; done.
Qed.

Lemma length_klog_fetch n i start ring dst : length (klog_fetch n i start ring dst) = length dst.
Proof. revert i dst. induction n as [|n IH]; intros; cbn; [done|]. by rewrite IH, length_aset. Qed.

Lemma ensure_fields k :
  klog_ring (klog_ensure k) = klog_ring k /\ klog_seq (klog_ensure k) = klog_seq k /\
  klog_drop (klog_ensure k) = klog_drop k /\ truthy (klog_ready (klog_ensure k)) = true.
Proof. unfold klog_ensure. by destruct (truthy (klog_ready k)) eqn:E. Qed.

Lemma ensure_holds k logged : holds k logged -> holds (klog_ensure k) logged.
Proof. unfold holds. destruct (ensure_fields k) as (-> & -> & _). done. Qed.

Lemma ensure_ready k : truthy (klog_ready k) = true -> klog_ensure k = k.
Proof. unfold klog_ensure. by intros ->. Qed.

Lemma store_frame n i data k :
  klog_drop (klog_store n i data k) = klog_drop k /\ klog_lock (klog_store n i data k) = klog_lock k /\
  klog_ready (klog_store n i data k) = klog_ready k.
Proof.
  revert i k. induction n as [|n IH]; intros i k; cbn [klog_store]; [done|].
  destruct (IH (i + 1) (klog_put (aget 0 data i) k)) as (-> & -> & ->). done.
Qed.

Definition masked (c : cpu) : cpu := set_rflags (Z.clearbit (rflags c) IF_BIT) c.

(** With the lock free, a push stores its bytes between the two ends of the
    bracket. *)
Lemma push_run data c k :
  klog_lock (klog_ensure k) = spin_free -> data <> [] ->
  klog_push (Some data) (Z.of_nat (length data)) (c, k) =
    Some (tt, (c, set_lock spin_free
                    (klog_store (length data) 0 data (set_lock spin_held (klog_ensure k))))).
Proof.
  intros Hl Hne. unfold klog_push. destruct (Z.of_nat (length data) =? 0) eqn:E; bool_to_prop.
  { destruct data; [done|cbn in E; lia]. }
  rewrite (bind_Some _ _ _ tt (c, klog_ensure k)) by done.
  rewrite (bind_Some _ _ _ (rflags c) (masked c, klog_ensure k)) by done.
  rewrite (bind_Some _ _ _ true (masked c, set_lock spin_held (klog_ensure k)));
    [|unfold klog_trylock; cbn [rix_spin_trylock exchange_1]; by rewrite Hl].
  cbn [negb]. rewrite (bind_Some _ _ _ tt (masked c, klog_store (Z.to_nat (Z.of_nat (length data))) 0 data
                       (set_lock spin_held (klog_ensure k)))) by done.
  rewrite (bind_Some _ _ _ tt (masked c, set_lock spin_free (klog_store (Z.to_nat (Z.of_nat (length data))) 0 data
                       (set_lock spin_held (klog_ensure k))))) by done.
  unfold on_fst, masked. rewrite irq_restore_after_cli, Nat2Z.id. done.
Qed.

(** A taken lock drops the message, counts it, and restores the flags. *)
Lemma push_contended data c k :
  truthy (klog_ready k) = true -> klog_lock k = spin_held -> data <> [] ->
  klog_push (Some data) (Z.of_nat (length data)) (c, k) =
    Some (tt, (c, klog_add_drop (Z.of_nat (length data)) k)).
Proof.
  intros Hr Hl Hne. unfold klog_push. destruct (Z.of_nat (length data) =? 0) eqn:E; bool_to_prop.
  { destruct data; [done|cbn in E; lia]. }
  rewrite (bind_Some _ _ _ tt (c, k)) by (unfold modify; by rewrite ensure_ready).
  rewrite (bind_Some _ _ _ (rflags c) (masked c, k)) by done.
  rewrite (bind_Some _ _ _ false (masked c, k));
    [|unfold klog_trylock; cbn [rix_spin_trylock exchange_1]; rewrite Hl; destruct k; cbn in *; by subst].
  cbn [negb]. rewrite (bind_Some _ _ _ tt (masked c, klog_add_drop (Z.of_nat (length data)) k)) by done.
  unfold on_fst, masked. by rewrite irq_restore_after_cli.
Qed.

Lemma copy_run start dst count c k :
  klog_lock (klog_ensure k) = spin_free -> count <> 0 ->
  klog_copy start (Some dst) count (c, k) =
    let k' := set_lock spin_free (klog_ensure k) in
    let start := if start <? oldest (klog_seq k) then oldest (klog_seq k) else start in
    if klog_seq k <=? start then Some ((0, Some dst), (c, k'))
    else let m := if klog_seq k - start <? count then klog_seq k - start else count in
         Some ((m, Some (klog_fetch (Z.to_nat m) 0 start (klog_ring k) dst)), (c, k')).
Proof.
  intros Hl Hne. unfold klog_copy. destruct (count =? 0) eqn:E; bool_to_prop; [done|].
  destruct (ensure_fields k) as (Hring & Hseq & _).
  rewrite (bind_Some _ _ _ tt (c, klog_ensure k)) by done.
  rewrite (bind_Some _ _ _ (rflags c) (masked c, klog_ensure k)) by done.
  rewrite (bind_Some _ _ _ true (masked c, set_lock spin_held (klog_ensure k)));
    [|unfold klog_trylock; cbn [rix_spin_trylock exchange_1]; by rewrite Hl].
  cbn [negb]. rewrite (bind_Some _ _ _ (klog_seq k) (masked c, set_lock spin_held (klog_ensure k)))
    by (unfold gets; cbn; by rewrite Hseq).
  cbv zeta. fold (oldest (klog_seq k)). case_if; case_if;
  (rewrite (bind_Some _ _ _ tt (masked c, set_lock spin_free (klog_ensure k))) by done) ||
  (rewrite (bind_Some _ _ _ (klog_ring k) (masked c, set_lock spin_held (klog_ensure k))) by (unfold gets; cbn; by rewrite Hring);
   rewrite (bind_Some _ _ _ tt (masked c, set_lock spin_free (klog_ensure k))) by done);
  (rewrite (bind_Some _ _ _ tt (c, set_lock spin_free (klog_ensure k)))
     by (unfold on_fst, masked; by rewrite irq_restore_after_cli)); done.
Qed.

(** The bytes a reader gets: from [start], or the oldest retained byte when
    that is later, at most [count] of them, into the front of [dst]. *)
Definition tail_read (logged : list Z) (start count : Z) (dst : list Z) : Z * list Z :=
  let got := take (Z.to_nat count) (drop (Z.to_nat (Z.max start (oldest (Z.of_nat (length logged))))) logged) in
  (Z.of_nat (length got), got ++ drop (length got) dst).

Lemma copy_holds start dst count c k logged :
  holds k logged -> klog_lock (klog_ensure k) = spin_free -> 0 <= start -> 0 < count <= Z.of_nat (length dst) ->
  exists k', klog_copy start (Some dst) count (c, k) =
    Some (let '(n, d) := tail_read logged start count dst in (n, Some d), (c, k')) /\ holds k' logged /\
    klog_lock k' = spin_free.
Proof.
  intros Hh Hl Hs Hc. exists (set_lock spin_free (klog_ensure k)).
  split; [|split; [apply (ensure_holds k logged Hh)|done]].
  rewrite copy_run by (done || lia). destruct Hh as (Hlr & Hn & Hseq & Hi). rewrite Hseq.
  set (n := Z.of_nat (length logged)) in *. cbv zeta.
  assert (Hst : (if start <? oldest n then oldest n else start) = Z.max start (oldest n)) by (case_if; lia).
  rewrite Hst. set (st := Z.max start (oldest n)). assert (Ho : 0 <= oldest n) by (unfold oldest; case_if; lia).
  unfold tail_read. fold n st. case_if.
  - rewrite drop_ge by lia. rewrite take_nil. done.
  - assert (Hm : (if n - st <? count then n - st else count) = Z.min count (n - st)) by (case_if; lia).
    rewrite Hm. set (m := Z.min count (n - st)).
    assert (Hlg : length (take (Z.to_nat count) (drop (Z.to_nat st) logged)) = Z.to_nat m).
    { rewrite length_take, length_drop. lia. }
    rewrite Hlg. do 3 f_equal; [lia|]. f_equal. apply list_ext_aget.
    { rewrite length_klog_fetch, length_app, Hlg, length_drop. lia. }
    intros j Hj. rewrite length_klog_fetch in Hj. rewrite aget_klog_fetch, aget_app, Hlg by lia.
    rewrite !Z2Nat.id by lia. destruct (0 <=? j) eqn:E0; bool_to_prop; [|lia]. cbn [andb].
    rewrite Z.add_0_l. case_if.
    + rewrite u64_id by (unfold is_u64; lia). rewrite Hi by lia.
      rewrite aget_take, aget_drop by lia. f_equal. lia.
    + rewrite aget_drop by lia. f_equal. lia.
Qed.

(** The log keeps the end of what was logged. If the ring holds the end of
    the byte stream [logged], an uncontended [klog_push] makes it hold the end
    of [logged ++ data], an uncontended [klog_copy] returns exactly the logged
    bytes from the requested sequence number, clamped to the retained 64 KiB,
    and a push that finds the lock taken changes nothing but the drop counter,
    by exactly the message's length. All of them return at once and restore the
    interrupt flag. *)
Theorem klog_keeps_tail c k logged (Hh : holds k logged) :
  (klog_lock (klog_ensure k) = spin_free →
     (∀ data, data ≠ [] → Forall is_u8 data → Z.of_nat (length logged + length data) < 2 ^ 64 →
        ∃ k', klog_push (Some data) (Z.of_nat (length data)) (c, k) = Some (tt, (c, k')) ∧
          holds k' (logged ++ data) ∧ klog_lock k' = spin_free ∧ klog_drop k' = klog_drop k) ∧
     (∀ start dst count, 0 <= start → 0 < count <= Z.of_nat (length dst) →
        ∃ k', klog_copy start (Some dst) count (c, k) =
            Some (let '(n, d) := tail_read logged start count dst in (n, Some d), (c, k')) ∧
          holds k' logged ∧ klog_lock k' = spin_free)) ∧
  (truthy (klog_ready k) = true → klog_lock k = spin_held → ∀ data, data ≠ [] →
     ∃ k', klog_push (Some data) (Z.of_nat (length data)) (c, k) = Some (tt, (c, k')) ∧
       holds k' logged ∧ klog_lock k' = spin_held ∧
       klog_drop k' = u64 (klog_drop k + Z.of_nat (length data))).
Proof.
  split.
  - intros Hl. split; [|intros; by apply copy_holds].
    intros data Hne Hb Hlt. eexists. split; [by apply push_run|].
    destruct (store_frame (length data) 0 data (set_lock spin_held (klog_ensure k))) as (Hd & _ & _).
    split; [|split; [done|]].
    + pose proof (store_holds (length data) 0 data (set_lock spin_held (klog_ensure k)) logged) as Hst.
      rewrite slice_whole in Hst. apply Hst; try lia; try done. apply (ensure_holds k logged Hh).
    + cbn. rewrite Hd. apply ensure_fields.
  - intros Hr Hl data Hne. eexists. split; [by apply push_contended|]. done.
Qed.

Definition klog_boot : klog :=
  {| klog_ring := replicate (Z.to_nat KLOG_SIZE) 0; klog_seq := 0; klog_drop := 0; klog_lock := spin_free; klog_ready := 0 |}.

Lemma klog_keeps_tail_witness :
  holds klog_boot [] ∧
  ∃ k', klog_push (Some [104; 105]) 2 ({| rflags := 0x202; cpu_pid := 1; cpu_index := 0 |}, klog_boot)
          = Some (tt, ({| rflags := 0x202; cpu_pid := 1; cpu_index := 0 |}, k')) ∧
        holds k' [104; 105].
Proof.
  assert (Hh : holds klog_boot []).
  { unfold holds. cbn [length]. split; [vm_compute; reflexivity|]. split; [lia|]. split; [done|].
    intros i Hi. unfold oldest in Hi. case_if; unfold KLOG_SIZE in *; lia. }
  split; [exact Hh|].
  destruct (klog_keeps_tail {| rflags := 0x202; cpu_pid := 1; cpu_index := 0 |} klog_boot [] Hh) as [H _].
  destruct (H eq_refl) as [Hp _].
  destruct (Hp [104; 105] ltac:(done) ltac:(repeat constructor; unfold is_u8; lia) ltac:(cbn; lia))
    as (k' & E & Hk & _).
  exists k'. split; [exact E|exact Hk].
Defined.
