(* ===== verification/Pmm.v ===== *)
(** * Physical page allocator ([kernel/mm/pmm.h], [kernel/mm/pmm.c])

    Three bitmaps over the pages of 128 GiB (in use, managed, reserved), their
    counters, and the boot-time construction from the firmware memory map. *)
From stdpp Require Import base tactics list numbers strings.
From S2P Require Import Prelude Lock Lockdep Bytes.

Definition RIXURI_PAGE_SIZE : Z := 4096.
Definition RIXURI_MAX_PHYS_BYTES : Z := 128 * 1024 * 1024 * 1024.
Definition RIXURI_MAX_PAGES : Z := RIXURI_MAX_PHYS_BYTES / RIXURI_PAGE_SIZE.
Definition RIXURI_BITMAP_WORDS : Z := (RIXURI_MAX_PAGES + 63) / 64.
Definition PMM_MAX_PHYS : Z := RIXURI_MAX_PHYS_BYTES.
Definition PMM_MAX_PAGES : Z := RIXURI_MAX_PAGES.
Definition EFI_DESCRIPTOR_MIN_SIZE : Z := 40.

(** An array of [RIXURI_BITMAP_WORDS] 64-bit words, by word index. *)
Definition bitmap : Type := Z -> Z.
Definition word_set (w v : Z) (b : bitmap) : bitmap := fun i => if i =? w then v else b i.

Record pmm_t := {
  page_bitmap : bitmap; managed_bitmap : bitmap; reserved_bitmap : bitmap;
  total_pages_count : Z; free_pages_count : Z; reserved_pages_count : Z;
  pmm_lock : rix_spinlock_t; pmm_lockdep_class : Z;
  saved_map : option (list Z); saved_map_size : Z; saved_desc_size : Z }.

Definition with_used (b : bitmap) (free : Z) (p : pmm_t) : pmm_t := {|
  page_bitmap := b; managed_bitmap := managed_bitmap p; reserved_bitmap := reserved_bitmap p;
  total_pages_count := total_pages_count p; free_pages_count := free;
  reserved_pages_count := reserved_pages_count p; pmm_lock := pmm_lock p;
  pmm_lockdep_class := pmm_lockdep_class p; saved_map := saved_map p;
  saved_map_size := saved_map_size p; saved_desc_size := saved_desc_size p |}.
Definition with_managed (b : bitmap) (total : Z) (p : pmm_t) : pmm_t := {|
  page_bitmap := page_bitmap p; managed_bitmap := b; reserved_bitmap := reserved_bitmap p;
  total_pages_count := total; free_pages_count := free_pages_count p;
  reserved_pages_count := reserved_pages_count p; pmm_lock := pmm_lock p;
  pmm_lockdep_class := pmm_lockdep_class p; saved_map := saved_map p;
  saved_map_size := saved_map_size p; saved_desc_size := saved_desc_size p |}.
Definition with_reserved (b : bitmap) (n : Z) (p : pmm_t) : pmm_t := {|
  page_bitmap := page_bitmap p; managed_bitmap := managed_bitmap p; reserved_bitmap := b;
  total_pages_count := total_pages_count p; free_pages_count := free_pages_count p;
  reserved_pages_count := n; pmm_lock := pmm_lock p;
  pmm_lockdep_class := pmm_lockdep_class p; saved_map := saved_map p;
  saved_map_size := saved_map_size p; saved_desc_size := saved_desc_size p |}.

(** The allocator shares the machine with the lock-order checker. *)
#[global] Program Instance pmm_guard : HasGuard (pmm_t * lockdep_t) := {|
  guard s := pmm_lock s.1;
  with_guard l s := ({| page_bitmap := page_bitmap s.1; managed_bitmap := managed_bitmap s.1;
    reserved_bitmap := reserved_bitmap s.1; total_pages_count := total_pages_count s.1;
    free_pages_count := free_pages_count s.1; reserved_pages_count := reserved_pages_count s.1;
    pmm_lock := l; pmm_lockdep_class := pmm_lockdep_class s.1; saved_map := saved_map s.1;
    saved_map_size := saved_map_size s.1; saved_desc_size := saved_desc_size s.1 |}, s.2);
|}.
Next Obligation. done. Qed.
Next Obligation. by intros [[] ]. Qed.
Next Obligation. done. Qed.

Definition usable_type (type : Z) : bool :=
  (type =? 1) || (type =? 2) || (type =? 3) || (type =? 4) || (type =? 7).

Definition align_up_page (v : Z) : Z :=
  if UINT64_MAX - (RIXURI_PAGE_SIZE - 1) <? v then UINT64_MAX
  else Z.land (v + RIXURI_PAGE_SIZE - 1) (not64 (RIXURI_PAGE_SIZE - 1)).

(** The word and mask of a page: [p >> 6] and [1ULL << (p & 63)]. *)
Definition word_of (p : Z) : Z := Z.shiftr p 6.
Definition mask_of (p : Z) : Z := bit (Z.land p 63).
Definition test (b : bitmap) (p : Z) : bool := truthy (Z.land (b (word_of p)) (mask_of p)).
Definition set_bit (p : Z) (b : bitmap) : bitmap := word_set (word_of p) (Z.lor (b (word_of p)) (mask_of p)) b.
Definition clear_bit (p : Z) (b : bitmap) : bitmap :=
  word_set (word_of p) (Z.land (b (word_of p)) (not64 (mask_of p))) b.

Definition dec_if_any (n : Z) : Z := if truthy n then u64 (n - 1) else n.

(** The loop body of [mark_range]. *)
Definition mark_page (freeable : bool) (p : Z) (s : pmm_t) : pmm_t :=
  if freeable then
    let s := if negb (test (managed_bitmap s) p)
             then with_managed (set_bit p (managed_bitmap s)) (u64 (total_pages_count s + 1)) s else s in
    if test (page_bitmap s) p
    then with_used (clear_bit p (page_bitmap s)) (u64 (free_pages_count s + 1)) s else s
  else
    let s := if negb (test (reserved_bitmap s) p)
             then with_reserved (set_bit p (reserved_bitmap s)) (u64 (reserved_pages_count s + 1)) s else s in
    if negb (test (page_bitmap s) p)
    then with_used (set_bit p (page_bitmap s)) (dec_if_any (free_pages_count s)) s else s.

Definition mark_range (base pages : Z) (freeable : bool) (s : pmm_t) : pmm_t :=
  if negb (truthy pages) || (PMM_MAX_PHYS <=? base) then s
  else
    let first_addr := align_up_page base in
    if (first_addr =? UINT64_MAX) || (PMM_MAX_PHYS <=? first_addr) then s
    else
      let first := first_addr / RIXURI_PAGE_SIZE in
      let max_pages := (PMM_MAX_PHYS - first_addr) / RIXURI_PAGE_SIZE in
      let pages := if max_pages <? pages then max_pages else pages in
      for_all first pages (mark_page freeable) s.

Definition mark_byte_range (base size : Z) (freeable : bool) (s : pmm_t) : pmm_t :=
  if negb (truthy size) || (UINT64_MAX - size <? base) then s
  else
    let offset := Z.land base (RIXURI_PAGE_SIZE - 1) in
    if UINT64_MAX - offset - (RIXURI_PAGE_SIZE - 1) <? size then s
    else mark_range base ((size + offset + RIXURI_PAGE_SIZE - 1) / RIXURI_PAGE_SIZE) freeable s.

Definition descriptor (d : list Z) (off : Z) : Z * Z * Z :=
  (le_load 4 d off, le_load 8 d (off + 8), le_load 8 d (off + 24)).

(** One descriptor of the firmware map. *)
Definition init_descriptor (map : list Z) (off : Z) (s : pmm_t) : pmm_t :=
  let '(type, base, pages) := descriptor map off in
  if usable_type type && truthy pages && (base <? PMM_MAX_PHYS) then
    let max_pages := (PMM_MAX_PHYS - base) / RIXURI_PAGE_SIZE in
    let pages := if max_pages <? pages then max_pages else pages in
    mark_range base pages true s
  else s.

(** The [while] loop over the map; it steps at most [size / desc_size] times. *)
Definition init_loop (map : list Z) (size desc_size : Z) (s : pmm_t) : pmm_t :=
  let step '(off, s) :=
    if off <=? size - desc_size then inl (off + desc_size, init_descriptor map off s) else inr s in
  match loop (size / desc_size + 1) step (0, s) with
  | inl (_, s') => s'
  | inr s' => s'
  end.

(** The saved map is described by the bytes it holds; [map_addr] is where the
    buffer lies. *)
Definition pmm_reset (s : pmm_t) (class : Z) : pmm_t := {|
  page_bitmap := fun _ => UINT64_MAX; managed_bitmap := fun _ => 0; reserved_bitmap := fun _ => 0;
  total_pages_count := 0; free_pages_count := 0; reserved_pages_count := 0;
  pmm_lock := default (pmm_lock s) (rix_spin_init (Some (pmm_lock s))); pmm_lockdep_class := class;
  saved_map := None; saved_map_size := 0; saved_desc_size := 0 |}.

Definition save_map (map : list Z) (size desc_size : Z) (s : pmm_t) : pmm_t := {|
  page_bitmap := page_bitmap s; managed_bitmap := managed_bitmap s; reserved_bitmap := reserved_bitmap s;
  total_pages_count := total_pages_count s; free_pages_count := free_pages_count s;
  reserved_pages_count := reserved_pages_count s; pmm_lock := pmm_lock s;
  pmm_lockdep_class := pmm_lockdep_class s;
  saved_map := Some map; saved_map_size := size; saved_desc_size := desc_size |}.

(** What [pmm_init] does to the bitmaps once the class is registered. *)
Definition pmm_init_bitmaps (memory_map : option (list Z)) (map_addr memory_map_size descriptor_size
    kernel_base kernel_end boot_info boot_info_size : Z) (s : pmm_t) : pmm_t :=
  match memory_map with
  | None => s
  | Some map =>
      if (descriptor_size <? EFI_DESCRIPTOR_MIN_SIZE) || (4096 <? descriptor_size) ||
         (memory_map_size <? descriptor_size) then s
      else
        let s := save_map map memory_map_size descriptor_size s in
        let s := init_loop map memory_map_size descriptor_size s in
        let s := mark_range 0 (0x100000 / RIXURI_PAGE_SIZE) false s in
        let s := if kernel_base <? kernel_end then mark_byte_range kernel_base (kernel_end - kernel_base) false s else s in
        let s := mark_byte_range boot_info boot_info_size false s in
        mark_byte_range map_addr memory_map_size false s
  end.

Definition pmm_init (memory_map : option (list Z)) (map_addr memory_map_size descriptor_size
    kernel_base kernel_end boot_info boot_info_size : Z) : M (cpu * (pmm_t * lockdep_t)) unit := fun '(c, (s, ld)) =>
  match rix_lockdep_register (Some "pmm"%string) 30 true (c, ld) with
  | Some ((_, out), (c', ld')) =>
      let s := pmm_reset s (default (pmm_lockdep_class s) out) in
      Some (tt, (c', (pmm_init_bitmaps memory_map map_addr memory_map_size descriptor_size
                        kernel_base kernel_end boot_info boot_info_size s, ld')))
  | None => None
  end.

(** [rix_lockdep_acquire] and [rix_lockdep_release] on the pair. *)
Definition on_ld {T A} (m : M (cpu * lockdep_t) A) : M (cpu * (T * lockdep_t)) A := fun '(c, (t, ld)) =>
  match m (c, ld) with
  | Some (a, (c', ld')) => Some (a, (c', (t, ld')))
  | None => None
  end.

(** The bracket of every allocator entry point: lock with interrupts masked,
    lock-order acquire, the body, lock-order release, unlock. *)
Definition pmm_section {R} (body : pmm_t -> R * pmm_t) : M (cpu * (pmm_t * lockdep_t)) R :=
  locked_section (
    k ← gets (fun s => pmm_lockdep_class s.2.1);
    _ ← on_ld (rix_lockdep_acquire k);
    r ← (fun '(c, (s, ld)) => let '(r, s') := body s in Some (r, (c, (s', ld))));
    _ ← on_ld (rix_lockdep_release k);
    mret r).

(** Readers take the lock without the lock-order calls. *)
Definition pmm_read {R} (body : pmm_t -> R) : M (cpu * (pmm_t * lockdep_t)) R :=
  locked (fun _ s => (body s.1, s)).

(** The word loop of [pmm_alloc_page_below]: the word and bit it stops at. *)
Definition below_word (limit : Z) (s : pmm_t) (w : Z) (_ : unit) : unit + option (Z * Z) :=
  let first := w * 64 in
  if limit <? first then inr None
  else
    let candidates := Z.land (managed_bitmap s w) (not64 (page_bitmap s w)) in
    let candidates :=
      if w =? Z.shiftr limit 6 then
        let mask := if Z.land limit 63 =? 63 then UINT64_MAX
                    else u64 (Z.shiftl 1 (Z.land limit 63 + 1) - 1) in
        Z.land candidates mask
      else candidates in
    if negb (truthy candidates) then inl tt
    else
      let b := ctz64 candidates in
      let page := first + b in
      if (PMM_MAX_PAGES <=? page) || (limit <? page) then inl tt else inr (Some (w, b)).

Definition alloc_below_body (max_exclusive : Z) (s : pmm_t) : Z * pmm_t :=
  let max_exclusive := if PMM_MAX_PHYS <? max_exclusive then PMM_MAX_PHYS else max_exclusive in
  if max_exclusive <? RIXURI_PAGE_SIZE then (0, s)
  else
    let limit := (max_exclusive - 1) / RIXURI_PAGE_SIZE in
    match for_ 0 RIXURI_BITMAP_WORDS (below_word limit s) tt with
    | inr (Some (w, b)) =>
        (((w * 64) + b) * RIXURI_PAGE_SIZE,
         with_used (word_set w (Z.lor (page_bitmap s w) (bit b)) (page_bitmap s)) (dec_if_any (free_pages_count s)) s)
    | _ => (0, s)
    end.

Definition pmm_alloc_page_below (max_exclusive : Z) : M (cpu * (pmm_t * lockdep_t)) Z :=
  pmm_section (alloc_below_body max_exclusive).
Definition pmm_alloc_page : M (cpu * (pmm_t * lockdep_t)) Z := pmm_alloc_page_below PMM_MAX_PHYS.

(** The inner scan of [pmm_alloc_pages]: is every page of the run free? *)
Definition run_available (s : pmm_t) (start count : Z) : bool :=
  match for_ 0 count (fun i (_ : unit) =>
          let page := start + i in
          if negb (test (managed_bitmap s) page) || test (page_bitmap s) page then inr tt else inl tt) tt with
  | inl _ => true
  | inr _ => false
  end.

Definition alloc_pages_body (count : Z) (s : pmm_t) : Z * pmm_t :=
  match for_ 0 (PMM_MAX_PAGES - count + 1)
          (fun start (_ : unit) => if negb (run_available s start count) then inl tt else inr start) tt with
  | inr start =>
      let b := for_all 0 count (fun i b => set_bit (start + i) b) (page_bitmap s) in
      (start * RIXURI_PAGE_SIZE, with_used b (u64 (free_pages_count s - count)) s)
  | inl _ => (0, s)
  end.

Definition pmm_alloc_pages (count : Z) : M (cpu * (pmm_t * lockdep_t)) Z :=
  if negb (truthy count) || (PMM_MAX_PAGES <? count) then mret 0 else pmm_section (alloc_pages_body count).

Definition free_body (page : Z) (s : pmm_t) : unit * pmm_t :=
  if negb (test (managed_bitmap s) page) || negb (test (page_bitmap s) page) || test (reserved_bitmap s) page
  then (tt, s)
  else (tt, with_used (clear_bit page (page_bitmap s)) (u64 (free_pages_count s + 1)) s).

Definition pmm_free_page (pa : Z) : M (cpu * (pmm_t * lockdep_t)) unit :=
  if negb (Z.land pa (RIXURI_PAGE_SIZE - 1) =? 0) then mret tt
  else
    let page := pa / RIXURI_PAGE_SIZE in
    if PMM_MAX_PAGES <=? page then mret tt else pmm_section (free_body page).

Definition pmm_free_page_range (pa count : Z) : M (cpu * (pmm_t * lockdep_t)) unit := fun s =>
  if negb (truthy count) || negb (Z.land pa (RIXURI_PAGE_SIZE - 1) =? 0) then Some (tt, s)
  else if (UINT64_MAX - pa) / RIXURI_PAGE_SIZE <? count - 1 then Some (tt, s)
  else match for_ 0 count (fun i s => match pmm_free_page (u64 (pa + i * RIXURI_PAGE_SIZE)) s with
                                      | Some (_, s') => inl s'
                                      | None => inr tt
                                      end) s with
       | inl s' => Some (tt, s')
       | inr _ => None
       end.

Definition reserve_body (page : Z) (s : pmm_t) : unit * pmm_t :=
  if negb (test (managed_bitmap s) page) then (tt, s)
  else
    let s := if negb (test (reserved_bitmap s) page)
             then with_reserved (set_bit page (reserved_bitmap s)) (u64 (reserved_pages_count s + 1)) s else s in
    (tt, if negb (test (page_bitmap s) page)
         then with_used (set_bit page (page_bitmap s)) (dec_if_any (free_pages_count s)) s else s).

Definition pmm_reserve_page (pa : Z) : M (cpu * (pmm_t * lockdep_t)) unit :=
  if negb (Z.land pa (RIXURI_PAGE_SIZE - 1) =? 0) then mret tt
  else
    let page := pa / RIXURI_PAGE_SIZE in
    if PMM_MAX_PAGES <=? page then mret tt else pmm_section (reserve_body page).

Definition pmm_total_pages : M (cpu * (pmm_t * lockdep_t)) Z := pmm_read total_pages_count.
Definition pmm_free_pages : M (cpu * (pmm_t * lockdep_t)) Z := pmm_read free_pages_count.
Definition pmm_reserved_pages : M (cpu * (pmm_t * lockdep_t)) Z := pmm_read reserved_pages_count.

(** The shape shared by the three ownership queries. *)
Definition pmm_query (b : pmm_t -> bitmap) (pa : Z) : M (cpu * (pmm_t * lockdep_t)) bool :=
  if negb (Z.land pa (RIXURI_PAGE_SIZE - 1) =? 0) then mret false
  else
    let page := pa / RIXURI_PAGE_SIZE in
    if PMM_MAX_PAGES <=? page then mret false else pmm_read (fun s => test (b s) page).
Definition pmm_is_managed : Z -> M (cpu * (pmm_t * lockdep_t)) bool := pmm_query managed_bitmap.
Definition pmm_is_in_use : Z -> M (cpu * (pmm_t * lockdep_t)) bool := pmm_query page_bitmap.
Definition pmm_is_reserved : Z -> M (cpu * (pmm_t * lockdep_t)) bool := pmm_query reserved_bitmap.

(** [pmm_region_info]: code, base, exclusive end, type and usability. *)
Definition region_match (map : list Z) (pa off : Z) : option (Z * Z * Z * bool) :=
  let '(type, base, pages) := descriptor map off in
  if truthy pages && (base <? PMM_MAX_PHYS) && (base <=? pa) then
    let span := u64 (pages * RIXURI_PAGE_SIZE) in
    if (span / RIXURI_PAGE_SIZE =? pages) && (base <=? UINT64_MAX - span) && (pa <? base + span)
    then Some (base, base + span, type, usable_type type) else None
  else None.

Definition pmm_region_info (pa : Z) (s : pmm_t) : Z * (Z * Z * Z * bool) :=
  match saved_map s with
  | None => (-1, (0, 0, 0, false))
  | Some map =>
      if (saved_desc_size s <? EFI_DESCRIPTOR_MIN_SIZE) || (4096 <? saved_desc_size s) ||
         (saved_map_size s <? saved_desc_size s) then (-1, (0, 0, 0, false))
      else
        let step off :=
          if off <=? saved_map_size s - saved_desc_size s then
            match region_match map pa off with
            | Some r => inr (0, r)
            | None => inl (off + saved_desc_size s)
            end
          else inr (1, (0, 0, 0, false)) in
        match loop (saved_map_size s / saved_desc_size s + 1) step 0 with
        | inr r => r
        | inl _ => (1, (0, 0, 0, false))
        end
  end.

(** ** Bitmaps as sets of pages *)

Arguments test : simpl never.
Arguments set_bit : simpl never.
Arguments clear_bit : simpl never.

Definition bm_ok (b : bitmap) : Prop := forall w, is_u64 (b w).

Lemma word_of_div p : word_of p = p / 64.
Proof. unfold word_of. by rewrite Z.shiftr_div_pow2. Qed.
Lemma land63 p : Z.land p 63 = p mod 64.
Proof. apply (Z.land_ones p 6). lia. Qed.

Lemma test_testbit b p : test b p = Z.testbit (b (p / 64)) (p mod 64).
Proof.
  unfold test, mask_of. rewrite word_of_div, land63. apply land_bit_test.
  apply Z.mod_pos_bound. lia.
Qed.

Lemma same_page p q : (q / 64 =? p / 64) && (q mod 64 =? p mod 64) = (q =? p).
Proof.
  destruct (q =? p) eqn:E; bool_to_prop; [subst; by rewrite !Z.eqb_refl|].
  destruct (q / 64 =? p / 64) eqn:E1, (q mod 64 =? p mod 64) eqn:E2; try done; bool_to_prop.
  exfalso. apply E. rewrite (Z.div_mod q 64), (Z.div_mod p 64) by lia. congruence.
Qed.

Lemma test_set p q b : test (set_bit p b) q = test b q || (q =? p).
Proof.
  rewrite !test_testbit. unfold set_bit, word_set, mask_of. rewrite word_of_div, land63, <- (same_page p q).
  pose proof (Z.mod_pos_bound p 64). destruct (q / 64 =? p / 64) eqn:E; bool_to_prop.
  - rewrite lor_bit_testbit by lia. by rewrite E.
  - by rewrite orb_false_r.
Qed.

Lemma test_clear p q b : bm_ok b -> test (clear_bit p b) q = test b q && negb (q =? p).
Proof.
  intros Hb. rewrite !test_testbit. unfold clear_bit, word_set, mask_of. rewrite word_of_div, land63, <- (same_page p q).
  pose proof (Z.mod_pos_bound p 64). pose proof (Z.mod_pos_bound q 64). destruct (q / 64 =? p / 64) eqn:E; bool_to_prop.
  - rewrite land_not64_testbit by (try apply Hb; lia). by rewrite E.
  - by rewrite andb_true_r.
Qed.

Lemma set_bit_ok p b : bm_ok b -> bm_ok (set_bit p b).
Proof.
  intros Hb w. unfold set_bit, word_set. case_if; [|apply Hb]. apply lor_range; [lia|apply Hb|].
  unfold mask_of. rewrite land63. apply bit_range. apply Z.mod_pos_bound. lia.
Qed.
Lemma clear_bit_ok p b : bm_ok b -> bm_ok (clear_bit p b).
Proof. intros Hb w. unfold clear_bit, word_set. case_if; [|apply Hb]. apply land_range; [lia|apply Hb]. Qed.

(** ** Accounting invariant *)

Definition used (s : pmm_t) : Z -> bool := test (page_bitmap s).
Definition managed (s : pmm_t) : Z -> bool := test (managed_bitmap s).
Definition reserved (s : pmm_t) : Z -> bool := test (reserved_bitmap s).
Definition free (s : pmm_t) (p : Z) : bool := managed s p && negb (used s p).

Definition in_range (p : Z) : Prop := 0 <= p < PMM_MAX_PAGES.
Abbreviation pages := (seqZ 0 PMM_MAX_PAGES).

(** The counters count, and whatever firmware did not report is unavailable. *)
Definition accounted (s : pmm_t) : Prop :=
  bm_ok (page_bitmap s) /\ bm_ok (managed_bitmap s) /\ bm_ok (reserved_bitmap s) /\
  (forall p, in_range p -> managed s p = false -> used s p = true) /\
  total_pages_count s = countb (managed s) pages /\
  free_pages_count s = countb (free s) pages /\
  reserved_pages_count s = countb (reserved s) pages.

(** Reserved pages stay out of the free pool; page 0, whose address is the
    allocator's failure value, is never in it. *)
Definition pmm_wf (s : pmm_t) : Prop :=
  accounted s /\ pmm_lock s = spin_free /\
  (forall p, in_range p -> reserved s p = true -> used s p = true) /\
  (managed s 0 = true -> reserved s 0 = true).

Lemma max_pages_val : PMM_MAX_PAGES = 33554432.
Proof. reflexivity. Qed.
Lemma words_val : RIXURI_BITMAP_WORDS = 524288.
Proof. reflexivity. Qed.
#[global] Opaque PMM_MAX_PAGES RIXURI_BITMAP_WORDS.

Lemma pages_count_bound f : 0 <= countb f pages <= 33554432.
Proof. rewrite max_pages_val. apply countb_seqZ_le. lia. Qed.

Lemma pages_count_change f g p :
  in_range p -> (forall q, q <> p -> f q = g q) ->
  countb g pages = countb f pages - b2z (f p) + b2z (g p).
Proof. intros Hp H. apply countb_change; [exact Hp|]. intros q _. apply H. Qed.

Lemma pages_count_same f g : (forall q, f q = g q) -> countb f pages = countb g pages.
Proof. intros H. apply countb_ext. intros x _. apply H. Qed.

Lemma pages_count_pos f p : in_range p -> f p = true -> 1 <= countb f pages.
Proof. intros Hp Hf. by apply (countb_seqZ_pos f PMM_MAX_PAGES p). Qed.

Ltac count_change f p :=
  match goal with |- _ = countb ?g pages => rewrite (pages_count_change f g p) end.

(** Taking a page out of the pool. *)
Lemma take_accounted s p :
  accounted s -> in_range p -> free s p = true ->
  accounted (with_used (set_bit p (page_bitmap s)) (dec_if_any (free_pages_count s)) s).
Proof.
  intros (H1 & H2 & H3 & H4 & H5 & H6 & H7) Hp Hf.
  pose proof (pages_count_pos _ _ Hp Hf). pose proof (pages_count_bound (free s)).
  split; [by apply set_bit_ok|]. do 2 (split; [done|]). split; [|split; [done|split; [|done]]].
  - intros q Hq Hm. unfold used. cbn. rewrite test_set. unfold used in H4. by rewrite H4.
  - cbn [free_pages_count with_used]. unfold dec_if_any, truthy. rewrite H6.
    destruct (countb (free s) pages =? 0) eqn:E; bool_to_prop; [lia|]. cbn [negb].
    rewrite u64_id by (unfold is_u64; lia).
    count_change (free s) p; [|done|].
    + rewrite Hf. unfold free, used. cbn. rewrite test_set, Z.eqb_refl, orb_true_r. cbn.
      rewrite andb_false_r. cbn. lia.
    + intros q Hq. unfold free, used. cbn. rewrite test_set.
      destruct (q =? p) eqn:E'; bool_to_prop; [contradiction|]. by rewrite orb_false_r.
Qed.

(** Putting a managed page back. *)
Lemma give_accounted s p :
  accounted s -> in_range p -> managed s p = true -> used s p = true ->
  accounted (with_used (clear_bit p (page_bitmap s)) (u64 (free_pages_count s + 1)) s).
Proof.
  intros (H1 & H2 & H3 & H4 & H5 & H6 & H7) Hp Hm Hu.
  pose proof (pages_count_bound (free s)).
  split; [by apply clear_bit_ok|]. do 2 (split; [done|]). split; [|split; [done|split; [|done]]].
  - intros q Hq Hmq. unfold used. cbn. rewrite test_clear by done. fold (used s q). rewrite H4 by done.
    destruct (q =? p) eqn:E; bool_to_prop; [|done]. subst. unfold managed in *. cbn in Hmq. congruence.
  - cbn [free_pages_count with_used]. rewrite H6, u64_id by (unfold is_u64; lia).
    count_change (free s) p; [|done|].
    + unfold free at 3 4. unfold used, managed. cbn. fold (used s p) (managed s p).
      rewrite test_clear, Z.eqb_refl by done. fold (used s p). rewrite Hm, Hu. cbn. lia.
    + intros q Hq. unfold free, used. cbn. rewrite test_clear by done.
      destruct (q =? p) eqn:E'; bool_to_prop; [contradiction|]. by rewrite andb_true_r.
Qed.

Lemma manage_accounted s p :
  accounted s -> in_range p -> managed s p = false ->
  accounted (with_managed (set_bit p (managed_bitmap s)) (u64 (total_pages_count s + 1)) s).
Proof.
  intros (H1 & H2 & H3 & H4 & H5 & H6 & H7) Hp Hm. pose proof (pages_count_bound (managed s)).
  split; [done|]. split; [by apply set_bit_ok|]. split; [done|]. split; [|split; [|split; [|done]]].
  - intros q Hq Hmq. apply H4; [done|]. unfold managed in *. cbn in Hmq. rewrite test_set in Hmq. by bool_to_prop.
  - cbn [total_pages_count with_managed]. rewrite H5, u64_id by (unfold is_u64; lia).
    count_change (managed s) p; [|done|].
    + rewrite Hm. unfold managed. cbn. rewrite test_set, Z.eqb_refl, orb_true_r. cbn. lia.
    + intros q Hq. unfold managed. cbn. rewrite test_set.
      destruct (q =? p) eqn:E'; bool_to_prop; [contradiction|]. by rewrite orb_false_r.
  - cbn [free_pages_count with_managed]. rewrite H6. apply pages_count_same. intros q.
    unfold free, used, managed. cbn. rewrite test_set.
    destruct (q =? p) eqn:E'; bool_to_prop; [|by rewrite orb_false_r]. subst.
    fold (managed s p) (used s p). rewrite Hm, orb_true_r, H4 by done. done.
Qed.

Lemma reserve_accounted s p :
  accounted s -> in_range p -> reserved s p = false ->
  accounted (with_reserved (set_bit p (reserved_bitmap s)) (u64 (reserved_pages_count s + 1)) s).
Proof.
  intros (H1 & H2 & H3 & H4 & H5 & H6 & H7) Hp Hm. pose proof (pages_count_bound (reserved s)).
  split; [done|]. split; [done|]. split; [by apply set_bit_ok|]. split; [done|]. split; [done|]. split; [done|].
  cbn [reserved_pages_count with_reserved]. rewrite H7, u64_id by (unfold is_u64; lia).
  count_change (reserved s) p; [|done|].
  - rewrite Hm. unfold reserved. cbn. rewrite test_set, Z.eqb_refl, orb_true_r. cbn. lia.
  - intros q Hq. unfold reserved. cbn. rewrite test_set.
    destruct (q =? p) eqn:E'; bool_to_prop; [contradiction|]. by rewrite orb_false_r.
Qed.

Lemma unused_is_free s p : accounted s -> in_range p -> used s p = false -> free s p = true.
Proof.
  intros (_ & _ & _ & H & _) Hp Hu. unfold free. rewrite Hu. destruct (managed s p) eqn:E; [done|].
  rewrite H in Hu by done. done.
Qed.

(** What a range mark leaves alone. *)
Definition same_frame (s s' : pmm_t) : Prop :=
  pmm_lock s' = pmm_lock s /\ pmm_lockdep_class s' = pmm_lockdep_class s /\
  saved_map s' = saved_map s /\ saved_map_size s' = saved_map_size s /\ saved_desc_size s' = saved_desc_size s.

Lemma mark_page_reserve s p :
  accounted s -> in_range p ->
  let s' := mark_page false p s in
  accounted s' /\ same_frame s s' /\ managed_bitmap s' = managed_bitmap s /\
  (forall q, reserved s' q = reserved s q || (q =? p)) /\ (forall q, used s' q = used s q || (q =? p)).
Proof.
  intros Ha Hp. cbn [mark_page]. fold (reserved s p).
  set (s1 := if negb (reserved s p) then _ else s).
  assert (H1 : accounted s1 /\ same_frame s s1 /\ managed_bitmap s1 = managed_bitmap s /\
    page_bitmap s1 = page_bitmap s /\ (forall q, reserved s1 q = reserved s q || (q =? p))).
  { subst s1. destruct (reserved s p) eqn:Er; cbn [negb].
    - do 4 (split; [done|]). intros q. destruct (q =? p) eqn:E; bool_to_prop; [subst; by rewrite Er|by rewrite orb_false_r].
    - split; [by apply reserve_accounted|]. do 3 (split; [done|]). intros q. unfold reserved. cbn. apply test_set. }
  destruct H1 as (Ha1 & Hf1 & Hm1 & Hu1 & Hr1). fold (used s1 p).
  destruct (used s1 p) eqn:Eu; cbn [negb].
  - do 4 (split; [done|]). intros q. unfold used in *. rewrite <- Hu1.
    destruct (q =? p) eqn:E; bool_to_prop; [subst; by rewrite Eu|by rewrite orb_false_r].
  - split; [apply take_accounted; [done..|]; by apply unused_is_free|].
    split; [exact Hf1|]. split; [exact Hm1|]. split; [exact Hr1|].
    intros q. unfold used. cbn. rewrite test_set. by rewrite Hu1.
Qed.

Lemma mark_page_free s p :
  accounted s -> in_range p ->
  let s' := mark_page true p s in
  accounted s' /\ same_frame s s' /\ reserved_bitmap s' = reserved_bitmap s /\
  (forall q, managed s' q = managed s q || (q =? p)) /\ (forall q, used s' q = used s q && negb (q =? p)).
Proof.
  intros Ha Hp. cbn [mark_page]. fold (managed s p).
  set (s1 := if negb (managed s p) then _ else s).
  assert (H1 : accounted s1 /\ same_frame s s1 /\ reserved_bitmap s1 = reserved_bitmap s /\
    page_bitmap s1 = page_bitmap s /\ (forall q, managed s1 q = managed s q || (q =? p))).
  { subst s1. destruct (managed s p) eqn:Er; cbn [negb].
    - do 4 (split; [done|]). intros q. destruct (q =? p) eqn:E; bool_to_prop; [subst; by rewrite Er|by rewrite orb_false_r].
    - split; [by apply manage_accounted|]. do 3 (split; [done|]). intros q. unfold managed. cbn. apply test_set. }
  destruct H1 as (Ha1 & Hf1 & Hm1 & Hu1 & Hr1). fold (used s1 p).
  destruct (used s1 p) eqn:Eu.
  - split; [apply give_accounted; [done..| |done]; by rewrite Hr1, Z.eqb_refl, orb_true_r|].
    split; [exact Hf1|]. split; [exact Hm1|]. split; [exact Hr1|].
    intros q. unfold used. cbn. rewrite test_clear by apply Ha1. by rewrite Hu1.
  - do 4 (split; [done|]). intros q. unfold used in *. rewrite <- Hu1.
    destruct (q =? p) eqn:E; bool_to_prop; [subst; by rewrite Eu|by rewrite andb_true_r].
Qed.

(** ** Ranges *)

Lemma align_up_page_spec base :
  0 <= base < PMM_MAX_PHYS -> align_up_page base = (base + 4095) / 4096 * 4096.
Proof.
  unfold PMM_MAX_PHYS, RIXURI_MAX_PHYS_BYTES, align_up_page, RIXURI_PAGE_SIZE, UINT64_MAX. intros Hb.
  case_if; [lia|]. replace (base + 4096 - 1) with (base + 4095) by lia.
  apply (land_not64_low (base + 4095) 12); lia.
Qed.

(** The pages a range mark touches: [[range_lo, range_hi)]. *)
Definition range_lo (base : Z) : Z := (base + 4095) / 4096.
Definition range_hi (base n : Z) : Z := Z.min PMM_MAX_PAGES (range_lo base + n).

Lemma mark_range_eq base n fr s :
  0 <= base -> 0 <= n ->
  mark_range base n fr s =
    if (base <? PMM_MAX_PHYS) && (range_lo base <? range_hi base n)
    then for_all (range_lo base) (range_hi base n - range_lo base) (mark_page fr) s else s.
Proof.
  intros Hb Hn. unfold mark_range, truthy. rewrite negb_involutive.
  destruct (base <? PMM_MAX_PHYS) eqn:E1; bool_to_prop.
  2:{ destruct (PMM_MAX_PHYS <=? base) eqn:E2; bool_to_prop; [by rewrite orb_true_r|lia]. }
  rewrite align_up_page_spec by lia. fold (range_lo base).
  assert (Hlo : 0 <= range_lo base <= 33554432).
  { unfold range_lo, PMM_MAX_PHYS, RIXURI_MAX_PHYS_BYTES in *. split; [apply Z.div_pos; lia|].
    apply Z.lt_succ_r, Z.div_lt_upper_bound; lia. }
  destruct (PMM_MAX_PHYS <=? base) eqn:E2; bool_to_prop; [lia|].
  unfold range_hi. rewrite max_pages_val. cbn [andb]. rewrite orb_false_r.
  unfold UINT64_MAX, RIXURI_PAGE_SIZE.
  destruct (n =? 0) eqn:E3; bool_to_prop.
  { subst. case_if; [lia|done]. }
  destruct (range_lo base * 4096 =? _) eqn:E4; bool_to_prop; [lia|]. cbn [orb].
  destruct (PMM_MAX_PHYS <=? range_lo base * 4096) eqn:E5; bool_to_prop;
    unfold PMM_MAX_PHYS, RIXURI_MAX_PHYS_BYTES in *.
  { case_if; [lia|done]. }
  rewrite Z.div_mul by lia.
  assert (Hmax : (128 * 1024 * 1024 * 1024 - range_lo base * 4096) / 4096 = 33554432 - range_lo base).
  { replace (128 * 1024 * 1024 * 1024 - range_lo base * 4096) with ((33554432 - range_lo base) * 4096) by lia.
    apply Z.div_mul. lia. }
  rewrite Hmax. destruct (range_lo base <? _) eqn:E6; bool_to_prop; [|lia]. f_equal. case_if; lia.
Qed.

Definition within (lo hi p : Z) : bool := (lo <=? p) && (p <? hi).

Lemma within_succ lo i q : lo <= i -> within lo (i + 1) q = within lo i q || (q =? i).
Proof.
  intros H. unfold within. destruct (lo <=? q) eqn:E1, (q <? i + 1) eqn:E2, (q <? i) eqn:E3, (q =? i) eqn:E4;
    bool_to_prop; try done; lia.
Qed.

Lemma mark_range_reserve base n s :
  0 <= base -> 0 <= n -> accounted s ->
  let s' := mark_range base n false s in
  accounted s' /\ same_frame s s' /\ managed_bitmap s' = managed_bitmap s /\
  (forall q, reserved s' q = reserved s q || (base <? PMM_MAX_PHYS) && within (range_lo base) (range_hi base n) q) /\
  (forall q, used s' q = used s q || (base <? PMM_MAX_PHYS) && within (range_lo base) (range_hi base n) q).
Proof.
  intros Hb Hn Ha. cbn zeta. rewrite mark_range_eq by done.
  destruct (base <? PMM_MAX_PHYS) eqn:E1; cbn [andb].
  2:{ do 3 (split; [done|]). split; intros q; by rewrite orb_false_r. }
  case_if.
  2:{ do 3 (split; [done|]). assert (Hw : forall q, within (range_lo base) (range_hi base n) q = false).
      { intros q. unfold within. destruct (_ <=? _) eqn:E2, (_ <? _) eqn:E3; bool_to_prop; try done; lia. }
      split; intros q; by rewrite Hw, orb_false_r. }
  set (lo := range_lo base) in *. set (hi := range_hi base n) in *.
  assert (Hlo : 0 <= lo) by (apply Z.div_pos; lia).
  assert (Hhi : hi <= PMM_MAX_PAGES) by (unfold hi, range_hi; lia).
  pose proof (for_all_inv (fun i s' => lo <= i /\ accounted s' /\ same_frame s s' /\ managed_bitmap s' = managed_bitmap s /\
    (forall q, reserved s' q = reserved s q || within lo i q) /\
    (forall q, used s' q = used s q || within lo i q)) lo (hi - lo) (mark_page false) s) as H.
  replace (lo + (hi - lo)) with hi in H by lia. apply H; [lia| |].
  - split; [lia|]. do 3 (split; [done|]). assert (Hw : forall q, within lo lo q = false).
    { intros q. unfold within. destruct (_ <=? _) eqn:E2, (_ <? _) eqn:E3; bool_to_prop; try done; lia. }
    split; intros q; by rewrite Hw, orb_false_r.
  - intros i s1 Hi (Hli & Ha1 & Hf1 & Hm1 & Hr1 & Hu1).
    destruct (mark_page_reserve s1 i Ha1 ltac:(unfold in_range; lia)) as (Ha2 & Hf2 & Hm2 & Hr2 & Hu2).
    split; [lia|]. split; [done|]. split.
    { unfold same_frame in *. destruct Hf1 as (-> & -> & -> & -> & ->) in Hf2. exact Hf2. }
    split; [congruence|]. split; intros q; rewrite ?Hr2, ?Hu2, ?Hr1, ?Hu1, within_succ by lia; by rewrite orb_assoc.
Qed.

Lemma mark_range_free base n s :
  0 <= base -> 0 <= n -> accounted s ->
  let s' := mark_range base n true s in
  accounted s' /\ same_frame s s' /\ reserved_bitmap s' = reserved_bitmap s.
Proof.
  intros Hb Hn Ha. cbn zeta. rewrite mark_range_eq by done. case_if; [|done]. bool_to_prop.
  set (lo := range_lo base) in *. set (hi := range_hi base n) in *.
  assert (Hlo : 0 <= lo) by (apply Z.div_pos; lia).
  assert (Hhi : hi <= PMM_MAX_PAGES) by (unfold hi, range_hi; lia).
  pose proof (for_all_inv (fun i s' => accounted s' /\ same_frame s s' /\ reserved_bitmap s' = reserved_bitmap s)
    lo (hi - lo) (mark_page true) s) as Hinv.
  apply Hinv; [lia|done|]. intros i s1 Hi (Ha1 & Hf1 & Hr1).
  destruct (mark_page_free s1 i Ha1 ltac:(unfold in_range; lia)) as (Ha2 & Hf2 & Hr2 & _ & _).
  split; [done|]. split; [|congruence].
  unfold same_frame in *. destruct Hf1 as (-> & -> & -> & -> & ->) in Hf2. exact Hf2.
Qed.

Lemma init_descriptor_wf map off s :
  Forall is_u8 map -> accounted s ->
  let s' := init_descriptor map off s in
  accounted s' /\ same_frame s s' /\ reserved_bitmap s' = reserved_bitmap s.
Proof.
  intros Hm Ha. cbn zeta. unfold init_descriptor, descriptor.
  pose proof (le_load_nonneg 8 map (off + 8) Hm). pose proof (le_load_nonneg 8 map (off + 24) Hm).
  case_if; [|done]. bool_to_prop. apply mark_range_free; [done| |done].
  case_if; [|done]. apply Z.div_pos; [lia|unfold RIXURI_PAGE_SIZE; lia].
Qed.

Lemma same_frame_trans s1 s2 s3 : same_frame s1 s2 -> same_frame s2 s3 -> same_frame s1 s3.
Proof. unfold same_frame. intros (-> & -> & -> & -> & ->). done. Qed.

Lemma init_loop_wf map size dsz s :
  Forall is_u8 map -> accounted s ->
  let s' := init_loop map size dsz s in
  accounted s' /\ same_frame s s' /\ reserved_bitmap s' = reserved_bitmap s.
Proof.
  intros Hm Ha. cbn zeta. unfold init_loop.
  set (P := fun s' => accounted s' /\ same_frame s s' /\ reserved_bitmap s' = reserved_bitmap s).
  destruct (Z.le_gt_cases 0 (size / dsz + 1)) as [Hn|Hn].
  2:{ destruct (size / dsz + 1) eqn:E; try lia. done. }
  match goal with |- context [loop ?n ?f ?s0] =>
    pose proof (loop_inv (fun _ '(_, s') => P s') P f n s0 Hn) as H;
    assert (Hstep : forall i st, 0 <= i < n -> (let '(_, s') := st in P s') ->
      match f st with inl (_, s') => P s' | inr s' => P s' end) end.
  { intros i [off s1] _ Hp. case_if; [|exact Hp].
    destruct Hp as (Ha1 & Hf1 & Hr1). destruct (init_descriptor_wf map off s1 Hm Ha1) as (Ha2 & Hf2 & Hr2).
    split; [done|]. split; [by eapply same_frame_trans|congruence]. }
  destruct (loop _ _ _) as [ [off s']|s']; by apply H.
Qed.

(** Reservation preserves the allocator invariant and only ever adds. *)
Definition reserves (s s' : pmm_t) : Prop :=
  accounted s' /\ same_frame s s' /\ (forall q, managed s' q = managed s q) /\
  (forall q, reserved s q = true -> reserved s' q = true) /\
  ((forall q, in_range q -> reserved s q = true -> used s q = true) ->
   forall q, in_range q -> reserved s' q = true -> used s' q = true).

Lemma reserves_refl s : accounted s -> reserves s s.
Proof. by intros Ha. Qed.
Lemma reserves_trans s1 s2 s3 : reserves s1 s2 -> reserves s2 s3 -> reserves s1 s3.
Proof.
  intros (_ & Hf1 & Hm1 & Hr1 & Hu1) (Ha & Hf2 & Hm2 & Hr2 & Hu2).
  split; [done|]. split; [by eapply same_frame_trans|]. split; [intros q; by rewrite Hm2|].
  split; [auto|]. intros H. apply Hu2. by apply Hu1.
Qed.

Lemma mark_range_reserves base n s :
  0 <= base -> 0 <= n -> accounted s -> reserves s (mark_range base n false s).
Proof.
  intros Hb Hn Ha. destruct (mark_range_reserve base n s Hb Hn Ha) as (Ha' & Hf & Hm & Hr & Hu).
  split; [done|]. split; [done|]. split; [intros q; unfold managed; by rewrite Hm|].
  split; [intros q Hq; by rewrite Hr, Hq|].
  intros H q Hq. rewrite Hr, Hu. destruct (reserved s q) eqn:E; cbn.
  - by rewrite (H q).
  - intros ->. apply orb_true_r.
Qed.

Lemma mark_byte_range_reserves base size s :
  0 <= base -> 0 <= size -> accounted s -> reserves s (mark_byte_range base size false s).
Proof.
  intros Hb Hs Ha. unfold mark_byte_range. repeat (case_if; [by apply reserves_refl|]).
  apply mark_range_reserves; [done| |done]. apply Z.div_pos; [|unfold RIXURI_PAGE_SIZE; lia].
  unfold RIXURI_PAGE_SIZE. pose proof (Z.land_nonneg base (4096 - 1)) as [_ Hland]. lia.
Qed.

Lemma reset_accounted s cl : accounted (pmm_reset s cl).
Proof.
  assert (Hz : forall p, test (fun _ => 0) p = false) by (intros p; rewrite test_testbit; apply Z.bits_0).
  assert (H1 : forall p, test (fun _ => UINT64_MAX) p = true).
  { intros p. rewrite test_testbit. unfold UINT64_MAX. change (2 ^ 64 - 1) with (Z.ones 64).
    pose proof (Z.mod_pos_bound p 64). apply Z.ones_spec_low. lia. }
  assert (Hc : forall f, (forall p, f p = false) -> countb f pages = 0).
  { intros f Hf. unfold countb. generalize pages. intros l. induction l as [|x l IH]; cbn; [done|]. by rewrite Hf, IH. }
  split; [|split; [|split]].
  - intros w. cbn. unfold is_u64, UINT64_MAX. lia.
  - intros w. cbn. unfold is_u64. lia.
  - intros w. cbn. unfold is_u64. lia.
  - split; [intros p _ _; apply H1|]. split; [|split]; symmetry; apply Hc; intros p;
      unfold managed, free, reserved, managed; cbn; rewrite ?Hz; done.
Qed.

Lemma init_bitmaps_wf map addr size dsz kb ke bi bisz s cl :
  (forall m, map = Some m -> Forall is_u8 m) -> 0 <= addr -> 0 <= size -> 0 <= kb -> 0 <= bi -> 0 <= bisz ->
  pmm_wf (pmm_init_bitmaps map addr size dsz kb ke bi bisz (pmm_reset s cl)).
Proof.
  intros Hm Haddr Hsz Hkb Hbi Hbisz. pose proof (reset_accounted s cl) as Ha.
  assert (Hreset : pmm_wf (pmm_reset s cl)).
  { split; [done|]. split; [done|]. split; [intros p _ H|intros H];
      (exfalso; unfold reserved, managed in H; cbn in H; rewrite test_testbit, Z.bits_0 in H; done). }
  unfold pmm_init_bitmaps. destruct map as [m|]; [|done]. case_if; [done|]. specialize (Hm m eq_refl).
  set (s0 := save_map m size dsz (pmm_reset s cl)).
  destruct (init_loop_wf m size dsz s0 Hm Ha) as (Ha1 & Hf1 & Hr1).
  set (s1 := init_loop m size dsz s0) in *.
  destruct (mark_range_reserve 0 (0x100000 / RIXURI_PAGE_SIZE) s1 ltac:(lia) ltac:(vm_compute; discriminate) Ha1)
    as (Ha2 & Hf2 & Hm2 & Hr2 & Hu2).
  set (s2 := mark_range 0 _ false s1) in *.
  assert (R2 : reserves s1 s2) by (apply mark_range_reserves; [lia|vm_compute; discriminate|done]).
  set (s3 := if kb <? ke then _ else s2).
  assert (R3 : reserves s2 s3).
  { subst s3. case_if; [|by apply reserves_refl]. apply mark_byte_range_reserves; [lia|lia|done]. }
  assert (R4 : reserves s3 (mark_byte_range bi bisz false s3)) by (apply mark_byte_range_reserves; [done..|apply R3]).
  set (s4 := mark_byte_range bi bisz false s3) in *.
  assert (R5 : reserves s4 (mark_byte_range addr size false s4)) by (apply mark_byte_range_reserves; [done..|apply R4]).
  set (s5 := mark_byte_range addr size false s4) in *.
  assert (R : reserves s2 s5) by (eapply reserves_trans; [exact R3|]; by eapply reserves_trans).
  destruct R as (Ha5 & Hf5 & Hm5 & Hr5 & Hu5).
  split; [done|]. split; [|split].
  - destruct Hf5 as [-> _]. destruct Hf2 as [-> _]. destruct Hf1 as [-> _]. done.
  - apply Hu5. apply R2. intros q _ Hres. exfalso. unfold reserved in Hres. rewrite Hr1 in Hres.
    cbn in Hres. rewrite test_testbit, Z.bits_0 in Hres. done.
  - intros _. apply Hr5. rewrite Hr2. apply orb_true_iff. right. reflexivity.
Qed.

(** ** Allocation *)

(** The candidate word: the free pages of word [w] up to [limit]. *)
Definition candidates (limit : Z) (s : pmm_t) (w : Z) : Z :=
  let c := Z.land (managed_bitmap s w) (not64 (page_bitmap s w)) in
  if w =? Z.shiftr limit 6 then
    Z.land c (if Z.land limit 63 =? 63 then UINT64_MAX else u64 (Z.shiftl 1 (Z.land limit 63 + 1) - 1))
  else c.

Lemma candidates_bits limit s w b :
  accounted s -> 0 <= limit -> 0 <= w -> w * 64 <= limit -> 0 <= b < 64 ->
  Z.testbit (candidates limit s w) b = free s (w * 64 + b) && (w * 64 + b <=? limit).
Proof.
  intros (Hu & Hm & _) Hl Hw Hwl Hb. unfold candidates, free, managed, used.
  rewrite !test_testbit.
  assert (Hdiv : (w * 64 + b) / 64 = w) by (rewrite Z.div_add_l, Z.div_small by lia; lia).
  assert (Hmod : (w * 64 + b) mod 64 = b).
  { rewrite Z.add_comm, Z_mod_plus_full. apply Z.mod_small. lia. }
  rewrite Hdiv, Hmod.
  assert (Hc : Z.testbit (Z.land (managed_bitmap s w) (not64 (page_bitmap s w))) b
    = Z.testbit (managed_bitmap s w) b && negb (Z.testbit (page_bitmap s w) b)).
  { rewrite Z.land_spec. unfold not64, u64. by rewrite Z.mod_pow2_bits_low, Z.lnot_spec by lia. }
  rewrite land63. change (Z.shiftr limit 6) with (word_of limit). rewrite word_of_div.
  pose proof (Z.div_mod limit 64 ltac:(lia)) as Hdm. pose proof (Z.mod_pos_bound limit 64 ltac:(lia)).
  case_if.
  - rewrite Z.land_spec, Hc. f_equal. subst w.
    assert (Hmask : (if limit mod 64 =? 63 then UINT64_MAX else u64 (Z.shiftl 1 (limit mod 64 + 1) - 1))
                    = Z.ones (limit mod 64 + 1)).
    { unfold Z.ones. rewrite <- Z.sub_1_r. destruct (limit mod 64 =? 63) eqn:E63; bool_to_prop; [by rewrite E63|].
      apply u64_id. rewrite Z.shiftl_1_l. pose proof (Z.pow_pos_nonneg 2 (limit mod 64 + 1)).
      assert (2 ^ (limit mod 64 + 1) < 2 ^ 64) by (apply Z.pow_lt_mono_r; lia). unfold is_u64. lia. }
    rewrite Hmask. rewrite Z.testbit_ones_nonneg by lia.
    destruct (b <? limit mod 64 + 1) eqn:E1, (limit / 64 * 64 + b <=? limit) eqn:E2; bool_to_prop; lia.
  - rewrite Hc. destruct (w * 64 + b <=? limit) eqn:E2; bool_to_prop; [by rewrite andb_true_r|]. exfalso.
    assert (w < limit / 64 \/ limit / 64 < w) as [Hlt|Hgt] by lia; lia.
Qed.

Lemma candidates_u64 limit s w : accounted s -> is_u64 (candidates limit s w).
Proof.
  intros (Hu & Hm & _). unfold candidates. case_if; repeat (apply land_range; [lia|]); apply Hm.
Qed.

(** The page [pmm_alloc_page_below] chooses, if any. *)
Definition lowest_free (s : pmm_t) (limit p : Z) : Prop :=
  0 <= p <= limit /\ free s p = true /\ forall q, 0 <= q < p -> free s q = false.

Lemma below_scan limit s :
  accounted s -> 0 <= limit < PMM_MAX_PAGES ->
  match for_ 0 RIXURI_BITMAP_WORDS (below_word limit s) tt with
  | inr (Some (w, b)) => 0 <= w /\ 0 <= b < 64 /\ lowest_free s limit (w * 64 + b)
  | _ => forall q, 0 <= q <= limit -> free s q = false
  end.
Proof.
  intros Ha Hl.
  pose proof (for_inv (fun w (_ : unit) => 0 <= w /\ forall q, 0 <= q < w * 64 -> q <= limit -> free s q = false)
    (fun r => match r with
              | Some (w, b) => 0 <= w /\ 0 <= b < 64 /\ lowest_free s limit (w * 64 + b)
              | None => forall q, 0 <= q <= limit -> free s q = false
              end) 0 RIXURI_BITMAP_WORDS (below_word limit s) tt) as H.
  rewrite words_val in *. rewrite max_pages_val in Hl.
  assert (Hfin : match for_ 0 524288 (below_word limit s) tt with
    | inl _ => 0 <= 0 + 524288 /\ (forall q, 0 <= q < (0 + 524288) * 64 -> q <= limit -> free s q = false)
    | inr r => match r with
              | Some (w, b) => 0 <= w /\ 0 <= b < 64 /\ lowest_free s limit (w * 64 + b)
              | None => forall q, 0 <= q <= limit -> free s q = false
              end end).
  { apply H; [lia|split; [lia|intros; lia]|]. clear H. intros w [] Hw [_ Hlow]. unfold below_word.
    case_if; [intros q Hq; apply Hlow; lia|]. fold (candidates limit s w).
    pose proof (candidates_u64 limit s w Ha) as Hcu. unfold truthy. rewrite negb_involutive.
    destruct (candidates limit s w =? 0) eqn:Ec; bool_to_prop.
    - split; [lia|]. intros q Hq Hql. destruct (decide (q < w * 64)); [apply Hlow; lia|].
      pose proof (candidates_bits limit s w (q - w * 64) Ha ltac:(lia) ltac:(lia) ltac:(lia) ltac:(lia)) as Hb.
      rewrite Ec, Z.bits_0 in Hb. replace (w * 64 + (q - w * 64)) with q in Hb by lia.
      destruct (q <=? limit) eqn:E; bool_to_prop; [|lia]. rewrite andb_true_r in Hb. done.
    - destruct (ctz64_spec _ Hcu Ec) as (Hr & Hset & Hclr). set (b := ctz64 _) in *.
      rewrite candidates_bits in Hset by (done || lia). bool_to_prop. rewrite max_pages_val.
      destruct (_ || _) eqn:E; [exfalso; bool_to_prop; destruct E; bool_to_prop; lia|].
      split; [lia|]. split; [lia|]. split; [lia|]. split; [done|].
      intros q Hq. destruct (decide (q < w * 64)); [apply Hlow; lia|].
      pose proof (Hclr (q - w * 64) ltac:(lia)) as Hb. rewrite candidates_bits in Hb by (done || lia).
      replace (w * 64 + (q - w * 64)) with q in Hb by lia.
      destruct (q <=? limit) eqn:E'; bool_to_prop; [by destruct Hb|lia]. }
  destruct (for_ 0 524288 (below_word limit s) tt) as [[]|[[w b]|]].
  - destruct Hfin as [_ Hf]. intros q Hq. apply Hf; lia.
  - exact Hfin.
  - exact Hfin.
Qed.

Definition take_page (p : Z) (s : pmm_t) : pmm_t :=
  with_used (set_bit p (page_bitmap s)) (dec_if_any (free_pages_count s)) s.

(** The last page [pmm_alloc_page_below] may return. *)
Definition below_limit (max_exclusive : Z) : Z := (Z.min max_exclusive PMM_MAX_PHYS - 1) / 4096.

Lemma alloc_below_spec m s :
  pmm_wf s -> 0 <= m ->
  (exists p, alloc_below_body m s = (p * 4096, take_page p s) /\ 0 < p /\ in_range p /\ 4096 <= m /\
     lowest_free s (below_limit m) p) \/
  (alloc_below_body m s = (0, s) /\ (m < 4096 \/ forall q, 0 <= q <= below_limit m -> free s q = false)).
Proof.
  intros (Ha & _ & Hres & H0) Hm. unfold alloc_below_body, RIXURI_PAGE_SIZE.
  assert (Hmin : (if PMM_MAX_PHYS <? m then PMM_MAX_PHYS else m) = Z.min m PMM_MAX_PHYS) by (case_if; lia).
  rewrite Hmin. fold (below_limit m). unfold PMM_MAX_PHYS, RIXURI_MAX_PHYS_BYTES in *.
  case_if; [right; split; [done|left; lia]|].
  assert (Hl : 0 <= below_limit m < PMM_MAX_PAGES).
  { rewrite max_pages_val. unfold below_limit, PMM_MAX_PHYS, RIXURI_MAX_PHYS_BYTES. split; [apply Z.div_pos; lia|].
    apply Z.div_lt_upper_bound; lia. }
  pose proof (below_scan (below_limit m) s Ha Hl) as Hs.
  destruct (for_ 0 _ _ tt) as [u|[[w b]|]]; [right; by split; [|right]| |right; by split; [|right]].
  left. destruct Hs as (Hw & Hb & Hlow). exists (w * 64 + b).
  assert (Hwo : word_of (w * 64 + b) = w).
  { rewrite word_of_div, Z.div_add_l, Z.div_small by lia. lia. }
  assert (Hma : mask_of (w * 64 + b) = bit b).
  { unfold mask_of. rewrite land63, Z.add_comm, Z_mod_plus_full, Z.mod_small by lia. done. }
  split; [unfold take_page, set_bit; by rewrite Hwo, Hma|].
  assert (w * 64 + b <> 0).
  { intros E. destruct Hlow as (_ & Hf & _). rewrite E in Hf. unfold free in Hf. bool_to_prop.
    rewrite Hres in *; [done| |by apply H0]. unfold in_range. rewrite max_pages_val. lia. }
  unfold in_range. destruct Hlow as (Hr & Hf & Hq). split; [lia|]. split; [lia|]. split; [lia|]. done.
Qed.

Lemma run_available_spec s start count :
  0 <= count -> run_available s start count = true <-> forall p, start <= p < start + count -> free s p = true.
Proof.
  intros Hc. unfold run_available.
  set (f := fun i (_ : unit) => _).
  assert (Hf : forall i u, f i u = if free s (start + i) then inl tt else inr tt).
  { intros i u. unfold f, free, managed, used. by destruct (test (managed_bitmap s) _), (test (page_bitmap s) _). }
  pose proof (for_inv (fun i (_ : unit) => forall p, start <= p < start + i -> free s p = true)
    (fun _ : unit => exists p, start <= p < start + count /\ free s p = false) 0 count f tt Hc) as H.
  assert (Hstep : match for_ 0 count f tt with
    | inl _ => forall p, start <= p < start + (0 + count) -> free s p = true
    | inr _ => exists p, start <= p < start + count /\ free s p = false end).
  { apply H; [intros; lia|]. intros i u Hi HI. rewrite Hf. destruct (free s (start + i)) eqn:E.
    - intros p Hp. destruct (decide (p = start + i)) as [->|]; [done|]. apply HI. lia.
    - exists (start + i). split; [lia|done]. }
  destruct (for_ 0 count f tt) as [u|u].
  - rewrite Z.add_0_l in Hstep. done.
  - split; [done|]. intros Hall. destruct Hstep as (p & Hp & E). rewrite Hall in E by done. done.
Qed.

Lemma set_run_spec s start count :
  accounted s -> 0 <= start -> 0 <= count -> start + count <= PMM_MAX_PAGES ->
  (forall p, start <= p < start + count -> free s p = true) ->
  let b := for_all 0 count (fun i b => set_bit (start + i) b) (page_bitmap s) in
  accounted (with_used b (u64 (free_pages_count s - count)) s) /\
  forall q, test b q = used s q || within start (start + count) q.
Proof.
  intros Ha Hs Hc Hm Hf. cbn zeta.
  pose proof (for_all_inv (fun i b => 0 <= i /\ accounted (with_used b (free_pages_count s - i) s) /\
    forall q, test b q = used s q || within start (start + i) q)
    0 count (fun i b => set_bit (start + i) b) (page_bitmap s) Hc) as H.
  destruct H as (_ & Hacc & Ht).
  - split; [lia|]. split; [rewrite Z.sub_0_r; by destruct s|]. intros q.
    assert (Hw : within start (start + 0) q = false).
    { unfold within. destruct (_ <=? _) eqn:E2, (_ <? _) eqn:E3; bool_to_prop; try done; lia. }
    by rewrite Hw, orb_false_r.
  - intros i b Hi (_ & Hacc & Ht). split; [lia|].
    assert (Hfree : free (with_used b (free_pages_count s - i) s) (start + i) = true).
    { unfold free, used, managed. cbn. specialize (Hf (start + i) ltac:(lia)). unfold free, managed in Hf.
      apply andb_true_iff in Hf as [Hf1 Hf2]. apply negb_true_iff in Hf2.
      rewrite Ht, Hf2. apply andb_true_iff. split; [done|]. apply negb_true_iff. cbn.
      unfold within. destruct (_ <=? _) eqn:E2, (_ <? _) eqn:E3; bool_to_prop; try done; lia. }
    assert (Hin : in_range (start + i)) by (unfold in_range; lia).
    pose proof (take_accounted _ (start + i) Hacc Hin Hfree) as Hacc'.
    pose proof (pages_count_pos _ _ Hin Hfree) as Hpos. pose proof (pages_count_bound (free (with_used b (free_pages_count s - i) s))).
    pose proof Hacc as (_ & _ & _ & _ & _ & Hcnt & _). cbn [free_pages_count with_used] in Hcnt.
    split.
    + cbn [free_pages_count with_used page_bitmap] in Hacc'. unfold dec_if_any, truthy in Hacc'.
      destruct (free_pages_count s - i =? 0) eqn:E; bool_to_prop; [lia|]. cbn [negb] in Hacc'.
      rewrite u64_id in Hacc' by (unfold is_u64; lia). by replace (free_pages_count s - (i + 1)) with (free_pages_count s - i - 1) by lia.
    + intros q. rewrite test_set, Ht, Z.add_assoc, within_succ by lia. by rewrite orb_assoc.
  - rewrite Z.add_0_l in *. split; [|done].
    pose proof Hacc as (_ & _ & _ & _ & _ & Hcnt & _). cbn [free_pages_count with_used] in Hcnt.
    match type of Hcnt with _ = countb ?f pages => pose proof (pages_count_bound f) end.
    rewrite u64_id by (unfold is_u64; lia). done.
Qed.

(** The first run of [count] free pages. *)
Definition lowest_run (s : pmm_t) (count start : Z) : Prop :=
  0 <= start /\ start + count <= PMM_MAX_PAGES /\
  (forall p, start <= p < start + count -> free s p = true) /\
  (forall st, 0 <= st < start -> exists p, st <= p < st + count /\ free s p = false).

Lemma not_run_available s start count :
  0 <= count -> run_available s start count = false -> exists p, start <= p < start + count /\ free s p = false.
Proof.
  intros Hc Hr. destruct (decide (Exists (fun p => free s p = false) (seqZ start count))) as [He|Hn].
  - apply Exists_exists in He as (p & Hp & E). apply elem_of_seqZ in Hp. eauto.
  - exfalso. rewrite (proj2 (run_available_spec s start count Hc)) in Hr; [done|].
    intros p Hp. destruct (free s p) eqn:E; [done|]. exfalso. apply Hn, Exists_exists. exists p.
    split; [apply elem_of_seqZ; lia|done].
Qed.

Lemma alloc_pages_spec count s :
  accounted s -> 0 < count <= PMM_MAX_PAGES ->
  match alloc_pages_body count s with
  | (r, s') =>
      (exists start b, r = start * 4096 /\ s' = with_used b (u64 (free_pages_count s - count)) s /\
         lowest_run s count start /\ accounted s' /\
         forall q, used s' q = used s q || within start (start + count) q) \/
      (r = 0 /\ s' = s /\ forall st, 0 <= st -> st + count <= PMM_MAX_PAGES ->
         exists p, st <= p < st + count /\ free s p = false)
  end.
Proof.
  intros Ha Hc. unfold alloc_pages_body.
  set (f := fun start (_ : unit) => if negb (run_available s start count) then inl tt else inr start).
  pose proof (for_inv (fun st (_ : unit) => forall st', 0 <= st' < st -> exists p, st' <= p < st' + count /\ free s p = false)
    (fun start => lowest_run s count start) 0 (PMM_MAX_PAGES - count + 1) f tt ltac:(lia)) as H.
  assert (Hstep : match for_ 0 (PMM_MAX_PAGES - count + 1) f tt with
    | inl _ => forall st', 0 <= st' < 0 + (PMM_MAX_PAGES - count + 1) -> exists p, st' <= p < st' + count /\ free s p = false
    | inr start => lowest_run s count start end).
  { apply H; [intros; lia|]. clear H. intros st u Hst HI. unfold f. destruct (run_available s st count) eqn:E; cbn [negb].
    - split; [lia|]. split; [lia|]. split; [|done]. apply run_available_spec; [lia|done].
    - intros st' Hst'. destruct (decide (st' = st)) as [->|]; [apply not_run_available; [lia|done]|]. apply HI. lia. }
  destruct (for_ 0 _ f tt) as [u|start].
  - right. split; [done|]. split; [done|]. intros st H1 H2. apply Hstep. lia.
  - left. destruct Hstep as (H1 & H2 & H3 & H4).
    destruct (set_run_spec s start count Ha H1 ltac:(lia) H2 H3) as [Hacc Ht].
    eexists start, _. split; [done|]. split; [reflexivity|]. split; [done|]. split; [exact Hacc|exact Ht].
Qed.

(** ** Entry points *)

Definition with_lock (l : rix_spinlock_t) (s : pmm_t) : pmm_t := (with_guard l (s, lockdep_boot)).1.

(** A body that neither reads nor writes the lock word. *)
Definition lock_blind {R} (body : pmm_t -> R * pmm_t) : Prop :=
  forall l s, body (with_lock l s) = ((body s).1, with_lock l (body s).2).

Lemma with_lock_id s : with_lock (pmm_lock s) s = s.
Proof. by destruct s. Qed.

Lemma lock_blind_free {R} (body : pmm_t -> R * pmm_t) s :
  lock_blind body -> pmm_lock (body s).2 = pmm_lock s.
Proof. intros Hb. pose proof (Hb (pmm_lock s) s) as E. rewrite with_lock_id in E. rewrite E at 1. done. Qed.

(** The lock-order checker after one acquire and release of [k]. *)
Definition ld_acquired (k : Z) (c : cpu) (ld : lockdep_t) : lockdep_t :=
  match rix_lockdep_acquire k (c, ld) with Some (_, (_, ld')) => ld' | None => ld end.
Definition ld_released (k : Z) (c : cpu) (ld : lockdep_t) : lockdep_t :=
  match rix_lockdep_release k (c, ld) with Some (_, (_, ld')) => ld' | None => ld end.

Lemma ld_acquired_run k c ld : exists rc, rix_lockdep_acquire k (c, ld) = Some (rc, (c, ld_acquired k c ld)).
Proof.
  unfold ld_acquired. rewrite acquire_run. case_if; [by eexists|]. case_match; [|by eexists].
  destruct (acquire_body k c ld). by eexists.
Qed.
Lemma ld_released_run k c ld : exists rc, rix_lockdep_release k (c, ld) = Some (rc, (c, ld_released k c ld)).
Proof.
  unfold ld_released. rewrite release_run. case_if; [by eexists|]. case_match; [|by eexists].
  destruct (release_body k c ld). by eexists.
Qed.

Lemma pmm_section_run {R} (body : pmm_t -> R * pmm_t) c s ld :
  pmm_lock s = spin_free -> lock_blind body ->
  pmm_section body (c, (s, ld)) =
    let k := pmm_lockdep_class s in let c' := set_rflags (Z.clearbit (rflags c) IF_BIT) c in
    Some ((body s).1, (c, ((body s).2, ld_released k c' (ld_acquired k c' ld)))).
Proof.
  intros Hl Hb. cbv zeta. set (k := pmm_lockdep_class s). set (c' := set_rflags _ c).
  unfold pmm_section. erewrite (locked_section_run _ c (s, ld) (body s).1
    (with_lock spin_held (body s).2, ld_released k c' (ld_acquired k c' ld))); [|exact Hl|].
  - do 3 f_equal. change ((with_lock spin_free (body s).2, ld_released k c' (ld_acquired k c' ld))
      = ((body s).2, ld_released k c' (ld_acquired k c' ld))). f_equal.
    rewrite <- Hl, <- (lock_blind_free body s Hb). apply with_lock_id.
  - fold c'. change (with_guard spin_held (s, ld)) with (with_lock spin_held s, ld).
    rewrite (bind_Some _ _ _ k (c', (with_lock spin_held s, ld))) by done.
    destruct (ld_acquired_run k c' ld) as [rc1 E1].
    rewrite (bind_Some _ _ _ rc1 (c', (with_lock spin_held s, ld_acquired k c' ld))) by (unfold on_ld; by rewrite E1).
    rewrite (bind_Some _ _ _ (body s).1 (c', (with_lock spin_held (body s).2, ld_acquired k c' ld)))
      by (by rewrite Hb).
    destruct (ld_released_run k c' (ld_acquired k c' ld)) as [rc2 E2].
    rewrite (bind_Some _ _ _ rc2 (c', (with_lock spin_held (body s).2, ld_released k c' (ld_acquired k c' ld))))
      by (unfold on_ld; by rewrite E2).
    done.
Qed.

Lemma alloc_below_blind m : lock_blind (alloc_below_body m).
Proof.
  intros l s. unfold alloc_below_body. case_if; [done|].
  assert (E : forall x, below_word x (with_lock l s) = below_word x s) by reflexivity. rewrite E. by destruct (for_ _ _ _ _) as [|[[]|]].
Qed.
Lemma alloc_pages_blind n : lock_blind (alloc_pages_body n).
Proof.
  intros l s. unfold alloc_pages_body.
  change (run_available (with_lock l s)) with (run_available s). by destruct (for_ _ _ _ _).
Qed.
Lemma free_blind p : lock_blind (free_body p).
Proof. intros l s. unfold free_body. cbn. by case_if. Qed.
Lemma reserve_blind p : lock_blind (reserve_body p).
Proof.
  intros l s. unfold reserve_body. destruct s as [ub mb rb t f r pl k sm ss sd]. cbn.
  destruct (negb (test mb p)); [done|]. destruct (negb (test rb p)); cbn; by destruct (negb (test ub p)).
Qed.

(** ** Each operation keeps the invariant *)

Lemma grow_used_wf s s' :
  pmm_wf s -> accounted s' -> pmm_lock s' = pmm_lock s -> managed_bitmap s' = managed_bitmap s ->
  reserved_bitmap s' = reserved_bitmap s -> (forall q, used s q = true -> used s' q = true) -> pmm_wf s'.
Proof.
  intros (_ & Hl & Hr & H0) Ha El Em Er Hu. split; [done|]. split; [by rewrite El|].
  unfold reserved, managed. rewrite Em, Er. split; [|done]. intros q Hq H. by apply Hu, Hr.
Qed.

Lemma take_page_wf s p : pmm_wf s -> in_range p -> free s p = true -> pmm_wf (take_page p s).
Proof.
  intros Hwf Hp Hf. apply (grow_used_wf s); [done|apply take_accounted; [apply Hwf|done..]|done..|].
  intros q Hq. unfold used. cbn. rewrite test_set. unfold used in Hq. by rewrite Hq.
Qed.

Lemma free_body_spec p s :
  pmm_wf s -> in_range p ->
  let s' := (free_body p s).2 in
  pmm_wf s' /\ managed_bitmap s' = managed_bitmap s /\ reserved_bitmap s' = reserved_bitmap s /\
  forall q, used s' q = used s q && negb ((q =? p) && managed s p && negb (reserved s p)).
Proof.
  intros Hwf Hp. pose proof Hwf as (Ha & Hl & Hr & H0). cbn zeta. unfold free_body.
  fold (managed s p) (used s p) (reserved s p).
  destruct (managed s p) eqn:Em; cbn [negb orb].
  2:{ split; [done|]. split; [done|]. split; [done|]. intros q. by rewrite andb_false_r, andb_true_r. }
  destruct (used s p) eqn:Eu; cbn [negb orb].
  2:{ split; [done|]. split; [done|]. split; [done|]. intros q. rewrite andb_true_r.
      destruct (q =? p) eqn:E; bool_to_prop; [subst; by rewrite Eu|by rewrite andb_true_r]. }
  destruct (reserved s p) eqn:Er; cbn [snd].
  { split; [done|]. split; [done|]. split; [done|]. intros q. by rewrite andb_false_r, andb_true_r. }
  split; [|split; [done|split; [done|]]].
  - split; [by apply give_accounted|]. split; [done|]. split; [|done]. intros q Hq Hres. unfold used. cbn.
    rewrite test_clear by apply Ha. fold (used s q). rewrite (Hr q Hq Hres). cbn.
    destruct (q =? p) eqn:E; bool_to_prop; [|done]. subst. unfold reserved in *. cbn in Hres. congruence.
  - intros q. unfold used. cbn. rewrite test_clear by apply Ha. by rewrite !andb_true_r.
Qed.

Lemma reserve_body_spec p s :
  pmm_wf s -> in_range p ->
  let s' := (reserve_body p s).2 in
  pmm_wf s' /\ managed_bitmap s' = managed_bitmap s /\
  (forall q, reserved s' q = reserved s q || ((q =? p) && managed s p)) /\
  (forall q, used s' q = used s q || ((q =? p) && managed s p)).
Proof.
  intros Hwf Hp. pose proof Hwf as (Ha & Hl & Hr & H0). cbn zeta. unfold reserve_body. fold (managed s p).
  destruct (managed s p) eqn:Em; cbn [negb snd].
  2:{ split; [done|]. split; [done|]. split; intros q; by rewrite andb_false_r, orb_false_r. }
  destruct (mark_page_reserve s p Ha Hp) as (Ha' & Hf' & Hm' & Hr' & Hu'). cbn [mark_page] in *.
  set (s' := if negb _ then _ else _) in *. split; [|split; [done|split; intros q; by rewrite andb_true_r]].
  split; [done|]. split; [destruct Hf' as [-> _]; done|]. split.
  - intros q Hq. rewrite Hr', Hu'. destruct (reserved s q) eqn:E; cbn; [by rewrite (Hr q)|]. intros ->. apply orb_true_r.
  - unfold managed. rewrite Hm', Hr'. intros H. by rewrite (H0 H).
Qed.

(** [s'] follows [s]: the invariant holds, reservations stay, and only pages of
    [K] may have left the used set. *)
Definition follows (K : Z -> Prop) (s s' : pmm_t) : Prop :=
  pmm_wf s' /\ (forall q, reserved s q = true -> reserved s' q = true) /\
  (forall q, used s q = true -> ~ K q -> used s' q = true).

Lemma follows_refl K s : pmm_wf s -> follows K s s.
Proof. by intros Hwf. Qed.

Lemma aligned_page pa : Z.land pa (4096 - 1) = 0 -> pa / 4096 * 4096 = pa.
Proof.
  change (4096 - 1) with (Z.ones 12). rewrite Z.land_ones by lia. change (2 ^ 12) with 4096. intros H.
  rewrite (Z.div_mod pa 4096) at 2 by lia. lia.
Qed.

Lemma free_page_run pa c s ld :
  pmm_wf s -> 0 <= pa ->
  exists s' ld', pmm_free_page pa (c, (s, ld)) = Some (tt, (c, (s', ld'))) /\
    follows (fun q => q * 4096 = pa) s s'.
Proof.
  intros Hwf Hpa. unfold pmm_free_page, RIXURI_PAGE_SIZE.
  destruct (Z.land pa (4096 - 1) =? 0) eqn:E1; cbn [negb]; [|exists s, ld; split; [done|by apply follows_refl]].
  destruct (PMM_MAX_PAGES <=? pa / 4096) eqn:E2; [exists s, ld; split; [done|by apply follows_refl]|].
  bool_to_prop. rewrite pmm_section_run by (apply Hwf || apply free_blind). cbv zeta.
  exists (free_body (pa / 4096) s).2. eexists. split; [by destruct (free_body (pa / 4096) s).1|].
  assert (Hp : in_range (pa / 4096)) by (split; [apply Z.div_pos; lia|done]).
  destruct (free_body_spec (pa / 4096) s Hwf Hp) as (Hw & Hm & Hr & Hu).
  split; [done|]. split; [intros q; unfold reserved; by rewrite Hr|].
  intros q Hq Hn. rewrite Hu, Hq. destruct (q =? pa / 4096) eqn:E; bool_to_prop; [|done].
  exfalso. apply Hn. subst. by apply aligned_page.
Qed.

Lemma free_range_run pa n c s ld :
  pmm_wf s -> is_u64 pa -> is_u64 n ->
  exists s' ld', pmm_free_page_range pa n (c, (s, ld)) = Some (tt, (c, (s', ld'))) /\
    follows (fun q => pa <= q * 4096 < pa + n * 4096) s s'.
Proof.
  intros Hwf Hpa Hn. unfold is_u64 in *. unfold pmm_free_page_range, RIXURI_PAGE_SIZE.
  destruct (_ || _); [exists s, ld; split; [done|by apply follows_refl]|].
  destruct (_ <? _) eqn:Eb; [exists s, ld; split; [done|by apply follows_refl]|]. bool_to_prop.
  match goal with |- context [for_ 0 n ?f ?s0] =>
    pose proof (for_inv (fun i '(c1, (s1, _)) => c1 = c /\ follows (fun q => pa <= q * 4096 < pa + i * 4096) s s1)
      (fun _ : unit => False) 0 n f s0 ltac:(lia)) as Hfor end.
  match type of Hfor with ?A -> ?B -> _ => assert (Hinit : A) by (split; [done|by apply follows_refl]); assert (Hstep : B) end.
  { intros i [c2 [s2 ld2] ] Hi [-> (Hw2 & Hr2 & Hu2)].
    assert (Hb : pa + i * 4096 < 2 ^ 64).
    { pose proof (Z.mul_div_le (UINT64_MAX - pa) 4096 ltac:(lia)). unfold UINT64_MAX in *. lia. }
    rewrite u64_id by (unfold is_u64; lia).
    destruct (free_page_run (pa + i * 4096) c s2 ld2 Hw2 ltac:(lia)) as (s3 & ld3 & -> & Hw3 & Hr3 & Hu3).
    split; [done|]. split; [done|]. split; [auto|]. intros q Hq Hnq. apply Hu3; [apply Hu2; [done|lia]|lia]. }
  specialize (Hfor Hinit Hstep). destruct (for_ 0 n _ _) as [ [c1 [s1 ld1] ]|]; [|done].
  destruct Hfor as [-> Hfor]. by exists s1, ld1.
Qed.

Lemma reserve_page_run pa c s ld :
  pmm_wf s -> 0 <= pa ->
  exists s' ld', pmm_reserve_page pa (c, (s, ld)) = Some (tt, (c, (s', ld'))) /\
    follows (fun _ => False) s s'.
Proof.
  intros Hwf Hpa. unfold pmm_reserve_page, RIXURI_PAGE_SIZE.
  destruct (Z.land pa (4096 - 1) =? 0) eqn:E1; cbn [negb]; [|exists s, ld; split; [done|by apply follows_refl]].
  destruct (PMM_MAX_PAGES <=? pa / 4096) eqn:E2; [exists s, ld; split; [done|by apply follows_refl]|].
  bool_to_prop. rewrite pmm_section_run by (apply Hwf || apply reserve_blind). cbv zeta.
  exists (reserve_body (pa / 4096) s).2. eexists. split; [by destruct (reserve_body (pa / 4096) s).1|].
  assert (Hp : in_range (pa / 4096)) by (split; [apply Z.div_pos; lia|done]).
  destruct (reserve_body_spec (pa / 4096) s Hwf Hp) as (Hw & Hm & Hr & Hu).
  split; [done|]. split; [intros q Hq; by rewrite Hr, Hq|]. intros q Hq _. by rewrite Hu, Hq.
Qed.

Lemma alloc_below_run m c s ld :
  pmm_wf s -> 0 <= m ->
  exists ld',
  (exists p, pmm_alloc_page_below m (c, (s, ld)) = Some (p * 4096, (c, (take_page p s, ld'))) /\
     0 < p /\ in_range p /\ 4096 <= m /\ lowest_free s (below_limit m) p) \/
  (pmm_alloc_page_below m (c, (s, ld)) = Some (0, (c, (s, ld'))) /\
     (m < 4096 \/ forall q, 0 <= q <= below_limit m -> free s q = false)).
Proof.
  intros Hwf Hm. unfold pmm_alloc_page_below.
  rewrite pmm_section_run by (apply Hwf || apply alloc_below_blind). cbv zeta. eexists.
  destruct (alloc_below_spec m s Hwf Hm) as [(p & -> & H)|[-> H]]; [left; by exists p|by right].
Qed.

Lemma alloc_pages_run n c s ld :
  pmm_wf s -> 0 <= n ->
  exists ld',
  (exists start s', pmm_alloc_pages n (c, (s, ld)) = Some (start * 4096, (c, (s', ld'))) /\ 0 < n /\ 0 < start /\
     lowest_run s n start /\ pmm_wf s' /\ managed_bitmap s' = managed_bitmap s /\
     reserved_bitmap s' = reserved_bitmap s /\
     forall q, used s' q = used s q || within start (start + n) q) \/
  (pmm_alloc_pages n (c, (s, ld)) = Some (0, (c, (s, ld'))) /\
     (n = 0 \/ PMM_MAX_PAGES < n \/ forall st, 0 <= st -> st + n <= PMM_MAX_PAGES ->
         exists p, st <= p < st + n /\ free s p = false)).
Proof.
  intros Hwf Hn. unfold pmm_alloc_pages, truthy. rewrite negb_involutive.
  destruct (n =? 0) eqn:E1; bool_to_prop; [exists ld; right; split; [done|by left]|].
  destruct (PMM_MAX_PAGES <? n) eqn:E2; bool_to_prop; [exists ld; right; split; [done|right; by left]|]. cbn [orb].
  rewrite pmm_section_run by (apply Hwf || apply alloc_pages_blind). cbv zeta. eexists.
  pose proof (alloc_pages_spec n s (proj1 Hwf) ltac:(lia)) as H.
  destruct (alloc_pages_body n s) as [r s']. destruct H as [(start & b & -> & Es & Hrun & Ha & Hu)|(-> & -> & H)].
  - left. exists start, s'. split; [done|]. split; [lia|].
    assert (Hs0 : start <> 0).
    { intros ->. destruct Hrun as (_ & Hr2 & Hf & _). specialize (Hf 0 ltac:(lia)). unfold free in Hf.
      destruct Hwf as (_ & _ & Hres & H0). bool_to_prop. rewrite Hres in *; [done| |by apply H0].
      unfold in_range. rewrite max_pages_val. lia. }
    assert (0 <= start) by apply Hrun. split; [lia|]. split; [done|]. split; [|by subst s'].
    apply (grow_used_wf s); [done|done|by subst s'..|]. intros q Hq. by rewrite Hu, Hq.
  - right. split; [done|]. right. by right.
Qed.

(** ** Histories of calls, with the pages the callers hold *)

Inductive pmm_op :=
| OAlloc | OAllocBelow (max_exclusive : Z) | OAllocPages (count : Z)
| OFree (pa : Z) | OFreeRange (pa count : Z) | OReserve (pa : Z).

Definition op_args_ok (op : pmm_op) : Prop :=
  match op with
  | OAlloc => True
  | OAllocBelow m => is_u64 m
  | OAllocPages n => is_u64 n
  | OFree pa => is_u64 pa
  | OFreeRange pa n => is_u64 pa /\ is_u64 n
  | OReserve pa => is_u64 pa
  end.

Definition pmm_step (op : pmm_op) : M (cpu * (pmm_t * lockdep_t)) Z :=
  match op with
  | OAlloc => pmm_alloc_page
  | OAllocBelow m => pmm_alloc_page_below m
  | OAllocPages n => pmm_alloc_pages n
  | OFree pa => _ ← pmm_free_page pa; mret 0
  | OFreeRange pa n => _ ← pmm_free_page_range pa n; mret 0
  | OReserve pa => _ ← pmm_reserve_page pa; mret 0
  end.

(** The pages held after a call that returned [r]: an allocation adds the pages
    it returned (again, if it returned one twice), a free drops the pages it
    names. *)
Definition held_after (op : pmm_op) (r : Z) (held : list Z) : list Z :=
  match op with
  | OAlloc | OAllocBelow _ => if r =? 0 then held else r / 4096 :: held
  | OAllocPages n => if r =? 0 then held else seqZ (r / 4096) n ++ held
  | OFree pa => filter (fun q => q * 4096 <> pa) held
  | OFreeRange pa n => filter (fun q => ~ (pa <= q * 4096 < pa + n * 4096)) held
  | OReserve _ => held
  end.

Fixpoint pmm_history (ops : list pmm_op) (held : list Z) (m : cpu * (pmm_t * lockdep_t))
  : option (list Z * (cpu * (pmm_t * lockdep_t))) :=
  match ops with
  | [] => Some (held, m)
  | op :: ops => match pmm_step op m with
                 | Some (r, m') => pmm_history ops (held_after op r held) m'
                 | None => None
                 end
  end.

(** Held pages are used, distinct, and none was reserved at boot. *)
Definition holding (boot : pmm_t) (s : pmm_t) (held : list Z) : Prop :=
  NoDup held /\ (forall q, q ∈ held -> in_range q /\ used s q = true /\ reserved boot q = false) /\
  (forall q, reserved boot q = true -> reserved s q = true).

Lemma holding_release boot s s' K held (dec : forall q, Decision (~ K q)) :
  holding boot s held -> follows K s s' -> holding boot s' (filter (fun q => ~ K q) held).
Proof.
  intros (Hnd & Hin & Hb) (_ & Hr & Hu). split; [by apply NoDup_filter|]. split; [|auto].
  intros q Hq. apply list_elem_of_filter in Hq as [Hn Hq]. destruct (Hin q Hq) as (H1 & H2 & H3). auto.
Qed.

Lemma holding_grow boot s s' held new :
  pmm_wf s -> holding boot s held -> NoDup new -> (forall q, q ∈ new -> in_range q /\ free s q = true) ->
  reserved_bitmap s' = reserved_bitmap s ->
  (forall q, used s q = true \/ q ∈ new -> used s' q = true) -> holding boot s' (new ++ held).
Proof.
  intros (_ & _ & Hwr & _) (Hnd & Hin & Hb) Hn Hnew Hr Hu. split; [|split].
  - apply NoDup_app. split; [done|]. split; [|done]. intros q Hq Hq'.
    destruct (Hnew q Hq) as [_ Hf]. destruct (Hin q Hq') as (_ & Hus & _). unfold free in Hf. rewrite Hus, andb_false_r in Hf. done.
  - intros q Hq. apply elem_of_app in Hq as [Hq|Hq].
    + destruct (Hnew q Hq) as [H1 Hf]. split; [done|]. split; [auto|].
      destruct (reserved boot q) eqn:E; [|done]. exfalso. pose proof (Hwr q H1 (Hb q E)) as Hus.
      unfold free in Hf. rewrite Hus, andb_false_r in Hf. done.
    + destruct (Hin q Hq) as (H1 & H2 & H3). auto.
  - intros q Hq. unfold reserved. rewrite Hr. by apply Hb.
Qed.

Lemma holding_alloc_below boot m c s ld held :
  pmm_wf s -> holding boot s held -> 0 <= m ->
  exists r s' ld', pmm_alloc_page_below m (c, (s, ld)) = Some (r, (c, (s', ld'))) /\
    pmm_wf s' /\ holding boot s' (if r =? 0 then held else r / 4096 :: held).
Proof.
  intros Hwf Hh Hm. destruct (alloc_below_run m c s ld Hwf Hm) as [ld' [(p & E & Hp & Hr & _ & Hl)|[E _]]].
  - eexists _, _, _. split; [exact E|]. destruct Hl as (_ & Hf & _). split; [by apply take_page_wf|].
    destruct (p * 4096 =? 0) eqn:E0; bool_to_prop; [lia|]. rewrite Z.div_mul by lia.
    apply (holding_grow boot s _ held [p]); [done|done|apply NoDup_singleton| |done|].
    + intros q Hq. apply list_elem_of_singleton in Hq. by subst.
    + intros q Hq. unfold used. cbn. rewrite test_set. destruct Hq as [Hq|Hq].
      * unfold used in Hq. by rewrite Hq.
      * apply list_elem_of_singleton in Hq. subst. by rewrite Z.eqb_refl, orb_true_r.
  - eexists _, _, _. split; [exact E|]. by split.
Qed.

Lemma pmm_step_safe boot op c s ld held :
  pmm_wf s -> holding boot s held -> op_args_ok op ->
  exists r s' ld', pmm_step op (c, (s, ld)) = Some (r, (c, (s', ld'))) /\
    pmm_wf s' /\ holding boot s' (held_after op r held).
Proof.
  intros Hwf Hh Hop. destruct op as [|m|n|pa|pa n|pa]; cbn in Hop; unfold is_u64 in Hop; cbn [pmm_step held_after].
  - apply holding_alloc_below; [done..|]. unfold PMM_MAX_PHYS, RIXURI_MAX_PHYS_BYTES. lia.
  - apply holding_alloc_below; [done..|lia].
  - destruct (alloc_pages_run n c s ld Hwf ltac:(lia)) as [ld' [(st & s' & E & Hn & Hst & Hrun & Hw' & Hm & Hr & Hu)|[E _]]].
    + eexists _, _, _. split; [exact E|]. split; [done|].
      destruct (st * 4096 =? 0) eqn:E0; bool_to_prop; [lia|]. rewrite Z.div_mul by lia.
      destruct Hrun as (_ & Hmax & Hf & _).
      apply (holding_grow boot s _ held (seqZ st n)); [done|done|apply NoDup_seqZ| |done|].
      * intros q Hq. apply elem_of_seqZ in Hq. split; [unfold in_range; lia|]. apply Hf. lia.
      * intros q [Hq|Hq]; rewrite Hu; [by rewrite Hq|]. apply elem_of_seqZ in Hq. unfold within.
        destruct (st <=? q) eqn:E1, (q <? st + n) eqn:E2; bool_to_prop; lia.
    + eexists _, _, _. split; [exact E|]. by split.
  - destruct (free_page_run pa c s ld Hwf ltac:(lia)) as (s' & ld' & E & Hf).
    exists 0, s', ld'. split; [by rewrite (bind_Some _ _ _ _ _ E)|]. split; [apply Hf|]. by eapply holding_release.
  - destruct (free_range_run pa n c s ld Hwf ltac:(unfold is_u64; lia) ltac:(unfold is_u64; lia)) as (s' & ld' & E & Hf).
    exists 0, s', ld'. split; [by rewrite (bind_Some _ _ _ _ _ E)|]. split; [apply Hf|].
    apply (holding_release boot s s' (fun q => pa <= q * 4096 < pa + n * 4096)); done.
  - destruct (reserve_page_run pa c s ld Hwf ltac:(lia)) as (s' & ld' & E & Hw & Hr & Hu).
    exists 0, s', ld'. split; [by rewrite (bind_Some _ _ _ _ _ E)|]. split; [done|].
    destruct Hh as (H1 & H2 & H3). split; [done|]. split; [|auto].
    intros q Hq. destruct (H2 q Hq) as (Ha & Hb & Hc). auto.
Qed.

Lemma pmm_history_safe boot ops c s ld held :
  pmm_wf s -> holding boot s held -> Forall op_args_ok ops ->
  exists held' s' ld', pmm_history ops held (c, (s, ld)) = Some (held', (c, (s', ld'))) /\
    pmm_wf s' /\ holding boot s' held'.
Proof.
  intros Hwf Hh Hops. revert s ld held Hwf Hh. induction Hops as [|op ops Hop Hops IH]; intros s ld held Hwf Hh.
  - by exists held, s, ld.
  - cbn [pmm_history]. destruct (pmm_step_safe boot op c s ld held Hwf Hh Hop) as (r & s1 & ld1 & -> & Hw1 & Hh1).
    by apply IH.
Qed.

(** The whole handler of [pmm_init] leaves a well-formed allocator. *)
Lemma pmm_init_run map addr size dsz kb ke bi bisz c s ld :
  registry_lock ld = spin_free ->
  (forall m, map = Some m -> Forall is_u8 m) -> 0 <= addr -> 0 <= size -> 0 <= kb -> 0 <= bi -> 0 <= bisz ->
  exists s' ld', pmm_init map addr size dsz kb ke bi bisz (c, (s, ld)) = Some (tt, (c, (s', ld'))) /\ pmm_wf s'.
Proof.
  intros Hl Hm H1 H2 H3 H4 H5. unfold pmm_init, rix_lockdep_register.
  destruct (bool_decide _ || negb true) eqn:E; [done|].
  rewrite locked_run by done. destruct (register_body _ _ _ _) as [[rc out] ld'].
  eexists _, _. split; [done|]. by apply init_bitmaps_wf.
Qed.

(** ** Properties *)

(** C4: no page is handed out twice. After [pmm_init] on any firmware map, over
    any sequence of allocations (single, bounded, contiguous), frees (of any
    address, owned or not, aligned or not), range frees and reservations, every
    call returns; the pages handed out and not freed since are distinct, in
    range, marked used, and none of them was reserved at boot (low memory, the
    marked parts of kernel image and boot data); and the free, managed and
    reserved counters are exactly the sizes of the corresponding page sets. *)
Theorem pmm_no_double_allocation map addr size dsz kb ke bi bisz c s ld ops
    (Hreg : registry_lock ld = spin_free)
    (Hmap : ∀ m, map = Some m → Forall is_u8 m)
    (Haddr : 0 <= addr) (Hsize : 0 <= size) (Hkb : 0 <= kb) (Hbi : 0 <= bi) (Hbisz : 0 <= bisz)
    (Hops : Forall op_args_ok ops) :
  ∃ s0 ld0, pmm_init map addr size dsz kb ke bi bisz (c, (s, ld)) = Some (tt, (c, (s0, ld0))) ∧
  ∃ held s' ld', pmm_history ops [] (c, (s0, ld0)) = Some (held, (c, (s', ld'))) ∧
    NoDup held ∧
    (∀ q, q ∈ held → in_range q ∧ used s' q = true ∧ reserved s0 q = false) ∧
    free_pages_count s' = countb (free s') pages ∧
    total_pages_count s' = countb (managed s') pages ∧
    reserved_pages_count s' = countb (reserved s') pages.
Proof.
  destruct (pmm_init_run map addr size dsz kb ke bi bisz c s ld) as (s0 & ld0 & E0 & Hw0); [done..|].
  exists s0, ld0. split; [done|].
  assert (Hh : holding s0 s0 []).
  { split; [apply NoDup_nil_2|]. split; [|done]. intros q Hq. by apply not_elem_of_nil in Hq. }
  destruct (pmm_history_safe s0 ops c s0 ld0 [] Hw0 Hh Hops) as (held & s' & ld' & E & Hw & (Hnd & Hin & _)).
  exists held, s', ld'. destruct Hw as ((_ & _ & _ & _ & H5 & H6 & H7) & _).
  exact (conj E (conj Hnd (conj Hin (conj H6 (conj H5 H7))))).
Qed.

(** A firmware map with one usable region of 32 pages at 1 MiB. *)
Definition demo_map : list Z :=
  [7; 0; 0; 0; 0; 0; 0; 0;  0; 0; 16; 0; 0; 0; 0; 0;  0; 0; 0; 0; 0; 0; 0; 0;
   32; 0; 0; 0; 0; 0; 0; 0;  0; 0; 0; 0; 0; 0; 0; 0].

Definition raw_pmm : pmm_t := {|
  page_bitmap := fun _ => 0; managed_bitmap := fun _ => 0; reserved_bitmap := fun _ => 0;
  total_pages_count := 0; free_pages_count := 0; reserved_pages_count := 0; pmm_lock := spin_free;
  pmm_lockdep_class := 0; saved_map := None; saved_map_size := 0; saved_desc_size := 0 |}.

Definition mm_cpu : cpu := {| rflags := 0x202; cpu_pid := 1; cpu_index := 0 |}.

Definition demo_ops : list pmm_op := [OAlloc; OAllocPages 3; OFree 0x100000; OAlloc; OFree 0x1000; OAlloc].

Lemma pmm_no_double_allocation_witness :
  ∃ s0 ld0 held m', pmm_init (Some demo_map) 0x200000 40 40 0 0 0 0 (mm_cpu, (raw_pmm, lockdep_boot))
      = Some (tt, (mm_cpu, (s0, ld0))) ∧
    pmm_history demo_ops [] (mm_cpu, (s0, ld0)) = Some (held, m') ∧ NoDup held ∧ held = [260; 256; 257; 258; 259].
Proof.
  destruct (pmm_no_double_allocation (Some demo_map) 0x200000 40 40 0 0 0 0 mm_cpu raw_pmm lockdep_boot demo_ops)
    as (s0 & ld0 & E0 & held & s' & ld' & E & Hnd & _);
    [reflexivity
    |intros m Em; injection Em as <-; repeat constructor; unfold is_u8; lia
    |lia|lia|lia|lia|lia
    |repeat constructor; cbn; unfold is_u64; lia|].
  exists s0, ld0, held, (mm_cpu, (s', ld')). split; [exact E0|]. split; [exact E|]. split; [exact Hnd|].
  assert (Hrun : (m ← pmm_init (Some demo_map) 0x200000 40 40 0 0 0 0 (mm_cpu, (raw_pmm, lockdep_boot));
                  r ← pmm_history demo_ops [] m.2; Some r.1) = Some [260; 256; 257; 258; 259])
    by (vm_compute; reflexivity).
  rewrite E0 in Hrun. cbn [mbind option_bind snd] in Hrun. rewrite E in Hrun. cbn in Hrun. congruence.
Defined.

(** What the two allocators return. [pmm_alloc_page_below] returns the
    lowest free page whose start is below the bound, or 0 exactly when there is
    none (a bound under one page never has one); [pmm_alloc_pages] returns the
    first run of [n] free pages, or 0 exactly when there is none. Success marks
    exactly the returned pages used; failure changes nothing. *)
Theorem pmm_alloc_first_fit c s ld m n (Hwf : pmm_wf s) (Hm : is_u64 m) (Hn : is_u64 n) :
  ∃ ld' ld'',
  ((∃ p, pmm_alloc_page_below m (c, (s, ld)) = Some (p * 4096, (c, (take_page p s, ld'))) ∧
      0 < p ∧ lowest_free s (below_limit m) p) ∨
   (pmm_alloc_page_below m (c, (s, ld)) = Some (0, (c, (s, ld'))) ∧
      (m < 4096 ∨ ∀ q, 0 <= q <= below_limit m → free s q = false))) ∧
  ((∃ start s', pmm_alloc_pages n (c, (s, ld)) = Some (start * 4096, (c, (s', ld''))) ∧ 0 < start ∧
      lowest_run s n start ∧ ∀ q, used s' q = used s q || within start (start + n) q) ∨
   (pmm_alloc_pages n (c, (s, ld)) = Some (0, (c, (s, ld''))) ∧
      (n = 0 ∨ PMM_MAX_PAGES < n ∨ ∀ st, 0 <= st → st + n <= PMM_MAX_PAGES →
         ∃ p, st <= p < st + n ∧ free s p = false))).
Proof.
  destruct (alloc_below_run m c s ld Hwf ltac:(unfold is_u64 in Hm; lia)) as [ld1 H1].
  destruct (alloc_pages_run n c s ld Hwf ltac:(unfold is_u64 in Hn; lia)) as [ld2 H2].
  exists ld1, ld2. split.
  - destruct H1 as [(p & E & Hp & _ & _ & Hl)|H1]; [left; by exists p|by right].
  - destruct H2 as [(st & s' & E & _ & Hst & Hr & _ & _ & _ & Hu)|H2]; [left; by exists st, s'|by right].
Qed.

(** The state [pmm_init] builds from [demo_map]. *)
Definition demo_pmm : pmm_t := pmm_init_bitmaps (Some demo_map) 0x200000 40 40 0 0 0 0 (pmm_reset raw_pmm 1).

Lemma pmm_alloc_first_fit_witness :
  pmm_wf demo_pmm ∧
  ∃ ld', pmm_alloc_page_below 0x180000 (mm_cpu, (demo_pmm, lockdep_boot))
         = Some (256 * 4096, (mm_cpu, (take_page 256 demo_pmm, ld'))).
Proof.
  assert (Hwf : pmm_wf demo_pmm).
  { apply init_bitmaps_wf; try lia. intros m Em. injection Em as <-. repeat constructor; unfold is_u8; lia. }
  split; [exact Hwf|].
  destruct (pmm_alloc_first_fit mm_cpu demo_pmm lockdep_boot 0x180000 1 Hwf ltac:(unfold is_u64; lia) ltac:(unfold is_u64; lia))
    as (ld' & ld'' & [(p & E & _)|(E & _)] & _).
  - exists ld'. assert (Hp : option_map fst (pmm_alloc_page_below 0x180000 (mm_cpu, (demo_pmm, lockdep_boot))) = Some (256 * 4096))
      by (vm_compute; reflexivity).
    rewrite E in Hp. cbn [option_map fst] in Hp. injection Hp as Hp. assert (p = 256) as -> by lia. exact E.
  - exfalso. assert (Hp : option_map fst (pmm_alloc_page_below 0x180000 (mm_cpu, (demo_pmm, lockdep_boot))) = Some (256 * 4096))
      by (vm_compute; reflexivity).
    rewrite E in Hp. discriminate Hp.
Defined.

(** Boot data that does not start on a page boundary is not protected.
    [mark_byte_range] counts the pages from the start of the first partial page
    but [mark_range] rounds the base up, so the page the data starts in is left
    free (and one page past the end is reserved instead): with boot data at
    0x100800 the first allocation returns the page that holds it. *)
Theorem unaligned_boot_data_allocatable :
  let s := pmm_init_bitmaps (Some demo_map) 0x200000 40 40 0 0 0x100800 0x100 (pmm_reset raw_pmm 1) in
  reserved s (0x100800 / 4096) = false ∧ reserved s (0x100800 / 4096 + 1) = true ∧
  option_map fst (pmm_alloc_page (mm_cpu, (s, lockdep_boot))) = Some 0x100000.
Proof. vm_compute. done. Qed.
