(* ===== verification/Heap.v ===== *)
(** * Kernel heap ([kernel/mm/heap.h], [kernel/mm/heap.c])

    A bump allocator over pages of the physical allocator with a table of 256
    block records. Its theorems are proved against [PageAlloc], what the heap
    relies on of the page allocator; [Pmm] discharges it. *)
From stdpp Require Import base tactics list numbers strings.
From S2P Require Import Prelude Lock Lockdep Pmm.

(** ** What the heap needs of the page allocator *)

(** [busy s a]: the page at address [a] is handed out. [pa_ok inside s] is the
    allocator's invariant outside or inside the heap's lock-order section; the
    heap enters it with [pa_acquire k] for a class [k] the allocator is ready
    for, on a CPU it is ready for, and calls the allocator only inside. *)
Class PageAlloc (P : Type) := {
  pa_alloc : M (cpu * P) Z;
  pa_free : Z -> M (cpu * P) unit;
  pa_acquire : Z -> M (cpu * P) Z;
  pa_release : Z -> M (cpu * P) Z;
  pa_ok : bool -> P -> Prop;
  pa_class : Z -> Prop;
  pa_cpu : cpu -> Prop;
  busy : P -> Z -> bool;
  pa_cpu_flags : forall c f, pa_cpu c -> pa_cpu (set_rflags f c);
  pa_alloc_law : forall c s, pa_cpu c -> pa_ok true s ->
    exists r s', pa_alloc (c, s) = Some (r, (c, s')) /\ pa_ok true s' /\
      (forall a, busy s a = true -> busy s' a = true) /\
      (r = 0 \/ 0 < r /\ r + 8192 <= 2 ^ 64 /\ r mod 4096 = 0 /\ busy s r = false /\ busy s' r = true);
  pa_free_law : forall c s a, pa_cpu c -> pa_ok true s -> 0 <= a ->
    exists s', pa_free a (c, s) = Some (tt, (c, s')) /\ pa_ok true s' /\
      (forall b, b <> a -> busy s b = true -> busy s' b = true);
  pa_acquire_law : forall c s k, pa_cpu c -> pa_class k -> pa_ok false s ->
    exists r s', pa_acquire k (c, s) = Some (r, (c, s')) /\ pa_ok true s' /\ forall a, busy s' a = busy s a;
  pa_release_law : forall c s k, pa_cpu c -> pa_class k -> pa_ok true s ->
    exists r s', pa_release k (c, s) = Some (r, (c, s')) /\ pa_ok false s' /\ forall a, busy s' a = busy s a;
}.

Definition pmm_busy (s : pmm_t * lockdep_t) (a : Z) : bool := (a mod 4096 =? 0) && used s.1 (a / 4096).

Lemma pmm_alloc_law c s ld :
  pmm_wf s ->
  exists r s' ld', pmm_alloc_page (c, (s, ld)) = Some (r, (c, (s', ld'))) /\ pmm_wf s' /\
    (forall a, pmm_busy (s, ld) a = true -> pmm_busy (s', ld') a = true) /\
    (r = 0 \/ 0 < r /\ r + 8192 <= 2 ^ 64 /\ r mod 4096 = 0 /\ pmm_busy (s, ld) r = false /\ pmm_busy (s', ld') r = true).
Proof.
  intros Hwf. unfold pmm_busy. cbn [fst].
  destruct (alloc_below_run PMM_MAX_PHYS c s ld Hwf ltac:(unfold PMM_MAX_PHYS, RIXURI_MAX_PHYS_BYTES; lia))
    as [ld' [(p & E & Hp & Hr & _ & (_ & Hf & _))|[E _]]].
  - eexists _, _, _. split; [exact E|]. split; [by apply take_page_wf|]. split.
    + intros a Ha. bool_to_prop. apply andb_true_iff. split; [by apply Z.eqb_eq|].
      unfold used. cbn. rewrite test_set. unfold used in *. cbn in *. by apply orb_true_iff; left.
    + right. unfold in_range in Hr. rewrite max_pages_val in Hr. rewrite Z.mod_mul, Z.div_mul by lia.
      unfold free in Hf. bool_to_prop. split; [lia|]. split; [lia|]. split; [done|].
      split; [apply andb_false_iff; by right|]. cbn. unfold used. cbn. rewrite test_set, Z.eqb_refl. apply orb_true_r.
  - eexists _, _, _. split; [exact E|]. split; [done|]. split; [done|]. by left.
Qed.

Lemma pmm_free_law c s ld a :
  pmm_wf s -> 0 <= a ->
  exists s' ld', pmm_free_page a (c, (s, ld)) = Some (tt, (c, (s', ld'))) /\ pmm_wf s' /\
    (forall b, b <> a -> pmm_busy (s, ld) b = true -> pmm_busy (s', ld') b = true).
Proof.
  intros Hwf Ha. destruct (free_page_run a c s ld Hwf Ha) as (s' & ld' & E & Hw & _ & Hu).
  eexists _, _. split; [exact E|]. split; [done|]. unfold pmm_busy. intros b Hb Hbu. bool_to_prop. apply andb_true_iff.
  split; [by apply Z.eqb_eq|]. apply Hu; [done|]. intros E'. apply Hb. rewrite <- E'.
  rewrite (Z.div_mod b 4096) at 1 by lia. lia.
Qed.

(** The kernel's page allocator, whatever the lock-order checker reports. *)
#[global] Program Instance pmm_page_alloc : PageAlloc (pmm_t * lockdep_t) := {|
  pa_alloc := pmm_alloc_page;
  pa_free := pmm_free_page;
  pa_acquire k := on_ld (rix_lockdep_acquire k);
  pa_release k := on_ld (rix_lockdep_release k);
  pa_ok _ s := pmm_wf s.1;
  pa_class _ := True;
  pa_cpu _ := True;
  busy := pmm_busy;
|}.
Next Obligation. done. Qed.
Next Obligation.
  intros c [s ld] _ Hwf. destruct (pmm_alloc_law c s ld Hwf) as (r & s' & ld' & E & H). by exists r, (s', ld').
Qed.
Next Obligation.
  intros c [s ld] a _ Hwf Ha. destruct (pmm_free_law c s ld a Hwf Ha) as (s' & ld' & E & H). by exists (s', ld').
Qed.
Next Obligation.
  intros c [s ld] k _ _ Hwf. destruct (ld_acquired_run k c ld) as [rc E].
  eexists rc, (s, _). split; [unfold on_ld; by rewrite E|]. by split.
Qed.
Next Obligation.
  intros c [s ld] k _ _ Hwf. destruct (ld_released_run k c ld) as [rc E].
  eexists rc, (s, _). split; [unfold on_ld; by rewrite E|]. by split.
Qed.

(** ** The heap *)

Definition HEAP_PAGE_SIZE : Z := 4096.
Definition HEAP_MAX_ALIGNMENT : Z := 4096.
Definition HEAP_MAX_ALLOCS : Z := 256.
Definition HEAP_MIN_SPLIT : Z := 16.

Record heap_allocation_t := { page : Z; ptr : Z; size : Z; active : Z }.

Record heap_t := {
  current_page : Z; current_offset : Z; allocations : list heap_allocation_t;
  heap_lock : rix_spinlock_t; heap_lockdep_class : Z }.

Definition empty_record : heap_allocation_t := {| page := 0; ptr := 0; size := 0; active := 0 |}.

Definition align_ptr (value alignment : Z) : Z :=
  let mask := u64 (alignment - 1) in
  if UINT64_MAX - mask <? value then UINT64_MAX else Z.land (u64 (value + mask)) (not64 mask).

(** First record that satisfies [f]: the search loops of the file. *)
Fixpoint find_record (f : heap_allocation_t -> bool) (l : list heap_allocation_t) : option nat :=
  match l with
  | [] => None
  | r :: l => if f r then Some O else S <$> find_record f l
  end.

Definition page_has_live_allocations (l : list heap_allocation_t) (pg : Z) : bool :=
  match find_record (fun r => truthy (active r) && (page r =? pg)) l with Some _ => true | None => false end.

Definition find_empty_record (l : list heap_allocation_t) : option nat :=
  find_record (fun r => negb (truthy (active r)) && (ptr r =? 0)) l.

(** The conditions under which the loop of [find_free_block] stops at a record. *)
Definition block_fits (sz alignment : Z) (r : heap_allocation_t) : bool :=
  if truthy (active r) || (ptr r =? 0) then false
  else
    let aligned := align_ptr (ptr r) alignment in
    if (aligned =? UINT64_MAX) || negb (aligned =? ptr r) then false
    else if (u64 (aligned + sz) <? aligned) || (u64 (ptr r + size r) <? u64 (aligned + sz)) then false
    else true.

Definition find_free_block (l : list heap_allocation_t) (sz alignment : Z) : option nat :=
  find_record (block_fits sz alignment) l.

Definition rec_at (l : list heap_allocation_t) (i : nat) : heap_allocation_t := default empty_record (l !! i).

Definition set_allocations (l : list heap_allocation_t) (h : heap_t) : heap_t :=
  {| current_page := current_page h; current_offset := current_offset h; allocations := l;
     heap_lock := heap_lock h; heap_lockdep_class := heap_lockdep_class h |}.
Definition set_current (pg off : Z) (h : heap_t) : heap_t :=
  {| current_page := pg; current_offset := off; allocations := allocations h;
     heap_lock := heap_lock h; heap_lockdep_class := heap_lockdep_class h |}.

Section Heap.
Context {P : Type} {PA : PageAlloc P}.

#[global] Program Instance heap_guard : HasGuard (heap_t * P) := {|
  guard s := heap_lock s.1;
  with_guard l s := ({| current_page := current_page s.1; current_offset := current_offset s.1;
    allocations := allocations s.1; heap_lock := l; heap_lockdep_class := heap_lockdep_class s.1 |}, s.2);
|}.
Next Obligation. done. Qed.
Next Obligation. by intros [[] ]. Qed.
Next Obligation. done. Qed.

(** A page-allocator call from the heap. *)
Definition on_pages {A} (m : M (cpu * P) A) : M (cpu * (heap_t * P)) A := fun '(c, (h, s)) =>
  match m (c, s) with
  | Some (a, (c', s')) => Some (a, (c', (h, s')))
  | None => None
  end.
Definition with_heap (f : heap_t -> heap_t) : M (cpu * (heap_t * P)) unit :=
  modify (fun '(c, (h, s)) => (c, (f h, s))).
Definition heap_get {A} (f : heap_t -> A) : M (cpu * (heap_t * P)) A := gets (fun '(_, (h, _)) => f h).

Definition heap_section {R} (body : M (cpu * (heap_t * P)) R) : M (cpu * (heap_t * P)) R :=
  locked_section (
    k ← heap_get heap_lockdep_class;
    _ ← on_pages (pa_acquire k);
    r ← body;
    _ ← on_pages (pa_release k);
    mret r).

(** The reuse path: take free block [i], splitting off a tail of 16 bytes or
    more when a record is left for it. *)
Definition reuse_block (i : nat) (sz : Z) (l : list heap_allocation_t) : Z * list heap_allocation_t :=
  let block := rec_at l i in
  let reuse_at := ptr block in
  let tail := u64 (u64 (ptr block + size block) - u64 (reuse_at + sz)) in
  let l := if HEAP_MIN_SPLIT <=? tail then
             match find_empty_record l with
             | Some j => <[j := {| page := page block; ptr := u64 (reuse_at + sz); size := tail; active := 0 |}]> l
             | None => l
             end
           else l in
  (reuse_at, <[i := {| page := page block; ptr := reuse_at; size := sz; active := 1 |}]> l).

(** Does a block of [sz] bytes at [aligned] fit the page at [base]? *)
Definition misfit (aligned sz base : Z) : bool :=
  (aligned =? UINT64_MAX) || (u64 (aligned + sz) <? aligned) || (u64 (base + HEAP_PAGE_SIZE) <? u64 (aligned + sz)).

(** Recording a bump allocation at [aligned] in the current page. *)
Definition bump_commit (i : nat) (sz aligned : Z) (h : heap_t) : heap_t :=
  {| current_page := current_page h; current_offset := u64 (u64 (aligned + sz) - current_page h);
     allocations := <[i := {| page := current_page h; ptr := aligned; size := sz; active := 1 |}]> (allocations h);
     heap_lock := heap_lock h; heap_lockdep_class := heap_lockdep_class h |}.

Definition bump_alloc (i : nat) (sz alignment : Z) : M (cpu * (heap_t * P)) Z :=
  base ← heap_get current_page;
  off ← heap_get current_offset;
  let aligned := align_ptr (u64 (base + off)) alignment in
  if (base =? 0) || misfit aligned sz base then
    phys ← on_pages pa_alloc;
    if phys =? 0 then mret 0
    else
      _ ← with_heap (set_current phys 0);
      let aligned := align_ptr phys alignment in
      if misfit aligned sz phys then
        _ ← on_pages (pa_free phys);
        _ ← with_heap (set_current 0 0);
        mret 0
      else
        _ ← with_heap (bump_commit i sz aligned); mret aligned
  else
    _ ← with_heap (bump_commit i sz aligned); mret aligned.

Definition kmalloc_body (sz alignment : Z) : M (cpu * (heap_t * P)) Z :=
  l ← heap_get allocations;
  match find_free_block l sz alignment with
  | Some i =>
      let '(r, l') := reuse_block i sz l in
      _ ← with_heap (set_allocations l'); mret r
  | None =>
      match find_empty_record l with
      | None => mret 0
      | Some i => bump_alloc i sz alignment
      end
  end.

Definition kmalloc (sz alignment : Z) : M (cpu * (heap_t * P)) Z :=
  if sz =? 0 then mret 0
  else
    let alignment := if alignment =? 0 then 8 else alignment in
    if negb (Z.land alignment (alignment - 1) =? 0) || (HEAP_MAX_ALIGNMENT <? alignment) then mret 0
    else heap_section (kmalloc_body sz alignment).

(** Every record of a page that has gone back. *)
Definition drop_page (pg : Z) (l : list heap_allocation_t) : list heap_allocation_t :=
  (fun r => if page r =? pg then empty_record else r) <$> l.

Definition kfree_body (address : Z) : M (cpu * (heap_t * P)) unit :=
  l ← heap_get allocations;
  match find_record (fun r => truthy (active r) && (ptr r =? address)) l with
  | None => mret tt
  | Some i =>
      let r := rec_at l i in
      let pg := page r in
      let l' := <[i := {| page := pg; ptr := ptr r; size := size r; active := 0 |}]> l in
      _ ← with_heap (set_allocations l');
      if page_has_live_allocations l' pg then mret tt
      else
        _ ← on_pages (pa_free pg);
        _ ← with_heap (fun h => if current_page h =? pg then set_current 0 0 h else h);
        with_heap (fun h => set_allocations (drop_page pg (allocations h)) h)
  end.

Definition kfree (address : Z) : M (cpu * (heap_t * P)) unit :=
  if address =? 0 then mret tt else heap_section (kfree_body address).
End Heap.

(** [heap_init] on the kernel's own page allocator state. *)
Definition heap_init : M (cpu * (heap_t * (pmm_t * lockdep_t))) unit := fun '(c, (h, (s, ld))) =>
  match rix_lockdep_register (Some "heap"%string) 20 true (c, ld) with
  | Some ((_, out), (c', ld')) =>
      Some (tt, (c', ({| current_page := 0; current_offset := 0; allocations := replicate 256 empty_record;
                         heap_lock := default (heap_lock h) (rix_spin_init (Some (heap_lock h)));
                         heap_lockdep_class := default (heap_lockdep_class h) out |}, (s, ld'))))
  | None => None
  end.

(** ** Invariant *)

Definition empty_rec (r : heap_allocation_t) : Prop := ptr r = 0 /\ page r = 0 /\ active r = 0.

(** A page the heap may cut blocks from. *)
Definition heap_page (B : Z -> bool) (pg : Z) : Prop :=
  0 < pg /\ pg + 8192 <= 2 ^ 64 /\ pg mod 4096 = 0 /\ B pg = true.

(** A live or reusable block lies inside one page the heap holds. *)
Definition block_rec (B : Z -> bool) (r : heap_allocation_t) : Prop :=
  heap_page B (page r) /\ page r <= ptr r /\ 0 < size r /\ ptr r + size r <= page r + 4096.

Definition rec_ok (B : Z -> bool) (r : heap_allocation_t) : Prop := empty_rec r \/ block_rec B r.

Definition apart (r r' : heap_allocation_t) : Prop :=
  ptr r + size r <= ptr r' \/ ptr r' + size r' <= ptr r.

Definition disjoint_recs (l : list heap_allocation_t) : Prop :=
  forall i j r r', i <> j -> l !! i = Some r -> l !! j = Some r' -> ptr r <> 0 -> ptr r' <> 0 -> apart r r'.

(** Blocks of the current page end below the bump offset. *)
Definition bump_ok (B : Z -> bool) (pg off : Z) (l : list heap_allocation_t) : Prop :=
  pg = 0 \/ (heap_page B pg /\ 0 <= off <= 4096 /\
             forall i r, l !! i = Some r -> ptr r <> 0 -> page r = pg -> ptr r + size r <= pg + off).

Definition recs_wf (B : Z -> bool) (pg off : Z) (l : list heap_allocation_t) : Prop :=
  Forall (rec_ok B) l /\ disjoint_recs l /\ bump_ok B pg off l.

Definition core_wf (B : Z -> bool) (h : heap_t) : Prop :=
  recs_wf B (current_page h) (current_offset h) (allocations h).

Definition heap_wf (B : Z -> bool) (h : heap_t) : Prop := core_wf B h /\ heap_lock h = spin_free.

(** ** Alignment *)

Definition is_alignment (a : Z) : Prop := exists k, 0 <= k <= 12 /\ a = 2 ^ k.

Lemma alignment_check a :
  0 < a -> negb (Z.land a (a - 1) =? 0) || (HEAP_MAX_ALIGNMENT <? a) = false -> is_alignment a.
Proof.
  intros Ha H. bool_to_prop. unfold HEAP_MAX_ALIGNMENT in *.
  destruct (decide (a = 2 ^ Z.log2 a)) as [E|Hne].
  - exists (Z.log2 a). split; [|done]. split; [apply Z.log2_nonneg|].
    apply Z.lt_succ_r. change (Z.succ 12) with 13. apply Z.log2_lt_pow2; lia.
  - exfalso. pose proof (Z.log2_spec a Ha) as [H1 H2]. pose proof (Z.log2_nonneg a) as H3.
    assert (Hb : Z.testbit (Z.land a (a - 1)) (Z.log2 a) = true).
    { rewrite Z.land_spec, Z.bit_log2 by lia. cbn.
      assert (Hl : Z.log2 (a - 1) = Z.log2 a) by (apply Z.log2_unique; lia).
      rewrite <- Hl. apply Z.bit_log2. pose proof (Z.pow_pos_nonneg 2 (Z.log2 a)). lia. }
    replace (Z.land a (a - 1)) with 0 in Hb by done. by rewrite Z.bits_0 in Hb.
Qed.

Lemma alignment_bounds a : is_alignment a -> 1 <= a <= 4096.
Proof.
  intros (k & Hk & ->). split; [pose proof (Z.pow_pos_nonneg 2 k); lia|].
  change 4096 with (2 ^ 12). apply Z.pow_le_mono_r; lia.
Qed.

Lemma align_ptr_spec v a :
  is_alignment a -> 0 <= v -> v + 4096 <= 2 ^ 64 ->
  v <= align_ptr v a < v + a /\ align_ptr v a mod a = 0.
Proof.
  intros Hal Hv Hb. pose proof (alignment_bounds a Hal). destruct Hal as (k & Hk & ->).
  unfold align_ptr. rewrite u64_id by (unfold is_u64; lia). unfold UINT64_MAX. case_if; [lia|].
  rewrite u64_id by (unfold is_u64; lia). rewrite land_not64_low by lia.
  pose proof (Z.div_mod (v + (2 ^ k - 1)) (2 ^ k) ltac:(lia)).
  pose proof (Z.mod_pos_bound (v + (2 ^ k - 1)) (2 ^ k) ltac:(lia)).
  split; [lia|]. apply Z.mod_mul. lia.
Qed.

Lemma u64_add_nowrap x y z : 0 <= x < 2 ^ 64 -> 0 <= y < 2 ^ 64 -> x <= u64 (x + y) -> u64 (x + y) <= z -> x + y <= z.
Proof.
  intros Hx Hy H1 H2. unfold u64 in *. destruct (Z.lt_ge_cases (x + y) (2 ^ 64)).
  - rewrite Z.mod_small in *; lia.
  - exfalso. assert ((x + y) mod 2 ^ 64 = x + y - 2 ^ 64) as E; [|lia].
    symmetry. apply Z.mod_unique_pos with 1; lia.
Qed.

Lemma misfit_false al sz base :
  0 <= al < 2 ^ 64 -> 0 <= sz < 2 ^ 64 -> 0 <= base -> base + 8192 <= 2 ^ 64 ->
  misfit al sz base = false -> al + sz <= base + 4096.
Proof.
  intros Ha Hs Hb Hb' H. unfold misfit, HEAP_PAGE_SIZE in H. bool_to_prop.
  rewrite (u64_id (base + 4096)) in * by (unfold is_u64; lia). by apply u64_add_nowrap.
Qed.

(** ** Records *)

Lemma find_record_spec f l i : find_record f l = Some i -> exists r, l !! i = Some r /\ f r = true.
Proof.
  revert i. induction l as [|r l IH]; intros i H; cbn in H; [done|].
  destruct (f r) eqn:E; [injection H as <-; by exists r|].
  destruct (find_record f l) as [j|] eqn:Ej; [|done]. injection H as <-. by apply IH.
Qed.

Lemma find_record_none f l i r : find_record f l = None -> l !! i = Some r -> f r = false.
Proof.
  revert i. induction l as [|r' l IH]; intros i H Hi; cbn in H; [done|].
  destruct (f r') eqn:E; [done|]. destruct (find_record f l) eqn:Ej; [done|].
  destruct i as [|i]; cbn in Hi; [by injection Hi as <-|]. by apply (IH i).
Qed.

Lemma disjoint_insert l i r :
  disjoint_recs l -> (forall j r', j <> i -> l !! j = Some r' -> ptr r' <> 0 -> ptr r <> 0 -> apart r r') ->
  disjoint_recs (<[i := r]> l).
Proof.
  intros Hd Hr a b ra rb Hab Ha Hb Hpa Hpb.
  apply list_lookup_insert_Some in Ha as [(-> & <- & _)|[Hne Ha]];
    apply list_lookup_insert_Some in Hb as [(-> & <- & _)|[Hne' Hb]]; try done.
  - apply (Hr b rb); auto.
  - destruct (Hr a ra ltac:(auto) Ha Hpa Hpb); [by right|by left].
  - by apply (Hd a b).
Qed.

Lemma other_page_apart B r r' :
  block_rec B r -> block_rec B r' -> page r <> page r' -> apart r r'.
Proof.
  intros ((H1 & _ & H2 & _) & H3 & H4 & H5) ((H1' & _ & H2' & _) & H3' & H4' & H5') Hne. unfold apart.
  pose proof (Z.div_mod (page r) 4096 ltac:(lia)). pose proof (Z.div_mod (page r') 4096 ltac:(lia)).
  assert (page r / 4096 <> page r' / 4096) by lia. lia.
Qed.

Lemma block_of_ptr B r : rec_ok B r -> ptr r <> 0 -> block_rec B r.
Proof. intros [(H & _)|H] Hp; [done|exact H]. Qed.

Lemma rec_ok_mono B B' r : (page r <> 0 -> B (page r) = true -> B' (page r) = true) -> rec_ok B r -> rec_ok B' r.
Proof.
  intros H [He|((H1 & H2 & H3 & H4) & Hr)]; [by left|]. right. split; [|done].
  repeat split; try done. apply H; [lia|done].
Qed.

(** The blocks the callers hold. *)
Definition live_of (r : heap_allocation_t) : option (Z * Z) :=
  if truthy (active r) then Some (ptr r, size r) else None.
Definition live_blocks (h : heap_t) : list (Z * Z) := omap live_of (allocations h).

Lemma omap_head {A C} (f : A -> option C) (x : A) (l : list A) :
  omap f (x :: l) = match f x with Some y => y :: omap f l | None => omap f l end.
Proof. reflexivity. Qed.

Lemma omap_insert_add {A C} (f : A -> option C) (l : list A) (i : nat) x y b :
  l !! i = Some x -> f x = None -> f y = Some b -> omap f (<[i := y]> l) ≡ₚ b :: omap f l.
Proof.
  revert i. induction l as [|z l IH]; intros i Hi Hx Hy; [done|]. destruct i as [|i]; cbn in Hi.
  - injection Hi as ->. cbn [insert list_insert]. by rewrite !omap_head, Hx, Hy.
  - change (<[S i := y]> (z :: l)) with (z :: <[i := y]> l). rewrite !omap_head.
    destruct (f z); rewrite (IH i) by done; [apply Permutation_swap|done].
Qed.

Lemma omap_insert_remove {A C} (f : A -> option C) (l : list A) (i : nat) x y b :
  l !! i = Some x -> f x = Some b -> f y = None -> omap f l ≡ₚ b :: omap f (<[i := y]> l).
Proof.
  revert i. induction l as [|z l IH]; intros i Hi Hx Hy; [done|]. destruct i as [|i]; cbn in Hi.
  - injection Hi as ->. cbn [insert list_insert]. by rewrite !omap_head, Hx, Hy.
  - change (<[S i := y]> (z :: l)) with (z :: <[i := y]> l). rewrite !omap_head.
    destruct (f z); rewrite (IH i) by done; [apply Permutation_swap|done].
Qed.

Lemma omap_insert_same {A C} (f : A -> option C) (l : list A) (i : nat) x y :
  l !! i = Some x -> f x = f y -> omap f (<[i := y]> l) = omap f l.
Proof.
  revert i. induction l as [|z l IH]; intros i Hi Hxy; [done|]. destruct i as [|i]; cbn in Hi.
  - injection Hi as ->. cbn [insert list_insert]. by rewrite !omap_head, Hxy.
  - change (<[S i := y]> (z :: l)) with (z :: <[i := y]> l). by rewrite !omap_head, (IH i).
Qed.

Lemma recs_insert B pg off l i r :
  recs_wf B pg off l -> block_rec B r ->
  (forall j r', j <> i -> l !! j = Some r' -> ptr r' <> 0 -> apart r r') ->
  (page r = pg -> ptr r + size r <= pg + off) -> recs_wf B pg off (<[i := r]> l).
Proof.
  intros (Hok & Hd & Hb) Hr Hap Hoff. split; [by apply Forall_insert; [|right]|]. split.
  - apply disjoint_insert; [done|]. intros j r' Hj Hl Hp _. by eapply Hap.
  - destruct Hb as [->|(Hpg & Ho & Hall)]; [by left|]. right. split; [done|]. split; [done|].
    intros k rk Hk Hp Hpage. apply list_lookup_insert_Some in Hk as [(-> & <- & _)|[_ Hk]]; [by apply Hoff|].
    by eapply Hall.
Qed.

(** A block cut down keeps its distance from the others. *)
Lemma inside_apart blk r r' :
  ptr blk <= ptr r -> ptr r + size r <= ptr blk + size blk -> apart blk r' -> apart r r'.
Proof. unfold apart. lia. Qed.

Lemma recs_bump_bound B pg off l i r :
  recs_wf B pg off l -> pg <> 0 -> l !! i = Some r -> ptr r <> 0 -> page r = pg -> ptr r + size r <= pg + off.
Proof. intros (_ & _ & [->|(_ & _ & H)]) Hpg Hi Hp He; [done|]. by eapply H. Qed.

(** ** kmalloc *)

Section Proofs.
Context {P : Type} {PA : PageAlloc P}.

Lemma reuse_spec B h i sz al :
  core_wf B h -> is_alignment al -> 0 < sz < 2 ^ 64 -> find_free_block (allocations h) sz al = Some i ->
  let '(r, l') := reuse_block i sz (allocations h) in
  core_wf B (set_allocations l' h) /\ 0 < r /\ r mod al = 0 /\
  omap live_of l' ≡ₚ (r, sz) :: live_blocks h.
Proof.
  intros Hw Hal Hsz Hfind. pose proof Hw as (Hok & Hd & Hbump).
  destruct (find_record_spec _ _ _ Hfind) as (blk & Hi & Hfit). clear Hfind.
  unfold reuse_block, rec_at. rewrite Hi. change (default empty_record (Some blk)) with blk. cbv zeta.
  unfold block_fits in Hfit.
  destruct (truthy (active blk) || (ptr blk =? 0)) eqn:E0; [done|].
  destruct ((align_ptr (ptr blk) al =? UINT64_MAX) || _) eqn:E1; [done|].
  destruct ((u64 (align_ptr (ptr blk) al + sz) <? _) || _) eqn:E2; [done|]. clear Hfit.
  apply orb_false_iff in E0 as [Eact Eptr], E1 as [_ Eal], E2 as [Ew Efit]. bool_to_prop.
  rewrite Eal in *.
  assert (Hblk : block_rec B blk) by (eapply block_of_ptr; [by eapply Forall_lookup_1|done]).
  pose proof Hblk as ((Hp1 & Hp2 & Hp3 & HB) & Hin & Hs & Hend). change (2 ^ 64) with 18446744073709551616 in *.
  assert (Hu1 : u64 (ptr blk + size blk) = ptr blk + size blk) by (apply u64_id; unfold is_u64; lia).
  assert (Hle : ptr blk + sz <= ptr blk + size blk).
  { apply (u64_add_nowrap _ _ _); try lia. }
  assert (Hu2 : u64 (ptr blk + sz) = ptr blk + sz) by (apply u64_id; unfold is_u64; lia).
  rewrite Hu1, Hu2. rewrite u64_id by (unfold is_u64; lia).
  pose proof (align_ptr_spec (ptr blk) al Hal ltac:(lia) ltac:(lia)) as [_ Hmod]. rewrite Eal in Hmod.
  set (tl := ptr blk + size blk - (ptr blk + sz)).
  set (new := {| page := page blk; ptr := ptr blk; size := sz; active := 1 |}).
  assert (Hnew : block_rec B new) by (split; [done|]; cbn; lia).
  assert (Hbound : page blk = current_page h -> ptr blk + size blk <= current_page h + current_offset h).
  { intros E. eapply recs_bump_bound; [exact Hw|lia|exact Hi|lia|done]. }
  assert (Hcut : recs_wf B (current_page h) (current_offset h) (<[i := new]> (allocations h))).
  { apply recs_insert; [done|done| |].
    - intros j r' Hj Hlj Hp. apply (inside_apart blk); cbn; [lia|lia|]. eapply (Hd i j); eauto. 
    - cbn. intros E. specialize (Hbound E). lia. }
  assert (Hlive : omap live_of (<[i := new]> (allocations h)) ≡ₚ (ptr blk, sz) :: live_blocks h).
  { eapply omap_insert_add; [exact Hi| |done]. unfold live_of. by rewrite Eact. }
  assert (Hdone : forall l', recs_wf B (current_page h) (current_offset h) l' ->
    omap live_of l' = omap live_of (<[i := new]> (allocations h)) ->
    core_wf B (set_allocations l' h) /\ 0 < ptr blk /\ ptr blk mod al = 0 /\ omap live_of l' ≡ₚ (ptr blk, sz) :: live_blocks h).
  { intros l' Hl' ->. split; [exact Hl'|]. split; [lia|]. done. }
  destruct (HEAP_MIN_SPLIT <=? tl) eqn:Esp; bool_to_prop; [|by apply Hdone]. unfold HEAP_MIN_SPLIT in Esp.
  destruct (find_empty_record (allocations h)) as [j|] eqn:Ej; [|by apply Hdone].
  destruct (find_record_spec _ _ _ Ej) as (rj & Hj & Hjf). apply andb_true_iff in Hjf as [Hja Hjp]. bool_to_prop.
  assert (Hij : i <> j) by (intros ->; congruence).
  rewrite list_insert_insert_ne by done. apply Hdone.
  - apply recs_insert; [done|split; [done|cbn; lia]| |cbn; intros E; specialize (Hbound E); lia].
    intros k rk Hk Hlk Hp. apply list_lookup_insert_Some in Hlk as [(-> & <- & _)|[Hne Hlk]].
    + right. cbn. lia.
    + apply (inside_apart blk); cbn; [lia|lia|]. eapply (Hd i k); eauto.
  - eapply omap_insert_same; [rewrite list_lookup_insert_ne by done; exact Hj|]. unfold live_of. by rewrite Hja.
Qed.

(** Recording a fresh block above everything else in the current page. *)
Lemma commit_spec B h i r0 sz aligned :
  Forall (rec_ok B) (allocations h) -> disjoint_recs (allocations h) -> heap_page B (current_page h) ->
  (forall j r, allocations h !! j = Some r -> ptr r <> 0 -> page r = current_page h -> ptr r + size r <= aligned) ->
  current_page h <= aligned -> 0 < sz -> aligned + sz <= current_page h + 4096 ->
  allocations h !! i = Some r0 -> truthy (active r0) = false -> ptr r0 = 0 ->
  core_wf B (bump_commit i sz aligned h) /\ live_blocks (bump_commit i sz aligned h) ≡ₚ (aligned, sz) :: live_blocks h.
Proof.
  intros Hok Hd Hpg Hlow Hal Hsz Hend Hi Ha0 Hp0. pose proof Hpg as (Hp1 & Hp2 & Hp3 & HB).
  assert (Hoff : u64 (u64 (aligned + sz) - current_page h) = aligned + sz - current_page h).
  { rewrite (u64_id (aligned + sz)) by (unfold is_u64; lia). apply u64_id. unfold is_u64. lia. }
  set (new := {| page := current_page h; ptr := aligned; size := sz; active := 1 |}).
  assert (Hnew : block_rec B new) by (split; [done|]; cbn; lia).
  split; [|eapply omap_insert_add; [exact Hi| |done]; unfold live_of; by rewrite Ha0].
  unfold core_wf. cbn. rewrite Hoff. fold new.
  apply recs_insert; [|done| |cbn; lia].
  - split; [done|]. split; [done|]. right. split; [done|]. split; [lia|].
    intros j r Hj Hp He. specialize (Hlow j r Hj Hp He). lia.
  - intros j r Hj Hlj Hp. destruct (decide (page r = current_page h)) as [E|Hne].
    + right. by apply (Hlow j r).
    + apply (other_page_apart B); [done| |done]. eapply block_of_ptr; [by eapply Forall_lookup_1|done].
Qed.

Definition malloc_post (sz al : Z) (h h' : heap_t) (r : Z) : Prop :=
  heap_lock h' = heap_lock h /\ heap_lockdep_class h' = heap_lockdep_class h /\
  ((r = 0 /\ live_blocks h' = live_blocks h) \/
   (0 < r /\ r mod al = 0 /\ live_blocks h' ≡ₚ (r, sz) :: live_blocks h)).

Lemma core_wf_mono B B' h : core_wf B h -> (forall a, B a = true -> B' a = true) -> core_wf B' h.
Proof.
  intros (H1 & H2 & H3) HB. split; [|split; [done|]].
  - eapply Forall_impl; [exact H1|]. intros r. apply rec_ok_mono. auto.
  - destruct H3 as [->|((Hp1 & Hp2 & Hp3 & Hp4) & Ho)]; [by left|]. right. split; [|done]. repeat split; auto.
Qed.

Lemma bump_spec c h s i r0 sz al :
  pa_cpu c -> pa_ok true s -> core_wf (busy s) h -> is_alignment al -> 0 < sz < 2 ^ 64 ->
  allocations h !! i = Some r0 -> truthy (active r0) = false -> ptr r0 = 0 ->
  exists r h' s', bump_alloc i sz al (c, (h, s)) = Some (r, (c, (h', s'))) /\
    pa_ok true s' /\ core_wf (busy s') h' /\ malloc_post sz al h h' r.
Proof.
  intros Hc Hok Hw Hal Hsz Hi Ha0 Hp0. pose proof Hw as (Hrec & Hd & Hb). pose proof (alignment_bounds al Hal) as Halb.
  unfold bump_alloc.
  rewrite (bind_Some _ _ _ (current_page h) (c, (h, s))) by done.
  rewrite (bind_Some _ _ _ (current_offset h) (c, (h, s))) by done. cbv zeta.
  destruct (_ || misfit _ _ _) eqn:Ecase.
  - destruct (pa_alloc_law c s Hc Hok) as (phys & s1 & E1 & Hok1 & Hmono & Hr).
    rewrite (bind_Some _ _ _ phys (c, (h, s1))) by (unfold on_pages; by rewrite E1).
    destruct (phys =? 0) eqn:E0; bool_to_prop.
    { exists 0, h, s1. split; [done|]. split; [done|]. split; [by eapply core_wf_mono|].
      split; [done|]. split; [done|]. by left. }
    destruct Hr as [?|(Hp1 & Hp2 & Hp3 & Hfree & Hbusy)]; [done|].
    rewrite (bind_Some _ _ _ tt (c, (set_current phys 0 h, s1))) by done.
    pose proof (align_ptr_spec phys al Hal ltac:(lia) ltac:(lia)) as [Hali Hmod].
    destruct (misfit (align_ptr phys al) sz phys) eqn:Em.
    + destruct (pa_free_law c s1 phys Hc Hok1 ltac:(lia)) as (s2 & E2 & Hok2 & Hmono2).
      rewrite (bind_Some _ _ _ tt (c, (set_current phys 0 h, s2))) by (unfold on_pages; by rewrite E2).
      rewrite (bind_Some _ _ _ tt (c, (set_current 0 0 h, s2))) by done.
      eexists 0, _, s2. split; [done|]. split; [done|]. split; [|split; [done|split; [done|by left]]].
      split; [|split; [done|by left]]. cbn. eapply Forall_impl; [exact Hrec|]. intros r. apply rec_ok_mono.
      intros _ HB. apply Hmono2; [intros E; congruence|by apply Hmono].
    + apply misfit_false in Em; [|lia|lia|lia|lia].
      destruct (commit_spec (busy s1) (set_current phys 0 h) i r0 sz (align_ptr phys al)) as [Hw' Hl']; try done; try (cbn; lia).
      { eapply Forall_impl; [exact Hrec|]. intros r. apply rec_ok_mono. auto. }
      { cbn. intros j r Hj Hp Hpage. exfalso.
        destruct (block_of_ptr (busy s) r) as ((_ & _ & _ & HB) & _); [by eapply Forall_lookup_1|done|].
        rewrite Hpage in HB. congruence. }
      rewrite (bind_Some _ _ _ tt (c, (bump_commit i sz (align_ptr phys al) (set_current phys 0 h), s1))) by done.
      eexists _, _, s1. split; [done|]. split; [done|]. split; [done|]. split; [done|]. split; [done|].
      right. split; [lia|]. done.
  - apply orb_false_iff in Ecase as [E0 Em]. bool_to_prop.
    destruct Hb as [?|((Hp1 & Hp2 & Hp3 & HB) & Hoff & Hlow)]; [done|].
    rewrite (u64_id (current_page h + current_offset h)) in * by (unfold is_u64; lia).
    pose proof (align_ptr_spec (current_page h + current_offset h) al Hal ltac:(lia) ltac:(lia)) as [Hali Hmod].
    apply misfit_false in Em; [|lia|lia|lia|lia].
    destruct (commit_spec (busy s) h i r0 sz (align_ptr (current_page h + current_offset h) al)) as [Hw' Hl']; try done; try lia.
    { intros j r Hj Hp Hpage. specialize (Hlow j r Hj Hp Hpage). lia. }
    rewrite (bind_Some _ _ _ tt (c, (bump_commit i sz (align_ptr (current_page h + current_offset h) al) h, s))) by done.
    eexists _, _, s. split; [done|]. split; [done|]. split; [done|]. split; [done|]. split; [done|].
    right. split; [lia|]. done.
Qed.

Lemma kmalloc_body_spec c h s sz al :
  pa_cpu c -> pa_ok true s -> core_wf (busy s) h -> is_alignment al -> 0 < sz < 2 ^ 64 ->
  exists r h' s', kmalloc_body sz al (c, (h, s)) = Some (r, (c, (h', s'))) /\
    pa_ok true s' /\ core_wf (busy s') h' /\ malloc_post sz al h h' r.
Proof.
  intros Hc Hok Hw Hal Hsz. unfold kmalloc_body.
  rewrite (bind_Some _ _ _ (allocations h) (c, (h, s))) by done.
  destruct (find_free_block (allocations h) sz al) as [i|] eqn:Ef.
  - pose proof (reuse_spec (busy s) h i sz al Hw Hal Hsz Ef) as Hr.
    destruct (reuse_block i sz (allocations h)) as [r l']. destruct Hr as (Hw' & Hr0 & Hmod & Hlive).
    eexists r, _, s. split; [done|]. split; [done|]. split; [exact Hw'|]. split; [done|]. split; [done|]. by right.
  - destruct (find_empty_record (allocations h)) as [i|] eqn:Ee.
    + destruct (find_record_spec _ _ _ Ee) as (r0 & Hi & Hf). apply andb_true_iff in Hf as [Hf1 Hf2]. bool_to_prop.
      by eapply bump_spec.
    + eexists 0, h, s. split; [done|]. split; [done|]. split; [done|]. split; [done|]. split; [done|]. by left.
Qed.

(** ** When kmalloc fails *)

(** A free block that can serve a request. *)
Definition serves (sz al : Z) (r : heap_allocation_t) : Prop := truthy (active r) = false /\ ptr r <> 0 /\ ptr r mod al = 0 /\ sz <= size r.

(** A record that describes no block. *)
Definition spare (h : heap_t) : Prop := exists r, r ∈ allocations h /\ truthy (active r) = false /\ ptr r = 0.

(** An aligned place for [sz] bytes behind the blocks of the current page. *)
Definition room (sz al : Z) (h : heap_t) : Prop :=
  current_page h <> 0 /\ exists a, current_page h + current_offset h <= a /\ a mod al = 0 /\ a + sz <= current_page h + 4096.

Lemma align_ptr_least v al a : is_alignment al -> 0 <= v -> v + 4096 <= 2 ^ 64 -> v <= a -> a mod al = 0 -> align_ptr v al <= a.
Proof.
  intros Hal Hv Hb Ha Hm. destruct (align_ptr_spec v al Hal Hv Hb) as [Hr Hm']. pose proof (alignment_bounds al Hal).
  pose proof (Z.div_mod a al ltac:(lia)) as E1. pose proof (Z.div_mod (align_ptr v al) al ltac:(lia)) as E2. rewrite Hm in E1. rewrite Hm' in E2.
  set (q := a / al) in *. set (q' := align_ptr v al / al) in *. destruct (decide (q' <= q)); nia.
Qed.

Lemma misfit_spec al sz base : 0 <= al < 2 ^ 64 - 4096 -> 0 <= sz < 2 ^ 64 -> 0 <= base -> base + 8192 <= 2 ^ 64 -> misfit al sz base = false <-> al + sz <= base + 4096.
Proof.
  intros Ha Hs Hb Hb'. split; [apply misfit_false; lia|]. intros H. unfold misfit, HEAP_PAGE_SIZE, UINT64_MAX. rewrite !u64_id by (unfold is_u64; lia).
  rewrite !orb_false_iff, Z.eqb_neq, !Z.ltb_ge. lia.
Qed.

Lemma block_fits_spec B sz al r : rec_ok B r -> is_alignment al -> 0 < sz < 2 ^ 64 -> block_fits sz al r = true <-> serves sz al r.
Proof.
  intros Hr Hal Hsz. unfold block_fits, serves. destruct (truthy (active r)); [cbn; naive_solver|]. cbn [orb]. destruct (ptr r =? 0) eqn:E0; bool_to_prop; [naive_solver|].
  destruct (block_of_ptr B r Hr E0) as ((Hp1 & Hp2 & _) & Hin & Hs & Hend). destruct (align_ptr_spec (ptr r) al Hal) as [Hal1 Hal2]; [lia..|].
  assert (Heq : align_ptr (ptr r) al = ptr r <-> ptr r mod al = 0).
  { split; [intros E; by rewrite E in Hal2|]. intros Hm. pose proof (align_ptr_least (ptr r) al (ptr r) Hal ltac:(lia) ltac:(lia) ltac:(lia) Hm). lia. }
  destruct ((align_ptr (ptr r) al =? UINT64_MAX) || _) eqn:E1.
  { split; [done|]. intros (_ & _ & Hm & _). apply Heq in Hm. rewrite Hm, Z.eqb_refl in E1. cbn in E1. rewrite orb_false_r in E1. unfold UINT64_MAX in E1. bool_to_prop. lia. }
  apply orb_false_iff in E1 as [_ E1]. bool_to_prop. rewrite E1. rewrite (u64_id (ptr r + size r)) by (unfold is_u64; lia).
  destruct ((_ <? _) || _) eqn:E2.
  - split; [done|]. intros (_ & _ & _ & Hle). rewrite u64_id in E2 by (unfold is_u64; lia). apply orb_true_iff in E2 as [E2|E2]; bool_to_prop; lia.
  - apply orb_false_iff in E2 as [E2 E3]. bool_to_prop. pose proof (u64_add_nowrap (ptr r) sz (ptr r + size r) ltac:(lia) ltac:(lia) E2 E3). split; [|done]. intros _. repeat split; [done|tauto|lia].
Qed.

Lemma find_record_iff f (Q : heap_allocation_t -> Prop) l : (forall r, r ∈ l -> f r = true <-> Q r) -> (exists i, find_record f l = Some i) <-> exists r, r ∈ l /\ Q r.
Proof.
  intros Hf. split.
  - intros [i Hi]. destruct (find_record_spec _ _ _ Hi) as (r & Hl & Hr). exists r. apply list_elem_of_lookup_2 in Hl. split; [done|]. by apply Hf.
  - intros (r & Hin & HQ). destruct (find_record f l) as [i|] eqn:E; [by exists i|]. apply list_elem_of_lookup_1 in Hin as [j Hj].
    pose proof (find_record_none _ _ _ _ E Hj) as H. apply list_elem_of_lookup_2 in Hj. by rewrite (proj2 (Hf r Hj) HQ) in H.
Qed.

Lemma room_spec B sz al h : core_wf B h -> is_alignment al -> 0 < sz < 2 ^ 64 ->
  (current_page h =? 0) || misfit (align_ptr (u64 (current_page h + current_offset h)) al) sz (current_page h) = false <-> room sz al h.
Proof.
  intros (_ & _ & Hb) Hal Hsz. unfold room. destruct (current_page h =? 0) eqn:E0; bool_to_prop; [cbn; naive_solver|]. cbn [orb].
  destruct Hb as [?|((Hp1 & Hp2 & _) & Hoff & _)]; [done|]. rewrite (u64_id (current_page h + current_offset h)) by (unfold is_u64; lia).
  destruct (align_ptr_spec (current_page h + current_offset h) al Hal) as [H1 H2]; [lia..|]. pose proof (alignment_bounds al Hal).
  destruct (decide (align_ptr (current_page h + current_offset h) al < 2 ^ 64 - 4096)) as [Hlt|Hge].
  - rewrite misfit_spec by lia. split; [intros Hle; split; [done|]; eexists; split; [|split; [exact H2|exact Hle]]; lia|].
    intros (_ & a & Ha1 & Ha2 & Ha3). pose proof (align_ptr_least (current_page h + current_offset h) al a Hal ltac:(lia) ltac:(lia) Ha1 Ha2). lia.
  - split; [intros Hm; apply misfit_false in Hm; lia|].
    intros (_ & a & Ha1 & Ha2 & Ha3). pose proof (align_ptr_least (current_page h + current_offset h) al a Hal ltac:(lia) ltac:(lia) Ha1 Ha2). lia.
Qed.

(** The page allocator has a page to give. *)
Definition page_left (c : cpu) (s : P) : Prop := exists pg s', pa_alloc (c, s) = Some (pg, (c, s')) /\ pg <> 0.

Lemma bump_succeeds c h s i sz al r h' s' : pa_cpu c -> pa_ok true s -> core_wf (busy s) h -> is_alignment al -> 0 < sz < 2 ^ 64 ->
  bump_alloc i sz al (c, (h, s)) = Some (r, (c, (h', s'))) -> r <> 0 <-> room sz al h \/ (sz <= 4096 /\ page_left c s).
Proof.
  intros Hc Hok Hw Hal Hsz. pose proof (room_spec (busy s) sz al h Hw Hal Hsz) as Hroom. pose proof Hw as (_ & _ & Hb). pose proof (alignment_bounds al Hal) as Halb. unfold bump_alloc.
  rewrite (bind_Some _ _ _ (current_page h) (c, (h, s))) by done. rewrite (bind_Some _ _ _ (current_offset h) (c, (h, s))) by done. cbv zeta. destruct (_ || misfit _ _ _) eqn:Ecase.
  - assert (Hno : ~ room sz al h) by (intros Hy; by apply Hroom in Hy). destruct (pa_alloc_law c s Hc Hok) as (phys & s1 & E1 & Hok1 & _ & Hr).
    rewrite (bind_Some _ _ _ phys (c, (h, s1))) by (unfold on_pages; by rewrite E1). destruct (phys =? 0) eqn:E0; bool_to_prop.
    { intros E. injection E as <- _ _. split; [done|]. intros [?|(_ & pg & s2 & E2 & Hn)]; [done|]. rewrite E1 in E2. injection E2 as <- <-. done. }
    destruct Hr as [?|(Hp1 & Hp2 & Hp3 & _)]; [done|]. rewrite (bind_Some _ _ _ tt (c, (set_current phys 0 h, s1))) by done.
    assert (Ep : align_ptr phys al = phys).
    { destruct (align_ptr_spec phys al Hal) as [H1 _]; [lia..|]. pose proof (align_ptr_least phys al phys Hal ltac:(lia) ltac:(lia) ltac:(lia)) as H2. destruct Hal as (k & Hk & ->).
      assert (Hm : phys mod 2 ^ k = 0); [|specialize (H2 Hm); lia]. apply Z.mod_divide; [lia|]. apply Z.divide_trans with 4096; [|apply Z.mod_divide; [lia|done]].
      exists (2 ^ (12 - k)). rewrite <- Z.pow_add_r by lia. by replace (12 - k + k) with 12 by lia. }
    assert (Hleft : page_left c s) by (by exists phys, s1). rewrite Ep. destruct (misfit phys sz phys) eqn:Em.
    + destruct (pa_free_law c s1 phys Hc Hok1 ltac:(lia)) as (s2 & E2 & _). rewrite (bind_Some _ _ _ tt (c, (set_current phys 0 h, s2))) by (unfold on_pages; by rewrite E2).
      rewrite (bind_Some _ _ _ tt (c, (set_current 0 0 h, s2))) by done. intros E. injection E as <- _ _. split; [done|]. intros [?|[Hle _]]; [done|].
      rewrite (proj2 (misfit_spec phys sz phys ltac:(lia) ltac:(lia) ltac:(lia) ltac:(lia))) in Em by lia. done.
    + apply misfit_spec in Em; [|lia..]. rewrite (bind_Some _ _ _ tt (c, (bump_commit i sz phys (set_current phys 0 h), s1))) by done. intros E. injection E as <- _ _.
      split; [intros _; right; split; [lia|done]|done].
  - pose proof (proj1 Hroom eq_refl) as Hy. apply orb_false_iff in Ecase as [E0 _]. bool_to_prop. destruct Hb as [?|((Hp1 & Hp2 & _) & Hoff & _)]; [done|].
    rewrite (u64_id (current_page h + current_offset h)) by (unfold is_u64; lia). destruct (align_ptr_spec (current_page h + current_offset h) al Hal) as [H1 _]; [lia..|].
    set (a := align_ptr (current_page h + current_offset h) al) in *. rewrite (bind_Some _ _ _ tt (c, (bump_commit i sz a h, s))) by done. intros E. injection E as <- _ _.
    split; [intros _; by left|lia].
Qed.

(** A request is served from a free block, from the current page or from a new page. *)
Definition servable (sz al : Z) (h : heap_t) (c : cpu) (s : P) : Prop :=
  (exists r, r ∈ allocations h /\ serves sz al r) \/ (spare h /\ (room sz al h \/ (sz <= 4096 /\ page_left c s))).

Lemma kmalloc_body_succeeds c h s sz al r h' s' : pa_cpu c -> pa_ok true s -> core_wf (busy s) h -> is_alignment al -> 0 < sz < 2 ^ 64 ->
  kmalloc_body sz al (c, (h, s)) = Some (r, (c, (h', s'))) -> r <> 0 <-> servable sz al h c s.
Proof.
  intros Hc Hok Hw Hal Hsz. unfold kmalloc_body. rewrite (bind_Some _ _ _ (allocations h) (c, (h, s))) by done.
  assert (Hfree : (exists i, find_free_block (allocations h) sz al = Some i) <-> exists r, r ∈ allocations h /\ serves sz al r).
  { apply find_record_iff. intros x Hx. apply (block_fits_spec (busy s)); [|done..]. destruct Hw as [Hf _]. rewrite Forall_forall in Hf. by apply Hf. }
  assert (Hspare : (exists i, find_empty_record (allocations h) = Some i) <-> spare h).
  { apply find_record_iff. intros x _. rewrite andb_true_iff, negb_true_iff, Z.eqb_eq. done. }
  unfold servable. destruct (find_free_block (allocations h) sz al) as [i|] eqn:Ef.
  - pose proof (reuse_spec (busy s) h i sz al Hw Hal Hsz Ef) as Hr. destruct (reuse_block i sz (allocations h)) as [r1 l']. destruct Hr as (_ & Hr0 & _).
    intros E. injection E as <- _ _. split; [intros _; left; apply Hfree; by exists i|lia].
  - assert (Hnf : ~ exists r, r ∈ allocations h /\ serves sz al r) by (intros Hy; apply Hfree in Hy as [i Hi]; done).
    destruct (find_empty_record (allocations h)) as [i|] eqn:Ee.
    + intros E. rewrite (bump_succeeds c h s i sz al r h' s') by done. split; [intros Hy; right; split; [apply Hspare; by exists i|done]|]. intros [?|[_ ?]]; done.
    + intros E. injection E as <- _ _. split; [done|]. intros [?|[Hs _]]; [done|]. apply Hspare in Hs as [i Hi]. done.
Qed.

(** ** kfree *)

Lemma no_live_page l pg i r :
  page_has_live_allocations l pg = false -> l !! i = Some r -> page r = pg -> truthy (active r) = false.
Proof.
  unfold page_has_live_allocations. destruct (find_record _ l) eqn:E; [done|]. intros _ Hi Hp.
  pose proof (find_record_none _ _ _ _ E Hi) as H. cbn in H. rewrite Hp, Z.eqb_refl, andb_true_r in H. done.
Qed.

Lemma drop_page_live l pg :
  page_has_live_allocations l pg = false -> omap live_of (drop_page pg l) = omap live_of l.
Proof.
  intros Hn. assert (H : forall i r, l !! i = Some r -> page r = pg -> truthy (active r) = false)
    by (intros; by eapply no_live_page). clear Hn.
  induction l as [|r l IH]; [done|]. unfold drop_page. rewrite fmap_cons, !omap_head.
  fold (drop_page pg l). rewrite IH by (intros i r' Hi; by apply (H (S i))).
  destruct (page r =? pg) eqn:E; bool_to_prop; [|done].
  unfold live_of at 1. cbn. unfold live_of. by rewrite (H O r eq_refl E).
Qed.

Lemma drop_page_wf B B' pg cp off l :
  recs_wf B cp off l -> (forall a, a <> pg -> B a = true -> B' a = true) ->
  recs_wf B' (if cp =? pg then 0 else cp) (if cp =? pg then 0 else off) (drop_page pg l).
Proof.
  intros (H1 & H2 & H3) HB.
  assert (Hlk : forall i r, drop_page pg l !! i = Some r -> ptr r <> 0 -> l !! i = Some r /\ page r <> pg).
  { intros i r Hi Hp. unfold drop_page in Hi. rewrite list_lookup_fmap in Hi.
    destruct (l !! i) as [r'|]; [|done]. cbn in Hi. injection Hi as <-.
    destruct (page r' =? pg) eqn:E; bool_to_prop; [by cbn in Hp|]. done. }
  split; [|split].
  - unfold drop_page. apply Forall_fmap. eapply Forall_impl; [exact H1|]. intros r Hr. cbn.
    destruct (page r =? pg) eqn:E; bool_to_prop; [by left|]. eapply rec_ok_mono; [|exact Hr]. auto.
  - intros i j r r' Hij Hi Hj Hp Hp'. apply (H2 i j); [done| | |done|done]; by apply Hlk.
  - destruct (cp =? pg) eqn:E; bool_to_prop; [by left|].
    destruct H3 as [->|((Hp1 & Hp2 & Hp3 & Hp4) & Ho & Hlow)]; [by left|]. right.
    split; [repeat split; auto|]. split; [done|]. intros i r Hi Hp Hpg. apply (Hlow i); [|done|done]. by apply Hlk.
Qed.

(** What a free does to the held blocks: the first live block at the address
    goes, if there is one. *)
Definition free_post (a : Z) (h h' : heap_t) : Prop :=
  heap_lock h' = heap_lock h /\ heap_lockdep_class h' = heap_lockdep_class h /\
  ((exists sz, live_blocks h ≡ₚ (a, sz) :: live_blocks h') \/
   (live_blocks h' = live_blocks h /\ forall sz, (a, sz) ∉ live_blocks h)).

Lemma kfree_body_spec c h s a :
  pa_cpu c -> pa_ok true s -> core_wf (busy s) h ->
  exists h' s', kfree_body a (c, (h, s)) = Some (tt, (c, (h', s'))) /\
    pa_ok true s' /\ core_wf (busy s') h' /\ free_post a h h'.
Proof.
  intros Hc Hok Hw. unfold kfree_body. rewrite (bind_Some _ _ _ (allocations h) (c, (h, s))) by done.
  destruct (find_record _ (allocations h)) as [i|] eqn:Ef.
  2:{ exists h, s. split; [done|]. split; [done|]. split; [done|]. split; [done|]. split; [done|]. right.
      split; [done|]. intros sz Hin. unfold live_blocks in Hin. apply list_elem_of_omap in Hin as (r & Hr & Hl).
      apply list_elem_of_lookup in Hr as [i Hi]. pose proof (find_record_none _ _ _ _ Ef Hi) as Hno. cbn in Hno.
      unfold live_of in Hl. destruct (truthy (active r)); [|done]. injection Hl as <- _. by rewrite Z.eqb_refl in Hno. }
  destruct (find_record_spec _ _ _ Ef) as (r & Hi & Hf). apply andb_true_iff in Hf as [Hact Hptr]. bool_to_prop.
  unfold rec_at. rewrite Hi. change (default empty_record (Some r)) with r. cbv zeta.
  set (r' := {| page := page r; ptr := ptr r; size := size r; active := 0 |}).
  set (l' := <[i := r']> (allocations h)).
  rewrite (bind_Some _ _ _ tt (c, (set_allocations l' h, s))) by done.
  assert (Hblk : block_rec (busy s) r).
  { pose proof (proj1 Hw) as Hall. pose proof (Forall_lookup_1 _ _ _ _ Hall Hi) as [(_ & _ & H0)|Hb]; [|done].
    rewrite H0 in Hact. done. }
  assert (Hpp : ptr r <> 0) by (destruct Hblk as ((? & _) & ? & _); lia).
  assert (Hw' : recs_wf (busy s) (current_page h) (current_offset h) l').
  { apply recs_insert; [done|exact Hblk| |].
    - intros j rj Hj Hlj Hp. destruct Hw as (_ & Hd & _). apply (Hd i j r rj); auto.
    - intros E. apply (recs_bump_bound (busy s) _ _ (allocations h) i r Hw); [|done|done|exact E].
      destruct Hblk as ((? & _) & _). cbn in E. lia. }
  assert (Hlive : live_blocks h ≡ₚ (a, size r) :: omap live_of l').
  { eapply omap_insert_remove; [exact Hi| |done]. unfold live_of. by rewrite Hact, Hptr. }
  destruct (page_has_live_allocations l' (page r)) eqn:Elive.
  - eexists _, s. split; [done|]. split; [done|]. split; [exact Hw'|]. split; [done|]. split; [done|].
    left. by exists (size r).
  - destruct (pa_free_law c s (page r) Hc Hok) as (s1 & E1 & Hok1 & Hmono); [destruct Hblk as ((? & _) & _); lia|].
    rewrite (bind_Some _ _ _ tt (c, (set_allocations l' h, s1))) by (unfold on_pages; by rewrite E1).
    set (h2 := if current_page h =? page r then set_current 0 0 (set_allocations l' h) else set_allocations l' h).
    rewrite (bind_Some _ _ _ tt (c, (h2, s1))) by done.
    exists (set_allocations (drop_page (page r) l') h2), s1.
    split; [unfold with_heap, modify; subst h2; by destruct (current_page h =? page r)|]. split; [done|]. split.
    + pose proof (drop_page_wf (busy s) (busy s1) (page r) _ _ l' Hw' Hmono) as Hd.
      subst h2. unfold core_wf. by destruct (current_page h =? page r).
    + split; [subst h2; by destruct (current_page h =? page r)|].
      split; [subst h2; by destruct (current_page h =? page r)|].
      left. exists (size r). rewrite Hlive. unfold live_blocks. cbn. by rewrite drop_page_live.
Qed.

(** ** The bracket *)

(** The state in which the body of a locked section starts. *)
Definition section_entered (c : cpu) (h : heap_t) (s : P) (c1 : cpu) (h1 : heap_t) (s1 : P) : Prop :=
  c1 = set_rflags (Z.clearbit (rflags c) IF_BIT) c /\ current_page h1 = current_page h /\ current_offset h1 = current_offset h /\ allocations h1 = allocations h /\
  exists rc, pa_acquire (heap_lockdep_class h) (c1, s) = Some (rc, (c1, s1)).

Lemma heap_section_run {R} (body : M (cpu * (heap_t * P)) R) c h s (Q : R -> list (Z * Z) -> Prop) :
  pa_cpu c -> pa_class (heap_lockdep_class h) -> pa_ok false s -> heap_wf (busy s) h ->
  (forall c1 h1 s1, pa_cpu c1 -> pa_ok true s1 -> core_wf (busy s1) h1 -> section_entered c h s c1 h1 s1 ->
     exists r h' s', body (c1, (h1, s1)) = Some (r, (c1, (h', s'))) /\ pa_ok true s' /\ core_wf (busy s') h' /\
       heap_lock h' = heap_lock h1 /\ heap_lockdep_class h' = heap_lockdep_class h1 /\ Q r (live_blocks h')) ->
  exists r h' s', heap_section body (c, (h, s)) = Some (r, (c, (h', s'))) /\
    pa_ok false s' /\ heap_wf (busy s') h' /\ heap_lockdep_class h' = heap_lockdep_class h /\ Q r (live_blocks h').
Proof.
  intros Hc Hcl Hok [Hw Hl] Hbody. set (c1 := set_rflags (Z.clearbit (rflags c) IF_BIT) c).
  assert (Hc1 : pa_cpu c1) by (by apply pa_cpu_flags).
  set (h1 := (with_guard spin_held (h, s)).1).
  destruct (pa_acquire_law c1 s (heap_lockdep_class h) Hc1 Hcl Hok) as (rc1 & s1 & E1 & Hok1 & HB1).
  destruct (Hbody c1 h1 s1 Hc1 Hok1) as (r & h2 & s2 & E2 & Hok2 & Hw2 & Hl2 & Hk2 & HQ); [|by repeat (split; [done|]); exists rc1|].
  { eapply core_wf_mono; [exact Hw|]. intros a Ha. by rewrite HB1. }
  destruct (pa_release_law c1 s2 (heap_lockdep_class h) Hc1 Hcl Hok2) as (rc3 & s3 & E3 & Hok3 & HB3).
  exists r, (with_guard spin_free (h2, s3)).1, s3. split; [|split; [done|split; [|split; [exact Hk2|done]]]].
  - unfold heap_section. rewrite (locked_section_run _ c (h, s) r (h2, s3)); [done|exact Hl|]. fold c1.
    change (with_guard spin_held (h, s)) with (h1, s).
    rewrite (bind_Some _ _ _ (heap_lockdep_class h) (c1, (h1, s))) by done.
    rewrite (bind_Some _ _ _ rc1 (c1, (h1, s1))) by (unfold on_pages; by rewrite E1).
    rewrite (bind_Some _ _ _ r (c1, (h2, s2))) by exact E2.
    rewrite (bind_Some _ _ _ rc3 (c1, (h2, s3))) by (unfold on_pages; by rewrite E3). done.
  - split; [|done]. eapply (core_wf_mono (busy s2)); [exact Hw2|]. intros a Ha. by rewrite HB3.
Qed.
End Proofs.

(** ** Blocks held by callers *)

Definition apart_blocks (b b' : Z * Z) : Prop := b.1 + b.2 <= b'.1 \/ b'.1 + b'.2 <= b.1.

Fixpoint pairwise_apart (l : list (Z * Z)) : Prop :=
  match l with
  | [] => True
  | b :: l => Forall (apart_blocks b) l /\ pairwise_apart l
  end.

(** A held block is not empty and lies inside one page that is handed out. *)
Definition in_busy_page (B : Z -> bool) (b : Z * Z) : Prop :=
  exists pg, heap_page B pg /\ pg <= b.1 /\ 0 < b.2 /\ b.1 + b.2 <= pg + 4096.

Lemma apart_sym b b' : apart_blocks b b' -> apart_blocks b' b.
Proof. unfold apart_blocks. tauto. Qed.

Lemma pairwise_perm l l' : l ≡ₚ l' -> pairwise_apart l -> pairwise_apart l'.
Proof.
  induction 1 as [|b l l' Hp IH|b b' l|l l' l'' _ IH1 _ IH2]; cbn; [done| | |auto].
  - intros [H1 H2]. split; [by rewrite <- Hp|auto].
  - rewrite !Forall_cons. intros ((H1 & H2) & H3 & H4). split; [split; [by apply apart_sym|done]|done].
Qed.

Lemma live_pairwise B h : core_wf B h -> pairwise_apart (live_blocks h).
Proof.
  intros (Hok & Hd & _). unfold live_blocks. revert Hok Hd. generalize (allocations h). intros l.
  induction l as [|r l IH]; intros Hok Hd; [done|]. rewrite omap_head. apply Forall_cons in Hok as [Hr Hok].
  assert (Hd' : disjoint_recs l) by (intros i j ri rj Hij Hi Hj; apply (Hd (S i) (S j)); [congruence|done|done]).
  assert (Hlive : forall r0, rec_ok B r0 -> truthy (active r0) = true -> ptr r0 <> 0).
  { intros r0 [(_ & _ & ->)|((? & _) & ? & _)] Ha; [done|lia]. }
  unfold live_of at 1. destruct (truthy (active r)) eqn:Ea; [|auto]. cbn. split; [|auto].
  apply Forall_forall. intros b Hb. apply list_elem_of_omap in Hb as (r' & Hr' & Hl).
  unfold live_of in Hl. destruct (truthy (active r')) eqn:Ea'; [|done]. injection Hl as <-.
  apply list_elem_of_lookup in Hr' as [j Hj].
  apply (Hd O (S j) r r'); try done; apply Hlive; try done. by eapply Forall_lookup_1.
Qed.

Lemma live_in_busy B h : core_wf B h -> Forall (in_busy_page B) (live_blocks h).
Proof.
  intros (Hok & _). apply Forall_forall. intros b Hb.
  apply list_elem_of_omap in Hb as (r & Hr & Hl).
  unfold live_of in Hl. destruct (truthy (active r)) eqn:Ea; [|done]. injection Hl as <-.
  rewrite Forall_forall in Hok. destruct (Hok r) as [(_ & _ & H0)|(H1 & H2 & H3 & H4)];
    [done|by rewrite H0 in Ea|]. by exists (page r).
Qed.

(** Freeing the block at [a] removes the one entry that starts there. *)
Lemma filter_freed a sz l l' :
  l ≡ₚ (a, sz) :: l' -> pairwise_apart l -> Forall (fun b => 0 < b.2) l ->
  filter (fun b => b.1 <> a) l ≡ₚ l'.
Proof.
  intros Hp Hpw Hpos. rewrite Hp. rewrite Hp in Hpos. apply (pairwise_perm _ _ Hp) in Hpw.
  rewrite filter_cons_False by (cbn; congruence). destruct Hpw as [Hap _].
  apply Forall_cons in Hpos as [H0 Hpos].
  assert (Hall : Forall (fun b => b.1 <> a) l').
  { rewrite Forall_forall in *. intros b Hb E. specialize (Hap b Hb). specialize (Hpos b Hb).
    unfold apart_blocks in Hap. cbn in *. lia. }
  clear -Hall. induction Hall as [|b l' Hb Hall IH]; [done|]. rewrite filter_cons_True by done. by rewrite IH.
Qed.

Section Calls.
Context {P : Type} {PA : PageAlloc P}.

Definition kmalloc_rejects (sz al : Z) : bool :=
  (sz =? 0) || negb (Z.land (if al =? 0 then 8 else al) ((if al =? 0 then 8 else al) - 1) =? 0)
  || (HEAP_MAX_ALIGNMENT <? (if al =? 0 then 8 else al)).

(** The page allocator is asked under the heap's lock, with interrupts masked. *)
Definition kmalloc_servable (sz al : Z) (c : cpu) (h : heap_t) (s : P) : Prop :=
  exists c1 h1 s1, section_entered c h s c1 h1 s1 /\ servable sz (if al =? 0 then 8 else al) h c1 s1.

Lemma servable_same sz al h h1 c (s : P) : current_page h1 = current_page h -> current_offset h1 = current_offset h -> allocations h1 = allocations h ->
  servable sz al h1 c s <-> servable sz al h c s.
Proof. intros E1 E2 E3. unfold servable, spare, room. by rewrite E1, E2, E3. Qed.

Lemma kmalloc_run c h s sz al :
  pa_cpu c -> pa_class (heap_lockdep_class h) -> pa_ok false s -> heap_wf (busy s) h -> is_u64 sz -> is_u64 al ->
  exists r h' s', kmalloc sz al (c, (h, s)) = Some (r, (c, (h', s'))) /\ pa_ok false s' /\ heap_wf (busy s') h' /\ heap_lockdep_class h' = heap_lockdep_class h /\
    ((r = 0 /\ live_blocks h' = live_blocks h) \/
     (0 < r /\ kmalloc_rejects sz al = false /\ r mod (if al =? 0 then 8 else al) = 0 /\
      live_blocks h' ≡ₚ (r, sz) :: live_blocks h)) /\
    (r <> 0 <-> kmalloc_rejects sz al = false /\ kmalloc_servable sz al c h s).
Proof.
  intros Hc Hk Hok Hw Hsz Hal. unfold is_u64 in *. unfold kmalloc, kmalloc_rejects. cbv zeta.
  set (al' := if al =? 0 then 8 else al).
  assert (Hal' : 0 < al') by (unfold al'; case_if; lia).
  destruct (sz =? 0) eqn:E0; [exists 0, h, s; split; [done|]; split; [done|]; split; [done|]; split; [done|]; split; [by left|]; cbn; naive_solver|].
  cbn [orb]. destruct (negb (Z.land al' (al' - 1) =? 0) || _) eqn:E1;
    [exists 0, h, s; split; [done|]; split; [done|]; split; [done|]; split; [done|]; split; [by left|]; naive_solver|].
  bool_to_prop. pose proof (alignment_check al' Hal' ltac:(by apply orb_false_iff; split; [apply negb_false_iff, Z.eqb_eq|apply Z.ltb_ge])) as Hali.
  destruct (heap_section_run (kmalloc_body sz al') c h s
    (fun r lv => ((r = 0 /\ lv = live_blocks h) \/ (0 < r /\ r mod al' = 0 /\ lv ≡ₚ (r, sz) :: live_blocks h)) /\ (r <> 0 <-> kmalloc_servable sz al c h s)) Hc Hk Hok Hw)
    as (r & h' & s' & E & Hok' & Hw' & Hk' & HQ).
  { intros c1 h1 s1 Hc1 Hok1 Hw1 Hent. destruct (kmalloc_body_spec c1 h1 s1 sz al' Hc1 Hok1 Hw1 Hali ltac:(lia))
      as (r & h' & s' & E & Hok' & Hw' & Hlk & Hkk & Hr). pose proof Hent as (Ec & Ep & Eo & Ea & rc & Eacq).
    exists r, h', s'. assert (Hl1 : live_blocks h1 = live_blocks h) by (unfold live_blocks; by rewrite Ea). rewrite Hl1 in Hr. do 6 (split; [done|]).
    rewrite (kmalloc_body_succeeds c1 h1 s1 sz al' r h' s') by (done || lia). rewrite servable_same by done. unfold kmalloc_servable. fold al'. split.
    - intros Hsv. by exists c1, h1, s1.
    - intros (c2 & h2 & s2 & (Ec2 & _ & _ & _ & rc2 & Eacq2) & Hsv). subst c1 c2. rewrite Eacq in Eacq2. by injection Eacq2 as _ ->. }
  destruct HQ as [HQ Hsv]. exists r, h', s'. split; [done|]. split; [done|]. split; [done|]. split; [done|].
  split; [destruct HQ as [HQ|(H1 & H2 & H3)]; [by left|right]; done|]. rewrite Hsv. split; [intros; split; [|done]|by intros [_ ?]].
  done.
Qed.

Lemma kfree_run c h s a :
  pa_cpu c -> pa_class (heap_lockdep_class h) -> pa_ok false s -> heap_wf (busy s) h ->
  exists h' s', kfree a (c, (h, s)) = Some (tt, (c, (h', s'))) /\ pa_ok false s' /\ heap_wf (busy s') h' /\ heap_lockdep_class h' = heap_lockdep_class h /\
    ((exists sz, live_blocks h ≡ₚ (a, sz) :: live_blocks h') \/
     (live_blocks h' = live_blocks h /\ forall sz, (a, sz) ∉ live_blocks h)).
Proof.
  intros Hc Hk Hok Hw. unfold kfree. destruct (a =? 0) eqn:E0; bool_to_prop.
  { exists h, s. split; [done|]. split; [done|]. split; [done|]. split; [done|]. right. split; [done|]. subst.
    intros sz Hin. pose proof (live_in_busy _ _ (proj1 Hw)) as Hb. rewrite Forall_forall in Hb.
    destruct (Hb _ Hin) as (pg & (H1 & _) & H2 & _). cbn in H2. lia. }
  destruct (heap_section_run (kfree_body a) c h s
    (fun _ lv => (exists sz, live_blocks h ≡ₚ (a, sz) :: lv) \/ (lv = live_blocks h /\ forall sz, (a, sz) ∉ live_blocks h)) Hc Hk Hok Hw)
    as ([] & h' & s' & E & Hok' & Hw' & Hk' & HQ).
  { intros c1 h1 s1 Hc1 Hok1 Hw1 (_ & _ & _ & Ea & _). assert (Hl1 : live_blocks h1 = live_blocks h) by (unfold live_blocks; by rewrite Ea). destruct (kfree_body_spec c1 h1 s1 a Hc1 Hok1 Hw1)
      as (h' & s' & E & Hok' & Hw' & Hlk & Hkk & Hr).
    exists tt, h', s'. rewrite Hl1 in Hr. done. }
  by exists h', s'.
Qed.

(** C21: the contract of [kmalloc]. On a well-formed heap over any allocator
    that honours [PageAlloc], every call returns. It succeeds exactly when the size is not zero,
    the alignment is a power of two up to a page (0 stands for 8), and the request can be
    served: some free block is large enough and starts aligned, or there is a spare record
    and either an aligned place is left in the current page or the size is at most a page and the page
    allocator, asked under the heap's lock, has a page to give. A failing call returns 0
    and hands nothing out. A successful one returns a correctly aligned block of the
    requested size, inside one handed-out page and disjoint from every block still held;
    and those blocks are unchanged. *)
Theorem kmalloc_contract c h s sz al
    (Hcpu : pa_cpu c) (Hcls : pa_class (heap_lockdep_class h)) (Hok : pa_ok false s) (Hwf : heap_wf (busy s) h) (Hsz : is_u64 sz) (Hal : is_u64 al) :
  ∃ r h' s', kmalloc sz al (c, (h, s)) = Some (r, (c, (h', s'))) ∧ pa_ok false s' ∧ heap_wf (busy s') h' ∧
    (r ≠ 0 ↔ kmalloc_rejects sz al = false ∧ kmalloc_servable sz al c h s) ∧
    (r = 0 → live_blocks h' = live_blocks h) ∧
    (r ≠ 0 → r mod (if al =? 0 then 8 else al) = 0 ∧ in_busy_page (busy s') (r, sz) ∧
       Forall (apart_blocks (r, sz)) (live_blocks h) ∧ live_blocks h' ≡ₚ (r, sz) :: live_blocks h).
Proof.
  destruct (kmalloc_run c h s sz al Hcpu Hcls Hok Hwf Hsz Hal) as (r & h' & s' & E & Hok' & Hw' & _ & Hr & Hsv).
  exists r, h', s'. split; [done|]. split; [done|]. split; [done|]. split; [done|].
  destruct Hr as [[-> Hl]|(Hr & Hrej & Hmod & Hl)].
  - split; [done|]. done.
  - split; [lia|]. intros _. split; [done|].
    pose proof (live_in_busy _ _ (proj1 Hw')) as Hb. pose proof (live_pairwise _ _ (proj1 Hw')) as Hp.
    rewrite Hl in Hb. apply (pairwise_perm _ _ Hl) in Hp. destruct Hp as [Hp _].
    apply Forall_cons in Hb as [Hb _]. done.
Qed.

(** ** Histories *)

Inductive heap_op := HMalloc (sz al : Z) | HFree (a : Z).

Definition heap_op_ok (op : heap_op) : Prop :=
  match op with HMalloc sz al => is_u64 sz /\ is_u64 al | HFree a => is_u64 a end.

Fixpoint heap_history (ops : list heap_op) (held : list (Z * Z)) (m : cpu * (heap_t * P))
  : option (list (Z * Z) * (cpu * (heap_t * P))) :=
  match ops with
  | [] => Some (held, m)
  | HMalloc sz al :: ops =>
      match kmalloc sz al m with
      | Some (r, m') => heap_history ops (if r =? 0 then held else (r, sz) :: held) m'
      | None => None
      end
  | HFree a :: ops =>
      match kfree a m with
      | Some (_, m') => heap_history ops (filter (fun b => b.1 <> a) held) m'
      | None => None
      end
  end.

Lemma heap_history_run ops c h s held :
  pa_cpu c -> pa_class (heap_lockdep_class h) -> pa_ok false s -> heap_wf (busy s) h -> live_blocks h ≡ₚ held -> Forall heap_op_ok ops ->
  exists held' h' s', heap_history ops held (c, (h, s)) = Some (held', (c, (h', s'))) /\
    pa_ok false s' /\ heap_wf (busy s') h' /\ live_blocks h' ≡ₚ held'.
Proof.
  intros Hc Hk Hok Hw Hl Hops. revert h s held Hk Hok Hw Hl.
  induction Hops as [|op ops Hop Hops IH]; intros h s held Hk Hok Hw Hl; [by exists held, h, s|].
  destruct op as [sz al|a]; cbn [heap_history]; cbn in Hop.
  - destruct (kmalloc_run c h s sz al Hc Hk Hok Hw) as (r & h1 & s1 & -> & Hok1 & Hw1 & Hk1 & Hr & _); [tauto..|].
    rewrite <- Hk1 in Hk.
    destruct Hr as [[-> Hl1]|(Hr & _ & _ & Hl1)]; apply IH; try done.
    + cbn. by rewrite Hl1.
    + destruct (r =? 0) eqn:E; bool_to_prop; [lia|]. by rewrite Hl1, Hl.
  - destruct (kfree_run c h s a Hc Hk Hok Hw) as (h1 & s1 & -> & Hok1 & Hw1 & Hk1 & Hr).
    rewrite <- Hk1 in Hk. apply IH; try done.
    pose proof (live_pairwise _ _ (proj1 Hw)) as Hp. pose proof (live_in_busy _ _ (proj1 Hw)) as Hb.
    assert (Hpos : Forall (fun b => 0 < b.2) (live_blocks h)).
    { eapply Forall_impl; [exact Hb|]. intros b (pg & _ & _ & H & _). done. }
    rewrite <- Hl. destruct Hr as [[sz Hr]|[-> Hr]]; [symmetry; by eapply filter_freed|].
    assert (Hall : Forall (fun b => b.1 <> a) (live_blocks h)).
    { apply Forall_forall. intros [p sz] Hin E. cbn in E. subst. by apply (Hr sz). }
    clear -Hall. induction Hall as [|b l' Hb Hall IH]; [done|]. rewrite filter_cons_True by done. by rewrite <- IH.
Qed.
End Calls.
