(* ===== verification/MmBoot.v ===== *)
(** * The memory subsystem from boot

    [pmm_init] and [heap_init] composed as the kernel does, any history of heap
    calls on the result, and the lock order heap -> pmm under the checker. *)
From stdpp Require Import base tactics list numbers strings.
From S2P Require Import Prelude Lock Lockdep Pmm Heap.

(** ** Booting the two allocators *)

Definition mm_state : Type := cpu * (heap_t * (pmm_t * lockdep_t)).

Definition mm_boot (map : option (list Z)) (addr size dsz kb ke bi bisz : Z) : M mm_state unit :=
  _ ← on_pages (pmm_init map addr size dsz kb ke bi bisz);
  heap_init.

Lemma fresh_heap_wf B lk k :
  lk = spin_free ->
  heap_wf B {| current_page := 0; current_offset := 0; allocations := replicate 256 empty_record;
               heap_lock := lk; heap_lockdep_class := k |}.
Proof.
  intros ->. split; [|done]. split; [|split; [|by left]].
  - apply Forall_replicate. by left.
  - intros i j r r' _ Hi _ Hp. apply lookup_replicate in Hi as [-> _]. by cbn in Hp.
Qed.

Lemma fresh_heap_live k lk cp off :
  live_blocks {| current_page := cp; current_offset := off; allocations := replicate 256 empty_record;
                 heap_lock := lk; heap_lockdep_class := k |} = [].
Proof. reflexivity. Qed.

Lemma heap_init_run c h s ld :
  registry_lock ld = spin_free ->
  exists h' ld', heap_init (c, (h, (s, ld))) = Some (tt, (c, (h', (s, ld')))) /\
    (forall B, heap_wf B h') /\ live_blocks h' = [].
Proof.
  intros Hl. unfold heap_init, rix_lockdep_register. destruct (bool_decide _ || negb true) eqn:E; [done|].
  rewrite locked_run by done. destruct (register_body _ _ _ _) as [[rc out] ld'].
  eexists _, _. split; [done|]. split; [intros B; by apply fresh_heap_wf|done].
Qed.

Lemma pmm_init_registry map addr size dsz kb ke bi bisz c s ld s' ld' :
  registry_lock ld = spin_free ->
  pmm_init map addr size dsz kb ke bi bisz (c, (s, ld)) = Some (tt, (c, (s', ld'))) -> registry_lock ld' = spin_free.
Proof.
  intros Hl. unfold pmm_init. destruct (register_run (Some "pmm"%string) 30 true c ld Hl) as ([rc out] & ld1 & -> & Hld).
  intros H. injection H as _ <-. destruct Hld as [->|[n ->]]; [done|]. unfold register_body. by case_if.
Qed.

(** C2: the heap never hands out overlapping memory. From boot (the firmware
    map parsed by [pmm_init], then [heap_init]), over any sequence of [kmalloc]
    and [kfree] calls with any arguments (double frees and wild pointers
    included), every call returns, the blocks held are pairwise disjoint, and
    each lies inside a page the physical allocator has marked used. *)
Theorem heap_blocks_disjoint map addr size dsz kb ke bi bisz c h s ld ops
    (Hreg : registry_lock ld = spin_free)
    (Hmap : ∀ m, map = Some m → Forall is_u8 m)
    (Haddr : 0 <= addr) (Hsize : 0 <= size) (Hkb : 0 <= kb) (Hbi : 0 <= bi) (Hbisz : 0 <= bisz)
    (Hops : Forall heap_op_ok ops) :
  ∃ m0 held h' s', mm_boot map addr size dsz kb ke bi bisz (c, (h, (s, ld))) = Some (tt, m0) ∧
    heap_history ops [] m0 = Some (held, (c, (h', s'))) ∧
    pairwise_apart held ∧ Forall (in_busy_page (pmm_busy s')) held.
Proof.
  destruct (pmm_init_run map addr size dsz kb ke bi bisz c s ld) as (s0 & ld0 & E0 & Hw0); [done..|].
  pose proof (pmm_init_registry _ _ _ _ _ _ _ _ _ _ _ _ _ Hreg E0) as Hreg0.
  destruct (heap_init_run c h s0 ld0 Hreg0) as (h1 & ld1 & E1 & Hwf1 & Hl1).
  destruct (heap_history_run ops c h1 (s0, ld1) []) as (held & h' & s' & E & Hok & Hwf & Hl); try done.
  { by rewrite Hl1. }
  exists (c, (h1, (s0, ld1))), held, h', s'. split.
  { unfold mm_boot. rewrite (bind_Some _ _ _ tt (c, (h, (s0, ld0)))) by (unfold on_pages; by rewrite E0). exact E1. }
  split; [exact E|]. split.
  - eapply pairwise_perm; [exact Hl|]. eapply live_pairwise. apply Hwf.
  - rewrite <- Hl. exact (live_in_busy (pmm_busy s') h' (proj1 Hwf)).
Qed.

Definition raw_heap : heap_t :=
  {| current_page := 7; current_offset := 7; allocations := []; heap_lock := spin_held; heap_lockdep_class := 0 |}.

Definition demo_heap_ops : list heap_op :=
  [HMalloc 100 0; HMalloc 4000 64; HFree 0x100000; HMalloc 40 16; HFree 0x101000; HMalloc 5000 8; HMalloc 8 3].

Lemma heap_blocks_disjoint_witness :
  ∃ m0 held m', mm_boot (Some demo_map) 0x200000 40 40 0 0 0 0 (mm_cpu, (raw_heap, (raw_pmm, lockdep_boot))) = Some (tt, m0) ∧
    heap_history demo_heap_ops [] m0 = Some (held, m') ∧ pairwise_apart held ∧ held = [(0x101FA0, 40)].
Proof.
  destruct (heap_blocks_disjoint (Some demo_map) 0x200000 40 40 0 0 0 0 mm_cpu raw_heap raw_pmm lockdep_boot demo_heap_ops)
    as (m0 & held & h' & s' & E0 & E & Hp & _);
    [reflexivity
    |intros m Em; injection Em as <-; repeat constructor; unfold is_u8; lia
    |lia|lia|lia|lia|lia
    |repeat constructor; cbn; unfold is_u64; lia|].
  exists m0, held, (mm_cpu, (h', s')). split; [exact E0|]. split; [exact E|]. split; [exact Hp|].
  assert (Hrun : (m ← mm_boot (Some demo_map) 0x200000 40 40 0 0 0 0 (mm_cpu, (raw_heap, (raw_pmm, lockdep_boot)));
                  r ← heap_history demo_heap_ops [] m.2; Some r.1) = Some [(0x101FA0, 40)])
    by (vm_compute; reflexivity).
  rewrite E0 in Hrun. cbn [mbind option_bind snd] in Hrun. rewrite E in Hrun. cbn in Hrun. congruence.
Defined.

(** ** Lock order *)

(** Taking and giving back a class that outranks everything the CPU holds. *)
Lemma acquired_push k c ld :
  ld_wf ld -> is_Some (name_of ld k) -> 1 <= k -> (length (held ld (cpu_slot c)) < 8)%nat ->
  Forall (fun x => rank_of ld x < rank_of ld k) (held ld (cpu_slot c)) ->
  ld_acquired k c ld = push_held (cpu_slot c) k ld.
Proof.
  intros Hwf [n Hn] Hk Hlen HF. unfold ld_acquired. rewrite acquire_run.
  destruct (k =? 0) eqn:E0; bool_to_prop; [lia|]. rewrite Hn. unfold acquire_body.
  destruct (stack_facts ld Hwf _ (cpu_slot_ok c)) as (Hl8 & Hdep & Hcl & Hinc).
  assert (Hd : Z.of_nat (length (held ld (cpu_slot c))) = depth_of ld (cpu_slot c)).
  { unfold held. rewrite length_take. lia. }
  unfold RIX_LOCKDEP_MAX_DEPTH. destruct (8 <=? _) eqn:E8; bool_to_prop; [lia|].
  destruct (0 <? _) eqn:Epos; bool_to_prop; [|done].
  pose proof (top_is_last ld Hwf _ (cpu_slot_ok c) Epos) as Hlast.
  assert (Hin : top_of ld (cpu_slot c) ∈ held ld (cpu_slot c)) by (apply last_Some_elem_of; done).
  rewrite Forall_forall in HF, Hcl. specialize (HF _ Hin). specialize (Hcl _ Hin). cbn in HF, Hcl.
  pose proof Hwf as (_ & _ & _ & _ & Hnm & _). destruct (proj2 (Hnm (top_of ld (cpu_slot c)) ltac:(lia)) Hcl) as [nt ->].
  destruct (_ <=? _) eqn:Er; bool_to_prop; [lia|done].
Qed.

Lemma released_pop k c ld :
  ld_wf ld -> is_Some (name_of ld k) -> 1 <= k -> 0 < depth_of ld (cpu_slot c) -> top_of ld (cpu_slot c) = k ->
  ld_released k c ld = pop_held (cpu_slot c) ld.
Proof.
  intros Hwf [n Hn] Hk Hd Ht. unfold ld_released. rewrite release_run.
  destruct (k =? 0) eqn:E0; bool_to_prop; [lia|]. rewrite Hn. unfold release_body.
  destruct (_ || _) eqn:E; [|done]. bool_to_prop. destruct E as [E|E]; bool_to_prop; [lia|done].
Qed.

(** The two registered classes, the violation count [v], and the classes [H]
    the CPU in [slot] holds. *)
Record quiet (kh kp v slot : Z) (H : list Z) (ld : lockdep_t) : Prop := {
  q_wf : ld_wf ld;
  q_kh : is_Some (name_of ld kh) /\ 1 <= kh /\ rank_of ld kh = 20;
  q_kp : is_Some (name_of ld kp) /\ 1 <= kp /\ rank_of ld kp = 30;
  q_violations : violations ld = v;
  q_held : held ld slot = H;
}.

(** Entering a class that outranks the stack, and leaving it again. *)
Lemma quiet_push kh kp v H k c ld :
  quiet kh kp v (cpu_slot c) H ld -> k = kh \/ k = kp -> (length H < 8)%nat ->
  Forall (fun x => rank_of ld x < rank_of ld k) H ->
  quiet kh kp v (cpu_slot c) (H ++ [k]) (ld_acquired k c ld) /\
  (forall x, rank_of (ld_acquired k c ld) x = rank_of ld x).
Proof.
  intros [Hwf Hkh Hkp Hv Hh] Hk Hlen HF. subst H.
  assert (Hkk : is_Some (name_of ld k) /\ 1 <= k) by (destruct Hk as [->| ->]; tauto).
  destruct Hkk as [Hn Hk1]. rewrite acquired_push by done.
  destruct (stack_facts ld Hwf _ (cpu_slot_ok c)) as (Hl8 & Hdep & _).
  assert (Hd : depth_of ld (cpu_slot c) < 8) by (unfold held in Hlen; rewrite length_take in Hlen; lia).
  split; [|done]. split; [| exact Hkh | exact Hkp | exact Hv |].
  - apply push_wf; try done; [apply cpu_slot_ok|]. pose proof Hwf as (_ & _ & _ & _ & Hnm & _). apply Hnm; [lia|done].
  - rewrite held_push by (done || apply cpu_slot_ok). by rewrite Z.eqb_refl.
Qed.

Lemma quiet_pop kh kp v H k c ld :
  quiet kh kp v (cpu_slot c) (H ++ [k]) ld -> k = kh \/ k = kp ->
  quiet kh kp v (cpu_slot c) H (ld_released k c ld) /\ (forall x, rank_of (ld_released k c ld) x = rank_of ld x).
Proof.
  intros [Hwf Hkh Hkp Hv Hh] Hk.
  assert (Hkk : is_Some (name_of ld k) /\ 1 <= k) by (destruct Hk as [->| ->]; tauto).
  destruct Hkk as [Hn Hk1].
  destruct (stack_facts ld Hwf _ (cpu_slot_ok c)) as (Hl8 & Hdep & _).
  assert (Hlen : Z.of_nat (length (held ld (cpu_slot c))) = depth_of ld (cpu_slot c)).
  { unfold held. rewrite length_take. lia. }
  rewrite Hh, length_app in Hlen. cbn in Hlen.
  assert (Hpos : 0 < depth_of ld (cpu_slot c)) by lia.
  assert (Htop : top_of ld (cpu_slot c) = k).
  { pose proof (top_is_last ld Hwf _ (cpu_slot_ok c) Hpos) as Hl. rewrite Hh, last_snoc in Hl. congruence. }
  rewrite released_pop by done. split; [|done]. split; [| exact Hkh | exact Hkp | exact Hv |].
  - apply pop_wf; [done|apply cpu_slot_ok|lia].
  - rewrite held_pop by (done || apply cpu_slot_ok). rewrite Z.eqb_refl, Hh. apply take_app_length'. lia.
Qed.

(** The checker after a page-allocator call, and the class the call keeps. *)
Definition ld_round (k : Z) (c : cpu) (ld : lockdep_t) : lockdep_t :=
  let c' := set_rflags (Z.clearbit (rflags c) IF_BIT) c in ld_released k c' (ld_acquired k c' ld).

Lemma pmm_alloc_ld c s ld r s' ld' :
  pmm_wf s -> pmm_alloc_page (c, (s, ld)) = Some (r, (c, (s', ld'))) ->
  ld' = ld_round (pmm_lockdep_class s) c ld /\ pmm_lockdep_class s' = pmm_lockdep_class s.
Proof.
  intros Hwf. unfold pmm_alloc_page, pmm_alloc_page_below.
  rewrite pmm_section_run by (apply Hwf || apply alloc_below_blind). cbv zeta. intros H. injection H as _ <- <-.
  split; [done|]. unfold alloc_below_body. case_if; [done|]. by destruct (for_ _ _ _ _) as [|[[]|]].
Qed.

Lemma pmm_free_ld a c s ld s' ld' :
  pmm_wf s -> pmm_free_page a (c, (s, ld)) = Some (tt, (c, (s', ld'))) ->
  (ld' = ld \/ ld' = ld_round (pmm_lockdep_class s) c ld) /\ pmm_lockdep_class s' = pmm_lockdep_class s.
Proof.
  intros Hwf. unfold pmm_free_page. case_if; [intros H; injection H as <- <-; by split; [left|]|].
  cbv zeta. case_if; [intros H; injection H as <- <-; by split; [left|]|].
  rewrite pmm_section_run by (apply Hwf || apply free_blind). cbv zeta. intros H. injection H as _ <- <-.
  split; [by right|]. unfold free_body. by case_if.
Qed.

Section Order.
Context (kh kp v slot : Z) (H : list Z) (Hlen : (length H <= 6)%nat).

Definition order_ok (inside : bool) (s : pmm_t * lockdep_t) : Prop :=
  pmm_wf s.1 /\ pmm_lockdep_class s.1 = kp /\
  quiet kh kp v slot (if inside then H ++ [kh] else H) s.2 /\ Forall (fun x => rank_of s.2 x < 20) H.

(** A page-allocator call inside the heap's section is silent. *)
Lemma quiet_round c ld :
  cpu_slot c = slot -> quiet kh kp v slot (H ++ [kh]) ld -> Forall (fun x => rank_of ld x < 20) H ->
  quiet kh kp v slot (H ++ [kh]) (ld_round kp c ld) /\ Forall (fun x => rank_of (ld_round kp c ld) x < 20) H.
Proof using Hlen.
  intros Hc Hq HF. unfold ld_round. set (c' := set_rflags _ c).
  assert (Hc' : cpu_slot c' = slot) by exact Hc. rewrite <- Hc' in *.
  destruct (quiet_push kh kp v (H ++ [kh]) kp c' ld) as [Hq1 Hr1]; [done|by right|rewrite length_app; cbn; lia| |].
  { destruct Hq as [_ [_ [_ Hkh]] [_ [_ Hkp]] _ _]. rewrite Hkp. apply Forall_app. split.
    - eapply Forall_impl; [exact HF|]. cbn. lia.
    - constructor; [lia|constructor]. }
  destruct (quiet_pop kh kp v (H ++ [kh]) kp c' (ld_acquired kp c' ld)) as [Hq2 Hr2]; [done|by right|].
  split; [done|]. eapply Forall_impl; [exact HF|]. intros x Hx. by rewrite Hr2, Hr1.
Qed.

(** The same allocator, with the lock-order promise in its invariant. *)
Program Definition ordered_pages : PageAlloc (pmm_t * lockdep_t) := {|
  pa_alloc := pmm_alloc_page;
  pa_free := pmm_free_page;
  pa_acquire k := on_ld (rix_lockdep_acquire k);
  pa_release k := on_ld (rix_lockdep_release k);
  pa_ok := order_ok;
  pa_class k := k = kh;
  pa_cpu c := cpu_slot c = slot;
  busy := pmm_busy;
|}.
Next Obligation. done. Qed.
Next Obligation.
  intros c [s ld] Hc (Hwf & Hk & Hq & HF). cbn in *.
  destruct (pmm_alloc_law c s ld Hwf) as (r & s' & ld' & E & Hwf' & Hb).
  destruct (pmm_alloc_ld c s ld r s' ld' Hwf E) as [-> Hk'].
  exists r, (s', ld_round (pmm_lockdep_class s) c ld). split; [done|]. split; [|done].
  split; [done|]. split; [cbn; congruence|]. rewrite Hk. cbn. by apply quiet_round.
Qed.
Next Obligation.
  intros c [s ld] a Hc (Hwf & Hk & Hq & HF) Ha. cbn in *.
  destruct (pmm_free_law c s ld a Hwf Ha) as (s' & ld' & E & Hwf' & Hb).
  destruct (pmm_free_ld a c s ld s' ld' Hwf E) as [Hld Hk'].
  exists (s', ld'). split; [done|]. split; [|done].
  split; [done|]. split; [cbn; congruence|]. cbn. destruct Hld as [->| ->]; [done|]. rewrite Hk. by apply quiet_round.
Qed.
Next Obligation.
  intros c [s ld] k Hc -> (Hwf & Hk & Hq & HF). cbn [fst snd] in *. destruct (ld_acquired_run kh c ld) as [rc E].
  exists rc, (s, ld_acquired kh c ld). split; [unfold on_ld; by rewrite E|]. split; [|done].
  split; [done|]. split; [done|]. cbn. rewrite <- Hc in *.
  destruct (quiet_push kh kp v H kh c ld) as [Hq1 Hr1]; [done|by left|lia| |].
  { destruct Hq as [_ [_ [_ Hkh]] _ _ _]. by rewrite Hkh. }
  split; [done|]. eapply Forall_impl; [exact HF|]. intros x Hx. by rewrite Hr1.
Qed.
Next Obligation.
  intros c [s ld] k Hc -> (Hwf & Hk & Hq & HF). cbn [fst snd] in *. destruct (ld_released_run kh c ld) as [rc E].
  exists rc, (s, ld_released kh c ld). split; [unfold on_ld; by rewrite E|]. split; [|done].
  split; [done|]. split; [done|]. cbn. rewrite <- Hc in *.
  destruct (quiet_pop kh kp v H kh c ld) as [Hq1 Hr1]; [done|by left|].
  split; [done|]. eapply Forall_impl; [exact HF|]. intros x Hx. by rewrite Hr1.
Qed.
End Order.

(** The heap respects the lock order. In any state where the checker is
    sound, the heap and page-allocator classes are registered at ranks 20 and
    30, and the CPU holds only classes ranked below 20 (at most six), every
    history of heap calls leaves the checker with not one violation more and
    the CPU holding exactly the classes it held before: heap -> pmm is never
    reversed, every acquisition is released, on every branch of both
    allocators. *)
Theorem heap_lock_order_clean kh kp v H c h s ld ops
    (Hlen : (length H <= 6)%nat)
    (Hq : quiet kh kp v (cpu_slot c) H ld) (Hranks : Forall (fun x => rank_of ld x < 20) H)
    (Hpmm : pmm_wf s) (Hkp : pmm_lockdep_class s = kp) (Hkh : heap_lockdep_class h = kh)
    (Hwf : heap_wf (pmm_busy (s, ld)) h) (Hops : Forall heap_op_ok ops) :
  ∃ held_blocks h' s' ld', heap_history ops (live_blocks h) (c, (h, (s, ld))) = Some (held_blocks, (c, (h', (s', ld')))) ∧
    violations ld' = v ∧ held ld' (cpu_slot c) = H ∧ ld_wf ld'.
Proof.
  destruct (heap_history_run (PA := ordered_pages kh kp v (cpu_slot c) H Hlen) ops c h (s, ld) (live_blocks h))
    as (hb & h' & [s' ld'] & E & Hok & _); try done.
  exists hb, h', s', ld'. split; [exact E|]. destruct Hok as (_ & _ & [Hw _ _ Hv Hh] & _). done.
Qed.

Lemma heap_lock_order_clean_witness :
  ∃ ld, quiet 2 1 0 (cpu_slot mm_cpu) [] ld ∧
  ∃ hb h' s' ld', heap_history [HMalloc 100 0; HFree 0x100000]
      [] (mm_cpu, ({| current_page := 0; current_offset := 0; allocations := replicate 256 empty_record;
                      heap_lock := spin_free; heap_lockdep_class := 2 |}, (demo_pmm, ld)))
    = Some (hb, (mm_cpu, (h', (s', ld')))) ∧ violations ld' = 0 ∧ held ld' (cpu_slot mm_cpu) = [].
Proof.
  set (ld := snd (register_body "heap" 20 mm_cpu (snd (register_body "pmm" 30 mm_cpu lockdep_boot)))).
  assert (Hq : quiet 2 1 0 (cpu_slot mm_cpu) [] ld).
  { split.
    - apply register_body_wf, register_body_wf, lockdep_boot_wf.
    - split; [by exists "heap"%string|]. split; [lia|reflexivity].
    - split; [by exists "pmm"%string|]. split; [lia|reflexivity].
    - reflexivity.
    - reflexivity. }
  exists ld. split; [exact Hq|].
  destruct (heap_lock_order_clean 2 1 0 [] mm_cpu
    {| current_page := 0; current_offset := 0; allocations := replicate 256 empty_record;
       heap_lock := spin_free; heap_lockdep_class := 2 |} demo_pmm ld [HMalloc 100 0; HFree 0x100000]
    ltac:(cbn; lia) Hq ltac:(constructor)
    ltac:(apply init_bitmaps_wf; try lia; intros m Em; injection Em as <-; repeat constructor; unfold is_u8; lia)
    ltac:(vm_compute; reflexivity) eq_refl ltac:(by apply fresh_heap_wf)
    ltac:(repeat constructor; unfold is_u64; lia)) as (hb & h' & s' & ld' & E & Hv & Hh & _).
  exists hb, h', s', ld'. split; [exact E|]. split; [exact Hv|exact Hh].
Defined.

Lemma kmalloc_contract_witness :
  ∃ h', kmalloc 100 0 (mm_cpu, ({| current_page := 0; current_offset := 0; allocations := replicate 256 empty_record;
                                   heap_lock := spin_free; heap_lockdep_class := 0 |}, (demo_pmm, lockdep_boot)))
        = Some (0x100000, (mm_cpu, h')) ∧ 0x100000 mod 8 = 0.
Proof.
  destruct (kmalloc_contract (PA := pmm_page_alloc) mm_cpu {| current_page := 0; current_offset := 0; allocations := replicate 256 empty_record;
       heap_lock := spin_free; heap_lockdep_class := 0 |} (demo_pmm, lockdep_boot) 100 0 I I)
    as (r & h' & s' & E & _ & _ & _ & _ & Hr);
    [apply init_bitmaps_wf; try lia; intros m Em; injection Em as <-; repeat constructor; unfold is_u8; lia
    |by apply fresh_heap_wf|unfold is_u64; lia|unfold is_u64; lia|].
  assert (Hval : option_map fst (kmalloc 100 0 (mm_cpu, ({| current_page := 0; current_offset := 0;
      allocations := replicate 256 empty_record; heap_lock := spin_free; heap_lockdep_class := 0 |},
      (demo_pmm, lockdep_boot)))) = Some 0x100000) by (vm_compute; reflexivity).
  rewrite E in Hval. cbn [option_map fst] in Hval. injection Hval as Hval. subst r.
  exists (h', s'). split; [exact E|]. exact (proj1 (Hr ltac:(discriminate))).
Defined.
