(* ===== verification/Paging.v ===== *)
(** * Page tables in memory ([kernel/mm/vmm.h], the walks of [kernel/mm/vmm.c])

    Physical memory is a function from byte addresses to 64-bit words; a table at
    [t] is the 512 words at [t], [t + 8], .... This file holds the entry format,
    the read-only walks of the code ([vmm_translate], [vmm_query_flags],
    [vmm_walk_in_pml4]), the tree of tables below a root, its well-formedness, the
    address space it describes ([lookup]), and the effect on both of the few kinds
    of writes the mapper makes. *)
From stdpp Require Import base tactics list numbers.
From S2P Require Import Prelude Pmm.

Definition TABLE_ENTRIES : Z := 512.
Definition PAGE_MASK : Z := 0x000FFFFFFFFFF000.
Definition RIXURI_PTE_PRESENT : Z := bit 0.
Definition RIXURI_PTE_WRITE : Z := bit 1.
Definition RIXURI_PTE_USER : Z := bit 2.
Definition RIXURI_PTE_PWT : Z := bit 3.
Definition RIXURI_PTE_PCD : Z := bit 4.
Definition PTE_PS : Z := bit 7.
Definition RIXURI_PTE_OWNED : Z := bit 9.
Definition RIXURI_PTE_NX : Z := bit 63.
Definition LEAF_FLAGS : Z :=
  Z.lor (Z.lor (Z.lor (Z.lor (Z.lor (Z.lor RIXURI_PTE_PRESENT RIXURI_PTE_WRITE) RIXURI_PTE_USER) RIXURI_PTE_PWT) RIXURI_PTE_PCD) RIXURI_PTE_NX) RIXURI_PTE_OWNED.

(** What the queries report of a 2 MiB and of a 4 KiB leaf. *)
Definition HUGE_QUERY : Z := Z.lor (Z.lor (Z.lor RIXURI_PTE_PRESENT RIXURI_PTE_WRITE) RIXURI_PTE_USER) RIXURI_PTE_NX.
Definition PAGE_QUERY : Z := Z.lor HUGE_QUERY RIXURI_PTE_OWNED.

Definition memory : Type := Z -> Z.
Definition entry (m : memory) (table index : Z) : Z := m (table + 8 * index).
Definition set_entry (table index v : Z) (m : memory) : memory := fun x => if x =? table + 8 * index then v else m x.

Definition has (e flag : Z) : bool := truthy (Z.land e flag).
Definition entry_table (e : Z) : Z := Z.land e PAGE_MASK.
Definition canonical48 (va : Z) : bool := (va <? Z.shiftl 1 47) || (UINT64_MAX - Z.shiftl 1 47 + 1 <=? va).

Definition index4 (va : Z) : Z := Z.land (Z.shiftr va 39) 0x1FF.
Definition index3 (va : Z) : Z := Z.land (Z.shiftr va 30) 0x1FF.
Definition index2 (va : Z) : Z := Z.land (Z.shiftr va 21) 0x1FF.
Definition index1 (va : Z) : Z := Z.land (Z.shiftr va 12) 0x1FF.

(** ** The walks *)

(** [vmm_translate] under the root [pml4]. *)
Definition translate_in (m : memory) (pml4 va : Z) : Z :=
  if negb (canonical48 va) then 0
  else let e := entry m pml4 (index4 va) in
  if negb (has e RIXURI_PTE_PRESENT) then 0
  else let e := entry m (entry_table e) (index3 va) in
  if negb (has e RIXURI_PTE_PRESENT) then 0
  else let e := entry m (entry_table e) (index2 va) in
  if negb (has e RIXURI_PTE_PRESENT) then 0
  else if has e PTE_PS then u64 (Z.land e PAGE_MASK + Z.land va 0x1FFFFF)
  else let e := entry m (entry_table e) (index1 va) in
  if negb (has e RIXURI_PTE_PRESENT) then 0
  else u64 (Z.land e PAGE_MASK + Z.land va 0xFFF).

Definition query_flags_in (m : memory) (pml4 va : Z) : Z :=
  if negb (canonical48 va) then 0
  else let e := entry m pml4 (index4 va) in
  if negb (has e RIXURI_PTE_PRESENT) then 0
  else let e := entry m (entry_table e) (index3 va) in
  if negb (has e RIXURI_PTE_PRESENT) then 0
  else let e := entry m (entry_table e) (index2 va) in
  if negb (has e RIXURI_PTE_PRESENT) then 0
  else if has e PTE_PS then Z.land e HUGE_QUERY
  else let e := entry m (entry_table e) (index1 va) in Z.land e PAGE_QUERY.

(** [vmm_phys_ptr]: 0 for [NULL]. *)
Definition vmm_phys_ptr (physical_address : Z) : Z :=
  if (physical_address =? 0) || truthy (Z.land physical_address 0xFFF) || (RIXURI_MAX_PHYS_BYTES <=? physical_address) then 0
  else physical_address.

(** What [vmm_walk_in_pml4] writes through its result pointers, all of them
    given; a pointer left out loses its field only. *)
Record walk_out := { out_pml4e : Z; out_pdpte : Z; out_pde : Z; out_pte : Z; out_phys : Z; out_flags : Z }.

Definition bad_table (phys : Z) : bool :=
  (phys =? 0) || truthy (Z.land phys 0xFFF) || (RIXURI_MAX_PHYS_BYTES <=? phys).

Definition vmm_walk_in_pml4 (m : memory) (pml4_phys va : Z) : Z * walk_out :=
  let out := {| out_pml4e := 0; out_pdpte := 0; out_pde := 0; out_pte := 0; out_phys := 0; out_flags := 0 |} in
  if bad_table pml4_phys then (-1, out)
  else if negb (canonical48 va) then (-1, out)
  else let pml4 := vmm_phys_ptr pml4_phys in
  if pml4 =? 0 then (-1, out)
  else let pml4e := entry m pml4 (index4 va) in
  let out := {| out_pml4e := pml4e; out_pdpte := 0; out_pde := 0; out_pte := 0; out_phys := 0; out_flags := 0 |} in
  if negb (has pml4e RIXURI_PTE_PRESENT) then (1, out)
  else let pdpt_phys := Z.land pml4e PAGE_MASK in
  if bad_table pdpt_phys then (-1, out)
  else let pdpt := vmm_phys_ptr pdpt_phys in
  if pdpt =? 0 then (-1, out)
  else let pdpte := entry m pdpt (index3 va) in
  let out := {| out_pml4e := pml4e; out_pdpte := pdpte; out_pde := 0; out_pte := 0; out_phys := 0; out_flags := 0 |} in
  if negb (has pdpte RIXURI_PTE_PRESENT) then (1, out)
  else if has pdpte PTE_PS then
    (0, {| out_pml4e := pml4e; out_pdpte := pdpte; out_pde := 0; out_pte := 0;
           out_phys := u64 (Z.land pdpte PAGE_MASK + Z.land va 0x3FFFFFFF); out_flags := Z.land pdpte HUGE_QUERY |})
  else let pd_phys := Z.land pdpte PAGE_MASK in
  if bad_table pd_phys then (-1, out)
  else let pd := vmm_phys_ptr pd_phys in
  if pd =? 0 then (-1, out)
  else let pde := entry m pd (index2 va) in
  let out := {| out_pml4e := pml4e; out_pdpte := pdpte; out_pde := pde; out_pte := 0; out_phys := 0; out_flags := 0 |} in
  if negb (has pde RIXURI_PTE_PRESENT) then (1, out)
  else if has pde PTE_PS then
    (0, {| out_pml4e := pml4e; out_pdpte := pdpte; out_pde := pde; out_pte := 0;
           out_phys := u64 (Z.land pde PAGE_MASK + Z.land va 0x1FFFFF); out_flags := Z.land pde HUGE_QUERY |})
  else let pt_phys := Z.land pde PAGE_MASK in
  if bad_table pt_phys then (-1, out)
  else let pt := vmm_phys_ptr pt_phys in
  if pt =? 0 then (-1, out)
  else let pte := entry m pt (index1 va) in
  let out := {| out_pml4e := pml4e; out_pdpte := pdpte; out_pde := pde; out_pte := pte; out_phys := 0; out_flags := 0 |} in
  if negb (has pte RIXURI_PTE_PRESENT) then (1, out)
  else (0, {| out_pml4e := pml4e; out_pdpte := pdpte; out_pde := pde; out_pte := pte;
              out_phys := u64 (Z.land pte PAGE_MASK + Z.land va 0xFFF); out_flags := Z.land pte PAGE_QUERY |}).

(** ** The tree of tables

    A path is the list of indices taken from the root; [tbl m 0 root p] is the
    table it leads to. Depth 0 is the PML4, 1 a PDPT, 2 a PD, 3 a PT; an entry of
    a PD with the size bit set is a 2 MiB leaf. *)
Definition present (e : Z) : bool := has e RIXURI_PTE_PRESENT.
Definition huge (e : Z) : bool := has e PTE_PS.

Definition next (d : nat) (e : Z) : option Z :=
  if present e && negb ((d =? 2)%nat && huge e) then Some (entry_table e) else None.

Fixpoint tbl (m : memory) (d : nat) (t : Z) (p : list Z) : option Z :=
  match p with
  | [] => Some t
  | i :: p => match next d (entry m t i) with Some t' => tbl m (S d) t' p | None => None end
  end.

Definition index_ok (i : Z) : Prop := 0 <= i < 512.
Definition path_ok (p : list Z) : Prop := Forall index_ok p /\ (length p <= 3)%nat.

Definition table_ok (a : Z) : Prop := 0 < a < RIXURI_MAX_PHYS_BYTES /\ a mod 4096 = 0.

(** [B] tells the pages the frame allocator has handed out. *)
Record tables_wf (m : memory) (B : Z -> bool) (root : Z) : Prop := {
  w_u64 : forall x, is_u64 (m x);
  w_tbl : forall p a, path_ok p -> tbl m 0 root p = Some a -> table_ok a /\ B a = true;
  w_inj : forall p q a, path_ok p -> path_ok q -> tbl m 0 root p = Some a -> tbl m 0 root q = Some a -> p = q;
  w_no_1g : forall i j a, index_ok i -> index_ok j -> tbl m 0 root [i] = Some a -> present (entry m a j) = true -> huge (entry m a j) = false;
  w_2m : forall i j k a, index_ok i -> index_ok j -> index_ok k -> tbl m 0 root [i; j] = Some a ->
    present (entry m a k) = true -> huge (entry m a k) = true -> entry_table (entry m a k) + 2 ^ 21 <= 2 ^ 52;
}.

Definition is_table (m : memory) (root a : Z) : Prop := exists p, path_ok p /\ tbl m 0 root p = Some a.

(** The 4 KiB leaf at four indices; a 2 MiB leaf stands for its 512 pieces. *)
Definition huge_piece (e i1 : Z) : Z :=
  Z.lor (Z.lor (entry_table e + i1 * 0x1000) RIXURI_PTE_PRESENT) (Z.land e (Z.lor (Z.lor RIXURI_PTE_WRITE RIXURI_PTE_USER) RIXURI_PTE_NX)).

Definition leaf (m : memory) (root i4 i3 i2 i1 : Z) : Z :=
  match tbl m 0 root [i4; i3; i2] with
  | Some t => entry m t i1
  | None => match tbl m 0 root [i4; i3] with
            | Some t => let e := entry m t i2 in if present e then huge_piece e i1 else 0
            | None => 0
            end
  end.

(** The address space below a root: for each page, the frame and the flags the
    queries report, with the size bit. *)
Definition VIEW : Z := Z.lor PAGE_QUERY PTE_PS.
Definition seen_leaf (e : Z) : option (Z * Z) := if present e then Some (entry_table e, Z.land e VIEW) else None.
Definition lookup (m : memory) (root i4 i3 i2 i1 : Z) : option (Z * Z) := seen_leaf (leaf m root i4 i3 i2 i1).
Definition lookup_va (m : memory) (root va : Z) : option (Z * Z) := lookup m root (index4 va) (index3 va) (index2 va) (index1 va).

(** The 2 MiB leaves. *)
Definition huge_at (m : memory) (root i4 i3 i2 : Z) : Prop :=
  exists t, tbl m 0 root [i4; i3] = Some t /\ present (entry m t i2) = true /\ huge (entry m t i2) = true.

(** ** Entries bit by bit *)

Lemma present_bit e : present e = Z.testbit e 0.
Proof. apply land_bit_test. lia. Qed.
Lemma huge_bit e : huge e = Z.testbit e 7.
Proof. apply land_bit_test. lia. Qed.

Lemma mask_ones : PAGE_MASK = Z.shiftl (Z.ones 40) 12.
Proof. reflexivity. Qed.

Lemma entry_table_val e : 0 <= e -> entry_table e = (e / 4096) mod 2 ^ 40 * 4096.
Proof.
  intros He. unfold entry_table. rewrite mask_ones. change 4096 with (2 ^ 12).
  rewrite <- (Z.shiftr_div_pow2 e), <- Z.land_ones, <- Z.shiftl_mul_pow2 by lia.
  apply Z.bits_inj'. intros n Hn. rewrite Z.land_spec. destruct (decide (n < 12)).
  - rewrite !Z.shiftl_spec_low by lia. apply andb_false_r.
  - rewrite !Z.shiftl_spec, Z.land_spec, Z.shiftr_spec by lia. do 2 f_equal. lia.
Qed.

Lemma entry_table_range e : is_u64 e -> 0 <= entry_table e < 2 ^ 52 /\ entry_table e mod 4096 = 0.
Proof.
  intros He. unfold is_u64 in He. rewrite entry_table_val by lia. pose proof (Z.mod_pos_bound (e / 4096) (2 ^ 40) ltac:(lia)).
  rewrite Z.mod_mul by lia. lia.
Qed.

(** An aligned frame address is its own frame, and has no flag bits. *)
Lemma frame_id a : 0 <= a < 2 ^ 52 -> a mod 4096 = 0 -> entry_table a = a.
Proof.
  intros Ha Hm. rewrite entry_table_val by lia. rewrite Z.mod_small by (split; [apply Z.div_pos; lia|apply Z.div_lt_upper_bound; lia]).
  pose proof (Z.div_mod a 4096 ltac:(lia)). lia.
Qed.

Lemma frame_flags a f : 0 <= a < 2 ^ 52 -> a mod 4096 = 0 -> Z.land PAGE_MASK f = 0 -> Z.land a f = 0.
Proof. intros Ha Hm Hf. rewrite <- (frame_id a Ha Hm). unfold entry_table. by rewrite <- Z.land_assoc, Hf, Z.land_0_r. Qed.

Lemma frame_low a n : a mod 4096 = 0 -> 0 <= n < 12 -> Z.testbit a n = false.
Proof.
  intros Ha Hn. pose proof (Z.div_mod a 4096 ltac:(lia)). replace a with (a / 4096 * 2 ^ 12) by lia. apply Z.mul_pow2_bits_low. lia.
Qed.

(** A frame with flags: what the mapper writes. *)
Lemma entry_of_frame a f : 0 <= a < 2 ^ 52 -> a mod 4096 = 0 -> Z.land f PAGE_MASK = 0 -> entry_table (Z.lor a f) = a.
Proof. intros Ha Hm Hf. unfold entry_table. rewrite Z.land_lor_distr_l, Hf, Z.lor_0_r. by apply frame_id. Qed.

Lemma entry_flags a f q : 0 <= a < 2 ^ 52 -> a mod 4096 = 0 -> Z.land PAGE_MASK q = 0 -> Z.land (Z.lor a f) q = Z.land f q.
Proof. intros Ha Hm Hq. by rewrite Z.land_lor_distr_l, (frame_flags a q), Z.lor_0_l. Qed.

Lemma present_flags a f : 0 <= a < 2 ^ 52 -> a mod 4096 = 0 -> present (Z.lor a f) = present f.
Proof. intros Ha Hm. unfold present, has. by rewrite entry_flags. Qed.
Lemma huge_flags a f : 0 <= a < 2 ^ 52 -> a mod 4096 = 0 -> huge (Z.lor a f) = huge f.
Proof. intros Ha Hm. unfold huge, has. by rewrite entry_flags. Qed.

Lemma masked_frame f k : Z.land k PAGE_MASK = 0 -> Z.land (Z.land f k) PAGE_MASK = 0.
Proof. intros H. by rewrite <- Z.land_assoc, H, Z.land_0_r. Qed.

(** A leaf entry written by the mapper. *)
Lemma leaf_entry pa flags : 0 <= pa < 2 ^ 52 -> pa mod 4096 = 0 ->
  seen_leaf (Z.lor (Z.land pa PAGE_MASK) (Z.land flags LEAF_FLAGS)) = if present flags then Some (pa, Z.land flags PAGE_QUERY) else None.
Proof.
  intros Hpa Hm. fold (entry_table pa). rewrite frame_id by done. unfold seen_leaf. rewrite present_flags by done.
  assert (E : present (Z.land flags LEAF_FLAGS) = present flags) by (unfold present, has; by rewrite <- Z.land_assoc). rewrite E.
  destruct (present flags); [|done]. rewrite entry_of_frame by (done || by apply masked_frame). rewrite entry_flags by done.
  by rewrite <- Z.land_assoc.
Qed.

(** The pieces of a 2 MiB leaf. *)
Lemma huge_piece_spec e i : is_u64 e -> present e = true -> index_ok i -> entry_table e + 2 ^ 21 <= 2 ^ 52 ->
  seen_leaf (huge_piece e i) = Some (entry_table e + i * 4096, Z.land e HUGE_QUERY) /\ is_u64 (huge_piece e i).
Proof.
  intros He Hp Hi Hb. unfold index_ok in Hi. destruct (entry_table_range e He) as [Hr Hm].
  set (x := entry_table e + i * 4096). assert (Hx : 0 <= x < 2 ^ 52) by (unfold x; lia).
  assert (Hxm : x mod 4096 = 0) by (unfold x; by rewrite Z_mod_plus_full).
  unfold huge_piece. change (i * 0x1000) with (i * 4096). fold x. rewrite <- Z.lor_assoc. set (f := Z.lor RIXURI_PTE_PRESENT _). split.
  - unfold seen_leaf. rewrite present_flags by done.
    assert (Ef : present f = true) by (rewrite present_bit; unfold f; by rewrite Z.lor_spec). rewrite Ef.
    rewrite entry_of_frame by (done || (unfold f; by rewrite Z.land_lor_distr_l, masked_frame)). f_equal. f_equal.
    rewrite entry_flags by done. unfold f. rewrite Z.land_lor_distr_l, <- Z.land_assoc.
    change (Z.land RIXURI_PTE_PRESENT VIEW) with RIXURI_PTE_PRESENT.
    change (Z.land (Z.lor (Z.lor RIXURI_PTE_WRITE RIXURI_PTE_USER) RIXURI_PTE_NX) VIEW) with (Z.lor (Z.lor RIXURI_PTE_WRITE RIXURI_PTE_USER) RIXURI_PTE_NX).
    change HUGE_QUERY with (Z.lor RIXURI_PTE_PRESENT (Z.lor (Z.lor RIXURI_PTE_WRITE RIXURI_PTE_USER) RIXURI_PTE_NX)).
    rewrite (Z.land_lor_distr_r e RIXURI_PTE_PRESENT). f_equal. rewrite present_bit in Hp. apply Z.bits_inj'. intros n Hn.
    unfold RIXURI_PTE_PRESENT. rewrite Z.land_spec, bit_testbit by lia. destruct (n =? 0) eqn:E; bool_to_prop; [by subst; rewrite Hp|by rewrite andb_false_r].
  - unfold is_u64. apply lor_range; [lia|lia|]. apply lor_range; [lia|vm_compute; split; congruence|]. apply land_range; [lia|exact He].
Qed.

(** ** Indices *)

Lemma land_low x n : 0 <= n -> Z.land x (Z.ones n) = x mod 2 ^ n.
Proof. intros. by apply Z.land_ones. Qed.

Lemma index_val va k : 0 <= k -> Z.land (Z.shiftr va k) 0x1FF = va / 2 ^ k mod 512.
Proof. intros Hk. change 0x1FF with (Z.ones 9). rewrite Z.land_ones, Z.shiftr_div_pow2 by lia. done. Qed.

Lemma index_range va k : 0 <= k -> index_ok (Z.land (Z.shiftr va k) 0x1FF).
Proof. intros Hk. rewrite index_val by done. apply Z.mod_pos_bound. lia. Qed.

Lemma index4_ok va : index_ok (index4 va).
Proof. by apply index_range. Qed.
Lemma index3_ok va : index_ok (index3 va).
Proof. by apply index_range. Qed.
Lemma index2_ok va : index_ok (index2 va).
Proof. by apply index_range. Qed.
Lemma index1_ok va : index_ok (index1 va).
Proof. by apply index_range. Qed.
#[export] Hint Resolve index4_ok index3_ok index2_ok index1_ok : rix.

Lemma low21 va : Z.land va 0x1FFFFF = index1 va * 4096 + va mod 4096.
Proof.
  unfold index1. rewrite index_val by lia. change 0x1FFFFF with (Z.ones 21). rewrite Z.land_ones by lia.
  change (2 ^ 21) with (4096 * 512). rewrite Z.rem_mul_r by lia. change (2 ^ 12) with 4096. lia.
Qed.
Lemma low12 va : Z.land va 0xFFF = va mod 4096.
Proof. change 0xFFF with (Z.ones 12). by rewrite Z.land_ones by lia. Qed.

(** The 36-bit page number of an address is its four indices. *)
Lemma indices_page va : 0 <= va ->
  va / 4096 mod 2 ^ 36 = index4 va * 2 ^ 27 + index3 va * 2 ^ 18 + index2 va * 2 ^ 9 + index1 va.
Proof.
  intros Hva. unfold index4, index3, index2, index1. rewrite !index_val by lia. change (2 ^ 12) with 4096.
  set (x := va / 4096).
  assert (E1 : va / 2 ^ 21 = x / 512) by (unfold x; rewrite Z.div_div by lia; f_equal; lia).
  assert (E2 : va / 2 ^ 30 = x / 512 / 512) by (unfold x; rewrite !Z.div_div by lia; f_equal; lia).
  assert (E3 : va / 2 ^ 39 = x / 512 / 512 / 512) by (unfold x; rewrite !Z.div_div by lia; f_equal; lia).
  rewrite E1, E2, E3. change (2 ^ 36) with (512 * (512 * (512 * 512))). rewrite !Z.rem_mul_r by lia.
  change (2 ^ 27) with (512 * 512 * 512). change (2 ^ 18) with (512 * 512). change (2 ^ 9) with 512. lia.
Qed.

(** Canonical addresses of different pages differ in some index. *)
Lemma canonical_indices va va' : is_u64 va -> is_u64 va' -> canonical48 va = true -> canonical48 va' = true ->
  index4 va = index4 va' -> index3 va = index3 va' -> index2 va = index2 va' -> index1 va = index1 va' -> va / 4096 = va' / 4096.
Proof.
  unfold is_u64, canonical48, UINT64_MAX. change (Z.shiftl 1 47) with (2 ^ 47). intros Hva Hva' Hc Hc' E4 E3 E2 E1.
  pose proof (indices_page va ltac:(lia)) as P. pose proof (indices_page va' ltac:(lia)) as P'.
  rewrite E4, E3, E2, E1, <- P' in P. clear P'.
  assert (Hhalf : forall v, 0 <= v < 2 ^ 64 -> (v <? 2 ^ 47) || (2 ^ 64 - 1 - 2 ^ 47 + 1 <=? v) = true ->
    v / 4096 mod 2 ^ 36 = v / 4096 /\ v / 4096 < 2 ^ 35 \/ v / 4096 = v / 4096 mod 2 ^ 36 + (2 ^ 52 - 2 ^ 36) /\ 2 ^ 35 <= v / 4096 mod 2 ^ 36).
  { intros v Hv Hcv. apply orb_true_iff in Hcv as [Hcv|Hcv]; [apply Z.ltb_lt in Hcv|apply Z.leb_le in Hcv].
    - left. assert (v / 4096 < 2 ^ 35) by (apply Z.div_lt_upper_bound; lia). split; [|done]. apply Z.mod_small. pose proof (Z.div_pos v 4096). lia.
    - right. assert (2 ^ 52 - 2 ^ 35 <= v / 4096) by (apply Z.div_le_lower_bound; lia). assert (v / 4096 < 2 ^ 52) by (apply Z.div_lt_upper_bound; lia).
      assert (Em : v / 4096 mod 2 ^ 36 = v / 4096 - (2 ^ 52 - 2 ^ 36)); [|lia].
      symmetry. apply Z.mod_unique_pos with (2 ^ 16 - 1); lia. }
  destruct (Hhalf va Hva Hc), (Hhalf va' Hva' Hc'); lia.
Qed.

(** ** The walks read the address space *)

Lemma seen_present e : present e = false -> seen_leaf e = None.
Proof. intros H. unfold seen_leaf. by rewrite H. Qed.

Lemma seen_0 : seen_leaf 0 = None.
Proof. reflexivity. Qed.

Lemma translate_lookup m B root va :
  tables_wf m B root -> is_u64 va -> canonical48 va = true ->
  translate_in m root va = match lookup_va m root va with Some (f, _) => f + va mod 4096 | None => 0 end /\
  match lookup_va m root va with Some (_, fl) => query_flags_in m root va = Z.land fl PAGE_QUERY | None => present (query_flags_in m root va) = false end.
Proof.
  intros Hwf Hva Hc. unfold translate_in, query_flags_in, lookup_va, lookup, leaf. rewrite Hc. cbn [negb tbl].
  assert (Hoff : 0 <= va mod 4096 < 4096) by (apply Z.mod_pos_bound; lia).
  fold (present (entry m root (index4 va))). unfold next. cbn [Nat.eqb andb].
  destruct (present (entry m root (index4 va))) eqn:P4; cbn [negb andb]; [|done].
  set (t3 := entry_table (entry m root (index4 va))). fold (present (entry m t3 (index3 va))).
  destruct (present (entry m t3 (index3 va))) eqn:P3; cbn [negb andb]; [|done].
  assert (T2 : tbl m 0 root [index4 va; index3 va] = Some (entry_table (entry m t3 (index3 va)))).
  { cbn [tbl]. unfold next. cbn [Nat.eqb andb negb]. rewrite P4. cbn [andb]. fold t3. rewrite P3. done. }
  set (t2 := entry_table (entry m t3 (index3 va))) in *. set (e2 := entry m t2 (index2 va)). fold (present e2). fold (huge e2).
  destruct (present e2) eqn:P2; cbn [negb andb]; [|done]. destruct (huge e2) eqn:H2; cbn [negb].
  - pose proof (w_2m _ _ _ Hwf _ _ _ _ (index4_ok va) (index3_ok va) (index2_ok va) T2 P2 H2) as Hb. fold e2 in Hb.
    destruct (huge_piece_spec e2 (index1 va) (w_u64 _ _ _ Hwf _) P2 (index1_ok va) Hb) as [-> _].
    destruct (entry_table_range e2 (w_u64 _ _ _ Hwf _)) as [Hr _]. pose proof (index1_ok va) as Hi. unfold index_ok in Hi.
    split; [|by rewrite <- Z.land_assoc]. fold (entry_table e2). rewrite low21, u64_id by (unfold is_u64; lia). lia.
  - set (e1 := entry m (entry_table e2) (index1 va)). unfold seen_leaf. fold (present e1). destruct (present e1) eqn:P1; cbn [negb].
    + split; [|by rewrite <- Z.land_assoc]. fold (entry_table e1). destruct (entry_table_range e1 (w_u64 _ _ _ Hwf _)) as [Hr _].
      rewrite low12, u64_id by (unfold is_u64; lia). done.
    + split; [done|]. unfold present, has in *. by rewrite <- Z.land_assoc.
Qed.

(** ** Paths *)

Lemma tbl_app m d t p q : tbl m d t (p ++ q) = match tbl m d t p with Some t' => tbl m (d + length p) t' q | None => None end.
Proof.
  revert d t. induction p as [|i p IH]; intros d t; cbn [app tbl length]; [by rewrite Nat.add_0_r|].
  destruct (next d (entry m t i)) as [t'|]; [|done]. rewrite IH. by replace (d + S (length p))%nat with (S d + length p)%nat by lia.
Qed.

Lemma tbl_snoc m d t p i : tbl m d t (p ++ [i]) = match tbl m d t p with Some t' => next (d + length p) (entry m t' i) | None => None end.
Proof. rewrite tbl_app. destruct (tbl m d t p) as [t'|]; [|done]. cbn [tbl]. by destruct (next _ _). Qed.

(** Two memories that agree on the entries along a path, as far as the walk can
    tell, lead to the same table. *)
Lemma tbl_ext m m' d t p :
  (forall q i r a, p = q ++ i :: r -> tbl m d t q = Some a -> next (d + length q) (entry m' a i) = next (d + length q) (entry m a i)) ->
  tbl m' d t p = tbl m d t p.
Proof.
  revert d t. induction p as [|i p IH]; intros d t H; [done|]. cbn [tbl].
  pose proof (H [] i p t eq_refl eq_refl) as H0. cbn [length] in H0. rewrite Nat.add_0_r in H0. rewrite H0.
  destruct (next d (entry m t i)) as [t'|] eqn:E; [|done]. apply IH. intros q j r a -> Hq.
  specialize (H (i :: q) j r a eq_refl). cbn [tbl length] in H. rewrite E in H. replace (d + S (length q))%nat with (S d + length q)%nat in H by lia.
  by apply H.
Qed.

Lemma path_ok_app p q : path_ok (p ++ q) -> path_ok p.
Proof. intros [H1 H2]. rewrite Forall_app in H1. rewrite length_app in H2. split; [tauto|lia]. Qed.

Lemma path_ok_snoc p i : path_ok (p ++ [i]) <-> Forall index_ok p /\ index_ok i /\ (length p <= 2)%nat.
Proof.
  unfold path_ok. rewrite Forall_app, length_app. cbn [length]. split.
  - intros [[H1 H2] H3]. inversion H2. split; [done|]. split; [done|lia].
  - intros (H1 & H2 & H3). split; [split; [done|by constructor]|lia].
Qed.

(** Entries of different aligned tables are at different addresses. *)
Lemma entry_apart a b i j : a mod 4096 = 0 -> b mod 4096 = 0 -> a <> b -> index_ok i -> index_ok j -> a + 8 * i <> b + 8 * j.
Proof.
  unfold index_ok. intros Ha Hb Hne Hi Hj E. pose proof (Z.div_mod a 4096 ltac:(lia)). pose proof (Z.div_mod b 4096 ltac:(lia)). lia.
Qed.

Definition in_page (f x : Z) : Prop := f <= x < f + 4096.

Lemma entry_in_page a f i : a mod 4096 = 0 -> f mod 4096 = 0 -> a <> f -> index_ok i -> ~ in_page f (a + 8 * i).
Proof.
  unfold index_ok, in_page. intros Ha Hf Hne Hi H. pose proof (Z.div_mod a 4096 ltac:(lia)). pose proof (Z.div_mod f 4096 ltac:(lia)). lia.
Qed.

Lemma no_table_fresh m B root f : tables_wf m B root -> B f = false -> ~ is_table m root f.
Proof. intros Hwf Hf (p & Hp & E). destruct (w_tbl _ _ _ Hwf p f Hp E) as [_ Hb]. congruence. Qed.

(** ** Changing one entry

    [m'] differs from [m] in the entry [i] of the table at path [p], and possibly
    in a page [f] that is no table. *)
Section Change.
Context (m m' : memory) (B : Z -> bool) (root : Z) (p : list Z) (i a f : Z).
Context (Hwf : tables_wf m B root) (Hp : path_ok p) (Hi : index_ok i) (Ha : tbl m 0 root p = Some a).
Context (Hfm : f mod 4096 = 0) (Hf : ~ is_table m root f).
Context (Hsame : forall x, x <> a + 8 * i -> ~ in_page f x -> m' x = m x).

(** Entries of other tables are as before. *)
Lemma change_entry q b j : path_ok q -> tbl m 0 root q = Some b -> index_ok j -> (q <> p \/ j <> i) -> entry m' b j = entry m b j.
Proof using Hwf Hp Hi Ha Hfm Hf Hsame.
  intros Hq Hb Hj Hne. unfold entry. destruct (w_tbl _ _ _ Hwf q b Hq Hb) as [[_ Hbm] _]. destruct (w_tbl _ _ _ Hwf p a Hp Ha) as [[_ Ham] _].
  apply Hsame.
  - destruct (decide (b = a)) as [->|Hba].
    + destruct Hne as [Hne|Hne]; [exfalso; apply Hne; by apply (w_inj _ _ _ Hwf q p a)|]. lia.
    + by apply entry_apart.
  - apply entry_in_page; [done|done| |done]. intros ->. apply Hf. by exists q.
Qed.

(** So are the tables not below the entry. *)
Lemma change_other q : path_ok q -> ~ (p ++ [i]) `prefix_of` q -> tbl m' 0 root q = tbl m 0 root q.
Proof using Hwf Hp Hi Ha Hfm Hf Hsame.
  intros Hq Hpre. apply tbl_ext. intros q1 j r b -> Hb. f_equal. apply path_ok_app in Hq as Hq1.
  assert (Hj : index_ok j) by (destruct Hq as [HF _]; rewrite Forall_app in HF; destruct HF as [_ HF]; by inversion HF).
  apply (change_entry q1); try done. destruct (decide (q1 = p)) as [->|]; [|by left]. right. intros ->. apply Hpre. exists r. by rewrite <- app_assoc.
Qed.

(** And those below, when the entry still leads to the same table. *)
Lemma change_same q : path_ok q -> next (length p) (entry m' a i) = next (length p) (entry m a i) -> tbl m' 0 root q = tbl m 0 root q.
Proof using Hwf Hp Hi Ha Hfm Hf Hsame.
  intros Hq Hn. apply tbl_ext. intros q1 j r b -> Hb. apply path_ok_app in Hq as Hq1.
  assert (Hj : index_ok j) by (destruct Hq as [HF _]; rewrite Forall_app in HF; destruct HF as [_ HF]; by inversion HF).
  destruct (decide (q1 = p)) as [->|]; [|f_equal; apply (change_entry q1); try done; by left].
  assert (b = a) as -> by congruence. destruct (decide (j = i)) as [->|]; [by rewrite Nat.add_0_l|].
  f_equal. apply (change_entry p); try done. by right.
Qed.

Lemma change_below r : tbl m' 0 root (p ++ i :: r) = match next (length p) (entry m' a i) with Some t => tbl m' (S (length p)) t r | None => None end.
Proof using Hwf Hp Hi Ha Hfm Hf Hsame.
  rewrite tbl_app. assert (E : tbl m' 0 root p = Some a).
  { rewrite change_other; [done|done|]. intros [r' Hr]. apply (f_equal length) in Hr. rewrite !length_app in Hr. cbn in Hr. lia. }
  rewrite E. done.
Qed.
End Change.

Lemma prefix_dec_paths (p q : list Z) : {p `prefix_of` q} + {~ p `prefix_of` q}.
Proof. apply prefix_dec. Qed.

Lemma path3 i4 i3 i2 : index_ok i4 -> index_ok i3 -> index_ok i2 -> path_ok [i4; i3; i2].
Proof. intros. split; [by repeat apply Forall_cons_2|cbn; lia]. Qed.
Lemma path2 i4 i3 : index_ok i4 -> index_ok i3 -> path_ok [i4; i3].
Proof. intros. split; [by repeat apply Forall_cons_2|cbn; lia]. Qed.
Lemma path1 i4 : index_ok i4 -> path_ok [i4].
Proof. intros. split; [by repeat apply Forall_cons_2|cbn; lia]. Qed.
Lemma path1_nil : path_ok [].
Proof. split; [done|cbn; lia]. Qed.
#[export] Hint Resolve path3 path2 path1 path1_nil : rix.

Lemma prefix_snoc_3 (p : list Z) i i4 i3 i2 : (p ++ [i]) `prefix_of` [i4; i3; i2] ->
  p = [] /\ i = i4 \/ p = [i4] /\ i = i3 \/ p = [i4; i3] /\ i = i2.
Proof.
  intros [r Hr]. destruct p as [|x [|y [|z p]]]; cbn in Hr.
  - left. split; congruence.
  - right. left. split; congruence.
  - right. right. split; congruence.
  - exfalso. apply (f_equal length) in Hr. cbn in Hr. rewrite !length_app in Hr. cbn in Hr. lia.
Qed.

(** A leaf is decided by the tables on its path and the entries at their end. *)
Lemma lookup_congr m m' root i4 i3 i2 i1 :
  tbl m' 0 root [i4; i3; i2] = tbl m 0 root [i4; i3; i2] -> tbl m' 0 root [i4; i3] = tbl m 0 root [i4; i3] ->
  (forall t, tbl m 0 root [i4; i3; i2] = Some t -> entry m' t i1 = entry m t i1) ->
  (forall t, tbl m 0 root [i4; i3; i2] = None -> tbl m 0 root [i4; i3] = Some t -> entry m' t i2 = entry m t i2) ->
  lookup m' root i4 i3 i2 i1 = lookup m root i4 i3 i2 i1.
Proof.
  intros H3 H2 E3 E2. unfold lookup, leaf. rewrite H3, H2. destruct (tbl m 0 root [i4; i3; i2]) as [t|] eqn:T3; [by rewrite (E3 t)|].
  destruct (tbl m 0 root [i4; i3]) as [t|] eqn:T2; [|done]. by rewrite (E2 t).
Qed.

Lemma table_0 m B root : tables_wf m B root -> ~ is_table m root 0.
Proof. intros Hwf (p & Hp & E). destruct (w_tbl _ _ _ Hwf p 0 Hp E) as [[H _] _]. lia. Qed.

(** *** A new table under an entry that had none *)
Section Grow.
Context (m m' : memory) (B B' : Z -> bool) (root : Z) (p : list Z) (i a f : Z).
Context (Hwf : tables_wf m B root) (Hpi : path_ok (p ++ [i])) (Ha : tbl m 0 root p = Some a).
Context (Hfok : table_ok f) (Hfree : B f = false) (HB : forall x, B x = true -> B' x = true) (HBf : B' f = true).
Context (Hsame : forall x, x <> a + 8 * i -> ~ in_page f x -> m' x = m x) (Hu : forall x, is_u64 (m' x)).
Context (Hold : next (length p) (entry m a i) = None) (Hnew : next (length p) (entry m' a i) = Some f) (Hnh : huge (entry m' a i) = false).
Context (Hupper : (length p < 2)%nat -> present (entry m a i) = false).
Context (Hzero : forall j, index_ok j -> (length p < 2)%nat -> present (entry m' f j) = false).
Context (Hpieces : forall j, index_ok j -> length p = 2%nat ->
  seen_leaf (entry m' f j) = seen_leaf (if present (entry m a i) then huge_piece (entry m a i) j else 0)).

Let Hp : path_ok p := path_ok_app p [i] Hpi.
Let Hi : index_ok i := proj1 (proj2 (proj1 (path_ok_snoc p i) Hpi)).
Let Hlen : (length p <= 2)%nat := proj2 (proj2 (proj1 (path_ok_snoc p i) Hpi)).
Let Hf : ~ is_table m root f := no_table_fresh m B root f Hwf Hfree.

Lemma grow_other q : path_ok q -> ~ (p ++ [i]) `prefix_of` q -> tbl m' 0 root q = tbl m 0 root q.
Proof using All. apply (change_other m m' B root p i a f Hwf Hp Hi Ha (proj2 Hfok) Hf Hsame). Qed.

Lemma grow_below r : path_ok (p ++ i :: r) -> tbl m' 0 root (p ++ i :: r) = match r with [] => Some f | _ => None end.
Proof using All.
  intros Hr. rewrite (change_below m m' B root p i a f Hwf Hp Hi Ha (proj2 Hfok) Hf Hsame), Hnew. destruct r as [|j r]; [done|].
  cbn [tbl]. unfold next. destruct Hr as [HF HL]. rewrite length_app in HL. cbn [length] in HL.
  rewrite Forall_app in HF. destruct HF as [_ HF]. inversion HF as [|? ? _ HF']. inversion HF' as [|? ? Hj _]. subst.
  by rewrite Hzero by (done || lia).
Qed.

Lemma grow_entry q b j : path_ok q -> tbl m 0 root q = Some b -> index_ok j -> (q <> p \/ j <> i) -> entry m' b j = entry m b j.
Proof using All. apply (change_entry m m' B root p i a f Hwf Hp Hi Ha (proj2 Hfok) Hf Hsame). Qed.

(** The tables afterwards: the old ones and the new one. *)
Lemma grow_tables q b : path_ok q -> tbl m' 0 root q = Some b -> (q = p ++ [i] /\ b = f) \/ (~ (p ++ [i]) `prefix_of` q /\ tbl m 0 root q = Some b).
Proof using All.
  intros Hq Hb. destruct (prefix_dec_paths (p ++ [i]) q) as [Hpre|Hpre].
  - destruct Hpre as [r ->]. rewrite <- app_assoc in *. cbn [app] in *. rewrite grow_below in Hb by done. destruct r; [|done].
    left. split; [done|congruence].
  - right. split; [done|]. by rewrite <- grow_other.
Qed.

Lemma grow_tbl : tbl m' 0 root (p ++ [i]) = Some f.
Proof using All. exact (grow_below [] Hpi). Qed.

Lemma grow_wf : tables_wf m' B' root.
Proof using All.
  split; [done|..].
  - intros q b Hq Hb. destruct (grow_tables q b Hq Hb) as [[-> ->]|[_ Hb']]; [done|].
    destruct (w_tbl _ _ _ Hwf q b Hq Hb') as [H1 H2]. auto.
  - intros q r b Hq Hr Hb1 Hb2. destruct (grow_tables q b Hq Hb1) as [[-> ->]|[_ Hb1']], (grow_tables r _ Hr Hb2) as [[-> E]|[_ Hb2']].
    + done.
    + exfalso. apply Hf. by exists r.
    + subst. exfalso. apply Hf. by exists q.
    + by apply (w_inj _ _ _ Hwf q r b).
  - intros x y b Hx Hy Hb Hpr. destruct (grow_tables [x] b ltac:(auto with rix) Hb) as [[E ->]|[_ Hb']].
    + rewrite Hzero in Hpr; [done|done|]. apply (f_equal length) in E. rewrite length_app in E. cbn in E. lia.
    + destruct (decide ([x] = p /\ y = i)) as [[E1 E2]|Hne].
      * subst y. rewrite <- E1 in Ha. assert (b = a) as -> by congruence. done.
      * rewrite (grow_entry [x]) in * by (auto with rix || (destruct (decide ([x] = p)); [right; tauto|by left])). by apply (w_no_1g _ _ _ Hwf x y b).
  - intros x y z b Hx Hy Hz Hb Hpr Hh. destruct (grow_tables [x; y] b ltac:(auto with rix) Hb) as [[E ->]|[_ Hb']].
    + rewrite Hzero in Hpr; [done|done|]. apply (f_equal length) in E. rewrite length_app in E. cbn in E. lia.
    + destruct (decide ([x; y] = p /\ z = i)) as [[E1 E2]|Hne].
      * subst z. rewrite <- E1 in Ha. assert (b = a) as -> by congruence. congruence.
      * rewrite (grow_entry [x; y]) in * by (auto with rix || (destruct (decide ([x; y] = p)); [right; tauto|by left])). by apply (w_2m _ _ _ Hwf x y z b).
Qed.

Lemma grow_lookup i4 i3 i2 i1 : index_ok i4 -> index_ok i3 -> index_ok i2 -> index_ok i1 ->
  lookup m' root i4 i3 i2 i1 = lookup m root i4 i3 i2 i1.
Proof using All.
  intros H4 H3 H2 H1. destruct (prefix_dec_paths (p ++ [i]) [i4; i3; i2]) as [Hpre|Hpre].
  - pose proof grow_below as Gb. pose proof grow_tbl as Gt. pose proof Ha as Ha'. pose proof Hold as Hold'. pose proof Hzero as Hz. pose proof Hpieces as Hpc.
    apply prefix_snoc_3 in Hpre as [[E Ei]|[[E Ei]|[E Ei]]]; unfold lookup, leaf; rewrite Ei in Gb, Gt, Hold', Hpc; rewrite E in Gb, Gt, Ha', Hold', Hz, Hpc; cbn [length] in Hold', Hz, Hpc; cbn [app] in Gt.
    + assert (T3 : tbl m' 0 root [i4; i3; i2] = None) by (apply (Gb [i3; i2]); cbn [app]; auto with rix).
      assert (T2 : tbl m' 0 root [i4; i3] = None) by (apply (Gb [i3]); cbn [app]; auto with rix).
      rewrite T3, T2. cbn [tbl] in Ha' |- *. injection Ha' as <-. by rewrite Hold'.
    + assert (T3 : tbl m' 0 root [i4; i3; i2] = None) by (apply (Gb [i2]); cbn [app]; auto with rix).
      rewrite T3, Gt, Hz by (done || lia). change [i4; i3; i2] with ([i4] ++ [i3; i2]). change ([i4; i3]) with ([i4] ++ [i3]).
      rewrite !tbl_app, Ha'. cbn [length Nat.add tbl]. by rewrite Hold'.
    + rewrite Gt, Hpc by done. change [i4; i3; i2] with ([i4; i3] ++ [i2]). rewrite tbl_app, Ha'. cbn [length Nat.add tbl]. by rewrite Hold'.
  - assert (Hpre2 : ~ (p ++ [i]) `prefix_of` [i4; i3]) by (intros [r Hr]; apply Hpre; exists (r ++ [i2]); by rewrite app_assoc, <- Hr).
    apply lookup_congr; [apply grow_other; auto with rix|apply grow_other; auto with rix|..].
    + intros t Ht. apply (grow_entry [i4; i3; i2]); auto with rix. left. intros <-. cbn in Hlen. lia.
    + intros t _ Ht. apply (grow_entry [i4; i3]); auto with rix. destruct (decide ([i4; i3] = p)) as [E|]; [|by left]. right. intros ->.
      apply Hpre. rewrite <- E. by exists [].
Qed.

Lemma grow_huge i4 i3 i2 : index_ok i4 -> index_ok i3 -> index_ok i2 -> huge_at m' root i4 i3 i2 -> huge_at m root i4 i3 i2.
Proof using All.
  intros H4 H3 H2 (t & Ht & Hpr & Hh). destruct (grow_tables [i4; i3] t ltac:(auto with rix) Ht) as [[E ->]|[_ Ht']].
  - rewrite Hzero in Hpr; [done|done|]. apply (f_equal length) in E. rewrite length_app in E. cbn in E. lia.
  - destruct (decide ([i4; i3] = p /\ i2 = i)) as [[E1 E2]|Hne].
    + pose proof Ha as Ha'. rewrite <- E1 in Ha'. assert (t = a) as -> by congruence. rewrite E2 in Hh. congruence.
    + exists t. rewrite (grow_entry [i4; i3]) in Hpr, Hh by (auto with rix || (destruct (decide ([i4; i3] = p)); [right; tauto|by left])). done.
Qed.
End Grow.

(** *** A table entry rewritten to lead to the same table *)
Section Keep.
Context (m m' : memory) (B : Z -> bool) (root : Z) (p : list Z) (i a c : Z).
Context (Hwf : tables_wf m B root) (Hpi : path_ok (p ++ [i])) (Ha : tbl m 0 root p = Some a).
Context (Hsame : forall x, x <> a + 8 * i -> m' x = m x) (Hu : is_u64 (m' (a + 8 * i))).
Context (Hold : next (length p) (entry m a i) = Some c) (Hnew : next (length p) (entry m' a i) = Some c).
Context (Hnh : (0 < length p)%nat -> huge (entry m' a i) = false).

Let Hp : path_ok p := path_ok_app p [i] Hpi.
Let Hi : index_ok i := proj1 (proj2 (proj1 (path_ok_snoc p i) Hpi)).
Let Hlen : (length p <= 2)%nat := proj2 (proj2 (proj1 (path_ok_snoc p i) Hpi)).

Lemma keep_entry q b j : path_ok q -> tbl m 0 root q = Some b -> index_ok j -> (q <> p \/ j <> i) -> entry m' b j = entry m b j.
Proof using All. apply (change_entry m m' B root p i a 0 Hwf Hp Hi Ha eq_refl (table_0 m B root Hwf)). intros x Hx _. by apply Hsame. Qed.

Lemma keep_tbl q : path_ok q -> tbl m' 0 root q = tbl m 0 root q.
Proof using All.
  intros Hq. apply (change_same m m' B root p i a 0 Hwf Hp Hi Ha eq_refl (table_0 m B root Hwf)); [|done|congruence]. intros x Hx _. by apply Hsame.
Qed.

Lemma keep_u64 x : is_u64 (m' x).
Proof using All. destruct (decide (x = a + 8 * i)) as [->|Hx]; [done|]. rewrite Hsame by done. apply (w_u64 _ _ _ Hwf). Qed.

Lemma keep_wf : tables_wf m' B root.
Proof using All.
  split; [apply keep_u64|..].
  - intros q b Hq. rewrite keep_tbl by done. by apply (w_tbl _ _ _ Hwf).
  - intros q r b Hq Hr. rewrite !keep_tbl by done. by apply (w_inj _ _ _ Hwf).
  - intros x y b Hx Hy. rewrite keep_tbl by auto with rix. intros Hb Hpr. destruct (decide ([x] = p /\ y = i)) as [[E1 E2]|Hne].
    + pose proof Ha as Ha'. rewrite <- E1 in Ha'. assert (b = a) as -> by congruence. rewrite E2. apply Hnh. rewrite <- E1. cbn. lia.
    + rewrite (keep_entry [x]) in * by (auto with rix || (destruct (decide ([x] = p)); [right; tauto|by left])). by apply (w_no_1g _ _ _ Hwf x y b).
  - intros x y z b Hx Hy Hz. rewrite keep_tbl by auto with rix. intros Hb Hpr Hh. destruct (decide ([x; y] = p /\ z = i)) as [[E1 E2]|Hne].
    + pose proof Ha as Ha'. rewrite <- E1 in Ha'. assert (b = a) as -> by congruence. rewrite E2, Hnh in Hh; [done|]. rewrite <- E1. cbn. lia.
    + rewrite (keep_entry [x; y]) in * by (auto with rix || (destruct (decide ([x; y] = p)); [right; tauto|by left])). by apply (w_2m _ _ _ Hwf x y z b).
Qed.

Lemma keep_lookup i4 i3 i2 i1 : index_ok i4 -> index_ok i3 -> index_ok i2 -> index_ok i1 ->
  lookup m' root i4 i3 i2 i1 = lookup m root i4 i3 i2 i1.
Proof using All.
  intros H4 H3 H2 H1. apply lookup_congr; [apply keep_tbl; auto with rix|apply keep_tbl; auto with rix|..].
  - intros t Ht. apply (keep_entry [i4; i3; i2]); auto with rix. left. intros E. pose proof Hlen as L. rewrite <- E in L. cbn in L. lia.
  - intros t T3 Ht. apply (keep_entry [i4; i3]); auto with rix. destruct (decide ([i4; i3] = p)) as [E|]; [|by left]. right. intros ->.
    change [i4; i3; i] with ([i4; i3] ++ [i]) in T3. rewrite E, tbl_snoc, Ha, Nat.add_0_l in T3. congruence.
Qed.

Lemma keep_huge i4 i3 i2 : index_ok i4 -> index_ok i3 -> index_ok i2 -> huge_at m' root i4 i3 i2 -> huge_at m root i4 i3 i2.
Proof using All.
  intros H4 H3 H2 (t & Ht & Hpr & Hh). rewrite keep_tbl in Ht by auto with rix. destruct (decide ([i4; i3] = p /\ i2 = i)) as [[E1 E2]|Hne].
  - pose proof Ha as Ha'. rewrite <- E1 in Ha'. assert (t = a) as -> by congruence. rewrite E2, Hnh in Hh; [done|]. rewrite <- E1. cbn. lia.
  - exists t. rewrite (keep_entry [i4; i3]) in Hpr, Hh by (auto with rix || (destruct (decide ([i4; i3] = p)); [right; tauto|by left])). done.
Qed.
End Keep.

(** *** An entry cleared whose table is empty *)
Section Drop.
Context (m m' : memory) (B B' : Z -> bool) (root : Z) (p : list Z) (i a c : Z).
Context (Hwf : tables_wf m B root) (Hpi : path_ok (p ++ [i])) (Ha : tbl m 0 root p = Some a).
Context (Hsame : forall x, x <> a + 8 * i -> m' x = m x) (Hclear : m' (a + 8 * i) = 0).
Context (Hold : next (length p) (entry m a i) = Some c) (Hempty : forall j, index_ok j -> present (entry m c j) = false).
Context (HB : forall x, x <> c -> B x = true -> B' x = true).

Let Hp : path_ok p := path_ok_app p [i] Hpi.
Let Hi : index_ok i := proj1 (proj2 (proj1 (path_ok_snoc p i) Hpi)).
Let Hlen : (length p <= 2)%nat := proj2 (proj2 (proj1 (path_ok_snoc p i) Hpi)).
Let Hs0 : forall x, x <> a + 8 * i -> ~ in_page 0 x -> m' x = m x := fun x Hx _ => Hsame x Hx.

Lemma drop_entry q b j : path_ok q -> tbl m 0 root q = Some b -> index_ok j -> (q <> p \/ j <> i) -> entry m' b j = entry m b j.
Proof using All. apply (change_entry m m' B root p i a 0 Hwf Hp Hi Ha eq_refl (table_0 m B root Hwf) Hs0). Qed.

Lemma drop_other q : path_ok q -> ~ (p ++ [i]) `prefix_of` q -> tbl m' 0 root q = tbl m 0 root q.
Proof using All. apply (change_other m m' B root p i a 0 Hwf Hp Hi Ha eq_refl (table_0 m B root Hwf) Hs0). Qed.

Lemma drop_below r : tbl m' 0 root (p ++ i :: r) = None.
Proof using All.
  rewrite (change_below m m' B root p i a 0 Hwf Hp Hi Ha eq_refl (table_0 m B root Hwf) Hs0). unfold entry. by rewrite Hclear.
Qed.

Lemma drop_old : tbl m 0 root (p ++ [i]) = Some c.
Proof using All. by rewrite tbl_snoc, Ha, Nat.add_0_l. Qed.

Lemma drop_tables q b : path_ok q -> tbl m' 0 root q = Some b -> tbl m 0 root q = Some b /\ b <> c.
Proof using All.
  intros Hq Hb. destruct (prefix_dec_paths (p ++ [i]) q) as [[r ->]|Hpre].
  - rewrite <- app_assoc in Hb. cbn [app] in Hb. by rewrite drop_below in Hb.
  - rewrite drop_other in Hb by done. split; [done|]. intros ->. apply Hpre. rewrite (w_inj _ _ _ Hwf q (p ++ [i]) c Hq Hpi Hb drop_old). exists []. by rewrite app_nil_r.
Qed.

Lemma drop_wf : tables_wf m' B' root.
Proof using All.
  split.
  - intros x. destruct (decide (x = a + 8 * i)) as [->|Hx]; [rewrite Hclear; unfold is_u64; lia|]. rewrite Hsame by done. apply (w_u64 _ _ _ Hwf).
  - intros q b Hq Hb. destruct (drop_tables q b Hq Hb) as [Hb' Hne]. destruct (w_tbl _ _ _ Hwf q b Hq Hb'). auto.
  - intros q r b Hq Hr H1 H2. apply (w_inj _ _ _ Hwf q r b); [done|done|apply (drop_tables q b Hq H1)|apply (drop_tables r b Hr H2)].
  - intros x y b Hx Hy Hb Hpr. destruct (drop_tables [x] b ltac:(auto with rix) Hb) as [Hb' _]. destruct (decide ([x] = p /\ y = i)) as [[E1 E2]|Hne].
    + pose proof Ha as Ha'. rewrite <- E1 in Ha'. assert (b = a) as -> by congruence. rewrite E2 in Hpr. unfold entry in Hpr. by rewrite Hclear in Hpr.
    + rewrite (drop_entry [x]) in * by (auto with rix || (destruct (decide ([x] = p)); [right; tauto|by left])). by apply (w_no_1g _ _ _ Hwf x y b).
  - intros x y z b Hx Hy Hz Hb Hpr Hh. destruct (drop_tables [x; y] b ltac:(auto with rix) Hb) as [Hb' _]. destruct (decide ([x; y] = p /\ z = i)) as [[E1 E2]|Hne].
    + pose proof Ha as Ha'. rewrite <- E1 in Ha'. assert (b = a) as -> by congruence. rewrite E2 in Hpr. unfold entry in Hpr. by rewrite Hclear in Hpr.
    + rewrite (drop_entry [x; y]) in * by (auto with rix || (destruct (decide ([x; y] = p)); [right; tauto|by left])). by apply (w_2m _ _ _ Hwf x y z b).
Qed.

Lemma drop_lookup i4 i3 i2 i1 : index_ok i4 -> index_ok i3 -> index_ok i2 -> index_ok i1 ->
  lookup m' root i4 i3 i2 i1 = lookup m root i4 i3 i2 i1.
Proof using All.
  intros H4 H3 H2 H1. destruct (prefix_dec_paths (p ++ [i]) [i4; i3; i2]) as [Hpre|Hpre].
  - pose proof drop_below as Gb. pose proof drop_old as Go. pose proof Ha as Ha'. pose proof (drop_other p Hp) as Gp. pose proof Hold as Ho.
    assert (Hnp : ~ (p ++ [i]) `prefix_of` p) by (intros [r Hr]; apply (f_equal length) in Hr; rewrite !length_app in Hr; cbn in Hr; lia).
    specialize (Gp Hnp). rewrite Ha in Gp.
    apply prefix_snoc_3 in Hpre as [[E Ei]|[[E Ei]|[E Ei]]]; unfold lookup, leaf; rewrite Ei in Gb, Go, Ho; rewrite E in Gb, Go, Ha', Gp, Ho; cbn [app] in Go.
    + pose proof (Gb [i3; i2]) as T3. pose proof (Gb [i3]) as T2. cbn [app] in T3, T2. rewrite T3, T2.
      change [i4; i3; i2] with ([i4] ++ [i3; i2]). change [i4; i3] with ([i4] ++ [i3]). rewrite !tbl_app, Go. cbn [length Nat.add tbl]. unfold next.
      by rewrite Hempty.
    + pose proof (Gb [i2]) as T3. pose proof (Gb []) as T2. cbn [app] in T3, T2. rewrite T3, T2.
      change [i4; i3; i2] with ([i4; i3] ++ [i2]). rewrite tbl_app, Go. cbn [length Nat.add tbl]. unfold next. by rewrite Hempty.
    + pose proof (Gb []) as T3. cbn [app] in T3. rewrite T3, Gp, Go. rewrite (seen_present (entry m c i1)) by (by apply Hempty).
      unfold entry. rewrite <- Ei, Hclear. done.
  - assert (Hpre2 : ~ (p ++ [i]) `prefix_of` [i4; i3]) by (intros [r Hr]; apply Hpre; exists (r ++ [i2]); by rewrite app_assoc, <- Hr).
    apply lookup_congr; [apply drop_other; auto with rix|apply drop_other; auto with rix|..].
    + intros t Ht. apply (drop_entry [i4; i3; i2]); auto with rix. left. intros E. pose proof Hlen as L. rewrite <- E in L. cbn in L. lia.
    + intros t _ Ht. apply (drop_entry [i4; i3]); auto with rix. destruct (decide ([i4; i3] = p)) as [E|]; [|by left]. right. intros ->.
      apply Hpre. rewrite <- E. by exists [].
Qed.

Lemma drop_huge i4 i3 i2 : index_ok i4 -> index_ok i3 -> index_ok i2 -> huge_at m' root i4 i3 i2 -> huge_at m root i4 i3 i2.
Proof using All.
  intros H4 H3 H2 (t & Ht & Hpr & Hh). destruct (drop_tables [i4; i3] t ltac:(auto with rix) Ht) as [Ht' _].
  destruct (decide ([i4; i3] = p /\ i2 = i)) as [[E1 E2]|Hne].
  - pose proof Ha as Ha'. rewrite <- E1 in Ha'. assert (t = a) as -> by congruence. rewrite E2 in Hpr. unfold entry in Hpr. by rewrite Hclear in Hpr.
  - exists t. rewrite (drop_entry [i4; i3]) in Hpr, Hh by (auto with rix || (destruct (decide ([i4; i3] = p)); [right; tauto|by left])). done.
Qed.
End Drop.

(** *** A leaf written in a page table *)
Section Leaf.
Context (m m' : memory) (B : Z -> bool) (root i4 i3 i2 i1 a : Z).
Context (Hwf : tables_wf m B root) (H4 : index_ok i4) (H3 : index_ok i3) (H2 : index_ok i2) (H1 : index_ok i1).
Context (Ha : tbl m 0 root [i4; i3; i2] = Some a).
Context (Hsame : forall x, x <> a + 8 * i1 -> m' x = m x) (Hu : is_u64 (m' (a + 8 * i1))).

Let Hp : path_ok [i4; i3; i2] := path3 i4 i3 i2 H4 H3 H2.
Let Hs0 : forall x, x <> a + 8 * i1 -> ~ in_page 0 x -> m' x = m x := fun x Hx _ => Hsame x Hx.

Lemma leaf_entry_other q b j : path_ok q -> tbl m 0 root q = Some b -> index_ok j -> (q <> [i4; i3; i2] \/ j <> i1) -> entry m' b j = entry m b j.
Proof using All. apply (change_entry m m' B root _ i1 a 0 Hwf Hp H1 Ha eq_refl (table_0 m B root Hwf) Hs0). Qed.

Lemma leaf_tbl q : path_ok q -> tbl m' 0 root q = tbl m 0 root q.
Proof using All.
  intros Hq. apply (change_other m m' B root _ i1 a 0 Hwf Hp H1 Ha eq_refl (table_0 m B root Hwf) Hs0); [done|].
  intros [r Hr]. destruct Hq as [_ Hl]. rewrite Hr, !length_app in Hl. cbn in Hl. lia.
Qed.

Lemma leaf_wf : tables_wf m' B root.
Proof using All.
  split.
  - intros x. destruct (decide (x = a + 8 * i1)) as [->|Hx]; [done|]. rewrite Hsame by done. apply (w_u64 _ _ _ Hwf).
  - intros q b Hq. rewrite leaf_tbl by done. by apply (w_tbl _ _ _ Hwf).
  - intros q r b Hq Hr. rewrite !leaf_tbl by done. by apply (w_inj _ _ _ Hwf).
  - intros x y b Hx Hy. rewrite leaf_tbl by auto with rix. intros Hb. rewrite (leaf_entry_other [x]) by (auto with rix || by left). by apply (w_no_1g _ _ _ Hwf x y b).
  - intros x y z b Hx Hy Hz. rewrite leaf_tbl by auto with rix. intros Hb. rewrite (leaf_entry_other [x; y]) by (auto with rix || by left).
    by apply (w_2m _ _ _ Hwf x y z b).
Qed.

Lemma leaf_lookup_here : lookup m' root i4 i3 i2 i1 = seen_leaf (m' (a + 8 * i1)).
Proof using All. unfold lookup, leaf. by rewrite leaf_tbl, Ha by auto with rix. Qed.

Lemma leaf_lookup_other j4 j3 j2 j1 : index_ok j4 -> index_ok j3 -> index_ok j2 -> index_ok j1 -> ~ (j4 = i4 /\ j3 = i3 /\ j2 = i2 /\ j1 = i1) ->
  lookup m' root j4 j3 j2 j1 = lookup m root j4 j3 j2 j1.
Proof using All.
  intros I4 I3 I2 I1 Hne. apply lookup_congr; [apply leaf_tbl; auto with rix|apply leaf_tbl; auto with rix|..].
  - intros t Ht. apply (leaf_entry_other [j4; j3; j2]); auto with rix. destruct (decide ([j4; j3; j2] = [i4; i3; i2])) as [E|]; [|by left]. right.
    intros ->. apply Hne. by injection E.
  - intros t _ Ht. apply (leaf_entry_other [j4; j3]); auto with rix.
Qed.

Lemma leaf_huge j4 j3 j2 : index_ok j4 -> index_ok j3 -> index_ok j2 -> huge_at m' root j4 j3 j2 -> huge_at m root j4 j3 j2.
Proof using All.
  intros I4 I3 I2 (t & Ht & Hpr & Hh). rewrite leaf_tbl in Ht by auto with rix. exists t.
  rewrite (leaf_entry_other [j4; j3]) in Hpr, Hh by (auto with rix || by left). done.
Qed.
End Leaf.

(** ** Whole tables, and pages handed out since *)

Lemma wf_mono m B B' root : tables_wf m B root -> (forall x, B x = true -> B' x = true) -> tables_wf m B' root.
Proof.
  intros Hwf HB. split; [apply (w_u64 _ _ _ Hwf)| |apply (w_inj _ _ _ Hwf)|apply (w_no_1g _ _ _ Hwf)|apply (w_2m _ _ _ Hwf)].
  intros p a Hp Ha. destruct (w_tbl _ _ _ Hwf p a Hp Ha). auto.
Qed.

(** Only the tables need to stay handed out. *)
Lemma wf_busy m B B' root : tables_wf m B root -> (forall x, is_table m root x -> B x = true -> B' x = true) -> tables_wf m B' root.
Proof.
  intros Hwf HB. split; [apply (w_u64 _ _ _ Hwf)| |apply (w_inj _ _ _ Hwf)|apply (w_no_1g _ _ _ Hwf)|apply (w_2m _ _ _ Hwf)].
  intros p a Hp Ha. destruct (w_tbl _ _ _ Hwf p a Hp Ha). split; [done|]. apply HB; [by exists p|done].
Qed.

(** The entries on the way to a page table. *)
Lemma tbl3_entries m root i4 i3 i2 t : tbl m 0 root [i4; i3; i2] = Some t ->
  let e4 := entry m root i4 in let e3 := entry m (entry_table e4) i3 in let e2 := entry m (entry_table e3) i2 in
  present e4 = true /\ present e3 = true /\ present e2 = true /\ huge e2 = false /\ t = entry_table e2 /\
  tbl m 0 root [i4] = Some (entry_table e4) /\ tbl m 0 root [i4; i3] = Some (entry_table e3).
Proof.
  cbn [tbl]. unfold next. cbn [Nat.eqb andb negb]. set (e4 := entry m root i4). destruct (present e4); cbn [andb negb]; [|done].
  set (e3 := entry m (entry_table e4) i3). destruct (present e3); cbn [andb negb]; [|done].
  set (e2 := entry m (entry_table e3) i2). destruct (present e2); cbn [andb negb]; [|done]. destruct (huge e2); cbn [negb]; [done|].
  intros [= <-]. done.
Qed.

(** A root with nothing below it. *)
Lemma empty_wf m B root : (forall x, is_u64 (m x)) -> (forall i, index_ok i -> present (entry m root i) = false) -> table_ok root -> B root = true ->
  tables_wf m B root.
Proof.
  intros Hu Hp Hr HB. assert (Hnil : forall p a, path_ok p -> tbl m 0 root p = Some a -> p = [] /\ a = root).
  { intros p a [HF _] Ha. destruct p as [|i p]; [by injection Ha as <-|]. inversion HF. cbn [tbl] in Ha. unfold next in Ha. by rewrite Hp in Ha. }
  split; [done|..].
  - intros p a Hpo Ha. by destruct (Hnil p a Hpo Ha) as [_ ->].
  - intros p q a Hpo Hqo H1 H2. destruct (Hnil p a Hpo H1) as [-> _]. by destruct (Hnil q a Hqo H2) as [-> _].
  - intros i j a Hi Hj Ha. by destruct (Hnil [i] a ltac:(auto with rix) Ha).
  - intros i j k a Hi Hj Hk Ha. by destruct (Hnil [i; j] a ltac:(auto with rix) Ha).
Qed.
