(* ===== verification/Vmm.v ===== *)
(** * The page mapper ([kernel/mm/vmm.c])

    [vmm_map_page_in_pml4] and [vmm_unmap_page_in_pml4] with everything they call:
    table creation, splitting of 2 MiB leaves, pruning of empty tables, the map
    lock with its lock-order calls, TLB invalidation. They are proved against
    [FrameAlloc], what the mapper relies on of the page allocator. *)
From stdpp Require Import base tactics list numbers strings.
From S2P Require Import Prelude Lock Lockdep Pmm Heap Paging.

(** ** What the mapper needs of the page allocator *)

(** Beyond [PageAlloc]: it may be called inside and outside the map lock, frames
    lie below the top of managed memory, and [pmm_is_reserved] answers without
    changing who owns what. *)
Class FrameAlloc (P : Type) := {
  fa_pages :: PageAlloc P;
  fa_ok_any : forall b b' s, pa_ok (P := P) b s -> pa_ok b' s;
  fa_reserved : Z -> M (cpu * P) bool;
  fa_alloc_range : forall c s r c' s', pa_cpu (P := P) c -> pa_ok true s -> pa_alloc (c, s) = Some (r, (c', s')) -> r < RIXURI_MAX_PHYS_BYTES;
  fa_reserved_law : forall c s a, pa_cpu (P := P) c -> pa_ok true s ->
    exists b s', fa_reserved a (c, s) = Some (b, (c, s')) /\ pa_ok true s' /\ forall x, busy s' x = busy s x;
}.

Lemma pmm_alloc_range c s ld r c' s' : pmm_wf s -> pmm_alloc_page (c, (s, ld)) = Some (r, (c', s')) -> r < RIXURI_MAX_PHYS_BYTES.
Proof.
  intros Hwf E. destruct (alloc_below_run PMM_MAX_PHYS c s ld Hwf ltac:(unfold PMM_MAX_PHYS, RIXURI_MAX_PHYS_BYTES; lia))
    as [ld' [(p & E' & Hp & Hr & _)|[E' _]]]; unfold pmm_alloc_page in E; rewrite E' in E; injection E as <- _ _.
  - unfold in_range in Hr. rewrite max_pages_val in Hr. unfold RIXURI_MAX_PHYS_BYTES. lia.
  - unfold RIXURI_MAX_PHYS_BYTES. lia.
Qed.

#[global] Program Instance pmm_frame_alloc : FrameAlloc (pmm_t * lockdep_t) := {|
  fa_pages := pmm_page_alloc;
  fa_reserved := pmm_is_reserved;
|}.
Next Obligation. by intros b b' [s ld]. Qed.
Next Obligation. intros c [s ld] r c' s' _ Hwf E. exact (pmm_alloc_range c s ld r c' s' Hwf E). Qed.
Next Obligation.
  intros c [s ld] a _ Hwf. unfold pmm_is_reserved, pmm_query. repeat case_if; try (eexists _, _; split; [reflexivity|]; by split).
  unfold pmm_read. pose proof Hwf as (_ & Hl & _). rewrite locked_run by exact Hl. eexists _, _. split; [reflexivity|].
  cbn in Hl. destruct s; cbn in Hl; subst. by split.
Qed.

(** ** State

    [tlb] records the addresses [invlpg] was executed on, latest first. *)
Record vmm_t := {
  words : memory; kernel_pml4_phys : Z; current_pml4_phys : Z; tlb : list Z; vmm_map_lock : rix_spinlock_t; vmm_map_lockdep_class : Z }.

Definition set_words (m : memory) (v : vmm_t) : vmm_t :=
  {| words := m; kernel_pml4_phys := kernel_pml4_phys v; current_pml4_phys := current_pml4_phys v; tlb := tlb v;
     vmm_map_lock := vmm_map_lock v; vmm_map_lockdep_class := vmm_map_lockdep_class v |}.
Definition set_current_pml4 (p : Z) (v : vmm_t) : vmm_t :=
  {| words := words v; kernel_pml4_phys := kernel_pml4_phys v; current_pml4_phys := p; tlb := tlb v;
     vmm_map_lock := vmm_map_lock v; vmm_map_lockdep_class := vmm_map_lockdep_class v |}.
Definition flush (va : Z) (v : vmm_t) : vmm_t :=
  {| words := words v; kernel_pml4_phys := kernel_pml4_phys v; current_pml4_phys := current_pml4_phys v; tlb := va :: tlb v;
     vmm_map_lock := vmm_map_lock v; vmm_map_lockdep_class := vmm_map_lockdep_class v |}.

(** [for (i = 0; i < TABLE_ENTRIES; i++) table[i] = f(i);] *)
Definition write_table (table : Z) (f : Z -> Z) (m : memory) : memory :=
  for_all 0 TABLE_ENTRIES (fun i m => set_entry table i (f i) m) m.

Definition table_is_empty (m : memory) (t : Z) : bool :=
  match for_ 0 TABLE_ENTRIES (fun i (_ : unit) => if has (entry m t i) RIXURI_PTE_PRESENT then inr tt else inl tt) tt with
  | inr _ => false
  | inl _ => true
  end.

Definition vmm_kernel_pml4 (v : vmm_t) : Z := kernel_pml4_phys v.
Definition vmm_current_pml4 (v : vmm_t) : Z := current_pml4_phys v.
Definition vmm_translate (v : vmm_t) (va : Z) : Z := translate_in (words v) (current_pml4_phys v) va.
Definition vmm_query_flags (v : vmm_t) (va : Z) : Z := query_flags_in (words v) (current_pml4_phys v) va.

Section Vmm.
Context {P : Type} {FA : FrameAlloc P}.

#[global] Program Instance vmm_guard : HasGuard (vmm_t * P) := {|
  guard s := vmm_map_lock s.1;
  with_guard l s := ({| words := words s.1; kernel_pml4_phys := kernel_pml4_phys s.1; current_pml4_phys := current_pml4_phys s.1; tlb := tlb s.1;
    vmm_map_lock := l; vmm_map_lockdep_class := vmm_map_lockdep_class s.1 |}, s.2);
|}.
Next Obligation. done. Qed.
Next Obligation. by intros [[] ]. Qed.
Next Obligation. done. Qed.

Definition on_frames {A} (m : M (cpu * P) A) : M (cpu * (vmm_t * P)) A := fun '(c, (v, s)) =>
  match m (c, s) with
  | Some (a, (c', s')) => Some (a, (c', (v, s')))
  | None => None
  end.
Definition rd (table index : Z) : M (cpu * (vmm_t * P)) Z := gets (fun '(_, (v, _)) => entry (words v) table index).
Definition with_words (f : memory -> memory) : M (cpu * (vmm_t * P)) unit := modify (fun '(c, (v, s)) => (c, (set_words (f (words v)) v, s))).
Definition wr (table index e : Z) : M (cpu * (vmm_t * P)) unit := with_words (set_entry table index e).
Definition invlpg (va : Z) : M (cpu * (vmm_t * P)) unit := modify (fun '(c, (v, s)) => (c, (flush va v, s))).
Definition is_empty (table : Z) : M (cpu * (vmm_t * P)) bool := gets (fun '(_, (v, _)) => table_is_empty (words v) table).

(** [parent[index] |= RIXURI_PTE_USER] when the flags ask for it, then the table. *)
Definition existing_table (parent index flags : Z) : M (cpu * (vmm_t * P)) Z :=
  _ ← (if has flags RIXURI_PTE_USER then e ← rd parent index; wr parent index (Z.lor e RIXURI_PTE_USER) else mret tt);
  e ← rd parent index;
  mret (entry_table e).

Definition ensure_table (parent index flags : Z) : M (cpu * (vmm_t * P)) Z :=
  e ← rd parent index;
  if has e RIXURI_PTE_PRESENT then existing_table parent index flags
  else
    phys ← on_frames pa_alloc;
    if phys =? 0 then mret 0
    else
      _ ← with_words (write_table phys (fun _ => 0));
      _ ← wr parent index (Z.lor (Z.lor (Z.lor phys RIXURI_PTE_PRESENT) RIXURI_PTE_WRITE) (Z.land flags RIXURI_PTE_USER));
      mret phys.

Definition split_pd_huge_page (pd index flags : Z) : M (cpu * (vmm_t * P)) Z :=
  e ← rd pd index;
  if negb (has e RIXURI_PTE_PRESENT) then ensure_table pd index flags
  else if negb (has e PTE_PS) then existing_table pd index flags
  else
    phys ← on_frames pa_alloc;
    if phys =? 0 then mret 0
    else
      let base := Z.land e PAGE_MASK in
      let leaf := Z.land e (Z.lor (Z.lor RIXURI_PTE_WRITE RIXURI_PTE_USER) RIXURI_PTE_NX) in
      _ ← with_words (write_table phys (fun i => Z.lor (Z.lor (u64 (base + i * 0x1000)) RIXURI_PTE_PRESENT) leaf));
      _ ← wr pd index (Z.lor (Z.lor (Z.lor (Z.lor phys RIXURI_PTE_PRESENT) RIXURI_PTE_WRITE) (Z.land e RIXURI_PTE_USER)) (Z.land flags RIXURI_PTE_USER));
      mret phys.

(** [if (!pmm_is_reserved(e & PAGE_MASK)) { parent[index] = 0; pmm_free_page(e & PAGE_MASK); }] *)
Definition reclaim (parent index e : Z) : M (cpu * (vmm_t * P)) unit :=
  r ← on_frames (fa_reserved (Z.land e PAGE_MASK));
  if r : bool then mret tt
  else
    _ ← wr parent index 0;
    on_frames (pa_free (Z.land e PAGE_MASK)).

Definition prune_empty_path (pml4 va : Z) : M (cpu * (vmm_t * P)) unit :=
  let i4 := index4 va in
  let i3 := index3 va in
  let i2 := index2 va in
  e4 ← rd pml4 i4;
  if negb (has e4 RIXURI_PTE_PRESENT) then mret tt
  else
    let pdpt := entry_table e4 in
    e3 ← rd pdpt i3;
    if negb (has e3 RIXURI_PTE_PRESENT) then
      empty ← is_empty pdpt;
      if empty : bool then reclaim pml4 i4 e4 else mret tt
    else if has e3 PTE_PS then mret tt
    else
      let pd := entry_table e3 in
      e2 ← rd pd i2;
      if negb (has e2 RIXURI_PTE_PRESENT) then
        empty ← is_empty pd;
        _ ← (if empty : bool then reclaim pdpt i3 e3 else mret tt);
        empty ← is_empty pdpt;
        if empty : bool then reclaim pml4 i4 e4 else mret tt
      else if has e2 PTE_PS then mret tt
      else
        let pt := entry_table e2 in
        empty ← is_empty pt;
        if negb empty then mret tt
        else
          _ ← reclaim pd i2 e2;
          empty ← is_empty pd;
          if negb empty then mret tt
          else
            _ ← reclaim pdpt i3 e3;
            empty ← is_empty pdpt;
            if negb empty then mret tt
            else reclaim pml4 i4 e4.

(** The bracket of the two entry points. *)
Definition vmm_section {R} (body : M (cpu * (vmm_t * P)) R) : M (cpu * (vmm_t * P)) R :=
  locked_section (
    k ← gets (fun '(_, (v, _)) => vmm_map_lockdep_class v);
    _ ← on_frames (pa_acquire k);
    r ← body;
    _ ← on_frames (pa_release k);
    mret r).

Definition map_body (pml4 va pa flags : Z) : M (cpu * (vmm_t * P)) Z :=
  pdpt ← ensure_table pml4 (index4 va) flags;
  if pdpt =? 0 then _ ← prune_empty_path pml4 va; mret (-1)
  else
    pd ← ensure_table pdpt (index3 va) flags;
    if pd =? 0 then _ ← prune_empty_path pml4 va; mret (-1)
    else
      pt ← split_pd_huge_page pd (index2 va) flags;
      if pt =? 0 then _ ← prune_empty_path pml4 va; mret (-1)
      else
        _ ← wr pt (index1 va) (Z.lor (Z.land pa PAGE_MASK) (Z.land flags LEAF_FLAGS));
        cur ← gets (fun '(_, (v, _)) => current_pml4_phys v);
        _ ← (if pml4 =? cur then invlpg va else mret tt);
        mret 0.

Definition vmm_map_page_in_pml4 (pml4_phys va pa flags : Z) : M (cpu * (vmm_t * P)) Z :=
  if (pml4_phys =? 0) || negb (canonical48 va) || truthy (Z.land va 0xFFF) || truthy (Z.land pa 0xFFF) || truthy (Z.land pa (not64 PAGE_MASK))
  then mret (-1)
  else vmm_section (map_body pml4_phys va pa flags).

Definition unmap_body (pml4 va : Z) : M (cpu * (vmm_t * P)) Z :=
  e ← rd pml4 (index4 va);
  if negb (has e RIXURI_PTE_PRESENT) then mret 0
  else
    e ← rd (entry_table e) (index3 va);
    if negb (has e RIXURI_PTE_PRESENT) then mret 0
    else if has e PTE_PS then mret (-1)
    else
      let pd := entry_table e in
      pde ← rd pd (index2 va);
      if negb (has pde RIXURI_PTE_PRESENT) then mret 0
      else
        pt ← (if has pde PTE_PS then split_pd_huge_page pd (index2 va) 0 else mret (entry_table pde));
        if has pde PTE_PS && (pt =? 0) then mret (-1)
        else
          _ ← wr pt (index1 va) 0;
          cur ← gets (fun '(_, (v, _)) => current_pml4_phys v);
          _ ← (if pml4 =? cur then invlpg va else mret tt);
          _ ← prune_empty_path pml4 va;
          mret 0.

Definition vmm_unmap_page_in_pml4 (pml4_phys va : Z) : M (cpu * (vmm_t * P)) Z :=
  if (pml4_phys =? 0) || negb (canonical48 va) || truthy (Z.land va 0xFFF) then mret (-1)
  else vmm_section (unmap_body pml4_phys va).

Definition vmm_map_page (va pa flags : Z) : M (cpu * (vmm_t * P)) Z :=
  cur ← gets (fun '(_, (v, _)) => current_pml4_phys v); vmm_map_page_in_pml4 cur va pa flags.
Definition vmm_unmap_page (va : Z) : M (cpu * (vmm_t * P)) unit :=
  cur ← gets (fun '(_, (v, _)) => current_pml4_phys v); _ ← vmm_unmap_page_in_pml4 cur va; mret tt.
Definition vmm_invlpg (va : Z) : M (cpu * (vmm_t * P)) unit :=
  if negb (canonical48 va) || truthy (Z.land va 0xFFF) then mret tt else invlpg va.

(** The CR3 write is the hardware's copy of [current_pml4_phys]. *)
Definition vmm_switch_pml4 (pml4_phys : Z) : M (cpu * (vmm_t * P)) unit :=
  if pml4_phys =? 0 then mret tt else modify (fun '(c, (v, s)) => (c, (set_current_pml4 pml4_phys v, s))).
Definition vmm_track_pml4 (pml4_phys : Z) : M (cpu * (vmm_t * P)) unit :=
  if pml4_phys =? 0 then mret tt else modify (fun '(c, (v, s)) => (c, (set_current_pml4 pml4_phys v, s))).
End Vmm.

(** ** Filling and scanning tables *)

Lemma write_table_spec t f m : forall x,
  (forall j, index_ok j -> x = t + 8 * j -> write_table t f m x = f j) /\ ((forall j, index_ok j -> x <> t + 8 * j) -> write_table t f m x = m x).
Proof.
  unfold write_table, TABLE_ENTRIES.
  pose proof (for_all_inv (fun n m' => forall x, (forall j, 0 <= j < n -> x = t + 8 * j -> m' x = f j) /\ ((forall j, index_ok j -> x <> t + 8 * j) -> m' x = m x))
    0 512 (fun i m => set_entry t i (f i) m) m ltac:(lia)) as H. cbn beta in H. intros x. apply H.
  - intros y. split; [lia|done].
  - intros i m' Hi IH y. unfold set_entry. split.
    + intros j Hj ->. destruct (t + 8 * j =? t + 8 * i) eqn:E; bool_to_prop; [by replace i with j by lia|]. apply (proj1 (IH (t + 8 * j))); [lia|done].
    + intros Hy. destruct (y =? t + 8 * i) eqn:E; bool_to_prop; [exfalso; by apply (Hy i)|]. by apply (proj2 (IH y)).
Qed.

Lemma write_table_in t f m j : index_ok j -> entry (write_table t f m) t j = f j.
Proof. intros Hj. by apply (proj1 (write_table_spec t f m (t + 8 * j))). Qed.

Lemma write_table_out t f m x : ~ in_page t x -> write_table t f m x = m x.
Proof. intros Hx. apply (proj2 (write_table_spec t f m x)). unfold index_ok, in_page in *. intros j Hj ->. apply Hx. lia. Qed.

Lemma write_table_u64 t f m : (forall j, index_ok j -> is_u64 (f j)) -> (forall x, is_u64 (m x)) -> forall x, is_u64 (write_table t f m x).
Proof.
  intros Hf Hm x. destruct (write_table_spec t f m x) as [H1 H2].
  destruct (decide (0 <= (x - t) / 8 < 512 /\ x = t + 8 * ((x - t) / 8))) as [[Hj Ex]|Hn].
  - rewrite (H1 ((x - t) / 8)) by done. by apply Hf.
  - rewrite H2; [done|]. intros j Hj ->. apply Hn. replace (t + 8 * j - t) with (j * 8) by lia. rewrite Z.div_mul by lia. split; [exact Hj|lia].
Qed.

Lemma table_is_empty_spec m t : table_is_empty m t = true <-> forall j, index_ok j -> present (entry m t j) = false.
Proof.
  unfold table_is_empty, TABLE_ENTRIES, index_ok.
  pose proof (for_inv (R := unit) (fun n (_ : unit) => forall j, 0 <= j < n -> present (entry m t j) = false)
    (fun _ => exists j, 0 <= j < 512 /\ present (entry m t j) = true) 0 512
    (fun i (_ : unit) => if has (entry m t i) RIXURI_PTE_PRESENT then inr tt else inl tt) tt ltac:(lia) ltac:(intros j Hj; lia)) as H. cbn beta in H.
  destruct (for_ 0 512 _ tt) as [u|u].
  - split; [intros _|done]. apply H. intros i _ Hi IH. fold (present (entry m t i)). destruct (present (entry m t i)) eqn:E; [by exists i|].
    intros j Hj. destruct (decide (j = i)) as [->|]; [done|]. apply IH. lia.
  - split; [done|]. intros Hall. exfalso. destruct H as (j & Hj & Hp).
    + intros i _ Hi IH. fold (present (entry m t i)). destruct (present (entry m t i)) eqn:E; [by exists i|].
      intros j Hj. destruct (decide (j = i)) as [->|]; [done|]. apply IH. lia.
    + by rewrite Hall in Hp.
Qed.

(** ** Steps of the mapper

    What a step may do to the rest of the machine: nothing changes in the address
    space, tables stay well-formed, and pages that are handed out and are no tables
    of this root keep their contents (and stay so). *)
Section Steps.
Context {P : Type} {FA : FrameAlloc P} (root va : Z).

(** The tables on the way to [va]; a step touches no entry off this path. *)
Definition vpath : list Z := [index4 va; index3 va; index2 va].

Definition off_path_kept (v v' : vmm_t) : Prop :=
  (forall q b, path_ok q -> ~ q `prefix_of` vpath -> tbl (words v) 0 root q = Some b ->
     tbl (words v') 0 root q = Some b /\ forall j, index_ok j -> entry (words v') b j = entry (words v) b j) /\
  (forall j, index_ok j -> j <> index4 va -> entry (words v') root j = entry (words v) root j).

Definition guest (v : vmm_t) (s : P) (a : Z) : Prop := busy s a = true /\ ~ is_table (words v) root a.

Definition guests_kept (v : vmm_t) (s : P) (v' : vmm_t) (s' : P) : Prop :=
  forall a, a mod 4096 = 0 -> guest v s a -> guest v' s' a /\ forall x, in_page a x -> words v' x = words v x.

Definition good (v : vmm_t) (s : P) : Prop := pa_ok true s /\ tables_wf (words v) (busy s) root.

Definition same_view (v v' : vmm_t) : Prop :=
  forall i4 i3 i2 i1, index_ok i4 -> index_ok i3 -> index_ok i2 -> index_ok i1 ->
    lookup (words v') root i4 i3 i2 i1 = lookup (words v) root i4 i3 i2 i1.

(** 2 MiB leaves are never made. *)
Definition no_new_huge (v v' : vmm_t) : Prop :=
  forall i4 i3 i2, index_ok i4 -> index_ok i3 -> index_ok i2 -> huge_at (words v') root i4 i3 i2 -> huge_at (words v) root i4 i3 i2.

Record quiet_step (v : vmm_t) (s : P) (v' : vmm_t) (s' : P) : Prop := {
  qs_good : good v' s';
  qs_view : same_view v v';
  qs_guests : guests_kept v s v' s';
  qs_rest : v' = set_words (words v') v;
  qs_off : off_path_kept v v';
  qs_huge : no_new_huge v v';
}.

Lemma off_refl v : off_path_kept v v.
Proof. by split. Qed.

Lemma off_trans v1 v2 v3 : off_path_kept v1 v2 -> off_path_kept v2 v3 -> off_path_kept v1 v3.
Proof.
  intros [A1 B1] [A2 B2]. split.
  - intros q b Hq Hpre Hb. destruct (A1 q b Hq Hpre Hb) as [Hb2 E2]. destruct (A2 q b Hq Hpre Hb2) as [Hb3 E3]. split; [done|].
    intros j Hj. by rewrite E3, E2.
  - intros j Hj Hne. by rewrite B2, B1.
Qed.

(** A change of entry [i] of the table at [p], both on the path, that keeps the
    entries elsewhere and the tables that are not below it. *)
Lemma off_change v v' p i : (p ++ [i]) `prefix_of` vpath ->
  (forall q b j, path_ok q -> tbl (words v) 0 root q = Some b -> index_ok j -> (q <> p \/ j <> i) -> entry (words v') b j = entry (words v) b j) ->
  (forall q b, path_ok q -> ~ q `prefix_of` vpath -> tbl (words v) 0 root q = Some b -> tbl (words v') 0 root q = Some b) -> off_path_kept v v'.
Proof.
  intros Hpre He Ht. split.
  - intros q b Hq Hn Hb. split; [by apply Ht|]. intros j Hj. apply (He q); try done. left. intros ->. apply Hn. destruct Hpre as [r Hr].
    exists (i :: r). by rewrite Hr, <- app_assoc.
  - intros j Hj Hne. apply (He []); [apply path1_nil|done|done|]. destruct p as [|x p]; [|by left]. right. intros ->. apply Hne.
    destruct Hpre as [r Hr]. unfold vpath in Hr. cbn in Hr. congruence.
Qed.

Lemma set_words_id v : v = set_words (words v) v.
Proof. by destruct v. Qed.

Lemma guests_trans v1 s1 v2 s2 v3 s3 : guests_kept v1 s1 v2 s2 -> guests_kept v2 s2 v3 s3 -> guests_kept v1 s1 v3 s3.
Proof.
  intros H1 H2 a Ha Hg. destruct (H1 a Ha Hg) as [Hg2 E2]. destruct (H2 a Ha Hg2) as [Hg3 E3]. split; [done|].
  intros x Hx. by rewrite E3, E2.
Qed.

Lemma quiet_refl v s : good v s -> quiet_step v s v s.
Proof. intros H. split; [done|done|by intros a _ Hg|apply set_words_id|apply off_refl|by intros i4 i3 i2 _ _ _]. Qed.

Lemma quiet_trans v1 s1 v2 s2 v3 s3 : quiet_step v1 s1 v2 s2 -> quiet_step v2 s2 v3 s3 -> quiet_step v1 s1 v3 s3.
Proof.
  intros [G2 V2 K2 R2 O2 U2] [G3 V3 K3 R3 O3 U3]. split; [done| |by eapply guests_trans| |by eapply off_trans|by intros i4 i3 i2 H4 H3 H2 H; apply U2, U3].
  - intros i4 i3 i2 i1 H4 H3 H2 H1. by rewrite V3, V2.
  - rewrite R3, R2. done.
Qed.

(** The allocator moved, memory did not. *)
Lemma quiet_alloc v (s s' : P) : good v s -> pa_ok true s' -> (forall a, busy s a = true -> busy s' a = true) -> quiet_step v s v s'.
Proof.
  intros [Hok Hwf] Hok' HB. split; [split; [done|by eapply wf_mono]|done| |apply set_words_id|apply off_refl|by intros i4 i3 i2 _ _ _]. intros a _ [Hb Ht]. split; [split; [auto|done]|done].
Qed.

(** Tables reached from the root stay reached. *)
Definition tables_kept (v v' : vmm_t) : Prop :=
  forall q b, path_ok q -> tbl (words v) 0 root q = Some b -> tbl (words v') 0 root q = Some b.

Lemma next_present d e c : next d e = Some c -> present e = true /\ c = entry_table e /\ ((d = 2)%nat -> huge e = false).
Proof.
  unfold next. destruct (present e) eqn:Ep; [|done]. cbn [andb]. destruct (_ && huge e) eqn:E; [done|]. cbn. intros [= <-].
  split; [done|]. split; [done|]. intros ->. cbn in E. done.
Qed.

Lemma user_bit d e : next d (Z.lor e RIXURI_PTE_USER) = next d e /\ huge (Z.lor e RIXURI_PTE_USER) = huge e.
Proof.
  assert (E1 : entry_table (Z.lor e RIXURI_PTE_USER) = entry_table e) by (unfold entry_table; by rewrite Z.land_lor_distr_l, Z.lor_0_r).
  assert (E2 : present (Z.lor e RIXURI_PTE_USER) = present e) by (unfold present, has; by rewrite Z.land_lor_distr_l, Z.lor_0_r).
  assert (E3 : huge (Z.lor e RIXURI_PTE_USER) = huge e) by (unfold huge, has; by rewrite Z.land_lor_distr_l, Z.lor_0_r).
  unfold next. by rewrite E1, E2, E3.
Qed.

Context (c : cpu) (Hcpu : pa_cpu (P := P) c).

(** Depth decides whether an entry may carry the size bit. *)
Lemma table_entry_small v s p i a ch : good v s -> path_ok (p ++ [i]) -> tbl (words v) 0 root p = Some a ->
  next (length p) (entry (words v) a i) = Some ch -> (0 < length p)%nat -> huge (entry (words v) a i) = false.
Proof.
  intros [_ Hwf] Hpi Ha Hn Hl. apply path_ok_snoc in Hpi as (HF & Hi & Hlen). apply next_present in Hn as (Hp & _ & Hh).
  destruct p as [|x [|y [|z p]]]; cbn in Hl, Hlen; [lia| |by apply Hh|lia]. inversion HF. by eapply (w_no_1g _ _ _ Hwf x i a).
Qed.

Lemma existing_table_run v s p i a ch flags :
  good v s -> (p ++ [i]) `prefix_of` vpath -> path_ok (p ++ [i]) -> tbl (words v) 0 root p = Some a -> next (length p) (entry (words v) a i) = Some ch ->
  exists v', existing_table a i flags (c, (v, s)) = Some (ch, (c, (v', s))) /\ quiet_step v s v' s /\ tables_kept v v'.
Proof.
  intros Hg Hpre Hpi Ha Hn. pose proof Hg as [Hok Hwf]. pose proof (next_present _ _ _ Hn) as (_ & -> & _). unfold existing_table.
  destruct (has flags RIXURI_PTE_USER).
  2: { exists v. split; [done|]. split; [by apply quiet_refl|by intros q b _]. }
  set (e := entry (words v) a i) in *. set (m' := set_entry a i (Z.lor e RIXURI_PTE_USER) (words v)).
  assert (He : m' (a + 8 * i) = Z.lor e RIXURI_PTE_USER) by (unfold m', set_entry; by rewrite Z.eqb_refl).
  assert (Hsame : forall x, x <> a + 8 * i -> m' x = words v x) by (intros x Hx; unfold m', set_entry; by rewrite (proj2 (Z.eqb_neq _ _) Hx)).
  destruct (user_bit (length p) e) as [U1 U2].
  assert (Hu : is_u64 (m' (a + 8 * i))).
  { rewrite He. unfold is_u64. apply lor_range; [lia|apply (w_u64 _ _ _ Hwf)|vm_compute; split; congruence]. }
  assert (Hnew : next (length p) (entry m' a i) = Some (entry_table e)) by (unfold entry; by rewrite He, U1).
  assert (Hnh : (0 < length p)%nat -> huge (entry m' a i) = false) by (intros Hl; unfold entry; rewrite He, U2; by eapply table_entry_small).
  pose proof (keep_tbl _ m' _ root p i a _ Hwf Hpi Ha Hsame Hu Hn Hnew Hnh) as Htb.
  exists (set_words m' v). split; [|split; [split|]].
  - change (Some (entry_table (entry m' a i), (c, (set_words m' v, s))) = Some (entry_table e, (c, (set_words m' v, s)))).
    apply next_present in Hnew as (_ & E & _). by rewrite <- E.
  - split; [done|]. exact (keep_wf _ m' _ root p i a _ Hwf Hpi Ha Hsame Hu Hn Hnew Hnh).
  - exact (keep_lookup _ m' _ root p i a _ Hwf Hpi Ha Hsame Hu Hn Hnew Hnh).
  - intros b Hb [Hbu Ht]. split; [split; [done|]|].
    + intros (q & Hq & E). apply Ht. exists q. split; [done|]. cbn [words set_words] in E. by rewrite Htb in E.
    + intros x Hx. apply Hsame. intros ->. apply Ht. exists p. split; [by eapply path_ok_app|].
      destruct (w_tbl _ _ _ Hwf p a (path_ok_app _ _ Hpi) Ha) as [[_ Ham] _]. apply path_ok_snoc in Hpi as (_ & Hi & _).
      destruct (decide (a = b)) as [<-|Hne]; [done|]. exfalso. by eapply (entry_in_page a b i).
  - by destruct v.
  - apply (off_change _ _ p i Hpre); cbn [words set_words].
    + exact (keep_entry _ m' _ root p i a _ Hwf Hpi Ha Hsame Hu Hn Hnew Hnh).
    + intros q b Hq _ Hb. by rewrite Htb.
  - exact (keep_huge _ m' _ root p i a _ Hwf Hpi Ha Hsame Hu Hn Hnew Hnh).
  - intros q b Hq Hb. cbn [words set_words]. by rewrite Htb.
Qed.

(** A fresh frame filled by [g] hung under an entry that led nowhere. *)
Lemma grow_step v s s' p i a r g ve :
  good v s -> (p ++ [i]) `prefix_of` vpath -> path_ok (p ++ [i]) -> tbl (words v) 0 root p = Some a -> next (length p) (entry (words v) a i) = None ->
  pa_ok true s' -> (forall x, busy s x = true -> busy s' x = true) -> table_ok r -> busy s r = false -> busy s' r = true ->
  next (length p) ve = Some r -> huge ve = false -> is_u64 ve -> (forall j, index_ok j -> is_u64 (g j)) ->
  ((length p < 2)%nat -> present (entry (words v) a i) = false) -> (forall j, index_ok j -> (length p < 2)%nat -> present (g j) = false) ->
  (forall j, index_ok j -> length p = 2%nat ->
    seen_leaf (g j) = seen_leaf (if present (entry (words v) a i) then huge_piece (entry (words v) a i) j else 0)) ->
  let v' := set_words (set_entry a i ve (write_table r g (words v))) v in
  quiet_step v s v' s' /\ tables_kept v v' /\ tbl (words v') 0 root (p ++ [i]) = Some r.
Proof.
  intros [Hok Hwf] Hpre Hpi Ha Hold Hok' HB Hr Hrf Hrb Hve Hvh Hvu Hgu Hup Hg0 Hg2 v'.
  set (m' := set_entry a i ve (write_table r g (words v))) in *.
  destruct (w_tbl _ _ _ Hwf p a (path_ok_app _ _ Hpi) Ha) as [[_ Ham] Hab]. pose proof Hpi as Hpi'. apply path_ok_snoc in Hpi' as (_ & Hi & _).
  assert (Har : a <> r) by congruence.
  assert (He : entry m' a i = ve) by (unfold m', entry, set_entry; by rewrite Z.eqb_refl).
  assert (Hsame : forall x, x <> a + 8 * i -> ~ in_page r x -> m' x = words v x).
  { intros x Hx Hpg. unfold m', set_entry. rewrite (proj2 (Z.eqb_neq _ _) Hx). by apply write_table_out. }
  assert (Hin : forall j, index_ok j -> entry m' r j = g j).
  { intros j Hj. unfold m', entry, set_entry. rewrite (proj2 (Z.eqb_neq _ _)); [by apply write_table_in|]. apply not_eq_sym. apply entry_apart; try done. apply Hr. }
  assert (Hu : forall x, is_u64 (m' x)).
  { intros x. unfold m', set_entry. destruct (x =? a + 8 * i); [done|]. apply write_table_u64; [done|apply (w_u64 _ _ _ Hwf)]. }
  assert (Hz : forall j, index_ok j -> (length p < 2)%nat -> present (entry m' r j) = false) by (intros j Hj; rewrite Hin by done; auto).
  assert (Hpc : forall j, index_ok j -> length p = 2%nat ->
    seen_leaf (entry m' r j) = seen_leaf (if present (entry (words v) a i) then huge_piece (entry (words v) a i) j else 0))
    by (intros j Hj; rewrite Hin by done; auto).
  rewrite <- He in Hve, Hvh.
  pose proof (grow_tables _ m' _ (busy s') root p i a r Hwf Hpi Ha Hr Hrf HB Hrb Hsame Hu Hold Hve Hvh Hup Hz Hpc) as Htabs.
  assert (Hkeep : tables_kept v v').
  { intros q b Hq Hb. change (tbl m' 0 root q = Some b). destruct (prefix_dec_paths (p ++ [i]) q) as [[x ->]|Hnp].
    - rewrite <- app_assoc, tbl_app, Ha in Hb. cbn [app tbl] in Hb. by rewrite Nat.add_0_l, Hold in Hb.
    - by rewrite (grow_other _ m' _ (busy s') root p i a r Hwf Hpi Ha Hr Hrf HB Hrb Hsame Hu Hold Hve Hvh Hup Hz Hpc). }
  split; [split|split].
  - split; [done|]. exact (grow_wf _ m' _ (busy s') root p i a r Hwf Hpi Ha Hr Hrf HB Hrb Hsame Hu Hold Hve Hvh Hup Hz Hpc).
  - exact (grow_lookup _ m' _ (busy s') root p i a r Hwf Hpi Ha Hr Hrf HB Hrb Hsame Hu Hold Hve Hvh Hup Hz Hpc).
  - intros b Hb [Hbu Ht]. assert (Hbr : b <> r) by congruence. split; [split; [auto|]|].
    + intros (q & Hq & E). destruct (Htabs q b Hq E) as [[_ ->]|[_ E']]; [done|]. apply Ht. by exists q.
    + intros x Hx. apply Hsame.
      * intros ->. apply Ht. exists p. split; [by eapply path_ok_app|]. destruct (decide (a = b)) as [<-|Hne]; [done|]. exfalso. by eapply (entry_in_page a b i).
      * unfold in_page in *. destruct Hr as [_ Hrm]. pose proof (Z.div_mod b 4096 ltac:(lia)). pose proof (Z.div_mod r 4096 ltac:(lia)). lia.
  - by destruct v.
  - apply (off_change _ _ p i Hpre); [exact (grow_entry _ m' _ (busy s') root p i a r Hwf Hpi Ha Hr Hrf HB Hrb Hsame Hu Hold Hve Hvh Hup Hz Hpc)|].
    intros q b Hq _. by apply Hkeep.
  - exact (grow_huge _ m' _ (busy s') root p i a r Hwf Hpi Ha Hr Hrf HB Hrb Hsame Hu Hold Hve Hvh Hup Hz Hpc).
  - exact Hkeep.
  - exact (grow_tbl _ m' _ (busy s') root p i a r Hwf Hpi Ha Hr Hrf HB Hrb Hsame Hu Hold Hve Hvh Hup Hz Hpc).
Qed.

(** One call of the page allocator. *)
Lemma alloc_frame (s : P) : pa_ok true s ->
  exists r s', pa_alloc (c, s) = Some (r, (c, s')) /\ pa_ok true s' /\ (forall a, busy s a = true -> busy s' a = true) /\ (r = 0 \/ table_ok r /\ busy s r = false /\ busy s' r = true).
Proof.
  intros Hok. destruct (pa_alloc_law c s Hcpu Hok) as (r & s' & E & Hok' & HB & Hr). exists r, s'. split; [done|]. split; [done|]. split; [done|].
  destruct Hr as [->|(H0 & _ & Hm & Hf & Hb)]; [by left|]. right. split; [|done]. split; [|done]. split; [done|].
  exact (fa_alloc_range c s r c s' Hcpu Hok E).
Qed.

Lemma frame_bound r : table_ok r -> 0 <= r < 2 ^ 52.
Proof. unfold table_ok, RIXURI_MAX_PHYS_BYTES. lia. Qed.

(** The entry the mapper writes for a new table. *)
Lemma new_entry d r f : table_ok r -> present f = true -> huge f = false -> 0 <= f < 2 ^ 12 ->
  next d (Z.lor r f) = Some r /\ huge (Z.lor r f) = false /\ is_u64 (Z.lor r f).
Proof.
  intros Hr Hp Hh Hf. pose proof (frame_bound r Hr) as Hb. destruct Hr as [_ Hm].
  assert (Hz : Z.land f PAGE_MASK = 0).
  { apply Z.bits_inj'. intros n Hn. rewrite Z.land_spec, Z.bits_0, mask_ones. destruct (decide (n < 12)).
    - rewrite Z.shiftl_spec_low by lia. apply andb_false_r.
    - rewrite (testbit_high f 12 n) by lia. done. }
  unfold next. rewrite present_flags, huge_flags, entry_of_frame, Hp, Hh, andb_false_r by done. split; [done|]. split; [done|].
  unfold is_u64. apply lor_range; lia.
Qed.

Lemma ensure_table_run v s p i a flags :
  good v s -> (p ++ [i]) `prefix_of` vpath -> path_ok (p ++ [i]) -> tbl (words v) 0 root p = Some a ->
  (present (entry (words v) a i) = true -> next (length p) (entry (words v) a i) <> None) ->
  exists r v' s', ensure_table a i flags (c, (v, s)) = Some (r, (c, (v', s'))) /\ quiet_step v s v' s' /\ tables_kept v v' /\
    (r = 0 /\ next (length p) (entry (words v) a i) = None \/ r <> 0 /\ tbl (words v') 0 root (p ++ [i]) = Some r).
Proof.
  intros Hg Hpre Hpi Ha Hn. pose proof Hg as [Hok Hwf]. unfold ensure_table. rewrite (bind_Some _ _ _ (entry (words v) a i) (c, (v, s))) by done.
  fold (present (entry (words v) a i)). destruct (present (entry (words v) a i)) eqn:Hp.
  - destruct (next (length p) (entry (words v) a i)) as [ch|] eqn:En; [|by destruct (Hn eq_refl)].
    destruct (existing_table_run v s p i a ch flags Hg Hpre Hpi Ha En) as (v' & E & Hq & Hk). exists ch, v', s. split; [done|]. split; [done|]. split; [done|].
    right. assert (T : tbl (words v) 0 root (p ++ [i]) = Some ch) by (by rewrite tbl_snoc, Ha, Nat.add_0_l). split; [|by apply Hk].
    destruct (w_tbl _ _ _ Hwf _ _ Hpi T) as [[H0 _] _]. lia.
  - destruct (alloc_frame s Hok) as (r & s' & E & Hok' & HB & Hr). rewrite (bind_Some _ _ _ r (c, (v, s'))) by (unfold on_frames; by rewrite E).
    destruct (r =? 0) eqn:E0; bool_to_prop.
    + exists 0, v, s'. split; [done|]. split; [by apply quiet_alloc|]. split; [by intros q b _|]. left. split; [done|]. unfold next. by rewrite Hp.
    + destruct Hr as [Hr|(Hr & Hf & Hb)]; [done|].
      set (ve := Z.lor (Z.lor (Z.lor r RIXURI_PTE_PRESENT) RIXURI_PTE_WRITE) (Z.land flags RIXURI_PTE_USER)).
      assert (Hfl : exists f, ve = Z.lor r f /\ present f = true /\ huge f = false /\ 0 <= f < 2 ^ 12).
      { exists (Z.lor (Z.lor RIXURI_PTE_PRESENT RIXURI_PTE_WRITE) (Z.land flags RIXURI_PTE_USER)). split; [unfold ve; by rewrite !Z.lor_assoc|].
        split; [rewrite present_bit, !Z.lor_spec; done|]. split; [by rewrite huge_bit, !Z.lor_spec, Z.land_spec, andb_false_r|].
        apply lor_range; [lia|vm_compute; split; congruence|]. rewrite Z.land_comm. apply land_range; [lia|vm_compute; split; congruence]. }
      destruct Hfl as (f & Ef & F1 & F2 & F3). destruct (new_entry (length p) r f Hr F1 F2 F3) as (N1 & N2 & N3). rewrite <- Ef in N1, N2, N3.
      assert (Hold : next (length p) (entry (words v) a i) = None) by (unfold next; by rewrite Hp).
      destruct (grow_step v s s' p i a r (fun _ => 0) ve) as (Q & K & T); try done.
      { intros j Hj _. by rewrite Hp. }
      eexists r, _, s'. split; [reflexivity|]. split; [exact Q|]. split; [exact K|]. by right.
Qed.

Lemma split_run v s x y i a flags :
  good v s -> [x; y; i] = vpath -> index_ok x -> index_ok y -> index_ok i -> tbl (words v) 0 root [x; y] = Some a ->
  exists r v' s', split_pd_huge_page a i flags (c, (v, s)) = Some (r, (c, (v', s'))) /\ quiet_step v s v' s' /\ tables_kept v v' /\
    (r = 0 /\ next 2 (entry (words v) a i) = None \/ r <> 0 /\ tbl (words v') 0 root [x; y; i] = Some r).
Proof.
  intros Hg Hvp Hx Hy Hi Ha. pose proof Hg as [Hok Hwf]. assert (Hpre : ([x; y] ++ [i]) `prefix_of` vpath) by (rewrite <- Hvp; by exists []). unfold split_pd_huge_page. rewrite (bind_Some _ _ _ (entry (words v) a i) (c, (v, s))) by done.
  set (e := entry (words v) a i). fold (present e). fold (huge e). assert (Hpi : path_ok ([x; y] ++ [i])) by (by apply path3).
  destruct (present e) eqn:Hp; cbn [negb].
  2: { apply (ensure_table_run v s [x; y] i a flags Hg Hpre Hpi Ha). fold e. congruence. }
  destruct (huge e) eqn:Hh; cbn [negb].
  2: { assert (En : next 2 e = Some (entry_table e)) by (unfold next; rewrite Hp, Hh; done).
       destruct (existing_table_run v s [x; y] i a (entry_table e) flags Hg Hpre Hpi Ha En) as (v' & E & Hq & Hk). exists (entry_table e), v', s.
       split; [done|]. split; [done|]. split; [done|]. right.
       assert (T : tbl (words v) 0 root ([x; y] ++ [i]) = Some (entry_table e)) by (rewrite tbl_snoc, Ha; exact En).
       split; [|by apply Hk]. destruct (w_tbl _ _ _ Hwf _ _ Hpi T) as [[H0 _] _]. lia. }
  destruct (alloc_frame s Hok) as (r & s' & E & Hok' & HB & Hr). rewrite (bind_Some _ _ _ r (c, (v, s'))) by (unfold on_frames; by rewrite E).
  destruct (r =? 0) eqn:E0; bool_to_prop.
  { exists 0, v, s'. split; [done|]. split; [by apply quiet_alloc|]. split; [by intros q b _|]. left. split; [done|]. unfold next. by rewrite Hp, Hh. }
  destruct Hr as [Hr|(Hr & Hf & Hb)]; [done|]. pose proof (w_u64 _ _ _ Hwf (a + 8 * i)) as Heu. fold (entry (words v) a i) in Heu. fold e in Heu.
  pose proof (w_2m _ _ _ Hwf x y i a Hx Hy Hi Ha Hp Hh) as Hb2. fold e in Hb2. destruct (entry_table_range e Heu) as [Her _].
  set (ve := Z.lor (Z.lor (Z.lor (Z.lor r RIXURI_PTE_PRESENT) RIXURI_PTE_WRITE) (Z.land e RIXURI_PTE_USER)) (Z.land flags RIXURI_PTE_USER)).
  assert (Hfl : exists f, ve = Z.lor r f /\ present f = true /\ huge f = false /\ 0 <= f < 2 ^ 12).
  { exists (Z.lor (Z.lor (Z.lor RIXURI_PTE_PRESENT RIXURI_PTE_WRITE) (Z.land e RIXURI_PTE_USER)) (Z.land flags RIXURI_PTE_USER)).
    split; [unfold ve; by rewrite !Z.lor_assoc|].
    split; [rewrite present_bit, !Z.lor_spec; done|]. split; [by rewrite huge_bit, !Z.lor_spec, !Z.land_spec, !andb_false_r|].
    assert (forall z, 0 <= Z.land z RIXURI_PTE_USER < 2 ^ 12) by (intros z; rewrite Z.land_comm; apply land_range; [lia|vm_compute; split; congruence]).
    apply lor_range; [lia| |done]. apply lor_range; [lia|vm_compute; split; congruence|done]. }
  destruct Hfl as (f & Ef & F1 & F2 & F3). destruct (new_entry 2 r f Hr F1 F2 F3) as (N1 & N2 & N3). rewrite <- Ef in N1, N2, N3.
  set (g := fun j => Z.lor (Z.lor (u64 (Z.land e PAGE_MASK + j * 0x1000)) RIXURI_PTE_PRESENT) (Z.land e (Z.lor (Z.lor RIXURI_PTE_WRITE RIXURI_PTE_USER) RIXURI_PTE_NX))).
  assert (Eg : forall j, index_ok j -> g j = huge_piece e j).
  { intros j Hj. unfold g, huge_piece. fold (entry_table e). unfold index_ok in Hj. rewrite u64_id by (unfold is_u64; lia). done. }
  assert (Hold : next 2 e = None) by (unfold next; by rewrite Hp, Hh).
  destruct (grow_step v s s' [x; y] i a r g ve) as (Q & K & T); try done; try (cbn [length]; lia).
  { intros j Hj. rewrite Eg by done. apply (huge_piece_spec e j Heu Hp Hj Hb2). }
  { intros j Hj _. fold e. by rewrite Hp, Eg. }
  eexists r, _, s'. split; [reflexivity|]. split; [exact Q|]. split; [exact K|]. by right.
Qed.

(** Giving back an empty table; what is not below it stays. *)
Definition kept_beside (p : list Z) (i : Z) (v v' : vmm_t) : Prop :=
  (forall q, path_ok q -> ~ (p ++ [i]) `prefix_of` q -> tbl (words v') 0 root q = tbl (words v) 0 root q) /\
  (forall q b j, path_ok q -> tbl (words v) 0 root q = Some b -> index_ok j -> (q <> p \/ j <> i) -> entry (words v') b j = entry (words v) b j).

Lemma reclaim_run v s p i a ch :
  good v s -> (p ++ [i]) `prefix_of` vpath -> path_ok (p ++ [i]) -> tbl (words v) 0 root p = Some a -> next (length p) (entry (words v) a i) = Some ch ->
  table_is_empty (words v) ch = true ->
  exists v' s', reclaim a i (entry (words v) a i) (c, (v, s)) = Some (tt, (c, (v', s'))) /\ quiet_step v s v' s' /\ kept_beside p i v v'.
Proof.
  intros Hg Hpre Hpi Ha Hn Hempty. pose proof Hg as [Hok Hwf]. pose proof (proj1 (table_is_empty_spec _ _) Hempty) as Hem.
  pose proof (next_present _ _ _ Hn) as (_ & Ech & _). unfold reclaim. fold (entry_table (entry (words v) a i)). rewrite <- Ech.
  destruct (fa_reserved_law c s ch Hcpu Hok) as (b & s1 & E1 & Hok1 & HB1). rewrite (bind_Some _ _ _ b (c, (v, s1))) by (unfold on_frames; by rewrite E1).
  assert (Q1 : quiet_step v s v s1) by (apply quiet_alloc; [done|done|intros x; by rewrite HB1]).
  destruct b.
  { exists v, s1. split; [done|]. split; [done|]. by split. }
  set (m' := set_entry a i 0 (words v)).
  assert (T : tbl (words v) 0 root (p ++ [i]) = Some ch) by (by rewrite tbl_snoc, Ha, Nat.add_0_l).
  destruct (w_tbl _ _ _ Hwf _ _ Hpi T) as [[Hch _] _].
  destruct (pa_free_law c s1 ch Hcpu Hok1 ltac:(lia)) as (s2 & E2 & Hok2 & HB2).
  assert (Hclear : m' (a + 8 * i) = 0) by (unfold m', set_entry; by rewrite Z.eqb_refl).
  assert (Hsame : forall x, x <> a + 8 * i -> m' x = words v x) by (intros x Hx; unfold m', set_entry; by rewrite (proj2 (Z.eqb_neq _ _) Hx)).
  assert (HB : forall x, x <> ch -> busy s x = true -> busy s2 x = true) by (intros x Hx Hb; apply HB2; [done|by rewrite HB1]).
  pose proof (drop_tables _ m' _ (busy s2) root p i a ch Hwf Hpi Ha Hsame Hclear Hn Hem HB) as Htabs.
  pose proof Hpi as Hpi'. apply path_ok_snoc in Hpi' as (_ & Hi & _).
  exists (set_words m' v), s2. split; [|split; [split|split]].
  - rewrite (bind_Some _ _ _ tt (c, (set_words m' v, s1))) by done. unfold on_frames. by rewrite E2.
  - split; [done|]. exact (drop_wf _ m' _ (busy s2) root p i a ch Hwf Hpi Ha Hsame Hclear Hn Hem HB).
  - exact (drop_lookup _ m' _ (busy s2) root p i a ch Hwf Hpi Ha Hsame Hclear Hn Hem HB).
  - intros x Hx [Hxb Ht]. split; [split|].
    + apply HB; [|done]. intros ->. apply Ht. by exists (p ++ [i]).
    + intros (q & Hq & E). apply Ht. exists q. split; [done|]. by apply Htabs.
    + intros y Hy. apply Hsame. intros ->. apply Ht. exists p. split; [by eapply path_ok_app|].
      destruct (w_tbl _ _ _ Hwf p a (path_ok_app _ _ Hpi) Ha) as [[_ Ham] _].
      destruct (decide (a = x)) as [<-|Hne]; [done|]. exfalso. by eapply (entry_in_page a x i).
  - by destruct v.
  - apply (off_change _ _ p i Hpre); [exact (drop_entry _ m' _ (busy s2) root p i a ch Hwf Hpi Ha Hsame Hclear Hn Hem HB)|].
    intros q b Hq Hnq Hb. cbn [words set_words]. destruct (prefix_dec_paths (p ++ [i]) q) as [[x Hx]|Hnp].
    + exfalso. destruct x as [|j x]; [rewrite app_nil_r in Hx; by subst q|]. subst q. rewrite tbl_app, T in Hb. cbn [tbl] in Hb. unfold next in Hb.
      rewrite Hem in Hb; [done|]. destruct Hq as [HF _]. rewrite Forall_app in HF. destruct HF as [_ HF]. by inversion HF.
    + by rewrite (drop_other _ m' _ (busy s2) root p i a ch Hwf Hpi Ha Hsame Hclear Hn Hem HB).
  - exact (drop_huge _ m' _ (busy s2) root p i a ch Hwf Hpi Ha Hsame Hclear Hn Hem HB).
  - exact (drop_other _ m' _ (busy s2) root p i a ch Hwf Hpi Ha Hsame Hclear Hn Hem HB).
  - exact (drop_entry _ m' _ (busy s2) root p i a ch Hwf Hpi Ha Hsame Hclear Hn Hem HB).
Qed.

(** [if (table_is_empty(t)) { reclaim }] and the same with an early return. *)
Lemma maybe_reclaim_run v s p i a ch :
  good v s -> (p ++ [i]) `prefix_of` vpath -> path_ok (p ++ [i]) -> tbl (words v) 0 root p = Some a -> next (length p) (entry (words v) a i) = Some ch ->
  exists v' s', (if table_is_empty (words v) ch then reclaim a i (entry (words v) a i) else mret tt) (c, (v, s)) = Some (tt, (c, (v', s'))) /\
    quiet_step v s v' s' /\ kept_beside p i v v'.
Proof.
  intros Hg Hpre Hpi Ha Hn. destruct (table_is_empty (words v) ch) eqn:E; [by eapply reclaim_run|].
  exists v, s. split; [done|]. split; [by apply quiet_refl|by split].
Qed.

Lemma not_prefix_longer (p q : list Z) i : (length q <= length p)%nat -> ~ (p ++ [i]) `prefix_of` q.
Proof. intros Hl [r Hr]. apply (f_equal length) in Hr. rewrite !length_app in Hr. cbn in Hr. lia. Qed.

Lemma prune_run v s : good v s ->
  exists v' s', prune_empty_path root va (c, (v, s)) = Some (tt, (c, (v', s'))) /\ quiet_step v s v' s'.
Proof.
  intros Hg. pose proof Hg as [Hok Hwf]. unfold prune_empty_path.
  pose proof (index4_ok va) as I4. pose proof (index3_ok va) as I3. pose proof (index2_ok va) as I2.
  set (i4 := index4 va) in *. set (i3 := index3 va) in *. set (i2 := index2 va) in *. cbv zeta.
  set (e4 := entry (words v) root i4). rewrite (bind_Some _ _ _ e4 (c, (v, s))) by done.
  fold (present e4). destruct (present e4) eqn:P4; cbn [negb]; [|exists v, s; split; [done|by apply quiet_refl]].
  set (t3 := entry_table e4). set (e3 := entry (words v) t3 i3). rewrite (bind_Some _ _ _ e3 (c, (v, s))) by done.
  assert (N4 : next 0 e4 = Some t3) by (unfold next; by rewrite P4).
  assert (T3 : tbl (words v) 0 root [i4] = Some t3) by (cbn [tbl]; fold e4; by rewrite N4).
  assert (Pi4 : path_ok ([] ++ [i4])) by (by apply path1). assert (Pi3 : path_ok ([i4] ++ [i3])) by (by apply path2).
  assert (Pi2 : path_ok ([i4; i3] ++ [i2])) by (by apply path3).
  assert (V4 : ([] ++ [i4]) `prefix_of` vpath) by (by exists [i3; i2]). assert (V3 : ([i4] ++ [i3]) `prefix_of` vpath) by (by exists [i2]).
  assert (V2 : ([i4; i3] ++ [i2]) `prefix_of` vpath) by (by exists []).
  fold (present e3). fold (huge e3). destruct (present e3) eqn:P3; cbn [negb].
  2: { rewrite (bind_Some _ _ _ (table_is_empty (words v) t3) (c, (v, s))) by done.
       destruct (maybe_reclaim_run v s [] i4 root t3 Hg V4 Pi4 eq_refl N4) as (v' & s' & E & Q & _). by exists v', s'. }
  destruct (huge e3) eqn:H3; [exists v, s; split; [done|by apply quiet_refl]|].
  set (t2 := entry_table e3). set (e2 := entry (words v) t2 i2). rewrite (bind_Some _ _ _ e2 (c, (v, s))) by done.
  assert (N3 : next 1 e3 = Some t2) by (unfold next; rewrite P3; done).
  assert (T2 : tbl (words v) 0 root [i4; i3] = Some t2) by (change [i4; i3] with ([i4] ++ [i3]); rewrite tbl_snoc, T3; exact N3).
  fold (present e2). fold (huge e2). destruct (present e2) eqn:P2; cbn [negb].
  2: { rewrite (bind_Some _ _ _ (table_is_empty (words v) t2) (c, (v, s))) by done.
       destruct (maybe_reclaim_run v s [i4] i3 t3 t2 Hg V3 Pi3 T3 N3) as (v1 & s1 & E1 & Q1 & K1). rewrite (bind_Some _ _ _ tt (c, (v1, s1))) by exact E1.
       rewrite (bind_Some _ _ _ (table_is_empty (words v1) t3) (c, (v1, s1))) by done.
       assert (E4 : entry (words v1) root i4 = e4) by (apply (proj2 K1 [] root i4); [apply path1_nil|done|done|by left]).
       assert (N4' : next 0 (entry (words v1) root i4) = Some t3) by (by rewrite E4).
       destruct (maybe_reclaim_run v1 s1 [] i4 root t3 (qs_good _ _ _ _ Q1) V4 Pi4 eq_refl N4') as (v' & s' & E & Q & _). rewrite E4 in E.
       exists v', s'. split; [exact E|by eapply quiet_trans]. }
  destruct (huge e2) eqn:H2; [exists v, s; split; [done|by apply quiet_refl]|].
  set (t1 := entry_table e2). rewrite (bind_Some _ _ _ (table_is_empty (words v) t1) (c, (v, s))) by done.
  assert (N2 : next 2 e2 = Some t1) by (unfold next; rewrite P2, H2; done).
  destruct (table_is_empty (words v) t1) eqn:M1; cbn [negb]; [|exists v, s; split; [done|by apply quiet_refl]].
  destruct (reclaim_run v s [i4; i3] i2 t2 t1 Hg V2 Pi2 T2 N2 M1) as (v1 & s1 & E1 & Q1 & K1). rewrite (bind_Some _ _ _ tt (c, (v1, s1))) by exact E1.
  rewrite (bind_Some _ _ _ (table_is_empty (words v1) t2) (c, (v1, s1))) by done.
  destruct (table_is_empty (words v1) t2) eqn:M2; cbn [negb]; [|exists v1, s1; by split].
  assert (E4 : entry (words v1) root i4 = e4) by (apply (proj2 K1 [] root i4); [apply path1_nil|done|done|by left]).
  assert (E3 : entry (words v1) t3 i3 = e3) by (apply (proj2 K1 [i4] t3 i3); [by apply path1|done|done|by left]).
  assert (T3' : tbl (words v1) 0 root [i4] = Some t3) by (rewrite (proj1 K1); [done|by apply path1|apply not_prefix_longer; cbn; lia]).
  assert (N3' : next 1 (entry (words v1) t3 i3) = Some t2) by (by rewrite E3).
  destruct (reclaim_run v1 s1 [i4] i3 t3 t2 (qs_good _ _ _ _ Q1) V3 Pi3 T3' N3' M2) as (v2 & s2 & E2 & Q2 & K2). rewrite E3 in E2.
  rewrite (bind_Some _ _ _ tt (c, (v2, s2))) by exact E2. pose proof (quiet_trans _ _ _ _ _ _ Q1 Q2) as Q12.
  rewrite (bind_Some _ _ _ (table_is_empty (words v2) t3) (c, (v2, s2))) by done.
  destruct (table_is_empty (words v2) t3) eqn:M3; cbn [negb]; [|exists v2, s2; by split].
  assert (E4' : entry (words v2) root i4 = e4) by (rewrite <- E4; apply (proj2 K2 [] root i4); [apply path1_nil|done|done|by left]).
  assert (N4' : next 0 (entry (words v2) root i4) = Some t3) by (by rewrite E4').
  destruct (reclaim_run v2 s2 [] i4 root t3 (qs_good _ _ _ _ Q2) V4 Pi4 eq_refl N4' M3) as (v3 & s3 & E5 & Q3 & _). rewrite E4' in E5.
  exists v3, s3. split; [exact E5|by eapply quiet_trans].
Qed.

(** ** The bodies *)

Definition in_view (v : vmm_t) : option (Z * Z) := lookup_va (words v) root va.

(** The view of [v'] is that of [v] with the page of [va] replaced by [x]. *)
Definition view_set (v v' : vmm_t) (x : option (Z * Z)) : Prop :=
  in_view v' = x /\
  forall i4 i3 i2 i1, index_ok i4 -> index_ok i3 -> index_ok i2 -> index_ok i1 ->
    ~ (i4 = index4 va /\ i3 = index3 va /\ i2 = index2 va /\ i1 = index1 va) ->
    lookup (words v') root i4 i3 i2 i1 = lookup (words v) root i4 i3 i2 i1.

Definition same_rest (v v' : vmm_t) : Prop :=
  kernel_pml4_phys v' = kernel_pml4_phys v /\ current_pml4_phys v' = current_pml4_phys v /\ vmm_map_lock v' = vmm_map_lock v /\
  vmm_map_lockdep_class v' = vmm_map_lockdep_class v.

Lemma quiet_rest v s v' s' : quiet_step v s v' s' -> same_rest v v' /\ tlb v' = tlb v.
Proof. intros [_ _ _ E _ _]. rewrite E. by destruct v. Qed.

(** Writing the leaf of [va] in its page table, and the flush after it. *)
Lemma leaf_step v s t e :
  good v s -> tbl (words v) 0 root [index4 va; index3 va; index2 va] = Some t -> is_u64 e ->
  let v1 := set_words (set_entry t (index1 va) e (words v)) v in
  let v' := if root =? current_pml4_phys v then flush va v1 else v1 in
  (_ ← wr t (index1 va) e; cur ← gets (fun '(_, (v, _)) => current_pml4_phys v); if root =? cur then invlpg va else mret tt) (c, (v, s))
    = Some (tt, (c, (v', s))) /\
  good v' s /\ view_set v v' (seen_leaf e) /\ guests_kept v s v' s /\ same_rest v v' /\ off_path_kept v v' /\ no_new_huge v v' /\
    tlb v' = (if root =? current_pml4_phys v then va :: tlb v else tlb v).
Proof.
  intros [Hok Hwf] Ht He v1 v'. set (m' := set_entry t (index1 va) e (words v)) in *.
  assert (Ew : words v' = m') by (unfold v'; by destruct (root =? current_pml4_phys v)).
  assert (Hm : m' (t + 8 * index1 va) = e) by (unfold m', set_entry; by rewrite Z.eqb_refl).
  assert (Hsame : forall x, x <> t + 8 * index1 va -> m' x = words v x) by (intros x Hx; unfold m', set_entry; by rewrite (proj2 (Z.eqb_neq _ _) Hx)).
  assert (Hu : is_u64 (m' (t + 8 * index1 va))) by (by rewrite Hm).
  pose proof (index4_ok va) as I4. pose proof (index3_ok va) as I3. pose proof (index2_ok va) as I2. pose proof (index1_ok va) as I1.
  split; [|split; [|split; [|split; [|split; [|split; [|split]]]]]].
  - rewrite (bind_Some _ _ _ tt (c, (v1, s))) by done. rewrite (bind_Some _ _ _ (current_pml4_phys v) (c, (v1, s))) by done.
    unfold v'. by destruct (root =? current_pml4_phys v).
  - split; [done|]. rewrite Ew. exact (leaf_wf _ m' _ root _ _ _ _ t Hwf I4 I3 I2 I1 Ht Hsame Hu).
  - split.
    + unfold in_view, lookup_va. rewrite Ew, (leaf_lookup_here _ m' _ root _ _ _ _ t Hwf I4 I3 I2 I1 Ht Hsame Hu). by rewrite Hm.
    + rewrite Ew. exact (leaf_lookup_other _ m' _ root _ _ _ _ t Hwf I4 I3 I2 I1 Ht Hsame Hu).
  - intros b Hb [Hbu Hbt]. unfold guest. rewrite Ew. split; [split; [done|]|].
    + intros (q & Hq & E). rewrite (leaf_tbl _ m' _ root _ _ _ _ t Hwf I4 I3 I2 I1 Ht Hsame Hu) in E by done. apply Hbt. by exists q.
    + intros x Hx. apply Hsame. intros ->. apply Hbt. exists [index4 va; index3 va; index2 va]. split; [by apply path3|].
      destruct (w_tbl _ _ _ Hwf _ t (path3 _ _ _ I4 I3 I2) Ht) as [[_ Htm] _].
      destruct (decide (t = b)) as [<-|Hne]; [done|]. exfalso. by eapply (entry_in_page t b (index1 va)).
  - unfold v', same_rest. by destruct (root =? current_pml4_phys v).
  - split; rewrite Ew.
    + intros q b Hq Hnq Hb. rewrite (leaf_tbl _ m' _ root _ _ _ _ t Hwf I4 I3 I2 I1 Ht Hsame Hu) by done. split; [done|]. intros j Hj.
      apply (leaf_entry_other _ m' _ root _ _ _ _ t Hwf I4 I3 I2 I1 Ht Hsame Hu q); try done. left. intros ->. apply Hnq. by exists [].
    + intros j Hj _. apply (leaf_entry_other _ m' _ root _ _ _ _ t Hwf I4 I3 I2 I1 Ht Hsame Hu []); [apply path1_nil|done|done|by left].
  - intros i4 i3 i2. rewrite Ew. exact (leaf_huge _ m' _ root _ _ _ _ t Hwf I4 I3 I2 I1 Ht Hsame Hu i4 i3 i2).
  - unfold v'. by destruct (root =? current_pml4_phys v).
Qed.

Definition outcome (v : vmm_t) (s : P) (v' : vmm_t) (s' : P) : Prop := good v' s' /\ guests_kept v s v' s' /\ same_rest v v' /\ off_path_kept v v' /\ no_new_huge v v'.

Lemma quiet_outcome v s v' s' : quiet_step v s v' s' -> outcome v s v' s'.
Proof. intros Q. split; [apply Q|]. split; [apply Q|]. split; [by apply quiet_rest in Q as [? _]|]. split; apply Q. Qed.

(** A failed map: the path is pruned and nothing is seen to change. *)
Lemma map_fails v0 s0 v s : quiet_step v0 s0 v s ->
  exists v' s', (_ ← prune_empty_path root va; mret (-1)) (c, (v, s)) = Some (-1, (c, (v', s'))) /\ quiet_step v0 s0 v' s'.
Proof.
  intros Q. destruct (prune_run v s (qs_good _ _ _ _ Q)) as (v' & s' & E & Q'). exists v', s'.
  rewrite (bind_Some _ _ _ tt (c, (v', s'))) by exact E. split; [done|by eapply quiet_trans].
Qed.

Lemma upper_next d e : (d < 2)%nat -> present e = true -> next d e <> None.
Proof. intros Hd Hp. unfold next. rewrite Hp. destruct d as [|[|d]]; [done|done|lia]. Qed.

Lemma map_body_run v s pa flags :
  good v s -> is_u64 flags -> 0 <= pa < 2 ^ 52 -> pa mod 4096 = 0 ->
  exists rc v' s', map_body root va pa flags (c, (v, s)) = Some (rc, (c, (v', s'))) /\ outcome v s v' s' /\
    (rc = 0 /\ view_set v v' (if present flags then Some (pa, Z.land flags PAGE_QUERY) else None) /\
       tlb v' = (if root =? current_pml4_phys v then va :: tlb v else tlb v) \/
     rc = -1 /\ same_view v v' /\ tlb v' = tlb v /\ tbl (words v) 0 root [index4 va; index3 va; index2 va] = None).
Proof.
  intros Hg Hfl Hpa Hpm. unfold map_body.
  pose proof (index4_ok va) as I4. pose proof (index3_ok va) as I3. pose proof (index2_ok va) as I2. pose proof (index1_ok va) as I1.
  assert (Hfail : forall w s1, quiet_step v s w s1 -> tbl (words v) 0 root [index4 va; index3 va; index2 va] = None ->
    exists rc v' s', (_ ← prune_empty_path root va; mret (-1)) (c, (w, s1)) = Some (rc, (c, (v', s'))) /\ outcome v s v' s' /\
    (rc = 0 /\ view_set v v' (if present flags then Some (pa, Z.land flags PAGE_QUERY) else None) /\
       tlb v' = (if root =? current_pml4_phys v then va :: tlb v else tlb v) \/
     rc = -1 /\ same_view v v' /\ tlb v' = tlb v /\ tbl (words v) 0 root [index4 va; index3 va; index2 va] = None)).
  { intros w s1 Q Hn. destruct (map_fails v s w s1 Q) as (v' & s' & E & Q'). exists (-1), v', s'. split; [done|]. split; [by apply quiet_outcome|].
    right. split; [done|]. split; [apply Q'|]. split; [by apply quiet_rest in Q' as [_ ?]|done]. }
  destruct (ensure_table_run v s [] (index4 va) root flags Hg ltac:(by exists [index3 va; index2 va]) ltac:(by apply path1) eq_refl ltac:(by apply upper_next; cbn; lia))
    as (r3 & v1 & s1 & E1 & Q1 & K1 & R1). rewrite (bind_Some _ _ _ r3 (c, (v1, s1))) by exact E1.
  destruct R1 as [[-> N1]|[Hr3 T3]]; [apply (Hfail v1 s1 Q1); cbn [tbl length] in *; by rewrite N1|].
  rewrite (proj2 (Z.eqb_neq r3 0) Hr3). cbn [app] in T3.
  destruct (ensure_table_run v1 s1 [index4 va] (index3 va) r3 flags (qs_good _ _ _ _ Q1) ltac:(by exists [index2 va]) ltac:(by apply path2) T3 ltac:(by apply upper_next; cbn; lia))
    as (r2 & v2 & s2 & E2 & Q2 & K2 & R2). rewrite (bind_Some _ _ _ r2 (c, (v2, s2))) by exact E2. pose proof (quiet_trans _ _ _ _ _ _ Q1 Q2) as Q12.
  assert (Hback : forall p, path_ok p -> tbl (words v1) 0 root p = None -> tbl (words v) 0 root p = None).
  { intros p Hp Hn. destruct (tbl (words v) 0 root p) as [b|] eqn:E; [|done]. by rewrite (K1 p b Hp E) in Hn. }
  destruct R2 as [[-> N2]|[Hr2 T2]].
  { apply (Hfail v2 s2 Q12). apply Hback; [by apply path3|]. change [index4 va; index3 va; index2 va] with ([index4 va] ++ [index3 va; index2 va]).
    rewrite tbl_app, T3. cbn [tbl length Nat.add] in *. by rewrite N2. }
  rewrite (proj2 (Z.eqb_neq r2 0) Hr2). cbn [app] in T2.
  destruct (split_run v2 s2 (index4 va) (index3 va) (index2 va) r2 flags (qs_good _ _ _ _ Q2) eq_refl I4 I3 I2 T2) as (r1 & v3 & s3 & E3 & Q3 & K3 & R3).
  rewrite (bind_Some _ _ _ r1 (c, (v3, s3))) by exact E3. pose proof (quiet_trans _ _ _ _ _ _ Q12 Q3) as Q13.
  destruct R3 as [[-> N3]|[Hr1 T1]].
  { apply (Hfail v3 s3 Q13). destruct (tbl (words v) 0 root [index4 va; index3 va; index2 va]) as [b|] eqn:E; [|done].
    pose proof (path3 _ _ _ I4 I3 I2) as P3. apply (K1 _ _ P3), (K2 _ _ P3) in E.
    change [index4 va; index3 va; index2 va] with ([index4 va; index3 va] ++ [index2 va]) in E. rewrite tbl_snoc, T2 in E. cbn [length Nat.add] in E. congruence. }
  rewrite (proj2 (Z.eqb_neq r1 0) Hr1). set (e := Z.lor (Z.land pa PAGE_MASK) (Z.land flags LEAF_FLAGS)).
  assert (He : is_u64 e).
  { unfold is_u64, e. apply lor_range; [lia| |apply land_range; [lia|exact Hfl]]. apply land_range; lia. }
  destruct (leaf_step v3 s3 r1 e (qs_good _ _ _ _ Q13) T1 He) as (E4 & G4 & [V4a V4b] & K4 & R4 & O4 & U4 & L4).
  set (v' := if root =? current_pml4_phys v3 then _ else _) in *.
  exists 0, v', s3. pose proof (quiet_rest _ _ _ _ Q13) as [(Rk & Rc & Rl & Rd) Rt]. split; [|split].
  - revert E4. unfold mbind, M_bind, wr, with_words, modify, gets. cbn beta iota.
    destruct (root =? current_pml4_phys (set_words (set_entry r1 (index1 va) e (words v3)) v3)); intros E4; injection E4 as <-; done.
  - split; [done|]. split; [by eapply guests_trans; [apply Q13|]|]. split; [|split; [eapply off_trans; [apply Q13|exact O4]|intros i4 i3 i2 H4 H3 H2 H; by apply (qs_huge _ _ _ _ Q13), U4]].
    destruct R4 as (? & ? & ? & ?). unfold same_rest. repeat split; congruence.
  - left. split; [done|]. split.
    + split; [rewrite V4a; by apply leaf_entry|]. intros i4 i3 i2 i1 J4 J3 J2 J1 Hne. rewrite V4b by done. by apply (qs_view _ _ _ _ Q13).
    + rewrite L4, Rc, Rt. done.
Qed.

Lemma unmap_body_run v s :
  good v s ->
  exists rc v' s', unmap_body root va (c, (v, s)) = Some (rc, (c, (v', s'))) /\ outcome v s v' s' /\
    (rc = 0 /\ view_set v v' None \/ rc = -1 /\ same_view v v').
Proof.
  intros Hg. pose proof Hg as [Hok Hwf]. unfold unmap_body.
  pose proof (index4_ok va) as I4. pose proof (index3_ok va) as I3. pose proof (index2_ok va) as I2. pose proof (index1_ok va) as I1.
  assert (Habsent : in_view v = None -> exists rc v' s', (mret 0 : M (cpu * (vmm_t * P)) Z) (c, (v, s)) = Some (rc, (c, (v', s'))) /\ outcome v s v' s' /\
    (rc = 0 /\ view_set v v' None \/ rc = -1 /\ same_view v v')).
  { intros Hn. exists 0, v, s. split; [done|]. split; [by apply quiet_outcome, quiet_refl|]. left. by repeat split. }
  set (e4 := entry (words v) root (index4 va)). rewrite (bind_Some _ _ _ e4 (c, (v, s))) by done. fold (present e4).
  destruct (present e4) eqn:P4; cbn [negb].
  2: { apply Habsent. unfold in_view, lookup_va, lookup, leaf. cbn [tbl]. fold e4. unfold next. by rewrite P4. }
  set (t3 := entry_table e4). set (e3 := entry (words v) t3 (index3 va)). rewrite (bind_Some _ _ _ e3 (c, (v, s))) by done.
  assert (T3 : tbl (words v) 0 root [index4 va] = Some t3) by (cbn [tbl]; fold e4; unfold next; by rewrite P4).
  fold (present e3). fold (huge e3). destruct (present e3) eqn:P3; cbn [negb].
  2: { apply Habsent. unfold in_view, lookup_va, lookup, leaf. change [index4 va; index3 va; index2 va] with ([index4 va] ++ [index3 va; index2 va]).
       change [index4 va; index3 va] with ([index4 va] ++ [index3 va]). rewrite !tbl_app, T3. cbn [tbl length Nat.add]. fold e3. unfold next. by rewrite P3. }
  rewrite (w_no_1g _ _ _ Hwf _ _ _ I4 I3 T3 P3 : huge e3 = false).
  set (t2 := entry_table e3). set (e2 := entry (words v) t2 (index2 va)). rewrite (bind_Some _ _ _ e2 (c, (v, s))) by done.
  assert (T2 : tbl (words v) 0 root [index4 va; index3 va] = Some t2).
  { change [index4 va; index3 va] with ([index4 va] ++ [index3 va]). rewrite tbl_snoc, T3. cbn [length Nat.add]. fold e3. unfold next. rewrite P3. done. }
  fold (present e2). fold (huge e2). destruct (present e2) eqn:P2; cbn [negb].
  2: { apply Habsent. unfold in_view, lookup_va, lookup, leaf. change [index4 va; index3 va; index2 va] with ([index4 va; index3 va] ++ [index2 va]).
       rewrite tbl_snoc, T2. cbn [length Nat.add]. fold e2. unfold next. rewrite P2. done. }
  assert (Hpt : exists r v1 s1, (if huge e2 then split_pd_huge_page t2 (index2 va) 0 else mret (entry_table e2)) (c, (v, s)) = Some (r, (c, (v1, s1))) /\
    quiet_step v s v1 s1 /\ (huge e2 = true /\ r = 0 \/ r <> 0 /\ tbl (words v1) 0 root [index4 va; index3 va; index2 va] = Some r)).
  { destruct (huge e2) eqn:H2.
    - destruct (split_run v s (index4 va) (index3 va) (index2 va) t2 0 Hg eq_refl I4 I3 I2 T2) as (r & v1 & s1 & E & Q & _ & R). exists r, v1, s1.
      split; [exact E|]. split; [done|]. destruct R as [[-> _]|R]; [by left|by right].
    - exists (entry_table e2), v, s. split; [done|]. split; [by apply quiet_refl|]. right.
      assert (T1 : tbl (words v) 0 root [index4 va; index3 va; index2 va] = Some (entry_table e2)).
      { change [index4 va; index3 va; index2 va] with ([index4 va; index3 va] ++ [index2 va]). rewrite tbl_snoc, T2. cbn [length Nat.add]. fold e2.
        unfold next. rewrite P2, H2. done. }
      split; [|done]. destruct (w_tbl _ _ _ Hwf _ _ (path3 _ _ _ I4 I3 I2) T1) as [[H0 _] _]. lia. }
  destruct Hpt as (r & v1 & s1 & E1 & Q1 & R1). rewrite (bind_Some _ _ _ r (c, (v1, s1))) by exact E1.
  destruct R1 as [[H2 ->]|[Hr T1]].
  { rewrite H2. exists (-1), v1, s1. split; [done|]. split; [by apply quiet_outcome|]. right. split; [done|]. apply Q1. }
  rewrite (proj2 (Z.eqb_neq r 0) Hr), andb_false_r.
  destruct (leaf_step v1 s1 r 0 (qs_good _ _ _ _ Q1) T1 ltac:(unfold is_u64; lia)) as (E4 & G4 & [V4a V4b] & K4 & R4 & O4 & U4 & _).
  set (v2 := if root =? current_pml4_phys v1 then _ else _) in *.
  destruct (prune_run v2 s1 G4) as (v' & s' & E5 & Q5). exists 0, v', s'.
  pose proof (quiet_rest _ _ _ _ Q1) as [R1 _]. pose proof (quiet_rest _ _ _ _ Q5) as [R5 _]. split; [|split].
  - revert E4. unfold mbind, M_bind, wr, with_words, modify, gets. cbn beta iota.
    destruct (root =? current_pml4_phys (set_words (set_entry r (index1 va) 0 (words v1)) v1)) eqn:Ec; intros E4; injection E4 as E4.
    + cbn beta iota delta [invlpg modify]. change (flush va (set_words (set_entry r (index1 va) 0 (words v1)) v1)) with (flush va (set_words (set_entry r (index1 va) 0 (words v1)) v1)).
      rewrite E4, E5. done.
    + cbn beta iota delta [mret M_ret]. rewrite E4, E5. done.
  - split; [apply Q5|]. split; [eapply guests_trans; [apply Q1|]; eapply guests_trans; [exact K4|apply Q5]|].
    split; [|split; [eapply off_trans; [apply Q1|]; eapply off_trans; [exact O4|apply Q5]|
      intros i4 i3 i2 H4 H3 H2 H; by apply (qs_huge _ _ _ _ Q1), U4, (qs_huge _ _ _ _ Q5)]].
    destruct R1 as (? & ? & ? & ?), R4 as (? & ? & ? & ?), R5 as (? & ? & ? & ?). unfold same_rest. repeat split; congruence.
  - left. split; [done|]. split.
    + unfold in_view, lookup_va in *. rewrite (qs_view _ _ _ _ Q5), V4a by done. done.
    + intros i4 i3 i2 i1 J4 J3 J2 J1 Hne. rewrite (qs_view _ _ _ _ Q5), V4b by done. by apply (qs_view _ _ _ _ Q1).
Qed.
End Steps.

(** ** The entry points *)

Section Entry.
Context {P : Type} {FA : FrameAlloc P}.

Definition with_map_lock (l : rix_spinlock_t) (v : vmm_t) : vmm_t :=
  {| words := words v; kernel_pml4_phys := kernel_pml4_phys v; current_pml4_phys := current_pml4_phys v; tlb := tlb v;
     vmm_map_lock := l; vmm_map_lockdep_class := vmm_map_lockdep_class v |}.

Lemma vmm_section_run {R} (body : M (cpu * (vmm_t * P)) R) (Q : R -> vmm_t -> P -> Prop) c v s :
  vmm_map_lock v = spin_free -> pa_cpu (P := P) c -> pa_class (P := P) (vmm_map_lockdep_class v) -> pa_ok false s ->
  (forall s1, pa_ok true s1 -> (forall a, busy s1 a = busy s a) ->
    exists r v2 s2, body (set_rflags (Z.clearbit (rflags c) IF_BIT) c, (with_map_lock spin_held v, s1))
      = Some (r, (set_rflags (Z.clearbit (rflags c) IF_BIT) c, (v2, s2))) /\ pa_ok true s2 /\ vmm_map_lockdep_class v2 = vmm_map_lockdep_class v /\ Q r v2 s2) ->
  exists r v2 s2 s3, vmm_section body (c, (v, s)) = Some (r, (c, (with_map_lock spin_free v2, s3))) /\ pa_ok false s3 /\
    (forall a, busy s3 a = busy s2 a) /\ Q r v2 s2.
Proof.
  intros Hl Hc Hk Hok Hbody. set (c' := set_rflags (Z.clearbit (rflags c) IF_BIT) c) in *. set (k := vmm_map_lockdep_class v) in *.
  assert (Hc' : pa_cpu (P := P) c') by (by apply pa_cpu_flags).
  destruct (pa_acquire_law c' s k Hc' Hk Hok) as (r1 & s1 & E1 & Hok1 & HB1).
  destruct (Hbody s1 Hok1 HB1) as (r & v2 & s2 & E2 & Hok2 & Hk2 & HQ).
  destruct (pa_release_law c' s2 k Hc' Hk Hok2) as (r3 & s3 & E3 & Hok3 & HB3).
  exists r, v2, s2, s3. split; [|done]. unfold vmm_section.
  erewrite (locked_section_run _ c (v, s) r (v2, s3)); [done|exact Hl|]. fold c'. change (with_guard spin_held (v, s)) with (with_map_lock spin_held v, s).
  rewrite (bind_Some _ _ _ k (c', (with_map_lock spin_held v, s))) by done.
  rewrite (bind_Some _ _ _ r1 (c', (with_map_lock spin_held v, s1))) by (unfold on_frames; by rewrite E1).
  rewrite (bind_Some _ _ _ r (c', (v2, s2))) by exact E2.
  rewrite (bind_Some _ _ _ r3 (c', (v2, s3))) by (unfold on_frames; by rewrite E3). done.
Qed.

(** What a reader of the address space sees at [va] is the same in both
    memories: the translation, whether the page is present, and its flags then. *)
Definition reads_same (m m' : memory) (root va : Z) : Prop :=
  translate_in m' root va = translate_in m root va /\
  has (query_flags_in m' root va) RIXURI_PTE_PRESENT = has (query_flags_in m root va) RIXURI_PTE_PRESENT /\
  (has (query_flags_in m root va) RIXURI_PTE_PRESENT = true -> query_flags_in m' root va = query_flags_in m root va).

Lemma lookup_seen m B root va x fl : tables_wf m B root -> is_u64 va -> canonical48 va = true -> lookup_va m root va = Some (x, fl) ->
  translate_in m root va = x + va mod 4096 /\ query_flags_in m root va = Z.land fl PAGE_QUERY /\ present (Z.land fl PAGE_QUERY) = true.
Proof.
  intros Hwf Hva Hc E. destruct (translate_lookup m B root va Hwf Hva Hc) as [H1 H2]. rewrite E in H1, H2. split; [done|]. split; [done|].
  unfold lookup_va, lookup, seen_leaf in E. destruct (present _) eqn:Ep in E; [|done]. injection E as _ <-.
  unfold present, has in *. by rewrite <- !Z.land_assoc.
Qed.

Lemma lookup_unseen m B root va : tables_wf m B root -> is_u64 va -> canonical48 va = true -> lookup_va m root va = None ->
  translate_in m root va = 0 /\ present (query_flags_in m root va) = false.
Proof. intros Hwf Hva Hc E. destruct (translate_lookup m B root va Hwf Hva Hc) as [H1 H2]. by rewrite E in H1, H2. Qed.

Lemma lookup_reads m m' B B' root va : tables_wf m B root -> tables_wf m' B' root -> is_u64 va -> canonical48 va = true ->
  lookup_va m' root va = lookup_va m root va -> reads_same m m' root va.
Proof.
  intros Hwf Hwf' Hva Hc E. unfold reads_same. destruct (lookup_va m root va) as [[x fl]|] eqn:El.
  - destruct (lookup_seen m B root va x fl Hwf Hva Hc El) as (-> & -> & Hp). destruct (lookup_seen m' B' root va x fl Hwf' Hva Hc E) as (-> & -> & _). done.
  - destruct (lookup_unseen m B root va Hwf Hva Hc El) as [-> H1]. destruct (lookup_unseen m' B' root va Hwf' Hva Hc E) as [-> H2].
    fold (present (query_flags_in m root va)). fold (present (query_flags_in m' root va)). rewrite H1, H2. done.
Qed.

(** Readers after the page of [va] was replaced. *)
Lemma view_set_reads root v v' va x B B' va' : tables_wf (words v) B root -> tables_wf (words v') B' root -> view_set root va v v' x ->
  is_u64 va -> is_u64 va' -> canonical48 va = true -> canonical48 va' = true -> va' / 4096 <> va / 4096 -> reads_same (words v) (words v') root va'.
Proof.
  intros Hwf Hwf' [_ Hv] Hva Hva' Hc Hc' Hne. apply (lookup_reads _ _ B B'); try done. apply Hv; auto with rix.
  intros (E4 & E3 & E2 & E1). apply Hne. by apply canonical_indices.
Qed.

Lemma page_args pa : is_u64 pa -> truthy (Z.land pa 0xFFF) = false -> truthy (Z.land pa (not64 PAGE_MASK)) = false -> 0 <= pa < 2 ^ 52 /\ pa mod 4096 = 0.
Proof.
  unfold truthy. rewrite !negb_false_iff, !Z.eqb_eq, low12. intros Hpa H1 H2. split; [|done].
  assert (E : entry_table pa = pa).
  { apply Z.bits_inj'. intros n Hn. unfold entry_table. rewrite Z.land_spec. destruct (decide (n < 64)).
    - apply (f_equal (fun z => Z.testbit z n)) in H2. rewrite Z.land_spec, Z.bits_0 in H2. unfold not64, u64 in H2.
      rewrite Z.mod_pow2_bits_low, Z.lnot_spec in H2 by lia. destruct (Z.testbit pa n), (Z.testbit PAGE_MASK n); done.
    - rewrite (testbit_high pa 64 n) by (unfold is_u64 in Hpa; lia). done. }
  rewrite <- E. by apply entry_table_range.
Qed.

(** The arguments [vmm_map_page_in_pml4] goes on with. *)
Definition map_args (va pa : Z) : Prop := canonical48 va = true /\ va mod 4096 = 0 /\ pa mod 4096 = 0 /\ pa < 2 ^ 52.

Lemma map_guard va pa : is_u64 pa ->
  negb (canonical48 va) || truthy (Z.land va 0xFFF) || truthy (Z.land pa 0xFFF) || truthy (Z.land pa (not64 PAGE_MASK)) = false <-> map_args va pa.
Proof.
  intros Hpa. rewrite !orb_false_iff, negb_false_iff. unfold map_args. split.
  - intros [[[G1 G2] G3] G4]. destruct (page_args pa Hpa G3 G4) as [[_ H52] Hm]. split; [done|]. split; [|done].
    unfold truthy in G2. by rewrite negb_false_iff, Z.eqb_eq, low12 in G2.
  - intros (G1 & G2 & G3 & G4). rewrite !low12, G2, G3. unfold is_u64 in Hpa. repeat split; try done.
    rewrite (frame_flags pa) by (done || lia). done.
Qed.

(** The state both entry points start from and leave behind. *)
Definition vmm_ok (root : Z) (v : vmm_t) (s : P) : Prop :=
  pa_class (P := P) (vmm_map_lockdep_class v) /\ pa_ok false s /\ vmm_map_lock v = spin_free /\ tables_wf (words v) (busy s) root.

(** From a body to an entry point. *)
Lemma section_outcome root va (body : M (cpu * (vmm_t * P)) Z) (Q : Z -> vmm_t -> Prop) c v s :
  pa_cpu (P := P) c -> vmm_ok root v s ->
  (forall c' s1, pa_cpu (P := P) c' -> good root (with_map_lock spin_held v) s1 ->
    exists rc v2 s2, body (c', (with_map_lock spin_held v, s1)) = Some (rc, (c', (v2, s2))) /\ outcome root va (with_map_lock spin_held v) s1 v2 s2 /\ Q rc v2) ->
  exists rc v2 s3, vmm_section body (c, (v, s)) = Some (rc, (c, (with_map_lock spin_free v2, s3))) /\
    vmm_ok root (with_map_lock spin_free v2) s3 /\ guests_kept root v s (with_map_lock spin_free v2) s3 /\ same_rest v (with_map_lock spin_free v2) /\
    off_path_kept root va v (with_map_lock spin_free v2) /\ no_new_huge root v (with_map_lock spin_free v2) /\ Q rc v2.
Proof.
  intros Hcpu (Hclass & Hok & Hlock & Hwf) Hbody.
  destruct (vmm_section_run body (fun rc v2 s2 => outcome root va (with_map_lock spin_held v) s v2 s2 /\ Q rc v2) c v s Hlock Hcpu Hclass Hok)
    as (rc & v2 & s2 & s3 & E & Hok3 & HB & [(Hgood & Hgk & (R1 & R2 & R3 & R4) & Hoff & Hnh) HQ]).
  { intros s1 Hok1 HB1. assert (Hg1 : good root (with_map_lock spin_held v) s1).
    { split; [done|]. apply (wf_mono _ (busy s)); [done|]. intros a. by rewrite HB1. }
    destruct (Hbody _ s1 (pa_cpu_flags c (Z.clearbit (rflags c) IF_BIT) Hcpu) Hg1) as (rc & v2 & s2 & E & (Hg & Hk & Hrs & Ho) & HQ).
    exists rc, v2, s2. split; [exact E|]. split; [apply Hg|]. split; [apply Hrs|]. split; [|done]. split; [done|]. split; [|done].
    intros a Ha [Hb Ht]. apply Hk; [done|]. split; [by rewrite HB1|done]. }
  exists rc, v2, s3. split; [exact E|]. split; [|split; [|split; [|done]]].
  - unfold vmm_ok. cbn [with_map_lock vmm_map_lockdep_class vmm_map_lock words] in *. rewrite R4. split; [done|]. split; [done|]. split; [done|].
    apply (wf_mono _ (busy s2)); [apply Hgood|intros a; by rewrite HB].
  - intros a Ha Hg. destruct (Hgk a Ha Hg) as [[Hb Ht] Hx]. split; [split; [by rewrite HB|done]|done].
  - unfold same_rest. cbn in *. repeat split; done.
Qed.

Lemma map_page_run root c v s va pa flags : pa_cpu (P := P) c -> vmm_ok root v s -> is_u64 va -> is_u64 pa -> is_u64 flags ->
  exists rc v' s', vmm_map_page_in_pml4 root va pa flags (c, (v, s)) = Some (rc, (c, (v', s'))) /\
    vmm_ok root v' s' /\ guests_kept root v s v' s' /\ same_rest v v' /\ off_path_kept root va v v' /\ no_new_huge root v v' /\
    (rc = 0 /\ map_args va pa /\ view_set root va v v' (if present flags then Some (pa, Z.land flags PAGE_QUERY) else None) /\
       tlb v' = (if root =? current_pml4_phys v then va :: tlb v else tlb v) \/
     rc = -1 /\ same_view root v v' /\ tlb v' = tlb v /\ (map_args va pa -> tbl (words v) 0 root [index4 va; index3 va; index2 va] = None)).
Proof.
  intros Hcpu Hvok Hva Hpa Hfl. pose proof Hvok as (_ & _ & _ & Hwf). unfold vmm_map_page_in_pml4.
  destruct (w_tbl _ _ _ Hwf [] root path1_nil eq_refl) as [[Hr _] _]. rewrite (proj2 (Z.eqb_neq root 0)) by lia. cbn [orb].
  pose proof (map_guard va pa Hpa) as Hgd. destruct (negb (canonical48 va) || _ || _ || _).
  { exists (-1), v, s. split; [done|]. split; [done|]. split; [by intros a _ Hg|]. split; [done|]. split; [apply off_refl|]. split; [by intros i4 i3 i2 _ _ _|]. right. split; [done|]. split; [done|]. split; [done|].
    intros Ha. by apply Hgd in Ha. }
  assert (Hargs : map_args va pa) by (by apply Hgd). pose proof Hargs as (_ & _ & Hpm & Hp52).
  assert (Hpr : 0 <= pa < 2 ^ 52) by (unfold is_u64 in Hpa; lia).
  destruct (section_outcome root va (map_body root va pa flags) (fun rc v2 =>
    rc = 0 /\ view_set root va v v2 (if present flags then Some (pa, Z.land flags PAGE_QUERY) else None) /\
       tlb v2 = (if root =? current_pml4_phys v then va :: tlb v else tlb v) \/
     rc = -1 /\ same_view root v v2 /\ tlb v2 = tlb v /\ tbl (words v) 0 root [index4 va; index3 va; index2 va] = None) c v s Hcpu Hvok)
    as (rc & v2 & s3 & E & Hok3 & Hgk & Hrest & Hoff & Hhuge & Hcases).
  { intros c' s1 Hc' Hg1. exact (map_body_run root va c' Hc' _ s1 pa flags Hg1 Hfl Hpr Hpm). }
  exists rc, (with_map_lock spin_free v2), s3. split; [exact E|]. split; [done|]. split; [done|]. split; [done|]. split; [done|]. split; [done|].
  destruct Hcases as [(-> & Hv & Ht)|(-> & Hv & Ht & Hn)]; [by left|by right].
Qed.

Lemma unmap_page_run root c v s va : pa_cpu (P := P) c -> vmm_ok root v s -> is_u64 va ->
  exists rc v' s', vmm_unmap_page_in_pml4 root va (c, (v, s)) = Some (rc, (c, (v', s'))) /\
    vmm_ok root v' s' /\ guests_kept root v s v' s' /\ same_rest v v' /\ off_path_kept root va v v' /\ no_new_huge root v v' /\
    (rc = 0 /\ canonical48 va = true /\ view_set root va v v' None \/ rc = -1 /\ same_view root v v').
Proof.
  intros Hcpu Hvok Hva. pose proof Hvok as (_ & _ & _ & Hwf). unfold vmm_unmap_page_in_pml4.
  destruct (w_tbl _ _ _ Hwf [] root path1_nil eq_refl) as [[Hr _] _]. rewrite (proj2 (Z.eqb_neq root 0)) by lia. cbn [orb].
  destruct (negb (canonical48 va) || _) eqn:Eg.
  { exists (-1), v, s. split; [done|]. split; [done|]. split; [by intros a _ Hg|]. split; [done|]. split; [apply off_refl|]. split; [by intros i4 i3 i2 _ _ _|]. by right. }
  apply orb_false_iff in Eg as [G1 _]. apply negb_false_iff in G1.
  destruct (section_outcome root va (unmap_body root va) (fun rc v2 => rc = 0 /\ view_set root va v v2 None \/ rc = -1 /\ same_view root v v2) c v s Hcpu Hvok)
    as (rc & v2 & s3 & E & Hok3 & Hgk & Hrest & Hoff & Hhuge & Hcases).
  { intros c' s1 Hc' Hg1. exact (unmap_body_run root va c' Hc' _ s1 Hg1). }
  exists rc, (with_map_lock spin_free v2), s3. split; [exact E|]. split; [done|]. split; [done|]. split; [done|]. split; [done|]. split; [done|].
  destruct Hcases as [(-> & Hv)|(-> & Hv)]; [by left|by right].
Qed.

(** C17: mapping a page does what it says and nothing else. On a well-formed table
    tree, any call returns; when it reports success the address translates to
    the frame with the flags asked for, its TLB entry is invalidated when the root
    is the current one, and when it fails nothing is seen to change; either way
    every other page translates as before with the flags it had, across the
    creation of tables and the splitting of 2 MiB pages, the tree is well-formed
    again, and pages that are handed out and are no tables of this root keep their
    contents. With proper arguments it fails only where the page table is missing. *)
Theorem vmm_map_correct (c : cpu) (v : vmm_t) (s : P) (root va pa flags : Z)
    (Hcpu : pa_cpu (P := P) c) (Hvok : vmm_ok root v s) (Hva : is_u64 va) (Hpa : is_u64 pa) (Hfl : is_u64 flags) :
  ∃ rc v' s', vmm_map_page_in_pml4 root va pa flags (c, (v, s)) = Some (rc, (c, (v', s'))) ∧
    vmm_ok root v' s' ∧ guests_kept root v s v' s' ∧
    (rc = 0 ∨ rc = -1) ∧
    (rc = 0 → has flags RIXURI_PTE_PRESENT = true →
       translate_in (words v') root va = pa ∧ query_flags_in (words v') root va = Z.land flags PAGE_QUERY) ∧
    (rc = 0 → root = current_pml4_phys v → tlb v' = va :: tlb v) ∧
    (∀ va', is_u64 va' → canonical48 va' = true → rc = -1 ∨ va' / 4096 ≠ va / 4096 → reads_same (words v) (words v') root va') ∧
    (rc = -1 → map_args va pa → tbl (words v) 0 root [index4 va; index3 va; index2 va] = None).
Proof.
  destruct (map_page_run root c v s va pa flags Hcpu Hvok Hva Hpa Hfl) as (rc & v' & s' & E & Hok' & Hgk & _ & _ & _ & Hcases).
  pose proof Hvok as (_ & _ & _ & Hwf). pose proof Hok' as (_ & _ & _ & Hwf').
  exists rc, v', s'. split; [exact E|]. split; [done|]. split; [done|].
  destruct Hcases as [(-> & (Hc & Hvm & _) & Hv & Ht)|(-> & Hv & Ht & Hn)].
  - split; [by left|]. split; [|split; [|split; [|done]]].
    + intros _ Hpf. fold (present flags) in Hpf. rewrite Hpf in Hv. destruct (lookup_seen _ _ _ _ _ _ Hwf' Hva Hc (proj1 Hv)) as (T & F & _).
      rewrite T, F, Hvm, Z.add_0_r, <- Z.land_assoc. done.
    + intros _ ->. by rewrite Ht, Z.eqb_refl.
    + intros va' Hva' Hc' [?|Hne]; [done|]. exact (view_set_reads root v v' va _ _ _ va' Hwf Hwf' Hv Hva Hva' Hc Hc' Hne).
  - split; [by right|]. split; [done|]. split; [done|]. split; [|done].
    intros va' Hva' Hc' _. apply (lookup_reads _ _ (busy s) (busy s')); try done. apply Hv; auto with rix.
Qed.

(** C18: unmapping a page removes it and nothing else. Any call returns; when it
    reports success the address no longer translates; every other page (all
    pages, when it fails) translates as before with the flags it had, also when a
    2 MiB page had to be split and when emptied tables go back to the allocator,
    and pages that are handed out and are no tables of this root keep their
    contents. *)
Theorem vmm_unmap_correct (c : cpu) (v : vmm_t) (s : P) (root va : Z)
    (Hcpu : pa_cpu (P := P) c) (Hvok : vmm_ok root v s) (Hva : is_u64 va) :
  ∃ rc v' s', vmm_unmap_page_in_pml4 root va (c, (v, s)) = Some (rc, (c, (v', s'))) ∧
    vmm_ok root v' s' ∧ guests_kept root v s v' s' ∧
    (rc = 0 ∨ rc = -1) ∧
    (rc = 0 → translate_in (words v') root va = 0 ∧ has (query_flags_in (words v') root va) RIXURI_PTE_PRESENT = false) ∧
    (∀ va', is_u64 va' → canonical48 va' = true → rc = -1 ∨ va' / 4096 ≠ va / 4096 → reads_same (words v) (words v') root va').
Proof.
  destruct (unmap_page_run root c v s va Hcpu Hvok Hva) as (rc & v' & s' & E & Hok' & Hgk & _ & _ & _ & Hcases).
  pose proof Hvok as (_ & _ & _ & Hwf). pose proof Hok' as (_ & _ & _ & Hwf').
  exists rc, v', s'. split; [exact E|]. split; [done|]. split; [done|]. destruct Hcases as [(-> & Hc & Hv)|(-> & Hv)].
  - split; [by left|]. split; [intros _; exact (lookup_unseen _ _ _ _ Hwf' Hva Hc (proj1 Hv))|].
    intros va' Hva' Hc' [?|Hne]; [done|]. exact (view_set_reads root v v' va _ _ _ va' Hwf Hwf' Hv Hva Hva' Hc Hc' Hne).
  - split; [by right|]. split; [done|]. intros va' Hva' Hc' _. apply (lookup_reads _ _ (busy s) (busy s')); try done. apply Hv; auto with rix.
Qed.
End Entry.

(** ** Example: an empty root in a frame of the page allocator *)

Definition demo_root : Z := 0x100000.
Definition demo_frames : pmm_t * lockdep_t := (take_page 256 demo_pmm, lockdep_boot).
Definition demo_vmm : vmm_t :=
  {| words := fun _ => 0; kernel_pml4_phys := demo_root; current_pml4_phys := demo_root; tlb := []; vmm_map_lock := spin_free; vmm_map_lockdep_class := 0 |}.

Lemma demo_frames_ok : pmm_wf demo_frames.1.
Proof.
  apply take_page_wf; [|unfold in_range; rewrite max_pages_val; lia|vm_compute; reflexivity].
  apply init_bitmaps_wf; [|lia|lia|lia|lia|lia]. intros m Em. injection Em as <-. repeat constructor; unfold is_u8; lia.
Qed.

Lemma demo_tables : tables_wf (words demo_vmm) (busy demo_frames) demo_root.
Proof.
  apply empty_wf.
  - intros x. unfold is_u64. cbn. lia.
  - intros i _. reflexivity.
  - unfold table_ok, demo_root, RIXURI_MAX_PHYS_BYTES. split; [lia|reflexivity].
  - vm_compute. reflexivity.
Qed.

(** A page mapped there, and its neighbour. *)
Definition demo_va : Z := 0x8000001000.
Definition demo_flags : Z := Z.lor (Z.lor RIXURI_PTE_PRESENT RIXURI_PTE_WRITE) RIXURI_PTE_USER.

Lemma demo_ok : vmm_ok demo_root demo_vmm demo_frames.
Proof. split; [done|]. split; [exact demo_frames_ok|]. split; [done|exact demo_tables]. Qed.

Lemma vmm_map_correct_witness :
  ∃ v' s', vmm_map_page_in_pml4 demo_root demo_va 0x200000 demo_flags (mm_cpu, (demo_vmm, demo_frames)) = Some (0, (mm_cpu, (v', s'))) ∧
    translate_in (words v') demo_root demo_va = 0x200000 ∧ query_flags_in (words v') demo_root demo_va = 7 ∧
    translate_in (words v') demo_root (demo_va + 0x1000) = 0 ∧ tlb v' = [demo_va].
Proof.
  destruct (vmm_map_correct (FA := pmm_frame_alloc) mm_cpu demo_vmm demo_frames demo_root demo_va 0x200000 demo_flags I demo_ok)
    as (rc & v' & s' & E & _ & _ & _ & H0 & Ht & Hs & _);
    [unfold is_u64, demo_va; lia|unfold is_u64; lia|unfold is_u64; vm_compute; split; congruence|].
  assert (Erc : (fst <$> vmm_map_page_in_pml4 demo_root demo_va 0x200000 demo_flags (mm_cpu, (demo_vmm, demo_frames))) = Some 0) by (vm_compute; reflexivity).
  rewrite E in Erc. injection Erc as ->. exists v', s'. split; [exact E|].
  destruct (H0 eq_refl eq_refl) as [T F]. split; [exact T|]. split; [rewrite F; reflexivity|]. split; [|by apply Ht].
  destruct (Hs (demo_va + 0x1000)) as [-> _]; [unfold is_u64, demo_va; lia|reflexivity|right; intros H; discriminate H|reflexivity].
Defined.

(** The state with that page mapped. *)
Definition demo_mapped : vmm_t * (pmm_t * lockdep_t) :=
  match vmm_map_page_in_pml4 demo_root demo_va 0x200000 demo_flags (mm_cpu, (demo_vmm, demo_frames)) with
  | Some (_, (_, m)) => m
  | None => (demo_vmm, demo_frames)
  end.

Lemma demo_mapped_ok : vmm_ok demo_root demo_mapped.1 demo_mapped.2 /\ lookup_va (words demo_mapped.1) demo_root demo_va = Some (0x200000, 7).
Proof.
  unfold demo_mapped.
  destruct (map_page_run (FA := pmm_frame_alloc) demo_root mm_cpu demo_vmm demo_frames demo_va 0x200000 demo_flags I demo_ok)
    as (rc & v' & s' & E & Hok & _ & _ & _ & _ & Hcases); [unfold is_u64, demo_va; lia|unfold is_u64; lia|unfold is_u64; vm_compute; split; congruence|].
  assert (Erc : (fst <$> vmm_map_page_in_pml4 demo_root demo_va 0x200000 demo_flags (mm_cpu, (demo_vmm, demo_frames))) = Some 0) by (vm_compute; reflexivity).
  rewrite E in Erc |- *. injection Erc as ->. split; [exact Hok|]. destruct Hcases as [(_ & _ & [Hv _] & _)|[H _]]; [exact Hv|discriminate H].
Qed.

Lemma vmm_unmap_correct_witness :
  ∃ v' s', vmm_unmap_page_in_pml4 demo_root demo_va (mm_cpu, demo_mapped) = Some (0, (mm_cpu, (v', s'))) ∧
    translate_in (words v') demo_root demo_va = 0.
Proof.
  destruct demo_mapped as [v1 s1] eqn:Em. pose proof demo_mapped_ok as [Hok _]. rewrite Em in Hok.
  destruct (vmm_unmap_correct (FA := pmm_frame_alloc) mm_cpu v1 s1 demo_root demo_va I Hok) as (rc & v' & s' & E & _ & _ & _ & H0 & _);
    [unfold is_u64, demo_va; lia|].
  assert (Erc : (fst <$> vmm_unmap_page_in_pml4 demo_root demo_va (mm_cpu, demo_mapped)) = Some 0) by (vm_compute; reflexivity).
  rewrite Em, E in Erc. injection Erc as ->. exists v', s'. split; [exact E|]. by apply H0.
Defined.

Lemma walk_agrees m B root va (Hwf : tables_wf m B root) (Hva : is_u64 va) :
  let '(rc, out) := vmm_walk_in_pml4 m root va in
  if canonical48 va then
    (rc = 0 ∧ has (query_flags_in m root va) RIXURI_PTE_PRESENT = true ∧ out_phys out = translate_in m root va ∧ out_flags out = query_flags_in m root va) ∨
    (rc = 1 ∧ has (query_flags_in m root va) RIXURI_PTE_PRESENT = false ∧ translate_in m root va = 0)
  else rc = -1 ∧ translate_in m root va = 0 ∧ query_flags_in m root va = 0.
Proof.
  assert (Hgood : forall a, table_ok a -> bad_table a = false /\ vmm_phys_ptr a = a /\ (a =? 0) = false).
  { intros a [[H1 H2] H3]. assert (Eb : bad_table a = false).
    { unfold bad_table. rewrite low12, H3, (proj2 (Z.eqb_neq a 0)), (proj2 (Z.leb_gt _ _)) by lia. done. }
    split; [done|]. unfold vmm_phys_ptr. fold (bad_table a). rewrite Eb. split; [done|]. apply Z.eqb_neq. lia. }
  assert (Hb : forall p a, path_ok p -> tbl m 0 root p = Some a -> bad_table a = false /\ vmm_phys_ptr a = a /\ (a =? 0) = false).
  { intros p a Hp Ha. apply Hgood. by apply (w_tbl _ _ _ Hwf p a). }
  pose proof (index4_ok va) as I4. pose proof (index3_ok va) as I3. pose proof (index2_ok va) as I2. pose proof (index1_ok va) as I1.
  unfold vmm_walk_in_pml4, translate_in, query_flags_in. destruct (Hb [] root path1_nil eq_refl) as (-> & -> & ->).
  destruct (canonical48 va); cbn [negb]; [|done].
  set (e4 := entry m root (index4 va)). fold (present e4). destruct (present e4) eqn:P4; cbn [negb]; [|by right].
  assert (T3 : tbl m 0 root [index4 va] = Some (entry_table e4)) by (cbn [tbl]; fold e4; unfold next; by rewrite P4).
  fold (entry_table e4). destruct (Hb _ _ (path1 _ I4) T3) as (-> & -> & ->).
  set (t3 := entry_table e4) in *. set (e3 := entry m t3 (index3 va)). fold (present e3). fold (huge e3). destruct (present e3) eqn:P3; cbn [negb]; [|by right].
  rewrite (w_no_1g _ _ _ Hwf _ _ _ I4 I3 T3 P3 : huge e3 = false).
  assert (T2 : tbl m 0 root [index4 va; index3 va] = Some (entry_table e3)).
  { change [index4 va; index3 va] with ([index4 va] ++ [index3 va]). rewrite tbl_snoc, T3. cbn [length Nat.add]. fold e3. unfold next. by rewrite P3. }
  fold (entry_table e3). destruct (Hb _ _ (path2 _ _ I4 I3) T2) as (-> & -> & ->).
  set (t2 := entry_table e3) in *. set (e2 := entry m t2 (index2 va)). fold (present e2). fold (huge e2). destruct (present e2) eqn:P2; cbn [negb]; [|by right].
  destruct (huge e2) eqn:H2.
  { left. split; [done|]. split; [|done]. unfold present, has in *. by rewrite <- Z.land_assoc. }
  assert (T1 : tbl m 0 root [index4 va; index3 va; index2 va] = Some (entry_table e2)).
  { change [index4 va; index3 va; index2 va] with ([index4 va; index3 va] ++ [index2 va]). rewrite tbl_snoc, T2. cbn [length Nat.add]. fold e2.
    unfold next. by rewrite P2, H2. }
  fold (entry_table e2). destruct (Hb _ _ (path3 _ _ _ I4 I3 I2) T1) as (-> & -> & ->).
  set (e1 := entry m (entry_table e2) (index1 va)). fold (present e1).
  assert (Eq : has (Z.land e1 PAGE_QUERY) RIXURI_PTE_PRESENT = present e1) by (unfold present, has; by rewrite <- Z.land_assoc).
  rewrite Eq. destruct (present e1); cbn [negb]; [by left|by right].
Qed.

(** The CR3-independent walk agrees with the translation. On a well-formed
    tree [vmm_walk_in_pml4] answers 0 exactly when the page is present, with the
    physical address and the flags [vmm_translate] and [vmm_query_flags] give
    under that root, 1 when some level is missing, and -1 only for a
    non-canonical address. *)
Theorem vmm_walk_agrees {P : Type} {FA : FrameAlloc P} (root : Z) (v : vmm_t) (s : P) (va : Z) (Hvok : vmm_ok root v s) (Hva : is_u64 va) :
  let '(rc, out) := vmm_walk_in_pml4 (words v) root va in
  if canonical48 va then
    (rc = 0 ∧ has (query_flags_in (words v) root va) RIXURI_PTE_PRESENT = true ∧ out_phys out = translate_in (words v) root va ∧
       out_flags out = query_flags_in (words v) root va) ∨
    (rc = 1 ∧ has (query_flags_in (words v) root va) RIXURI_PTE_PRESENT = false ∧ translate_in (words v) root va = 0)
  else rc = -1 ∧ translate_in (words v) root va = 0 ∧ query_flags_in (words v) root va = 0.
Proof. destruct Hvok as (_ & _ & _ & Hwf). exact (walk_agrees (words v) (busy s) root va Hwf Hva). Qed.

Lemma vmm_walk_agrees_witness :
  ∃ out, vmm_walk_in_pml4 (words demo_mapped.1) demo_root (demo_va + 5) = (0, out) ∧ out_phys out = 0x200005 ∧ out_flags out = 7.
Proof.
  pose proof demo_mapped_ok as [Hvok _].
  pose proof (vmm_walk_agrees (FA := pmm_frame_alloc) demo_root demo_mapped.1 demo_mapped.2 (demo_va + 5) Hvok ltac:(unfold is_u64, demo_va; lia)) as H.
  assert (E : (vmm_walk_in_pml4 (words demo_mapped.1) demo_root (demo_va + 5)).1 = 0) by (vm_compute; reflexivity).
  destruct (vmm_walk_in_pml4 _ demo_root (demo_va + 5)) as [rc out]. cbn [fst] in E. subst rc. exists out. split; [reflexivity|].
  destruct H as [(_ & _ & -> & ->)|[H _]]; [|discriminate H]. split; vm_compute; reflexivity.
Defined.
