(* ===== verification/AddressSpace.v ===== *)
(** * Process address spaces ([kernel/process/address_space.c], [kernel/mm/ptmap.c])

    A process has a page-table root of its own. Slots 0, 2, 3 and 256 to 511 of
    it borrow the kernel's tables; slot 1 (the image) and slots 4 to 255 are the
    process's. Pages the process owns carry the OWNED bit and go back to the
    allocator with it. *)
From stdpp Require Import base tactics list numbers.
From S2P Require Import Prelude Lock Lockdep Pmm Heap Paging Vmm.

Definition TABLE_COUNT : Z := 512.
Definition KERNEL_HIGH_PML4_BASE : Z := 256.
Definition USER_PML4_BASE : Z := 4.
Definition USER_PML4_END : Z := KERNEL_HIGH_PML4_BASE.
Definition USER_IMAGE_PML4 : Z := 1.
Definition USER_STACK_PML4 : Z := 255.

(** ** [ptmap.c] *)

Definition PTMAP_ENTRIES : Z := 512.

Definition pt_kmap (physical_page : Z) : Z :=
  if negb (Z.land physical_page 0xFFF =? 0) || (RIXURI_MAX_PHYS_BYTES <=? physical_page) then 0 else vmm_phys_ptr physical_page.

Definition pt_read (m : memory) (physical_page index : Z) : Z :=
  if PTMAP_ENTRIES <=? index then 0
  else let table := pt_kmap physical_page in if table =? 0 then 0 else entry m table index.

Definition pt_write (physical_page index value : Z) (m : memory) : memory :=
  if PTMAP_ENTRIES <=? index then m
  else let table := pt_kmap physical_page in if table =? 0 then m else set_entry table index value m.

(** ** Queries *)

Definition ptr (p : Z) : Z := pt_kmap p.
Definition user_va (va : Z) : bool := (0x1000 <=? va) && (va <? Z.shiftl 1 47) && negb (truthy (Z.land va 0xfff)).
Definition kernel_shared_pml4 (idx : Z) : bool := (idx =? 0) || (idx =? 2) || (idx =? 3) || (KERNEL_HIGH_PML4_BASE <=? idx).
Definition user_pml4_ok (va : Z) : bool :=
  let idx := Z.land (Z.shiftr va 39) 0x1ff in (idx =? USER_IMAGE_PML4) || (USER_PML4_BASE <=? idx) && (idx <? USER_PML4_END).

(** The loop of [walk_pte] from level [n + 1] down to 2. *)
Fixpoint walk_levels (n : nat) (m : memory) (table va : Z) : Z :=
  match n with
  | O => entry m table (Z.land (Z.shiftr va 12) 0x1ff)
  | S n' =>
    let level := Z.of_nat n + 1 in
    let e := entry m table (Z.land (Z.shiftr va ((level - 1) * 9 + 12)) 0x1ff) in
    if negb (has e RIXURI_PTE_PRESENT) then 0
    else if (level <=? 3) && has e PTE_PS then e
    else walk_levels n' m (ptr (Z.land e PAGE_MASK)) va
  end.

Definition walk_pte (m : memory) (pml4_phys va : Z) : Z :=
  if (pml4_phys =? 0) || (Z.shiftl 1 47 <=? va) then 0 else walk_levels 3 m (ptr pml4_phys) va.

Definition address_space_translate (m : memory) (pml4_phys va : Z) : Z :=
  let e := walk_pte m pml4_phys va in
  if negb (has e RIXURI_PTE_PRESENT) then 0
  else if has e PTE_PS then Z.lor (Z.land e PAGE_MASK) (Z.land va 0x1fffff)
  else Z.lor (Z.land e PAGE_MASK) (Z.land va 0xfff).

Definition address_space_query_flags (m : memory) (pml4_phys va : Z) : Z := Z.land (walk_pte m pml4_phys va) PAGE_QUERY.

(** ** What unmapping needs of the other processors ([arch/x86_64/smp.c])

    [smp_shootdown] flushes the address here and asks the online processors to
    flush it too; it changes nothing else this component sees. *)
Class Smp (P : Type) := {
  smp_online_count : Z;
  smp_shootdown : Z -> M (cpu * (vmm_t * P)) Z;
  smp_shootdown_law : forall va c v s, 0 < va -> canonical48 va = true -> exists rc, smp_shootdown va (c, (v, s)) = Some (rc, (c, (flush va v, s)));
}.

(** One processor: [smp_shootdown] finds no other to ask. *)
#[global] Program Instance uniprocessor {P} : Smp P := {|
  smp_online_count := 1;
  smp_shootdown va := if (va =? 0) || negb (canonical48 va) then mret (-2) else _ ← invlpg va; mret 0;
|}.
Next Obligation. intros P va c v s H1 H2. cbn. rewrite (proj2 (Z.eqb_neq va 0)), H2 by lia. by eexists. Qed.

(** ** Operations *)

Section Operations.
Context {P : Type} {FA : FrameAlloc P} {SM : Smp P}.
Abbreviation st := (cpu * (vmm_t * P))%type.

Definition reads {A} (f : memory -> A) : M st A := gets (fun '(_, (v, _)) => f (words v)).
Definition on_words {A} (f : memory -> A * memory) : M st A := act (fun '(c, (v, s)) => let '(a, m) := f (words v) in (a, (c, (set_words m v, s)))).
Definition kernel_root : M st Z := gets (fun '(_, (v, _)) => vmm_kernel_pml4 v).
Definition current_root : M st Z := gets (fun '(_, (v, _)) => vmm_current_pml4 v).
Definition pmm_free (a : Z) : M st unit := on_frames (pa_free a).

(** The borrowing loop of [address_space_create]; [true] when it reached [fail]. *)
Definition borrow (kt t : Z) (m : memory) : bool * memory :=
  match for_ 0 TABLE_COUNT (fun i m =>
    if negb (kernel_shared_pml4 i) then inl m
    else let e := entry m kt i in
    if negb (has e RIXURI_PTE_PRESENT) then inl m
    else let tab := Z.land e PAGE_MASK in
    if (tab =? 0) || truthy (Z.land tab 0xfff) then inr m
    else inl (set_entry t i (Z.land e (not64 (Z.lor RIXURI_PTE_USER RIXURI_PTE_OWNED))) m)) m with
  | inl m => (false, m)
  | inr m => (true, m)
  end.

(** Return code and the new [as->pml4_phys]. *)
Definition address_space_create : M st (Z * Z) :=
  pml4 ← on_frames pa_alloc;
  if pml4 =? 0 then mret (-2, 0)
  else let t := ptr pml4 in
  if t =? 0 then _ ← pmm_free pml4; mret (-2, 0)
  else
    _ ← with_words (write_table t (fun _ => 0));
    kp ← kernel_root;
    if kp =? 0 then _ ← pmm_free pml4; mret (-3, 0)
    else let kt := ptr kp in
    if kt =? 0 then _ ← pmm_free pml4; mret (-3, 0)
    else
      failed ← on_words (borrow kt t);
      if failed : bool then
        let tt := ptr pml4 in
        _ ← (if tt =? 0 then mret Datatypes.tt else with_words (write_table tt (fun _ => 0)));
        _ ← pmm_free pml4; mret (-4, 0)
      else mret (0, pml4).

Definition map_page (pml4_phys va pa flags : Z) (owned : bool) : M st Z :=
  if (pml4_phys =? 0) || negb (user_va va) || negb (user_pml4_ok va) || truthy (Z.land pa 0xfff) then mret (-1)
  else
    q ← reads (fun m => address_space_query_flags m pml4_phys va);
    if has q RIXURI_PTE_PRESENT then mret (-1)
    else
      let flags := Z.lor flags (Z.lor RIXURI_PTE_PRESENT RIXURI_PTE_USER) in
      let flags := if owned then Z.lor flags RIXURI_PTE_OWNED else Z.land flags (not64 RIXURI_PTE_OWNED) in
      vmm_map_page_in_pml4 pml4_phys va pa flags.

Definition address_space_map (pml4_phys va pa flags : Z) : M st Z := map_page pml4_phys va pa flags true.
Definition address_space_map_shared (pml4_phys va pa flags : Z) : M st Z := map_page pml4_phys va pa flags false.

Definition OWNED_PAGE : Z := Z.lor (Z.lor RIXURI_PTE_PRESENT RIXURI_PTE_USER) RIXURI_PTE_OWNED.

Definition address_space_update_flags (pml4_phys va flags : Z) : M st Z :=
  if (pml4_phys =? 0) || negb (user_va va) || negb (user_pml4_ok va) then mret (-1)
  else
    old ← reads (fun m => address_space_query_flags m pml4_phys va);
    if negb (Z.land old OWNED_PAGE =? OWNED_PAGE) then mret (-1)
    else
      tr ← reads (fun m => address_space_translate m pml4_phys va);
      let pa := Z.land tr PAGE_MASK in
      if pa =? 0 then mret (-1)
      else vmm_map_page_in_pml4 pml4_phys va pa (Z.lor flags OWNED_PAGE).

Definition address_space_unmap (pml4_phys va : Z) : M st Z :=
  if (pml4_phys =? 0) || negb (user_va va) || negb (user_pml4_ok va) then mret (-1)
  else
    old ← reads (fun m => address_space_query_flags m pml4_phys va);
    if negb (has old RIXURI_PTE_PRESENT) then mret (-1)
    else
      tr ← reads (fun m => address_space_translate m pml4_phys va);
      let pa := Z.land tr PAGE_MASK in
      e ← rd (ptr pml4_phys) (index4 va);
      if negb (has e RIXURI_PTE_PRESENT) then mret (-1)
      else
        e ← rd (ptr (Z.land e PAGE_MASK)) (index3 va);
        if negb (has e RIXURI_PTE_PRESENT) then mret (-1)
        else
          e ← rd (ptr (Z.land e PAGE_MASK)) (index2 va);
          if negb (has e RIXURI_PTE_PRESENT) || has e PTE_PS then mret (-1)
          else
            _ ← wr (ptr (Z.land e PAGE_MASK)) (index1 va) 0;
            _ ← (if has old RIXURI_PTE_OWNED then pmm_free pa else mret tt);
            _ ← (if 1 <? smp_online_count then _ ← smp_shootdown va; mret tt
                 else cur ← current_root; if pml4_phys =? cur then vmm_invlpg va else mret tt);
            mret 0.

(** Teardown: page tables, directories, directory-pointer tables. *)
Definition free_user_pt (phys : Z) : M st unit :=
  let t := ptr phys in
  if t =? 0 then pmm_free phys
  else
    _ ← mfor 512 0 (fun i =>
      e ← rd t i;
      if has e RIXURI_PTE_PRESENT && has e RIXURI_PTE_OWNED then pmm_free (Z.land e PAGE_MASK) else mret tt);
    pmm_free phys.

(** [free_user_pd] and [free_user_pdpt] differ in what they call for an entry. *)
Definition free_user_level (below : Z -> M st unit) (phys : Z) : M st unit :=
  let t := ptr phys in
  if t =? 0 then pmm_free phys
  else
    _ ← mfor 512 0 (fun i =>
      e ← rd t i;
      if negb (has e RIXURI_PTE_PRESENT) then mret tt
      else if has e PTE_PS then mret tt
      else below (Z.land e PAGE_MASK));
    pmm_free phys.
Definition free_user_pd : Z -> M st unit := free_user_level free_user_pt.
Definition free_user_pdpt : Z -> M st unit := free_user_level free_user_pd.

(** Returns the new [as->pml4_phys]. *)
Definition destroy_user_tables (pml4_phys : Z) : M st Z :=
  if pml4_phys =? 0 then mret pml4_phys
  else
    let t := ptr pml4_phys in
    kp ← kernel_root;
    let kt := ptr kp in
    _ ← (if t =? 0 then mret tt else mfor 512 0 (fun i =>
      e ← rd t i;
      if negb (has e RIXURI_PTE_PRESENT) then mret tt
      else if has e RIXURI_PTE_USER then free_user_pdpt (Z.land e PAGE_MASK)
      else
        ke ← rd kt i;
        let want := if has ke RIXURI_PTE_PRESENT then Z.land ke (not64 (Z.lor RIXURI_PTE_USER RIXURI_PTE_OWNED)) else 0 in
        if negb (kt =? 0) && (e =? want) then mret tt
        else free_user_pdpt (Z.land e PAGE_MASK)));
    _ ← pmm_free pml4_phys;
    mret 0.

Definition address_space_destroy (pml4_phys : Z) : M st Z := destroy_user_tables pml4_phys.

(** One turn of [address_space_sync_kernel]: memory and the count of changes. *)
Definition sync_turn (t kt i : Z) (acc : memory * Z) : memory * Z :=
  let '(m, changed) := acc in
  if (i =? USER_IMAGE_PML4) || (i =? USER_STACK_PML4) then (m, changed)
  else
    let have := entry m t i in
    if has have RIXURI_PTE_USER then (m, changed)
    else
      let ke := entry m kt i in
      let tab := Z.land ke PAGE_MASK in
      if has ke RIXURI_PTE_PRESENT && ((tab =? 0) || truthy (Z.land tab 0xfff)) then (m, changed)
      else
        let want := if has ke RIXURI_PTE_PRESENT then Z.land ke (not64 (Z.lor RIXURI_PTE_USER RIXURI_PTE_OWNED)) else 0 in
        if negb (have =? want) then (set_entry t i want m, changed + 1) else (m, changed).

Definition address_space_sync_kernel (pml4_phys : Z) : M st Z :=
  if (pml4_phys =? 0) || truthy (Z.land pml4_phys 0xfff) then mret (-1)
  else
    kp ← kernel_root;
    if (kp =? 0) || (kp =? pml4_phys) then mret (-1)
    else
      let t := ptr pml4_phys in
      let kt := ptr kp in
      if (t =? 0) || (kt =? 0) then mret (-1)
      else on_words (fun m => let '(m, changed) := for_all 0 TABLE_COUNT (sync_turn t kt) (m, 0) in (changed, m)).
End Operations.

(** ** The walk reads the address space *)

Definition user_slot (i : Z) : Prop := i = 1 \/ 4 <= i < 256.

(** Pages of the process: page-aligned addresses of the low half in a private slot. *)
Definition user_page (va : Z) : Prop := 0 <= va < 2 ^ 47 /\ va mod 4096 = 0 /\ user_slot (index4 va).

Lemma slot_shared i : index_ok i -> kernel_shared_pml4 i = true <-> ~ user_slot i.
Proof. unfold index_ok, kernel_shared_pml4, user_slot, KERNEL_HIGH_PML4_BASE. rewrite !orb_true_iff, !Z.eqb_eq, Z.leb_le. lia. Qed.

Lemma user_guard va : is_u64 va -> user_va va = true -> user_pml4_ok va = true -> user_page va.
Proof.
  unfold user_va, user_pml4_ok, user_page, is_u64, USER_IMAGE_PML4, USER_PML4_BASE, USER_PML4_END, KERNEL_HIGH_PML4_BASE, truthy.
  change (Z.shiftl 1 47) with (2 ^ 47). fold (index4 va). rewrite low12, negb_involutive. intros Hva H1 H2. bool_to_prop. unfold user_slot.
  split; [lia|]. split; [done|]. destruct H2; bool_to_prop; [by left|right; lia].
Qed.

Lemma user_page_args va : user_page va -> user_va va = true /\ user_pml4_ok va = true /\ is_u64 va /\ canonical48 va = true.
Proof.
  intros (Hr & Hm & Hs). assert (H4 : index4 va = va / 2 ^ 39).
  { unfold index4. rewrite index_val by lia. apply Z.mod_small. split; [apply Z.div_pos; lia|apply Z.div_lt_upper_bound; lia]. }
  assert (Hlo : 2 ^ 39 <= va).
  { destruct (decide (2 ^ 39 <= va)); [done|]. exfalso. rewrite Z.div_small in H4 by lia. unfold user_slot in Hs. lia. }
  unfold user_va, user_pml4_ok, canonical48, is_u64, USER_IMAGE_PML4, USER_PML4_BASE, USER_PML4_END, KERNEL_HIGH_PML4_BASE, truthy.
  change (Z.shiftl 1 47) with (2 ^ 47). fold (index4 va). rewrite low12, Hm. change (0 =? 0) with true. cbn [negb]. repeat split; try lia.
  unfold user_slot in Hs. lia.
Qed.

(** Different pages of the process differ in some index. *)
Lemma user_pages_apart va va' : user_page va -> user_page va' -> va' <> va ->
  ~ (index4 va' = index4 va /\ index3 va' = index3 va /\ index2 va' = index2 va /\ index1 va' = index1 va).
Proof.
  intros Hp Hp' Hne (E4 & E3 & E2 & E1). destruct (user_page_args va Hp) as (_ & _ & Hu & Hc), (user_page_args va' Hp') as (_ & _ & Hu' & Hc').
  pose proof (canonical_indices va' va Hu' Hu Hc' Hc E4 E3 E2 E1) as E. destruct Hp as (_ & Hm & _), Hp' as (_ & Hm' & _).
  pose proof (Z.div_mod va 4096 ltac:(lia)). pose proof (Z.div_mod va' 4096 ltac:(lia)). lia.
Qed.

Lemma ptr_id a : table_ok a -> ptr a = a.
Proof.
  intros [Hr Hm]. unfold ptr, pt_kmap, vmm_phys_ptr. rewrite low12, Hm. rewrite (proj2 (Z.leb_gt _ _)) by lia.
  rewrite (proj2 (Z.eqb_neq a 0)) by lia. done.
Qed.

Lemma walk_pte_leaf m B root va : tables_wf m B root -> 0 <= va < 2 ^ 47 ->
  walk_pte m root va = match tbl m 0 root [index4 va; index3 va; index2 va] with
    | Some t => entry m t (index1 va)
    | None => match tbl m 0 root [index4 va; index3 va] with
              | Some t => if present (entry m t (index2 va)) then entry m t (index2 va) else 0
              | None => 0
              end
    end.
Proof.
  intros Hwf Hva. unfold walk_pte. destruct (w_tbl _ _ _ Hwf [] root path1_nil eq_refl) as [Hr _]. pose proof Hr as [[Hr0 _] _].
  rewrite (proj2 (Z.eqb_neq root 0)), (proj2 (Z.leb_gt (Z.shiftl 1 47) va)) by (change (Z.shiftl 1 47) with (2 ^ 47); lia). cbn [orb].
  rewrite ptr_id by done. cbn [walk_levels].
  change (Z.land (Z.shiftr va ((Z.of_nat 3 + 1 - 1) * 9 + 12)) 0x1ff) with (index4 va).
  change (Z.land (Z.shiftr va ((Z.of_nat 2 + 1 - 1) * 9 + 12)) 0x1ff) with (index3 va).
  change (Z.land (Z.shiftr va ((Z.of_nat 1 + 1 - 1) * 9 + 12)) 0x1ff) with (index2 va). fold (index1 va).
  change (Z.of_nat 3 + 1 <=? 3) with false. change (Z.of_nat 2 + 1 <=? 3) with true. change (Z.of_nat 1 + 1 <=? 3) with true. cbn [andb].
  cbn [tbl]. set (e4 := entry m root (index4 va)). fold (present e4). unfold next at 1 4. cbn [Nat.eqb andb negb].
  destruct (present e4) eqn:P4; cbn [negb andb]; [|done]. fold (entry_table e4).
  assert (T3 : tbl m 0 root [index4 va] = Some (entry_table e4)) by (cbn [tbl]; fold e4; unfold next; by rewrite P4).
  rewrite ptr_id by (by apply (w_tbl _ _ _ Hwf [index4 va] _ (path1 _ (index4_ok va)))).
  set (t3 := entry_table e4) in *. set (e3 := entry m t3 (index3 va)). fold (present e3). fold (huge e3). unfold next at 1 3. cbn [Nat.eqb andb negb].
  destruct (present e3) eqn:P3; cbn [negb andb]; [|done].
  rewrite (w_no_1g _ _ _ Hwf _ _ _ (index4_ok va) (index3_ok va) T3 P3 : huge e3 = false). fold (entry_table e3).
  assert (T2 : tbl m 0 root [index4 va; index3 va] = Some (entry_table e3)).
  { change [index4 va; index3 va] with ([index4 va] ++ [index3 va]). rewrite tbl_snoc, T3. cbn. fold e3. unfold next. by rewrite P3. }
  rewrite ptr_id by (by apply (w_tbl _ _ _ Hwf _ _ (path2 _ _ (index4_ok va) (index3_ok va)))).
  set (t2 := entry_table e3) in *. set (e2 := entry m t2 (index2 va)). fold (present e2). fold (huge e2). unfold next. cbn [Nat.eqb andb negb].
  destruct (present e2) eqn:P2; cbn [negb andb]; [|done]. destruct (huge e2) eqn:H2; cbn [negb]; [done|]. fold (entry_table e2).
  assert (T1 : tbl m 0 root [index4 va; index3 va; index2 va] = Some (entry_table e2)).
  { change [index4 va; index3 va; index2 va] with ([index4 va; index3 va] ++ [index2 va]). rewrite tbl_snoc, T2. cbn. fold e2. unfold next. by rewrite P2, H2. }
  rewrite ptr_id by (by apply (w_tbl _ _ _ Hwf _ _ (path3 _ _ _ (index4_ok va) (index3_ok va) (index2_ok va)))). done.
Qed.

(** The tables below the private slots hold 4 KiB pages only. *)
Definition small (m : memory) (root : Z) : Prop := forall va, user_page va ->
  ~ huge_at m root (index4 va) (index3 va) (index2 va) /\ forall x fl, lookup_va m root va = Some (x, fl) -> Z.testbit fl 7 = false.

(** A page of the process is an entry of a page table. *)
Lemma small_leaf m B root va : tables_wf m B root -> small m root -> user_page va ->
  lookup_va m root va = seen_leaf (walk_pte m root va) /\
  (present (walk_pte m root va) = true -> exists t, tbl m 0 root [index4 va; index3 va; index2 va] = Some t /\ walk_pte m root va = entry m t (index1 va)).
Proof.
  intros Hwf Hs Hp. pose proof Hp as (Hva & _). rewrite (walk_pte_leaf m B) by done. destruct (Hs va Hp) as [Hh _]. unfold lookup_va, lookup, leaf.
  destruct (tbl m 0 root [index4 va; index3 va; index2 va]) as [t|] eqn:T3; [split; [done|]; intros _; by exists t|].
  destruct (tbl m 0 root [index4 va; index3 va]) as [t|] eqn:T2; [|done].
  assert (E : present (entry m t (index2 va)) = false); [|by rewrite E].
  destruct (present (entry m t (index2 va))) eqn:E; [|done]. exfalso. apply Hh. exists t. split; [done|]. split; [done|].
  change [index4 va; index3 va; index2 va] with ([index4 va; index3 va] ++ [index2 va]) in T3. rewrite tbl_snoc, T2 in T3. cbn in T3. unfold next in T3.
  rewrite E in T3. cbn in T3. destruct (huge (entry m t (index2 va))); done.
Qed.

Lemma space_reads m B root va : tables_wf m B root -> small m root -> user_page va ->
  match lookup_va m root va with
  | Some (x, fl) => address_space_translate m root va = x /\ address_space_query_flags m root va = Z.land fl PAGE_QUERY
  | None => address_space_translate m root va = 0 /\ has (address_space_query_flags m root va) RIXURI_PTE_PRESENT = false
  end.
Proof.
  intros Hwf Hs Hp. destruct (small_leaf m B root va Hwf Hs Hp) as [E Hl]. pose proof Hp as (_ & Hm & _). unfold address_space_translate, address_space_query_flags.
  set (e := walk_pte m root va) in *. fold (present e). unfold seen_leaf in E. destruct (present e) eqn:Pe; cbn [negb]; rewrite E.
  - destruct (Hs va Hp) as [_ H7]. specialize (H7 _ _ E). fold (huge e). fold (entry_table e).
    assert (Hh : huge e = false). { rewrite huge_bit. rewrite Z.land_spec in H7. by rewrite andb_true_r in H7. } rewrite Hh.
    rewrite low12, Hm, Z.lor_0_r, <- Z.land_assoc. done.
  - split; [done|]. unfold present, has in *. by rewrite <- Z.land_assoc.
Qed.

(** What the guards of the operations learn from the flags. *)
Lemma space_query m B root va : tables_wf m B root -> small m root -> user_page va ->
  if has (address_space_query_flags m root va) RIXURI_PTE_PRESENT
  then exists x fl, lookup_va m root va = Some (x, fl) /\ address_space_translate m root va = x /\ address_space_query_flags m root va = Z.land fl PAGE_QUERY
  else lookup_va m root va = None.
Proof.
  intros Hwf Hs Hp. pose proof (space_reads m B root va Hwf Hs Hp) as Hr. destruct (lookup_va m root va) as [[x fl]|] eqn:El.
  - destruct Hr as [Ht Hq]. assert (E : has (address_space_query_flags m root va) RIXURI_PTE_PRESENT = true); [|rewrite E; by exists x, fl].
    unfold lookup_va, lookup, seen_leaf in El. destruct (present _) eqn:Ep in El; [|done]. injection El as _ <-.
    rewrite Hq. unfold present, has in *. rewrite <- !Z.land_assoc. change (Z.land VIEW (Z.land PAGE_QUERY RIXURI_PTE_PRESENT)) with RIXURI_PTE_PRESENT. done.
  - by destruct Hr as [_ ->].
Qed.
