(* ===== verification/Isolation.v ===== *)
(** * Isolation of address spaces

    The invariant of the system's address spaces: every root is a well-formed tree,
    two roots share tables below the kernel's slots only, the pages a process owns
    are no tables and nobody else's. The operations of [AddressSpace] keep it, and
    each touches its own process only. *)
From stdpp Require Import base tactics list numbers sets.
From S2P Require Import Prelude Lock Lockdep Pmm Heap Paging Vmm AddressSpace.

(** ** Several roots *)

Definition borrowed (p : list Z) : Prop := exists i p', p = i :: p' /\ kernel_shared_pml4 i = true.

(** Two roots share tables below the borrowed slots only. *)
Definition apart (m : memory) (r r' : Z) : Prop := forall p q a, path_ok p -> path_ok q ->
  tbl m 0 r p = Some a -> tbl m 0 r' q = Some a -> borrowed p /\ borrowed q.

Fixpoint all_paths (n : nat) : list (list Z) :=
  match n with
  | O => [[]]
  | S n => [] :: (i ← seqZ 0 512; (fun p => i :: p) <$> all_paths n)
  end.

Lemma all_paths_spec n p : p ∈ all_paths n <-> Forall index_ok p /\ (length p <= n)%nat.
Proof.
  revert p. induction n as [|n IH]; intros p; cbn [all_paths].
  - rewrite list_elem_of_singleton. split; [intros ->; split; [constructor|done]|]. intros [_ Hl]. destruct p; [done|cbn in Hl; lia].
  - rewrite elem_of_cons, list_elem_of_bind. split.
    + intros [->|(i & Hp & Hi)]; [split; [constructor|cbn; lia]|]. apply list_elem_of_fmap in Hp as (q & -> & Hq). apply IH in Hq as [HF Hl].
      apply elem_of_seqZ in Hi. split; [constructor; [unfold index_ok; lia|done]|cbn; lia].
    + intros [HF Hl]. destruct p as [|i p]; [by left|]. right. inversion HF as [|? ? Hi HF']. exists i. split.
      * apply list_elem_of_fmap. exists p. split; [done|]. apply IH. split; [done|cbn in Hl; lia].
      * apply elem_of_seqZ. unfold index_ok in Hi. lia.
Qed.

#[global] Instance is_table_dec m root a : Decision (is_table m root a).
Proof.
  destruct (decide (Exists (fun p => tbl m 0 root p = Some a) (all_paths 3))) as [H|H]; rewrite list.Exists_exists in H; [left|right].
  - destruct H as (p & Hp & E). exists p. split; [exact (proj1 (all_paths_spec 3 p) Hp)|done].
  - intros (p & Hp & E). apply H. exists p. split; [exact (proj2 (all_paths_spec 3 p) Hp)|done].
Defined.

(** [m'] comes from [m] by a step under the root [r] at a private address: tables
    off the path and pages in use that are no tables of [r], except those of [X],
    are as before. Then so is every root apart from [r]. *)
Section Frame.
Context (m m' : memory) (B B' : Z -> bool) (r va : Z) (X : Z -> Prop).
Context (Hwf : tables_wf m B r) (Hwf' : tables_wf m' B' r) (Hslot : user_slot (index4 va)).
Context (Hguests : forall a, a mod 4096 = 0 -> B a = true -> ~ is_table m r a -> ~ X a ->
  B' a = true /\ ~ is_table m' r a /\ forall x, in_page a x -> m' x = m x).
Context (Hoff : forall q b, path_ok q -> ~ q `prefix_of` vpath va -> tbl m 0 r q = Some b ->
  tbl m' 0 r q = Some b /\ forall j, index_ok j -> entry m' b j = entry m b j).

Lemma borrowed_off p : path_ok p -> borrowed p -> ~ p `prefix_of` vpath va.
Proof using Hslot.
  intros [HF _] (i & p' & -> & Hi) [q Hq]. inversion HF as [|? ? Hix]. apply slot_shared in Hi; [|done]. apply Hi. unfold vpath in Hq.
  injection Hq as <- _. done.
Qed.

Context (r' : Z) (Hwr : tables_wf m B r') (Hap : apart m r r') (HX : forall q a, path_ok q -> tbl m 0 r' q = Some a -> ~ X a).

Lemma other_table q a : path_ok q -> tbl m 0 r' q = Some a -> B' a = true /\ forall j, index_ok j -> entry m' a j = entry m a j.
Proof using All.
  intros Hq Ha. destruct (w_tbl _ _ _ Hwr q a Hq Ha) as [[Ha0 Ham] HBa]. destruct (decide (is_table m r a)) as [(p & Hp & Hpa)|Hn].
  - destruct (Hap p q a Hp Hq Hpa Ha) as [Hb _]. destruct (Hoff p a Hp (borrowed_off p Hp Hb) Hpa) as [Hpa' He]. split; [|done].
    by apply (w_tbl _ _ _ Hwf' p a Hp).
  - destruct (Hguests a Ham HBa Hn (HX q a Hq Ha)) as (HB' & _ & Hc). split; [done|]. intros j Hj. apply Hc. unfold in_page, index_ok in *. lia.
Qed.

Lemma other_tbl q : path_ok q -> tbl m' 0 r' q = tbl m 0 r' q.
Proof using All.
  intros Hq. apply tbl_ext. intros q1 j p a -> Ha. f_equal. apply (other_table q1); [by eapply path_ok_app|done|].
  destruct Hq as [HF _]. rewrite Forall_app in HF. destruct HF as [_ HF]. by inversion HF.
Qed.

Lemma other_lookup i4 i3 i2 i1 : index_ok i4 -> index_ok i3 -> index_ok i2 -> index_ok i1 -> lookup m' r' i4 i3 i2 i1 = lookup m r' i4 i3 i2 i1.
Proof using All.
  intros H4 H3 H2 H1. apply lookup_congr; [apply other_tbl; auto with rix|apply other_tbl; auto with rix|..].
  - intros t Ht. by apply (other_table [i4; i3; i2]); [auto with rix|..].
  - intros t _ Ht. by apply (other_table [i4; i3]); [auto with rix|..].
Qed.

Lemma other_huge i4 i3 i2 : index_ok i4 -> index_ok i3 -> index_ok i2 -> huge_at m' r' i4 i3 i2 -> huge_at m r' i4 i3 i2.
Proof using All.
  intros H4 H3 H2 (t & Ht & Hp & Hh). rewrite other_tbl in Ht by auto with rix. exists t.
  destruct (other_table [i4; i3] t ltac:(auto with rix) Ht) as [_ He]. by rewrite He in Hp, Hh.
Qed.

Lemma other_wf : tables_wf m' B' r'.
Proof using All.
  split; [apply (w_u64 _ _ _ Hwf')|..].
  - intros q a Hq. rewrite other_tbl by done. intros Ha. destruct (w_tbl _ _ _ Hwr q a Hq Ha). destruct (other_table q a Hq Ha). done.
  - intros p q a Hp Hq. rewrite !other_tbl by done. by apply (w_inj _ _ _ Hwr).
  - intros i j a Hi Hj. rewrite other_tbl by auto with rix. intros Ha. rewrite (proj2 (other_table [i] a ltac:(auto with rix) Ha)) by done.
    by apply (w_no_1g _ _ _ Hwr i j a).
  - intros i j k a Hi Hj Hk. rewrite other_tbl by auto with rix. intros Ha. rewrite (proj2 (other_table [i; j] a ltac:(auto with rix) Ha)) by done.
    by apply (w_2m _ _ _ Hwr i j k a).
Qed.

Lemma other_apart : apart m' r r'.
Proof using All.
  intros p q a Hp Hq Hpa Hqa. rewrite other_tbl in Hqa by done. destruct (decide (is_table m r a)) as [(p0 & Hp0 & E0)|Hn].
  - destruct (Hap p0 q a Hp0 Hq E0 Hqa) as [Hb1 Hb2]. split; [|done].
    destruct (Hoff p0 a Hp0 (borrowed_off p0 Hp0 Hb1) E0) as [E0' _]. by rewrite (w_inj _ _ _ Hwf' p p0 a Hp Hp0 Hpa E0').
  - exfalso. destruct (w_tbl _ _ _ Hwr q a Hq Hqa) as [[_ Ham] HBa]. destruct (Hguests a Ham HBa Hn (HX q a Hq Hqa)) as (_ & Hn' & _).
    apply Hn'. by exists p.
Qed.
End Frame.

Lemma roots_apart_sym m r r' : apart m r r' -> apart m r' r.
Proof. intros H p q a Hp Hq Hpa Hqa. destruct (H q p a Hq Hp Hqa Hpa). done. Qed.

(** ** A new address space *)

(** The entry a process root has for slot [j] when the kernel's is [e]. *)
Definition borrowed_entry (j e : Z) : Z :=
  if kernel_shared_pml4 j && present e then Z.land e (not64 (Z.lor RIXURI_PTE_USER RIXURI_PTE_OWNED)) else 0.

Lemma borrowed_next d e : let b := Z.land e (not64 (Z.lor RIXURI_PTE_USER RIXURI_PTE_OWNED)) in
  present b = present e /\ huge b = huge e /\ entry_table b = entry_table e /\ next d b = next d e.
Proof.
  intros b. assert (H1 : present b = present e) by (unfold present, has, b; by rewrite <- Z.land_assoc).
  assert (H2 : huge b = huge e) by (unfold huge, has, b; by rewrite <- Z.land_assoc).
  assert (H3 : entry_table b = entry_table e) by (unfold entry_table, b; by rewrite <- Z.land_assoc).
  split; [done|]. split; [done|]. split; [done|]. unfold next. by rewrite H1, H2, H3.
Qed.

Lemma borrow_run kt t m : t mod 4096 = 0 -> kt mod 4096 = 0 -> t <> kt -> (forall x, is_u64 (m x)) ->
  (forall j, index_ok j -> present (entry m kt j) = true -> entry_table (entry m kt j) <> 0) -> (forall j, index_ok j -> entry m t j = 0) ->
  exists m', borrow kt t m = (false, m') /\ (forall x, ~ in_page t x -> m' x = m x) /\ (forall x, is_u64 (m' x)) /\
    forall j, index_ok j -> entry m' t j = borrowed_entry j (entry m kt j).
Proof.
  intros Ht Hk Hne Hu Htab Hz. unfold borrow, TABLE_COUNT.
  set (I := fun i (m' : memory) => (forall x, ~ in_page t x -> m' x = m x) /\ (forall x, is_u64 (m' x)) /\
    forall j, index_ok j -> entry m' t j = if j <? i then borrowed_entry j (entry m kt j) else 0).
  match goal with |- context [for_ 0 512 ?b m] => set (body := b) end.
  assert (Hinit : I 0 m).
  { split; [done|]. split; [done|]. intros j Hj. unfold index_ok in Hj. case_if; [lia|]. by apply Hz. }
  assert (Hbody : forall i m1, 0 <= i < 0 + 512 -> I i m1 -> match body i m1 with inl m2 => I (i + 1) m2 | inr _ => False end).
  { intros i m1 Hi (I1 & I2 & I3). assert (Hio : index_ok i) by (unfold index_ok; lia). unfold body. clear body.
    assert (Ek : entry m1 kt i = entry m kt i) by (apply I1; by apply entry_in_page). rewrite !Ek.
    assert (Hstep : forall e, e = borrowed_entry i (entry m kt i) -> is_u64 e -> I (i + 1) (set_entry t i e m1)).
    { intros e He Heu. split; [|split].
      - intros x Hx. unfold set_entry. case_if; [|by apply I1]. subst x. exfalso. apply Hx. unfold in_page. unfold index_ok in Hio. lia.
      - intros x. unfold set_entry. case_if; [done|apply I2].
      - intros j Hj. unfold entry, set_entry. destruct (t + 8 * j =? t + 8 * i) eqn:E; bool_to_prop.
        + replace j with i by lia. rewrite He. case_if; [done|lia].
        + fold (entry m1 t j). rewrite I3 by done. case_if; case_if; try done; lia. }
    assert (Hskip : borrowed_entry i (entry m kt i) = 0 -> I (i + 1) m1).
    { intros E0. split; [done|]. split; [done|]. intros j Hj. rewrite I3 by done. destruct (decide (j = i)) as [->|]; [rewrite E0; split_ifs; done|].
      case_if; case_if; try done; lia. }
    unfold borrowed_entry in *. fold (present (entry m kt i)). fold (entry_table (entry m kt i)).
    destruct (kernel_shared_pml4 i); cbn [negb andb] in *; [|by apply Hskip].
    destruct (present (entry m kt i)) eqn:Ep; cbn [negb] in *; [|by apply Hskip].
    rewrite (proj2 (Z.eqb_neq _ 0)) by auto. rewrite low12, (proj2 (entry_table_range (entry m kt i) (Hu _))). cbn [truthy Z.eqb negb orb].
    apply Hstep; [done|]. apply land_range; [lia|apply Hu]. }
  pose proof (for_inv I (fun _ => False) 0 512 body m ltac:(lia) Hinit Hbody) as H. destruct (for_ 0 512 body m) as [m'|m']; [|done].
  destruct H as (H1 & H2 & H3). exists m'. split; [done|]. split; [done|]. split; [done|]. intros j Hj. rewrite H3 by done.
  unfold index_ok in Hj. case_if; [done|lia].
Qed.

(** A page nobody had is written: no tree notices. *)
Section Fresh.
Context (m m' : memory) (B B' : Z -> bool) (f root : Z).
Context (Hwf : tables_wf m B root) (Hfm : f mod 4096 = 0) (Hfree : B f = false).
Context (Hsame : forall x, ~ in_page f x -> m' x = m x) (Hu : forall x, is_u64 (m' x)) (HB : forall x, B x = true -> B' x = true).

Lemma fresh_entry q a j : path_ok q -> tbl m 0 root q = Some a -> index_ok j -> entry m' a j = entry m a j.
Proof using All.
  intros Hq Ha Hj. apply Hsame. destruct (w_tbl _ _ _ Hwf q a Hq Ha) as [[_ Ham] Hb]. apply entry_in_page; [done|done| |done]. congruence.
Qed.

Lemma fresh_tbl q : path_ok q -> tbl m' 0 root q = tbl m 0 root q.
Proof using All.
  intros Hq. apply tbl_ext. intros q1 j p a -> Ha. f_equal. apply (fresh_entry q1); [by eapply path_ok_app|done|].
  destruct Hq as [HF _]. rewrite Forall_app in HF. destruct HF as [_ HF]. by inversion HF.
Qed.

Lemma fresh_lookup i4 i3 i2 i1 : index_ok i4 -> index_ok i3 -> index_ok i2 -> index_ok i1 -> lookup m' root i4 i3 i2 i1 = lookup m root i4 i3 i2 i1.
Proof using All.
  intros H4 H3 H2 H1. apply lookup_congr; [apply fresh_tbl; auto with rix|apply fresh_tbl; auto with rix|..].
  - intros t Ht. by apply (fresh_entry [i4; i3; i2]); [auto with rix|..].
  - intros t _ Ht. by apply (fresh_entry [i4; i3]); [auto with rix|..].
Qed.

Lemma fresh_huge i4 i3 i2 : index_ok i4 -> index_ok i3 -> index_ok i2 -> huge_at m' root i4 i3 i2 -> huge_at m root i4 i3 i2.
Proof using All.
  intros H4 H3 H2 (t & Ht & Hp & Hh). rewrite fresh_tbl in Ht by auto with rix. exists t. by rewrite (fresh_entry [i4; i3]) in Hp, Hh by auto with rix.
Qed.

Lemma fresh_wf : tables_wf m' B' root.
Proof using All.
  split; [done|..].
  - intros q a Hq. rewrite fresh_tbl by done. intros Ha. destruct (w_tbl _ _ _ Hwf q a Hq Ha). auto.
  - intros p q a Hp Hq. rewrite !fresh_tbl by done. by apply (w_inj _ _ _ Hwf).
  - intros i j a Hi Hj. rewrite fresh_tbl by auto with rix. intros Ha. rewrite (fresh_entry [i]) by auto with rix. by apply (w_no_1g _ _ _ Hwf i j a).
  - intros i j k a Hi Hj Hk. rewrite fresh_tbl by auto with rix. intros Ha. rewrite (fresh_entry [i; j]) by auto with rix. by apply (w_2m _ _ _ Hwf i j k a).
Qed.

(** The root [f] made of the borrowed slots of [root]. *)
Context (Hf : table_ok f) (HBf : B' f = true) (Hslots : forall j, index_ok j -> entry m' f j = borrowed_entry j (entry m root j)).

Lemma new_tbl q : path_ok q -> tbl m' 0 f q = match q with
  | [] => Some f
  | i :: _ => if kernel_shared_pml4 i then tbl m 0 root q else None
  end.
Proof using All.
  intros Hq. destruct q as [|i p]; [done|]. rewrite <- fresh_tbl by done. cbn [tbl]. assert (Hi : index_ok i) by (destruct Hq as [HF _]; by inversion HF).
  rewrite Hslots by done. unfold borrowed_entry. rewrite (fresh_entry [] root i path1_nil eq_refl Hi).
  destruct (kernel_shared_pml4 i); cbn [andb]; [|done]. destruct (present (entry m root i)) eqn:Ep; [by rewrite (proj2 (proj2 (proj2 (borrowed_next 0 (entry m root i)))))|].
  unfold next. by rewrite Ep.
Qed.

Lemma new_table q a : path_ok q -> tbl m' 0 f q = Some a -> q = [] /\ a = f \/ borrowed q /\ tbl m 0 root q = Some a.
Proof using All.
  intros Hq. rewrite new_tbl by done. destruct q as [|i p]; [intros [= <-]; by left|]. destruct (kernel_shared_pml4 i) eqn:E; [|done].
  intros Ha. right. split; [by exists i, p|done].
Qed.

Lemma new_wf : tables_wf m' B' f.
Proof using All.
  split; [done|..].
  - intros q a Hq Ha. destruct (new_table q a Hq Ha) as [[-> ->]|[_ Ha']]; [done|]. destruct (w_tbl _ _ _ Hwf q a Hq Ha'). auto.
  - intros p q a Hp Hq H1 H2. destruct (new_table p a Hp H1) as [[-> ->]|[_ H1']], (new_table q _ Hq H2) as [[-> E]|[_ H2']]; [done|..].
    + destruct (w_tbl _ _ _ Hwf q f Hq H2'). congruence.
    + subst a. destruct (w_tbl _ _ _ Hwf p f Hp H1'). congruence.
    + by apply (w_inj _ _ _ Hwf p q a).
  - intros i j a Hi Hj Ha. destruct (new_table [i] a ltac:(auto with rix) Ha) as [[E _]|[_ Ha']]; [done|].
    rewrite (fresh_entry [i]) by auto with rix. by apply (w_no_1g _ _ _ Hwf i j a).
  - intros i j k a Hi Hj Hk Ha. destruct (new_table [i; j] a ltac:(auto with rix) Ha) as [[E _]|[_ Ha']]; [done|].
    rewrite (fresh_entry [i; j]) by auto with rix. by apply (w_2m _ _ _ Hwf i j k a).
Qed.

Lemma new_lookup i4 i3 i2 i1 : index_ok i4 -> index_ok i3 -> index_ok i2 -> index_ok i1 ->
  lookup m' f i4 i3 i2 i1 = if kernel_shared_pml4 i4 then lookup m root i4 i3 i2 i1 else None.
Proof using All.
  intros H4 H3 H2 H1. rewrite <- fresh_lookup by done. unfold lookup, leaf. rewrite !new_tbl by auto with rix. rewrite !fresh_tbl by auto with rix.
  by destruct (kernel_shared_pml4 i4).
Qed.
End Fresh.

(** ** From indices to addresses *)

Definition va_of (i4 i3 i2 i1 : Z) : Z := (((i4 * 512 + i3) * 512 + i2) * 512 + i1) * 4096.

Lemma va_of_indices i4 i3 i2 i1 : index_ok i4 -> index_ok i3 -> index_ok i2 -> index_ok i1 ->
  let va := va_of i4 i3 i2 i1 in index4 va = i4 /\ index3 va = i3 /\ index2 va = i2 /\ index1 va = i1.
Proof.
  intros H4 H3 H2 H1. cbv zeta. unfold index_ok, index4, index3, index2, index1 in *. rewrite !index_val by lia. unfold va_of.
  set (x3 := i4 * 512 + i3). set (x2 := x3 * 512 + i2). set (x1 := x2 * 512 + i1).
  assert (E1 : x1 * 4096 / 2 ^ 12 = x1) by (apply Z.div_mul; lia).
  assert (E2 : x1 * 4096 / 2 ^ 21 = x2) by (symmetry; apply Z.div_unique with (i1 * 4096); unfold x1; lia).
  assert (E3 : x1 * 4096 / 2 ^ 30 = x3) by (symmetry; apply Z.div_unique with (i2 * 2 ^ 21 + i1 * 4096); unfold x1, x2; lia).
  assert (E4 : x1 * 4096 / 2 ^ 39 = i4) by (symmetry; apply Z.div_unique with (i3 * 2 ^ 30 + i2 * 2 ^ 21 + i1 * 4096); unfold x1, x2, x3; lia).
  rewrite E1, E2, E3, E4. split; [apply Z.mod_small; lia|].
  split; [|split]; symmetry; [apply (Z.mod_unique_pos x3 512 i4 i3)|apply (Z.mod_unique_pos x2 512 x3 i2)|apply (Z.mod_unique_pos x1 512 x2 i1)];
    unfold x1, x2, x3; lia.
Qed.

Lemma va_of_user i4 i3 i2 i1 : index_ok i4 -> index_ok i3 -> index_ok i2 -> index_ok i1 -> user_slot i4 -> user_page (va_of i4 i3 i2 i1).
Proof.
  intros H4 H3 H2 H1 Hs. destruct (va_of_indices i4 i3 i2 i1 H4 H3 H2 H1) as (E4 & _). cbv zeta in E4. split; [|split; [apply Z.mod_mul; lia|by rewrite E4]].
  unfold index_ok, user_slot, va_of in *. lia.
Qed.

(** ** The invariant of the system's address spaces *)

Section Spaces.
Context {P : Type} {FA : FrameAlloc P} {SM : Smp P}.
Abbreviation st := (cpu * (vmm_t * P))%type.

Definition owns (m : memory) (r va x : Z) : Prop := user_page va /\ exists fl, lookup_va m r va = Some (x, fl) /\ Z.testbit fl 9 = true.

Definition all_roots (v : vmm_t) (roots : list Z) : list Z := kernel_pml4_phys v :: roots.

Record spaces_ok (v : vmm_t) (s : P) (roots : list Z) : Prop := {
  so_class : pa_class (P := P) (vmm_map_lockdep_class v);
  so_frames : pa_ok false s;
  so_lock : vmm_map_lock v = spin_free;
  so_nodup : NoDup (all_roots v roots);
  so_wf : forall r, r ∈ all_roots v roots -> tables_wf (words v) (busy s) r;
  so_apart : forall r r', r ∈ all_roots v roots -> r' ∈ all_roots v roots -> r <> r' -> apart (words v) r r';
  so_small : forall r, r ∈ roots -> small (words v) r;
  so_owned : forall r va x, r ∈ roots -> owns (words v) r va x ->
    table_ok x /\ busy s x = true /\ forall r', r' ∈ all_roots v roots -> ~ is_table (words v) r' x;
  so_once : forall r r' va va' x, r ∈ roots -> r' ∈ roots -> owns (words v) r va x -> owns (words v) r' va' x -> r = r' /\ va = va';
  so_synced : forall r i, r ∈ roots -> index_ok i -> kernel_shared_pml4 i = true -> present (entry (words v) r i) = true ->
    entry (words v) r i = borrowed_entry i (entry (words v) (kernel_pml4_phys v) i);
}.

Lemma spaces_vmm_ok v s roots r : spaces_ok v s roots -> r ∈ all_roots v roots -> vmm_ok r v s.
Proof. intros H Hr. split; [apply H|]. split; [apply H|]. split; [apply H|by apply (so_wf _ _ _ H)]. Qed.

Lemma in_roots v roots r : r ∈ roots -> r ∈ all_roots v roots.
Proof. intros H. by apply elem_of_cons; right. Qed.

(** What a frame must be to become the page [va] of [r]: handed out, no table,
    and owned by no other page. *)
Definition may_own (v : vmm_t) (s : P) (roots : list Z) (r va x : Z) : Prop :=
  table_ok x /\ busy s x = true /\ (forall r', r' ∈ all_roots v roots -> ~ is_table (words v) r' x) /\
  forall r' va', r' ∈ roots -> owns (words v) r' va' x -> r' = r /\ va' = va.

(** A step under the root [r] that sets the page [va], and frees the frames of [X]. *)
Section Step.
Context (v v' : vmm_t) (s s' : P) (roots : list Z) (r va : Z) (X : Z -> Prop).
Context (Hok : spaces_ok v s roots) (Hr : r ∈ roots) (Hva : user_page va).
Context (Hrest : same_rest v v') (Hok' : vmm_ok r v' s').
Context (Hguests : forall a, a mod 4096 = 0 -> busy s a = true -> ~ is_table (words v) r a -> ~ X a ->
  busy s' a = true /\ ~ is_table (words v') r a /\ forall x, in_page a x -> words v' x = words v x).
Context (Hoff : off_path_kept r va v v') (Hhuge : no_new_huge r v v').
Context (Hview : forall va', user_page va' -> va' <> va -> lookup_va (words v') r va' = lookup_va (words v) r va').
Context (Hnew : forall x fl, lookup_va (words v') r va = Some (x, fl) ->
  Z.testbit fl 7 = false /\ (Z.testbit fl 9 = true -> ~ X x /\ may_own v s roots r va x)).
Context (HXtab : forall r' a, r' ∈ all_roots v roots -> is_table (words v) r' a -> ~ X a).
Context (HXown : forall r' va' x, r' ∈ roots -> owns (words v) r' va' x -> X x -> r' = r /\ va' = va).

Let Hrr : r ∈ all_roots v roots := in_roots v roots r Hr.
Let Hwf : tables_wf (words v) (busy s) r := so_wf _ _ _ Hok r Hrr.
Let Hwf' : tables_wf (words v') (busy s') r := proj2 (proj2 (proj2 Hok')).

Lemma step_roots : all_roots v' roots = all_roots v roots.
Proof using Hrest. unfold all_roots. by destruct Hrest as (-> & _). Qed.

Lemma step_other r' : r' ∈ all_roots v roots -> r' <> r ->
  tables_wf (words v') (busy s') r' /\ apart (words v') r r' /\
  (forall q, path_ok q -> tbl (words v') 0 r' q = tbl (words v) 0 r' q) /\
  (forall i4 i3 i2 i1, index_ok i4 -> index_ok i3 -> index_ok i2 -> index_ok i1 -> lookup (words v') r' i4 i3 i2 i1 = lookup (words v) r' i4 i3 i2 i1) /\
  (forall i4 i3 i2, index_ok i4 -> index_ok i3 -> index_ok i2 -> huge_at (words v') r' i4 i3 i2 -> huge_at (words v) r' i4 i3 i2).
Proof using All.
  intros Hr' Hne. destruct Hva as (_ & _ & Hslot). pose proof (so_apart _ _ _ Hok r r' Hrr Hr' (not_eq_sym Hne)) as Hap. pose proof (so_wf _ _ _ Hok r' Hr') as Hwr.
  assert (HX : forall q a, path_ok q -> tbl (words v) 0 r' q = Some a -> ~ X a) by (intros q a Hq Ha; apply (HXtab r' a Hr'); by exists q).
  pose proof (proj1 Hoff) as Ho.
  split; [exact (other_wf _ _ _ _ r va X Hwf Hwf' Hslot Hguests Ho r' Hwr Hap HX)|].
  split; [exact (other_apart _ _ _ _ r va X Hwf Hwf' Hslot Hguests Ho r' Hwr Hap HX)|].
  split; [exact (other_tbl _ _ _ _ r va X Hwf Hwf' Hslot Hguests Ho r' Hwr Hap HX)|].
  split; [exact (other_lookup _ _ _ _ r va X Hwf Hwf' Hslot Hguests Ho r' Hwr Hap HX)|].
  exact (other_huge _ _ _ _ r va X Hwf Hwf' Hslot Hguests Ho r' Hwr Hap HX).
Qed.

(** The entries of the roots outside the slot of [va]. *)
Lemma step_slot r' i : r' ∈ all_roots v roots -> index_ok i -> kernel_shared_pml4 i = true -> entry (words v') r' i = entry (words v) r' i.
Proof using All.
  intros Hr' Hi Hsh. destruct (decide (r' = r)) as [->|Hne].
  - apply (proj2 Hoff); [done|]. intros ->. apply slot_shared in Hsh; [|done]. by apply Hsh, Hva.
  - pose proof (so_apart _ _ _ Hok r r' Hrr Hr' (not_eq_sym Hne)) as Hap. pose proof (so_wf _ _ _ Hok r' Hr') as Hwr. destruct Hva as (_ & _ & Hslot).
    assert (HX : forall q a, path_ok q -> tbl (words v) 0 r' q = Some a -> ~ X a) by (intros q a Hq Ha; apply (HXtab r' a Hr'); by exists q).
    exact (proj2 (other_table _ _ _ _ r va X Hwf Hwf' Hslot Hguests (proj1 Hoff) r' Hwr Hap HX [] r' path1_nil eq_refl) i Hi).
Qed.

Lemma step_owns r' va' x : r' ∈ roots -> owns (words v') r' va' x ->
  owns (words v) r' va' x /\ ~ (r' = r /\ va' = va) \/ (r' = r /\ va' = va) /\ ~ X x /\ may_own v s roots r va x.
Proof using All.
  intros Hr' (Hp & fl & Hl & H9). destruct (decide (r' = r)) as [->|Hne]; [destruct (decide (va' = va)) as [->|Hnv]|].
  - right. split; [done|]. by apply (Hnew x fl Hl).
  - left. split; [|tauto]. split; [done|]. exists fl. by rewrite <- Hview.
  - left. split; [|tauto]. split; [done|]. exists fl. destruct (step_other r' (in_roots v _ _ Hr') Hne) as (_ & _ & _ & Hlk & _). split; [|done].
    rewrite <- Hl. symmetry. apply Hlk; auto with rix.
Qed.

(** A frame that is owned before and not freed, or may become so, stays apart from all tables. *)
Lemma step_frame x : table_ok x -> busy s x = true -> ~ X x -> (forall r', r' ∈ all_roots v roots -> ~ is_table (words v) r' x) ->
  busy s' x = true /\ (forall r', r' ∈ all_roots v roots -> ~ is_table (words v') r' x) /\ forall y, in_page x y -> words v' y = words v y.
Proof using All.
  intros [_ Hm] Hb HX Ht. destruct (Hguests x Hm Hb (Ht r Hrr) HX) as (Hb' & Ht' & Hc). split; [done|]. split; [|done].
  intros r' Hr' (q & Hq & E). destruct (decide (r' = r)) as [->|Hne]; [apply Ht'; by exists q|].
  destruct (step_other r' Hr' Hne) as (_ & _ & Htb & _). rewrite Htb in E by done. apply (Ht r' Hr'). by exists q.
Qed.

Lemma spaces_step : spaces_ok v' s' roots.
Proof using All.
  pose proof Hrest as (Rk & Rc & Rl & Rd). pose proof Hok' as (K1 & K2 & K3 & _).
  split; try done; rewrite ?step_roots; [apply Hok|..].
  - intros r' Hr'. destruct (decide (r' = r)) as [->|Hne]; [done|]. by apply step_other.
  - intros r1 r2 H1 H2 Hne. destruct (decide (r1 = r)) as [->|N1]; [by apply step_other|].
    destruct (decide (r2 = r)) as [->|N2]; [by apply roots_apart_sym, step_other|]. intros p q a Hp Hq.
    destruct (step_other r1 H1 N1) as (_ & _ & T1 & _), (step_other r2 H2 N2) as (_ & _ & T2 & _). rewrite T1, T2 by done.
    by apply (so_apart _ _ _ Hok r1 r2 H1 H2 Hne).
  - intros r' Hr' va' Hp'. destruct (so_small _ _ _ Hok r' Hr' va' Hp') as [Hh H7]. destruct (decide (r' = r)) as [->|Hne].
    + split; [intros H; apply Hh; apply Hhuge; auto with rix|]. intros x fl Hl. destruct (decide (va' = va)) as [->|Hnv]; [by apply (Hnew x fl)|].
      apply (H7 x). by rewrite <- Hview.
    + destruct (step_other r' (in_roots v _ _ Hr') Hne) as (_ & _ & _ & Hlk & Hhg). split; [intros H; apply Hh; apply Hhg; auto with rix|].
      intros x fl Hl. apply (H7 x). rewrite <- Hl. symmetry. apply Hlk; auto with rix.
  - intros r' va' x Hr' Ho'. destruct (step_owns r' va' x Hr' Ho') as [[Ho Hne]|(_ & HX & Hx & Hb & Ht & _)].
    + destruct (so_owned _ _ _ Hok r' va' x Hr' Ho) as (Hx & Hb & Ht). split; [done|].
      destruct (step_frame x Hx Hb ltac:(intros HX; by apply Hne, (HXown r' va' x)) Ht) as (Hb' & Ht' & _). done.
    + split; [done|]. destruct (step_frame x Hx Hb HX Ht) as (Hb' & Ht' & _). done.
  - intros r1 r2 va1 va2 x H1 H2 Ho1 Ho2.
    destruct (step_owns r1 va1 x H1 Ho1) as [[O1 N1]|([-> ->] & _ & _ & _ & _ & U1)], (step_owns r2 va2 x H2 Ho2) as [[O2 N2]|([-> ->] & _ & _ & _ & _ & U2)].
    + by apply (so_once _ _ _ Hok r1 r2 va1 va2 x).
    + destruct (U2 r1 va1 H1 O1) as [-> ->]. exfalso. by apply N1.
    + destruct (U1 r2 va2 H2 O2) as [-> ->]. exfalso. by apply N2.
    + done.
  - intros r' i Hr' Hi Hsh. rewrite Rk, (step_slot r'), (step_slot (kernel_pml4_phys v)) by (first [done|by apply in_roots|apply elem_of_cons; by left]).
    by apply (so_synced _ _ _ Hok).
Qed.

(** Pages owned by any process keep their contents. *)
Lemma step_contents r' va' x : r' ∈ roots -> owns (words v) r' va' x -> ~ X x -> forall y, in_page x y -> words v' y = words v y.
Proof using All.
  intros Hr' Ho HX. destruct (so_owned _ _ _ Hok r' va' x Hr' Ho) as (Hx & Hb & Ht). by apply step_frame.
Qed.
End Step.

(** What changes for whom: the address spaces other than [r] read as before, in [r]
    only the page [va] may change, and pages owned by a process keep their contents. *)
Record only_page (v v' : vmm_t) (roots : list Z) (r va : Z) : Prop := {
  op_rest : same_rest v v';
  op_others : forall r' va', r' ∈ all_roots v roots -> r' <> r -> lookup_va (words v') r' va' = lookup_va (words v) r' va';
  op_pages : forall va', user_page va' -> va' <> va -> lookup_va (words v') r va' = lookup_va (words v) r va';
  op_contents : forall r' va' x, r' ∈ roots -> owns (words v) r' va' x -> forall y, in_page x y -> words v' y = words v y;
}.

Lemma only_page_refl v roots r va : only_page v v roots r va.
Proof. by split. Qed.

Lemma owned_may_own v s roots r va x : spaces_ok v s roots -> r ∈ roots -> owns (words v) r va x -> may_own v s roots r va x.
Proof.
  intros Hok Hr Ho. destruct (so_owned _ _ _ Hok r va x Hr Ho) as (H1 & H2 & H3). split; [done|]. split; [done|]. split; [done|].
  intros r' va' Hr' Ho'. exact (so_once _ _ _ Hok r' r va' va x Hr' Hr Ho' Ho).
Qed.

Lemma vmm_map_space c v s roots r va pa fl :
  pa_cpu (P := P) c -> spaces_ok v s roots -> r ∈ roots -> user_page va -> is_u64 pa -> is_u64 fl -> present fl = true ->
  (Z.testbit fl 9 = true -> may_own v s roots r va pa) ->
  exists rc v' s', vmm_map_page_in_pml4 r va pa fl (c, (v, s)) = Some (rc, (c, (v', s'))) /\ spaces_ok v' s' roots /\ only_page v v' roots r va /\
    (rc = 0 /\ pa mod 4096 = 0 /\ lookup_va (words v') r va = Some (pa, Z.land fl PAGE_QUERY) /\ (r = current_pml4_phys v -> tlb v' = va :: tlb v) \/
     rc = -1 /\ lookup_va (words v') r va = lookup_va (words v) r va /\ (map_args va pa -> tbl (words v) 0 r [index4 va; index3 va; index2 va] = None)).
Proof.
  intros Hcpu Hok Hr Hp Hpa Hfl Hpr Hown. destruct (user_page_args va Hp) as (_ & _ & Hu & Hc).
  destruct (map_page_run r c v s va pa fl Hcpu (spaces_vmm_ok v s roots r Hok (in_roots v roots r Hr)) Hu Hpa Hfl)
    as (rc & v' & s' & E & Hok' & Hgk & Hrest & Hoff & Hhuge & Hcases). rewrite Hpr in Hcases.
  assert (Hg : forall a, a mod 4096 = 0 -> busy s a = true -> ~ is_table (words v) r a -> ~ False ->
    busy s' a = true /\ ~ is_table (words v') r a /\ forall x, in_page a x -> words v' x = words v x).
  { intros a Ha Hb Ht _. destruct (Hgk a Ha (conj Hb Ht)) as [[? ?] ?]. done. }
  assert (Hview : forall va', user_page va' -> va' <> va -> lookup_va (words v') r va' = lookup_va (words v) r va').
  { intros va' Hp' Hne. destruct Hcases as [(_ & _ & [_ Hv] & _)|(_ & Hv & _)]; apply Hv; auto with rix. by apply user_pages_apart. }
  assert (Hnew : forall x f, lookup_va (words v') r va = Some (x, f) -> Z.testbit f 7 = false /\ (Z.testbit f 9 = true -> ~ False /\ may_own v s roots r va x)).
  { intros x f Hl. destruct Hcases as [(_ & _ & [Hv _] & _)|(_ & Hv & _)].
    - unfold in_view in Hv. rewrite Hv in Hl. injection Hl as <- <-. rewrite !Z.land_spec. split; [by rewrite andb_false_r|]. rewrite andb_true_r. tauto.
    - assert (Hl' : lookup_va (words v) r va = Some (x, f)) by (rewrite <- Hl; symmetry; apply Hv; auto with rix).
      split; [by apply (proj2 (so_small _ _ _ Hok r Hr va Hp) x)|]. intros H9. split; [tauto|]. apply owned_may_own; [done|done|]. split; [done|by exists f]. }
  exists rc, v', s'. split; [exact E|]. split; [|split].
  - exact (spaces_step v v' s s' roots r va (fun _ => False) Hok Hr Hp Hrest Hok' Hg Hoff Hhuge Hview Hnew ltac:(tauto) ltac:(tauto)).
  - split; [done| |done|].
    + intros r' va' Hr' Hne.
      destruct (step_other v v' s s' roots r va (fun _ => False) Hok Hr Hp Hrest Hok' Hg Hoff Hhuge Hview Hnew ltac:(tauto) ltac:(tauto) r' Hr' Hne) as (_ & _ & _ & Hlk & _).
      apply Hlk; auto with rix.
    + intros r' va' x Hr' Ho.
      exact (step_contents v v' s s' roots r va (fun _ => False) Hok Hr Hp Hrest Hok' Hg Hoff Hhuge Hview Hnew ltac:(tauto) ltac:(tauto) r' va' x Hr' Ho ltac:(tauto)).
  - destruct Hcases as [(-> & (_ & _ & Hpm & _) & [Hv _] & Ht)|(-> & Hv & _ & Hn)]; [left|right; split; [done|split; [apply Hv; auto with rix|done]]].
    split; [done|]. split; [done|]. split; [exact Hv|]. intros ->. by rewrite Ht, Z.eqb_refl.
Qed.

(** The flags a page mapped by [map_page] has. *)
Definition page_flags (flags : Z) (owned : bool) : Z :=
  let flags := Z.lor flags (Z.lor RIXURI_PTE_PRESENT RIXURI_PTE_USER) in
  Z.land (if owned then Z.lor flags RIXURI_PTE_OWNED else Z.land flags (not64 RIXURI_PTE_OWNED)) PAGE_QUERY.

Lemma space_map_run c v s roots r va pa flags owned :
  pa_cpu (P := P) c -> spaces_ok v s roots -> r ∈ roots -> is_u64 va -> is_u64 pa -> is_u64 flags ->
  (owned = true -> may_own v s roots r va pa) ->
  exists rc v' s', map_page r va pa flags owned (c, (v, s)) = Some (rc, (c, (v', s'))) /\ spaces_ok v' s' roots /\ only_page v v' roots r va /\
    (rc = 0 /\ user_page va /\ pa mod 4096 = 0 /\ lookup_va (words v) r va = None /\ lookup_va (words v') r va = Some (pa, page_flags flags owned) \/
     rc = -1 /\ lookup_va (words v') r va = lookup_va (words v) r va).
Proof.
  intros Hcpu Hok Hr Hva Hpa Hfl Hown. unfold map_page.
  assert (Hstay : exists rc v' s', (mret (-1) : M st Z) (c, (v, s)) = Some (rc, (c, (v', s'))) /\ spaces_ok v' s' roots /\ only_page v v' roots r va /\
    (rc = 0 /\ user_page va /\ pa mod 4096 = 0 /\ lookup_va (words v) r va = None /\ lookup_va (words v') r va = Some (pa, page_flags flags owned) \/
     rc = -1 /\ lookup_va (words v') r va = lookup_va (words v) r va)).
  { exists (-1), v, s. split; [done|]. split; [done|]. split; [apply only_page_refl|by right]. }
  case_if; [done|]. assert (Hp : user_page va) by (by apply user_guard).
  rewrite (bind_Some _ _ _ (address_space_query_flags (words v) r va) (c, (v, s))) by done.
  pose proof (space_query _ _ r va (so_wf _ _ _ Hok r (in_roots v _ _ Hr)) (so_small _ _ _ Hok r Hr) Hp) as Hnone.
  destruct (has (address_space_query_flags (words v) r va) RIXURI_PTE_PRESENT); [done|].
  set (fl := if owned then _ else _).
  assert (Hflu : is_u64 fl /\ present fl = true /\ (Z.testbit fl 9 = true -> owned = true)).
  { unfold fl. assert (Hb : is_u64 (Z.lor flags (Z.lor RIXURI_PTE_PRESENT RIXURI_PTE_USER))) by (apply lor_range; [lia|exact Hfl|vm_compute; split; congruence]).
    destruct owned; [split; [apply lor_range; [lia|exact Hb|vm_compute; split; congruence]|]|split; [apply land_range; [lia|exact Hb]|]].
    - split; [|done]. rewrite present_bit, !Z.lor_spec. by rewrite orb_true_r.
    - rewrite present_bit. split.
      + rewrite Z.land_spec, !Z.lor_spec. by rewrite orb_true_r.
      + rewrite Z.land_spec. intros H9. apply andb_true_iff in H9 as [_ H9]. by vm_compute in H9. }
  destruct Hflu as (F1 & F2 & F3).
  destruct (vmm_map_space c v s roots r va pa fl Hcpu Hok Hr Hp Hpa F1 F2 ltac:(auto)) as (rc & v' & s' & E & Hok' & Hop & Hcases).
  exists rc, v', s'. split; [exact E|]. split; [done|]. split; [done|]. destruct Hcases as [(-> & Hm & Hl & _)|(-> & Hl & _)]; [by left|by right].
Qed.

(** The user page tables of [r] at a page that is mapped. *)
Lemma mapped_table v s roots r va x fl : spaces_ok v s roots -> r ∈ roots -> user_page va -> lookup_va (words v) r va = Some (x, fl) ->
  exists t, tbl (words v) 0 r [index4 va; index3 va; index2 va] = Some t.
Proof.
  intros Hok Hr Hp Hl. destruct (small_leaf _ _ r va (so_wf _ _ _ Hok r (in_roots v _ _ Hr)) (so_small _ _ _ Hok r Hr) Hp) as [E Ht].
  rewrite Hl in E. unfold seen_leaf in E. destruct (present _); [|done]. destruct (Ht eq_refl) as (t & T & _). by exists t.
Qed.

Lemma owned_test q : (Z.land q OWNED_PAGE =? OWNED_PAGE) = true -> has q RIXURI_PTE_PRESENT = true /\ Z.testbit q 9 = true.
Proof.
  intros H. apply Z.eqb_eq in H. fold (present q). rewrite present_bit. split.
  - apply (f_equal (fun z => Z.testbit z 0)) in H. rewrite Z.land_spec in H. by rewrite andb_true_r in H.
  - apply (f_equal (fun z => Z.testbit z 9)) in H. rewrite Z.land_spec in H. by rewrite andb_true_r in H.
Qed.

Lemma frame_mask x : table_ok x -> Z.land x PAGE_MASK = x.
Proof. intros Hx. apply frame_id; [by apply frame_bound|apply Hx]. Qed.

Lemma space_update_run c v s roots r va flags :
  pa_cpu (P := P) c -> spaces_ok v s roots -> r ∈ roots -> is_u64 va -> is_u64 flags ->
  exists rc v' s', address_space_update_flags r va flags (c, (v, s)) = Some (rc, (c, (v', s'))) /\ spaces_ok v' s' roots /\ only_page v v' roots r va /\
    (rc = 0 /\ (exists x, owns (words v) r va x /\ lookup_va (words v') r va = Some (x, Z.land (Z.lor flags OWNED_PAGE) PAGE_QUERY)) /\
       (r = current_pml4_phys v -> tlb v' = va :: tlb v) \/
     rc = -1 /\ v' = v /\ s' = s /\ forall x fl, user_page va -> lookup_va (words v) r va = Some (x, fl) -> Z.land fl OWNED_PAGE <> OWNED_PAGE).
Proof.
  intros Hcpu Hok Hr Hva Hfl. unfold address_space_update_flags.
  assert (Hstay : (forall x fl, user_page va -> lookup_va (words v) r va = Some (x, fl) -> Z.land fl OWNED_PAGE <> OWNED_PAGE) ->
    exists rc v' s', (mret (-1) : M st Z) (c, (v, s)) = Some (rc, (c, (v', s'))) /\ spaces_ok v' s' roots /\ only_page v v' roots r va /\
    (rc = 0 /\ (exists x, owns (words v) r va x /\ lookup_va (words v') r va = Some (x, Z.land (Z.lor flags OWNED_PAGE) PAGE_QUERY)) /\
       (r = current_pml4_phys v -> tlb v' = va :: tlb v) \/
     rc = -1 /\ v' = v /\ s' = s /\ forall x fl, user_page va -> lookup_va (words v) r va = Some (x, fl) -> Z.land fl OWNED_PAGE <> OWNED_PAGE)).
  { intros Hno. exists (-1), v, s. split; [done|]. split; [done|]. split; [apply only_page_refl|]. by right. }
  destruct (w_tbl _ _ _ (so_wf _ _ _ Hok r (in_roots v _ _ Hr)) [] r path1_nil eq_refl) as [[Hr0 _] _]. rewrite (proj2 (Z.eqb_neq r 0)) by lia. cbn [orb].
  destruct (negb (user_va va) || negb (user_pml4_ok va)) eqn:Eg.
  { apply Hstay. intros x fl Hp. destruct (user_page_args va Hp) as (E1 & E2 & _). by rewrite E1, E2 in Eg. }
  bool_to_prop. assert (Hp : user_page va) by (by apply user_guard).
  rewrite (bind_Some _ _ _ (address_space_query_flags (words v) r va) (c, (v, s))) by done.
  pose proof (space_query _ _ r va (so_wf _ _ _ Hok r (in_roots v _ _ Hr)) (so_small _ _ _ Hok r Hr) Hp) as Hq.
  assert (Hmask : forall fl, Z.land (Z.land fl PAGE_QUERY) OWNED_PAGE = Z.land fl OWNED_PAGE) by (intros fl; by rewrite <- Z.land_assoc).
  destruct (negb (Z.land (address_space_query_flags (words v) r va) OWNED_PAGE =? OWNED_PAGE)) eqn:Eo.
  { apply negb_true_iff, Z.eqb_neq in Eo. apply Hstay. intros x fl _ Hl. destruct (has (address_space_query_flags _ _ _) _); [|congruence].
    destruct Hq as (x' & fl' & Hl' & _ & E). rewrite Hl in Hl'. injection Hl' as <- <-. by rewrite E, Hmask in Eo. }
  apply negb_false_iff in Eo. destruct (owned_test _ Eo) as [Hpres H9]. rewrite Hpres in Hq. destruct Hq as (x & fl & Hl & Ht & Hqf).
  assert (Ho : owns (words v) r va x).
  { split; [done|]. exists fl. split; [done|]. rewrite Hqf, Z.land_spec in H9. by apply andb_true_iff in H9 as [? _]. }
  destruct (so_owned _ _ _ Hok r va x Hr Ho) as (Hx & _). pose proof Hx as [[Hx0 Hx1] Hxm].
  rewrite (bind_Some _ _ _ x (c, (v, s))) by (unfold reads, gets; by rewrite Ht). rewrite frame_mask by done. rewrite (proj2 (Z.eqb_neq x 0)) by lia.
  destruct (vmm_map_space c v s roots r va x (Z.lor flags OWNED_PAGE) Hcpu Hok Hr Hp) as (rc & v' & s' & E & Hok' & Hop & Hcases).
  { unfold RIXURI_MAX_PHYS_BYTES in Hx1. unfold is_u64. lia. }
  { apply lor_range; [lia|exact Hfl|vm_compute; split; congruence]. }
  { rewrite present_bit, Z.lor_spec. by rewrite orb_true_r. }
  { intros _. by apply owned_may_own. }
  exists rc, v', s'. split; [exact E|]. split; [done|]. split; [done|]. destruct Hcases as [(-> & _ & Hl' & Htl)|(-> & _ & Hn)].
  - left. split; [done|]. split; [by exists x|done].
  - exfalso. destruct (mapped_table v s roots r va x fl Hok Hr Hp Hl) as [t T]. rewrite Hn in T; [done|].
    destruct (user_page_args va Hp) as (_ & _ & _ & Hc), Hp as (_ & Hm & _). unfold map_args. unfold RIXURI_MAX_PHYS_BYTES in Hx1. repeat split; try done. lia.
Qed.

(** [if (old & OWNED) pmm_free_page(pa)] gives back the frame of an owned page only. *)
Lemma free_owned c v1 v s roots r va x fl :
  pa_cpu (P := P) c -> spaces_ok v s roots -> r ∈ roots -> user_page va -> lookup_va (words v) r va = Some (x, fl) ->
  address_space_query_flags (words v) r va = Z.land fl PAGE_QUERY ->
  exists s1, (if has (address_space_query_flags (words v) r va) RIXURI_PTE_OWNED then pmm_free (Z.land x PAGE_MASK) else mret tt : M st unit) (c, (v1, s))
      = Some (tt, (c, (v1, s1))) /\ pa_ok false s1 /\ (forall a, ~ (Z.testbit fl 9 = true /\ a = x) -> busy s a = true -> busy s1 a = true).
Proof.
  intros Hcpu Hok Hr Hp Hl Hqf. pose proof (so_frames _ _ _ Hok) as Hpf.
  assert (E9 : has (address_space_query_flags (words v) r va) RIXURI_PTE_OWNED = Z.testbit fl 9).
  { rewrite Hqf. unfold has. rewrite <- Z.land_assoc. exact (land_bit_test fl 9 ltac:(lia)). }
  rewrite E9. destruct (Z.testbit fl 9) eqn:F9; [|exists s; split; [done|]; split; [done|]; by intros a _].
  destruct (so_owned _ _ _ Hok r va x Hr ltac:(split; [done|by exists fl])) as (Hx & _). rewrite frame_mask by done. pose proof Hx as [[? _] _].
  destruct (pa_free_law c s x Hcpu (fa_ok_any _ _ s Hpf) ltac:(lia)) as (s1 & E & Hok1 & HB). exists s1. unfold pmm_free, on_frames. rewrite E.
  split; [done|]. split; [by eapply fa_ok_any|]. intros a Hne Hb. apply HB; [|done]. intros ->. by apply Hne.
Qed.

Lemma user_page_pos va : user_page va -> 0 < va.
Proof. intros (Hr & _ & Hs). destruct (decide (va = 0)) as [->|]; [|lia]. exfalso. unfold user_slot in Hs. change (index4 0) with 0 in Hs. lia. Qed.

(** The flush after an unmap: here when the root is current, everywhere when other
    processors run. *)
Lemma shootdown_run c v v1 (s : P) r va : user_page va -> tlb v1 = tlb v -> current_pml4_phys v1 = current_pml4_phys v -> same_rest v v1 ->
  exists v2, (if 1 <? smp_online_count (P := P) then _ ← smp_shootdown va; mret tt else cur ← current_root; if r =? cur then vmm_invlpg va else mret tt : M st unit) (c, (v1, s))
    = Some (tt, (c, (v2, s))) /\ words v2 = words v1 /\ same_rest v v2 /\ (1 < smp_online_count (P := P) \/ r = current_pml4_phys v -> tlb v2 = va :: tlb v).
Proof.
  intros Hp Et Ec Hrest. destruct (user_page_args va Hp) as (_ & _ & _ & Hc).
  assert (Hf : words (flush va v1) = words v1 /\ same_rest v (flush va v1) /\ tlb (flush va v1) = va :: tlb v) by (cbn; by rewrite Et).
  destruct (1 <? smp_online_count) eqn:En; bool_to_prop.
  - destruct (smp_shootdown_law va c v1 s (user_page_pos va Hp) Hc) as [rc E]. exists (flush va v1).
    rewrite (bind_Some _ _ _ rc (c, (flush va v1, s))) by exact E. destruct Hf as (? & ? & ?). done.
  - rewrite (bind_Some _ _ _ (current_pml4_phys v) (c, (v1, s))) by (unfold current_root, gets; cbn; by rewrite <- Ec).
    destruct (r =? current_pml4_phys v) eqn:Er; bool_to_prop.
    + exists (flush va v1). unfold vmm_invlpg. pose proof Hp as (_ & Hm & _). rewrite Hc, low12, Hm. destruct Hf as (? & ? & ?). done.
    + exists v1. split; [done|]. split; [done|]. split; [done|]. intros [?|?]; [lia|done].
Qed.

(** The space after the leaf of [va] was cleared and its frame given back. *)
Lemma unmapped_space (c : cpu) v v2 s s1 roots r va t x fl : spaces_ok v s roots -> r ∈ roots -> user_page va -> lookup_va (words v) r va = Some (x, fl) ->
  tbl (words v) 0 r [index4 va; index3 va; index2 va] = Some t -> words v2 = set_entry t (index1 va) 0 (words v) -> same_rest v v2 ->
  pa_ok false s1 -> (forall a, ~ (Z.testbit fl 9 = true /\ a = x) -> busy s a = true -> busy s1 a = true) ->
  spaces_ok v2 s1 roots /\ only_page v v2 roots r va /\ lookup_va (words v2) r va = None.
Proof.
  intros Hok Hr Hp Hl T Ew2 Hrest Hok1 HB1. pose proof (so_wf _ _ _ Hok r (in_roots v _ _ Hr)) as Hwf.
  destruct (leaf_step r va c v s t 0 (conj (fa_ok_any _ true s (so_frames _ _ _ Hok)) Hwf) T ltac:(unfold is_u64; lia)) as (_ & [_ Gw] & [V1 V2] & K1 & R1 & O1 & U1 & _).
  set (w := if r =? current_pml4_phys v then _ else _) in *.
  assert (Ew : words v2 = words w) by (rewrite Ew2; unfold w; by destruct (r =? current_pml4_phys v)). clear Ew2.
  pose proof Hrest as (Rk & Rc & Rl & Rd). set (X := fun a => Z.testbit fl 9 = true /\ a = x).
  assert (HXtab : forall r' a, r' ∈ all_roots v roots -> is_table (words v) r' a -> ~ X a).
  { intros r' a Hr' Ht' [F9 ->]. destruct (so_owned _ _ _ Hok r va x Hr ltac:(split; [done|by exists fl])) as (_ & _ & Hn). by apply (Hn r'). }
  assert (HXown : forall r' va' y, r' ∈ roots -> owns (words v) r' va' y -> X y -> r' = r /\ va' = va).
  { intros r' va' y Hr' Ho [F9 ->]. apply (so_once _ _ _ Hok r' r va' va x Hr' Hr Ho). split; [done|by exists fl]. }
  assert (Hg : forall a, a mod 4096 = 0 -> busy s a = true -> ~ is_table (words v) r a -> ~ X a ->
    busy s1 a = true /\ ~ is_table (words v2) r a /\ forall y, in_page a y -> words v2 y = words v y).
  { intros a Ha Hb Ht' HX. destruct (K1 a Ha (conj Hb Ht')) as [[_ Ht1] Hcn]. rewrite Ew. split; [by apply HB1|done]. }
  assert (Hwf2 : tables_wf (words v2) (busy s1) r).
  { rewrite Ew. apply (wf_busy _ (busy s)); [done|]. intros a (q & Hq & Ha) Hb. apply HB1; [|done]. apply (HXtab r a (in_roots v _ _ Hr)).
    unfold X. destruct (decide (is_table (words v) r a)) as [?|Hn]; [done|]. exfalso. destruct (w_tbl _ _ _ Gw q a Hq Ha) as [[_ Ham] _].
    destruct (K1 a Ham (conj Hb Hn)) as [[_ Hn1] _]. apply Hn1. by exists q. }
  assert (Hoff : off_path_kept r va v v2) by (unfold off_path_kept in *; by rewrite Ew).
  assert (Hhuge : no_new_huge r v v2) by (unfold no_new_huge in *; by rewrite Ew).
  assert (Hview : forall va', user_page va' -> va' <> va -> lookup_va (words v2) r va' = lookup_va (words v) r va').
  { intros va' Hp' Hne. rewrite Ew. apply V2; auto with rix. by apply user_pages_apart. }
  assert (Hgone : lookup_va (words v2) r va = None) by (rewrite Ew; exact V1).
  assert (Hnew : forall y f, lookup_va (words v2) r va = Some (y, f) -> Z.testbit f 7 = false /\ (Z.testbit f 9 = true -> ~ X y /\ may_own v s roots r va y)) by (rewrite Hgone; done).
  assert (Hvok : vmm_ok r v2 s1). { split; [rewrite Rd; apply Hok|]. split; [done|]. split; [rewrite Rl; apply Hok|done]. }
  split; [|split; [|done]].
  - exact (spaces_step v v2 s s1 roots r va X Hok Hr Hp Hrest Hvok Hg Hoff Hhuge Hview Hnew HXtab HXown).
  - split; [done| |done|].
    + intros r' va' Hr' Hne.
      destruct (step_other v v2 s s1 roots r va X Hok Hr Hp Hrest Hvok Hg Hoff Hhuge Hview Hnew HXtab HXown r' Hr' Hne) as (_ & _ & _ & Hlk & _). apply Hlk; auto with rix.
    + intros r' va' y Hr' Ho z Hz. rewrite Ew. destruct (so_owned _ _ _ Hok r' va' y Hr' Ho) as ([_ Hym] & Hb & Hn).
      by apply (K1 y Hym (conj Hb (Hn r (in_roots v _ _ Hr)))).
Qed.

Lemma space_unmap_run c v s roots r va :
  pa_cpu (P := P) c -> spaces_ok v s roots -> r ∈ roots -> is_u64 va ->
  exists rc v' s', address_space_unmap r va (c, (v, s)) = Some (rc, (c, (v', s'))) /\ spaces_ok v' s' roots /\ only_page v v' roots r va /\
    (rc = 0 /\ user_page va /\ lookup_va (words v) r va <> None /\ lookup_va (words v') r va = None /\
       (1 < smp_online_count (P := P) \/ r = current_pml4_phys v -> tlb v' = va :: tlb v) \/
     rc = -1 /\ v' = v /\ s' = s /\ (user_page va -> lookup_va (words v) r va = None)).
Proof.
  intros Hcpu Hok Hr Hva. unfold address_space_unmap.
  assert (Hstay : (user_page va -> lookup_va (words v) r va = None) ->
    exists rc v' s', (mret (-1) : M st Z) (c, (v, s)) = Some (rc, (c, (v', s'))) /\ spaces_ok v' s' roots /\ only_page v v' roots r va /\
    (rc = 0 /\ user_page va /\ lookup_va (words v) r va <> None /\ lookup_va (words v') r va = None /\
       (1 < smp_online_count (P := P) \/ r = current_pml4_phys v -> tlb v' = va :: tlb v) \/
     rc = -1 /\ v' = v /\ s' = s /\ (user_page va -> lookup_va (words v) r va = None))).
  { intros Hno. exists (-1), v, s. split; [done|]. split; [done|]. split; [apply only_page_refl|]. by right. }
  pose proof (so_wf _ _ _ Hok r (in_roots v _ _ Hr)) as Hwf. pose proof (so_small _ _ _ Hok r Hr) as Hsm.
  destruct (w_tbl _ _ _ Hwf [] r path1_nil eq_refl) as [Hrt _]. pose proof Hrt as [[Hr0 _] _]. rewrite (proj2 (Z.eqb_neq r 0)) by lia. cbn [orb].
  destruct (negb (user_va va) || negb (user_pml4_ok va)) eqn:Eg.
  { apply Hstay. intros Hp. destruct (user_page_args va Hp) as (E1 & E2 & _). by rewrite E1, E2 in Eg. }
  bool_to_prop. assert (Hp : user_page va) by (by apply user_guard). destruct (user_page_args va Hp) as (_ & _ & _ & Hc).
  rewrite (bind_Some _ _ _ (address_space_query_flags (words v) r va) (c, (v, s))) by done.
  pose proof (space_query _ _ r va Hwf Hsm Hp) as Hq.
  destruct (has (address_space_query_flags (words v) r va) RIXURI_PTE_PRESENT) eqn:Epr; cbn [negb]; [|by apply Hstay].
  destruct Hq as (x & fl & Hl & Ht & Hqf). rewrite (bind_Some _ _ _ x (c, (v, s))) by (unfold reads, gets; by rewrite Ht).
  destruct (mapped_table v s roots r va x fl Hok Hr Hp Hl) as [t T]. pose proof (tbl3_entries _ _ _ _ _ _ T) as (P4 & P3 & P2 & H2 & Et & T3 & T2).
  cbv zeta in P4, P3, P2, H2, Et, T3, T2. rewrite ptr_id by done. set (e4 := entry (words v) r (index4 va)) in *.
  rewrite (bind_Some _ _ _ e4 (c, (v, s))) by done. fold (present e4). rewrite P4. cbn [negb]. fold (entry_table e4).
  rewrite ptr_id by (by apply (w_tbl _ _ _ Hwf [index4 va] _ (path1 _ (index4_ok va)))). set (e3 := entry (words v) (entry_table e4) (index3 va)) in *.
  rewrite (bind_Some _ _ _ e3 (c, (v, s))) by done. fold (present e3). rewrite P3. cbn [negb]. fold (entry_table e3).
  rewrite ptr_id by (by apply (w_tbl _ _ _ Hwf [index4 va; index3 va] _ (path2 _ _ (index4_ok va) (index3_ok va)))). set (e2 := entry (words v) (entry_table e3) (index2 va)) in *.
  rewrite (bind_Some _ _ _ e2 (c, (v, s))) by done. fold (present e2). fold (huge e2). rewrite P2, H2. cbn [negb orb]. fold (entry_table e2). rewrite <- Et.
  rewrite ptr_id by (by apply (w_tbl _ _ _ Hwf [index4 va; index3 va; index2 va] _ (path3 _ _ _ (index4_ok va) (index3_ok va) (index2_ok va)))).
  set (v1 := set_words (set_entry t (index1 va) 0 (words v)) v). rewrite (bind_Some _ _ _ tt (c, (v1, s))) by done.
  destruct (free_owned c v1 v s roots r va x fl Hcpu Hok Hr Hp Hl Hqf) as (s1 & Ef & Hok1 & HB1). rewrite (bind_Some _ _ _ tt (c, (v1, s1))) by exact Ef.
  destruct (shootdown_run c v v1 s1 r va Hp eq_refl eq_refl) as (v2 & Eb & Ew2 & Hrest & Htlb); [done|]. rewrite (bind_Some _ _ _ tt (c, (v2, s1))) by exact Eb.
  destruct (unmapped_space c v v2 s s1 roots r va t x fl Hok Hr Hp Hl T Ew2 Hrest Hok1 HB1) as (Hok2 & Hop & Hgone).
  exists 0, v2, s1. split; [done|]. split; [done|]. split; [done|]. left. split; [done|]. split; [done|]. split; [by rewrite Hl|]. by split.
Qed.

(** *** Creation *)

Lemma spaces_mono v s s' roots : spaces_ok v s roots -> pa_ok false s' -> (forall a, busy s a = true -> busy s' a = true) -> spaces_ok v s' roots.
Proof.
  intros Hok Hf HB. split; try apply Hok; [done|..].
  - intros r Hr. apply (wf_mono _ (busy s)); [by apply (so_wf _ _ _ Hok)|done].
  - intros r va x Hr Ho. destruct (so_owned _ _ _ Hok r va x Hr Ho) as (H1 & H2 & H3). auto.
Qed.

(** Only a page nobody had was written, and [f] became a root with the kernel's slots. *)
Section Created.
Context (v v' : vmm_t) (s s' : P) (roots : list Z) (f : Z).
Context (Hok : spaces_ok v s roots) (Hf : table_ok f) (Hfree : busy s f = false) (Hbusy : busy s' f = true).
Context (Hrest : same_rest v v') (Hfr : pa_ok false s') (HB : forall a, busy s a = true -> busy s' a = true).
Context (Hsame : forall x, ~ in_page f x -> words v' x = words v x) (Hu : forall x, is_u64 (words v' x)).
Context (Hslots : forall j, index_ok j -> entry (words v') f j = borrowed_entry j (entry (words v) (kernel_pml4_phys v) j)).

Let K := kernel_pml4_phys v.
Let HK : K ∈ all_roots v roots := proj2 (elem_of_cons roots K K) (or_introl eq_refl).
Let HwK : tables_wf (words v) (busy s) K := so_wf _ _ _ Hok K HK.
Let Hfm : f mod 4096 = 0 := proj2 Hf.

Lemma created_roots : all_roots v' (f :: roots) ≡ₚ f :: all_roots v roots.
Proof using Hrest. unfold all_roots. destruct Hrest as (-> & _). apply Permutation_swap. Qed.

Lemma created_elem r : r ∈ all_roots v' (f :: roots) -> r = f \/ r ∈ all_roots v roots.
Proof using Hrest. rewrite created_roots. by rewrite elem_of_cons. Qed.

Lemma created_fresh r : r ∈ all_roots v roots -> ~ is_table (words v) r f.
Proof using Hok Hfree. intros Hr. apply (no_table_fresh _ (busy s)); [by apply (so_wf _ _ _ Hok)|done]. Qed.

Lemma created_tbl r q : r ∈ all_roots v roots -> path_ok q -> tbl (words v') 0 r q = tbl (words v) 0 r q.
Proof using All. intros Hr. exact (fresh_tbl _ _ _ _ f r (so_wf _ _ _ Hok r Hr) Hfm Hfree Hsame Hu HB q). Qed.

Lemma created_lookup r va : r ∈ all_roots v roots -> lookup_va (words v') r va = lookup_va (words v) r va.
Proof using All. intros Hr. apply (fresh_lookup _ _ _ _ f r (so_wf _ _ _ Hok r Hr) Hfm Hfree Hsame Hu HB); auto with rix. Qed.

Lemma created_new va : lookup_va (words v') f va = if kernel_shared_pml4 (index4 va) then lookup_va (words v) K va else None.
Proof using All. apply (new_lookup _ _ _ _ f K HwK Hfm Hfree Hsame Hu HB Hf Hbusy Hslots); auto with rix. Qed.

Lemma created_user va : user_page va -> lookup_va (words v') f va = None.
Proof using All.
  intros (_ & _ & Hs). rewrite created_new. pose proof (slot_shared _ (index4_ok va)) as Hsh. destruct (kernel_shared_pml4 (index4 va)); [|done].
  exfalso. by apply Hsh.
Qed.

Lemma created_apart r : r ∈ all_roots v roots -> apart (words v') f r.
Proof using All.
  intros Hr p q a Hp Hq Hpa Hqa. rewrite created_tbl in Hqa by done.
  destruct (new_table _ _ _ _ f K HwK Hfm Hfree Hsame Hu HB Hf Hbusy Hslots p a Hp Hpa) as [[-> ->]|[Hbp Hpk]].
  - exfalso. apply (created_fresh r Hr). by exists q.
  - split; [done|]. destruct (decide (r = K)) as [->|Hne].
    + by rewrite (w_inj _ _ _ HwK q p a Hq Hp Hqa Hpk).
    + by apply (so_apart _ _ _ Hok K r HK Hr (not_eq_sym Hne) p q a).
Qed.

Lemma created_owns r va x : r ∈ f :: roots -> owns (words v') r va x -> r ∈ roots /\ owns (words v) r va x.
Proof using All.
  intros Hr (Hp & fl & Hl & H9). apply elem_of_cons in Hr as [->|Hr]; [by rewrite created_user in Hl|]. split; [done|]. split; [done|]. exists fl.
  by rewrite created_lookup in Hl by (by apply in_roots).
Qed.

Lemma created_ok : spaces_ok v' s' (f :: roots).
Proof using All.
  pose proof Hrest as (Rk & Rc & Rl & Rd). split.
  - rewrite Rd. apply Hok.
  - done.
  - rewrite Rl. apply Hok.
  - rewrite created_roots. apply list.NoDup_cons. split; [|apply Hok]. intros Hin. apply (created_fresh f Hin). exists []. split; [apply path1_nil|done].
  - intros r Hr. apply created_elem in Hr as [->|Hr]; [exact (new_wf _ _ _ _ f K HwK Hfm Hfree Hsame Hu HB Hf Hbusy Hslots)|].
    exact (fresh_wf _ _ _ _ f r (so_wf _ _ _ Hok r Hr) Hfm Hfree Hsame Hu HB).
  - intros r r' Hr Hr' Hne. apply created_elem in Hr as [->|Hr], Hr' as [->|Hr']; [done|by apply created_apart|by apply roots_apart_sym, created_apart|].
    intros p q a Hp Hq. rewrite !created_tbl by done. by apply (so_apart _ _ _ Hok r r' Hr Hr' Hne).
  - intros r Hr va Hp. apply elem_of_cons in Hr as [->|Hr].
    + split; [|by rewrite created_user]. intros (t & Ht & _). rewrite (new_tbl _ _ _ _ f K HwK Hfm Hfree Hsame Hu HB Hf Hbusy Hslots) in Ht by auto with rix.
      destruct (kernel_shared_pml4 (index4 va)) eqn:E; [|done]. apply slot_shared in E; [|auto with rix]. by apply E, Hp.
    + destruct (so_small _ _ _ Hok r Hr va Hp) as [Hh H7]. pose proof (in_roots v _ _ Hr) as Hra. split; [|by rewrite created_lookup].
      intros H. apply Hh, (fresh_huge _ _ _ _ f r (so_wf _ _ _ Hok r Hra) Hfm Hfree Hsame Hu HB); auto with rix.
  - intros r va x Hr Ho. destruct (created_owns r va x Hr Ho) as [Hr0 Ho0]. destruct (so_owned _ _ _ Hok r va x Hr0 Ho0) as (H1 & H2 & H3).
    split; [done|]. split; [auto|]. intros r' Hr' (q & Hq & Ht). apply created_elem in Hr' as [->|Hr'].
    + destruct (new_table _ _ _ _ f K HwK Hfm Hfree Hsame Hu HB Hf Hbusy Hslots q x Hq Ht) as [[_ ->]|[_ Hk]]; [congruence|]. apply (H3 K HK). by exists q.
    + rewrite created_tbl in Ht by done. apply (H3 r' Hr'). by exists q.
  - intros r r' va va' x Hr Hr' Ho Ho'. destruct (created_owns r va x Hr Ho) as [? ?], (created_owns r' va' x Hr' Ho') as [? ?].
    by apply (so_once _ _ _ Hok r r' va va' x).
  - intros r i Hr Hi Hsh Hpr. rewrite Rk. fold K.
    assert (EK : entry (words v') K i = entry (words v) K i) by exact (fresh_entry _ _ _ _ f K HwK Hfm Hfree Hsame Hu HB [] K i path1_nil eq_refl Hi).
    rewrite EK. apply elem_of_cons in Hr as [->|Hr]; [by apply Hslots|]. pose proof (so_wf _ _ _ Hok r (in_roots v _ _ Hr)) as Hwr.
    rewrite (fresh_entry _ _ _ _ f r Hwr Hfm Hfree Hsame Hu HB [] r i path1_nil eq_refl Hi) in *. by apply (so_synced _ _ _ Hok).
Qed.
End Created.

Lemma space_create_run c v s roots : pa_cpu (P := P) c -> spaces_ok v s roots ->
  exists rc r v' s', address_space_create (c, (v, s)) = Some ((rc, r), (c, (v', s'))) /\ same_rest v v' /\
    (forall a x, a mod 4096 = 0 -> busy s a = true -> in_page a x -> words v' x = words v x) /\
    (forall r' va, r' ∈ all_roots v roots -> lookup_va (words v') r' va = lookup_va (words v) r' va) /\
    (rc = 0 /\ spaces_ok v' s' (r :: roots) /\ busy s r = false /\
       (forall va, lookup_va (words v') r va = if kernel_shared_pml4 (index4 va) then lookup_va (words v) (kernel_pml4_phys v) va else None) \/
     rc = -2 /\ r = 0 /\ v' = v /\ spaces_ok v' s' roots).
Proof.
  intros Hcpu Hok. set (K := kernel_pml4_phys v). assert (HK : K ∈ all_roots v roots) by (apply elem_of_cons; by left).
  pose proof (so_wf _ _ _ Hok K HK) as HwK. destruct (w_tbl _ _ _ HwK [] K path1_nil eq_refl) as [HKt _].
  destruct (alloc_frame c Hcpu s (fa_ok_any _ _ s (so_frames _ _ _ Hok))) as (f & s' & E & Hok1 & HB & Hf). apply (fa_ok_any _ false) in Hok1.
  unfold address_space_create. rewrite (bind_Some _ _ _ f (c, (v, s'))) by (unfold on_frames; by rewrite E).
  destruct (f =? 0) eqn:E0; bool_to_prop.
  { exists (-2), 0, v, s'. split; [done|]. split; [done|]. split; [done|]. split; [done|]. right. split; [done|]. split; [done|]. split; [done|]. by eapply spaces_mono. }
  destruct Hf as [?|(Hf & Hfr & Hfb)]; [done|]. rewrite (ptr_id f Hf), (proj2 (Z.eqb_neq f 0) E0).
  assert (Hne : f <> K) by (intros ->; destruct (w_tbl _ _ _ HwK [] K path1_nil eq_refl); congruence).
  set (m1 := write_table f (fun _ => 0) (words v)). set (v1 := set_words m1 v).
  rewrite (bind_Some _ _ _ tt (c, (v1, s'))) by done. rewrite (bind_Some _ _ _ K (c, (v1, s'))) by done.
  pose proof HKt as [[HK0 _] HKm]. rewrite (proj2 (Z.eqb_neq K 0)) by lia. rewrite (ptr_id K HKt), (proj2 (Z.eqb_neq K 0)) by lia.
  assert (Ek : forall j, index_ok j -> entry m1 K j = entry (words v) K j) .
  { intros j Hj. unfold entry, m1. rewrite write_table_out; [reflexivity|]. apply entry_in_page; [exact HKm|apply Hf|by apply not_eq_sym|exact Hj]. }
  destruct (borrow_run K f m1) as (m2 & Eb & S2 & U2 & L2); [apply Hf|done|done|..].
  { apply write_table_u64; [intros; unfold is_u64; lia|apply (w_u64 _ _ _ HwK)]. }
  { intros j Hj. rewrite Ek by done. intros Hp H0. destruct (w_tbl _ _ _ HwK [j] 0 (path1 j Hj)) as [[H _] _]; [|lia]. cbn [tbl]. unfold next. by rewrite Hp, H0. }
  { intros j Hj. by apply write_table_in. }
  set (v2 := set_words m2 v1). rewrite (bind_Some _ _ _ false (c, (v2, s'))) by (unfold on_words, act; cbn [words v1 set_words]; by rewrite Eb).
  assert (Hsame : forall x, ~ in_page f x -> m2 x = words v x) by (intros x Hx; rewrite S2 by done; by apply write_table_out).
  assert (Hslots : forall j, index_ok j -> entry m2 f j = borrowed_entry j (entry (words v) K j)) by (intros j Hj; rewrite L2, Ek by done; done).
  pose proof (created_lookup v v2 s s' roots f Hok Hf Hfr Hfb ltac:(done) Hok1 HB Hsame U2 Hslots) as Hlk.
  exists 0, f, v2, s'. split; [done|]. split; [done|]. split; [|split; [by intros r' va; apply Hlk|]].
  - intros a x Ha Hb Hx. apply Hsame. intros Hx'. assert (a = f); [|congruence]. unfold in_page in *. destruct Hf as [_ Hfm].
    pose proof (Z.div_mod a 4096 ltac:(lia)). pose proof (Z.div_mod f 4096 ltac:(lia)). lia.
  - left. split; [done|]. split; [exact (created_ok v v2 s s' roots f Hok Hf Hfr Hfb ltac:(done) Hok1 HB Hsame U2 Hslots)|]. split; [done|].
    exact (created_new v v2 s s' roots f Hok Hf Hfr Hfb ltac:(done) Hok1 HB Hsame U2 Hslots).
Qed.

(** *** Teardown *)
Section Destroy.
Context (v : vmm_t) (s : P) (r : Z) (rest : list Z) (c : cpu).
Context (Hok : spaces_ok v s (r :: rest)) (Hcpu : pa_cpu (P := P) c).

Let Hr : r ∈ r :: rest := proj2 (elem_of_cons rest r r) (or_introl eq_refl).
Let Hra : r ∈ all_roots v (r :: rest) := in_roots v _ r Hr.
Let Hwf : tables_wf (words v) (busy s) r := so_wf _ _ _ Hok r Hra.

(** The frames that belong to [r]: its root, the tables of its private slots, its pages. *)
Definition private (a : Z) : Prop :=
  (exists q, path_ok q /\ tbl (words v) 0 r q = Some a /\ ~ borrowed q) \/ (exists va, owns (words v) r va a).

(** Memory is as it was; only private frames have gone back. *)
Definition torn (st0 : st) : Prop := exists s1, st0 = (c, (v, s1)) /\ pa_ok true s1 /\ forall a, busy s a = true -> ~ private a -> busy s1 a = true.

Lemma torn_free a st0 : private a -> torn st0 -> exists st1, pmm_free a st0 = Some (tt, st1) /\ torn st1.
Proof using All.
  intros Ha (s1 & -> & Hok1 & HB). assert (0 <= a).
  { destruct Ha as [(q & Hq & Ht & _)|(va & Ho)]; [destruct (w_tbl _ _ _ Hwf q a Hq Ht) as [[? _] _]; lia|].
    destruct (so_owned _ _ _ Hok r va a Hr Ho) as ([? _] & _). lia. }
  destruct (pa_free_law c s1 a Hcpu Hok1 ltac:(done)) as (s2 & E & Hok2 & HB2). exists (c, (v, s2)). unfold pmm_free, on_frames. rewrite E.
  split; [done|]. exists s2. split; [done|]. split; [done|]. intros b Hb Hn. apply HB2; [by intros ->|auto].
Qed.

(** A loop over a table that frees private frames, then the table. *)
Lemma torn_loop t (body : Z -> M st unit) st0 : private t -> torn st0 ->
  (forall i st1, index_ok i -> torn st1 -> exists st2, body i st1 = Some (tt, st2) /\ torn st2) ->
  exists st1, (_ ← mfor 512 0 body; pmm_free t) st0 = Some (tt, st1) /\ torn st1.
Proof using All.
  intros Ht H0 Hb. destruct (mfor_run (fun _ => torn) 512 0 body st0 H0) as (st1 & E & H1).
  { intros i st1 Hi. apply Hb. unfold index_ok. lia. }
  rewrite (bind_Some _ _ _ tt st1) by done. by apply torn_free.
Qed.

Lemma torn_read t i st1 : torn st1 -> rd t i st1 = Some (entry (words v) t i, st1).
Proof using All. by intros (s1 & -> & _). Qed.

Lemma private_path q a : path_ok q -> tbl (words v) 0 r q = Some a -> ~ borrowed q -> private a.
Proof using All. intros Hq Ha Hb. left. by exists q. Qed.

Lemma not_borrowed i p : index_ok i -> user_slot i -> ~ borrowed (i :: p).
Proof using All. intros Hi Hs (j & p' & [= <- <-] & Hj). by apply slot_shared in Hj. Qed.

Context (i4 : Z) (Hi4 : index_ok i4) (Hs : user_slot i4).

Lemma free_pt_run i3 i2 t st0 : index_ok i3 -> index_ok i2 -> tbl (words v) 0 r [i4; i3; i2] = Some t -> torn st0 ->
  exists st1, free_user_pt t st0 = Some (tt, st1) /\ torn st1.
Proof using All.
  intros H3 H2 T H0. destruct (w_tbl _ _ _ Hwf _ t (path3 _ _ _ Hi4 H3 H2) T) as [Ht _]. pose proof Ht as [[Ht0 _] _].
  unfold free_user_pt. rewrite (ptr_id t Ht), (proj2 (Z.eqb_neq t 0)) by lia.
  apply torn_loop; [by apply (private_path [i4; i3; i2]); [auto with rix|done|apply not_borrowed]|done|].
  intros i1 st1 H1 Hst. rewrite (bind_Some _ _ _ _ _ (torn_read t i1 st1 Hst)). set (e := entry (words v) t i1).
  fold (present e). destruct (present e) eqn:Ep; cbn [andb]; [|by exists st1]. destruct (has e RIXURI_PTE_OWNED) eqn:Eo; [|by exists st1].
  apply torn_free; [|done]. right. exists (va_of i4 i3 i2 i1). split; [by apply va_of_user|].
  destruct (va_of_indices i4 i3 i2 i1 Hi4 H3 H2 H1) as (E4 & E3 & E2 & E1). cbv zeta in E4, E3, E2, E1.
  exists (Z.land e VIEW). unfold lookup_va, lookup, leaf. rewrite E4, E3, E2, E1, T. fold e. unfold seen_leaf. rewrite Ep. split; [done|].
  rewrite Z.land_spec. apply andb_true_iff. split; [|done]. rewrite <- Eo. symmetry. exact (land_bit_test e 9 ltac:(lia)).
Qed.

(** [free_user_pd] and [free_user_pdpt] on a table of a private slot. *)
Lemma free_level_run p t (below : Z -> M st unit) st0 : path_ok (i4 :: p) -> (length p <= 1)%nat -> tbl (words v) 0 r (i4 :: p) = Some t -> torn st0 ->
  (forall i a st1, index_ok i -> tbl (words v) 0 r ((i4 :: p) ++ [i]) = Some a -> torn st1 -> exists st2, below a st1 = Some (tt, st2) /\ torn st2) ->
  exists st1, free_user_level below t st0 = Some (tt, st1) /\ torn st1.
Proof using All.
  intros Hp Hl T H0 Hb. destruct (w_tbl _ _ _ Hwf _ t Hp T) as [Ht _]. pose proof Ht as [[Ht0 _] _].
  unfold free_user_level. rewrite (ptr_id t Ht), (proj2 (Z.eqb_neq t 0)) by lia.
  apply torn_loop; [by apply (private_path (i4 :: p)); [done|done|apply not_borrowed]|done|].
  intros i st1 Hi Hst. rewrite (bind_Some _ _ _ _ _ (torn_read t i st1 Hst)). set (e := entry (words v) t i).
  fold (present e). fold (huge e). fold (entry_table e). destruct (present e) eqn:Ep; cbn [negb]; [|by exists st1].
  destruct (huge e) eqn:Eh; [by exists st1|]. apply (Hb i); [done| |done].
  rewrite tbl_snoc, T. fold e. unfold next. by rewrite Ep, Eh, andb_false_r.
Qed.

Lemma free_pdpt_run t st0 : tbl (words v) 0 r [i4] = Some t -> torn st0 -> exists st1, free_user_pdpt t st0 = Some (tt, st1) /\ torn st1.
Proof using All.
  intros T H0. apply (free_level_run [] t); [auto with rix|cbn; lia|done|done|]. intros i3 a st1 H3 Ta Hst. cbn [app] in Ta.
  apply (free_level_run [i3] a); [auto with rix|cbn; lia|done|done|]. intros i2 b st2 H2 Tb Hst2. cbn [app] in Tb. by apply (free_pt_run i3 i2).
Qed.
End Destroy.

Lemma borrowed_not_user i e : has (borrowed_entry i e) RIXURI_PTE_USER = false.
Proof. unfold borrowed_entry, has. case_if; [|done]. by rewrite <- Z.land_assoc, Z.land_0_r. Qed.

(** The frames of [r] are nobody else's. *)
Lemma private_others v s r rest a : spaces_ok v s (r :: rest) -> private v r a ->
  forall r', r' ∈ all_roots v rest -> ~ is_table (words v) r' a /\ forall va, r' ∈ rest -> ~ owns (words v) r' va a.
Proof.
  intros Hok Ha r' Hr'. pose proof (so_nodup _ _ _ Hok) as Hnd. assert (Hr : r ∈ r :: rest) by (apply elem_of_cons; by left).
  assert (Hin : r' ∈ all_roots v (r :: rest)) by (unfold all_roots in *; set_solver).
  assert (Hne : r <> r').
  { intros <-. unfold all_roots in *. apply list.NoDup_cons in Hnd as [H1 H2]. apply list.NoDup_cons in H2 as [H2 _]. apply elem_of_cons in Hr' as [->|]; [|done]. by apply H1. }
  destruct Ha as [(q & Hq & Ht & Hb)|(va & Ho)].
  - split.
    + intros (q' & Hq' & Ht'). apply Hb. by apply (so_apart _ _ _ Hok r r' (in_roots v _ _ Hr) Hin Hne q q' a).
    + intros va Hr0 Ho. destruct (so_owned _ _ _ Hok r' va a ltac:(apply elem_of_cons; by right) Ho) as (_ & _ & Hn).
      apply (Hn r (in_roots v _ _ Hr)). by exists q.
  - destruct (so_owned _ _ _ Hok r va a Hr Ho) as (_ & _ & Hn). split; [by apply Hn|]. intros va' Hr0 Ho'. apply Hne.
    by apply (so_once _ _ _ Hok r r' va va' a Hr ltac:(apply elem_of_cons; by right) Ho Ho').
Qed.

Lemma torn_spaces v s s1 r rest : spaces_ok v s (r :: rest) -> pa_ok true s1 -> (forall a, busy s a = true -> ~ private v r a -> busy s1 a = true) ->
  spaces_ok v s1 rest.
Proof.
  intros Hok Hok1 HB.
  assert (Hsub : forall r', r' ∈ all_roots v rest -> r' ∈ all_roots v (r :: rest)) by (unfold all_roots; set_solver).
  assert (Hsub2 : forall r', r' ∈ rest -> r' ∈ r :: rest) by set_solver.
  split; try apply Hok.
  - by eapply fa_ok_any.
  - pose proof (so_nodup _ _ _ Hok) as Hnd. unfold all_roots in *. apply list.NoDup_cons in Hnd as [H1 H2]. apply list.NoDup_cons in H2 as [_ H2].
    apply list.NoDup_cons. split; [set_solver|done].
  - intros r' Hr'. apply (wf_busy _ (busy s)); [by apply (so_wf _ _ _ Hok), Hsub|]. intros a Ht Hb. apply HB; [done|]. intros Hp.
    by destruct (private_others v s r rest a Hok Hp r' Hr').
  - intros r1 r2 H1 H2. apply (so_apart _ _ _ Hok); auto.
  - intros r' Hr'. apply (so_small _ _ _ Hok); auto.
  - intros r' va x Hr' Ho. destruct (so_owned _ _ _ Hok r' va x (Hsub2 _ Hr') Ho) as (H1 & H2 & H3). split; [done|]. split; [|auto].
    apply HB; [done|]. intros Hp. destruct (private_others v s r rest x Hok Hp r' (in_roots v _ _ Hr')) as [_ Hn]. by apply (Hn va).
  - intros r1 r2 va va' x H1 H2. apply (so_once _ _ _ Hok); auto.
  - intros r' i Hr'. apply (so_synced _ _ _ Hok); auto.
Qed.

Lemma space_destroy_run c v s r rest : pa_cpu (P := P) c -> spaces_ok v s (r :: rest) ->
  exists s1, address_space_destroy r (c, (v, s)) = Some (0, (c, (v, s1))) /\ spaces_ok v s1 rest /\
    forall a, busy s a = true -> ~ private v r a -> busy s1 a = true.
Proof.
  intros Hcpu Hok. assert (Hr : r ∈ r :: rest) by (apply elem_of_cons; by left). pose proof (so_wf _ _ _ Hok r (in_roots v _ _ Hr)) as Hwf.
  destruct (w_tbl _ _ _ Hwf [] r path1_nil eq_refl) as [Hrt _]. pose proof Hrt as [[Hr0 _] _]. set (K := kernel_pml4_phys v).
  destruct (w_tbl _ _ _ (so_wf _ _ _ Hok K ltac:(apply elem_of_cons; by left)) [] K path1_nil eq_refl) as [HKt _]. pose proof HKt as [[HK0 _] _].
  unfold address_space_destroy, destroy_user_tables. rewrite (proj2 (Z.eqb_neq r 0)) by lia.
  rewrite (bind_Some _ _ _ K (c, (v, s))) by done. rewrite (ptr_id r Hrt), (ptr_id K HKt), (proj2 (Z.eqb_neq r 0)) by lia.
  assert (H0 : torn v s r c (c, (v, s))).
  { exists s. split; [done|]. split; [eapply fa_ok_any, Hok|by intros a Hb _]. }
  match goal with |- context [mfor 512 0 ?b] => destruct (mfor_run (fun _ => torn v s r c) 512 0 b (c, (v, s)) H0) as (st1 & E1 & H1) end.
  { intros i st1 Hi Hst. assert (Hio : index_ok i) by (unfold index_ok; lia). rewrite (bind_Some _ _ _ _ _ (torn_read v s r rest c Hok Hcpu r i st1 Hst)).
    set (e := entry (words v) r i). fold (present e). destruct (present e) eqn:Ep; cbn [negb]; [|by exists st1].
    destruct (kernel_shared_pml4 i) eqn:Esh.
    - pose proof (so_synced _ _ _ Hok r i Hr Hio Esh Ep) as Ee. fold e K in Ee. rewrite Ee, borrowed_not_user.
      rewrite (bind_Some _ _ _ _ _ (torn_read v s r rest c Hok Hcpu K i st1 Hst)). exists st1. split; [|done].
      unfold borrowed_entry. rewrite Esh. cbn [andb]. fold (present (entry (words v) K i)). rewrite Z.eqb_refl, (proj2 (Z.eqb_neq K 0)) by lia. done.
    - assert (Hs : user_slot i).
      { pose proof (proj2 (slot_shared i Hio)) as H. unfold user_slot. unfold index_ok in Hio. destruct (decide (i = 1 \/ 4 <= i < 256)); [done|].
        rewrite H in Esh; [done|]. done. }
      assert (T : tbl (words v) 0 r [i] = Some (Z.land e PAGE_MASK)) by (cbn [tbl]; fold e; unfold next; by rewrite Ep).
      pose proof (free_pdpt_run v s r rest c Hok Hcpu i Hio Hs _ st1 T Hst) as Hfree. destruct (has e RIXURI_PTE_USER); [done|].
      rewrite (bind_Some _ _ _ _ _ (torn_read v s r rest c Hok Hcpu K i st1 Hst)). case_if; [by exists st1|done]. }
  rewrite (bind_Some _ _ _ tt st1) by exact E1.
  destruct (torn_free v s r rest c Hok Hcpu r st1) as (st2 & E2 & (s2 & -> & Hok2 & HB2)); [|done|].
  { left. exists []. split; [apply path1_nil|]. split; [done|]. by intros (? & ? & ? & _). }
  exists s2. rewrite (bind_Some _ _ _ tt (c, (v, s2))) by exact E2. split; [done|]. split; [|done]. by eapply torn_spaces.
Qed.

(** ** Isolation *)

Inductive space_op :=
  | OpMap (va pa flags : Z)
  | OpMapShared (va pa flags : Z)
  | OpUpdateFlags (va flags : Z)
  | OpUnmap (va : Z).

Definition run_op (r : Z) (op : space_op) : M st Z :=
  match op with
  | OpMap va pa flags => address_space_map r va pa flags
  | OpMapShared va pa flags => address_space_map_shared r va pa flags
  | OpUpdateFlags va flags => address_space_update_flags r va flags
  | OpUnmap va => address_space_unmap r va
  end.

Definition op_va (op : space_op) : Z :=
  match op with OpMap va _ _ | OpMapShared va _ _ | OpUpdateFlags va _ | OpUnmap va => va end.

(** 64-bit arguments; a frame handed over to a process is in use by nobody. *)
Definition op_ok (v : vmm_t) (s : P) (roots : list Z) (r : Z) (op : space_op) : Prop :=
  match op with
  | OpMap va pa flags => is_u64 va /\ is_u64 pa /\ is_u64 flags /\ may_own v s roots r va pa
  | OpMapShared va pa flags => is_u64 va /\ is_u64 pa /\ is_u64 flags
  | OpUpdateFlags va flags => is_u64 va /\ is_u64 flags
  | OpUnmap va => is_u64 va
  end.

(** What the operation did to its page. *)
Definition op_effect (v v' : vmm_t) (r : Z) (op : space_op) (rc : Z) : Prop :=
  match op with
  | OpMap va pa flags => rc = 0 -> user_page va /\ lookup_va (words v) r va = None /\ lookup_va (words v') r va = Some (pa, page_flags flags true)
  | OpMapShared va pa flags => rc = 0 -> user_page va /\ lookup_va (words v) r va = None /\ lookup_va (words v') r va = Some (pa, page_flags flags false)
  | OpUpdateFlags va flags =>
      if rc =? 0 then (exists x, owns (words v) r va x /\ lookup_va (words v') r va = Some (x, Z.land (Z.lor flags OWNED_PAGE) PAGE_QUERY)) /\ (r = current_pml4_phys v -> tlb v' = va :: tlb v)
      else forall x fl, user_page va -> lookup_va (words v) r va = Some (x, fl) -> Z.land fl OWNED_PAGE <> OWNED_PAGE
  | OpUnmap va =>
      if rc =? 0 then lookup_va (words v) r va <> None /\ lookup_va (words v') r va = None /\ (1 < smp_online_count (P := P) \/ r = current_pml4_phys v -> tlb v' = va :: tlb v)
      else user_page va -> lookup_va (words v) r va = None
  end.

Lemma run_op_run c v s roots r op : pa_cpu (P := P) c -> spaces_ok v s roots -> r ∈ roots -> op_ok v s roots r op ->
  exists rc v' s', run_op r op (c, (v, s)) = Some (rc, (c, (v', s'))) /\ (rc = 0 \/ rc = -1) /\ spaces_ok v' s' roots /\
    only_page v v' roots r (op_va op) /\ (rc = -1 -> lookup_va (words v') r (op_va op) = lookup_va (words v) r (op_va op)) /\ op_effect v v' r op rc.
Proof.
  intros Hcpu Hok Hr Hop. destruct op as [va pa flags|va pa flags|va flags|va]; cbn [op_ok run_op op_va op_effect] in *.
  - destruct Hop as (H1 & H2 & H3 & H4). destruct (space_map_run c v s roots r va pa flags true Hcpu Hok Hr H1 H2 H3 ltac:(done)) as (rc & v' & s' & E & Hok' & Ho & Hc).
    exists rc, v', s'. split; [exact E|]. destruct Hc as [(-> & Hp & _ & Hn & Hl)|[-> Hl]]; [split; [by left|]|split; [by right|]]; by repeat (split; [done|]).
  - destruct Hop as (H1 & H2 & H3). destruct (space_map_run c v s roots r va pa flags false Hcpu Hok Hr H1 H2 H3 ltac:(done)) as (rc & v' & s' & E & Hok' & Ho & Hc).
    exists rc, v', s'. split; [exact E|]. destruct Hc as [(-> & Hp & _ & Hn & Hl)|[-> Hl]]; [split; [by left|]|split; [by right|]]; by repeat (split; [done|]).
  - destruct Hop as (H1 & H2). destruct (space_update_run c v s roots r va flags Hcpu Hok Hr H1 H2) as (rc & v' & s' & E & Hok' & Ho & Hc).
    exists rc, v', s'. split; [exact E|]. destruct Hc as [(-> & Hl & Ht)|(-> & -> & -> & Hn)]; [split; [by left|]|split; [by right|]]; by repeat (split; [done|]).
  - destruct (space_unmap_run c v s roots r va Hcpu Hok Hr Hop) as (rc & v' & s' & E & Hok' & Ho & Hc).
    exists rc, v', s'. split; [exact E|]. destruct Hc as [(-> & Hp & Hl & Hn & Ht)|(-> & -> & -> & Hn)]; [split; [by left|]|split; [by right|]]; by repeat (split; [done|]).
Qed.

(** C3: address spaces are isolated. In a system of well-formed spaces one process maps a
    page into its own space, maps a shared page, changes flags or unmaps, with any
    64-bit arguments, except that a frame mapped as the process's own must be one the
    page allocator has handed out, that is no page table of any space and that no other page of
    any process owns. Every such call returns 0 or -1 and leaves the system well-formed; the
    kernel and every other process translate every canonical address as before with the
    flags it had; of the pages of the process itself (page-aligned addresses in the user
    range) only the one named may change, and not when the call fails; and the contents of
    every page a process owns, its own or another's, are as before. *)
Theorem address_space_isolation (c : cpu) (v : vmm_t) (s : P) (roots : list Z) (r : Z) (op : space_op)
    (Hcpu : pa_cpu (P := P) c) (Hok : spaces_ok v s roots) (Hr : r ∈ roots) (Hop : op_ok v s roots r op) :
  ∃ rc v' s', run_op r op (c, (v, s)) = Some (rc, (c, (v', s'))) ∧ (rc = 0 ∨ rc = -1) ∧ spaces_ok v' s' roots ∧
    (∀ r' va', r' ∈ all_roots v roots → r' ≠ r → is_u64 va' → canonical48 va' = true → reads_same (words v) (words v') r' va') ∧
    (∀ va', user_page va' → rc = -1 ∨ va' ≠ op_va op → reads_same (words v) (words v') r va') ∧
    (∀ r' va' x, r' ∈ roots → owns (words v) r' va' x → ∀ y, in_page x y → words v' y = words v y).
Proof.
  destruct (run_op_run c v s roots r op Hcpu Hok Hr Hop) as (rc & v' & s' & E & Hrc & Hok' & Ho & Hfail & _).
  exists rc, v', s'. split; [exact E|]. split; [done|]. split; [done|]. destruct Ho as [Hrest H1 H2 H3].
  assert (Hroots : all_roots v' roots = all_roots v roots) by (unfold all_roots; by destruct Hrest as (-> & _)). split; [|split].
  - intros r' va' Hr' Hne Hu Hc. apply (lookup_reads _ _ (busy s) (busy s')); try done; [by apply (so_wf _ _ _ Hok)|apply (so_wf _ _ _ Hok'); by rewrite Hroots|by apply H1].
  - intros va' Hp Hor. destruct (user_page_args va' Hp) as (_ & _ & Hu & Hc). pose proof (in_roots v _ _ Hr) as Hra.
    apply (lookup_reads _ _ (busy s) (busy s')); try done; [by apply (so_wf _ _ _ Hok)|apply (so_wf _ _ _ Hok'); by rewrite Hroots|].
    destruct (decide (va' = op_va op)) as [->|Hne]; [|by apply H2]. destruct Hor as [->|]; [by apply Hfail|done].
  - done.
Qed.

(** C19: each operation on an address space does its work. A page that was mapped
    was free before and a page of the process, and then has its frame and flags
    (present, user, and owned or not); changing flags works exactly on pages the
    process owns and keeps the frame; unmapping works exactly on mapped pages, after
    it the address no longer translates, and where the translation could be cached
    the TLB entry is flushed. *)
Theorem address_space_effects (c : cpu) (v : vmm_t) (s : P) (roots : list Z) (r : Z) (op : space_op)
    (Hcpu : pa_cpu (P := P) c) (Hok : spaces_ok v s roots) (Hr : r ∈ roots) (Hop : op_ok v s roots r op) :
  ∃ rc v' s', run_op r op (c, (v, s)) = Some (rc, (c, (v', s'))) ∧ op_effect v v' r op rc.
Proof.
  destruct (run_op_run c v s roots r op Hcpu Hok Hr Hop) as (rc & v' & s' & E & _ & _ & _ & _ & He). by exists rc, v', s'.
Qed.

(** A new address space sees the kernel and nothing else. When creation succeeds
    the new root is a frame that was free, it translates every address of the
    kernel's slots as the kernel does, no page of the process is mapped, the system
    with the new space is well-formed, and no existing space or page in use is
    touched; it fails only for want of a frame, with nothing changed. *)
Theorem address_space_create_correct (c : cpu) (v : vmm_t) (s : P) (roots : list Z)
    (Hcpu : pa_cpu (P := P) c) (Hok : spaces_ok v s roots) :
  ∃ rc r v' s', address_space_create (c, (v, s)) = Some ((rc, r), (c, (v', s'))) ∧
    (∀ r' va, r' ∈ all_roots v roots → lookup_va (words v') r' va = lookup_va (words v) r' va) ∧
    (∀ a x, a mod 4096 = 0 → busy s a = true → in_page a x → words v' x = words v x) ∧
    (rc = 0 ∧ spaces_ok v' s' (r :: roots) ∧ busy s r = false ∧
       (∀ va, kernel_shared_pml4 (index4 va) = true → lookup_va (words v') r va = lookup_va (words v) (kernel_pml4_phys v) va) ∧
       (∀ va, user_page va → lookup_va (words v') r va = None) ∨
     rc = -2 ∧ r = 0 ∧ v' = v ∧ spaces_ok v' s' roots).
Proof.
  destruct (space_create_run c v s roots Hcpu Hok) as (rc & r & v' & s' & E & _ & H1 & H2 & H3). exists rc, r, v', s'. split; [exact E|].
  split; [done|]. split; [done|]. destruct H3 as [(-> & Hok' & Hf & Hl)|H3]; [left|by right]. repeat (split; [done|]). split.
  - intros va Hva. by rewrite Hl, Hva.
  - intros va (_ & _ & Hs). rewrite Hl. destruct (kernel_shared_pml4 (index4 va)) eqn:E4; [|done]. by apply slot_shared in E4; [|auto with rix].
Qed.

(** C20: tearing an address space down takes nothing from anybody else. It always
    completes, writes no memory, and gives back only the process's root, the tables
    of its private slots and the pages it owns; the system without the space is
    well-formed, so every table and every page of the kernel and the other processes
    is still theirs. *)
Theorem address_space_destroy_safe (c : cpu) (v : vmm_t) (s : P) (r : Z) (rest : list Z)
    (Hcpu : pa_cpu (P := P) c) (Hok : spaces_ok v s (r :: rest)) :
  ∃ s', address_space_destroy r (c, (v, s)) = Some (0, (c, (v, s'))) ∧ spaces_ok v s' rest ∧
    (∀ a, busy s a = true → ¬ private v r a → busy s' a = true) ∧
    (∀ a r', private v r a → r' ∈ all_roots v rest → ¬ is_table (words v) r' a ∧ ∀ va, r' ∈ rest → ¬ owns (words v) r' va a).
Proof.
  destruct (space_destroy_run c v s r rest Hcpu Hok) as (s' & E & Hok' & HB). exists s'. split; [exact E|]. split; [done|]. split; [done|].
  intros a r' Ha. exact (private_others v s r rest a Hok Ha r').
Qed.
End Spaces.

(** ** Example: the kernel's root alone, then one process with one page *)

Lemma demo_spaces : spaces_ok demo_vmm demo_frames [].
Proof.
  destruct demo_ok as (H1 & H2 & H3 & H4). split; try done; try (by intros ? ?; rewrite ?elem_of_nil); try set_solver.
  - apply NoDup_singleton.
Qed.

Definition demo_space : Z * (vmm_t * (pmm_t * lockdep_t)) :=
  match address_space_create (mm_cpu, (demo_vmm, demo_frames)) with
  | Some ((_, r), (_, m)) => (r, m)
  | None => (0, (demo_vmm, demo_frames))
  end.

Lemma address_space_create_correct_witness :
  ∃ v' s', address_space_create (mm_cpu, (demo_vmm, demo_frames)) = Some ((0, 0x101000), (mm_cpu, (v', s'))) ∧
    spaces_ok v' s' [0x101000] ∧ lookup_va (words v') 0x101000 demo_va = None.
Proof.
  destruct (address_space_create_correct (FA := pmm_frame_alloc) mm_cpu demo_vmm demo_frames [] I demo_spaces) as (rc & r & v' & s' & E & _ & _ & H).
  assert (Erc : (fst <$> address_space_create (mm_cpu, (demo_vmm, demo_frames))) = Some (0, 0x101000)) by (vm_compute; reflexivity).
  rewrite E in Erc. injection Erc as -> ->. exists v', s'. split; [exact E|].
  destruct H as [(_ & Hok & _ & _ & Hu)|(H & _)]; [|discriminate H]. split; [exact Hok|]. apply Hu.
  split; [unfold demo_va; lia|]. split; [reflexivity|]. left. reflexivity.
Defined.

Lemma demo_space_ok : demo_space.1 = 0x101000 /\ spaces_ok demo_space.2.1 demo_space.2.2 [0x101000].
Proof.
  destruct (space_create_run (FA := pmm_frame_alloc) mm_cpu demo_vmm demo_frames [] I demo_spaces) as (rc & r & v' & s' & E & _ & _ & _ & H).
  assert (Erc : (fst <$> address_space_create (mm_cpu, (demo_vmm, demo_frames))) = Some (0, 0x101000)) by (vm_compute; reflexivity).
  unfold demo_space. rewrite E in Erc |- *. injection Erc as -> ->. split; [reflexivity|]. destruct H as [(_ & H & _)|[H _]]; [exact H|discriminate H].
Qed.

Lemma demo_user_page : user_page demo_va.
Proof. split; [unfold demo_va; lia|]. split; [reflexivity|]. left. reflexivity. Qed.

Lemma address_space_isolation_witness :
  ∃ v' s', run_op 0x101000 (OpMapShared demo_va 0x300000 2) (mm_cpu, demo_space.2) = Some (0, (mm_cpu, (v', s'))) ∧
    spaces_ok v' s' [0x101000] ∧ reads_same (words demo_space.2.1) (words v') demo_root demo_va.
Proof.
  destruct demo_space_ok as [Er Hok]. destruct demo_space as [r [v1 s1]] eqn:Es. cbn in Er, Hok. subst r. cbn [snd].
  destruct (address_space_isolation (FA := pmm_frame_alloc) mm_cpu v1 s1 [0x101000] 0x101000 (OpMapShared demo_va 0x300000 2) I Hok)
    as (rc & v' & s' & E & _ & Hok' & Hothers & _).
  { by apply list_elem_of_singleton. }
  { split; [unfold is_u64, demo_va; lia|]. split; unfold is_u64; lia. }
  assert (Erc : (fst <$> run_op 0x101000 (OpMapShared demo_va 0x300000 2) (mm_cpu, demo_space.2)) = Some 0) by (vm_compute; reflexivity).
  rewrite Es in Erc. cbn [snd] in Erc. rewrite E in Erc. injection Erc as ->. exists v', s'. split; [exact E|]. split; [exact Hok'|].
  apply Hothers; [|discriminate|unfold is_u64, demo_va; lia|reflexivity].
  assert (Ek : kernel_pml4_phys demo_space.2.1 = demo_root) by (vm_compute; reflexivity). rewrite Es in Ek. cbn in Ek. unfold all_roots. rewrite Ek. by left.
Defined.

Lemma address_space_effects_witness :
  ∃ v' s', run_op 0x101000 (OpMapShared demo_va 0x300000 2) (mm_cpu, demo_space.2) = Some (0, (mm_cpu, (v', s'))) ∧
    lookup_va (words v') 0x101000 demo_va = Some (0x300000, 7).
Proof.
  destruct demo_space_ok as [Er Hok]. destruct demo_space as [r [v1 s1]] eqn:Es. cbn in Er, Hok. subst r. cbn [snd].
  destruct (address_space_effects (FA := pmm_frame_alloc) mm_cpu v1 s1 [0x101000] 0x101000 (OpMapShared demo_va 0x300000 2) I Hok)
    as (rc & v' & s' & E & Heff).
  { by apply list_elem_of_singleton. }
  { split; [unfold is_u64, demo_va; lia|]. split; unfold is_u64; lia. }
  assert (Erc : (fst <$> run_op 0x101000 (OpMapShared demo_va 0x300000 2) (mm_cpu, demo_space.2)) = Some 0) by (vm_compute; reflexivity).
  rewrite Es in Erc. cbn [snd] in Erc. rewrite E in Erc. injection Erc as ->. exists v', s'. split; [exact E|].
  destruct (Heff eq_refl) as (_ & _ & Hl). rewrite Hl. reflexivity.
Defined.

Lemma address_space_destroy_safe_witness :
  ∃ s', address_space_destroy 0x101000 (mm_cpu, demo_space.2) = Some (0, (mm_cpu, (demo_space.2.1, s'))) ∧ spaces_ok demo_space.2.1 s' [].
Proof.
  destruct demo_space_ok as [Er Hok]. destruct demo_space as [r [v1 s1]] eqn:Es. cbn in Er, Hok. cbn [snd fst].
  destruct (address_space_destroy_safe (FA := pmm_frame_alloc) mm_cpu v1 s1 0x101000 [] I Hok) as (s' & E & Hok' & _). exists s'. split; [exact E|exact Hok'].
Defined.
