(* ===== verification/NetPacket.v ===== *)
(** * Packet buffers and the Internet checksum ([kernel/net/net.h], [kernel/net/net.c])

    A fixed frame with headroom, the push/put/pull operations on it, byte-order
    accessors the protocol files share, and the one's-complement checksum. *)
From stdpp Require Import base tactics list numbers.
From S2P Require Import Prelude Bytes.

Definition RIX_NET_MTU : Z := 1500.
Definition RIX_NET_HEADROOM : Z := 64.
Definition RIX_NET_TAILROOM : Z := 16.
Definition RIX_NET_FRAME_CAPACITY : Z := RIX_NET_HEADROOM + RIX_NET_MTU + RIX_NET_TAILROOM.

(** [size_t] is 64 bits wide. *)
Record rix_net_packet_t := { bytes : list Z; start : Z; length : Z }.

Abbreviation llen l := (Z.of_nat (List.length l)).

Definition set_bounds (st len : Z) (p : rix_net_packet_t) : rix_net_packet_t :=
  {| bytes := bytes p; start := st; length := len |}.
Definition set_bytes (b : list Z) (p : rix_net_packet_t) : rix_net_packet_t :=
  {| bytes := b; start := start p; length := length p |}.

(** Operations take a nullable pointer. The pointer they hand back through
    [out] is an offset into [bytes]. *)
Definition rix_net_packet_init (p : option rix_net_packet_t) : option rix_net_packet_t :=
  set_bounds RIX_NET_HEADROOM 0 <$> p.

Definition rix_net_packet_push (p : rix_net_packet_t) (n : Z) : Z * option Z * rix_net_packet_t :=
  if start p <? n then (-1, None, p)
  else let p' := set_bounds (start p - n) (u64 (length p + n)) p in (0, Some (start p'), p').

Definition rix_net_packet_put (p : rix_net_packet_t) (n : Z) : Z * option Z * rix_net_packet_t :=
  if (RIX_NET_FRAME_CAPACITY <? start p) || (u64 (RIX_NET_FRAME_CAPACITY - start p - length p) <? n) then (-1, None, p)
  else (0, Some (start p + length p), set_bounds (start p) (u64 (length p + n)) p).

Definition rix_net_packet_pull (p : rix_net_packet_t) (n : Z) : Z * option Z * rix_net_packet_t :=
  if length p <? n then (-1, None, p)
  else (0, Some (start p), set_bounds (u64 (start p + n)) (length p - n) p).

(** [NULL], or the offset of the first byte of the frame. *)
Definition rix_net_packet_data (p : rix_net_packet_t) : option Z :=
  if (RIX_NET_FRAME_CAPACITY <? start p) || (RIX_NET_FRAME_CAPACITY - start p <? length p) then None
  else Some (start p).

Definition rix_net_packet_length (p : option rix_net_packet_t) : Z :=
  match p with Some p => length p | None => 0 end.

(** An automatic packet variable: what it holds before the first store is never read. *)
Definition stack_packet : rix_net_packet_t := {| bytes := replicate (Z.to_nat RIX_NET_FRAME_CAPACITY) 0; start := 0; length := 0 |}.

(** ** Checksum *)

(** [while (sum >> 16) sum = (sum & 0xffff) + (sum >> 16);] A 32-bit sum folds in
    at most two rounds (see [fold_sum_spec]). *)
Fixpoint fold_loop (k : nat) (sum : Z) : Z :=
  if negb (truthy (Z.shiftr sum 16)) then sum
  else match k with
       | O => sum
       | S k => fold_loop k (u32 (Z.land sum 0xffff + Z.shiftr sum 16))
       end.
Definition fold_sum (sum : Z) : Z := fold_loop 2 sum.

Definition rix_net_checksum_add (sum : Z) : Z := u16 (Z.lnot (fold_sum sum)).

(** The word loop over [length] bytes of [b] from [off], accumulating in 32 bits. *)
Fixpoint sum_words (k : nat) (b : list Z) (off len sum : Z) : Z :=
  if 2 <=? len then
    match k with
    | O => sum
    | S k => sum_words k b (off + 2) (len - 2)
               (u32 (sum + Z.lor (Z.shiftl (aget 0 b off) 8) (aget 0 b (off + 1))))
    end
  else if truthy len then u32 (sum + Z.shiftl (aget 0 b off) 8) else sum.

(** [len] iterations are more than the loop needs. *)
Definition sum_bytes (b : list Z) (off len sum : Z) : Z := sum_words (Z.to_nat len) b off len sum.

Definition rix_net_checksum (b : list Z) (off len : Z) : Z := rix_net_checksum_add (sum_bytes b off len 0).

(** The pseudo-header checksum of [udp.c] and [tcp.c], which differ in the
    protocol number only. *)
Definition pseudo_checksum (proto source_ip destination_ip : Z) (b : list Z) (off len : Z) : Z :=
  let sum := 0 in
  let sum := u32 (sum + Z.shiftr source_ip 16) in
  let sum := u32 (sum + Z.land source_ip 0xffff) in
  let sum := u32 (sum + Z.shiftr destination_ip 16) in
  let sum := u32 (sum + Z.land destination_ip 0xffff) in
  let sum := u32 (sum + proto) in
  let sum := u32 (sum + u32 len) in
  rix_net_checksum_add (sum_bytes b off len sum).

(** ** Byte order *)

Definition put_be16 (b : list Z) (off v : Z) : list Z :=
  aset (off + 1) (u8 v) (aset off (u8 (Z.shiftr v 8)) b).
Definition put_be32 (b : list Z) (off v : Z) : list Z :=
  aset (off + 3) (u8 v) (aset (off + 2) (u8 (Z.shiftr v 8)) (aset (off + 1) (u8 (Z.shiftr v 16))
    (aset off (u8 (Z.shiftr v 24)) b))).
Definition get_be16 (b : list Z) (off : Z) : Z :=
  u16 (Z.lor (Z.shiftl (aget 0 b off) 8) (aget 0 b (off + 1))).
Definition get_be32 (b : list Z) (off : Z) : Z :=
  Z.lor (Z.lor (Z.lor (u32 (Z.shiftl (aget 0 b off) 24)) (u32 (Z.shiftl (aget 0 b (off + 1)) 16)))
    (u32 (Z.shiftl (aget 0 b (off + 2)) 8))) (aget 0 b (off + 3)).

(** Byte swaps, and the little-endian memory accesses of the packed structs. *)
Definition be16 (v : Z) : Z := u16 (Z.lor (Z.shiftl v 8) (Z.shiftr v 8)).
Definition be32 (v : Z) : Z :=
  Z.lor (Z.lor (Z.lor (Z.shiftr (Z.land v 0xff000000) 24) (Z.shiftr (Z.land v 0x00ff0000) 8))
    (Z.shiftl (Z.land v 0x0000ff00) 8)) (Z.shiftl (Z.land v 0x000000ff) 24).
Definition store16 (b : list Z) (off v : Z) : list Z := aset (off + 1) (u8 (Z.shiftr v 8)) (aset off (u8 v) b).
Definition load16 (b : list Z) (off : Z) : Z := Z.lor (aget 0 b off) (Z.shiftl (aget 0 b (off + 1)) 8).
Definition store32 (b : list Z) (off v : Z) : list Z :=
  aset (off + 3) (u8 (Z.shiftr v 24)) (aset (off + 2) (u8 (Z.shiftr v 16)) (aset (off + 1) (u8 (Z.shiftr v 8))
    (aset off (u8 v) b))).
Definition load32 (b : list Z) (off : Z) : Z :=
  Z.lor (Z.lor (Z.lor (aget 0 b off) (Z.shiftl (aget 0 b (off + 1)) 8)) (Z.shiftl (aget 0 b (off + 2)) 16))
    (Z.shiftl (aget 0 b (off + 3)) 24).

(** ** Packet invariant and contents *)

Definition packet_wf (p : rix_net_packet_t) : Prop :=
  llen (bytes p) = RIX_NET_FRAME_CAPACITY /\ 0 <= start p /\ 0 <= length p /\
  start p + length p <= RIX_NET_FRAME_CAPACITY /\ Forall is_u8 (bytes p).

(** The frame's bytes. *)
Definition contents (p : rix_net_packet_t) : list Z := slice (bytes p) (start p) (length p).

Lemma capacity_val : RIX_NET_FRAME_CAPACITY = 1580.
Proof. reflexivity. Qed.

Lemma push_ok p n :
  packet_wf p -> 0 <= n <= start p ->
  rix_net_packet_push p n = (0, Some (start p - n), set_bounds (start p - n) (length p + n) p) /\
  packet_wf (set_bounds (start p - n) (length p + n) p).
Proof.
  intros (H1 & H2 & H3 & H4 & H5) Hn. rewrite capacity_val in *. unfold rix_net_packet_push.
  destruct (start p <? n) eqn:E; bool_to_prop; [lia|]. rewrite u64_id by (unfold is_u64; lia).
  split; [done|]. split; [done|]. cbn. rewrite capacity_val. repeat split; try lia. done.
Qed.

Lemma put_ok p n :
  packet_wf p -> 0 <= n -> start p + length p + n <= RIX_NET_FRAME_CAPACITY ->
  rix_net_packet_put p n = (0, Some (start p + length p), set_bounds (start p) (length p + n) p) /\
  packet_wf (set_bounds (start p) (length p + n) p).
Proof.
  intros (H1 & H2 & H3 & H4 & H5) Hn Hc. rewrite capacity_val in *. unfold rix_net_packet_put. rewrite capacity_val.
  rewrite (u64_id (1580 - start p - length p)) by (unfold is_u64; lia).
  destruct (_ || _) eqn:E; [bool_to_prop; destruct E; bool_to_prop; lia|]. rewrite u64_id by (unfold is_u64; lia).
  split; [done|]. split; [done|]. cbn. rewrite capacity_val. repeat split; try lia. done.
Qed.

Lemma pull_ok p n :
  packet_wf p -> 0 <= n <= length p ->
  rix_net_packet_pull p n = (0, Some (start p), set_bounds (start p + n) (length p - n) p) /\
  packet_wf (set_bounds (start p + n) (length p - n) p).
Proof.
  intros (H1 & H2 & H3 & H4 & H5) Hn. rewrite capacity_val in *. unfold rix_net_packet_pull.
  destruct (length p <? n) eqn:E; bool_to_prop; [lia|]. rewrite u64_id by (unfold is_u64; lia).
  split; [done|]. split; [done|]. cbn. rewrite capacity_val. repeat split; try lia. done.
Qed.

Lemma data_ok p : packet_wf p -> rix_net_packet_data p = Some (start p).
Proof.
  intros (H1 & H2 & H3 & H4 & H5). unfold rix_net_packet_data.
  destruct (_ || _) eqn:E; [bool_to_prop; destruct E; bool_to_prop; lia|done].
Qed.

Lemma length_contents p : packet_wf p -> llen (contents p) = length p.
Proof. intros (H1 & H2 & H3 & H4 & H5). unfold contents. apply length_slice. lia. Qed.

(** A packet is three runs of bytes: before, the frame, after. *)
Lemma packet_split p :
  packet_wf p -> exists pre post, bytes p = pre ++ contents p ++ post /\ llen pre = start p /\
    llen post = RIX_NET_FRAME_CAPACITY - start p - length p.
Proof.
  intros Hwf. pose proof (length_contents p Hwf) as Hlc. destruct Hwf as (H1 & H2 & H3 & H4 & H5).
  exists (slice (bytes p) 0 (start p)), (slice (bytes p) (start p + length p) (RIX_NET_FRAME_CAPACITY - start p - length p)).
  rewrite !length_slice by lia. split; [|done].
  pose proof (length_slice (bytes p) 0 (start p) ltac:(lia)).
  pose proof (length_slice (bytes p) (start p + length p) (RIX_NET_FRAME_CAPACITY - start p - length p) ltac:(lia)).
  apply list_ext_aget; [rewrite !length_app; lia|]. intros i Hi.
  rewrite aget_app by lia. destruct (i <? _) eqn:E1; bool_to_prop; [by rewrite aget_slice by lia|].
  rewrite aget_app by lia. destruct (_ <? _) eqn:E2; bool_to_prop.
  - unfold contents. rewrite aget_slice by lia. f_equal. lia.
  - rewrite aget_slice by lia. f_equal. lia.
Qed.

(** ** The checksum verifies *)

(** Sum of the big-endian 16-bit words of a byte string, padded with a zero. *)
Fixpoint be_sum (l : list Z) : Z :=
  match l with
  | a :: b :: l => a * 256 + b + be_sum l
  | [a] => a * 256
  | [] => 0
  end.

Lemma be_sum_bound l : Forall is_u8 l -> 0 <= be_sum l <= 65535 * llen l.
Proof.
  assert (H : forall n l, (List.length l <= n)%nat -> Forall is_u8 l -> 0 <= be_sum l <= 65535 * llen l).
  { induction n as [|n IH]; intros l' Hl HF; destruct HF as [|a l1 Ha HF]; cbn [be_sum List.length] in *; try lia.
    unfold is_u8 in *. destruct HF as [|b l2 Hb HF]; cbn [be_sum List.length] in *; [lia|].
    specialize (IH l2 ltac:(lia) HF). lia. }
  intros HF. by apply (H (List.length l)).
Qed.

Lemma be_sum_app l k : Nat.Even (List.length l) -> be_sum (l ++ k) = be_sum l + be_sum k.
Proof.
  intros [n Hn]. revert l Hn. induction n as [|n IH]; intros [|a [|b l]] Hn; cbn [be_sum List.length app] in *; try lia.
  rewrite (IH l) by lia. lia.
Qed.

Lemma sum_words_spec k b off len s :
  Forall is_u8 b -> 0 <= len -> len <= Z.of_nat k -> 0 <= s -> s + 65536 * (len + 1) < 2 ^ 32 ->
  sum_words k b off len s = s + be_sum (slice b off len).
Proof.
  intros Hb. revert off len s. induction k as [|k IH]; intros off len s H0 Hk Hs Hbound; cbn [sum_words].
  - assert (len = 0) as -> by lia. cbn. rewrite slice_nil by lia. cbn. lia.
  - pose proof (aget_u8 b off Hb) as Ha. pose proof (aget_u8 b (off + 1) Hb) as Ha'. unfold is_u8 in *.
    destruct (2 <=? len) eqn:E; bool_to_prop.
    + rewrite (slice_cons b off len), (slice_cons b (off + 1) (len - 1)) by lia. cbn [be_sum].
      rewrite lor_shiftl by lia. change (2 ^ 8) with 256 in *. rewrite u32_id by (unfold is_u32; lia).
      rewrite IH by lia. replace (off + 1 + 1) with (off + 2) by lia. replace (len - 1 - 1) with (len - 2) by lia. lia.
    + unfold truthy. destruct (len =? 0) eqn:E0; bool_to_prop; cbn [negb].
      * subst. rewrite slice_nil by lia. cbn. lia.
      * assert (len = 1) as -> by lia. rewrite slice_cons, slice_nil by lia. cbn [be_sum].
        rewrite Z.shiftl_mul_pow2 by lia. change (2 ^ 8) with 256 in *. rewrite u32_id by (unfold is_u32; lia). lia.
Qed.

Lemma sum_bytes_spec b off len s :
  Forall is_u8 b -> 0 <= len -> 0 <= s -> s + 65536 * (len + 1) < 2 ^ 32 ->
  sum_bytes b off len s = s + be_sum (slice b off len).
Proof. intros. unfold sum_bytes. apply sum_words_spec; try done. lia. Qed.

Lemma fold_step x : 0 <= x < 2 ^ 32 -> u32 (Z.land x 0xffff + Z.shiftr x 16) = x mod 65536 + x / 65536.
Proof.
  intros Hx. change 0xffff with (Z.ones 16). rewrite Z.land_ones, Z.shiftr_div_pow2 by lia. change (2 ^ 16) with 65536.
  pose proof (Z.mod_pos_bound x 65536 ltac:(lia)). assert (x / 65536 < 65536) by (apply Z.div_lt_upper_bound; lia).
  pose proof (Z.div_pos x 65536 ltac:(lia) ltac:(lia)). apply u32_id. unfold is_u32. lia.
Qed.

(** Folding computes the sum modulo 65535, with 65535 standing for the
    non-zero multiples. *)
Lemma fold_sum_spec x : 0 <= x < 2 ^ 32 -> fold_sum x = if x =? 0 then 0 else (x - 1) mod 65535 + 1.
Proof.
  assert (Hmod : forall y, 0 < y < 65536 -> y = (y - 1) mod 65535 + 1) by (intros; rewrite Z.mod_small; lia).
  assert (Hcong : forall y, 0 < y -> (y mod 65536 + y / 65536 - 1) mod 65535 = (y - 1) mod 65535).
  { intros y Hy. rewrite (Z.div_mod y 65536) at 3 by lia.
    replace (65536 * (y / 65536) + y mod 65536 - 1) with (y mod 65536 + y / 65536 - 1 + (y / 65536) * 65535) by lia.
    by rewrite Z_mod_plus_full. }
  assert (Hpos : forall y, 0 < y -> 0 < y mod 65536 + y / 65536).
  { intros y Hy. pose proof (Z.mod_pos_bound y 65536 ltac:(lia)). pose proof (Z.div_pos y 65536 ltac:(lia) ltac:(lia)).
    destruct (decide (y / 65536 = 0)) as [E|]; [|lia]. apply Z.div_small_iff in E; [|lia]. rewrite Z.mod_small; lia. }
  intros Hx. destruct (x =? 0) eqn:E0; bool_to_prop; [by subst|]. unfold fold_sum. cbn [fold_loop].
  unfold truthy. rewrite !negb_involutive, (fold_step x) by done.
  pose proof (Z.mod_pos_bound x 65536 ltac:(lia)).
  assert (Hq : 0 <= x / 65536 < 65536) by (split; [apply Z.div_pos; lia|apply Z.div_lt_upper_bound; lia]).
  set (y := x mod 65536 + x / 65536). assert (Hy : 0 < y < 131072) by (specialize (Hpos x); unfold y; lia).
  rewrite (fold_step y) by lia. rewrite (Z.shiftr_div_pow2 x), (Z.shiftr_div_pow2 y) by lia. change (2 ^ 16) with 65536.
  destruct (x / 65536 =? 0) eqn:E1; bool_to_prop.
  { apply Z.div_small_iff in E1; [|lia]. apply Hmod. lia. }
  destruct (y / 65536 =? 0) eqn:E2; bool_to_prop.
  { apply Z.div_small_iff in E2; [|lia]. rewrite <- (Hcong x) by lia. fold y. apply Hmod. lia. }
  pose proof (Z.mod_pos_bound y 65536 ltac:(lia)).
  assert (Hz : y mod 65536 + y / 65536 < 65536).
  { assert (y / 65536 = 1) by (assert (y / 65536 < 2) by (apply Z.div_lt_upper_bound; lia);
      pose proof (Z.div_pos y 65536 ltac:(lia) ltac:(lia)); lia).
    pose proof (Z.div_mod y 65536 ltac:(lia)). lia. }
  assert (Hend : Z.shiftr (y mod 65536 + y / 65536) 16 = 0).
  { rewrite Z.shiftr_div_pow2 by lia. apply Z.div_small. specialize (Hpos y). lia. }
  rewrite Hend. cbn [Z.eqb]. rewrite <- (Hcong x) by lia. fold y. rewrite <- (Hcong y) by lia.
  apply Hmod. specialize (Hpos y). lia.
Qed.

Lemma checksum_add_spec x : 0 <= x < 2 ^ 32 -> rix_net_checksum_add x = 65535 - fold_sum x.
Proof.
  intros Hx. unfold rix_net_checksum_add. pose proof (fold_sum_spec x Hx) as Hf.
  assert (Hr : 0 <= fold_sum x <= 65535).
  { rewrite Hf. case_if; [lia|]. pose proof (Z.mod_pos_bound (x - 1) 65535 ltac:(lia)). lia. }
  unfold u16, Z.lnot. replace (Z.pred (- fold_sum x)) with (65535 - fold_sum x + (-1) * 2 ^ 16) by lia.
  rewrite Z_mod_plus_full. apply Z.mod_small. lia.
Qed.

Lemma checksum_add_range x : 0 <= x < 2 ^ 32 -> 0 <= rix_net_checksum_add x <= 65535.
Proof.
  intros Hx. rewrite checksum_add_spec, fold_sum_spec by done. case_if; [lia|].
  pose proof (Z.mod_pos_bound (x - 1) 65535 ltac:(lia)). lia.
Qed.

(** Adding a sum's checksum to it makes the checksum zero. *)
Lemma checksum_cancels x :
  0 <= x -> x + 65535 < 2 ^ 32 -> rix_net_checksum_add (x + rix_net_checksum_add x) = 0.
Proof.
  intros Hx Hb. pose proof (checksum_add_range x ltac:(lia)).
  rewrite (checksum_add_spec (x + _)), (fold_sum_spec (x + _)), checksum_add_spec, fold_sum_spec in * by lia.
  destruct (x =? 0) eqn:E; bool_to_prop; [by subst|].
  pose proof (Z.mod_pos_bound (x - 1) 65535 ltac:(lia)). destruct (_ =? 0) eqn:E2; bool_to_prop; [lia|].
  replace (x + (65535 - ((x - 1) mod 65535 + 1)) - 1) with (65534 + ((x - 1) / 65535) * 65535).
  - rewrite Z_mod_plus_full. reflexivity.
  - pose proof (Z.div_mod (x - 1) 65535 ltac:(lia)). lia.
Qed.

(** The checksum is zero exactly on the non-zero multiples of 65535. *)
Lemma checksum_add_zero x : 0 <= x < 2 ^ 32 -> rix_net_checksum_add x = 0 <-> x <> 0 /\ x mod 65535 = 0.
Proof.
  intros Hx. rewrite checksum_add_spec, fold_sum_spec by done.
  destruct (x =? 0) eqn:E; bool_to_prop; [lia|]. pose proof (Z.mod_pos_bound (x - 1) 65535 ltac:(lia)).
  pose proof (Z.div_mod (x - 1) 65535 ltac:(lia)). split.
  - intros H1. split; [done|]. apply Z.mod_divide; [lia|]. exists ((x - 1) / 65535 + 1). lia.
  - intros [_ H1]. apply Z.mod_divide in H1 as [q Hq]; [|lia].
    assert ((x - 1) mod 65535 = 65534); [|lia]. subst x.
    replace (q * 65535 - 1) with (65534 + (q - 1) * 65535) by lia. by rewrite Z_mod_plus_full.
Qed.

(** ** Writing and reading behind a prefix *)

Section Prefix.
Context (pre l : list Z) (k : Z) (Hk : 0 <= k).

Lemma aset_pre x : aset (llen pre + k) x (pre ++ l) = pre ++ aset k x l.
Proof using Hk.
  unfold aset. replace (Z.to_nat (llen pre + k)) with (List.length pre + Z.to_nat k)%nat by lia.
  apply insert_app_r.
Qed.

Lemma aget_pre : aget 0 (pre ++ l) (llen pre + k) = aget 0 l k.
Proof using Hk. rewrite aget_app by lia. case_if; [lia|]. f_equal. lia. Qed.
End Prefix.

Section PrefixOps.
Context (pre l : list Z) (k : Z) (Hk : 0 <= k).

Ltac push_prefix :=
  repeat (rewrite <- ?Z.add_assoc; first [rewrite aset_pre by lia | rewrite aget_pre by lia]); try done.

Lemma put_be16_pre v : put_be16 (pre ++ l) (llen pre + k) v = pre ++ put_be16 l k v.
Proof using Hk. unfold put_be16. push_prefix. Qed.
Lemma put_be32_pre v : put_be32 (pre ++ l) (llen pre + k) v = pre ++ put_be32 l k v.
Proof using Hk. unfold put_be32. push_prefix. Qed.
Lemma store16_pre v : store16 (pre ++ l) (llen pre + k) v = pre ++ store16 l k v.
Proof using Hk. unfold store16. push_prefix. Qed.
Lemma store32_pre v : store32 (pre ++ l) (llen pre + k) v = pre ++ store32 l k v.
Proof using Hk. unfold store32. push_prefix. Qed.
Lemma get_be16_pre : get_be16 (pre ++ l) (llen pre + k) = get_be16 l k.
Proof using Hk. unfold get_be16. push_prefix. Qed.
Lemma get_be32_pre : get_be32 (pre ++ l) (llen pre + k) = get_be32 l k.
Proof using Hk. unfold get_be32. push_prefix. Qed.
Lemma load16_pre : load16 (pre ++ l) (llen pre + k) = load16 l k.
Proof using Hk. unfold load16. push_prefix. Qed.
Lemma load32_pre : load32 (pre ++ l) (llen pre + k) = load32 l k.
Proof using Hk. unfold load32. push_prefix. Qed.
End PrefixOps.

Lemma copy_pre n pre l k s so : 0 <= k -> copy n (pre ++ l) (llen pre + k) s so = pre ++ copy n l k s so.
Proof.
  revert l k so. induction n as [|n IH]; intros l k so Hk; cbn [copy]; [done|].
  rewrite aset_pre, <- Z.add_assoc by lia. apply IH. lia.
Qed.

(** Copying a whole buffer over the front of a list. *)
Lemma copy_front (s l r : list Z) : List.length l = List.length s -> copy (List.length s) (l ++ r) 0 s 0 = s ++ r.
Proof.
  intros Hl. apply list_ext_aget; [rewrite length_copy, !length_app; lia|].
  intros i Hi. rewrite length_copy, length_app in Hi.
  rewrite aget_copy by (rewrite ?length_app; lia). rewrite (aget_app s), (aget_app l) by lia.
  destruct (0 <=? i) eqn:E0, (i <? 0 + llen s) eqn:E1, (i <? llen s) eqn:E2, (i <? llen l) eqn:E3; bool_to_prop;
    cbn [andb]; try lia; f_equal; lia.
Qed.

(** Slices of the frame, addressed from its start. *)
Lemma slice_pre pre l k n : 0 <= k -> slice (pre ++ l) (llen pre + k) n = slice l k n.
Proof.
  intros Hk. unfold slice. apply list_fmap_ext. intros i x Hx. apply lookup_seqZ in Hx as [-> Hx].
  rewrite <- Z.add_assoc. apply aget_pre. lia.
Qed.

(** ** Fields *)

Lemma hi_lo v : is_u16 v -> u8 (Z.shiftr v 8) * 256 + u8 v = v.
Proof.
  unfold is_u16, u8. intros Hv. rewrite Z.shiftr_div_pow2 by lia. change (2 ^ 8) with 256.
  rewrite (Z.mod_small (v / 256)) by (split; [apply Z.div_pos; lia|apply Z.div_lt_upper_bound; lia]).
  pose proof (Z.div_mod v 256 ltac:(lia)). lia.
Qed.

Lemma join16 a b : is_u8 a -> is_u8 b -> u16 (Z.lor (Z.shiftl a 8) b) = a * 256 + b.
Proof. unfold is_u8. intros Ha Hb. rewrite lor_shiftl by lia. apply u16_id. unfold is_u16. lia. Qed.

(** The four bytes of a 32-bit value, most significant first. *)
Definition be_bytes32 (v : Z) : list Z := [u8 (Z.shiftr v 24); u8 (Z.shiftr v 16); u8 (Z.shiftr v 8); u8 v].
Definition be_bytes16 (v : Z) : list Z := [u8 (Z.shiftr v 8); u8 v].

Lemma shiftr_u8 v k : 0 <= k -> u8 (Z.shiftr v k) = v / 2 ^ k mod 256.
Proof. intros. unfold u8. by rewrite Z.shiftr_div_pow2. Qed.

Lemma be_join32 v : is_u32 v ->
  u8 (Z.shiftr v 24) * 2 ^ 24 + u8 (Z.shiftr v 16) * 2 ^ 16 + u8 (Z.shiftr v 8) * 2 ^ 8 + u8 v = v.
Proof.
  unfold is_u32. intros Hv. rewrite !shiftr_u8 by lia. unfold u8.
  change (2 ^ 24) with 16777216. change (2 ^ 16) with 65536. change (2 ^ 8) with 256.
  assert (E1 : v / 65536 = v / 256 / 256) by (rewrite Z.div_div by lia; f_equal; lia).
  assert (E2 : v / 16777216 = v / 256 / 256 / 256) by (rewrite !Z.div_div by lia; f_equal; lia).
  rewrite E1, E2. rewrite (Z.mod_small (v / 256 / 256 / 256)).
  - pose proof (Z.div_mod v 256 ltac:(lia)). pose proof (Z.div_mod (v / 256) 256 ltac:(lia)).
    pose proof (Z.div_mod (v / 256 / 256) 256 ltac:(lia)). lia.
  - rewrite <- E2. split; [apply Z.div_pos; lia|apply Z.div_lt_upper_bound; lia].
Qed.

Lemma join32 a b c d : is_u8 a -> is_u8 b -> is_u8 c -> is_u8 d ->
  Z.lor (Z.lor (Z.lor (u32 (Z.shiftl a 24)) (u32 (Z.shiftl b 16))) (u32 (Z.shiftl c 8))) d
  = a * 2 ^ 24 + b * 2 ^ 16 + c * 2 ^ 8 + d.
Proof.
  unfold is_u8. intros Ha Hb Hc Hd. rewrite !Z.shiftl_mul_pow2 by lia.
  rewrite !u32_id by (unfold is_u32; lia).
  replace (Z.lor (a * 2 ^ 24) (b * 2 ^ 16)) with (a * 2 ^ 24 + b * 2 ^ 16)
    by (rewrite <- (lor_shiftl a (b * 2 ^ 16) 24) by lia; by rewrite Z.shiftl_mul_pow2 by lia).
  replace (a * 2 ^ 24 + b * 2 ^ 16) with (Z.shiftl (a * 2 ^ 8 + b) 16) by (rewrite Z.shiftl_mul_pow2; lia).
  rewrite lor_shiftl by lia.
  replace ((a * 2 ^ 8 + b) * 2 ^ 16 + c * 2 ^ 8) with (Z.shiftl ((a * 2 ^ 8 + b) * 2 ^ 8 + c) 8) by (rewrite Z.shiftl_mul_pow2; lia).
  rewrite lor_shiftl, ?Z.shiftl_mul_pow2 by lia. change (2 ^ 24) with 16777216. change (2 ^ 16) with 65536. change (2 ^ 8) with 256. lia.
Qed.

Lemma get_be16_bytes l k v :
  is_u16 v -> aget 0 l k = u8 (Z.shiftr v 8) -> aget 0 l (k + 1) = u8 v -> get_be16 l k = v.
Proof.
  intros Hv H1 H2. unfold get_be16. rewrite H1, H2, join16 by auto with rix. by apply hi_lo.
Qed.

Lemma get_be32_bytes l k v :
  is_u32 v -> aget 0 l k = u8 (Z.shiftr v 24) -> aget 0 l (k + 1) = u8 (Z.shiftr v 16) ->
  aget 0 l (k + 2) = u8 (Z.shiftr v 8) -> aget 0 l (k + 3) = u8 v -> get_be32 l k = v.
Proof.
  intros Hv H1 H2 H3 H4. unfold get_be32. rewrite H1, H2, H3, H4, join32 by auto with rix. by apply be_join32.
Qed.

(** A swapped field stored little-endian is the field in network order. *)
Lemma be16_bytes v : is_u16 v -> u8 (be16 v) = u8 (Z.shiftr v 8) /\ u8 (Z.shiftr (be16 v) 8) = u8 v.
Proof.
  unfold is_u16. intros Hv.
  assert (E : be16 v = u8 v * 256 + u8 (Z.shiftr v 8)).
  { unfold be16. rewrite shiftr_u8 by lia. rewrite (Z.shiftr_div_pow2 v) by lia.
    assert (0 <= v / 2 ^ 8 < 2 ^ 8) by (split; [apply Z.div_pos; lia|apply Z.div_lt_upper_bound; lia]).
    rewrite lor_shiftl by lia. rewrite (Z.mod_small (v / 2 ^ 8)) by lia. unfold u16, u8.
    pose proof (Z.div_mod v 256 ltac:(lia)). pose proof (Z.mod_pos_bound v 256 ltac:(lia)).
    change (2 ^ 8) with 256 in *. change (2 ^ 16) with 65536.
    symmetry. apply Z.mod_unique_pos with (v / 256); lia. }
  rewrite E. pose proof (u8_range v) as H1. pose proof (u8_range (Z.shiftr v 8)) as H2. unfold is_u8 in *.
  split.
  - unfold u8 at 1. rewrite Z.add_comm, Z_mod_plus_full. apply Z.mod_small. lia.
  - rewrite shiftr_u8 by lia. rewrite Z.div_add_l, Z.div_small by lia. rewrite Z.add_0_r. apply Z.mod_small. lia.
Qed.

Lemma be16_invol v : is_u16 v -> be16 (Z.lor (u8 (Z.shiftr v 8)) (Z.shiftl (u8 v) 8)) = v.
Proof.
  intros Hv. pose proof (u8_range v) as H1. pose proof (u8_range (Z.shiftr v 8)) as H2. unfold is_u8 in *.
  rewrite Z.lor_comm, lor_shiftl by lia. unfold be16. rewrite (Z.shiftr_div_pow2 (_ + _)) by lia.
  rewrite Z.div_add_l, Z.div_small by lia. rewrite Z.add_0_r, lor_shiftl by lia.
  pose proof (hi_lo v Hv). unfold is_u16 in Hv. unfold u16. change (2 ^ 8) with 256 in *. change (2 ^ 16) with 65536 in *.
  symmetry. apply Z.mod_unique_pos with (u8 v); lia.
Qed.

(** ** Carving a header out of the headroom, and payload out of the tailroom *)

Lemma carve_header p n :
  packet_wf p -> 0 <= n <= start p ->
  exists pre h post, bytes p = pre ++ h ++ contents p ++ post /\ llen pre = start p - n /\ llen h = n /\
    Forall is_u8 pre /\ Forall is_u8 (contents p ++ post).
Proof.
  intros Hwf Hn. destruct (packet_split p Hwf) as (pre & post & E & Hpre & Hpost).
  destruct Hwf as (_ & _ & _ & _ & Hb). rewrite E in Hb. apply Forall_app in Hb as [Hb1 Hb2].
  exists (take (Z.to_nat (start p - n)) pre), (drop (Z.to_nat (start p - n)) pre), post.
  rewrite (assoc_L (++)), take_drop. split; [done|].
  rewrite length_take, length_drop. split; [lia|]. split; [lia|]. split; [by apply Forall_take|done].
Qed.

(** The frame after a header of [n] bytes has been written in front of it. *)
Lemma header_written p n pre h post p' :
  packet_wf p -> 0 <= n <= start p -> llen pre = start p - n -> llen h = n ->
  llen (pre ++ h ++ contents p ++ post) = RIX_NET_FRAME_CAPACITY ->
  Forall is_u8 pre -> Forall is_u8 h -> Forall is_u8 (contents p ++ post) ->
  p' = {| bytes := pre ++ h ++ contents p ++ post; start := start p - n; length := length p + n |} ->
  packet_wf p' /\ contents p' = h ++ contents p.
Proof.
  intros Hwf Hn Hpre Hh Hlen H1 H2 H3 ->. pose proof (length_contents p Hwf) as Hlc.
  destruct Hwf as (_ & Hs & Hl & Hc & _). split.
  - split; [done|]. cbn. split; [lia|]. split; [lia|]. split; [lia|]. by rewrite !Forall_app in *.
  - unfold contents at 1. cbn. rewrite (assoc_L (++) h). apply slice_mid; [lia|]. rewrite length_app. lia.
Qed.

Lemma carve_payload p n :
  packet_wf p -> 0 <= n -> start p + length p + n <= RIX_NET_FRAME_CAPACITY ->
  exists pre t post, bytes p = (pre ++ contents p) ++ t ++ post /\ llen pre = start p /\ llen t = n /\
    Forall is_u8 (pre ++ contents p) /\ Forall is_u8 post.
Proof.
  intros Hwf Hn Hc. destruct (packet_split p Hwf) as (pre & post & E & Hpre & Hpost).
  destruct Hwf as (_ & _ & _ & _ & Hb). rewrite E, (assoc_L (++)) in Hb. apply Forall_app in Hb as [Hb1 Hb2].
  exists pre, (take (Z.to_nat n) post), (drop (Z.to_nat n) post).
  rewrite take_drop, <- (assoc_L (++)). split; [done|]. split; [done|].
  rewrite length_take. split; [lia|]. split; [done|]. by apply Forall_drop.
Qed.

(** The loop [for (i) body[i] = payload[i]] after [rix_net_packet_put]. *)
Definition put_payload (p : rix_net_packet_t) (payload : list Z) : rix_net_packet_t :=
  {| bytes := copy (List.length payload) (bytes p) (start p + length p) payload 0;
     start := start p; length := length p + llen payload |}.

Lemma put_payload_spec p payload :
  packet_wf p -> start p + length p + llen payload <= RIX_NET_FRAME_CAPACITY -> Forall is_u8 payload ->
  packet_wf (put_payload p payload) /\ contents (put_payload p payload) = contents p ++ payload.
Proof.
  intros Hwf Hc Hp. destruct (carve_payload p (llen payload) Hwf ltac:(lia) Hc) as (pre & t & post & E & Hpre & Ht & H1 & H2).
  pose proof (length_contents p Hwf) as Hlc.
  assert (Hb : bytes (put_payload p payload) = (pre ++ contents p) ++ payload ++ post).
  { cbn. rewrite E. replace (start p + length p) with (llen (pre ++ contents p) + 0) by (rewrite length_app; lia).
    rewrite copy_pre by lia. f_equal. apply copy_front. lia. }
  destruct Hwf as (Hcap & Hs & Hl & Hcc & _). split.
  - split; [cbn; rewrite length_copy; done|]. cbn [start length put_payload]. split; [done|]. split; [lia|]. split; [lia|].
    rewrite Hb, !Forall_app in *. done.
  - unfold contents at 1. rewrite Hb. cbn [start length put_payload].
    rewrite <- (assoc_L (++)), (assoc_L (++) (contents p)). apply slice_mid; [done|]. rewrite length_app. lia.
Qed.

Lemma packet_eta p : {| bytes := bytes p; start := start p; length := length p |} = p.
Proof. by destruct p. Qed.


(** ** Reading the frame *)

Section Reading.
Context (p : rix_net_packet_t) (k : Z).

Lemma read_byte : 0 <= k < length p -> aget 0 (bytes p) (start p + k) = aget 0 (contents p) k.
Proof. intros Hk. unfold contents. by rewrite aget_slice by lia. Qed.

Lemma read_be16 : 0 <= k -> k + 1 < length p -> get_be16 (bytes p) (start p + k) = get_be16 (contents p) k.
Proof. intros H1 H2. unfold get_be16, contents. rewrite !aget_slice by lia. by rewrite Z.add_assoc. Qed.

Lemma read_be32 : 0 <= k -> k + 3 < length p -> get_be32 (bytes p) (start p + k) = get_be32 (contents p) k.
Proof. intros H1 H2. unfold get_be32, contents. rewrite !aget_slice by lia. by rewrite !Z.add_assoc. Qed.

Lemma read_load16 : 0 <= k -> k + 1 < length p -> load16 (bytes p) (start p + k) = load16 (contents p) k.
Proof. intros H1 H2. unfold load16, contents. rewrite !aget_slice by lia. by rewrite Z.add_assoc. Qed.

Lemma read_load32 : 0 <= k -> k + 3 < length p -> load32 (bytes p) (start p + k) = load32 (contents p) k.
Proof. intros H1 H2. unfold load32, contents. rewrite !aget_slice by lia. by rewrite !Z.add_assoc. Qed.
End Reading.

Lemma contents_drop p n :
  packet_wf p -> 0 <= n <= length p -> contents (set_bounds (start p + n) (length p - n) p) = drop (Z.to_nat n) (contents p).
Proof.
  intros Hwf Hn. pose proof (length_contents p Hwf) as Hl.
  pose proof (length_slice (bytes p) (start p + n) (length p - n) ltac:(lia)).
  unfold contents at 1. cbn. apply list_ext_aget; [rewrite length_drop; lia|]. intros i Hi.
  rewrite aget_slice, aget_drop by lia. unfold contents. rewrite aget_slice by lia. f_equal. lia.
Qed.

Lemma contents_take p n :
  packet_wf p -> 0 <= n <= length p -> contents (set_bounds (start p) n p) = take (Z.to_nat n) (contents p).
Proof.
  intros Hwf Hn. pose proof (length_contents p Hwf) as Hl.
  pose proof (length_slice (bytes p) (start p) n ltac:(lia)).
  unfold contents at 1. cbn. apply list_ext_aget; [rewrite length_take; lia|]. intros i Hi.
  rewrite aget_slice, aget_take by lia. unfold contents. by rewrite aget_slice by lia.
Qed.

Lemma shrink_wf p n : packet_wf p -> 0 <= n <= length p -> packet_wf (set_bounds (start p) n p).
Proof. intros (H1 & H2 & H3 & H4 & H5) Hn. split; [done|]. cbn. repeat split; try lia. done. Qed.

(** Sums over the frame. *)
Lemma sum_frame p n s :
  packet_wf p -> 0 <= n <= length p -> 0 <= s <= 2 ^ 24 ->
  sum_bytes (bytes p) (start p) n s = s + be_sum (take (Z.to_nat n) (contents p)).
Proof.
  intros Hwf Hn Hs. pose proof Hwf as (H1 & H2 & H3 & H4 & H5). rewrite capacity_val in *.
  rewrite sum_bytes_spec by (try done; lia). f_equal. f_equal. rewrite <- contents_take by done. done.
Qed.

Lemma contents_u8 p : packet_wf p -> Forall is_u8 (contents p).
Proof. intros (H1 & H2 & H3 & H4 & H5). apply Forall_slice; [done|unfold is_u8; lia]. Qed.

Lemma init_packet p :
  packet_wf p ->
  exists q, rix_net_packet_init (Some p) = Some q /\ packet_wf q /\ start q = RIX_NET_HEADROOM /\ length q = 0 /\ contents q = [].
Proof.
  intros (H1 & H2 & H3 & H4 & H5). exists (set_bounds RIX_NET_HEADROOM 0 p). split; [done|]. repeat split; cbn [start length bytes set_bounds]; rewrite ?capacity_val; unfold RIX_NET_HEADROOM; try done; lia.
Qed.

Lemma stack_packet_ok : packet_wf stack_packet.
Proof.
  split; [unfold stack_packet; cbn [bytes]; by rewrite length_replicate|]. cbn [start length stack_packet]. rewrite capacity_val. repeat split; try lia.
  apply Forall_replicate. unfold is_u8. lia.
Qed.
