(* ===== verification/Ethernet.v ===== *)
(** * Ethernet framing ([kernel/net/ethernet.h], [kernel/net/ethernet.c]) *)
From stdpp Require Import base tactics list numbers.
From S2P Require Import Prelude Bytes NetPacket.

Definition RIX_NET_ETHERTYPE_IPV4 : Z := 0x0800.
Definition RIX_NET_ETHERTYPE_ARP : Z := 0x0806.
Definition RIX_NET_ETHERTYPE_IPV6 : Z := 0x86dd.

Record rix_net_eth_header_t := { destination : list Z; source : list Z; ethertype : Z }.

Definition rix_net_ethertype_supported (ty : Z) : bool :=
  (ty =? RIX_NET_ETHERTYPE_IPV4) || (ty =? RIX_NET_ETHERTYPE_ARP) || (ty =? RIX_NET_ETHERTYPE_IPV6).

(** [copy_mac(dst + off, mac)]. *)
Definition copy_mac (b : list Z) (off : Z) (mac : list Z) (moff : Z) : list Z := copy 6 b off mac moff.

(** [sizeof(rix_net_eth_header_t)] is 14: two addresses and the type. *)
Definition rix_net_eth_push (p : option rix_net_packet_t) (dst src : option (list Z)) (ty : Z)
  : Z * option rix_net_packet_t :=
  match p, dst, src with
  | Some q, Some dst, Some src =>
      if negb (rix_net_ethertype_supported ty) then (-1, p)
      else match rix_net_packet_push q 14 with
           | (0, Some h, q') =>
               let b := copy_mac (bytes q') h dst 0 in
               let b := copy_mac b (h + 6) src 0 in
               let b := store16 b (h + 12) (be16 ty) in
               (0, Some (set_bytes b q'))
           | (_, _, q') => (-1, Some q')
           end
  | _, _, _ => (-1, p)
  end.

Definition rix_net_eth_pull (p : option rix_net_packet_t) (header : option rix_net_eth_header_t)
  : Z * option rix_net_eth_header_t * option rix_net_packet_t :=
  match p, header with
  | Some q, Some hd =>
      if rix_net_packet_length p <? 14 then (-1, header, p)
      else match rix_net_packet_pull q 14 with
           | (0, Some w, q') =>
               let hd' := {| destination := copy_mac (destination hd) 0 (bytes q') w;
                             source := copy_mac (source hd) 0 (bytes q') (w + 6);
                             ethertype := be16 (load16 (bytes q') (w + 12)) |} in
               (if rix_net_ethertype_supported (ethertype hd') then 0 else -2, Some hd', Some q')
           | (_, _, q') => (-1, header, Some q')
           end
  | _, _ => (-1, header, p)
  end.

(** ** The frame on the wire *)

Definition eth_frame (dst src : list Z) (ty : Z) (payload : list Z) : list Z :=
  dst ++ src ++ be_bytes16 ty ++ payload.

Definition mac_ok (m : list Z) : Prop := llen m = 6 /\ Forall is_u8 m.

Lemma mac_explode (m : list Z) : llen m = 6 -> exists a b c d e f, m = [a; b; c; d; e; f].
Proof. intros H. do 7 (destruct m as [|? m]; try (cbn in H; lia)). eauto 10. Qed.

Lemma eth_push_spec p dst src ty :
  packet_wf p -> 14 <= start p -> mac_ok dst -> mac_ok src -> is_u16 ty -> rix_net_ethertype_supported ty = true ->
  exists p', rix_net_eth_push (Some p) (Some dst) (Some src) ty = (0, Some p') /\ packet_wf p' /\
    contents p' = eth_frame dst src ty (contents p) /\ start p' = start p - 14 /\ length p' = length p + 14.
Proof.
  intros Hwf Hs [Hd Hdb] [Hsr Hsb] Hty Hsup. unfold rix_net_eth_push. rewrite Hsup. cbn [negb].
  destruct (push_ok p 14 Hwf ltac:(lia)) as [-> _].
  destruct (carve_header p 14 Hwf ltac:(lia)) as (pre & h & post & E & Hpre & Hh & Hb1 & Hb2).
  pose proof (length_contents p Hwf) as Hlc. pose proof Hwf as (Hcap & _).
  destruct (mac_explode dst Hd) as (d0 & d1 & d2 & d3 & d4 & d5 & ->).
  destruct (mac_explode src Hsr) as (s0 & s1 & s2 & s3 & s4 & s5 & ->).
  assert (Hh' : List.length h = 14%nat) by lia.
  eexists. split; [reflexivity|].
  destruct (header_written p 14 pre (eth_frame [d0; d1; d2; d3; d4; d5] [s0; s1; s2; s3; s4; s5] ty []) post
    {| bytes := pre ++ eth_frame [d0; d1; d2; d3; d4; d5] [s0; s1; s2; s3; s4; s5] ty [] ++ contents p ++ post;
       start := start p - 14; length := length p + 14 |} Hwf ltac:(lia) Hpre) as [Hw Hc]; try done.
  { rewrite <- Hcap, E, !length_app. cbn. lia. }
  { unfold eth_frame. rewrite !Forall_app. repeat split; try done. repeat constructor; apply u8_range. }
  assert (Heq : set_bytes (store16 (copy_mac (copy_mac (bytes (set_bounds (start p - 14) (length p + 14) p)) (start p - 14)
      [d0; d1; d2; d3; d4; d5] 0) (start p - 14 + 6) [s0; s1; s2; s3; s4; s5] 0) (start p - 14 + 12) (be16 ty))
      (set_bounds (start p - 14) (length p + 14) p)
    = {| bytes := pre ++ eth_frame [d0; d1; d2; d3; d4; d5] [s0; s1; s2; s3; s4; s5] ty [] ++ contents p ++ post;
         start := start p - 14; length := length p + 14 |}).
  { unfold set_bytes, set_bounds. cbn [bytes start length]. f_equal. rewrite E, <- Hpre.
    unfold copy_mac. rewrite <- (Z.add_0_r (llen pre)) at 1. rewrite !copy_pre, store16_pre by lia. f_equal.
    do 14 (destruct h as [|? h]; [done|]). destruct h; [|done].
    destruct (be16_bytes ty Hty) as [B1 B2]. unfold store16. rewrite B1, B2. reflexivity. }
  rewrite Heq. split; [exact Hw|]. split; [|done]. rewrite Hc. unfold eth_frame. by rewrite <- !(assoc_L (++)).
Qed.

Lemma be16_load a b : is_u8 a -> is_u8 b -> be16 (Z.lor a (Z.shiftl b 8)) = a * 256 + b.
Proof.
  intros Ha Hb. rewrite <- (join16 a b) by done.
  pose proof (be16_invol (a * 256 + b)) as H. rewrite join16 by done.
  assert (E1 : u8 (Z.shiftr (a * 256 + b) 8) = a).
  { rewrite shiftr_u8 by lia. change (2 ^ 8) with 256. unfold is_u8 in *.
    rewrite Z.div_add_l, Z.div_small, Z.add_0_r by lia. apply Z.mod_small. lia. }
  assert (E2 : u8 (a * 256 + b) = b).
  { unfold u8, is_u8 in *. rewrite Z.add_comm, Z_mod_plus_full. apply Z.mod_small. lia. }
  rewrite E1, E2 in H. apply H. unfold is_u16, is_u8 in *. lia.
Qed.

(** Reading an Ethernet header off any frame. *)
Lemma eth_pull_spec p hd dst src ty payload :
  packet_wf p -> mac_ok dst -> mac_ok src -> is_u16 ty -> mac_ok (destination hd) -> mac_ok (source hd) ->
  contents p = eth_frame dst src ty payload ->
  exists p', rix_net_eth_pull (Some p) (Some hd)
      = (if rix_net_ethertype_supported ty then 0 else -2,
         Some {| destination := dst; source := src; ethertype := ty |}, Some p') /\
    packet_wf p' /\ contents p' = payload.
Proof.
  intros Hwf Hd Hs Hty Hhd Hhs Hc. pose proof (length_contents p Hwf) as Hlc.
  destruct (mac_explode dst (proj1 Hd)) as (d0 & d1 & d2 & d3 & d4 & d5 & Ed).
  destruct (mac_explode src (proj1 Hs)) as (s0 & s1 & s2 & s3 & s4 & s5 & Es).
  destruct (mac_explode (destination hd) (proj1 Hhd)) as (a0 & a1 & a2 & a3 & a4 & a5 & Ea).
  destruct (mac_explode (source hd) (proj1 Hhs)) as (b0 & b1 & b2 & b3 & b4 & b5 & Eb).
  assert (Hlen : 14 <= length p).
  { rewrite <- Hlc, Hc, Ed, Es. unfold eth_frame. rewrite !length_app. cbn. lia. }
  unfold rix_net_eth_pull. cbn [rix_net_packet_length]. destruct (length p <? 14) eqn:E; bool_to_prop; [lia|].
  destruct (pull_ok p 14 Hwf ltac:(lia)) as [-> Hw']. cbn [bytes set_bounds].
  exists (set_bounds (start p + 14) (length p - 14) p).
  assert (Hmac : forall m a0 a1 a2 a3 a4 a5 k, 0 <= k -> k + 6 <= length p -> m = [a0; a1; a2; a3; a4; a5] ->
    copy_mac m 0 (bytes p) (start p + k)
    = [aget 0 (contents p) k; aget 0 (contents p) (k + 1); aget 0 (contents p) (k + 2);
       aget 0 (contents p) (k + 3); aget 0 (contents p) (k + 4); aget 0 (contents p) (k + 5)]).
  { intros m ? ? ? ? ? ? k Hk0 Hk ->. unfold copy_mac. cbn [copy].
    rewrite <- !(read_byte p) by lia. rewrite <- !Z.add_assoc. reflexivity. }
  rewrite (Hmac (source hd) _ _ _ _ _ _ 6 ltac:(lia) ltac:(lia) Eb).
  replace (copy_mac (destination hd) 0 (bytes p) (start p)) with (copy_mac (destination hd) 0 (bytes p) (start p + 0)) by (by rewrite Z.add_0_r).
  rewrite (Hmac (destination hd) _ _ _ _ _ _ 0 ltac:(lia) ltac:(lia) Ea).
  rewrite read_load16 by lia. rewrite Hc, Ed, Es. cbn [ethertype].
  assert (Hload : load16 (eth_frame [d0; d1; d2; d3; d4; d5] [s0; s1; s2; s3; s4; s5] ty payload) 12
                  = Z.lor (u8 (Z.shiftr ty 8)) (Z.shiftl (u8 ty) 8)) by reflexivity.
  rewrite Hload, be16_invol by done. split; [reflexivity|]. split; [done|].
  rewrite contents_drop by (done || lia). rewrite Hc, Ed, Es. reflexivity.
Qed.

(** Ethernet framing round-trips. Pushing a header on a packet with room
    for it and pulling it again returns both addresses, the type and the
    original frame untouched; a frame with an unknown type is reported with -2
    but its header is still decoded. *)
Theorem eth_roundtrip p hd dst src ty
    (Hwf : packet_wf p) (Hroom : 14 <= start p) (Hd : mac_ok dst) (Hs : mac_ok src) (Hty : is_u16 ty)
    (Hsup : rix_net_ethertype_supported ty = true) (Hh1 : mac_ok (destination hd)) (Hh2 : mac_ok (source hd)) :
  ∃ p' p'', rix_net_eth_push (Some p) (Some dst) (Some src) ty = (0, Some p') ∧
    contents p' = eth_frame dst src ty (contents p) ∧
    rix_net_eth_pull (Some p') (Some hd) = (0, Some {| destination := dst; source := src; ethertype := ty |}, Some p'') ∧
    packet_wf p'' ∧ contents p'' = contents p.
Proof.
  destruct (eth_push_spec p dst src ty Hwf Hroom Hd Hs Hty Hsup) as (p' & E1 & Hw' & Hc & _).
  destruct (eth_pull_spec p' hd dst src ty (contents p) Hw' Hd Hs Hty Hh1 Hh2 Hc) as (p'' & E2 & Hw'' & Hc'').
  rewrite Hsup in E2. by exists p', p''.
Qed.

Definition demo_packet : rix_net_packet_t :=
  {| bytes := copy 3 (replicate (Z.to_nat RIX_NET_FRAME_CAPACITY) 0) 64 [1; 2; 3] 0; start := 64; length := 3 |}.

Lemma demo_packet_wf : packet_wf demo_packet.
Proof.
  split; [vm_compute; reflexivity|]. cbn [start length demo_packet]. rewrite capacity_val. repeat split; try lia.
  assert (H : forallb (fun x => (0 <=? x) && (x <? 256)) (bytes demo_packet) = true) by (vm_compute; reflexivity).
  apply Is_true_eq_left in H. rewrite forallb_True in H. eapply Forall_impl; [|exact H]. cbn. intros x Hx. apply Is_true_eq_true in Hx. bool_to_prop.
  unfold is_u8. lia.
Qed.

Lemma eth_roundtrip_witness :
  ∃ p' p'', rix_net_eth_push (Some demo_packet) (Some [1; 2; 3; 4; 5; 6]) (Some [6; 5; 4; 3; 2; 1]) 0x86dd = (0, Some p') ∧
    contents p' = [1; 2; 3; 4; 5; 6; 6; 5; 4; 3; 2; 1; 0x86; 0xdd; 1; 2; 3] ∧ contents p'' = [1; 2; 3].
Proof.
  assert (Hm : forall a b c d e f, is_u8 a -> is_u8 b -> is_u8 c -> is_u8 d -> is_u8 e -> is_u8 f -> mac_ok [a; b; c; d; e; f]).
  { intros. split; [done|]. do 6 (constructor; [done|]). constructor. }
  destruct (eth_roundtrip demo_packet {| destination := [0; 0; 0; 0; 0; 0]; source := [0; 0; 0; 0; 0; 0]; ethertype := 0 |}
    [1; 2; 3; 4; 5; 6] [6; 5; 4; 3; 2; 1] 0x86dd demo_packet_wf ltac:(cbn; lia)
    ltac:(apply Hm; unfold is_u8; lia) ltac:(apply Hm; unfold is_u8; lia) ltac:(unfold is_u16; lia) eq_refl
    ltac:(apply Hm; unfold is_u8; lia) ltac:(apply Hm; unfold is_u8; lia)) as (p' & p'' & E & Hc & _ & _ & Hc'').
  exists p', p''. split; [exact E|]. split; [rewrite Hc; vm_compute; reflexivity|]. rewrite Hc''. vm_compute. reflexivity.
Defined.
