(* ===== verification/Arp.v ===== *)
(** * ARP ([kernel/net/arp.h], [kernel/net/arp.c])

    The 16-entry address cache and the ARP packet format. *)
From stdpp Require Import base tactics list numbers.
From S2P Require Import Prelude Bytes NetPacket Ethernet.

Definition RIX_NET_ARP_CACHE_MAX : Z := 16.
Definition RIX_NET_ARP_ETHERNET : Z := 1.
Definition RIX_NET_ARP_IPV4 : Z := 0x0800.
Definition RIX_NET_ARP_REQUEST : Z := 1.
Definition RIX_NET_ARP_REPLY : Z := 2.
Definition RIX_NET_ARP_HEADER_LENGTH : Z := 28.

Record rix_net_arp_entry_t := { ip : Z; mac : list Z; expires_at : Z; valid : Z }.

(** The cache is its array of entries. *)
Definition rix_net_arp_cache_t : Type := list rix_net_arp_entry_t.

Record rix_net_arp_packet_t := {
  hardware_type : Z; protocol_type : Z; hardware_length : Z; protocol_length : Z; operation : Z;
  sender_mac : list Z; sender_ip : Z; target_mac : list Z; target_ip : Z }.

Definition invalidate (e : rix_net_arp_entry_t) : rix_net_arp_entry_t :=
  {| ip := ip e; mac := mac e; expires_at := expires_at e; valid := 0 |}.

Definition rix_net_arp_init (cache : option rix_net_arp_cache_t) : option rix_net_arp_cache_t :=
  fmap (M := list) invalidate <$> cache.

(** The slot loop of [rix_net_arp_learn] from index [i]: [inl] is the slot it
    broke out with, [inr] the oldest entry when it ran to the end. *)
Fixpoint learn_slot (l : list rix_net_arp_entry_t) (i : nat) (want now : Z) (oldest : nat) (oldest_expiry : Z)
  : nat + nat :=
  match l with
  | [] => inr oldest
  | e :: l =>
      if truthy (valid e) && (ip e =? want) then inl i
      else if negb (truthy (valid e)) || (expires_at e <=? now) then inl i
      else if expires_at e <? oldest_expiry then learn_slot l (S i) want now i (expires_at e)
      else learn_slot l (S i) want now oldest oldest_expiry
  end.

Definition learn_expiry (now lifetime : Z) : Z :=
  if UINT64_MAX - lifetime <? now then UINT64_MAX else now + lifetime.

Definition rix_net_arp_learn (cache : option rix_net_arp_cache_t) (want : Z) (m : option (list Z)) (now lifetime : Z)
  : Z * option rix_net_arp_cache_t :=
  match cache, m with
  | Some l, Some m =>
      if (want =? 0) || (lifetime =? 0) then (-1, cache)
      else
        let slot := match learn_slot l 0 want now 0 UINT64_MAX with inl s => s | inr s => s end in
        (0, Some (<[slot := {| ip := want; mac := m; expires_at := learn_expiry now lifetime; valid := 1 |}]> l))
  | _, _ => (-1, cache)
  end.

Definition arp_match (want now : Z) (e : rix_net_arp_entry_t) : bool :=
  truthy (valid e) && (ip e =? want) && (now <? expires_at e).

Fixpoint lookup_entry (l : list rix_net_arp_entry_t) (want now : Z) : option (list Z) :=
  match l with
  | [] => None
  | e :: l => if arp_match want now e then Some (mac e) else lookup_entry l want now
  end.

Definition rix_net_arp_lookup (cache : option rix_net_arp_cache_t) (want now : Z) (has_out : bool) : Z * option (list Z) :=
  match cache with
  | Some l => if (want =? 0) || negb has_out then (-1, None)
              else match lookup_entry l want now with
                   | Some m => (0, Some m)
                   | None => (-1, None)
                   end
  | None => (-1, None)
  end.

Definition arp_stale (now : Z) (e : rix_net_arp_entry_t) : bool := truthy (valid e) && (expires_at e <=? now).

Definition rix_net_arp_expire (cache : option rix_net_arp_cache_t) (now : Z) : Z * option rix_net_arp_cache_t :=
  match cache with
  | None => (-1, None)
  | Some l => (countb (arp_stale now) l,
               Some ((fun e => if arp_stale now e then invalidate e else e) <$> l))
  end.

Definition rix_net_arp_push (p : option rix_net_packet_t) (op : Z) (smac : option (list Z)) (sip : Z)
    (tmac : option (list Z)) (tip : Z) : Z * option rix_net_packet_t :=
  match p, smac, tmac with
  | Some q, Some smac, Some tmac =>
      if (sip =? 0) || (tip =? 0) ||
         (negb (op =? RIX_NET_ARP_REQUEST) && negb (op =? RIX_NET_ARP_REPLY)) ||
         (RIX_NET_FRAME_CAPACITY <? start q) ||
         (RIX_NET_FRAME_CAPACITY - RIX_NET_ARP_HEADER_LENGTH <? start q) ||
         (RIX_NET_FRAME_CAPACITY - start q - RIX_NET_ARP_HEADER_LENGTH <? length q) then (-1, p)
      else match rix_net_packet_put q RIX_NET_ARP_HEADER_LENGTH with
           | (0, Some o, q') =>
               let b := put_be16 (bytes q') (o + 0) RIX_NET_ARP_ETHERNET in
               let b := put_be16 b (o + 2) RIX_NET_ARP_IPV4 in
               let b := aset (o + 4) 6 b in
               let b := aset (o + 5) 4 b in
               let b := put_be16 b (o + 6) op in
               let b := copy 6 b (o + 8) smac 0 in
               let b := put_be32 b (o + 14) sip in
               let b := copy 6 b (o + 18) tmac 0 in
               let b := put_be32 b (o + 24) tip in
               (0, Some (set_bytes b q'))
           | (_, _, q') => (-1, Some q')
           end
  | _, _, _ => (-1, p)
  end.

(** The two interleaved loops of the source fill [sender_mac] and [target_mac]
    index by index; they do not overlap. *)
Definition rix_net_arp_pull (p : option rix_net_packet_t) (arp : option rix_net_arp_packet_t)
  : Z * option rix_net_arp_packet_t * option rix_net_packet_t :=
  match p, arp with
  | Some q, Some a =>
      if rix_net_packet_length p <? RIX_NET_ARP_HEADER_LENGTH then (-1, arp, p)
      else match rix_net_packet_data q with
           | None => (-1, arp, p)
           | Some o =>
               let b := bytes q in
               if negb (get_be16 b (o + 0) =? RIX_NET_ARP_ETHERNET) || negb (get_be16 b (o + 2) =? RIX_NET_ARP_IPV4) ||
                  negb (aget 0 b (o + 4) =? 6) || negb (aget 0 b (o + 5) =? 4) ||
                  (negb (get_be16 b (o + 6) =? RIX_NET_ARP_REQUEST) && negb (get_be16 b (o + 6) =? RIX_NET_ARP_REPLY))
               then (-2, arp, p)
               else
                 let a' := {| hardware_type := get_be16 b (o + 0); protocol_type := get_be16 b (o + 2);
                              hardware_length := aget 0 b (o + 4); protocol_length := aget 0 b (o + 5);
                              operation := get_be16 b (o + 6);
                              sender_mac := copy 6 (sender_mac a) 0 b (o + 8); sender_ip := get_be32 b (o + 14);
                              target_mac := copy 6 (target_mac a) 0 b (o + 18); target_ip := get_be32 b (o + 24) |} in
                 match rix_net_packet_pull q RIX_NET_ARP_HEADER_LENGTH with
                 | (0, _, q') => (0, Some a', Some q')
                 | (_, _, q') => (-1, Some a', Some q')
                 end
           end
  | _, _ => (-1, arp, p)
  end.

(** ** The cache *)

(** Entries before the chosen slot are live entries for other addresses, and
    when the loop finds no slot the victim expires first. *)
Lemma learn_slot_spec l i want now old oe :
  match learn_slot l i want now old oe with
  | inl s => (i <= s)%nat /\ (s - i < List.length l)%nat /\
      (forall j e, (j < s - i)%nat -> l !! j = Some e -> truthy (valid e) = true /\ ip e <> want /\ now < expires_at e) /\
      (forall e, l !! (s - i)%nat = Some e -> truthy (valid e) = true -> ip e = want \/ expires_at e <= now)
  | inr s => (forall e, e ∈ l -> truthy (valid e) = true /\ ip e <> want /\ now < expires_at e) /\
      (s = old /\ (forall e, e ∈ l -> oe <= expires_at e) \/
       (i <= s)%nat /\ exists v, l !! (s - i)%nat = Some v /\ forall e, e ∈ l -> expires_at v <= expires_at e /\ expires_at v <= oe)
  end.
Proof.
  revert i old oe. induction l as [|e l IH]; intros i old oe; cbn [learn_slot].
  - split; [intros e He; by apply not_elem_of_nil in He|]. left. split; [done|]. intros e He. by apply not_elem_of_nil in He.
  - destruct (truthy (valid e)) eqn:Ev; cbn [andb negb orb].
    2:{ replace (i - i)%nat with 0%nat by lia. cbn. split; [lia|]. split; [lia|]. split; [intros; lia|].
        intros e' He'. injection He' as <-. congruence. }
    destruct (ip e =? want) eqn:Eip; bool_to_prop.
    { replace (i - i)%nat with 0%nat by lia. cbn. split; [lia|]. split; [lia|]. split; [intros; lia|].
      intros e' He'. injection He' as <-. by left. }
    destruct (expires_at e <=? now) eqn:Eex; bool_to_prop.
    { replace (i - i)%nat with 0%nat by lia. cbn. split; [lia|]. split; [lia|]. split; [intros; lia|].
      intros e' He'. injection He' as <-. by right. }
    assert (Hgo : forall old' oe', (oe' = oe /\ old' = old /\ oe <= expires_at e) \/ (oe' = expires_at e /\ old' = i /\ expires_at e < oe) ->
      match learn_slot l (S i) want now old' oe' with
      | inl s => (i <= s)%nat /\ (s - i < S (List.length l))%nat /\
          (forall j e0, (j < s - i)%nat -> (e :: l) !! j = Some e0 -> truthy (valid e0) = true /\ ip e0 <> want /\ now < expires_at e0) /\
          (forall e0, (e :: l) !! (s - i)%nat = Some e0 -> truthy (valid e0) = true -> ip e0 = want \/ expires_at e0 <= now)
      | inr s => (forall e0, e0 ∈ e :: l -> truthy (valid e0) = true /\ ip e0 <> want /\ now < expires_at e0) /\
          (s = old /\ (forall e0, e0 ∈ e :: l -> oe <= expires_at e0) \/
           (i <= s)%nat /\ exists v, (e :: l) !! (s - i)%nat = Some v /\ forall e0, e0 ∈ e :: l -> expires_at v <= expires_at e0 /\ expires_at v <= oe)
      end).
    { intros old' oe' Hcase. specialize (IH (S i) old' oe'). destruct (learn_slot l (S i) want now old' oe') as [s|s].
      - destruct IH as (H1 & H2 & H3 & H4). replace (s - i)%nat with (S (s - S i)) by lia.
        split; [lia|]. split; [lia|]. split; [|exact H4]. intros [|j] e0 Hj He0; cbn in He0.
        + injection He0 as <-. done.
        + apply (H3 j); [lia|done].
      - destruct IH as [H1 H2]. split.
        + intros e0 He0. apply elem_of_cons in He0 as [->|He0]; [done|auto].
        + destruct H2 as [[-> H2]|(H2 & v & Hv & H3)].
          * destruct Hcase as [(-> & -> & Hc)|(-> & -> & Hc)].
            -- left. split; [done|]. intros e0 He0. apply elem_of_cons in He0 as [->|He0]; [done|auto].
            -- right. split; [lia|]. exists e. replace (i - i)%nat with 0%nat by lia. split; [done|].
               intros e0 He0. apply elem_of_cons in He0 as [->|He0]; [lia|]. specialize (H2 e0 He0). lia.
          * right. split; [lia|]. exists v. replace (s - i)%nat with (S (s - S i)) by lia. split; [done|].
            intros e0 He0. apply elem_of_cons in He0 as [->|He0].
            -- destruct l as [|e1 l]; [by rewrite lookup_nil in Hv|]. specialize (H3 e1 (list_elem_of_here _ _)). lia.
            -- specialize (H3 e0 He0). lia. }
    destruct (expires_at e <? oe) eqn:Eoe; bool_to_prop; apply Hgo; lia.
Qed.

Lemma lookup_insert_same l s e e' want t :
  l !! s = Some e -> arp_match want t e = false -> arp_match want t e' = false ->
  lookup_entry (<[s := e']> l) want t = lookup_entry l want t.
Proof.
  revert s. induction l as [|x l IH]; intros s Hs He He'; [done|]. destruct s as [|s]; cbn in Hs.
  - injection Hs as ->. cbn. by rewrite He, He'.
  - change (<[S s := e']> (x :: l)) with (x :: <[s := e']> l). cbn [lookup_entry]. by rewrite (IH s).
Qed.

Lemma lookup_insert_hit l s e' want t :
  (s < List.length l)%nat -> arp_match want t e' = true ->
  (forall j e, (j < s)%nat -> l !! j = Some e -> arp_match want t e = false) ->
  lookup_entry (<[s := e']> l) want t = Some (mac e').
Proof.
  revert s. induction l as [|x l IH]; intros s Hs He' Hb; [cbn in Hs; lia|]. destruct s as [|s].
  - cbn. by rewrite He'.
  - change (<[S s := e']> (x :: l)) with (x :: <[s := e']> l). cbn [lookup_entry].
    rewrite (Hb 0%nat x) by (done || lia). apply IH; [cbn in Hs; lia|done|]. intros j e Hj He.
    apply (Hb (S j)); [lia|done].
Qed.

(** The slot [rix_net_arp_learn] writes. *)
Definition chosen_slot (l : list rix_net_arp_entry_t) (want now : Z) : nat :=
  match learn_slot l 0 want now 0 UINT64_MAX with inl s => s | inr s => s end.

(** The cache is full: every entry is live and none is for [want]. *)
Definition cache_full (l : list rix_net_arp_entry_t) (want now : Z) : Prop :=
  forall e, e ∈ l -> truthy (valid e) = true /\ ip e <> want /\ now < expires_at e.

Lemma chosen_slot_spec l want now :
  l <> [] -> Forall (fun e => expires_at e <= UINT64_MAX) l ->
  exists v, l !! chosen_slot l want now = Some v /\
    (forall j e, (j < chosen_slot l want now)%nat -> l !! j = Some e -> truthy (valid e) && (ip e =? want) = false) /\
    ((truthy (valid v) = true -> ip v = want \/ expires_at v <= now) \/
     (cache_full l want now /\ forall e, e ∈ l -> expires_at v <= expires_at e)).
Proof.
  intros Hne Hmax. unfold chosen_slot. pose proof (learn_slot_spec l 0 want now 0 UINT64_MAX) as H.
  destruct (learn_slot l 0 want now 0 UINT64_MAX) as [s|s].
  - destruct H as (_ & H2 & H3 & H4). rewrite Nat.sub_0_r in *.
    destruct (lookup_lt_is_Some_2 l s H2) as [v Hv]. exists v. split; [done|]. split; [|left; by apply H4].
    intros j e Hj He. destruct (H3 j e Hj He) as (-> & Hn & _). cbn. by apply Z.eqb_neq.
  - destruct H as [H1 H2]. assert (Hnot : forall j e, (j < s)%nat -> l !! j = Some e -> truthy (valid e) && (ip e =? want) = false).
    { intros j e _ He. destruct (H1 e) as (-> & Hn & _); [by eapply list_elem_of_lookup_2|]. cbn. by apply Z.eqb_neq. }
    destruct H2 as [[-> H2]|(_ & v & Hv & H3)].
    + destruct l as [|v l]; [done|]. exists v. split; [done|]. split; [done|]. right. split; [done|].
      intros e He. specialize (H2 e He). rewrite Forall_forall in Hmax.
      pose proof (Hmax v ltac:(first [by left|by apply list_elem_of_here])). lia.
    + rewrite Nat.sub_0_r in Hv. exists v. split; [done|]. split; [done|]. right. split; [done|].
      intros e He. by apply H3.
Qed.

(** The ARP cache answers with what it learned. After learning an address
    for a lifetime, a lookup at any time before the (saturated) expiry returns
    that hardware address; lookups of every other address at any later time are
    unchanged, except that a full cache of live entries gives up one entry,
    which is one that expires first; and expiring stale entries changes no
    later lookup. *)
Theorem arp_cache_correct l want m now lifetime
    (Hne : l ≠ []) (Hmax : Forall (fun e => expires_at e <= UINT64_MAX) l)
    (Hw : want ≠ 0) (Hl : 0 < lifetime) :
  ∃ l', rix_net_arp_learn (Some l) want (Some m) now lifetime = (0, Some l') ∧ List.length l' = List.length l ∧
    (∀ t, now <= t < learn_expiry now lifetime → rix_net_arp_lookup (Some l') want t true = (0, Some m)) ∧
    (∀ other t, other ≠ want → now <= t →
       rix_net_arp_lookup (Some l') other t true = rix_net_arp_lookup (Some l) other t true ∨
       cache_full l want now ∧ ∃ v, v ∈ l ∧ ip v = other ∧ ∀ e, e ∈ l → expires_at v <= expires_at e) ∧
    (∀ other t, now <= t →
       rix_net_arp_lookup (snd (rix_net_arp_expire (Some l) now)) other t true
       = rix_net_arp_lookup (Some l) other t true).
Proof.
  destruct (chosen_slot_spec l want now Hne Hmax) as (v & Hv & Hbefore & Hcase).
  set (e' := {| ip := want; mac := m; expires_at := learn_expiry now lifetime; valid := 1 |}).
  exists (<[chosen_slot l want now := e']> l). split.
  { unfold rix_net_arp_learn. destruct (want =? 0) eqn:E1, (lifetime =? 0) eqn:E2; bool_to_prop; try lia. done. }
  split; [apply length_insert|]. split; [|split].
  - intros t Ht. unfold rix_net_arp_lookup. destruct (want =? 0) eqn:E1; bool_to_prop; [done|]. cbn [orb negb].
    rewrite (lookup_insert_hit l _ e'); [done|by eapply lookup_lt_Some| |].
    + unfold arp_match. cbn. rewrite Z.eqb_refl. cbn. apply Z.ltb_lt. lia.
    + intros j e Hj He. unfold arp_match. by rewrite (Hbefore j e Hj He).
  - intros other t Hne' Ht.
    assert (He' : arp_match other t e' = false).
    { unfold arp_match. cbn. destruct (want =? other) eqn:E; bool_to_prop; [congruence|done]. }
    destruct (arp_match other t v) eqn:Ev.
    + unfold arp_match in Ev. bool_to_prop. destruct Hcase as [Hc|[Hfull Hmin]].
      * destruct Hc as [Hc|Hc]; [done|congruence|lia].
      * right. split; [done|]. exists v. split; [by eapply list_elem_of_lookup_2|done].
    + left. unfold rix_net_arp_lookup. by rewrite (lookup_insert_same l _ v).
  - intros other t Ht. unfold rix_net_arp_lookup, rix_net_arp_expire. cbn [snd].
    assert (Hsame : lookup_entry ((fun e => if arp_stale now e then invalidate e else e) <$> l) other t = lookup_entry l other t).
    { clear -Ht. induction l as [|e l IH]; [done|]. rewrite fmap_cons. cbn [lookup_entry].
      destruct (arp_stale now e) eqn:Es; [|by rewrite IH].
      assert (arp_match other t e = false) as ->.
      { unfold arp_stale in Es. unfold arp_match. bool_to_prop. apply andb_false_iff. right. apply Z.ltb_ge. lia. }
      rewrite IH. done. }
    by rewrite Hsame.
Qed.

Definition demo_cache : rix_net_arp_cache_t :=
  {| ip := 7; mac := [1; 1; 1; 1; 1; 1]; expires_at := 90; valid := 1 |} ::
  replicate 15 {| ip := 0; mac := [0; 0; 0; 0; 0; 0]; expires_at := 0; valid := 0 |}.

Lemma arp_cache_correct_witness :
  ∃ l', rix_net_arp_learn (Some demo_cache) 9 (Some [2; 2; 2; 2; 2; 2]) 50 100 = (0, Some l') ∧
    rix_net_arp_lookup (Some l') 9 149 true = (0, Some [2; 2; 2; 2; 2; 2]).
Proof.
  destruct (arp_cache_correct demo_cache 9 [2; 2; 2; 2; 2; 2] 50 100) as (l' & E & _ & H & _);
    [discriminate|repeat (constructor; [vm_compute; discriminate|]); constructor|discriminate|lia|].
  exists l'. split; [exact E|]. apply H. split; [lia|]. reflexivity.
Defined.

(** ** The packet format *)

Definition arp_bytes (op : Z) (smac : list Z) (sip : Z) (tmac : list Z) (tip : Z) : list Z :=
  [0; 1; 8; 0; 6; 4] ++ be_bytes16 op ++ smac ++ be_bytes32 sip ++ tmac ++ be_bytes32 tip.

Lemma arp_push_spec p op smac sip tmac tip :
  packet_wf p -> start p + length p + 28 <= RIX_NET_FRAME_CAPACITY -> mac_ok smac -> mac_ok tmac ->
  is_u32 sip -> is_u32 tip -> sip <> 0 -> tip <> 0 -> op = 1 \/ op = 2 ->
  exists p', rix_net_arp_push (Some p) op (Some smac) sip (Some tmac) tip = (0, Some p') /\ packet_wf p' /\
    contents p' = contents p ++ arp_bytes op smac sip tmac tip.
Proof.
  intros Hwf Hroom [Hs Hsb] [Ht Htb] Hsip Htip Hs0 Ht0 Hop. unfold rix_net_arp_push, RIX_NET_ARP_HEADER_LENGTH.
  pose proof Hwf as (Hcap & H1 & H2 & H3 & H4). rewrite capacity_val in *.
  destruct (_ || _ || _ || _ || _ || _) eqn:Eg.
  { exfalso. unfold RIX_NET_ARP_REQUEST, RIX_NET_ARP_REPLY in Eg.
    rewrite !orb_true_iff in Eg. destruct Eg as [[[[[E|E]|E]|E]|E]|E]; bool_to_prop; lia. }
  destruct (put_ok p 28 Hwf ltac:(lia) ltac:(rewrite capacity_val; lia)) as [-> Hw1].
  destruct (carve_payload p 28 Hwf ltac:(lia) ltac:(rewrite capacity_val; lia)) as (pre & t & post & E & Hpre & Hlt & Hb1 & Hb2).
  pose proof (length_contents p Hwf) as Hlc.
  destruct (mac_explode smac Hs) as (s0 & s1 & s2 & s3 & s4 & s5 & ->).
  destruct (mac_explode tmac Ht) as (t0 & t1 & t2 & t3 & t4 & t5 & ->).
  set (ab := arp_bytes op [s0; s1; s2; s3; s4; s5] sip [t0; t1; t2; t3; t4; t5] tip).
  assert (Hab : Forall is_u8 ab).
  { unfold ab, arp_bytes. rewrite !Forall_app. repeat split; try done;
      repeat (constructor; [first [apply u8_range|unfold is_u8; lia]|]); constructor. }
  exists {| bytes := (pre ++ contents p) ++ ab ++ post; start := start p; length := length p + 28 |}.
  split; [|split].
  - f_equal. unfold set_bytes, set_bounds. cbn [bytes start length]. do 2 f_equal.
    rewrite E. replace (start p + length p) with (llen (pre ++ contents p)) by (rewrite length_app; lia).
    rewrite !put_be16_pre, !aset_pre, !put_be16_pre, !copy_pre, !put_be32_pre, !copy_pre, !put_be32_pre by lia. f_equal.
    assert (Ht28 : List.length t = 28%nat) by lia.
    do 28 (destruct t as [|? t]; [done|]). destruct t; [|done]. reflexivity.
  - split; [cbn [bytes]; rewrite capacity_val, <- Hcap, E, !length_app; unfold ab; cbn; lia|].
    cbn [start length bytes]. rewrite capacity_val. split; [lia|]. split; [lia|]. split; [lia|].
    rewrite !Forall_app in *. done.
  - unfold contents at 1. cbn [start length bytes]. rewrite <- (assoc_L (++) pre), (assoc_L (++) (contents p)).
    apply slice_mid; [lia|]. rewrite length_app. unfold ab. cbn. lia.
Qed.

Lemma read_mac p k m a0 a1 a2 a3 a4 a5 :
  0 <= k -> k + 6 <= length p -> m = [a0; a1; a2; a3; a4; a5] ->
  copy 6 m 0 (bytes p) (start p + k)
  = [aget 0 (contents p) k; aget 0 (contents p) (k + 1); aget 0 (contents p) (k + 2);
     aget 0 (contents p) (k + 3); aget 0 (contents p) (k + 4); aget 0 (contents p) (k + 5)].
Proof.
  intros Hk0 Hk ->. cbn [copy]. rewrite <- !(read_byte p) by lia. rewrite <- !Z.add_assoc. reflexivity.
Qed.

Lemma arp_pull_spec p a op smac sip tmac tip rest :
  packet_wf p -> mac_ok smac -> mac_ok tmac -> mac_ok (sender_mac a) -> mac_ok (target_mac a) ->
  is_u32 sip -> is_u32 tip -> op = 1 \/ op = 2 ->
  contents p = arp_bytes op smac sip tmac tip ++ rest ->
  exists p', rix_net_arp_pull (Some p) (Some a) = (0, Some {| hardware_type := 1; protocol_type := 0x0800;
      hardware_length := 6; protocol_length := 4; operation := op; sender_mac := smac; sender_ip := sip;
      target_mac := tmac; target_ip := tip |}, Some p') /\ packet_wf p' /\ contents p' = rest.
Proof.
  intros Hwf [Hs _] [Ht _] [Has _] [Hat _] Hsip Htip Hop Hc. pose proof (length_contents p Hwf) as Hlc.
  destruct (mac_explode smac Hs) as (s0 & s1 & s2 & s3 & s4 & s5 & ->).
  destruct (mac_explode tmac Ht) as (t0 & t1 & t2 & t3 & t4 & t5 & ->).
  destruct (mac_explode (sender_mac a) Has) as (? & ? & ? & ? & ? & ? & Ea).
  destruct (mac_explode (target_mac a) Hat) as (? & ? & ? & ? & ? & ? & Eb).
  assert (Hlen : 28 <= length p) by (rewrite <- Hlc, Hc, length_app; cbn; lia).
  unfold rix_net_arp_pull, RIX_NET_ARP_HEADER_LENGTH. cbn [rix_net_packet_length].
  destruct (length p <? 28) eqn:E; bool_to_prop; [lia|]. rewrite data_ok by done. cbv zeta.
  destruct (pull_ok p 28 Hwf ltac:(lia)) as [-> Hw'].
  rewrite (read_mac p 8 _ _ _ _ _ _ _ ltac:(lia) ltac:(lia) Ea), (read_mac p 18 _ _ _ _ _ _ _ ltac:(lia) ltac:(lia) Eb).
  rewrite !read_be16, !read_byte, !read_be32 by lia.
  set (l := contents p) in *.
  assert (Eop : get_be16 l 6 = op) by (apply get_be16_bytes; [unfold is_u16; lia|by rewrite Hc..]).
  assert (Esip : get_be32 l 14 = sip) by (apply get_be32_bytes; [done|by rewrite Hc..]).
  assert (Etip : get_be32 l 24 = tip) by (apply get_be32_bytes; [done|by rewrite Hc..]).
  assert (E0 : get_be16 l 0 = 1) by (rewrite Hc; reflexivity).
  assert (E2 : get_be16 l 2 = 0x0800) by (rewrite Hc; reflexivity).
  rewrite Eop, Esip, Etip, E0, E2, Hc. eexists. split; [|split; [exact Hw'|]].
  - destruct Hop as [->| ->]; reflexivity.
  - rewrite contents_drop by (done || lia). fold l. rewrite Hc. reflexivity.
Qed.

(** ARP packets round-trip. A request or reply pushed on a packet with room
    for 28 bytes pulls back with every field intact and the bytes that follow
    left in place. *)
Theorem arp_roundtrip p a op smac sip tmac tip
    (Hwf : packet_wf p) (Hempty : length p = 0) (Hroom : start p + 28 <= RIX_NET_FRAME_CAPACITY)
    (Hs : mac_ok smac) (Ht : mac_ok tmac) (Has : mac_ok (sender_mac a)) (Hat : mac_ok (target_mac a))
    (Hsip : is_u32 sip) (Htip : is_u32 tip) (Hs0 : sip ≠ 0) (Ht0 : tip ≠ 0) (Hop : op = 1 ∨ op = 2) :
  ∃ p' p'', rix_net_arp_push (Some p) op (Some smac) sip (Some tmac) tip = (0, Some p') ∧
    contents p' = arp_bytes op smac sip tmac tip ∧
    rix_net_arp_pull (Some p') (Some a) = (0, Some {| hardware_type := 1; protocol_type := 0x0800;
      hardware_length := 6; protocol_length := 4; operation := op; sender_mac := smac; sender_ip := sip;
      target_mac := tmac; target_ip := tip |}, Some p'') ∧ contents p'' = [].
Proof.
  destruct (arp_push_spec p op smac sip tmac tip) as (p' & E1 & Hw1 & Hc1); try done; [lia|].
  assert (Hnil : contents p = []) by (unfold contents; rewrite Hempty; by apply slice_nil).
  rewrite Hnil in Hc1. cbn [app] in Hc1.
  destruct (arp_pull_spec p' a op smac sip tmac tip []) as (p'' & E2 & Hw2 & Hc2); try done; [by rewrite app_nil_r|].
  by exists p', p''.
Qed.

Lemma arp_roundtrip_witness :
  ∃ p' p'', rix_net_arp_push (Some (set_bounds 64 0 demo_packet)) 1 (Some [1; 2; 3; 4; 5; 6]) 0x0a000001
      (Some [0; 0; 0; 0; 0; 0]) 0x0a000002 = (0, Some p') ∧ contents p'' = [] ∧
    contents p' = [0; 1; 8; 0; 6; 4; 0; 1; 1; 2; 3; 4; 5; 6; 10; 0; 0; 1; 0; 0; 0; 0; 0; 0; 10; 0; 0; 2].
Proof.
  assert (Hm : forall m, llen m = 6 -> forallb (fun x => (0 <=? x) && (x <? 256)) m = true -> mac_ok m).
  { intros m Hl Hf. split; [done|]. apply Is_true_eq_left in Hf. rewrite forallb_True in Hf.
    eapply Forall_impl; [|exact Hf]. cbn. intros x Hx. apply Is_true_eq_true in Hx. bool_to_prop. unfold is_u8. lia. }
  destruct (arp_roundtrip (set_bounds 64 0 demo_packet)
    {| hardware_type := 0; protocol_type := 0; hardware_length := 0; protocol_length := 0; operation := 0;
       sender_mac := [0; 0; 0; 0; 0; 0]; sender_ip := 0; target_mac := [0; 0; 0; 0; 0; 0]; target_ip := 0 |}
    1 [1; 2; 3; 4; 5; 6] 0x0a000001 [0; 0; 0; 0; 0; 0] 0x0a000002) as (p' & p'' & E & Hc & _ & Hc2);
    [apply (shrink_wf demo_packet 0 demo_packet_wf); cbn; lia|reflexivity|rewrite capacity_val; cbn; lia
    |apply Hm; reflexivity|apply Hm; reflexivity|apply Hm; reflexivity|apply Hm; reflexivity
    |unfold is_u32; lia|unfold is_u32; lia|lia|lia|by left|].
  exists p', p''. split; [exact E|]. split; [exact Hc2|]. rewrite Hc. vm_compute. reflexivity.
Defined.
