(* ===== verification/Ipv4.v ===== *)
(** * IPv4 and ICMP echo ([kernel/net/ipv4.h], [kernel/net/ipv4.c]) *)
From stdpp Require Import base tactics list numbers.
From S2P Require Import Prelude Bytes NetPacket Ethernet.

Definition RIX_NET_IP_PROTO_ICMP : Z := 1.
Definition RIX_NET_IP_PROTO_TCP : Z := 6.
Definition RIX_NET_IP_PROTO_UDP : Z := 17.
Definition RIX_NET_ICMP_ECHO_REQUEST : Z := 8.
Definition RIX_NET_ICMP_ECHO_REPLY : Z := 0.

Record rix_net_ipv4_header_t := {
  source : Z; destination : Z; protocol : Z; ttl : Z; identification : Z; flags_fragment : Z; total_length : Z }.

Record rix_net_icmp_echo_t := { type : Z; code : Z; identifier : Z; sequence : Z }.

(** The fields of [struct ipv4_wire] (20 bytes) are stored at their offsets. *)
Definition rix_net_ipv4_push (p : option rix_net_packet_t) (src dst proto ttl id ff : Z) : Z * option rix_net_packet_t :=
  match p with
  | None => (-1, None)
  | Some q =>
      if (ttl =? 0) || (65515 <? rix_net_packet_length p) then (-1, p)
      else match rix_net_packet_push q 20 with
           | (0, Some w, q') =>
               let b := aset (w + 0) 0x45 (bytes q') in
               let b := aset (w + 1) 0 b in
               let b := store16 b (w + 2) (be16 (u16 (rix_net_packet_length (Some q')))) in
               let b := store16 b (w + 4) (be16 id) in
               let b := store16 b (w + 6) (be16 ff) in
               let b := aset (w + 8) ttl b in
               let b := aset (w + 9) proto b in
               let b := store16 b (w + 10) 0 in
               let b := store32 b (w + 12) (be32 src) in
               let b := store32 b (w + 16) (be32 dst) in
               let b := store16 b (w + 10) (be16 (rix_net_checksum b w 20)) in
               (0, Some (set_bytes b q'))
           | (_, _, q') => (-1, Some q')
           end
  end.

(** [rix_net_packet_data] is dereferenced unchecked; it is null only for a
    packet outside its invariant. *)
Definition rix_net_ipv4_pull (p : option rix_net_packet_t) (header : option rix_net_ipv4_header_t)
  : Z * option rix_net_ipv4_header_t * option rix_net_packet_t :=
  match p, header with
  | Some q, Some hd =>
      if rix_net_packet_length p <? 20 then (-1, header, p)
      else match rix_net_packet_data q with
           | None => (-1, header, p)
           | Some o =>
               let b := bytes q in
               if negb (Z.shiftr (aget 0 b (o + 0)) 4 =? 4) || negb (Z.land (aget 0 b (o + 0)) 0xf =? 5) then (-1, header, p)
               else if negb (rix_net_checksum b o 20 =? 0) then (-2, header, p)
               else
                 let total := u16 (Z.lor (u16 (Z.shiftl (aget 0 b (o + 2)) 8)) (aget 0 b (o + 3))) in
                 if (total <? 20) || (rix_net_packet_length p <? total) then (-3, header, p)
                 else match rix_net_packet_pull q 20 with
                      | (0, Some w, q') =>
                          (0, Some {| identification := be16 (load16 b (w + 4)); flags_fragment := be16 (load16 b (w + 6));
                                      source := be32 (load32 b (w + 12)); destination := be32 (load32 b (w + 16));
                                      protocol := aget 0 b (w + 9); ttl := aget 0 b (w + 8);
                                      total_length := total_length hd |},
                           Some (set_bounds (start q') (total - 20) q'))
                      | (_, _, q') => (-1, header, Some q')
                      end
           end
  | _, _ => (-1, header, p)
  end.

Definition rix_net_icmp_echo_push (p : option rix_net_packet_t) (ty id seq : Z) (payload : option (list Z)) (plen : Z)
  : Z * option rix_net_packet_t :=
  match p with
  | None => (-1, None)
  | Some q =>
      if (truthy plen && match payload with None => true | _ => false end) || (65527 <? plen) then (-1, p)
      else match rix_net_packet_put q plen with
           | (0, Some body, q1) =>
               let b := copy (Z.to_nat plen) (bytes q1) body (default [] payload) 0 in
               match rix_net_packet_push (set_bytes b q1) 8 with
               | (0, Some w, q2) =>
                   let b := aset (w + 0) ty (bytes q2) in
                   let b := aset (w + 1) 0 b in
                   let b := store16 b (w + 2) 0 in
                   let b := store16 b (w + 4) (be16 id) in
                   let b := store16 b (w + 6) (be16 seq) in
                   let q3 := set_bytes b q2 in
                   let ck := match rix_net_packet_data q3 with
                             | Some o => rix_net_checksum b o (rix_net_packet_length (Some q3))
                             | None => 0
                             end in
                   (0, Some (set_bytes (store16 b (w + 2) (be16 ck)) q3))
               | (_, _, q2) => (-1, Some q2)
               end
           | (_, _, q1) => (-1, Some q1)
           end
  end.

Definition rix_net_icmp_echo_pull (p : option rix_net_packet_t) (echo : option rix_net_icmp_echo_t)
  : Z * option rix_net_icmp_echo_t * option rix_net_packet_t :=
  match p, echo with
  | Some q, Some e =>
      if rix_net_packet_length p <? 8 then (-1, echo, p)
      else match rix_net_packet_data q with
           | None => (-1, echo, p)
           | Some o =>
               let b := bytes q in
               if negb (rix_net_checksum b o (rix_net_packet_length p) =? 0) then (-2, echo, p)
               else
                 let e' := {| type := aget 0 b (o + 0); code := aget 0 b (o + 1);
                              identifier := be16 (load16 b (o + 4)); sequence := be16 (load16 b (o + 6)) |} in
                 let '(rc, _, q') := rix_net_packet_pull q 8 in (rc, Some e', Some q')
           end
  | _, _ => (-1, echo, p)
  end.

(** ** Byte order of 32-bit fields *)

Lemma land_byte v k : 0 <= k -> Z.land v (Z.shiftl 255 k) = Z.shiftl (u8 (Z.shiftr v k)) k.
Proof.
  intros Hk. apply Z.bits_inj'. intros n Hn. rewrite Z.land_spec. destruct (decide (n < k)).
  - by rewrite !Z.shiftl_spec_low, andb_false_r by lia.
  - rewrite !Z.shiftl_spec by lia. unfold u8. change 255 with (Z.ones 8). destruct (decide (n - k < 8)).
    + rewrite Z.ones_spec_low, Z.mod_pow2_bits_low, Z.shiftr_spec by lia. rewrite andb_true_r. f_equal. lia.
    + rewrite Z.ones_spec_high, Z.mod_pow2_bits_high by lia. apply andb_false_r.
Qed.

Lemma be32_sum v : is_u32 v ->
  be32 v = u8 v * 2 ^ 24 + u8 (Z.shiftr v 8) * 2 ^ 16 + u8 (Z.shiftr v 16) * 2 ^ 8 + u8 (Z.shiftr v 24).
Proof.
  intros Hv. unfold be32.
  pose proof (land_byte v 24 ltac:(lia)) as E24. change (Z.shiftl 255 24) with 0xff000000 in E24.
  pose proof (land_byte v 16 ltac:(lia)) as E16. change (Z.shiftl 255 16) with 0x00ff0000 in E16.
  pose proof (land_byte v 8 ltac:(lia)) as E8. change (Z.shiftl 255 8) with 0x0000ff00 in E8.
  pose proof (land_byte v 0 ltac:(lia)) as E0. rewrite Z.shiftr_0_r, !Z.shiftl_0_r in E0.
  rewrite E24, E16, E8, E0.
  pose proof (u8_range v) as R0. pose proof (u8_range (Z.shiftr v 8)) as R8.
  pose proof (u8_range (Z.shiftr v 16)) as R16. pose proof (u8_range (Z.shiftr v 24)) as R24. unfold is_u8 in *.
  rewrite !Z.shiftr_shiftl_l by lia. rewrite !Z.shiftl_shiftl by lia. cbn [Z.sub Z.opp Z.add Z.pos_sub Pos.pred_double].
  change (24 - 24) with 0. change (16 - 8) with 8. change (8 + 8) with 16. rewrite Z.shiftl_0_r.
  rewrite (Z.lor_comm (u8 (Z.shiftr v 24))), lor_shiftl by lia.
  rewrite (Z.lor_comm _ (Z.shiftl (u8 (Z.shiftr v 8)) 16)), lor_shiftl by lia.
  rewrite (Z.lor_comm _ (Z.shiftl (u8 v) 24)), lor_shiftl by lia. lia.
Qed.

Lemma digits4 a b c d : is_u8 a -> is_u8 b -> is_u8 c -> is_u8 d ->
  let v := a * 2 ^ 24 + b * 2 ^ 16 + c * 2 ^ 8 + d in
  u8 v = d /\ u8 (Z.shiftr v 8) = c /\ u8 (Z.shiftr v 16) = b /\ u8 (Z.shiftr v 24) = a /\ is_u32 v.
Proof.
  unfold is_u8, is_u32. intros Ha Hb Hc Hd. cbv zeta. rewrite !shiftr_u8 by lia. unfold u8.
  change (2 ^ 24) with 16777216 in *. change (2 ^ 16) with 65536 in *. change (2 ^ 8) with 256 in *.
  repeat split; try lia.
  - symmetry. apply Z.mod_unique_pos with (a * 65536 + b * 256 + c); lia.
  - replace (a * 16777216 + b * 65536 + c * 256 + d) with ((a * 65536 + b * 256 + c) * 256 + d) by lia.
    rewrite Z.div_add_l, Z.div_small by lia. symmetry. apply Z.mod_unique_pos with (a * 256 + b); lia.
  - replace (a * 16777216 + b * 65536 + c * 256 + d) with ((a * 256 + b) * 65536 + (c * 256 + d)) by lia.
    rewrite Z.div_add_l, Z.div_small by lia. symmetry. apply Z.mod_unique_pos with a; lia.
  - replace (a * 16777216 + b * 65536 + c * 256 + d) with (a * 16777216 + (b * 65536 + c * 256 + d)) by lia.
    rewrite Z.div_add_l, Z.div_small by lia. rewrite Z.add_0_r. apply Z.mod_small. lia.
Qed.

Lemma be32_bytes v : is_u32 v ->
  [u8 (be32 v); u8 (Z.shiftr (be32 v) 8); u8 (Z.shiftr (be32 v) 16); u8 (Z.shiftr (be32 v) 24)] = be_bytes32 v.
Proof.
  intros Hv. rewrite be32_sum by done.
  destruct (digits4 (u8 v) (u8 (Z.shiftr v 8)) (u8 (Z.shiftr v 16)) (u8 (Z.shiftr v 24))) as (-> & -> & -> & -> & _);
    auto with rix.
Qed.

Lemma be32_load v l k :
  is_u32 v -> aget 0 l k = u8 (Z.shiftr v 24) -> aget 0 l (k + 1) = u8 (Z.shiftr v 16) ->
  aget 0 l (k + 2) = u8 (Z.shiftr v 8) -> aget 0 l (k + 3) = u8 v -> be32 (load32 l k) = v.
Proof.
  intros Hv H0 H1 H2 H3. unfold load32. rewrite H0, H1, H2, H3.
  pose proof (u8_range v) as R0. pose proof (u8_range (Z.shiftr v 8)) as R8.
  pose proof (u8_range (Z.shiftr v 16)) as R16. pose proof (u8_range (Z.shiftr v 24)) as R24.
  assert (E : Z.lor (Z.lor (Z.lor (u8 (Z.shiftr v 24)) (Z.shiftl (u8 (Z.shiftr v 16)) 8)) (Z.shiftl (u8 (Z.shiftr v 8)) 16)) (Z.shiftl (u8 v) 24)
    = u8 v * 2 ^ 24 + u8 (Z.shiftr v 8) * 2 ^ 16 + u8 (Z.shiftr v 16) * 2 ^ 8 + u8 (Z.shiftr v 24)).
  { unfold is_u8 in *. rewrite (Z.lor_comm (u8 (Z.shiftr v 24))), lor_shiftl by lia.
    rewrite (Z.lor_comm _ (Z.shiftl (u8 (Z.shiftr v 8)) 16)), lor_shiftl by lia.
    rewrite (Z.lor_comm _ (Z.shiftl (u8 v) 24)), lor_shiftl by lia. lia. }
  rewrite E. destruct (digits4 _ _ _ _ R0 R8 R16 R24) as (D0 & D8 & D16 & D24 & Du).
  rewrite be32_sum by done. rewrite D0, D8, D16, D24. by apply be_join32.
Qed.

Lemma be16_load_field v l k :
  is_u16 v -> aget 0 l k = u8 (Z.shiftr v 8) -> aget 0 l (k + 1) = u8 v -> be16 (load16 l k) = v.
Proof. intros Hv H0 H1. unfold load16. rewrite H0, H1. by apply be16_invol. Qed.

(** ** The IPv4 header on the wire *)

Definition ipv4_header (total id ff ttl proto ck src dst : Z) : list Z :=
  [0x45; 0] ++ be_bytes16 total ++ be_bytes16 id ++ be_bytes16 ff ++ [ttl; proto] ++ be_bytes16 ck ++
  be_bytes32 src ++ be_bytes32 dst.

(** The checksum field that makes the header verify. *)
Definition ipv4_checksum (total id ff ttl proto src dst : Z) : Z :=
  rix_net_checksum_add (be_sum (ipv4_header total id ff ttl proto 0 src dst)).

Lemma store16_be l k v : is_u16 v -> store16 l k (be16 v) = put_be16 l k v.
Proof. intros Hv. destruct (be16_bytes v Hv) as [E1 E2]. unfold store16, put_be16. by rewrite E1, E2. Qed.

Lemma store32_be l k v : is_u32 v -> store32 l k (be32 v) = put_be32 l k v.
Proof.
  intros Hv. pose proof (be32_bytes v Hv) as E. unfold be_bytes32 in E. injection E as E0 E1 E2 E3.
  unfold store32, put_be32. by rewrite E0, E1, E2, E3.
Qed.

Lemma header_u8 total id ff ttl proto ck src dst :
  is_u8 ttl -> is_u8 proto -> Forall is_u8 (ipv4_header total id ff ttl proto ck src dst).
Proof.
  intros H1 H2. unfold ipv4_header, be_bytes16, be_bytes32. cbn [app].
  repeat (constructor; [first [apply u8_range|done|unfold is_u8; lia]|]). constructor.
Qed.

Lemma checksum_range b off n :
  Forall is_u8 b -> 0 <= n <= 1580 -> is_u16 (rix_net_checksum b off n).
Proof.
  intros Hb Hn. unfold rix_net_checksum. rewrite sum_bytes_spec by (try done; lia).
  pose proof (be_sum_bound (slice b off n) ltac:(apply Forall_slice; [done|unfold is_u8; lia])) as Hs.
  rewrite length_slice in Hs by lia. pose proof (checksum_add_range (0 + be_sum (slice b off n)) ltac:(lia)).
  unfold is_u16. lia.
Qed.

Record ipv4_args (src dst proto ttl id ff : Z) : Prop := {
  ia_src : is_u32 src; ia_dst : is_u32 dst; ia_proto : is_u8 proto; ia_ttl : is_u8 ttl; ia_ttl0 : ttl <> 0;
  ia_id : is_u16 id; ia_ff : is_u16 ff }.

Lemma ipv4_push_spec p src dst proto ttl id ff :
  packet_wf p -> 20 <= start p -> ipv4_args src dst proto ttl id ff ->
  exists p', rix_net_ipv4_push (Some p) src dst proto ttl id ff = (0, Some p') /\ packet_wf p' /\
    contents p' = ipv4_header (length p + 20) id ff ttl proto
                    (ipv4_checksum (length p + 20) id ff ttl proto src dst) src dst ++ contents p.
Proof.
  intros Hwf Hs [Hsrc Hdst Hpr Httl H0 Hid Hff]. pose proof Hwf as (Hcap & H1 & H2 & H3 & H4). rewrite capacity_val in *.
  unfold rix_net_ipv4_push. cbn [rix_net_packet_length].
  destruct (_ || _) eqn:Eg; [exfalso; bool_to_prop; destruct Eg; bool_to_prop; lia|].
  destruct (push_ok p 20 Hwf ltac:(lia)) as [-> _].
  destruct (carve_header p 20 Hwf ltac:(lia)) as (pre & h & post & E & Hpre & Hh & Hb1 & Hb2).
  pose proof (length_contents p Hwf) as Hlc. set (total := length p + 20). assert (Ht : is_u16 total) by (unfold is_u16; lia).
  set (ck := ipv4_checksum total id ff ttl proto src dst).
  set (hdr := ipv4_header total id ff ttl proto ck src dst).
  set (rest := contents p ++ post) in *.
  cbn [bytes set_bounds]. rewrite E, <- Hpre. cbn [length set_bounds]. fold total. rewrite (u16_id total) by done.
  set (b1 := store32 _ (llen pre + 16) _).
  assert (Eb1 : b1 = pre ++ ipv4_header total id ff ttl proto 0 src dst ++ rest).
  { unfold b1. rewrite !store16_be, !store32_be by done.
    rewrite !aset_pre, !put_be16_pre, !aset_pre, store16_pre, !put_be32_pre by lia. f_equal.
    assert (Hh20 : List.length h = 20%nat) by lia.
    do 20 (destruct h as [|? h]; [done|]). destruct h; [|done]. reflexivity. }
  assert (Hu1 : Forall is_u8 b1).
  { rewrite Eb1, !Forall_app. repeat split; try done; [by apply header_u8|unfold rest in Hb2; by rewrite Forall_app in Hb2..]. }
  assert (Eck : rix_net_checksum b1 (llen pre) 20 = ck).
  { unfold rix_net_checksum. rewrite sum_bytes_spec by (try done; lia). rewrite Eb1.
    rewrite (slice_mid pre (ipv4_header total id ff ttl proto 0 src dst)) by reflexivity. done. }
  assert (Hcku : is_u16 ck) by (rewrite <- Eck; apply checksum_range; [done|lia]).
  eexists. split; [reflexivity|].
  assert (Ebytes : store16 b1 (llen pre + 10) (be16 (rix_net_checksum b1 (llen pre) 20)) = pre ++ hdr ++ rest).
  { rewrite Eck, store16_be by done. rewrite Eb1, put_be16_pre by lia. reflexivity. }
  destruct (header_written p 20 pre hdr post
    (set_bytes (store16 b1 (llen pre + 10) (be16 (rix_net_checksum b1 (llen pre) 20))) (set_bounds (llen pre) (length p + 20) p)) Hwf
    ltac:(lia) Hpre) as [Hw Hc]; try done.
  - assert (Hl20 : List.length hdr = 20%nat) by reflexivity.
    rewrite capacity_val, <- Hcap, E. unfold rest. rewrite !length_app. lia.
  - by apply header_u8.
  - unfold set_bytes, set_bounds. cbn [start length]. by rewrite Ebytes, Hpre.
Qed.

(** Every outcome of [rix_net_ipv4_pull] on an arbitrary frame. *)
Lemma ipv4_pull_cases p hd :
  packet_wf p ->
  let l := contents p in
  let '(rc, hd', q) := rix_net_ipv4_pull (Some p) (Some hd) in
  (rc = -1 /\ hd' = Some hd /\ q = Some p /\ (length p < 20 \/ aget 0 l 0 <> 0x45)) \/
  (rc = -2 /\ hd' = Some hd /\ q = Some p /\ rix_net_checksum_add (be_sum (take 20 l)) <> 0) \/
  (rc = -3 /\ hd' = Some hd /\ q = Some p /\ (get_be16 l 2 < 20 \/ length p < get_be16 l 2)) \/
  (rc = 0 /\ 20 <= get_be16 l 2 <= length p /\ aget 0 l 0 = 0x45 /\ rix_net_checksum_add (be_sum (take 20 l)) = 0 /\
   hd' = Some {| source := be32 (load32 l 12); destination := be32 (load32 l 16); protocol := aget 0 l 9; ttl := aget 0 l 8;
                 identification := be16 (load16 l 4); flags_fragment := be16 (load16 l 6); total_length := total_length hd |} /\
   exists p', q = Some p' /\ packet_wf p' /\ contents p' = take (Z.to_nat (get_be16 l 2 - 20)) (drop 20 l)).
Proof.
  intros Hwf. cbv zeta. unfold rix_net_ipv4_pull. cbn [rix_net_packet_length].
  destruct (length p <? 20) eqn:E; bool_to_prop; [by left; eauto|].
  pose proof (contents_u8 p Hwf) as Hu. pose proof (aget_u8 (contents p) 0 Hu) as Hv0.
  rewrite data_ok by done. cbv zeta.
  rewrite !read_byte by lia.
  assert (Hver : negb (Z.shiftr (aget 0 (contents p) 0) 4 =? 4) || negb (Z.land (aget 0 (contents p) 0) 0xf =? 5)
                 = negb (aget 0 (contents p) 0 =? 0x45)).
  { change 0xf with (Z.ones 4). rewrite Z.land_ones, Z.shiftr_div_pow2 by lia. change (2 ^ 4) with 16.
    set (v := aget 0 (contents p) 0) in *. unfold is_u8 in Hv0. pose proof (Z.div_mod v 16 ltac:(lia)).
    pose proof (Z.mod_pos_bound v 16 ltac:(lia)).
    destruct (v / 16 =? 4) eqn:E1, (v mod 16 =? 5) eqn:E2, (v =? 69) eqn:E3; bool_to_prop; cbn; try done; lia. }
  rewrite Hver. destruct (aget 0 (contents p) 0 =? 0x45) eqn:Ev; bool_to_prop; cbn [negb]; [|left; eauto 6].
  assert (Hck : rix_net_checksum (bytes p) (start p) 20 = rix_net_checksum_add (be_sum (take 20 (contents p)))).
  { unfold rix_net_checksum. rewrite (sum_frame p 20 0 Hwf) by lia. done. }
  rewrite Hck. destruct (_ =? 0) eqn:Ec; bool_to_prop; cbn [negb]; [|right; left; eauto].
  assert (Htot : u16 (Z.lor (u16 (Z.shiftl (aget 0 (contents p) 2) 8)) (aget 0 (contents p) 3)) = get_be16 (contents p) 2).
  { unfold get_be16. change (2 + 1) with 3. f_equal. f_equal. apply u16_id. pose proof (aget_u8 (contents p) 2 Hu) as H2.
    rewrite Z.shiftl_mul_pow2 by lia. unfold is_u8, is_u16 in *. lia. }
  rewrite Htot. destruct ((get_be16 (contents p) 2 <? 20) || (length p <? get_be16 (contents p) 2)) eqn:Et.
  { right. right. left. split; [done|]. split; [done|]. split; [done|]. bool_to_prop. destruct Et; bool_to_prop; [by left|by right]. }
  bool_to_prop. destruct (pull_ok p 20 Hwf ltac:(lia)) as [-> Hw']. cbn [start length set_bounds bytes].
  rewrite !read_byte, !read_load16, !read_load32 by lia.
  right. right. right. split; [done|]. split; [lia|]. split; [done|]. split; [done|]. split; [done|].
  eexists. split; [reflexivity|].
  assert (Hb : 0 <= get_be16 (contents p) 2 - 20 <= length p - 20) by lia.
  split; [by apply (shrink_wf (set_bounds (start p + 20) (length p - 20) p))|].
  pose proof (contents_take (set_bounds (start p + 20) (length p - 20) p) (get_be16 (contents p) 2 - 20) Hw' Hb) as Hct.
  cbn [start set_bounds] in Hct. rewrite contents_drop in Hct by (done || lia). exact Hct.
Qed.

Lemma header_sum total id ff ttl proto ck src dst :
  is_u16 ck ->
  be_sum (ipv4_header total id ff ttl proto ck src dst) = be_sum (ipv4_header total id ff ttl proto 0 src dst) + ck.
Proof.
  intros Hck. pose proof (hi_lo ck Hck) as Hv. unfold ipv4_header, be_bytes16, be_bytes32. cbn [app be_sum].
  change (u8 (Z.shiftr 0 8)) with 0. change (u8 0) with 0. lia.
Qed.

Lemma header_verifies total id ff ttl proto src dst :
  is_u8 ttl -> is_u8 proto ->
  rix_net_checksum_add (be_sum (ipv4_header total id ff ttl proto
    (ipv4_checksum total id ff ttl proto src dst) src dst)) = 0.
Proof.
  intros Ht Hp. pose proof (be_sum_bound _ (header_u8 total id ff ttl proto 0 src dst Ht Hp)) as Hb.
  change (llen (ipv4_header total id ff ttl proto 0 src dst)) with 20 in Hb.
  pose proof (checksum_add_range (be_sum (ipv4_header total id ff ttl proto 0 src dst)) ltac:(lia)) as Hr.
  rewrite header_sum by (unfold is_u16, ipv4_checksum; lia). apply checksum_cancels; lia.
Qed.

(** IPv4 headers round-trip. Pushing a header on a packet with room for it
    writes a header whose checksum verifies and whose total length covers the
    frame; pulling it returns every field as given (except [total_length],
    which the code never fills in) and the original frame. *)
Theorem ipv4_roundtrip p hd src dst proto ttl id ff
    (Hwf : packet_wf p) (Hroom : 20 <= start p) (Hargs : ipv4_args src dst proto ttl id ff) :
  ∃ p' p'', rix_net_ipv4_push (Some p) src dst proto ttl id ff = (0, Some p') ∧
    rix_net_ipv4_pull (Some p') (Some hd)
      = (0, Some {| source := src; destination := dst; protocol := proto; ttl := ttl; identification := id;
                    flags_fragment := ff; total_length := total_length hd |}, Some p'') ∧
    packet_wf p'' ∧ contents p'' = contents p.
Proof.
  destruct (ipv4_push_spec p src dst proto ttl id ff Hwf Hroom Hargs) as (p' & E & Hw' & Hc).
  exists p'. destruct Hargs as [Hsrc Hdst Hpr Httl H0 Hid Hff].
  pose proof (length_contents p' Hw') as Hl'. pose proof (length_contents p Hwf) as Hl.
  pose proof Hwf as (_ & _ & Hlen0 & Hcap & _). rewrite capacity_val in Hcap.
  set (total := length p + 20) in *. set (ck := ipv4_checksum total id ff ttl proto src dst) in *.
  assert (Hlp : length p' = total) by (rewrite <- Hl', Hc, length_app, Nat2Z.inj_add, Hl; cbn; lia).
  assert (Htot : get_be16 (contents p') 2 = total) by (rewrite Hc; apply get_be16_bytes; [unfold is_u16; lia|reflexivity..]).
  pose proof (ipv4_pull_cases p' hd Hw') as H. cbv zeta in H.
  assert (Htake : take 20 (contents p') = ipv4_header total id ff ttl proto ck src dst) by (rewrite Hc; reflexivity).
  rewrite Htake, Htot in H. destruct (rix_net_ipv4_pull (Some p') (Some hd)) as [[rc hd'] q].
  destruct H as [(_ & _ & _ & H)|[(_ & _ & _ & H)|[(_ & _ & _ & H)|(-> & _ & _ & _ & -> & p'' & -> & Hw'' & Hc'')]]].
  - exfalso. destruct H as [H|H]; [lia|]. apply H. rewrite Hc. reflexivity.
  - exfalso. apply H. by apply header_verifies.
  - exfalso. lia.
  - exists p''. split; [done|]. split; [|split; [done|]].
    + do 2 f_equal. f_equal. f_equal; rewrite Hc;
        first [apply be32_load; [done|reflexivity..]|apply be16_load_field; [done|reflexivity..]|reflexivity].
    + rewrite Hc'', Hc. change (drop 20 _) with (contents p). apply take_ge. lia.
Qed.

Lemma ipv4_roundtrip_witness :
  ∃ p' p'', rix_net_ipv4_push (Some demo_packet) 0x0a000001 0x0a000002 17 64 7 0x4000 = (0, Some p') ∧ contents p'' = [1; 2; 3].
Proof.
  destruct (ipv4_roundtrip demo_packet {| source := 0; destination := 0; protocol := 0; ttl := 0; identification := 0;
      flags_fragment := 0; total_length := 0 |} 0x0a000001 0x0a000002 17 64 7 0x4000 demo_packet_wf)
    as (p' & p'' & E & _ & _ & Hc); [cbn; lia|split; unfold is_u32, is_u16, is_u8; lia|].
  exists p', p''. split; [exact E|]. rewrite Hc. vm_compute. reflexivity.
Defined.

(** IPv4 parsing is safe on any frame. Whatever bytes arrived, the pull
    returns: -1 on a short frame or a version/header-length byte other than
    0x45, -2 on a bad checksum, -3 on a total length that does not fit, leaving
    packet and header untouched; otherwise 0, with the payload being exactly
    the bytes the total length covers, never past the received frame. *)
Theorem ipv4_pull_safe p hd (Hwf : packet_wf p) :
  let l := contents p in
  let '(rc, hd', q) := rix_net_ipv4_pull (Some p) (Some hd) in
  (rc = -1 ∧ hd' = Some hd ∧ q = Some p ∧ (length p < 20 ∨ aget 0 l 0 ≠ 0x45)) ∨
  (rc = -2 ∧ hd' = Some hd ∧ q = Some p ∧ rix_net_checksum_add (be_sum (take 20 l)) ≠ 0) ∨
  (rc = -3 ∧ hd' = Some hd ∧ q = Some p ∧ (get_be16 l 2 < 20 ∨ length p < get_be16 l 2)) ∨
  (rc = 0 ∧ 20 <= get_be16 l 2 <= length p ∧ aget 0 l 0 = 0x45 ∧ rix_net_checksum_add (be_sum (take 20 l)) = 0 ∧
   hd' = Some {| source := be32 (load32 l 12); destination := be32 (load32 l 16); protocol := aget 0 l 9; ttl := aget 0 l 8;
                 identification := be16 (load16 l 4); flags_fragment := be16 (load16 l 6); total_length := total_length hd |} ∧
   ∃ p', q = Some p' ∧ packet_wf p' ∧ contents p' = take (Z.to_nat (get_be16 l 2 - 20)) (drop 20 l)).
Proof. exact (ipv4_pull_cases p hd Hwf). Qed.

Lemma ipv4_pull_safe_witness :
  packet_wf demo_packet ∧ (length demo_packet < 20 ∨ aget 0 (contents demo_packet) 0 ≠ 0x45).
Proof.
  split; [exact demo_packet_wf|].
  set (hd := {| source := 0; destination := 0; protocol := 0; ttl := 0; identification := 0;
                flags_fragment := 0; total_length := 0 |}).
  pose proof (ipv4_pull_safe demo_packet hd demo_packet_wf) as H. cbv zeta in H.
  assert (E : fst (fst (rix_net_ipv4_pull (Some demo_packet) (Some hd))) = -1) by (vm_compute; reflexivity).
  destruct (rix_net_ipv4_pull _ _) as [[rc hd'] q]. cbn [fst] in E. subst rc.
  destruct H as [(_ & _ & _ & H)|[(H & _)|[(H & _)|(H & _)]]]; [exact H|discriminate H..].
Defined.

(** ** ICMP echo *)

Definition icmp_header (ty ck id seq : Z) : list Z := [ty; 0] ++ be_bytes16 ck ++ be_bytes16 id ++ be_bytes16 seq.

Definition icmp_checksum (ty id seq : Z) (body : list Z) : Z :=
  rix_net_checksum_add (be_sum (icmp_header ty 0 id seq ++ body)).

Lemma icmp_header_u8 ty ck id seq : is_u8 ty -> Forall is_u8 (icmp_header ty ck id seq).
Proof.
  intros H1. unfold icmp_header, be_bytes16. cbn [app].
  repeat (constructor; [first [apply u8_range|done|unfold is_u8; lia]|]). constructor.
Qed.

Lemma icmp_sum ty ck id seq body :
  is_u16 ck -> be_sum (icmp_header ty ck id seq ++ body) = be_sum (icmp_header ty 0 id seq ++ body) + ck.
Proof.
  intros Hck. pose proof (hi_lo ck Hck) as Hv. unfold icmp_header, be_bytes16. cbn [app be_sum].
  change (u8 (Z.shiftr 0 8)) with 0. change (u8 0) with 0. lia.
Qed.

Lemma icmp_push_spec p ty id seq payload :
  packet_wf p → 8 <= start p → start p + length p + llen payload <= RIX_NET_FRAME_CAPACITY →
  is_u8 ty → is_u16 id → is_u16 seq → Forall is_u8 payload →
  ∃ p', rix_net_icmp_echo_push (Some p) ty id seq (Some payload) (llen payload) = (0, Some p') ∧ packet_wf p' ∧
    contents p' = icmp_header ty (icmp_checksum ty id seq (contents p ++ payload)) id seq ++ contents p ++ payload ∧
    is_u16 (icmp_checksum ty id seq (contents p ++ payload)).
Proof.
  intros Hwf Hs Hroom Hty Hid Hseq Hpay. pose proof Hwf as (Hcap & H1 & H2 & H3 & H4).
  unfold rix_net_icmp_echo_push. rewrite andb_false_r. cbn [orb].
  destruct (65527 <? llen payload) eqn:Eg; bool_to_prop; [rewrite capacity_val in *; lia|].
  destruct (put_ok p (llen payload) Hwf ltac:(lia) Hroom) as [-> _].
  rewrite Nat2Z.id. change (default [] (Some payload)) with payload.
  change (set_bytes (copy (List.length payload) (bytes (set_bounds (start p) (length p + llen payload) p)) (start p + length p) payload 0)
            (set_bounds (start p) (length p + llen payload) p)) with (put_payload p payload).
  destruct (put_payload_spec p payload Hwf Hroom Hpay) as [Hw1 Hc1]. set (q := put_payload p payload) in *.
  assert (Hsq : start q = start p) by reflexivity. assert (Hlq : length q = length p + llen payload) by reflexivity.
  destruct (push_ok q 8 Hw1 ltac:(lia)) as [-> _].
  destruct (carve_header q 8 Hw1 ltac:(lia)) as (pre & h & post & E & Hpre & Hh & Hb1 & Hb2).
  pose proof (length_contents q Hw1) as Hlc. rewrite <- Hc1.
  set (body := contents q) in *. set (ck := icmp_checksum ty id seq body). set (rest := body ++ post) in *.
  pose proof Hw1 as (Hcap1 & _ & Hl1 & Hend1 & _). rewrite capacity_val in *.
  cbn [bytes set_bounds]. rewrite E, <- Hpre.
  set (b1 := store16 _ (llen pre + 6) _).
  assert (Eb1 : b1 = pre ++ icmp_header ty 0 id seq ++ rest).
  { unfold b1. rewrite !store16_be by done. rewrite !aset_pre, store16_pre, !put_be16_pre by lia. f_equal.
    assert (Hh8 : List.length h = 8%nat) by lia.
    do 8 (destruct h as [|? h]; [done|]). destruct h; [|done]. reflexivity. }
  set (q3 := set_bytes b1 (set_bounds (llen pre) (length q + 8) q)).
  assert (Hw3 : packet_wf q3 /\ contents q3 = icmp_header ty 0 id seq ++ body).
  { apply (header_written q 8 pre (icmp_header ty 0 id seq) post); try done; try lia.
    - assert (Hl8 : List.length (icmp_header ty 0 id seq) = 8%nat) by reflexivity.
      rewrite capacity_val, <- Hcap1, E. unfold rest. fold body. rewrite !length_app. lia.
    - by apply icmp_header_u8.
    - unfold q3, set_bytes, set_bounds. cbn [start length]. by rewrite Eb1, Hpre. }
  destruct Hw3 as [Hw3 Hc3]. rewrite (data_ok q3 Hw3). cbn [rix_net_packet_length].
  assert (Eck : rix_net_checksum b1 (start q3) (length q3) = ck).
  { change b1 with (bytes q3). unfold rix_net_checksum. destruct Hw3 as (Hx1 & Hx2 & Hx3 & Hx4 & Hx5). 
    rewrite (sum_frame q3 (length q3) 0) by (repeat split; done || lia).
    rewrite <- (length_contents q3), Nat2Z.id, firstn_all, Hc3 by (repeat split; done || lia). done. }
  assert (Hcku : is_u16 ck).
  { rewrite <- Eck. apply checksum_range; [apply Hw3|]. destruct Hw3 as (_ & _ & ? & ? & _). rewrite capacity_val in *.
    split; [done|]. assert (0 <= start q3) by (cbn; lia). lia. }
  rewrite Eck. eexists. split; [reflexivity|].
  assert (Hfin : packet_wf (set_bytes (store16 b1 (llen pre + 2) (be16 ck)) q3) ∧
    contents (set_bytes (store16 b1 (llen pre + 2) (be16 ck)) q3) = icmp_header ty ck id seq ++ body).
  { apply (header_written q 8 pre (icmp_header ty ck id seq) post); try done; try lia.
    - assert (Hl8 : List.length (icmp_header ty ck id seq) = 8%nat) by reflexivity.
      rewrite capacity_val, <- Hcap1, E. unfold rest. fold body. rewrite !length_app. lia.
    - by apply icmp_header_u8.
    - unfold q3, set_bytes, set_bounds. cbn [start length]. rewrite store16_be by done. by rewrite Eb1, put_be16_pre, Hpre by lia. }
  destruct Hfin as [Hwf4 Hc4]. split; [exact Hwf4|]. split; [exact Hc4|exact Hcku].
Qed.

(** ICMP echo messages round-trip. An echo pushed with a payload carries a
    checksum that verifies over header and payload; pulling it returns type,
    code 0, identifier and sequence, and leaves the payload. *)
Theorem icmp_echo_roundtrip p e ty id seq payload
    (Hwf : packet_wf p) (Hempty : length p = 0) (Hroom : 8 <= start p)
    (Htail : start p + llen payload <= RIX_NET_FRAME_CAPACITY)
    (Hty : is_u8 ty) (Hid : is_u16 id) (Hseq : is_u16 seq) (Hpay : Forall is_u8 payload) :
  ∃ p' p'', rix_net_icmp_echo_push (Some p) ty id seq (Some payload) (llen payload) = (0, Some p') ∧
    rix_net_icmp_echo_pull (Some p') (Some e)
      = (0, Some {| type := ty; code := 0; identifier := id; sequence := seq |}, Some p'') ∧
    packet_wf p'' ∧ contents p'' = payload.
Proof.
  destruct (icmp_push_spec p ty id seq payload Hwf Hroom ltac:(lia) Hty Hid Hseq Hpay) as (p' & E & Hw' & Hc & Hcku).
  assert (Hnil : contents p = []) by (unfold contents; rewrite Hempty; by apply slice_nil).
  rewrite Hnil in Hc, Hcku. cbn [app] in Hc, Hcku. exists p'.
  pose proof (length_contents p' Hw') as Hl'. pose proof Hwf as (_ & Hs0 & _). rewrite capacity_val in Htail.
  set (ck := icmp_checksum ty id seq payload) in *.
  assert (Hlp : length p' = 8 + llen payload).
  { rewrite <- Hl', Hc, length_app. cbn [List.length icmp_header be_bytes16 app]. lia. }
  unfold rix_net_icmp_echo_pull. cbn [rix_net_packet_length].
  destruct (length p' <? 8) eqn:E8; bool_to_prop; [lia|]. rewrite data_ok by done. cbv zeta.
  assert (Hck0 : rix_net_checksum (bytes p') (start p') (length p') = 0).
  { unfold rix_net_checksum. rewrite (sum_frame p' (length p') 0 Hw') by lia.
    rewrite <- Hl', Nat2Z.id, firstn_all, Hc, Z.add_0_l, icmp_sum by done.
    pose proof (be_sum_bound (icmp_header ty 0 id seq ++ payload) ltac:(apply Forall_app; split; [by apply icmp_header_u8|done])) as Hb.
    rewrite length_app in Hb. cbn [List.length icmp_header be_bytes16 app] in Hb.
    apply checksum_cancels; cbn [icmp_header be_bytes16 app] in *; lia. }
  rewrite Hck0. cbn [Z.eqb negb]. rewrite !read_byte, !read_load16 by lia.
  destruct (pull_ok p' 8 Hw' ltac:(lia)) as [-> Hw''].
  eexists. split; [done|]. split; [|split; [exact Hw''|]].
  - do 2 f_equal. f_equal. f_equal; rewrite Hc; first [reflexivity|apply be16_load_field; [done|reflexivity..]].
  - rewrite contents_drop by (done || lia). rewrite Hc. reflexivity.
Qed.

Lemma icmp_echo_roundtrip_witness :
  ∃ p' p'', rix_net_icmp_echo_push (Some (set_bounds 64 0 demo_packet)) 8 77 3 (Some [9; 8; 7]) 3 = (0, Some p') ∧ contents p'' = [9; 8; 7].
Proof.
  destruct (icmp_echo_roundtrip (set_bounds 64 0 demo_packet) {| type := 0; code := 0; identifier := 0; sequence := 0 |}
    8 77 3 [9; 8; 7]) as (p' & p'' & E & _ & _ & Hc);
    [apply (shrink_wf demo_packet 0 demo_packet_wf); cbn; lia|reflexivity|cbn; lia|rewrite capacity_val; cbn; lia
    |unfold is_u8; lia|unfold is_u16; lia|unfold is_u16; lia|repeat (constructor; [unfold is_u8; lia|]); constructor|].
  exists p', p''. split; [exact E|exact Hc].
Defined.
