(* ===== verification/Udp.v ===== *)
(** * UDP ([kernel/net/udp.h], [kernel/net/udp.c])

    Datagram construction and validation, with the pseudo-header checksum and
    the transmitted-zero convention of RFC 768. *)
From stdpp Require Import base tactics list numbers.
From S2P Require Import Prelude Bytes NetPacket Ethernet Ipv4.

Definition RIX_NET_UDP_HEADER_LENGTH : Z := 8.

Record rix_net_udp_header_t := { source_port : Z; destination_port : Z; udp_length : Z; checksum : Z }.

Definition is_null {A} (p : option A) : bool := match p with None => true | Some _ => false end.

Definition udp_pseudo_checksum := pseudo_checksum RIX_NET_IP_PROTO_UDP.

(** The checksum helpers read through [rix_net_packet_data], which is non-null
    after a successful push (see [push_ok]). *)
Definition rix_net_udp_push (p : option rix_net_packet_t) (source_ip destination_ip sport dport : Z)
    (payload : option (list Z)) (payload_length : Z) : Z * option rix_net_packet_t :=
  match p with
  | None => (-1, None)
  | Some q =>
      if negb (truthy source_ip) || negb (truthy destination_ip) || negb (truthy sport) || negb (truthy dport)
         || (truthy payload_length && is_null payload) || (65527 <? payload_length) then (-1, p)
      else if (RIX_NET_FRAME_CAPACITY <? start q) || (u64 (RIX_NET_FRAME_CAPACITY - start q) <? length q)
         || (start q <? RIX_NET_UDP_HEADER_LENGTH)
         || (u64 (RIX_NET_FRAME_CAPACITY - start q - length q - RIX_NET_UDP_HEADER_LENGTH) <? payload_length) then (-1, p)
      else match rix_net_packet_put q payload_length with
           | (0, Some body, q1) =>
               let b := copy (Z.to_nat payload_length) (bytes q1) body (default [] payload) 0 in
               match rix_net_packet_push (set_bytes b q1) RIX_NET_UDP_HEADER_LENGTH with
               | (0, Some h, q2) =>
                   let b := put_be16 (bytes q2) (h + 0) sport in
                   let b := put_be16 b (h + 2) dport in
                   let b := put_be16 b (h + 4) (u16 (rix_net_packet_length (Some q2))) in
                   let b := put_be16 b (h + 6) 0 in
                   let q3 := set_bytes b q2 in
                   let ck := match rix_net_packet_data q3 with
                             | Some o => udp_pseudo_checksum source_ip destination_ip b o (rix_net_packet_length (Some q3))
                             | None => 0
                             end in
                   (0, Some (set_bytes (put_be16 b (h + 6) (if truthy ck then ck else 0xffff)) q3))
               | (_, _, q2) => (-1, Some q2)
               end
           | (_, _, q1) => (-1, Some q1)
           end
  end.

Definition rix_net_udp_pull (p : option rix_net_packet_t) (source_ip destination_ip : Z)
    (header : option rix_net_udp_header_t) : Z * option rix_net_udp_header_t * option rix_net_packet_t :=
  match p, header with
  | Some q, Some _ =>
      if negb (truthy source_ip) || negb (truthy destination_ip)
         || (rix_net_packet_length p <? RIX_NET_UDP_HEADER_LENGTH) then (-1, header, p)
      else match rix_net_packet_data q with
           | None => (-1, header, p)
           | Some o =>
               let b := bytes q in
               let len := get_be16 b (o + 4) in
               if (len <? RIX_NET_UDP_HEADER_LENGTH) || (rix_net_packet_length p <? len) then (-2, header, p)
               else if (truthy (aget 0 b (o + 6)) || truthy (aget 0 b (o + 7)))
                       && negb (udp_pseudo_checksum source_ip destination_ip b o len =? 0) then (-3, header, p)
               else
                 let hd := {| source_port := get_be16 b (o + 0); destination_port := get_be16 b (o + 2);
                              udp_length := len; checksum := get_be16 b (o + 6) |} in
                 if negb (truthy (source_port hd)) || negb (truthy (destination_port hd)) then (-4, Some hd, p)
                 else match rix_net_packet_pull q RIX_NET_UDP_HEADER_LENGTH with
                      | (0, _, q') => (0, Some hd, Some (set_bounds (start q') (len - RIX_NET_UDP_HEADER_LENGTH) q'))
                      | (_, _, q') => (-1, Some hd, Some q')
                      end
           end
  | _, _ => (-1, header, p)
  end.

(** ** The pseudo-header sum *)

Definition pseudo_sum (proto s d len : Z) : Z := s / 65536 + s mod 65536 + d / 65536 + d mod 65536 + proto + len.

Lemma pseudo_sum_bound proto s d len :
  is_u32 s -> is_u32 d -> is_u8 proto -> 0 <= len <= 65535 -> 0 <= pseudo_sum proto s d len <= 327680 + 256.
Proof.
  intros Hs Hd Hp Hl. unfold is_u32, is_u8 in *. unfold pseudo_sum.
  assert (forall x, 0 <= x < 2 ^ 32 -> 0 <= x / 65536 < 65536) as Hq
    by (intros x Hx; split; [apply Z.div_pos|apply Z.div_lt_upper_bound]; lia).
  pose proof (Hq s Hs). pose proof (Hq d Hd).
  pose proof (Z.mod_pos_bound s 65536 ltac:(lia)). pose proof (Z.mod_pos_bound d 65536 ltac:(lia)). lia.
Qed.

(** The C accumulates in 32 bits; nothing wraps, and the words summed are those
    of the frame. *)
Lemma pseudo_checksum_frame proto s d p n :
  packet_wf p -> 0 <= n <= length p -> is_u32 s -> is_u32 d -> is_u8 proto ->
  pseudo_checksum proto s d (bytes p) (start p) n
  = rix_net_checksum_add (pseudo_sum proto s d n + be_sum (take (Z.to_nat n) (contents p))).
Proof.
  intros Hwf Hn Hs Hd Hp. unfold pseudo_checksum. pose proof Hwf as (_ & H1 & H2 & H3 & _). rewrite capacity_val in H3.
  pose proof (pseudo_sum_bound proto s d n Hs Hd Hp ltac:(lia)) as Hb.
  assert (forall x, 0 <= x < 2 ^ 32 -> 0 <= x / 65536 < 65536) as Hq
    by (intros x Hx; split; [apply Z.div_pos|apply Z.div_lt_upper_bound]; lia).
  pose proof (Hq s Hs). pose proof (Hq d Hd).
  pose proof (Z.mod_pos_bound s 65536 ltac:(lia)). pose proof (Z.mod_pos_bound d 65536 ltac:(lia)).
  change 0xffff with (Z.ones 16). rewrite !Z.shiftr_div_pow2, !Z.land_ones by lia. change (2 ^ 16) with 65536.
  unfold pseudo_sum, is_u8 in *. cbv zeta.
  rewrite (u32_id n), (u32_id (0 + _)) by (unfold is_u32; lia). rewrite (u32_id (0 + _ + _)), (u32_id (0 + _ + _ + _)), (u32_id (0 + _ + _ + _ + _)), (u32_id (0 + _ + _ + _ + _ + _)),
    (u32_id (0 + _ + _ + _ + _ + _ + _)) by (unfold is_u32; lia).
  rewrite sum_frame by (done || lia). f_equal.
Qed.

(** A segment of even header length sums field by field. *)
Definition udp_header (sp dp len ck : Z) : list Z := be_bytes16 sp ++ be_bytes16 dp ++ be_bytes16 len ++ be_bytes16 ck.

Lemma be_bytes16_u8 v : Forall is_u8 (be_bytes16 v).
Proof. unfold be_bytes16. repeat (constructor; [apply u8_range|]). constructor. Qed.

Lemma udp_header_u8 sp dp len ck : Forall is_u8 (udp_header sp dp len ck).
Proof. unfold udp_header. rewrite !Forall_app. repeat split; apply be_bytes16_u8. Qed.

Lemma udp_sum sp dp len ck body :
  is_u16 ck -> be_sum (udp_header sp dp len ck ++ body) = be_sum (udp_header sp dp len 0 ++ body) + ck.
Proof.
  intros Hck. pose proof (hi_lo ck Hck) as Hv. unfold udp_header, be_bytes16. cbn [app be_sum].
  change (u8 (Z.shiftr 0 8)) with 0. change (u8 0) with 0. lia.
Qed.

Definition udp_checksum (s d sp dp : Z) (body : list Z) : Z :=
  let len := 8 + llen body in
  rix_net_checksum_add (pseudo_sum RIX_NET_IP_PROTO_UDP s d len + be_sum (udp_header sp dp len 0 ++ body)).

(** A computed zero goes out as all ones. *)
Definition udp_wire_checksum (s d sp dp : Z) (body : list Z) : Z :=
  let ck := udp_checksum s d sp dp body in if truthy ck then ck else 0xffff.

(** ** Push *)

(** Overwriting the bytes carved out in front of the frame prepends them. *)
Lemma carve_replace p n pre h h' post :
  packet_wf p -> 0 <= n <= start p -> bytes p = pre ++ h ++ contents p ++ post ->
  llen pre = start p - n -> llen h = n -> llen h' = n ->
  Forall is_u8 pre -> Forall is_u8 h' -> Forall is_u8 (contents p ++ post) ->
  let p' := {| bytes := pre ++ h' ++ contents p ++ post; start := llen pre; length := length p + n |} in
  packet_wf p' /\ contents p' = h' ++ contents p.
Proof.
  intros Hwf Hn E Hpre Hh Hh' H1 H2 H3 p'. pose proof Hwf as (Hcap & _).
  apply (header_written p n pre h' post); try done.
  - rewrite <- Hcap, E, !length_app. lia.
  - unfold p'. by rewrite Hpre.
Qed.

(** The common prologue of the transport pushes: the payload is appended and
    [n] bytes are reserved in front. *)
Lemma reserve_segment p n payload :
  packet_wf p -> 0 <= n <= start p -> start p + length p + llen payload <= RIX_NET_FRAME_CAPACITY -> Forall is_u8 payload ->
  rix_net_packet_put p (llen payload) = (0, Some (start p + length p), set_bounds (start p) (length p + llen payload) p) /\
  let q := put_payload p payload in
  exists pre h post,
    rix_net_packet_push q n
    = (0, Some (llen pre), {| bytes := pre ++ h ++ contents q ++ post; start := llen pre; length := length q + n |}) /\
    llen h = n /\
    forall h', llen h' = n -> Forall is_u8 h' ->
      let p' := {| bytes := pre ++ h' ++ contents q ++ post; start := llen pre; length := length q + n |} in
      packet_wf p' /\ contents p' = h' ++ contents p ++ payload.
Proof.
  intros Hwf Hn Hroom Hpay. destruct (put_ok p (llen payload) Hwf ltac:(lia) Hroom) as [-> _]. split; [done|].
  destruct (put_payload_spec p payload Hwf Hroom Hpay) as [Hw1 Hc1]. set (q := put_payload p payload) in *. cbv zeta.
  assert (Hsq : start q = start p) by reflexivity.
  destruct (push_ok q n Hw1 ltac:(lia)) as [-> _].
  destruct (carve_header q n Hw1 ltac:(lia)) as (pre & h & post & E & Hpre & Hh & Hb1 & Hb2).
  exists pre, h, post. split; [|split; [done|]].
  - rewrite <- Hpre. do 2 f_equal. unfold set_bounds. by rewrite E.
  - intros h' Hh' Hu. rewrite <- Hc1. by apply (carve_replace q n pre h).
Qed.

Lemma checksum_add_u16 x : is_u16 (rix_net_checksum_add x).
Proof. apply u16_range. Qed.

Lemma truthy_iff x : truthy x = true <-> x <> 0.
Proof. unfold truthy. destruct (x =? 0) eqn:E; bool_to_prop; split; done. Qed.

Lemma truthy_true x : x <> 0 -> truthy x = true.
Proof. apply truthy_iff. Qed.

(** Segment guards pass when the payload leaves room for a header's worth of
    slack behind it, which is what the code asks for. *)
Lemma udp_push_spec p s d sp dp payload :
  packet_wf p → 8 <= start p → start p + length p + llen payload + 8 <= RIX_NET_FRAME_CAPACITY →
  is_u32 s → is_u32 d → is_u16 sp → is_u16 dp → s ≠ 0 → d ≠ 0 → sp ≠ 0 → dp ≠ 0 → Forall is_u8 payload →
  ∃ p', rix_net_udp_push (Some p) s d sp dp (Some payload) (llen payload) = (0, Some p') ∧ packet_wf p' ∧
    contents p' = udp_header sp dp (8 + llen (contents p ++ payload)) (udp_wire_checksum s d sp dp (contents p ++ payload))
                  ++ contents p ++ payload.
Proof.
  intros Hwf Hs Hroom Hsi Hdi Hsp Hdp Hs0 Hd0 Hsp0 Hdp0 Hpay. pose proof Hwf as (Hcap & H1 & H2 & H3 & H4).
  destruct (reserve_segment p 8 payload Hwf ltac:(lia) ltac:(lia) Hpay) as (Eput & pre & h & post & Epush & Hh & Hwr).
  pose proof (length_contents p Hwf) as Hlc. pose proof (contents_u8 p Hwf) as Hcu.
  unfold rix_net_udp_push. rewrite !truthy_true by done. cbn [negb orb is_null]. rewrite andb_false_r. cbn [orb].
  rewrite capacity_val in *.
  destruct (65527 <? llen payload) eqn:Eg; bool_to_prop; [lia|]. change RIX_NET_UDP_HEADER_LENGTH with 8.
  rewrite !u64_id by (unfold is_u64; lia).
  destruct (_ || _) eqn:Eg2; [exfalso; bool_to_prop; repeat destruct Eg2 as [Eg2|Eg2]; bool_to_prop; lia|]. clear Eg2.
  rewrite Eput. rewrite Nat2Z.id. change (default [] (Some payload)) with payload.
  change (set_bytes (copy (List.length payload) (bytes (set_bounds (start p) (length p + llen payload) p)) (start p + length p) payload 0)
            (set_bounds (start p) (length p + llen payload) p)) with (put_payload p payload).
  rewrite Epush. set (body := contents p ++ payload) in *. unfold set_bytes. cbn [bytes start length rix_net_packet_length].
  assert (Hlb : length (put_payload p payload) + 8 = 8 + llen body).
  { unfold body. rewrite length_app. cbn [put_payload length]. lia. }
  assert (Hbl : llen body <= 1580) by (unfold body; rewrite length_app; lia).
  rewrite Hlb in Hwr |- *. rewrite (u16_id (8 + llen body)) by (unfold is_u16; lia).
  set (rest := contents (put_payload p payload) ++ post) in *.
  assert (Hw : forall ck, put_be16 (put_be16 (put_be16 (put_be16 (pre ++ h ++ rest) (llen pre + 0) sp) (llen pre + 2) dp)
      (llen pre + 4) (8 + llen body)) (llen pre + 6) ck = pre ++ udp_header sp dp (8 + llen body) ck ++ rest).
  { intros ck. rewrite !put_be16_pre by lia. f_equal. assert (Hh8 : List.length h = 8%nat) by lia.
    do 8 (destruct h as [|? h]; [done|]). destruct h; [|done]. reflexivity. }
  rewrite (Hw 0). destruct (Hwr (udp_header sp dp (8 + llen body) 0) eq_refl (udp_header_u8 _ _ _ _)) as [Hw0 Hc0].
  rewrite (data_ok _ Hw0). cbn [start].
  set (p0 := {| bytes := pre ++ udp_header _ _ _ 0 ++ rest; start := _; length := _ |}) in *.
  assert (Eck : udp_pseudo_checksum s d (pre ++ udp_header sp dp (8 + llen body) 0 ++ rest) (llen pre) (8 + llen body)
                = udp_checksum s d sp dp body).
  { change (pre ++ _ ++ rest) with (bytes p0). change (8 + llen body) with (length p0) at 1. change (llen pre) with (start p0). unfold udp_pseudo_checksum.
    rewrite pseudo_checksum_frame by (done || (cbn [p0 length]; lia) || (unfold is_u8, RIX_NET_IP_PROTO_UDP; lia)).
    rewrite <- (length_contents p0), Nat2Z.id, firstn_all by done. rewrite Hc0. unfold udp_checksum. cbv zeta.
    do 3 f_equal. rewrite length_app. cbn [List.length udp_header be_bytes16 app]. lia. }
  rewrite Eck. fold (udp_wire_checksum s d sp dp body).
  eexists. split; [reflexivity|].
  assert (Hrew : put_be16 (pre ++ udp_header sp dp (8 + llen body) 0 ++ rest) (llen pre + 6) (udp_wire_checksum s d sp dp body)
    = pre ++ udp_header sp dp (8 + llen body) (udp_wire_checksum s d sp dp body) ++ rest).
  { rewrite put_be16_pre by lia. reflexivity. }
  change (start p0) with (llen pre). rewrite Hrew. apply Hwr; [reflexivity|apply udp_header_u8].
Qed.

(** ** Pull *)

Lemma get_be16_zero l k : Forall is_u8 l -> get_be16 l k = 0 <-> aget 0 l k = 0 /\ aget 0 l (k + 1) = 0.
Proof.
  intros Hl. pose proof (aget_u8 l k Hl) as H1. pose proof (aget_u8 l (k + 1) Hl) as H2.
  unfold get_be16. rewrite join16 by done. unfold is_u8 in *. lia.
Qed.

(** The ones' complement sum of the datagram under its pseudo-header is zero. *)
Definition udp_verifies (s d : Z) (datagram : list Z) : Prop :=
  (pseudo_sum RIX_NET_IP_PROTO_UDP s d (llen datagram) + be_sum datagram) mod 65535 = 0.

Lemma udp_checksum_verifies p s d n :
  packet_wf p -> 0 <= n <= length p -> is_u32 s -> is_u32 d ->
  udp_pseudo_checksum s d (bytes p) (start p) n = 0 <-> udp_verifies s d (take (Z.to_nat n) (contents p)).
Proof.
  intros Hwf Hn Hs Hd. pose proof (length_contents p Hwf) as Hlc. pose proof Hwf as (_ & ? & ? & Hcap & _). rewrite capacity_val in Hcap.
  assert (Hp : is_u8 RIX_NET_IP_PROTO_UDP) by (unfold is_u8, RIX_NET_IP_PROTO_UDP; lia).
  unfold udp_pseudo_checksum. rewrite pseudo_checksum_frame by done.
  assert (Hlt : llen (take (Z.to_nat n) (contents p)) = n) by (rewrite length_take; lia).
  unfold udp_verifies. rewrite Hlt. set (l := take _ _) in *.
  assert (Hl : Forall is_u8 l) by (apply Forall_take; by apply contents_u8).
  pose proof (be_sum_bound l Hl). pose proof (pseudo_sum_bound _ s d n Hs Hd Hp ltac:(lia)).
  assert (17 <= pseudo_sum RIX_NET_IP_PROTO_UDP s d n).
  { pose proof (pseudo_sum_bound 0 s d n Hs Hd ltac:(unfold is_u8; lia) ltac:(lia)). unfold pseudo_sum, RIX_NET_IP_PROTO_UDP in *. lia. }
  rewrite checksum_add_zero by lia. split; [by intros [_ ?]|]. intros ?. split; [lia|done].
Qed.

Lemma udp_pull_cases p s d hd :
  packet_wf p -> is_u32 s -> is_u32 d -> s <> 0 -> d <> 0 ->
  let l := contents p in
  let len := get_be16 l 4 in
  let ok_length := 8 <= len <= length p in
  let ok_sum := get_be16 l 6 = 0 \/ udp_verifies s d (take (Z.to_nat len) l) in
  let ok_ports := get_be16 l 0 <> 0 /\ get_be16 l 2 <> 0 in
  let '(rc, hd', q) := rix_net_udp_pull (Some p) s d (Some hd) in
  (rc = 0 <-> 8 <= length p /\ ok_length /\ ok_sum /\ ok_ports) /\
  (rc <> 0 -> q = Some p) /\
  (rc = 0 -> hd' = Some {| source_port := get_be16 l 0; destination_port := get_be16 l 2; udp_length := len; checksum := get_be16 l 6 |} /\
    exists p', q = Some p' /\ packet_wf p' /\ contents p' = take (Z.to_nat (len - 8)) (drop 8 l)).
Proof.
  intros Hwf Hs Hd Hs0 Hd0 l len okl oks okp. unfold rix_net_udp_pull. rewrite !truthy_true by done. cbn [negb orb rix_net_packet_length].
  change RIX_NET_UDP_HEADER_LENGTH with 8. destruct (length p <? 8) eqn:E8; bool_to_prop.
  { split; [split; [done|lia]|]. by split. }
  rewrite data_ok by done. cbv zeta. rewrite !read_be16, !read_byte by (done || lia). fold l len.
  destruct (_ || _) eqn:Elen.
  { bool_to_prop. split; [split; [done|]|by split]. unfold okl. lia. }
  apply orb_false_iff in Elen as [El1 El2]. bool_to_prop.
  pose proof (udp_checksum_verifies p s d len Hwf ltac:(lia) Hs Hd) as Hver. fold l in Hver.
  pose proof (get_be16_zero l 6 (contents_u8 p Hwf)) as Hz. change (6 + 1) with 7 in Hz.
  destruct (_ && _) eqn:Esum.
  { split; [split; [done|]|by split]. intros (_ & _ & Hok & _). exfalso. unfold oks in Hok. apply andb_prop in Esum as [Ea Eb].
    destruct Hok as [Hok|Hok]; [apply Hz in Hok as [H6 H7]; rewrite H6, H7 in Ea; done|apply Hver in Hok; rewrite Hok in Eb; done]. }
  assert (Hoks : oks).
  { unfold oks. apply andb_false_iff in Esum as [Ea|Eb]; [left|right].
    - apply Hz. apply orb_false_iff in Ea as [Ea Eb]. unfold truthy in *. by bool_to_prop.
    - apply Hver. by bool_to_prop. }
  cbn [source_port destination_port]. destruct (negb (truthy _) || _) eqn:Ep.
  { split; [split; [done|]|by split]. intros (_ & _ & _ & Hok). exfalso. unfold okp in Hok. rewrite !truthy_true in Ep by apply Hok. done. }
  assert (Hokp : okp).
  { apply orb_false_iff in Ep as [Ea Eb]. unfold okp. apply negb_false_iff in Ea, Eb. by rewrite truthy_iff in Ea, Eb. }
  destruct (pull_ok p 8 Hwf ltac:(lia)) as [-> Hw']. cbn [start set_bounds].
  split; [split; [by intros _|done]|]. split; [done|]. intros _. split; [done|].
  eexists. split; [done|]. set (q := set_bounds (start p + 8) (length p - 8) p) in *.
  change (set_bounds (start p + 8) (len - 8) q) with (set_bounds (start q) (len - 8) q). cbn [q length set_bounds] in *.
  assert (0 <= len - 8 <= length q) by (cbn; lia).
  split; [by apply shrink_wf|]. rewrite contents_take by done. unfold q. by rewrite contents_drop by (done || lia).
Qed.

(** A UDP datagram is accepted exactly when its length field lies between
    the header and the frame, both ports are non-zero, and its checksum field is
    zero (sent unchecked) or the ones' complement sum under the pseudo-header
    verifies; the payload delivered is the length field's worth after the header,
    and a rejected frame is left alone. *)
Theorem udp_pull_accepts p s d hd
    (Hwf : packet_wf p) (Hs : is_u32 s) (Hd : is_u32 d) (Hs0 : s ≠ 0) (Hd0 : d ≠ 0) :
  let l := contents p in
  let len := get_be16 l 4 in
  let ok_length := 8 <= len <= length p in
  let ok_sum := get_be16 l 6 = 0 ∨ udp_verifies s d (take (Z.to_nat len) l) in
  let ok_ports := get_be16 l 0 ≠ 0 ∧ get_be16 l 2 ≠ 0 in
  let '(rc, hd', q) := rix_net_udp_pull (Some p) s d (Some hd) in
  (rc = 0 ↔ 8 <= length p ∧ ok_length ∧ ok_sum ∧ ok_ports) ∧
  (rc ≠ 0 → q = Some p) ∧
  (rc = 0 → hd' = Some {| source_port := get_be16 l 0; destination_port := get_be16 l 2; udp_length := len; checksum := get_be16 l 6 |} ∧
    ∃ p', q = Some p' ∧ packet_wf p' ∧ contents p' = take (Z.to_nat (len - 8)) (drop 8 l)).
Proof. exact (udp_pull_cases p s d hd Hwf Hs Hd Hs0 Hd0). Qed.

Lemma udp_pull_accepts_witness :
  packet_wf demo_packet ∧
  snd (rix_net_udp_pull (Some demo_packet) 1 2 (Some {| source_port := 0; destination_port := 0; udp_length := 0; checksum := 0 |}))
  = Some demo_packet.
Proof.
  split; [exact demo_packet_wf|].
  set (hd := {| source_port := 0; destination_port := 0; udp_length := 0; checksum := 0 |}).
  pose proof (udp_pull_accepts demo_packet 1 2 hd demo_packet_wf ltac:(unfold is_u32; lia) ltac:(unfold is_u32; lia)
    ltac:(lia) ltac:(lia)) as H. cbv zeta in H.
  assert (E : fst (fst (rix_net_udp_pull (Some demo_packet) 1 2 (Some hd))) = -1) by (vm_compute; reflexivity).
  destruct (rix_net_udp_pull _ _ _ _) as [[rc hd'] q]. cbn [fst snd] in *. subst rc. apply H. lia.
Defined.

(** The wire checksum verifies, and is never the all-zero "unchecked" marker. *)
Lemma udp_wire_verifies s d sp dp body :
  is_u32 s -> is_u32 d -> Forall is_u8 body -> llen body <= 2000 ->
  let ck := udp_wire_checksum s d sp dp body in
  is_u16 ck /\ ck <> 0 /\ udp_verifies s d (udp_header sp dp (8 + llen body) ck ++ body).
Proof.
  intros Hs Hd Hb Hl ck. assert (Hp : is_u8 RIX_NET_IP_PROTO_UDP) by (unfold is_u8, RIX_NET_IP_PROTO_UDP; lia).
  assert (Hck : is_u16 ck) by (unfold ck, udp_wire_checksum; case_if; [apply checksum_add_u16|unfold is_u16; lia]).
  split; [done|].
  pose proof (pseudo_sum_bound _ s d (8 + llen body) Hs Hd Hp ltac:(lia)) as Hps.
  pose proof (be_sum_bound (udp_header sp dp (8 + llen body) 0 ++ body)
    ltac:(apply Forall_app; split; [apply udp_header_u8|done])) as Hsum.
  rewrite length_app in Hsum. change (List.length (udp_header sp dp (8 + llen body) 0)) with 8%nat in Hsum.
  unfold udp_verifies. rewrite udp_sum, length_app by done. change (List.length (udp_header sp dp (8 + llen body) ck)) with 8%nat.
  rewrite (Nat2Z.inj_add 8). change (Z.of_nat 8) with 8.
  set (x := pseudo_sum RIX_NET_IP_PROTO_UDP s d (8 + llen body) + be_sum (udp_header sp dp (8 + llen body) 0 ++ body)) in *. rewrite Z.add_assoc. fold x.
  assert (Hx : 0 <= x /\ x + 65535 < 2 ^ 32) by (unfold x; lia).
  assert (Hx0 : x <> 0).
  { pose proof (pseudo_sum_bound 0 s d (8 + llen body) Hs Hd ltac:(unfold is_u8; lia) ltac:(lia)).
    unfold x, pseudo_sum, RIX_NET_IP_PROTO_UDP in *. lia. }
  pose proof (checksum_cancels x ltac:(lia) ltac:(lia)) as Hc. pose proof (checksum_add_range x ltac:(lia)) as Hr.
  apply checksum_add_zero in Hc; [|lia]. destruct Hc as [_ Hc].
  unfold ck, udp_wire_checksum, udp_checksum. cbv zeta. fold x. destruct (truthy _) eqn:Et.
  - apply truthy_iff in Et. done.
  - unfold truthy in Et. bool_to_prop. rewrite Et, Z.add_0_r in Hc. split; [lia|].
    rewrite <- (Z.mul_1_l 0xffff), Z.mod_add by lia. done.
Qed.

(** A pushed datagram always verifies at the receiver: pulling it returns the
    ports and length that went in and leaves the payload, and the checksum on
    the wire is never the zero that would switch verification off. *)
Theorem udp_roundtrip p hd s d sp dp payload
    (Hwf : packet_wf p) (Hhead : 8 <= start p)
    (Hroom : start p + length p + llen payload + 8 <= RIX_NET_FRAME_CAPACITY)
    (Hs : is_u32 s) (Hd : is_u32 d) (Hsp : is_u16 sp) (Hdp : is_u16 dp)
    (Hs0 : s ≠ 0) (Hd0 : d ≠ 0) (Hsp0 : sp ≠ 0) (Hdp0 : dp ≠ 0) (Hpay : Forall is_u8 payload) :
  ∃ p' ck p'', rix_net_udp_push (Some p) s d sp dp (Some payload) (llen payload) = (0, Some p') ∧ ck ≠ 0 ∧
    rix_net_udp_pull (Some p') s d (Some hd)
    = (0, Some {| source_port := sp; destination_port := dp; udp_length := 8 + length p + llen payload; checksum := ck |}, Some p'') ∧
    packet_wf p'' ∧ contents p'' = contents p ++ payload.
Proof.
  destruct (udp_push_spec p s d sp dp payload Hwf Hhead Hroom Hs Hd Hsp Hdp Hs0 Hd0 Hsp0 Hdp0 Hpay) as (p' & E & Hw' & Hc).
  pose proof (length_contents p Hwf) as Hlc. pose proof (length_contents p' Hw') as Hl'. pose proof Hwf as (_ & ? & ? & _).
  rewrite capacity_val in Hroom. set (body := contents p ++ payload) in *.
  assert (Hlb : llen body = length p + llen payload) by (unfold body; rewrite length_app; lia).
  assert (Hub : Forall is_u8 body) by (apply Forall_app; split; [by apply contents_u8|done]).
  destruct (udp_wire_verifies s d sp dp body Hs Hd Hub ltac:(lia)) as (Hck & Hck0 & Hver).
  set (ck := udp_wire_checksum s d sp dp body) in *. exists p', ck.
  assert (Hlp : length p' = 8 + llen body).
  { rewrite <- Hl', Hc, length_app. change (List.length (udp_header sp dp (8 + llen body) ck)) with 8%nat. lia. }
  pose proof (udp_pull_cases p' s d hd Hw' Hs Hd Hs0 Hd0) as Hp. cbv zeta in Hp.
  assert (Hf : get_be16 (contents p') 0 = sp /\ get_be16 (contents p') 2 = dp /\ get_be16 (contents p') 4 = 8 + llen body
               /\ get_be16 (contents p') 6 = ck).
  { rewrite Hc. repeat split; apply get_be16_bytes; try reflexivity; try done. unfold is_u16. lia. }
  destruct Hf as (F0 & F2 & F4 & F6). rewrite F0, F2, F4, F6 in Hp. clear F0 F2 F4 F6.
  destruct (rix_net_udp_pull (Some p') s d (Some hd)) as [[rc hd'] q]. destruct Hp as (Hacc & _ & Hres).
  assert (rc = 0) as ->.
  { apply Hacc. repeat split; try lia; try done. right. rewrite Hc, take_ge; [done|].
    rewrite length_app. change (List.length (udp_header sp dp (8 + llen body) ck)) with 8%nat. lia. }
  destruct (Hres eq_refl) as (-> & p'' & -> & Hw'' & Hc''). exists p''. split; [done|]. split; [done|].
  split; [do 4 f_equal; lia|]. split; [done|]. rewrite Hc'', Hc. replace (8 + llen body - 8) with (llen body) by lia.
  rewrite Nat2Z.id. change (drop 8 (udp_header sp dp (8 + llen body) ck ++ body)) with body. apply firstn_all.
Qed.

Lemma udp_roundtrip_witness :
  ∃ p' p'', rix_net_udp_push (Some demo_packet) 0x0a000001 0x0a000002 1234 53 (Some [9; 8]) 2 = (0, Some p') ∧
    contents p'' = [1; 2; 3; 9; 8].
Proof.
  destruct (udp_roundtrip demo_packet {| source_port := 0; destination_port := 0; udp_length := 0; checksum := 0 |}
    0x0a000001 0x0a000002 1234 53 [9; 8] demo_packet_wf) as (p' & ck & p'' & E & _ & _ & _ & Hc);
    [cbn; lia|rewrite capacity_val; cbn; lia|unfold is_u32; lia|unfold is_u32; lia|unfold is_u16; lia|unfold is_u16; lia
    |lia|lia|lia|lia|repeat (constructor; [unfold is_u8; lia|]); constructor|].
  exists p', p''. split; [exact E|]. rewrite Hc. vm_compute. reflexivity.
Defined.
