(* ===== verification/Tcp.v ===== *)
(** * TCP ([kernel/net/tcp.h], [kernel/net/tcp.c])

    [TcpControl]: the connection state machine of [rix_tcp_transition]. Then the
    segment codec of [rix_net_tcp_push] and [rix_net_tcp_pull]. *)
From stdpp Require Import base tactics list numbers.
From S2P Require Import Prelude Bytes NetPacket Ethernet Ipv4 Udp.

Module TcpControl.

Inductive rix_tcp_state_t :=
  | RIX_TCP_CLOSED | RIX_TCP_LISTEN | RIX_TCP_SYN_SENT | RIX_TCP_SYN_RECEIVED | RIX_TCP_ESTABLISHED
  | RIX_TCP_FIN_WAIT_1 | RIX_TCP_FIN_WAIT_2 | RIX_TCP_CLOSE_WAIT | RIX_TCP_LAST_ACK | RIX_TCP_TIME_WAIT.

Inductive rix_tcp_event_t :=
  | RIX_TCP_EVENT_PASSIVE_OPEN | RIX_TCP_EVENT_ACTIVE_OPEN | RIX_TCP_EVENT_SYN | RIX_TCP_EVENT_SYN_ACK
  | RIX_TCP_EVENT_ACK | RIX_TCP_EVENT_FIN | RIX_TCP_EVENT_CLOSE.

#[global] Instance rix_tcp_state_eq_dec : EqDecision rix_tcp_state_t.
Proof. solve_decision. Defined.
#[global] Instance rix_tcp_event_eq_dec : EqDecision rix_tcp_event_t.
Proof. solve_decision. Defined.

Record rix_tcp_control_t := { state : rix_tcp_state_t; sequence : Z; acknowledgment : Z }.

Definition rix_tcp_init (c : option rix_tcp_control_t) : option rix_tcp_control_t :=
  match c with
  | None => None
  | Some _ => Some {| state := RIX_TCP_CLOSED; sequence := 0; acknowledgment := 0 |}
  end.

(** The [switch]: the next state, or [None] where the code returns -1. *)
Definition next_state (s : rix_tcp_state_t) (e : rix_tcp_event_t) : option rix_tcp_state_t :=
  match s with
  | RIX_TCP_CLOSED =>
      if decide (e = RIX_TCP_EVENT_PASSIVE_OPEN) then Some RIX_TCP_LISTEN
      else if decide (e = RIX_TCP_EVENT_ACTIVE_OPEN) then Some RIX_TCP_SYN_SENT else None
  | RIX_TCP_LISTEN =>
      if decide (e = RIX_TCP_EVENT_SYN) then Some RIX_TCP_SYN_RECEIVED
      else if decide (e = RIX_TCP_EVENT_CLOSE) then Some RIX_TCP_CLOSED else None
  | RIX_TCP_SYN_SENT =>
      if decide (e = RIX_TCP_EVENT_SYN_ACK) then Some RIX_TCP_ESTABLISHED
      else if decide (e = RIX_TCP_EVENT_CLOSE) then Some RIX_TCP_CLOSED else None
  | RIX_TCP_SYN_RECEIVED =>
      if decide (e = RIX_TCP_EVENT_ACK) then Some RIX_TCP_ESTABLISHED
      else if decide (e = RIX_TCP_EVENT_CLOSE) then Some RIX_TCP_FIN_WAIT_1 else None
  | RIX_TCP_ESTABLISHED =>
      if decide (e = RIX_TCP_EVENT_CLOSE) then Some RIX_TCP_FIN_WAIT_1
      else if decide (e = RIX_TCP_EVENT_FIN) then Some RIX_TCP_CLOSE_WAIT
      else if decide (e ≠ RIX_TCP_EVENT_ACK) then None else Some s
  | RIX_TCP_FIN_WAIT_1 =>
      if decide (e = RIX_TCP_EVENT_ACK) then Some RIX_TCP_FIN_WAIT_2
      else if decide (e = RIX_TCP_EVENT_FIN) then Some RIX_TCP_TIME_WAIT else None
  | RIX_TCP_FIN_WAIT_2 => if decide (e = RIX_TCP_EVENT_FIN) then Some RIX_TCP_TIME_WAIT else None
  | RIX_TCP_CLOSE_WAIT => if decide (e = RIX_TCP_EVENT_CLOSE) then Some RIX_TCP_LAST_ACK else None
  | RIX_TCP_LAST_ACK => if decide (e = RIX_TCP_EVENT_ACK) then Some RIX_TCP_CLOSED else None
  | RIX_TCP_TIME_WAIT => if decide (e = RIX_TCP_EVENT_CLOSE) then Some RIX_TCP_CLOSED else None
  end.

Definition rix_tcp_transition (c : option rix_tcp_control_t) (e : rix_tcp_event_t) : Z * option rix_tcp_control_t :=
  match c with
  | None => (-1, None)
  | Some k =>
      match next_state (state k) e with
      | None => (-1, c)
      | Some n => (0, Some {| state := n; sequence := sequence k; acknowledgment := acknowledgment k |})
      end
  end.

Definition rix_tcp_is_connected (c : option rix_tcp_control_t) : bool :=
  match c with Some k => bool_decide (state k = RIX_TCP_ESTABLISHED) | None => false end.

(** ** Histories *)

(** A connection driven by a sequence of events, refused ones included. *)
Definition run (c : rix_tcp_control_t) (es : list rix_tcp_event_t) : rix_tcp_control_t :=
  foldl (fun c e => default c (snd (rix_tcp_transition (Some c) e))) c es.

Lemma run_snoc c es e : run c (es ++ [e]) = default (run c es) (snd (rix_tcp_transition (Some (run c es)) e)).
Proof. unfold run. by rewrite foldl_app. Qed.

Definition fresh : rix_tcp_control_t := {| state := RIX_TCP_CLOSED; sequence := 0; acknowledgment := 0 |}.

Definition client_opening : list rix_tcp_event_t := [RIX_TCP_EVENT_ACTIVE_OPEN].
Definition client_handshake : list rix_tcp_event_t := client_opening ++ [RIX_TCP_EVENT_SYN_ACK].
Definition server_opening : list rix_tcp_event_t := [RIX_TCP_EVENT_PASSIVE_OPEN].
Definition server_half_open : list rix_tcp_event_t := server_opening ++ [RIX_TCP_EVENT_SYN].
Definition server_handshake : list rix_tcp_event_t := server_half_open ++ [RIX_TCP_EVENT_ACK].

(** What the history of a connection that started [CLOSED] must contain. *)
Definition explains (s : rix_tcp_state_t) (es : list rix_tcp_event_t) : Prop :=
  match s with
  | RIX_TCP_CLOSED => True
  | RIX_TCP_LISTEN => server_opening `sublist_of` es
  | RIX_TCP_SYN_SENT => client_opening `sublist_of` es
  | RIX_TCP_SYN_RECEIVED => server_half_open `sublist_of` es
  | RIX_TCP_ESTABLISHED | RIX_TCP_CLOSE_WAIT | RIX_TCP_LAST_ACK => client_handshake `sublist_of` es \/ server_handshake `sublist_of` es
  | RIX_TCP_FIN_WAIT_1 | RIX_TCP_FIN_WAIT_2 | RIX_TCP_TIME_WAIT => client_opening `sublist_of` es \/ server_half_open `sublist_of` es
  end.

Lemma sublist_more {A} (l es : list A) (e : A) : l `sublist_of` es -> l `sublist_of` (es ++ [e]).
Proof. intros H. etrans; [exact H|]. apply sublist_inserts_r. done. Qed.

Lemma sublist_step {A} (l es : list A) (e : A) : l `sublist_of` es -> l ++ [e] `sublist_of` es ++ [e].
Proof. intros H. by apply sublist_app. Qed.

Lemma sublist_prefix {A} (l k es : list A) : l ++ k `sublist_of` es -> l `sublist_of` es.
Proof. intros H. etrans; [|exact H]. apply sublist_inserts_r. done. Qed.

Lemma explains_more s es e : explains s es -> explains s (es ++ [e]).
Proof. destruct s; cbn; try done; intros H; repeat destruct H as [H|H]; auto using sublist_more. Qed.

Lemma explains_step s n es e : next_state s e = Some n -> explains s es -> explains n (es ++ [e]).
Proof.
  intros Hn H. destruct s, e; cbn in Hn; try discriminate Hn; injection Hn as <-; cbn [explains] in *;
    try exact I;
    try (apply (sublist_step [] es); apply sublist_nil_l);
    try (apply (sublist_step server_opening es); exact H);
    try (left; apply (sublist_step client_opening es); exact H);
    try (right; apply (sublist_step server_half_open es); exact H);
    try (right; apply sublist_more; exact H);
    try (destruct H as [H|H]; [left|right]; apply sublist_more; exact H);
    destruct H as [H|H]; [left|right]; apply sublist_more; eapply sublist_prefix; exact H.
Qed.

Lemma run_explained es : explains (state (run fresh es)) es.
Proof.
  induction es as [|e es IH] using rev_ind; [exact I|]. rewrite run_snoc. cbn [rix_tcp_transition].
  destruct (next_state _ e) as [n|] eqn:E; cbn [snd default id state]; [by eapply explains_step|by apply explains_more].
Qed.

(** Progress of a shutdown: what must have happened since [ESTABLISHED]. *)
Definition closing (s : rix_tcp_state_t) (es : list rix_tcp_event_t) : Prop :=
  match s with
  | RIX_TCP_ESTABLISHED => True
  | RIX_TCP_FIN_WAIT_1 | RIX_TCP_FIN_WAIT_2 => RIX_TCP_EVENT_CLOSE ∈ es
  | RIX_TCP_CLOSE_WAIT => RIX_TCP_EVENT_FIN ∈ es
  | _ => RIX_TCP_EVENT_CLOSE ∈ es /\ RIX_TCP_EVENT_FIN ∈ es
  end.

Lemma closing_step c es e :
  closing (state c) es -> closing (state (default c (snd (rix_tcp_transition (Some c) e)))) (es ++ [e]).
Proof.
  intros H. cbn [rix_tcp_transition]. destruct (next_state (state c) e) as [n|] eqn:E; cbn [snd default id state].
  - destruct (state c), e; cbn in E; try discriminate E; injection E as <-; cbn [closing id state] in *;
      rewrite ?elem_of_app, ?list_elem_of_singleton; naive_solver.
  - destruct (state c); cbn [closing] in *; rewrite ?elem_of_app; try exact I; tauto.
Qed.

Lemma run_closing c es : state c = RIX_TCP_ESTABLISHED -> closing (state (run c es)) es.
Proof.
  intros Hc. induction es as [|e es IH] using rev_ind; [cbn; by rewrite Hc|]. rewrite run_snoc. by apply closing_step.
Qed.

(** A sequence of events, all accepted, that brings any state back to [CLOSED]. *)
Definition drain (s : rix_tcp_state_t) : list rix_tcp_event_t :=
  match s with
  | RIX_TCP_CLOSED => []
  | RIX_TCP_LISTEN | RIX_TCP_SYN_SENT | RIX_TCP_TIME_WAIT => [RIX_TCP_EVENT_CLOSE]
  | RIX_TCP_SYN_RECEIVED | RIX_TCP_ESTABLISHED => [RIX_TCP_EVENT_CLOSE; RIX_TCP_EVENT_FIN; RIX_TCP_EVENT_CLOSE]
  | RIX_TCP_FIN_WAIT_1 | RIX_TCP_FIN_WAIT_2 => [RIX_TCP_EVENT_FIN; RIX_TCP_EVENT_CLOSE]
  | RIX_TCP_CLOSE_WAIT => [RIX_TCP_EVENT_CLOSE; RIX_TCP_EVENT_ACK]
  | RIX_TCP_LAST_ACK => [RIX_TCP_EVENT_ACK]
  end.

(** C33: the life of a connection. Whatever events arrive, a connection reported as
    connected has completed a client or a server handshake, in order; one that
    went from ESTABLISHED back to CLOSED has seen both its own CLOSE and the
    peer's FIN; refused events change nothing, the sequence numbers are never
    touched, and every state can be drained to CLOSED. *)
Theorem tcp_lifecycle c es e :
  (rix_tcp_is_connected (Some (run fresh es)) = true -> client_handshake `sublist_of` es ∨ server_handshake `sublist_of` es) ∧
  (state c = RIX_TCP_ESTABLISHED -> state (run c es) = RIX_TCP_CLOSED -> RIX_TCP_EVENT_CLOSE ∈ es ∧ RIX_TCP_EVENT_FIN ∈ es) ∧
  (fst (rix_tcp_transition (Some c) e) ≠ 0 -> snd (rix_tcp_transition (Some c) e) = Some c) ∧
  sequence (run c es) = sequence c ∧ acknowledgment (run c es) = acknowledgment c ∧
  state (run c (drain (state c))) = RIX_TCP_CLOSED.
Proof.
  split; [|split; [|split; [|split; [|split]]]].
  - cbn [rix_tcp_is_connected]. intros H%bool_decide_eq_true. pose proof (run_explained es) as He. by rewrite H in He.
  - intros Hc Hd. pose proof (run_closing c es Hc) as H. by rewrite Hd in H.
  - cbn. by destruct (next_state _ _).
  - induction es as [|a es IH] using rev_ind; [done|]. rewrite run_snoc. cbn. by destruct (next_state _ _).
  - induction es as [|a es IH] using rev_ind; [done|]. rewrite run_snoc. cbn. by destruct (next_state _ _).
  - destruct c as [[] s a]; reflexivity.
Qed.

Lemma tcp_lifecycle_witness :
  rix_tcp_is_connected (Some (run fresh server_handshake)) = true ∧
  (client_handshake `sublist_of` server_handshake ∨ server_handshake `sublist_of` server_handshake).
Proof. split; [reflexivity|]. apply (tcp_lifecycle fresh server_handshake RIX_TCP_EVENT_ACK). reflexivity. Defined.

End TcpControl.

(** ** Segments *)

Definition RIX_NET_TCP_HEADER_LENGTH : Z := 20.

Record rix_net_tcp_header_t := {
  source_port : Z; destination_port : Z; sequence : Z; acknowledgment : Z; flags : Z; window : Z; checksum : Z; urgent : Z }.

Definition tcp_pseudo_checksum := pseudo_checksum RIX_NET_IP_PROTO_TCP.

Definition rix_net_tcp_push (p : option rix_net_packet_t) (source_ip destination_ip sport dport seq ack flg win : Z)
    (payload : option (list Z)) (payload_length : Z) : Z * option rix_net_packet_t :=
  match p with
  | None => (-1, None)
  | Some q =>
      if negb (truthy source_ip) || negb (truthy destination_ip) || negb (truthy sport) || negb (truthy dport)
         || (truthy payload_length && is_null payload) || (65515 <? payload_length)
         || truthy (Z.land flg (not32 0x01ff)) then (-1, p)
      else if (RIX_NET_FRAME_CAPACITY <? start q) || (u64 (RIX_NET_FRAME_CAPACITY - start q) <? length q)
         || (start q <? RIX_NET_TCP_HEADER_LENGTH)
         || (u64 (RIX_NET_FRAME_CAPACITY - start q - length q - RIX_NET_TCP_HEADER_LENGTH) <? payload_length) then (-1, p)
      else match rix_net_packet_put q payload_length with
           | (0, Some body, q1) =>
               let b := copy (Z.to_nat payload_length) (bytes q1) body (default [] payload) 0 in
               match rix_net_packet_push (set_bytes b q1) RIX_NET_TCP_HEADER_LENGTH with
               | (0, Some h, q2) =>
                   let b := put_be16 (bytes q2) (h + 0) sport in
                   let b := put_be16 b (h + 2) dport in
                   let b := put_be32 b (h + 4) seq in
                   let b := put_be32 b (h + 8) ack in
                   let b := aset (h + 12) (Z.shiftl 5 4) b in
                   let b := aset (h + 13) (u8 flg) b in
                   let b := put_be16 b (h + 14) win in
                   let b := put_be16 b (h + 16) 0 in
                   let b := put_be16 b (h + 18) 0 in
                   let q3 := set_bytes b q2 in
                   let ck := match rix_net_packet_data q3 with
                             | Some o => tcp_pseudo_checksum source_ip destination_ip b o (rix_net_packet_length (Some q3))
                             | None => 0
                             end in
                   (0, Some (set_bytes (put_be16 b (h + 16) ck) q3))
               | (_, _, q2) => (-1, Some q2)
               end
           | (_, _, q1) => (-1, Some q1)
           end
  end.

Definition rix_net_tcp_pull (p : option rix_net_packet_t) (source_ip destination_ip : Z)
    (header : option rix_net_tcp_header_t) : Z * option rix_net_tcp_header_t * option rix_net_packet_t :=
  match p, header with
  | Some q, Some _ =>
      if negb (truthy source_ip) || negb (truthy destination_ip)
         || (rix_net_packet_length p <? RIX_NET_TCP_HEADER_LENGTH) then (-1, header, p)
      else match rix_net_packet_data q with
           | None => (-1, header, p)
           | Some o =>
               let b := bytes q in
               let header_length := Z.shiftr (aget 0 b (o + 12)) 4 * 4 in
               if (header_length <? RIX_NET_TCP_HEADER_LENGTH) || (rix_net_packet_length p <? header_length)
                  || negb (Z.land (aget 0 b (o + 12)) 0x0f =? 0) then (-2, header, p)
               else if negb (tcp_pseudo_checksum source_ip destination_ip b o (rix_net_packet_length p) =? 0) then (-3, header, p)
               else
                 let hd := {| source_port := get_be16 b (o + 0); destination_port := get_be16 b (o + 2);
                              sequence := get_be32 b (o + 4); acknowledgment := get_be32 b (o + 8);
                              flags := aget 0 b (o + 13); window := get_be16 b (o + 14);
                              checksum := get_be16 b (o + 16); urgent := get_be16 b (o + 18) |} in
                 if negb (truthy (source_port hd)) || negb (truthy (destination_port hd)) then (-4, Some hd, p)
                 else match rix_net_packet_pull q header_length with
                      | (0, _, q') => (0, Some hd, Some q')
                      | (_, _, q') => (-1, Some hd, Some q')
                      end
           end
  | _, _ => (-1, header, p)
  end.

Definition tcp_header (sp dp seq ack flg win ck : Z) : list Z :=
  be_bytes16 sp ++ be_bytes16 dp ++ be_bytes32 seq ++ be_bytes32 ack ++ [80; u8 flg] ++ be_bytes16 win ++ be_bytes16 ck ++ be_bytes16 0.

Lemma be_bytes32_u8 v : Forall is_u8 (be_bytes32 v).
Proof. unfold be_bytes32. repeat (constructor; [apply u8_range|]). constructor. Qed.

Lemma tcp_header_u8 sp dp seq ack flg win ck : Forall is_u8 (tcp_header sp dp seq ack flg win ck).
Proof.
  unfold tcp_header. rewrite !Forall_app. repeat split; try apply be_bytes16_u8; try apply be_bytes32_u8.
  repeat (constructor; [first [apply u8_range|unfold is_u8; lia]|]). constructor.
Qed.

Lemma tcp_sum sp dp seq ack flg win ck body :
  is_u16 ck ->
  be_sum (tcp_header sp dp seq ack flg win ck ++ body) = be_sum (tcp_header sp dp seq ack flg win 0 ++ body) + ck.
Proof.
  intros Hck. pose proof (hi_lo ck Hck) as Hv. unfold tcp_header, be_bytes16, be_bytes32. cbn [app be_sum].
  change (u8 (Z.shiftr 0 8)) with 0. change (u8 0) with 0. lia.
Qed.

Definition tcp_checksum (s d sp dp seq ack flg win : Z) (body : list Z) : Z :=
  rix_net_checksum_add (pseudo_sum RIX_NET_IP_PROTO_TCP s d (20 + llen body) + be_sum (tcp_header sp dp seq ack flg win 0 ++ body)).

Lemma tcp_push_spec p s d sp dp seq ack flg win payload :
  packet_wf p → 20 <= start p → start p + length p + llen payload + 20 <= RIX_NET_FRAME_CAPACITY →
  s ≠ 0 → d ≠ 0 → sp ≠ 0 → dp ≠ 0 → is_u32 s → is_u32 d → Z.land flg (not32 0x01ff) = 0 → Forall is_u8 payload →
  ∃ p', rix_net_tcp_push (Some p) s d sp dp seq ack flg win (Some payload) (llen payload) = (0, Some p') ∧ packet_wf p' ∧
    contents p' = tcp_header sp dp seq ack flg win (tcp_checksum s d sp dp seq ack flg win (contents p ++ payload))
                  ++ contents p ++ payload.
Proof.
  intros Hwf Hs Hroom Hs0 Hd0 Hsp0 Hdp0 Hsi Hdi Hflg Hpay. pose proof Hwf as (Hcap & H1 & H2 & H3 & H4).
  destruct (reserve_segment p 20 payload Hwf ltac:(lia) ltac:(lia) Hpay) as (Eput & pre & h & post & Epush & Hh & Hwr).
  pose proof (length_contents p Hwf) as Hlc. pose proof (contents_u8 p Hwf) as Hcu.
  unfold rix_net_tcp_push. rewrite !(truthy_true s), !(truthy_true d), !(truthy_true sp), !(truthy_true dp), Hflg by done.
  cbn [negb orb is_null]. rewrite andb_false_r. cbn [orb]. rewrite capacity_val in *.
  destruct (65515 <? llen payload) eqn:Eg; bool_to_prop; [lia|]. cbn [orb truthy Z.eqb negb]. change RIX_NET_TCP_HEADER_LENGTH with 20.
  rewrite !u64_id by (unfold is_u64; lia).
  destruct (_ || _) eqn:Eg2; [exfalso; bool_to_prop; repeat destruct Eg2 as [Eg2|Eg2]; bool_to_prop; lia|]. clear Eg2.
  rewrite Eput. rewrite Nat2Z.id. change (default [] (Some payload)) with payload.
  change (set_bytes (copy (List.length payload) (bytes (set_bounds (start p) (length p + llen payload) p)) (start p + length p) payload 0)
            (set_bounds (start p) (length p + llen payload) p)) with (put_payload p payload).
  rewrite Epush. set (body := contents p ++ payload) in *. unfold set_bytes. cbn [bytes start length rix_net_packet_length].
  assert (Hlb : length (put_payload p payload) + 20 = 20 + llen body).
  { unfold body. rewrite length_app. cbn [put_payload length]. lia. }
  rewrite Hlb in Hwr |- *. set (rest := contents (put_payload p payload) ++ post) in *.
  set (b9 := put_be16 _ (llen pre + 18) 0).
  assert (Hw : b9 = pre ++ tcp_header sp dp seq ack flg win 0 ++ rest).
  { unfold b9. rewrite !put_be16_pre, !put_be32_pre, !aset_pre, !put_be16_pre by lia. f_equal. assert (Hh8 : List.length h = 20%nat) by lia.
    do 20 (destruct h as [|? h]; [done|]). destruct h; [|done]. reflexivity. }
  rewrite Hw. clear b9 Hw.
  destruct (Hwr (tcp_header sp dp seq ack flg win 0) eq_refl (tcp_header_u8 _ _ _ _ _ _ _)) as [Hw0 Hc0].
  rewrite (data_ok _ Hw0). cbn [start].
  set (p0 := {| bytes := pre ++ tcp_header _ _ _ _ _ _ 0 ++ rest; start := _; length := _ |}) in *.
  assert (Eck : tcp_pseudo_checksum s d (pre ++ tcp_header sp dp seq ack flg win 0 ++ rest) (llen pre) (20 + llen body)
                = tcp_checksum s d sp dp seq ack flg win body).
  { change (pre ++ _ ++ rest) with (bytes p0). change (20 + llen body) with (length p0) at 1. change (llen pre) with (start p0).
    unfold tcp_pseudo_checksum.
    rewrite pseudo_checksum_frame by (done || (cbn [p0 length]; lia) || (unfold is_u8, RIX_NET_IP_PROTO_TCP; lia)).
    rewrite <- (length_contents p0), Nat2Z.id, firstn_all by done. rewrite Hc0. unfold tcp_checksum.
    do 3 f_equal. rewrite length_app. change (List.length (tcp_header sp dp seq ack flg win 0)) with 20%nat. lia. }
  rewrite Eck. eexists. split; [reflexivity|].
  rewrite put_be16_pre by lia. apply (Hwr (tcp_header sp dp seq ack flg win _)); [reflexivity|apply tcp_header_u8].
Qed.

(** The checksum written by the push makes the whole segment sum to zero. *)
Lemma tcp_checksum_verifies p s d sp dp seq ack flg win body :
  packet_wf p -> is_u32 s -> is_u32 d -> Forall is_u8 body ->
  contents p = tcp_header sp dp seq ack flg win (tcp_checksum s d sp dp seq ack flg win body) ++ body ->
  tcp_pseudo_checksum s d (bytes p) (start p) (length p) = 0.
Proof.
  intros Hwf Hs Hd Hb Hc. pose proof (length_contents p Hwf) as Hl. pose proof Hwf as (_ & H1 & H2 & H3 & _). rewrite capacity_val in H3.
  assert (Hp : is_u8 RIX_NET_IP_PROTO_TCP) by (unfold is_u8, RIX_NET_IP_PROTO_TCP; lia).
  unfold tcp_pseudo_checksum. rewrite pseudo_checksum_frame by (done || lia).
  rewrite <- Hl, Nat2Z.id, firstn_all, Hc, tcp_sum, Z.add_assoc by apply checksum_add_u16.
  assert (Hlen : llen (tcp_header sp dp seq ack flg win (tcp_checksum s d sp dp seq ack flg win body) ++ body) = 20 + llen body).
  { rewrite length_app. change (List.length (tcp_header _ _ _ _ _ _ _)) with 20%nat. lia. }
  rewrite Hlen. rewrite Hc, Hlen in Hl. unfold tcp_checksum.
  pose proof (pseudo_sum_bound _ s d (20 + llen body) Hs Hd Hp ltac:(lia)).
  pose proof (be_sum_bound (tcp_header sp dp seq ack flg win 0 ++ body)
    ltac:(apply Forall_app; split; [apply tcp_header_u8|done])) as Hsum.
  rewrite length_app in Hsum. change (List.length (tcp_header _ _ _ _ _ _ _)) with 20%nat in Hsum.
  apply checksum_cancels; lia.
Qed.

(** A pushed TCP segment verifies at the receiver and decodes to the fields
    that went in: ports, both sequence numbers, window and payload. The flags come
    back through one byte of the header, so bit 8, which the push admits, is lost. *)
Theorem tcp_roundtrip p hd s d sp dp seq ack flg win payload
    (Hwf : packet_wf p) (Hhead : 20 <= start p)
    (Hroom : start p + length p + llen payload + 20 <= RIX_NET_FRAME_CAPACITY)
    (Hs : is_u32 s) (Hd : is_u32 d) (Hsp : is_u16 sp) (Hdp : is_u16 dp) (Hseq : is_u32 seq) (Hack : is_u32 ack)
    (Hwin : is_u16 win) (Hs0 : s ≠ 0) (Hd0 : d ≠ 0) (Hsp0 : sp ≠ 0) (Hdp0 : dp ≠ 0)
    (Hflg : Z.land flg (not32 0x01ff) = 0) (Hpay : Forall is_u8 payload) :
  ∃ p' ck p'', rix_net_tcp_push (Some p) s d sp dp seq ack flg win (Some payload) (llen payload) = (0, Some p') ∧
    rix_net_tcp_pull (Some p') s d (Some hd)
    = (0, Some {| source_port := sp; destination_port := dp; sequence := seq; acknowledgment := ack; flags := u8 flg;
                  window := win; checksum := ck; urgent := 0 |}, Some p'') ∧
    packet_wf p'' ∧ contents p'' = contents p ++ payload.
Proof.
  destruct (tcp_push_spec p s d sp dp seq ack flg win payload) as (p' & E & Hw' & Hc); try done.
  set (body := contents p ++ payload) in *. set (ck := tcp_checksum s d sp dp seq ack flg win body) in *.
  assert (Hub : Forall is_u8 body) by (apply Forall_app; split; [by apply contents_u8|done]).
  assert (Hck : is_u16 ck) by apply checksum_add_u16.
  pose proof (tcp_checksum_verifies p' s d sp dp seq ack flg win body Hw' Hs Hd Hub Hc) as Hver.
  pose proof (length_contents p' Hw') as Hl'.
  assert (Hlp : length p' = 20 + llen body).
  { rewrite <- Hl', Hc, length_app. change (List.length (tcp_header sp dp seq ack flg win ck)) with 20%nat. lia. }
  exists p', ck. unfold rix_net_tcp_pull. rewrite !truthy_true by done. cbn [negb orb rix_net_packet_length].
  change RIX_NET_TCP_HEADER_LENGTH with 20. destruct (length p' <? 20) eqn:E20; bool_to_prop; [lia|].
  rewrite data_ok by done. cbv zeta. rewrite Hver. rewrite !read_be16, !read_be32, !read_byte by (done || lia).
  rewrite !Hc. change (aget 0 (tcp_header sp dp seq ack flg win ck ++ body) 12) with 80.
  change (Z.shiftr 80 4 * 4) with 20. change (Z.land 80 0x0f) with 0.
  destruct (length p' <? 20) eqn:E21; bool_to_prop; [lia|]. cbn [Z.ltb Z.compare Pos.compare Pos.compare_cont Z.eqb negb orb].
  rewrite (get_be16_bytes _ 0 sp), (get_be16_bytes _ 2 dp), (get_be32_bytes _ 4 seq), (get_be32_bytes _ 8 ack),
    (get_be16_bytes _ 14 win), (get_be16_bytes _ 16 ck), (get_be16_bytes _ 18 0)
    by (reflexivity || done || (unfold is_u16; lia)).
  cbn [source_port destination_port]. rewrite !truthy_true by done. cbn [negb orb].
  destruct (pull_ok p' 20 Hw' ltac:(lia)) as [-> Hw'']. eexists. split; [done|]. split; [reflexivity|].
  split; [done|]. rewrite contents_drop, Hc by (done || lia). reflexivity.
Qed.

Lemma tcp_roundtrip_witness :
  ∃ p' p'', rix_net_tcp_push (Some demo_packet) 0x0a000001 0x0a000002 80 443 7 9 0x112 512 (Some [4; 5]) 2 = (0, Some p') ∧
    contents p'' = [1; 2; 3; 4; 5].
Proof.
  destruct (tcp_roundtrip demo_packet
    {| source_port := 0; destination_port := 0; sequence := 0; acknowledgment := 0; flags := 0; window := 0; checksum := 0; urgent := 0 |}
    0x0a000001 0x0a000002 80 443 7 9 0x112 512 [4; 5] demo_packet_wf) as (p' & ck & p'' & E & _ & _ & Hc);
    [cbn; lia|rewrite capacity_val; cbn; lia|unfold is_u32; lia|unfold is_u32; lia|unfold is_u16; lia|unfold is_u16; lia
    |unfold is_u32; lia|unfold is_u32; lia|unfold is_u16; lia|lia|lia|lia|lia|reflexivity
    |repeat (constructor; [unfold is_u8; lia|]); constructor|].
  exists p', p''. split; [exact E|]. rewrite Hc. vm_compute. reflexivity.
Defined.
