(* ===== verification/Ipv6.v ===== *)
(** * IPv6 ([kernel/net/ipv6.h], [kernel/net/ipv6.c]): header, addresses, neighbours, routes

    The fixed header, address formation, the neighbour cache and the route
    table. The checksummed messages (ICMPv6, UDP and TCP over IPv6) are in
    [Transport6]. *)
From stdpp Require Import base tactics list numbers.
From S2P Require Import Prelude Bytes NetPacket Ethernet Ipv4 Udp.

Definition RIX_NET_IPV6_HEADER_SIZE : Z := 40.
Definition RIX_NET_IPV6_ADDR_SIZE : Z := 16.
Definition RIX_NET_IPV6_NEIGHBOR_CACHE_SIZE : Z := 8.
Definition RIX_NET_IPV6_ROUTE_MAX : Z := 4.

(** Addresses are arrays of 16 bytes. *)
Record rix_net_ipv6_header_t := {
  source6 : list Z; destination6 : list Z; traffic_class : Z; flow_label : Z; payload_length : Z; next_header : Z; hop_limit : Z }.

Definition copy16 (d : list Z) (doff : Z) (s : list Z) (soff : Z) : list Z := copy 16 d doff s soff.

Definition rix_net_ipv6_push (p : option rix_net_packet_t) (src dst : option (list Z)) (next hop tclass flow : Z)
  : Z * option rix_net_packet_t :=
  match p, src, dst with
  | Some q, Some src, Some dst =>
      if negb (truthy hop) || (0xfffff <? flow) || (65535 <? rix_net_packet_length p) then (-1, p)
      else match rix_net_packet_push q RIX_NET_IPV6_HEADER_SIZE with
           | (0, Some w, q') =>
               let version_flow := Z.lor (Z.lor (Z.shiftl 6 28) (Z.shiftl tclass 20)) flow in
               let b := store32 (bytes q') (w + 0) (be32 version_flow) in
               let b := store16 b (w + 4) (be16 (u16 (u64 (rix_net_packet_length (Some q') - RIX_NET_IPV6_HEADER_SIZE)))) in
               let b := aset (w + 6) next b in
               let b := aset (w + 7) hop b in
               let b := copy16 b (w + 8) src 0 in
               let b := copy16 b (w + 24) dst 0 in
               (0, Some (set_bytes b q'))
           | (_, _, q') => (-1, Some q')
           end
  | _, _, _ => (-1, p)
  end.

Definition rix_net_ipv6_pull (p : option rix_net_packet_t) (header : option rix_net_ipv6_header_t)
  : Z * option rix_net_ipv6_header_t * option rix_net_packet_t :=
  match p, header with
  | Some q, Some hd =>
      match rix_net_packet_data q with
      | None => (-1, header, p)
      | Some w =>
          if rix_net_packet_length p <? RIX_NET_IPV6_HEADER_SIZE then (-1, header, p)
          else
            let b := bytes q in
            let version_flow := get_be32 b (w + 0) in
            if negb (Z.shiftr version_flow 28 =? 6) then (-2, header, p)
            else
              let plen := get_be16 b (w + 4) in
              if rix_net_packet_length p - RIX_NET_IPV6_HEADER_SIZE <? plen then (-3, header, p)
              else match rix_net_packet_pull q RIX_NET_IPV6_HEADER_SIZE with
                   | (0, _, q') =>
                       (0, Some {| traffic_class := Z.land (Z.shiftr version_flow 20) 0xff; flow_label := Z.land version_flow 0xfffff;
                                   payload_length := plen; next_header := aget 0 b (w + 6); hop_limit := aget 0 b (w + 7);
                                   source6 := copy16 (source6 hd) 0 b (w + 8); destination6 := copy16 (destination6 hd) 0 b (w + 24) |},
                        Some (set_bounds (start q') plen q'))
                   | (_, _, q') => (-1, header, Some q')
                   end
      end
  | _, _ => (-1, header, p)
  end.

(** ** Address formation *)

(** [address[bit / 8] &= ~(1 << (7 - bit % 8))] *)
Definition clear_bit (bitno : Z) (address : list Z) : list Z :=
  aset (bitno / 8) (Z.land (aget 0 address (bitno / 8)) (u8 (Z.lnot (Z.shiftl 1 (7 - bitno mod 8))))) address.

Definition rix_net_ipv6_slaac_address (prefix : option (list Z)) (prefix_length : Z) (iid : option (list Z)) (address : option (list Z))
  : Z * option (list Z) :=
  match prefix, iid, address with
  | Some prefix, Some iid, Some a =>
      if 128 <? prefix_length then (-1, address)
      else
        let a := copy16 a 0 prefix 0 in
        let a := for_all prefix_length (128 - prefix_length) clear_bit a in
        if negb (prefix_length =? 64) then (-2, Some a) else (0, Some (copy 8 a 8 iid 0))
  | _, _, _ => (-1, address)
  end.

Definition rix_net_ipv6_link_local_from_mac (mac : option (list Z)) (address : option (list Z)) : Z * option (list Z) :=
  match mac, address with
  | Some m, Some a =>
      let a := fill 16 a 0 0 in
      let a := aset 0 0xfe a in
      let a := aset 1 0x80 a in
      let a := aset 8 (u8 (Z.lxor (aget 0 m 0) 2)) a in
      let a := aset 9 (aget 0 m 1) a in
      let a := aset 10 (aget 0 m 2) a in
      let a := aset 11 0xff a in
      let a := aset 12 0xfe a in
      let a := aset 13 (aget 0 m 3) a in
      let a := aset 14 (aget 0 m 4) a in
      (0, Some (aset 15 (aget 0 m 5) a))
  | _, _ => (-1, address)
  end.

(** ** Neighbour cache *)

Definition ipv6_address_equal (left right : list Z) : bool :=
  for_all 0 16 (fun i different => Z.lor different (u8 (Z.lxor (aget 0 left i) (aget 0 right i)))) 0 =? 0.

Record rix_net_ipv6_neighbor_t := { used : Z; naddress : list Z; nmac : list Z; expires : Z }.

(** The cache is its array of entries, and so is the route table. *)
Definition rix_net_ipv6_neighbor_cache_t : Type := list rix_net_ipv6_neighbor_t.

Definition forget (e : rix_net_ipv6_neighbor_t) : rix_net_ipv6_neighbor_t :=
  {| used := 0; naddress := naddress e; nmac := nmac e; expires := expires e |}.

Definition rix_net_ipv6_neighbor_init (cache : option rix_net_ipv6_neighbor_cache_t) : option rix_net_ipv6_neighbor_cache_t :=
  fmap (M := list) forget <$> cache.

(** The first index a search loop stops at. *)
Fixpoint first_index {A} (f : A -> bool) (l : list A) (i : nat) : option nat :=
  match l with
  | [] => None
  | x :: l => if f x then Some i else first_index f l (S i)
  end.

Definition rix_net_ipv6_neighbor_learn (cache : option rix_net_ipv6_neighbor_cache_t) (address mac : option (list Z)) (exp : Z)
  : Z * option rix_net_ipv6_neighbor_cache_t :=
  match cache, address, mac with
  | Some l, Some a, Some m =>
      let slot := match first_index (fun e => truthy (used e) && ipv6_address_equal (naddress e) a) l 0 with
                  | Some i => Some i
                  | None => first_index (fun e => negb (truthy (used e))) l 0
                  end in
      match slot with
      | None => (-2, cache)
      | Some i => (0, Some (alter (fun e => {| used := 1; naddress := copy16 (naddress e) 0 a 0; nmac := copy 6 (nmac e) 0 m 0;
                                               expires := exp |}) i l))
      end
  | _, _, _ => (-1, cache)
  end.

Definition rix_net_ipv6_neighbor_lookup (cache : option rix_net_ipv6_neighbor_cache_t) (address : option (list Z)) (now : Z)
    (mac : option (list Z)) : Z * option (list Z) :=
  match cache, address, mac with
  | Some l, Some a, Some m =>
      match first_index (fun e => truthy (used e) && (now <? expires e) && ipv6_address_equal (naddress e) a) l 0 with
      | Some i => (0, (fun e => copy 6 m 0 (nmac e) 0) <$> l !! i)
      | None => (-2, mac)
      end
  | _, _, _ => (-1, mac)
  end.

Definition neighbor_stale (now : Z) (e : rix_net_ipv6_neighbor_t) : bool := truthy (used e) && (expires e <=? now).

Definition rix_net_ipv6_neighbor_expire (cache : option rix_net_ipv6_neighbor_cache_t) (now : Z) : Z * option rix_net_ipv6_neighbor_cache_t :=
  match cache with
  | None => (-1, None)
  | Some l => (countb (neighbor_stale now) l, Some ((fun e => if neighbor_stale now e then forget e else e) <$> l))
  end.

(** ** Routes *)

Record rix_net_ipv6_route_t := { rprefix : list Z; next_hop : list Z; prefix_length : Z; rused : Z }.

Definition rix_net_ipv6_route_table_t : Type := list rix_net_ipv6_route_t.

Definition ipv6_prefix_matches (address prefix : list Z) (len : Z) : bool :=
  let whole := len / 8 in
  let remainder := len mod 8 in
  match for_ 0 whole (fun i (_ : unit) => if negb (aget 0 address i =? aget 0 prefix i) then inr tt else inl tt) tt with
  | inr _ => false
  | inl _ => (remainder =? 0) || (Z.shiftr (u8 (Z.lxor (aget 0 address whole) (aget 0 prefix whole))) (8 - remainder) =? 0)
  end.

Definition rix_net_ipv6_route_init (table : option rix_net_ipv6_route_table_t) : option rix_net_ipv6_route_table_t :=
  fmap (M := list) (fun r => {| rprefix := rprefix r; next_hop := next_hop r; prefix_length := prefix_length r; rused := 0 |}) <$> table.

Definition rix_net_ipv6_route_add (table : option rix_net_ipv6_route_table_t) (prefix : option (list Z)) (len : Z) (hop : option (list Z))
  : Z * option rix_net_ipv6_route_table_t :=
  match table, prefix, hop with
  | Some l, Some p, Some h =>
      if 128 <? len then (-1, table)
      else
        let slot := match first_index (fun r => truthy (rused r) && (prefix_length r =? len) && ipv6_prefix_matches (rprefix r) p len) l 0 with
                    | Some i => Some i
                    | None => first_index (fun r => negb (truthy (rused r))) l 0
                    end in
        match slot with
        | None => (-2, table)
        | Some i => (0, Some (alter (fun r => {| rused := 1; prefix_length := len; rprefix := copy16 (rprefix r) 0 p 0;
                                                 next_hop := copy16 (next_hop r) 0 h 0 |}) i l))
        end
  | _, _, _ => (-1, table)
  end.

(** The selection loop: the index of the best route so far and its length. *)
Definition route_turn (destination : list Z) (best : option nat * Z) (ir : nat * rix_net_ipv6_route_t) : option nat * Z :=
  let '(i, r) := ir in
  if truthy (rused r) && (snd best <=? prefix_length r) && ipv6_prefix_matches destination (rprefix r) (prefix_length r)
  then (Some i, prefix_length r) else best.

Definition rix_net_ipv6_route_lookup (table : option rix_net_ipv6_route_table_t) (destination : option (list Z)) (hop : option (list Z))
  : Z * option (list Z) :=
  match table, destination, hop with
  | Some l, Some d, Some h =>
      match fst (foldl (route_turn d) (None, 0) (imap pair l)) with
      | None => (-2, hop)
      | Some i =>
          let h := match l !! i with Some r => copy16 h 0 (next_hop r) 0 | None => h end in
          let empty := for_all 0 16 (fun k e => Z.land e (b2z (aget 0 h k =? 0))) 1 in
          (0, Some (if truthy empty then copy16 h 0 d 0 else h))
      end
  | _, _, _ => (-1, hop)
  end.

(** ** Addresses as bit strings *)

(** Bit [k] of an address, counted from the most significant. *)
Definition addr_bit (a : list Z) (k : Z) : bool := Z.testbit (aget 0 a (k / 8)) (7 - k mod 8).

Definition agrees (a p : list Z) (len : Z) : Prop := forall k, 0 <= k < len -> addr_bit a k = addr_bit p k.

Lemma addr_bit_byte a i j : 0 <= j < 8 -> addr_bit a (8 * i + (7 - j)) = Z.testbit (aget 0 a i) j.
Proof.
  intros Hj. unfold addr_bit. rewrite (Z.mul_comm 8), Z.div_add_l, (Z.div_small (7 - j)) by lia.
  rewrite (Z.add_comm (i * 8)), Z_mod_plus_full, Z.mod_small by lia. rewrite Z.add_0_r. f_equal. lia.
Qed.

Lemma byte_ext x y : is_u8 x -> is_u8 y -> (forall j, 0 <= j < 8 -> Z.testbit x j = Z.testbit y j) -> x = y.
Proof.
  intros Hx Hy H. apply Z.bits_inj'. intros n Hn. destruct (decide (n < 8)); [by apply H|].
  unfold is_u8 in *. by rewrite (testbit_high x 8), (testbit_high y 8) by lia.
Qed.

(** The comparison of the last, partial byte. *)
Lemma partial_byte x y r : is_u8 x -> is_u8 y -> 0 < r < 8 ->
  Z.shiftr (u8 (Z.lxor x y)) (8 - r) = 0 <-> forall j, 8 - r <= j < 8 -> Z.testbit x j = Z.testbit y j.
Proof.
  intros Hx Hy Hr. split.
  - intros H j Hj. assert (Hb : Z.testbit (Z.shiftr (u8 (Z.lxor x y)) (8 - r)) (j - (8 - r)) = false) by (rewrite H; apply Z.bits_0).
    rewrite Z.shiftr_spec in Hb by lia. replace (j - (8 - r) + (8 - r)) with j in Hb by lia.
    unfold u8 in Hb. rewrite Z.mod_pow2_bits_low, Z.lxor_spec in Hb by lia. by destruct (Z.testbit x j), (Z.testbit y j).
  - intros H. apply Z.bits_inj'. intros n Hn. rewrite Z.bits_0, Z.shiftr_spec by lia. unfold u8.
    destruct (decide (n + (8 - r) < 8)); [|by rewrite Z.mod_pow2_bits_high by lia].
    rewrite Z.mod_pow2_bits_low, Z.lxor_spec, H by lia. apply xorb_nilpotent.
Qed.

Lemma whole_bytes a p n : Forall is_u8 a -> Forall is_u8 p -> 0 <= n ->
  (forall i, 0 <= i < n -> aget 0 a i = aget 0 p i) <-> agrees a p (8 * n).
Proof.
  intros Ha Hp Hn. split.
  - intros H k Hk. unfold addr_bit. rewrite H; [done|]. split; [apply Z.div_pos; lia|apply Z.div_lt_upper_bound; lia].
  - intros H i Hi. apply byte_ext; [by apply aget_u8..|]. intros j Hj. rewrite <- !addr_bit_byte by done. apply H. lia.
Qed.

Lemma prefix_matches_spec a p len : Forall is_u8 a -> Forall is_u8 p -> 0 <= len ->
  ipv6_prefix_matches a p len = true <-> agrees a p len.
Proof.
  intros Ha Hp Hl. unfold ipv6_prefix_matches. set (w := len / 8). set (r := len mod 8).
  assert (Hr : 0 <= r < 8) by (apply Z.mod_pos_bound; lia). assert (Hw : 0 <= w) by (apply Z.div_pos; lia).
  assert (Hlen : len = 8 * w + r) by (apply Z.div_mod; lia).
  pose proof (for_inv (fun n _ => forall i, 0 <= i < n -> aget 0 a i = aget 0 p i) (fun _ => ~ agrees a p (8 * w)) 0 w
    (fun i (_ : unit) => if negb (aget 0 a i =? aget 0 p i) then inr tt else inl tt) tt) as H.
  destruct (for_ 0 w _ tt) as [?|?].
  - assert (Hbytes : agrees a p (8 * w)).
    { apply whole_bytes; [done..|]. apply H; [lia|lia|]. intros i [] Hi IH. destruct (_ =? _) eqn:E; bool_to_prop; cbn [negb].
      - intros j Hj. destruct (decide (j = i)) as [->|]; [done|]. apply IH. lia.
      - intros Hag. apply E. apply (proj2 (whole_bytes a p w Ha Hp Hw) Hag). lia. }
    destruct (r =? 0) eqn:E; bool_to_prop; cbn [orb].
    + split; [|done]. intros _. by replace len with (8 * w) by lia.
    + rewrite Z.eqb_eq, partial_byte by (first [by apply aget_u8|lia]). split.
      * intros Hb k Hk. destruct (decide (k < 8 * w)); [apply Hbytes; lia|].
        replace k with (8 * w + (7 - (7 - (k - 8 * w)))) by lia. rewrite !addr_bit_byte by lia. apply Hb. lia.
      * intros Hag j Hj. rewrite <- !addr_bit_byte by lia. apply Hag. lia.
  - split; [done|]. intros Hag. exfalso. cbn in H. apply H.
    + lia.
    + lia.
    + intros i [] Hi IH. destruct (_ =? _) eqn:E; bool_to_prop; cbn [negb].
      * intros j Hj. destruct (decide (j = i)) as [->|]; [done|]. apply IH. lia.
      * intros Hag'. apply E. apply (proj2 (whole_bytes a p w Ha Hp Hw) Hag'). lia.
    + intros k Hk. apply Hag. lia.
Qed.

(** ** Route lookup is longest-prefix match *)

Definition addr_ok (a : list Z) : Prop := List.length a = 16%nat /\ Forall is_u8 a.

Definition route_ok (r : rix_net_ipv6_route_t) : Prop :=
  addr_ok (rprefix r) /\ addr_ok (next_hop r) /\ 0 <= prefix_length r <= 128.

(** A route in use whose prefix covers [d]. *)
Definition covers (d : list Z) (r : rix_net_ipv6_route_t) : Prop := rused r <> 0 /\ agrees d (rprefix r) (prefix_length r).

(** Route [i] covers [d] and no route of [l] that does has a longer prefix. *)
Definition longest (d : list Z) (l : list rix_net_ipv6_route_t) (i : nat) : Prop :=
  exists r, l !! i = Some r /\ covers d r /\ forall r', r' ∈ l -> covers d r' -> prefix_length r' <= prefix_length r.

Lemma best_route d l :
  Forall is_u8 d -> Forall route_ok l ->
  let '(best, len) := foldl (route_turn d) (None, 0) (imap pair l) in
  match best with
  | Some i => longest d l i /\ exists r, l !! i = Some r /\ prefix_length r = len
  | None => len = 0 /\ forall r, r ∈ l -> ~ covers d r
  end.
Proof.
  intros Hd. induction l as [|r l IH] using rev_ind; intros Hl; [cbn; split; [done|]; intros r Hr; by apply elem_of_nil in Hr|].
  apply Forall_app in Hl as [Hl Hr]. inversion Hr as [|? ? Hok _]; subst. destruct Hok as ([_ Hp] & _ & Hlen).
  specialize (IH Hl). rewrite imap_app, foldl_app. cbn [imap foldl]. unfold compose. rewrite Nat.add_0_r.
  destruct (foldl _ _ _) as [best len]. unfold route_turn. cbn [snd].
  pose proof (prefix_matches_spec d (rprefix r) (prefix_length r) Hd Hp ltac:(lia)) as Hm.
  assert (Hcov : covers d r <-> truthy (rused r) = true /\ ipv6_prefix_matches d (rprefix r) (prefix_length r) = true)
    by (unfold covers; by rewrite truthy_iff, Hm).
  destruct (truthy (rused r) && (len <=? prefix_length r) && ipv6_prefix_matches _ _ _) eqn:E.
  - apply andb_prop in E as [E E3]. apply andb_prop in E as [E1 E2]. bool_to_prop.
    assert (Hx : (l ++ [r]) !! List.length l = Some r) by (by rewrite lookup_app_r, Nat.sub_diag by lia).
    split; [|by exists r]. exists r. split; [done|]. split; [by apply Hcov|]. intros r' Hr' Hc'.
    apply elem_of_app in Hr' as [Hr'|Hr']; [|apply list_elem_of_singleton in Hr' as ->; lia].
    destruct best as [j|]; [|by destruct IH as [_ IH]; destruct (IH r' Hr')].
    destruct IH as [(x & Hx1 & _ & Hmax) (y & Hy & Hyl)]. rewrite Hx1 in Hy. injection Hy as <-. specialize (Hmax r' Hr' Hc'). lia.
  - assert (Hno : covers d r -> prefix_length r < len).
    { intros Hc. apply Hcov in Hc as [E1 E3]. rewrite E1, E3, andb_true_r in E. cbn in E. bool_to_prop. lia. }
    destruct best as [j|].
    + destruct IH as [(x & Hx1 & Hcx & Hmax) (y & Hy & Hyl)]. rewrite Hx1 in Hy. injection Hy as <-.
      assert (Hx2 : (l ++ [r]) !! j = Some x) by (by apply lookup_app_l_Some).
      split; [|by exists x]. exists x. split; [done|]. split; [done|]. intros r' Hr' Hc'.
      apply elem_of_app in Hr' as [Hr'|Hr']; [by apply Hmax|]. apply list_elem_of_singleton in Hr' as ->. specialize (Hno Hc'). lia.
    + destruct IH as [-> IH]. split; [done|]. intros r' Hr' Hc'.
      apply elem_of_app in Hr' as [Hr'|Hr']; [by apply (IH r')|]. apply list_elem_of_singleton in Hr' as ->. specialize (Hno Hc'). lia.
Qed.

Lemma copy16_all d s : List.length d = 16%nat -> List.length s = 16%nat -> copy16 d 0 s 0 = s.
Proof.
  intros Hd Hs. unfold copy16. pose proof (copy_front s d []) as H. rewrite !app_nil_r, Hs in H. by apply H.
Qed.

(** The test for an all-zero next hop. *)
Lemma all_zero_test h : List.length h = 16%nat ->
  truthy (for_all 0 16 (fun k e => Z.land e (b2z (aget 0 h k =? 0))) 1) = bool_decide (h = replicate 16 0).
Proof.
  intros Hl. pose proof (for_all_inv (fun n e => (e = 1 /\ forall i, 0 <= i < n -> aget 0 h i = 0) \/
    (e = 0 /\ exists i, 0 <= i < n /\ aget 0 h i <> 0)) 0 16 (fun k e => Z.land e (b2z (aget 0 h k =? 0))) 1) as H.
  destruct H as [[-> Hz]|[-> (i & Hi & Hne)]]; [lia|left; split; [done|lia]| | |].
  - intros i e Hi [[-> Hz]|[-> (j & Hj & Hne)]].
    + destruct (aget 0 h i =? 0) eqn:E; bool_to_prop; cbn [b2z]; [left|right]; (split; [done|]).
      * intros j Hj. destruct (decide (j = i)) as [->|]; [done|]. apply Hz. lia.
      * exists i. by split; [lia|].
    + right. split; [done|]. exists j. by split; [lia|].
  - symmetry. apply bool_decide_eq_true. apply list_ext_aget; [by rewrite Hl|]. intros i Hi. rewrite Hl in Hi.
    rewrite Hz by lia. unfold aget. by rewrite lookup_replicate_2 by lia.
  - symmetry. apply bool_decide_eq_false. intros ->. apply Hne. unfold aget. by rewrite lookup_replicate_2 by lia.
Qed.

(** Where a packet for [d] goes: the route's next hop, or [d] itself on a link
    whose next hop is the unspecified address. *)
Definition hop_of (d : list Z) (r : rix_net_ipv6_route_t) : list Z :=
  if bool_decide (next_hop r = replicate 16 0) then d else next_hop r.

(** C35: route lookup is longest-prefix match. It answers exactly when some route
    in use covers the destination, and then with the hop of a covering route
    whose prefix is at least as long as any other's; a hop of all zeros stands
    for the destination itself. Coverage means agreement on the first
    [prefix_length] bits, though the code compares bytes. Without one it returns -2
    and leaves the caller's buffer alone. The routes of the table have prefixes of at most
    128 bits, as the table's insertion demands. *)
Theorem route_lookup_longest_prefix l d h
    (Hl : Forall route_ok l) (Hd : addr_ok d) (Hh : List.length h = 16%nat) :
  let '(rc, out) := rix_net_ipv6_route_lookup (Some l) (Some d) (Some h) in
  (rc = 0 ∧ ∃ i r, l !! i = Some r ∧ longest d l i ∧ out = Some (hop_of d r)) ∨
  (rc = -2 ∧ out = Some h ∧ ∀ r, r ∈ l → ¬ covers d r).
Proof.
  pose proof (best_route d l (proj2 Hd) Hl) as Hb. unfold rix_net_ipv6_route_lookup, rix_net_ipv6_route_table_t.
  destruct (foldl _ _ _) as [[i|] len]; cbn [fst]; [left|right; split; [done|by destruct Hb]].
  destruct Hb as [Hlong _]. pose proof Hlong as (r & Hr & _). rewrite Hr. split; [done|]. exists i, r. split; [done|]. split; [done|].
  pose proof (Forall_lookup_1 _ _ _ _ Hl Hr) as (_ & [Hnl _] & _). cbv zeta. rewrite copy16_all by done. rewrite all_zero_test by done.
  unfold hop_of. case_bool_decide as Hz; [|done]. rewrite copy16_all by (done || apply Hd). done.
Qed.

Definition prefix_2001 : list Z := [0x20; 0x01; 0x0d; 0xb8] ++ replicate 12 0.
Definition demo_routes : list rix_net_ipv6_route_t :=
  [{| rprefix := replicate 16 0; next_hop := [0xfe; 0x80] ++ replicate 13 0 ++ [1]; prefix_length := 0; rused := 1 |};
   {| rprefix := prefix_2001; next_hop := replicate 16 0; prefix_length := 32; rused := 1 |};
   {| rprefix := prefix_2001; next_hop := replicate 16 9; prefix_length := 31; rused := 0 |}].

Lemma route_lookup_longest_prefix_witness :
  longest (prefix_2001) demo_routes 1 ∧
  rix_net_ipv6_route_lookup (Some demo_routes) (Some prefix_2001) (Some (replicate 16 0)) = (0, Some prefix_2001).
Proof.
  assert (Hok : forall a, bool_decide (List.length a = 16%nat /\ Forall (fun x => 0 <= x < 2 ^ 8) a) = true -> addr_ok a)
    by (intros a Ha; apply bool_decide_eq_true in Ha; exact Ha).
  assert (Hl : Forall route_ok demo_routes) by (repeat (constructor; [split; [apply Hok; vm_compute; reflexivity|];
    split; [apply Hok; vm_compute; reflexivity|cbn; lia]|]); constructor).
  pose proof (route_lookup_longest_prefix demo_routes prefix_2001 (replicate 16 0) Hl (Hok prefix_2001 eq_refl) eq_refl) as H.
  assert (E : rix_net_ipv6_route_lookup (Some demo_routes) (Some prefix_2001) (Some (replicate 16 0)) = (0, Some prefix_2001))
    by (vm_compute; reflexivity).
  split; [|exact E]. rewrite E in H. destruct H as [(_ & i & r & Hi & Hlong & Ho)|(H & _)]; [|discriminate H].
  destruct i as [|[|[|i]]]; [injection Hi as <-; vm_compute in Ho; discriminate Ho|exact Hlong
    |injection Hi as <-; vm_compute in Ho; discriminate Ho|destruct i; discriminate Hi].
Defined.

(** ** The header *)

(** Pushing [n] bytes: the packet around them, and what writing them gives. *)
Lemma push_writes p n :
  packet_wf p -> 0 <= n <= start p ->
  exists pre h rest,
    rix_net_packet_push p n = (0, Some (llen pre), {| bytes := pre ++ h ++ rest; start := llen pre; length := length p + n |}) /\
    llen h = n /\
    forall hdr, llen hdr = n -> Forall is_u8 hdr ->
      let p' := {| bytes := pre ++ hdr ++ rest; start := llen pre; length := length p + n |} in
      packet_wf p' /\ contents p' = hdr ++ contents p.
Proof.
  intros Hwf Hn. destruct (push_ok p n Hwf Hn) as [-> _].
  destruct (carve_header p n Hwf Hn) as (pre & h & post & E & Hpre & Hh & H1 & H2).
  exists pre, h, (contents p ++ post). split; [|split; [done|]].
  - rewrite <- Hpre. do 2 f_equal. unfold set_bounds. by rewrite E.
  - intros hdr Hhdr Hu. by apply (carve_replace p n pre h hdr post).
Qed.

Lemma explode16 (a : list Z) : List.length a = 16%nat ->
  exists a0 a1 a2 a3 a4 a5 a6 a7 a8 a9 aa ab ac ad ae af, a = [a0; a1; a2; a3; a4; a5; a6; a7; a8; a9; aa; ab; ac; ad; ae; af].
Proof. intros H. do 16 (destruct a as [|? a]; [done|]). destruct a; [|done]. by repeat eexists. Qed.

Definition ipv6_header (vf plen next hop : Z) (src dst : list Z) : list Z :=
  be_bytes32 vf ++ be_bytes16 plen ++ [next; hop] ++ src ++ dst.

Lemma version_flow_val tc flow : is_u8 tc -> 0 <= flow <= 0xfffff ->
  Z.lor (Z.lor (Z.shiftl 6 28) (Z.shiftl tc 20)) flow = 6 * 2 ^ 28 + tc * 2 ^ 20 + flow.
Proof.
  unfold is_u8. intros Ht Hf. rewrite lor_shiftl by (rewrite ?Z.shiftl_mul_pow2 by lia; lia).
  replace (6 * 2 ^ 28 + Z.shiftl tc 20) with (Z.shiftl (6 * 2 ^ 8 + tc) 20) by (rewrite !Z.shiftl_mul_pow2 by lia; lia).
  rewrite lor_shiftl by lia. lia.
Qed.

Lemma ipv6_push_spec p src dst next hop tc flow :
  packet_wf p -> 40 <= start p -> addr_ok src -> addr_ok dst -> is_u8 next -> is_u8 hop -> hop <> 0 -> is_u8 tc -> 0 <= flow <= 0xfffff ->
  exists p', rix_net_ipv6_push (Some p) (Some src) (Some dst) next hop tc flow = (0, Some p') /\ packet_wf p' /\
    contents p' = ipv6_header (6 * 2 ^ 28 + tc * 2 ^ 20 + flow) (length p) next hop src dst ++ contents p.
Proof.
  intros Hwf Hs [Hsl Hsu] [Hdl Hdu] Hn Hh Hh0 Ht Hf. pose proof Hwf as (_ & H0 & H1 & H2 & _). rewrite capacity_val in H2.
  unfold rix_net_ipv6_push. rewrite truthy_true by done. cbn [negb orb rix_net_packet_length].
  destruct (0xfffff <? flow) eqn:E1; bool_to_prop; [lia|]. destruct (65535 <? length p) eqn:E2; bool_to_prop; [lia|]. cbn [orb].
  change RIX_NET_IPV6_HEADER_SIZE with 40.
  destruct (push_writes p 40 Hwf ltac:(lia)) as (pre & h & rest & -> & Hlh & Hw). cbn [bytes start length].
  rewrite version_flow_val by done. replace (length p + 40 - 40) with (length p) by lia. rewrite u64_id, u16_id by (unfold is_u64, is_u16; lia).
  set (vf := 6 * 2 ^ 28 + tc * 2 ^ 20 + flow). unfold is_u8 in Ht.
  assert (Hvf : is_u32 vf) by (unfold is_u32, vf; lia).
  set (hdr := ipv6_header vf (length p) next hop src dst).
  assert (Hhdr : llen hdr = 40) by (unfold hdr, ipv6_header; rewrite !length_app, Hsl, Hdl; cbn; lia).
  assert (Hu : Forall is_u8 hdr).
  { unfold hdr, ipv6_header. rewrite !Forall_app. split; [repeat (constructor; [apply u8_range|]); constructor|].
    split; [apply be_bytes16_u8|]. split; [repeat (constructor; [done|]); constructor|done]. }
  destruct (Hw hdr Hhdr Hu) as [Hw1 Hc1].
  eexists. split; [|split; [exact Hw1|exact Hc1]]. do 2 f_equal. unfold set_bytes. cbn [start length]. f_equal.
  rewrite store32_be, store16_be by (done || (unfold is_u16; lia)). unfold copy16.
  rewrite put_be32_pre, put_be16_pre, !aset_pre, !copy_pre by lia. f_equal.
  assert (Hl : List.length h = 40%nat) by lia.
  destruct (explode16 src Hsl) as (? & ? & ? & ? & ? & ? & ? & ? & ? & ? & ? & ? & ? & ? & ? & ? & ->).
  destruct (explode16 dst Hdl) as (? & ? & ? & ? & ? & ? & ? & ? & ? & ? & ? & ? & ? & ? & ? & ? & ->).
  do 40 (destruct h as [|? h]; [done|]). destruct h; [|done]. reflexivity.
Qed.

Lemma read_addr p k a : 0 <= k -> k + 16 <= length p -> List.length a = 16%nat ->
  copy16 a 0 (bytes p) (start p + k) = slice (contents p) k 16.
Proof.
  intros Hk0 Hk Ha. unfold copy16. apply list_ext_aget.
  - rewrite length_copy. pose proof (length_slice (contents p) k 16 ltac:(lia)). lia.
  - intros i Hi. rewrite length_copy in Hi. rewrite aget_copy, aget_slice by lia.
    destruct (0 <=? i) eqn:E1, (i <? 0 + Z.of_nat 16) eqn:E2; bool_to_prop; cbn [andb]; try lia.
    rewrite <- read_byte by lia. f_equal. lia.
Qed.

Lemma version_fields tc flow : is_u8 tc -> 0 <= flow <= 0xfffff ->
  let vf := 6 * 2 ^ 28 + tc * 2 ^ 20 + flow in
  Z.shiftr vf 28 = 6 /\ Z.land (Z.shiftr vf 20) 0xff = tc /\ Z.land vf 0xfffff = flow.
Proof.
  intros Ht Hf vf. unfold is_u8 in Ht. change 0xff with (Z.ones 8). change 0xfffff with (Z.ones 20).
  rewrite !Z.land_ones, !Z.shiftr_div_pow2 by lia. unfold vf. repeat split.
  - rewrite <- Z.add_assoc, Z.div_add_l, Z.div_small by lia. done.
  - replace (6 * 2 ^ 28 + tc * 2 ^ 20 + flow) with ((6 * 2 ^ 8 + tc) * 2 ^ 20 + flow) by lia.
    rewrite Z.div_add_l, Z.div_small by lia. rewrite Z.add_0_r, Z.add_comm, Z_mod_plus_full. apply Z.mod_small. lia.
  - replace (6 * 2 ^ 28 + tc * 2 ^ 20 + flow) with (flow + (6 * 2 ^ 8 + tc) * 2 ^ 20) by lia. rewrite Z_mod_plus_full. apply Z.mod_small. lia.
Qed.

(** IPv6 headers round-trip. Pushing a header and pulling it returns both
    addresses, traffic class, flow label, next header and hop limit as given, the
    payload length is that of the frame, and the frame is back as it was. *)
Theorem ipv6_roundtrip p hd src dst next hop tc flow
    (Hwf : packet_wf p) (Hroom : 40 <= start p) (Hsrc : addr_ok src) (Hdst : addr_ok dst)
    (Hs0 : List.length (source6 hd) = 16%nat) (Hd0 : List.length (destination6 hd) = 16%nat)
    (Hn : is_u8 next) (Hh : is_u8 hop) (Hh0 : hop ≠ 0) (Ht : is_u8 tc) (Hf : 0 <= flow <= 0xfffff) :
  ∃ p' p'', rix_net_ipv6_push (Some p) (Some src) (Some dst) next hop tc flow = (0, Some p') ∧
    rix_net_ipv6_pull (Some p') (Some hd)
    = (0, Some {| source6 := src; destination6 := dst; traffic_class := tc; flow_label := flow; payload_length := length p;
                  next_header := next; hop_limit := hop |}, Some p'') ∧
    packet_wf p'' ∧ contents p'' = contents p.
Proof.
  destruct (ipv6_push_spec p src dst next hop tc flow Hwf Hroom Hsrc Hdst Hn Hh Hh0 Ht Hf) as (p' & E & Hw & Hc). exists p'.
  pose proof Hwf as (_ & P0 & P1 & P2 & _). rewrite capacity_val in P2.
  set (vf := 6 * 2 ^ 28 + tc * 2 ^ 20 + flow) in *. destruct (version_fields tc flow Ht Hf) as (V1 & V2 & V3). fold vf in V1, V2, V3.
  assert (Hvf : is_u32 vf) by (unfold is_u32, vf, is_u8 in *; lia).
  destruct Hsrc as [Hsl Hsu], Hdst as [Hdl Hdu].
  set (hdr := ipv6_header vf (length p) next hop src dst) in *.
  assert (Hhdr : llen hdr = 40) by (unfold hdr, ipv6_header; rewrite !length_app, Hsl, Hdl; cbn; lia).
  assert (Hlp : length p' = 40 + length p) by (rewrite <- (length_contents p'), Hc, length_app, Nat2Z.inj_add, Hhdr, (length_contents p) by done; done).
  unfold rix_net_ipv6_pull. rewrite data_ok by done. cbn [rix_net_packet_length]. change RIX_NET_IPV6_HEADER_SIZE with 40.
  destruct (length p' <? 40) eqn:E1; bool_to_prop; [lia|]. cbv zeta. rewrite read_be32, read_be16, !read_byte by lia.
  assert (F0 : get_be32 (contents p') 0 = vf) by (rewrite Hc; apply get_be32_bytes; [done|reflexivity..]).
  assert (F4 : get_be16 (contents p') 4 = length p) by (rewrite Hc; apply get_be16_bytes; [unfold is_u16; lia|reflexivity..]).
  assert (F6 : aget 0 (contents p') 6 = next) by (rewrite Hc; reflexivity).
  assert (F7 : aget 0 (contents p') 7 = hop) by (rewrite Hc; reflexivity).
  rewrite F0, F4, F6, F7, V1, V2, V3. cbn [Z.eqb Pos.eqb negb]. destruct (length p' - 40 <? length p) eqn:E2; bool_to_prop; [lia|].
  destruct (pull_ok p' 40 Hw ltac:(lia)) as [-> Hw'']. rewrite !read_addr by (done || lia).
  assert (S8 : slice (contents p') 8 16 = src).
  { rewrite Hc. unfold hdr, ipv6_header. rewrite <- !(assoc_L (++)).
    rewrite (assoc_L (++) (be_bytes32 vf)), (assoc_L (++) (be_bytes32 vf ++ be_bytes16 (length p))). apply slice_mid; [reflexivity|lia]. }
  assert (S24 : slice (contents p') 24 16 = dst).
  { rewrite Hc. unfold hdr, ipv6_header. rewrite <- !(assoc_L (++)).
    rewrite (assoc_L (++) (be_bytes32 vf)), (assoc_L (++) (be_bytes32 vf ++ be_bytes16 (length p))), (assoc_L (++) _ src).
    apply slice_mid; [rewrite !length_app, Hsl; reflexivity|lia]. }
  rewrite S8, S24. eexists. split; [exact E|]. split; [reflexivity|].
  replace (length p) with (length p' - 40) at 1 2 by lia.
  assert (Eb : set_bounds (start (set_bounds (start p' + 40) (length p' - 40) p')) (length p' - 40) (set_bounds (start p' + 40) (length p' - 40) p')
               = set_bounds (start p' + 40) (length p' - 40) p') by reflexivity.
  split; [by rewrite Eb|]. replace (length p) with (length p' - 40) by lia. rewrite Eb. rewrite contents_drop by (done || lia).
  rewrite Hc. rewrite <- Hhdr. rewrite Nat2Z.id. apply drop_app_length.
Qed.

Definition blank_header : rix_net_ipv6_header_t :=
  {| source6 := replicate 16 0; destination6 := replicate 16 0; traffic_class := 0; flow_label := 0; payload_length := 0;
     next_header := 0; hop_limit := 0 |}.

Lemma ipv6_roundtrip_witness :
  ∃ p' p'', rix_net_ipv6_push (Some demo_packet) (Some prefix_2001) (Some (replicate 16 1)) 17 64 0x2e 0xabcde = (0, Some p') ∧
    contents p'' = [1; 2; 3].
Proof.
  assert (Hok : forall a, bool_decide (List.length a = 16%nat /\ Forall (fun x => 0 <= x < 2 ^ 8) a) = true -> addr_ok a)
    by (intros a Ha; apply bool_decide_eq_true in Ha; exact Ha).
  destruct (ipv6_roundtrip demo_packet blank_header prefix_2001 (replicate 16 1) 17 64 0x2e 0xabcde demo_packet_wf)
    as (p' & p'' & E & _ & _ & Hc); try (unfold is_u8; lia);
    [cbn; lia|apply Hok; reflexivity|apply Hok; reflexivity|reflexivity|reflexivity|]. exists p', p''. split; [exact E|exact Hc].
Defined.

(** ** Address formation *)

Lemma clear_addr_bit_ok b a : addr_ok a -> addr_ok (clear_bit b a).
Proof.
  intros [Hl Hu]. split; [unfold clear_bit; by rewrite length_aset|]. unfold clear_bit, aset. apply Forall_insert; [done|].
  pose proof (aget_u8 a (b / 8) Hu) as Ha. unfold is_u8 in *. apply land_range; lia.
Qed.

Lemma clear_bit_spec b a k : addr_ok a -> 0 <= b < 128 -> 0 <= k < 128 ->
  addr_bit (clear_bit b a) k = addr_bit a k && negb (k =? b).
Proof.
  intros [Hl Hu] Hb Hk. unfold addr_bit, clear_bit.
  assert (0 <= k / 8 < 16) by (split; [apply Z.div_pos; lia|apply Z.div_lt_upper_bound; lia]).
  assert (0 <= b / 8 < 16) by (split; [apply Z.div_pos; lia|apply Z.div_lt_upper_bound; lia]).
  pose proof (Z.div_mod k 8 ltac:(lia)). pose proof (Z.div_mod b 8 ltac:(lia)).
  pose proof (Z.mod_pos_bound k 8 ltac:(lia)). pose proof (Z.mod_pos_bound b 8 ltac:(lia)).
  destruct (decide (k / 8 = b / 8)) as [E|E].
  - rewrite E, aget_aset_eq, Z.land_spec by lia. f_equal. unfold u8. rewrite Z.mod_pow2_bits_low, Z.lnot_spec by lia.
    f_equal. change (Z.shiftl 1 (7 - b mod 8)) with (bit (7 - b mod 8)). rewrite bit_testbit by lia.
    destruct (k =? b) eqn:Ek, (7 - k mod 8 =? 7 - b mod 8) eqn:Ej; bool_to_prop; try done; lia.
  - rewrite aget_aset_ne by lia. destruct (k =? b) eqn:Ek; bool_to_prop; [subst; done|]. by rewrite andb_true_r.
Qed.

(** Clearing from [len] on keeps the prefix and zeroes the rest. *)
Lemma clear_from len a : addr_ok a -> 0 <= len <= 128 ->
  let a' := for_all len (128 - len) clear_bit a in
  addr_ok a' /\ forall k, 0 <= k < 128 -> addr_bit a' k = addr_bit a k && (k <? len).
Proof.
  intros Ha Hl a'. subst a'.
  pose proof (for_all_inv (fun n a' => addr_ok a' /\ forall k, 0 <= k < 128 -> addr_bit a' k = addr_bit a k && ((k <? len) || (n <=? k)))
    len (128 - len) clear_bit a ltac:(lia)) as H. cbn beta in H. destruct H as [H1 H2].
  - split; [done|]. intros k Hk. destruct (k <? len) eqn:E1, (len <=? k) eqn:E2; bool_to_prop; cbn; try lia; by rewrite andb_true_r.
  - intros i s Hi [H1 H2]. split; [by apply clear_addr_bit_ok|]. intros k Hk. rewrite clear_bit_spec, H2 by (done || lia).
    rewrite <- andb_assoc. f_equal. destruct (k <? len) eqn:E1, (i <=? k) eqn:E2, (i + 1 <=? k) eqn:E3, (k =? i) eqn:E4; bool_to_prop; try done; lia.
  - split; [done|]. intros k Hk. rewrite H2 by done. f_equal. destruct (len + (128 - len) <=? k) eqn:E; bool_to_prop; [lia|]. by rewrite orb_false_r.
Qed.

Lemma addr_ext a b : addr_ok a -> addr_ok b -> (forall k, 0 <= k < 128 -> addr_bit a k = addr_bit b k) -> a = b.
Proof.
  intros [Hla Ha] [Hlb Hb] H. apply list_ext_aget; [congruence|]. intros i Hi. rewrite Hla in Hi.
  apply byte_ext; [by apply aget_u8..|]. intros j Hj. rewrite <- !addr_bit_byte by done. apply H. lia.
Qed.

(** Stateless address configuration. For a 64-bit prefix the address is the
    first eight bytes of the prefix followed by the interface identifier; any
    other length up to 128 is refused with -2, leaving the address with exactly
    the prefix's bits and zeros after them; longer ones are refused untouched. *)
Theorem slaac_address_formed prefix len iid a
    (Hp : addr_ok prefix) (Ha : List.length a = 16%nat) (Hi : List.length iid = 8%nat) (Hlen : 0 <= len) :
  let '(rc, out) := rix_net_ipv6_slaac_address (Some prefix) len (Some iid) (Some a) in
  (rc = 0 ∧ len = 64 ∧ out = Some (take 8 prefix ++ iid)) ∨
  (rc = -2 ∧ len ≠ 64 ∧ len <= 128 ∧ ∃ m, out = Some m ∧ addr_ok m ∧ ∀ k, 0 <= k < 128 → addr_bit m k = addr_bit prefix k && (k <? len)) ∨
  (rc = -1 ∧ 128 < len ∧ out = Some a).
Proof.
  unfold rix_net_ipv6_slaac_address. destruct (128 <? len) eqn:E; bool_to_prop; [by right; right|].
  cbv zeta. rewrite copy16_all by (done || apply Hp). destruct (clear_from len prefix Hp ltac:(lia)) as [Hok Hbits].
  set (m := for_all len (128 - len) clear_bit prefix) in *. destruct (len =? 64) eqn:E64; bool_to_prop; cbn [negb].
  - left. split; [done|]. split; [done|]. f_equal. subst len.
    assert (Hm : take 8 m = take 8 prefix).
    { assert (Hag : agrees m prefix (8 * 8)).
      { intros k Hk. rewrite Hbits by lia. destruct (k <? 64) eqn:Ek; bool_to_prop; [by rewrite andb_true_r|lia]. }
      destruct Hok as [Hml Hmu], Hp as [Hpl Hpu]. apply list_ext_aget; [rewrite !length_take; lia|]. intros i Hix. rewrite length_take, Hml in Hix.
      rewrite !aget_take by lia. by apply (proj2 (whole_bytes m prefix 8 Hmu Hpu ltac:(lia)) Hag). }
    rewrite <- Hm, <- (take_drop 8 m) at 1. destruct Hok as [Hml _].
    pose proof (copy_pre 8 (take 8 m) (drop 8 m) 0 iid 0 ltac:(lia)) as Hcp. rewrite length_take, Hml in Hcp.
    change (Z.of_nat (8 `min` 16) + 0) with 8 in Hcp. rewrite Hcp. f_equal.
    pose proof (copy_front iid (drop 8 m) []) as Hf. rewrite !app_nil_r, Hi in Hf. apply Hf. rewrite length_drop. lia.
  - right. left. split; [done|]. split; [done|]. split; [lia|]. by exists m.
Qed.

Lemma slaac_address_formed_witness :
  rix_net_ipv6_slaac_address (Some prefix_2001) 64 (Some [2; 0; 0; 255; 254; 0; 0; 1]) (Some (replicate 16 7))
  = (0, Some ([0x20; 0x01; 0x0d; 0xb8; 0; 0; 0; 0] ++ [2; 0; 0; 255; 254; 0; 0; 1])).
Proof.
  assert (Hok : addr_ok prefix_2001).
  { assert (H : bool_decide (List.length prefix_2001 = 16%nat /\ Forall (fun x => 0 <= x < 2 ^ 8) prefix_2001) = true) by (vm_compute; reflexivity).
    apply bool_decide_eq_true in H. exact H. }
  pose proof (slaac_address_formed prefix_2001 64 [2; 0; 0; 255; 254; 0; 0; 1] (replicate 16 7) Hok eq_refl eq_refl ltac:(lia)) as H.
  destruct (rix_net_ipv6_slaac_address _ _ _ _) as [rc out].
  destruct H as [(-> & _ & ->)|[(_ & H & _)|(_ & H & _)]]; [reflexivity|exfalso; apply H; reflexivity|exfalso; lia].
Defined.

(** ** Neighbour cache *)

Lemma address_equal_spec a b : addr_ok a -> addr_ok b -> ipv6_address_equal a b = bool_decide (a = b).
Proof.
  intros [Hla Ha] [Hlb Hb]. unfold ipv6_address_equal.
  pose proof (for_all_inv (fun n d => 0 <= d /\ (d = 0 <-> forall i, 0 <= i < n -> aget 0 a i = aget 0 b i)) 0 16
    (fun i different => Z.lor different (u8 (Z.lxor (aget 0 a i) (aget 0 b i)))) 0 ltac:(lia)) as H. cbn beta in H. destruct H as [_ H].
  - split; [lia|]. split; [lia|done].
  - intros i d Hi [Hd0 Hd]. pose proof (u8_range (Z.lxor (aget 0 a i) (aget 0 b i))) as Hr. unfold is_u8 in Hr.
    split; [apply Z.lor_nonneg; lia|]. rewrite Z.lor_eq_0_iff, Hd.
    assert (Hx : u8 (Z.lxor (aget 0 a i) (aget 0 b i)) = 0 <-> aget 0 a i = aget 0 b i).
    { split; [|by intros ->; rewrite Z.lxor_nilpotent]. intros Hz. apply byte_ext; [by apply aget_u8..|]. intros j Hj.
      assert (Hbit : Z.testbit (u8 (Z.lxor (aget 0 a i) (aget 0 b i))) j = false) by (rewrite Hz; apply Z.bits_0).
      unfold u8 in Hbit. rewrite Z.mod_pow2_bits_low, Z.lxor_spec in Hbit by lia. by destruct (Z.testbit (aget 0 a i) j), (Z.testbit (aget 0 b i) j). }
    rewrite Hx. split.
    + intros [H1 H2] j Hj. destruct (decide (j = i)) as [->|]; [done|]. apply H1. lia.
    + intros H1. split; [intros j Hj; apply H1; lia|apply H1; lia].
  - case_bool_decide as E.
    + subst b. apply Z.eqb_eq, H. done.
    + apply Z.eqb_neq. intros Hz. apply E. apply list_ext_aget; [congruence|]. intros i Hi. rewrite Hla in Hi. apply H; [done|lia].
Qed.

Lemma first_index_spec {A} (f : A -> bool) l n :
  match first_index f l n with
  | Some i => (n <= i)%nat /\ (exists x, l !! (i - n)%nat = Some x /\ f x = true) /\
              forall j y, (j < i - n)%nat -> l !! j = Some y -> f y = false
  | None => forall y, y ∈ l -> f y = false
  end.
Proof.
  revert n. induction l as [|x l IH]; intros n; cbn [first_index]; [intros y Hy; by apply elem_of_nil in Hy|].
  destruct (f x) eqn:E.
  - rewrite Nat.sub_diag. split; [lia|]. split; [by exists x|]. intros j y Hj. lia.
  - specialize (IH (S n)). destruct (first_index f l (S n)) as [i|].
    + destruct IH as (Hi & (y & Hy & Hf) & Hmin). split; [lia|]. replace (i - n)%nat with (S (i - S n)) by lia. split; [by exists y|].
      intros j z Hj Hz. destruct j as [|j]; cbn in Hz; [by injection Hz as <-|]. apply (Hmin j); [lia|done].
    + intros y Hy. apply elem_of_cons in Hy as [->|Hy]; [done|by apply IH].
Qed.

(** The first index is determined by what it is. *)
Lemma first_index_eq {A} (f : A -> bool) l i x :
  l !! i = Some x -> f x = true -> (forall j y, (j < i)%nat -> l !! j = Some y -> f y = false) -> first_index f l 0 = Some i.
Proof.
  intros Hx Hf Hmin. pose proof (first_index_spec f l 0) as H. destruct (first_index f l 0) as [k|].
  - destruct H as (_ & (y & Hy & Hfy) & Hk). rewrite Nat.sub_0_r in Hy, Hk. f_equal.
    destruct (Nat.lt_trichotomy k i) as [Hlt|[Heq|Hgt]]; [by rewrite (Hmin k y Hlt Hy) in Hfy|done|by rewrite (Hk i x Hgt Hx) in Hf].
  - exfalso. rewrite (H x) in Hf; [done|]. by eapply list_elem_of_lookup_2.
Qed.

Definition neighbor_ok (e : rix_net_ipv6_neighbor_t) : Prop := addr_ok (naddress e) /\ List.length (nmac e) = 6%nat.

(** Slots that match in neither list do not matter to a search. *)
Lemma first_index_alter {A} (g : A -> A) (h : A -> bool) l i x :
  l !! i = Some x -> h x = false -> h (g x) = false -> first_index h (alter g i l) 0 = first_index h l 0.
Proof.
  intros Hx H1 H2. generalize 0%nat. revert i Hx. induction l as [|y l IH]; intros i Hx n; [done|].
  destruct i as [|i]; cbn in Hx |- *.
  - injection Hx as ->. by rewrite H1, H2.
  - destruct (h y); [done|]. by apply IH.
Qed.

(** The slot [learn] takes: the address's own, else a free one. *)
Lemma learn_slot l a : Forall neighbor_ok l -> addr_ok a ->
  match (match first_index (fun e => truthy (used e) && ipv6_address_equal (naddress e) a) l 0 with
         | Some i => Some i | None => first_index (fun e => negb (truthy (used e))) l 0 end) with
  | None => Forall (λ e, used e ≠ 0 ∧ naddress e ≠ a) l
  | Some i => exists x, l !! i = Some x /\ (used x <> 0 -> naddress x = a) /\
      forall j y, (j < i)%nat -> l !! j = Some y -> used y <> 0 -> naddress y <> a
  end.
Proof.
  intros Hl Ha.
  pose proof (first_index_spec (fun e => truthy (used e) && ipv6_address_equal (naddress e) a) l 0) as H1.
  pose proof (first_index_spec (fun e => negb (truthy (used e))) l 0) as H2.
  assert (Heq : forall y, y ∈ l -> truthy (used y) && ipv6_address_equal (naddress y) a = false -> used y <> 0 -> naddress y <> a).
  { intros y Hy E Hu. rewrite truthy_true, andb_true_l in E by done. rewrite address_equal_spec in E; [by apply bool_decide_eq_false in E| |done].
    apply list_elem_of_lookup_1 in Hy as [k Hk]. exact (proj1 (Forall_lookup_1 _ _ _ _ Hl Hk)). }
  destruct (first_index _ l 0) as [i|]; [|destruct (first_index _ l 0) as [i|]].
  - destruct H1 as (_ & (x & Hx & Hf) & Hmin). rewrite Nat.sub_0_r in Hx, Hmin. exists x. split; [done|].
    apply andb_prop in Hf as [Hu Hf]. pose proof (Forall_lookup_1 _ _ _ _ Hl Hx) as [Hax _].
    rewrite address_equal_spec in Hf by done. apply bool_decide_eq_true in Hf. split; [done|]. intros j y Hj Hy.
    apply Heq; [by eapply list_elem_of_lookup_2|by apply (Hmin j)].
  - destruct H2 as (_ & (x & Hx & Hf) & _). rewrite Nat.sub_0_r in Hx. exists x. split; [done|].
    apply negb_true_iff in Hf. split; [intros Hu; by rewrite truthy_true in Hf|]. intros j y Hj Hy.
    assert (y ∈ l) by (by eapply list_elem_of_lookup_2). by apply Heq; [|apply H1].
  - apply Forall_forall. intros y Hy. apply list_elem_of_In in Hy. specialize (H2 y Hy). apply negb_false_iff, truthy_iff in H2.
    split; [done|]. by apply Heq; [|apply H1|].
Qed.

Definition answers (b : list Z) (now : Z) (e : rix_net_ipv6_neighbor_t) : bool :=
  truthy (used e) && (now <? expires e) && ipv6_address_equal (naddress e) b.

Lemma answers_other b now e : addr_ok (naddress e) -> addr_ok b -> (used e <> 0 -> naddress e <> b) -> answers b now e = false.
Proof.
  intros He Hb Hne. unfold answers. destruct (truthy (used e)) eqn:Eu; [|done]. apply truthy_iff in Eu.
  rewrite address_equal_spec, bool_decide_false by auto. apply andb_false_r.
Qed.

Lemma answers_own b now e : addr_ok b -> naddress e = b -> used e <> 0 -> now < expires e -> answers b now e = true.
Proof.
  intros Hb He Hu Hnow. unfold answers. rewrite truthy_true, He, address_equal_spec, bool_decide_true by done.
  rewrite andb_true_r. by apply Z.ltb_lt.
Qed.

Lemma lookup_hit l b now mac0 i e : List.length mac0 = 6%nat -> List.length (nmac e) = 6%nat ->
  first_index (answers b now) l 0 = Some i -> l !! i = Some e ->
  rix_net_ipv6_neighbor_lookup (Some l) (Some b) now (Some mac0) = (0, Some (nmac e)).
Proof.
  intros H0 He Hi Hl. unfold rix_net_ipv6_neighbor_lookup. fold (answers b now). rewrite Hi.
  unfold rix_net_ipv6_neighbor_cache_t. rewrite Hl.
  change ((0, Some (copy 6 mac0 0 (nmac e) 0)) = (0, Some (nmac e))).
  pose proof (copy_front (nmac e) mac0 []) as Hf. rewrite !app_nil_r, He in Hf. by rewrite Hf.
Qed.

Lemma lookup_same l k b now mac0 : first_index (answers b now) k 0 = first_index (answers b now) l 0 ->
  (forall i, first_index (answers b now) l 0 = Some i -> k !! i = l !! i) ->
  rix_net_ipv6_neighbor_lookup (Some k) (Some b) now (Some mac0) = rix_net_ipv6_neighbor_lookup (Some l) (Some b) now (Some mac0).
Proof.
  intros E H. unfold rix_net_ipv6_neighbor_lookup. fold (answers b now). rewrite E.
  destruct (first_index (answers b now) l 0) as [i|]; [|done].
  unfold rix_net_ipv6_neighbor_cache_t. by rewrite H.
Qed.

(** What [learn] writes in a slot. *)
Definition learned (a m : list Z) (exp : Z) (e : rix_net_ipv6_neighbor_t) : rix_net_ipv6_neighbor_t :=
  {| used := 1; naddress := copy16 (naddress e) 0 a 0; nmac := copy 6 (nmac e) 0 m 0; expires := exp |}.

Lemma learned_val a m exp e : neighbor_ok e -> addr_ok a -> List.length m = 6%nat ->
  learned a m exp e = {| used := 1; naddress := a; nmac := m; expires := exp |}.
Proof.
  intros [[He _] Hem] [Ha _] Hm. unfold learned. rewrite copy16_all by done. f_equal.
  pose proof (copy_front m (nmac e) []) as Hf. rewrite !app_nil_r, Hm in Hf. by apply Hf.
Qed.

Lemma learn_cases l a m exp :
  rix_net_ipv6_neighbor_learn (Some l) (Some a) (Some m) exp =
  match (match first_index (fun e => truthy (used e) && ipv6_address_equal (naddress e) a) l 0 with
         | Some i => Some i | None => first_index (fun e => negb (truthy (used e))) l 0 end) with
  | None => (-2, Some l)
  | Some i => (0, Some (alter (learned a m exp) i l))
  end.
Proof. reflexivity. Qed.

(** The effect of writing slot [i] on every search. *)
Lemma learned_lookups l a m exp mac0 i x (Hl : Forall neighbor_ok l) (Ha : addr_ok a) (Hm : List.length m = 6%nat)
    (Hm0 : List.length mac0 = 6%nat) (Hx : l !! i = Some x) (Hxa : used x <> 0 -> naddress x = a)
    (Hbefore : forall j y, (j < i)%nat -> l !! j = Some y -> used y <> 0 -> naddress y <> a) :
  let k := alter (learned a m exp) i l in
  Forall neighbor_ok k /\
  (forall now, now < exp -> rix_net_ipv6_neighbor_lookup (Some k) (Some a) now (Some mac0) = (0, Some m)) /\
  (forall b now, addr_ok b -> b <> a ->
     rix_net_ipv6_neighbor_lookup (Some k) (Some b) now (Some mac0) = rix_net_ipv6_neighbor_lookup (Some l) (Some b) now (Some mac0)).
Proof.
  pose proof (Forall_lookup_1 _ _ _ _ Hl Hx) as Hok. pose proof (learned_val a m exp x Hok Ha Hm) as Hg.
  assert (Hi : alter (learned a m exp) i l !! i = Some (learned a m exp x)) by (by rewrite list_lookup_alter_eq, Hx).
  rewrite Hg in Hi. intros k. split; [|split].
  - apply Forall_alter; [done|]. intros y Hy _. rewrite Hx in Hy. injection Hy as <-. rewrite Hg. by split.
  - intros now Hnow. apply (lookup_hit _ _ _ _ i {| used := 1; naddress := a; nmac := m; expires := exp |}); [done|done| |done].
    apply (first_index_eq _ _ _ _ Hi); [by apply answers_own|]. intros j y Hj Hy. rewrite list_lookup_alter_ne in Hy by lia.
    apply answers_other; [exact (proj1 (Forall_lookup_1 _ _ _ _ Hl Hy))|done|by apply (Hbefore j)].
  - intros b now Hb Hne.
    assert (Hhx : answers b now x = false) by (apply answers_other; [apply Hok|done|intros Hu; rewrite (Hxa Hu); congruence]).
    apply lookup_same.
    + apply (first_index_alter _ _ l i x Hx Hhx). rewrite Hg. by apply answers_other; [| |intros _; apply not_eq_sym].
    + intros j Hj. apply list_lookup_alter_ne. intros ->. pose proof (first_index_spec (answers b now) l 0) as Hs.
      rewrite Hj, Nat.sub_0_r in Hs. destruct Hs as (_ & (y & Hy & Hf) & _). congruence.
Qed.

(** The neighbour cache answers with what it learned. Learning takes the slot
    of the address if it has one, else a free slot, else fails and changes
    nothing; after a success the address resolves to the hardware address until
    it expires, and every other address resolves as before. *)
Theorem neighbor_cache_correct l a m exp mac0
    (Hl : Forall neighbor_ok l) (Ha : addr_ok a) (Hm : List.length m = 6%nat) (Hm0 : List.length mac0 = 6%nat) :
  let '(rc, l') := rix_net_ipv6_neighbor_learn (Some l) (Some a) (Some m) exp in
  (rc = 0 ∧ ∃ k, l' = Some k ∧ Forall neighbor_ok k ∧
     (∀ now, now < exp → rix_net_ipv6_neighbor_lookup (Some k) (Some a) now (Some mac0) = (0, Some m)) ∧
     (∀ b now, addr_ok b → b ≠ a →
        rix_net_ipv6_neighbor_lookup (Some k) (Some b) now (Some mac0) = rix_net_ipv6_neighbor_lookup (Some l) (Some b) now (Some mac0))) ∨
  (rc = -2 ∧ l' = Some l ∧ Forall (λ e, used e ≠ 0 ∧ naddress e ≠ a) l).
Proof.
  rewrite learn_cases. pose proof (learn_slot l a Hl Ha) as Hs.
  destruct (match first_index _ l 0 with Some i => Some i | None => _ end) as [i|]; [left|by right].
  destruct Hs as (x & Hx & Hxa & Hb). split; [done|]. eexists. split; [reflexivity|]. by apply (learned_lookups l a m exp mac0 i x).
Qed.

Lemma neighbor_cache_correct_witness :
  ∃ k, rix_net_ipv6_neighbor_learn (Some [{| used := 0; naddress := replicate 16 0; nmac := replicate 6 0; expires := 0 |}])
         (Some prefix_2001) (Some [1; 2; 3; 4; 5; 6]) 100 = (0, Some k) ∧
    rix_net_ipv6_neighbor_lookup (Some k) (Some prefix_2001) 99 (Some (replicate 6 0)) = (0, Some [1; 2; 3; 4; 5; 6]).
Proof.
  assert (Hok : forall a, bool_decide (List.length a = 16%nat /\ Forall (fun x => 0 <= x < 2 ^ 8) a) = true -> addr_ok a)
    by (intros a Ha; apply bool_decide_eq_true in Ha; exact Ha).
  set (e := {| used := 0; naddress := replicate 16 0; nmac := replicate 6 0; expires := 0 |}).
  assert (Hl : Forall neighbor_ok [e]) by (constructor; [split; [apply Hok; reflexivity|reflexivity]|constructor]).
  pose proof (neighbor_cache_correct [e] prefix_2001 [1; 2; 3; 4; 5; 6] 100 (replicate 6 0) Hl (Hok prefix_2001 eq_refl) eq_refl eq_refl) as H.
  assert (E : fst (rix_net_ipv6_neighbor_learn (Some [e]) (Some prefix_2001) (Some [1; 2; 3; 4; 5; 6]) 100) = 0) by (vm_compute; reflexivity).
  destruct (rix_net_ipv6_neighbor_learn _ _ _ _) as [rc l']. cbn [fst] in E. subst rc.
  destruct H as [(_ & k & -> & _ & Hk & _)|(H & _)]; [|discriminate H]. exists k. split; [reflexivity|]. apply Hk. lia.
Defined.
