(* ===== verification/Transport6.v ===== *)
(** * Messages over IPv6 ([kernel/net/ipv6.c]): ICMPv6, UDP and TCP

    Everything of [ipv6.c] that carries the IPv6 pseudo-header checksum: echo,
    neighbour and router messages, datagrams and segments. Each push is shown to
    write a sealed message ([seal6]: the bytes with the checksum in its place),
    one lemma shows that sealed messages verify, and the pulls are shown to give
    back what the pushes were given. *)
From stdpp Require Import base tactics list numbers.
From S2P Require Import Prelude Bytes NetPacket Ethernet Ipv4 Udp Tcp Ipv6.

Definition RIX_NET_IP_PROTO_ICMPV6 : Z := 58.
Definition RIX_NET_ICMPV6_ECHO_REQUEST : Z := 128.
Definition RIX_NET_ICMPV6_ECHO_REPLY : Z := 129.
Definition RIX_NET_ICMPV6_ROUTER_SOLICIT : Z := 133.
Definition RIX_NET_ICMPV6_ROUTER_ADVERT : Z := 134.
Definition RIX_NET_ICMPV6_NEIGHBOR_SOLICIT : Z := 135.
Definition RIX_NET_ICMPV6_NEIGHBOR_ADVERT : Z := 136.

Record rix_net_icmpv6_echo_t := { etype : Z; ecode : Z; eidentifier : Z; esequence : Z }.

(** ** Checksum *)

Definition finish_sum (sum : Z) : Z := u16 (Z.lnot (fold_sum sum)).

(** The four bytes of a 32-bit variable in memory. *)
Definition memory32 (v : Z) : list Z := store32 [0; 0; 0; 0] 0 v.

Definition transport6_checksum (source destination : list Z) (protocol : Z) (message : list Z) (off len : Z) : Z :=
  let pseudo := [0; 0; 0; 0; 0; 0; 0; protocol] in
  let sum := 0 in
  let network_length := memory32 (be32 (u32 len)) in
  let sum := sum_bytes source 0 16 sum in
  let sum := sum_bytes destination 0 16 sum in
  let sum := sum_bytes network_length 0 4 sum in
  let sum := sum_bytes pseudo 0 8 sum in
  finish_sum (sum_bytes message off len sum).

Definition icmpv6_checksum (source destination : list Z) (message : list Z) (off len : Z) : Z :=
  let pseudo := [0; 0; 0; 0; 0; 0; 0; RIX_NET_IP_PROTO_ICMPV6] in
  let sum := 0 in
  let sum := sum_bytes source 0 16 sum in
  let sum := sum_bytes destination 0 16 sum in
  let network_length := memory32 (be32 (u32 len)) in
  let sum := sum_bytes network_length 0 4 sum in
  let sum := sum_bytes pseudo 0 8 sum in
  finish_sum (sum_bytes message off len sum).

(** [rix_net_packet_data] where the code uses it unchecked; it is not null on a
    well-formed packet ([data_ok]). *)
Definition frame (p : rix_net_packet_t) : Z := default 0 (rix_net_packet_data p).

(** [be16]/[be32] of a value written byte by byte from memory is [put_be16]/
    [put_be32] ([store16_be], [store32_be]): the code's
    [w[0] = ((uint8_t * )&value)[0]; w[1] = ((uint8_t * )&value)[1]]. *)
Definition write16 (b : list Z) (off v : Z) : list Z := store16 b off (be16 v).
Definition write32 (b : list Z) (off v : Z) : list Z := store32 b off (be32 v).

(** ** ICMPv6 *)

Definition icmpv6_put (p : rix_net_packet_t) (type code : Z) (source destination : list Z) : Z * rix_net_packet_t :=
  match rix_net_packet_push p 4 with
  | (0, Some w, q) =>
      let b := aset (w + 0) type (bytes q) in
      let b := aset (w + 1) code b in
      let b := store16 b (w + 2) 0 in
      let q := set_bytes b q in
      let ck := icmpv6_checksum source destination b (frame q) (length q) in
      (0, set_bytes (store16 b (w + 2) (be16 ck)) q)
  | (_, _, q) => (-1, q)
  end.

Definition rix_net_icmpv6_echo_push (p : option rix_net_packet_t) (type identifier sequence : Z) (source destination : option (list Z))
    (payload : option (list Z)) (payload_length : Z) : Z * option rix_net_packet_t :=
  match p, source, destination with
  | Some q, Some source, Some destination =>
      if (truthy payload_length && is_null payload) || (65527 <? payload_length)
         || (negb (type =? RIX_NET_ICMPV6_ECHO_REQUEST) && negb (type =? RIX_NET_ICMPV6_ECHO_REPLY)) then (-1, p)
      else match rix_net_packet_put q payload_length with
           | (0, Some body, q) =>
               let q := set_bytes (copy (Z.to_nat payload_length) (bytes q) body (default [] payload) 0) q in
               match rix_net_packet_push q 4 with
               | (0, Some f, q) =>
                   let b := write16 (bytes q) (f + 0) identifier in
                   let b := write16 b (f + 2) sequence in
                   let '(rc, q) := icmpv6_put (set_bytes b q) type 0 source destination in (rc, Some q)
               | (_, _, q) => (-1, Some q)
               end
           | (_, _, q) => (-1, Some q)
           end
  | _, _, _ => (-1, p)
  end.

Definition rix_net_icmpv6_echo_pull (p : option rix_net_packet_t) (source destination : option (list Z)) (echo : option rix_net_icmpv6_echo_t)
  : Z * option rix_net_icmpv6_echo_t * option rix_net_packet_t :=
  match p, source, destination, echo with
  | Some q, Some source, Some destination, Some _ =>
      if length q <? 8 then (-1, echo, p)
      else
        let d := frame q in
        let b := bytes q in
        if (negb (aget 0 b (d + 0) =? RIX_NET_ICMPV6_ECHO_REQUEST) && negb (aget 0 b (d + 0) =? RIX_NET_ICMPV6_ECHO_REPLY))
           || negb (aget 0 b (d + 1) =? 0) || negb (icmpv6_checksum source destination b d (length q) =? 0) then (-2, echo, p)
        else
          let e := {| etype := aget 0 b (d + 0); ecode := aget 0 b (d + 1);
                      eidentifier := get_be16 b (d + 4); esequence := get_be16 b (d + 6) |} in
          let '(rc, _, q) := rix_net_packet_pull q 8 in (rc, Some e, Some q)
  | _, _, _, _ => (-1, echo, p)
  end.

Definition rix_net_icmpv6_neighbor_solicit_push (p : option rix_net_packet_t) (source destination target : option (list Z))
  : Z * option rix_net_packet_t :=
  match p, source, destination, target with
  | Some q, Some source, Some destination, Some target =>
      match rix_net_packet_put q 20 with
      | (0, Some body, q) =>
          let b := fill 4 (bytes q) body 0 in
          let b := copy16 b (body + 4) target 0 in
          let '(rc, q) := icmpv6_put (set_bytes b q) RIX_NET_ICMPV6_NEIGHBOR_SOLICIT 0 source destination in (rc, Some q)
      | (_, _, q) => (-1, Some q)
      end
  | _, _, _, _ => (-1, p)
  end.

Definition rix_net_icmpv6_neighbor_advert_push (p : option rix_net_packet_t) (source destination : option (list Z)) (flags : Z)
    (target : option (list Z)) : Z * option rix_net_packet_t :=
  match p, source, destination, target with
  | Some q, Some source, Some destination, Some target =>
      if truthy (Z.land flags 0x00ffffff) then (-1, p)
      else match rix_net_packet_put q 20 with
           | (0, Some body, q) =>
               let network_flags := memory32 (be32 flags) in
               let b := copy 4 (bytes q) body network_flags 0 in
               let b := copy16 b (body + 4) target 0 in
               let '(rc, q) := icmpv6_put (set_bytes b q) RIX_NET_ICMPV6_NEIGHBOR_ADVERT 0 source destination in (rc, Some q)
           | (_, _, q) => (-1, Some q)
           end
  | _, _, _, _ => (-1, p)
  end.

(** The three results are written through pointers, taken not to be null. *)
Definition rix_net_icmpv6_neighbor_pull (p : option rix_net_packet_t) (source destination : option (list Z)) (out : Z * Z * list Z)
  : Z * (Z * Z * list Z) * option rix_net_packet_t :=
  match p, source, destination with
  | Some q, Some source, Some destination =>
      if length q <? 24 then (-1, out, p)
      else
        let d := frame q in
        let b := bytes q in
        if (negb (aget 0 b (d + 0) =? RIX_NET_ICMPV6_NEIGHBOR_SOLICIT) && negb (aget 0 b (d + 0) =? RIX_NET_ICMPV6_NEIGHBOR_ADVERT))
           || negb (aget 0 b (d + 1) =? 0) || negb (length q =? 24)
           || negb (icmpv6_checksum source destination b d (length q) =? 0) then (-2, out, p)
        else
          let out := (aget 0 b (d + 0), get_be32 b (d + 4), copy16 out.2 0 b (d + 8)) in
          let '(rc, _, q) := rix_net_packet_pull q 24 in (rc, out, Some q)
  | _, _, _ => (-1, out, p)
  end.

Definition rix_net_icmpv6_router_solicit_push (p : option rix_net_packet_t) (source destination : option (list Z)) : Z * option rix_net_packet_t :=
  match p, source, destination with
  | Some q, Some source, Some destination =>
      match rix_net_packet_put q 4 with
      | (0, Some body, q) =>
          let b := fill 4 (bytes q) body 0 in
          let '(rc, q) := icmpv6_put (set_bytes b q) RIX_NET_ICMPV6_ROUTER_SOLICIT 0 source destination in (rc, Some q)
      | (_, _, q) => (-1, Some q)
      end
  | _, _, _ => (-1, p)
  end.

Definition rix_net_icmpv6_router_advert_push (p : option rix_net_packet_t) (source destination : option (list Z))
    (hop_limit flags router_lifetime : Z) (prefix : option (list Z)) (prefix_length : Z) : Z * option rix_net_packet_t :=
  match p, source, destination, prefix with
  | Some q, Some source, Some destination, Some prefix =>
      if 128 <? prefix_length then (-1, p)
      else match rix_net_packet_put q 44 with
           | (0, Some body, q) =>
               let b := aset (body + 0) hop_limit (bytes q) in
               let b := aset (body + 1) flags b in
               let b := write16 b (body + 2) router_lifetime in
               let b := fill 8 b (body + 4) 0 in
               let b := aset (body + 12) 3 b in
               let b := aset (body + 13) 4 b in
               let b := aset (body + 14) prefix_length b in
               let b := aset (body + 15) 0xc0 b in
               let b := copy 4 b (body + 16) (memory32 (be32 0xffffffff)) 0 in
               let b := fill 8 b (body + 20) 0 in
               let b := copy 16 b (body + 28) prefix 0 in
               let '(rc, q) := icmpv6_put (set_bytes b q) RIX_NET_ICMPV6_ROUTER_ADVERT 0 source destination in (rc, Some q)
           | (_, _, q) => (-1, Some q)
           end
  | _, _, _, _ => (-1, p)
  end.

(** What the pull hands back, its result pointers taken not to be null. *)
Record router_advert := { ra_hop_limit : Z; ra_flags : Z; ra_lifetime : Z; ra_prefix : list Z; ra_prefix_length : Z }.

Definition rix_net_icmpv6_router_advert_pull (p : option rix_net_packet_t) (source destination : option (list Z)) (out : router_advert)
  : Z * router_advert * option rix_net_packet_t :=
  match p, source, destination with
  | Some q, Some source, Some destination =>
      if negb (length q =? 48) then (-1, out, p)
      else
        let d := frame q in
        let b := bytes q in
        if negb (aget 0 b (d + 0) =? RIX_NET_ICMPV6_ROUTER_ADVERT) || negb (aget 0 b (d + 1) =? 0) || negb (aget 0 b (d + 16) =? 3)
           || negb (aget 0 b (d + 17) =? 4) || negb (aget 0 b (d + 19) =? 0xc0) || (128 <? aget 0 b (d + 18))
           || negb (icmpv6_checksum source destination b d (length q) =? 0) then (-2, out, p)
        else
          let out := {| ra_hop_limit := aget 0 b (d + 4); ra_flags := aget 0 b (d + 5); ra_lifetime := get_be16 b (d + 6);
                        ra_prefix := copy16 (ra_prefix out) 0 b (d + 32); ra_prefix_length := aget 0 b (d + 18) |} in
          let '(rc, _, q) := rix_net_packet_pull q 48 in (rc, out, Some q)
  | _, _, _ => (-1, out, p)
  end.

(** ** UDP and TCP *)

Definition rix_net_udp6_push (p : option rix_net_packet_t) (source destination : option (list Z)) (sport dport : Z)
    (payload : option (list Z)) (payload_length : Z) : Z * option rix_net_packet_t :=
  match p, source, destination with
  | Some q, Some source, Some destination =>
      if (truthy payload_length && is_null payload) || (65527 <? payload_length) then (-1, p)
      else match rix_net_packet_put q payload_length with
           | (0, Some body, q) =>
               let q := set_bytes (copy (Z.to_nat payload_length) (bytes q) body (default [] payload) 0) q in
               match rix_net_packet_push q 8 with
               | (0, Some w, q) =>
                   let b := write16 (bytes q) (w + 0) sport in
                   let b := write16 b (w + 2) dport in
                   let b := write16 b (w + 4) (u16 (payload_length + 8)) in
                   let b := aset (w + 6) 0 (aset (w + 7) 0 b) in
                   let q := set_bytes b q in
                   let ck := transport6_checksum source destination 17 b (frame q) (length q) in
                   (0, Some (set_bytes (write16 b (w + 6) ck) q))
               | (_, _, q) => (-1, Some q)
               end
           | (_, _, q) => (-1, Some q)
           end
  | _, _, _ => (-1, p)
  end.

Definition rix_net_udp6_pull (p : option rix_net_packet_t) (source destination : option (list Z)) (header : option rix_net_udp_header_t)
  : Z * option rix_net_udp_header_t * option rix_net_packet_t :=
  match p, source, destination, header with
  | Some q, Some source, Some destination, Some _ =>
      if length q <? 8 then (-1, header, p)
      else
        let w := frame q in
        let b := bytes q in
        let len := get_be16 b (w + 4) in
        if (len <? 8) || negb (len =? length q) || negb (transport6_checksum source destination 17 b w len =? 0) then (-2, header, p)
        else
          let hd := {| Udp.source_port := get_be16 b (w + 0); Udp.destination_port := get_be16 b (w + 2);
                       Udp.udp_length := len; Udp.checksum := get_be16 b (w + 6) |} in
          match rix_net_packet_pull q 8 with
          | (0, _, q) => (0, Some hd, Some (set_bounds (start q) (len - 8) q))
          | (_, _, q) => (-1, Some hd, Some q)
          end
  | _, _, _, _ => (-1, header, p)
  end.

Definition rix_net_tcp6_push (p : option rix_net_packet_t) (source destination : option (list Z)) (sport dport seq ack flg win : Z)
    (payload : option (list Z)) (payload_length : Z) : Z * option rix_net_packet_t :=
  match p, source, destination with
  | Some q, Some source, Some destination =>
      if (truthy payload_length && is_null payload) || (RIX_NET_MTU - 20 <? payload_length) then (-1, p)
      else match rix_net_packet_put q payload_length with
           | (0, Some body, q) =>
               let q := set_bytes (copy (Z.to_nat payload_length) (bytes q) body (default [] payload) 0) q in
               match rix_net_packet_push q 20 with
               | (0, Some w, q) =>
                   let b := write16 (bytes q) (w + 0) sport in
                   let b := write16 b (w + 2) dport in
                   let b := write32 b (w + 4) seq in
                   let b := write32 b (w + 8) ack in
                   let b := aset (w + 12) 0x50 b in
                   let b := aset (w + 13) (u8 (Z.shiftr (be16 flg) 8)) b in
                   let b := write16 b (w + 14) win in
                   let b := aset (w + 16) 0 (aset (w + 17) 0 b) in
                   let b := aset (w + 18) 0 (aset (w + 19) 0 b) in
                   let q := set_bytes b q in
                   let ck := transport6_checksum source destination 6 b (frame q) (length q) in
                   (0, Some (set_bytes (write16 b (w + 16) ck) q))
               | (_, _, q) => (-1, Some q)
               end
           | (_, _, q) => (-1, Some q)
           end
  | _, _, _ => (-1, p)
  end.

Definition rix_net_tcp6_pull (p : option rix_net_packet_t) (source destination : option (list Z)) (header : option rix_net_tcp_header_t)
  : Z * option rix_net_tcp_header_t * option rix_net_packet_t :=
  match p, source, destination, header with
  | Some q, Some source, Some destination, Some _ =>
      if length q <? 20 then (-1, header, p)
      else
        let w := frame q in
        let b := bytes q in
        let header_length := Z.shiftr (aget 0 b (w + 12)) 4 * 4 in
        if (header_length <? 20) || (length q <? header_length)
           || negb (transport6_checksum source destination 6 b w (length q) =? 0) then (-2, header, p)
        else
          let hd := {| Tcp.source_port := get_be16 b (w + 0); Tcp.destination_port := get_be16 b (w + 2);
                       Tcp.sequence := get_be32 b (w + 4); Tcp.acknowledgment := get_be32 b (w + 8);
                       Tcp.flags := u16 (Z.lor (Z.shiftl (Z.land (aget 0 b (w + 12)) 0x0f) 8) (aget 0 b (w + 13)));
                       Tcp.window := get_be16 b (w + 14); Tcp.checksum := get_be16 b (w + 16); Tcp.urgent := get_be16 b (w + 18) |} in
          match rix_net_packet_pull q header_length with
          | (0, _, q) => (0, Some hd, Some (set_bounds (start q) (length q) q))
          | (_, _, q) => (-1, Some hd, Some q)
          end
  | _, _, _, _ => (-1, header, p)
  end.

(** ** Sealed messages *)

Ltac all_u8 :=
  rewrite ?Forall_app; repeat match goal with |- _ /\ _ => split end;
  first [assumption | apply be_bytes16_u8 | apply be_bytes32_u8
        | repeat (apply List.Forall_cons; [first [assumption | apply u8_range | unfold is_u8; lia]|]); apply List.Forall_nil].

Definition pseudo6_sum (proto : Z) (s d : list Z) (len : Z) : Z := be_sum s + be_sum d + be_sum (be_bytes32 len) + proto.

Definition ck6 (proto : Z) (s d msg : list Z) : Z := rix_net_checksum_add (pseudo6_sum proto s d (llen msg) + be_sum msg).

(** [a] and [c] with the checksum of the whole between them. *)
Definition seal6 (proto : Z) (s d a c : list Z) : list Z := a ++ be_bytes16 (ck6 proto s d (a ++ be_bytes16 0 ++ c)) ++ c.

Lemma memory32_be v : is_u32 v -> memory32 (be32 v) = be_bytes32 v.
Proof. intros Hv. unfold memory32. by rewrite store32_be. Qed.

Lemma pseudo6_bound proto s d len : is_u8 proto -> addr_ok s -> addr_ok d -> 0 <= pseudo6_sum proto s d len <= 65535 * 36 + 255.
Proof.
  intros Hp [Hsl Hs] [Hdl Hd]. unfold pseudo6_sum, is_u8 in *. pose proof (be_sum_bound s Hs). pose proof (be_sum_bound d Hd).
  pose proof (be_sum_bound (be_bytes32 len) (be_bytes32_u8 len)). change (List.length (be_bytes32 len)) with 4%nat in *. lia.
Qed.

Lemma sum_all l s : Forall is_u8 l -> 0 <= s -> s + 65536 * (llen l + 1) < 2 ^ 32 -> sum_bytes l 0 (llen l) s = s + be_sum l.
Proof. intros Hl Hs Hb. rewrite sum_bytes_spec by (done || lia). by rewrite slice_whole. Qed.

Lemma sum_short l n s : n = llen l -> Forall is_u8 l -> n <= 16 -> 0 <= s < 2 ^ 31 -> sum_bytes l 0 n s = s + be_sum l.
Proof. intros -> Hl Hn Hs. apply sum_all; [done|lia|lia]. Qed.

Lemma transport6_frame proto s d p n :
  packet_wf p -> 0 <= n <= length p -> addr_ok s -> addr_ok d -> is_u8 proto ->
  transport6_checksum s d proto (bytes p) (start p) n
  = rix_net_checksum_add (pseudo6_sum proto s d n + be_sum (take (Z.to_nat n) (contents p))).
Proof.
  intros Hwf Hn [Hsl Hs] [Hdl Hd] Hp. pose proof Hwf as (_ & H1 & H2 & H3 & _). rewrite capacity_val in H3. unfold is_u8 in Hp.
  pose proof (be_sum_bound s Hs). pose proof (be_sum_bound d Hd). pose proof (be_sum_bound (be_bytes32 n) (be_bytes32_u8 n)) as Hb.
  change (List.length (be_bytes32 n)) with 4%nat in Hb.
  unfold transport6_checksum. cbv zeta. rewrite u32_id by (unfold is_u32; lia). rewrite memory32_be by (unfold is_u32; lia).
  rewrite (sum_short s), (sum_short d) by (done || lia).
  rewrite (sum_short (be_bytes32 n) 4), (sum_short [0; 0; 0; 0; 0; 0; 0; proto] 8)
    by (reflexivity || apply be_bytes32_u8 || lia || (repeat (constructor; [unfold is_u8; lia|]); constructor)).
  rewrite sum_frame by (done || (cbn [be_sum]; lia)). unfold finish_sum, rix_net_checksum_add, pseudo6_sum. do 4 f_equal. cbn [be_sum]. lia.
Qed.

Lemma icmpv6_checksum_eq s d b off len : icmpv6_checksum s d b off len = transport6_checksum s d RIX_NET_IP_PROTO_ICMPV6 b off len.
Proof. reflexivity. Qed.

(** Over a whole frame. *)
Lemma transport6_whole proto s d p :
  packet_wf p -> addr_ok s -> addr_ok d -> is_u8 proto ->
  transport6_checksum s d proto (bytes p) (start p) (length p) = ck6 proto s d (contents p).
Proof.
  intros Hwf Hs Hd Hp. pose proof Hwf as (_ & _ & Hl & _). rewrite transport6_frame by (done || lia).
  unfold ck6. rewrite (length_contents p Hwf). do 3 f_equal. rewrite <- (length_contents p Hwf), Nat2Z.id. apply firstn_all.
Qed.

(** A sealed message verifies. *)
Lemma sealed_verifies proto s d p a c :
  packet_wf p -> addr_ok s -> addr_ok d -> is_u8 proto -> Nat.Even (List.length a) -> contents p = seal6 proto s d a c ->
  transport6_checksum s d proto (bytes p) (start p) (length p) = 0.
Proof.
  intros Hwf Hs Hd Hp Ha Hc. rewrite transport6_whole by done. pose proof (contents_u8 p Hwf) as Hu. pose proof (length_contents p Hwf) as Hl.
  pose proof Hwf as (_ & H1 & H2 & H3 & _). rewrite capacity_val in H3. rewrite Hc in Hl, Hu |- *. unfold seal6 in *.
  set (ck := ck6 proto s d (a ++ be_bytes16 0 ++ c)) in *. rewrite !Forall_app in Hu. destruct Hu as (Hua & _ & Huc).
  unfold ck6. assert (Hlen : llen (a ++ be_bytes16 ck ++ c) = llen (a ++ be_bytes16 0 ++ c)) by (rewrite !length_app; reflexivity).
  rewrite Hlen in Hl |- *. rewrite be_sum_app by done.
  assert (Hck : is_u16 ck) by apply u16_range. pose proof (hi_lo ck Hck) as Hv.
  assert (E : be_sum (be_bytes16 ck ++ c) = be_sum (be_bytes16 0 ++ c) + ck).
  { unfold be_bytes16. cbn [app be_sum]. change (u8 (Z.shiftr 0 8)) with 0. change (u8 0) with 0. lia. }
  rewrite E, !Z.add_assoc. rewrite <- (Z.add_assoc _ (be_sum a)), <- be_sum_app by done.
  pose proof (pseudo6_bound proto s d (llen (a ++ be_bytes16 0 ++ c)) Hp Hs Hd).
  pose proof (be_sum_bound (a ++ be_bytes16 0 ++ c) ltac:(rewrite !Forall_app; repeat split; [done|apply be_bytes16_u8|done])) as Hb.
  unfold ck at 1, ck6. apply checksum_cancels; lia.
Qed.

Lemma frame_ok p : packet_wf p -> frame p = start p.
Proof. intros H. unfold frame. by rewrite data_ok. Qed.

Lemma length_seal6 proto s d a c : llen (seal6 proto s d a c) = llen a + 2 + llen c.
Proof. unfold seal6. rewrite !length_app. change (List.length (be_bytes16 _)) with 2%nat. lia. Qed.

(** The tail of a frame, written and then part of it. *)
Lemma put_writes p n :
  packet_wf p -> 0 <= n -> start p + length p + n <= RIX_NET_FRAME_CAPACITY ->
  exists pre t post,
    rix_net_packet_put p n = (0, Some (llen pre + 0), {| bytes := pre ++ t ++ post; start := start p; length := length p + n |}) /\
    llen t = n /\
    forall body, llen body = n -> Forall is_u8 body ->
      let p' := {| bytes := pre ++ body ++ post; start := start p; length := length p + n |} in
      packet_wf p' /\ contents p' = contents p ++ body.
Proof.
  intros Hwf Hn Hc. destruct (put_ok p n Hwf Hn Hc) as [-> _]. pose proof (length_contents p Hwf) as Hlc.
  destruct (carve_payload p n Hwf Hn Hc) as (pre & t & post & E & Hpre & Ht & H1 & H2).
  exists (pre ++ contents p), t, post. pose proof Hwf as (Hcap & Hs & Hl & Hend & Hb). split; [|split; [done|]].
  - unfold set_bounds. rewrite E. do 3 f_equal. rewrite length_app. lia.
  - intros body Hbl Hbu p'. subst p'. split.
    + split; [cbn [bytes]; rewrite <- Hcap, E, !length_app; lia|]. cbn [start length bytes]. split; [done|]. split; [lia|]. split; [lia|].
      by rewrite !Forall_app in *.
    + unfold contents at 1. cbn [bytes start length]. rewrite <- (assoc_L (++)), (assoc_L (++) (contents p)).
      apply slice_mid; [done|]. rewrite length_app. lia.
Qed.

Lemma icmpv6_put_spec p type code s d :
  packet_wf p -> 4 <= start p -> addr_ok s -> addr_ok d -> is_u8 type -> is_u8 code ->
  exists p', icmpv6_put p type code s d = (0, p') /\ packet_wf p' /\
    contents p' = seal6 RIX_NET_IP_PROTO_ICMPV6 s d [type; code] (contents p).
Proof.
  intros Hwf Hst Hs Hd Ht Hc. unfold icmpv6_put.
  destruct (push_writes p 4 Hwf ltac:(lia)) as (pre & h & rest & -> & Hh & Hw). cbn [bytes].
  assert (Hhdr : forall ck, is_u16 ck -> llen ([type; code] ++ be_bytes16 ck) = 4 /\ Forall is_u8 ([type; code] ++ be_bytes16 ck)).
  { intros ck _. split; [reflexivity|all_u8]. }
  assert (E0 : store16 (aset (llen pre + 1) code (aset (llen pre + 0) type (pre ++ h ++ rest))) (llen pre + 2) 0
               = pre ++ ([type; code] ++ be_bytes16 0) ++ rest).
  { rewrite !aset_pre, store16_pre by lia. f_equal. assert (Hl : List.length h = 4%nat) by lia.
    do 4 (destruct h as [|? h]; [done|]). destruct h; [|done]. reflexivity. }
  rewrite E0. unfold set_bytes. cbn [start length bytes].
  destruct (Hhdr 0 ltac:(unfold is_u16; lia)) as [L0 U0]. destruct (Hw _ L0 U0) as [W0 C0].
  set (q := {| bytes := pre ++ ([type; code] ++ be_bytes16 0) ++ rest; start := llen pre; length := length p + 4 |}) in *.
  pose proof (transport6_whole RIX_NET_IP_PROTO_ICMPV6 s d q W0 Hs Hd ltac:(unfold is_u8, RIX_NET_IP_PROTO_ICMPV6; lia)) as Eck.
  rewrite C0, <- (assoc_L (++)) in Eck. unfold q in Eck. cbn [bytes start length] in Eck. fold q in Eck.
  rewrite (frame_ok q W0). cbn [start q]. rewrite icmpv6_checksum_eq, Eck.
  set (ck := ck6 _ s d _). assert (Hck : is_u16 ck) by apply u16_range.
  destruct (Hhdr ck Hck) as [L1 U1]. destruct (Hw _ L1 U1) as [W1 C1]. eexists. split; [reflexivity|].
  rewrite store16_be, put_be16_pre by (done || lia). change (start q) with (llen pre).
  split; [exact W1|]. etransitivity; [exact C1|]. by rewrite <- (assoc_L (++)).
Qed.

Lemma proto_u8 : is_u8 RIX_NET_IP_PROTO_ICMPV6.
Proof. unfold is_u8, RIX_NET_IP_PROTO_ICMPV6. lia. Qed.

(** A message body put behind the frame and sealed. *)
Lemma body_put p n body write type s d :
  packet_wf p -> 4 <= start p -> 0 <= n -> start p + length p + n <= RIX_NET_FRAME_CAPACITY -> addr_ok s -> addr_ok d -> is_u8 type ->
  llen body = n -> Forall is_u8 body ->
  (forall pre t post, llen t = n -> write (pre ++ t ++ post) (llen pre + 0) = pre ++ body ++ post) ->
  exists p', match rix_net_packet_put p n with
    | (0, Some o, q) => let '(rc, q) := icmpv6_put (set_bytes (write (bytes q) o) q) type 0 s d in (rc, Some q)
    | (_, _, q) => (-1, Some q)
    end = (0, Some p') /\ packet_wf p' /\ contents p' = seal6 RIX_NET_IP_PROTO_ICMPV6 s d [type; 0] (contents p ++ body).
Proof.
  intros Hwf Hst Hn Hroom Hs Hd Ht Hb Hu Hwrite.
  destruct (put_writes p n Hwf Hn Hroom) as (pre & t & post & -> & Hlt & Hw). cbn [bytes]. rewrite (Hwrite pre t post Hlt).
  destruct (Hw body Hb Hu) as [W1 C1]. unfold set_bytes. cbn [start length].
  destruct (icmpv6_put_spec _ type 0 s d W1 Hst Hs Hd Ht ltac:(unfold is_u8; lia)) as (p' & -> & W2 & C2).
  exists p'. split; [done|]. split; [done|]. by rewrite C2, C1.
Qed.

Tactic Notation "explode" ident(t) integer(n) := do n (destruct t as [|? t]; [done|]); destruct t; [|done].

Ltac explode_addr a H :=
  destruct (explode16 a H) as (? & ? & ? & ? & ? & ? & ? & ? & ? & ? & ? & ? & ? & ? & ? & ? & ->).

Lemma neighbor_solicit_push_spec p s d target :
  packet_wf p -> 4 <= start p -> start p + length p + 20 <= RIX_NET_FRAME_CAPACITY -> addr_ok s -> addr_ok d -> addr_ok target ->
  exists p', rix_net_icmpv6_neighbor_solicit_push (Some p) (Some s) (Some d) (Some target) = (0, Some p') /\ packet_wf p' /\
    contents p' = seal6 RIX_NET_IP_PROTO_ICMPV6 s d [RIX_NET_ICMPV6_NEIGHBOR_SOLICIT; 0] (contents p ++ be_bytes32 0 ++ target).
Proof.
  intros Hwf Hst Hroom Hs Hd [Htl Htu].
  apply (body_put p 20 (be_bytes32 0 ++ target) (fun b o => copy16 (fill 4 b o 0) (o + 4) target 0)); try done; try lia.
  - rewrite length_app, Htl. reflexivity.
  - all_u8.
  - intros pre t post Hl. rewrite <- Z.add_assoc. unfold copy16. assert (Hl' : List.length t = 20%nat) by lia. explode t 20.
    explode_addr target Htl. cbn [fill]. rewrite <- !Z.add_assoc, !aset_pre, copy_pre by lia. reflexivity.
Qed.

Lemma neighbor_advert_push_spec p s d flags target :
  packet_wf p -> 4 <= start p -> start p + length p + 20 <= RIX_NET_FRAME_CAPACITY -> addr_ok s -> addr_ok d -> addr_ok target ->
  is_u32 flags -> Z.land flags 0x00ffffff = 0 ->
  exists p', rix_net_icmpv6_neighbor_advert_push (Some p) (Some s) (Some d) flags (Some target) = (0, Some p') /\ packet_wf p' /\
    contents p' = seal6 RIX_NET_IP_PROTO_ICMPV6 s d [RIX_NET_ICMPV6_NEIGHBOR_ADVERT; 0] (contents p ++ be_bytes32 flags ++ target).
Proof.
  intros Hwf Hst Hroom Hs Hd [Htl Htu] Hf Hz. unfold rix_net_icmpv6_neighbor_advert_push. rewrite Hz. cbn [truthy Z.eqb negb].
  apply (body_put p 20 (be_bytes32 flags ++ target) (fun b o => copy16 (copy 4 b o (memory32 (be32 flags)) 0) (o + 4) target 0)); try done; try lia.
  - rewrite length_app, Htl. reflexivity.
  - all_u8.
  - intros pre t post Hl. rewrite <- Z.add_assoc, memory32_be by done. unfold copy16. assert (Hl' : List.length t = 20%nat) by lia. explode t 20.
    explode_addr target Htl. rewrite !copy_pre by lia. reflexivity.
Qed.

Lemma router_solicit_push_spec p s d :
  packet_wf p -> 4 <= start p -> start p + length p + 4 <= RIX_NET_FRAME_CAPACITY -> addr_ok s -> addr_ok d ->
  exists p', rix_net_icmpv6_router_solicit_push (Some p) (Some s) (Some d) = (0, Some p') /\ packet_wf p' /\
    contents p' = seal6 RIX_NET_IP_PROTO_ICMPV6 s d [RIX_NET_ICMPV6_ROUTER_SOLICIT; 0] (contents p ++ be_bytes32 0).
Proof.
  intros Hwf Hst Hroom Hs Hd. apply (body_put p 4 (be_bytes32 0) (fun b o => fill 4 b o 0)); try done; try lia.
  - all_u8.
  - intros pre t post Hl. assert (Hl' : List.length t = 4%nat) by lia. explode t 4.
    cbn [fill]. rewrite <- !Z.add_assoc, !aset_pre by lia. reflexivity.
Qed.

Definition router_body (hop flags life : Z) (prefix : list Z) (plen : Z) : list Z :=
  [hop; flags] ++ be_bytes16 life ++ be_bytes32 0 ++ be_bytes32 0 ++ [3; 4; plen; 0xc0] ++ be_bytes32 0xffffffff ++
  be_bytes32 0 ++ be_bytes32 0 ++ prefix.

Lemma fill_pre n pre l k v : 0 <= k -> fill n (pre ++ l) (llen pre + k) v = pre ++ fill n l k v.
Proof.
  revert l k. induction n as [|n IH]; intros l k Hk; cbn [fill]; [done|]. rewrite aset_pre, <- Z.add_assoc by lia. apply IH. lia.
Qed.

Lemma router_advert_push_spec p s d hop flags life prefix plen :
  packet_wf p -> 4 <= start p -> start p + length p + 44 <= RIX_NET_FRAME_CAPACITY -> addr_ok s -> addr_ok d -> addr_ok prefix ->
  is_u8 hop -> is_u8 flags -> is_u16 life -> 0 <= plen <= 128 ->
  exists p', rix_net_icmpv6_router_advert_push (Some p) (Some s) (Some d) hop flags life (Some prefix) plen = (0, Some p') /\ packet_wf p' /\
    contents p' = seal6 RIX_NET_IP_PROTO_ICMPV6 s d [RIX_NET_ICMPV6_ROUTER_ADVERT; 0] (contents p ++ router_body hop flags life prefix plen).
Proof.
  intros Hwf Hst Hroom Hs Hd [Htl Htu] Hh Hf Hlife Hpl. unfold rix_net_icmpv6_router_advert_push.
  destruct (128 <? plen) eqn:E; bool_to_prop; [lia|].
  apply (body_put p 44 (router_body hop flags life prefix plen) (fun o body => copy 16 (fill 8 (copy 4 (aset (body + 15) 0xc0
    (aset (body + 14) plen (aset (body + 13) 4 (aset (body + 12) 3 (fill 8 (write16 (aset (body + 1) flags (aset (body + 0) hop o))
    (body + 2) life) (body + 4) 0))))) (body + 16) (memory32 (be32 0xffffffff)) 0) (body + 20) 0) (body + 28) prefix 0)); try done; try lia.
  - unfold router_body. rewrite !length_app, Htl. reflexivity.
  - unfold router_body. all_u8.
  - intros pre t post Hl. rewrite <- !Z.add_assoc, memory32_be by (unfold is_u32; lia). unfold write16. rewrite store16_be by done.
    assert (Hl' : List.length t = 44%nat) by lia. rewrite !aset_pre, put_be16_pre, fill_pre, !aset_pre, copy_pre, fill_pre, copy_pre by lia. f_equal.
    explode t 44. explode_addr prefix Htl. reflexivity.
Qed.

(** ** Reading sealed messages *)

Lemma sealed_length p proto s d a c : packet_wf p -> contents p = seal6 proto s d a c -> length p = llen a + 2 + llen c.
Proof. intros Hw Hc. rewrite <- (length_contents p Hw), Hc. apply length_seal6. Qed.

Lemma pull_rest p n l r : packet_wf p -> contents p = l ++ r -> llen l = n ->
  exists q, rix_net_packet_pull p n = (0, Some (start p), q) /\ packet_wf q /\ start q = start p + n /\ length q = length p - n /\ contents q = r.
Proof.
  intros Hw Hc Hl. pose proof (length_contents p Hw) as Hlen. rewrite Hc, length_app in Hlen.
  destruct (pull_ok p n Hw ltac:(lia)) as [-> Hw']. eexists. split; [reflexivity|]. split; [done|]. split; [done|]. split; [done|].
  rewrite contents_drop by (done || lia). rewrite Hc, <- Hl, Nat2Z.id. apply drop_app_length.
Qed.

Lemma slice_tail (l m : list Z) off n : off = llen l -> n = llen m -> slice (l ++ m) off n = m.
Proof. intros -> ->. apply slice_app. Qed.

Lemma empty_contents p : length p = 0 -> contents p = [].
Proof. intros H. unfold contents. rewrite H. by apply slice_nil. Qed.

Lemma neighbor_pull_sealed p s d type flags target out :
  packet_wf p -> addr_ok s -> addr_ok d -> addr_ok target -> is_u32 flags -> List.length out.2 = 16%nat ->
  type = RIX_NET_ICMPV6_NEIGHBOR_SOLICIT \/ type = RIX_NET_ICMPV6_NEIGHBOR_ADVERT ->
  contents p = seal6 RIX_NET_IP_PROTO_ICMPV6 s d [type; 0] (be_bytes32 flags ++ target) ->
  exists q, rix_net_icmpv6_neighbor_pull (Some p) (Some s) (Some d) out = (0, (type, flags, target), Some q) /\ packet_wf q /\ length q = 0.
Proof.
  intros Hw Hs Hd [Htl Htu] Hf Hout Ht Hc.
  pose proof (sealed_length p _ _ _ _ _ Hw Hc) as Hl. rewrite length_app, Htl in Hl. change (List.length (be_bytes32 flags)) with 4%nat in Hl.
  change (llen [type; 0]) with 2 in Hl.
  pose proof (sealed_verifies _ s d p [type; 0] _ Hw Hs Hd proto_u8 (ex_intro _ 1%nat eq_refl) Hc) as Hv.
  unfold rix_net_icmpv6_neighbor_pull. rewrite icmpv6_checksum_eq, frame_ok, Hv by done.
  replace (length p) with 24 by lia. cbn [Z.ltb Z.compare Pos.compare Pos.compare_cont].
  rewrite !read_byte, read_be32, read_addr by (done || lia).
  assert (F0 : aget 0 (contents p) 0 = type) by (rewrite Hc; reflexivity).
  assert (F1 : aget 0 (contents p) 1 = 0) by (rewrite Hc; reflexivity).
  assert (F4 : get_be32 (contents p) 4 = flags) by (rewrite Hc; apply get_be32_bytes; [done|reflexivity..]).
  assert (F8 : slice (contents p) 8 16 = target).
  { rewrite Hc. unfold seal6. rewrite !(assoc_L (++)). apply slice_tail; [reflexivity|lia]. }
  rewrite F0, F1, F4, F8.
  assert (Et : negb (type =? RIX_NET_ICMPV6_NEIGHBOR_SOLICIT) && negb (type =? RIX_NET_ICMPV6_NEIGHBOR_ADVERT) = false) by (by destruct Ht as [-> | ->]).
  rewrite Et. cbn [Z.eqb Pos.eqb negb orb].
  destruct (pull_rest p 24 (contents p) [] Hw) as (q & -> & Wq & _ & Lq & _); [by rewrite app_nil_r|by rewrite length_contents|].
  exists q. split; [done|]. split; [done|lia].
Qed.

(** Neighbour discovery messages round-trip. A solicitation, or an
    advertisement with flags in its top byte, put in an empty frame is accepted by
    the receiver under the same two addresses, which gets back the type, the flags
    (zero for a solicitation) and the target, and consumes the whole message. *)
Theorem neighbor_messages_roundtrip p s d target flags out (advert : bool)
    (Hwf : packet_wf p) (Hempty : length p = 0) (Hhead : 4 <= start p) (Htail : start p + 20 <= RIX_NET_FRAME_CAPACITY)
    (Hs : addr_ok s) (Hd : addr_ok d) (Ht : addr_ok target) (Hf : is_u32 flags) (Hlow : Z.land flags 0x00ffffff = 0)
    (Hout : List.length out.2 = 16%nat) :
  ∃ p' p'',
    (if advert then rix_net_icmpv6_neighbor_advert_push (Some p) (Some s) (Some d) flags (Some target)
     else rix_net_icmpv6_neighbor_solicit_push (Some p) (Some s) (Some d) (Some target)) = (0, Some p') ∧
    rix_net_icmpv6_neighbor_pull (Some p') (Some s) (Some d) out
    = (0, (if advert then RIX_NET_ICMPV6_NEIGHBOR_ADVERT else RIX_NET_ICMPV6_NEIGHBOR_SOLICIT, if advert then flags else 0, target), Some p'') ∧
    packet_wf p'' ∧ length p'' = 0.
Proof.
  destruct advert.
  - destruct (neighbor_advert_push_spec p s d flags target) as (p' & E & W & C); try done; try lia.
    rewrite (empty_contents p Hempty) in C. destruct (neighbor_pull_sealed p' s d _ flags target out W Hs Hd Ht Hf Hout (or_intror eq_refl) C) as (q & ? & ? & ?).
    by exists p', q.
  - destruct (neighbor_solicit_push_spec p s d target) as (p' & E & W & C); try done; try lia.
    rewrite (empty_contents p Hempty) in C.
    destruct (neighbor_pull_sealed p' s d _ 0 target out W Hs Hd Ht ltac:(unfold is_u32; lia) Hout (or_introl eq_refl) C) as (q & ? & ? & ?).
    by exists p', q.
Qed.

Lemma addr_ok_dec a : bool_decide (List.length a = 16%nat /\ Forall (fun x => 0 <= x < 2 ^ 8) a) = true -> addr_ok a.
Proof. intros Ha. apply bool_decide_eq_true in Ha. exact Ha. Qed.

Lemma empty_demo_wf : packet_wf (set_bounds 64 0 demo_packet).
Proof. apply (shrink_wf demo_packet 0 demo_packet_wf). cbn. lia. Qed.

Lemma neighbor_messages_roundtrip_witness :
  ∃ p' p'', rix_net_icmpv6_neighbor_advert_push (Some (set_bounds 64 0 demo_packet)) (Some prefix_2001) (Some (replicate 16 9)) 0x60000000 (Some prefix_2001)
    = (0, Some p') ∧
    rix_net_icmpv6_neighbor_pull (Some p') (Some prefix_2001) (Some (replicate 16 9)) (0, 0, replicate 16 0)
    = (0, (136, 0x60000000, prefix_2001), Some p'').
Proof.
  destruct (neighbor_messages_roundtrip (set_bounds 64 0 demo_packet) prefix_2001 (replicate 16 9) prefix_2001 0x60000000 (0, 0, replicate 16 0) true
    empty_demo_wf eq_refl) as (p' & p'' & E1 & E2 & _);
    [cbn; lia|rewrite capacity_val; cbn; lia|apply addr_ok_dec; reflexivity..|unfold is_u32; lia|reflexivity|reflexivity|].
  exists p', p''. split; [exact E1|exact E2].
Defined.

(** A router advertisement put in an empty frame is accepted by the receiver
    and decodes to the hop limit, flags, router lifetime, prefix and prefix length
    that went in. *)
Theorem router_advert_roundtrip p s d hop flags life prefix plen out
    (Hwf : packet_wf p) (Hempty : length p = 0) (Hhead : 4 <= start p) (Htail : start p + 44 <= RIX_NET_FRAME_CAPACITY)
    (Hs : addr_ok s) (Hd : addr_ok d) (Hpre : addr_ok prefix) (Hh : is_u8 hop) (Hf : is_u8 flags) (Hl : is_u16 life)
    (Hplen : 0 <= plen <= 128) (Hout : List.length (ra_prefix out) = 16%nat) :
  ∃ p' p'', rix_net_icmpv6_router_advert_push (Some p) (Some s) (Some d) hop flags life (Some prefix) plen = (0, Some p') ∧
    rix_net_icmpv6_router_advert_pull (Some p') (Some s) (Some d) out
    = (0, {| ra_hop_limit := hop; ra_flags := flags; ra_lifetime := life; ra_prefix := prefix; ra_prefix_length := plen |}, Some p'') ∧
    packet_wf p'' ∧ length p'' = 0.
Proof.
  destruct (router_advert_push_spec p s d hop flags life prefix plen) as (p' & E & W & C); try done; try lia.
  rewrite (empty_contents p Hempty) in C. cbn [app] in C. destruct Hpre as [Hpl _].
  pose proof (sealed_length p' _ _ _ _ _ W C) as Hlen. unfold router_body in Hlen. rewrite !length_app, Hpl in Hlen.
  change (length p' = 48) in Hlen.
  pose proof (sealed_verifies _ s d p' [RIX_NET_ICMPV6_ROUTER_ADVERT; 0] _ W Hs Hd proto_u8 (ex_intro _ 1%nat eq_refl) C) as Hv.
  exists p'. unfold rix_net_icmpv6_router_advert_pull. rewrite icmpv6_checksum_eq, frame_ok, Hv by done. rewrite Hlen. cbn [Z.eqb Pos.eqb negb].
  rewrite !read_byte, read_be16, read_addr by (done || lia).
  set (l := contents p') in *.
  assert (F : aget 0 l 0 = RIX_NET_ICMPV6_ROUTER_ADVERT /\ aget 0 l 1 = 0 /\ aget 0 l 16 = 3 /\ aget 0 l 17 = 4 /\ aget 0 l 18 = plen /\
    aget 0 l 19 = 0xc0 /\ aget 0 l 4 = hop /\ aget 0 l 5 = flags) by (rewrite C; repeat split; reflexivity).
  destruct F as (F0 & F1 & F16 & F17 & F18 & F19 & F4 & F5). rewrite F0, F1, F16, F17, F18, F19, F4, F5.
  assert (F6 : get_be16 l 6 = life) by (rewrite C; apply get_be16_bytes; [done|reflexivity..]). rewrite F6.
  assert (F32 : slice l 32 16 = prefix).
  { rewrite C. unfold seal6, router_body. rewrite !(assoc_L (++)). apply slice_tail; [reflexivity|lia]. }
  rewrite F32. destruct (128 <? plen) eqn:E128; bool_to_prop; [lia|]. cbn [Z.eqb Pos.eqb negb orb RIX_NET_ICMPV6_ROUTER_ADVERT].
  destruct (pull_rest p' 48 (contents p') [] W) as (q & -> & Wq & _ & Lq & _); [by rewrite app_nil_r|by rewrite length_contents|].
  exists q. split; [done|]. split; [done|]. split; [done|lia].
Qed.

Lemma router_advert_roundtrip_witness :
  ∃ p' p'', rix_net_icmpv6_router_advert_push (Some (set_bounds 64 0 demo_packet)) (Some (replicate 16 1)) (Some (replicate 16 9)) 64 0x80 1800 (Some prefix_2001) 64
    = (0, Some p') ∧
    rix_net_icmpv6_router_advert_pull (Some p') (Some (replicate 16 1)) (Some (replicate 16 9))
      {| ra_hop_limit := 0; ra_flags := 0; ra_lifetime := 0; ra_prefix := replicate 16 0; ra_prefix_length := 0 |}
    = (0, {| ra_hop_limit := 64; ra_flags := 0x80; ra_lifetime := 1800; ra_prefix := prefix_2001; ra_prefix_length := 64 |}, Some p'').
Proof.
  destruct (router_advert_roundtrip (set_bounds 64 0 demo_packet) (replicate 16 1) (replicate 16 9) 64 0x80 1800 prefix_2001 64
    {| ra_hop_limit := 0; ra_flags := 0; ra_lifetime := 0; ra_prefix := replicate 16 0; ra_prefix_length := 0 |}
    empty_demo_wf eq_refl) as (p' & p'' & E1 & E2 & _);
    [cbn; lia|rewrite capacity_val; cbn; lia|apply addr_ok_dec; reflexivity..|unfold is_u8; lia|unfold is_u8; lia|unfold is_u16; lia|lia|reflexivity|].
  exists p', p''. split; [exact E1|exact E2].
Defined.

(** ** Echo, datagrams and segments *)

(** The common shape of [udp6] and [tcp6] pushes after the payload is in: a
    header of [n] bytes is pushed and written with a zero checksum, the checksum is
    computed over the frame and written at the even offset [k]. *)
Lemma seal_header q n write proto s d a c :
  packet_wf q -> 0 <= n <= start q -> addr_ok s -> addr_ok d -> is_u8 proto ->
  llen (a ++ be_bytes16 0 ++ c) = n -> Forall is_u8 (a ++ be_bytes16 0 ++ c) ->
  (forall pre h rest, llen h = n -> write (pre ++ h ++ rest) (llen pre) = pre ++ (a ++ be_bytes16 0 ++ c) ++ rest) ->
  exists p', match rix_net_packet_push q n with
    | (0, Some w, q) =>
        let q := set_bytes (write (bytes q) w) q in
        (0, Some (set_bytes (write16 (bytes q) (w + llen a) (transport6_checksum s d proto (bytes q) (frame q) (length q))) q))
    | (_, _, q) => (-1, Some q)
    end = (0, Some p') /\ packet_wf p' /\ contents p' = seal6 proto s d a (c ++ contents q).
Proof.
  intros Hq Hn Hs Hd Hp Hl Hu Hwrite. destruct (push_writes q n Hq Hn) as (pre & h & rest & -> & Hh & Hw). cbn [bytes].
  rewrite (Hwrite pre h rest Hh). unfold set_bytes. cbn [start length bytes]. destruct (Hw _ Hl Hu) as [W0 C0]. cbv zeta.
  set (q0 := {| bytes := pre ++ (a ++ be_bytes16 0 ++ c) ++ rest; start := llen pre; length := length q + n |}) in *.
  pose proof (transport6_whole proto s d q0 W0 Hs Hd Hp) as Eck. rewrite C0 in Eck. unfold q0 in Eck. cbn [bytes start length] in Eck. fold q0 in Eck.
  rewrite (frame_ok q0 W0). cbn [start q0]. rewrite Eck, <- !(assoc_L (++)).
  set (ck := ck6 proto s d _). assert (Hck : is_u16 ck) by apply u16_range.
  assert (Hl1 : llen (a ++ be_bytes16 ck ++ c) = n) by (rewrite <- Hl, !length_app; reflexivity).
  assert (Hu1 : Forall is_u8 (a ++ be_bytes16 ck ++ c)) by (rewrite !Forall_app in *; repeat split; [apply Hu|apply be_bytes16_u8|apply Hu]).
  destruct (Hw _ Hl1 Hu1) as [W1 C1]. eexists. split; [reflexivity|].
  assert (Ew : write16 (pre ++ a ++ be_bytes16 0 ++ c ++ rest) (llen pre + llen a) ck = pre ++ (a ++ be_bytes16 ck ++ c) ++ rest).
  { unfold write16. rewrite store16_be, put_be16_pre by (done || lia). rewrite <- !(assoc_L (++)). f_equal.
    rewrite <- (Z.add_0_r (llen a)), put_be16_pre by lia. reflexivity. }
  rewrite Ew. split; [exact W1|]. etransitivity; [exact C1|]. unfold seal6. by rewrite <- !(assoc_L (++)).
Qed.

Lemma udp6_push_spec p s d sp dp payload :
  packet_wf p -> length p = 0 -> 8 <= start p -> start p + llen payload <= RIX_NET_FRAME_CAPACITY -> addr_ok s -> addr_ok d ->
  is_u16 sp -> is_u16 dp -> Forall is_u8 payload ->
  exists p', rix_net_udp6_push (Some p) (Some s) (Some d) sp dp (Some payload) (llen payload) = (0, Some p') /\ packet_wf p' /\
    contents p' = seal6 17 s d (be_bytes16 sp ++ be_bytes16 dp ++ be_bytes16 (8 + llen payload)) payload.
Proof.
  intros Hwf Hempty Hst Hroom Hs Hd Hsp Hdp Hpay. pose proof Hwf as (_ & H0 & _). rewrite capacity_val in Hroom.
  unfold rix_net_udp6_push. cbn [is_null]. rewrite andb_false_r. cbn [orb].
  destruct (65527 <? llen payload) eqn:E; bool_to_prop; [lia|].
  destruct (put_payload_spec p payload Hwf ltac:(rewrite capacity_val; lia) Hpay) as [W1 C1].
  destruct (put_ok p (llen payload) Hwf ltac:(lia) ltac:(rewrite capacity_val; lia)) as [-> _]. rewrite Nat2Z.id.
  change (default [] (Some payload)) with payload.
  change (set_bytes (copy (List.length payload) (bytes (set_bounds (start p) (length p + llen payload) p)) (start p + length p) payload 0)
            (set_bounds (start p) (length p + llen payload) p)) with (put_payload p payload).
  rewrite (empty_contents p Hempty) in C1. cbn [app] in C1. set (q := put_payload p payload) in *.
  assert (Hlen : is_u16 (llen payload + 8)) by (unfold is_u16; lia).
  destruct (seal_header q 8 (fun b w => aset (w + 6) 0 (aset (w + 7) 0 (write16 (write16 (write16 b (w + 0) sp) (w + 2) dp) (w + 4) (u16 (llen payload + 8)))))
    17 s d (be_bytes16 sp ++ be_bytes16 dp ++ be_bytes16 (8 + llen payload)) [] W1) as (p' & E' & W & C); try done.
  - all_u8.
  - intros pre h rest Hh. rewrite u16_id by done. unfold write16. rewrite !store16_be, !put_be16_pre, !aset_pre by (done || lia). f_equal.
    assert (Hl : List.length h = 8%nat) by lia. explode h 8. rewrite (Z.add_comm (llen payload)). reflexivity.
  - exists p'. rewrite C1 in C. split; [exact E'|by split].
Qed.

(** A UDP datagram over IPv6 put in an empty frame verifies at the receiver
    and decodes to its ports and payload, its length field the length of the datagram. *)
Theorem udp6_roundtrip p hd s d sp dp payload
    (Hwf : packet_wf p) (Hempty : length p = 0) (Hhead : 8 <= start p) (Htail : start p + llen payload <= RIX_NET_FRAME_CAPACITY)
    (Hs : addr_ok s) (Hd : addr_ok d) (Hsp : is_u16 sp) (Hdp : is_u16 dp) (Hpay : Forall is_u8 payload) :
  ∃ p' ck p'', rix_net_udp6_push (Some p) (Some s) (Some d) sp dp (Some payload) (llen payload) = (0, Some p') ∧
    rix_net_udp6_pull (Some p') (Some s) (Some d) (Some hd)
    = (0, Some {| Udp.source_port := sp; Udp.destination_port := dp; Udp.udp_length := 8 + llen payload; Udp.checksum := ck |}, Some p'') ∧
    packet_wf p'' ∧ contents p'' = payload.
Proof.
  destruct (udp6_push_spec p s d sp dp payload) as (p' & E & W & C); try done. exists p'. pose proof Hwf as (_ & H0 & _). rewrite capacity_val in Htail.
  set (a := be_bytes16 sp ++ be_bytes16 dp ++ be_bytes16 (8 + llen payload)) in *.
  pose proof (sealed_length p' _ _ _ _ _ W C) as Hlen. change (llen a) with 6 in Hlen.
  pose proof (sealed_verifies 17 s d p' a _ W Hs Hd ltac:(unfold is_u8; lia) (ex_intro _ 3%nat eq_refl) C) as Hv.
  unfold rix_net_udp6_pull. rewrite frame_ok by done. destruct (length p' <? 8) eqn:E1; bool_to_prop; [lia|]. cbv zeta. rewrite !read_be16 by lia.
  assert (F4 : get_be16 (contents p') 4 = length p') by (rewrite Hlen, C; apply get_be16_bytes; [unfold is_u16; lia|f_equal; f_equal; lia|f_equal; lia]).
  assert (F0 : get_be16 (contents p') 0 = sp) by (rewrite C; apply get_be16_bytes; [done|reflexivity..]).
  assert (F2 : get_be16 (contents p') 2 = dp) by (rewrite C; apply get_be16_bytes; [done|reflexivity..]).
  rewrite F4, F0, F2, Hv, Z.eqb_refl. destruct (length p' <? 8) eqn:E2; bool_to_prop; [lia|]. cbn [negb orb Z.eqb].
  exists (get_be16 (contents p') 6).
  destruct (pull_rest p' 8 (a ++ be_bytes16 (ck6 17 s d (a ++ be_bytes16 0 ++ payload))) payload W) as (q & -> & Wq & Sq & Lq & Cq);
    [by rewrite C, <- (assoc_L (++))|reflexivity|].
  exists (set_bounds (start q) (length p' - 8) q). split; [done|]. replace (8 + llen payload) with (length p') by lia. split; [done|].
  rewrite <- Lq. assert (Eq : set_bounds (start q) (length q) q = q) by (by destruct q). by rewrite Eq.
Qed.

Lemma udp6_roundtrip_witness :
  ∃ p' p'' ck, rix_net_udp6_push (Some (set_bounds 64 0 demo_packet)) (Some prefix_2001) (Some (replicate 16 9)) 1234 53 (Some [7; 8; 9]) 3 = (0, Some p') ∧
    rix_net_udp6_pull (Some p') (Some prefix_2001) (Some (replicate 16 9))
      (Some {| Udp.source_port := 0; Udp.destination_port := 0; Udp.udp_length := 0; Udp.checksum := 0 |})
    = (0, Some {| Udp.source_port := 1234; Udp.destination_port := 53; Udp.udp_length := 11; Udp.checksum := ck |}, Some p'').
Proof.
  destruct (udp6_roundtrip (set_bounds 64 0 demo_packet) {| Udp.source_port := 0; Udp.destination_port := 0; Udp.udp_length := 0; Udp.checksum := 0 |}
    prefix_2001 (replicate 16 9) 1234 53 [7; 8; 9] empty_demo_wf eq_refl) as (p' & ck & p'' & E1 & E2 & _);
    [cbn; lia|rewrite capacity_val; cbn; lia|apply addr_ok_dec; reflexivity..|unfold is_u16; lia|unfold is_u16; lia|all_u8|].
  exists p', p'', ck. split; [exact E1|exact E2].
Defined.

Definition tcp6_front (sp dp seq ack flg win : Z) : list Z :=
  be_bytes16 sp ++ be_bytes16 dp ++ be_bytes32 seq ++ be_bytes32 ack ++ [0x50; u8 flg] ++ be_bytes16 win.

Lemma tcp6_push_spec p s d sp dp seq ack flg win payload :
  packet_wf p -> 20 <= start p -> start p + length p + llen payload <= RIX_NET_FRAME_CAPACITY -> llen payload <= RIX_NET_MTU - 20 ->
  addr_ok s -> addr_ok d -> is_u16 sp -> is_u16 dp -> is_u32 seq -> is_u32 ack -> is_u16 flg -> is_u16 win -> Forall is_u8 payload ->
  exists p', rix_net_tcp6_push (Some p) (Some s) (Some d) sp dp seq ack flg win (Some payload) (llen payload) = (0, Some p') /\ packet_wf p' /\
    contents p' = seal6 6 s d (tcp6_front sp dp seq ack flg win) (be_bytes16 0 ++ contents p ++ payload).
Proof.
  intros Hwf Hst Hroom Hmtu Hs Hd Hsp Hdp Hseq Hack Hflg Hwin Hpay.
  unfold rix_net_tcp6_push. cbn [is_null]. rewrite andb_false_r. cbn [orb].
  destruct (RIX_NET_MTU - 20 <? llen payload) eqn:E; bool_to_prop; [lia|].
  destruct (put_payload_spec p payload Hwf Hroom Hpay) as [W1 C1].
  destruct (put_ok p (llen payload) Hwf ltac:(lia) Hroom) as [-> _]. rewrite Nat2Z.id.
  change (default [] (Some payload)) with payload.
  change (set_bytes (copy (List.length payload) (bytes (set_bounds (start p) (length p + llen payload) p)) (start p + length p) payload 0)
            (set_bounds (start p) (length p + llen payload) p)) with (put_payload p payload).
  set (q := put_payload p payload) in *. destruct (be16_bytes flg Hflg) as [_ Ef].
  destruct (seal_header q 20 (fun b w => aset (w + 18) 0 (aset (w + 19) 0 (aset (w + 16) 0 (aset (w + 17) 0 (write16 (aset (w + 13) (u8 (Z.shiftr (be16 flg) 8))
      (aset (w + 12) 0x50 (write32 (write32 (write16 (write16 b (w + 0) sp) (w + 2) dp) (w + 4) seq) (w + 8) ack))) (w + 14) win)))))
    6 s d (tcp6_front sp dp seq ack flg win) (be_bytes16 0) W1) as (p' & E' & W & C); try done.
  - unfold tcp6_front. all_u8.
  - intros pre h rest Hh. rewrite Ef. unfold write16, write32. rewrite !store16_be, !store32_be by done.
    rewrite !put_be16_pre, !put_be32_pre, !aset_pre, put_be16_pre, !aset_pre by lia. f_equal.
    assert (Hl : List.length h = 20%nat) by lia. explode h 20. reflexivity.
  - exists p'. rewrite C1 in C. split; [exact E'|by split].
Qed.

(** A TCP segment over IPv6 verifies at the receiver and decodes to its
    ports, sequence numbers, window and payload, and to the low byte of its flags:
    the push takes any 16-bit flags and keeps eight of them. *)
Theorem tcp6_roundtrip p hd s d sp dp seq ack flg win payload
    (Hwf : packet_wf p) (Hhead : 20 <= start p) (Htail : start p + length p + llen payload <= RIX_NET_FRAME_CAPACITY)
    (Hmtu : llen payload <= RIX_NET_MTU - 20) (Hs : addr_ok s) (Hd : addr_ok d) (Hsp : is_u16 sp) (Hdp : is_u16 dp)
    (Hseq : is_u32 seq) (Hack : is_u32 ack) (Hflg : is_u16 flg) (Hwin : is_u16 win) (Hpay : Forall is_u8 payload) :
  ∃ p' ck p'', rix_net_tcp6_push (Some p) (Some s) (Some d) sp dp seq ack flg win (Some payload) (llen payload) = (0, Some p') ∧
    rix_net_tcp6_pull (Some p') (Some s) (Some d) (Some hd)
    = (0, Some {| Tcp.source_port := sp; Tcp.destination_port := dp; Tcp.sequence := seq; Tcp.acknowledgment := ack; Tcp.flags := u8 flg;
                  Tcp.window := win; Tcp.checksum := ck; Tcp.urgent := 0 |}, Some p'') ∧
    packet_wf p'' ∧ contents p'' = contents p ++ payload.
Proof.
  destruct (tcp6_push_spec p s d sp dp seq ack flg win payload) as (p' & E & W & C); try done. exists p'.
  set (a := tcp6_front sp dp seq ack flg win) in *. set (body := contents p ++ payload) in *.
  pose proof (sealed_length p' _ _ _ _ _ W C) as Hlen. change (llen a) with 16 in Hlen. rewrite length_app in Hlen.
  change (List.length (be_bytes16 0)) with 2%nat in Hlen.
  pose proof (sealed_verifies 6 s d p' a _ W Hs Hd ltac:(unfold is_u8; lia) (ex_intro _ 8%nat eq_refl) C) as Hv.
  unfold rix_net_tcp6_pull. rewrite frame_ok by done. destruct (length p' <? 20) eqn:E1; bool_to_prop; [lia|]. cbv zeta.
  rewrite !read_be16, !read_be32, !read_byte by lia. set (l := contents p') in *.
  assert (F12 : aget 0 l 12 = 0x50) by (rewrite C; reflexivity). rewrite F12, Hv. change (Z.shiftr 0x50 4 * 4) with 20.
  destruct (length p' <? 20) eqn:E2; bool_to_prop; [lia|]. cbn [Z.ltb Z.compare Pos.compare Pos.compare_cont Z.eqb negb orb].
  assert (F0 : get_be16 l 0 = sp) by (rewrite C; apply get_be16_bytes; [done|reflexivity..]).
  assert (F2 : get_be16 l 2 = dp) by (rewrite C; apply get_be16_bytes; [done|reflexivity..]).
  assert (F4 : get_be32 l 4 = seq) by (rewrite C; apply get_be32_bytes; [done|reflexivity..]).
  assert (F8 : get_be32 l 8 = ack) by (rewrite C; apply get_be32_bytes; [done|reflexivity..]).
  assert (F13 : aget 0 l 13 = u8 flg) by (rewrite C; reflexivity).
  assert (F14 : get_be16 l 14 = win) by (rewrite C; apply get_be16_bytes; [done|reflexivity..]).
  assert (F18 : get_be16 l 18 = 0) by (rewrite C; reflexivity).
  replace (Z.shiftl (Z.land 0x50 0x0f) 8) with 0 by reflexivity. rewrite F0, F2, F4, F8, F13, F14, F18, Z.lor_0_l.
  rewrite (u16_id (u8 flg)) by (pose proof (u8_range flg); unfold is_u8, is_u16 in *; lia). exists (get_be16 l 16).
  destruct (pull_rest p' 20 (a ++ be_bytes16 (ck6 6 s d (a ++ be_bytes16 0 ++ be_bytes16 0 ++ body)) ++ be_bytes16 0) body W)
    as (q & -> & Wq & _ & _ & Cq); [fold l; by rewrite C, <- !(assoc_L (++))|reflexivity|].
  exists q. split; [done|]. assert (Eq : set_bounds (start q) (length q) q = q) by (by destruct q). rewrite Eq. by split.
Qed.

Lemma tcp6_roundtrip_witness :
  ∃ p' p'' ck, rix_net_tcp6_push (Some demo_packet) (Some prefix_2001) (Some (replicate 16 9)) 80 443 7 9 0x1012 512 (Some [4; 5]) 2 = (0, Some p') ∧
    rix_net_tcp6_pull (Some p') (Some prefix_2001) (Some (replicate 16 9))
      (Some {| source_port := 0; destination_port := 0; sequence := 0; acknowledgment := 0; flags := 0; window := 0; checksum := 0; urgent := 0 |})
    = (0, Some {| source_port := 80; destination_port := 443; sequence := 7; acknowledgment := 9; flags := 0x12; window := 512; checksum := ck; urgent := 0 |},
       Some p'').
Proof.
  destruct (tcp6_roundtrip demo_packet
    {| source_port := 0; destination_port := 0; sequence := 0; acknowledgment := 0; flags := 0; window := 0; checksum := 0; urgent := 0 |}
    prefix_2001 (replicate 16 9) 80 443 7 9 0x1012 512 [4; 5] demo_packet_wf) as (p' & ck & p'' & E1 & E2 & _);
    [cbn; lia|rewrite capacity_val; cbn; lia|unfold RIX_NET_MTU; cbn; lia|apply addr_ok_dec; reflexivity..|unfold is_u16; lia|unfold is_u16; lia
    |unfold is_u32; lia|unfold is_u32; lia|unfold is_u16; lia|unfold is_u16; lia|all_u8|].
  exists p', p'', ck. split; [exact E1|exact E2].
Defined.

(** ICMPv6 echo messages round-trip. A request or reply put in an empty frame is
    accepted by the receiver, which gets back type, code 0, identifier and
    sequence and is left with the payload. *)
Theorem echo6_roundtrip p e s d type id seq payload
    (Hwf : packet_wf p) (Hempty : length p = 0) (Hhead : 8 <= start p) (Htail : start p + llen payload <= RIX_NET_FRAME_CAPACITY)
    (Hty : type = RIX_NET_ICMPV6_ECHO_REQUEST ∨ type = RIX_NET_ICMPV6_ECHO_REPLY)
    (Hs : addr_ok s) (Hd : addr_ok d) (Hid : is_u16 id) (Hseq : is_u16 seq) (Hpay : Forall is_u8 payload) :
  ∃ p' p'', rix_net_icmpv6_echo_push (Some p) type id seq (Some s) (Some d) (Some payload) (llen payload) = (0, Some p') ∧
    rix_net_icmpv6_echo_pull (Some p') (Some s) (Some d) (Some e)
    = (0, Some {| etype := type; ecode := 0; eidentifier := id; esequence := seq |}, Some p'') ∧
    packet_wf p'' ∧ contents p'' = payload.
Proof.
  pose proof Hwf as (_ & H0 & _). pose proof Htail as Hcap. rewrite capacity_val in Hcap.
  assert (Et : negb (type =? RIX_NET_ICMPV6_ECHO_REQUEST) && negb (type =? RIX_NET_ICMPV6_ECHO_REPLY) = false) by (by destruct Hty as [-> | ->]).
  assert (Htu : is_u8 type) by (unfold is_u8; destruct Hty as [-> | ->]; unfold RIX_NET_ICMPV6_ECHO_REQUEST, RIX_NET_ICMPV6_ECHO_REPLY; lia).
  assert (Hpush : exists p', rix_net_icmpv6_echo_push (Some p) type id seq (Some s) (Some d) (Some payload) (llen payload) = (0, Some p') /\
    packet_wf p' /\ contents p' = seal6 RIX_NET_IP_PROTO_ICMPV6 s d [type; 0] ((be_bytes16 id ++ be_bytes16 seq) ++ payload)).
  { unfold rix_net_icmpv6_echo_push. rewrite Et. cbn [is_null]. rewrite andb_false_r. cbn [orb].
    destruct (65527 <? llen payload) eqn:E; bool_to_prop; [lia|]. cbn [orb].
    destruct (put_payload_spec p payload Hwf ltac:(lia) Hpay) as [W1 C1].
    destruct (put_ok p (llen payload) Hwf ltac:(lia) ltac:(lia)) as [-> _]. rewrite Nat2Z.id.
    change (default [] (Some payload)) with payload.
    change (set_bytes (copy (List.length payload) (bytes (set_bounds (start p) (length p + llen payload) p)) (start p + length p) payload 0)
              (set_bounds (start p) (length p + llen payload) p)) with (put_payload p payload).
    rewrite (empty_contents p Hempty) in C1. cbn [app] in C1. set (q := put_payload p payload) in *.
    destruct (push_writes q 4 W1 ltac:(unfold q; cbn [start put_payload]; lia)) as (pre & h & rest & Ep & Hh & Hw). rewrite Ep. cbn [bytes].
    unfold write16. rewrite !store16_be, !put_be16_pre by (done || lia).
    assert (Eb : put_be16 (put_be16 (h ++ rest) 0 id) 2 seq = (be_bytes16 id ++ be_bytes16 seq) ++ rest).
    { assert (Hl : List.length h = 4%nat) by lia. explode h 4. reflexivity. }
    rewrite Eb. unfold set_bytes. cbn [start length]. destruct (Hw (be_bytes16 id ++ be_bytes16 seq) eq_refl ltac:(all_u8)) as [W2 C2].
    assert (Hpl : llen pre = start q - 4).
    { pose proof Ep as Ep'. destruct (push_ok q 4 W1 ltac:(unfold q; cbn [start put_payload]; lia)) as [Eq _]. rewrite Eq in Ep'. by injection Ep'. }
    destruct (icmpv6_put_spec _ type 0 s d W2 ltac:(cbn [start]; rewrite Hpl; unfold q; cbn [start put_payload]; lia) Hs Hd Htu ltac:(unfold is_u8; lia))
      as (p' & -> & W3 & C3).
    exists p'. split; [done|]. split; [done|]. by rewrite C3, C2, C1. }
  destruct Hpush as (p' & E & W & C). exists p'.
  pose proof (sealed_length p' _ _ _ _ _ W C) as Hlen. rewrite length_app in Hlen. change (List.length (be_bytes16 id ++ be_bytes16 seq)) with 4%nat in Hlen.
  change (llen [type; 0]) with 2 in Hlen.
  pose proof (sealed_verifies _ s d p' [type; 0] _ W Hs Hd proto_u8 (ex_intro _ 1%nat eq_refl) C) as Hv.
  unfold rix_net_icmpv6_echo_pull. rewrite icmpv6_checksum_eq, frame_ok, Hv by done.
  destruct (length p' <? 8) eqn:E1; [apply Z.ltb_lt in E1; lia|]. cbv zeta. rewrite !read_byte, !read_be16 by lia. set (l := contents p') in *.
  assert (F0 : aget 0 l 0 = type) by (rewrite C; reflexivity). assert (F1 : aget 0 l 1 = 0) by (rewrite C; reflexivity).
  assert (F4 : get_be16 l 4 = id) by (rewrite C; apply get_be16_bytes; [done|reflexivity..]).
  assert (F6 : get_be16 l 6 = seq) by (rewrite C; apply get_be16_bytes; [done|reflexivity..]).
  rewrite F0, F1, F4, F6, Et. cbn [Z.eqb negb orb].
  destruct (pull_rest p' 8 ([type; 0] ++ be_bytes16 (ck6 RIX_NET_IP_PROTO_ICMPV6 s d ([type; 0] ++ be_bytes16 0 ++ (be_bytes16 id ++ be_bytes16 seq) ++ payload))
    ++ be_bytes16 id ++ be_bytes16 seq) payload W) as (q & -> & Wq & _ & _ & Cq); [fold l; rewrite C; unfold seal6; by rewrite <- !(assoc_L (++))|reflexivity|].
  exists q. by split.
Qed.

(** Unlike the IPv4 push, the IPv6 one sends a checksum that computes to zero as
    zero, which over IPv6 means no checksum at all and is discarded by receivers
    (RFC 8200, section 8.1). *)
Example udp6_zero_checksum_sent :
  ∃ p', rix_net_udp6_push (Some (set_bounds 64 0 demo_packet)) (Some (replicate 16 0)) (Some (replicate 16 0)) 65501 1 (Some []) 0 = (0, Some p') ∧
    contents p' = [0xff; 0xdd; 0; 1; 0; 8; 0; 0].
Proof. eexists. split; [vm_compute; reflexivity|vm_compute; reflexivity]. Qed.
