(* ===== verification/Device.v ===== *)
(** * The network interface and the loopback queue
      ([kernel/net/device.h], [kernel/net/device.c], [kernel/net/loopback.h], [kernel/net/loopback.c])

    [device.c] chooses between two network controllers and hands frames to the
    one chosen. The controllers ([e1000.c], [rtl8125.c]) are driven through the
    interface [Nic]; what is asked of them is that a received frame fits the
    buffer offered. *)
From stdpp Require Import base tactics list numbers.
From S2P Require Import Prelude Bytes NetPacket Ethernet.

Definition RIX_NET_DEVICE_IP : Z := 0x0a00020f.
Definition RIX_NET_DEVICE_NETMASK : Z := 0xffffff00.
Definition RIX_NET_DEVICE_GATEWAY : Z := 0x0a000202.
Definition RIX_NET_DEVICE_DNS : Z := 0x0a000203.

Record rix_net_device_info_t := {
  present : bool; link_up : bool; mac : list Z; address : Z; netmask : Z; gateway : Z; dns : Z }.

(** The module's two static variables. *)
Record net_device := { device : rix_net_device_info_t; use_rtl8125 : bool }.

(** A controller as its [*_default] function returns it. *)
Record controller := { ctl_link_up : bool; ctl_mac : list Z }.

(** [*_transmit] gets the frame; [*_receive] gets the room at the receive
    position and gives back its result, the bytes stored there and the length. *)
Class Nic (W : Type) := {
  rix_e1000_default : W -> option controller;
  rix_rtl8125_default : W -> option controller;
  rix_e1000_transmit : option (list Z) -> Z -> W -> Z * W;
  rix_rtl8125_transmit : option (list Z) -> Z -> W -> Z * W;
  rix_e1000_receive : Z -> W -> Z * list Z * W;
  rix_rtl8125_receive : Z -> W -> Z * list Z * W;
}.

(** A received frame is made of bytes and fits. *)
Class NicLaws (W : Type) `{!Nic W} := {
  e1000_receive_fits : forall room w r data w', 0 <= room -> rix_e1000_receive room w = (r, data, w') -> Forall is_u8 data /\ llen data <= room;
  rtl8125_receive_fits : forall room w r data w', 0 <= room -> rix_rtl8125_receive room w = (r, data, w') -> Forall is_u8 data /\ llen data <= room;
}.

Section Device.
Context {W : Type} `{!Nic W}.

Definition no_info : rix_net_device_info_t :=
  {| present := false; link_up := false; mac := replicate 6 0; address := 0; netmask := 0; gateway := 0; dns := 0 |}.

(** [snapshot_e1000] and [snapshot_rtl8125]: the same three assignments. *)
Definition snapshot (c : controller) (d : rix_net_device_info_t) : rix_net_device_info_t :=
  {| present := true; link_up := ctl_link_up c; mac := copy 6 (mac d) 0 (ctl_mac c) 0; address := address d; netmask := netmask d;
     gateway := gateway d; dns := dns d |}.

Definition static_config (d : rix_net_device_info_t) : rix_net_device_info_t :=
  {| present := present d; link_up := link_up d; mac := mac d; address := RIX_NET_DEVICE_IP; netmask := RIX_NET_DEVICE_NETMASK;
     gateway := RIX_NET_DEVICE_GATEWAY; dns := RIX_NET_DEVICE_DNS |}.

Definition rix_net_device_init (w : W) : Z * net_device :=
  match rix_e1000_default w with
  | Some c => (0, {| device := static_config (snapshot c no_info); use_rtl8125 := false |})
  | None =>
      match rix_rtl8125_default w with
      | None => (-1, {| device := no_info; use_rtl8125 := false |})
      | Some c => (0, {| device := static_config (snapshot c no_info); use_rtl8125 := true |})
      end
  end.

Definition rix_net_device_info (n : net_device) : option rix_net_device_info_t :=
  if present (device n) then Some (device n) else None.

Definition rix_net_device_configure (a m g d : Z) (n : net_device) : Z * net_device :=
  if negb (present (device n)) || negb (truthy a) then (-1, n)
  else
    let i := device n in
    (0, {| device := {| present := present i; link_up := link_up i; mac := mac i; address := a;
                        netmask := if truthy m then m else netmask i; gateway := if truthy g then g else gateway i;
                        dns := if truthy d then d else dns i |};
           use_rtl8125 := use_rtl8125 n |}).

Definition rix_net_device_transmit (p : option rix_net_packet_t) (n : net_device) (w : W) : Z * W :=
  if negb (present (device n)) then (-1, w)
  else match p with
       | None => (-1, w)
       | Some q =>
           if negb (truthy (rix_net_packet_length p)) then (-1, w)
           else
             let frame := (fun o => slice (bytes q) o (length q)) <$> rix_net_packet_data q in
             if use_rtl8125 n then
               match rix_rtl8125_default w with None => (-1, w) | Some _ => rix_rtl8125_transmit frame (length q) w end
             else
               match rix_e1000_default w with None => (-1, w) | Some _ => rix_e1000_transmit frame (length q) w end
       end.

Definition rix_net_device_receive (p : option rix_net_packet_t) (n : net_device) (w : W) : Z * option rix_net_packet_t * W :=
  if negb (present (device n)) then (-1, p, w)
  else match rix_net_packet_init p with
       | None => (-1, p, w)
       | Some q =>
           let room := RIX_NET_FRAME_CAPACITY - start q in
           let answer := if use_rtl8125 n then
                           match rix_rtl8125_default w with None => None | Some _ => Some (rix_rtl8125_receive room w) end
                         else match rix_e1000_default w with None => None | Some _ => Some (rix_e1000_receive room w) end in
           match answer with
           | None => (-1, Some q, w)
           | Some (r, data, w) =>
               let q := set_bytes (copy (List.length data) (bytes q) (start q) data 0) q in
               if r <=? 0 then (r, Some q, w) else (r, Some (set_bounds (start q) (llen data) q), w)
           end
       end.

Context `{!NicLaws W}.

(** Whatever comes in is a well-formed packet holding exactly what the
    controller delivered. *)
Lemma receive_frame p n w :
  packet_wf p ->
  let '(r, q, w') := rix_net_device_receive (Some p) n w in
  exists q', q = Some q' /\ packet_wf q' /\
    (0 < r -> exists room data, (rix_e1000_receive room w = (r, data, w') \/ rix_rtl8125_receive room w = (r, data, w')) /\ contents q' = data).
Proof.
  intros Hwf. pose proof Hwf as (H1 & H2 & H3 & H4 & H5). rewrite capacity_val in *. unfold rix_net_device_receive.
  destruct (negb _); [exists p; split; [done|split; [done|lia]]|]. cbn [rix_net_packet_init fmap option_fmap option_map].
  set (q := set_bounds RIX_NET_HEADROOM 0 p).
  assert (Hq : packet_wf q) by (repeat split; cbn; rewrite ?capacity_val; try done; unfold RIX_NET_HEADROOM; lia).
  assert (Hin : forall r data w', Forall is_u8 data -> llen data <= RIX_NET_FRAME_CAPACITY - start q ->
    let q2 := set_bytes (copy (List.length data) (bytes q) (start q) data 0) q in
    let '(r', o, w2) := if r <=? 0 then (r, Some q2, w') else (r, Some (set_bounds (start q2) (llen data) q2), w' : W) in
    exists q', o = Some q' /\ packet_wf q' /\ r' = r /\ w2 = w' /\ (0 < r -> contents q' = data)).
  { intros r data w' Hd Hl q2. destruct (put_payload_spec q data Hq) as [Hp Hc]; [cbn [q start length set_bounds] in *; lia|done|].
    assert (E : set_bounds (start q2) (llen data) q2 = put_payload q data).
    { unfold put_payload, q2, set_bounds, set_bytes. cbn [bytes start length q set_bounds]. rewrite Z.add_0_r. f_equal. }
    destruct (r <=? 0) eqn:Er; bool_to_prop.
    - exists q2. split; [done|]. split; [|split; [done|split; [done|lia]]]. rewrite <- E in Hp. destruct Hp as (P1 & P2 & P3 & P4 & P5).
      cbn [q2 bytes start length set_bytes set_bounds] in *. repeat split; cbn [bytes start length set_bytes q2]; try done; cbn [q length set_bounds]; rewrite ?capacity_val; unfold RIX_NET_HEADROOM; lia.
    - exists (put_payload q data). rewrite E. split; [done|]. split; [done|]. split; [done|]. split; [done|]. intros _. rewrite Hc.
      unfold contents. cbn [q length set_bounds]. by rewrite slice_nil. }
  assert (Hroom : 0 <= RIX_NET_FRAME_CAPACITY - start q) by (rewrite capacity_val; cbn; unfold RIX_NET_HEADROOM; lia).
  destruct (use_rtl8125 n).
  - destruct (rix_rtl8125_default w); [|exists q; split; [done|split; [done|lia]]].
    destruct (rix_rtl8125_receive _ w) as [[r data] w'] eqn:E. destruct (rtl8125_receive_fits _ _ _ _ _ Hroom E) as [Hd Hl].
    specialize (Hin r data w' Hd Hl). cbv zeta in Hin. destruct (if r <=? 0 then _ else _) as [[r' o] w2].
    destruct Hin as (q' & -> & Hw' & -> & -> & Hc). exists q'. split; [done|]. split; [done|]. intros Hr. eexists _, data. split; [by right|by apply Hc].
  - destruct (rix_e1000_default w); [|exists q; split; [done|split; [done|lia]]].
    destruct (rix_e1000_receive _ w) as [[r data] w'] eqn:E. destruct (e1000_receive_fits _ _ _ _ _ Hroom E) as [Hd Hl].
    specialize (Hin r data w' Hd Hl). cbv zeta in Hin. destruct (if r <=? 0 then _ else _) as [[r' o] w2].
    destruct Hin as (q' & -> & Hw' & -> & -> & Hc). exists q'. split; [done|]. split; [done|]. intros Hr. eexists _, data. split; [by left|by apply Hc].
Qed.
End Device.

(** ** The loopback queue *)

Module Loopback.

Definition RIX_NET_LOOPBACK_IP : Z := 0x7f000001.
Definition RIX_NET_LOOPBACK_QUEUE : Z := 8.

Record rix_net_loopback_t := { queue : list rix_net_packet_t; head : Z; count : Z }.

Definition copy_packet (destination source : rix_net_packet_t) : rix_net_packet_t :=
  {| bytes := copy (Z.to_nat (length source)) (bytes destination) (start source) (bytes source) (start source);
     start := start source; length := length source |}.

Definition blank : rix_net_packet_t := {| bytes := []; start := 0; length := 0 |}.

Definition rix_net_loopback_init (l : option rix_net_loopback_t) : option rix_net_loopback_t :=
  (fun l => {| queue := queue l; head := 0; count := 0 |}) <$> l.

Definition rix_net_loopback_transmit (l : option rix_net_loopback_t) (p : option rix_net_packet_t) : Z * option rix_net_loopback_t :=
  match l, p with
  | Some b, Some q =>
      if (RIX_NET_FRAME_CAPACITY <? start q) || (u64 (RIX_NET_FRAME_CAPACITY - start q) <? length q)
         || (RIX_NET_LOOPBACK_QUEUE <=? count b) then (-1, l)
      else
        let tail := u64 (head b + count b) mod RIX_NET_LOOPBACK_QUEUE in
        (0, Some {| queue := aset tail (copy_packet (aget blank (queue b) tail) q) (queue b); head := head b; count := count b + 1 |})
  | _, _ => (-1, l)
  end.

Definition rix_net_loopback_receive (l : option rix_net_loopback_t) (p : option rix_net_packet_t)
  : Z * option rix_net_loopback_t * option rix_net_packet_t :=
  match l, p with
  | Some b, Some q =>
      if count b =? 0 then (-1, l, p)
      else (0, Some {| queue := queue b; head := u64 (head b + 1) mod RIX_NET_LOOPBACK_QUEUE; count := count b - 1 |},
            Some (copy_packet q (aget blank (queue b) (head b))))
  | _, _ => (-1, l, p)
  end.

Definition rix_net_loopback_pending (l : option rix_net_loopback_t) : Z := match l with Some b => count b | None => 0 end.

(** The queued frames, oldest first. *)
Definition frames (b : rix_net_loopback_t) : list (list Z) :=
  (fun i => contents (aget blank (queue b) ((head b + i) mod RIX_NET_LOOPBACK_QUEUE))) <$> seqZ 0 (count b).

Definition loopback_ok (b : rix_net_loopback_t) : Prop :=
  llen (queue b) = RIX_NET_LOOPBACK_QUEUE /\ 0 <= head b < RIX_NET_LOOPBACK_QUEUE /\ 0 <= count b <= RIX_NET_LOOPBACK_QUEUE /\
  Forall (fun p => llen (bytes p) = RIX_NET_FRAME_CAPACITY /\ Forall is_u8 (bytes p)) (queue b) /\
  forall i, 0 <= i < count b -> packet_wf (aget blank (queue b) ((head b + i) mod RIX_NET_LOOPBACK_QUEUE)).

Lemma copy_packet_spec d s :
  llen (bytes d) = RIX_NET_FRAME_CAPACITY -> Forall is_u8 (bytes d) -> packet_wf s ->
  packet_wf (copy_packet d s) /\ contents (copy_packet d s) = contents s.
Proof.
  intros Hd Hu (H1 & H2 & H3 & H4 & H5). rewrite capacity_val in *. split.
  - repeat split; cbn [bytes start length copy_packet]; rewrite ?capacity_val, ?length_copy; try done.
    apply Forall_lookup. intros i x Hx. assert (Hi : (i < List.length (copy (Z.to_nat (length s)) (bytes d) (start s) (bytes s) (start s)))%nat) by (by eapply lookup_lt_Some).
    rewrite length_copy in Hi. pose proof (aget_copy (Z.to_nat (length s)) (bytes d) (start s) (bytes s) (start s) (Z.of_nat i) ltac:(lia) ltac:(lia) ltac:(lia)) as E.
    unfold aget at 1 in E. rewrite Nat2Z.id, Hx in E. cbn in E. rewrite E. case_if; by apply aget_u8.
  - unfold contents. cbn [bytes start length copy_packet].
    pose proof (length_slice (copy (Z.to_nat (length s)) (bytes d) (start s) (bytes s) (start s)) (start s) (length s) ltac:(lia)).
    pose proof (length_slice (bytes s) (start s) (length s) ltac:(lia)).
    apply list_ext_aget; [lia|]. intros i Hi. rewrite !aget_slice, aget_copy by lia.
    destruct (_ <=? _) eqn:Ea, (_ <? _) eqn:Eb; bool_to_prop; cbn [andb]; try lia. f_equal. lia.
Qed.

Lemma slot_ok b i : loopback_ok b -> 0 <= i ->
  0 <= (head b + i) mod 8 < 8 /\ llen (bytes (aget blank (queue b) ((head b + i) mod 8))) = RIX_NET_FRAME_CAPACITY /\
  Forall is_u8 (bytes (aget blank (queue b) ((head b + i) mod 8))).
Proof.
  intros (H1 & H2 & H3 & H4 & _) Hi. unfold RIX_NET_LOOPBACK_QUEUE in *. pose proof (Z.mod_pos_bound (head b + i) 8 ltac:(lia)) as Hm.
  split; [done|]. unfold aget. destruct (queue b !! Z.to_nat ((head b + i) mod 8)) as [p|] eqn:E.
  - rewrite Forall_lookup in H4. exact (H4 _ _ E).
  - apply lookup_ge_None in E. lia.
Qed.

Lemma slots_distinct h i j : 0 <= i < 8 -> 0 <= j < 8 -> i <> j -> (h + i) mod 8 <> (h + j) mod 8.
Proof.
  intros Hi Hj Hne E. apply Hne. pose proof (Z.div_mod (h + i) 8 ltac:(lia)). pose proof (Z.div_mod (h + j) 8 ltac:(lia)). lia.
Qed.

(** The loopback interface is a queue of at most eight frames. Transmit appends
    the frame or, when eight are waiting, refuses and changes nothing; receive
    hands out the oldest frame byte for byte, or refuses when there is none. *)
Theorem loopback_fifo b p q (Hb : loopback_ok b) (Hp : packet_wf p) (Hq : packet_wf q) :
  (let '(rc, b') := rix_net_loopback_transmit (Some b) (Some p) in
   if decide (count b = RIX_NET_LOOPBACK_QUEUE) then rc = -1 ∧ b' = Some b
   else rc = 0 ∧ ∃ b1, b' = Some b1 ∧ loopback_ok b1 ∧ frames b1 = frames b ++ [contents p]) ∧
  (let '(rc, b', q') := rix_net_loopback_receive (Some b) (Some q) in
   match frames b with
   | [] => rc = -1 ∧ b' = Some b ∧ q' = Some q
   | f :: fs => rc = 0 ∧ (∃ b1, b' = Some b1 ∧ loopback_ok b1 ∧ frames b1 = fs) ∧ ∃ q1, q' = Some q1 ∧ packet_wf q1 ∧ contents q1 = f
   end).
Proof.
  pose proof Hb as (H1 & H2 & H3 & H4 & H5). pose proof Hp as (P1 & P2 & P3 & P4 & P5). rewrite capacity_val in *. unfold RIX_NET_LOOPBACK_QUEUE in *. split.
  - unfold rix_net_loopback_transmit, RIX_NET_LOOPBACK_QUEUE. rewrite capacity_val, u64_id by (unfold is_u64; lia).
    destruct (1580 <? start p) eqn:E1; bool_to_prop; [lia|]. destruct (1580 - start p <? length p) eqn:E2; bool_to_prop; [lia|]. cbn [orb].
    destruct (8 <=? count b) eqn:E3; bool_to_prop; destruct (decide _); try lia; [done|].
    rewrite u64_id by (unfold is_u64; lia). destruct (slot_ok b (count b) Hb ltac:(lia)) as (S1 & S2 & S3).
    set (tail := (head b + count b) mod 8) in *. destruct (copy_packet_spec _ p S2 S3 Hp) as [C1 C2].
    set (p' := copy_packet _ p) in *. split; [done|]. eexists. split; [done|].
    assert (Hget : forall i, 0 <= i <= count b -> aget blank (aset tail p' (queue b)) ((head b + i) mod 8)
      = if decide (i = count b) then p' else aget blank (queue b) ((head b + i) mod 8)).
    { intros i Hi. destruct (decide (i = count b)) as [->|Hne].
      - fold tail. apply aget_aset_eq. lia.
      - pose proof (slots_distinct (head b) i (count b) ltac:(lia) ltac:(lia) Hne) as Hd. pose proof (Z.mod_pos_bound (head b + i) 8 ltac:(lia)).
        fold tail in Hd. apply aget_aset_ne; lia. }
    split.
    + split; [cbn [queue]; by rewrite length_aset|]. split; [done|]. cbn [queue head count]. unfold RIX_NET_LOOPBACK_QUEUE. split; [lia|]. split.
      * unfold aset. apply Forall_insert; [|split; [apply C1|apply C1]]. by rewrite capacity_val.
      * intros i Hi. rewrite Hget by lia. destruct (decide _); [done|]. apply H5. lia.
    + unfold frames. cbn [queue head count]. unfold RIX_NET_LOOPBACK_QUEUE. rewrite seqZ_app by lia. rewrite fmap_app. f_equal.
      * apply list_fmap_ext. intros k x Hk. apply lookup_seqZ in Hk as [-> Hk]. rewrite Hget by lia. by destruct (decide _); [lia|].
      * change (seqZ (0 + count b) 1) with [Z.of_nat 0 + (0 + count b)]. cbn [fmap list_fmap]. rewrite !Z.add_0_l, Hget by lia.
        destruct (decide _); [by rewrite C2|done].
  - unfold rix_net_loopback_receive. destruct (count b =? 0) eqn:E0; bool_to_prop.
    { unfold frames. rewrite E0. done. }
    assert (Ef : frames b = contents (aget blank (queue b) ((head b + 0) mod RIX_NET_LOOPBACK_QUEUE)) ::
      ((fun i => contents (aget blank (queue b) ((head b + i) mod RIX_NET_LOOPBACK_QUEUE))) <$> seqZ (0 + 1) (count b - 1))).
    { unfold frames. replace (count b) with (1 + (count b - 1)) at 1 by lia. rewrite seqZ_app by lia. by rewrite fmap_app. }
    rewrite Ef. destruct Hq as (Q1 & Q2 & Q3 & Q4 & Q5).
    assert (Hh : (head b + 0) mod RIX_NET_LOOPBACK_QUEUE = head b) by (unfold RIX_NET_LOOPBACK_QUEUE; rewrite Z.add_0_r; apply Z.mod_small; lia).
    assert (Hnext : forall i, 0 <= i -> (u64 (head b + 1) mod 8 + i) mod 8 = (head b + (0 + 1 + i)) mod 8).
    { intros i Hi. rewrite u64_id by (unfold is_u64; lia). rewrite Zplus_mod_idemp_l. f_equal. lia. }
    rewrite Hh. split; [done|]. split.
    + eexists. split; [done|]. split.
      * split; [done|]. cbn [head count queue]. unfold RIX_NET_LOOPBACK_QUEUE. split; [apply Z.mod_pos_bound; lia|]. split; [lia|]. split; [by rewrite capacity_val|].
        intros i Hi. rewrite Hnext by lia. apply H5. lia.
      * unfold frames. cbn [queue head count]. unfold RIX_NET_LOOPBACK_QUEUE. apply list_eq. intros k. rewrite !list_lookup_fmap.
        destruct (decide (Z.of_nat k < count b - 1)).
        -- rewrite !lookup_seqZ_lt by lia. cbn [fmap option_fmap option_map]. rewrite Hnext by lia. do 4 f_equal; lia.
        -- rewrite !lookup_seqZ_ge by lia. done.
    + eexists. split; [done|]. apply copy_packet_spec; [done|done|]. rewrite <- Hh. apply H5. lia.
Qed.

Definition demo_loopback : rix_net_loopback_t := {| queue := replicate 8 demo_packet; head := 6; count := 3 |}.

Lemma demo_loopback_ok : loopback_ok demo_loopback.
Proof.
  split; [reflexivity|]. split; [cbn; unfold RIX_NET_LOOPBACK_QUEUE; lia|]. split; [cbn; unfold RIX_NET_LOOPBACK_QUEUE; lia|]. split.
  - apply Forall_replicate. split; apply demo_packet_wf.
  - intros i Hi. cbn [demo_loopback queue head]. unfold aget. pose proof (Z.mod_pos_bound (6 + i) RIX_NET_LOOPBACK_QUEUE ltac:(reflexivity)).
    rewrite lookup_replicate_2 by (unfold RIX_NET_LOOPBACK_QUEUE in *; lia). exact demo_packet_wf.
Qed.

Lemma loopback_fifo_witness :
  frames demo_loopback = [[1; 2; 3]; [1; 2; 3]; [1; 2; 3]] ∧
  fst (rix_net_loopback_transmit (Some demo_loopback) (Some demo_packet)) = 0 ∧
  ∃ b1, snd (rix_net_loopback_transmit (Some demo_loopback) (Some demo_packet)) = Some b1 ∧ frames b1 = frames demo_loopback ++ [[1; 2; 3]].
Proof.
  split; [vm_compute; reflexivity|].
  pose proof (loopback_fifo demo_loopback demo_packet demo_packet demo_loopback_ok demo_packet_wf demo_packet_wf) as [H _].
  destruct (rix_net_loopback_transmit _ _) as [rc b']. cbn [fst snd]. change (count demo_loopback) with 3 in H.
  destruct (decide (3 = RIX_NET_LOOPBACK_QUEUE)) as [E|_]; [discriminate E|]. destruct H as (-> & b1 & -> & _ & Hf).
  split; [reflexivity|]. exists b1. split; [reflexivity|]. rewrite Hf; vm_compute; reflexivity.
Defined.

End Loopback.
