(* ===== verification/Dhcp.v ===== *)
(** * DHCP client ([kernel/net/dhcp.h], [kernel/net/dhcp.c])

    Message construction, the option parser, and the discover/request exchange
    that configures the interface. *)
From stdpp Require Import base tactics list numbers.
From S2P Require Import Prelude Bytes NetPacket Ethernet Ipv4 Udp Device.

Definition RIX_DHCP_OP_REQUEST : Z := 1.
Definition RIX_DHCP_OP_REPLY : Z := 2.
Definition RIX_DHCP_MSG_DISCOVER : Z := 1.
Definition RIX_DHCP_MSG_OFFER : Z := 2.
Definition RIX_DHCP_MSG_REQUEST : Z := 3.
Definition RIX_DHCP_MSG_ACK : Z := 5.
Definition RIX_DHCP_MIN_SIZE : Z := 300.
Definition RIX_DHCP_SERVER_PORT : Z := 67.
Definition RIX_DHCP_CLIENT_PORT : Z := 68.
Definition DHCP_OPT_PAD : Z := 0.
Definition DHCP_OPT_END : Z := 255.
Definition DHCP_OPT_MSGTYPE : Z := 53.
Definition DHCP_OPT_MASK : Z := 1.
Definition DHCP_OPT_ROUTER : Z := 3.
Definition DHCP_OPT_DNS : Z := 6.
Definition DHCP_OPT_REQIP : Z := 50.
Definition DHCP_OPT_LEASE : Z := 51.
Definition DHCP_OPT_SERVER : Z := 54.
Definition DHCP_OPT_PRL : Z := 55.
Definition DHCP_OPT_CLIENT_ID : Z := 61.
Definition RIX_DHCP_ROUNDS : Z := 12.
Definition RIX_DHCP_POLLS_PER_ROUND : Z := 1000000.

Record rix_dhcp_offer_t := {
  o_address : Z; o_netmask : Z; o_gateway : Z; o_dns : Z; o_server : Z; o_lease_seconds : Z;
  has_netmask : bool; has_gateway : bool; has_dns : bool }.

(** ** Building messages *)

(** [if (step(packet) != 0) return -1;] *)
Definition then_ (r : Z * rix_net_packet_t) (k : rix_net_packet_t -> Z * rix_net_packet_t) : Z * rix_net_packet_t :=
  let '(rc, p) := r in if truthy rc then (-1, p) else k p.

Definition dhcp_header (p : rix_net_packet_t) (op xid : Z) (mac : list Z) : Z * rix_net_packet_t :=
  match rix_net_packet_put p 240 with
  | (0, Some o, q) =>
      let b := fill 240 (bytes q) o 0 in
      let b := aset (o + 0) op b in
      let b := aset (o + 1) 1 b in
      let b := aset (o + 2) 6 b in
      let b := put_be32 b (o + 4) xid in
      let b := aset (o + 10) 0x80 b in
      let b := copy 6 b (o + 28) mac 0 in
      let b := aset (o + 236) 99 b in
      let b := aset (o + 237) 130 b in
      let b := aset (o + 238) 83 b in
      let b := aset (o + 239) 99 b in
      (0, set_bytes b q)
  | (_, _, q) => (-1, q)
  end.

Definition dhcp_option (p : rix_net_packet_t) (code : Z) (data : list Z) (len : Z) : Z * rix_net_packet_t :=
  match rix_net_packet_put p (2 + len) with
  | (0, Some o, q) =>
      let b := aset (o + 0) code (bytes q) in
      let b := aset (o + 1) len b in
      (0, set_bytes (copy (Z.to_nat len) b (o + 2) data 0) q)
  | (_, _, q) => (-1, q)
  end.

Definition dhcp_pad (p : rix_net_packet_t) : Z * rix_net_packet_t :=
  if RIX_DHCP_MIN_SIZE <? length p then (-1, p)
  else match rix_net_packet_put p 1 with
       | (0, Some o, q) =>
           let q := set_bytes (aset (o + 0) DHCP_OPT_END (bytes q)) q in
           let have := length q in
           match rix_net_packet_put q (u64 (RIX_DHCP_MIN_SIZE - have)) with
           | (0, Some o, r) => (0, set_bytes (fill (Z.to_nat (u64 (RIX_DHCP_MIN_SIZE - have))) (bytes r) o 0) r)
           | (_, _, r) => (-1, r)
           end
       | (_, _, q) => (-1, q)
       end.

Definition rix_net_dhcp_build_discover (p : option rix_net_packet_t) (xid : Z) (mac : option (list Z)) : Z * option rix_net_packet_t :=
  match p, mac with
  | Some q, Some m =>
      if negb (truthy xid) then (-1, p)
      else
        let r := then_ (dhcp_header q RIX_DHCP_OP_REQUEST xid m) (fun q =>
                 then_ (dhcp_option q DHCP_OPT_MSGTYPE [RIX_DHCP_MSG_DISCOVER] 1) (fun q =>
                 then_ (dhcp_option q DHCP_OPT_CLIENT_ID (1 :: take 6 m) 7) (fun q =>
                 then_ (dhcp_option q DHCP_OPT_PRL [1; 3; 6] 3) dhcp_pad))) in
        (fst r, Some (snd r))
  | _, _ => (-1, p)
  end.

Definition rix_net_dhcp_build_request_for_server (p : option rix_net_packet_t) (xid : Z) (mac : option (list Z)) (requested server : Z)
  : Z * option rix_net_packet_t :=
  match p, mac with
  | Some q, Some m =>
      if negb (truthy xid) || negb (truthy requested) then (-1, p)
      else
        let r := then_ (dhcp_header q RIX_DHCP_OP_REQUEST xid m) (fun q =>
                 then_ (dhcp_option q DHCP_OPT_MSGTYPE [RIX_DHCP_MSG_REQUEST] 1) (fun q =>
                 then_ (dhcp_option q DHCP_OPT_REQIP (put_be32 [0; 0; 0; 0] 0 requested) 4) (fun q =>
                 then_ (dhcp_option q DHCP_OPT_CLIENT_ID (1 :: take 6 m) 7) (fun q =>
                 then_ (if truthy server then dhcp_option q DHCP_OPT_SERVER (put_be32 [0; 0; 0; 0] 0 server) 4 else (0, q)) (fun q =>
                 then_ (dhcp_option q DHCP_OPT_PRL [1; 3; 6] 3) dhcp_pad))))) in
        (fst r, Some (snd r))
  | _, _ => (-1, p)
  end.

Definition rix_net_dhcp_build_request (p : option rix_net_packet_t) (xid : Z) (mac : option (list Z)) (requested : Z) :=
  rix_net_dhcp_build_request_for_server p xid mac requested 0.

(** ** Parsing replies *)

Definition contiguous_mask (mask : Z) : bool :=
  if negb (truthy mask) then false else Z.land (not32 mask) (u32 (not32 mask + 1)) =? 0.

Definition set_offer_netmask (m : Z) (o : rix_dhcp_offer_t) : rix_dhcp_offer_t :=
  {| o_address := o_address o; o_netmask := m; o_gateway := o_gateway o; o_dns := o_dns o; o_server := o_server o;
     o_lease_seconds := o_lease_seconds o; has_netmask := true; has_gateway := has_gateway o; has_dns := has_dns o |}.
Definition set_offer_gateway (g : Z) (o : rix_dhcp_offer_t) : rix_dhcp_offer_t :=
  {| o_address := o_address o; o_netmask := o_netmask o; o_gateway := g; o_dns := o_dns o; o_server := o_server o;
     o_lease_seconds := o_lease_seconds o; has_netmask := has_netmask o; has_gateway := true; has_dns := has_dns o |}.
Definition set_offer_dns (d : Z) (o : rix_dhcp_offer_t) : rix_dhcp_offer_t :=
  {| o_address := o_address o; o_netmask := o_netmask o; o_gateway := o_gateway o; o_dns := d; o_server := o_server o;
     o_lease_seconds := o_lease_seconds o; has_netmask := has_netmask o; has_gateway := has_gateway o; has_dns := true |}.
Definition set_offer_server (s : Z) (o : rix_dhcp_offer_t) : rix_dhcp_offer_t :=
  {| o_address := o_address o; o_netmask := o_netmask o; o_gateway := o_gateway o; o_dns := o_dns o; o_server := s;
     o_lease_seconds := o_lease_seconds o; has_netmask := has_netmask o; has_gateway := has_gateway o; has_dns := has_dns o |}.
Definition set_offer_lease (s : Z) (o : rix_dhcp_offer_t) : rix_dhcp_offer_t :=
  {| o_address := o_address o; o_netmask := o_netmask o; o_gateway := o_gateway o; o_dns := o_dns o; o_server := o_server o;
     o_lease_seconds := s; has_netmask := has_netmask o; has_gateway := has_gateway o; has_dns := has_dns o |}.

Definition fresh_offer (address : Z) : rix_dhcp_offer_t :=
  {| o_address := address; o_netmask := 0; o_gateway := 0; o_dns := 0; o_server := 0; o_lease_seconds := 0;
     has_netmask := false; has_gateway := false; has_dns := false |}.

(** The [switch] on one option: [inl] is an early return. *)
Definition option_case (b : list Z) (off code len expected : Z) (seen : bool) (o : rix_dhcp_offer_t) : Z + bool * rix_dhcp_offer_t :=
  if code =? DHCP_OPT_MSGTYPE then
    if negb (len =? 1) then inl (-1) else if negb (aget 0 b off =? expected) then inl (-2) else inr (true, o)
  else if code =? DHCP_OPT_MASK then
    inr (seen, if len =? 4 then let m := get_be32 b off in if contiguous_mask m then set_offer_netmask m o else o else o)
  else if code =? DHCP_OPT_ROUTER then inr (seen, if 4 <=? len then set_offer_gateway (get_be32 b off) o else o)
  else if code =? DHCP_OPT_DNS then inr (seen, if 4 <=? len then set_offer_dns (get_be32 b off) o else o)
  else if code =? DHCP_OPT_SERVER then inr (seen, if len =? 4 then set_offer_server (get_be32 b off) o else o)
  else if code =? DHCP_OPT_LEASE then inr (seen, if len =? 4 then set_offer_lease (get_be32 b off) o else o)
  else inr (seen, o).

Definition parse_end (seen : bool) (o : rix_dhcp_offer_t) : Z * rix_dhcp_offer_t := (if seen then 0 else -1, o).

(** The option loop from [base + offset]; every turn consumes at least a byte,
    so [length] turns are enough. *)
Fixpoint parse_loop (k : nat) (b : list Z) (base len offset expected : Z) (seen : bool) (o : rix_dhcp_offer_t) : Z * rix_dhcp_offer_t :=
  if negb (offset <? len) then parse_end seen o
  else match k with
       | O => parse_end seen o
       | S k =>
           let code := aget 0 b (base + offset) in
           let offset := offset + 1 in
           if code =? DHCP_OPT_PAD then parse_loop k b base len offset expected seen o
           else if code =? DHCP_OPT_END then parse_end seen o
           else if len <=? offset then (-1, o)
           else
             let option_length := aget 0 b (base + offset) in
             let offset := offset + 1 in
             if len - offset <? option_length then (-1, o)
             else match option_case b (base + offset) code option_length expected seen o with
                  | inl rc => (rc, o)
                  | inr (seen, o) => parse_loop k b base len (offset + option_length) expected seen o
                  end
       end.

Definition rix_net_dhcp_parse_reply (p : option rix_net_packet_t) (xid expected : Z) (offer : option rix_dhcp_offer_t)
  : Z * option rix_dhcp_offer_t :=
  match p, offer with
  | Some q, Some o =>
      if negb (truthy xid) then (-1, offer)
      else
        let len := rix_net_packet_length p in
        if len <? 244 then (-1, offer)
        else match rix_net_packet_data q with
             | None => (-1, offer)
             | Some base =>
                 let b := bytes q in
                 if negb (aget 0 b (base + 0) =? RIX_DHCP_OP_REPLY) then (-1, offer)
                 else if negb (get_be32 b (base + 4) =? xid) then (-1, offer)
                 else if negb (aget 0 b (base + 236) =? 99) || negb (aget 0 b (base + 237) =? 130)
                         || negb (aget 0 b (base + 238) =? 83) || negb (aget 0 b (base + 239) =? 99) then (-1, offer)
                 else
                   let address := get_be32 b (base + 16) in
                   if address =? 0 then
                     (-1, Some {| o_address := address; o_netmask := o_netmask o; o_gateway := o_gateway o; o_dns := o_dns o;
                                  o_server := o_server o; o_lease_seconds := o_lease_seconds o; has_netmask := has_netmask o;
                                  has_gateway := has_gateway o; has_dns := has_dns o |})
                   else
                     let '(rc, o) := parse_loop (Z.to_nat len) b base len 240 expected false (fresh_offer address) in (rc, Some o)
             end
  | _, _ => (-1, offer)
  end.

(** ** The exchange *)

(** The UDP header is written by hand because the source address is zero. *)
Definition dhcp_udp_push (p : rix_net_packet_t) : Z * rix_net_packet_t :=
  let len := u64 (length p + 8) in
  if (65535 <? len) || (len <? 8) then (-1, p)
  else match rix_net_packet_push p 8 with
       | (0, Some h, q) =>
           let b := aset (h + 0) 0 (bytes q) in
           let b := aset (h + 1) 68 b in
           let b := aset (h + 2) 0 b in
           let b := aset (h + 3) 67 b in
           let b := aset (h + 4) (u8 (Z.shiftr len 8)) b in
           let b := aset (h + 5) (u8 len) b in
           let b := aset (h + 6) 0 b in
           let b := aset (h + 7) 0 b in
           let sum := u32 (0 + (0xffff + 0xffff)) in
           let sum := u32 (sum + RIX_NET_IP_PROTO_UDP) in
           let sum := u32 (sum + u32 len) in
           let sum := match rix_net_packet_data (set_bytes b q) with Some o => sum_bytes b o len sum | None => sum end in
           let checksum := rix_net_checksum_add sum in
           let b := aset (h + 6) (u8 (Z.shiftr checksum 8)) b in
           let b := aset (h + 7) (u8 (if truthy checksum then checksum else 0xffff)) b in
           (0, set_bytes b q)
       | (_, _, q) => (-1, q)
       end.

Record dhcp_stats_t := { frames : Z; eth_drop : Z; ip_drop : Z; udp_drop : Z; port_drop : Z; parse_drop : Z }.
Definition no_stats : dhcp_stats_t := {| frames := 0; eth_drop := 0; ip_drop := 0; udp_drop := 0; port_drop := 0; parse_drop := 0 |}.
Definition count_frame s := {| frames := u32 (frames s + 1); eth_drop := eth_drop s; ip_drop := ip_drop s; udp_drop := udp_drop s; port_drop := port_drop s; parse_drop := parse_drop s |}.
Definition count_eth s := {| frames := frames s; eth_drop := u32 (eth_drop s + 1); ip_drop := ip_drop s; udp_drop := udp_drop s; port_drop := port_drop s; parse_drop := parse_drop s |}.
Definition count_ip s := {| frames := frames s; eth_drop := eth_drop s; ip_drop := u32 (ip_drop s + 1); udp_drop := udp_drop s; port_drop := port_drop s; parse_drop := parse_drop s |}.
Definition count_udp s := {| frames := frames s; eth_drop := eth_drop s; ip_drop := ip_drop s; udp_drop := u32 (udp_drop s + 1); port_drop := port_drop s; parse_drop := parse_drop s |}.
Definition count_port s := {| frames := frames s; eth_drop := eth_drop s; ip_drop := ip_drop s; udp_drop := udp_drop s; port_drop := u32 (port_drop s + 1); parse_drop := parse_drop s |}.
Definition count_parse s := {| frames := frames s; eth_drop := eth_drop s; ip_drop := ip_drop s; udp_drop := udp_drop s; port_drop := port_drop s; parse_drop := u32 (parse_drop s + 1) |}.

(** Automatic variables: what they hold before the first store is never read. *)
Definition stack_eth : rix_net_eth_header_t := {| Ethernet.destination := replicate 6 0; Ethernet.source := replicate 6 0; ethertype := 0 |}.
Definition stack_ip : rix_net_ipv4_header_t :=
  {| source := 0; destination := 0; protocol := 0; ttl := 0; identification := 0; flags_fragment := 0; total_length := 0 |}.
Definition stack_udp : rix_net_udp_header_t := {| source_port := 0; destination_port := 0; udp_length := 0; checksum := 0 |}.

Section Exchange.
Context {W : Type} `{!Nic W} (n : net_device).

Definition dhcp_transmit (p : rix_net_packet_t) (m : list Z) (w : W) : Z * W :=
  match dhcp_udp_push p with
  | (0, p) =>
      match rix_net_ipv4_push (Some p) 0 0xffffffff RIX_NET_IP_PROTO_UDP 64 0 0 with
      | (0, p) =>
          match rix_net_eth_push p (Some (replicate 6 0xff)) (Some m) RIX_NET_ETHERTYPE_IPV4 with
          | (0, p) => rix_net_device_transmit p n w
          | _ => (-1, w)
          end
      | _ => (-1, w)
      end
  | _ => (-1, w)
  end.

(** One poll: 1 and the reply, 0 for nothing usable, or -1. A reply that fails
    to parse has still overwritten [offer]. *)
Definition dhcp_poll_once (xid expected : Z) (offer : rix_dhcp_offer_t) (stats : dhcp_stats_t) (w : W)
  : Z * rix_dhcp_offer_t * dhcp_stats_t * W :=
  if negb (truthy xid) then (-1, offer, stats, w)
  else
    let '(received, frame, w) := rix_net_device_receive (rix_net_packet_init (Some stack_packet)) n w in
    if received <? 0 then (-1, offer, stats, w)
    else if received =? 0 then (0, offer, stats, w)
    else
      let stats := count_frame stats in
      match rix_net_eth_pull frame (Some stack_eth) with
      | (0, Some eth, frame) =>
          if negb (ethertype eth =? RIX_NET_ETHERTYPE_IPV4) then (0, offer, count_eth stats, w)
          else
            match rix_net_ipv4_pull frame (Some stack_ip) with
            | (0, Some ip, frame) =>
                if negb (protocol ip =? RIX_NET_IP_PROTO_UDP) then (0, offer, count_ip stats, w)
                else
                  match rix_net_udp_pull frame (source ip) (destination ip) (Some stack_udp) with
                  | (0, Some udp, frame) =>
                      if negb (source_port udp =? RIX_DHCP_SERVER_PORT) || negb (destination_port udp =? RIX_DHCP_CLIENT_PORT)
                      then (0, offer, count_port stats, w)
                      else
                        let '(rc, offer') := rix_net_dhcp_parse_reply frame xid expected (Some offer) in
                        let offer := default offer offer' in
                        if truthy rc then (0, offer, count_parse stats, w) else (1, offer, stats, w)
                  | _ => (0, offer, count_udp stats, w)
                  end
            | _ => (0, offer, count_ip stats, w)
            end
      | _ => (0, offer, count_eth stats, w)
      end.

(** The million polls of one discover round: [inl] is the -1 return, [inr] the
    offer as the loop leaves it. *)
Definition discover_polls (xid : Z) (offer : rix_dhcp_offer_t) (w : W) : Z * W + rix_dhcp_offer_t * W :=
  match for_ 0 RIX_DHCP_POLLS_PER_ROUND (fun _ '(offer, stats, w) =>
          let '(found, offer, stats, w) := dhcp_poll_once xid RIX_DHCP_MSG_OFFER offer stats w in
          if found <? 0 then inr (inl (-1, w)) else if truthy found then inr (inr (offer, w)) else inl (offer, stats, w))
          (offer, no_stats, w) with
  | inl (offer, _, w) => inr (offer, w)
  | inr r => r
  end.

Definition set_offer_address (a : Z) (o : rix_dhcp_offer_t) : rix_dhcp_offer_t :=
  {| o_address := a; o_netmask := o_netmask o; o_gateway := o_gateway o; o_dns := o_dns o; o_server := o_server o;
     o_lease_seconds := o_lease_seconds o; has_netmask := has_netmask o; has_gateway := has_gateway o; has_dns := has_dns o |}.

(** A round: continue, or leave with the -1 return or the offer to request. *)
Definition discover_round (xid : Z) (m : list Z) (s : rix_dhcp_offer_t * W)
  : rix_dhcp_offer_t * W + (Z * W + rix_dhcp_offer_t * W) :=
  let '(offer, w) := s in
  match rix_net_dhcp_build_discover (rix_net_packet_init (Some stack_packet)) xid (Some m) with
  | (0, Some discover) =>
      let '(rc, w) := dhcp_transmit discover m w in
      if rc <? 0 then inr (inl (-1, w))
      else match discover_polls xid offer w with
           | inl r => inr (inl r)
           | inr (offer, w) =>
               if truthy (o_address offer) && has_netmask offer then inr (inr (offer, w))
               else inl (set_offer_address 0 offer, w)
           end
  | _ => inr (inl (-1, w))
  end.

(** The polls of one request round. An acknowledgement for another address is
    skipped; the first that matches configures the interface. *)
Definition request_polls (xid : Z) (offer : rix_dhcp_offer_t) (w : W) : W + Z * net_device * W :=
  match for_ 0 RIX_DHCP_POLLS_PER_ROUND (fun _ '(stats, w) =>
          let '(found, ack, stats, w) := dhcp_poll_once xid RIX_DHCP_MSG_ACK (fresh_offer 0) stats w in
          if found <? 0 then inr (-1, n, w)
          else if truthy found then
            if negb (o_address ack =? o_address offer) then inl (stats, w)
            else
              let nm := if has_netmask ack then o_netmask ack else o_netmask offer in
              let gw := if has_gateway ack then o_gateway ack else o_gateway offer in
              let ns := if has_dns ack then o_dns ack else o_dns offer in
              let '(rc, n') := rix_net_device_configure (o_address ack) nm gw ns n in
              inr (if truthy rc then -1 else 0, n', w)
          else inl (stats, w))
          (no_stats, w) with
  | inl (_, w) => inl w
  | inr r => inr r
  end.

Definition request_round (xid : Z) (m : list Z) (offer : rix_dhcp_offer_t) (w : W) : W + Z * net_device * W :=
  match rix_net_dhcp_build_request_for_server (rix_net_packet_init (Some stack_packet)) xid (Some m) (o_address offer) (o_server offer) with
  | (0, Some request) =>
      let '(rc, w) := dhcp_transmit request m w in
      if rc <? 0 then inr (-1, n, w) else request_polls xid offer w
  | _ => inr (-1, n, w)
  end.

(** [xid] is the static counter; the new value is returned with the result. *)
Definition rix_net_dhcp_run (xid : Z) (w : W) : Z * Z * net_device * W :=
  match rix_net_device_info n with
  | None => (-1, xid, n, w)
  | Some info =>
      let '(current, xid) := (xid, u32 (xid + 1)) in
      let '(current, xid) := if current =? 0 then (xid, u32 (xid + 1)) else (current, xid) in
      let found := match for_ 0 RIX_DHCP_ROUNDS (fun _ => discover_round current (mac info)) (fresh_offer 0, w) with
                   | inl s => inr s
                   | inr r => r
                   end in
      match found with
      | inl (rc, w) => (rc, xid, n, w)
      | inr (offer, w) =>
          if o_address offer =? 0 then (-1, xid, n, w)
          else match for_ 0 RIX_DHCP_ROUNDS (fun _ => request_round current (mac info) offer) w with
               | inl w => (-1, xid, n, w)
               | inr (rc, n', w) => (rc, xid, n', w)
               end
      end
  end.
End Exchange.

(** ** Options as a list *)

(** One option with its value cut out of the message. *)
Definition ref_case (code : Z) (v : list Z) (expected : Z) (seen : bool) (o : rix_dhcp_offer_t) : Z + bool * rix_dhcp_offer_t :=
  let word := get_be32 v 0 in
  if code =? DHCP_OPT_MSGTYPE then
    match v with
    | [t] => if t =? expected then inr (true, o) else inl (-2)
    | _ => inl (-1)
    end
  else if code =? DHCP_OPT_MASK then inr (seen, if (llen v =? 4) && contiguous_mask word then set_offer_netmask word o else o)
  else if code =? DHCP_OPT_ROUTER then inr (seen, if 4 <=? llen v then set_offer_gateway word o else o)
  else if code =? DHCP_OPT_DNS then inr (seen, if 4 <=? llen v then set_offer_dns word o else o)
  else if code =? DHCP_OPT_SERVER then inr (seen, if llen v =? 4 then set_offer_server word o else o)
  else if code =? DHCP_OPT_LEASE then inr (seen, if llen v =? 4 then set_offer_lease word o else o)
  else inr (seen, o).

(** The code/length/value reading of the option bytes: pads are skipped, an end
    marker or the end of the bytes stops, a value running past the end fails. *)
Fixpoint ref_options (k : nat) (l : list Z) (expected : Z) (seen : bool) (o : rix_dhcp_offer_t) : Z * rix_dhcp_offer_t :=
  match k, l with
  | O, _ | _, [] => parse_end seen o
  | S k, code :: l =>
      if code =? DHCP_OPT_PAD then ref_options k l expected seen o
      else if code =? DHCP_OPT_END then parse_end seen o
      else match l with
           | [] => (-1, o)
           | n :: l =>
               if llen l <? n then (-1, o)
               else match ref_case code (take (Z.to_nat n) l) expected seen o with
                    | inl rc => (rc, o)
                    | inr (seen, o) => ref_options k (drop (Z.to_nat n) l) expected seen o
                    end
           end
  end.

Definition ref_reply (l : list Z) (xid expected : Z) : option (Z * rix_dhcp_offer_t) :=
  if (244 <=? llen l) && (aget 0 l 0 =? RIX_DHCP_OP_REPLY) && (get_be32 l 4 =? xid)
     && bool_decide (take 4 (drop 236 l) = [99; 130; 83; 99]) && negb (get_be32 l 16 =? 0)
  then Some (ref_options (List.length l) (drop 240 l) expected false (fresh_offer (get_be32 l 16)))
  else None.

Lemma drop_step (l : list Z) i x r : 0 <= i -> drop (Z.to_nat i) l = x :: r -> aget 0 l i = x /\ drop (Z.to_nat (i + 1)) l = r /\ i < llen l.
Proof.
  intros Hi H. assert (Hx : l !! Z.to_nat i = Some x) by (rewrite <- (Nat.add_0_r (Z.to_nat i)), <- lookup_drop, H; done).
  split; [unfold aget; by rewrite Hx|]. split; [|apply lookup_lt_Some in Hx; lia].
  rewrite (Z.add_comm i 1). replace (Z.to_nat (1 + i)) with (S (Z.to_nat i)) by lia.
  apply drop_S in Hx. rewrite Hx in H. by injection H.
Qed.

Lemma be32_cut l i n : 0 <= i -> 4 <= n -> i + n <= llen l -> get_be32 (take (Z.to_nat n) (drop (Z.to_nat i) l)) 0 = get_be32 l i.
Proof.
  intros Hi Hn Hl. unfold get_be32. assert (E : forall k, 0 <= k < 4 -> aget 0 (take (Z.to_nat n) (drop (Z.to_nat i) l)) (0 + k) = aget 0 l (i + k)).
  { intros k Hk. unfold aget. rewrite lookup_take_lt, lookup_drop by lia. do 2 f_equal. lia. }
  pose proof (E 0 ltac:(lia)) as E0. change (0 + 0) with 0 in E0. rewrite E0, !E by lia. by rewrite Z.add_0_r.
Qed.

Lemma option_case_ref p i n code expected seen o :
  packet_wf p -> 0 <= i -> 0 <= n -> i + n <= length p ->
  option_case (bytes p) (start p + i) code n expected seen o
  = ref_case code (take (Z.to_nat n) (drop (Z.to_nat i) (contents p))) expected seen o.
Proof.
  intros Hwf Hi Hn Hl. pose proof (length_contents p Hwf) as Hlc. set (v := take _ _).
  assert (Hv : llen v = n) by (unfold v; rewrite length_take, length_drop; lia).
  assert (Hw : 4 <= n -> get_be32 (bytes p) (start p + i) = get_be32 v 0).
  { intros. unfold v. rewrite be32_cut by lia. apply read_be32; lia. }
  assert (Ht : n = 1 -> v = [aget 0 (bytes p) (start p + i)]).
  { intros ->. rewrite read_byte by lia. destruct v as [|t [|]] eqn:Ev; cbn [List.length] in Hv; try lia. f_equal. unfold aget.
    assert (Hx : v !! 0%nat = Some t) by (by rewrite Ev). unfold v in Hx. rewrite lookup_take_lt, lookup_drop, Nat.add_0_r in Hx by lia. by rewrite Hx. }
  unfold option_case, ref_case. rewrite Hv. clearbody v. destruct (code =? DHCP_OPT_MSGTYPE).
  { destruct (n =? 1) eqn:E1; bool_to_prop; cbn [negb]; [rewrite Ht by done; by destruct (_ =? expected)|].
    destruct v as [|t [|t2 r]]; cbn [List.length] in Hv; [done|lia|done]. }
  destruct (code =? DHCP_OPT_MASK); [destruct (n =? 4) eqn:E4; bool_to_prop; cbn [andb]; [by rewrite Hw by lia|done]|].
  destruct (code =? DHCP_OPT_ROUTER); [destruct (4 <=? n) eqn:E4; bool_to_prop; [by rewrite Hw by lia|done]|].
  destruct (code =? DHCP_OPT_DNS); [destruct (4 <=? n) eqn:E4; bool_to_prop; [by rewrite Hw by lia|done]|].
  destruct (code =? DHCP_OPT_SERVER); [destruct (n =? 4) eqn:E4; bool_to_prop; [by rewrite Hw by lia|done]|].
  destruct (code =? DHCP_OPT_LEASE); [destruct (n =? 4) eqn:E4; bool_to_prop; [by rewrite Hw by lia|done]|]. done.
Qed.

(** The offset loop reads the frame as the list parser reads its bytes. *)
Lemma parse_loop_ref p expected k : packet_wf p -> forall i seen o, 0 <= i ->
  parse_loop k (bytes p) (start p) (length p) i expected seen o
  = ref_options k (drop (Z.to_nat i) (contents p)) expected seen o.
Proof.
  intros Hwf. pose proof (length_contents p Hwf) as Hlc. pose proof Hwf as (_ & _ & Hl0 & _). induction k as [|k IH]; intros i seen o Hi.
  { cbn [parse_loop ref_options]. by destruct (negb _). }
  cbn [parse_loop]. destruct (drop (Z.to_nat i) (contents p)) as [|c r] eqn:Ed.
  { assert (length p <= i) by (apply (f_equal List.length) in Ed; rewrite length_drop in Ed; cbn in Ed; lia).
    destruct (i <? length p) eqn:E; bool_to_prop; [lia|done]. }
  destruct (drop_step _ _ _ _ Hi Ed) as (Hc & Hr & Hlt).
  destruct (i <? length p) eqn:E; bool_to_prop; [|lia]. cbn [negb ref_options].
  rewrite read_byte, Hc by lia. destruct (c =? DHCP_OPT_PAD); [by rewrite IH, Hr by lia|]. destruct (c =? DHCP_OPT_END); [done|].
  destruct r as [|n r].
  { assert (length p <= i + 1) by (apply (f_equal List.length) in Hr; rewrite length_drop in Hr; cbn in Hr; lia).
    destruct (length p <=? i + 1) eqn:E2; bool_to_prop; [done|lia]. }
  destruct (drop_step (contents p) (i + 1) n r ltac:(lia) Hr) as (Hn & Hr' & Hlt'). destruct (length p <=? i + 1) eqn:E2; bool_to_prop; [lia|].
  rewrite read_byte, Hn by lia. assert (Hlr : llen r = length p - (i + 1 + 1)) by (rewrite <- Hr', length_drop; lia). rewrite Hlr.
  destruct (_ <? n) eqn:E3; bool_to_prop; [done|].
  assert (Hn0 : 0 <= n) by (pose proof (aget_u8 (contents p) (i + 1) (contents_u8 p Hwf)) as Hu; rewrite Hn in Hu; apply Hu).
  rewrite option_case_ref, Hr' by (done || lia). destruct (ref_case _ _ _ _ _) as [rc|[seen' o']]; [done|].
  rewrite IH by lia. f_equal. rewrite <- Hr', drop_drop. f_equal. lia.
Qed.

(** The magic cookie test. *)
Lemma magic_bytes p : packet_wf p -> 244 <= length p ->
  negb (aget 0 (bytes p) (start p + 236) =? 99) || negb (aget 0 (bytes p) (start p + 237) =? 130)
    || negb (aget 0 (bytes p) (start p + 238) =? 83) || negb (aget 0 (bytes p) (start p + 239) =? 99)
  = negb (bool_decide (take 4 (drop 236 (contents p)) = [99; 130; 83; 99])).
Proof.
  intros Hwf Hl. pose proof (length_contents p Hwf) as Hlc. rewrite !read_byte by lia.
  assert (Hd : exists a b c d r, drop 236 (contents p) = a :: b :: c :: d :: r).
  { assert (Hlen : (4 <= List.length (drop 236 (contents p)))%nat) by (rewrite length_drop; lia).
    destruct (drop 236 (contents p)) as [|a [|b [|c [|d r]]]]; cbn in Hlen; try lia. by exists a, b, c, d, r. }
  destruct Hd as (a & b & c & d & r & Hd). rewrite Hd. cbn [take].
  destruct (drop_step _ 236 _ _ ltac:(lia) Hd) as (-> & H1 & _). destruct (drop_step _ 237 _ _ ltac:(lia) H1) as (-> & H2 & _).
  destruct (drop_step _ 238 _ _ ltac:(lia) H2) as (-> & H3 & _). destruct (drop_step _ 239 _ _ ltac:(lia) H3) as (-> & _ & _).
  destruct (a =? 99) eqn:Ea, (b =? 130) eqn:Eb, (c =? 83) eqn:Ec, (d =? 99) eqn:Ee; bool_to_prop; subst; cbn [negb orb];
    (case_bool_decide as Hx; [try (injection Hx as ?; lia)|]); done || (exfalso; apply Hx; congruence) || (injection Hx; lia).
Qed.

(** The reply parser is the textbook one. On a well-formed packet the
    offset-driven loop gives the result of reading the frame's bytes as a list of
    code/length/value options, for every message type and on every error; in
    particular nothing outside the frame influences it and it terminates. *)
Theorem dhcp_parse_reference p xid expected o0 (Hwf : packet_wf p) (Hxid : xid ≠ 0) :
  match ref_reply (contents p) xid expected with
  | Some (rc, o) => rix_net_dhcp_parse_reply (Some p) xid expected (Some o0) = (rc, Some o)
  | None => fst (rix_net_dhcp_parse_reply (Some p) xid expected (Some o0)) = -1
  end.
Proof.
  pose proof (length_contents p Hwf) as Hlc. unfold rix_net_dhcp_parse_reply, ref_reply. rewrite truthy_true by done.
  cbn [negb rix_net_packet_length]. rewrite Hlc. destruct (length p <? 244) eqn:E0; bool_to_prop.
  { destruct (244 <=? length p) eqn:E; bool_to_prop; [lia|done]. }
  destruct (244 <=? length p) eqn:E1; bool_to_prop; [|lia]. cbn [andb]. rewrite data_ok by done. cbv zeta.
  rewrite (magic_bytes p Hwf E1). rewrite !read_be32, (read_byte p 0) by lia.
  destruct (aget 0 (contents p) 0 =? RIX_DHCP_OP_REPLY); cbn [negb andb]; [|done].
  destruct (get_be32 (contents p) 4 =? xid); cbn [negb andb]; [|done].
  destruct (bool_decide _); cbn [negb andb]; [|done].
  destruct (get_be32 (contents p) 16 =? 0); cbn [negb]; [done|].
  rewrite parse_loop_ref by (done || lia). rewrite <- Hlc, Nat2Z.id. change (Z.to_nat 240) with 240%nat.
  by destruct (ref_options _ _ _ _ _) as [rc o].
Qed.

(** ** Netmasks *)

(** [x & (x + 1)] is zero exactly for a block of low ones. *)
Lemma low_ones_block x : 0 <= x < 2 ^ 32 -> Z.land x (x + 1) = 0 <-> exists k, 0 <= k <= 32 /\ x = 2 ^ k - 1.
Proof.
  intros Hx. split.
  - intros Hl. assert (Hz : exists k, 0 <= k <= 32 /\ Z.testbit x k = false /\ forall j, 0 <= j < k -> Z.testbit x j = true).
    { assert (G : forall n, exists k, 0 <= k <= Z.of_nat n /\ (k = Z.of_nat n \/ Z.testbit x k = false) /\ forall j, 0 <= j < k -> Z.testbit x j = true).
      { induction n as [|n (k & Hk & Hor & Hj)]; [exists 0; split; [lia|split; [by left|lia]]|].
        destruct (Z.testbit x k) eqn:Ek; [|exists k; split; [lia|split; [by right|done]]].
        destruct Hor as [->|?]; [|congruence]. exists (Z.of_nat (S n)). split; [lia|]. split; [by left|]. intros j Hjn.
        destruct (decide (j = Z.of_nat n)) as [->|]; [done|]. apply Hj. lia. }
      destruct (G 32%nat) as (k & Hk & Hor & Hj). exists k. split; [lia|]. split; [|done].
      destruct Hor as [->|?]; [|done]. change (Z.of_nat 32) with 32. by apply (testbit_high x 32). }
    destruct Hz as (k & Hk & Hbit & Hlow). exists k. split; [done|].
    set (y := x / 2 ^ (k + 1)). assert (Hmod : x mod 2 ^ (k + 1) = 2 ^ k - 1).
    { change (2 ^ k - 1) with (Z.pred (2 ^ k)). rewrite <- Z.ones_equiv. apply Z.bits_inj'. intros n Hn. destruct (decide (n < k)).
      - rewrite Z.mod_pow2_bits_low, Z.ones_spec_low by lia. apply Hlow. lia.
      - rewrite Z.ones_spec_high by lia. destruct (decide (n = k)) as [->|]; [by rewrite Z.mod_pow2_bits_low by lia|]. by rewrite Z.mod_pow2_bits_high by lia. }
    pose proof (Z.div_mod x (2 ^ (k + 1)) ltac:(lia)) as Hdm. fold y in Hdm. rewrite Hmod in Hdm.
    assert (H2 : 2 ^ (k + 1) = 2 * 2 ^ k) by (rewrite Z.pow_add_r by lia; lia). pose proof (Z.pow_pos_nonneg 2 k ltac:(lia) ltac:(lia)) as Hp.
    assert (Hy : (x + 1) / 2 ^ (k + 1) = y).
    { symmetry. apply (Z.div_unique _ _ _ (2 ^ k)); [left; lia|]. lia. }
    assert (y = 0) as Hy0; [|rewrite Hy0 in Hdm; lia]. destruct (decide (y = 0)) as [|Hne]; [done|exfalso].
    assert (Hyr : 0 <= y < 2 ^ 32) by (unfold y; split; [apply Z.div_pos; lia|apply Z.div_lt_upper_bound; [lia|]; nia]).
    destruct (nonzero_has_bit y 32 Hyr Hne) as (j & Hj & Hb).
    assert (Hx1 : Z.testbit x (k + 1 + j) = true) by (rewrite <- Hb; unfold y; rewrite Z.div_pow2_bits by lia; f_equal; lia).
    assert (Hx2 : Z.testbit (x + 1) (k + 1 + j) = true) by (rewrite <- Hb, <- Hy; rewrite Z.div_pow2_bits by lia; f_equal; lia).
    assert (Z.testbit (Z.land x (x + 1)) (k + 1 + j) = true) as Hc by (by rewrite Z.land_spec, Hx1, Hx2). by rewrite Hl, Z.testbit_0_l in Hc.
  - intros (k & Hk & ->). replace (2 ^ k - 1 + 1) with (2 ^ k) by lia. change (2 ^ k - 1) with (Z.pred (2 ^ k)). rewrite <- Z.ones_equiv.
    apply Z.bits_inj'. intros n Hn. rewrite Z.land_spec, Z.bits_0. destruct (decide (n < k)).
    + rewrite Z.pow2_bits_false by lia. apply andb_false_r.
    + by rewrite Z.ones_spec_high by lia.
Qed.

Lemma not32_val m : is_u32 m -> not32 m = 2 ^ 32 - 1 - m.
Proof.
  intros Hm. unfold not32, u32, Z.lnot, is_u32 in *. replace (Z.pred (- m)) with (2 ^ 32 - 1 - m + (-1) * 2 ^ 32) by lia.
  rewrite Z.mod_add by lia. apply Z.mod_small. lia.
Qed.

Lemma contiguous_mask_spec m : is_u32 m -> contiguous_mask m = true <-> exists k, 0 <= k < 32 /\ m = 2 ^ 32 - 2 ^ k.
Proof.
  intros Hm. unfold contiguous_mask. rewrite not32_val by done. unfold is_u32 in Hm. destruct (decide (m = 0)) as [->|Hne].
  - cbn [truthy Z.eqb negb]. split; [done|]. intros (k & Hk & E). assert (2 ^ k < 2 ^ 32) by (apply Z.pow_lt_mono_r; lia). lia.
  - rewrite truthy_true by done. cbn [negb]. rewrite u32_id by (unfold is_u32; lia). rewrite Z.eqb_eq, low_ones_block by lia.
    split; intros (k & Hk & E).
    + exists k. assert (k <> 32) by (intros ->; lia). split; [lia|]. lia.
    + exists k. split; [lia|]. lia.
Qed.

(** ** What a completed exchange leaves behind *)

Definition valid_mask (m : Z) : Prop := exists k, 0 <= k < 32 /\ m = 2 ^ 32 - 2 ^ k.

Definition offer_ok (o : rix_dhcp_offer_t) : Prop := has_netmask o = true -> valid_mask (o_netmask o).

Lemma get_be32_u32 l i : Forall is_u8 l -> is_u32 (get_be32 l i).
Proof.
  intros Hl. unfold get_be32. rewrite join32 by (by apply aget_u8).
  pose proof (aget_u8 l i Hl). pose proof (aget_u8 l (i + 1) Hl). pose proof (aget_u8 l (i + 2) Hl). pose proof (aget_u8 l (i + 3) Hl).
  unfold is_u8, is_u32 in *. lia.
Qed.

Lemma option_case_ok b off code len expected seen o seen' o' :
  Forall is_u8 b -> option_case b off code len expected seen o = inr (seen', o') ->
  offer_ok o -> offer_ok o' /\ o_address o' = o_address o.
Proof.
  intros Hb E Ho. unfold option_case in E.
  repeat case_if; try discriminate E; injection E as <- <-; try (split; [exact Ho|reflexivity]).
  split; [|reflexivity]. intros _. cbn [set_offer_netmask o_netmask]. apply contiguous_mask_spec; [by apply get_be32_u32|done].
Qed.

Lemma parse_loop_ok b base len expected k : Forall is_u8 b -> forall offset seen o,
  offer_ok o -> let '(rc, o') := parse_loop k b base len offset expected seen o in offer_ok o' /\ o_address o' = o_address o.
Proof.
  intros Hb. induction k as [|k IH]; intros offset seen o Ho; cbn [parse_loop]; destruct (negb (offset <? len)); [done..|].
  cbv zeta. destruct (_ =? DHCP_OPT_PAD); [by apply IH|]. destruct (_ =? DHCP_OPT_END); [done|]. destruct (len <=? _); [done|].
  destruct (_ <? _); [done|].
  destruct (option_case _ _ _ _ _ _ _) as [rc|[seen' o']] eqn:E; [done|].
  destruct (option_case_ok _ _ _ _ _ _ _ _ _ Hb E Ho) as [Ho' <-]. by apply IH.
Qed.

Lemma parse_reply_ok p xid expected o :
  Forall is_u8 (bytes p) -> offer_ok o ->
  let '(rc, o') := rix_net_dhcp_parse_reply (Some p) xid expected (Some o) in
  offer_ok (default o o') /\ (rc = 0 -> o_address (default o o') <> 0).
Proof.
  intros Hb Ho. unfold rix_net_dhcp_parse_reply. case_if; [done|]. cbv zeta. case_if; [done|]. destruct (rix_net_packet_data p) as [base|]; [|done].
  repeat (case_if; [done|]).
  match goal with H : get_be32 _ _ <> 0 |- _ => rename H into Hne end.
  pose proof (parse_loop_ok (bytes p) base (rix_net_packet_length (Some p)) expected (Z.to_nat (rix_net_packet_length (Some p))) Hb 240 false
    (fresh_offer (get_be32 (bytes p) (base + 16)))) as Hloop.
  destruct (parse_loop _ _ _ _ _ _ _ _) as [rc o']. destruct Hloop as [Hok Haddr]; [done|]. change (default o (Some o')) with o'. split; [done|].
  intros _. by rewrite Haddr.
Qed.

(** Pulling headers moves the bounds of a packet and leaves its bytes. *)
Definition same_bytes (p : rix_net_packet_t) (q : option rix_net_packet_t) : Prop := exists p', q = Some p' /\ bytes p' = bytes p.

Lemma eth_pull_bytes p h : same_bytes p (snd (rix_net_eth_pull (Some p) h)).
Proof. unfold rix_net_eth_pull, rix_net_packet_pull. repeat (case_if || case_match); simplify_eq; by eexists. Qed.

Lemma ipv4_pull_bytes p h : same_bytes p (snd (rix_net_ipv4_pull (Some p) h)).
Proof. unfold rix_net_ipv4_pull, rix_net_packet_pull. repeat (case_if || case_match); simplify_eq; by eexists. Qed.

Lemma udp_pull_bytes p s d h : same_bytes p (snd (rix_net_udp_pull (Some p) s d h)).
Proof. unfold rix_net_udp_pull, rix_net_packet_pull. repeat (case_if || case_match); simplify_eq; by eexists. Qed.

Section ExchangeProofs.
Context {W : Type} `{!Nic W, !NicLaws W} (n : net_device).

(** A poll keeps the offer's netmask contiguous, and a reply it reports
    carries an address. *)
Lemma poll_once_ok xid expected offer stats w :
  offer_ok offer ->
  let '(found, offer', _, _) := dhcp_poll_once n xid expected offer stats w in
  offer_ok offer' /\ (0 < found -> o_address offer' <> 0).
Proof.
  intros Ho. unfold dhcp_poll_once. destruct (negb (truthy xid)); [split; [done|lia]|].
  cbn [rix_net_packet_init fmap option_fmap option_map]. set (p0 := set_bounds _ _ stack_packet).
  assert (Hp0 : packet_wf p0).
  { repeat split; cbn; rewrite ?capacity_val; unfold RIX_NET_HEADROOM; try lia; by repeat constructor. }
  pose proof (receive_frame p0 n w Hp0) as Hr. destruct (rix_net_device_receive (Some p0) n w) as [[r q] w'].
  destruct Hr as (q' & -> & Hq & _). destruct (r <? 0); [split; [done|lia]|]. destruct (r =? 0); [split; [done|lia]|]. cbv zeta.
  pose proof (eth_pull_bytes q' (Some stack_eth)) as He.
  destruct (rix_net_eth_pull (Some q') _) as [[[|?|?] [eth|]] f1]; try (split; [done|lia]). cbn [snd] in He. destruct He as (q1 & -> & Hb1).
  destruct (negb (_ =? _)); [split; [done|lia]|].
  pose proof (ipv4_pull_bytes q1 (Some stack_ip)) as Hi.
  destruct (rix_net_ipv4_pull (Some q1) _) as [[[|?|?] [ip|]] f2]; try (split; [done|lia]). cbn [snd] in Hi. destruct Hi as (q2 & -> & Hb2).
  destruct (negb (_ =? _)); [split; [done|lia]|].
  pose proof (udp_pull_bytes q2 (source ip) (destination ip) (Some stack_udp)) as Hu.
  destruct (rix_net_udp_pull (Some q2) _ _ _) as [[[|?|?] [udp|]] f3]; try (split; [done|lia]). cbn [snd] in Hu. destruct Hu as (q3 & -> & Hb3).
  destruct (_ || _); [split; [done|lia]|]. cbn [fst snd].
  assert (Hu8 : Forall is_u8 (bytes q3)) by (rewrite Hb3, Hb2, Hb1; apply Hq).
  pose proof (parse_reply_ok q3 xid expected offer Hu8 Ho) as Hp.
  destruct (rix_net_dhcp_parse_reply _ _ _ _) as [rc o']. destruct Hp as [Hok Haddr]. destruct (truthy rc) eqn:Et; (split; [done|]); [lia|].
  intros _. apply Haddr. unfold truthy in Et. by apply negb_false_iff, Z.eqb_eq in Et.
Qed.

Lemma discover_polls_ok xid offer w :
  offer_ok offer -> match discover_polls n xid offer w with inl (rc, _) => rc = -1 | inr (offer', _) => offer_ok offer' end.
Proof.
  intros Ho. unfold discover_polls.
  match goal with |- match match for_ ?lo ?k ?body ?s with _ => _ end with _ => _ end =>
    pose proof (for_inv (fun _ '(o, _, _) => offer_ok o) (fun r => match r with inl (rc, _) => rc = -1 | inr (o, _) => offer_ok o end)
      lo k body s) as H; destruct (for_ lo k body s) as [[[o' st] w']|r]; (apply H; [done|done|]) end.
  all: intros i [[o st'] w1] _ Hi; pose proof (poll_once_ok xid RIX_DHCP_MSG_OFFER o st' w1 Hi) as Hp;
    destruct (dhcp_poll_once _ _ _ _ _ _) as [[[found o2] st2] w2]; destruct (found <? 0); [done|]; destruct (truthy found); apply Hp.
Qed.

(** Leaving the discover rounds with an offer means a contiguous netmask;
    running out of rounds leaves no address. *)
Lemma discover_rounds_ok xid m w :
  match for_ 0 RIX_DHCP_ROUNDS (fun _ => discover_round n xid m) (fresh_offer 0, w) with
  | inl (o, _) => o_address o = 0
  | inr (inl (rc, _)) => rc = -1
  | inr (inr (o, _)) => valid_mask (o_netmask o)
  end.
Proof.
  match goal with |- match for_ ?lo ?k ?body ?s with _ => _ end =>
    pose proof (for_inv (fun _ '(o, _) => o_address o = 0 /\ offer_ok o)
      (fun r => match r with inl (rc, _) => rc = -1 | inr (o, _) => valid_mask (o_netmask o) end) lo k body s) as H;
    destruct (for_ lo k body s) as [[o' w']|r]; (apply H; [done|done|]) end.
  all: intros i [o w1] _ [Ha Hi]; unfold discover_round;
    destruct (rix_net_dhcp_build_discover _ _ _) as [[|?|?] [d|]]; try done;
    destruct (dhcp_transmit n d m w1) as [rc w2]; destruct (rc <? 0); [done|];
    pose proof (discover_polls_ok xid o w2 Hi) as Hp; destruct (discover_polls _ _ _ _) as [[rc' w3]|[o3 w3]]; [done|];
    destruct (truthy (o_address o3) && has_netmask o3) eqn:E; [apply andb_prop in E as [_ E]; by apply Hp|]; done.
Qed.

(** The interface as a successful exchange leaves it. *)
Definition configured (n' : net_device) : Prop :=
  address (device n') <> 0 /\ valid_mask (netmask (device n')) /\
  mac (device n') = mac (device n) /\ present (device n') = true /\ use_rtl8125 n' = use_rtl8125 n.

Lemma request_polls_ok xid offer w :
  valid_mask (o_netmask offer) ->
  match request_polls n xid offer w with inl _ => True | inr (rc, n', _) => rc = 0 /\ configured n' \/ rc = -1 /\ n' = n end.
Proof.
  intros Hm. unfold request_polls.
  match goal with |- match match for_ ?lo ?k ?body ?s with _ => _ end with _ => _ end =>
    pose proof (for_inv (fun _ _ => True) (fun '(rc, n', _) => rc = 0 /\ configured n' \/ rc = -1 /\ n' = n) lo k body s) as H;
    destruct (for_ lo k body s) as [[st w']|r]; [done|apply H; [done|done|]] end.
  intros i [st w1] _ _. pose proof (poll_once_ok xid RIX_DHCP_MSG_ACK (fresh_offer 0) st w1 ltac:(done)) as Hp.
  destruct (dhcp_poll_once _ _ _ _ _ _) as [[[found ack] st2] w2]. destruct (found <? 0) eqn:E0; [by right|].
  destruct (truthy found) eqn:Et; [|done]. apply truthy_iff in Et. bool_to_prop. destruct Hp as [Hok Ha]. specialize (Ha ltac:(lia)).
  destruct (negb (_ =? _)); [done|]. cbv zeta.
  assert (Hv : valid_mask (if has_netmask ack then o_netmask ack else o_netmask offer)) by (destruct (has_netmask ack) eqn:E; [by apply Hok|done]).
  set (nm := if has_netmask ack then _ else _) in *. assert (Hnz : nm <> 0).
  { destruct Hv as (k & Hk & ->). assert (2 ^ k < 2 ^ 32) by (apply Z.pow_lt_mono_r; lia). lia. }
  unfold rix_net_device_configure. rewrite (truthy_true (o_address ack)), (truthy_true nm) by done.
  destruct (present (device n)) eqn:Ep; [|by right]. cbn. left. split; [done|]. by repeat split.
Qed.

Lemma request_rounds_ok xid m offer w :
  valid_mask (o_netmask offer) ->
  match for_ 0 RIX_DHCP_ROUNDS (fun _ => request_round n xid m offer) w with
  | inl _ => True
  | inr (rc, n', _) => rc = 0 /\ configured n' \/ rc = -1 /\ n' = n
  end.
Proof.
  intros Hm. match goal with |- match for_ ?lo ?k ?body ?s with _ => _ end =>
    pose proof (for_inv (fun _ _ => True) (fun '(rc, n', _) => rc = 0 /\ configured n' \/ rc = -1 /\ n' = n) lo k body s) as H;
    destruct (for_ lo k body s) as [w'|r]; [done|apply H; [done|done|]] end.
  intros i w1 _ _. unfold request_round. destruct (rix_net_dhcp_build_request_for_server _ _ _ _ _) as [[|?|?] [d|]]; try by right.
  destruct (dhcp_transmit n d m w1) as [rc w2]. destruct (rc <? 0); [by right|]. by apply request_polls_ok.
Qed.

Lemma dhcp_run_cases xid w :
  let '(rc, _, n', _) := rix_net_dhcp_run n xid w in rc = 0 /\ configured n' \/ rc = -1 /\ n' = n.
Proof.
  unfold rix_net_dhcp_run. destruct (rix_net_device_info n) as [info|]; [|by right]. destruct (if xid =? 0 then _ else _) as [current xid'].
  pose proof (discover_rounds_ok current (mac info) w) as Hd. cbv zeta.
  destruct (for_ _ _ _ _) as [[o w1]|[[rc w1]|[o w1]]].
  - rewrite Hd. by right.
  - subst rc. by right.
  - destruct (o_address o =? 0); [by right|]. pose proof (request_rounds_ok current (mac info) o w1 Hd) as Hr.
    by destruct (for_ _ _ _ _) as [w2|[[rc n'] w2]]; [right|].
Qed.
End ExchangeProofs.

(** The exchange either fails and leaves the interface as it was, or it
    succeeds and the interface has a non-zero address and a contiguous netmask,
    with its hardware address and controller unchanged: whatever frames arrive,
    malformed ones included. *)
Theorem dhcp_run_configures {W} `{!Nic W, !NicLaws W} n xid w :
  let '(rc, _, n', _) := rix_net_dhcp_run n xid w in
  rc = 0 ∧ configured n n' ∨ rc = -1 ∧ n' = n.
Proof. exact (dhcp_run_cases n xid w). Qed.

(** A controller that delivers a list of frames. *)
Module Scripted.
Definition script := list (list Z).

Definition deliver (room : Z) (w : script) : Z * list Z * script :=
  match w with
  | [] => (0, [], [])
  | f :: w => if bool_decide (Forall is_u8 f) && (llen f <=? room) then (1, f, w) else (0, [], w)
  end.

#[global] Instance scripted_nic : Nic script := {|
  rix_e1000_default := fun _ => Some {| ctl_link_up := true; ctl_mac := [2; 0; 0; 0; 0; 1] |};
  rix_rtl8125_default := fun _ => None;
  rix_e1000_transmit := fun _ _ w => (0, w);
  rix_rtl8125_transmit := fun _ _ w => (0, w);
  rix_e1000_receive := deliver;
  rix_rtl8125_receive := deliver |}.

Lemma deliver_fits room w r data w' : 0 <= room -> deliver room w = (r, data, w') -> Forall is_u8 data /\ llen data <= room.
Proof.
  intros Hr E. destruct w as [|f w]; cbn in E; [simplify_eq; cbn; split; [constructor|lia]|].
  destruct (_ && _) eqn:Ef; simplify_eq; [|cbn; split; [constructor|lia]].
  apply andb_prop in Ef as [E1 E2]. apply bool_decide_eq_true in E1. bool_to_prop. done.
Qed.

#[global] Instance scripted_laws : NicLaws script.
Proof. split; intros room w r data w' Hr E; exact (deliver_fits room w r data w' Hr E). Qed.

(** A server's reply of the given type, framed for the wire. *)
Definition reply (type xid yiaddr : Z) : list Z :=
  let p := {| bytes := replicate (Z.to_nat RIX_NET_FRAME_CAPACITY) 0; start := RIX_NET_HEADROOM; length := 0 |} in
  let '(_, p) := dhcp_header p RIX_DHCP_OP_REPLY xid [2; 0; 0; 0; 0; 1] in
  let p := set_bytes (put_be32 (bytes p) (start p + 16) yiaddr) p in
  let '(_, p) := dhcp_option p DHCP_OPT_MSGTYPE [type] 1 in
  let '(_, p) := dhcp_option p DHCP_OPT_MASK [255; 255; 255; 0] 4 in
  let '(_, p) := dhcp_option p DHCP_OPT_SERVER [10; 0; 2; 2] 4 in
  let '(_, p) := dhcp_pad p in
  let '(_, p) := rix_net_udp_push (Some p) 0x0a000202 0xffffffff RIX_DHCP_SERVER_PORT RIX_DHCP_CLIENT_PORT (Some []) 0 in
  let '(_, p) := rix_net_ipv4_push p 0x0a000202 0xffffffff RIX_NET_IP_PROTO_UDP 64 0 0 in
  let '(_, p) := rix_net_eth_push p (Some [2; 0; 0; 0; 0; 1]) (Some [2; 0; 0; 0; 0; 9]) RIX_NET_ETHERTYPE_IPV4 in
  match p with Some p => contents p | None => [] end.

Definition card : net_device := snd (rix_net_device_init ([] : script)).
Definition server : script := [[1; 2; 3]; reply RIX_DHCP_MSG_OFFER 7 0x0a00022a; reply RIX_DHCP_MSG_ACK 7 0x0a00022a].
End Scripted.

Lemma dhcp_run_configures_witness :
  fst (fst (fst (rix_net_dhcp_run Scripted.card 7 Scripted.server))) = 0 ∧
  configured Scripted.card (snd (fst (rix_net_dhcp_run Scripted.card 7 Scripted.server))).
Proof.
  pose proof (dhcp_run_configures Scripted.card 7 Scripted.server) as H.
  assert (E : fst (fst (fst (rix_net_dhcp_run Scripted.card 7 Scripted.server))) = 0) by (vm_compute; reflexivity).
  split; [exact E|]. destruct (rix_net_dhcp_run _ _ _) as [[[rc x] n'] w]. cbn [fst snd] in *. subst rc.
  destruct H as [[_ H]|[H _]]; [exact H|discriminate].
Defined.

Definition offer_packet : rix_net_packet_t :=
  let p := {| bytes := replicate (Z.to_nat RIX_NET_FRAME_CAPACITY) 0; start := RIX_NET_HEADROOM; length := 0 |} in
  let '(_, p) := dhcp_header p RIX_DHCP_OP_REPLY 7 [2; 0; 0; 0; 0; 1] in
  let p := set_bytes (put_be32 (bytes p) (start p + 16) 0x0a00022a) p in
  let '(_, p) := dhcp_option p DHCP_OPT_MSGTYPE [RIX_DHCP_MSG_OFFER] 1 in
  let '(_, p) := dhcp_option p DHCP_OPT_ROUTER [10; 0; 2; 2] 4 in
  p.

Lemma dhcp_parse_reference_witness :
  packet_wf offer_packet ∧
  rix_net_dhcp_parse_reply (Some offer_packet) 7 RIX_DHCP_MSG_OFFER (Some (fresh_offer 0))
  = (0, Some (set_offer_gateway 0x0a000202 (fresh_offer 0x0a00022a))).
Proof.
  assert (Hwf : packet_wf offer_packet).
  { split; [vm_compute; reflexivity|]. split; [vm_compute; discriminate|]. split; [vm_compute; discriminate|].
    split; [vm_compute; discriminate|]. apply (bool_decide_unpack _). vm_compute. exact I. }
  split; [exact Hwf|].
  pose proof (dhcp_parse_reference offer_packet 7 RIX_DHCP_MSG_OFFER (fresh_offer 0) Hwf ltac:(lia)) as H.
  assert (E : ref_reply (contents offer_packet) 7 RIX_DHCP_MSG_OFFER = Some (0, set_offer_gateway 0x0a000202 (fresh_offer 0x0a00022a)))
    by (vm_compute; reflexivity).
  rewrite E in H. exact H.
Defined.

(** The discover message with transaction identifier 16082 from 02:00:00:00:00:01,
    as [dhcp_udp_push] puts it in a datagram. *)
Definition discover_16082 : rix_net_packet_t :=
  match rix_net_dhcp_build_discover (rix_net_packet_init (Some stack_packet)) 16082 (Some [2; 0; 0; 0; 0; 1]) with
  | (_, Some p) => snd (dhcp_udp_push p)
  | _ => stack_packet
  end.

(** The checksum of a DHCP message is wrong when the sum comes out zero. The
    substitution of [0xffff] for zero is made in the low byte only, so this
    well-formed discover message goes out with checksum [0x00ff] and does not
    verify at a receiver; one with the next identifier does. *)
Theorem dhcp_zero_checksum_rejected :
  get_be16 (contents discover_16082) 6 = 0x00ff ∧
  ¬ udp_verifies 0 0xffffffff (contents discover_16082) ∧
  udp_verifies 0 0xffffffff
    (match rix_net_dhcp_build_discover (rix_net_packet_init (Some stack_packet)) 16083 (Some [2; 0; 0; 0; 0; 1]) with
     | (_, Some p) => contents (snd (dhcp_udp_push p))
     | _ => []
     end).
Proof. split; [vm_compute; reflexivity|]. split; [vm_compute; discriminate|vm_compute; reflexivity]. Qed.
