(* ===== verification/Ring.v ===== *)
(** * Ring queues of records

    The queues of the network code keep [count] entries of a fixed array from
    index [head] on, wrapping around. [ring] is the sequence such a queue holds. *)
From stdpp Require Import base tactics list numbers.
From S2P Require Import Prelude.

Section Ring.
Context {A : Type} (cap : Z) (d : A).

Definition ring (l : list A) (h n : Z) : list A := (fun k => aget d l ((h + k) mod cap)) <$> seqZ 0 n.

Lemma length_ring l h n : 0 <= n -> Z.of_nat (length (ring l h n)) = n.
Proof. intros Hn. unfold ring. rewrite length_fmap, length_seqZ. lia. Qed.

Lemma ring_empty l h : ring l h 0 = [].
Proof. done. Qed.

(** Taking from the front. *)
Lemma ring_pop l h n : 0 <= h < cap -> 0 < n -> ring l h n = aget d l h :: ring l ((h + 1) mod cap) (n - 1).
Proof.
  intros Hh Hn. unfold ring. rewrite seqZ_cons by done. rewrite fmap_cons, Z.add_0_r, Z.mod_small by done. f_equal.
  rewrite <- Z.sub_1_r. change (Z.succ 0) with (1 + 0). rewrite <- fmap_add_seqZ, <- list_fmap_compose. apply list_fmap_ext. intros i k _. cbn.
  rewrite Zplus_mod_idemp_l. f_equal. f_equal. lia.
Qed.

Lemma ring_cells h n i : 0 <= i < n -> n < cap -> (h + n) mod cap <> (h + i) mod cap.
Proof.
  intros Hi Hn E. pose proof (Z.div_mod (h + n) cap ltac:(lia)). pose proof (Z.div_mod (h + i) cap ltac:(lia)).
  assert (Hq : n - i = cap * ((h + n) / cap - (h + i) / cap)) by lia.
  destruct (decide ((h + n) / cap - (h + i) / cap <= 0)); nia.
Qed.

(** Adding at the back. *)
Lemma ring_push l h n x :
  0 <= h < cap -> 0 <= n < cap -> Z.of_nat (length l) = cap ->
  ring (aset ((h + n) mod cap) x l) h (n + 1) = ring l h n ++ [x].
Proof.
  intros Hh Hn Hl. unfold ring. rewrite seqZ_app by lia. rewrite fmap_app. cbn -[Z.modulo]. f_equal.
  - apply list_fmap_ext. intros i k Hk%lookup_seqZ. destruct Hk as [-> Hk]. pose proof (Z.mod_pos_bound (h + n) cap ltac:(lia)).
    pose proof (Z.mod_pos_bound (h + (0 + Z.of_nat i)) cap ltac:(lia)). apply aget_aset_ne; [lia..|].
    apply ring_cells; lia.
  - pose proof (Z.mod_pos_bound (h + n) cap ltac:(lia)). rewrite Z.add_0_l. change (seqZ n 1) with [Z.of_nat 0 + n]. rewrite Z.add_0_l. cbn [fmap list_fmap]. f_equal. apply aget_aset_eq. lia.
Qed.

(** A cell outside the occupied part is not seen. *)
Lemma ring_beyond l h n x :
  0 <= h < cap -> 0 <= n < cap -> ring (aset ((h + n) mod cap) x l) h n = ring l h n.
Proof.
  intros Hh Hn. unfold ring. apply list_fmap_ext. intros i k Hk%lookup_seqZ. destruct Hk as [-> Hk].
  pose proof (Z.mod_pos_bound (h + n) cap ltac:(lia)). pose proof (Z.mod_pos_bound (h + (0 + Z.of_nat i)) cap ltac:(lia)). apply aget_aset_ne; [lia..|].
  apply ring_cells; lia.
Qed.

Lemma ring_Forall (P : A -> Prop) l h n : 0 < cap -> Z.of_nat (length l) = cap -> Forall P l -> Forall P (ring l h n).
Proof.
  intros Hc Hl HP. unfold ring. apply Forall_fmap, Forall_forall. intros k _. cbn. unfold aget.
  destruct (lookup_lt_is_Some_2 l (Z.to_nat ((h + k) mod cap))) as [x Hx].
  { pose proof (Z.mod_pos_bound (h + k) cap Hc). lia. }
  rewrite Hx. by eapply Forall_lookup_1.
Qed.
End Ring.

Lemma Forall_aset {A} (P : A -> Prop) i (x : A) l : Forall P l -> P x -> Forall P (aset i x l).
Proof. intros. by apply Forall_insert. Qed.

Lemma Forall_aget {A} (P : A -> Prop) (d : A) l i : Forall P l -> P d -> P (aget d l i).
Proof. intros HP Hd. unfold aget. destruct (l !! Z.to_nat i) eqn:E; [|done]. by eapply Forall_lookup_1. Qed.

Lemma aset_aget {A} (d : A) i l : 0 <= i < Z.of_nat (length l) -> aset i (aget d l i) l = l.
Proof.
  intros Hi. unfold aset, aget. destruct (lookup_lt_is_Some_2 l (Z.to_nat i)) as [x Hx]; [lia|]. rewrite Hx. by apply list_insert_id.
Qed.
