(* ===== verification/NetStack.v ===== *)
(** * The IPv4/IPv6 stack ([kernel/net/stack.h], [kernel/net/stack.c])

    One interface, the caches that resolve its neighbours, one packet waiting for
    an address, and two queues of received packets. The controller is the
    interface [Nic], the clock of [kernel/time] the interface [Clock]. The serial
    diagnostics, with the static counters only they read, have no other effect
    and are left out. *)
From stdpp Require Import base tactics list numbers.
From S2P Require Import Prelude Bytes NetPacket Ethernet Arp Ipv4 Ipv6 Device Ring.

Definition RIX_NET_RX_QUEUE : Z := 8.

Record rix_net_stack_t := {
  arp : rix_net_arp_cache_t; ipv6_neighbors : rix_net_ipv6_neighbor_cache_t; ipv6_routes : rix_net_ipv6_route_table_t;
  pending : rix_net_packet_t; pending_next_hop : Z; pending_valid : Z; pending_since_ns : Z;
  incoming : list rix_net_packet_t; incoming_head : Z; incoming_count : Z;
  incoming_ipv6 : list rix_net_packet_t; incoming_ipv6_head : Z; incoming_ipv6_count : Z;
  initialized : Z }.

#[global] Instance rix_net_stack_eta : Eta rix_net_stack_t := fun s =>
  Build_rix_net_stack_t (arp s) (ipv6_neighbors s) (ipv6_routes s) (pending s) (pending_next_hop s) (pending_valid s)
    (pending_since_ns s) (incoming s) (incoming_head s) (incoming_count s) (incoming_ipv6 s) (incoming_ipv6_head s)
    (incoming_ipv6_count s) (initialized s).

Definition with_arp x s : rix_net_stack_t := ltac:(upd s arp x).
Definition with_pending_packet x s : rix_net_stack_t := ltac:(upd s pending x).
Definition with_pending_next_hop x s : rix_net_stack_t := ltac:(upd s pending_next_hop x).
Definition with_pending_valid x s : rix_net_stack_t := ltac:(upd s pending_valid x).
Definition with_pending_since_ns x s : rix_net_stack_t := ltac:(upd s pending_since_ns x).
Definition with_incoming x s : rix_net_stack_t := ltac:(upd s incoming x).
Definition with_incoming_head x s : rix_net_stack_t := ltac:(upd s incoming_head x).
Definition with_incoming_count x s : rix_net_stack_t := ltac:(upd s incoming_count x).
Definition with_incoming_ipv6 x s : rix_net_stack_t := ltac:(upd s incoming_ipv6 x).
Definition with_incoming_ipv6_head x s : rix_net_stack_t := ltac:(upd s incoming_ipv6_head x).
Definition with_incoming_ipv6_count x s : rix_net_stack_t := ltac:(upd s incoming_ipv6_count x).

Class Clock (W : Type) := time_monotonic_ns : W -> Z.

Definition broadcast_mac : list Z := [0xff; 0xff; 0xff; 0xff; 0xff; 0xff].

(** Automatic header variables. *)
Definition stack_eth_header : rix_net_eth_header_t :=
  {| Ethernet.destination := replicate 6 0; Ethernet.source := replicate 6 0; ethertype := 0 |}.
Definition stack_arp_packet : rix_net_arp_packet_t :=
  {| hardware_type := 0; protocol_type := 0; hardware_length := 0; protocol_length := 0; operation := 0;
     sender_mac := replicate 6 0; sender_ip := 0; target_mac := replicate 6 0; target_ip := 0 |}.

Definition next_hop (info : rix_net_device_info_t) (destination : Z) : Z :=
  if Z.land destination (netmask info) =? Z.land (address info) (netmask info) then destination else gateway info.

Section Stack.
Context {W : Type} `{!Nic W, !Clock W}.

(** [x_push(...) != 0 || y_push(...) != 0]: the second runs when the first
    succeeded. *)
Definition and_then (r : Z * option rix_net_packet_t) (k : option rix_net_packet_t -> Z * option rix_net_packet_t)
  : Z * option rix_net_packet_t :=
  let '(rc, p) := r in if truthy rc then (-1, p) else k p.

(** An ARP message, framed and handed to the device. *)
Definition arp_frame (op : Z) (info : rix_net_device_info_t) (target_mac dst : list Z) (target : Z) : Z * option rix_net_packet_t :=
  and_then (rix_net_arp_push (rix_net_packet_init (Some stack_packet)) op (Some (Device.mac info)) (address info) (Some target_mac) target)
    (fun p => rix_net_eth_push p (Some dst) (Some (Device.mac info)) RIX_NET_ETHERTYPE_ARP).

Definition send_arp_request (info : rix_net_device_info_t) (target : Z) (n : net_device) (w : W) : Z * W :=
  let '(rc, packet) := arp_frame RIX_NET_ARP_REQUEST info (replicate 6 0) broadcast_mac target in
  if truthy rc then (-1, w)
  else let '(sent, w) := rix_net_device_transmit packet n w in (if sent <? 0 then -1 else 0, w).

(** The stack given is the one [default_stack] points to afterwards. *)
Definition rix_net_stack_init (stack : option rix_net_stack_t) (n : net_device) : Z * option rix_net_stack_t :=
  match stack, rix_net_device_info n with
  | Some s, Some _ =>
      let clear (p : rix_net_packet_t) := set_bounds RIX_NET_HEADROOM 0 p in
      (0, Some {| arp := invalidate <$> arp s;
                  ipv6_neighbors := default [] (rix_net_ipv6_neighbor_init (Some (ipv6_neighbors s)));
                  ipv6_routes := default [] (rix_net_ipv6_route_init (Some (ipv6_routes s)));
                  pending := clear (pending s); pending_next_hop := 0; pending_valid := 0; pending_since_ns := 0;
                  incoming := clear <$> incoming s; incoming_head := 0; incoming_count := 0;
                  incoming_ipv6 := clear <$> incoming_ipv6 s; incoming_ipv6_head := 0; incoming_ipv6_count := 0;
                  initialized := 1 |})
  | _, _ => (-1, stack)
  end.

(** [rix_net_eth_push(packet, mac, info->mac, type) != 0 ? -1 : transmit]: the
    packet the header went on, too. *)
Definition frame_and_send (packet : rix_net_packet_t) (mac : list Z) (info : rix_net_device_info_t) (ty : Z) (n : net_device) (w : W)
  : Z * rix_net_packet_t * W :=
  let '(rc, framed) := rix_net_eth_push (Some packet) (Some mac) (Some (Device.mac info)) ty in
  let packet := default packet framed in
  if truthy rc then (-1, packet, w)
  else let '(sent, w) := rix_net_device_transmit framed n w in (if sent <? 0 then -1 else 0, packet, w).

Definition rix_net_stack_send_ipv4 (stack : option rix_net_stack_t) (packet : option rix_net_packet_t) (destination_ip : Z)
    (n : net_device) (w : W) : Z * option rix_net_stack_t * option rix_net_packet_t * W :=
  match stack, packet, rix_net_device_info n with
  | Some s, Some p, Some info =>
      if negb (truthy (initialized s)) || negb (truthy (rix_net_packet_length packet)) || negb (truthy destination_ip) then (-1, stack, packet, w)
      else
        let hop := next_hop info destination_ip in
        match rix_net_arp_lookup (Some (arp s)) hop 0 true with
        | (0, Some mac) =>
            let '(rc, p, w) := frame_and_send p mac info RIX_NET_ETHERTYPE_IPV4 n w in (rc, stack, Some p, w)
        | _ =>
            if truthy (pending_valid s) then (-2, stack, packet, w)
            else
              let s := with_pending_packet p s in
              let s := with_pending_next_hop hop s in
              let s := with_pending_valid 1 s in
              let s := with_pending_since_ns (time_monotonic_ns w) s in
              let '(sent, w) := send_arp_request info hop n w in
              (if sent =? 0 then -2 else -3, Some s, packet, w)
        end
  | _, _, _ => (-1, stack, packet, w)
  end.

Definition rix_net_stack_send_ipv6 (stack : option rix_net_stack_t) (packet : option rix_net_packet_t) (destination : option (list Z))
    (n : net_device) (w : W) : Z * option rix_net_packet_t * W :=
  match stack, packet, destination, rix_net_device_info n with
  | Some s, Some p, Some d, Some info =>
      if negb (truthy (initialized s)) || negb (truthy (rix_net_packet_length packet)) then (-1, packet, w)
      else match rix_net_ipv6_route_lookup (Some (ipv6_routes s)) (Some d) (Some (replicate 16 0)) with
           | (0, Some hop) =>
               match rix_net_ipv6_neighbor_lookup (Some (ipv6_neighbors s)) (Some hop) (time_monotonic_ns w) (Some (replicate 6 0)) with
               | (0, Some mac) =>
                   let '(rc, p, w) := frame_and_send p mac info RIX_NET_ETHERTYPE_IPV6 n w in (rc, Some p, w)
               | _ => (-2, packet, w)
               end
           | _ => (-2, packet, w)
           end
  | _, _, _, _ => (-1, packet, w)
  end.

(** The reply to a request for the interface's own address. *)
Definition answer_request (info : rix_net_device_info_t) (a : rix_net_arp_packet_t) (n : net_device) (w : W) : Z * W :=
  if (operation a =? RIX_NET_ARP_REQUEST) && (target_ip a =? address info) then
    let '(rc, reply) := arp_frame RIX_NET_ARP_REPLY info (sender_mac a) (sender_mac a) (sender_ip a) in
    if truthy rc then (-1, w)
    else let '(sent, w) := rix_net_device_transmit reply n w in (if sent <? 0 then -1 else 0, w)
  else (0, w).

(** The packet that waited for the sender of the message. *)
Definition flush_pending (s : rix_net_stack_t) (a : rix_net_arp_packet_t) (now : Z) (info : rix_net_device_info_t) (n : net_device) (w : W)
  : Z * rix_net_stack_t * W :=
  if truthy (pending_valid s) && (sender_ip a =? pending_next_hop s) then
    match rix_net_arp_lookup (Some (arp s)) (pending_next_hop s) now true with
    | (0, Some mac) =>
        let '(rc, p, w) := frame_and_send (pending s) mac info RIX_NET_ETHERTYPE_IPV4 n w in
        let s := with_pending_packet p s in
        if truthy rc then (-1, s, w) else (0, with_pending_valid 0 s, w)
    | _ => (0, s, w)
    end
  else (0, s, w).

Definition handle_arp (s : rix_net_stack_t) (a : rix_net_arp_packet_t) (now : Z) (n : net_device) (w : W) : Z * rix_net_stack_t * W :=
  match rix_net_device_info n with
  | None => (-1, s, w)
  | Some info =>
      if sender_ip a =? 0 then (-1, s, w)
      else
        let '(learn_rc, cache) := rix_net_arp_learn (Some (arp s)) (sender_ip a) (Some (sender_mac a)) now 60 in
        let s := with_arp (default (arp s) cache) s in
        if truthy learn_rc then (-1, s, w)
        else
          let '(rc, w) := answer_request info a n w in
          if truthy rc then (-1, s, w) else flush_pending s a now info n w
  end.

Definition rix_net_stack_timer (stack : option rix_net_stack_t) (now : Z) (n : net_device) (w : W) : Z * option rix_net_stack_t * W :=
  match stack with
  | None => (-1, stack, w)
  | Some s =>
      if negb (truthy (initialized s)) then (-1, stack, w)
      else
        let s := with_arp (default (arp s) (snd (rix_net_arp_expire (Some (arp s)) now))) s in
        if truthy (pending_valid s) then
          let age_now := time_monotonic_ns w in
          let since := pending_since_ns s in
          if (since <=? age_now) && (1000000000 <=? age_now - since) then
            let s := with_pending_since_ns age_now s in
            match rix_net_device_info n with
            | Some retry_info => let '(_, w) := send_arp_request retry_info (pending_next_hop s) n w in (0, Some s, w)
            | None => (0, Some s, w)
            end
          else (0, Some s, w)
        else (0, Some s, w)
  end.

(** Storing a received packet: a full queue gives up its oldest. *)
Definition store_ipv4 (packet : rix_net_packet_t) (s : rix_net_stack_t) : rix_net_stack_t :=
  let s := if RIX_NET_RX_QUEUE <=? incoming_count s
           then with_incoming_count (incoming_count s - 1) (with_incoming_head (u64 (incoming_head s + 1) mod RIX_NET_RX_QUEUE) s)
           else s in
  let tail := u64 (incoming_head s + incoming_count s) mod RIX_NET_RX_QUEUE in
  with_incoming_count (u64 (incoming_count s + 1)) (with_incoming (aset tail packet (incoming s)) s).

Definition store_ipv6 (packet : rix_net_packet_t) (s : rix_net_stack_t) : rix_net_stack_t :=
  let s := if RIX_NET_RX_QUEUE <=? incoming_ipv6_count s
           then with_incoming_ipv6_count (incoming_ipv6_count s - 1)
                  (with_incoming_ipv6_head (u64 (incoming_ipv6_head s + 1) mod RIX_NET_RX_QUEUE) s)
           else s in
  let tail := u64 (incoming_ipv6_head s + incoming_ipv6_count s) mod RIX_NET_RX_QUEUE in
  with_incoming_ipv6_count (u64 (incoming_ipv6_count s + 1)) (with_incoming_ipv6 (aset tail packet (incoming_ipv6 s)) s).

(** What [rix_net_stack_poll] does with a frame. *)
Definition input_frame (s : rix_net_stack_t) (packet : rix_net_packet_t) (now : Z) (n : net_device) (w : W) : Z * rix_net_stack_t * W :=
  match rix_net_eth_pull (Some packet) (Some stack_eth_header) with
  | (0, Some ethernet, Some packet) =>
      if ethertype ethernet =? RIX_NET_ETHERTYPE_ARP then
        match rix_net_arp_pull (Some packet) (Some stack_arp_packet) with
        | (0, Some a, _) => let '(rc, s, w) := handle_arp s a now n w in (if rc =? 0 then 1 else -4, s, w)
        | _ => (-3, s, w)
        end
      else
        let s := if ethertype ethernet =? RIX_NET_ETHERTYPE_IPV4 then store_ipv4 packet s else s in
        let s := if ethertype ethernet =? RIX_NET_ETHERTYPE_IPV6 then store_ipv6 packet s else s in
        (1, s, w)
  | _ => (-2, s, w)
  end.

Definition rix_net_stack_poll (stack : option rix_net_stack_t) (now : Z) (n : net_device) (w : W) : Z * option rix_net_stack_t * W :=
  match rix_net_stack_timer stack now n w with
  | (0, Some s, w) =>
      let '(received, packet, w) := rix_net_device_receive (Some stack_packet) n w in
      if received <=? 0 then (received, Some s, w)
      else let '(rc, s, w) := input_frame s (default stack_packet packet) now n w in (rc, Some s, w)
  | (_, s, w) => (-1, s, w)
  end.

Definition rix_net_stack_take_ipv4 (stack : option rix_net_stack_t) (packet : option rix_net_packet_t)
  : Z * option rix_net_stack_t * option rix_net_packet_t :=
  match stack, packet with
  | Some s, Some p =>
      if negb (truthy (initialized s)) || negb (truthy (incoming_count s)) then (0, stack, packet)
      else (1, Some (with_incoming_count (incoming_count s - 1)
                       (with_incoming_head (u64 (incoming_head s + 1) mod RIX_NET_RX_QUEUE) s)),
            Some (aget p (incoming s) (incoming_head s)))
  | _, _ => (0, stack, packet)
  end.

Definition rix_net_stack_take_ipv6 (stack : option rix_net_stack_t) (packet : option rix_net_packet_t)
  : Z * option rix_net_stack_t * option rix_net_packet_t :=
  match stack, packet with
  | Some s, Some p =>
      if negb (truthy (initialized s)) || negb (truthy (incoming_ipv6_count s)) then (0, stack, packet)
      else (1, Some (with_incoming_ipv6_count (incoming_ipv6_count s - 1)
                       (with_incoming_ipv6_head (u64 (incoming_ipv6_head s + 1) mod RIX_NET_RX_QUEUE) s)),
            Some (aget p (incoming_ipv6 s) (incoming_ipv6_head s)))
  | _, _ => (0, stack, packet)
  end.
End Stack.

(** ** The queue of received packets *)

Lemma eth_pull_wf p hd hd' q : packet_wf p -> rix_net_eth_pull (Some p) (Some hd) = (0, hd', Some q) -> packet_wf q.
Proof.
  intros Hp. unfold rix_net_eth_pull. cbn [rix_net_packet_length]. case_if; [done|]. destruct (pull_ok p 14 Hp ltac:(lia)) as [-> Hw].
  case_if; [|done]. intros [= <- <-]. done.
Qed.

Lemma eth_pull_contents p hd hd' q : packet_wf p -> rix_net_eth_pull (Some p) (Some hd) = (0, hd', Some q) -> contents q = drop 14 (contents p).
Proof.
  intros Hp. unfold rix_net_eth_pull. cbn [rix_net_packet_length]. case_if; [done|]. destruct (pull_ok p 14 Hp ltac:(lia)) as [-> Hw].
  case_if; [|done]. intros [= <- <-]. by rewrite contents_drop by (done || lia).
Qed.

Record rx_ok (s : rix_net_stack_t) : Prop := {
  rx_length : llen (incoming s) = RIX_NET_RX_QUEUE;
  rx_head : 0 <= incoming_head s < RIX_NET_RX_QUEUE;
  rx_count : 0 <= incoming_count s <= RIX_NET_RX_QUEUE;
  rx_wf : Forall packet_wf (incoming s) }.

(** The IPv4 packets waiting, oldest first. *)
Definition rx (s : rix_net_stack_t) : list rix_net_packet_t := ring RIX_NET_RX_QUEUE stack_packet (incoming s) (incoming_head s) (incoming_count s).

(** What an arrival leaves of a full queue. *)
Definition make_room {A} (l : list A) : list A := if decide (llen l = RIX_NET_RX_QUEUE) then tail l else l.

Lemma rx_wf_all s : rx_ok s -> Forall packet_wf (rx s).
Proof. intros [H1 H2 H3 H4]. apply ring_Forall; done. Qed.

Lemma store_ipv4_spec p s : rx_ok s -> packet_wf p -> rx_ok (store_ipv4 p s) /\ rx (store_ipv4 p s) = make_room (rx s) ++ [p].
Proof.
  intros [H1 H2 H3 H4] Hp. pose proof (length_ring RIX_NET_RX_QUEUE stack_packet (incoming s) (incoming_head s) (incoming_count s) ltac:(lia)) as Hl.
  fold (rx s) in Hl. unfold make_room, store_ipv4. unfold RIX_NET_RX_QUEUE in *. case_if.
  - assert (Hc : incoming_count s = 8) by lia. rewrite decide_True by lia.
    cbn [incoming incoming_head incoming_count with_incoming with_incoming_head with_incoming_count]. rewrite Hc. change (8 - 1) with 7.
    rewrite (u64_id (incoming_head s + 1)) by (unfold is_u64; lia). pose proof (Z.mod_pos_bound (incoming_head s + 1) 8 ltac:(lia)) as Hm.
    set (h := (incoming_head s + 1) mod 8) in *. rewrite (u64_id (h + 7)), (u64_id (7 + 1)) by (unfold is_u64; lia). split.
    + split; cbn; unfold RIX_NET_RX_QUEUE; rewrite ?length_aset; try (done || lia). by apply Forall_aset.
    + unfold rx. cbn [incoming incoming_head incoming_count with_incoming with_incoming_head with_incoming_count]. unfold RIX_NET_RX_QUEUE.
      rewrite ring_push by lia. f_equal. rewrite Hc, (ring_pop _ _ _ (incoming_head s)) by lia. done.
  - rewrite decide_False by lia. rewrite !u64_id by (unfold is_u64; lia). split.
    + split; cbn; unfold RIX_NET_RX_QUEUE; rewrite ?length_aset; try (done || lia). by apply Forall_aset.
    + unfold rx. cbn [incoming incoming_head incoming_count with_incoming with_incoming_head with_incoming_count]. unfold RIX_NET_RX_QUEUE. by rewrite ring_push by lia.
Qed.

Lemma take_ipv4_spec s p :
  rx_ok s -> initialized s <> 0 ->
  match rx s with
  | [] => rix_net_stack_take_ipv4 (Some s) (Some p) = (0, Some s, Some p)
  | q :: rest => exists s', rix_net_stack_take_ipv4 (Some s) (Some p) = (1, Some s', Some q) /\ rx_ok s' /\ rx s' = rest /\ initialized s' = initialized s
  end.
Proof.
  intros [H1 H2 H3 H4] Hi. unfold rix_net_stack_take_ipv4, rx, truthy. unfold RIX_NET_RX_QUEUE in *. rewrite (proj2 (Z.eqb_neq (initialized s) 0)) by done. cbn [negb orb].
  destruct (incoming_count s =? 0) eqn:E; bool_to_prop; [by rewrite E|]. cbn [negb]. rewrite (ring_pop _ _ _ (incoming_head s)) by lia.
  rewrite (u64_id (incoming_head s + 1)) by (unfold is_u64; lia). pose proof (Z.mod_pos_bound (incoming_head s + 1) 8 ltac:(lia)). eexists. split.
  { f_equal. unfold aget. destruct (lookup_lt_is_Some_2 (incoming s) (Z.to_nat (incoming_head s))) as [q Hq]; [lia|]. by rewrite Hq. }
  split; [split; cbn; unfold RIX_NET_RX_QUEUE; try (done || lia)|done].
Qed.

(** What the operations that are not about the queue keep of it. *)
Definition same_rx (s s' : rix_net_stack_t) : Prop :=
  incoming s' = incoming s /\ incoming_head s' = incoming_head s /\ incoming_count s' = incoming_count s /\ initialized s' = initialized s.

Lemma same_rx_ok s s' : same_rx s s' -> rx_ok s -> rx_ok s' /\ rx s' = rx s.
Proof.
  intros (E1 & E2 & E3 & _) [H1 H2 H3 H4]. split; [|unfold rx; by rewrite E1, E2, E3]. split; rewrite ?E1, ?E2, ?E3; done.
Qed.

Section RxOps.
Context {W : Type} `{!Nic W, !Clock W}.

Lemma send_ipv4_rx s p d n (w : W) : exists s', snd (fst (fst (rix_net_stack_send_ipv4 (Some s) p d n w))) = Some s' /\ same_rx s s'.
Proof.
  unfold rix_net_stack_send_ipv4. destruct p as [p|]; [|by exists s]. destruct (rix_net_device_info n) as [info|]; [|by exists s]. case_if; [by exists s|].
  destruct (rix_net_arp_lookup _ _ _ _) as [[|?|?] [mac|]]; try (destruct (truthy (pending_valid s)); [by exists s|]; destruct (send_arp_request _ _ _ _); by eexists).
  destruct (frame_and_send _ _ _ _ _ _) as [[? ?] ?]. by exists s.
Qed.

Lemma timer_rx s now n (w : W) rc o w' : rix_net_stack_timer (Some s) now n w = (rc, o, w') -> exists s', o = Some s' /\ same_rx s s' /\ (rc = 0 <-> initialized s <> 0).
Proof.
  unfold rix_net_stack_timer, truthy. case_if.
  { intros [= <- <- <-]. exists s. split; [done|]. split; [done|]. lia. }
  assert (Hi : 0 = 0 <-> initialized s <> 0) by lia.
  case_if; [case_if|]; [|intros [= <- <- <-]; by eexists..]. destruct (rix_net_device_info n); [|intros [= <- <- <-]; by eexists].
  destruct (send_arp_request _ _ _ _). intros [= <- <- <-]. by eexists.
Qed.

Lemma handle_arp_rx s a now n (w : W) : same_rx s (snd (fst (handle_arp s a now n w))).
Proof.
  unfold handle_arp. destruct (rix_net_device_info n); [|done]. case_if; [done|]. destruct (rix_net_arp_learn _ _ _ _ _). case_if; [done|].
  destruct (answer_request _ _ _ _). case_if; [done|]. unfold flush_pending. case_if; [|done]. destruct (rix_net_arp_lookup _ _ _ _) as [rc [m|]]; [|by destruct rc].
  destruct rc; [|done..]. destruct (frame_and_send _ _ _ _ _ _) as [[? ?] ?]. by case_if.
Qed.

(** A frame the controller handed over. *)
Definition delivered (data : list Z) : Prop :=
  exists room r (w w' : W), 0 < r /\ (rix_e1000_receive room w = (r, data, w') \/ rix_rtl8125_receive room w = (r, data, w')).

Context `{!NicLaws W}.

#[local] Ltac stay := cbv beta iota; by intros [= <- <- <-].

(** A poll stores at most one packet, and it is one that came in. *)
Lemma poll_rx s now n (w : W) rc o w' :
  rx_ok s -> rix_net_stack_poll (Some s) now n w = (rc, o, w') ->
  exists s', o = Some s' /\ rx_ok s' /\ initialized s' = initialized s /\
    (rx s' = rx s \/ exists p data, rx s' = make_room (rx s) ++ [p] /\ packet_wf p /\ delivered data /\ contents p = drop 14 data).
Proof.
  intros Hs. unfold rix_net_stack_poll. destruct (rix_net_stack_timer (Some s) now n w) as [[rc1 o1] w1] eqn:E1.
  destruct (timer_rx _ _ _ _ _ _ _ E1) as (s1 & -> & Hr1 & Hrc). destruct (same_rx_ok _ _ Hr1 Hs) as [Hs1 Er1]. pose proof Hr1 as (_ & _ & _ & Ei).
  assert (Hstay : exists s', Some s1 = Some s' /\ rx_ok s' /\ initialized s' = initialized s /\ (rx s' = rx s \/ exists p data, rx s' = make_room (rx s) ++ [p] /\ packet_wf p /\ delivered data /\ contents p = drop 14 data)) by (exists s1; by auto).
  destruct rc1; [|by intros [= <- <- <-]..].
  pose proof (receive_frame stack_packet n w1 stack_packet_ok) as Hin. destruct (rix_net_device_receive _ n w1) as [[r q] w2]. destruct Hin as (p & -> & Hp & Hframe).
  case_if; [stay|]. destruct Hframe as (room & data & Hdata & Hc); [lia|]. change (default stack_packet (Some p)) with p. unfold input_frame.
  destruct (rix_net_eth_pull (Some p) (Some stack_eth_header)) as [[erc eth] q] eqn:Ee.
  destruct erc; [|stay..]. destruct eth as [eth|]; [|stay]. destruct q as [q|]; [|stay].
  case_if.
  { destruct (rix_net_arp_pull _ _) as [[[|?|?] [a|]] ?]; try stay.
    pose proof (handle_arp_rx s1 a now n w2) as Ha. destruct (handle_arp s1 a now n w2) as [[hrc s2] w3]. cbn [fst snd] in Ha. cbv beta iota. intros [= <- <- <-].
    destruct (same_rx_ok _ _ Ha Hs1) as [Hs2 Er2]. destruct Ha as (_ & _ & _ & Ei2). exists s2. split; [done|]. split; [done|]. split; [congruence|]. left. congruence. }
  pose proof (eth_pull_wf _ _ _ _ Hp Ee) as Hq. pose proof (eth_pull_contents _ _ _ _ Hp Ee) as Hcq. cbv zeta.
  destruct (ethertype eth =? RIX_NET_ETHERTYPE_IPV4) eqn:E4; bool_to_prop.
  - rewrite E4. change (RIX_NET_ETHERTYPE_IPV4 =? RIX_NET_ETHERTYPE_IPV6) with false. cbv beta iota. intros [= <- <- <-].
    destruct (store_ipv4_spec q s1 Hs1 Hq) as [Hs2 Er2]. exists (store_ipv4 q s1). split; [done|]. split; [done|]. split; [unfold store_ipv4; by case_if|].
    right. exists q, data. rewrite Er2, Er1. split; [done|]. split; [done|]. split; [|congruence]. by exists room, r, w1, w2.
  - cbv beta iota. intros [= <- <- <-]. case_if; [|exists s1; by auto]. assert (Hsame : same_rx s1 (store_ipv6 q s1)) by (unfold store_ipv6; by case_if).
    destruct (same_rx_ok _ _ Hsame Hs1) as [Hs2 Er2]. destruct Hsame as (_ & _ & _ & Ei2). exists (store_ipv6 q s1). split; [done|]. split; [done|]. split; [congruence|]. left. congruence.
Qed.
End RxOps.

(** ** Waiting for a neighbour's address *)

Section Resolve.
Context {W : Type} `{!Nic W, !Clock W}.

(** A packet with room for a frame header goes out framed. *)
Lemma frame_and_send_spec p m info ty n (w : W) :
  packet_wf p -> 14 <= start p -> mac_ok m -> mac_ok (Device.mac info) -> is_u16 ty -> rix_net_ethertype_supported ty = true ->
  exists framed, packet_wf framed /\ contents framed = eth_frame m (Device.mac info) ty (contents p) /\
    frame_and_send p m info ty n w =
      (if fst (rix_net_device_transmit (Some framed) n w) <? 0 then -1 else 0, framed, snd (rix_net_device_transmit (Some framed) n w)).
Proof.
  intros Hp Hs Hm Hi Hty Hsup. destruct (eth_push_spec p m (Device.mac info) ty Hp Hs Hm Hi Hty Hsup) as (q & E & Hq & Hc & _). exists q. split; [done|]. split; [done|].
  unfold frame_and_send. rewrite E. change (truthy 0) with false. cbv iota. change (default p (Some q)) with q. by destruct (rix_net_device_transmit _ _ _).
Qed.

(** The answer to a lookup after learning it. *)
Lemma learn_lookup (l : rix_net_arp_cache_t) want m now :
  l <> [] -> Forall (fun e => expires_at e <= UINT64_MAX) l -> want <> 0 -> now < UINT64_MAX ->
  exists l' : rix_net_arp_cache_t, rix_net_arp_learn (Some l) want (Some m) now 60 = (0, Some l') /\ rix_net_arp_lookup (Some l') want now true = (0, Some m).
Proof.
  intros Hl Hmax Hw Hn. destruct (arp_cache_correct l want m now 60 Hl Hmax Hw ltac:(lia)) as (l' & E & _ & Hlook & _). exists l'. split; [done|]. apply Hlook.
  unfold learn_expiry. case_if; lia.
Qed.

(** A packet for a neighbour whose address is unknown waits and then leaves, once,
    as it was given. Sending it keeps it as the pending packet and asks for the
    address (-2, or -3 if the request cannot be sent); while it waits another such
    packet is turned away (-2). When the neighbour's reply comes, the stack learns the
    address and transmits exactly one frame: Ethernet header to that address, then
    the packet's bytes; then nothing is pending. If that transmission fails the packet
    stays pending with the header already on it. *)
Theorem arp_resolution_releases_packet s p n info destination now a (w w2 : W)
    (Hinfo : rix_net_device_info n = Some info) (Hmac : mac_ok (Device.mac info))
    (Hinit : initialized s <> 0) (Hfree : pending_valid s = 0) (Hdest : destination <> 0)
    (Hcache : arp s <> []) (Hmax : Forall (fun e => expires_at e <= UINT64_MAX) (arp s))
    (Hunknown : lookup_entry (arp s) (next_hop info destination) 0 = None)
    (Hp : packet_wf p) (Hroom : 14 <= start p) (Hlen : length p <> 0)
    (Hreply : operation a = RIX_NET_ARP_REPLY) (Hfrom : sender_ip a = next_hop info destination) (Hip : sender_ip a <> 0)
    (Hsender : mac_ok (sender_mac a)) (Hnow : 0 <= now < UINT64_MAX) :
  exists rc s1 w1 framed,
    rix_net_stack_send_ipv4 (Some s) (Some p) destination n w = (rc, Some s1, Some p, w1) /\ (rc = -2 \/ rc = -3) /\
    pending s1 = p /\ pending_valid s1 = 1 /\ pending_next_hop s1 = next_hop info destination /\
    (forall q w', length q <> 0 -> rix_net_stack_send_ipv4 (Some s1) (Some q) destination n w' = (-2, Some s1, Some q, w')) /\
    packet_wf framed /\ contents framed = eth_frame (sender_mac a) (Device.mac info) RIX_NET_ETHERTYPE_IPV4 (contents p) /\
    let '(sent, w') := rix_net_device_transmit (Some framed) n w2 in
    exists s2, handle_arp s1 a now n w2 = (if sent <? 0 then -1 else 0, s2, w') /\ pending s2 = framed /\
      pending_valid s2 = (if sent <? 0 then 1 else 0) /\ rix_net_arp_lookup (Some (arp s2)) (next_hop info destination) now true = (0, Some (sender_mac a)).
Proof.
  assert (Hlk : rix_net_arp_lookup (Some (arp s)) (next_hop info destination) 0 true = (-1, None)) by (unfold rix_net_arp_lookup; case_if; [done|]; by rewrite Hunknown).
  assert (Hsend : forall s0 q (w0 : W), initialized s0 = initialized s -> arp s0 = arp s -> length q <> 0 ->
    rix_net_stack_send_ipv4 (Some s0) (Some q) destination n w0 =
      if truthy (pending_valid s0) then (-2, Some s0, Some q, w0)
      else let '(sent, w') := send_arp_request info (next_hop info destination) n w0 in
           (if sent =? 0 then -2 else -3,
            Some (with_pending_since_ns (time_monotonic_ns w0) (with_pending_valid 1 (with_pending_next_hop (next_hop info destination) (with_pending_packet q s0)))), Some q, w')).
  { intros s0 q w0 E1 E2 E3. unfold rix_net_stack_send_ipv4. rewrite Hinfo. unfold truthy at 1 2 3. cbn [rix_net_packet_length].
    rewrite E1, E2, Hlk, (proj2 (Z.eqb_neq (initialized s) 0)), (proj2 (Z.eqb_neq (length q) 0)), (proj2 (Z.eqb_neq destination 0)) by done. done. }
  pose proof (Hsend s p w eq_refl eq_refl Hlen) as Es. rewrite Hfree in Es. cbn [truthy Z.eqb negb] in Es.
  destruct (send_arp_request info (next_hop info destination) n w) as [sent0 w1]. set (s1 := with_pending_since_ns _ _) in Es.
  destruct (frame_and_send_spec p (sender_mac a) info RIX_NET_ETHERTYPE_IPV4 n w2 Hp Hroom Hsender Hmac ltac:(unfold is_u16, RIX_NET_ETHERTYPE_IPV4; lia) eq_refl) as (framed & Hwf & Hc & Ef).
  destruct (learn_lookup (arp s1) (sender_ip a) (sender_mac a) now Hcache Hmax Hip ltac:(lia)) as (l' & El & Elk).
  exists (if sent0 =? 0 then -2 else -3), s1, w1, framed. split; [exact Es|]. split; [destruct (sent0 =? 0); lia|]. split; [done|]. split; [done|]. split; [done|].
  split; [intros q w' Hq; by rewrite (Hsend s1 q w')|]. split; [done|]. split; [done|].
  assert (Eh : handle_arp s1 a now n w2 = flush_pending (with_arp l' s1) a now info n w2).
  { unfold handle_arp. rewrite Hinfo, (proj2 (Z.eqb_neq (sender_ip a) 0)) by done. rewrite El. change (truthy 0) with false. cbv iota. unfold answer_request. rewrite Hreply. done. }
  rewrite Eh. unfold flush_pending. change (pending_valid (with_arp l' s1)) with 1. change (pending_next_hop (with_arp l' s1)) with (next_hop info destination).
  change (arp (with_arp l' s1)) with l'. change (pending (with_arp l' s1)) with p. rewrite Hfrom, Z.eqb_refl. cbn [truthy Z.eqb negb andb]. rewrite <- Hfrom, Elk, Ef, Hfrom.
  destruct (rix_net_device_transmit (Some framed) n w2) as [sent w']. cbn [fst snd]. destruct (sent <? 0); cbv iota beta; (eexists; split; [reflexivity|]; split; [done|]; split; [done|]; by rewrite <- Hfrom).
Qed.
End Resolve.

(** A controller that records what it is given to send. *)
#[global] Instance tap_nic : Nic (list (list Z)) := {|
  rix_e1000_default := fun _ => Some {| ctl_link_up := true; ctl_mac := [2; 0; 0; 0; 0; 1] |};
  rix_rtl8125_default := fun _ => None;
  rix_e1000_transmit := fun f _ w => (0, w ++ option_list f);
  rix_rtl8125_transmit := fun _ _ w => (-1, w);
  rix_e1000_receive := fun _ w => (0, [], w);
  rix_rtl8125_receive := fun _ w => (0, [], w) |}.
#[global] Instance tap_clock : Clock (list (list Z)) := fun _ => 5.

Definition tap_device : net_device := snd (rix_net_device_init (W := list (list Z)) []).
Definition tap_info : rix_net_device_info_t := device tap_device.
Definition tap_stack : rix_net_stack_t :=
  {| arp := replicate 16 {| ip := 0; Arp.mac := replicate 6 0; expires_at := 0; valid := 0 |}; ipv6_neighbors := []; ipv6_routes := [];
     pending := stack_packet; pending_next_hop := 0; pending_valid := 0; pending_since_ns := 0;
     incoming := replicate 8 stack_packet; incoming_head := 0; incoming_count := 0;
     incoming_ipv6 := replicate 8 stack_packet; incoming_ipv6_head := 0; incoming_ipv6_count := 0; initialized := 1 |}.
Definition tap_reply : rix_net_arp_packet_t :=
  {| hardware_type := 1; protocol_type := 0x0800; hardware_length := 6; protocol_length := 4; operation := RIX_NET_ARP_REPLY;
     sender_mac := [2; 0; 0; 0; 0; 2]; sender_ip := 0x0a000207; target_mac := [2; 0; 0; 0; 0; 1]; target_ip := RIX_NET_DEVICE_IP |}.

Lemma tap_transmit f w : packet_wf f -> length f <> 0 -> rix_net_device_transmit (Some f) tap_device w = (0, w ++ [contents f]).
Proof.
  intros Hf Hl. unfold rix_net_device_transmit. cbn [rix_net_packet_length]. unfold truthy. rewrite (proj2 (Z.eqb_neq (length f) 0)), data_ok by done. done.
Qed.

Definition tap_frame : list Z := [2; 0; 0; 0; 0; 2; 2; 0; 0; 0; 0; 1; 0x08; 0x00; 1; 2; 3].

Lemma arp_resolution_releases_packet_witness :
  exists rc s1 w1 s2,
    rix_net_stack_send_ipv4 (Some tap_stack) (Some demo_packet) 0x0a000207 tap_device [] = (rc, Some s1, Some demo_packet, w1) /\
    handle_arp s1 tap_reply 9 tap_device [] = (0, s2, [tap_frame]) /\ pending_valid s2 = 0.
Proof.
  assert (Hm : forall x, is_u8 x -> mac_ok [2; 0; 0; 0; 0; x]) by (intros x Hx; split; [done|]; do 5 (constructor; [unfold is_u8; lia|]); constructor; [done|constructor]).
  destruct (arp_resolution_releases_packet tap_stack demo_packet tap_device tap_info 0x0a000207 9 tap_reply [] []) as (rc & s1 & w1 & framed & E1 & _ & _ & _ & _ & _ & Hf & Hc & Hx);
    [reflexivity|apply (Hm 1); unfold is_u8; lia|done|done|done|done|apply Forall_replicate; cbn; unfold UINT64_MAX; lia|vm_compute; reflexivity|exact demo_packet_wf|cbn; lia|done|done|vm_compute; reflexivity|done
    |apply (Hm 2); unfold is_u8; lia|unfold UINT64_MAX; lia|].
  assert (Hframe : contents framed = tap_frame) by (rewrite Hc; vm_compute; reflexivity).
  pose proof (length_contents framed Hf) as Hl. rewrite Hframe in Hl. change (llen tap_frame) with 17 in Hl.
  rewrite tap_transmit, Hframe in Hx by (done || lia). destruct Hx as (s2 & Ha & _ & Hv & _). exists rc, s1, w1, s2. done.
Defined.
