(* ===== verification/Socket.v ===== *)
(** * Sockets ([kernel/net/socket.h], [kernel/net/socket.c])

    A table of sixteen sockets per process over the loopback address and the
    stack: UDP, raw ICMP and TCP with its reassembly window. The IPv6 UDP table
    is in [Socket6]. Indices stand for the pointers into a table, so that two pointers to
    one socket see each other's writes. Debug output is left out. *)
From stdpp Require Import base tactics list numbers strings.
From S2P Require Import Prelude Bytes NetPacket Ethernet Arp Ipv4 Udp Tcp Ipv6 Transport6 Device Ring NetStack.

Definition RIX_NET_SOCKET_MAX : Z := 16.
Definition RIX_NET_SOCKET_QUEUE : Z := 8.
Definition RIX_NET_SOCKET_LOOPBACK : Z := 0x7f000001.
Definition RIX_NET_SOCKET_NONBLOCK : Z := 1.
Definition RIX_NET_SOCKET_SHUT_RD : Z := 1.
Definition RIX_NET_SOCKET_SHUT_WR : Z := 2.
Definition RIX_NET_SOCKET_REUSEADDR : Z := 2.
Definition RIX_NET_TCP_REASSEMBLY_SLOTS : Z := 4.
Definition RIX_NET_SOCKET_UDP : Z := 1.
Definition RIX_NET_SOCKET_RAW_ICMP : Z := 2.
Definition RIX_NET_SOCKET_TCP : Z := 3.
Definition RIX_NET_TCP_FLAG_FIN : Z := 1.
Definition RIX_NET_TCP_FLAG_SYN : Z := 2.
Definition RIX_NET_TCP_FLAG_RST : Z := 4.
Definition RIX_NET_TCP_FLAG_PSH : Z := 8.
Definition RIX_NET_TCP_FLAG_ACK : Z := 16.
Definition RIX_NET_IP_FLAG_DF : Z := 0x4000.

Record rix_net_endpoint_t := { address : Z; port : Z }.

Record rix_net_socket_queue_t := { packets : list rix_net_packet_t; peers : list rix_net_endpoint_t; head : Z; count : Z }.

Record rix_net_tcp_reassembly_slot_t := { slot_used : Z; slot_fin : Z; slot_sequence : Z; slot_packet : rix_net_packet_t }.

Record rix_net_socket_t := {
  used : Z; connected : Z; flags : Z; shutdown : Z; listening : Z; backlog : Z;
  pending_peers : list rix_net_endpoint_t; pending_head : Z; pending_count : Z;
  type : Z; local : rix_net_endpoint_t; peer : rix_net_endpoint_t; tcp : TcpControl.rix_tcp_control_t;
  receive : rix_net_socket_queue_t; reassembly : list rix_net_tcp_reassembly_slot_t }.

#[global] Instance rix_net_socket_eta : Eta rix_net_socket_t := fun s =>
  Build_rix_net_socket_t (used s) (connected s) (flags s) (shutdown s) (listening s) (backlog s) (pending_peers s) (pending_head s)
    (pending_count s) (type s) (local s) (peer s) (tcp s) (receive s) (reassembly s).

Definition with_used x s : rix_net_socket_t := ltac:(upd s used x).
Definition with_connected x s : rix_net_socket_t := ltac:(upd s connected x).
Definition with_flags x s : rix_net_socket_t := ltac:(upd s flags x).
Definition with_shutdown x s : rix_net_socket_t := ltac:(upd s shutdown x).
Definition with_listening x s : rix_net_socket_t := ltac:(upd s listening x).
Definition with_backlog x s : rix_net_socket_t := ltac:(upd s backlog x).
Definition with_pending_peers x s : rix_net_socket_t := ltac:(upd s pending_peers x).
Definition with_pending_head x s : rix_net_socket_t := ltac:(upd s pending_head x).
Definition with_pending_count x s : rix_net_socket_t := ltac:(upd s pending_count x).
Definition with_local x s : rix_net_socket_t := ltac:(upd s local x).
Definition with_peer x s : rix_net_socket_t := ltac:(upd s peer x).
Definition with_tcp x s : rix_net_socket_t := ltac:(upd s tcp x).
Definition with_receive x s : rix_net_socket_t := ltac:(upd s receive x).
Definition with_reassembly x s : rix_net_socket_t := ltac:(upd s reassembly x).

Definition set_tcp_state x (c : TcpControl.rix_tcp_control_t) : TcpControl.rix_tcp_control_t :=
  {| TcpControl.state := x; TcpControl.sequence := TcpControl.sequence c; TcpControl.acknowledgment := TcpControl.acknowledgment c |}.
Definition set_tcp_sequence x (c : TcpControl.rix_tcp_control_t) : TcpControl.rix_tcp_control_t :=
  {| TcpControl.state := TcpControl.state c; TcpControl.sequence := x; TcpControl.acknowledgment := TcpControl.acknowledgment c |}.
Definition set_tcp_acknowledgment x (c : TcpControl.rix_tcp_control_t) : TcpControl.rix_tcp_control_t :=
  {| TcpControl.state := TcpControl.state c; TcpControl.sequence := TcpControl.sequence c; TcpControl.acknowledgment := x |}.

(** A table is its array. *)
Definition rix_net_socket_table_t : Type := list rix_net_socket_t.

Definition no_endpoint : rix_net_endpoint_t := {| address := 0; port := 0 |}.
Definition no_slot : rix_net_tcp_reassembly_slot_t := {| slot_used := 0; slot_fin := 0; slot_sequence := 0; slot_packet := stack_packet |}.
Definition no_socket : rix_net_socket_t :=
  {| used := 0; connected := 0; flags := 0; shutdown := 0; listening := 0; backlog := 0; pending_peers := replicate 8 no_endpoint;
     pending_head := 0; pending_count := 0; type := 0; local := no_endpoint; peer := no_endpoint; tcp := TcpControl.fresh;
     receive := {| packets := replicate 8 stack_packet; peers := replicate 8 no_endpoint; head := 0; count := 0 |};
     reassembly := replicate 4 no_slot |}.

(** [table->sockets[i]], and a write through a pointer to it. *)
Definition socket (t : rix_net_socket_table_t) (i : Z) : rix_net_socket_t := aget no_socket t i.
Definition on_socket (i : Z) (f : rix_net_socket_t -> rix_net_socket_t) (t : rix_net_socket_table_t) : rix_net_socket_table_t :=
  aset i (f (socket t i)) t.

(** ** Helpers *)

(** [data] is the memory the pointer points to. *)
Definition packet_copy (destination : rix_net_packet_t) (data : option (list Z)) (length : Z) : Z * rix_net_packet_t :=
  if (truthy length && is_null data) || (RIX_NET_FRAME_CAPACITY <? length) then (-1, destination)
  else match rix_net_packet_put (set_bounds RIX_NET_HEADROOM 0 destination) length with
       | (0, Some out, p) => (0, set_bytes (copy (Z.to_nat length) (bytes p) out (default [] data) 0) p)
       | (_, _, p) => (-1, p)
       end.

(** The bytes [rix_net_packet_data] points to. *)
Definition data_of (p : rix_net_packet_t) : option (list Z) :=
  (fun o => slice (bytes p) o (length p)) <$> rix_net_packet_data p.

Definition valid_descriptor (t : rix_net_socket_table_t) (descriptor : Z) : bool :=
  (0 <=? descriptor) && (descriptor <? RIX_NET_SOCKET_MAX) && truthy (used (socket t descriptor)).

Definition queue_packet (receiver : rix_net_socket_t) (data : option (list Z)) (length : Z) (from : rix_net_endpoint_t)
  : Z * rix_net_socket_t :=
  let q := receive receiver in
  if is_null data || negb (truthy length) || (RIX_NET_FRAME_CAPACITY <? length) || (RIX_NET_SOCKET_QUEUE <=? count q) then (-1, receiver)
  else
    let tail := u64 (head q + count q) mod RIX_NET_SOCKET_QUEUE in
    let '(rc, p) := packet_copy (aget stack_packet (packets q) tail) data length in
    let ps := aset tail p (packets q) in
    if truthy rc then (-1, with_receive {| packets := ps; peers := peers q; head := head q; count := count q |} receiver)
    else (0, with_receive {| packets := ps; peers := aset tail from (peers q); head := head q; count := u64 (count q + 1) |} receiver).

Definition endpoint_equal (left right : rix_net_endpoint_t) : bool := (address left =? address right) && (port left =? port right).

Definition has_prefix (data : list Z) (length : Z) (prefix : list Z) : bool :=
  let prefix_length := llen prefix in
  if length <? prefix_length then false
  else bool_decide (for_all 0 prefix_length (fun i ok => Z.land ok (b2z (aget 0 data i =? aget 0 prefix i))) 1 = 1).

(** The loops [for (i) if (!wanted(&table->sockets[i])) continue; ...; return]. *)
Definition find_socket (wanted : rix_net_socket_t -> bool) (t : rix_net_socket_table_t) : option Z :=
  Z.of_nat <$> first_index wanted t 0.

(** Pushing a segment without payload and pulling it again: the header read. *)
Definition stack_tcp : rix_net_tcp_header_t :=
  {| source_port := 0; destination_port := 0; sequence := 0; acknowledgment := 0; Tcp.flags := 0; window := 0; checksum := 0; urgent := 0 |}.
Definition tcp_exchange (source_ip destination_ip sport dport seq ack flg : Z) (data : option (list Z)) (length : Z)
  : option (rix_net_tcp_header_t * rix_net_packet_t) :=
  match rix_net_tcp_push (rix_net_packet_init (Some stack_packet)) source_ip destination_ip sport dport seq ack flg 4096 data length with
  | (0, p) =>
      match rix_net_tcp_pull p source_ip destination_ip (Some stack_tcp) with
      | (0, Some header, Some p) => Some (header, p)
      | _ => None
      end
  | _ => None
  end.

(** [rix_tcp_transition(&socket->tcp, event)] *)
Definition transition (e : TcpControl.rix_tcp_event_t) (s : rix_net_socket_t) : Z * rix_net_socket_t :=
  let '(rc, c) := TcpControl.rix_tcp_transition (Some (tcp s)) e in (rc, with_tcp (default (tcp s) c) s).

Definition tcp_seq (s : rix_net_socket_t) : Z := TcpControl.sequence (tcp s).
Definition tcp_ack (s : rix_net_socket_t) : Z := TcpControl.acknowledgment (tcp s).
Definition tcp_state (s : rix_net_socket_t) : TcpControl.rix_tcp_state_t := TcpControl.state (tcp s).

(** The three steps of the handshake with the service on port 80: SYN, SYN+ACK
    and ACK, each sent through the segment code and checked at the other end. *)
Definition handshake_syn (s : rix_net_socket_t) (to : rix_net_endpoint_t) (service : TcpControl.rix_tcp_control_t) : Z * TcpControl.rix_tcp_control_t :=
  match tcp_exchange RIX_NET_SOCKET_LOOPBACK (address to) (port (local s)) (port to) (tcp_seq s) 0 RIX_NET_TCP_FLAG_SYN None 0 with
  | Some (header, _) =>
      if negb (Tcp.flags header =? RIX_NET_TCP_FLAG_SYN) then (-1, service)
      else let '(rc, c) := TcpControl.rix_tcp_transition (Some service) TcpControl.RIX_TCP_EVENT_SYN in (rc, default service c)
  | None => (-1, service)
  end.

Definition handshake_syn_ack (s : rix_net_socket_t) (to : rix_net_endpoint_t) (service : TcpControl.rix_tcp_control_t) : Z * rix_net_socket_t :=
  match tcp_exchange (address to) RIX_NET_SOCKET_LOOPBACK (port to) (port (local s)) (TcpControl.sequence service)
          (TcpControl.acknowledgment service) (Z.lor RIX_NET_TCP_FLAG_SYN RIX_NET_TCP_FLAG_ACK) None 0 with
  | Some (header, _) =>
      if negb (Tcp.flags header =? Z.lor RIX_NET_TCP_FLAG_SYN RIX_NET_TCP_FLAG_ACK) || negb (acknowledgment header =? u32 (tcp_seq s + 1)) then (-1, s)
      else transition TcpControl.RIX_TCP_EVENT_SYN_ACK s
  | None => (-1, s)
  end.

Definition handshake_ack (s : rix_net_socket_t) (to : rix_net_endpoint_t) (service : TcpControl.rix_tcp_control_t) : Z :=
  match tcp_exchange RIX_NET_SOCKET_LOOPBACK (address to) (port (local s)) (port to) (tcp_seq s) (tcp_ack s) RIX_NET_TCP_FLAG_ACK None 0 with
  | Some (header, _) =>
      if negb (Tcp.flags header =? RIX_NET_TCP_FLAG_ACK) || negb (acknowledgment header =? u32 (TcpControl.sequence service + 1)) then -1
      else
        let '(rc, c) := TcpControl.rix_tcp_transition (Some service) TcpControl.RIX_TCP_EVENT_ACK in
        if truthy rc || negb (TcpControl.rix_tcp_is_connected (Some (tcp s))) || negb (TcpControl.rix_tcp_is_connected c) then -1 else 0
  | None => -1
  end.

Definition tcp_loopback_handshake (s : rix_net_socket_t) (to : rix_net_endpoint_t) : Z * rix_net_socket_t :=
  if negb (address to =? RIX_NET_SOCKET_LOOPBACK) || negb (port to =? 80) then (-1, s)
  else match TcpControl.rix_tcp_transition (TcpControl.rix_tcp_init (Some TcpControl.fresh)) TcpControl.RIX_TCP_EVENT_PASSIVE_OPEN with
  | (0, Some service) =>
      let s := with_tcp (set_tcp_acknowledgment 0 (set_tcp_sequence 1 (tcp s))) s in
      let '(rc, s) := transition TcpControl.RIX_TCP_EVENT_ACTIVE_OPEN s in
      if truthy rc then (-1, s)
      else
        let '(rc, service) := handshake_syn s to service in
        if truthy rc then (-1, s)
        else
          let service := set_tcp_acknowledgment (u32 (tcp_seq s + 1)) (set_tcp_sequence 100 service) in
          let '(rc, s) := handshake_syn_ack s to service in
          if truthy rc then (-1, s)
          else
            let s := with_tcp (set_tcp_sequence (u32 (tcp_seq s + 1)) (tcp s)) s in
            let s := with_tcp (set_tcp_acknowledgment (u32 (TcpControl.sequence service + 1)) (tcp s)) s in
            (handshake_ack s to service, s)
  | _ => (-1, s)
  end.

(** ** The table *)

Definition rix_net_socket_table_init (table : option rix_net_socket_table_t) : option rix_net_socket_table_t :=
  fmap (M := list) (fun s => with_tcp (default (tcp s) (TcpControl.rix_tcp_init (Some (tcp s)))) (with_used 0 s)) <$> table.

Definition opened (i type : Z) (s : rix_net_socket_t) : rix_net_socket_t :=
  {| used := 1; connected := 0; flags := 0; shutdown := 0; listening := 0; backlog := 0; pending_peers := pending_peers s;
     pending_head := 0; pending_count := 0; type := type;
     local := {| address := RIX_NET_SOCKET_LOOPBACK; port := u16 (49152 + i) |}; peer := no_endpoint;
     tcp := default (tcp s) (TcpControl.rix_tcp_init (Some (tcp s)));
     receive := {| packets := packets (receive s); peers := peers (receive s); head := 0; count := 0 |};
     reassembly := (fun r => {| slot_used := 0; slot_fin := slot_fin r; slot_sequence := slot_sequence r; slot_packet := slot_packet r |})
                     <$> reassembly s |}.

Definition rix_net_socket_open (t : rix_net_socket_table_t) (type : Z) : Z * rix_net_socket_table_t :=
  if negb (type =? RIX_NET_SOCKET_UDP) && negb (type =? RIX_NET_SOCKET_RAW_ICMP) && negb (type =? RIX_NET_SOCKET_TCP) then (-1, t)
  else match find_socket (fun s => negb (truthy (used s))) t with
       | Some i => (i, on_socket i (opened i type) t)
       | None => (-1, t)
       end.

Definition rix_net_socket_close (t : rix_net_socket_table_t) (descriptor : Z) : Z * rix_net_socket_table_t :=
  if negb (valid_descriptor t descriptor) then (-1, t) else (0, on_socket descriptor (with_used 0) t).

Definition rix_net_socket_shutdown (t : rix_net_socket_table_t) (descriptor how : Z) : Z * rix_net_socket_table_t :=
  if negb (valid_descriptor t descriptor) || (how <? 0) || (2 <? how) then (-1, t)
  else
    let t := if (how =? 0) || (how =? 2) then on_socket descriptor (fun s => with_shutdown (Z.lor (shutdown s) RIX_NET_SOCKET_SHUT_RD) s) t else t in
    let t := if (how =? 1) || (how =? 2) then on_socket descriptor (fun s => with_shutdown (Z.lor (shutdown s) RIX_NET_SOCKET_SHUT_WR) s) t else t in
    (0, t).

Definition rix_net_socket_listen (t : rix_net_socket_table_t) (descriptor want : Z) : Z * rix_net_socket_table_t :=
  if negb (valid_descriptor t descriptor) || negb (type (socket t descriptor) =? RIX_NET_SOCKET_TCP) || (want <? 0)
     || (RIX_NET_SOCKET_QUEUE <? want) then (-1, t)
  else (0, on_socket descriptor (fun s => with_backlog (u8 (if truthy want then want else 1)) (with_listening 1 s)) t).

Definition rix_net_socket_accept (t : rix_net_socket_table_t) (descriptor : Z) : Z * option rix_net_endpoint_t * rix_net_socket_table_t :=
  if negb (valid_descriptor t descriptor) || negb (truthy (listening (socket t descriptor))) then (-1, None, t)
  else if negb (truthy (pending_count (socket t descriptor))) then (-2, None, t)
  else
    let '(accepted, t) := rix_net_socket_open t RIX_NET_SOCKET_TCP in
    if accepted <? 0 then (-3, None, t)
    else
      let listener := socket t descriptor in
      let remote := aget no_endpoint (pending_peers listener) (pending_head listener) in
      let t := on_socket descriptor (fun s => with_pending_count (pending_count s - 1)
                 (with_pending_head (u8 (u32 (pending_head s + 1) mod RIX_NET_SOCKET_QUEUE)) s)) t in
      let t := on_socket accepted (fun s =>
                 with_tcp {| TcpControl.state := TcpControl.RIX_TCP_ESTABLISHED; TcpControl.sequence := 100; TcpControl.acknowledgment := 1 |}
                   (with_connected 1 (with_peer remote (with_local (local (socket t descriptor)) s)))) t in
      (accepted, Some remote, t).

Definition rix_net_socket_poll_ready (t : rix_net_socket_table_t) (descriptor events : Z) : Z * Z :=
  if descriptor <? 0 then (0, 0)
  else if negb (valid_descriptor t descriptor) then (0, 0x20)
  else
    let s := socket t descriptor in
    let readable := truthy (Z.land events 0x01) &&
      (truthy (count (receive s)) || (truthy (listening s) && truthy (pending_count s)) ||
       ((type s =? RIX_NET_SOCKET_TCP) && bool_decide (tcp_state s = TcpControl.RIX_TCP_CLOSE_WAIT))) in
    let writable := truthy (Z.land events 0x04) && truthy (connected s) && negb (truthy (Z.land (shutdown s) RIX_NET_SOCKET_SHUT_WR)) in
    (0, Z.lor (if readable then 0x01 else 0) (if writable then 0x04 else 0)).

Definition rix_net_socket_set_option (t : rix_net_socket_table_t) (descriptor level option value : Z) : Z * rix_net_socket_table_t :=
  if negb (valid_descriptor t descriptor) || negb (level =? 1) || negb (option =? RIX_NET_SOCKET_REUSEADDR)
     || (negb (value =? 0) && negb (value =? 1)) then (-1, t)
  else if truthy value then (0, on_socket descriptor (fun s => with_flags (Z.lor (flags s) RIX_NET_SOCKET_REUSEADDR) s) t)
  else (0, on_socket descriptor (fun s => with_flags (Z.land (flags s) (u8 (Z.lnot RIX_NET_SOCKET_REUSEADDR))) s) t).

Definition rix_net_socket_get_option (t : rix_net_socket_table_t) (descriptor level option : Z) : Z * Z :=
  if negb (valid_descriptor t descriptor) || negb (level =? 1) || negb (option =? RIX_NET_SOCKET_REUSEADDR) then (-1, 0)
  else (0, b2z (truthy (Z.land (flags (socket t descriptor)) RIX_NET_SOCKET_REUSEADDR))).

Definition rix_net_socket_bind (t : rix_net_socket_table_t) (descriptor : Z) (endpoint : rix_net_endpoint_t) : Z * rix_net_socket_table_t :=
  if negb (valid_descriptor t descriptor) || negb (address endpoint =? RIX_NET_SOCKET_LOOPBACK) || (port endpoint =? 0) then (-1, t)
  else if existsb (fun '(i, s) => negb (Z.of_nat i =? descriptor) && truthy (used s) && endpoint_equal (local s) endpoint) (imap pair t) then (-2, t)
  else (0, on_socket descriptor (with_local endpoint) t).

(** ** The network outside: what every process shares *)

Section Net.
Context {W : Type} `{!Nic W, !Clock W}.

(** [default_stack] and the stack it points to, the interface, the counter of
    initial sequence numbers, and the world behind the controller. *)
Record net := { default_stack : option rix_net_stack_t; interface : net_device; tcp_next_iss : Z; wire : W }.

Definition with_stack (s : option rix_net_stack_t) (w : W) (g : net) : net :=
  {| default_stack := s; interface := interface g; tcp_next_iss := tcp_next_iss g; wire := w |}.
Definition with_iss (x : Z) (g : net) : net :=
  {| default_stack := default_stack g; interface := interface g; tcp_next_iss := x; wire := wire g |}.

Definition stack_send (packet : option rix_net_packet_t) (destination_ip : Z) (g : net) : Z * net :=
  let '(rc, s, _, w) := rix_net_stack_send_ipv4 (default_stack g) packet destination_ip (interface g) (wire g) in (rc, with_stack s w g).

(** [rix_net_ipv4_push] after the transport header, then the stack. *)
Definition ipv4_out (r : Z * option rix_net_packet_t) (info : rix_net_device_info_t) (destination_ip proto : Z) (g : net) : option (Z * net) :=
  match and_then r (fun p => rix_net_ipv4_push p (Device.address info) destination_ip proto 64 0 RIX_NET_IP_FLAG_DF) with
  | (0, p) => Some (stack_send p destination_ip g)
  | _ => None
  end.

Definition tcp_out (info : rix_net_device_info_t) (s : rix_net_socket_t) (to : rix_net_endpoint_t) (ack flg : Z) (data : option (list Z)) (length : Z) (g : net)
  : option (Z * net) :=
  ipv4_out (rix_net_tcp_push (rix_net_packet_init (Some stack_packet)) (Device.address info) (address to) (port (local s)) (port to)
              (tcp_seq s) ack flg 4096 data length) info (address to) RIX_NET_IP_PROTO_TCP g.

(** ** Connecting and sending *)

Definition connect_tcp_external (s : rix_net_socket_t) (endpoint : rix_net_endpoint_t) (g : net) : Z * rix_net_socket_t * net :=
  match rix_net_device_info (interface g), default_stack g with
  | Some info, Some _ =>
      if bool_decide (tcp_state s = TcpControl.RIX_TCP_ESTABLISHED) && endpoint_equal (peer s) endpoint then (0, s, g)
      else
        let '(rc, s, g) :=
          if bool_decide (tcp_state s = TcpControl.RIX_TCP_CLOSED) then
            let s := with_connected 0 (with_peer endpoint s) in
            let s := with_tcp (set_tcp_sequence (tcp_next_iss g) (tcp s)) s in
            let g := with_iss (u32 (tcp_next_iss g + 0x10000)) g in
            let s := if truthy (tcp_seq s) then s else with_tcp (set_tcp_sequence 1 (tcp s)) s in
            let s := with_tcp (set_tcp_acknowledgment 0 (tcp s)) s in
            let '(rc, s) := transition TcpControl.RIX_TCP_EVENT_ACTIVE_OPEN s in (rc, s, g)
          else if negb (bool_decide (tcp_state s = TcpControl.RIX_TCP_SYN_SENT)) || negb (endpoint_equal (peer s) endpoint) then (-1, s, g)
          else (0, s, g) in
        if truthy rc then (-1, s, g)
        else match tcp_out info s endpoint 0 RIX_NET_TCP_FLAG_SYN None 0 g with
             | Some (sent, g) => (if (sent <? 0) && negb (sent =? -2) then -1 else -2, s, g)
             | None => (-1, s, g)
             end
  | _, _ => (-1, s, g)
  end.

Definition rix_net_socket_connect (t : rix_net_socket_table_t) (descriptor : Z) (endpoint : rix_net_endpoint_t) (g : net)
  : Z * rix_net_socket_table_t * net :=
  if negb (valid_descriptor t descriptor) || (port endpoint =? 0) then (-1, t, g)
  else
    let s := socket t descriptor in
    if address endpoint =? RIX_NET_SOCKET_LOOPBACK then
      if type s =? RIX_NET_SOCKET_RAW_ICMP then (-1, t, g)
      else match find_socket (fun l => truthy (used l) && truthy (listening l) && (type l =? RIX_NET_SOCKET_TCP) && endpoint_equal (local l) endpoint) t with
           | Some i =>
               let l := socket t i in
               if backlog l <=? pending_count l then (-2, t, g)
               else
                 let tail := u64 (pending_head l + pending_count l) mod RIX_NET_SOCKET_QUEUE in
                 let t := on_socket i (fun l => with_pending_count (u8 (pending_count l + 1)) (with_pending_peers (aset tail (local s) (pending_peers l)) l)) t in
                 (0, on_socket descriptor (fun s =>
                    with_tcp {| TcpControl.state := TcpControl.RIX_TCP_ESTABLISHED; TcpControl.sequence := 1; TcpControl.acknowledgment := 100 |}
                      (with_connected 1 (with_peer endpoint s))) t, g)
           | None =>
               let '(rc, s) := if type s =? RIX_NET_SOCKET_TCP then tcp_loopback_handshake s endpoint else (0, s) in
               if truthy rc then (-4, on_socket descriptor (fun _ => s) t, g)
               else (0, on_socket descriptor (fun _ => with_connected 1 (with_peer endpoint s)) t, g)
           end
    else if negb (type s =? RIX_NET_SOCKET_TCP) then (-1, t, g)
    else let '(rc, s, g) := connect_tcp_external s endpoint g in (rc, on_socket descriptor (fun _ => s) t, g).

(** [queue_packet(receiver, ...) == 0 ? (int)length : -3] *)
Definition deliver (t : rix_net_socket_table_t) (i : Z) (data : option (list Z)) (n : Z) (from : rix_net_endpoint_t) (length : Z) : Z * rix_net_socket_table_t :=
  let '(rc, r) := queue_packet (socket t i) data n from in (if rc =? 0 then length else -3, on_socket i (fun _ => r) t).

Definition listens (ty : Z) (endpoint : rix_net_endpoint_t) (s : rix_net_socket_t) : bool :=
  truthy (used s) && (type s =? ty) && endpoint_equal (local s) endpoint.

Definition stack_echo : rix_net_icmp_echo_t := {| Ipv4.type := 0; code := 0; identifier := 0; Ipv4.sequence := 0 |}.

Definition send_raw_icmp (t : rix_net_socket_table_t) (sender : Z) (data : list Z) (length : Z) (destination : rix_net_endpoint_t)
  : Z * rix_net_socket_table_t :=
  let from := local (socket t sender) in
  let '(rc, packet) := packet_copy stack_packet (Some data) length in
  if truthy rc then (-1, t)
  else
    let o := default 0 (rix_net_packet_data packet) in
    if (8 <=? length) && (aget 0 (bytes packet) (o + 0) =? RIX_NET_ICMP_ECHO_REQUEST) && (aget 0 (bytes packet) (o + 1) =? 0)
       && (rix_net_checksum (bytes packet) o length =? 0) then
      match rix_net_icmp_echo_pull (Some packet) (Some stack_echo) with
      | (0, Some echo, Some packet) =>
          match rix_net_icmp_echo_push (rix_net_packet_init (Some stack_packet)) RIX_NET_ICMP_ECHO_REPLY (identifier echo) (Ipv4.sequence echo)
                  (data_of packet) (NetPacket.length packet) with
          | (0, Some reply) =>
              match find_socket (listens RIX_NET_SOCKET_RAW_ICMP destination) t with
              | Some i => deliver t i (data_of reply) (NetPacket.length reply) from length
              | None => (-4, t)
              end
          | _ => (-1, t)
          end
      | _ => (-1, t)
      end
    else match find_socket (listens RIX_NET_SOCKET_RAW_ICMP destination) t with
         | Some i => deliver t i (Some data) length from length
         | None => (-4, t)
         end.

Definition send_raw_icmp_external (data : list Z) (length : Z) (destination : rix_net_endpoint_t) (g : net) : Z * net :=
  match rix_net_device_info (interface g), default_stack g with
  | Some info, Some _ =>
      if negb (truthy length) || (RIX_NET_MTU <? length) || negb (truthy (address destination)) || (address destination =? RIX_NET_SOCKET_LOOPBACK) then (-1, g)
      else if (length <? 8) || negb (aget 0 data 0 =? RIX_NET_ICMP_ECHO_REQUEST) || negb (aget 0 data 1 =? 0) || negb (rix_net_checksum data 0 length =? 0) then (-1, g)
      else
        let '(rc, packet) := packet_copy (set_bounds RIX_NET_HEADROOM 0 stack_packet) (Some data) length in
        match ipv4_out (rc, Some packet) info (address destination) RIX_NET_IP_PROTO_ICMP g with
        | Some (sent, g) => (if (sent <? 0) && negb (sent =? -2) then -1 else length, g)
        | None => (-1, g)
        end
  | _, _ => (-1, g)
  end.

Definition stack_udp_header : rix_net_udp_header_t :=
  {| Udp.source_port := 0; Udp.destination_port := 0; udp_length := 0; Udp.checksum := 0 |}.

Definition send_udp (t : rix_net_socket_table_t) (sender : Z) (data : list Z) (length : Z) (destination : rix_net_endpoint_t) : Z * rix_net_socket_table_t :=
  let from := local (socket t sender) in
  match rix_net_udp_push (rix_net_packet_init (Some stack_packet)) RIX_NET_SOCKET_LOOPBACK (address destination) (port from) (port destination)
          (Some data) length with
  | (0, packet) =>
      match rix_net_udp_pull packet RIX_NET_SOCKET_LOOPBACK (address destination) (Some stack_udp_header) with
      | (0, _, Some packet) =>
          match find_socket (listens RIX_NET_SOCKET_UDP destination) t with
          | Some i => deliver t i (data_of packet) (NetPacket.length packet) from length
          | None => (-4, t)
          end
      | _ => (-1, t)
      end
  | _ => (-1, t)
  end.

Definition send_udp_external (s : rix_net_socket_t) (data : list Z) (length : Z) (destination : rix_net_endpoint_t) (g : net) : Z * net :=
  match rix_net_device_info (interface g), default_stack g with
  | Some info, Some _ =>
      if negb (truthy length) then (-1, g)
      else match ipv4_out (rix_net_udp_push (rix_net_packet_init (Some stack_packet)) (Device.address info) (address destination) (port (local s))
                             (port destination) (Some data) length) info (address destination) RIX_NET_IP_PROTO_UDP g with
           | Some (result, g) => (if (result =? 0) || (result =? -2) then length else -1, g)
           | None => (-1, g)
           end
  | _, _ => (-1, g)
  end.

Definition send_tcp_external (s : rix_net_socket_t) (data : list Z) (length : Z) (destination : rix_net_endpoint_t) (g : net) : Z * net :=
  match rix_net_device_info (interface g), default_stack g with
  | Some info, Some _ =>
      if negb (truthy length) then (-1, g)
      else if negb (truthy (connected s)) || negb (TcpControl.rix_tcp_is_connected (Some (tcp s))) || negb (endpoint_equal (peer s) destination) then (-1, g)
      else match tcp_out info s destination (tcp_ack s) (Z.lor RIX_NET_TCP_FLAG_ACK RIX_NET_TCP_FLAG_PSH) (Some data) length g with
           | Some (sent, g) => (if (sent <? 0) && negb (sent =? -2) then -1 else length, g)
           | None => (-1, g)
           end
  | _, _ => (-1, g)
  end.

Definition chars (s : string) : list Z := (fun c => Z.of_nat (Ascii.nat_of_ascii c)) <$> String.list_ascii_of_string s.
Definition crlf : list Z := [13; 10].
Definition response : list Z :=
  chars "HTTP/1.0 200 OK" ++ crlf ++ chars "Content-Type: text/html" ++ crlf ++ chars "Content-Length: 50" ++ crlf ++ crlf ++
  chars "<html><body><h1>Hello RixuriOS</h1></body></html>" ++ [10].

(** The page the service on port 80 answers with. *)
Definition send_response (t : rix_net_socket_table_t) (sender : Z) (length : Z) (destination : rix_net_endpoint_t) : Z * rix_net_socket_table_t :=
  let s := socket t sender in
  match tcp_exchange (address destination) RIX_NET_SOCKET_LOOPBACK (port destination) (port (local s)) 101 (tcp_seq s)
          (Z.lor RIX_NET_TCP_FLAG_ACK RIX_NET_TCP_FLAG_PSH) (Some response) (llen response) with
  | Some (header, reply) =>
      if negb (Tcp.flags header =? Z.lor RIX_NET_TCP_FLAG_ACK RIX_NET_TCP_FLAG_PSH) || negb (acknowledgment header =? tcp_seq s) then (-2, t)
      else
        let t := on_socket sender (fun s => with_tcp (set_tcp_acknowledgment (u32 (sequence header + llen response)) (tcp s)) s) t in
        deliver t sender (data_of reply) (NetPacket.length reply) destination length
  | None => (-2, t)
  end.

Definition send_tcp (t : rix_net_socket_table_t) (sender : Z) (data : list Z) (length : Z) (destination : rix_net_endpoint_t) : Z * rix_net_socket_table_t :=
  let s := socket t sender in
  if negb (truthy (connected s)) || negb (TcpControl.rix_tcp_is_connected (Some (tcp s))) || negb (endpoint_equal (peer s) destination) then (-1, t)
  else match tcp_exchange RIX_NET_SOCKET_LOOPBACK (address destination) (port (local s)) (port destination) (tcp_seq s) (tcp_ack s)
               (Z.lor RIX_NET_TCP_FLAG_ACK RIX_NET_TCP_FLAG_PSH) (Some data) length with
       | Some (header, _) =>
           if negb (Tcp.flags header =? Z.lor RIX_NET_TCP_FLAG_ACK RIX_NET_TCP_FLAG_PSH) || negb (sequence header =? tcp_seq s)
              || negb (acknowledgment header =? tcp_ack s) then (-2, t)
           else
             let t := on_socket sender (fun s => with_tcp (set_tcp_sequence (u32 (tcp_seq s + u32 length)) (tcp s)) s) t in
             if negb (port destination =? 80) || negb (has_prefix data length (chars "GET ")) then
               match first_index (fun '(i, r) => truthy (used r) && negb (Z.of_nat i =? sender) && truthy (connected r)
                       && endpoint_equal (local r) destination && endpoint_equal (peer r) (local s)) (imap pair t) 0 with
               | Some i => deliver t (Z.of_nat i) (Some data) length (local s) length
               | None => (length, t)
               end
             else send_response t sender length destination
       | None => (-2, t)
       end.

Definition rix_net_socket_send (t : rix_net_socket_table_t) (descriptor : Z) (data : option (list Z)) (length : Z) (destination : rix_net_endpoint_t) (g : net)
  : Z * rix_net_socket_table_t * net :=
  match data with
  | None => (-1, t, g)
  | Some data =>
      if negb (valid_descriptor t descriptor) || negb (truthy length) || (RIX_NET_MTU <? length) then (-1, t, g)
      else
        let s := socket t descriptor in
        if truthy (Z.land (shutdown s) RIX_NET_SOCKET_SHUT_WR) then (-1, t, g)
        else
          let destination := if truthy (connected s) then peer s else destination in
          let loopback := address destination =? RIX_NET_SOCKET_LOOPBACK in
          let here (r : Z * rix_net_socket_table_t) : Z * rix_net_socket_table_t * net := let '(rc, t) := r in (rc, t, g) in
          let out (r : Z * net) : Z * rix_net_socket_table_t * net := let '(rc, g) := r in (rc, t, g) in
          if type s =? RIX_NET_SOCKET_RAW_ICMP then
            if loopback then here (send_raw_icmp t descriptor data length destination)
            else out (send_raw_icmp_external data length destination g)
          else if (port destination =? 0) ||
             (negb loopback && negb (((type s =? RIX_NET_SOCKET_UDP) || (type s =? RIX_NET_SOCKET_TCP)) && negb (is_null (default_stack g)))) then (-2, t, g)
          else if type s =? RIX_NET_SOCKET_UDP then
            if loopback then here (send_udp t descriptor data length destination) else out (send_udp_external s data length destination g)
          else if type s =? RIX_NET_SOCKET_TCP then
            if loopback then here (send_tcp t descriptor data length destination) else out (send_tcp_external s data length destination g)
          else (-1, t, g)
  end.

(** ** Input *)

Definition tcp_send_ack (s : rix_net_socket_t) (peer_ip : Z) (g : net) : Z * net :=
  match rix_net_device_info (interface g), default_stack g with
  | Some info, Some _ =>
      if negb (truthy peer_ip) then (-1, g)
      else match tcp_out info s {| address := peer_ip; port := port (peer s) |} (tcp_ack s) RIX_NET_TCP_FLAG_ACK None 0 g with
           | Some (sent, g) => (if sent <? 0 then -1 else 0, g)
           | None => (-1, g)
           end
  | _, _ => (-1, g)
  end.

Definition tcp_queue_payload (s : rix_net_socket_t) (seq : Z) (packet : rix_net_packet_t) (fin : Z) : Z * rix_net_socket_t :=
  if negb (seq =? tcp_ack s) then (-1, s)
  else
    let payload := length packet in
    let '(rc, s) := if truthy payload then queue_packet s (data_of packet) payload (peer s) else (0, s) in
    if truthy rc then (-1, s)
    else
      let s := with_tcp (set_tcp_acknowledgment (u32 (seq + u32 payload + (if truthy fin then 1 else 0))) (tcp s)) s in
      if truthy fin then let '(rc, s) := transition TcpControl.RIX_TCP_EVENT_FIN s in (if truthy rc then -1 else 0, s)
      else (0, s).

Definition tcp_hold_segment (s : rix_net_socket_t) (seq : Z) (packet : rix_net_packet_t) (fin : Z) : Z * rix_net_socket_t :=
  let payload := length packet in
  if existsb (fun r => truthy (slot_used r) && (slot_sequence r =? seq)) (reassembly s) then (0, s)
  else match first_index (fun r => negb (truthy (slot_used r))) (reassembly s) 0 with
       | Some i =>
           let r := aget no_slot (reassembly s) (Z.of_nat i) in
           let '(rc, p) := packet_copy (slot_packet r) (data_of packet) payload in
           if truthy rc then
             (-1, with_reassembly (aset (Z.of_nat i) {| slot_used := slot_used r; slot_fin := slot_fin r; slot_sequence := slot_sequence r; slot_packet := p |} (reassembly s)) s)
           else
             (0, with_reassembly (aset (Z.of_nat i) {| slot_used := 1; slot_fin := fin; slot_sequence := seq; slot_packet := p |} (reassembly s)) s)
       | None => (-1, s)
       end.

(** One pass over the slots: whether it progressed. *)
Definition drain_slot (i : Z) (state : bool * rix_net_socket_t) : (bool * rix_net_socket_t) + rix_net_socket_t :=
  let '(progressed, s) := state in
  let r := aget no_slot (reassembly s) i in
  if negb (truthy (slot_used r)) || negb (slot_sequence r =? tcp_ack s) then inl (progressed, s)
  else
    let '(rc, s) := tcp_queue_payload s (slot_sequence r) (slot_packet r) (slot_fin r) in
    if truthy rc then inr s
    else inl (true, with_reassembly (aset i {| slot_used := 0; slot_fin := slot_fin r; slot_sequence := slot_sequence r; slot_packet := slot_packet r |} (reassembly s)) s).

(** The [do ... while (progressed)] loop. Every pass that progresses frees a
    slot, so five passes are as many as there can be ([drain_enough]). *)
Fixpoint drain_loop (k : nat) (s : rix_net_socket_t) : Z * rix_net_socket_t :=
  match k with
  | O => (0, s)
  | S k =>
      match for_ 0 RIX_NET_TCP_REASSEMBLY_SLOTS drain_slot (false, s) with
      | inr s => (-1, s)
      | inl (progressed, s) => if progressed then drain_loop k s else (0, s)
      end
  end.
Definition tcp_drain_reassembly (s : rix_net_socket_t) : Z * rix_net_socket_t := drain_loop 5 s.

(** What happens to a segment at the socket it belongs to. *)
Definition tcp_input (s : rix_net_socket_t) (header : rix_net_tcp_header_t) (packet : rix_net_packet_t) (source_ip : Z) (g : net)
  : Z * rix_net_socket_t * net :=
  let acked rc s g := (rc, s, snd (tcp_send_ack s source_ip g)) in
  if truthy (Z.land (Tcp.flags header) RIX_NET_TCP_FLAG_RST) then
    (11, with_connected 0 (snd (transition TcpControl.RIX_TCP_EVENT_CLOSE s)), g)
  else if truthy (Z.land (Tcp.flags header) RIX_NET_TCP_FLAG_SYN) && bool_decide (tcp_state s = TcpControl.RIX_TCP_SYN_SENT)
       && (acknowledgment header =? u32 (tcp_seq s + 1)) then
    let s := with_tcp (set_tcp_sequence (u32 (tcp_seq s + 1)) (tcp s)) s in
    let s := with_tcp (set_tcp_acknowledgment (u32 (sequence header + 1)) (tcp s)) s in
    let '(rc, s) := transition TcpControl.RIX_TCP_EVENT_SYN_ACK s in
    if truthy rc then (-1, s, g) else acked 11 (with_connected 1 s) g
  else if negb (bool_decide (tcp_state s = TcpControl.RIX_TCP_ESTABLISHED)) && negb (bool_decide (tcp_state s = TcpControl.RIX_TCP_CLOSE_WAIT)) then (13, s, g)
  else
    let payload := length packet in
    let fin := b2z (truthy (Z.land (Tcp.flags header) RIX_NET_TCP_FLAG_FIN)) in
    if sequence header <? tcp_ack s then acked 14 s g
    else if tcp_ack s <? sequence header then
      let '(rc, s) := tcp_hold_segment s (sequence header) packet fin in
      if truthy rc then (-1, s, g) else acked 14 s g
    else
      let '(rc, s) := tcp_queue_payload s (sequence header) packet fin in
      if truthy rc then (-1, s, g)
      else
        let '(rc, s) := tcp_drain_reassembly s in
        if truthy rc then (-1, s, g)
        else if truthy payload || truthy fin then acked 11 s g else (0, s, g).

Definition tcp_match (header : rix_net_tcp_header_t) (source_ip : Z) (s : rix_net_socket_t) : bool :=
  truthy (used s) && (type s =? RIX_NET_SOCKET_TCP) && (port (local s) =? destination_port header)
  && (address (peer s) =? source_ip) && (port (peer s) =? source_port header).

Definition dispatch_external_tcp (t : rix_net_socket_table_t) (packet : rix_net_packet_t) (source_ip destination_ip : Z) (g : net)
  : Z * rix_net_socket_table_t * net :=
  if negb (truthy source_ip) || negb (truthy destination_ip) then (-1, t, g)
  else match rix_net_tcp_pull (Some packet) source_ip destination_ip (Some stack_tcp) with
       | (0, Some header, Some packet) =>
           match find_socket (tcp_match header source_ip) t with
           | Some i =>
               let '(rc, s, g) := tcp_input (socket t i) header packet source_ip g in (rc, on_socket i (fun _ => s) t, g)
           | None => (2, t, g)
           end
       | _ => (-1, t, g)
       end.

Definition stack_ip_header : rix_net_ipv4_header_t :=
  {| source := 0; destination := 0; protocol := 0; ttl := 0; identification := 0; flags_fragment := 0; total_length := 0 |}.

(** Every raw socket gets a copy of an echo reply. *)
Definition dispatch_icmp (t : rix_net_socket_table_t) (packet : rix_net_packet_t) (source_ip : Z) : Z * rix_net_socket_table_t :=
  let n := length packet in
  match data_of packet with
  | Some b =>
      if (n <? 8) || negb (aget 0 b 0 =? RIX_NET_ICMP_ECHO_REPLY) || negb (aget 0 b 1 =? 0) || negb (rix_net_checksum b 0 n =? 0) then (0, t)
      else
        let wants s := truthy (used s) && (type s =? RIX_NET_SOCKET_RAW_ICMP) in
        let queued s := queue_packet s (Some b) n {| address := source_ip; port := 0 |} in
        (b2z (existsb (fun s => wants s && (fst (queued s) =? 0)) t), (fun s => if wants s then snd (queued s) else s) <$> t)
  | None => (0, t)
  end.

Definition dispatch_udp (t : rix_net_socket_table_t) (packet : rix_net_packet_t) (source_ip destination_ip : Z) : Z * rix_net_socket_table_t :=
  match rix_net_udp_pull (Some packet) source_ip destination_ip (Some stack_udp_header) with
  | (0, Some udp, Some packet) =>
      match find_socket (fun s => truthy (used s) && (type s =? RIX_NET_SOCKET_UDP) && (port (local s) =? Udp.destination_port udp)) t with
      | Some i => (1, on_socket i (fun s => snd (queue_packet s (data_of packet) (length packet) {| address := source_ip; port := Udp.source_port udp |})) t)
      | None => (0, t)
      end
  | _ => (0, t)
  end.

Definition dispatch_external_ipv4 (t : rix_net_socket_table_t) (g : net) : Z * rix_net_socket_table_t * net :=
  match default_stack g with
  | None => (0, t, g)
  | Some _ =>
      let '(_, s, w) := rix_net_stack_poll (default_stack g) 0 (interface g) (wire g) in
      let '(took, s, packet) := rix_net_stack_take_ipv4 s (Some stack_packet) in
      let g := with_stack s w g in
      if negb (took =? 1) then (0, t, g)
      else match rix_net_ipv4_pull packet (Some stack_ip_header) with
           | (0, Some ip, Some packet) =>
               if protocol ip =? RIX_NET_IP_PROTO_TCP then dispatch_external_tcp t packet (source ip) (destination ip) g
               else if protocol ip =? RIX_NET_IP_PROTO_ICMP then let '(rc, t) := dispatch_icmp t packet (source ip) in (rc, t, g)
               else if negb (protocol ip =? RIX_NET_IP_PROTO_UDP) then (0, t, g)
               else let '(rc, t) := dispatch_udp t packet (source ip) (destination ip) in (rc, t, g)
           | _ => (0, t, g)
           end
  end.

Definition rix_net_socket_poll (t : rix_net_socket_table_t) (g : net) : Z * rix_net_socket_table_t * net :=
  match default_stack g with None => (-1, t, g) | Some _ => dispatch_external_ipv4 t g end.

(** What [rix_net_socket_receive] does once it has polled: the caller's buffer
    and the endpoint it hands out come back with the table. *)
Definition dequeue (t : rix_net_socket_table_t) (descriptor : Z) (buffer : list Z) (capacity : Z) : Z * list Z * option rix_net_endpoint_t * rix_net_socket_table_t :=
  let s := socket t descriptor in
  let q := receive s in
  if negb (truthy (count q)) then
    if (type s =? RIX_NET_SOCKET_TCP) && bool_decide (tcp_state s = TcpControl.RIX_TCP_CLOSE_WAIT) then (0, buffer, None, t)
    else (if truthy (Z.land (flags s) RIX_NET_SOCKET_NONBLOCK) then -2 else -3, buffer, None, t)
  else
    let p := aget stack_packet (packets q) (head q) in
    let n := length p in
    if capacity <? n then (-4, buffer, None, t)
    else
      let q' := {| packets := packets q; peers := peers q; head := u64 (head q + 1) mod RIX_NET_SOCKET_QUEUE; count := count q - 1 |} in
      (n, copy (Z.to_nat n) buffer 0 (default [] (data_of p)) 0, Some (aget no_endpoint (peers q) (head q)), on_socket descriptor (with_receive q') t).

Definition rix_net_socket_receive (t : rix_net_socket_table_t) (descriptor : Z) (buffer : list Z) (capacity : Z) (g : net)
  : Z * list Z * option rix_net_endpoint_t * rix_net_socket_table_t * net :=
  if negb (valid_descriptor t descriptor) || negb (truthy capacity) then (-1, buffer, None, t, g)
  else
    let s := socket t descriptor in
    if truthy (Z.land (shutdown s) RIX_NET_SOCKET_SHUT_RD) then (0, buffer, None, t, g)
    else
      let '(_, t, g) := if negb (truthy (count (receive s))) && ((type s =? RIX_NET_SOCKET_UDP) || (type s =? RIX_NET_SOCKET_TCP)
                             || (type s =? RIX_NET_SOCKET_RAW_ICMP))
                        then dispatch_external_ipv4 t g else (0, t, g) in
      let '(rc, buffer, from, t) := dequeue t descriptor buffer capacity in (rc, buffer, from, t, g).
End Net.
Arguments net : clear implicits.
