(* ===== verification/SocketInv.v ===== *)
(** * What socket tables hold ([kernel/net/socket.c])

    The shape of a socket table and of the received-packet queue of the stack,
    and that every operation of the socket interface keeps it. *)
From stdpp Require Import base tactics list numbers.
From S2P Require Import Prelude Bytes NetPacket Ethernet Arp Ipv4 Udp Tcp Ipv6 Device Ring NetStack Socket.

(** ** Parsers keep packets well formed *)

Lemma be32_field_u32 b o : Forall is_u8 b -> is_u32 (get_be32 b o).
Proof.
  intros Hb. unfold get_be32. pose proof (aget_u8 b o Hb). pose proof (aget_u8 b (o + 1) Hb). pose proof (aget_u8 b (o + 2) Hb). pose proof (aget_u8 b (o + 3) Hb).
  rewrite join32 by done. unfold is_u8, is_u32 in *. lia.
Qed.

Lemma tcp_pull_wf p s d hd h q :
  packet_wf p -> rix_net_tcp_pull (Some p) s d (Some hd) = (0, Some h, Some q) ->
  packet_wf q /\ is_u32 (sequence h) /\ is_u32 (acknowledgment h) /\ length q <= length p - 20.
Proof.
  intros Hp. unfold rix_net_tcp_pull. cbn [rix_net_packet_length]. case_if; [done|]. rewrite data_ok by done. cbv zeta. case_if; [done|]. case_if; [done|].
  case_if; [done|]. edestruct (pull_ok p (Z.shiftr (aget 0 (bytes p) (start p + 12)) 4 * 4) Hp) as [-> Hw]; [unfold RIX_NET_TCP_HEADER_LENGTH in *; lia|].
  intros [= <- <-]. split; [done|]. split; [apply be32_field_u32, Hp|]. split; [apply be32_field_u32, Hp|]. cbn [length set_bounds]. unfold RIX_NET_TCP_HEADER_LENGTH in *. lia.
Qed.

Lemma udp_pull_wf p s d hd h q : packet_wf p -> rix_net_udp_pull (Some p) s d (Some hd) = (0, Some h, Some q) -> packet_wf q /\ length q <= length p - 8.
Proof.
  intros Hp. unfold rix_net_udp_pull. cbn [rix_net_packet_length]. case_if; [done|]. rewrite data_ok by done. cbv zeta. case_if; [done|]. case_if; [done|]. case_if; [done|].
  unfold RIX_NET_UDP_HEADER_LENGTH in *. destruct (pull_ok p 8 Hp ltac:(lia)) as [-> Hw]. intros [= <- <-]. cbn [length set_bounds] in *. split; [|lia].
  apply (shrink_wf _ _ Hw). cbn [length set_bounds]. lia.
Qed.

Lemma ipv4_pull_wf p hd h q : packet_wf p -> rix_net_ipv4_pull (Some p) (Some hd) = (0, Some h, Some q) -> packet_wf q /\ length q <= length p - 20.
Proof.
  intros Hp E. pose proof (ipv4_pull_cases p hd Hp) as H. cbv zeta in H. rewrite E in H.
  destruct H as [(? & _)|[(? & _)|[(? & _)|(_ & Hl & _ & _ & _ & p' & [= <-] & Hw & Hc)]]]; try done.
  split; [done|]. rewrite <- (length_contents q Hw), Hc, length_take, length_drop. pose proof (length_contents p Hp). lia.
Qed.

Lemma load32_u32 l k : Forall is_u8 l -> is_u32 (load32 l k).
Proof.
  intros Hl. assert (Hb : forall j n, 0 <= n <= 24 -> 0 <= Z.shiftl (aget 0 l j) n < 2 ^ 32).
  { intros j n Hn. pose proof (aget_u8 l j Hl) as Hj. unfold is_u8 in Hj. rewrite Z.shiftl_mul_pow2 by lia. pose proof (Z.pow_le_mono_r 2 n 24 ltac:(lia) ltac:(lia)). nia. }
  unfold load32, is_u32. rewrite <- (Z.shiftl_0_r (aget 0 l k)). apply lor_range; [lia|apply lor_range; [lia|apply lor_range; [lia|apply Hb; lia..]|apply Hb; lia]|apply Hb; lia].
Qed.

Lemma be32_u32 v : is_u32 v -> is_u32 (be32 v).
Proof.
  intros Hv. rewrite be32_sum by done. pose proof (u8_range v). pose proof (u8_range (Z.shiftr v 8)). pose proof (u8_range (Z.shiftr v 16)). pose proof (u8_range (Z.shiftr v 24)).
  unfold is_u8, is_u32 in *. lia.
Qed.

Lemma ipv4_source p hd h q : packet_wf p -> rix_net_ipv4_pull (Some p) (Some hd) = (0, Some h, Some q) -> is_u32 (source h) /\ is_u32 (destination h).
Proof.
  intros Hp E. pose proof (ipv4_pull_cases p hd Hp) as H. cbv zeta in H. rewrite E in H.
  destruct H as [(? & _)|[(? & _)|[(? & _)|(_ & _ & _ & _ & [= ->] & _)]]]; try done. cbn. split; by apply be32_u32, load32_u32, contents_u8.
Qed.

(** ** Copying into a packet *)

Lemma data_of_wf p : packet_wf p -> data_of p = Some (contents p).
Proof. intros Hp. unfold data_of. by rewrite data_ok. Qed.

(** A copy holds what was given, if it fits behind the headroom. *)
Lemma packet_copy_spec p d n rc q :
  packet_wf p -> Forall is_u8 d -> 0 <= n <= llen d -> packet_copy p (Some d) n = (rc, q) ->
  packet_wf q /\ (if n <=? RIX_NET_FRAME_CAPACITY - RIX_NET_HEADROOM then rc = 0 /\ contents q = take (Z.to_nat n) d else rc = -1).
Proof.
  intros Hp Hd Hn. unfold packet_copy. rewrite andb_false_r, orb_false_l. destruct (init_packet p Hp) as (q0 & E0 & Hw0 & Hs0 & Hl0 & Hc0).
  injection E0 as <-. unfold RIX_NET_HEADROOM in *. rewrite capacity_val. case_if; [intros [= <- <-]; split; [done|]; case_if; [lia|done]|].
  destruct (decide (n <= 1516)) as [Hf|Hf].
  - rewrite (proj2 (Z.leb_le n (1580 - 64))) by lia. edestruct (put_ok _ n Hw0) as [-> Hw]; [lia|rewrite Hs0, Hl0, capacity_val; lia|].
    cbn [start length set_bounds bytes] in *. intros [= <- <-]. set (d' := take (Z.to_nat n) d).
    assert (Hd' : llen d' = n) by (unfold d'; rewrite length_take; lia).
    destruct (put_payload_spec (set_bounds 64 0 p) d' Hw0) as [Hw1 Hc1]; [cbn [start length set_bounds]; rewrite capacity_val; lia|by apply Forall_take|].
    assert (E : set_bytes (copy (Z.to_nat n) (bytes p) (64 + 0) d 0) (set_bounds 64 (0 + n) p) = put_payload (set_bounds 64 0 p) d').
    { unfold put_payload, set_bytes, set_bounds. cbn [bytes start length]. rewrite Hd'. f_equal. replace (List.length d') with (Z.to_nat n) by lia.
      pose proof (proj1 Hp) as Hcap. rewrite capacity_val in Hcap. apply list_ext_aget; [by rewrite !length_copy|].
      intros i Hi. rewrite length_copy in Hi. rewrite !aget_copy by lia. case_if; [|done]. unfold d'. symmetry. apply aget_take. lia. }
    change (set_bounds 64 (0 + n) (set_bounds 64 0 p)) with (set_bounds 64 (0 + n) p). cbn [default]. rewrite E. split; [done|]. split; [done|]. by rewrite Hc1, Hc0.
  - rewrite (proj2 (Z.leb_gt n (1580 - 64))) by lia. unfold rix_net_packet_put. cbn [start length set_bounds]. rewrite capacity_val.
    rewrite (u64_id (1580 - 64 - 0)) by (unfold is_u64; lia). rewrite (proj2 (Z.ltb_lt _ n)) by lia. rewrite orb_true_r. intros [= <- <-]. done.
Qed.

(** ** The invariant *)

Definition endpoint_ok (e : rix_net_endpoint_t) : Prop := is_u32 (address e) /\ is_u16 (port e).

(** A name a socket goes by: loopback address, port not zero. *)
Definition name_ok (e : rix_net_endpoint_t) : Prop := address e = RIX_NET_SOCKET_LOOPBACK /\ is_u16 (port e) /\ port e <> 0.

Record queue_ok (q : rix_net_socket_queue_t) : Prop := {
  q_packets : llen (packets q) = RIX_NET_SOCKET_QUEUE;
  q_peers : llen (peers q) = RIX_NET_SOCKET_QUEUE;
  q_head : 0 <= head q < RIX_NET_SOCKET_QUEUE;
  q_count : 0 <= count q <= RIX_NET_SOCKET_QUEUE;
  q_wf : Forall packet_wf (packets q);
  q_from : Forall endpoint_ok (peers q) }.

Record socket_ok (s : rix_net_socket_t) : Prop := {
  s_receive : queue_ok (receive s);
  s_pending : llen (pending_peers s) = RIX_NET_SOCKET_QUEUE;
  s_pending_ok : Forall endpoint_ok (pending_peers s);
  s_pending_head : 0 <= pending_head s < RIX_NET_SOCKET_QUEUE;
  s_pending_count : 0 <= pending_count s <= RIX_NET_SOCKET_QUEUE;
  s_backlog : 0 <= backlog s <= RIX_NET_SOCKET_QUEUE;
  s_slots : llen (reassembly s) = RIX_NET_TCP_REASSEMBLY_SLOTS;
  s_slots_ok : Forall (fun r => packet_wf (slot_packet r)) (reassembly s);
  s_tcp : is_u32 (tcp_seq s) /\ is_u32 (tcp_ack s);
  s_peer : endpoint_ok (peer s);
  s_name : used s <> 0 -> name_ok (local s) }.

Definition table_ok (t : rix_net_socket_table_t) : Prop := llen t = RIX_NET_SOCKET_MAX /\ Forall socket_ok t.

Lemma no_socket_ok : socket_ok no_socket.
Proof.
  assert (He : endpoint_ok no_endpoint) by (split; unfold is_u32, is_u16; cbn; lia).
  split; unfold RIX_NET_SOCKET_QUEUE; cbn [receive pending_peers pending_head pending_count backlog reassembly tcp_seq tcp_ack tcp peer used no_socket]; try (done || lia).
  - split; cbn [packets peers head count]; unfold RIX_NET_SOCKET_QUEUE; try (done || lia); apply Forall_replicate; [apply stack_packet_ok|done].
  - by apply Forall_replicate.
  - apply Forall_replicate, stack_packet_ok.
Qed.

Lemma socket_ok_at t i : table_ok t -> socket_ok (socket t i).
Proof. intros [_ H]. by apply (Forall_aget socket_ok), no_socket_ok. Qed.

Lemma on_socket_ok i f t : table_ok t -> (socket_ok (socket t i) -> socket_ok (f (socket t i))) -> table_ok (on_socket i f t).
Proof. intros Ht Hf. unfold on_socket. pose proof (socket_ok_at t i Ht) as Hs. destruct Ht as [Hl H]. split; [by rewrite length_aset|]. apply Forall_aset; auto. Qed.

Lemma socket_on i f t : table_ok t -> 0 <= i < RIX_NET_SOCKET_MAX -> socket (on_socket i f t) i = f (socket t i).
Proof. intros [Hl _] Hi. unfold socket, on_socket. apply aget_aset_eq. unfold RIX_NET_SOCKET_MAX in *. lia. Qed.

Lemma socket_off i j f t : 0 <= i -> 0 <= j -> i <> j -> socket (on_socket i f t) j = socket t j.
Proof. intros. by apply aget_aset_ne. Qed.

Lemma find_socket_Some f t i : table_ok t -> find_socket f t = Some i -> 0 <= i < RIX_NET_SOCKET_MAX /\ f (socket t i) = true.
Proof.
  intros [Hl _] E. unfold find_socket in E. pose proof (first_index_spec f t 0) as H. destruct (first_index f t 0) as [k|]; [|done]. injection E as <-.
  destruct H as (_ & (x & Hx & Hf) & _). rewrite Nat.sub_0_r in Hx. split; [apply lookup_lt_Some in Hx; lia|].
  unfold socket, aget. by rewrite Nat2Z.id, Hx.
Qed.

Lemma find_socket_None f t i : table_ok t -> find_socket f t = None -> 0 <= i < RIX_NET_SOCKET_MAX -> f (socket t i) = false.
Proof.
  intros [Hl _] E Hi. unfold find_socket in E. pose proof (first_index_spec f t 0) as H. destruct (first_index f t 0) as [k|]; [done|].
  apply H. unfold socket, aget. destruct (lookup_lt_is_Some_2 t (Z.to_nat i)) as [x Hx]; [lia|]. rewrite Hx. by eapply list_elem_of_lookup_2.
Qed.

Lemma valid_range t d : valid_descriptor t d = true -> 0 <= d < RIX_NET_SOCKET_MAX /\ used (socket t d) <> 0.
Proof. unfold valid_descriptor, truthy. intros H. bool_to_prop. done. Qed.

(** ** The receive queue *)

(** The datagrams waiting, oldest first: bytes and origin. *)
Definition queued (q : rix_net_socket_queue_t) : list (list Z * rix_net_endpoint_t) :=
  zip (contents <$> ring RIX_NET_SOCKET_QUEUE stack_packet (packets q) (head q) (count q))
      (ring RIX_NET_SOCKET_QUEUE no_endpoint (peers q) (head q) (count q)).

Lemma length_waiting q : queue_ok q -> llen (queued q) = count q.
Proof.
  intros [_ _ _ Hc _ _]. unfold queued. rewrite length_zip, length_fmap.
  pose proof (length_ring RIX_NET_SOCKET_QUEUE stack_packet (packets q) (head q) (count q) ltac:(lia)).
  pose proof (length_ring RIX_NET_SOCKET_QUEUE no_endpoint (peers q) (head q) (count q) ltac:(lia)). lia.
Qed.

(** Queueing appends at the back or, if there is no room or the data do not
    fit a packet, leaves the queue as it was. *)
Lemma queue_packet_spec s d n from rc s' :
  queue_ok (receive s) -> Forall is_u8 d -> 0 <= n <= llen d -> endpoint_ok from -> queue_packet s (Some d) n from = (rc, s') ->
  s' = with_receive (receive s') s /\ queue_ok (receive s') /\
  (rc = 0 /\ queued (receive s') = queued (receive s) ++ [(take (Z.to_nat n) d, from)] /\ n <> 0 /\ count (receive s) < RIX_NET_SOCKET_QUEUE \/
   rc = -1 /\ queued (receive s') = queued (receive s) /\
     (n = 0 \/ RIX_NET_FRAME_CAPACITY - RIX_NET_HEADROOM < n \/ count (receive s) = RIX_NET_SOCKET_QUEUE)).
Proof.
  intros Hq Hd Hn Hfrom. destruct Hq as [H1 H2 H3 H4 H5 H6]. unfold queue_packet, RIX_NET_HEADROOM. cbn [is_null orb]. rewrite capacity_val.
  unfold RIX_NET_SOCKET_QUEUE in *. destruct (negb (truthy n) || _ || _) eqn:Eg.
  { intros [= <- <-]. split; [by destruct s|]. split; [split; done|]. right. split; [done|]. split; [done|]. unfold truthy in Eg. bool_to_prop. destruct Eg as [Eg|Eg]; bool_to_prop; [destruct Eg as [Eg|Eg]; bool_to_prop; lia|lia]. }
  unfold truthy in Eg. bool_to_prop. rewrite u64_id by (unfold is_u64; lia). set (tail := (head (receive s) + count (receive s)) mod 8).
  assert (Hp : packet_wf (aget stack_packet (packets (receive s)) tail)) by (apply (Forall_aget packet_wf); [done|apply stack_packet_ok]).
  destruct (packet_copy _ _ _) as [c p] eqn:Ec. destruct (packet_copy_spec _ _ _ _ _ Hp Hd Hn Ec) as [Hw Hc]. rewrite capacity_val in Hc. unfold RIX_NET_HEADROOM in Hc.
  destruct (n <=? 1580 - 64) eqn:Ef; bool_to_prop.
  - destruct Hc as [-> Hc]. intros [= <- <-]. split; [done|]. cbn [receive with_receive]. rewrite u64_id by (unfold is_u64; lia). split.
    { split; cbn [packets peers head count]; unfold RIX_NET_SOCKET_QUEUE; rewrite ?length_aset; try (done || lia); by apply Forall_aset. }
    left. split; [done|]. split; [|lia]. unfold queued. cbn [packets peers head count]. unfold RIX_NET_SOCKET_QUEUE, tail. rewrite !ring_push by lia.
    rewrite fmap_app, zip_with_app; [cbn; by rewrite Hc|]. rewrite length_fmap.
    pose proof (length_ring 8 stack_packet (packets (receive s)) (head (receive s)) (count (receive s)) ltac:(lia)).
    pose proof (length_ring 8 no_endpoint (peers (receive s)) (head (receive s)) (count (receive s)) ltac:(lia)). lia.
  - subst c. intros [= <- <-]. split; [done|]. cbn [receive with_receive]. split.
    { split; cbn [packets peers head count]; unfold RIX_NET_SOCKET_QUEUE; rewrite ?length_aset; try (done || lia). by apply Forall_aset. }
    right. split; [done|]. split; [|lia]. unfold queued. cbn [packets peers head count]. unfold RIX_NET_SOCKET_QUEUE, tail. by rewrite ring_beyond by lia.
Qed.

Lemma socket_ok_receive s q : socket_ok s -> queue_ok q -> socket_ok (with_receive q s).
Proof. intros [] Hq. by split. Qed.

(** ** Sockets stay well formed *)

Ltac keep_socket :=
  repeat match goal with H : socket_ok _ |- _ => destruct H end; split;
  cbn [receive pending_peers pending_head pending_count backlog reassembly tcp_seq tcp_ack tcp peer local used with_used with_connected with_flags with_shutdown
       with_listening with_backlog with_pending_peers with_pending_head with_pending_count with_local with_peer with_tcp with_receive with_reassembly
       TcpControl.sequence TcpControl.acknowledgment] in *; try done.

Lemma with_tcp_ok s c : socket_ok s -> is_u32 (TcpControl.sequence c) -> is_u32 (TcpControl.acknowledgment c) -> socket_ok (with_tcp c s).
Proof. intros. by keep_socket. Qed.

Lemma transition_cases e s :
  (exists n, TcpControl.next_state (tcp_state s) e = Some n /\ transition e s = (0, with_tcp (set_tcp_state n (tcp s)) s)) \/
  (TcpControl.next_state (tcp_state s) e = None /\ transition e s = (-1, s)).
Proof.
  unfold transition, TcpControl.rix_tcp_transition, tcp_state. destruct (TcpControl.next_state _ e) as [n|]; [left; by exists n|right]. split; [done|]. by destruct s.
Qed.

Lemma transition_ok e s : socket_ok s -> socket_ok (snd (transition e s)).
Proof. intros Hs. destruct (transition_cases e s) as [(n & _ & ->)|[_ ->]]; [|done]. apply with_tcp_ok; [done|apply (s_tcp _ Hs)..]. Qed.

Lemma queue_packet_ok s d n from :
  socket_ok s -> Forall is_u8 d -> 0 <= n <= llen d -> endpoint_ok from -> socket_ok (snd (queue_packet s (Some d) n from)).
Proof.
  intros Hs Hd Hn Hf. destruct (queue_packet _ _ _ _) as [rc s'] eqn:E. destruct (queue_packet_spec _ _ _ _ _ _ (s_receive _ Hs) Hd Hn Hf E) as (Es & Hq & _).
  cbn [snd]. rewrite Es. by apply socket_ok_receive.
Qed.

Lemma packet_data p : packet_wf p -> Forall is_u8 (contents p) /\ 0 <= length p <= llen (contents p).
Proof. intros Hp. split; [by apply contents_u8|]. rewrite length_contents by done. destruct Hp as (_ & _ & H & _). lia. Qed.

Lemma tcp_queue_payload_ok s seq p fin : socket_ok s -> packet_wf p -> socket_ok (snd (tcp_queue_payload s seq p fin)).
Proof.
  intros Hs Hp. destruct (packet_data p Hp) as [Hd Hn]. unfold tcp_queue_payload. case_if; [done|].
  assert (H1 : socket_ok (snd (if truthy (length p) then queue_packet s (data_of p) (length p) (peer s) else (0, s)))).
  { case_if; [|done]. rewrite data_of_wf by done. by apply queue_packet_ok, s_peer. }
  destruct (if truthy (length p) then _ else _) as [rc s1]. cbn [snd] in H1. case_if; [done|].
  set (s2 := with_tcp _ s1). assert (H2 : socket_ok s2) by (apply with_tcp_ok; [done|apply (s_tcp _ H1)|apply u32_range]).
  case_if; [|done]. pose proof (transition_ok TcpControl.RIX_TCP_EVENT_FIN s2 H2). by destruct (transition _ s2).
Qed.

Lemma tcp_hold_segment_ok s seq p fin : socket_ok s -> packet_wf p -> socket_ok (snd (tcp_hold_segment s seq p fin)).
Proof.
  intros Hs Hp. destruct (packet_data p Hp) as [Hd Hn]. unfold tcp_hold_segment. case_if; [done|]. destruct (first_index _ _ _) as [i|]; [|done].
  destruct (packet_copy _ _ _) as [rc q] eqn:E. rewrite data_of_wf in E by done.
  destruct (packet_copy_spec _ _ _ _ _ (Forall_aget (fun r => packet_wf (slot_packet r)) no_slot _ (Z.of_nat i) (s_slots_ok _ Hs) stack_packet_ok) Hd Hn E) as [Hw _].
  pose proof Hs as []. case_if; split; cbn; rewrite ?length_aset; try done; by apply (Forall_aset (fun r => packet_wf (slot_packet r))).
Qed.

Lemma drain_slot_ok i b s : socket_ok s -> match drain_slot i (b, s) with inl (_, s') => socket_ok s' | inr s' => socket_ok s' end.
Proof.
  intros Hs. unfold drain_slot. case_if; [done|].
  pose proof (tcp_queue_payload_ok s (slot_sequence (aget no_slot (reassembly s) i)) _ (slot_fin (aget no_slot (reassembly s) i)) Hs
    (Forall_aget (fun r => packet_wf (slot_packet r)) no_slot _ i (s_slots_ok _ Hs) stack_packet_ok)) as H1.
  pose proof (Forall_aget (fun r => packet_wf (slot_packet r)) no_slot _ i (s_slots_ok _ Hs) stack_packet_ok) as Hr.
  cbn beta in *. destruct (tcp_queue_payload _ _ _ _) as [rc s1]. cbn [snd] in H1. case_if; [done|].
  destruct H1; split; cbn; rewrite ?length_aset; try done. by apply (Forall_aset (fun r => packet_wf (slot_packet r))).
Qed.

Lemma drain_loop_ok k s : socket_ok s -> socket_ok (snd (drain_loop k s)).
Proof.
  revert s. induction k as [|k IH]; intros s Hs; [done|]. cbn [drain_loop].
  pose proof (for_inv (fun _ '(_, s) => socket_ok s) socket_ok 0 RIX_NET_TCP_REASSEMBLY_SLOTS drain_slot (false, s) ltac:(done) Hs) as H.
  destruct (for_ _ _ _ _) as [[b s']|s'].
  - assert (Hs' : socket_ok s') by (apply H; intros i [b0 s0] _; apply drain_slot_ok). destruct b; [by apply IH|done].
  - apply H. intros i [b0 s0] _. apply drain_slot_ok.
Qed.

Lemma tcp_input_ok {W} `{!Nic W, !Clock W} s h p ip (g : net W) :
  socket_ok s -> packet_wf p -> socket_ok (snd (fst (tcp_input s h p ip g))).
Proof.
  intros Hs Hp. unfold tcp_input. cbv zeta. case_if.
  { pose proof (transition_ok TcpControl.RIX_TCP_EVENT_CLOSE s Hs). cbn. by keep_socket. }
  case_if.
  { set (s2 := with_tcp _ _). assert (H2 : socket_ok s2) by (apply with_tcp_ok; [apply with_tcp_ok; [done|apply u32_range|apply (s_tcp _ Hs)]|apply u32_range..]).
    pose proof (transition_ok TcpControl.RIX_TCP_EVENT_SYN_ACK s2 H2). destruct (transition _ s2) as [rc s3]. case_if; [done|]. cbn in *. by keep_socket. }
  case_if; [done|]. case_if; [done|]. case_if.
  { pose proof (tcp_hold_segment_ok s (sequence h) p (b2z (truthy (Z.land (Tcp.flags h) RIX_NET_TCP_FLAG_FIN))) Hs Hp).
    destruct (tcp_hold_segment _ _ _ _) as [rc s1]. by case_if. }
  pose proof (tcp_queue_payload_ok s (sequence h) p (b2z (truthy (Z.land (Tcp.flags h) RIX_NET_TCP_FLAG_FIN))) Hs Hp) as H1.
  destruct (tcp_queue_payload _ _ _ _) as [rc s1]. case_if; [done|]. pose proof (drain_loop_ok 5 s1 H1) as H2. unfold tcp_drain_reassembly.
  destruct (drain_loop 5 s1) as [rc2 s2]. case_if; [done|]. by case_if.
Qed.

(** ** The socket interface *)

Section Calls.
Context {W : Type} `{!Nic W, !Clock W, !NicLaws W}.

(** The calls of [socket.h] that change a table or the network, and the kernel's
    own polling of the stack ([kernel/main.c]). A sender passes a buffer of the
    length it states, a receiver one of its capacity. *)
Inductive call :=
  | Open (ty : Z)
  | Close (d : Z)
  | Shutdown (d how : Z)
  | Listen (d n : Z)
  | Accept (d : Z)
  | SetOption (d level option value : Z)
  | Bind (d : Z) (e : rix_net_endpoint_t)
  | Connect (d : Z) (e : rix_net_endpoint_t)
  | Send (d : Z) (data : list Z) (to : rix_net_endpoint_t)
  | Receive (d : Z) (buffer : list Z)
  | Poll
  | KernelPoll (now : Z).

Definition kernel_poll (now : Z) (g : net W) : net W :=
  let '(_, s, w) := rix_net_stack_poll (default_stack g) now (interface g) (wire g) in with_stack s w g.

Definition exec (c : call) (st : rix_net_socket_table_t * net W) : rix_net_socket_table_t * net W :=
  let '(t, g) := st in
  match c with
  | Open ty => (snd (rix_net_socket_open t ty), g)
  | Close d => (snd (rix_net_socket_close t d), g)
  | Shutdown d how => (snd (rix_net_socket_shutdown t d how), g)
  | Listen d n => (snd (rix_net_socket_listen t d n), g)
  | Accept d => (snd (rix_net_socket_accept t d), g)
  | SetOption d level option value => (snd (rix_net_socket_set_option t d level option value), g)
  | Bind d e => (snd (rix_net_socket_bind t d e), g)
  | Connect d e => let '(_, t, g) := rix_net_socket_connect t d e g in (t, g)
  | Send d data to => let '(_, t, g) := rix_net_socket_send t d (Some data) (llen data) to g in (t, g)
  | Receive d buffer => let '(_, _, _, t, g) := rix_net_socket_receive t d buffer (llen buffer) g in (t, g)
  | Poll => let '(_, t, g) := rix_net_socket_poll t g in (t, g)
  | KernelPoll now => (t, kernel_poll now g)
  end.

(** Arguments within their C types. *)
Definition call_ok (c : call) : Prop :=
  match c with
  | Bind _ e | Connect _ e => endpoint_ok e
  | Send _ data to => Forall is_u8 data /\ endpoint_ok to
  | _ => True
  end.

(** [P] holds of the packets the network holds for the sockets, given that it
    holds of those that come in. *)
Context (P : rix_net_packet_t -> Prop) (P_wf : forall p, P p -> packet_wf p)
  (P_in : forall p data, packet_wf p -> delivered (W := W) data -> contents p = drop 14 data -> P p).

Definition net_ok (g : net W) : Prop :=
  match default_stack g with Some s => rx_ok s /\ Forall P (rx s) | None => True end /\ is_u32 (tcp_next_iss g).

Lemma make_room_sub {A} (Q : A -> Prop) (l : list A) : Forall Q l -> Forall Q (make_room l).
Proof. intros H. unfold make_room. case_decide; [|done]. destruct l; [done|]. by inversion H. Qed.

Lemma stack_send_net p d g : net_ok g -> net_ok (snd (stack_send p d g)).
Proof.
  unfold net_ok, stack_send. destruct (default_stack g) as [s|] eqn:E.
  - intros [[Hs Hp] Hi]. destruct (send_ipv4_rx s p d (interface g) (wire g)) as (s' & E' & Hsame). destruct (rix_net_stack_send_ipv4 _ _ _ _ _) as [[[rc o] q] w].
    cbn [fst snd] in *. subst o. cbn. destruct (same_rx_ok _ _ Hsame Hs) as [Hs' ->]. done.
  - intros [_ Hi]. by split.
Qed.

Lemma ipv4_out_net r info d proto g o : net_ok g -> ipv4_out r info d proto g = Some o -> net_ok (snd o).
Proof. intros Hg. unfold ipv4_out. destruct (and_then _ _) as [[|?|?] q]; [|done..]. intros [= <-]. by apply stack_send_net. Qed.

Lemma tcp_out_net info s to ack flg data n g o : net_ok g -> tcp_out info s to ack flg data n g = Some o -> net_ok (snd o).
Proof. apply ipv4_out_net. Qed.

Lemma send_ack_net s ip g : net_ok g -> net_ok (snd (tcp_send_ack s ip g)).
Proof.
  intros Hg. unfold tcp_send_ack. destruct (rix_net_device_info _); [|done]. destruct (default_stack g) eqn:Ed; [|done]. case_if; [done|].
  destruct (tcp_out _ _ _ _ _ _ _ _) as [[sent g']|] eqn:E; [|done]. exact (tcp_out_net _ _ _ _ _ _ _ _ _ Hg E).
Qed.

Lemma tcp_input_net s h p ip g : net_ok g -> net_ok (snd (tcp_input s h p ip g)).
Proof.
  intros Hg. unfold tcp_input. cbv zeta. case_if; [done|]. case_if; [destruct (transition _ _); case_if; [done|by apply send_ack_net]|]. case_if; [done|].
  case_if; [by apply send_ack_net|]. case_if; [destruct (tcp_hold_segment _ _ _ _); case_if; [done|by apply send_ack_net]|].
  destruct (tcp_queue_payload _ _ _ _). case_if; [done|]. destruct (tcp_drain_reassembly _). case_if; [done|]. case_if; [by apply send_ack_net|done].
Qed.

Lemma kernel_poll_net now g : net_ok g -> net_ok (kernel_poll now g).
Proof.
  unfold net_ok, kernel_poll. destruct (default_stack g) as [s|] eqn:E.
  - intros [[Hs HP] Hi]. destruct (rix_net_stack_poll _ _ _ _) as [[rc o] w] eqn:Ep. destruct (poll_rx _ _ _ _ _ _ _ Hs Ep) as (s' & -> & Hs' & _ & Hrx). cbn.
    split; [|done]. split; [done|]. destruct Hrx as [->|(p & data & -> & Hp & Hd & Hc)]; [done|]. apply Forall_app. split; [by apply make_room_sub|]. constructor; [by eapply P_in|done].
  - intros [_ Hi]. by split.
Qed.

(** What a dispatch works on: nothing, or a packet off the queue. *)
Lemma dispatch_packet t g :
  net_ok g ->
  exists g1, net_ok g1 /\
    (dispatch_external_ipv4 t g = (0, t, g1) \/
     exists p, P p /\
       dispatch_external_ipv4 t g =
         match rix_net_ipv4_pull (Some p) (Some stack_ip_header) with
         | (0, Some ip, Some packet) =>
             if protocol ip =? RIX_NET_IP_PROTO_TCP then dispatch_external_tcp t packet (source ip) (destination ip) g1
             else if protocol ip =? RIX_NET_IP_PROTO_ICMP then let '(rc, t) := dispatch_icmp t packet (source ip) in (rc, t, g1)
             else if negb (protocol ip =? RIX_NET_IP_PROTO_UDP) then (0, t, g1)
             else let '(rc, t) := dispatch_udp t packet (source ip) (destination ip) in (rc, t, g1)
         | _ => (0, t, g1)
         end).
Proof.
  intros Hg. unfold dispatch_external_ipv4. pose proof (kernel_poll_net 0 g Hg) as Hp. unfold kernel_poll, net_ok in Hp. unfold net_ok in Hg.
  destruct (default_stack g) as [s|] eqn:E; [|exists g; split; [unfold net_ok; by rewrite E|by left]].
  destruct Hg as [[Hs _] Hi0]. destruct (rix_net_stack_poll (Some s) 0 _ _) as [[rc o] w] eqn:Ep. destruct (poll_rx _ _ _ _ _ _ _ Hs Ep) as (s' & -> & Hs' & _). cbn in Hp.
  destruct Hp as [[_ HP] _]. destruct (decide (initialized s' = 0)) as [Hi|Hi].
  { assert (Et : rix_net_stack_take_ipv4 (Some s') (Some stack_packet) = (0, Some s', Some stack_packet)) by (unfold rix_net_stack_take_ipv4; rewrite Hi; done).
    rewrite Et. exists (with_stack (Some s') w g). split; [done|]. by left. }
  pose proof (take_ipv4_spec s' stack_packet Hs' Hi) as Ht. destruct (rx s') as [|q rest] eqn:Er'.
  - rewrite Ht. exists (with_stack (Some s') w g). split; [unfold net_ok; cbn; by rewrite Er'|by left].
  - destruct Ht as (s2 & -> & Hs2 & Er & _). apply Forall_cons_1 in HP as [HPq HPr]. exists (with_stack (Some s2) w g). split; [unfold net_ok; cbn; by rewrite Er|].
    right. by exists q.
Qed.

Lemma dispatch_tcp_ok t p s d g : table_ok t -> packet_wf p -> net_ok g ->
  let '(_, t', g') := dispatch_external_tcp t p s d g in table_ok t' /\ net_ok g'.
Proof.
  intros Ht Hp Hg. unfold dispatch_external_tcp. case_if; [done|]. destruct (rix_net_tcp_pull _ _ _ _) as [[[|?|?] [h|]] [q|]] eqn:E; try done.
  destruct (find_socket _ t) as [i|] eqn:Ef; [|done]. destruct (tcp_pull_wf _ _ _ _ _ _ Hp E) as [Hq _].
  pose proof (tcp_input_ok (socket t i) h q s g (socket_ok_at t i Ht) Hq) as H1. pose proof (tcp_input_net (socket t i) h q s g Hg) as H2.
  destruct (tcp_input _ _ _ _ _) as [[rc s'] g']. split; [|done]. by apply on_socket_ok.
Qed.

Lemma dispatch_icmp_ok t p s : table_ok t -> packet_wf p -> is_u32 s -> table_ok (snd (dispatch_icmp t p s)).
Proof.
  intros Ht Hp Hs. unfold dispatch_icmp. rewrite data_of_wf by done. case_if; [done|]. destruct (packet_data p Hp) as [Hd Hn]. destruct Ht as [Hl Ht].
  split; [cbn [snd]; by rewrite length_fmap|]. cbn [snd]. apply Forall_fmap. eapply Forall_impl; [|exact Ht]. intros x Hx. cbn. case_if; [|done].
  apply queue_packet_ok; [done..|]. split; [done|]. cbn. unfold is_u16. lia.
Qed.

Lemma dispatch_udp_ok t p s d : table_ok t -> packet_wf p -> is_u32 s -> table_ok (snd (dispatch_udp t p s d)).
Proof.
  intros Ht Hp Hs. unfold dispatch_udp. destruct (rix_net_udp_pull _ _ _ _) as [[[|?|?] [h|]] [q|]] eqn:E; try done.
  destruct (find_socket _ t) as [i|] eqn:Ef; [|done]. destruct (udp_pull_wf _ _ _ _ _ _ Hp E) as [Hq _]. destruct (packet_data q Hq) as [Hd Hn]. cbn [snd].
  apply on_socket_ok; [done|]. intros Hx. rewrite data_of_wf by done. apply queue_packet_ok; [done..|]. split; [done|]. cbn.
  revert E. unfold rix_net_udp_pull. cbn [rix_net_packet_length]. case_if; [done|]. destruct (rix_net_packet_data p); [|done]. case_if; [done|]. case_if; [done|]. case_if; [done|].
  destruct (rix_net_packet_pull _ _) as [[[|?|?] ?] ?]; [|done..]. intros [= <- _]. apply u16_range.
Qed.

Lemma dispatch_ok t g : table_ok t -> net_ok g -> let '(_, t', g') := dispatch_external_ipv4 t g in table_ok t' /\ net_ok g'.
Proof.
  intros Ht Hg. destruct (dispatch_packet t g Hg) as (g1 & Hg1 & [->|(p & Hp & ->)]); [done|].
  destruct (rix_net_ipv4_pull _ _) as [[[|?|?] [ip|]] [q|]] eqn:E; try done. destruct (ipv4_pull_wf _ _ _ _ (P_wf _ Hp) E) as [Hq _].
  destruct (ipv4_source _ _ _ _ (P_wf _ Hp) E) as [Hs _]. case_if; [by apply dispatch_tcp_ok|]. case_if.
  - pose proof (dispatch_icmp_ok t q (source ip) Ht Hq Hs). by destruct (dispatch_icmp _ _ _).
  - case_if; [done|]. pose proof (dispatch_udp_ok t q (source ip) (destination ip) Ht Hq Hs). by destruct (dispatch_udp _ _ _ _).
Qed.

Lemma dequeue_ok t d buffer n : table_ok t -> table_ok (snd (dequeue t d buffer n)).
Proof.
  intros Ht. unfold dequeue. case_if; [by case_if|]. case_if; [done|]. cbn [snd]. apply on_socket_ok; [done|]. intros Hs. apply socket_ok_receive; [done|].
  pose proof (s_receive _ Hs) as []. unfold truthy in *. bool_to_prop. unfold RIX_NET_SOCKET_QUEUE in *. rewrite u64_id by (unfold is_u64; lia).
  pose proof (Z.mod_pos_bound (head (receive (socket t d)) + 1) 8 ltac:(lia)). split; cbn; unfold RIX_NET_SOCKET_QUEUE; try done; lia.
Qed.

Lemma receive_ok t d buffer g : table_ok t -> net_ok g ->
  let '(_, _, _, t', g') := rix_net_socket_receive t d buffer (llen buffer) g in table_ok t' /\ net_ok g'.
Proof.
  intros Ht Hg. unfold rix_net_socket_receive. case_if; [done|]. case_if; [done|].
  assert (Hx : let '(_, t', g') := if negb (truthy (count (receive (socket t d)))) && ((type (socket t d) =? RIX_NET_SOCKET_UDP) || (type (socket t d) =? RIX_NET_SOCKET_TCP)
                             || (type (socket t d) =? RIX_NET_SOCKET_RAW_ICMP)) then dispatch_external_ipv4 t g else (0, t, g) in table_ok t' /\ net_ok g').
  { case_if; [by apply dispatch_ok|done]. }
  destruct (if _ && _ then _ else _) as [[rc t1] g1]. destruct Hx as [Ht1 Hg1]. pose proof (dequeue_ok t1 d buffer (llen buffer) Ht1).
  by destruct (dequeue _ _ _ _) as [[[? ?] ?] ?].
Qed.

Lemma deliver_ok t i d n from r : table_ok t -> Forall is_u8 d -> 0 <= n <= llen d -> endpoint_ok from -> table_ok (snd (deliver t i (Some d) n from r)).
Proof.
  intros Ht Hd Hn Hf. unfold deliver. pose proof (queue_packet_ok (socket t i) d n from (socket_ok_at t i Ht) Hd Hn Hf).
  destruct (queue_packet _ _ _ _) as [rc s]. cbn [snd]. by apply on_socket_ok.
Qed.

Lemma name_endpoint e : name_ok e -> endpoint_ok e.
Proof. intros (H1 & H2 & _). split; [rewrite H1; unfold is_u32, RIX_NET_SOCKET_LOOPBACK; lia|done]. Qed.

Lemma local_ok t d : table_ok t -> used (socket t d) <> 0 -> name_ok (local (socket t d)).
Proof. intros Ht. apply (s_name _ (socket_ok_at t d Ht)). Qed.

Lemma tcp_exchange_wf a b sp dp seq ack flg d h p :
  is_u32 a -> is_u32 b -> Forall is_u8 d -> llen d <= 1496 -> tcp_exchange a b sp dp seq ack flg (Some d) (llen d) = Some (h, p) -> packet_wf p.
Proof.
  intros Ha Hb Hd Hl. unfold tcp_exchange. destruct (init_packet stack_packet stack_packet_ok) as (q0 & -> & Hw0 & Hs0 & Hl0 & Hc0). unfold RIX_NET_HEADROOM in *.
  destruct (rix_net_tcp_push _ _ _ _ _ _ _ _ _ _ _) as [[|?|?] q] eqn:E; [|done..].
  assert (Hnz : a <> 0 /\ b <> 0 /\ sp <> 0 /\ dp <> 0 /\ Z.land flg (not32 0x01ff) = 0).
  { revert E. unfold rix_net_tcp_push, truthy. case_if; [done|]. intros _. done. }
  destruct Hnz as (H1 & H2 & H3 & H4 & H5). edestruct (tcp_push_spec q0 a b sp dp seq ack flg 4096 d Hw0) as (p' & E' & Hw' & _); try done; [lia|rewrite capacity_val; lia|].
  rewrite E' in E. injection E as <-. destruct (rix_net_tcp_pull _ _ _ _) as [[[|?|?] [h'|]] [p2|]] eqn:Ep; try done. intros [= <- <-].
  by eapply tcp_pull_wf.
Qed.

Lemma response_ok : Forall is_u8 response /\ llen response = 114.
Proof. split; [|vm_compute; reflexivity]. apply Forall_forall. intros x Hx. assert (Hall : forallb (fun x => (0 <=? x) && (x <? 256)) response = true) by (vm_compute; reflexivity).
  rewrite forallb_forall in Hall. pose proof (Hall x Hx) as H. bool_to_prop. unfold is_u8. lia. Qed.

Lemma send_udp_ok t d data to : table_ok t -> used (socket t d) <> 0 -> Forall is_u8 data -> llen data <= RIX_NET_MTU -> endpoint_ok to ->
  table_ok (snd (send_udp t d data (llen data) to)).
Proof.
  intros Ht Hu Hd Hl [Ha Hpo]. destruct (local_ok t d Ht Hu) as (La & Lp & Ln). unfold send_udp.
  destruct (init_packet stack_packet stack_packet_ok) as (q0 & -> & Hw0 & Hs0 & Hl0 & Hc0). unfold RIX_NET_HEADROOM, RIX_NET_MTU in *.
  destruct (rix_net_udp_push _ _ _ _ _ _ _) as [[|?|?] q] eqn:E; [|done..].
  assert (Hnz : address to <> 0 /\ port to <> 0) by (revert E; unfold rix_net_udp_push, truthy; case_if; [done|]; intros _; done).
  edestruct (udp_push_spec q0 RIX_NET_SOCKET_LOOPBACK (address to) (port (local (socket t d))) (port to) data Hw0) as (p' & E' & Hw' & _);
    try done; [lia|rewrite capacity_val; lia|apply Hnz..|]. rewrite E' in E. injection E as <-.
  destruct (rix_net_udp_pull _ _ _ _) as [[[|?|?] h'] [p2|]] eqn:Ep; try done. destruct (find_socket _ t) as [i|]; [|done].
  destruct h' as [h'|]; [|revert Ep; unfold rix_net_udp_pull; repeat (case_if; [done|]); destruct (rix_net_packet_data p'); [|done]; repeat (case_if; [done|]); destruct (rix_net_packet_pull p' RIX_NET_UDP_HEADER_LENGTH) as [[[|?|?] ?] ?]; done].
  destruct (udp_pull_wf _ _ _ _ _ _ Hw' Ep) as [Hw2 _]. destruct (packet_data p2 Hw2) as [Hd2 Hn2]. rewrite data_of_wf by done. by apply deliver_ok, name_endpoint.
Qed.

Lemma be16_u16 v : is_u16 (be16 v).
Proof. apply u16_range. Qed.

Lemma echo_pull_wf p h q : packet_wf p -> rix_net_icmp_echo_pull (Some p) (Some stack_echo) = (0, Some h, Some q) ->
  packet_wf q /\ length q <= length p - 8 /\ is_u16 (identifier h) /\ is_u16 (Ipv4.sequence h).
Proof.
  intros Hp. unfold rix_net_icmp_echo_pull. cbn [rix_net_packet_length]. case_if; [done|]. rewrite data_ok by done. case_if; [done|].
  destruct (pull_ok p 8 Hp ltac:(lia)) as [-> Hw]. intros [= <- <-]. split; [done|]. split; [cbn; lia|]. split; apply be16_u16.
Qed.

Lemma send_raw_icmp_ok t d data to : table_ok t -> used (socket t d) <> 0 -> Forall is_u8 data -> llen data <= RIX_NET_MTU ->
  table_ok (snd (send_raw_icmp t d data (llen data) to)).
Proof.
  intros Ht Hu Hd Hl. pose proof (name_endpoint _ (local_ok t d Ht Hu)) as Hf. unfold send_raw_icmp. unfold RIX_NET_MTU in *.
  destruct (packet_copy _ _ _) as [rc p] eqn:E. destruct (packet_copy_spec _ _ (llen data) _ _ stack_packet_ok Hd ltac:(lia) E) as [Hw Hc]. rewrite capacity_val in Hc.
  unfold RIX_NET_HEADROOM in Hc. rewrite (proj2 (Z.leb_le (llen data) (1580 - 64))) in Hc by lia. destruct Hc as [-> Hc]. rewrite Nat2Z.id, firstn_all in Hc. change (truthy 0) with false. cbv iota.
  case_if; [|destruct (find_socket _ t); [apply deliver_ok; try done; lia|done]].
  destruct (rix_net_icmp_echo_pull _ _) as [[[|?|?] [h|]] [q|]] eqn:Ep; try done. destruct (echo_pull_wf _ _ _ Hw Ep) as (Hq & Hlq & Hid & Hseq).
  pose proof (length_contents p Hw) as Hlp. rewrite Hc in Hlp. destruct (packet_data q Hq) as [Hdq Hnq]. rewrite data_of_wf by done. pose proof (length_contents q Hq) as Hlc.
  destruct (init_packet stack_packet stack_packet_ok) as (q0 & -> & Hw0 & Hs0 & Hl0 & Hc0). unfold RIX_NET_HEADROOM in *.
  edestruct (icmp_push_spec q0 RIX_NET_ICMP_ECHO_REPLY (identifier h) (Ipv4.sequence h) (contents q) Hw0) as (p' & E' & Hw' & _); try done; [lia|rewrite capacity_val; lia|].
  rewrite Hlc in E'. rewrite E'. destruct (find_socket _ t); [|done]. destruct (packet_data p' Hw') as [Hdp Hnp]. rewrite data_of_wf by done. by apply deliver_ok.
Qed.

Lemma send_tcp_ok t d data to : table_ok t -> 0 <= d < RIX_NET_SOCKET_MAX -> used (socket t d) <> 0 -> Forall is_u8 data -> endpoint_ok to ->
  table_ok (snd (send_tcp t d data (llen data) to)).
Proof.
  intros Ht Hr Hu Hd [Ha Hpo]. pose proof (name_endpoint _ (local_ok t d Ht Hu)) as Hf. unfold send_tcp. case_if; [done|].
  destruct (tcp_exchange _ _ _ _ _ _ _ _ _) as [[h p]|]; [|done]. case_if; [done|]. set (t1 := on_socket d _ t).
  assert (Ht1 : table_ok t1) by (apply on_socket_ok; [done|]; intros Hs; apply with_tcp_ok; [done|apply u32_range|apply (s_tcp _ Hs)]). case_if.
  { destruct (first_index _ _ _); [|done]. apply deliver_ok; try done. lia. }
  unfold send_response. destruct response_ok as [Hresp Hrl]. destruct (tcp_exchange _ _ _ _ _ _ _ (Some response) _) as [[h2 p2]|] eqn:Ex; [|done]. case_if; [done|].
  assert (Hp2 : packet_wf p2) by (eapply tcp_exchange_wf; [..|exact Ex]; try done). set (t2 := on_socket d _ t1).
  assert (Ht2 : table_ok t2) by (apply on_socket_ok; [done|]; intros Hs; apply with_tcp_ok; [done|apply (s_tcp _ Hs)|apply u32_range]).
  destruct (packet_data p2 Hp2) as [Hd2 Hn2]. rewrite data_of_wf by done. by apply deliver_ok.
Qed.

(** Sending over the wire leaves the table alone. *)
Lemma send_out_net s data to g :
  net_ok g -> net_ok (snd (send_raw_icmp_external data (llen data) to g)) /\ net_ok (snd (send_udp_external s data (llen data) to g)) /\
    net_ok (snd (send_tcp_external s data (llen data) to g)).
Proof.
  intros Hg. assert (Hout : forall (o : option (Z * net W)) f, (forall x, o = Some x -> net_ok (snd x)) ->
    net_ok (snd (match o with Some (sent, g') => (f sent : Z, g') | None => (-1, g) end))).
  { intros [[sent g']|] f H; [exact (H _ eq_refl)|done]. }
  unfold send_raw_icmp_external, send_udp_external, send_tcp_external. destruct (rix_net_device_info _) as [info|]; [|done]. destruct (default_stack g) eqn:Eg; [|done].
  split; [case_if; [done|]; case_if; [done|]; destruct (packet_copy _ _ _)|split; [case_if; [done|]|case_if; [done|]; case_if; [done|]]].
  - apply (Hout _ (fun sent => if (sent <? 0) && negb (sent =? -2) then -1 else llen data)). intros x. by apply ipv4_out_net.
  - apply (Hout _ (fun sent => if (sent =? 0) || (sent =? -2) then llen data else -1)). intros x. by apply ipv4_out_net.
  - apply (Hout _ (fun sent => if (sent <? 0) && negb (sent =? -2) then -1 else llen data)). intros x. by apply tcp_out_net.
Qed.

Lemma socket_send_ok t d data to g : table_ok t -> net_ok g -> Forall is_u8 data -> endpoint_ok to ->
  let '(_, t', g') := rix_net_socket_send t d (Some data) (llen data) to g in table_ok t' /\ net_ok g'.
Proof.
  intros Ht Hg Hd Hto. unfold rix_net_socket_send. case_if; [done|]. case_if; [done|]. destruct (valid_range t d) as [Hr Hu]; [by destruct (valid_descriptor t d)|].
  set (to' := if truthy (connected (socket t d)) then peer (socket t d) else to).
  assert (Hto' : endpoint_ok to') by (unfold to'; case_if; [apply (s_peer _ (socket_ok_at t d Ht))|done]).
  assert (Hl : llen data <= RIX_NET_MTU) by lia. destruct (send_out_net (socket t d) data to' g Hg) as (O1 & O2 & O3).
  pose proof (send_raw_icmp_ok t d data to' Ht Hu Hd Hl). pose proof (send_udp_ok t d data to' Ht Hu Hd Hl Hto'). pose proof (send_tcp_ok t d data to' Ht Hr Hu Hd Hto').
  case_if; [case_if; [by destruct (send_raw_icmp _ _ _ _ _)|by destruct (send_raw_icmp_external _ _ _ _)]|]. case_if; [done|].
  case_if; [case_if; [by destruct (send_udp _ _ _ _ _)|by destruct (send_udp_external _ _ _ _ _)]|].
  case_if; [case_if; [by destruct (send_tcp _ _ _ _ _)|by destruct (send_tcp_external _ _ _ _ _)]|done].
Qed.

Lemma opened_ok i ty s : socket_ok s -> 0 <= i < RIX_NET_SOCKET_MAX -> socket_ok (opened i ty s).
Proof.
  intros Hs Hi. pose proof Hs as []. pose proof s_receive0 as []. unfold RIX_NET_SOCKET_MAX, RIX_NET_SOCKET_QUEUE in *.
  split; cbn [opened receive pending_peers pending_head pending_count backlog reassembly tcp_seq tcp_ack tcp peer local used]; unfold RIX_NET_SOCKET_QUEUE; try (done || lia).
  - rewrite length_fmap. done.
  - by apply Forall_fmap.
  - intros _. split; [done|]. cbn [port]. rewrite u16_id by (unfold is_u16; lia). unfold is_u16. lia.
Qed.

Lemma open_ok t ty : table_ok t -> table_ok (snd (rix_net_socket_open t ty)).
Proof.
  intros Ht. unfold rix_net_socket_open. case_if; [done|]. destruct (find_socket _ t) as [i|] eqn:E; [|done]. destruct (find_socket_Some _ _ _ Ht E) as [Hi _].
  apply on_socket_ok; [done|]. intros Hs. by apply opened_ok.
Qed.

Lemma accept_ok t d : table_ok t -> table_ok (snd (rix_net_socket_accept t d)).
Proof.
  intros Ht. unfold rix_net_socket_accept. case_if; [done|]. case_if; [done|]. pose proof (open_ok t RIX_NET_SOCKET_TCP Ht) as Ho.
  destruct (valid_range t d) as [Hr Hu]; [by destruct (valid_descriptor t d)|].
  assert (Hold : fst (rix_net_socket_open t RIX_NET_SOCKET_TCP) <> -1 -> socket (snd (rix_net_socket_open t RIX_NET_SOCKET_TCP)) d = socket t d).
  { unfold rix_net_socket_open. cbn [andb negb Z.eqb RIX_NET_SOCKET_TCP RIX_NET_SOCKET_UDP RIX_NET_SOCKET_RAW_ICMP Pos.eqb]. destruct (find_socket _ t) as [i|] eqn:E; [|done]. cbn [fst snd].
    destruct (find_socket_Some _ _ _ Ht E) as [Hi Hf]. intros _. apply socket_off; [lia..|]. intros ->. unfold truthy in Hf. bool_to_prop. done. }
  destruct (rix_net_socket_open t RIX_NET_SOCKET_TCP) as [a t1]. cbn [fst snd] in *. case_if; [done|]. specialize (Hold ltac:(lia)). cbn [snd].
  pose proof (socket_ok_at t1 d Ho) as Hd. apply on_socket_ok; [apply on_socket_ok; [done|]|].
  - intros Hs. rewrite Hold in *. pose proof Hs as []. unfold truthy in *. bool_to_prop. unfold RIX_NET_SOCKET_QUEUE in *. rewrite (u32_id (pending_head _ + 1)) by (unfold is_u32; lia).
    pose proof (Z.mod_pos_bound (pending_head (socket t d) + 1) 8 ltac:(lia)). rewrite u8_id by (unfold is_u8; lia). split; cbn; unfold RIX_NET_SOCKET_QUEUE; try done; lia.
  - intros Hs. rewrite socket_on by done. destruct Hs. split; cbn; try done.
    + apply (Forall_aget endpoint_ok); [apply Hd|]. split; unfold is_u32, is_u16; cbn; lia.
    + intros _. rewrite Hold. by apply local_ok.
Qed.

Lemma handshake_ok s e : socket_ok s -> socket_ok (snd (tcp_loopback_handshake s e)).
Proof.
  intros Hs. unfold tcp_loopback_handshake. case_if; [done|]. cbn [TcpControl.rix_tcp_init TcpControl.rix_tcp_transition TcpControl.next_state TcpControl.state].
  destruct (decide _); [|done]. set (s1 := with_tcp _ s). assert (H1 : socket_ok s1) by (apply with_tcp_ok; [done|cbn; unfold is_u32; lia..]).
  pose proof (transition_ok TcpControl.RIX_TCP_EVENT_ACTIVE_OPEN s1 H1) as H2. destruct (transition _ s1) as [rc s2]. cbn [snd] in H2. case_if; [done|].
  destruct (handshake_syn _ _ _) as [rc2 srv]. case_if; [done|]. set (srv2 := set_tcp_acknowledgment _ _).
  assert (H3 : socket_ok (snd (handshake_syn_ack s2 e srv2))).
  { unfold handshake_syn_ack. destruct (tcp_exchange _ _ _ _ _ _ _ _ _) as [[h ?]|]; [|done]. case_if; [done|]. by apply transition_ok. }
  destruct (handshake_syn_ack _ _ _) as [rc3 s3]. cbn [snd] in H3. case_if; [done|]. cbn [snd].
  apply with_tcp_ok; [|apply u32_range..]. apply with_tcp_ok; [done|apply u32_range|apply (s_tcp _ H3)].
Qed.

Lemma connect_external_ok s e g : socket_ok s -> net_ok g -> endpoint_ok e ->
  let '(_, s', g') := connect_tcp_external s e g in socket_ok s' /\ net_ok g'.
Proof.
  intros Hs Hg He. unfold connect_tcp_external. destruct (rix_net_device_info _) as [info|]; [|done]. destruct (default_stack g) as [st|] eqn:Ed; [|done]. case_if; [done|].
  set (r := if bool_decide (tcp_state s = TcpControl.RIX_TCP_CLOSED) then _ else _).
  assert (Hr : let '(_, s', g') := r in socket_ok s' /\ net_ok g').
  { unfold r. case_if; [|by case_if]. set (s1 := with_tcp (set_tcp_acknowledgment 0 _) _).
    assert (H1 : socket_ok s1).
    { apply with_tcp_ok; [| |cbn; unfold is_u32; lia]; (case_if; [|]); cbn; try (apply Hg); try (unfold is_u32; lia).
      - apply with_tcp_ok; [by keep_socket|apply Hg|apply (s_tcp _ Hs)].
      - apply with_tcp_ok; [apply with_tcp_ok; [by keep_socket|apply Hg|apply (s_tcp _ Hs)]|cbn; unfold is_u32; lia|apply (s_tcp _ Hs)]. }
    pose proof (transition_ok TcpControl.RIX_TCP_EVENT_ACTIVE_OPEN s1 H1). destruct (transition _ s1) as [rc s2]. split; [done|].
    unfold net_ok in *. cbn. split; [apply Hg|apply u32_range]. }
  destruct r as [[rc s1] g1]. destruct Hr as [H1 H2]. case_if; [done|]. destruct (tcp_out _ _ _ _ _ _ _ _) as [[sent g2]|] eqn:E; [|done]. split; [done|].
  exact (tcp_out_net _ _ _ _ _ _ _ _ _ H2 E).
Qed.

Lemma connect_ok t d e g : table_ok t -> net_ok g -> endpoint_ok e ->
  let '(_, t', g') := rix_net_socket_connect t d e g in table_ok t' /\ net_ok g'.
Proof.
  intros Ht Hg He. unfold rix_net_socket_connect. case_if; [done|]. destruct (valid_range t d) as [Hr Hu]; [by destruct (valid_descriptor t d)|].
  pose proof (socket_ok_at t d Ht) as Hs. case_if.
  - case_if; [done|]. destruct (find_socket _ t) as [i|] eqn:E.
    + case_if; [done|]. split; [|done]. apply on_socket_ok.
      * apply on_socket_ok; [done|]. intros Hl. pose proof Hl as []. rewrite u8_id by (unfold is_u8, RIX_NET_SOCKET_QUEUE in *; lia).
        split; cbn; rewrite ?length_aset; try (done || lia). apply Forall_aset; [done|]. by apply name_endpoint, local_ok.
      * intros Hx. destruct Hx. split; cbn; try done.
    + pose proof (handshake_ok (socket t d) e Hs) as Hh.
      assert (Hx : socket_ok (snd (if type (socket t d) =? RIX_NET_SOCKET_TCP then tcp_loopback_handshake (socket t d) e else (0, socket t d)))) by (by case_if).
      destruct (if type _ =? _ then _ else _) as [rc s1]. cbn [snd] in Hx. case_if; (split; [|done]); apply on_socket_ok; [done|done|done|]. intros _. by keep_socket.
  - case_if; [done|]. pose proof (connect_external_ok (socket t d) e g Hs Hg He) as Hx. destruct (connect_tcp_external _ _ _) as [[rc s1] g1]. destruct Hx as [Hx1 Hx2].
    split; [|done]. by apply on_socket_ok.
Qed.

(** Every call keeps tables and network in shape. *)
Lemma call_exec_ok c t g : call_ok c -> table_ok t -> net_ok g -> table_ok (fst (exec c (t, g))) /\ net_ok (snd (exec c (t, g))).
Proof.
  intros Hc Ht Hg. destruct c; cbn [exec call_ok fst snd] in *.
  - split; [by apply open_ok|done].
  - split; [|done]. unfold rix_net_socket_close. case_if; [done|]. apply on_socket_ok; [done|]. intros Hs. by keep_socket.
  - split; [|done]. unfold rix_net_socket_shutdown. case_if; [done|]. cbn [snd]. assert (Hor : forall x t, table_ok t -> table_ok (on_socket d (fun s => with_shutdown (Z.lor (shutdown s) x) s) t)).
    { intros x t0 Ht0. apply on_socket_ok; [done|]. intros Hs. by keep_socket. } case_if; case_if; auto.
  - split; [|done]. unfold rix_net_socket_listen. case_if; [done|]. apply on_socket_ok; [done|]. intros Hs. unfold truthy, RIX_NET_SOCKET_QUEUE in *.
    rewrite u8_id by (unfold is_u8; case_if; lia). keep_socket. unfold RIX_NET_SOCKET_QUEUE. case_if; lia.
  - split; [by apply accept_ok|done].
  - split; [|done]. unfold rix_net_socket_set_option. case_if; [done|]. case_if; (apply on_socket_ok; [done|]; intros Hs; by keep_socket).
  - split; [|done]. unfold rix_net_socket_bind. case_if; [done|]. case_if; [done|]. apply on_socket_ok; [done|]. intros Hs. keep_socket. intros _. bool_to_prop. split; [done|]. split; [apply Hc|done].
  - pose proof (connect_ok t d e g Ht Hg Hc). by destruct (rix_net_socket_connect _ _ _ _) as [[? ?] ?].
  - pose proof (socket_send_ok t d data to g Ht Hg (proj1 Hc) (proj2 Hc)). by destruct (rix_net_socket_send _ _ _ _ _ _) as [[? ?] ?].
  - pose proof (receive_ok t d buffer g Ht Hg). by destruct (rix_net_socket_receive _ _ _ _ _) as [[[[? ?] ?] ?] ?].
  - unfold rix_net_socket_poll. destruct (default_stack g) eqn:E; [|done]. pose proof (dispatch_ok t g Ht Hg). by destruct (dispatch_external_ipv4 _ _) as [[? ?] ?].
  - split; [done|]. by apply kernel_poll_net.
Qed.
End Calls.

(** ** A system of processes over one stack *)

Section System.
Context {W : Type} `{!Nic W, !Clock W, !NicLaws W}.

(** Each process has a table of its own; a step is a call by one of them. *)
Definition step (k : nat) (c : call) (st : list rix_net_socket_table_t * net W) : list rix_net_socket_table_t * net W :=
  match fst st !! k with
  | Some t => let '(t', g') := exec c (t, snd st) in (<[k := t']> (fst st), g')
  | None => st
  end.

Definition steps (cs : list (nat * call)) (st : list rix_net_socket_table_t * net W) : list rix_net_socket_table_t * net W :=
  foldl (fun st kc => step (fst kc) (snd kc) st) st cs.

(** Zeroed memory, initialised: the table of a new process and the stack. *)
Definition new_table : rix_net_socket_table_t := default [] (rix_net_socket_table_init (Some (replicate 16 no_socket))).
Definition zero_stack : rix_net_stack_t :=
  {| arp := replicate 16 {| ip := 0; Arp.mac := replicate 6 0; expires_at := 0; valid := 0 |};
     ipv6_neighbors := replicate 8 {| Ipv6.used := 0; naddress := replicate 16 0; nmac := replicate 6 0; expires := 0 |};
     ipv6_routes := replicate 4 {| rprefix := replicate 16 0; Ipv6.next_hop := replicate 16 0; prefix_length := 0; rused := 0 |};
     pending := stack_packet; pending_next_hop := 0; pending_valid := 0; pending_since_ns := 0;
     incoming := replicate 8 stack_packet; incoming_head := 0; incoming_count := 0;
     incoming_ipv6 := replicate 8 stack_packet; incoming_ipv6_head := 0; incoming_ipv6_count := 0; initialized := 0 |}.
Definition new_net (n : net_device) (w : W) : net W :=
  {| default_stack := match rix_net_stack_init (Some zero_stack) n with (0, s) => s | _ => None end;
     interface := n; tcp_next_iss := 1; wire := w |}.

Lemma new_table_ok : table_ok new_table.
Proof.
  split; [done|]. unfold new_table. cbn [rix_net_socket_table_init fmap option_fmap option_map default]. apply Forall_fmap, Forall_replicate. cbn.
  pose proof no_socket_ok. by keep_socket.
Qed.

Lemma new_net_ok P n w : net_ok P (new_net n w).
Proof.
  split; [|cbn; unfold is_u32; lia]. cbn [default_stack new_net]. unfold rix_net_stack_init. destruct (rix_net_device_info n); [|done]. split; [|done].
  split; cbn [incoming incoming_head incoming_count zero_stack]; unfold RIX_NET_RX_QUEUE; try (done || lia). apply Forall_fmap, Forall_replicate. cbn.
  destruct (init_packet stack_packet stack_packet_ok) as (q & [= <-] & Hq & _). done.
Qed.

Lemma steps_ok P cs st :
  (forall p, P p -> packet_wf p) -> (forall p data, packet_wf p -> delivered (W := W) data -> contents p = drop 14 data -> P p) ->
  Forall (fun kc => call_ok (snd kc)) cs -> Forall table_ok (fst st) -> net_ok P (snd st) -> Forall table_ok (fst (steps cs st)) /\ net_ok P (snd (steps cs st)).
Proof.
  intros P1 P2 Hcs. revert st. induction cs as [|[k c] cs IH]; intros [ts g] Hts Hg; [done|]. apply Forall_cons_1 in Hcs as [Hc Hcs]. cbn [steps foldl]. apply IH; [done|..].
  all: unfold step; cbn [fst snd] in *; destruct (ts !! k) as [t|] eqn:Ek; [|done]; destruct (call_exec_ok P P1 P2 c t g Hc (Forall_lookup_1 _ _ _ _ Hts Ek) Hg) as [H1 H2];
    destruct (exec c (t, g)) as [t' g']; cbn [fst snd] in *; first [by apply Forall_insert|done].
Qed.

(** C24: socket tables stay well formed. Whatever the processes call and whatever
    frames the controller delivers, starting from freshly initialised tables and
    stack: in every table there are sixteen sockets; queue positions and counts stay
    within the eight slots, pending connections within the backlog's eight, the
    reassembly window within its four; every stored packet lies inside its
    buffer; sequence numbers are 32-bit; and every socket in use goes by a loopback
    address with a non-zero port. *)
Theorem socket_tables_well_formed n w procs cs
    (Hcs : Forall (fun kc => call_ok (snd kc)) cs) :
  let '(ts, g) := steps cs (replicate procs new_table, new_net n w) in
  List.length ts = procs /\ Forall table_ok ts /\ net_ok packet_wf g.
Proof.
  pose proof (steps_ok packet_wf cs (replicate procs new_table, new_net n w) (fun _ H => H) (fun _ _ H _ _ => H) Hcs
    ltac:(apply Forall_replicate, new_table_ok) (new_net_ok _ n w)) as [H1 H2].
  assert (Hlen : forall cs st, List.length (fst (steps cs st)) = List.length (fst st)).
  { clear. induction cs as [|[k c] cs IH]; intros st; [done|]. cbn [steps foldl]. change (foldl _ ?s cs) with (steps cs s). rewrite IH. unfold step. cbn [fst snd].
    destruct (fst st !! k); [|done]. destruct (exec _ _). cbn. apply length_insert. }
  specialize (Hlen cs (replicate procs new_table, new_net n w)). destruct (steps cs _) as [ts g]. cbn [fst snd] in *. rewrite length_replicate in Hlen. done.
Qed.
End System.
