(* ===== verification/SocketStream.v ===== *)
(** * TCP streams over the socket interface ([kernel/net/socket.c])

    What a reader of a connected TCP socket gets is a prefix of what the peer
    sent, whatever is lost, repeated or reordered on the way and whatever the
    other sockets and processes do meanwhile. *)
From stdpp Require Import base tactics list numbers.
From S2P Require Import Prelude Bytes NetPacket Ethernet Arp Ipv4 Udp Tcp Ipv6 Device Ring NetStack Socket SocketInv.

(** ** Segments on the wire *)

(** A TCP header read from the bytes of a segment. *)
Definition header_length (l : list Z) : Z := Z.shiftr (aget 0 l 12) 4 * 4.
Definition sum_ok (s d : Z) (l : list Z) : bool :=
  rix_net_checksum_add (pseudo_sum RIX_NET_IP_PROTO_TCP s d (llen l) + be_sum l) =? 0.

Lemma tcp_pull_reads p s d hd h q :
  packet_wf p -> is_u32 s -> is_u32 d -> rix_net_tcp_pull (Some p) s d (Some hd) = (0, Some h, Some q) ->
  let l := contents p in
  source_port h = get_be16 l 0 /\ destination_port h = get_be16 l 2 /\ sequence h = get_be32 l 4 /\ Tcp.flags h = aget 0 l 13 /\
  packet_wf q /\ contents q = drop (Z.to_nat (header_length l)) l /\ sum_ok s d l = true.
Proof.
  intros Hp Hs Hd E. cbv zeta. destruct (tcp_pull_wf _ _ _ _ _ _ Hp E) as [Hq _]. revert E. unfold rix_net_tcp_pull. cbn [rix_net_packet_length]. case_if; [done|].
  rewrite data_ok by done. cbv zeta. unfold RIX_NET_TCP_HEADER_LENGTH in *. pose proof (length_contents p Hp) as Hl. case_if; [done|]. case_if; [done|]. case_if; [done|].
  rewrite !read_be16, !read_be32, !read_byte in * by lia. unfold header_length.
  edestruct (pull_ok p (Z.shiftr (aget 0 (contents p) 12) 4 * 4) Hp) as [-> Hw]; [lia|]. intros [= <- <-]. cbn [source_port destination_port sequence Tcp.flags].
  do 4 (split; [done|]). split; [done|]. split; [by rewrite contents_drop by (done || lia)|]. unfold sum_ok. apply Z.eqb_eq.
  rewrite Hl, <- Heqb. unfold tcp_pseudo_checksum. pose proof Hp as (_ & P2 & P3 & P4 & _). rewrite capacity_val in P4. rewrite pseudo_checksum_frame; try done; try lia.
  f_equal. f_equal. f_equal. symmetry. apply firstn_all2. lia.
Qed.

(** ** The peer's stream *)

Section Stream.
Context (remote : rix_net_endpoint_t) (lport base : Z) (stream : list Z).

(** What a segment at offset [k] of the stream may carry: nothing, or the bytes
    of the stream there, with FIN at its end. *)
Definition data_ok (k : Z) (fin : bool) (payload : list Z) : bool :=
  bool_decide (payload = []) && negb fin && (0 <=? k) && (k <=? llen stream + 1) ||
  (0 <=? k) && (k + llen payload <=? llen stream) && bool_decide (payload = take (List.length payload) (drop (Z.to_nat k) stream))
  && (negb fin || (k + llen payload =? llen stream)).

(** A segment of the peer: a reset, the SYN, something from before the stream
    (a keep-alive, the SYN again), or data. *)
Definition segment_ok (seq flg : Z) (payload : list Z) : bool :=
  truthy (Z.land flg RIX_NET_TCP_FLAG_RST) ||
  (truthy (Z.land flg RIX_NET_TCP_FLAG_SYN) && (seq + 1 =? base)) ||
  negb (truthy (Z.land flg RIX_NET_TCP_FLAG_SYN)) &&
    ((seq <? base) || data_ok (seq - base) (truthy (Z.land flg RIX_NET_TCP_FLAG_FIN)) payload).

(** An IPv4 packet is genuine if it is no TCP segment of this connection with
    valid checksums, or a segment of the peer's. *)
Definition genuine (l : list Z) : bool :=
  let source := be32 (load32 l 12) in
  let segment := take (Z.to_nat (get_be16 l 2 - 20)) (drop 20 l) in
  let ours := (rix_net_checksum_add (be_sum (take 20 l)) =? 0) && (aget 0 l 9 =? RIX_NET_IP_PROTO_TCP) && (source =? address remote)
              && sum_ok source (be32 (load32 l 16)) segment && (get_be16 segment 0 =? port remote) && (get_be16 segment 2 =? lport) in
  negb ours || segment_ok (get_be32 segment 4) (aget 0 segment 13) (drop (Z.to_nat (header_length segment)) segment).

(** ** The socket *)

Definition bytes_queued (s : rix_net_socket_t) : list Z := mjoin (fst <$> queued (receive s)).

Definition slots_ok (s : rix_net_socket_t) : Prop :=
  Forall (fun r => slot_used r <> 0 -> data_ok (slot_sequence r - base) (truthy (slot_fin r)) (contents (slot_packet r)) = true) (reassembly s).

(** [out] has been handed to the reader. Before the handshake completes nothing
    has; afterwards what was handed out and what is queued make up the stream as
    far as it is acknowledged, the FIN counting one. *)
Definition flow (s : rix_net_socket_t) (out : list Z) : Prop :=
  exists k f, tcp_ack s = base + k + f /\ out ++ bytes_queued s = take (Z.to_nat k) stream /\ 0 <= k <= llen stream /\ (f = 0 \/ f = 1 /\ k = llen stream).

Definition stream_inv (s : rix_net_socket_t) (out : list Z) : Prop :=
  match tcp_state s with
  | TcpControl.RIX_TCP_CLOSED | TcpControl.RIX_TCP_SYN_SENT =>
      out = [] /\ bytes_queued s = [] /\ Forall (fun r => slot_used r = 0) (reassembly s)
  | TcpControl.RIX_TCP_ESTABLISHED | TcpControl.RIX_TCP_CLOSE_WAIT | TcpControl.RIX_TCP_FIN_WAIT_1 | TcpControl.RIX_TCP_LAST_ACK =>
      flow s out /\ slots_ok s
  | _ => False
  end.

(** The connection: a TCP socket to the peer from the local port. *)
Definition connection (s : rix_net_socket_t) : Prop := used s <> 0 /\ type s = RIX_NET_SOCKET_TCP /\ peer s = remote /\ port (local s) = lport.

Context (Hbase : 1 <= base) (Hend : base + llen stream + 1 < 2 ^ 32).

Definition receiving (st : TcpControl.rix_tcp_state_t) : Prop := st = TcpControl.RIX_TCP_ESTABLISHED \/ st = TcpControl.RIX_TCP_CLOSE_WAIT.

Lemma queued_empty s : queue_ok (receive s) -> count (receive s) = 0 -> bytes_queued s = [].
Proof. intros Hq E. unfold bytes_queued. pose proof (length_waiting _ Hq). destruct (queued (receive s)); [done|cbn in *; lia]. Qed.

Lemma data_ok_cases k fin l : data_ok k fin l = true ->
  (l = [] /\ fin = false /\ 0 <= k <= llen stream + 1) \/
  (0 <= k /\ k + llen l <= llen stream /\ l = take (List.length l) (drop (Z.to_nat k) stream) /\ (fin = true -> k + llen l = llen stream)).
Proof.
  unfold data_ok. intros H. apply orb_true_iff in H as [H|H]; bool_to_prop; [left|right]; repeat split; try done; try lia. intros ->. match goal with H : negb true = true \/ _ |- _ => destruct H; [done|by bool_to_prop] end.
Qed.

(** Queueing in-order data goes on with the stream. *)
Lemma queue_payload_flow s out p fin rc s' :
  socket_ok s -> connection s -> packet_wf p -> receiving (tcp_state s) -> flow s out ->
  data_ok (tcp_ack s - base) (truthy fin) (contents p) = true -> tcp_queue_payload s (tcp_ack s) p fin = (rc, s') ->
  flow s' out /\ receiving (tcp_state s') /\ connection s' /\ reassembly s' = reassembly s.
Proof.
  intros Hs Hconn Hp Hst (k & f & Hack & Hout & Hk & Hf) Hd. destruct (packet_data p Hp) as [Hu Hn]. pose proof (length_contents p Hp) as Hl.
  unfold tcp_queue_payload. rewrite Z.eqb_refl, data_of_wf by done. cbn [negb].
  set (r := if truthy (length p) then queue_packet s (Some (contents p)) (length p) (peer s) else (0, s)).
  assert (Hr : exists q, snd r = with_receive q s /\ (fst r = 0 \/ fst r = -1) /\ bytes_queued (snd r) = bytes_queued s ++ (if fst r =? 0 then contents p else [])).
  { unfold r, truthy. destruct (length p =? 0) eqn:E0; bool_to_prop; cbn [negb].
    - exists (receive s). split; [by destruct s|]. split; [by left|]. cbn. destruct (contents p); [by rewrite app_nil_r|cbn in *; lia].
    - destruct (queue_packet _ _ _ _) as [c s1] eqn:Eq. destruct (queue_packet_spec _ _ _ _ _ _ (s_receive _ Hs) Hu Hn (s_peer _ Hs) Eq) as (E1 & _ & Hq).
      exists (receive s1). split; [done|]. cbn [fst snd]. unfold bytes_queued. destruct Hq as [(-> & Hq & _)|(-> & Hq & _)]; rewrite Hq.
      + split; [by left|]. rewrite fmap_app, join_app. cbn. rewrite app_nil_r, <- Hl, Nat2Z.id, firstn_all. done.
      + split; [by right|]. by rewrite app_nil_r. }
  destruct r as [c s1]. cbn [fst snd] in Hr. destruct Hr as (q & -> & Hc & Hb).
  destruct Hc as [->| ->]; cbn [truthy Z.eqb negb] in *.
  2:{ intros [= <- <-]. split; [|done]. exists k, f. rewrite Hb, app_nil_r. done. }
  assert (Hcase : exists k' f', u32 (tcp_ack s + u32 (length p) + (if truthy fin then 1 else 0)) = base + k' + f' /\
    take (Z.to_nat k) stream ++ contents p = take (Z.to_nat k') stream /\ 0 <= k' <= llen stream /\ (f' = 0 \/ f' = 1 /\ k' = llen stream)).
  { rewrite (u32_id (length p)) by (unfold is_u32; destruct Hp as (_ & Hst0 & _ & Hcap & _); rewrite capacity_val in Hcap; lia).
    destruct (data_ok_cases _ _ _ Hd) as [(D1 & D2 & _)|(D0 & D1 & D2 & D3)].
    - rewrite D2. rewrite D1 in Hl. cbn in Hl. exists k, f. rewrite D1, app_nil_r. split; [|done]. rewrite <- Hl, !Z.add_0_r, Hack. apply u32_id. unfold is_u32. lia.
    - assert (Hf0 : f = 0) by lia. subst f. rewrite Z.add_0_r in Hack. replace (tcp_ack s - base) with k in * by lia. rewrite Hl in *.
      exists (k + length p), (if truthy fin then 1 else 0). split; [rewrite Hack; rewrite u32_id; [lia|unfold is_u32; case_if; lia]|]. split.
      + rewrite D2 at 1. replace (Z.to_nat (k + length p)) with (Z.to_nat k + List.length (contents p))%nat by lia. apply take_take_drop.
      + split; [lia|]. destruct (truthy fin); [right|by left]. specialize (D3 eq_refl). lia. }
  destruct Hcase as (k' & f' & E1 & E2 & E3 & E4). set (s2 := with_tcp _ _).
  assert (Hfl : flow s2 out).
  { exists k', f'. split; [exact E1|]. split; [|done]. rewrite <- E2, <- Hout, <- (assoc_L (++)). f_equal. change (bytes_queued s2) with (bytes_queued (with_receive q s)). exact Hb. }
  assert (Hst2 : tcp_state s2 = tcp_state s) by done. case_if; [|intros [= <- <-]; done].
  destruct (transition_cases TcpControl.RIX_TCP_EVENT_FIN s2) as [(n & En & ->)|[_ ->]]; intros [= <- <-]; [|done].
  split; [exact Hfl|]. split; [|done]. cbn. rewrite Hst2 in En. destruct Hst as [E|E]; rewrite E in En; cbn in En; [injection En as <-; by right|done].
Qed.

(** What holds while a segment is taken in. *)
Definition taking (s : rix_net_socket_t) (out : list Z) : Prop :=
  socket_ok s /\ connection s /\ receiving (tcp_state s) /\ flow s out /\ slots_ok s.

Lemma taking_inv s out : taking s out -> stream_inv s out.
Proof. intros (_ & _ & Hr & Hf & Hs). unfold stream_inv. by destruct Hr as [-> | ->]. Qed.

Lemma taking_queue s out p fin rc s' :
  taking s out -> packet_wf p -> data_ok (tcp_ack s - base) (truthy fin) (contents p) = true -> tcp_queue_payload s (tcp_ack s) p fin = (rc, s') -> taking s' out.
Proof.
  intros (Hs & Hc & Hr & Hf & Hsl) Hp Hd E. pose proof (tcp_queue_payload_ok s (tcp_ack s) p fin Hs Hp) as Hs'. rewrite E in Hs'.
  destruct (queue_payload_flow _ _ _ _ _ _ Hs Hc Hp Hr Hf Hd E) as (H1 & H2 & H3 & H4). split; [done|]. split; [done|]. split; [done|]. split; [done|]. unfold slots_ok. by rewrite H4.
Qed.

Lemma drain_slot_taking i b s out : taking s out ->
  match drain_slot i (b, s) with inl (_, s') => taking s' out | inr s' => taking s' out end.
Proof.
  intros H. pose proof H as (Hs & _ & _ & _ & Hsl). pose proof (drain_slot_ok i b s Hs) as Hok. revert Hok. unfold drain_slot, truthy. case_if; [done|].
  set (r := aget no_slot (reassembly s) i) in *. bool_to_prop. rewrite H1.
  assert (Hr : packet_wf (slot_packet r)) by (exact (Forall_aget (fun r => packet_wf (slot_packet r)) no_slot _ i (s_slots_ok _ Hs) stack_packet_ok)).
  assert (Hd : data_ok (tcp_ack s - base) (truthy (slot_fin r)) (contents (slot_packet r)) = true).
  { rewrite <- H1. apply (Forall_aget (fun r => slot_used r <> 0 -> data_ok (slot_sequence r - base) (truthy (slot_fin r)) (contents (slot_packet r)) = true) no_slot _ i Hsl); [done|].
    done. }
  destruct (tcp_queue_payload _ _ _ _) as [rc s'] eqn:E. pose proof (taking_queue _ _ _ _ _ _ H Hr Hd E) as H'. case_if; [done|]. intros Hok.
  destruct H' as (_ & Hc & Hre & Hf & Hsl'). split; [done|]. split; [done|]. split; [done|]. split; [done|]. unfold slots_ok. cbn. by apply Forall_aset.
Qed.

Lemma drain_taking k s out : taking s out -> taking (snd (drain_loop k s)) out.
Proof.
  revert s. induction k as [|k IH]; intros s Hs; [done|]. cbn [drain_loop].
  pose proof (for_inv (fun _ '(_, s) => taking s out) (fun s => taking s out) 0 RIX_NET_TCP_REASSEMBLY_SLOTS drain_slot (false, s) ltac:(done) Hs) as H.
  destruct (for_ _ _ _ _) as [[b s']|s'].
  - assert (Hs' : taking s' out) by (apply H; intros i [b0 s0] _; apply drain_slot_taking). destruct b; [by apply IH|done].
  - apply H. intros i [b0 s0] _. apply drain_slot_taking.
Qed.

(** A segment ahead of the stream is kept for later. *)
Lemma hold_taking s out seq p fin : taking s out -> packet_wf p -> data_ok (seq - base) (truthy fin) (contents p) = true ->
  taking (snd (tcp_hold_segment s seq p fin)) out.
Proof.
  intros (Hs & Hc & Hr & Hf & Hsl) Hp Hd. pose proof (tcp_hold_segment_ok s seq p fin Hs Hp) as Hok. revert Hok. destruct (packet_data p Hp) as [Hu Hn]. unfold tcp_hold_segment.
  rewrite data_of_wf by done. case_if; [done|]. pose proof (first_index_spec (fun r => negb (truthy (slot_used r))) (reassembly s) 0) as Hfi.
  destruct (first_index _ _ _) as [i|]; [|done]. destruct Hfi as (_ & (r & Hri & Hun) & _). rewrite Nat.sub_0_r in Hri.
  assert (Er : aget no_slot (reassembly s) (Z.of_nat i) = r) by (unfold aget; by rewrite Nat2Z.id, Hri). rewrite Er. unfold truthy in Hun. bool_to_prop.
  destruct (packet_copy _ _ _) as [rc q] eqn:E.
  assert (Hrw : packet_wf (slot_packet r)) by (exact (Forall_lookup_1 _ _ _ _ (s_slots_ok _ Hs) Hri)).
  destruct (packet_copy_spec _ _ _ _ _ Hrw Hu Hn E) as [Hw Hq].
  assert (Hgo : forall s', socket_ok s' -> s' = with_reassembly (reassembly s') s -> slots_ok s' -> taking s' out).
  { intros s' Ho Es Hsl'. split; [done|]. rewrite Es in *. split; [done|]. split; [done|]. by split. }
  case_if; intros Hok; (apply Hgo; [done|done|]); unfold slots_ok; cbn; (apply Forall_aset; [done|]); cbn; [done|].
  intros _. destruct (length p <=? _); [|by subst]. destruct Hq as [_ ->]. pose proof (length_contents p Hp). replace (Z.to_nat (length p)) with (List.length (contents p)) by lia. by rewrite firstn_all.
Qed.

Lemma flow_ack s out : flow s out -> base <= tcp_ack s.
Proof. intros (k & f & -> & _ & Hk & Hf). lia. Qed.

(** Genuine data that is not old. *)
Lemma segment_data seq flg l : segment_ok seq flg l = true -> truthy (Z.land flg RIX_NET_TCP_FLAG_RST) = false -> base <= seq ->
  data_ok (seq - base) (truthy (Z.land flg RIX_NET_TCP_FLAG_FIN)) l = true.
Proof.
  unfold segment_ok. intros H Hrst Hseq. rewrite Hrst, orb_false_l in H. apply orb_true_iff in H as [H|H]; apply andb_true_iff in H as [_ H]; [bool_to_prop; lia|].
  apply orb_true_iff in H as [H|H]; [bool_to_prop; lia|done].
Qed.

Lemma close_stream s out : stream_inv s out -> stream_inv (snd (transition TcpControl.RIX_TCP_EVENT_CLOSE s)) out.
Proof.
  intros H. destruct (transition_cases TcpControl.RIX_TCP_EVENT_CLOSE s) as [(n & En & ->)|[_ ->]]; [|done]. unfold stream_inv in *. cbn [snd].
  change (tcp_state (with_tcp (set_tcp_state n (tcp s)) s)) with n. destruct (tcp_state s); cbn in En; inversion En; subst; try done.
Qed.

Context {W : Type} `{!Nic W, !Clock W}.

Lemma tcp_input_stream s out h p ip (g : net W) :
  socket_ok s -> connection s -> stream_inv s out -> packet_wf p -> is_u32 (sequence h) -> segment_ok (sequence h) (Tcp.flags h) (contents p) = true ->
  let s' := snd (fst (tcp_input s h p ip g)) in connection s' /\ stream_inv s' out.
Proof.
  intros Hs Hc Hi Hp Hu Hseg. cbv zeta. unfold tcp_input. cbv zeta. case_if.
  { pose proof (close_stream s out Hi) as Hx. destruct (transition_cases TcpControl.RIX_TCP_EVENT_CLOSE s) as [(n & En & E)|[_ E]]; rewrite E in *; done. }
  case_if.
  { bool_to_prop. assert (Hsyn : sequence h + 1 = base).
    { unfold segment_ok in Hseg. rewrite Heqb, H, orb_false_l in Hseg. cbn in Hseg. rewrite orb_false_r in Hseg. by bool_to_prop. }
    unfold stream_inv in Hi. rewrite H1 in Hi. destruct Hi as (-> & Hq & Hsl). unfold transition. cbn [with_tcp tcp set_tcp_acknowledgment set_tcp_sequence TcpControl.rix_tcp_transition TcpControl.state].
    unfold tcp_state in H1. rewrite H1. cbn [TcpControl.next_state]. rewrite decide_True by done. cbn. split; [done|]. unfold stream_inv, tcp_state. cbn. split.
    - exists 0, 0. unfold tcp_ack. cbn. rewrite Hsyn, u32_id by (unfold is_u32; lia). split; [lia|]. split; [exact Hq|]. lia.
    - unfold slots_ok. cbn. eapply Forall_impl; [|exact Hsl]. intros r Hr Hne. done. }
  case_if; [done|].
  assert (Ht : taking s out).
  { split; [done|]. split; [done|]. assert (Hr : receiving (tcp_state s)) by (bool_to_prop; destruct Heqb1; bool_to_prop; [by left|by right]). split; [done|].
    unfold stream_inv in Hi. by destruct Hr as [E|E]; rewrite E in Hi. }
  pose proof Ht as (_ & _ & _ & Hfl & _). pose proof (flow_ack _ _ Hfl) as Hack. set (fin := b2z (truthy (Z.land (Tcp.flags h) RIX_NET_TCP_FLAG_FIN))).
  assert (Hfin : truthy fin = truthy (Z.land (Tcp.flags h) RIX_NET_TCP_FLAG_FIN)) by (unfold fin; by destruct (truthy (Z.land (Tcp.flags h) RIX_NET_TCP_FLAG_FIN))).
  case_if; [split; [done|]; by apply taking_inv|]. pose proof (segment_data _ _ _ Hseg Heqb) as Hd. rewrite <- Hfin in Hd.
  assert (Hend' : forall s', taking s' out -> connection s' /\ stream_inv s' out) by (intros s' H'; split; [apply H'|by apply taking_inv]).
  case_if.
  { pose proof (hold_taking s out (sequence h) p fin Ht Hp (Hd ltac:(lia))) as Hh. destruct (tcp_hold_segment _ _ _ _) as [rc s']. case_if; by apply Hend'. }
  assert (Heq : sequence h = tcp_ack s) by lia. rewrite Heq in *. destruct (tcp_queue_payload _ _ _ _) as [rc s1] eqn:E.
  pose proof (taking_queue _ _ _ _ _ _ Ht Hp (Hd ltac:(lia)) E) as H1. case_if; [by apply Hend'|]. pose proof (drain_taking 5 s1 out H1) as H2. unfold tcp_drain_reassembly.
  destruct (drain_loop 5 s1) as [rc2 s2]. case_if; [by apply Hend'|]. case_if; by apply Hend'.
Qed.

(** ** What the calls do to the connection *)

(** The part of a socket the stream depends on. *)
Definition core (s : rix_net_socket_t) :=
  (used s, type s, peer s, local s, tcp_state s, tcp_ack s, receive s, reassembly s).

Definition tracked (s : rix_net_socket_t) (out : list Z) : Prop := connection s /\ stream_inv s out.

Lemma tracked_core s s' out : core s' = core s -> tracked s out -> tracked s' out.
Proof.
  unfold core, tracked, connection, stream_inv, flow, slots_ok, bytes_queued. intros [= E1 E2 E3 E4 E5 E6 E7 E8] [Hc Hi]. rewrite E1, E2, E3, E4, E5, E6, E7, E8. done.
Qed.

Context (d : Z) (Hd : 0 <= d < RIX_NET_SOCKET_MAX) (Hremote : address remote <> RIX_NET_SOCKET_LOOPBACK).

Lemma core_on i f t : table_ok t -> 0 <= i -> (i = d -> core (f (socket t d)) = core (socket t d)) -> core (socket (on_socket i f t) d) = core (socket t d).
Proof.
  intros Ht Hi Hf. destruct (decide (i = d)) as [->|Hne]; [|rewrite socket_off by lia; done]. rewrite socket_on by done. auto.
Qed.

Lemma core_deliver t i data n from r : table_ok t -> 0 <= i -> i <> d -> core (socket (snd (deliver t i data n from r)) d) = core (socket t d).
Proof. intros Ht Hi Hne. unfold deliver. destruct (queue_packet _ _ _ _). apply core_on; [done|done|]. lia. Qed.

Lemma core_open t ty : table_ok t -> used (socket t d) <> 0 -> core (socket (snd (rix_net_socket_open t ty)) d) = core (socket t d).
Proof.
  intros Ht Hu. unfold rix_net_socket_open. case_if; [done|]. destruct (find_socket _ t) as [i|] eqn:E; [|done]. destruct (find_socket_Some _ _ _ Ht E) as [Hi Hf].
  apply core_on; [done|lia|]. intros ->. unfold truthy in Hf. bool_to_prop. done.
Qed.

Lemma core_accept t x : table_ok t -> used (socket t d) <> 0 -> core (socket (snd (rix_net_socket_accept t x)) d) = core (socket t d).
Proof.
  intros Ht Hu. unfold rix_net_socket_accept. case_if; [done|]. case_if; [done|]. destruct (valid_range t x) as [Hr Hx]; [by destruct (valid_descriptor t x)|].
  pose proof (open_ok t RIX_NET_SOCKET_TCP Ht) as Ho. pose proof (core_open t RIX_NET_SOCKET_TCP Ht Hu) as Hc.
  assert (Hne : fst (rix_net_socket_open t RIX_NET_SOCKET_TCP) <> d).
  { unfold rix_net_socket_open. case_if; [cbn; lia|]. destruct (find_socket _ t) as [i|] eqn:E; [|cbn; lia]. destruct (find_socket_Some _ _ _ Ht E) as [Hi Hf]. cbn. intros ->.
    unfold truthy in Hf. bool_to_prop. done. }
  destruct (rix_net_socket_open _ _) as [a t1]. cbn [fst snd] in *. case_if; [done|]. cbn [snd]. rewrite socket_off by lia. rewrite <- Hc. by apply core_on; [|lia|].
Qed.

Lemma listens_type ty e s : listens ty e s = true -> type s = ty.
Proof. unfold listens. intros H. by bool_to_prop. Qed.

Lemma core_send_loopback t x data n to : table_ok t -> 0 <= x < RIX_NET_SOCKET_MAX -> used (socket t x) <> 0 -> type (socket t d) = RIX_NET_SOCKET_TCP ->
  core (socket (snd (send_raw_icmp t x data n to)) d) = core (socket t d) /\ core (socket (snd (send_udp t x data n to)) d) = core (socket t d).
Proof.
  intros Ht Hx Hu Hty.
  assert (Hdel : forall ty dat m from r, ty <> RIX_NET_SOCKET_TCP ->
    core (socket (snd (match find_socket (listens ty to) t with Some i => deliver t i dat m from r | None => (-4, t) end)) d) = core (socket t d)).
  { intros ty dat m from r Hne. destruct (find_socket _ t) as [i|] eqn:E; [|done]. destruct (find_socket_Some _ _ _ Ht E) as [Hi Hf]. apply listens_type in Hf.
    apply core_deliver; [done|lia|]. intros ->. congruence. }
  split.
  - unfold send_raw_icmp. destruct (packet_copy _ _ _). case_if; [done|]. case_if; [|by apply Hdel]. destruct (rix_net_icmp_echo_pull _ _) as [[[|?|?] [?|]] [?|]]; try done.
    destruct (rix_net_icmp_echo_push _ _ _ _ _ _) as [[|?|?] [?|]]; try done. by apply Hdel.
  - unfold send_udp. destruct (rix_net_udp_push _ _ _ _ _ _ _) as [[|?|?] ?]; try done. destruct (rix_net_udp_pull _ _ _ _) as [[[|?|?] ?] [?|]]; try done. by apply Hdel.
Qed.

Lemma core_send_tcp t x data n to : table_ok t -> 0 <= x < RIX_NET_SOCKET_MAX -> used (socket t x) <> 0 -> connection (socket t d) ->
  address to = RIX_NET_SOCKET_LOOPBACK -> core (socket (snd (send_tcp t x data n to)) d) = core (socket t d).
Proof.
  intros Ht Hx Hu Hc Hto. unfold send_tcp. destruct (_ || _) eqn:Eg; [done|]. bool_to_prop.
  assert (Hxd : x <> d). { intros ->. destruct Hc as (_ & _ & Hp & _). unfold endpoint_equal in *. bool_to_prop. congruence. }
  destruct (tcp_exchange _ _ _ _ _ _ _ _ _) as [[h p]|]; [|done]. case_if; [done|]. set (t1 := on_socket x _ t).
  assert (Hok : table_ok t1) by (apply on_socket_ok; [done|]; intros Hs; apply with_tcp_ok; [done|apply u32_range|apply (s_tcp _ Hs)]).
  assert (Es : socket t1 d = socket t d) by (apply socket_off; lia). rewrite <- Es. case_if.
  - pose proof (first_index_spec (fun '(i, r) => truthy (used r) && negb (Z.of_nat i =? x) && truthy (connected r) && endpoint_equal (local r) to && endpoint_equal (peer r) (local (socket t x))) (imap pair t1) 0) as Hf.
    destruct (first_index _ _ _) as [i|]; [|done]. destruct Hf as (_ & ([j r] & Hj & Hm) & _). rewrite Nat.sub_0_r in Hj. apply list_lookup_imap_Some in Hj as (y & Hy & [= -> ->]).
    apply core_deliver; [done|lia|]. intros E. bool_to_prop. assert (Er : socket t1 d = y) by (unfold socket, aget; by rewrite <- E, Nat2Z.id, Hy).
    destruct (local_ok t x Ht Hu) as (La & _). destruct Hc as (_ & _ & Hp & _). unfold endpoint_equal in *. bool_to_prop. rewrite <- Er, Es, Hp in *. congruence.
  - unfold send_response. destruct (tcp_exchange _ _ _ _ _ _ _ _ _) as [[h2 p2]|]; [|done]. case_if; [done|]. set (t2 := on_socket x _ t1).
    assert (Hok2 : table_ok t2) by (apply on_socket_ok; [done|]; intros Hs; apply with_tcp_ok; [done|apply (s_tcp _ Hs)|apply u32_range]).
    rewrite core_deliver by (done || lia). unfold t2. by rewrite socket_off by lia.
Qed.

Lemma core_send t x data n to (g : net W) : table_ok t -> connection (socket t d) ->
  core (socket (snd (fst (rix_net_socket_send t x data n to g))) d) = core (socket t d).
Proof.
  intros Ht Hc. unfold rix_net_socket_send. destruct data as [data|]; [|done]. case_if; [done|]. case_if; [done|]. destruct (valid_range t x) as [Hr Hu]; [by destruct (valid_descriptor t x)|].
  set (to' := if truthy (connected (socket t x)) then peer (socket t x) else to).
  destruct (core_send_loopback t x data n to' Ht Hr Hu (proj1 (proj2 Hc))) as [H1' H2']. pose proof (core_send_tcp t x data n to' Ht Hr Hu Hc) as H3'.
  destruct (type (socket t x) =? RIX_NET_SOCKET_RAW_ICMP); [case_if; [by destruct (send_raw_icmp _ _ _ _ _)|by destruct (send_raw_icmp_external _ _ _ _)]|]. case_if; [done|].
  destruct (type (socket t x) =? RIX_NET_SOCKET_UDP); [case_if; [by destruct (send_udp _ _ _ _ _)|by destruct (send_udp_external _ _ _ _ _)]|].
  destruct (type (socket t x) =? RIX_NET_SOCKET_TCP); [|done]. case_if; [|by destruct (send_tcp_external _ _ _ _ _)]. specialize (H3' ltac:(lia)). by destruct (send_tcp _ _ _ _ _).
Qed.

(** Connecting again to the same peer. *)
Lemma connect_external_stream s out (g : net W) : tracked s out -> tracked (snd (fst (connect_tcp_external s remote g))) out.
Proof.
  intros Ht. unfold connect_tcp_external. destruct (rix_net_device_info _) as [info|]; [|done]. destruct (default_stack g) as [st|]; [|done]. case_if; [done|].
  set (r := if bool_decide (tcp_state s = TcpControl.RIX_TCP_CLOSED) then _ else _).
  assert (Hr : tracked (snd (fst r)) out).
  { unfold r. destruct (bool_decide (tcp_state s = TcpControl.RIX_TCP_CLOSED)) eqn:Ec; [|by case_if]. bool_to_prop. destruct Ht as [(H1 & H2 & H3 & H4) Hi]. unfold stream_inv in Hi. rewrite Ec in Hi.
    set (s1 := with_tcp (set_tcp_acknowledgment 0 _) _).
    assert (H5 : connection s1 /\ tcp_state s1 = TcpControl.RIX_TCP_CLOSED /\ receive s1 = receive s /\ reassembly s1 = reassembly s) by (unfold s1; by destruct (truthy _)).
    clearbody s1. destruct H5 as (H5 & H6 & H7 & H8). destruct (transition_cases TcpControl.RIX_TCP_EVENT_ACTIVE_OPEN s1) as [(n & En & ->)|[En ->]]; rewrite H6 in En; cbn in En; [|done].
    injection En as <-. split; [done|]. unfold stream_inv, bytes_queued in *. cbn. by rewrite H7, H8. }
  destruct r as [[rc s1] g1]. cbn [fst snd] in Hr. case_if; [done|]. by destruct (tcp_out _ _ _ _ _ _ _ _) as [[? ?]|].
Qed.

Lemma connect_stream t x e out (g : net W) : table_ok t -> (x = d -> e = remote) -> tracked (socket t d) out ->
  tracked (socket (snd (fst (rix_net_socket_connect t x e g))) d) out.
Proof.
  intros Ht Hx Hi. unfold rix_net_socket_connect. case_if; [done|]. destruct (valid_range t x) as [Hr Hu]; [by destruct (valid_descriptor t x)|].
  destruct (address e =? RIX_NET_SOCKET_LOOPBACK) eqn:Ea; bool_to_prop.
  - assert (Hne : x <> d) by (intros E; rewrite (Hx E) in Ea; done). case_if; [done|]. destruct (find_socket _ t) as [i|] eqn:E.
    + case_if; [done|]. cbn [fst snd]. rewrite socket_off by lia. destruct (find_socket_Some _ _ _ Ht E) as [Hi' _]. eapply tracked_core; [|exact Hi]. by apply core_on; [|lia|].
    + destruct (if type _ =? _ then _ else _) as [rc s1]. case_if; cbn [fst snd]; by rewrite socket_off by lia.
  - case_if; [done|]. destruct (decide (x = d)) as [->|Hne].
    + rewrite (Hx eq_refl). pose proof (connect_external_stream _ _ g Hi) as Hc. destruct (connect_tcp_external _ _ _) as [[rc s1] g1]. cbn [fst snd] in *. by rewrite socket_on.
    + destruct (connect_tcp_external _ _ _) as [[rc s1] g1]. cbn [fst snd]. by rewrite socket_off by lia.
Qed.

(** The packets the network holds: well formed, and genuine if they are ours. *)
Definition packet_ok (p : rix_net_packet_t) : Prop := packet_wf p /\ genuine (contents p) = true.

Lemma packet_ok_wf p : packet_ok p -> packet_wf p.
Proof. by intros []. Qed.

Lemma dispatch_tcp_stream t p ip q out (g : net W) :
  table_ok t -> packet_ok p -> rix_net_ipv4_pull (Some p) (Some stack_ip_header) = (0, Some ip, Some q) -> protocol ip = RIX_NET_IP_PROTO_TCP ->
  tracked (socket t d) out -> tracked (socket (snd (fst (dispatch_external_tcp t q (source ip) (destination ip) g))) d) out.
Proof.
  intros Ht [Hp Hg] E Hproto Hi. destruct (ipv4_source _ _ _ _ Hp E) as [Hs Hds]. destruct (ipv4_pull_wf _ _ _ _ Hp E) as [Hq _].
  unfold dispatch_external_tcp. case_if; [done|]. destruct (rix_net_tcp_pull _ _ _ _) as [[[|?|?] [h|]] [q2|]] eqn:Et; try done.
  destruct (find_socket _ t) as [i|] eqn:Ef; [|done]. destruct (find_socket_Some _ _ _ Ht Ef) as [Hir Hm].
  destruct (tcp_pull_wf _ _ _ _ _ _ Hq Et) as (Hq2 & Hu & _). destruct (tcp_pull_reads _ _ _ _ _ _ Hq Hs Hds Et) as (R1 & R2 & R3 & R4 & _ & R5 & R6).
  destruct (decide (i = d)) as [->|Hne].
  2:{ destruct (tcp_input _ _ _ _ _) as [[rc s'] g']. cbn [fst snd]. by rewrite socket_off by lia. }
  destruct Hi as [Hc Hi]. pose proof Hc as (_ & _ & Hpeer & Hport).
  assert (Hseg : segment_ok (sequence h) (Tcp.flags h) (contents q2) = true).
  { pose proof (ipv4_pull_cases p stack_ip_header Hp) as Hcs. cbv zeta in Hcs. rewrite E in Hcs.
    destruct Hcs as [(? & _)|[(? & _)|[(? & _)|(_ & _ & _ & Hck & [= Eip] & p' & [= <-] & _ & Hcq)]]]; try done.
    assert (E1 : source ip = be32 (load32 (contents p) 12)) by (by rewrite Eip). assert (E2 : destination ip = be32 (load32 (contents p) 16)) by (by rewrite Eip).
    assert (E3 : protocol ip = aget 0 (contents p) 9) by (by rewrite Eip). unfold tcp_match in Hm. bool_to_prop.
    unfold genuine in Hg. rewrite <- E1, <- E2, <- E3, <- Hcq, Hck, Hproto, R6 in Hg. rewrite R3, R4, R5.
    replace (source ip =? address remote) with true in Hg by (symmetry; apply Z.eqb_eq; congruence).
    replace (get_be16 (contents q) 0 =? port remote) with true in Hg by (symmetry; apply Z.eqb_eq; congruence).
    replace (get_be16 (contents q) 2 =? lport) with true in Hg by (symmetry; apply Z.eqb_eq; congruence). exact Hg. }
  destruct (tcp_input_stream (socket t d) out h q2 (source ip) g (socket_ok_at t d Ht) Hc Hi Hq2 Hu Hseg) as [H1' H2'].
  destruct (tcp_input _ _ _ _ _) as [[rc s'] g']. cbn [fst snd] in *. by rewrite socket_on.
Qed.

Context `{!NicLaws W} (Hwire : forall data, delivered (W := W) data -> genuine (drop 14 data) = true).

Lemma wire_packet p data : packet_wf p -> delivered (W := W) data -> contents p = drop 14 data -> packet_ok p.
Proof. intros Hp Hda Hc. split; [done|]. rewrite Hc. by apply Hwire. Qed.

Lemma dispatch_stream t out (g : net W) : table_ok t -> net_ok packet_ok g -> tracked (socket t d) out ->
  tracked (socket (snd (fst (dispatch_external_ipv4 t g))) d) out.
Proof.
  intros Ht Hg Hi. destruct (dispatch_packet packet_ok wire_packet t g Hg) as (g1 & Hg1 & [->|(p & Hp & ->)]); [done|]. pose proof (proj1 (proj2 (proj1 Hi))) as Hty.
  destruct (rix_net_ipv4_pull _ _) as [[[|?|?] [ip|]] [q|]] eqn:E; try done. case_if; [by eapply dispatch_tcp_stream|].
  case_if.
  - unfold dispatch_icmp. destruct (data_of q); [|done]. case_if; [done|]. cbn [fst snd]. eapply tracked_core; [|exact Hi].
    set (f := fun s => if truthy (used s) && (type s =? RIX_NET_SOCKET_RAW_ICMP) then _ else s).
    assert (Ef : socket (f <$> t) d = f (socket t d)).
    { unfold socket, aget. rewrite list_lookup_fmap. destruct (lookup_lt_is_Some_2 t (Z.to_nat d)) as [y ->]; [|done]. destruct Ht as [Hl _]. unfold RIX_NET_SOCKET_MAX in *. lia. }
    rewrite Ef. unfold f. rewrite Hty. change (RIX_NET_SOCKET_TCP =? RIX_NET_SOCKET_RAW_ICMP) with false. by rewrite andb_false_r.
  - case_if; [done|]. unfold dispatch_udp. destruct (rix_net_udp_pull _ _ _ _) as [[[|?|?] [h|]] [q2|]]; try done. destruct (find_socket _ t) as [i|] eqn:Ef; [|done].
    destruct (find_socket_Some _ _ _ Ht Ef) as [Hir Hm]. cbn [fst snd]. rewrite socket_off; [done|lia..|]. intros ->. bool_to_prop. rewrite Hty in *. done.
Qed.

(** ** Reading *)

(** What a call hands to the reader of descriptor [d]. *)
Definition handed (c : call) (st : rix_net_socket_table_t * net W) : list Z :=
  match c with
  | Receive x buffer =>
      if decide (x = d) then
        let '(rc, buffer, _, _, _) := rix_net_socket_receive (fst st) x buffer (llen buffer) (snd st) in take (Z.to_nat rc) buffer
      else []
  | _ => []
  end.

Lemma copy_take n (buffer src : list Z) : (n <= List.length buffer)%nat -> List.length src = n -> take n (copy n buffer 0 src 0) = src.
Proof.
  intros Hn Hl. apply list_ext_aget; [rewrite length_take, length_copy; lia|]. intros i Hi. rewrite length_take, length_copy in Hi. rewrite aget_take by lia.
  rewrite aget_copy by lia. rewrite (proj2 (Z.leb_le 0 i)), (proj2 (Z.ltb_lt i (0 + Z.of_nat n))) by lia. cbn [andb]. f_equal. lia.
Qed.

(** A datagram leaves the queue for the buffer. *)
Lemma dequeue_stream t out buffer : table_ok t -> tracked (socket t d) out ->
  let '(rc, buffer', _, t') := dequeue t d buffer (llen buffer) in tracked (socket t' d) (out ++ take (Z.to_nat rc) buffer').
Proof.
  intros Ht Hi. assert (Hno : forall rc, rc <= 0 -> tracked (socket t d) (out ++ take (Z.to_nat rc) buffer)).
  { intros rc Hrc. replace (Z.to_nat rc) with 0%nat by lia. by rewrite app_nil_r. }
  unfold dequeue, truthy. pose proof (s_receive _ (socket_ok_at t d Ht)) as Hq. set (q := receive (socket t d)) in *. case_if; [case_if; [by apply Hno|case_if; apply Hno; lia]|].
  pose proof Hq as [H1 H2 H3 H4 H5 H6]. unfold RIX_NET_SOCKET_QUEUE in *. bool_to_prop. set (p := aget stack_packet (packets q) (head q)).
  assert (Hp : packet_wf p) by (apply (Forall_aget packet_wf); [done|apply stack_packet_ok]). case_if; [apply Hno; lia|]. rewrite data_of_wf by done.
  pose proof (length_contents p Hp) as Hl. destruct (packet_data p Hp) as [_ Hn]. change (default [] (Some (contents p))) with (contents p). rewrite copy_take by lia.
  rewrite socket_on by done. rewrite u64_id by (unfold is_u64; lia). set (q' := {| packets := _ |}). destruct Hi as [Hc Hi]. split; [done|].
  assert (Hb : bytes_queued (socket t d) = contents p ++ bytes_queued (with_receive q' (socket t d))).
  { unfold bytes_queued, queued. fold q. unfold RIX_NET_SOCKET_QUEUE. rewrite (ring_pop _ stack_packet _ (head q)), (ring_pop _ no_endpoint _ (head q)) by lia. done. }
  unfold stream_inv in *. change (tcp_state (with_receive q' (socket t d))) with (tcp_state (socket t d)).
  assert (Hfl : flow (socket t d) out -> flow (with_receive q' (socket t d)) (out ++ contents p)).
  { intros (k & f & E1 & E2 & E3). exists k, f. split; [done|]. split; [|done]. by rewrite <- E2, Hb, (assoc_L (++)). }
  assert (Hpre : bytes_queued (socket t d) = [] -> contents p = [] /\ bytes_queued (with_receive q' (socket t d)) = []) by (rewrite Hb; apply app_nil).
  destruct (tcp_state (socket t d)); try done; try (destruct Hi as [Hi1 Hi2]; split; [by apply Hfl|done]).
  all: destruct Hi as (-> & Hi1 & Hi2); destruct (Hpre Hi1) as [-> ->]; done.
Qed.

Lemma receive_stream t out buffer (g : net W) : table_ok t -> net_ok packet_ok g -> tracked (socket t d) out ->
  let '(rc, buffer', _, t', _) := rix_net_socket_receive t d buffer (llen buffer) g in tracked (socket t' d) (out ++ take (Z.to_nat rc) buffer').
Proof.
  intros Ht Hg Hi. assert (Hno : forall rc, rc <= 0 -> tracked (socket t d) (out ++ take (Z.to_nat rc) buffer)).
  { intros rc Hrc. replace (Z.to_nat rc) with 0%nat by lia. by rewrite app_nil_r. }
  unfold rix_net_socket_receive. case_if; [by apply Hno|]. case_if; [by apply Hno|].
  set (r := if _ && _ then dispatch_external_ipv4 t g else (0, t, g)).
  assert (Hr : table_ok (snd (fst r)) /\ tracked (socket (snd (fst r)) d) out).
  { unfold r. case_if; [|done]. split; [|by apply dispatch_stream]. pose proof (dispatch_ok packet_ok packet_ok_wf wire_packet t g Ht Hg) as Hx. destruct (dispatch_external_ipv4 _ _) as [[? ?] ?]; apply Hx. }
  destruct r as [[rc t1] g1]. cbn [fst snd] in Hr. destruct Hr as [Ht1 Hi1]. pose proof (dequeue_stream t1 out buffer Ht1 Hi1) as Hx.
  by destruct (dequeue _ _ _ _) as [[[? ?] ?] ?].
Qed.

(** Calls that leave the connection in place. *)
Definition allowed (c : call) : Prop :=
  match c with
  | Close x | Bind x _ => x <> d
  | Connect x e => x = d -> e = remote
  | _ => True
  end.

Lemma exec_stream c t out (g : net W) : allowed c -> table_ok t -> net_ok packet_ok g -> tracked (socket t d) out ->
  tracked (socket (fst (exec c (t, g))) d) (out ++ handed c (t, g)).
Proof.
  intros Hc Ht Hg Hi. pose proof (proj1 Hi) as Hconn. pose proof Hconn as (Hu & _).
  assert (Hcore : forall t', core (socket t' d) = core (socket t d) -> tracked (socket t' d) (out ++ [])) by (intros t' E; rewrite app_nil_r; by eapply tracked_core).
  destruct c as [ty|x|x how|x n|x|x level opt v|x e|x e|x data to|x buffer| |now]; cbn [exec handed allowed fst snd] in *.
  - by apply Hcore, core_open.
  - apply Hcore. unfold rix_net_socket_close. case_if; [done|]. destruct (valid_range t x) as [Hr _]; [by destruct (valid_descriptor t x)|]. by apply core_on; [|lia|].
  - apply Hcore. unfold rix_net_socket_shutdown. case_if; [done|]. destruct (valid_range t x) as [Hr _]; [by destruct (valid_descriptor t x)|]. cbn [snd].
    assert (Hor : forall y t, table_ok t -> table_ok (on_socket x (fun s => with_shutdown (Z.lor (shutdown s) y) s) t) /\
      core (socket (on_socket x (fun s => with_shutdown (Z.lor (shutdown s) y) s) t) d) = core (socket t d)).
    { intros y t0 Ht0. split; [apply on_socket_ok; [done|]; intros Hs; by keep_socket|]. by apply core_on; [|lia|]. }
    case_if; case_if; rewrite ?(proj2 (Hor _ _ (proj1 (Hor _ _ Ht)))), ?(proj2 (Hor _ _ Ht)); done.
  - apply Hcore. unfold rix_net_socket_listen. case_if; [done|]. destruct (valid_range t x) as [Hr _]; [by destruct (valid_descriptor t x)|]. by apply core_on; [|lia|].
  - by apply Hcore, core_accept.
  - apply Hcore. unfold rix_net_socket_set_option. case_if; [done|]. destruct (valid_range t x) as [Hr _]; [by destruct (valid_descriptor t x)|]. case_if; by apply core_on; [|lia|].
  - apply Hcore. unfold rix_net_socket_bind. case_if; [done|]. destruct (valid_range t x) as [Hr _]; [by destruct (valid_descriptor t x)|]. case_if; [done|]. by apply core_on; [|lia|].
  - rewrite app_nil_r. pose proof (connect_stream t x e out g Ht Hc Hi) as Hx. by destruct (rix_net_socket_connect _ _ _ _) as [[? ?] ?].
  - pose proof (core_send t x (Some data) (llen data) to g Ht Hconn) as Hx. destruct (rix_net_socket_send _ _ _ _ _ _) as [[? ?] ?]. by apply Hcore.
  - destruct (decide (x = d)) as [->|Hne].
    + pose proof (receive_stream t out buffer g Ht Hg Hi) as Hx. by destruct (rix_net_socket_receive _ _ _ _ _) as [[[[? ?] ?] ?] ?].
    + rewrite app_nil_r. unfold rix_net_socket_receive. destruct (negb (valid_descriptor t x) || _) eqn:Ev; [done|]. case_if; [done|]. destruct (valid_range t x) as [Hr _]; [by destruct (valid_descriptor t x)|].
      set (r := if _ && _ then dispatch_external_ipv4 t g else (0, t, g)).
      assert (Hr2 : tracked (socket (snd (fst r)) d) out) by (unfold r; case_if; [by apply dispatch_stream|done]). destruct r as [[rc t1] g1]. cbn [fst snd] in Hr2.
      unfold dequeue. case_if; [by case_if|]. case_if; [done|]. cbn. by rewrite socket_off by lia.
  - rewrite app_nil_r. unfold rix_net_socket_poll. destruct (default_stack g) eqn:E; [|done]. pose proof (dispatch_stream t out g Ht Hg Hi). by destruct (dispatch_external_ipv4 _ _) as [[? ?] ?].
  - by rewrite app_nil_r.
Qed.
End Stream.

(** ** The reassembly loop ends *)

Definition slots_held (s : rix_net_socket_t) : Z := countb (fun r => truthy (slot_used r)) (reassembly s).

Lemma queue_payload_slots s seq p fin : reassembly (snd (tcp_queue_payload s seq p fin)) = reassembly s.
Proof.
  unfold tcp_queue_payload. case_if; [done|]. destruct (if truthy (length p) then _ else _) as [rc s1] eqn:E.
  assert (E1 : reassembly s1 = reassembly s).
  { destruct (truthy (length p)); [|by injection E as _ <-]. revert E. unfold queue_packet. case_if; [by intros [= _ <-]|]. destruct (packet_copy _ _ _). case_if; by intros [= _ <-]. }
  case_if; [done|]. rewrite <- E1. case_if; [|done].
  match goal with |- context [transition ?e ?s2] => destruct (transition_cases e s2) as [(n & _ & ->)|[_ ->]] end; done.
Qed.

Lemma drain_slot_held i b s :
  0 <= i < RIX_NET_TCP_REASSEMBLY_SLOTS -> llen (reassembly s) = RIX_NET_TCP_REASSEMBLY_SLOTS ->
  match drain_slot i (b, s) with
  | inl (b', s') => llen (reassembly s') = RIX_NET_TCP_REASSEMBLY_SLOTS /\ (b' = b /\ slots_held s' = slots_held s \/ b' = true /\ slots_held s' = slots_held s - 1)
  | inr _ => True
  end.
Proof.
  intros Hi Hl. unfold drain_slot. destruct (negb _ || _) eqn:E; [split; [done|by left]|]. bool_to_prop.
  pose proof (queue_payload_slots s (slot_sequence (aget no_slot (reassembly s) i)) (slot_packet (aget no_slot (reassembly s) i)) (slot_fin (aget no_slot (reassembly s) i))) as Es.
  destruct (tcp_queue_payload _ _ _ _) as [rc s1]. cbn [snd] in Es. case_if; [done|]. cbn. rewrite length_aset, Es. split; [done|]. right. split; [done|].
  unfold slots_held. cbn [reassembly with_reassembly]. rewrite ?Es. unfold aset. destruct (lookup_lt_is_Some_2 (reassembly s) (Z.to_nat i)) as [r Hr]; [unfold RIX_NET_TCP_REASSEMBLY_SLOTS in *; lia|].
  rewrite (countb_insert _ _ _ r) by done. unfold aget in *. rewrite Hr in *. cbn in *. rewrite H. cbn. lia.
Qed.

(** Each pass that progresses frees a slot; five passes are enough for four slots:
    more fuel changes nothing. *)
Lemma drain_enough k j s : llen (reassembly s) = RIX_NET_TCP_REASSEMBLY_SLOTS -> slots_held s < Z.of_nat k -> drain_loop (k + j) s = drain_loop k s.
Proof.
  revert s. induction k as [|k IH]; intros s Hl Hk; [unfold slots_held in Hk; pose proof (countb_nonneg (fun r => truthy (slot_used r)) (reassembly s)); lia|].
  cbn [drain_loop Nat.add].
  pose proof (for_inv (fun _ '(b, s') => llen (reassembly s') = RIX_NET_TCP_REASSEMBLY_SLOTS /\ slots_held s' <= slots_held s /\ (b = true -> slots_held s' < slots_held s))
    (fun _ => True) 0 RIX_NET_TCP_REASSEMBLY_SLOTS drain_slot (false, s) ltac:(done) ltac:(split; [done|split; [lia|done]])) as H.
  destruct (for_ _ _ _ _) as [[b s']|s']; [|done].
  destruct H as (H1 & H2 & H3).
  { intros i [b0 s0] Hi (L0 & L1 & L2). pose proof (drain_slot_held i b0 s0 ltac:(lia) L0) as Hx. destruct (drain_slot i (b0, s0)) as [[b1 s1]|]; [|done].
    destruct Hx as [Hl1 [[-> Hx]|[-> Hx]]]; (split; [done|]); split; try lia. intros Hb. specialize (L2 Hb). lia. }
  destruct b; [|done]. apply IH; [done|]. specialize (H3 eq_refl). lia.
Qed.

(** ** Histories *)

Section History.
Context {W : Type} `{!Nic W, !Clock W, !NicLaws W}.

(** Everything process [k] reads from its descriptor [d] along a history. *)
Fixpoint read_by (k : nat) (d : Z) (cs : list (nat * call)) (st : list rix_net_socket_table_t * net W) : list Z :=
  match cs with
  | [] => []
  | (j, c) :: cs =>
      (if decide (j = k) then match fst st !! k with Some t => handed d c (t, snd st) | None => [] end else []) ++ read_by k d cs (step j c st)
  end.

(** The history keeps process [k]'s connection in place. *)
Definition keeps_open (remote : rix_net_endpoint_t) (k : nat) (d : Z) (cs : list (nat * call)) : Prop :=
  Forall (fun jc => call_ok (snd jc) /\ (fst jc = k -> allowed remote d (snd jc))) cs.

Section Run.
Context (remote : rix_net_endpoint_t) (lport base : Z) (stream : list Z) (k : nat) (d : Z).
Context (Hbase : 1 <= base) (Hend : base + llen stream + 1 < 2 ^ 32) (Hd : 0 <= d < RIX_NET_SOCKET_MAX) (Hremote : address remote <> RIX_NET_SOCKET_LOOPBACK)
  (Hwire : forall data, delivered (W := W) data -> genuine remote lport base stream (drop 14 data) = true).

Lemma steps_stream cs st t out :
  keeps_open remote k d cs -> Forall table_ok (fst st) -> net_ok (packet_ok remote lport base stream) (snd st) ->
  fst st !! k = Some t -> tracked remote lport base stream (socket t d) out ->
  exists t', fst (steps cs st) !! k = Some t' /\ tracked remote lport base stream (socket t' d) (out ++ read_by k d cs st).
Proof.
  revert st t out. induction cs as [|[j c] cs IH]; intros [ts g] t out Hcs Hts Hg Hk Hi.
  { exists t. split; [done|]. cbn. by rewrite app_nil_r. }
  apply Forall_cons_1 in Hcs as [[Hok Hall] Hcs]. cbn [steps foldl read_by fst snd] in *. change (foldl _ ?s cs) with (steps cs s).
  assert (Hstep : Forall table_ok (fst (step j c (ts, g))) /\ net_ok (packet_ok remote lport base stream) (snd (step j c (ts, g)))).
  { apply (steps_ok (packet_ok remote lport base stream) [(j, c)] (ts, g)); [apply packet_ok_wf|by apply wire_packet|by constructor|done|done]. }
  assert (Hnext : exists t', fst (step j c (ts, g)) !! k = Some t' /\
    tracked remote lport base stream (socket t' d) (out ++ (if decide (j = k) then match ts !! k with Some t0 => handed d c (t0, g) | None => [] end else []))).
  { unfold step. cbn [fst snd]. destruct (ts !! j) as [tj|] eqn:Ej.
    - destruct (decide (j = k)) as [->|Hne].
      + rewrite Hk in Ej. injection Ej as <-. rewrite Hk.
        pose proof (exec_stream remote lport base stream Hbase Hend d Hd Hremote Hwire c t out g (Hall eq_refl) (Forall_lookup_1 _ _ _ _ Hts Hk) Hg Hi) as Hx.
        destruct (exec c (t, g)) as [t' g']. cbn [fst] in *. exists t'. split; [apply list_lookup_insert_eq; by eapply lookup_lt_Some|done].
      + destruct (exec c (tj, g)) as [t' g']. cbn [fst]. exists t. rewrite app_nil_r. split; [|done]. by rewrite list_lookup_insert_ne.
    - exists t. split; [done|]. destruct (decide (j = k)) as [->|]; [congruence|]. by rewrite app_nil_r. }
  destruct Hnext as (t' & Hk' & Hi'). destruct (IH _ _ _ Hcs (proj1 Hstep) (proj2 Hstep) Hk' Hi') as (t'' & H1 & H2). exists t''. split; [done|]. by rewrite (assoc_L (++)).
Qed.
End Run.

(** C7: TCP delivers a prefix of the peer's stream. Take a socket whose connection
    to an outside peer is being opened, in a system of processes sharing the stack,
    and any wire whatever: frames may be lost, repeated, reordered, split anew,
    corrupted beyond their checksums, or belong to others, as long as the ones that
    pass as segments of this connection agree with one stream of bytes (with sequence
    numbers that do not wrap). Then after any calls of any processes that leave the
    connection in place, what its reader was handed followed by what is queued
    for it is exactly a prefix of that stream, and while the connection receives, the
    acknowledgment it sends covers that prefix (and the FIN, after all of it). *)
Theorem tcp_stream_integrity remote lport base stream n (w : W) procs pre cs k d t
    (Hbase : 1 <= base) (Hend : base + llen stream + 1 < 2 ^ 32) (Hd : 0 <= d < RIX_NET_SOCKET_MAX)
    (Hremote : address remote <> RIX_NET_SOCKET_LOOPBACK)
    (Hwire : forall data, delivered (W := W) data -> genuine remote lport base stream (drop 14 data) = true)
    (Hpre : Forall (fun kc => call_ok (snd kc)) pre) (Hcs : keeps_open remote k d cs)
    (Ht : fst (steps pre (replicate procs new_table, new_net n w)) !! k = Some t)
    (Hsyn : connection remote lport (socket t d) /\ tcp_state (socket t d) = TcpControl.RIX_TCP_SYN_SENT /\
            count (receive (socket t d)) = 0 /\ Forall (fun r => slot_used r = 0) (reassembly (socket t d))) :
  let st := steps pre (replicate procs new_table, new_net n w) in
  exists t' m, fst (steps cs st) !! k = Some t' /\ 0 <= m <= llen stream /\
    read_by k d cs st ++ bytes_queued (socket t' d) = take (Z.to_nat m) stream /\
    (receiving (tcp_state (socket t' d)) ->
       tcp_ack (socket t' d) = base + m \/ tcp_ack (socket t' d) = base + m + 1 /\ m = llen stream).
Proof.
  cbv zeta. destruct (steps_ok (packet_ok remote lport base stream) pre (replicate procs new_table, new_net n w)) as [H1 H2];
    [apply packet_ok_wf|by apply wire_packet|done|apply Forall_replicate, new_table_ok|apply new_net_ok|].
  set (st := steps pre _) in *. destruct Hsyn as (Hc & Hst & Hcount & Hslots).
  assert (Hi : tracked remote lport base stream (socket t d) []).
  { split; [done|]. unfold stream_inv. rewrite Hst. split; [done|]. split; [|done]. apply queued_empty; try done. apply s_receive, socket_ok_at. exact (Forall_lookup_1 _ _ _ _ H1 Ht). }
  destruct (steps_stream remote lport base stream k d Hbase Hend Hd Hremote Hwire cs st t [] Hcs H1 H2 Ht Hi) as (t' & Hk & Hc' & Hi').
  exists t'. cbn [app] in Hi'. unfold stream_inv in Hi'. destruct (tcp_state (socket t' d)) eqn:Es; try done.
  all: match type of Hi' with
       | _ = [] /\ _ => destruct Hi' as (-> & -> & _); exists 0; split; [done|]; split; [lia|]; split; [done|]; by intros [E|E]
       | _ => destruct Hi' as [(m & f & E1 & E2 & E3 & E4) _]; exists m; split; [done|]; split; [lia|]; split; [done|]; intros _; lia
       end.
Qed.
End History.

(** ** A connection on a small wire *)

Definition demo_stream : list Z := [82; 105; 120].
Definition demo_peer : rix_net_endpoint_t := {| address := 0x0a000202; port := 80 |}.
Definition demo_mac : list Z := [2; 0; 0; 0; 0; 1].

(** A frame from the peer to port 49152. *)
Definition demo_frame (seq ack flg : Z) (payload : list Z) : list Z :=
  match and_then (and_then (rix_net_tcp_push (rix_net_packet_init (Some stack_packet)) 0x0a000202 0x0a00020f 80 49152 seq ack flg 4096 (Some payload) (llen payload))
                   (fun p => rix_net_ipv4_push p 0x0a000202 0x0a00020f RIX_NET_IP_PROTO_TCP 64 0 0))
          (fun p => rix_net_eth_push p (Some demo_mac) (Some [2; 0; 0; 0; 0; 2]) RIX_NET_ETHERTYPE_IPV4) with
  | (0, Some p) => contents p
  | _ => []
  end.

(** SYN+ACK, the end of the stream before its beginning, then the beginning twice
    over and the end. *)
Definition demo_frames : list (list Z) :=
  Eval vm_compute in [demo_frame 999 2 18 []; demo_frame 1001 2 24 [105; 120]; demo_frame 1000 2 24 [82]; demo_frame 1000 2 24 [82; 105; 120]; demo_frame 1003 2 17 []].

(** The world is the number of frames delivered. *)
#[global] Instance demo_nic : Nic nat := {|
  rix_e1000_default := fun _ => Some {| ctl_link_up := true; ctl_mac := demo_mac |};
  rix_rtl8125_default := fun _ => None;
  rix_e1000_transmit := fun _ _ w => (0, w);
  rix_rtl8125_transmit := fun _ _ w => (-1, w);
  rix_e1000_receive := fun room w => match demo_frames !! w with Some f => if llen f <=? room then (1, f, S w) else (0, [], w) | None => (0, [], w) end;
  rix_rtl8125_receive := fun _ w => (0, [], w) |}.
#[global] Instance demo_clock : Clock nat := fun w => 0.

Lemma wire_frames_ok : Forall (fun f => Forall is_u8 f /\ genuine demo_peer 49152 1000 demo_stream (drop 14 f) = true) demo_frames.
Proof.
  assert (H : forallb (fun f => forallb (fun x => (0 <=? x) && (x <? 256)) f && genuine demo_peer 49152 1000 demo_stream (drop 14 f)) demo_frames = true) by (vm_compute; reflexivity).
  apply List.Forall_forall. intros f Hf. pose proof (proj1 (forallb_forall _ _) H f Hf) as Hx. apply andb_true_iff in Hx as [Hx Hg]. split; [|done].
  apply List.Forall_forall. intros x Hxf. pose proof (proj1 (forallb_forall _ _) Hx x Hxf) as Hb. cbv beta in Hb. bool_to_prop. unfold is_u8. lia.
Qed.

#[global] Instance demo_nic_laws : NicLaws nat.
Proof.
  split; intros room w r data w' Hroom; cbn.
  - destruct (demo_frames !! w) as [f|] eqn:E; [|intros [= <- <- <-]; split; [done|cbn; lia]]. case_if; intros [= <- <- <-]; [|split; [done|cbn; lia]].
    split; [|done]. exact (proj1 (Forall_lookup_1 _ _ _ _ wire_frames_ok E)).
  - intros [= <- <- <-]. split; [done|cbn; lia].
Qed.

Lemma demo_wire data : delivered (W := nat) data -> genuine demo_peer 49152 1000 demo_stream (drop 14 data) = true.
Proof.
  intros (room & r & w & w' & Hr & [E|E]); cbn in E; [|injection E as <- _ _; lia].
  destruct (demo_frames !! w) as [f|] eqn:Ef; [|injection E as <- _ _; lia]. destruct (llen f <=? room); injection E as <- <- <-; [|lia].
  exact (proj2 (Forall_lookup_1 _ _ _ _ wire_frames_ok Ef)).
Qed.

Definition demo_device : net_device := snd (rix_net_device_init 0%nat).
Definition demo_boot : list rix_net_socket_table_t * net nat := (replicate 2 new_table, new_net demo_device 0%nat).
Definition demo_open : list (nat * call) := [(1%nat, Open RIX_NET_SOCKET_TCP); (1%nat, Connect 0 demo_peer)].
Definition demo_reads : list (nat * call) := (fun _ => (1%nat, Receive 0 (replicate 4 0))) <$> seq 0 6.

(** After opening, the socket is waiting for the answer; then it reads the stream. *)
Definition opening (t : rix_net_socket_table_t) : bool :=
  let s := socket t 0 in
  truthy (used s) && (type s =? RIX_NET_SOCKET_TCP) && endpoint_equal (peer s) demo_peer && (port (local s) =? 49152) &&
  bool_decide (tcp_state s = TcpControl.RIX_TCP_SYN_SENT) && (count (receive s) =? 0) && forallb (fun r => slot_used r =? 0) (reassembly s).

Lemma demo_opens : exists t, fst (steps demo_open demo_boot) !! 1%nat = Some t /\ opening t = true.
Proof. vm_compute. eexists. split; reflexivity. Qed.

Lemma demo_read : read_by 1 0 demo_reads (steps demo_open demo_boot) = demo_stream.
Proof. vm_compute. reflexivity. Qed.

Lemma demo_calls_ok : Forall (fun kc => call_ok (snd kc)) demo_open /\ keeps_open demo_peer 1 0 demo_reads.
Proof.
  split; [|unfold keeps_open, demo_reads; apply Forall_fmap, Forall_true; intros x; by split].
  constructor; [done|]. constructor; [|done]. cbn. split; cbn; unfold is_u32, is_u16; lia.
Qed.

(** The reader gets the whole of the three bytes, although they came in backwards and
    in part twice. *)
Lemma tcp_stream_integrity_witness :
  exists t' m, fst (steps demo_reads (steps demo_open demo_boot)) !! 1%nat = Some t' /\ demo_stream ++ bytes_queued (socket t' 0) = take (Z.to_nat m) demo_stream.
Proof.
  destruct demo_opens as (t & Ht & Ho). unfold opening, truthy, endpoint_equal in Ho. bool_to_prop.
  assert (Hc : connection demo_peer 49152 (socket t 0)).
  { split; [done|]. split; [done|]. split; [|done]. destruct (peer (socket t 0)) as [a p]. cbn in *. subst. reflexivity. }
  destruct (tcp_stream_integrity demo_peer 49152 1000 demo_stream demo_device 0%nat 2 demo_open demo_reads 1 0 t ltac:(lia) ltac:(cbn; lia) ltac:(done) ltac:(done)
    demo_wire (proj1 demo_calls_ok) (proj2 demo_calls_ok) Ht) as (t' & m & H1' & _ & H2' & _).
  { split; [done|]. split; [done|]. split; [done|]. apply List.Forall_forall. intros r Hr. match goal with H : forallb _ _ = true |- _ => pose proof (proj1 (forallb_forall _ _) H r Hr) as Hb end.
    cbv beta in Hb. by bool_to_prop. }
  exists t', m. split; [exact H1'|]. rewrite <- demo_read at 1. exact H2'.
Defined.

Lemma socket_tables_well_formed_witness : let '(ts, g) := steps demo_open (replicate 2 new_table, new_net demo_device 0%nat) in List.length ts = 2%nat /\ Forall table_ok ts /\ net_ok packet_wf g.
Proof.
  pose proof (socket_tables_well_formed demo_device 0%nat 2 demo_open (proj1 demo_calls_ok)) as H. destruct (steps demo_open _) as [ts g]. exact H.
Defined.

(** Processes share one queue of received packets, and a poll takes the packet at its
    front whoever it is for. If process 0, which has no socket at all, polls five
    times before process 1 reads, the five frames are gone: process 1's connection
    never opens and its reader gets nothing, although every frame was delivered. *)
Theorem neighbour_poll_steals :
  read_by 1 0 demo_reads (steps demo_open demo_boot) = demo_stream /\
  read_by 1 0 (replicate 5 (0%nat, Poll) ++ demo_reads) (steps demo_open demo_boot) = [].
Proof. split; [exact demo_read|vm_compute; reflexivity]. Qed.
