(* ===== verification/SocketUdp.v ===== *)
(** * Datagrams over the loopback address ([kernel/net/socket.c])

    Sending to a loopback address goes through the UDP code into the receiver's
    queue, and receiving takes from its front. *)
From stdpp Require Import base tactics list numbers.
From S2P Require Import Prelude Bytes NetPacket Ethernet Ipv4 Udp Tcp Ipv6 Device Ring NetStack Socket SocketInv SocketStream.

(** Socket [i] is [s'] in a table otherwise unchanged. *)
Definition only_socket (t t' : rix_net_socket_table_t) (i : Z) : Prop := forall j, 0 <= j < RIX_NET_SOCKET_MAX -> j <> i -> socket t' j = socket t j.

Lemma deliver_spec t i d n from r rc t' :
  table_ok t -> 0 <= i < RIX_NET_SOCKET_MAX -> Forall is_u8 d -> 0 < n <= llen d -> n <= RIX_NET_FRAME_CAPACITY - RIX_NET_HEADROOM -> endpoint_ok from ->
  deliver t i (Some d) n from r = (rc, t') ->
  table_ok t' /\ only_socket t t' i /\ socket t' i = with_receive (receive (socket t' i)) (socket t i) /\
  (if count (receive (socket t i)) <? RIX_NET_SOCKET_QUEUE
   then rc = r /\ queued (receive (socket t' i)) = queued (receive (socket t i)) ++ [(take (Z.to_nat n) d, from)]
   else rc = -3 /\ queued (receive (socket t' i)) = queued (receive (socket t i))).
Proof.
  intros Ht Hi Hd Hn Hf Hfrom E. pose proof (deliver_ok t i d n from r Ht Hd ltac:(lia) Hfrom) as Hok. rewrite E in Hok. split; [done|]. revert E. unfold deliver.
  destruct (queue_packet _ _ _ _) as [c s'] eqn:Eq. pose proof (s_receive _ (socket_ok_at t i Ht)) as Hq. pose proof Hq as [_ _ _ Hc _ _].
  destruct (queue_packet_spec (socket t i) d n from c s' Hq Hd ltac:(lia) Hfrom Eq) as (Es & _ & Hcases). intros [= <- <-]. rewrite socket_on by done.
  split; [intros j Hj Hne; apply socket_off; lia|]. split; [exact Es|]. destruct Hcases as [(-> & Hqd & _ & Hlt)|(-> & Hqd & Hwhy)].
  - rewrite (proj2 (Z.ltb_lt (count (receive (socket t i))) RIX_NET_SOCKET_QUEUE)) by done. done.
  - rewrite (proj2 (Z.ltb_ge (count (receive (socket t i))) RIX_NET_SOCKET_QUEUE)) by lia. done.
Qed.

(** Through the UDP header and back. *)
Lemma send_udp_spec t x data to :
  table_ok t -> used (socket t x) <> 0 -> Forall is_u8 data -> llen data <= RIX_NET_MTU -> endpoint_ok to -> address to <> 0 -> port to <> 0 ->
  send_udp t x data (llen data) to =
    match find_socket (listens RIX_NET_SOCKET_UDP to) t with
    | Some i => deliver t i (Some data) (llen data) (local (socket t x)) (llen data)
    | None => (-4, t)
    end.
Proof.
  intros Ht Hu Hd Hl [Ha Hp] Ha0 Hp0. destruct (local_ok t x Ht Hu) as (La & Lp & Ln). unfold send_udp, RIX_NET_MTU in *.
  destruct (init_packet stack_packet stack_packet_ok) as (q0 & -> & Hw0 & Hs0 & Hl0 & Hc0). unfold RIX_NET_HEADROOM in *.
  destruct (udp_roundtrip q0 stack_udp_header RIX_NET_SOCKET_LOOPBACK (address to) (port (local (socket t x))) (port to) data) as (p' & ck & p2 & E1 & _ & E2 & Hw2 & Hc2);
    try done; [lia|rewrite capacity_val; lia|]. rewrite E1, E2. rewrite Hc0 in Hc2. cbn in Hc2. pose proof (length_contents p2 Hw2) as Hlen. rewrite Hc2 in Hlen.
  by rewrite data_of_wf, Hc2, Hlen.
Qed.

Section Datagrams.
Context {W : Type} `{!Nic W, !Clock W}.

(** The socket that a datagram for [to] goes to. *)
Definition receiver_of (t : rix_net_socket_table_t) (to : rix_net_endpoint_t) : option Z := find_socket (listens RIX_NET_SOCKET_UDP to) t.

Lemma queue_front q data from rest :
  queue_ok q -> queued q = (data, from) :: rest ->
  let p := aget stack_packet (packets q) (head q) in
  0 < count q /\ packet_wf p /\ contents p = data /\ NetPacket.length p = llen data /\ aget no_endpoint (peers q) (head q) = from /\
  queued {| packets := packets q; peers := peers q; head := u64 (head q + 1) mod RIX_NET_SOCKET_QUEUE; count := count q - 1 |} = rest.
Proof.
  intros Hq E. pose proof (length_waiting _ Hq) as Hlen. rewrite E in Hlen. cbn in Hlen. destruct Hq as [H1 H2 H3 H4 H5 H6].
  assert (Hp : packet_wf (aget stack_packet (packets q) (head q))) by (apply (Forall_aget packet_wf); [done|apply stack_packet_ok]).
  unfold queued, RIX_NET_SOCKET_QUEUE in *. rewrite (ring_pop _ stack_packet _ (head q)), (ring_pop _ no_endpoint _ (head q)) in E by lia. cbn in E. injection E as <- <- <-.
  cbv zeta. split; [lia|]. split; [done|]. split; [done|]. rewrite length_contents, u64_id by (done || unfold is_u64; lia). done.
Qed.

(** What receiving gives from the front of a queue. *)
Lemma dequeue_front t d buffer data from rest :
  table_ok t -> 0 <= d < RIX_NET_SOCKET_MAX -> queued (receive (socket t d)) = (data, from) :: rest -> llen data <= llen buffer ->
  exists t', dequeue t d buffer (llen buffer) = (llen data, data ++ drop (List.length data) buffer, Some from, t') /\ queued (receive (socket t' d)) = rest.
Proof.
  intros Ht Hd Hq Hl. destruct (queue_front _ _ _ _ (s_receive _ (socket_ok_at t d Ht)) Hq) as (Hc & Hp & Hdata & Hlp & Hfrom & Hrest).
  unfold dequeue, truthy. rewrite (proj2 (Z.eqb_neq (count _) 0)) by lia. cbn [negb]. rewrite Hlp, Hfrom, data_of_wf, Hdata, (proj2 (Z.ltb_ge (llen buffer) (llen data))) by (done || lia).
  assert (Hcopy : copy (Z.to_nat (llen data)) buffer 0 (default [] (Some data)) 0 = data ++ drop (List.length data) buffer).
  { rewrite Nat2Z.id. change (default [] (Some data)) with data. rewrite <- (firstn_skipn (List.length data) buffer) at 1. apply copy_front. rewrite length_take. lia. }
  rewrite Hcopy. eexists. split; [reflexivity|]. rewrite socket_on by done. exact Hrest.
Qed.

Lemma dequeue_small t d buffer data from rest :
  table_ok t -> queued (receive (socket t d)) = (data, from) :: rest -> llen buffer < llen data -> dequeue t d buffer (llen buffer) = (-4, buffer, None, t).
Proof.
  intros Ht Hq Hl. destruct (queue_front _ _ _ _ (s_receive _ (socket_ok_at t d Ht)) Hq) as (Hc & _ & _ & Hlp & _).
  unfold dequeue, truthy. rewrite (proj2 (Z.eqb_neq (count _) 0)) by lia. cbn [negb]. by rewrite Hlp, (proj2 (Z.ltb_lt (llen buffer) (llen data))) by lia.
Qed.

(** C25: datagrams over loopback arrive whole, in order and with their origin. Sending
    from a UDP socket to a loopback port returns -4 and changes nothing if no UDP
    socket of the table goes by it; -3 if that socket's eight slots are taken, with
    nothing lost; and otherwise the length, the datagram joining the end of that
    socket's queue, no other socket changed. Receiving takes the datagram at the
    front (the next [receive] gets the next one), or answers -4 and keeps it when the
    buffer is too small. *)
Theorem udp_loopback_fifo t (g : net W) x data to buffer
    (Ht : table_ok t) (Hx : valid_descriptor t x = true) (Hudp : type (socket t x) = RIX_NET_SOCKET_UDP)
    (Hwr : Z.land (shutdown (socket t x)) RIX_NET_SOCKET_SHUT_WR = 0) (Hpeer : connected (socket t x) <> 0 -> peer (socket t x) = to)
    (Hd : Forall is_u8 data) (Hlen : 0 < llen data <= RIX_NET_MTU) (Hto : name_ok to) (Hbuf : 0 < llen buffer) :
  let '(rc, t', g') := rix_net_socket_send t x (Some data) (llen data) to g in
  g' = g /\
  match receiver_of t to with
  | None => rc = -4 /\ t' = t
  | Some i =>
      let before := queued (receive (socket t i)) in
      only_socket t t' i /\
      (if llen before <? RIX_NET_SOCKET_QUEUE then rc = llen data /\ queued (receive (socket t' i)) = before ++ [(data, local (socket t x))]
       else rc = -3 /\ queued (receive (socket t' i)) = before) /\
      match queued (receive (socket t' i)) with
      | (d, from) :: rest =>
          Z.land (shutdown (socket t' i)) RIX_NET_SOCKET_SHUT_RD = 0 ->
          if llen d <=? llen buffer then
            exists t'', rix_net_socket_receive t' i buffer (llen buffer) g = (llen d, d ++ drop (List.length d) buffer, Some from, t'', g) /\
              queued (receive (socket t'' i)) = rest
          else rix_net_socket_receive t' i buffer (llen buffer) g = (-4, buffer, None, t', g)
      | [] => False
      end
  end.
Proof.
  destruct (valid_range t x Hx) as [Hr Hu]. destruct (name_endpoint _ Hto) as [Ha Hp]. destruct Hto as (Hto1 & Hto2 & Hto3).
  pose proof (send_udp_spec t x data to Ht Hu Hd (proj2 Hlen) (conj Ha Hp) ltac:(by rewrite Hto1) Hto3) as Es.
  unfold rix_net_socket_send. rewrite Hx. unfold truthy. cbn [negb orb]. rewrite (proj2 (Z.eqb_neq (llen data) 0)), (proj2 (Z.ltb_ge RIX_NET_MTU (llen data))), Hwr by lia. cbn [negb orb Z.eqb].
  replace (if negb (connected (socket t x) =? 0) then peer (socket t x) else to) with to by (destruct (connected (socket t x) =? 0) eqn:Ec; bool_to_prop; [done|by rewrite Hpeer]).
  rewrite Hudp, Hto1, (proj2 (Z.eqb_neq (port to) 0)) by done. cbn [Z.eqb RIX_NET_SOCKET_UDP RIX_NET_SOCKET_RAW_ICMP Pos.eqb orb negb andb]. rewrite Z.eqb_refl. cbn [negb andb orb]. rewrite Es. unfold receiver_of.
  destruct (find_socket _ t) as [i|] eqn:Ef; [|done]. destruct (find_socket_Some _ _ _ Ht Ef) as [Hi Hlis].
  destruct (deliver t i (Some data) (llen data) (local (socket t x)) (llen data)) as [rc t'] eqn:Ed.
  destruct (deliver_spec t i data (llen data) (local (socket t x)) (llen data) rc t' Ht Hi Hd ltac:(lia) ltac:(unfold RIX_NET_MTU, RIX_NET_HEADROOM in *; rewrite capacity_val; lia) (name_endpoint _ (local_ok t x Ht Hu)) Ed) as (Ht' & Honly & Hsame & Hq).
  rewrite Nat2Z.id, firstn_all in Hq. split; [done|]. split; [done|]. rewrite (length_waiting _ (s_receive _ (socket_ok_at t i Ht))). split; [done|].
  assert (Hv : valid_descriptor t' i = true).
  { unfold valid_descriptor. rewrite Hsame. cbn. unfold listens in Hlis. bool_to_prop. rewrite H, (proj2 (Z.leb_le 0 i)), (proj2 (Z.ltb_lt i RIX_NET_SOCKET_MAX)) by lia. done. }
  destruct (queued (receive (socket t' i))) as [|[d from] rest] eqn:Eq.
  { destruct (count (receive (socket t i)) <? RIX_NET_SOCKET_QUEUE) eqn:Ec; destruct Hq as [_ Hq]; [by destruct (queued (receive (socket t i)))|].
    pose proof (length_waiting _ (s_receive _ (socket_ok_at t i Ht))) as Hl0. rewrite <- Hq in Hl0. cbn in Hl0. unfold RIX_NET_SOCKET_QUEUE in *. bool_to_prop. lia. }
  intros Hrd. unfold rix_net_socket_receive. rewrite Hv, Hrd. unfold truthy. rewrite (proj2 (Z.eqb_neq (llen buffer) 0)) by lia. cbn [negb orb Z.eqb].
  pose proof (length_waiting _ (s_receive _ (socket_ok_at t' i Ht'))) as Hl1. rewrite Eq in Hl1. rewrite (proj2 (Z.eqb_neq (count (receive (socket t' i))) 0)) by (cbn in Hl1; lia). cbn [negb andb].
  case_if.
  - destruct (dequeue_front t' i buffer d from rest Ht' Hi Eq Heqb) as (t'' & -> & Hrest). by exists t''.
  - by rewrite (dequeue_small t' i buffer d from rest).
Qed.
End Datagrams.

(** Two sockets of a new table, on ports 49152 and 49153. *)
Definition demo_pair : rix_net_socket_table_t := snd (rix_net_socket_open (snd (rix_net_socket_open new_table RIX_NET_SOCKET_UDP)) RIX_NET_SOCKET_UDP).
Definition demo_to : rix_net_endpoint_t := {| address := RIX_NET_SOCKET_LOOPBACK; port := 49153 |}.

Lemma demo_pair_facts :
  valid_descriptor demo_pair 0 = true /\ receiver_of demo_pair demo_to = Some 1 /\ queued (receive (socket demo_pair 1)) = [] /\
  type (socket demo_pair 0) = RIX_NET_SOCKET_UDP /\ shutdown (socket demo_pair 0) = 0 /\ connected (socket demo_pair 0) = 0.
Proof. vm_compute. repeat split. Qed.

Lemma udp_loopback_fifo_witness (g := new_net demo_device 0%nat) :
  exists t', rix_net_socket_send demo_pair 0 (Some [7; 8; 9]) 3 demo_to g = (3, t', g) /\
    queued (receive (socket t' 1)) = [([7; 8; 9], local (socket demo_pair 0))].
Proof.
  destruct demo_pair_facts as (Hv & Hrec & Hq & E1 & E2 & E3).
  assert (Ht : table_ok demo_pair) by (do 2 apply open_ok; apply new_table_ok).
  pose proof (udp_loopback_fifo demo_pair g 0 [7; 8; 9] demo_to [0] Ht Hv E1 ltac:(by rewrite E2) ltac:(by rewrite E3)
    ltac:(repeat (constructor; [unfold is_u8; lia|]); constructor) ltac:(cbn; unfold RIX_NET_MTU; lia) ltac:(split; [done|]; cbn; unfold is_u16; lia) ltac:(cbn; lia)) as H.
  rewrite Hrec in H. cbv zeta in H. rewrite Hq in H. change (llen [7; 8; 9]) with 3 in H. destruct (rix_net_socket_send _ _ _ _ _ _) as [[rc t'] g'].
  destruct H as (-> & _ & [-> H] & _). by exists t'.
Defined.
