(* ===== verification/Socket6.v ===== *)
(** * IPv6 UDP sockets ([kernel/net/socket.h], [kernel/net/socket.c])

    The table of eight IPv6 datagram sockets: opening, binding, sending through
    the stack, and receiving what a poll of the stack brought in. *)
From stdpp Require Import base tactics list numbers.
From S2P Require Import Prelude Bytes NetPacket Ethernet Arp Ipv4 Udp Ipv6 Transport6 Device Ring NetStack Socket.

Definition RIX_NET_SOCKET6_MAX : Z := 8.

Record rix_net_endpoint6_t := { address6 : list Z; port6 : Z }.

Record rix_net_socket6_udp_t := {
  used6 : Z; local_address : list Z; local_port : Z; receive6 : list rix_net_packet_t; peers6 : list rix_net_endpoint6_t; head6 : Z; count6 : Z }.

Definition rix_net_socket6_udp_table_t : Type := list rix_net_socket6_udp_t.

Definition no_endpoint6 : rix_net_endpoint6_t := {| address6 := replicate 16 0; port6 := 0 |}.
Definition no_socket6 : rix_net_socket6_udp_t :=
  {| used6 := 0; local_address := replicate 16 0; local_port := 0; receive6 := replicate 8 stack_packet; peers6 := replicate 8 no_endpoint6; head6 := 0; count6 := 0 |}.

Definition socket6 (t : rix_net_socket6_udp_table_t) (i : Z) : rix_net_socket6_udp_t := aget no_socket6 t i.
Definition on_socket6 (i : Z) (f : rix_net_socket6_udp_t -> rix_net_socket6_udp_t) (t : rix_net_socket6_udp_table_t) : rix_net_socket6_udp_table_t :=
  aset i (f (socket6 t i)) t.

Definition socket6_valid (t : rix_net_socket6_udp_table_t) (descriptor : Z) : bool :=
  (0 <=? descriptor) && (descriptor <? RIX_NET_SOCKET6_MAX) && truthy (used6 (socket6 t descriptor)).

Definition rix_net_socket6_udp_init (table : option rix_net_socket6_udp_table_t) : option rix_net_socket6_udp_table_t :=
  fmap (M := list) (fun s => {| used6 := 0; local_address := local_address s; local_port := local_port s; receive6 := receive6 s; peers6 := peers6 s; head6 := 0; count6 := 0 |}) <$> table.

Definition rix_net_socket6_udp_open (t : rix_net_socket6_udp_table_t) : Z * rix_net_socket6_udp_table_t :=
  match first_index (fun s => negb (truthy (used6 s))) t 0 with
  | Some i =>
      let i := Z.of_nat i in
      (i, on_socket6 i (fun s => {| used6 := 1; local_address := aset 15 1 (fill 16 (local_address s) 0 0); local_port := u16 (49152 + i);
                                    receive6 := receive6 s; peers6 := peers6 s; head6 := 0; count6 := 0 |}) t)
  | None => (-1, t)
  end.

Definition rix_net_socket6_udp_bind (t : rix_net_socket6_udp_table_t) (descriptor : Z) (endpoint : option rix_net_endpoint6_t) : Z * rix_net_socket6_udp_table_t :=
  match endpoint with
  | None => (-1, t)
  | Some e =>
      if negb (socket6_valid t descriptor) || negb (truthy (port6 e)) then (-1, t)
      else (0, on_socket6 descriptor (fun s => {| used6 := used6 s; local_address := copy 16 (local_address s) 0 (address6 e) 0; local_port := port6 e;
                                                  receive6 := receive6 s; peers6 := peers6 s; head6 := head6 s; count6 := count6 s |}) t)
  end.

Definition stack_ip6 : rix_net_ipv6_header_t :=
  {| traffic_class := 0; flow_label := 0; payload_length := 0; next_header := 0; hop_limit := 0; source6 := replicate 16 0; destination6 := replicate 16 0 |}.

(** [ip.destination] against the socket's address: equal, or the socket's address
    starts with a zero byte. *)
Definition accepts6 (ip : rix_net_ipv6_header_t) (udp : rix_net_udp_header_t) (s : rix_net_socket6_udp_t) : bool :=
  truthy (used6 s) && (local_port s =? Udp.destination_port udp) &&
  (truthy (for_all 0 16 (fun j ok => if aget 0 (local_address s) j =? aget 0 (destination6 ip) j then ok else 0) 1) || (aget 0 (local_address s) 0 =? 0)).

Section Net6.
Context {W : Type} `{!Nic W, !Clock W}.

Definition rix_net_socket6_udp_send (t : rix_net_socket6_udp_table_t) (descriptor : Z) (data : option (list Z)) (length : Z) (to : option rix_net_endpoint6_t)
    (g : net W) : Z * net W :=
  match data, to, default_stack g with
  | Some data, Some to, Some _ =>
      if negb (socket6_valid t descriptor) || negb (truthy length) || negb (truthy (port6 to)) then (-1, g)
      else
        let s := socket6 t descriptor in
        match and_then (rix_net_udp6_push (rix_net_packet_init (Some stack_packet)) (Some (local_address s)) (Some (address6 to)) (local_port s) (port6 to) (Some data) length)
                (fun p => rix_net_ipv6_push p (Some (local_address s)) (Some (address6 to)) 17 64 0 0) with
        | (0, p) =>
            let '(result, _, w) := rix_net_stack_send_ipv6 (default_stack g) p (Some (address6 to)) (interface g) (wire g) in
            (if result =? 0 then length else result, with_stack (default_stack g) w g)
        | _ => (-1, g)
        end
  | _, _, _ => (-1, g)
  end.

Definition deliver6 (t : rix_net_socket6_udp_table_t) (packet : rix_net_packet_t) (ip : rix_net_ipv6_header_t) (udp : rix_net_udp_header_t)
  : Z * rix_net_socket6_udp_table_t :=
  match first_index (accepts6 ip udp) t 0 with
  | None => (-4, t)
  | Some i =>
      let i := Z.of_nat i in
      let s := socket6 t i in
      if RIX_NET_SOCKET_QUEUE <=? count6 s then (-3, t)
      else
        let slot := u64 (head6 s + count6 s) mod RIX_NET_SOCKET_QUEUE in
        let from := {| address6 := copy 16 (address6 (aget no_endpoint6 (peers6 s) slot)) 0 (source6 ip) 0; port6 := Udp.source_port udp |} in
        (length packet, on_socket6 i (fun s => {| used6 := used6 s; local_address := local_address s; local_port := local_port s;
           receive6 := aset slot packet (receive6 s); peers6 := aset slot from (peers6 s); head6 := head6 s; count6 := u64 (count6 s + 1) |}) t)
  end.

Definition rix_net_socket6_udp_poll (t : rix_net_socket6_udp_table_t) (g : net W) : Z * rix_net_socket6_udp_table_t * net W :=
  match default_stack g with
  | None => (-1, t, g)
  | Some _ =>
      let '(_, s, w) := rix_net_stack_poll (default_stack g) 0 (interface g) (wire g) in
      let '(took, s, packet) := rix_net_stack_take_ipv6 s (Some stack_packet) in
      let g := with_stack s w g in
      if negb (took =? 1) then (0, t, g)
      else match rix_net_ipv6_pull packet (Some stack_ip6) with
           | (0, Some ip, packet) =>
               if negb (next_header ip =? 17) then (0, t, g)
               else match rix_net_udp6_pull packet (Some (source6 ip)) (Some (destination6 ip)) (Some stack_udp_header) with
                    | (0, Some udp, Some packet) => let '(rc, t) := deliver6 t packet ip udp in (rc, t, g)
                    | _ => (0, t, g)
                    end
           | _ => (0, t, g)
           end
  end.
End Net6.

Definition rix_net_socket6_udp_receive (t : rix_net_socket6_udp_table_t) (descriptor : Z) (buffer : list Z) (capacity : Z)
  : Z * list Z * option rix_net_endpoint6_t * rix_net_socket6_udp_table_t :=
  if negb (socket6_valid t descriptor) || negb (truthy capacity) then (-1, buffer, None, t)
  else
    let s := socket6 t descriptor in
    if negb (truthy (count6 s)) then (-3, buffer, None, t)
    else
      let p := aget stack_packet (receive6 s) (head6 s) in
      let n := length p in
      if capacity <? n then (-2, buffer, None, t)
      else
        (n, copy (Z.to_nat n) buffer 0 (default [] (data_of p)) 0, Some (aget no_endpoint6 (peers6 s) (head6 s)),
         on_socket6 descriptor (fun s => {| used6 := used6 s; local_address := local_address s; local_port := local_port s; receive6 := receive6 s; peers6 := peers6 s;
           head6 := u64 (head6 s + 1) mod RIX_NET_SOCKET_QUEUE; count6 := count6 s - 1 |}) t).

(** A socket opened and not bound goes by [::1], whose first byte is zero: it takes
    datagrams for any address that reach its port. *)
Lemma opened_accepts_any ip udp i s :
  0 <= i < RIX_NET_SOCKET6_MAX -> List.length (local_address s) = 16%nat -> Udp.destination_port udp = u16 (49152 + i) ->
  accepts6 ip udp {| used6 := 1; local_address := aset 15 1 (fill 16 (local_address s) 0 0); local_port := u16 (49152 + i);
                     receive6 := receive6 s; peers6 := peers6 s; head6 := 0; count6 := 0 |} = true.
Proof.
  intros Hi Hl Hp. unfold accepts6. cbn [used6 local_port local_address]. rewrite Hp, Z.eqb_refl. cbn [truthy Z.eqb negb andb].
  rewrite aget_aset_ne by lia. rewrite aget_fill by lia. apply orb_true_r.
Qed.
