(* ===== verification/Block.v ===== *)
(** * Block requests ([kernel/storage/block.h], [kernel/storage/block.c]) and the disk they reach

    [block_submit] validates a request and hands it to a driver. The driver is an
    interface ([Machine]); the module [Disk] instantiates it with the weakest
    medium the file system is meant to survive: writes land in a volatile cache,
    a flush makes them durable, any request may fail with or without taking
    effect, and power may be lost before any request. *)
From stdpp Require Import base tactics list numbers.
From S2P Require Import Prelude Bytes.

(** Computations that may be cut short: [None] is loss of power, and the state
    it leaves behind is what the machine restarts from. *)
Definition IO (W A : Type) : Type := W -> W * option A.

#[global] Instance IO_ret W : MRet (IO W) := fun A a w => (w, Some a).
#[global] Instance IO_bind W : MBind (IO W) := fun A B k m w =>
  match m w with
  | (w, Some a) => k a w
  | (w, None) => (w, None)
  end.

Lemma IO_bind_eq {W A B} (m : IO W A) (k : A -> IO W B) w w' r :
  m w = (w', r) -> (m ≫= k) w = match r with Some a => k a w' | None => (w', None) end.
Proof. intros E. unfold mbind, IO_bind. rewrite E. by destruct r. Qed.

Lemma IO_ret_eq {W A} (a : A) (w : W) : (mret a : IO W A) w = (w, Some a).
Proof. done. Qed.

Definition RIX_BIO_MAX_SECTORS : Z := 128.

Inductive rix_bio_op_t := RIX_BIO_READ | RIX_BIO_WRITE | RIX_BIO_FLUSH.
Inductive rix_bio_state_t := RIX_BIO_PENDING | RIX_BIO_COMPLETE | RIX_BIO_ERROR | RIX_BIO_TIMEOUT.

#[export] Instance rix_bio_op_eq_dec : EqDecision rix_bio_op_t.
Proof. solve_decision. Defined.
#[export] Instance rix_bio_state_eq_dec : EqDecision rix_bio_state_t.
Proof. solve_decision. Defined.

(** [buffer] is the memory the request points to, [None] for a null pointer. *)
Record rix_bio_t := {
  op : rix_bio_op_t; sector : Z; count : Z; buffer : option (list Z); buffer_size : Z;
  state : rix_bio_state_t; error : Z }.

(** The part of [struct rix_block_device] the request path reads; [has_submit]
    says whether the driver entry is non-null. *)
Record rix_block_device_t := { sector_size : Z; sector_count : Z; max_sectors : Z; has_submit : bool }.

(** What the storage code calls outside itself: the driver's submit entry, and
    the physical page allocator it takes scratch buffers from. *)
Class Machine (W : Type) := {
  submit : rix_block_device_t -> rix_bio_t -> IO W (Z * rix_bio_t);
  pmm_alloc_page : IO W Z;
  pmm_free_page : Z -> IO W unit;
}.

Definition set_state (s : rix_bio_state_t) (e : Z) (b : rix_bio_t) : rix_bio_t :=
  {| op := op b; sector := sector b; count := count b; buffer := buffer b; buffer_size := buffer_size b; state := s; error := e |}.

Section Submit.
Context {W : Type} `{!Machine W}.

(** The tail both kinds of request share: run the driver, then normalise the
    request's state. *)
Definition dispatch (d : rix_block_device_t) (b : rix_bio_t) : IO W (Z * rix_bio_t) :=
  '(rc, b') ← submit d (set_state RIX_BIO_PENDING 0 b);
  if negb (rc =? 0) then mret (rc, set_state RIX_BIO_ERROR rc b')
  else if decide (state b' ≠ RIX_BIO_COMPLETE)
       then mret (-1, set_state RIX_BIO_ERROR (if truthy (error b') then error b' else -1) b')
       else mret (0, b').

Definition block_submit (device : option rix_block_device_t) (bio : option rix_bio_t) : IO W (Z * option rix_bio_t) :=
  match device, bio with
  | Some d, Some b =>
      if negb (has_submit d) then mret (-1, bio)
      else if decide (op b = RIX_BIO_FLUSH) then
        if negb (count b =? 0) then mret (-1, bio)
        else '(rc, b') ← dispatch d b; mret (rc, Some b')
      else if (count b =? 0) || (max_sectors d <? count b) || match buffer b with None => true | _ => false end
           || (sector_count d <=? sector b) || (u64 (sector_count d - sector b) <? count b) then mret (-1, bio)
      else
        let bytes := u64 (count b * sector_size d) in
        if negb (bytes / count b =? sector_size d) || (buffer_size b <? bytes) then mret (-1, bio)
        else '(rc, b') ← dispatch d b; mret (rc, Some b')
  | _, _ => mret (-1, bio)
  end.
End Submit.

(** ** The medium *)

Module Disk.

(** What becomes of one request: carried out, or reported as failed after it
    did or did not take effect. Running out of outcomes is loss of power. *)
Inductive outcome := Done | Fault (applied : bool).

(** [media] is durable; [cache] is the volatile write cache, oldest first;
    [pages] says whether the coming page allocations succeed; [held] counts the
    scratch pages not given back. *)
Record disk := { media : Z -> list Z; cache : list (Z * list Z); fate : list outcome; pages : list bool; held : Z }.

Definition upd (m : Z -> list Z) (s : Z) (v : list Z) : Z -> list Z := fun x => if x =? s then v else m x.

Definition apply_writes (l : list (Z * list Z)) (m : Z -> list Z) : Z -> list Z :=
  foldl (fun m '(s, v) => upd m s v) m l.

(** What a read returns. *)
Definition view (d : disk) : Z -> list Z := apply_writes (cache d) (media d).

(** What may be on the medium after power was lost: any of the cached writes,
    in order, may have reached it. *)
Definition crash_image (d : disk) (m : Z -> list Z) : Prop :=
  exists l, l `sublist_of` cache d /\ forall s, m s = apply_writes l (media d) s.

Definition with_core (m : Z -> list Z) (c : list (Z * list Z)) (f : list outcome) (d : disk) : disk :=
  {| media := m; cache := c; fate := f; pages := pages d; held := held d |}.

Definition chunks (ss : Z) (b : rix_bio_t) : list (Z * list Z) :=
  (fun i => (sector b + i, slice (default [] (buffer b)) (i * ss) ss)) <$> seqZ 0 (count b).

Definition finish (ok : bool) (b : rix_bio_t) : Z * rix_bio_t :=
  if ok then (0, set_state RIX_BIO_COMPLETE 0 b) else (-1, set_state RIX_BIO_ERROR (-1) b).

Definition set_buffer (v : list Z) (b : rix_bio_t) : rix_bio_t :=
  {| op := op b; sector := sector b; count := count b; buffer := Some v; buffer_size := buffer_size b; state := state b; error := error b |}.

Definition disk_submit (dev : rix_block_device_t) (b : rix_bio_t) : IO disk (Z * rix_bio_t) := fun d =>
  match fate d with
  | [] => (d, None)
  | o :: f =>
      let ok := match o with Done => true | Fault _ => false end in
      let applied := match o with Done => true | Fault a => a end in
      match op b with
      | RIX_BIO_READ =>
          let data := flat_map (view d) (seqZ (sector b) (count b)) in
          let old := default [] (buffer b) in
          (with_core (media d) (cache d) f d,
           Some (finish ok (if ok then set_buffer (data ++ drop (length data) old) b else b)))
      | RIX_BIO_WRITE =>
          (with_core (media d) (if applied then cache d ++ chunks (sector_size dev) b else cache d) f d, Some (finish ok b))
      | RIX_BIO_FLUSH =>
          (if applied then with_core (view d) [] f d else with_core (media d) (cache d) f d, Some (finish ok b))
      end
  end.

Definition disk_alloc : IO disk Z := fun d =>
  match pages d with
  | true :: l => ({| media := media d; cache := cache d; fate := fate d; pages := l; held := held d + 1 |}, Some 4096)
  | _ :: l => ({| media := media d; cache := cache d; fate := fate d; pages := l; held := held d |}, Some 0)
  | [] => (d, Some 0)
  end.

Definition disk_free (a : Z) : IO disk unit := fun d =>
  ({| media := media d; cache := cache d; fate := fate d; pages := pages d; held := held d - 1 |}, Some tt).

#[export] Instance disk_machine : Machine disk := { submit := disk_submit; pmm_alloc_page := disk_alloc; pmm_free_page := disk_free }.

End Disk.
