(* ===== verification/BlockCache.v ===== *)
(** * The block cache ([kernel/storage/block_cache.c])

    64 sectors of any device are kept in memory, written back when their slot is
    needed or on a flush. The drivers are an interface ([Drives]); the cache over
    them is proved to be a plain store of sectors. The model runs one operation at
    a time: the code's checks for entries changed between its critical sections
    are all there, and come out as the sequential case decides. Pointers to
    buffers are non-null; a device pointer is an integer, 0 for [NULL]. *)
From stdpp Require Import base tactics list numbers.
From S2P Require Import Prelude Lock Bytes Block.

Definition CACHE_ENTRIES : Z := 64.
Definition CACHE_SECTOR_BYTES : Z := 4096.

Record cache_entry_t := {
  ce_device : Z; ce_sector : Z; ce_valid : bool; ce_dirty : bool; ce_writeback : bool; ce_data : list Z; ce_age : Z }.

Record block_cache := { cache : list cache_entry_t; clock_tick : Z; cache_lock : rix_spinlock_t }.

(** ** What the cache needs of the drivers

    [drive] gives the fields of a device, [sectors] what is stored. A driver that
    returns 0 has finished the request; a failed write may or may not have reached
    the medium. *)
Class Drives (W : Type) := {
  drive : Z -> rix_block_device_t;
  drv_submit : Z -> rix_bio_t -> W -> (Z * rix_bio_t) * W;
  sectors : W -> Z -> Z -> list Z;
  drive_size : forall d, 0 <= sector_size (drive d);
  sectors_length : forall w d s, Z.of_nat (length (sectors w d s)) = sector_size (drive d);
  submit_done : forall w d b rc b' w', drv_submit d b w = ((rc, b'), w') -> rc = 0 -> state b' <> RIX_BIO_PENDING;
  submit_read : forall w d b rc b' w', drv_submit d b w = ((rc, b'), w') -> op b = RIX_BIO_READ -> count b = 1 ->
    (forall d' s', sectors w' d' s' = sectors w d' s') /\
    (rc = 0 -> state b' = RIX_BIO_COMPLETE -> exists l, buffer b' = Some l /\ slice l 0 (sector_size (drive d)) = sectors w d (sector b));
  submit_write : forall w d b rc b' w' l, drv_submit d b w = ((rc, b'), w') -> op b = RIX_BIO_WRITE -> count b = 1 -> buffer b = Some l ->
    (forall d' s', (d', s') <> (d, sector b) -> sectors w' d' s' = sectors w d' s') /\
    (rc = 0 -> state b' = RIX_BIO_COMPLETE -> sectors w' d (sector b) = slice l 0 (sector_size (drive d))) /\
    (sectors w' d (sector b) = sectors w d (sector b) \/ sectors w' d (sector b) = slice l 0 (sector_size (drive d)));
  submit_flush : forall w d b rc b' w', drv_submit d b w = ((rc, b'), w') -> op b = RIX_BIO_FLUSH -> forall d' s', sectors w' d' s' = sectors w d' s';
}.

(** ** The table *)

Definition no_entry : cache_entry_t :=
  {| ce_device := 0; ce_sector := 0; ce_valid := false; ce_dirty := false; ce_writeback := false; ce_data := []; ce_age := 0 |}.
Definition at_slot (c : block_cache) (i : Z) : cache_entry_t := aget no_entry (cache c) i.
Definition put_slot (i : Z) (e : cache_entry_t) (c : block_cache) : block_cache :=
  {| cache := aset i e (cache c); clock_tick := clock_tick c; cache_lock := cache_lock c |}.
Definition tick (c : block_cache) : block_cache :=
  {| cache := cache c; clock_tick := u64 (clock_tick c + 1); cache_lock := cache_lock c |}.

Definition set_writeback (b : bool) (e : cache_entry_t) : cache_entry_t :=
  {| ce_device := ce_device e; ce_sector := ce_sector e; ce_valid := ce_valid e; ce_dirty := ce_dirty e; ce_writeback := b; ce_data := ce_data e; ce_age := ce_age e |}.
Definition set_dirty (b : bool) (e : cache_entry_t) : cache_entry_t :=
  {| ce_device := ce_device e; ce_sector := ce_sector e; ce_valid := ce_valid e; ce_dirty := b; ce_writeback := ce_writeback e; ce_data := ce_data e; ce_age := ce_age e |}.
Definition set_age (a : Z) (e : cache_entry_t) : cache_entry_t :=
  {| ce_device := ce_device e; ce_sector := ce_sector e; ce_valid := ce_valid e; ce_dirty := ce_dirty e; ce_writeback := ce_writeback e; ce_data := ce_data e; ce_age := a |}.
Definition set_data (l : list Z) (e : cache_entry_t) : cache_entry_t :=
  {| ce_device := ce_device e; ce_sector := ce_sector e; ce_valid := ce_valid e; ce_dirty := ce_dirty e; ce_writeback := ce_writeback e; ce_data := l; ce_age := ce_age e |}.
Definition invalidate (e : cache_entry_t) : cache_entry_t :=
  {| ce_device := 0; ce_sector := 0; ce_valid := false; ce_dirty := false; ce_writeback := false; ce_data := ce_data e; ce_age := 0 |}.
Definition fill_entry (d s : Z) (dirty : bool) (l : list Z) (age : Z) : cache_entry_t :=
  {| ce_device := d; ce_sector := s; ce_valid := true; ce_dirty := dirty; ce_writeback := false; ce_data := l; ce_age := age |}.

Definition block_cache_init (c : block_cache) : Z * block_cache :=
  (0, {| cache := for_all 0 CACHE_ENTRIES (fun i l =>
           let e := aget no_entry l i in
           aset i {| ce_device := 0; ce_sector := ce_sector e; ce_valid := false; ce_dirty := false; ce_writeback := false; ce_data := ce_data e; ce_age := 0 |} l) (cache c);
         clock_tick := 0; cache_lock := spin_free |}).

Definition matches (d s : Z) (e : cache_entry_t) : bool := ce_valid e && (ce_device e =? d) && (ce_sector e =? s).

Definition find (d s : Z) (c : block_cache) : option Z :=
  match for_ 0 CACHE_ENTRIES (fun i (_ : unit) => if matches d s (at_slot c i) then inr i else inl tt) tt with
  | inr i => Some i
  | inl _ => None
  end.

Definition victim (c : block_cache) : option Z :=
  match for_ 0 CACHE_ENTRIES (fun i (v : option Z) =>
    let e := at_slot c i in
    if ce_writeback e then inl v
    else if negb (ce_valid e) then inr i
    else match v with
         | None => inl (Some i)
         | Some j => if ce_age e <? ce_age (at_slot c j) then inl (Some i) else inl v
         end) None with
  | inr i => Some i
  | inl v => v
  end.

(** The first dirty sector of a device, for [block_cache_flush]. *)
Definition find_dirty (d : Z) (c : block_cache) : option Z :=
  match for_ 0 CACHE_ENTRIES (fun i (_ : unit) =>
    let e := at_slot c i in
    if ce_valid e && (ce_device e =? d) && ce_dirty e && negb (ce_writeback e) then inr i else inl tt) tt with
  | inr i => Some i
  | inl _ => None
  end.

(** ** Operations *)

Section Cache.
Context {W : Type} {D : Drives W}.
Abbreviation st := (cpu * (block_cache * W))%type.

#[global] Program Instance cache_guard : HasGuard (block_cache * W) := {|
  guard s := cache_lock s.1;
  with_guard l s := ({| cache := cache s.1; clock_tick := clock_tick s.1; cache_lock := l |}, s.2);
|}.
Next Obligation. done. Qed.
Next Obligation. by intros [[] ]. Qed.
Next Obligation. done. Qed.

Definition section {R} (f : block_cache -> R * block_cache) : M st R := locked (fun _ '(c, w) => let '(r, c') := f c in (r, (c', w))).

Definition size (d : Z) : Z := sector_size (drive d).
Definition bad_size (d : Z) : bool := (size d =? 0) || (CACHE_SECTOR_BYTES <? size d).

(** Result code and the buffer as the driver left it. *)
Definition io (d : Z) (o : rix_bio_op_t) (s : Z) (b : list Z) : M st (Z * list Z) :=
  if (d =? 0) || negb (has_submit (drive d)) || bad_size d then mret (-1, b)
  else act (fun '(p, (c, w)) =>
    let bio := {| op := o; sector := s; count := 1; buffer := Some b; buffer_size := size d; state := RIX_BIO_PENDING; error := 0 |} in
    let '((r, bio'), w') := drv_submit d bio w in
    ((if truthy r || bool_decide (state bio' = RIX_BIO_ERROR) || bool_decide (state bio' = RIX_BIO_TIMEOUT) then -1 else 0, default b (buffer bio')), (p, (c, w')))).

(** What the first critical section of [evict_one] decides. *)
Inductive pick := PickNone | PickFree (slot : Z) | PickWrite (d s age : Z) (data : list Z).

Definition evict_pick (c : block_cache) : pick * block_cache :=
  match victim c with
  | None => (PickNone, c)
  | Some i =>
    let e := at_slot c i in
    if negb (ce_valid e) || negb (ce_dirty e) then (PickFree i, put_slot i (invalidate e) c)
    else
      let old_d := ce_device e in
      let old_sz := if old_d =? 0 then 0 else size old_d in
      if (old_d =? 0) || (old_sz =? 0) || (CACHE_SECTOR_BYTES <? old_sz) then (PickNone, c)
      else (PickWrite old_d (ce_sector e) (ce_age e) (slice (ce_data e) 0 old_sz), put_slot i (set_writeback true e) c)
  end.

Definition evict_failed (d s age : Z) (c : block_cache) : unit * block_cache :=
  match find d s c with
  | Some i => (tt, if ce_age (at_slot c i) =? age then put_slot i (set_writeback false (at_slot c i)) c else c)
  | None => (tt, c)
  end.

Definition evict_done (d s age : Z) (c : block_cache) : option Z * block_cache :=
  let c := match find d s c with
           | Some i => if ce_age (at_slot c i) =? age then put_slot i (invalidate (at_slot c i)) c else put_slot i (set_writeback false (at_slot c i)) c
           | None => c
           end in
  match victim c with
  | Some i => if ce_valid (at_slot c i) then (None, c) else (Some i, c)
  | None => (None, c)
  end.

(** The slot on success, [None] for the return code -1. *)
Definition evict_one : M st (option Z) :=
  p ← section evict_pick;
  match p with
  | PickNone => mret None
  | PickFree i => mret (Some i)
  | PickWrite d s age data =>
    '(rc, _) ← io d RIX_BIO_WRITE s data;
    if negb (rc =? 0) then _ ← section (evict_failed d s age); mret None
    else section (evict_done d s age)
  end.

(** [for (i = 0; i < 3; i++) { if (evict_one(&slot) == 0) break; ... if (i == 2) return -1; }] *)
Fixpoint evict_tries (n : nat) : M st bool :=
  match n with
  | O => mret false
  | S n => r ← evict_one; match r with Some _ => mret true | None => evict_tries n end
  end.

Definition read_hit (d s : Z) (b : list Z) (c : block_cache) : option (list Z) * block_cache :=
  match find d s c with
  | Some i =>
    let c := tick c in
    let e := set_age (clock_tick c) (at_slot c i) in
    (Some (copy (Z.to_nat (size d)) b 0 (ce_data e) 0), put_slot i e c)
  | None => (None, c)
  end.

Definition read_fill (d s : Z) (fresh b : list Z) (c : block_cache) : list Z * block_cache :=
  match find d s c with
  | Some _ => (copy (Z.to_nat (size d)) b 0 fresh 0, c)
  | None =>
    match victim c with
    | None => (copy (Z.to_nat (size d)) b 0 fresh 0, c)
    | Some i =>
      if ce_valid (at_slot c i) then (copy (Z.to_nat (size d)) b 0 fresh 0, c)
      else
        let l := copy (Z.to_nat (size d)) (ce_data (at_slot c i)) 0 fresh 0 in
        let c := tick c in
        (copy (Z.to_nat (size d)) b 0 l 0, put_slot i (fill_entry d s false l (clock_tick c)) c)
    end
  end.

(** Return code and the caller's buffer. The local [fresh] starts uninitialised;
    only bytes the driver filled are used. *)
Definition block_cache_read (d s : Z) (b : list Z) : M st (Z * list Z) :=
  if (d =? 0) || bad_size d then mret (-1, b)
  else
    hit ← section (read_hit d s b);
    match hit with
    | Some b => mret (0, b)
    | None =>
      ok ← evict_tries 3;
      if negb ok then mret (-1, b)
      else
        '(rc, fresh) ← io d RIX_BIO_READ s (replicate (Z.to_nat CACHE_SECTOR_BYTES) 0);
        if negb (rc =? 0) then mret (-1, b)
        else b ← section (read_fill d s fresh b); mret (0, b)
    end.

Definition write_hit (d s : Z) (input : list Z) (c : block_cache) : bool * block_cache :=
  match find d s c with
  | Some i =>
    let e := at_slot c i in
    let e := set_dirty true (set_data (copy (Z.to_nat (size d)) (ce_data e) 0 input 0) e) in
    let c := tick c in
    (true, put_slot i (set_age (clock_tick c) e) c)
  | None => (false, c)
  end.

(** [false]: no free slot, the sector is written through. *)
Definition write_fill (d s : Z) (input : list Z) (c : block_cache) : bool * block_cache :=
  match victim c with
  | None => (false, c)
  | Some i =>
    if ce_valid (at_slot c i) then (false, c)
    else
      let l := copy (Z.to_nat (size d)) (ce_data (at_slot c i)) 0 input 0 in
      let c := tick c in
      (true, put_slot i (fill_entry d s true l (clock_tick c)) c)
  end.

Definition block_cache_write (d s : Z) (b : list Z) : M st Z :=
  if (d =? 0) || bad_size d then mret (-1)
  else
    let input := slice b 0 (size d) in
    hit ← section (write_hit d s input);
    if hit : bool then mret 0
    else
      ok ← evict_tries 3;
      if negb ok then mret (-1)
      else
        filled ← section (write_fill d s input);
        if filled : bool then mret 0
        else '(rc, _) ← io d RIX_BIO_WRITE s input; mret rc.

Definition flush_pick (d : Z) (c : block_cache) : option (Z * Z * list Z) * block_cache :=
  match find_dirty d c with
  | None => (None, c)
  | Some i =>
    let e := at_slot c i in
    (Some (ce_sector e, ce_age e, slice (ce_data e) 0 (size d)), put_slot i (set_writeback true e) c)
  end.

Definition flush_done (d s age wr : Z) (c : block_cache) : unit * block_cache :=
  match find d s c with
  | None => (tt, c)
  | Some i =>
    let e := set_writeback false (at_slot c i) in
    (tt, put_slot i (if (wr =? 0) && (ce_age e =? age) then set_dirty false e else e) c)
  end.

(** The [for (;;)] loop, at most [n] turns of it; 0 when it is left by [break]. *)
Fixpoint flush_loop (n : nat) (d : Z) : M st Z :=
  match n with
  | O => diverge
  | S n =>
    p ← section (flush_pick d);
    match p with
    | None => mret 0
    | Some (s, age, data) =>
      '(wr, _) ← io d RIX_BIO_WRITE s data;
      _ ← section (flush_done d s age wr);
      if negb (wr =? 0) then mret (-1) else flush_loop n d
    end
  end.

Definition flush_device (d : Z) : M st Z :=
  act (fun '(p, (c, w)) =>
    let bio := {| op := RIX_BIO_FLUSH; sector := 0; count := 0; buffer := None; buffer_size := 0; state := RIX_BIO_PENDING; error := 0 |} in
    let '((rc, bio'), w') := drv_submit d bio w in
    (if truthy rc || negb (bool_decide (state bio' = RIX_BIO_COMPLETE)) then -1 else 0, (p, (c, w')))).

Definition block_cache_flush (d : Z) : M st Z :=
  if (d =? 0) || negb (has_submit (drive d)) then mret (-1)
  else
    rc ← flush_loop 65 d;
    if negb (rc =? 0) then mret (-1) else flush_device d.
End Cache.

(** ** Looking up *)

Section Facts.
Context {W : Type} {D : Drives W}.
Abbreviation st := (cpu * (block_cache * W))%type.

Definition slot_ok (i : Z) : Prop := 0 <= i < 64.

Definition once (c : block_cache) : Prop := forall i j d s, slot_ok i -> slot_ok j -> matches d s (at_slot c i) = true -> matches d s (at_slot c j) = true -> i = j.

Lemma matches_spec d s e : matches d s e = true <-> ce_valid e = true /\ ce_device e = d /\ ce_sector e = s.
Proof. unfold matches. rewrite !andb_true_iff, !Z.eqb_eq. tauto. Qed.

Lemma find_spec d s c :
  match find d s c with
  | Some i => slot_ok i /\ matches d s (at_slot c i) = true
  | None => forall i, slot_ok i -> matches d s (at_slot c i) = false
  end.
Proof.
  unfold find, CACHE_ENTRIES, slot_ok.
  destruct (for_first (fun i => matches d s (at_slot c i)) (fun i (_ : unit) => if matches d s (at_slot c i) then inr i else inl tt) 0 64 ltac:(done))
    as [[-> H]|(i & -> & H)]; [intros i Hi; apply H; lia|split; [lia|apply H]].
Qed.

Lemma find_hit d s c i : once c -> slot_ok i -> matches d s (at_slot c i) = true -> find d s c = Some i.
Proof.
  intros Ho Hi Hm. pose proof (find_spec d s c) as H. destruct (find d s c) as [j|]; [|by rewrite H in Hm].
  destruct H as [Hj Hm']. f_equal. by apply (Ho j i d s).
Qed.

Lemma find_miss d s c : (forall i, slot_ok i -> matches d s (at_slot c i) = false) -> find d s c = None.
Proof. intros H. pose proof (find_spec d s c) as Hf. destruct (find d s c) as [j|]; [|done]. destruct Hf as [Hj Hm]. by rewrite H in Hm. Qed.

Lemma find_dirty_spec d c :
  match find_dirty d c with
  | Some i => slot_ok i /\ ce_valid (at_slot c i) = true /\ ce_device (at_slot c i) = d /\ ce_dirty (at_slot c i) = true /\ ce_writeback (at_slot c i) = false
  | None => forall i, slot_ok i -> ce_valid (at_slot c i) = true -> ce_device (at_slot c i) = d -> ce_writeback (at_slot c i) = false -> ce_dirty (at_slot c i) = false
  end.
Proof.
  unfold find_dirty, CACHE_ENTRIES, slot_ok.
  set (f := fun i => let e := at_slot c i in ce_valid e && (ce_device e =? d) && ce_dirty e && negb (ce_writeback e)).
  match goal with |- context [for_ 0 64 ?b tt] => destruct (for_first f b 0 64 ltac:(done)) as [[-> H]|(i & -> & Hi & H)] end.
  - intros i Hi Hv <- Hw. specialize (H i ltac:(lia)). unfold f in H. cbn zeta in H. rewrite Hv, Z.eqb_refl, Hw in H. cbn in H. by rewrite andb_true_r in H.
  - unfold f in H. cbn zeta in H. bool_to_prop. split; [lia|]. done.
Qed.

(** The victim is a free slot when there is one, else the least recently used sector. *)
Lemma victim_spec c : (forall i, slot_ok i -> ce_writeback (at_slot c i) = false) ->
  exists i, victim c = Some i /\ slot_ok i /\
    (ce_valid (at_slot c i) = false \/
     forall j, slot_ok j -> ce_valid (at_slot c j) = true /\ ce_age (at_slot c i) <= ce_age (at_slot c j)).
Proof.
  intros Hw. unfold victim, CACHE_ENTRIES, slot_ok in *.
  set (I := fun i (v : option Z) => match v with
    | None => i = 0
    | Some k => 0 <= k < i /\ forall j, 0 <= j < i -> ce_valid (at_slot c j) = true /\ ce_age (at_slot c k) <= ce_age (at_slot c j)
    end).
  match goal with |- context [for_ 0 64 ?b None] => pose proof (for_inv I (fun r => 0 <= r < 64 /\ ce_valid (at_slot c r) = false) 0 64 b None ltac:(lia) eq_refl) as H; set (body := b) in * end.
  assert (Hstep : forall i v, 0 <= i < 0 + 64 -> I i v -> match body i v with inl v' => I (i + 1) v' | inr r => 0 <= r < 64 /\ ce_valid (at_slot c r) = false end).
  { intros i v Hi HI. unfold body. cbv zeta. rewrite Hw by lia. destruct (ce_valid (at_slot c i)) eqn:Ev; cbn [negb]; [|split; [lia|done]].
    destruct v as [k|]; cbn [I] in HI |- *.
    - destruct HI as [Hk Hall]. destruct (ce_age (at_slot c i) <? ce_age (at_slot c k)) eqn:Ea; bool_to_prop; cbn [I].
      + split; [lia|]. intros j Hj. destruct (decide (j = i)) as [->|]; [split; [done|lia]|]. destruct (Hall j ltac:(lia)). split; [done|lia].
      + split; [lia|]. intros j Hj. destruct (decide (j = i)) as [->|]; [split; [done|lia]|]. apply Hall. lia.
    - subst i. split; [lia|]. intros j Hj. replace j with 0 by lia. split; [done|lia]. }
  specialize (H Hstep). destruct (for_ 0 64 body None) as [[k|]|r].
  - destruct H as [Hk Hall]. exists k. split; [done|]. split; [lia|]. right. intros j Hj. apply Hall. lia.
  - cbn in H. lia.
  - exists r. split; [done|]. destruct H. split; [done|by left].
Qed.

(** ** The state *)

Lemma at_put c i e j : length (cache c) = 64%nat -> slot_ok i -> slot_ok j -> at_slot (put_slot i e c) j = if j =? i then e else at_slot c j.
Proof.
  unfold slot_ok. intros Hl Hi Hj. unfold at_slot, put_slot. cbn [cache]. destruct (j =? i) eqn:E; bool_to_prop.
  - subst j. apply aget_aset_eq. lia.
  - apply aget_aset_ne; lia.
Qed.

(** What the cache presents as the sector [s] of the device [d]. *)
Definition content (c : block_cache) (w : W) (d s : Z) : list Z :=
  match find d s c with
  | Some i => slice (ce_data (at_slot c i)) 0 (size d)
  | None => sectors w d s
  end.

(** [wb] is the slot being written back, if any. *)
Record cache_ok (wb : option Z) (c : block_cache) (w : W) : Prop := {
  co_len : length (cache c) = 64%nat;
  co_data : forall i, slot_ok i -> length (ce_data (at_slot c i)) = 4096%nat;
  co_writeback : forall i, slot_ok i -> ce_writeback (at_slot c i) = bool_decide (wb = Some i);
  co_valid : forall i, slot_ok i -> ce_valid (at_slot c i) = true -> ce_device (at_slot c i) <> 0 /\ 0 < size (ce_device (at_slot c i)) <= 4096;
  co_once : once c;
  co_clean : forall i, slot_ok i -> ce_valid (at_slot c i) = true -> ce_dirty (at_slot c i) = false ->
    slice (ce_data (at_slot c i)) 0 (size (ce_device (at_slot c i))) = sectors w (ce_device (at_slot c i)) (ce_sector (at_slot c i));
}.

Lemma content_put c w i e d s : length (cache c) = 64%nat -> slot_ok i -> once c -> once (put_slot i e c) ->
  content (put_slot i e c) w d s =
    if matches d s e then slice (ce_data e) 0 (size d)
    else if matches d s (at_slot c i) then sectors w d s else content c w d s.
Proof.
  intros Hl Hi Ho Ho'. unfold content. destruct (matches d s e) eqn:Em.
  - rewrite (find_hit d s _ i); [|done|done|by rewrite at_put, Z.eqb_refl]. by rewrite at_put, Z.eqb_refl.
  - destruct (matches d s (at_slot c i)) eqn:Ei.
    + rewrite find_miss; [done|]. intros j Hj. rewrite at_put by done. destruct (j =? i) eqn:E; bool_to_prop; [done|].
      destruct (matches d s (at_slot c j)) eqn:Ej; [|done]. by destruct (Ho j i d s Hj Hi Ej Ei).
    + pose proof (find_spec d s c) as Hf. destruct (find d s c) as [j|].
      * destruct Hf as [Hj Hm]. assert (j <> i) by (intros ->; congruence).
        rewrite (find_hit d s _ j); [|done|done|rewrite at_put by done; case_if; [done|done]]. rewrite at_put by done. case_if; done.
      * rewrite find_miss; [done|]. intros j Hj. rewrite at_put by done. case_if; [done|auto].
Qed.

(** Replacing the entry of a slot. *)
Lemma put_slot_ok wb wb' c w w' i e :
  cache_ok wb c w -> slot_ok i -> length (ce_data e) = 4096%nat -> ce_writeback e = bool_decide (wb' = Some i) ->
  (forall j, slot_ok j -> j <> i -> bool_decide (wb' = Some j) = bool_decide (wb = Some j)) ->
  (ce_valid e = true -> ce_device e <> 0 /\ 0 < size (ce_device e) <= 4096) ->
  (forall d s j, matches d s e = true -> slot_ok j -> j <> i -> matches d s (at_slot c j) = false) ->
  (ce_valid e = true -> ce_dirty e = false -> slice (ce_data e) 0 (size (ce_device e)) = sectors w' (ce_device e) (ce_sector e)) ->
  (forall j, slot_ok j -> j <> i -> ce_valid (at_slot c j) = true ->
    sectors w' (ce_device (at_slot c j)) (ce_sector (at_slot c j)) = sectors w (ce_device (at_slot c j)) (ce_sector (at_slot c j))) ->
  cache_ok wb' (put_slot i e c) w'.
Proof.
  intros Hok Hi Hd Hwb Hwb' Hv Hon Hcl Hw. pose proof (co_len _ _ _ Hok) as Hl.
  split; [by cbn; rewrite length_aset|..].
  - intros j Hj. rewrite at_put by done. case_if; [done|]. by apply Hok.
  - intros j Hj. rewrite at_put by done. case_if; [by subst|]. rewrite Hwb' by done. by apply Hok.
  - intros j Hj. rewrite at_put by done. case_if; [done|]. by apply Hok.
  - intros j k d s Hj Hk. rewrite !at_put by done. destruct (j =? i) eqn:Ej, (k =? i) eqn:Ek; bool_to_prop; subst; try done.
    + intros H1 H2. rewrite (Hon d s k) in H2 by done. done.
    + intros H1 H2. rewrite (Hon d s j) in H1 by done. done.
    + by apply (co_once _ _ _ Hok).
  - intros j Hj. rewrite at_put by done. case_if; [done|]. intros Hvj Hdj. rewrite Hw by done. by apply (co_clean _ _ _ Hok).
Qed.

(** ** Steps *)

Definition lk (l : rix_spinlock_t) (c : block_cache) : block_cache := {| cache := cache c; clock_tick := clock_tick c; cache_lock := l |}.

Lemma lk_ok wb l c w : cache_ok wb c w -> cache_ok wb (lk l c) w.
Proof. by intros []. Qed.

Definition ready (c : block_cache) (w : W) : Prop := cache_lock c = spin_free /\ cache_ok None c w.

Lemma section_run {R} (f : block_cache -> R * block_cache) p c (w : W) r c' : cache_lock c = spin_free -> f (lk spin_held c) = (r, c') ->
  section f (p, (c, w)) = Some (r, (p, (lk spin_free c', w))).
Proof. intros Hl Hf. unfold section. rewrite locked_run by exact Hl. cbn. fold (lk spin_held c). by rewrite Hf. Qed.

Definition same_elsewhere (w w' : W) (d s : Z) : Prop := forall d' s', (d', s') <> (d, s) -> sectors w' d' s' = sectors w d' s'.

Lemma io_write_run p c w d s l : d <> 0 -> 0 < size d <= 4096 ->
  exists rc b w', io d RIX_BIO_WRITE s l (p, (c, w)) = Some ((rc, b), (p, (c, w'))) /\ (rc = 0 \/ rc = -1) /\ same_elsewhere w w' d s /\
    (rc = 0 -> sectors w' d s = slice l 0 (size d)) /\ (sectors w' d s = sectors w d s \/ sectors w' d s = slice l 0 (size d)).
Proof.
  intros Hd Hs. unfold io. rewrite (proj2 (Z.eqb_neq d 0) Hd). unfold bad_size, CACHE_SECTOR_BYTES. rewrite (proj2 (Z.eqb_neq (size d) 0)), (proj2 (Z.ltb_ge 4096 (size d))) by lia.
  destruct (has_submit (drive d)); cbn [negb orb]; [|exists (-1), l, w; split; [done|]; split; [by right|]; split; [done|]; split; [done|by left]].
  unfold act. set (bio := Build_rix_bio_t _ _ _ _ _ _ _). destruct (drv_submit d bio w) as [[r b'] w'] eqn:E.
  destruct (submit_write w d bio r b' w' l E eq_refl eq_refl eq_refl) as (H1 & H2 & H3). eexists _, _, w'. split; [reflexivity|].
  split; [case_if; tauto|]. split; [exact H1|]. split; [|exact H3]. intros Hrc. unfold truthy in Hrc. destruct (r =? 0) eqn:Er; cbn [negb orb] in Hrc; [|done].
  bool_to_prop. apply H2; [done|]. pose proof (submit_done w d bio r b' w' E Er) as Hp. destruct (state b') eqn:Es; [done|done| |]; by rewrite bool_decide_true in Hrc.
Qed.

Lemma io_read_run p c w d s l : d <> 0 -> 0 < size d <= 4096 ->
  exists rc b w', io d RIX_BIO_READ s l (p, (c, w)) = Some ((rc, b), (p, (c, w'))) /\ (rc = 0 \/ rc = -1) /\
    (forall d' s', sectors w' d' s' = sectors w d' s') /\ (rc = 0 -> slice b 0 (size d) = sectors w d s).
Proof.
  intros Hd Hs. unfold io. rewrite (proj2 (Z.eqb_neq d 0) Hd). unfold bad_size, CACHE_SECTOR_BYTES. rewrite (proj2 (Z.eqb_neq (size d) 0)), (proj2 (Z.ltb_ge 4096 (size d))) by lia.
  destruct (has_submit (drive d)); cbn [negb orb]; [|exists (-1), l, w; split; [done|]; split; [by right|]; done].
  unfold act. set (bio := Build_rix_bio_t _ _ _ _ _ _ _). destruct (drv_submit d bio w) as [[r b'] w'] eqn:E.
  destruct (submit_read w d bio r b' w' E eq_refl eq_refl) as (H1 & H2). eexists _, _, w'. split; [reflexivity|].
  split; [case_if; tauto|]. split; [exact H1|]. intros Hrc. unfold truthy in Hrc. destruct (r =? 0) eqn:Er; cbn [negb orb] in Hrc; [|done].
  bool_to_prop. pose proof (submit_done w d bio r b' w' E Er) as Hp. assert (Hst : state b' = RIX_BIO_COMPLETE).
  { destruct (state b') eqn:Es; [done|done| |]; by rewrite bool_decide_true in Hrc. }
  destruct (H2 Er Hst) as (l' & -> & Hl'). exact Hl'.
Qed.

Lemma slice_slice l n : slice (slice l 0 n) 0 n = slice l 0 n.
Proof.
  destruct (decide (0 <= n)); [|by rewrite !slice_nil by lia]. apply list_ext_aget.
  - pose proof (length_slice (slice l 0 n) 0 n). pose proof (length_slice l 0 n). lia.
  - pose proof (length_slice (slice l 0 n) 0 n ltac:(done)) as H. intros i Hi. rewrite aget_slice by lia. done.
Qed.

(** What is cached hides what the medium holds. *)
Lemma content_io wb c w w' i d0 s0 d s : cache_ok wb c w -> slot_ok i -> matches d0 s0 (at_slot c i) = true -> same_elsewhere w w' d0 s0 ->
  content c w' d s = content c w d s.
Proof.
  intros Hok Hi Hm Hw. unfold content. destruct (find d s c) as [j|] eqn:Ef; [done|]. apply Hw. intros [= -> ->].
  by rewrite (find_hit d0 s0 c i (co_once _ _ _ Hok) Hi Hm) in Ef.
Qed.

Lemma matches_key d s e e' : ce_valid e' = ce_valid e -> ce_device e' = ce_device e -> ce_sector e' = ce_sector e -> matches d s e' = matches d s e.
Proof. intros H1 H2 H3. unfold matches. by rewrite H1, H2, H3. Qed.

(** An entry rewritten under its key. *)
Lemma rekey wb wb' c w w' i e : cache_ok wb c w -> slot_ok i -> (forall d s, matches d s e = matches d s (at_slot c i)) ->
  length (ce_data e) = 4096%nat -> ce_writeback e = bool_decide (wb' = Some i) ->
  (forall j, slot_ok j -> j <> i -> bool_decide (wb' = Some j) = bool_decide (wb = Some j)) ->
  ce_valid e = true -> ce_device e = ce_device (at_slot c i) -> ce_sector e = ce_sector (at_slot c i) -> ce_valid (at_slot c i) = true ->
  same_elsewhere w w' (ce_device e) (ce_sector e) ->
  (ce_dirty e = false -> slice (ce_data e) 0 (size (ce_device e)) = sectors w' (ce_device e) (ce_sector e)) ->
  cache_ok wb' (put_slot i e c) w' /\
  forall d s, content (put_slot i e c) w' d s = if matches d s (at_slot c i) then slice (ce_data e) 0 (size d) else content c w d s.
Proof.
  intros Hok Hi Hk Hd Hwb Hwb' Hv Edev Esec Hv0 Hw Hcl.
  assert (Hok' : cache_ok wb' (put_slot i e c) w').
  { apply (put_slot_ok wb wb' c w w'); try done.
    - intros _. rewrite Edev. by apply (co_valid _ _ _ Hok).
    - intros d s j Hm Hj Hne. rewrite Hk in Hm. destruct (matches d s (at_slot c j)) eqn:Ej; [|done]. exfalso. apply Hne. by apply (co_once _ _ _ Hok j i d s).
    - intros j Hj Hne Hvj. apply Hw. intros [= E1 E2]. apply Hne. apply (co_once _ _ _ Hok j i (ce_device e) (ce_sector e)); try done.
      + apply matches_spec. done.
      + apply matches_spec. done. }
  split; [done|]. intros d s. rewrite content_put by (try done; first [apply Hok|apply Hok']). rewrite Hk.
  destruct (matches d s (at_slot c i)) eqn:Em; [done|]. unfold content. destruct (find d s c) eqn:Ef; [done|]. apply Hw. intros [= -> ->].
  rewrite Edev, Esec in Em. assert (matches (ce_device (at_slot c i)) (ce_sector (at_slot c i)) (at_slot c i) = true) by (by apply matches_spec). congruence.
Qed.

(** A slot given up whose sector is on the medium. *)
Lemma dropped wb c w i : cache_ok wb c w -> slot_ok i -> (wb = None \/ wb = Some i) ->
  (ce_valid (at_slot c i) = true -> slice (ce_data (at_slot c i)) 0 (size (ce_device (at_slot c i))) = sectors w (ce_device (at_slot c i)) (ce_sector (at_slot c i))) ->
  let c' := put_slot i (invalidate (at_slot c i)) c in
  cache_ok None c' w /\ (forall d s, content c' w d s = content c w d s) /\ (forall d s, find d s c = None -> find d s c' = None) /\ ce_valid (at_slot c' i) = false.
Proof.
  intros Hok Hi Hwb Hcl c'. pose proof (co_len _ _ _ Hok) as Hl. assert (Hok' : cache_ok None c' w).
  { apply (put_slot_ok wb None c w w); try done.
    - by apply (co_data _ _ _ Hok).
    - intros j Hj Hne. destruct Hwb as [Hwb|Hwb]; rewrite Hwb; [done|]. symmetry. apply bool_decide_false. congruence. }
  split; [done|]. split; [|split].
  - intros d s. unfold c'. rewrite content_put by (try done; first [apply Hok|apply Hok']). change (matches d s (invalidate (at_slot c i))) with false. cbn iota.
    destruct (matches d s (at_slot c i)) eqn:Em; [|done]. unfold content. rewrite (find_hit d s c i (co_once _ _ _ Hok) Hi Em).
    apply matches_spec in Em as (Hv & <- & <-). symmetry. by apply Hcl.
  - intros d s Hf. apply find_miss. intros j Hj. unfold c'. rewrite at_put by done. case_if; [done|].
    pose proof (find_spec d s c) as H. rewrite Hf in H. by apply H.
  - unfold c'. by rewrite at_put, Z.eqb_refl.
Qed.

Definition same_content (c : block_cache) (w : W) (c' : block_cache) (w' : W) : Prop := forall d s, content c' w' d s = content c w d s.

(** What making room does: nothing is seen to change, and no sector comes in. *)
Definition roomy (c : block_cache) (w : W) (c' : block_cache) (w' : W) (ok : bool) : Prop :=
  ready c' w' /\ same_content c w c' w' /\ (forall d s, find d s c = None -> find d s c' = None) /\
  (ok = true -> exists i, slot_ok i /\ ce_valid (at_slot c' i) = false).

Lemma free_victim c w i : cache_ok None c w -> slot_ok i -> ce_valid (at_slot c i) = false ->
  exists k, victim c = Some k /\ slot_ok k /\ ce_valid (at_slot c k) = false.
Proof.
  intros Hok Hi Hv. destruct (victim_spec c) as (k & Hk & Hks & [H|H]); [intros j Hj; by rewrite (co_writeback _ _ _ Hok)|by exists k|].
  destruct (H i Hi) as [H1 _]. congruence.
Qed.

(** A dirty slot marked and being written back. *)
Record held (c : block_cache) (w : W) (i : Z) (c1 : block_cache) : Prop := {
  h_ok : cache_ok (Some i) c1 w;
  h_lock : cache_lock c1 = spin_free;
  h_at : at_slot c1 i = set_writeback true (at_slot c i);
  h_content : same_content c w c1 w;
  h_find : forall d s, find d s c = None -> find d s c1 = None;
  h_key : find (ce_device (at_slot c i)) (ce_sector (at_slot c i)) c1 = Some i;
}.

Lemma hold c w i : ready c w -> slot_ok i -> ce_valid (at_slot c i) = true -> ce_dirty (at_slot c i) = true ->
  held c w i (lk spin_free (lk spin_held (put_slot i (set_writeback true (at_slot c i)) c))).
Proof.
  intros [Hlk Hok] Hi Hv Hdt. pose proof (co_len _ _ _ Hok) as Hl. set (e := at_slot c i) in *.
  destruct (rekey None (Some i) c w w i (set_writeback true e) Hok Hi) as [Hok1 Hc1]; try done.
  { by apply (co_data _ _ _ Hok). }
  { cbn. symmetry. by apply bool_decide_true. }
  { intros j Hj Hne. apply bool_decide_false. congruence. }
  { intros H. change (ce_dirty e = false) in H. congruence. }
  assert (E1 : at_slot (put_slot i (set_writeback true e) c) i = set_writeback true e) by (by rewrite at_put, Z.eqb_refl).
  split; [by do 2 apply lk_ok|done|exact E1|..].
  - intros d s. change (content (put_slot i (set_writeback true e) c) w d s = content c w d s). rewrite Hc1. destruct (matches d s (at_slot c i)) eqn:Em; [|done].
    unfold content. by rewrite (find_hit d s c i (co_once _ _ _ Hok) Hi Em).
  - intros d s Hf. apply find_miss. intros j Hj. pose proof (find_spec d s c) as H. rewrite Hf in H.
    change (matches d s (at_slot (put_slot i (set_writeback true e) c) j) = false). rewrite at_put by done. case_if; by apply H.
  - apply (find_hit _ _ (put_slot i (set_writeback true e) c) i (co_once _ _ _ Hok1) Hi). rewrite E1. by apply matches_spec.
Qed.

(** The mark taken off again, with the dirty mark as the outcome of the write allows. *)
Lemma released c w w' i c1 dirty : held c w i c1 -> slot_ok i -> ce_valid (at_slot c i) = true ->
  let e := at_slot c i in same_elsewhere w w' (ce_device e) (ce_sector e) ->
  (dirty = false -> slice (ce_data e) 0 (size (ce_device e)) = sectors w' (ce_device e) (ce_sector e)) ->
  let c2 := put_slot i (set_dirty dirty (set_writeback false (at_slot c1 i))) c1 in
  cache_ok None c2 w' /\ same_content c w c2 w' /\ (forall d s, find d s c = None -> find d s c2 = None).
Proof.
  intros [Hok1 _ E1 Hc1 Hf1 Hk1] Hi Hv e Hw Hcl c2. fold e in E1.
  destruct (rekey (Some i) None c1 w w' i (set_dirty dirty (set_writeback false (at_slot c1 i))) Hok1 Hi) as [Hok2 Hc2]; try (by rewrite E1); try done.
  { by apply (co_data _ _ _ Hok1). }
  { intros j Hj Hne. symmetry. apply bool_decide_false. congruence. }
  split; [done|]. split.
  - intros d s. unfold c2. rewrite Hc2, E1. destruct (matches d s (set_writeback true e)) eqn:Em; [|by rewrite Hc1]. rewrite <- Hc1. unfold content.
    rewrite (find_hit d s c1 i (co_once _ _ _ Hok1) Hi) by (by rewrite E1). by rewrite E1.
  - intros d s Hf. apply Hf1 in Hf. apply find_miss. intros j Hj. pose proof (find_spec d s c1) as H. rewrite Hf in H.
    unfold c2. rewrite at_put by (done || apply Hok1). case_if; [|by apply H]. specialize (H i Hi). by rewrite E1 in H |- *.
Qed.

Lemma dirty_id b e : ce_dirty e = b -> set_dirty b e = e.
Proof. by destruct e; cbn; intros ->. Qed.

(** A victim whose data must be written first. *)
Lemma evict_write p c w i c1 : held c w i c1 -> slot_ok i -> ce_valid (at_slot c i) = true -> ce_dirty (at_slot c i) = true -> ce_device (at_slot c i) <> 0 -> 0 < size (ce_device (at_slot c i)) <= 4096 ->
  let e := at_slot c i in
  exists r c' w', ('(rc, _) ← io (ce_device e) RIX_BIO_WRITE (ce_sector e) (slice (ce_data e) 0 (size (ce_device e)));
    if negb (rc =? 0) then _ ← section (evict_failed (ce_device e) (ce_sector e) (ce_age e)); mret None
    else section (evict_done (ce_device e) (ce_sector e) (ce_age e)) : M st (option Z)) (p, (c1, w)) = Some (r, (p, (c', w'))) /\
    roomy c w c' w' (match r with Some _ => true | None => false end).
Proof.
  intros Hh Hi Hv Hdt Hd Hs e. pose proof Hh as [Hok1 Hl1 E1 Hc1 Hf1 Hk1]. fold e in E1, Hk1.
  assert (Hage : (ce_age (at_slot c1 i) =? ce_age e) = true) by (rewrite E1; apply Z.eqb_refl).
  destruct (io_write_run p c1 w (ce_device e) (ce_sector e) (slice (ce_data e) 0 (size (ce_device e))) Hd Hs) as (rc & b & w' & Eio & Hrc & Hw & Hw0 & _).
  rewrite (bind_Some _ _ _ (rc, b) (p, (c1, w'))) by exact Eio. destruct Hrc as [-> | ->]; cbn [Z.eqb negb].
  - (* written: the slot is given up *)
    assert (Hm1 : matches (ce_device e) (ce_sector e) (at_slot c1 i) = true) by (rewrite E1; by apply matches_spec).
    assert (Hok2 : cache_ok (Some i) c1 w').
    { split; try apply Hok1. intros j Hj Hvj Hdj. destruct (decide (j = i)) as [->|Hne]; [by rewrite E1 in Hdj; cbn in Hdj; unfold e in Hdj; congruence|].
      rewrite (co_clean _ _ _ Hok1 j Hj Hvj Hdj). symmetry. apply Hw. intros [= E2 E3]. apply Hne.
      apply (co_once _ _ _ Hok1 j i (ce_device e) (ce_sector e) Hj Hi); [|done]. by apply matches_spec. }
    destruct (dropped (Some i) c1 w' i Hok2 Hi ltac:(by right)) as (Hok3 & Hc3 & Hf3 & Hv3).
    { intros _. rewrite E1. cbn. rewrite Hw0 by done. symmetry. apply slice_slice. }
    cbv zeta in Hok3, Hc3, Hf3, Hv3. destruct (free_victim _ _ i Hok3 Hi Hv3) as (k & Hk & Hks & Hkv).
    set (c3 := put_slot i (invalidate (at_slot c1 i)) c1) in *. rewrite (section_run _ p c1 w' (Some k) (lk spin_held c3)); [|done|].
    + exists (Some k), (lk spin_free (lk spin_held c3)), w'. split; [done|]. split; [split; [done|by do 2 apply lk_ok]|]. split; [|split].
      * intros d s. change (content c3 w' d s = content c w d s). rewrite Hc3, (content_io (Some i) c1 w w' i _ _ d s Hok1 Hi Hm1 Hw). apply Hc1.
      * intros d s Hf. apply Hf3. by apply Hf1.
      * intros _. exists i. split; [done|exact Hv3].
    + unfold evict_done. change (find _ _ (lk spin_held c1)) with (find (ce_device e) (ce_sector e) c1). rewrite Hk1.
      change (at_slot (lk spin_held c1) i) with (at_slot c1 i). rewrite Hage. change (put_slot i (invalidate (at_slot c1 i)) (lk spin_held c1)) with (lk spin_held c3).
      change (victim (lk spin_held c3)) with (victim c3). rewrite Hk. change (at_slot (lk spin_held c3) k) with (at_slot c3 k). by rewrite Hkv.
  - (* not written: the entry stays as it was *)
    destruct (released c w w' i c1 true Hh Hi Hv Hw ltac:(done)) as (Hok2 & Hc2 & Hf2).
    rewrite dirty_id in Hok2, Hc2, Hf2 by (by rewrite E1). set (c2 := put_slot i (set_writeback false (at_slot c1 i)) c1) in *.
    rewrite (bind_Some _ _ _ tt (p, (lk spin_free (lk spin_held c2), w'))).
    + exists None, (lk spin_free (lk spin_held c2)), w'. split; [done|]. split; [split; [done|by do 2 apply lk_ok]|]. by split; [|split].
    + apply section_run; [done|]. unfold evict_failed. change (find _ _ (lk spin_held c1)) with (find (ce_device e) (ce_sector e) c1). rewrite Hk1.
      change (at_slot (lk spin_held c1) i) with (at_slot c1 i). by rewrite Hage.
Qed.

Lemma evict_one_run p c w : ready c w ->
  exists r c' w', evict_one (p, (c, w)) = Some (r, (p, (c', w'))) /\ roomy c w c' w' (match r with Some _ => true | None => false end).
Proof.
  intros [Hlk Hok]. destruct (victim_spec c) as (i & Hi & His & _); [intros j Hj; by rewrite (co_writeback _ _ _ Hok)|].
  unfold evict_one. destruct (negb (ce_valid (at_slot c i)) || negb (ce_dirty (at_slot c i))) eqn:Ep.
  - destruct (dropped None c w i Hok His ltac:(by left)) as (Hok1 & Hc1 & Hf1 & Hv1).
    { intros Hv. apply (co_clean _ _ _ Hok i His Hv). rewrite Hv in Ep. by destruct (ce_dirty (at_slot c i)). }
    cbv zeta in *. set (c1 := put_slot i (invalidate (at_slot c i)) c) in *.
    rewrite (bind_Some _ _ _ (PickFree i) (p, (lk spin_free (lk spin_held c1), w))).
    + exists (Some i), (lk spin_free (lk spin_held c1)), w. split; [done|]. split; [split; [done|by do 2 apply lk_ok]|]. split; [|split].
      * exact Hc1.
      * exact Hf1.
      * intros _. by exists i.
    + apply section_run; [done|]. unfold evict_pick. change (victim (lk spin_held c)) with (victim c). rewrite Hi.
      change (at_slot (lk spin_held c) i) with (at_slot c i). by rewrite Ep.
  - apply orb_false_iff in Ep as [Ev Ed]. apply negb_false_iff in Ev, Ed. set (e := at_slot c i) in *. destruct (co_valid _ _ _ Hok i His Ev) as [Hd Hs]. fold e in Hd, Hs.
    rewrite (bind_Some _ _ _ (PickWrite (ce_device e) (ce_sector e) (ce_age e) (slice (ce_data e) 0 (size (ce_device e))))
      (p, (lk spin_free (lk spin_held (put_slot i (set_writeback true e) c)), w))).
    + exact (evict_write p c w i _ (hold c w i (conj Hlk Hok) His Ev Ed) His Ev Ed Hd Hs).
    + apply section_run; [done|]. unfold evict_pick. change (victim (lk spin_held c)) with (victim c). rewrite Hi.
      change (at_slot (lk spin_held c) i) with e. rewrite Ev, Ed. cbn [negb orb]. rewrite (proj2 (Z.eqb_neq (ce_device e) 0) Hd).
      unfold CACHE_SECTOR_BYTES. rewrite (proj2 (Z.eqb_neq (size (ce_device e)) 0)), (proj2 (Z.ltb_ge 4096 (size (ce_device e)))) by lia. done.
Qed.

Lemma evict_tries_run n p c w : ready c w ->
  exists ok c' w', evict_tries n (p, (c, w)) = Some (ok, (p, (c', w'))) /\ roomy c w c' w' ok.
Proof.
  revert c w. induction n as [|n IH]; intros c w Hr; cbn [evict_tries].
  - exists false, c, w. split; [done|]. by split.
  - destruct (evict_one_run p c w Hr) as (r & c1 & w1 & E & H1 & H2 & H3 & H4). rewrite (bind_Some _ _ _ r (p, (c1, w1))) by exact E.
    destruct r as [i|]; [by exists true, c1, w1|]. destruct (IH c1 w1 H1) as (ok & c2 & w2 & E2 & G1 & G2 & G3 & G4). exists ok, c2, w2. split; [done|].
    split; [done|]. split; [intros d s; by rewrite G2, H2|]. split; [auto|done].
Qed.

Lemma slice_copy n l src : 0 <= n <= Z.of_nat (length l) -> slice (copy (Z.to_nat n) l 0 src 0) 0 n = slice src 0 n.
Proof.
  intros Hn. pose proof (length_slice (copy (Z.to_nat n) l 0 src 0) 0 n ltac:(lia)) as H1. pose proof (length_slice src 0 n ltac:(lia)) as H2.
  apply list_ext_aget; [lia|]. intros i Hi. rewrite !aget_slice by lia. rewrite aget_copy by lia. case_if; [f_equal; lia|].
  destruct Heqb; bool_to_prop; lia.
Qed.

(** The bytes of a buffer after a sector was copied to its front. *)
Lemma copy_prefix n l src : 0 <= n <= Z.of_nat (length l) -> copy (Z.to_nat n) l 0 src 0 = slice src 0 n ++ drop (Z.to_nat n) l.
Proof.
  intros Hn. pose proof (length_slice src 0 n ltac:(lia)) as Hs. apply list_ext_aget; [rewrite length_copy, length_app, length_drop; lia|].
  intros i Hi. rewrite length_copy in Hi. rewrite aget_copy, aget_app by lia. rewrite Hs. destruct (i <? n) eqn:E; bool_to_prop.
  - rewrite aget_slice by lia. case_if; [f_equal; lia|]. destruct Heqb; bool_to_prop; lia.
  - rewrite aget_drop by lia. case_if; [bool_to_prop; lia|]. f_equal. lia.
Qed.

(** A sector brought into a free slot. *)
Lemma filled c w i d s dirty l src a : cache_ok None c w -> slot_ok i -> ce_valid (at_slot c i) = false -> find d s c = None -> d <> 0 -> 0 < size d <= 4096 ->
  l = copy (Z.to_nat (size d)) (ce_data (at_slot c i)) 0 src 0 -> (dirty = false -> slice src 0 (size d) = sectors w d s) ->
  let c' := put_slot i (fill_entry d s dirty l a) c in
  cache_ok None c' w /\ forall d' s', content c' w d' s' = if (d' =? d) && (s' =? s) then slice src 0 (size d) else content c w d' s'.
Proof.
  intros Hok Hi Hv Hf Hd Hs -> Hcl c'. pose proof (co_data _ _ _ Hok i Hi) as Hlen. pose proof (find_spec d s c) as Hfs. rewrite Hf in Hfs.
  assert (Hok' : cache_ok None c' w).
  { apply (put_slot_ok None None c w w); try done.
    - cbn. by rewrite length_copy.
    - intros d' s' j Hm Hj Hne. apply matches_spec in Hm as (_ & <- & <-). by apply Hfs.
    - intros _ Hdt. cbn in *. rewrite slice_copy by lia. by apply Hcl. }
  split; [done|]. intros d' s'. unfold c'. rewrite content_put by (try done; first [apply Hok|apply Hok']).
  unfold matches at 1. cbn [fill_entry ce_valid ce_device ce_sector ce_data andb]. rewrite (Z.eqb_sym d d'), (Z.eqb_sym s s').
  destruct ((d' =? d) && (s' =? s)) eqn:E; [bool_to_prop; subst; apply slice_copy; lia|].
  unfold matches. by rewrite Hv.
Qed.

(** The entry of a cached sector rewritten: data, dirty mark, age. *)
Lemma touched c w i d s dirty l src a : cache_ok None c w -> find d s c = Some i -> l = copy (Z.to_nat (size d)) (ce_data (at_slot c i)) 0 src 0 ->
  (dirty = false -> slice src 0 (size d) = sectors w d s) ->
  let e := set_age a (set_dirty dirty (set_data l (at_slot c i))) in
  cache_ok None (put_slot i e c) w /\ forall d' s', content (put_slot i e c) w d' s' = if (d' =? d) && (s' =? s) then slice src 0 (size d) else content c w d' s'.
Proof.
  intros Hok Hf -> Hcl e. pose proof (find_spec d s c) as Hfs. rewrite Hf in Hfs. destruct Hfs as [Hi Hm]. pose proof Hm as Hm'. apply matches_spec in Hm' as (Hv & Hd & Hs).
  destruct (co_valid _ _ _ Hok i Hi Hv) as [Hd0 Hsz]. rewrite Hd in Hd0, Hsz. pose proof (co_data _ _ _ Hok i Hi) as Hlen.
  destruct (rekey None None c w w i e Hok Hi) as [Hok' Hc']; try done.
  { cbn. by rewrite length_copy. }
  { cbn. by rewrite (co_writeback _ _ _ Hok). }
  { cbn. intros Hdt. rewrite Hd, Hs, slice_copy by lia. by apply Hcl. }
  split; [done|]. intros d' s'. rewrite Hc'. unfold matches. rewrite Hv, Hd, Hs. cbn [andb]. rewrite (Z.eqb_sym d d'), (Z.eqb_sym s s').
  destruct ((d' =? d) && (s' =? s)) eqn:E; [|done]. bool_to_prop. subst d'. cbn. apply slice_copy. lia.
Qed.

(** ** The operations *)

Lemma bad_size_spec d : bad_size d = false -> 0 < size d <= 4096.
Proof. unfold bad_size, CACHE_SECTOR_BYTES. pose proof (drive_size d) as H. fold (size d) in H. intros Hb. bool_to_prop. lia. Qed.

Lemma tick_ok wb c w : cache_ok wb c w -> cache_ok wb (tick c) w.
Proof. by intros []. Qed.

(** A hit only makes the entry younger. *)
Lemma aged c w d s i a : cache_ok None c w -> find d s c = Some i ->
  cache_ok None (put_slot i (set_age a (at_slot c i)) c) w /\ same_content c w (put_slot i (set_age a (at_slot c i)) c) w.
Proof.
  intros Hok Hf. pose proof (find_spec d s c) as Hfs. rewrite Hf in Hfs. destruct Hfs as [Hi Hm]. apply matches_spec in Hm as (Hv & _ & _).
  destruct (rekey None None c w w i (set_age a (at_slot c i)) Hok Hi) as [Hok' Hc']; try done.
  { by apply (co_data _ _ _ Hok). }
  { cbn. by rewrite (co_writeback _ _ _ Hok). }
  { intros Hdt. by apply (co_clean _ _ _ Hok). }
  split; [done|]. intros d' s'. rewrite Hc'. destruct (matches d' s' (at_slot c i)) eqn:Em; [|done]. unfold content. by rewrite (find_hit d' s' c i (co_once _ _ _ Hok) Hi Em).
Qed.

Lemma read_run p c w d s b : ready c w -> size d <= Z.of_nat (length b) ->
  exists rc b' c' w', block_cache_read d s b (p, (c, w)) = Some ((rc, b'), (p, (c', w'))) /\ ready c' w' /\ same_content c w c' w' /\
    (rc = 0 /\ b' = content c w d s ++ drop (Z.to_nat (size d)) b \/ rc = -1 /\ b' = b).
Proof.
  intros [Hlk Hok] Hb. unfold block_cache_read. destruct ((d =? 0) || bad_size d) eqn:Eg.
  { exists (-1), b, c, w. split; [done|]. split; [done|]. split; [done|by right]. }
  apply orb_false_iff in Eg as [Hd Hsz]. bool_to_prop. apply bad_size_spec in Hsz. destruct (find d s c) as [i|] eqn:Ef.
  - set (c1 := tick c). destruct (aged c1 w d s i (clock_tick c1) (tick_ok _ _ _ Hok) Ef) as [Hok1 Hc1].
    change (at_slot c1 i) with (at_slot c i) in Hok1, Hc1. set (c2 := put_slot i (set_age (clock_tick c1) (at_slot c i)) c1) in *.
    set (b' := copy (Z.to_nat (size d)) b 0 (ce_data (at_slot c i)) 0).
    rewrite (bind_Some _ _ _ (Some b') (p, (lk spin_free (lk spin_held c2), w))).
    + exists 0, b', (lk spin_free (lk spin_held c2)), w. split; [done|]. split; [split; [done|by do 2 apply lk_ok]|]. split; [exact Hc1|]. left. split; [done|].
      unfold b'. rewrite copy_prefix by lia. unfold content. by rewrite Ef.
    + apply section_run; [done|]. unfold read_hit. change (find d s (lk spin_held c)) with (find d s c). by rewrite Ef.
  - rewrite (bind_Some _ _ _ None (p, (lk spin_free (lk spin_held c), w))).
    2: { apply section_run; [done|]. unfold read_hit. change (find d s (lk spin_held c)) with (find d s c). by rewrite Ef. }
    set (c0 := lk spin_free (lk spin_held c)). assert (Hr0 : ready c0 w) by (split; [done|by do 2 apply lk_ok]).
    destruct (evict_tries_run 3 p c0 w Hr0) as (ok & c1 & w1 & E & [Hl1 Hok1] & Hc1 & Hf1 & Hslot). rewrite (bind_Some _ _ _ ok (p, (c1, w1))) by exact E.
    change (same_content c w c1 w1) in Hc1. destruct ok; cbn [negb].
    2: { exists (-1), b, c1, w1. split; [done|]. split; [done|]. split; [done|by right]. }
    destruct (io_read_run p c1 w1 d s (replicate (Z.to_nat CACHE_SECTOR_BYTES) 0) Hd Hsz) as (rc & fresh & w2 & E2 & Hrc & Hsec & Hdata).
    rewrite (bind_Some _ _ _ (rc, fresh) (p, (c1, w2))) by exact E2.
    assert (Hok2 : cache_ok None c1 w2). { split; try apply Hok1. intros j Hj Hv Hdt. rewrite Hsec. by apply (co_clean _ _ _ Hok1). }
    assert (Hc2 : same_content c w c1 w2). { intros d' s'. rewrite <- Hc1. unfold content. destruct (find d' s' c1); [done|apply Hsec]. }
    destruct Hrc as [-> | ->]; cbn [Z.eqb negb].
    2: { exists (-1), b, c1, w2. split; [done|]. split; [done|]. split; [done|by right]. }
    destruct (Hslot eq_refl) as (i & Hi & Hv). destruct (free_victim c1 w2 i Hok2 Hi Hv) as (k & Hk & Hks & Hkv).
    pose proof (Hf1 d s Ef) as Hf0. specialize (Hdata eq_refl).
    assert (Hwant : slice fresh 0 (size d) = content c w d s) by (rewrite <- Hc1; unfold content; by rewrite Hf0).
    set (l := copy (Z.to_nat (size d)) (ce_data (at_slot c1 k)) 0 fresh 0). set (ct := tick c1).
    destruct (filled ct w2 k d s false l fresh (clock_tick ct) (tick_ok _ _ _ Hok2) Hks Hkv Hf0 Hd Hsz eq_refl) as [Hok3 Hc3].
    { intros _. by rewrite Hsec. }
    cbv zeta in Hok3, Hc3. set (c3 := put_slot k (fill_entry d s false l (clock_tick ct)) ct) in *.
    rewrite (bind_Some _ _ _ (copy (Z.to_nat (size d)) b 0 l 0) (p, (lk spin_free (lk spin_held c3), w2))).
    + exists 0, (copy (Z.to_nat (size d)) b 0 l 0), (lk spin_free (lk spin_held c3)), w2. split; [done|]. split; [split; [done|by do 2 apply lk_ok]|]. split.
      * intros d' s'. change (content c3 w2 d' s' = content c w d' s'). rewrite Hc3. destruct ((d' =? d) && (s' =? s)) eqn:E3; [bool_to_prop; by subst|]. exact (Hc2 d' s').
      * left. split; [done|]. rewrite copy_prefix by lia. f_equal. unfold l. rewrite slice_copy by (rewrite (co_data _ _ _ Hok2) by done; lia). done.
    + apply section_run; [done|]. unfold read_fill. change (find d s (lk spin_held c1)) with (find d s c1). rewrite Hf0.
      change (victim (lk spin_held c1)) with (victim c1). rewrite Hk. change (at_slot (lk spin_held c1) k) with (at_slot c1 k). by rewrite Hkv.
Qed.

Lemma write_run p c w d s b : ready c w ->
  exists rc c' w', block_cache_write d s b (p, (c, w)) = Some (rc, (p, (c', w'))) /\ ready c' w' /\
    (rc = 0 /\ (forall d' s', content c' w' d' s' = if (d' =? d) && (s' =? s) then slice b 0 (size d) else content c w d' s') \/ rc = -1 /\ same_content c w c' w').
Proof.
  intros [Hlk Hok]. unfold block_cache_write. destruct ((d =? 0) || bad_size d) eqn:Eg.
  { exists (-1), c, w. split; [done|]. split; [done|by right]. }
  apply orb_false_iff in Eg as [Hd Hsz]. bool_to_prop. apply bad_size_spec in Hsz. set (input := slice b 0 (size d)).
  assert (Hin : slice input 0 (size d) = slice b 0 (size d)) by apply slice_slice.
  destruct (find d s c) as [i|] eqn:Ef.
  - set (ct := tick c). set (l := copy (Z.to_nat (size d)) (ce_data (at_slot c i)) 0 input 0).
    destruct (touched ct w i d s true l input (clock_tick ct) (tick_ok _ _ _ Hok) Ef eq_refl ltac:(done)) as [Hok1 Hc1]. cbv zeta in Hok1, Hc1.
    change (at_slot ct i) with (at_slot c i) in Hok1, Hc1. set (c2 := put_slot i _ ct) in *.
    rewrite (bind_Some _ _ _ true (p, (lk spin_free (lk spin_held c2), w))).
    + exists 0, (lk spin_free (lk spin_held c2)), w. split; [done|]. split; [split; [done|by do 2 apply lk_ok]|]. left. split; [done|]. intros d' s'. etrans; [exact (Hc1 d' s')|]. case_if; [exact Hin|done].
    + apply section_run; [done|]. unfold write_hit. change (find d s (lk spin_held c)) with (find d s c). by rewrite Ef.
  - rewrite (bind_Some _ _ _ false (p, (lk spin_free (lk spin_held c), w))).
    2: { apply section_run; [done|]. unfold write_hit. change (find d s (lk spin_held c)) with (find d s c). by rewrite Ef. }
    set (c0 := lk spin_free (lk spin_held c)). assert (Hr0 : ready c0 w) by (split; [done|by do 2 apply lk_ok]).
    destruct (evict_tries_run 3 p c0 w Hr0) as (ok & c1 & w1 & E & [Hl1 Hok1] & Hc1 & Hf1 & Hslot). rewrite (bind_Some _ _ _ ok (p, (c1, w1))) by exact E.
    change (same_content c w c1 w1) in Hc1. destruct ok; cbn [negb].
    2: { exists (-1), c1, w1. split; [done|]. split; [done|by right]. }
    destruct (Hslot eq_refl) as (i & Hi & Hv). destruct (free_victim c1 w1 i Hok1 Hi Hv) as (k & Hk & Hks & Hkv).
    set (l := copy (Z.to_nat (size d)) (ce_data (at_slot c1 k)) 0 input 0). set (ct := tick c1).
    destruct (filled ct w1 k d s true l input (clock_tick ct) (tick_ok _ _ _ Hok1) Hks Hkv (Hf1 d s Ef) Hd Hsz eq_refl ltac:(done)) as [Hok3 Hc3].
    cbv zeta in Hok3, Hc3. set (c3 := put_slot k (fill_entry d s true l (clock_tick ct)) ct) in *.
    rewrite (bind_Some _ _ _ true (p, (lk spin_free (lk spin_held c3), w1))).
    + exists 0, (lk spin_free (lk spin_held c3)), w1. split; [done|]. split; [split; [done|by do 2 apply lk_ok]|]. left. split; [done|]. intros d' s'.
      change (content c3 w1 d' s' = if (d' =? d) && (s' =? s) then slice b 0 (size d) else content c w d' s'). rewrite Hc3. case_if; [exact Hin|]. exact (Hc1 d' s').
    + apply section_run; [done|]. unfold write_fill. change (victim (lk spin_held c1)) with (victim c1). rewrite Hk.
      change (at_slot (lk spin_held c1) k) with (at_slot c1 k). by rewrite Hkv.
Qed.

Definition is_dirty (d : Z) (e : cache_entry_t) : bool := ce_valid e && (ce_device e =? d) && ce_dirty e.

Lemma slot_lookup c i : length (cache c) = 64%nat -> slot_ok i -> cache c !! Z.to_nat i = Some (at_slot c i).
Proof.
  unfold slot_ok. intros Hl Hi. unfold at_slot, aget. destruct (cache c !! Z.to_nat i) eqn:E; [done|]. apply lookup_ge_None in E. lia.
Qed.

Lemma dirty_put f c i e : length (cache c) = 64%nat -> slot_ok i -> countb f (cache (put_slot i e c)) = countb f (cache c) - b2z (f (at_slot c i)) + b2z (f e).
Proof. intros Hl Hi. apply countb_insert. by apply slot_lookup. Qed.

(** One turn of the flush loop. *)
Lemma flush_turn p c w d i : ready c w -> find_dirty d c = Some i ->
  exists wr c' w', (_ ← section (flush_pick d); '(wr, _) ← io d RIX_BIO_WRITE (ce_sector (at_slot c i)) (slice (ce_data (at_slot c i)) 0 (size d));
      _ ← section (flush_done d (ce_sector (at_slot c i)) (ce_age (at_slot c i)) wr); mret wr : M st Z) (p, (c, w)) = Some (wr, (p, (c', w'))) /\
    ready c' w' /\ same_content c w c' w' /\ (wr = 0 /\ countb (is_dirty d) (cache c') = countb (is_dirty d) (cache c) - 1 \/ wr = -1).
Proof.
  intros Hr Hfd. pose proof Hr as [Hlk Hok]. pose proof (find_dirty_spec d c) as Hs. rewrite Hfd in Hs. destruct Hs as (Hi & Hv & Hd & Hdt & _).
  pose proof (hold c w i Hr Hi Hv Hdt) as Hh. set (c1 := lk spin_free (lk spin_held (put_slot i (set_writeback true (at_slot c i)) c))) in *.
  destruct (co_valid _ _ _ Hok i Hi Hv) as [Hd0 Hsz]. pose proof Hh as [Hok1 Hl1 E1 Hc1 Hf1 Hk1]. pose proof (co_len _ _ _ Hok) as Hl.
  rewrite Hd in *. set (e := at_slot c i) in *.
  rewrite (bind_Some _ _ _ (Some (ce_sector e, ce_age e, slice (ce_data e) 0 (size d))) (p, (c1, w))).
  2: { apply section_run; [done|]. unfold flush_pick. change (find_dirty d (lk spin_held c)) with (find_dirty d c). by rewrite Hfd. }
  destruct (io_write_run p c1 w d (ce_sector e) (slice (ce_data e) 0 (size d)) Hd0 Hsz) as (wr & b & w' & Eio & Hrc & Hw & Hw0 & _).
  rewrite (bind_Some _ _ _ (wr, b) (p, (c1, w'))) by exact Eio.
  set (e2 := if (wr =? 0) && (ce_age (set_writeback false (at_slot c1 i)) =? ce_age e) then set_dirty false (set_writeback false (at_slot c1 i)) else set_writeback false (at_slot c1 i)).
  assert (Hage : (ce_age (set_writeback false (at_slot c1 i)) =? ce_age e) = true) by (rewrite E1; apply Z.eqb_refl).
  rewrite (bind_Some _ _ _ tt (p, (lk spin_free (lk spin_held (put_slot i e2 c1)), w'))).
  2: { apply section_run; [done|]. unfold flush_done. change (find d (ce_sector e) (lk spin_held c1)) with (find d (ce_sector e) c1). by rewrite Hk1. }
  assert (He2 : e2 = set_dirty (negb (wr =? 0)) (set_writeback false (at_slot c1 i))).
  { unfold e2. rewrite Hage, andb_true_r. destruct (wr =? 0); [done|]. symmetry. apply dirty_id. by rewrite E1. }
  assert (Hrel : negb (wr =? 0) = false -> slice (ce_data e) 0 (size d) = sectors w' d (ce_sector e)).
  { intros H. bool_to_prop. rewrite Hw0 by done. symmetry. apply slice_slice. }
  pose proof (released c w w' i c1 (negb (wr =? 0)) Hh Hi Hv) as Hrl. cbv zeta in Hrl. fold e in Hrl. rewrite Hd in Hrl.
  destruct (Hrl Hw Hrel) as (Hok2 & Hc2 & _). rewrite <- He2 in Hok2, Hc2.
  exists wr, (lk spin_free (lk spin_held (put_slot i e2 c1))), w'. split; [done|]. split; [split; [done|by do 2 apply lk_ok]|]. split; [exact Hc2|].
  destruct Hrc as [-> | ->]; [left|by right]. split; [done|]. change (countb (is_dirty d) (cache (put_slot i e2 c1)) = countb (is_dirty d) (cache c) - 1).
  rewrite dirty_put by (done || apply Hok1). change (cache c1) with (cache (put_slot i (set_writeback true e) c)). rewrite dirty_put by done. fold e.
  rewrite E1, He2, E1. unfold is_dirty. cbn. rewrite Hv, Hd, Z.eqb_refl, Hdt. cbn. lia.
Qed.

Lemma flush_loop_run n p c w d : ready c w -> countb (is_dirty d) (cache c) < Z.of_nat n ->
  exists rc c' w', flush_loop n d (p, (c, w)) = Some (rc, (p, (c', w'))) /\ ready c' w' /\ same_content c w c' w' /\
    (rc = 0 /\ (forall i, slot_ok i -> ce_valid (at_slot c' i) = true -> ce_device (at_slot c' i) = d -> ce_dirty (at_slot c' i) = false) \/ rc = -1).
Proof.
  revert c w. induction n as [|n IH]; intros c w Hr Hn; [pose proof (countb_nonneg (is_dirty d) (cache c)); lia|].
  cbn [flush_loop]. pose proof Hr as [Hlk Hok]. destruct (find_dirty d c) as [i|] eqn:Ef.
  - destruct (flush_turn p c w d i Hr Ef) as (wr & c1 & w1 & E & Hr1 & Hc1 & Hcase).
    assert (Ep : section (W := W) (flush_pick d) (p, (c, w)) = Some (Some (ce_sector (at_slot c i), ce_age (at_slot c i), slice (ce_data (at_slot c i)) 0 (size d)),
      (p, (lk spin_free (lk spin_held (put_slot i (set_writeback true (at_slot c i)) c)), w)))).
    { apply section_run; [done|]. unfold flush_pick. change (find_dirty d (lk spin_held c)) with (find_dirty d c). by rewrite Ef. }
    rewrite (bind_Some _ _ _ _ _ Ep) in E. rewrite (bind_Some _ _ _ _ _ Ep).
    apply bind_inv in E as ([wr' b] & st1 & Eio & E). rewrite (bind_Some _ _ _ _ _ Eio). apply bind_inv in E as (u & st2 & Es & E).
    rewrite (bind_Some _ _ _ _ _ Es). injection E as -> ->. destruct Hcase as [[-> Hcnt] | ->]; cbn [Z.eqb negb].
    + destruct (IH c1 w1 Hr1 ltac:(lia)) as (rc & c2 & w2 & E2 & Hr2 & Hc2 & H2). exists rc, c2, w2. split; [done|]. split; [done|].
      split; [intros d' s'; by rewrite Hc2, Hc1|done].
    + exists (-1), c1, w1. split; [done|]. split; [done|]. split; [done|by right].
  - rewrite (bind_Some _ _ _ None (p, (lk spin_free (lk spin_held c), w))).
    2: { apply section_run; [done|]. unfold flush_pick. change (find_dirty d (lk spin_held c)) with (find_dirty d c). by rewrite Ef. }
    exists 0, (lk spin_free (lk spin_held c)), w. split; [done|]. split; [split; [done|by do 2 apply lk_ok]|]. split; [done|]. left. split; [done|].
    intros i Hi Hv Hd. pose proof (find_dirty_spec d c) as Hs. rewrite Ef in Hs. apply (Hs i Hi Hv Hd). by rewrite (co_writeback _ _ _ Hok).
Qed.

Lemma cache_flush_run p c w d : ready c w ->
  exists rc c' w', block_cache_flush d (p, (c, w)) = Some (rc, (p, (c', w'))) /\ (rc = 0 \/ rc = -1) /\ ready c' w' /\ same_content c w c' w' /\
    (rc = 0 -> forall s, sectors w' d s = content c w d s).
Proof.
  intros Hr. unfold block_cache_flush. case_if; [exists (-1), c, w; split; [done|]; split; [by right|]; done|].
  pose proof Hr as [_ Hok]. destruct (flush_loop_run 65 p c w d Hr) as (rc & c1 & w1 & E & Hr1 & Hc1 & Hcase).
  { pose proof (countb_le_length (is_dirty d) (cache c)) as Hcl. rewrite (co_len _ _ _ Hok) in Hcl. lia. }
  rewrite (bind_Some _ _ _ rc (p, (c1, w1))) by exact E. destruct Hcase as [[-> Hclean] | ->]; cbn [Z.eqb negb].
  2: { exists (-1), c1, w1. split; [done|]. split; [by right|]. done. }
  unfold flush_device, act. set (bio := Build_rix_bio_t _ _ _ _ _ _ _). destruct (drv_submit d bio w1) as [[r b'] w2] eqn:Es.
  pose proof (submit_flush w1 d bio r b' w2 Es eq_refl) as Hsec. pose proof Hr1 as [Hl1 Hok1]. eexists _, c1, w2. split; [reflexivity|].
  split; [case_if; tauto|]. split; [|split].
  - split; [done|]. split; try apply Hok1. intros j Hj Hv Hd. rewrite Hsec. by apply (co_clean _ _ _ Hok1).
  - intros d' s'. rewrite <- Hc1. unfold content. destruct (find d' s' c1); [done|apply Hsec].
  - intros _ s. rewrite Hsec, <- Hc1. unfold content. pose proof (find_spec d s c1) as Hfs. destruct (find d s c1) as [i|]; [|done].
    destruct Hfs as [Hi Hm]. apply matches_spec in Hm as (Hv & <- & <-). symmetry. apply (co_clean _ _ _ Hok1); [done|done|]. by apply Hclean.
Qed.

(** ** Abstract specification: a store of sectors *)

Inductive cache_op := CRead (d s : Z) (b : list Z) | CWrite (d s : Z) (b : list Z) | CFlush (d : Z).

(** Result code and, for a read, the caller's buffer. *)
Definition exec (o : cache_op) : M st (Z * list Z) :=
  match o with
  | CRead d s b => block_cache_read d s b
  | CWrite d s b => rc ← block_cache_write d s b; mret (rc, [])
  | CFlush d => rc ← block_cache_flush d; mret (rc, [])
  end.

Fixpoint exec_all (ops : list cache_op) : M st (list (Z * list Z)) :=
  match ops with
  | [] => mret []
  | o :: ops => r ← exec o; rs ← exec_all ops; mret (r :: rs)
  end.

(** The caller's buffer holds a sector. *)
Definition op_fits (o : cache_op) : Prop := match o with CRead d _ b => size d <= Z.of_nat (length b) | _ => True end.

(** A store answers a read with what was last written; a failed operation changes nothing. *)
Definition store_step (f : Z -> Z -> list Z) (o : cache_op) (r : Z * list Z) (f' : Z -> Z -> list Z) : Prop :=
  (r.1 = 0 \/ r.1 = -1) /\
  match o with
  | CRead d s b => (forall d' s', f' d' s' = f d' s') /\ r.2 = if r.1 =? 0 then f d s ++ drop (Z.to_nat (size d)) b else b
  | CWrite d s b => forall d' s', f' d' s' = if (r.1 =? 0) && (d' =? d) && (s' =? s) then slice b 0 (size d) else f d' s'
  | CFlush d => forall d' s', f' d' s' = f d' s'
  end.

Inductive store_trace : (Z -> Z -> list Z) -> list cache_op -> list (Z * list Z) -> (Z -> Z -> list Z) -> Prop :=
  | trace_nil f : store_trace f [] [] f
  | trace_cons f o r f1 ops rs f' : store_step f o r f1 -> store_trace f1 ops rs f' -> store_trace f (o :: ops) (r :: rs) f'.

Lemma exec_run p c w o : ready c w -> op_fits o ->
  exists r c' w', exec o (p, (c, w)) = Some (r, (p, (c', w'))) /\ ready c' w' /\ store_step (content c w) o r (content c' w').
Proof.
  intros Hr Hf. destruct o as [d s b|d s b|d]; cbn [exec].
  - destruct (read_run p c w d s b Hr Hf) as (rc & b' & c' & w' & E & Hr' & Hc & Hcase). exists (rc, b'), c', w'. split; [done|]. split; [done|].
    destruct Hcase as [[-> ->]|[-> ->]]; (split; [tauto|]); by split.
  - destruct (write_run p c w d s b Hr) as (rc & c' & w' & E & Hr' & Hcase). exists (rc, []), c', w'. rewrite (bind_Some _ _ _ _ _ E). split; [done|]. split; [done|].
    destruct Hcase as [[-> Hc]|[-> Hc]]; (split; [tauto|]); done.
  - destruct (cache_flush_run p c w d Hr) as (rc & c' & w' & E & Hrc & Hr' & Hc & _). exists (rc, []), c', w'. rewrite (bind_Some _ _ _ _ _ E). done.
Qed.

Lemma exec_all_run ops p c w : ready c w -> Forall op_fits ops ->
  exists rs c' w', exec_all ops (p, (c, w)) = Some (rs, (p, (c', w'))) /\ ready c' w' /\ store_trace (content c w) ops rs (content c' w').
Proof.
  intros Hr Hf. revert c w Hr. induction Hf as [|o ops Ho Hf IH]; intros c w Hr; cbn [exec_all].
  - exists [], c, w. split; [done|]. split; [done|]. constructor.
  - destruct (exec_run p c w o Hr Ho) as (r & c1 & w1 & E1 & Hr1 & S1). destruct (IH c1 w1 Hr1) as (rs & c2 & w2 & E2 & Hr2 & S2).
    exists (r :: rs), c2, w2. rewrite (bind_Some _ _ _ _ _ E1), (bind_Some _ _ _ _ _ E2). split; [done|]. split; [done|]. by econstructor.
Qed.

(** C5: the block cache is a store of sectors. Any sequence of reads, writes and
    flushes over any devices returns, and its results are those of a plain store:
    a read that succeeds gives the bytes last written to that sector (or what was
    on the medium) and leaves the rest of the buffer alone, a write that succeeds
    changes its sector only, and an operation that fails changes nothing, whatever
    is evicted and written back on the way and whichever driver requests fail. *)
Theorem block_cache_refines_store (p : cpu) (c : block_cache) (w : W) (ops : list cache_op)
    (Hr : ready c w) (Hf : Forall op_fits ops) :
  ∃ rs c' w', exec_all ops (p, (c, w)) = Some (rs, (p, (c', w'))) ∧ ready c' w' ∧ store_trace (content c w) ops rs (content c' w').
Proof. by apply exec_all_run. Qed.

(** C40: a flush ends and empties the cache onto the device. Its loop writes back
    each dirty sector at most once, so it leaves after at most 64 writes; when it
    reports success, every sector of the device holds on the medium what the cache
    presented, and what the cache presents is unchanged in any case. *)
Theorem block_cache_flush_ends (p : cpu) (c : block_cache) (w : W) (d : Z) (Hr : ready c w) :
  ∃ rc c' w', block_cache_flush d (p, (c, w)) = Some (rc, (p, (c', w'))) ∧ (rc = 0 ∨ rc = -1) ∧ ready c' w' ∧
    (∀ d' s, content c' w' d' s = content c w d' s) ∧ (rc = 0 → ∀ s, sectors w' d s = content c w d s).
Proof. destruct (cache_flush_run p c w d Hr) as (rc & c' & w' & E & Hrc & Hr' & Hc & Hs). exists rc, c', w'. by repeat (split; [done|]). Qed.

(** The cache as [block_cache_init] leaves it. *)
Lemma init_ready c w : length (cache c) = 64%nat -> (forall i, slot_ok i -> length (ce_data (at_slot c i)) = 4096%nat) -> ready (block_cache_init c).2 w.
Proof.
  intros Hl Hd. split; [done|]. unfold block_cache_init, CACHE_ENTRIES. cbn [snd].
  set (I := fun n (l : list cache_entry_t) => length l = 64%nat /\ (forall i, slot_ok i -> length (ce_data (aget no_entry l i)) = 4096%nat) /\
    forall i, 0 <= i < n -> ce_valid (aget no_entry l i) = false /\ ce_writeback (aget no_entry l i) = false).
  match goal with |- context [for_all 0 64 ?b (cache c)] => assert (HI : I 64 (for_all 0 64 b (cache c))); [|revert HI; generalize (for_all 0 64 b (cache c))] end.
  { apply (for_all_inv I 0 64); [lia|split; [done|]; split; [done|lia]|]. intros i l Hi (H1 & H2 & H3).
    assert (Ha : forall j x, slot_ok j -> aget no_entry (aset i x l) j = if j =? i then x else aget no_entry l j).
    { intros j x Hj. unfold slot_ok in Hj. destruct (j =? i) eqn:E; bool_to_prop; [subst; apply aget_aset_eq; lia|apply aget_aset_ne; lia]. }
    split; [by rewrite length_aset|]. split.
    - intros j Hj. rewrite Ha by done. case_if; [apply H2; unfold slot_ok; lia|by apply H2].
    - intros j Hj. rewrite Ha by (unfold slot_ok; lia). case_if; [done|]. apply H3. lia. }
  intros l (H1 & H2 & H3). assert (Hv : forall i, slot_ok i -> ce_valid (aget no_entry l i) = false /\ ce_writeback (aget no_entry l i) = false) by (intros i Hi; apply H3; unfold slot_ok in Hi; lia).
  split; try done.
  - intros i Hi. apply (Hv i Hi).
  - intros i Hi H. destruct (Hv i Hi) as [H0 _]. unfold at_slot in H. cbn in H. congruence.
  - intros i j d s Hi _ H. apply matches_spec in H as [H _]. destruct (Hv i Hi) as [H0 _]. unfold at_slot in H. cbn in H. congruence.
  - intros i Hi H. destruct (Hv i Hi) as [H0 _]. unfold at_slot in H. cbn in H. congruence.
Qed.
End Facts.

(** ** Example: devices in memory with sectors of four bytes *)

Definition ram : Type := Z -> Z -> list Z.

Definition ram_submit (d : Z) (b : rix_bio_t) (w : ram) : (Z * rix_bio_t) * ram :=
  let done l := {| op := op b; sector := sector b; count := count b; buffer := l; buffer_size := buffer_size b; state := RIX_BIO_COMPLETE; error := 0 |} in
  match op b, buffer b with
  | RIX_BIO_READ, Some l => ((0, done (Some (slice (w d (sector b)) 0 4 ++ drop 4 l))), w)
  | RIX_BIO_WRITE, Some l => ((0, done (Some l)), fun d' s' => if (d' =? d) && (s' =? sector b) then l else w d' s')
  | RIX_BIO_READ, None | RIX_BIO_WRITE, None => ((-1, done None), w)
  | RIX_BIO_FLUSH, l => ((0, done l), w)
  end.

#[local] Obligation Tactic := idtac.
#[global] Program Instance ram_drives : Drives ram := {|
  drive _ := {| sector_size := 4; sector_count := 1024; max_sectors := 128; has_submit := true |};
  drv_submit := ram_submit;
  sectors w d s := slice (w d s) 0 4;
|}.
Next Obligation. done. Qed.
Next Obligation. intros w d s. by apply length_slice. Qed.
Next Obligation. intros w d b rc b' w' E _. unfold ram_submit in E. destruct (op b), (buffer b); by injection E as <- <- <-. Qed.
Next Obligation.
  intros w d b rc b' w' E Ho _. unfold ram_submit in E. rewrite Ho in E. destruct (buffer b) as [l|]; injection E as <- <- <-; split; try done. intros _ _.
  eexists. split; [reflexivity|]. reflexivity.
Qed.
Next Obligation.
  intros w d b rc b' w' l E Ho _ Hl. unfold ram_submit in E. rewrite Ho, Hl in E. injection E as <- <- <-. split; [|split].
  - intros d' s' Hne. destruct ((d' =? d) && (s' =? sector b)) eqn:E; [bool_to_prop; by subst|done].
  - intros _ _. by rewrite !Z.eqb_refl.
  - right. by rewrite !Z.eqb_refl.
Qed.
Next Obligation. intros w d b rc b' w' E Ho. unfold ram_submit in E. rewrite Ho in E. by injection E as <- <- <-. Qed.

Definition demo_cache : block_cache := (block_cache_init {| cache := replicate 64 {| ce_device := 7; ce_sector := 0; ce_valid := true; ce_dirty := true; ce_writeback := true;
  ce_data := replicate 4096 0; ce_age := 9 |}; clock_tick := 3; cache_lock := spin_free |}).2.
Definition demo_cpu : cpu := {| rflags := 512; cpu_pid := 0; cpu_index := 0 |}.

Lemma demo_ready : ready (W := ram) demo_cache (fun _ _ => []).
Proof.
  apply init_ready; [done|]. intros i Hi. unfold at_slot, aget, slot_ok in *. cbn [cache]. rewrite lookup_replicate_2 by lia. done.
Qed.

(** A sector of device 1 is written, read back and flushed. *)
Lemma block_cache_refines_store_witness :
  ready (W := ram) demo_cache (fun _ _ => []) ∧
  ∃ rs c' w', exec_all [CWrite 1 9 [1; 2; 3; 4]; CRead 1 9 [0; 0; 0; 0; 5]; CFlush 1] (demo_cpu, (demo_cache, fun _ _ => [])) = Some (rs, (demo_cpu, (c', w'))) ∧
    ready (W := ram) c' w' ∧
    store_trace (content demo_cache (fun _ _ => [])) [CWrite 1 9 [1; 2; 3; 4]; CRead 1 9 [0; 0; 0; 0; 5]; CFlush 1] rs (content c' w').
Proof.
  split; [exact demo_ready|]. apply (block_cache_refines_store demo_cpu demo_cache (fun _ _ => [])); [exact demo_ready|].
  repeat constructor; cbn; lia.
Defined.

Example demo_results :
  option_map fst (exec_all [CWrite 1 9 [1; 2; 3; 4]; CRead 1 9 [0; 0; 0; 0; 5]; CFlush 1] (demo_cpu, (demo_cache, (fun _ _ => []) : ram))) =
  Some [(0, []); (0, [1; 2; 3; 4; 5]); (0, [])].
Proof. vm_compute. reflexivity. Qed.

(** The cache with one sector written and not yet on the device. *)
Definition dirty_state : block_cache * ram :=
  match exec_all [CWrite 1 9 [1; 2; 3; 4]] (demo_cpu, (demo_cache, (fun _ _ => []) : ram)) with
  | Some (_, (_, x)) => x
  | None => (demo_cache, fun _ _ => [])
  end.

Lemma dirty_ready : ready dirty_state.1 dirty_state.2.
Proof.
  destruct (exec_all_run (W := ram) [CWrite 1 9 [1; 2; 3; 4]] demo_cpu demo_cache (fun _ _ => []) demo_ready) as (rs & c' & w' & E & Hr & _); [repeat constructor; cbn; lia|].
  unfold dirty_state. rewrite E. exact Hr.
Qed.

Lemma block_cache_flush_ends_witness :
  sectors dirty_state.2 1 9 ≠ [1; 2; 3; 4] ∧
  ∃ c' w', block_cache_flush 1 (demo_cpu, dirty_state) = Some (0, (demo_cpu, (c', w'))) ∧ sectors w' 1 9 = [1; 2; 3; 4].
Proof.
  destruct (block_cache_flush_ends demo_cpu dirty_state.1 dirty_state.2 1 dirty_ready) as (rc & c' & w' & E & _ & _ & _ & Hs).
  assert (F : option_map fst (block_cache_flush 1 (demo_cpu, dirty_state)) = Some 0) by (vm_compute; reflexivity).
  assert (E' : block_cache_flush 1 (demo_cpu, dirty_state) = Some (rc, (demo_cpu, (c', w')))) by (rewrite <- E; by destruct dirty_state).
  rewrite E' in F. injection F as F. split; [vm_compute; discriminate|]. exists c', w'. subst rc. split; [exact E'|]. rewrite (Hs eq_refl 9). vm_compute. reflexivity.
Defined.
