(* ===== verification/Journal.v ===== *)
(** * The metadata journal of RixFS ([kernel/fs/rixfs.h], [kernel/fs/rixfs.c], [kernel/fs/rixfs_ops.c])

    [journal_write] updates one metadata sector, [journal_write_transaction]
    several at once (renames), and [journal_replay] runs at mount. The theorems
    are about power loss and I/O errors between any two disk requests. *)
From stdpp Require Import base tactics list numbers.
From S2P Require Import Prelude Bytes Block.

Definition RIXFS_JOURNAL_TX_MAX_ENTRIES : Z := 16.
Definition RIXFS_JOURNAL_TX_MAGIC : Z := 0x5254584A4E4C5631.
Definition RIXFS_JOURNAL_MAGIC : Z := 0x524A4E4C56310001.
Definition RIXFS_PAGE_SIZE : Z := 4096.

Record rixfs_superblock_t := {
  magic : Z; version : Z; header_size : Z; sb_sector_size : Z; flags : Z; total_sectors : Z; inode_table_sector : Z;
  inode_count : Z; data_start_sector : Z; root_inode : Z; generation : Z; checksum_field : Z; bitmap_sector : Z;
  bitmap_sectors : Z; journal_sector : Z; journal_sectors : Z; free_hint : Z; journal_generation : Z }.

Record rixfs_t := { device : rix_block_device_t; super : rixfs_superblock_t; mounted : bool; meta_hint : Z }.

Definition set_journal_generation (g : Z) (f : rixfs_t) : rixfs_t :=
  let s := super f in
  {| device := device f; mounted := mounted f; meta_hint := meta_hint f;
     super := {| magic := magic s; version := version s; header_size := header_size s; sb_sector_size := sb_sector_size s;
                 flags := flags s; total_sectors := total_sectors s; inode_table_sector := inode_table_sector s;
                 inode_count := inode_count s; data_start_sector := data_start_sector s; root_inode := root_inode s;
                 generation := generation s; checksum_field := checksum_field s; bitmap_sector := bitmap_sector s;
                 bitmap_sectors := bitmap_sectors s; journal_sector := journal_sector s; journal_sectors := journal_sectors s;
                 free_hint := free_hint s; journal_generation := g |} |}.

(** FNV-1a over the bytes; [checksum] of [rixfs.c] and [hash64] of [rixfs_ops.c]
    are the same loop. *)
Definition hash64 (data : list Z) (size : Z) : Z :=
  foldl (fun h b => u64 (Z.lxor h b * 1099511628211)) 1469598103934665603 (take (Z.to_nat size) data).

Definition load64 (p : list Z) (off : Z) : Z :=
  foldl (fun v i => Z.lor v (Z.shiftl (aget 0 p (off + i)) (8 * i))) 0 (seqZ 0 8).
Definition load32 (p : list Z) (off : Z) : Z :=
  Z.lor (Z.lor (Z.lor (aget 0 p off) (Z.shiftl (aget 0 p (off + 1)) 8)) (Z.shiftl (aget 0 p (off + 2)) 16))
    (Z.shiftl (aget 0 p (off + 3)) 24).
Definition rename_store64 (p : list Z) (off v : Z) : list Z :=
  foldl (fun p i => aset (off + i) (u8 (Z.shiftr v (8 * i))) p) p (seqZ 0 8).

(** A zeroed sector buffer: [for (i = 0; i < sector_size; i++) b[i] = 0;] *)
Definition zeros (n : Z) : list Z := replicate (Z.to_nat n) 0.

(** The record [journal_write] puts in the journal's first sector. *)
Definition journal_header (ss target seq sum : Z) : list Z :=
  foldl (fun b i =>
    aset (32 + i) (u8 (Z.shiftr sum (8 * i))) (aset (16 + i) (u8 (Z.shiftr seq (8 * i)))
      (aset (8 + i) (u8 (Z.shiftr target (8 * i))) (aset i (u8 (Z.shiftr RIXFS_JOURNAL_MAGIC (8 * i))) b))))
    (zeros ss) (seqZ 0 8).

Record rixfs_rename_change_t := { ch_sector : Z; ch_data : list Z }.

(** The record [journal_write_transaction] puts there. *)
Definition tx_header (ss gen : Z) (changes : list rixfs_rename_change_t) : list Z :=
  let b := rename_store64 (zeros ss) 0 RIXFS_JOURNAL_TX_MAGIC in
  let b := rename_store64 b 8 gen in
  let b := aset 16 (u8 (Z.of_nat (length changes))) b in
  foldl (fun b '(i, c) =>
    rename_store64 (rename_store64 b (24 + i * 16) (ch_sector c)) (32 + i * 16) (hash64 (ch_data c) ss))
    b (zip (seqZ 0 (Z.of_nat (length changes))) changes).

Section Journal.
Context {W : Type} `{!Machine W}.

(** [bio_read]/[rd], [bio_write]/[wr] and [bio_flush]/[flush]; the read hands
    back the buffer. *)
Definition rd (d : rix_block_device_t) (s : Z) (b : list Z) : IO W (Z * list Z) :=
  '(rc, bio) ← block_submit (Some d) (Some {| op := RIX_BIO_READ; sector := s; count := 1; buffer := Some b;
                 buffer_size := sector_size d; state := RIX_BIO_PENDING; error := 0 |});
  mret (rc, default b (bio ≫= buffer)).
Definition wr (d : rix_block_device_t) (s : Z) (b : list Z) : IO W Z :=
  '(rc, _) ← block_submit (Some d) (Some {| op := RIX_BIO_WRITE; sector := s; count := 1; buffer := Some b;
                 buffer_size := sector_size d; state := RIX_BIO_PENDING; error := 0 |});
  mret rc.
Definition flush (d : rix_block_device_t) : IO W Z :=
  '(rc, _) ← block_submit (Some d) (Some {| op := RIX_BIO_FLUSH; sector := 0; count := 0; buffer := None;
                 buffer_size := 0; state := RIX_BIO_PENDING; error := 0 |});
  mret rc.

(** [a || b] on calls that return 0 for success. *)
Definition or_else (a b : IO W Z) : IO W Z := rc ← a; if truthy rc then mret rc else b.

Definition journal_write (f : rixfs_t) (target : Z) (data : list Z) : IO W (Z * rixfs_t) :=
  let d := device f in
  let ss := sector_size d in
  let js := journal_sector (super f) in
  if negb (mounted f) || (journal_sectors (super f) <? 2) || (total_sectors (super f) <=? target)
     || (target =? js) || (target =? u64 (js + 1)) then mret (-1, f)
  else
    q ← pmm_alloc_page;
    if q =? 0 then mret (-2, f) else
    let b := take (Z.to_nat ss) data in
    let sum := hash64 b ss in
    rc ← or_else (wr d (u64 (js + 1)) b) (flush d);
    if truthy rc then pmm_free_page q ≫= fun _ => mret (-3, f) else
    let seq := u64 (journal_generation (super f) + 1) in
    let f := set_journal_generation seq f in
    rc ← or_else (wr d js (journal_header ss target seq sum)) (flush d);
    if truthy rc then pmm_free_page q ≫= fun _ => mret (-4, f) else
    rc ← or_else (wr d target b) (flush d);
    if truthy rc then pmm_free_page q ≫= fun _ => mret (-5, f) else
    r ← or_else (wr d js (zeros ss)) (flush d);
    pmm_free_page q ≫= fun _ => mret (r, f).

(** The write loops of a transaction: stop at the first error. *)
Fixpoint write_each (d : rix_block_device_t) (l : list (Z * list Z)) : IO W Z :=
  match l with
  | [] => mret 0
  | (s, b) :: l => or_else (wr d s b) (write_each d l)
  end.

Definition journal_write_transaction (f : rixfs_t) (changes : list rixfs_rename_change_t) : IO W (Z * rixfs_t) :=
  let d := device f in
  let ss := sector_size d in
  let js := journal_sector (super f) in
  let n := Z.of_nat (length changes) in
  if (n =? 0) || (RIXFS_JOURNAL_TX_MAX_ENTRIES <? n) || (journal_sectors (super f) <? n + 1) || (ss <? 24 + n * 16)
  then mret (-1, f)
  else
    page ← pmm_alloc_page;
    if page =? 0 then mret (-2, f) else
    let gen := u64 (journal_generation (super f) + 1) in
    let f := set_journal_generation gen f in
    let sect c := take (Z.to_nat ss) (ch_data c) in
    result ← or_else (wr d js (tx_header ss gen changes)) (or_else (flush d) (
      or_else (write_each d (zip_with (fun i c => (u64 (js + 1 + i), sect c)) (seqZ 0 n) changes)) (or_else (flush d) (
      or_else (write_each d ((fun c => (ch_sector c, sect c)) <$> changes)) (or_else (flush d) (
      or_else (wr d js (zeros ss)) (flush d)))))));
    pmm_free_page page ≫= fun _ => mret (result, f).

(** The entries of a transaction record: [None] is the -5 return. *)
Fixpoint tx_entries (f : rixfs_t) (buffer : list Z) (i : Z) (k : nat) : option (list (Z * Z)) :=
  match k with
  | O => Some []
  | S k =>
      let js := journal_sector (super f) in
      let target := load64 buffer (24 + i * 16) in
      let sum := load64 buffer (32 + i * 16) in
      if (total_sectors (super f) <=? target) || ((js <=? target) && (target - js <? journal_sectors (super f))) then None
      else l ← tx_entries f buffer (i + 1) k; Some ((target, sum) :: l)
  end.

(** The copy loop: 0, or the -6 return. Entry [i] is at [js + 1 + i]. *)
Fixpoint tx_copy (f : rixfs_t) (buffer : list Z) (i : Z) (l : list (Z * Z)) : IO W Z :=
  match l with
  | [] => mret 0
  | (target, sum) :: l =>
      let d := device f in
      '(rc, b) ← rd d (u64 (journal_sector (super f) + 1 + i)) buffer;
      if truthy rc then mret (-6)
      else if negb (hash64 b (sector_size d) =? sum) then mret (-6)
      else rc ← wr d target b;
           if truthy rc then mret (-6) else tx_copy f b (i + 1) l
  end.

Definition journal_replay (f : rixfs_t) : IO W Z :=
  let d := device f in
  let ss := sector_size d in
  let js := journal_sector (super f) in
  if journal_sectors (super f) <? 2 then mret 0
  else if (total_sectors (super f) <=? js) || (total_sectors (super f) - js <? journal_sectors (super f)) then mret (-1)
  else
    q ← pmm_alloc_page;
    if q =? 0 then mret (-2) else
    '(rc, buffer) ← rd d js (zeros RIXFS_PAGE_SIZE);
    if truthy rc then pmm_free_page q ≫= fun _ => mret (-3) else
    let magic := load64 buffer 0 in
    if magic =? RIXFS_JOURNAL_TX_MAGIC then
      let count := load32 buffer 16 in
      if (count =? 0) || (RIXFS_JOURNAL_TX_MAX_ENTRIES <? count) || (journal_sectors (super f) <? count + 1)
         || (ss <? 24 + count * 16) then pmm_free_page q ≫= fun _ => mret (-4)
      else match tx_entries f buffer 0 (Z.to_nat count) with
           | None => pmm_free_page q ≫= fun _ => mret (-5)
           | Some entries =>
               rc ← tx_copy f buffer 0 entries;
               if truthy rc then pmm_free_page q ≫= fun _ => mret rc else
               result ← or_else (flush d) (or_else (wr d js (zeros ss)) (flush d));
               pmm_free_page q ≫= fun _ => mret result
           end
    else if negb (magic =? RIXFS_JOURNAL_MAGIC) then pmm_free_page q ≫= fun _ => mret 0
    else
      let target := load64 buffer 8 in
      let sequence := load64 buffer 16 in
      let stored := load64 buffer 32 in
      if (sequence =? 0) || (total_sectors (super f) <=? target)
         || ((js <=? target) && (target - js <? journal_sectors (super f))) then pmm_free_page q ≫= fun _ => mret (-7)
      else
        '(rc, b) ← rd d (u64 (js + 1)) buffer;
        rc ← (if truthy rc then mret rc else if negb (hash64 b ss =? stored) then mret 1
              else or_else (wr d target b) (flush d));
        if truthy rc then pmm_free_page q ≫= fun _ => mret (-8) else
        result ← or_else (wr d js (zeros ss)) (flush d);
        pmm_free_page q ≫= fun _ => mret result.
End Journal.

(** ** Byte encoding *)

Lemma byte_slot v k n :
  0 <= k -> 0 <= n -> Z.testbit (Z.shiftl (u8 (Z.shiftr v k)) k) n = (k <=? n) && (n <? k + 8) && Z.testbit v n.
Proof.
  intros Hk Hn. rewrite Z.shiftl_spec by lia. destruct (k <=? n) eqn:E1; bool_to_prop; cbn [andb].
  - unfold u8. destruct (n <? k + 8) eqn:E2; bool_to_prop; cbn [andb].
    + rewrite Z.mod_pow2_bits_low, Z.shiftr_spec by lia. f_equal. lia.
    + by rewrite Z.mod_pow2_bits_high by lia.
  - by rewrite Z.testbit_neg_r by lia.
Qed.

(** Eight little-endian bytes make the value they were cut from. *)
Lemma load64_bytes p off v :
  is_u64 v -> 0 <= off ->
  (forall i, 0 <= i < 8 -> aget 0 p (off + i) = u8 (Z.shiftr v (8 * i))) -> load64 p off = v.
Proof.
  intros Hv Ho Hb. unfold load64.
  change (seqZ 0 8) with [0; 1; 2; 3; 4; 5; 6; 7]. cbn [foldl]. rewrite !Hb by lia.
  apply Z.bits_inj'. intros n Hn. rewrite !Z.lor_spec, Z.bits_0, !byte_slot by lia.
  destruct (decide (n < 64)).
  - destruct (Z.testbit v n); rewrite ?andb_true_r, ?andb_false_r; [|done].
    destruct (decide (n < 8)), (decide (n < 16)), (decide (n < 24)), (decide (n < 32)), (decide (n < 40)), (decide (n < 48)),
      (decide (n < 56)); try lia;
    repeat match goal with |- context [?a <=? ?b] => destruct (Z.leb_spec a b); try lia end;
    repeat match goal with |- context [?a <? ?b] => destruct (Z.ltb_spec a b); try lia end; reflexivity.
  - rewrite (testbit_high v 64 n) by (done || lia). by rewrite !andb_false_r.
Qed.

Lemma load64_app l r off : 0 <= off -> off + 8 <= Z.of_nat (length l) -> load64 (l ++ r) off = load64 l off.
Proof.
  intros H0 Hl. unfold load64. change (seqZ 0 8) with [0; 1; 2; 3; 4; 5; 6; 7]. cbn [foldl].
  rewrite !aget_app by lia. repeat (case_if; [|lia]). done.
Qed.

(** The header sector, spelled out. *)
Definition le_bytes (v : Z) : list Z := (fun i => u8 (Z.shiftr v (8 * i))) <$> seqZ 0 8.

Lemma journal_header_eq ss target seq sum :
  40 <= ss -> journal_header ss target seq sum
  = le_bytes RIXFS_JOURNAL_MAGIC ++ le_bytes target ++ le_bytes seq ++ zeros 8 ++ le_bytes sum ++ zeros (ss - 40).
Proof.
  intros Hss. unfold journal_header, zeros. replace (Z.to_nat ss) with (40 + Z.to_nat (ss - 40))%nat by lia.
  rewrite replicate_add. generalize (replicate (Z.to_nat (ss - 40)) 0) as r. intros r. reflexivity.
Qed.

Lemma length_journal_header ss target seq sum : 40 <= ss -> Z.of_nat (length (journal_header ss target seq sum)) = ss.
Proof.
  intros Hss. rewrite journal_header_eq by done. rewrite !length_app. unfold zeros. rewrite !length_replicate.
  assert (Hle : forall v, length (le_bytes v) = 8%nat) by reflexivity. rewrite !Hle. lia.
Qed.

Lemma load64_le pre v post : is_u64 v -> load64 (pre ++ le_bytes v ++ post) (Z.of_nat (length pre)) = v.
Proof.
  intros Hv. apply load64_bytes; [done|lia|]. intros i Hi. rewrite aget_app by lia. case_if; [lia|].
  replace (Z.of_nat (length pre) + i - Z.of_nat (length pre)) with i by lia.
  assert (i = 0 \/ i = 1 \/ i = 2 \/ i = 3 \/ i = 4 \/ i = 5 \/ i = 6 \/ i = 7) as Hc by lia.
  repeat destruct Hc as [->|Hc]; try reflexivity. subst. reflexivity.
Qed.

Lemma header_fields ss target seq sum :
  40 <= ss -> is_u64 target -> is_u64 seq -> is_u64 sum ->
  let h := journal_header ss target seq sum in
  load64 h 0 = RIXFS_JOURNAL_MAGIC /\ load64 h 8 = target /\ load64 h 16 = seq /\ load64 h 32 = sum.
Proof.
  intros Hss Ht Hq Hs h. unfold h. rewrite journal_header_eq by done.
  set (M := le_bytes RIXFS_JOURNAL_MAGIC). set (T := le_bytes target). set (Q := le_bytes seq). set (S := le_bytes sum).
  split; [|split; [|split]].
  - apply (load64_le [] RIXFS_JOURNAL_MAGIC (T ++ Q ++ zeros 8 ++ S ++ zeros (ss - 40))). unfold is_u64, RIXFS_JOURNAL_MAGIC. lia.
  - exact (load64_le M target (Q ++ zeros 8 ++ S ++ zeros (ss - 40)) Ht).
  - pose proof (load64_le (M ++ T) seq (zeros 8 ++ S ++ zeros (ss - 40)) Hq) as H. rewrite <- !app_assoc in H. exact H.
  - pose proof (load64_le (M ++ T ++ Q ++ zeros 8) sum (zeros (ss - 40)) Hs) as H. rewrite <- !app_assoc in H. exact H.
Qed.

Lemma zeros_clear ss : 8 <= ss -> load64 (zeros ss) 0 = 0.
Proof.
  intros H. unfold zeros. replace (Z.to_nat ss) with (8 + Z.to_nat (ss - 8))%nat by lia.
  rewrite replicate_add. generalize (replicate (Z.to_nat (ss - 8)) 0). reflexivity.
Qed.

Lemma hash64_u64 data n : is_u64 (hash64 data n).
Proof.
  unfold hash64. generalize (take (Z.to_nat n) data). intros l. induction l as [|x l IH] using rev_ind.
  - cbn. unfold is_u64. lia.
  - rewrite foldl_app. apply u64_range.
Qed.

(** ** Reasoning about interrupted runs *)

(** [Q] if the computation returns, [C] if power is lost during it. *)
Definition wp {W A} (m : IO W A) (Q : A -> W -> Prop) (C : W -> Prop) (w : W) : Prop :=
  match m w with (w', Some a) => Q a w' | (w', None) => C w' end.

Lemma wp_ret {W A} (a : A) Q C (w : W) : Q a w -> wp (mret a) Q C w.
Proof. done. Qed.

Lemma wp_bind {W A B} (m : IO W A) (k : A -> IO W B) Q C w : wp m (fun a => wp (k a) Q C) C w -> wp (m ≫= k) Q C w.
Proof. unfold wp, mbind, IO_bind. by destruct (m w) as [w' [a|]]. Qed.

Lemma wp_or_else {W} `{!Machine W} (a b : IO W Z) Q C w :
  wp a (fun rc w => if truthy rc then Q rc w else wp b Q C w) C w -> wp (or_else a b) Q C w.
Proof.
  intros H. unfold or_else. apply wp_bind. unfold wp in *. destruct (a w) as [w' [rc|]]; [|done]. by destruct (truthy rc).
Qed.

Import Disk.

Definition dev_ok (d : rix_block_device_t) : Prop :=
  has_submit d = true /\ 1 <= max_sectors d /\ 512 <= sector_size d <= RIXFS_PAGE_SIZE /\ 0 < sector_count d < 2 ^ 64.

(** The medium, the cache and the scratch-page count of a disk. *)
Definition core (d : disk) (m : Z -> list Z) (c : list (Z * list Z)) (h : Z) : Prop := media d = m /\ cache d = c /\ held d = h.

Section Rules.
Context (dev : rix_block_device_t) (Hdev : dev_ok dev).

Lemma submit_rw b d :
  count b = 1 -> op b <> RIX_BIO_FLUSH -> buffer b <> None -> buffer_size b = sector_size dev -> 0 <= sector b < sector_count dev ->
  block_submit (Some dev) (Some b) d =
  (dispatch dev b ≫= fun '(rc, b') => mret (rc, Some b')) d.
Proof.
  destruct Hdev as (H1 & H2 & H3 & H4). intros Hc Ho Hb Hs Hr. unfold block_submit. rewrite H1, Hc, Hs. cbn [negb].
  destruct (decide _); [done|]. change (1 =? 0) with false. cbn [orb]. destruct (buffer b); [|done].
  rewrite (u64_id (sector_count dev - sector b)) by (unfold is_u64; lia). unfold RIXFS_PAGE_SIZE in *.
  rewrite (u64_id (1 * sector_size dev)) by (unfold is_u64; lia). rewrite Z.div_1_r, Z.mul_1_l, Z.eqb_refl, Z.ltb_irrefl. cbn [negb orb].
  destruct (max_sectors dev <? 1) eqn:E1; bool_to_prop; [lia|]. cbn [orb].
  destruct (sector_count dev <=? sector b) eqn:E2; bool_to_prop; [lia|]. cbn [orb].
  destruct (sector_count dev - sector b <? 1) eqn:E3; bool_to_prop; [lia|]. done.
Qed.

(** One sector written: cached, or refused with or without having been. *)
Lemma wr_run s b d :
  0 <= s < sector_count dev ->
  wr dev s b d = match fate d with
    | [] => (d, None)
    | Done :: f => (with_core (media d) (cache d ++ [(s, slice b 0 (sector_size dev))]) f d, Some 0)
    | Fault a :: f => (with_core (media d) (if a then cache d ++ [(s, slice b 0 (sector_size dev))] else cache d) f d, Some (-1))
    end.
Proof.
  intros Hs. unfold wr, mbind, IO_bind. rewrite submit_rw by done. unfold dispatch, mbind, IO_bind.
  cbn [submit disk_machine]. unfold disk_submit. destruct (fate d) as [|o f]; [done|]. cbn [op set_state].
  unfold chunks. cbn [count sector buffer set_state default]. change (seqZ 0 1) with [0]. cbn [fmap list_fmap]. rewrite Z.add_0_r.
  by destruct o as [|[]].
Qed.

Lemma flush_run d :
  flush dev d = match fate d with
    | [] => (d, None)
    | Done :: f => (with_core (view d) [] f d, Some 0)
    | Fault a :: f => (if a then with_core (view d) [] f d else with_core (media d) (cache d) f d, Some (-1))
    end.
Proof.
  destruct Hdev as (H1 & _). unfold flush, mbind, IO_bind, block_submit. cbn [op]. rewrite H1. cbn [negb].
  destruct (decide _); [|done]. cbn [count]. change (0 =? 0) with true. cbn [negb]. unfold dispatch, mbind, IO_bind.
  cbn [submit disk_machine]. unfold disk_submit. destruct (fate d) as [|o fl]; [done|]. by destruct o as [|[]].
Qed.

(** One sector read into a page. *)
Lemma rd_run s b d :
  0 <= s < sector_count dev ->
  rd dev s b d = match fate d with
    | [] => (d, None)
    | Done :: f => (with_core (media d) (cache d) f d, Some (0, view d s ++ drop (length (view d s)) b))
    | Fault a :: f => (with_core (media d) (cache d) f d, Some (-1, b))
    end.
Proof.
  intros Hs. unfold rd, mbind, IO_bind. rewrite submit_rw by done. unfold dispatch, mbind, IO_bind.
  cbn [submit disk_machine]. unfold disk_submit. destruct (fate d) as [|o f]; [done|]. cbn [op set_state].
  cbn [count sector buffer set_state default]. change (seqZ s 1) with [Z.of_nat 0 + s]. rewrite Z.add_0_l.
  destruct o as [|[]]; [|done..]. cbn [flat_map app finish]. by rewrite app_nil_r.
Qed.

Context (m : Z -> list Z) (c : list (Z * list Z)) (h : Z).

Lemma wp_wr s b Q C d :
  core d m c h -> 0 <= s < sector_count dev -> C d ->
  let c' := c ++ [(s, slice b 0 (sector_size dev))] in
  (forall d', core d' m c' h -> Q 0 d') -> (forall d', core d' m c h \/ core d' m c' h -> Q (-1) d') ->
  wp (wr dev s b) Q C d.
Proof.
  intros (<- & <- & <-) Hs HC c' H0 H1. unfold wp. rewrite wr_run by done. destruct (fate d) as [|[|[]] f]; [done|..].
  - by apply H0.
  - apply H1. by right.
  - apply H1. by left.
Qed.

Lemma wp_flush Q C d :
  core d m c h -> C d ->
  (forall d', core d' (apply_writes c m) [] h -> Q 0 d') ->
  (forall d', core d' m c h \/ core d' (apply_writes c m) [] h -> Q (-1) d') ->
  wp (flush dev) Q C d.
Proof.
  intros (<- & <- & <-) HC H0 H1. unfold wp. rewrite flush_run. destruct (fate d) as [|[|[]] f]; [done|..].
  - by apply H0.
  - apply H1. by right.
  - apply H1. by left.
Qed.

Lemma wp_rd s b Q C d :
  core d m c h -> 0 <= s < sector_count dev -> C d ->
  (forall d', core d' m c h ->
     Q (0, apply_writes c m s ++ drop (length (apply_writes c m s)) b) d' /\ forall b', Q (-1, b') d') ->
  wp (rd dev s b) Q C d.
Proof.
  intros (<- & <- & <-) Hs HC H. unfold wp. rewrite rd_run by done. destruct (fate d) as [|[|?] f]; [done|..]; by apply H.
Qed.

Lemma wp_alloc Q C d :
  core d m c h -> (forall d', core d' m c h -> Q 0 d') -> (forall d', core d' m c (h + 1) -> Q 4096 d') ->
  wp (W := disk) pmm_alloc_page Q C d.
Proof.
  intros (<- & <- & <-) H0 H1. unfold wp. cbn [pmm_alloc_page disk_machine]. unfold disk_alloc. destruct (pages d) as [|[] l]; [by apply H0|..].
  - by apply H1.
  - by apply H0.
Qed.

Lemma wp_free a {A} (k : unit -> IO disk A) Q C d :
  core d m c h -> (forall d', core d' m c (h - 1) -> wp (k tt) Q C d') -> wp (W := disk) (pmm_free_page a ≫= k) Q C d.
Proof. intros (<- & <- & <-) H. apply wp_bind. unfold wp at 1. cbn. by apply H. Qed.

(** A write and the flush behind it, under a condition [S] on what the medium
    and the cache may hold when power is lost. *)
Lemma wp_wr_flush (S : (Z -> list Z) -> list (Z * list Z) -> Prop) s b v Q d :
  core d m c h -> 0 <= s < sector_count dev -> slice b 0 (sector_size dev) = v ->
  let m' := apply_writes (c ++ [(s, v)]) m in
  S m c -> S m (c ++ [(s, v)]) -> S m' [] ->
  (forall d', core d' m' [] h -> Q 0 d') -> (forall m'' c'' d', core d' m'' c'' h -> S m'' c'' -> Q (-1) d') ->
  wp (or_else (wr dev s b) (flush dev)) Q (fun d' => S (media d') (cache d')) d.
Proof.
  intros Hd Hs <- m' S1 S2 S3 H0 H1. assert (HC : forall m'' c'' d', core d' m'' c'' h -> S m'' c'' -> S (media d') (cache d')).
  { by intros m'' c'' d' (-> & -> & _). }
  apply wp_or_else. apply wp_wr; [done|done|by eapply HC|..]; [|intros d' [Hc|Hc]; by eapply H1].
  intros d' Hc. change (truthy 0) with false. cbv iota. destruct Hc as (Em & Ec & Eh). unfold wp. rewrite flush_run.
  unfold view. rewrite Em, Ec. destruct (fate d') as [|[|[]] fl]; [congruence|..].
  - apply H0. done.
  - eapply (H1 m' []); done.
  - eapply (H1 m); [split; [done|split; [reflexivity|done]]|done].
Qed.
End Rules.

(** A disk that will carry out its next [k] requests. *)
Definition ready (d : disk) (m : Z -> list Z) (c : list (Z * list Z)) (k : nat) : Prop :=
  media d = m /\ cache d = c /\ fate d = replicate k Done.

Section ReadyRules.
Context (dev : rix_block_device_t) (Hdev : dev_ok dev) (m : Z -> list Z) (c : list (Z * list Z)) (k : nat).

Lemma wp_wr_ready s b Q C d :
  ready d m c (S k) -> 0 <= s < sector_count dev ->
  (forall d', ready d' m (c ++ [(s, slice b 0 (sector_size dev))]) k -> Q 0 d') -> wp (wr dev s b) Q C d.
Proof. intros (<- & <- & E) Hs H. unfold wp. rewrite wr_run, E by done. by apply H. Qed.

Lemma wp_flush_ready Q C d :
  ready d m c (S k) -> (forall d', ready d' (apply_writes c m) [] k -> Q 0 d') -> wp (flush dev) Q C d.
Proof. intros (<- & <- & E) H. unfold wp. rewrite flush_run, E by done. by apply H. Qed.

Lemma wp_rd_ready s b Q C d :
  ready d m c (S k) -> 0 <= s < sector_count dev ->
  (forall d', ready d' m c k -> Q (0, apply_writes c m s ++ drop (length (apply_writes c m s)) b) d') -> wp (rd dev s b) Q C d.
Proof. intros (<- & <- & E) Hs H. unfold wp. rewrite rd_run, E by done. by apply H. Qed.

Lemma wp_free_ready a {A} (x : A) Q C d :
  ready d m c k -> (forall d', Q x d') -> wp (W := disk) (pmm_free_page a ≫= fun _ => mret x) Q C d.
Proof. intros _ H. apply H. Qed.
End ReadyRules.

(** ** One journalled sector *)

Lemma apply_snoc l s v m : apply_writes (l ++ [(s, v)]) m = upd (apply_writes l m) s v.
Proof. unfold apply_writes. by rewrite foldl_app. Qed.

Lemma apply_untouched l m s : Forall (fun w => fst w <> s) l -> apply_writes l m s = m s.
Proof.
  induction l as [|[s' v] l IH] using rev_ind; intros H; [done|]. rewrite apply_snoc. rewrite Forall_app in H. destruct H as [H1 H2].
  rewrite Forall_singleton in H2. cbn in H2. unfold upd. destruct (s =? s') eqn:E; bool_to_prop; [congruence|]. by apply IH.
Qed.

Lemma sublist_snoc {A} (l c : list A) w : l `sublist_of` c ++ [w] -> l `sublist_of` c \/ exists l', l = l' ++ [w] /\ l' `sublist_of` c.
Proof.
  intros H. apply sublist_app_r in H as (l1 & l2 & -> & H1 & H2). apply sublist_cons_r in H2 as [H2|(l3 & -> & H2)];
    apply sublist_nil_r in H2 as ->; [left; by rewrite app_nil_r|right; by exists l1].
Qed.

Lemma slice_all (l : list Z) n : Z.of_nat (length l) = n -> slice l 0 n = l.
Proof.
  intros H. pose proof (length_slice l 0 n ltac:(lia)). apply list_ext_aget; [lia|]. intros i Hi. rewrite aget_slice by lia. f_equal.
Qed.

Section OneSector.
Context (f : rixfs_t) (target : Z) (data : list Z).

Abbreviation ss := (sector_size (device f)).
Abbreviation js := (journal_sector (super f)).
Definition new_seq : Z := journal_generation (super f) + 1.
Definition new_sector : list Z := take (Z.to_nat ss) data.
Definition record : list Z := journal_header ss target new_seq (hash64 new_sector ss).

(** A mounted file system whose journal region lies on the device. *)
Definition fs_ok : Prop :=
  dev_ok (device f) /\ mounted f = true /\ total_sectors (super f) = sector_count (device f) /\
  2 <= journal_sectors (super f) /\ 0 <= js /\ js + journal_sectors (super f) <= total_sectors (super f) /\
  0 <= journal_generation (super f) /\ journal_generation (super f) + 1 < 2 ^ 64.

Definition target_ok : Prop :=
  0 <= target < total_sectors (super f) /\ ~ (js <= target < js + journal_sectors (super f)) /\ ss <= Z.of_nat (length data).

(** No record in the journal: replay leaves the disk alone. *)
Definition clear (s : list Z) : Prop :=
  Z.of_nat (length s) = ss /\ load64 s 0 <> RIXFS_JOURNAL_TX_MAGIC /\ load64 s 0 <> RIXFS_JOURNAL_MAGIC.

Definition outside (x : Z) : Prop := x <> js /\ x <> js + 1.

(** Images that recovery turns into [base], or into [base] with the new sector. *)
Definition recoverable (base img : Z -> list Z) : Prop :=
  (clear (img js) /\ forall x, outside x -> img x = base x) \/
  (clear (img js) /\ forall x, outside x -> img x = upd base target new_sector x) \/
  (img js = record /\ img (js + 1) = new_sector /\ forall x, outside x -> x <> target -> img x = base x).

Context (Hfs : fs_ok) (Htg : target_ok).

Lemma len_new_sector : Z.of_nat (length new_sector) = ss.
Proof. destruct Hfs as ((_ & _ & ? & _) & _), Htg as (_ & _ & ?). unfold new_sector. rewrite length_take. lia. Qed.

Lemma len_record : Z.of_nat (length record) = ss.
Proof. destruct Hfs as ((_ & _ & ? & _) & _). apply length_journal_header. lia. Qed.

Lemma len_zeros : Z.of_nat (length (zeros ss)) = ss.
Proof. destruct Hfs as ((_ & _ & ? & _) & _). unfold zeros. rewrite length_replicate. lia. Qed.

Lemma clear_zeros : clear (zeros ss).
Proof.
  destruct Hfs as ((_ & _ & ? & _) & _). split; [apply len_zeros|]. rewrite zeros_clear by lia. done.
Qed.

(** *** Power loss while writing *)

Context (m0 : Z -> list Z) (c0 : list (Z * list Z)).
Context (Hclear : clear (m0 js)) (Hc0 : Forall (fun w => fst w <> js) c0).

Definition is_image (m : Z -> list Z) (c : list (Z * list Z)) (img : Z -> list Z) : Prop :=
  exists l, l `sublist_of` c /\ forall s, img s = apply_writes l m s.

Definition good (img : Z -> list Z) : Prop := exists base, is_image m0 c0 base /\ recoverable base img.

Definition safe (m : Z -> list Z) (c : list (Z * list Z)) : Prop := forall img, is_image m c img -> good img.

Lemma safe_nil m : (forall img, (forall s, img s = m s) -> good img) -> safe m [].
Proof. intros H img (l & Hl & Hi). apply sublist_nil_r in Hl as ->. by apply H. Qed.

Lemma safe_snoc m c s v :
  safe m c -> (forall l img, l `sublist_of` c -> (forall x, img x = upd (apply_writes l m) s v x) -> good img) -> safe m (c ++ [(s, v)]).
Proof.
  intros H1 H2 img (l & Hl & Hi). apply sublist_snoc in Hl as [Hl|(l' & -> & Hl)]; [apply H1; by exists l|].
  apply (H2 l'); [done|]. intros x. by rewrite Hi, apply_snoc.
Qed.

Lemma safe_start : safe m0 c0.
Proof.
  intros img (l & Hl & Hi). exists img. split; [by exists l|]. left. split; [|done].
  rewrite Hi, apply_untouched; [done|]. rewrite Forall_forall in *. intros w Hw. apply Hc0.
  apply list_elem_of_In. apply list_elem_of_In in Hw. by eapply elem_of_sublist.
Qed.

Abbreviation full := (apply_writes c0 m0).
Abbreviation staged := (upd full (js + 1) new_sector).
Abbreviation logged := (upd staged js record).
Abbreviation applied := (upd logged target new_sector).

Lemma good_full img : recoverable full img -> good img.
Proof. intros H. exists full. split; [|done]. by exists c0. Qed.

Lemma full_js : full js = m0 js.
Proof. by apply apply_untouched. Qed.

Lemma safe_staging : safe m0 (c0 ++ [(js + 1, new_sector)]).
Proof.
  apply safe_snoc; [apply safe_start|]. intros l img Hl Hi. exists (apply_writes l m0). split; [by exists l|]. left. split.
  - rewrite Hi. unfold upd. case_if; [lia|]. rewrite apply_untouched; [done|]. rewrite Forall_forall in *. intros w Hw. apply Hc0.
    apply list_elem_of_In. apply list_elem_of_In in Hw. by eapply elem_of_sublist.
  - intros x [_ Hx]. rewrite Hi. unfold upd. by case_if.
Qed.

Lemma safe_staged : safe staged [].
Proof.
  apply safe_nil. intros img Hi. apply good_full. left. split.
  - rewrite Hi. unfold upd. case_if; [lia|]. by rewrite full_js.
  - intros x [_ Hx]. rewrite Hi. unfold upd. by case_if.
Qed.

(** Images between logging and the final clear: the record protects the target. *)
Lemma good_logged img : (forall x, x <> target -> img x = logged x) -> good img.
Proof.
  destruct Hfs as (_ & _ & _ & ? & _ & _), Htg as (_ & ? & _).
  intros Hi. apply good_full. right. right. rewrite !Hi by lia. unfold upd. rewrite !Z.eqb_refl. repeat split.
  - by case_if; [lia|].
  - intros x [Hx1 Hx2] Hx3. rewrite Hi by done. unfold upd. repeat (case_if; [lia|]). done.
Qed.

Lemma safe_logging : safe staged [(js, record)].
Proof.
  apply (safe_snoc _ []); [apply safe_staged|]. intros l img Hl Hi. apply sublist_nil_r in Hl as ->.
  apply good_logged. intros x Hx. by rewrite Hi.
Qed.

Lemma safe_logged : safe logged [].
Proof. apply safe_nil. intros img Hi. apply good_logged. intros x Hx. by rewrite Hi. Qed.

Lemma safe_applying : safe logged [(target, new_sector)].
Proof.
  apply (safe_snoc _ []); [apply safe_logged|]. intros l img Hl Hi. apply sublist_nil_r in Hl as ->.
  apply good_logged. intros x Hx. rewrite Hi. unfold upd at 1. by case_if; [lia|].
Qed.

Lemma safe_applied : safe applied [].
Proof.
  apply safe_nil. intros img Hi. apply good_logged.
  intros x Hx. rewrite Hi. unfold upd at 1. by case_if; [lia|].
Qed.

Lemma good_done img : (forall x, img x = upd applied js (zeros ss) x) -> good img.
Proof.
  destruct Hfs as (_ & _ & _ & ? & _ & _), Htg as (_ & ? & _).
  intros Hi. apply good_full. right. left. split.
  - rewrite Hi. unfold upd at 1. rewrite Z.eqb_refl. apply clear_zeros.
  - intros x [Hx1 Hx2]. rewrite Hi. unfold upd. repeat (case_if; try lia; try done).
Qed.

Lemma safe_clearing : safe applied [(js, zeros ss)].
Proof.
  apply (safe_snoc _ []); [apply safe_applied|]. intros l img Hl Hi. apply sublist_nil_r in Hl as ->. by apply good_done.
Qed.

Lemma safe_done : safe (upd applied js (zeros ss)) [].
Proof. apply safe_nil. intros img Hi. by apply good_done. Qed.

(** Whatever happens to the requests, every image left behind is recoverable,
    and a successful return has applied the update and cleared the record. *)
Lemma journal_write_wp d h :
  let written (r : Z * rixfs_t) (d' : disk) :=
    safe (media d') (cache d') /\ held d' = h /\
    (fst r = 0 -> cache d' = [] /\ clear (media d' js) /\ forall x, outside x -> media d' x = upd full target new_sector x) in
  core d m0 c0 h -> wp (journal_write f target data) written (fun d' => safe (media d') (cache d')) d.
Proof.
  intros written Hd. pose proof Hfs as (Hdev & Hmnt & Htot & Hjs2 & Hjs0 & Hjsl & Hg0 & Hg1). pose proof Htg as (Ht1 & Ht2 & Ht3).
  assert (Hbig : total_sectors (super f) < 2 ^ 64) by (destruct Hdev as (_ & _ & _ & ?); lia).
  assert (Hfail : forall m c d' rc (g : rixfs_t), rc <> 0 -> core d' m c (h + 1) -> safe m c ->
    wp (W := disk) (pmm_free_page 4096 ≫= fun _ => mret (rc, g)) written (fun d' => safe (media d') (cache d')) d').
  { intros m c d' rc g Hrc Hc Hs. eapply wp_free; [exact Hc|]. intros d2 (Em & Ec & Eh). apply wp_ret.
    split; [by rewrite Em, Ec|]. split; [lia|done]. }
  unfold journal_write. rewrite Hmnt, (u64_id (js + 1)), (u64_id (journal_generation (super f) + 1)) by (unfold is_u64; lia).
  fold new_seq. fold new_sector.
  destruct (_ || _) eqn:Eg; [exfalso; cbn [negb] in Eg; bool_to_prop; repeat destruct Eg as [Eg|Eg]; bool_to_prop; lia|]. clear Eg.
  apply wp_bind. apply (wp_alloc m0 c0 h); [done|..]; intros d1 Hc1.
  { change (0 =? 0) with true. apply wp_ret. destruct Hc1 as (Em & Ec & Eh). unfold written. rewrite Em, Ec. split; [apply safe_start|done]. }
  change (4096 =? 0) with false. cbv iota.
  apply wp_bind. eapply (wp_wr_flush _ Hdev); [exact Hc1|lia|apply slice_all, len_new_sector|apply safe_start|apply safe_staging
    |rewrite apply_snoc; apply safe_staged|..|intros; by eapply Hfail].
  rewrite apply_snoc. intros d2 Hc2. change (truthy 0) with false. cbv iota. fold record.
  apply wp_bind. eapply (wp_wr_flush _ Hdev); [exact Hc2|lia|apply slice_all, len_record|apply safe_staged|apply safe_logging
    |apply safe_logged|..|intros; by eapply Hfail].
  intros d3 Hc3. change (truthy 0) with false. cbv iota.
  apply wp_bind. eapply (wp_wr_flush _ Hdev); [exact Hc3|lia|apply slice_all, len_new_sector|apply safe_logged|apply safe_applying
    |apply safe_applied|..|intros; by eapply Hfail].
  intros d4 Hc4. change (truthy 0) with false. cbv iota.
  apply wp_bind. eapply (wp_wr_flush _ Hdev); [exact Hc4|lia|apply slice_all, len_zeros|apply safe_applied|apply safe_clearing
    |apply safe_done|..|intros; by eapply Hfail].
  intros d5 Hc5. eapply wp_free; [exact Hc5|]. intros d6 (Em & Ec & Eh). apply wp_ret. unfold written. rewrite Em, Ec.
  split; [apply safe_done|]. split; [lia|]. intros _. split; [done|]. cbn [apply_writes foldl app]. split.
  - unfold upd at 1. rewrite Z.eqb_refl. apply clear_zeros.
  - intros x [Hx1 Hx2]. unfold upd. repeat (case_if; try lia; try done).
Qed.
End OneSector.

(** ** Recovery *)

Section Recovery.
Context (f : rixfs_t) (target : Z) (data : list Z) (Hfs : fs_ok f) (Htg : target_ok f target data).
Abbreviation ss := (sector_size (device f)).
Abbreviation js := (journal_sector (super f)).
Abbreviation new := (new_sector f data).
Abbreviation rec := (record f target data).
Abbreviation recov := (recoverable f target data).

(** The file system as the next mount sees it: the journal is where it was. *)
Definition same_layout (g : rixfs_t) : Prop :=
  device g = device f /\ journal_sector (super g) = js /\ journal_sectors (super g) = journal_sectors (super f) /\
  total_sectors (super g) = total_sectors (super f).

Definition settled (base m : Z -> list Z) : Prop :=
  clear f (m js) /\
  ((forall x, outside f x -> m x = base x) \/ (forall x, outside f x -> m x = upd base target new x)).

Context (base : Z -> list Z).

Definition restartable (m : Z -> list Z) (c : list (Z * list Z)) : Prop := forall img, is_image m c img -> recov base img.

Lemma recoverable_ext img img' : (forall x, img' x = img x) -> recov base img -> recov base img'.
Proof.
  intros E [[H1 H2]|[[H1 H2]|(H1 & H2 & H3)]]; [left|right; left|right; right]; rewrite !E.
  - split; [done|]. intros x Hx. rewrite E. auto.
  - split; [done|]. intros x Hx. rewrite E. auto.
  - split; [done|]. split; [done|]. intros x Hx. rewrite E. auto.
Qed.

Lemma restartable_nil m : recov base m -> restartable m [].
Proof. intros H img (l & Hl & Hi). apply sublist_nil_r in Hl as ->. by eapply recoverable_ext. Qed.

Lemma restartable_one m s v : recov base m -> recov base (upd m s v) -> restartable m [(s, v)].
Proof.
  intros H1 H2 img (l & Hl & Hi). apply (sublist_snoc l [] (s, v)) in Hl as [Hl|(l' & -> & Hl)]; apply sublist_nil_r in Hl as ->;
    [by apply (recoverable_ext m)|by apply (recoverable_ext (upd m s v))].
Qed.

(** The three images met while a record is replayed. *)
Lemma recov_logged m : m js = rec -> m (js + 1) = new -> (forall x, outside f x -> x <> target -> m x = base x) -> recov base m.
Proof. intros. right. by right. Qed.

Lemma recov_applied m : recov base m -> m js = rec -> recov base (upd m target new) /\ upd m target new js = rec.
Proof.
  intros Hm Hj. assert (Hne : js <> target /\ js + 1 <> target) by (destruct Hfs as (_ & _ & _ & ? & _), Htg as (_ & ? & _); lia).
  assert (Hu : upd m target new js = rec) by (unfold upd; case_if; [lia|done]). split; [|done].
  assert (Hcl : ~ clear f rec).
  { intros (_ & _ & H). destruct Hfs as ((_ & _ & ? & _) & _ & _ & _ & _ & ? & ? & ?).
    destruct (header_fields ss target (new_seq f) (hash64 new ss)) as (E & _); try lia;
      [destruct Htg as (? & _); unfold is_u64; destruct Hfs as ((_ & _ & _ & ?) & _ & ? & _); lia|unfold is_u64, new_seq; lia|apply hash64_u64|].
    unfold record in H. by rewrite E in H. }
  destruct Hm as [[H1 _]|[[H1 _]|(_ & H2 & H3)]]; [by rewrite Hj in H1|by rewrite Hj in H1|].
  apply recov_logged; [done|unfold upd; case_if; [lia|done]|]. intros x Hx Hne'. unfold upd. case_if; [lia|]. by apply H3.
Qed.

Lemma settled_cleared m :
  (forall x, outside f x -> x <> target -> m x = base x) -> settled base (upd (upd m target new) js (zeros ss)).
Proof.
  intros H. split.
  - unfold upd. rewrite Z.eqb_refl. by eapply clear_zeros.
  - right. intros x [Hx1 Hx2]. unfold upd. repeat (case_if; try lia; try done). by apply H.
Qed.

Lemma settled_recov m : settled base m -> recov base m.
Proof. intros [H [H'|H']]; [by left|right; by left]. Qed.

Lemma record_fields :
  load64 rec 0 = RIXFS_JOURNAL_MAGIC /\ load64 rec 8 = target /\ load64 rec 16 = new_seq f /\ load64 rec 32 = hash64 new ss /\
  new_seq f <> 0 /\ Z.of_nat (length rec) = ss.
Proof.
  pose proof (len_record f target data Hfs) as Hl. destruct Hfs as ((_ & _ & ? & ?) & _ & ? & _ & _ & ? & ? & ?), Htg as (? & _).
  destruct (header_fields ss target (new_seq f) (hash64 new ss)) as (E1 & E2 & E3 & E4);
    [lia|unfold is_u64; lia|unfold is_u64, new_seq; lia|apply hash64_u64|]. unfold new_seq in *. repeat split; done || lia.
Qed.

(** A sector read into the scratch page hashes and writes back as the sector. *)
Lemma page_sector (v b : list Z) : Z.of_nat (length v) = ss -> slice (v ++ b) 0 ss = v /\ hash64 (v ++ b) ss = hash64 v ss.
Proof.
  intros Hv. assert (E : take (Z.to_nat ss) (v ++ b) = v) by (rewrite <- Hv, Nat2Z.id; apply take_app_length). split.
  - pose proof (length_slice (v ++ b) 0 ss ltac:(lia)) as Hs. apply list_ext_aget; [lia|].
    intros i Hi. rewrite aget_slice, aget_app by lia. by case_if; [|lia].
  - unfold hash64. rewrite E. f_equal. rewrite <- Hv, Nat2Z.id. symmetry. apply firstn_all.
Qed.

Context (g : rixfs_t) (Hg : same_layout g).

Lemma replay_wp d m h :
  let recovered (r : Z) (d' : disk) :=
    restartable (media d') (cache d') /\ held d' = h /\ (r = 0 -> cache d' = [] /\ settled base (media d')) in
  core d m [] h -> recov base m ->
  wp (journal_replay g) recovered (fun d' => restartable (media d') (cache d')) d.
Proof.
  intros recovered Hd Hm. destruct Hg as (Hgd & Hgj & Hgn & Hgt). pose proof Hfs as (Hdev & _ & Htot & Hn & Hj0 & Hjl & _).
  assert (Hbig : sector_count (device f) < 2 ^ 64) by apply Hdev. pose proof Htg as (Ht1 & Ht2 & _).
  assert (Hend : forall m' c' d' r, core d' m' c' (h + 1) -> restartable m' c' -> (r = 0 -> c' = [] /\ settled base m') ->
    wp (W := disk) (pmm_free_page 4096 ≫= fun _ => mret r) recovered (fun d' => restartable (media d') (cache d')) d').
  { intros m' c' d' r Hc HR Hr. eapply wp_free; [exact Hc|]. intros d2 (Em & Ec & Eh). apply wp_ret. unfold recovered. rewrite Em, Ec.
    split; [done|]. split; [lia|done]. }
  pose proof (restartable_nil m Hm) as HR.
  unfold journal_replay. rewrite Hgd, Hgj, Hgn, Hgt.
  destruct (_ <? 2) eqn:E1; bool_to_prop; [lia|].
  destruct (_ || _) eqn:E2; [exfalso; bool_to_prop; destruct E2; bool_to_prop; lia|]. clear E2.
  apply wp_bind. apply (wp_alloc m [] h); [done|..]; intros d1 Hc1.
  { change (0 =? 0) with true. apply wp_ret. destruct Hc1 as (Em & Ec & Eh). unfold recovered. by rewrite Em, Ec. }
  change (4096 =? 0) with false. cbv iota.
  apply wp_bind. apply (wp_rd _ Hdev m [] (h + 1)); [done|lia|destruct Hc1 as (-> & -> & _); done|].
  intros d2 Hc2. split; [|intros b'; by eapply Hend].
  cbn [apply_writes foldl]. change (truthy 0) with false. cbv iota.
  destruct (decide (m js = rec)) as [Hrec|Hnrec].
  2: { assert (Hset : settled base m) by (destruct Hm as [[H1 H2]|[[H1 H2]|(H1 & _)]]; [split; [done|by left]|split; [done|by right]|done]).
       destruct Hset as ((Hl & Htx & Hjm) & Hset). pose proof Hdev as (_ & _ & ? & _).
       rewrite !load64_app by lia. destruct (_ =? RIXFS_JOURNAL_TX_MAGIC) eqn:E3; bool_to_prop; [done|].
       destruct (_ =? RIXFS_JOURNAL_MAGIC) eqn:E4; bool_to_prop; [done|]. cbn [negb]. eapply Hend; [exact Hc2|done|]. done. }
  destruct record_fields as (F0 & F8 & F16 & F32 & Fs & Fl). rewrite Hrec. pose proof Hdev as (_ & _ & ? & _).
  rewrite !load64_app, F0, F8, F16, F32 by lia. cbn [Z.eqb negb]. change (RIXFS_JOURNAL_MAGIC =? RIXFS_JOURNAL_TX_MAGIC) with false.
  cbv iota. change (RIXFS_JOURNAL_MAGIC =? RIXFS_JOURNAL_MAGIC) with true. cbn [negb].
  destruct (_ || _) eqn:E5; [exfalso; bool_to_prop; repeat destruct E5 as [E5|E5]; bool_to_prop; lia|]. clear E5.
  destruct Hm as [[H1 _]|[[H1 _]|(_ & Hpay & Hoff)]]; [exfalso; rewrite Hrec in H1; destruct H1 as (_ & _ & H1); by rewrite F0 in H1..|].
  pose proof (recov_logged m Hrec Hpay Hoff) as Hm. rewrite (u64_id (js + 1)) by (unfold is_u64; lia).
  apply wp_bind. apply (wp_rd _ Hdev m [] (h + 1)); [done|lia|destruct Hc2 as (-> & -> & _); done|].
  intros d3 Hc3. split; [|intros b'; apply wp_bind, wp_ret; by eapply Hend].
  cbn [apply_writes foldl]. change (truthy 0) with false. cbv iota. rewrite Hpay.
  destruct (page_sector new (drop (length new) (rec ++ drop (length rec) (zeros RIXFS_PAGE_SIZE)))) as [Es Eh];
    [by apply len_new_sector with target|]. rewrite Eh, Z.eqb_refl. cbn [negb].
  destruct (recov_applied m Hm Hrec) as [Hm2 Hrec2].
  assert (Hset : settled base (upd (upd m target new) js (zeros ss))) by (by apply settled_cleared).
  apply wp_bind. eapply (wp_wr_flush _ Hdev m [] (h + 1)); [exact Hc3|lia|exact Es|done|by apply restartable_one|by apply restartable_nil|..];
    [|intros; by eapply Hend].
  intros d4 Hc4. change (truthy 0) with false. cbv iota.
  apply wp_bind. eapply (wp_wr_flush _ Hdev); [exact Hc4|lia|apply slice_all; by eapply len_zeros|by apply restartable_nil
    |apply restartable_one; [done|by apply settled_recov]|by apply restartable_nil, settled_recov|..];
    [|intros; by eapply Hend].
  intros d5 Hc5. eapply Hend; [exact Hc5|by apply restartable_nil, settled_recov|done].
Qed.

(** Six requests carried out are enough for the replay to finish. *)
Lemma replay_completes d m k l :
  ready d m [] (6 + k) -> pages d = true :: l -> recov base m ->
  wp (journal_replay g) (fun r _ => r = 0) (fun _ => False) d.
Proof.
  intros Hd Hp Hm. destruct Hg as (Hgd & Hgj & Hgn & Hgt). pose proof Hfs as (Hdev & _ & Htot & Hn & Hj0 & Hjl & _).
  assert (Hbig : sector_count (device f) < 2 ^ 64) by apply Hdev. pose proof Htg as (Ht1 & Ht2 & _). pose proof Hdev as (_ & _ & Hss & _).
  unfold journal_replay. rewrite Hgd, Hgj, Hgn, Hgt.
  destruct (_ <? 2) eqn:E1; bool_to_prop; [lia|].
  destruct (_ || _) eqn:E2; [exfalso; bool_to_prop; destruct E2; bool_to_prop; lia|]. clear E2.
  apply wp_bind. unfold wp at 1. cbn [pmm_alloc_page disk_machine]. unfold disk_alloc. rewrite Hp. change (4096 =? 0) with false. cbv iota.
  apply wp_bind. eapply (wp_rd_ready _ Hdev m [] (5 + k)); [exact Hd|lia|]. intros d2 Hc2.
  cbn [apply_writes foldl]. change (truthy 0) with false. cbv iota.
  destruct (decide (m js = rec)) as [Hrec|Hnrec].
  2: { assert (Hset : clear f (m js)) by (destruct Hm as [[H1 H2]|[[H1 H2]|(H1 & _)]]; done). destruct Hset as (Hl & Htx & Hjm).
       rewrite !load64_app by lia. destruct (_ =? RIXFS_JOURNAL_TX_MAGIC) eqn:E3; bool_to_prop; [done|].
       destruct (_ =? RIXFS_JOURNAL_MAGIC) eqn:E4; bool_to_prop; [done|]. cbn [negb]. by eapply wp_free_ready. }
  destruct record_fields as (F0 & F8 & F16 & F32 & Fs & Fl). rewrite Hrec.
  rewrite !load64_app, F0, F8, F16, F32 by lia. change (RIXFS_JOURNAL_MAGIC =? RIXFS_JOURNAL_TX_MAGIC) with false.
  cbv iota. change (RIXFS_JOURNAL_MAGIC =? RIXFS_JOURNAL_MAGIC) with true. cbn [negb].
  destruct (_ || _) eqn:E5; [exfalso; bool_to_prop; repeat destruct E5 as [E5|E5]; bool_to_prop; lia|]. clear E5.
  destruct Hm as [[H1 _]|[[H1 _]|(_ & Hpay & Hoff)]]; [exfalso; rewrite Hrec in H1; destruct H1 as (_ & _ & H1); by rewrite F0 in H1..|].
  rewrite (u64_id (js + 1)) by (unfold is_u64; lia).
  apply wp_bind. eapply (wp_rd_ready _ Hdev); [exact Hc2|lia|]. intros d3 Hc3.
  cbn [apply_writes foldl]. change (truthy 0) with false. cbv iota. rewrite Hpay.
  destruct (page_sector new (drop (length new) (rec ++ drop (length rec) (zeros RIXFS_PAGE_SIZE)))) as [Es Eh];
    [by apply len_new_sector with target|]. rewrite Eh, Z.eqb_refl. cbn [negb].
  apply wp_bind, wp_or_else. eapply (wp_wr_ready _ Hdev); [exact Hc3|lia|]. intros d4 Hc4. change (truthy 0) with false. cbv iota.
  eapply (wp_flush_ready _ Hdev); [exact Hc4|]. intros d5 Hc5. change (truthy 0) with false. cbv iota.
  apply wp_bind, wp_or_else. eapply (wp_wr_ready _ Hdev); [exact Hc5|lia|]. intros d6 Hc6. change (truthy 0) with false. cbv iota.
  eapply (wp_flush_ready _ Hdev); [exact Hc6|]. intros d7 Hc7. by eapply wp_free_ready.
Qed.
End Recovery.

(** ** Crash atomicity *)

(** Restarting from an image: replay runs to completion, or fails or loses
    power and is run again on whatever it left. *)
Inductive reboots (g : rixfs_t) : (Z -> list Z) -> (Z -> list Z) -> Prop :=
  | reboots_done w w' : cache w = [] -> journal_replay g w = (w', Some 0) -> reboots g (media w) (media w')
  | reboots_again w w' r img fin :
      cache w = [] -> journal_replay g w = (w', r) -> crash_image w' img -> reboots g img fin -> reboots g (media w) fin.

Lemma reboots_settles f target data g base img fin :
  fs_ok f -> target_ok f target data -> same_layout f g -> recoverable f target data base img -> reboots g img fin ->
  settled f target data base fin.
Proof.
  intros Hfs Htg Hg Hr Hb. induction Hb as [w w' Hc E|w w' r img fin Hc E Himg Hb IH].
  - pose proof (replay_wp f target data Hfs Htg base g Hg w (media w) (held w) (conj eq_refl (conj Hc eq_refl)) Hr) as H.
    unfold wp in H. rewrite E in H. by apply H.
  - apply IH. pose proof (replay_wp f target data Hfs Htg base g Hg w (media w) (held w) (conj eq_refl (conj Hc eq_refl)) Hr) as H.
    unfold wp in H. rewrite E in H. destruct r as [r|]; [destruct H as [H _]|]; exact (H img Himg).
Qed.

Lemma journal_write_images f target data w w' r img :
  fs_ok f -> target_ok f target data -> clear f (media w (journal_sector (super f))) ->
  Forall (fun x => fst x <> journal_sector (super f)) (cache w) ->
  journal_write f target data w = (w', r) -> crash_image w' img ->
  exists base, crash_image w base /\ recoverable f target data base img.
Proof.
  intros Hfs Htg Hcl Hc E Himg.
  pose proof (journal_write_wp f target data Hfs Htg (media w) (cache w) Hcl Hc w (held w) (conj eq_refl (conj eq_refl eq_refl))) as H.
  unfold wp in H. rewrite E in H. destruct r as [r|]; [destruct H as [H _]|]; exact (H img Himg).
Qed.


(** C26: recovery terminates. When the journal holds no record on the medium or in the
    device's cache, then after any interruption of one [journal_write] (any crash image of the
    disk it leaves) a mount that gets a scratch page and six carried-out disk
    requests completes its replay with code 0. The empty journal is needed: a call
    that fails with -5 leaves its record behind, and the next one overwrites the payload
    under that record. *)
Theorem journal_recovery_completes f target data g w w' r img v k
    (Hfs : fs_ok f) (Htg : target_ok f target data) (Hg : same_layout f g)
    (Hclear : clear f (media w (journal_sector (super f))))
    (Hcache : Forall (fun x => fst x <> journal_sector (super f)) (cache w))
    (Hrun : journal_write f target data w = (w', r)) (Himg : crash_image w' img)
    (Hv : ready v img [] (6 + k)) (Hp : head (pages v) = Some true) :
  ∃ v', journal_replay g v = (v', Some 0).
Proof.
  destruct (journal_write_images f target data w w' r img Hfs Htg Hclear Hcache Hrun Himg) as (base & Hb & Hr).
  destruct (pages v) as [|b l] eqn:E; [discriminate|]. injection Hp as ->.
  pose proof (replay_completes f target data Hfs Htg base g Hg v img k l Hv E Hr) as H. unfold wp in H.
  destruct (journal_replay g v) as [v' [rc|]]; [|done]. subst rc. by exists v'.
Qed.

(** *** A concrete file system *)

Definition demo_super : rixfs_superblock_t :=
  {| magic := 0; version := 1; header_size := 512; sb_sector_size := 512; flags := 0; total_sectors := 128; inode_table_sector := 1;
     inode_count := 8; data_start_sector := 21; root_inode := 1; generation := 1; checksum_field := 0; bitmap_sector := 3;
     bitmap_sectors := 1; journal_sector := 4; journal_sectors := 17; free_hint := 21; journal_generation := 0 |}.
Definition demo_fs : rixfs_t :=
  {| device := {| sector_size := 512; sector_count := 128; max_sectors := 8; has_submit := true |}; super := demo_super;
     mounted := true; meta_hint := 0 |}.
Definition demo_disk (fl : list outcome) : disk :=
  {| media := fun _ => zeros 512; cache := []; fate := fl; pages := repeat true 4; held := 0 |}.
Definition ones : list Z := replicate 512 1.

Lemma demo_fs_ok : fs_ok demo_fs.
Proof. unfold fs_ok, dev_ok, RIXFS_PAGE_SIZE. cbn. repeat split; lia. Qed.

Lemma demo_target_ok : target_ok demo_fs 30 ones.
Proof. unfold target_ok. cbn. repeat split; lia. Qed.

Lemma demo_clear : clear demo_fs (zeros 512).
Proof. apply (clear_zeros demo_fs demo_fs_ok). Qed.

(** Power is lost right after the record reached the medium. *)
Definition interrupted : disk := fst (journal_write demo_fs 30 ones (demo_disk (repeat Done 4))).
Definition restarted : disk := {| media := media interrupted; cache := []; fate := repeat Done 6; pages := [true]; held := 0 |}.


Lemma journal_recovery_completes_witness : ∃ v', journal_replay demo_fs restarted = (v', Some 0).
Proof.
  assert (E : snd (journal_write demo_fs 30 ones (demo_disk (repeat Done 4))) = None) by (vm_compute; reflexivity).
  refine (journal_recovery_completes demo_fs 30 ones demo_fs (demo_disk (repeat Done 4)) interrupted None (media interrupted) restarted 0
    demo_fs_ok demo_target_ok _ demo_clear _ _ _ _ eq_refl).
  - split; [|split; [|split]]; reflexivity.
  - constructor.
  - rewrite <- E. apply surjective_pairing.
  - exists []. split; [apply sublist_nil_l|]. done.
  - split; [|split]; reflexivity.
Defined.

(** ** Transactions are not atomic *)

(** A disk whose transaction record is durable while its second payload is not
    the one recorded. *)
Section Stuck.
Context (f : rixfs_t) (r p0 p1 : list Z) (t0 s0 t1 s1 : Z).
Abbreviation ss := (sector_size (device f)).
Abbreviation js := (journal_sector (super f)).
Abbreviation n := (journal_sectors (super f)).
Abbreviation page := (r ++ drop (length r) (zeros RIXFS_PAGE_SIZE)).
Abbreviation count := (load32 page 16).

Context (Hfs : fs_ok f) (Hn : 3 <= n).
Context (Hmagic : load64 page 0 = RIXFS_JOURNAL_TX_MAGIC) (Hcount : count = 2) (Hss : 24 + 2 * 16 <= ss).
Context (Hentries : tx_entries f page 0 2 = Some [(t0, s0); (t1, s1)]).
Context (Hl0 : Z.of_nat (length p0) = ss) (Hl1 : Z.of_nat (length p1) = ss) (Ht0 : 0 <= t0 < total_sectors (super f)).
Context (Hout : ~ js <= t0 < js + n) (Hs0 : hash64 p0 ss = s0) (Hs1 : hash64 p1 ss <> s1).

Definition stuck (m : Z -> list Z) : Prop := m js = r /\ m (js + 1) = p0 /\ m (js + 2) = p1.

Lemma stuck_images m c : stuck m -> (c = [] \/ c = [(t0, p0)]) -> forall img, is_image m c img -> stuck img.
Proof.
  intros (H4 & H5 & H6) Hc img (l & Hl & Hi). assert (Hun : Forall (fun w : Z * list Z => fst w = t0) l).
  { destruct Hc as [->| ->]; [apply sublist_nil_r in Hl as ->; constructor|].
    apply (sublist_snoc l [] (t0, p0)) in Hl as [Hl|(l' & -> & Hl)]; apply sublist_nil_r in Hl as ->; repeat constructor. }
  assert (Hs : forall s, s <> t0 -> img s = m s).
  { intros s Hs. rewrite Hi. apply apply_untouched. eapply Forall_impl; [|exact Hun]. cbn. intros w Hw E. congruence. }
  unfold stuck. rewrite !Hs by lia. done.
Qed.

Lemma stuck_replay m d h :
  core d m [] h -> stuck m ->
  wp (journal_replay f) (fun r d' => r <> 0 /\ forall img, crash_image d' img -> stuck img)
    (fun d' => forall img, crash_image d' img -> stuck img) d.
Proof.
  intros Hd Hst. pose proof Hfs as (Hdev & _ & Htot & Hj & Hj0 & Hjl & _). pose proof Hst as (H4 & H5 & H6).
  assert (Hbig : sector_count (device f) < 2 ^ 64) by apply Hdev.
  assert (Hany : forall c d' h', core d' m c h' -> (c = [] \/ c = [(t0, p0)]) -> forall img, crash_image d' img -> stuck img).
  { intros c d' h' (Em & Ec & _) Hc img Himg. unfold crash_image in Himg. rewrite Em, Ec in Himg. by eapply stuck_images. }
  assert (Hend : forall c d' r, r <> 0 -> core d' m c (h + 1) -> (c = [] \/ c = [(t0, p0)]) ->
    wp (W := disk) (pmm_free_page 4096 ≫= fun _ => mret r) (fun r d' => r <> 0 /\ forall img, crash_image d' img -> stuck img)
      (fun d' => forall img, crash_image d' img -> stuck img) d').
  { intros c d' rc Hr Hc Hcc. eapply wp_free; [exact Hc|]. intros d2 Hc2. apply wp_ret. split; [done|]. by eapply Hany. }
  unfold journal_replay. destruct (n <? 2) eqn:E1; bool_to_prop; [lia|].
  destruct (_ || _) eqn:E2; [exfalso; bool_to_prop; destruct E2; bool_to_prop; lia|]. clear E2.
  apply wp_bind. apply (wp_alloc m [] h); [done|..]; intros d1 Hc1.
  { change (0 =? 0) with true. apply wp_ret. split; [lia|]. eapply Hany; [exact Hc1|by left]. }
  change (4096 =? 0) with false. cbv iota.
  apply wp_bind. apply (wp_rd _ Hdev m [] (h + 1)); [done|lia|eapply Hany; [exact Hc1|by left]|].
  intros d2 Hc2. split; [|intros b'; eapply Hend; [lia|exact Hc2|by left]].
  cbn [apply_writes foldl]. rewrite H4, Hmagic, Hcount, Z.eqb_refl. change (truthy 0) with false. cbv iota.
  destruct (_ || _) eqn:E3; [exfalso; unfold RIXFS_JOURNAL_TX_MAX_ENTRIES in E3; bool_to_prop; repeat destruct E3 as [E3|E3]; bool_to_prop; lia|].
  clear E3. change (Z.to_nat 2) with 2%nat. rewrite Hentries.
  apply wp_bind. cbn [tx_copy]. apply wp_bind. rewrite (u64_id (js + 1 + 0)), (u64_id (js + 1 + (0 + 1))) by (unfold is_u64; lia).
  apply (wp_rd _ Hdev m [] (h + 1)); [done|lia|eapply Hany; [exact Hc2|by left]|].
  intros d3 Hc3. split; [|intros b'; apply wp_ret; eapply Hend; [lia|exact Hc3|by left]].
  cbn [apply_writes foldl]. rewrite Z.add_0_r, H5. change (truthy 0) with false. cbv iota.
  destruct (page_sector f p0 (drop (length p0) page) Hl0) as [Es Eh]. rewrite Eh, Hs0, Z.eqb_refl. cbn [negb].
  apply wp_bind. apply (wp_wr _ Hdev m [] (h + 1)); [done|lia|eapply Hany; [exact Hc3|by left]|..]; rewrite Es.
  2: { intros d4 [Hc4|Hc4]; apply wp_ret; (eapply Hend; [lia|exact Hc4|]); [by left|by right]. }
  intros d4 Hc4. change (truthy 0) with false. cbv iota. apply wp_bind.
  apply (wp_rd _ Hdev m [(t0, p0)] (h + 1)); [done|lia|eapply Hany; [exact Hc4|by right]|].
  intros d5 Hc5. split; [|intros b'; apply wp_ret; eapply Hend; [lia|exact Hc5|by right]].
  replace (js + 1 + (0 + 1)) with (js + 2) by lia.
  rewrite (apply_untouched [(t0, p0)] m (js + 2)), H6 by (repeat constructor; cbn; lia). change (truthy 0) with false. cbv iota.
  destruct (page_sector f p1 (drop (length p1) (p0 ++ drop (length p0) page)) Hl1) as [_ Ez]. rewrite Ez.
  destruct (_ =? s1) eqn:E4; bool_to_prop; [done|]. apply wp_ret. eapply Hend; [lia|exact Hc5|by right].
Qed.

Lemma stuck_forever img fin : stuck img -> reboots f img fin -> False.
Proof.
  intros Hs Hb. induction Hb as [w w' Hc E|w w' rc img fin Hc E Himg Hb IH];
    pose proof (stuck_replay (media w) w (held w) (conj eq_refl (conj Hc eq_refl)) Hs) as H; unfold wp in H; rewrite E in H.
  - by destruct H.
  - apply IH. destruct rc as [rc|]; [destruct H as [_ H]|]; by apply H.
Qed.
End Stuck.

Definition demo_changes : list rixfs_rename_change_t := [{| ch_sector := 30; ch_data := ones |}; {| ch_sector := 40; ch_data := ones |}].
Definition demo_record : list Z := tx_header 512 1 demo_changes.

Lemma demo_stuck_forever img fin : stuck demo_fs demo_record ones (zeros 512) img -> reboots demo_fs img fin -> False.
Proof.
  apply (stuck_forever demo_fs demo_record ones (zeros 512) 30 (hash64 ones 512) 40 (hash64 ones 512)); [exact demo_fs_ok|..];
    try (vm_compute; reflexivity); cbn; lia || (intros H; vm_compute in H; discriminate H) || idtac.
Qed.

(** A multi-sector journal transaction is not atomic. The record goes out
    before its payloads, so power lost between them leaves a record whose payload
    does not match: from that image no sequence of restarts ever completes a
    replay, and a replay that runs without a fault still overwrites the first
    target, leaving the second one old. *)
Theorem transaction_not_atomic :
  ∃ w' img, journal_write_transaction demo_fs demo_changes (demo_disk [Done; Done; Done]) = (w', None) ∧ crash_image w' img ∧
    (∀ fin, ~ reboots demo_fs img fin) ∧
    ∃ v', journal_replay demo_fs {| media := img; cache := []; fate := repeat Done 8; pages := [true]; held := 0 |} = (v', Some (-6)) ∧
      view v' 30 = ones ∧ view v' 40 = zeros 512.
Proof.
  set (run := journal_write_transaction demo_fs demo_changes (demo_disk [Done; Done; Done])).
  assert (E : snd run = None) by (vm_compute; reflexivity).
  exists (fst run), (view (fst run)). split; [rewrite <- E; apply surjective_pairing|].
  split; [exists (cache (fst run)); split; done|]. split.
  - intros fin. red. apply demo_stuck_forever. split; [|split]; vm_compute; reflexivity.
  - set (rep := journal_replay demo_fs _). assert (Er : snd rep = Some (-6)) by (vm_compute; reflexivity).
    exists (fst rep). split; [rewrite <- Er; apply surjective_pairing|]. split; vm_compute; reflexivity.
Qed.
