(* ===== verification/RixInode.v ===== *)
(** * The on-disk structures of RixFS ([kernel/fs/rixfs.h], [kernel/fs/rixfs_dir.h])

    Inodes, access lists, directory entries and the superblock, with the bytes of the
    packed structures. *)
From stdpp Require Import base tactics list numbers.
From S2P Require Import Prelude Bytes Block Journal.

Abbreviation len l := (Z.of_nat (length l)).

Definition RIXFS_MAGIC : Z := 0x5249584653465331.
Definition RIXFS_VERSION : Z := 1.
Definition RIXFS_BLOCK_SECTOR : Z := 0.
Definition RIXFS_INODE_SIZE : Z := 128.
Definition RIXFS_NAME_MAX : Z := 255.
Definition RIXFS_DIRECT_EXTENTS : Z := 4.
Definition RIXFS_SECTOR_MAX : Z := 4096.
Definition RIXFS_MIN_HEADER : Z := 64.
Definition RIXFS_IFMT : Z := 0xF000.
Definition RIXFS_IFLNK : Z := 0xA000.
Definition RIXFS_IFREG : Z := 0x8000.
Definition RIXFS_IFDIR : Z := 0x4000.
Definition RIXFS_SYMLINK_TARGET_MAX : Z := 1024.
Definition RIXFS_ACL_VERSION : Z := 1.
Definition RIXFS_ACL_NONE : Z := UINT32_MAX.
Definition RIXFS_ACL_PERM_MASK : Z := 7.
Definition RIXFS_INODE_FLAG_ACL : Z := 1.
Definition RIXFS_DIR_TYPE_DIR : Z := 1.
Definition RIXFS_DIR_TYPE_FILE : Z := 2.
Definition RIXFS_DIR_TYPE_SYMLINK : Z := 3.
Definition RIXFS_DIRENT_MIN_SIZE : Z := 16.

Record rixfs_inode_disk_t := {
  in_inode : Z; in_mode : Z; in_uid : Z; in_gid : Z; in_flags : Z; in_size : Z; in_generation : Z; in_extent_start : list Z;
  in_extent_length : list Z; in_links : Z; in_acl_user : Z; in_acl_user_perm : Z; in_acl_group : Z; in_acl_group_perm : Z; in_acl_mask : Z }.
#[export] Instance eta_inode : Eta rixfs_inode_disk_t := fun i =>
  {| in_inode := in_inode i; in_mode := in_mode i; in_uid := in_uid i; in_gid := in_gid i; in_flags := in_flags i; in_size := in_size i;
     in_generation := in_generation i; in_extent_start := in_extent_start i; in_extent_length := in_extent_length i; in_links := in_links i;
     in_acl_user := in_acl_user i; in_acl_user_perm := in_acl_user_perm i; in_acl_group := in_acl_group i;
     in_acl_group_perm := in_acl_group_perm i; in_acl_mask := in_acl_mask i |}.
Definition set_in_mode (x : Z) (i : rixfs_inode_disk_t) : rixfs_inode_disk_t := ltac:(upd i in_mode x).
Definition set_in_uid (x : Z) (i : rixfs_inode_disk_t) : rixfs_inode_disk_t := ltac:(upd i in_uid x).
Definition set_in_gid (x : Z) (i : rixfs_inode_disk_t) : rixfs_inode_disk_t := ltac:(upd i in_gid x).
Definition set_in_size (x : Z) (i : rixfs_inode_disk_t) : rixfs_inode_disk_t := ltac:(upd i in_size x).
Definition set_in_links (x : Z) (i : rixfs_inode_disk_t) : rixfs_inode_disk_t := ltac:(upd i in_links x).
Definition set_in_extents (s l : list Z) (i : rixfs_inode_disk_t) : rixfs_inode_disk_t :=
  {| in_inode := in_inode i; in_mode := in_mode i; in_uid := in_uid i; in_gid := in_gid i; in_flags := in_flags i; in_size := in_size i;
     in_generation := in_generation i; in_extent_start := s; in_extent_length := l; in_links := in_links i;
     in_acl_user := in_acl_user i; in_acl_user_perm := in_acl_user_perm i; in_acl_group := in_acl_group i;
     in_acl_group_perm := in_acl_group_perm i; in_acl_mask := in_acl_mask i |}.
Definition set_in_acl (fl u up g gp m : Z) (i : rixfs_inode_disk_t) : rixfs_inode_disk_t :=
  {| in_inode := in_inode i; in_mode := in_mode i; in_uid := in_uid i; in_gid := in_gid i; in_flags := fl; in_size := in_size i;
     in_generation := in_generation i; in_extent_start := in_extent_start i; in_extent_length := in_extent_length i; in_links := in_links i;
     in_acl_user := u; in_acl_user_perm := up; in_acl_group := g; in_acl_group_perm := gp; in_acl_mask := m |}.

Record rixfs_acl_t := { acl_version : Z; acl_user : Z; acl_user_perm : Z; acl_group : Z; acl_group_perm : Z; acl_mask : Z }.
Record rixfs_dirent_disk_t := { de_inode : Z; de_record_size : Z; de_type : Z; de_name_length : Z; de_flags : Z }.

(** An extent [e] of an inode: its first sector and its length. *)
Definition extent_start (i : rixfs_inode_disk_t) (e : Z) : Z := aget 0 (in_extent_start i) e.
Definition extent_length (i : rixfs_inode_disk_t) (e : Z) : Z := aget 0 (in_extent_length i) e.
Definition set_extent (e s l : Z) (i : rixfs_inode_disk_t) : rixfs_inode_disk_t :=
  set_in_extents (aset e s (in_extent_start i)) (aset e l (in_extent_length i)) i.

Definition zero_inode : rixfs_inode_disk_t :=
  {| in_inode := 0; in_mode := 0; in_uid := 0; in_gid := 0; in_flags := 0; in_size := 0; in_generation := 0; in_extent_start := [0; 0; 0; 0];
     in_extent_length := [0; 0; 0; 0]; in_links := 0; in_acl_user := 0; in_acl_user_perm := 0; in_acl_group := 0; in_acl_group_perm := 0; in_acl_mask := 0 |}.

(** ** The packed bytes, little-endian *)

Definition le32 (v : Z) : list Z := (fun i => u8 (Z.shiftr v (8 * i))) <$> seqZ 0 4.
Definition load16 (p : list Z) (off : Z) : Z := Z.lor (aget 0 p off) (Z.shiftl (aget 0 p (off + 1)) 8).

Definition inode_bytes (i : rixfs_inode_disk_t) : list Z :=
  le_bytes (in_inode i) ++ le32 (in_mode i) ++ le32 (in_uid i) ++ le32 (in_gid i) ++ le32 (in_flags i) ++ le_bytes (in_size i) ++ le_bytes (in_generation i) ++
  concat (le_bytes <$> in_extent_start i) ++ concat (le_bytes <$> in_extent_length i) ++ le32 (in_links i) ++ le32 (in_acl_user i) ++ le32 (in_acl_user_perm i) ++
  le32 (in_acl_group i) ++ le32 (in_acl_group_perm i) ++ le32 (in_acl_mask i).

Definition inode_of (b : list Z) (o : Z) : rixfs_inode_disk_t :=
  {| in_inode := load64 b o; in_mode := load32 b (o + 8); in_uid := load32 b (o + 12); in_gid := load32 b (o + 16); in_flags := load32 b (o + 20);
     in_size := load64 b (o + 24); in_generation := load64 b (o + 32);
     in_extent_start := (fun e => load64 b (o + 40 + 8 * e)) <$> [0; 1; 2; 3]; in_extent_length := (fun e => load64 b (o + 72 + 8 * e)) <$> [0; 1; 2; 3];
     in_links := load32 b (o + 104); in_acl_user := load32 b (o + 108); in_acl_user_perm := load32 b (o + 112); in_acl_group := load32 b (o + 116);
     in_acl_group_perm := load32 b (o + 120); in_acl_mask := load32 b (o + 124) |}.

Definition dirent_of (b : list Z) (o : Z) : rixfs_dirent_disk_t :=
  {| de_inode := load64 b o; de_record_size := load16 b (o + 8); de_type := aget 0 b (o + 10); de_name_length := aget 0 b (o + 11); de_flags := load32 b (o + 12) |}.

Definition sizeof_superblock : Z := 512.
Definition super_of (b : list Z) : rixfs_superblock_t :=
  {| magic := load64 b 0; version := load32 b 8; header_size := load32 b 12; sb_sector_size := load32 b 16; flags := load32 b 20; total_sectors := load64 b 24;
     inode_table_sector := load64 b 32; inode_count := load64 b 40; data_start_sector := load64 b 48; root_inode := load64 b 56; generation := load64 b 64;
     checksum_field := load64 b 72; bitmap_sector := load64 b 80; bitmap_sectors := load64 b 88; journal_sector := load64 b 96; journal_sectors := load64 b 104;
     free_hint := load64 b 112; journal_generation := load64 b 120 |}.
Definition super_bytes (s : rixfs_superblock_t) : list Z :=
  le_bytes (magic s) ++ le32 (version s) ++ le32 (header_size s) ++ le32 (sb_sector_size s) ++ le32 (flags s) ++ le_bytes (total_sectors s) ++
  le_bytes (inode_table_sector s) ++ le_bytes (inode_count s) ++ le_bytes (data_start_sector s) ++ le_bytes (root_inode s) ++ le_bytes (generation s) ++
  le_bytes (checksum_field s) ++ le_bytes (bitmap_sector s) ++ le_bytes (bitmap_sectors s) ++ le_bytes (journal_sector s) ++ le_bytes (journal_sectors s) ++
  le_bytes (free_hint s) ++ le_bytes (journal_generation s) ++ zeros 384.

(** What is stored is read back. *)
Definition is_inode (i : rixfs_inode_disk_t) : Prop :=
  is_u64 (in_inode i) /\ is_u64 (in_size i) /\ is_u64 (in_generation i) /\ Forall is_u64 (in_extent_start i) /\ Forall is_u64 (in_extent_length i) /\
  length (in_extent_start i) = 4%nat /\ length (in_extent_length i) = 4%nat /\
  Forall is_u32 [in_mode i; in_uid i; in_gid i; in_flags i; in_links i; in_acl_user i; in_acl_user_perm i; in_acl_group i; in_acl_group_perm i; in_acl_mask i].

Lemma length_inode_bytes i : length (in_extent_start i) = 4%nat -> length (in_extent_length i) = 4%nat -> len (inode_bytes i) = RIXFS_INODE_SIZE.
Proof.
  destruct i as [? ? ? ? ? ? ? s l]. cbn [in_extent_start in_extent_length]. intros Hs Hl. destruct s as [|s0 [|s1 [|s2 [|s3 [|]]]]]; try done. destruct l as [|l0 [|l1 [|l2 [|l3 [|]]]]]; done.
Qed.

Lemma load32_bytes p off v : is_u32 v -> 0 <= off -> (forall i, 0 <= i < 4 -> aget 0 p (off + i) = u8 (Z.shiftr v (8 * i))) -> load32 p off = v.
Proof.
  intros Hv Ho Hb. unfold load32. rewrite <- (Z.add_0_r off) at 1. rewrite !Hb by lia. rewrite <- (Z.shiftl_0_r (u8 (Z.shiftr v (8 * 0)))).
  apply Z.bits_inj'. intros n Hn. rewrite !Z.lor_spec. change (8 * 0) with 0. change (8 * 1) with 8. change (8 * 2) with 16. change (8 * 3) with 24. rewrite !byte_slot by lia.
  destruct (decide (n < 32)).
  - destruct (Z.testbit v n); rewrite ?andb_true_r, ?andb_false_r; [|done].
    destruct (decide (n < 8)), (decide (n < 16)), (decide (n < 24)); try lia;
    repeat match goal with |- context [?a <=? ?b] => destruct (Z.leb_spec a b); try lia end;
    repeat match goal with |- context [?a <? ?b] => destruct (Z.ltb_spec a b); try lia end; reflexivity.
  - rewrite (testbit_high v 32 n) by (done || lia). by rewrite !andb_false_r.
Qed.

Lemma le32_load pre v post : is_u32 v -> load32 (pre ++ le32 v ++ post) (len pre) = v.
Proof.
  intros Hv. apply load32_bytes; [done|lia|]. intros i Hi. rewrite aget_app by lia. case_if; [lia|].
  replace (len pre + i - len pre) with i by lia. assert (i = 0 \/ i = 1 \/ i = 2 \/ i = 3) as Hc by lia. repeat destruct Hc as [->|Hc]; try reflexivity. subst. reflexivity.
Qed.

Lemma load64_behind pre r k : 0 <= k -> load64 (pre ++ r) (len pre + k) = load64 r k.
Proof.
  intros Hk. unfold load64. change (seqZ 0 8) with [0; 1; 2; 3; 4; 5; 6; 7]. cbn [foldl]. rewrite !aget_app by lia. repeat (case_if; [lia|]).
  repeat match goal with |- context [len pre + k + ?i - len pre] => replace (len pre + k + i - len pre) with (k + i) by lia end. done.
Qed.
Lemma load32_behind pre r k : 0 <= k -> load32 (pre ++ r) (len pre + k) = load32 r k.
Proof.
  intros Hk. unfold load32. rewrite !aget_app by lia. repeat (case_if; [lia|]).
  repeat match goal with |- context [len pre + k + ?i - len pre] => replace (len pre + k + i - len pre) with (k + i) by lia end. by replace (len pre + k - len pre) with k by lia.
Qed.

(** A field of a structure whose bytes are known one by one. *)
Ltac stored_field :=
  let go i H := (repeat destruct H as [->|H]; try reflexivity; subst i; reflexivity) in
  lazymatch goal with
  | |- load64 _ _ = _ => apply load64_bytes; [assumption|done|]; let i := fresh "i" in let Hi := fresh "Hi" in intros i Hi;
      let H := fresh in assert (i = 0 \/ i = 1 \/ i = 2 \/ i = 3 \/ i = 4 \/ i = 5 \/ i = 6 \/ i = 7) as H by lia; go i H
  | |- load32 _ _ = _ => apply load32_bytes; [assumption|done|]; let i := fresh "i" in let Hi := fresh "Hi" in intros i Hi;
      let H := fresh in assert (i = 0 \/ i = 1 \/ i = 2 \/ i = 3) as H by lia; go i H
  end.

Lemma inode_of_behind pre r : inode_of (pre ++ r) (len pre) = inode_of r 0.
Proof.
  unfold inode_of. cbn [fmap list_fmap]. rewrite <- !Z.add_assoc. rewrite <- (Z.add_0_r (len pre)) at 1. by rewrite !load64_behind, !load32_behind by done.
Qed.

Lemma inode_roundtrip pre i post : is_inode i -> inode_of (pre ++ inode_bytes i ++ post) (len pre) = i.
Proof.
  rewrite inode_of_behind. destruct i as [a1 a2 a3 a4 a5 a6 a7 s l b1 b2 b3 b4 b5 b6]. intros (H1 & H2 & H3 & H4 & H5 & H6 & H7 & H8). cbn in H1, H2, H3, H4, H5, H6, H7, H8.
  destruct s as [|s0 [|s1 [|s2 [|s3 [|]]]]]; try done. destruct l as [|l0 [|l1 [|l2 [|l3 [|]]]]]; try done.
  repeat (apply list.Forall_cons in H4 as [? H4]). repeat (apply list.Forall_cons in H5 as [? H5]). repeat (apply list.Forall_cons in H8 as [? H8]).
  unfold inode_of. cbn [fmap list_fmap Z.mul Z.add Pos.mul Pos.add]. f_equal.
  all: try stored_field.
  all: f_equal; [stored_field|f_equal; [stored_field|f_equal; [stored_field|f_equal; stored_field]]].
Qed.
