(* ===== verification/RixFs.v ===== *)
(** * RixFS: inodes, extents, sectors and file data ([kernel/fs/rixfs.c], [kernel/fs/rixfs_ops.c])

    The file system handle is the state of a monad over the block device of [Block]; a
    function returns [inl] of its error code or [inr] of its result. The page a function
    takes as a buffer is given back on every path ([with_page]). *)
From stdpp Require Import base tactics list numbers.
From S2P Require Import Prelude Bytes Block Journal RixInode.

#[export] Instance eta_super : Eta rixfs_superblock_t := fun s =>
  {| magic := magic s; version := version s; header_size := header_size s; sb_sector_size := sb_sector_size s; flags := flags s; total_sectors := total_sectors s;
     inode_table_sector := inode_table_sector s; inode_count := inode_count s; data_start_sector := data_start_sector s; root_inode := root_inode s;
     generation := generation s; checksum_field := checksum_field s; bitmap_sector := bitmap_sector s; bitmap_sectors := bitmap_sectors s;
     journal_sector := journal_sector s; journal_sectors := journal_sectors s; free_hint := free_hint s; journal_generation := journal_generation s |}.
Definition set_sb_free_hint (x : Z) (s : rixfs_superblock_t) : rixfs_superblock_t := ltac:(upd s free_hint x).
Definition set_sb_checksum (x : Z) (s : rixfs_superblock_t) : rixfs_superblock_t := ltac:(upd s checksum_field x).
#[export] Instance eta_fs : Eta rixfs_t := fun f => {| device := device f; super := super f; mounted := mounted f; meta_hint := meta_hint f |}.
Definition set_super (x : rixfs_superblock_t) (f : rixfs_t) : rixfs_t := ltac:(upd f super x).
Definition set_meta_hint (x : Z) (f : rixfs_t) : rixfs_t := ltac:(upd f meta_hint x).
Definition set_mounted (x : bool) (f : rixfs_t) : rixfs_t := ltac:(upd f mounted x).
Definition set_free_hint (x : Z) (f : rixfs_t) : rixfs_t := set_super (set_sb_free_hint x (super f)) f.

(** ** The monad *)

Definition FS (W A : Type) : Type := rixfs_t -> IO W (A * rixfs_t).
#[global] Instance FS_ret W : MRet (FS W) := fun A a f => mret (a, f).
#[global] Instance FS_bind W : MBind (FS W) := fun A B k m f => m f ≫= fun '(a, f') => k a f'.

Section Monad.
Context {W : Type}.
Definition io {A} (m : IO W A) : FS W A := fun f => m ≫= fun a => mret (a, f).
Definition handle : FS W rixfs_t := fun f => mret (f, f).
Definition set_handle (g : rixfs_t -> rixfs_t) : FS W unit := fun f => mret (tt, g f).
Definition fail {A} (e : Z) : FS W (Z + A) := mret (inl e).
Definition done {A} (a : A) : FS W (Z + A) := mret (inr a).
(** Continue with the result, or return another code. *)
Definition try {A B} (e : Z) (m : FS W (Z + A)) (k : A -> FS W (Z + B)) : FS W (Z + B) :=
  r ← m; match r with inl _ => fail e | inr a => k a end.
(** Whether a call that returns 0 for success did. *)
Definition code (m : FS W Z) : FS W (Z + unit) := rc ← m; mret (if truthy rc then inl rc else inr tt).
End Monad.

Section Operations.
Context {W : Type} `{!Machine W}.

Definition with_page {A} (e : Z) (body : FS W (Z + A)) : FS W (Z + A) :=
  q ← io pmm_alloc_page;
  if q =? 0 then fail e
  else r ← body; _ ← io (pmm_free_page q); mret r.

(** One sector, read into a fresh page. *)
Definition rd_sec (s : Z) : FS W (Z + list Z) :=
  f ← handle;
  '(rc, b) ← io (rd (device f) s (zeros (sector_size (device f))));
  mret (if truthy rc then inl rc else inr b).
Definition wr_sec (s : Z) (b : list Z) : FS W (Z + unit) := f ← handle; code (io (wr (device f) s b)).
Definition flush_dev : FS W (Z + unit) := f ← handle; code (io (flush (device f))).
Definition jwrite (s : Z) (b : list Z) : FS W (Z + unit) := code (fun f => journal_write f s b).

(** ** Inodes *)

(** [inode_location] and [inode_pos]. *)
Definition inode_location (f : rixfs_t) (ino : Z) : option (Z * Z) :=
  if negb (mounted f) || (ino =? 0) || (inode_count (super f) <? ino) then None
  else
    let x := u64 ((ino - 1) * RIXFS_INODE_SIZE) in
    let ss := sector_size (device f) in
    let o := x mod ss in
    if ss <? o + RIXFS_INODE_SIZE then None else Some (u64 (inode_table_sector (super f) + x / ss), o).

Definition rixfs_read_inode (ino : Z) : FS W (Z + rixfs_inode_disk_t) :=
  f ← handle;
  if negb (mounted f) then fail (-1)
  else match inode_location f ino with
  | None => fail (-2)
  | Some (s, off) => with_page (-3) (r ← rd_sec s; mret (match r with inl e => inl e | inr b => inr (inode_of b off) end))
  end.

Definition rixfs_write_inode (ino : Z) (i : rixfs_inode_disk_t) : FS W (Z + unit) :=
  f ← handle;
  match inode_location f ino with
  | None => fail (-1)
  | Some (s, o) => with_page (-2) (
      r ← rd_sec s;
      match r with
      | inl e => fail e
      | inr b => jwrite s (copy (Z.to_nat RIXFS_INODE_SIZE) b o (inode_bytes i) 0)
      end)
  end.

(** ** Extents *)

Definition extent_map (i : rixfs_inode_disk_t) (logical : Z) : option Z :=
  match for_ 0 RIXFS_DIRECT_EXTENTS (fun e pos =>
    let n := extent_length i e in
    if n =? 0 then inl pos
    else if pos <? n then inr (if UINT64_MAX - pos <? extent_start i e then None else Some (extent_start i e + pos))
    else inl (pos - n)) logical with
  | inl _ => None
  | inr r => r
  end.

Definition dir_sector (dir : rixfs_inode_disk_t) (logical : Z) : option Z :=
  match for_ 0 RIXFS_DIRECT_EXTENTS (fun e pos =>
    if pos <? extent_length dir e then inr (u64 (extent_start dir e + pos)) else inl (pos - extent_length dir e)) logical with
  | inl _ => None
  | inr s => Some s
  end.

Definition append_extent (i : rixfs_inode_disk_t) (s : Z) : option rixfs_inode_disk_t :=
  match for_ 0 RIXFS_DIRECT_EXTENTS (fun e (_ : unit) =>
    if truthy (extent_length i e) then
      if u64 (extent_start i e + extent_length i e) =? s then inr (set_extent e (extent_start i e) (u64 (extent_length i e + 1)) i) else inl tt
    else inr (set_extent e s 1 i)) tt with
  | inr i' => Some i'
  | inl _ =>
    match for_ 0 RIXFS_DIRECT_EXTENTS (fun e (_ : unit) =>
      if truthy (extent_length i e) && (extent_start i e =? u64 (s + 1)) then inr (set_extent e s (u64 (extent_length i e + 1)) i) else inl tt) tt with
    | inr i' => Some i'
    | inl _ => None
    end
  end.

(** ** File data *)

(** The sectors [ls] to [last] of a file, [n] of them. *)
Fixpoint io_loop (n : nat) (i : rixfs_inode_disk_t) (ls first last off size : Z) (write : bool) (buf : list Z) (pos : Z) : FS W (Z + list Z) :=
  match n with
  | O => done buf
  | S n =>
    f ← handle;
    let ss := sector_size (device f) in
    match extent_map i ls with
    | None => fail (-6)
    | Some ps =>
      if total_sectors (super f) <=? ps then fail (-6)
      else try (-7) (rd_sec ps) (fun t =>
        let b := if ls =? first then off mod ss else 0 in
        let e := if ls =? last then (off + size - 1) mod ss + 1 else ss in
        let m := e - b in
        if write then try (-8) (wr_sec ps (copy (Z.to_nat m) t b buf pos)) (fun _ => io_loop n i (ls + 1) first last off size write buf (pos + m))
        else io_loop n i (ls + 1) first last off size write (copy (Z.to_nat m) buf pos t b) (pos + m))
    end
  end.

(** The buffer after the call. *)
Definition io_file (ino off : Z) (buf : list Z) (size : Z) (write : bool) : FS W (Z + list Z) :=
  f ← handle;
  if negb (mounted f) then fail (-1)
  else if size =? 0 then done buf
  else if UINT64_MAX - size <? off then fail (-2)
  else try (-3) (rixfs_read_inode ino) (fun i =>
    if negb (in_inode i =? ino) || (in_size i <? off) || (in_size i - off <? size) then fail (-4)
    else
      let ss := sector_size (device f) in
      let first := off / ss in
      let last := (off + size - 1) / ss in
      with_page (-5) (io_loop (Z.to_nat (last - first + 1)) i first first last off size write buf 0)).

Definition rixfs_read (ino off : Z) (buf : list Z) (size : Z) : FS W (Z + list Z) := io_file ino off buf size false.
Definition rixfs_write (ino off : Z) (buf : list Z) (size : Z) : FS W (Z + unit) :=
  r ← io_file ino off buf size true; mret (match r with inl e => inl e | inr _ => inr tt end).
Definition rixfs_sync : FS W (Z + unit) := f ← handle; if negb (mounted f) then fail (-1) else flush_dev.

(** ** The bitmap *)

(** The sector and the byte of the bitmap that hold a sector's bit. *)
Definition bit_place (f : rixfs_t) (sec : Z) : option (Z * Z) :=
  let bs := sector_size (device f) in
  let x := sec / 8 in
  let bsec := u64 (bitmap_sector (super f) + x / bs) in
  if u64 (bitmap_sector (super f) + bitmap_sectors (super f)) <=? bsec then None else Some (bsec, x mod bs).
Definition bit_mask (sec : Z) : Z := Z.shiftl 1 (sec mod 8).

(** [bit]. *)
Definition set_bit (sec : Z) (set : bool) : FS W (Z + unit) :=
  f ← handle;
  if negb (mounted f) || (total_sectors (super f) <=? sec) then fail (-1)
  else match bit_place f sec with
  | None => fail (-2)
  | Some (bsec, off) => with_page (-3) (
      r ← rd_sec bsec;
      match r with
      | inl e => fail e
      | inr b =>
        let v := aget 0 b off in
        jwrite bsec (aset off (if set then Z.lor v (bit_mask sec) else Z.land v (255 - bit_mask sec)) b)
      end)
  end.

Definition bit_get (sec : Z) : FS W (Z + bool) :=
  f ← handle;
  match bit_place f sec with
  | None => fail (-1)
  | Some (bsec, off) => with_page (-2) (r ← rd_sec bsec; mret (match r with inl e => inl e | inr b => inr (truthy (Z.land (aget 0 b off) (bit_mask sec))) end))
  end.

(** ** Allocation *)

(** The first free sector of a list is taken: [inl] of a code, [inr None] if none is free. *)
Fixpoint take_first (hint : Z -> rixfs_t -> rixfs_t) (l : list Z) : FS W (Z + option Z) :=
  match l with
  | [] => done None
  | a :: l => try (-1) (bit_get a) (fun used =>
      if used then take_first hint l
      else try (-2) (set_bit a true) (fun _ => _ ← set_handle (hint a); done (Some a)))
  end.
Definition next_hint (a : Z) (f : rixfs_t) : rixfs_t := set_free_hint (u64 (a + 1)) f.

(** Try a list, then something else. *)
Definition or_take (m : FS W (Z + option Z)) (k : FS W (Z + Z)) : FS W (Z + Z) :=
  r ← m; match r with inl e => fail e | inr (Some a) => done a | inr None => k end.

Definition alloc_sec : FS W (Z + Z) :=
  f ← handle;
  let ds := data_start_sector (super f) in
  let s := if free_hint (super f) <? ds then ds else free_hint (super f) in
  or_take (take_first next_hint (seqZ s (total_sectors (super f) - s))) (
  or_take (take_first next_hint (seqZ ds (s - ds))) (fail (-3))).

(** The sectors behind and before each extent. *)
Definition neighbours (f : rixfs_t) (i : rixfs_inode_disk_t) : list Z :=
  filter (fun a => data_start_sector (super f) <= a < total_sectors (super f)) (
    flat_map (fun e => if extent_length i e =? 0 then [] else [u64 (extent_start i e + extent_length i e); u64 (extent_start i e - 1)]) (seqZ 0 RIXFS_DIRECT_EXTENTS)).

Definition alloc_sec_near (i : rixfs_inode_disk_t) : FS W (Z + Z) :=
  f ← handle; or_take (take_first next_hint (neighbours f i)) alloc_sec.

Definition alloc_sec_top (i : option rixfs_inode_disk_t) : FS W (Z + Z) :=
  f ← handle;
  if negb (mounted f) then fail (-1)
  else or_take (match i with Some i => take_first next_hint (neighbours f i) | None => done None end) (
    let total := total_sectors (super f) in
    _ ← set_handle (fun f => if (meta_hint f =? 0) || (total <? meta_hint f) then set_meta_hint total f else f);
    f ← handle;
    let ds := data_start_sector (super f) in
    let h := if meta_hint f <? u64 (ds + 1) then total else meta_hint f in
    or_take (take_first set_meta_hint (reverse (seqZ ds (h - ds)))) alloc_sec).

(** Clear the bits of a list of sectors. *)
Fixpoint clear_all (e : Z) (l : list Z) : FS W (Z + unit) :=
  match l with
  | [] => done tt
  | s :: l => try e (set_bit s false) (fun _ => clear_all e l)
  end.
Definition extent_sectors (i : rixfs_inode_disk_t) (e : Z) : list Z := (fun j => u64 (extent_start i e + j)) <$> seqZ 0 (extent_length i e).
Definition inode_sectors (i : rixfs_inode_disk_t) : list Z := flat_map (extent_sectors i) (seqZ 0 RIXFS_DIRECT_EXTENTS).
Definition free_inode_data (i : rixfs_inode_disk_t) : FS W (Z + unit) := clear_all (-1) (inode_sectors i).

(** ** Changing the size *)

(** The clean-up of [grow] when it runs out of space: the last sectors of the extents, the
    first extent first, as many as were added. *)
Definition undo_sectors (f : rixfs_t) (i : rixfs_inode_disk_t) (added : Z) : list Z :=
  take (Z.to_nat added) (filter (fun s => data_start_sector (super f) <= s) (
    flat_map (fun e => (fun j => u64 (extent_start i e + extent_length i e - 1 - j)) <$> seqZ 0 (extent_length i e)) (seqZ 0 RIXFS_DIRECT_EXTENTS))).
Fixpoint clear_each (l : list Z) : FS W unit :=
  match l with
  | [] => mret tt
  | s :: l => _ ← set_bit s false; clear_each l
  end.

Fixpoint grow_loop (n : nat) (i : rixfs_inode_disk_t) (added : Z) : FS W (Z + rixfs_inode_disk_t) :=
  match n with
  | O => done i
  | S n =>
    r ← alloc_sec_near i;
    match r with
    | inl _ => f ← handle; _ ← clear_each (undo_sectors f i added); fail (-1)
    | inr s =>
      match append_extent i s with
      | None => _ ← set_bit s false; f ← handle; _ ← clear_each (undo_sectors f i added); fail (-2)
      | Some i' => grow_loop n i' (added + 1)
      end
    end
  end.

(** Sectors for so many bytes. *)
Definition sectors_for (ss bytes : Z) : Z := u64 (bytes + ss - 1) / ss.

Definition grow (i : rixfs_inode_disk_t) (bytes : Z) : FS W (Z + rixfs_inode_disk_t) :=
  f ← handle;
  let ss := sector_size (device f) in
  if bytes =? 0 then done (set_in_size 0 i)
  else
    r ← grow_loop (Z.to_nat (sectors_for ss bytes - sectors_for ss (in_size i))) i 0;
    mret (match r with inl e => inl e | inr i' => inr (set_in_size bytes i') end).

(** The extents behind the first [keep] sectors are given up, the one across is cut. *)
Fixpoint shrink_loop (es : list Z) (keep seen : Z) (i : rixfs_inode_disk_t) : FS W (Z + rixfs_inode_disk_t) :=
  match es with
  | [] => done i
  | e :: es =>
    let n := extent_length i e in
    if n =? 0 then shrink_loop es keep seen i
    else if keep <=? seen then
      try (-5) (clear_all (-5) (extent_sectors i e)) (fun _ => shrink_loop es keep (u64 (seen + n)) (set_extent e 0 0 i))
    else if keep <? u64 (seen + n) then
      let cut := u64 (seen + n - keep) in
      try (-6) (clear_all (-6) ((fun j => u64 (extent_start i e + n - 1 - j)) <$> seqZ 0 cut)) (fun _ =>
        shrink_loop es keep (u64 (seen + n)) (set_extent e (extent_start i e) (u64 (n - cut)) i))
    else shrink_loop es keep (u64 (seen + n)) i
  end.

Definition rixfs_truncate (ino ns : Z) : FS W (Z + unit) :=
  f ← handle;
  if negb (mounted f) then fail (-1)
  else try (-2) (rixfs_read_inode ino) (fun i =>
    let fmt := Z.land (in_mode i) RIXFS_IFMT in
    if negb (fmt =? RIXFS_IFREG) && negb (fmt =? RIXFS_IFLNK) then fail (-3)
    else
      let ss := sector_size (device f) in
      if in_size i <? ns then try (-4) (grow i ns) (fun i' => rixfs_write_inode ino i')
      else
        r ← shrink_loop (seqZ 0 RIXFS_DIRECT_EXTENTS) (sectors_for ss ns) 0 i;
        match r with
        | inl e => fail e
        | inr i' => rixfs_write_inode ino (set_in_size ns i')
        end).

(** The first inode that is not in use. *)
Fixpoint find_inode (n : nat) (ino : Z) : FS W (Z + Z) :=
  match n with
  | O => fail (-2)
  | S n => try (-1) (rixfs_read_inode ino) (fun i => if in_inode i =? 0 then done ino else find_inode n (ino + 1))
  end.
Definition alloc_inode : FS W (Z + Z) := f ← handle; find_inode (Z.to_nat (inode_count (super f))) 1.

(** ** Mounting *)

Definition zero_super : rixfs_superblock_t := super_of (zeros sizeof_superblock).

(** The device pointer is not followed once [mounted] is false, so it is left. *)
Definition rixfs_unmount : FS W unit := set_handle (fun f => set_super zero_super (set_mounted false f)).

Definition super_sane (d : rix_block_device_t) (sb : rixfs_superblock_t) : bool :=
  negb (negb (sb_sector_size sb =? sector_size d) || negb (total_sectors sb =? sector_count d) || (inode_table_sector sb =? 0) || (inode_count sb =? 0) ||
        (root_inode sb =? 0) || (inode_count sb <? root_inode sb) || (total_sectors sb <=? data_start_sector sb) || (bitmap_sector sb =? 0) || (bitmap_sectors sb =? 0) ||
        (journal_sector sb <? bitmap_sector sb) || (journal_sectors sb <? 2)).

Definition super_fits (d : rix_block_device_t) (sb : rixfs_superblock_t) : bool :=
  let ds := data_start_sector sb in
  let inode_sectors := u64 (u64 (inode_count sb * RIXFS_INODE_SIZE) + (sector_size d - 1)) / sector_size d in
  negb ((ds <? inode_table_sector sb) || (ds - inode_table_sector sb <? inode_sectors) || (ds <? bitmap_sector sb) || (ds - bitmap_sector sb <? bitmap_sectors sb) ||
        (ds <? journal_sector sb) || (ds - journal_sector sb <? journal_sectors sb)).

(** [fs->device], [fs->super] and [fs->mounted] are set before the journal is replayed. *)
Definition rixfs_mount (d : rix_block_device_t) : FS W (Z + unit) :=
  if (sector_size d <? 512) || (RIXFS_PAGE_SIZE <? sector_size d) || (sector_count d =? 0) then fail (-1)
  else
    r ← with_page (-2) (
      '(rc, b) ← io (rd d RIXFS_BLOCK_SECTOR (zeros RIXFS_PAGE_SIZE));
      if truthy rc then fail (-3)
      else if sector_size d <? sizeof_superblock then fail (-4)
      else
        let raw := take (Z.to_nat sizeof_superblock) b in
        let sb := super_of raw in
        let cleared := copy 8 raw 72 (zeros 8) 0 in
        if negb (magic sb =? RIXFS_MAGIC) || negb (version sb =? RIXFS_VERSION) || (header_size sb <? RIXFS_MIN_HEADER) || (sizeof_superblock <? header_size sb) ||
           negb (checksum_field sb =? hash64 cleared sizeof_superblock) then fail (-5)
        else if negb (super_sane d sb) then fail (-6)
        else if negb (u64 (inode_count sb * RIXFS_INODE_SIZE) / RIXFS_INODE_SIZE =? inode_count sb) then fail (-7)
        else if negb (super_fits d sb) then fail (-8)
        else
          _ ← set_handle (fun f => {| device := d; super := sb; mounted := true; meta_hint := meta_hint f |});
          done tt);
    match r with
    | inl e => fail e
    | inr _ =>
      f ← handle;
      rc ← io (journal_replay f);
      if truthy rc then _ ← rixfs_unmount; fail (-9) else done tt
    end.

(** ** Counting free space *)

(** One turn per sector; [cached] is the bitmap sector in the buffer [b]. *)
Fixpoint count_free (n : nat) (s cached : Z) (b : list Z) (free_sec : Z) : FS W (Z + Z) :=
  match n with
  | O => done free_sec
  | S n =>
    f ← handle;
    match bit_place f s with
    | None => fail (-3)
    | Some (bsec, off) =>
      r ← (if negb (cached =? bsec) then rd_sec bsec else done b);
      match r with
      | inl _ => fail (-4)
      | inr b => count_free n (s + 1) bsec b (if truthy (Z.land (aget 0 b off) (bit_mask s)) then free_sec else free_sec + 1)
      end
    end
  end.
Fixpoint count_inodes (n : nat) (ino free_ino : Z) : FS W (Z + Z) :=
  match n with
  | O => done free_ino
  | S n => try (-5) (rixfs_read_inode ino) (fun i => count_inodes n (ino + 1) (if in_inode i =? 0 then free_ino + 1 else free_ino))
  end.

(** Sectors, free sectors, free inodes. *)
Definition rixfs_statfs : FS W (Z + (Z * Z * Z)) :=
  f ← handle;
  let total := total_sectors (super f) in
  if negb (mounted f) then fail (-1)
  else if (total =? 0) || (sector_size (device f) <? 512) || (RIXFS_PAGE_SIZE <? sector_size (device f)) then fail (-1)
  else with_page (-2) (
    r ← count_free (Z.to_nat total) 0 UINT64_MAX (zeros (sector_size (device f))) 0;
    match r with
    | inl e => fail e
    | inr free_sec =>
      r ← count_inodes (Z.to_nat (inode_count (super f))) 1 0;
      match r with
      | inl e => fail e
      | inr free_ino => done (total, free_sec, free_ino)
      end
    end).

(** ** Access lists *)

Definition acl_valid (a : rixfs_acl_t) : bool :=
  (acl_version a =? RIXFS_ACL_VERSION) &&
  negb (negb (acl_user a =? RIXFS_ACL_NONE) && truthy (Z.land (acl_user_perm a) (not32 RIXFS_ACL_PERM_MASK))) &&
  negb (negb (acl_group a =? RIXFS_ACL_NONE) && truthy (Z.land (acl_group_perm a) (not32 RIXFS_ACL_PERM_MASK))) &&
  negb (truthy (Z.land (acl_mask a) (not32 RIXFS_ACL_PERM_MASK))).

Definition rixfs_get_acl (ino : Z) : FS W (Z + rixfs_acl_t) :=
  try (-2) (rixfs_read_inode ino) (fun i => done (
    if negb (truthy (Z.land (in_flags i) RIXFS_INODE_FLAG_ACL)) then
      {| acl_version := RIXFS_ACL_VERSION; acl_user := RIXFS_ACL_NONE; acl_user_perm := 0; acl_group := RIXFS_ACL_NONE; acl_group_perm := 0; acl_mask := RIXFS_ACL_PERM_MASK |}
    else
      {| acl_version := RIXFS_ACL_VERSION; acl_user := in_acl_user i; acl_user_perm := Z.land (in_acl_user_perm i) RIXFS_ACL_PERM_MASK; acl_group := in_acl_group i;
         acl_group_perm := Z.land (in_acl_group_perm i) RIXFS_ACL_PERM_MASK; acl_mask := Z.land (in_acl_mask i) RIXFS_ACL_PERM_MASK |})).

Definition rixfs_set_acl (ino : Z) (a : rixfs_acl_t) : FS W (Z + unit) :=
  if negb (acl_valid a) then fail (-1)
  else try (-2) (rixfs_read_inode ino) (fun i =>
    rixfs_write_inode ino (set_in_acl (Z.lor (in_flags i) RIXFS_INODE_FLAG_ACL) (acl_user a) (Z.land (acl_user_perm a) RIXFS_ACL_PERM_MASK) (acl_group a)
      (Z.land (acl_group_perm a) RIXFS_ACL_PERM_MASK) (Z.land (acl_mask a) RIXFS_ACL_PERM_MASK) i)).

Definition rixfs_clear_acl (ino : Z) : FS W (Z + unit) :=
  try (-2) (rixfs_read_inode ino) (fun i =>
    rixfs_write_inode ino (set_in_acl (Z.land (in_flags i) (not32 RIXFS_INODE_FLAG_ACL)) RIXFS_ACL_NONE 0 RIXFS_ACL_NONE 0 RIXFS_ACL_PERM_MASK i)).
End Operations.
