(* ===== verification/RixDir.v ===== *)
(** * RixFS directories ([kernel/fs/rixfs_dir.c], [kernel/fs/rixfs_ops.c])

    A directory is a file of records: an inode number (0 for a hole), the size of the
    record, a type and a name. Names are C strings without their terminator. *)
From Stdlib Require Import String Ascii.
From stdpp Require Import base tactics list numbers.
From S2P Require Import Prelude Bytes Block Journal RixInode RixFs.

Definition SLASH : Z := 47.
Definition DOT : Z := 46.

(** [name_valid] of [rixfs_dir.c]. *)
Definition name_valid (name : list Z) : bool :=
  negb (len name =? 0) && forallb (fun c => negb (c =? SLASH)) name && (len name <=? RIXFS_NAME_MAX).
(** [valid_name] of [rixfs_ops.c]: the names of the directory itself and of its parent are refused too. *)
Definition valid_name (name : list Z) : bool := name_valid name && negb (bool_decide (name = [DOT])) && negb (bool_decide (name = [DOT; DOT])).

(** ** A sector of records, in memory *)

(** Bytes 12 to 15 of a record are left as they are. *)
Definition dir_write_at (b : list Z) (at_ ino rs type : Z) (name : list Z) : list Z :=
  let b := rename_store64 b at_ ino in
  let b := aset (at_ + 9) (u8 (Z.shiftr rs 8)) (aset (at_ + 8) (u8 rs) b) in
  let b := aset (at_ + 11) (u8 (len name)) (aset (at_ + 10) type b) in
  copy (length name) b (at_ + 16) name 0.

Definition dir_place (b : list Z) (at_ avail ino type : Z) (name : list Z) : list Z :=
  let need := RIXFS_DIRENT_MIN_SIZE + len name in
  let left := u16 (avail - need) in
  if RIXFS_DIRENT_MIN_SIZE <=? left then
    let b := dir_write_at b at_ ino (u16 need) type name in
    let b := fill 8 b (at_ + need) 0 in
    let b := aset (at_ + need + 9) (u8 (Z.shiftr left 8)) (aset (at_ + need + 8) (u8 left) b) in
    let b := aset (at_ + need + 11) 0 (aset (at_ + need + 10) 0 b) in
    fill (Z.to_nat (avail - need - 12)) b (at_ + need + 12) 0
  else dir_write_at b at_ ino (u16 avail) type name.

(** The last record passed: its place, size, inode and name length. *)
Record passed := { last_off : Z; last_rs : Z; last_ino : Z; last_nl : Z }.

(** The outcome of looking for room: the records do not fit together, there is no room,
    or the changed sector. *)
Inductive fit := Corrupt | Full | Staged (b : list Z).

Definition all_zero (b : list Z) (lo hi : Z) : bool := forallb (fun i => aget 0 b i =? 0) (seqZ lo (hi - lo)).

(** The walk over the records of a sector; a record has at least 16 bytes. *)
Fixpoint tail_walk (n : nat) (b : list Z) (ss off : Z) (p : option passed) (ino type : Z) (name : list Z) : fit :=
  let need := RIXFS_DIRENT_MIN_SIZE + len name in
  if ss <=? off then
    if negb (off =? ss) then Corrupt
    else match p with
    | None => Corrupt
    | Some p =>
      if last_ino p =? 0 then if last_rs p <? need then Full else Staged (dir_place b (last_off p) (last_rs p) ino type name)
      else
        let tru := u16 (RIXFS_DIRENT_MIN_SIZE + last_nl p) in
        if last_rs p <? tru then Corrupt
        else
          let slack := u16 (last_rs p - tru) in
          if slack <? need then Full
          else Staged (dir_place (aset (last_off p + 9) (u8 (Z.shiftr tru 8)) (aset (last_off p + 8) (u8 tru) b)) (last_off p + tru) slack ino type name)
    end
  else match n with
  | O => Corrupt
  | S n =>
    if ss <? off + RIXFS_DIRENT_MIN_SIZE then Corrupt
    else
      let e := dirent_of b off in
      let rs := de_record_size e in
      if rs =? 0 then
        if negb (all_zero b off ss) then Corrupt
        else match p with
        | None => Staged (dir_write_at b 0 ino (u16 ss) type name)
        | Some _ => if ss - off <? need then Full else Staged (dir_place b off (ss - off) ino type name)
        end
      else if (rs <? RIXFS_DIRENT_MIN_SIZE) || (ss <? off + rs) then Corrupt
      else if negb (de_inode e =? 0) && (rs - RIXFS_DIRENT_MIN_SIZE <? de_name_length e) then Corrupt
      else tail_walk n b ss (off + rs) (Some {| last_off := off; last_rs := rs; last_ino := de_inode e; last_nl := de_name_length e |}) ino type name
  end.

Definition dir_tail_fit (b : list Z) (ss ino type : Z) (name : list Z) : fit :=
  if ss <? RIXFS_DIRENT_MIN_SIZE + len name then Full else tail_walk (Z.to_nat ss) b ss 0 None ino type name.

(** A sector that holds no record: one hole over the whole of it, or zeros. *)
Definition sector_free (b : list Z) (ss : Z) : bool := (load64 b 0 =? 0) && ((load16 b 8 =? ss) || all_zero b 0 ss).

Section Directories.
Context {W : Type} `{!Machine W}.

(** ** Reading *)

Definition read_bytes (ino off size : Z) : FS W (Z + list Z) := rixfs_read ino off (zeros size) size.
Definition read_ent (ino off : Z) : FS W (Z + rixfs_dirent_disk_t) :=
  try (-1) (read_bytes ino off RIXFS_DIRENT_MIN_SIZE) (fun h => done (dirent_of h 0)).

(** The inode of a directory. *)
Definition directory (ino : Z) : FS W (option rixfs_inode_disk_t) :=
  r ← rixfs_read_inode ino;
  mret (match r with
        | inl _ => None
        | inr dir => if negb (in_inode dir =? ino) || negb (Z.land (in_mode dir) RIXFS_IFMT =? RIXFS_IFDIR) then None else Some dir
        end).

(** How far the next record is behind a hole, [None] if the hole is too long. *)
Definition hole_step (f : rixfs_t) (dir : rixfs_inode_disk_t) (off : Z) (e : rixfs_dirent_disk_t) : option Z :=
  if de_record_size e =? 0 then if in_size dir - off <? sector_size (device f) then None else Some (sector_size (device f))
  else if in_size dir - off <? de_record_size e then None else Some (de_record_size e).
Definition record_bad (dir : rixfs_inode_disk_t) (off : Z) (e : rixfs_dirent_disk_t) : bool :=
  (de_record_size e <? RIXFS_DIRENT_MIN_SIZE) || (in_size dir - off <? de_record_size e) || (de_record_size e - RIXFS_DIRENT_MIN_SIZE <? de_name_length e).

(** The walk of [rixfs_lookup_name] and [rixfs_remove_name]: the record of a name and its
    place. Each turn moves on by at least one byte. [short], [unread], [bad], [unnamed]
    and [missing] are the codes of the five ways to fail. *)
Fixpoint find_name (n : nat) (short unread bad unnamed missing : Z) (ino : Z) (dir : rixfs_inode_disk_t) (off : Z) (name : list Z) : FS W (Z + (Z * rixfs_dirent_disk_t)) :=
  if in_size dir <=? off then fail missing
  else match n with
  | O => fail missing
  | S n =>
    if negb (short =? 0) && (in_size dir - off <? RIXFS_DIRENT_MIN_SIZE) then fail short
    else try unread (read_ent ino off) (fun e =>
      f ← handle;
      if de_inode e =? 0 then
        match hole_step f dir off e with
        | None => fail bad
        | Some d => find_name n short unread bad unnamed missing ino dir (off + d) name
        end
      else if record_bad dir off e then fail bad
      else
        let next := find_name n short unread bad unnamed missing ino dir (off + de_record_size e) name in
        if de_name_length e =? len name then
          try unnamed (read_bytes ino (off + RIXFS_DIRENT_MIN_SIZE) (len name)) (fun candidate => if bool_decide (candidate = name) then done (off, e) else next)
        else next)
  end.

(** The inode and the type of a name. *)
Definition rixfs_lookup_name (dir_inode : Z) (name : list Z) : FS W (Z + (Z * Z)) :=
  f ← handle;
  if negb (mounted f) then fail (-1)
  else if negb (name_valid name) then fail (-2)
  else
    dir ← directory dir_inode;
    match dir with
    | None => fail (-3)
    | Some dir =>
      r ← find_name (Z.to_nat (in_size dir)) (-4) (-5) (-6) (-7) (-8) dir_inode dir 0 name;
      mret (match r with inl e => inl e | inr (_, e) => inr (de_inode e, de_type e) end)
    end.

(** The next record from [off] on, with its name, and the offset left behind; code 1 is the
    end of the directory. *)
Fixpoint readdir_loop (n : nat) (ino : Z) (dir : rixfs_inode_disk_t) (off cap : Z) : FS W ((Z + (rixfs_dirent_disk_t * list Z)) * Z) :=
  if in_size dir <=? off then mret (inl 1, off)
  else match n with
  | O => mret (inl 1, off)
  | S n =>
    if in_size dir - off <? RIXFS_DIRENT_MIN_SIZE then mret (inl (-3), off)
    else
      r ← read_ent ino off;
      match r with
      | inl _ => mret (inl (-3), off)
      | inr e =>
        f ← handle;
        if de_inode e =? 0 then
          match hole_step f dir off e with
          | None => mret (inl (-4), off)
          | Some d => readdir_loop n ino dir (off + d) cap
          end
        else if record_bad dir off e then mret (inl (-4), off)
        else if cap <? de_name_length e + 1 then mret (inl (-5), off + de_record_size e)
        else
          r ← read_bytes ino (off + RIXFS_DIRENT_MIN_SIZE) (de_name_length e);
          mret (match r with inl _ => inl (-6) | inr name => inr (e, name) end, off + de_record_size e)
      end
  end.
Definition rixfs_readdir (dir_inode off cap : Z) : FS W ((Z + (rixfs_dirent_disk_t * list Z)) * Z) :=
  f ← handle;
  if negb (mounted f) || (cap <? 2) then mret (inl (-1), off)
  else
    dir ← directory dir_inode;
    match dir with
    | None => mret (inl (-2), off)
    | Some dir => readdir_loop (Z.to_nat (in_size dir)) dir_inode dir off cap
    end.

(** ** Changing *)

(** The inode field of the record is cleared; the sector is written past the journal. *)
Definition rixfs_remove_name (dir_inode : Z) (name : list Z) : FS W (Z + unit) :=
  f ← handle;
  if negb (mounted f) then fail (-1)
  else if negb (name_valid name) then fail (-2)
  else
    dir ← directory dir_inode;
    match dir with
    | None => fail (-3)
    | Some dir =>
      r ← find_name (Z.to_nat (in_size dir)) 0 (-4) (-5) (-6) (-9) dir_inode dir 0 name;
      match r with
      | inl e => fail e
      | inr (off, _) =>
        let ss := sector_size (device f) in
        match dir_sector dir (off / ss) with
        | None => fail (-7)
        | Some physical => with_page (-8) (
            r ← rd_sec physical;
            match r with
            | inl e => fail e
            | inr b => wr_sec physical (fill 8 b (off mod ss) 0)
            end)
        end
      end
    end.

(** The first sector of a directory that holds no record. *)
Fixpoint find_free_sector (n : nat) (dir : rixfs_inode_disk_t) (logical : Z) : FS W (Z + option Z) :=
  match n with
  | O => done None
  | S n =>
    f ← handle;
    match dir_sector dir logical with
    | None => fail (-3)
    | Some sec => try (-3) (rd_sec sec) (fun b => if sector_free b (sector_size (device f)) then done (Some sec) else find_free_sector n dir (logical + 1))
    end
  end.

(** A record over the whole of a sector of the directory; the result is the directory's
    inode, which the caller writes. *)
Definition append_sector (dir : rixfs_inode_disk_t) (ino type : Z) (name : list Z) : FS W (Z + rixfs_inode_disk_t) :=
  f ← handle;
  let ss := sector_size (device f) in
  let sectors := in_size dir / ss in
  r ← find_free_sector (Z.to_nat sectors) dir 0;
  match r with
  | inl e => fail e
  | inr found =>
    (** the sector, whether the directory has it already, and whether it grows *)
    place ← (match found, dir_sector dir sectors with
            | Some sec, _ => done (sec, true, false, dir)
            | None, Some sec => done (sec, true, sectors =? 0, dir)
            | None, None =>
              try (-4) (alloc_sec_top (Some dir)) (fun sec =>
                match append_extent dir sec with
                | None => _ ← set_bit sec false; fail (-5)
                | Some dir' => done (sec, false, true, dir')
                end)
            end : FS W (Z + (Z * bool * bool * rixfs_inode_disk_t)));
    match place with
    | inl e => fail e
    | inr (sec, existing, add_size, dir) =>
      r ← (if (existing : bool) then try (-6) (rd_sec sec) (fun b => done b) else done (zeros ss));
      match r with
      | inl e => fail e
      | inr b =>
        r ← jwrite sec (dir_write_at b 0 ino (u16 ss) type name);
        match r with
        | inl _ => _ ← (if (existing : bool) then done tt else set_bit sec false); fail (-7)
        | inr _ => done (if (add_size : bool) then set_in_size (u64 (in_size dir + ss)) dir else dir)
        end
      end
    end
  end.

Definition dir_append (dir : rixfs_inode_disk_t) (ino type : Z) (name : list Z) : FS W (Z + rixfs_inode_disk_t) :=
  f ← handle;
  let ss := sector_size (device f) in
  if (65535 <? ss) || (RIXFS_NAME_MAX <? len name) || truthy (in_size dir mod ss) then fail (-1)
  else with_page (-2) (
    let sectors := in_size dir / ss in
    if sectors =? 0 then append_sector dir ino type name
    else match dir_sector dir (sectors - 1) with
    | None => fail (-3)
    | Some sec => try (-3) (rd_sec sec) (fun b =>
        match dir_tail_fit b ss ino type name with
        | Staged b' => try (-7) (jwrite sec b') (fun _ => done dir)
        | Corrupt => fail (-3)
        | Full => append_sector dir ino type name
        end)
    end).

(** ** Names *)

Definition exists_name (d : Z) (name : list Z) : FS W bool := r ← rixfs_lookup_name d name; mret (match r with inr _ => true | inl _ => false end).

(** A fresh inode of a type. *)
Definition new_inode (ino mode owner group : Z) : rixfs_inode_disk_t :=
  {| in_inode := ino; in_mode := mode; in_uid := owner; in_gid := group; in_flags := 0; in_size := 0; in_generation := 1; in_extent_start := [0; 0; 0; 0];
     in_extent_length := [0; 0; 0; 0]; in_links := 1; in_acl_user := 0; in_acl_user_perm := 0; in_acl_group := 0; in_acl_group_perm := 0; in_acl_mask := 0 |}.

(** The name is entered in the directory: [inl] if the directory could not be changed. *)
Definition enter (d ino type : Z) (name : list Z) : FS W (Z + rixfs_inode_disk_t) :=
  try (-1) (rixfs_read_inode d) (fun dir => dir_append dir ino type name).

Definition rixfs_mkdir (d : Z) (name : list Z) (mode owner group : Z) : FS W (Z + Z) :=
  if negb (valid_name name) then fail (-1)
  else
    old ← exists_name d name;
    if (old : bool) then fail (-2)
    else try (-3) alloc_inode (fun ino => try (-4) (alloc_sec_top None) (fun sec =>
      let i := set_extent 0 sec 1 (new_inode ino (Z.lor RIXFS_IFDIR (Z.land mode 0xfff)) owner group) in
      r ← rixfs_write_inode ino i;
      match r with
      | inl _ => _ ← set_bit sec false; fail (-5)
      | inr _ =>
        r ← enter d ino RIXFS_DIR_TYPE_DIR name;
        match r with
        | inl _ => _ ← free_inode_data i; _ ← rixfs_write_inode ino zero_inode; fail (-6)
        | inr dir => try (-7) (rixfs_write_inode d dir) (fun _ => done ino)
        end
      end)).

Definition rixfs_create (d : Z) (name : list Z) (mode owner group : Z) : FS W (Z + Z) :=
  if negb (valid_name name) then fail (-1)
  else
    old ← exists_name d name;
    if (old : bool) then fail (-2)
    else try (-3) alloc_inode (fun ino =>
      try (-4) (rixfs_write_inode ino (new_inode ino (Z.lor RIXFS_IFREG (Z.land mode 0xfff)) owner group)) (fun _ =>
      r ← enter d ino RIXFS_DIR_TYPE_FILE name;
      match r with
      | inl _ => _ ← rixfs_write_inode ino zero_inode; fail (-5)
      | inr dir => try (-6) (rixfs_write_inode d dir) (fun _ => done ino)
      end)).

Definition rixfs_link (source d : Z) (name : list Z) (type : Z) : FS W (Z + unit) :=
  if negb (valid_name name) then fail (-1)
  else
    old ← exists_name d name;
    if (old : bool) then fail (-2)
    else try (-3) (rixfs_read_inode source) (fun i =>
      if in_inode i =? 0 then fail (-3)
      else if Z.land (in_mode i) RIXFS_IFMT =? RIXFS_IFDIR then fail (-4)
      else if in_links i =? UINT32_MAX then fail (-5)
      else try (-6) (enter d source type name) (fun dir => try (-7) (rixfs_write_inode d dir) (fun _ =>
        rixfs_write_inode source (set_in_links (if truthy (in_links i) then in_links i + 1 else 2) i)))).

(** The data of the failed link is not in the inode that is used to free it. *)
Definition rixfs_symlink (d : Z) (name target : list Z) (owner group : Z) : FS W (Z + Z) :=
  if negb (valid_name name) then fail (-1)
  else if (len target =? 0) || (RIXFS_SYMLINK_TARGET_MAX <? len target) then fail (-1)
  else
    old ← exists_name d name;
    if (old : bool) then fail (-2)
    else try (-3) alloc_inode (fun ino =>
      let i := new_inode ino (Z.lor RIXFS_IFLNK 0x1ff) owner group in
      let undo := _ ← free_inode_data i; rixfs_write_inode ino zero_inode in
      try (-4) (rixfs_write_inode ino i) (fun _ =>
      r ← try 0 (rixfs_truncate ino (len target)) (fun _ => rixfs_write ino 0 target (len target));
      match r with
      | inl _ => _ ← undo; fail (-5)
      | inr _ =>
        r ← enter d ino RIXFS_DIR_TYPE_SYMLINK name;
        match r with
        | inl _ => _ ← undo; fail (-6)
        | inr dir => try (-7) (rixfs_write_inode d dir) (fun _ => done ino)
        end
      end)).

Definition rixfs_unlink (d : Z) (name : list Z) : FS W (Z + unit) :=
  if negb (valid_name name) then fail (-1)
  else try (-2) (rixfs_lookup_name d name) (fun '(ino, _) =>
    f ← handle;
    if ino =? root_inode (super f) then fail (-3)
    else try (-4) (rixfs_read_inode ino) (fun i =>
      if Z.land (in_mode i) RIXFS_IFMT =? RIXFS_IFDIR then fail (-5)
      else try (-6) (rixfs_remove_name d name) (fun _ =>
        if 1 <? in_links i then rixfs_write_inode ino (set_in_links (in_links i - 1) i)
        else try (-7) (free_inode_data i) (fun _ => rixfs_write_inode ino zero_inode)))).

(** Whether a directory has no entry: [None] when it could not be read. *)
Definition directory_empty (ino : Z) : FS W bool :=
  '(r, _) ← rixfs_readdir ino 0 (RIXFS_NAME_MAX + 1);
  mret (match r with inl e => e =? 1 | inr _ => false end).

Definition rixfs_rmdir (d : Z) (name : list Z) : FS W (Z + unit) :=
  if negb (valid_name name) then fail (-1)
  else try (-2) (rixfs_lookup_name d name) (fun '(ino, _) =>
    f ← handle;
    if ino =? root_inode (super f) then fail (-3)
    else try (-4) (rixfs_read_inode ino) (fun i =>
      if negb (Z.land (in_mode i) RIXFS_IFMT =? RIXFS_IFDIR) then fail (-5)
      else
        empty ← directory_empty ino;
        if negb empty then fail (-6)
        else try (-7) (free_inode_data i) (fun _ => try (-8) (rixfs_remove_name d name) (fun _ => rixfs_write_inode ino zero_inode)))).

(** ** Formatting *)

Fixpoint wr_each (l : list Z) (b : list Z) : FS W (Z + unit) :=
  match l with
  | [] => done tt
  | s :: l => try (-5) (wr_sec s b) (fun _ => wr_each l b)
  end.
Fixpoint set_each (l : list Z) : FS W (Z + unit) :=
  match l with
  | [] => done tt
  | s :: l => try (-6) (set_bit s true) (fun _ => set_each l)
  end.

(** The superblock of a fresh file system; [None] if the device is too small. *)
Definition fresh_super (d : rix_block_device_t) (ic : Z) : option rixfs_superblock_t :=
  let ss := sector_size d in
  let isec := u64 (u64 (ic * RIXFS_INODE_SIZE) + ss - 1) / ss in
  let bs := u64 (sector_count d + 8 * ss - 1) / (8 * ss) in
  let js := u64 (1 + isec + bs) in
  let ds := u64 (js + RIXFS_JOURNAL_TX_MAX_ENTRIES + 1) in
  if sector_count d <=? u64 (ds + 1) then None
  else
    let sb := {| magic := RIXFS_MAGIC; version := RIXFS_VERSION; header_size := sizeof_superblock; sb_sector_size := ss; flags := 0; total_sectors := sector_count d;
                 inode_table_sector := 1; inode_count := ic; data_start_sector := ds; root_inode := 1; generation := 1; checksum_field := 0;
                 bitmap_sector := u64 (1 + isec); bitmap_sectors := bs; journal_sector := js; journal_sectors := RIXFS_JOURNAL_TX_MAX_ENTRIES + 1; free_hint := ds;
                 journal_generation := 0 |} in
    Some (set_sb_checksum (hash64 (super_bytes sb) sizeof_superblock) sb).

(** The handle of a fresh file system is a local variable of the call. *)
Definition rixfs_format (d : rix_block_device_t) (ic : Z) : FS W (Z + unit) :=
  if (sector_size d <? 512) || (RIXFS_SECTOR_MAX <? sector_size d) || (sector_count d <? 128) || (ic <? 8) then fail (-1)
  else match fresh_super d ic with
  | None => fail (-2)
  | Some sb =>
    let ss := sector_size d in
    outer ← handle;
    r ← with_page (-3) (
      _ ← set_handle (fun _ => {| device := d; super := sb; mounted := true; meta_hint := 0 |});
      try (-4) (wr_sec 0 (super_bytes sb ++ zeros (ss - sizeof_superblock))) (fun _ =>
      try (-5) (wr_each (seqZ 1 (data_start_sector sb - 1)) (zeros ss)) (fun _ =>
      try (-6) (set_each (seqZ 0 (data_start_sector sb))) (fun _ =>
      try (-7) alloc_sec (fun root =>
      try (-8) (rixfs_write_inode 1 (set_in_links 0 (set_extent 0 root 1 (new_inode 1 (Z.lor RIXFS_IFDIR 0x1ed) 0 0)))) (fun _ =>
      try (-9) (wr_sec root (zeros ss)) (fun _ => done tt)))))));
    _ ← set_handle (fun _ => outer);
    mret r
  end.

Definition bytes_of (s : string) : list Z := (fun a => Z.of_N (Ascii.N_of_ascii a)) <$> list_ascii_of_string s.
Definition standard_dirs : list (list Z) := bytes_of <$>
  ["boot"; "bin"; "sbin"; "lib"; "lib64"; "usr"; "etc"; "home"; "root"; "var"; "tmp"; "dev"; "proc"; "sys"; "run"; "opt"; "mnt"; "media"]%string.

Fixpoint mkdir_each (l : list (list Z)) : FS W (Z + unit) :=
  match l with
  | [] => done tt
  | nm :: l => f ← handle; try (-3) (rixfs_mkdir (root_inode (super f)) nm 0x1ed 0 0) (fun _ => mkdir_each l)
  end.
Definition rixfs_format_standard_tree (d : rix_block_device_t) (ic : Z) : FS W (Z + unit) :=
  try (-1) (rixfs_format d ic) (fun _ =>
    outer ← handle;
    _ ← set_handle (fun _ => {| device := d; super := zero_super; mounted := false; meta_hint := 0 |});
    r ← rixfs_mount d;
    r ← match r with
        | inl _ => fail (-2)
        | inr _ =>
          r ← mkdir_each standard_dirs;
          r ← match r with inl e => fail e | inr _ => try (-4) rixfs_sync (fun _ => done tt) end;
          _ ← rixfs_unmount;
          mret r
        end;
    _ ← set_handle (fun _ => outer);
    mret r).
End Directories.
