(* ===== verification/RixRename.v ===== *)
(** * Renaming in RixFS ([kernel/fs/rixfs_ops.c])

    The sectors a rename changes are collected in pages and written in one transaction. *)
From stdpp Require Import base tactics list numbers.
From S2P Require Import Prelude Bytes Block Journal RixInode RixFs RixDir.

(** The changed sectors, each with the page that holds it. *)
Definition changes : Type := list (Z * rixfs_rename_change_t).

(** A computation on the changes: they stay as they are when it fails. *)
Definition CH (W A : Type) : Type := changes -> FS W (A * changes).
#[global] Instance CH_ret W : MRet (CH W) := fun A a c => mret (a, c).
#[global] Instance CH_bind W : MBind (CH W) := fun A B k m c => m c ≫= fun '(a, c') => k a c'.

Section Rename.
Context {W : Type} `{!Machine W}.

Definition fs {A} (m : FS W A) : CH W A := fun c => a ← m; mret (a, c).
Definition cfail {A} (e : Z) : CH W (Z + A) := mret (inl e).
Definition cdone {A} (a : A) : CH W (Z + A) := mret (inr a).
Definition ctry {A B} (e : Z) (m : CH W (Z + A)) (k : A -> CH W (Z + B)) : CH W (Z + B) :=
  r ← m; match r with inl _ => cfail e | inr a => k a end.

Definition change_data (k : nat) : CH W (list Z) := fun c => mret (match c !! k with Some (_, x) => ch_data x | None => [] end, c).
Definition put_change (k : nat) (b : list Z) : CH W (Z + unit) := fun c =>
  mret (inr tt, match c !! k with Some (q, x) => <[k := (q, {| ch_sector := ch_sector x; ch_data := b |})]> c | None => c end).

Fixpoint rename_changes_release (c : changes) : FS W unit :=
  match c with
  | [] => mret tt
  | (q, _) :: c => _ ← io (pmm_free_page q); rename_changes_release c
  end.

(** The place of a sector among the changes; it is read and added if it is not there. *)
Definition rename_change_get (s : Z) : CH W (Z + nat) := fun c =>
  f ← handle;
  if total_sectors (super f) <=? s then mret (inl (-1), c)
  else match list_find (fun x => ch_sector x.2 = s) c with
  | Some (k, _) => mret (inr k, c)
  | None =>
    if RIXFS_JOURNAL_TX_MAX_ENTRIES <=? len c then mret (inl (-2), c)
    else
      q ← io pmm_alloc_page;
      if q =? 0 then mret (inl (-3), c)
      else
        r ← rd_sec s;
        match r with
        | inl _ => _ ← io (pmm_free_page q); mret (inl (-4), c)
        | inr b => mret (inr (length c), c ++ [(q, {| ch_sector := s; ch_data := b |})])
        end
  end.

(** Change one of the sectors. *)
Definition rename_edit (s : Z) (g : list Z -> list Z) : CH W (Z + unit) :=
  ctry (-1) (rename_change_get s) (fun k => b ← change_data k; put_change k (g b)).

Definition rename_change_inode (ino : Z) (i : rixfs_inode_disk_t) : CH W (Z + unit) :=
  f ← fs handle;
  match inode_location f ino with
  | None => cfail (-1)
  | Some (s, o) => rename_edit s (fun b => copy (Z.to_nat RIXFS_INODE_SIZE) b o (inode_bytes i) 0)
  end.

Definition rename_set_bitmap (sec : Z) (allocated : bool) : CH W (Z + unit) :=
  f ← fs handle;
  match bit_place f sec with
  | None => cfail (-1)
  | Some (bsec, off) => ctry (-2) (rename_change_get bsec) (fun k =>
      b ← change_data k;
      let v := aget 0 b off in
      if bool_decide (truthy (Z.land v (bit_mask sec)) = allocated) then cfail (-3)
      else put_change k (aset off (if allocated then Z.lor v (bit_mask sec) else Z.land v (255 - bit_mask sec)) b))
  end.
Fixpoint rename_free_all (l : list Z) : CH W (Z + unit) :=
  match l with
  | [] => cdone tt
  | s :: l => ctry (-1) (rename_set_bitmap s false) (fun _ => rename_free_all l)
  end.

(** The first free sector of a list; nothing is taken. *)
Fixpoint first_free (l : list Z) : FS W (Z + option Z) :=
  match l with
  | [] => done None
  | s :: l => try (-2) (bit_get s) (fun used => if (used : bool) then first_free l else done (Some s))
  end.
Definition rename_find_free_sector (par : rixfs_inode_disk_t) : FS W (Z + Z) :=
  f ← handle;
  let ds := data_start_sector (super f) in
  let total := total_sectors (super f) in
  let top := if (meta_hint f =? 0) || (total <? meta_hint f) then total else meta_hint f in
  let start := if free_hint (super f) <? ds then ds else free_hint (super f) in
  or_take (first_free (neighbours f par)) (
  or_take (first_free (reverse (seqZ ds (top - ds)))) (
  or_take (first_free (seqZ start (total - start))) (
  or_take (first_free (seqZ ds (start - ds))) (fail (-3))))).

(** The sector and the offset of an entry. *)
Fixpoint find_entry_loop (n : nat) (dir_inode : Z) (dir : rixfs_inode_disk_t) (off : Z) (wanted : list Z) : FS W (Z + (Z * Z)) :=
  if in_size dir <=? off then fail (-8)
  else match n with
  | O => fail (-8)
  | S n =>
    '(r, off') ← rixfs_readdir dir_inode off (RIXFS_NAME_MAX + 1);
    match r with
    | inl e => fail (if e =? 1 then -8 else -2)
    | inr (e, name) =>
      if bool_decide (name = wanted) then
        f ← handle;
        let start := off' - de_record_size e in
        match dir_sector dir (start / sector_size (device f)) with
        | None => fail (-3)
        | Some physical => done (physical, start)
        end
      else find_entry_loop n dir_inode dir off' wanted
    end
  end.
Definition rename_find_entry (dir_inode : Z) (wanted : list Z) : FS W (Z + (Z * Z)) :=
  try (-1) (rixfs_read_inode dir_inode) (fun dir =>
    if negb (Z.land (in_mode dir) RIXFS_IFMT =? RIXFS_IFDIR) then fail (-1) else find_entry_loop (Z.to_nat (in_size dir)) dir_inode dir 0 wanted).

Definition rename_find_empty_slot (dir_inode : Z) : FS W (Z + option Z) :=
  f ← handle;
  try (-1) (rixfs_read_inode dir_inode) (fun dir =>
    if negb (Z.land (in_mode dir) RIXFS_IFMT =? RIXFS_IFDIR) || truthy (in_size dir mod sector_size (device f)) then fail (-1)
    else with_page (-2) (find_free_sector (Z.to_nat (in_size dir / sector_size (device f))) dir 0)).

Definition rename_write_dirent (ss ino type : Z) (name : list Z) : option (list Z) :=
  if (ss <? RIXFS_DIRENT_MIN_SIZE) || (RIXFS_NAME_MAX <? len name) || (ss <? len name + RIXFS_DIRENT_MIN_SIZE) || negb (forallb (fun c => negb (c =? SLASH)) name) then None
  else Some (dir_write_at (zeros ss) 0 ino ss type name).

(** The tail of the last sector of the directory, if the entry fits there. *)
Definition rename_tail (par : rixfs_inode_disk_t) (ino type : Z) (name : list Z) : CH W bool :=
  f ← fs handle;
  let ss := sector_size (device f) in
  if (0 <? in_size par) && (in_size par mod ss =? 0) then
    match dir_sector par (in_size par / ss - 1) with
    | None => mret false
    | Some last_phys =>
      r ← rename_change_get last_phys;
      match r with
      | inl _ => mret false
      | inr k =>
        b ← change_data k;
        match dir_tail_fit b ss ino type name with
        | Staged b' => _ ← put_change k b'; mret true
        | _ => mret false
        end
      end
    end
  else mret false.

(** An entry over the whole of a sector. *)
Definition rename_whole (s ino type : Z) (name : list Z) : CH W (Z + unit) :=
  f ← fs handle;
  ctry (-1) (rename_change_get s) (fun k =>
    match rename_write_dirent (sector_size (device f)) ino type name with
    | None => cfail (-1)
    | Some b => put_change k b
    end).

(** The new entry: in the tail of the last sector of the directory, or over the whole of a
    sector that is free, spare or new. The result is the new sector, 0 if there is none. *)
Definition rename_enter (d : Z) (par : rixfs_inode_disk_t) (ino type : Z) (name : list Z) : CH W (Z + Z) :=
  f ← fs handle;
  let ss := sector_size (device f) in
  placed ← rename_tail par ino type name;
  if (placed : bool) then cdone 0
  else ctry (-1) (fs (rename_find_empty_slot d)) (fun slot =>
    match slot with
    | Some s => ctry (-1) (rename_whole s ino type name) (fun _ => cdone 0)
    | None =>
      match (if in_size par =? 0 then dir_sector par 0 else None) with
      | Some spare =>
        ctry (-1) (rename_change_inode d (set_in_size (u64 (in_size par + ss)) par)) (fun _ => ctry (-1) (rename_whole spare ino type name) (fun _ => cdone 0))
      | None =>
        ctry (-1) (fs (rename_find_free_sector par)) (fun nw => ctry (-1) (rename_set_bitmap nw true) (fun _ =>
          if UINT64_MAX - ss <? in_size par then cfail (-1)
          else match append_extent par nw with
          | None => cfail (-1)
          | Some par' =>
            ctry (-1) (rename_change_inode d (set_in_size (u64 (in_size par' + ss)) par')) (fun _ => ctry (-1) (rename_whole nw ino type name) (fun _ => cdone nw))
          end))
      end
    end).

(** What becomes of the file that is replaced. *)
Definition rename_replace (dest : option (Z * rixfs_inode_disk_t * (Z * Z))) : CH W (Z + unit) :=
  match dest with
  | None => cdone tt
  | Some (ino, i, _) =>
    if 1 <? in_links i then rename_change_inode ino (set_in_links (in_links i - 1) i)
    else ctry (-1) (rename_free_all (inode_sectors i)) (fun _ => rename_change_inode ino zero_inode)
  end.

(** The entry at an offset of a directory loses its inode number. *)
Definition rename_clear (place : Z * Z) : CH W (Z + unit) :=
  f ← fs handle; rename_edit place.1 (fun b => fill 8 b (place.2 mod sector_size (device f)) 0).

(** All the changes; the result is the new sector. *)
Definition rename_collect (source : Z * Z) (dest : option (Z * rixfs_inode_disk_t * (Z * Z))) (new_dir : Z) (new_parent : rixfs_inode_disk_t)
    (source_inode source_type : Z) (new_name : list Z) : CH W (Z + Z) :=
  ctry (-1) (rename_clear source) (fun _ =>
  ctry (-1) (match dest with Some (_, _, place) => rename_clear place | None => cdone tt end) (fun _ =>
  ctry (-1) (rename_enter new_dir new_parent source_inode source_type new_name) (fun nw =>
  ctry (-1) (rename_replace dest) (fun _ => cdone nw)))).

Definition rename_commit (m : CH W (Z + Z)) : FS W (Z + unit) :=
  '(r, c) ← m [];
  r ← match r with
      | inl _ => fail (-1)
      | inr nw =>
        r ← code (fun f => journal_write_transaction f (snd <$> c));
        _ ← (match r with inr _ => if negb (nw =? 0) then set_handle (set_free_hint (u64 (nw + 1))) else mret tt | inl _ => mret tt end);
        mret r
      end;
  _ ← rename_changes_release c;
  mret r.

Definition is_file (i : rixfs_inode_disk_t) : bool := (Z.land (in_mode i) RIXFS_IFMT =? RIXFS_IFREG) || (Z.land (in_mode i) RIXFS_IFMT =? RIXFS_IFLNK).
Definition is_dir (i : rixfs_inode_disk_t) : bool := Z.land (in_mode i) RIXFS_IFMT =? RIXFS_IFDIR.

(** The file a rename replaces, or the code to return. *)
Definition rename_dest (new_dir : Z) (new_name : list Z) (source_inode : Z) (replace : bool) : FS W (Z + option (Z * rixfs_inode_disk_t * (Z * Z))) :=
  r ← rixfs_lookup_name new_dir new_name;
  match r with
  | inl e => if e =? -8 then done None else fail (-4)
  | inr (ino, _) =>
    if (ino =? source_inode) || negb replace then fail (-17)
    else try (-17) (rixfs_read_inode ino) (fun i =>
      if negb (is_file i) then fail (-17)
      else try (-3) (rename_find_entry new_dir new_name) (fun place => done (Some (ino, i, place))))
  end.

Definition rixfs_rename (old_dir : Z) (old_name : list Z) (new_dir : Z) (new_name : list Z) (replace : bool) : FS W (Z + unit) :=
  f ← handle;
  let room := sector_size (device f) - RIXFS_DIRENT_MIN_SIZE in
  if negb (mounted f) || negb (valid_name old_name) || negb (valid_name new_name) || (old_dir =? 0) || (new_dir =? 0) || (room <? len old_name) || (room <? len new_name) then fail (-1)
  else if (old_dir =? new_dir) && bool_decide (old_name = new_name) then done tt
  else try (-2) (rixfs_lookup_name old_dir old_name) (fun '(source_inode, source_type) => try (-2) (rixfs_read_inode source_inode) (fun source =>
    if negb (is_file source) then fail (-2)
    else try (-2) (rename_find_entry old_dir old_name) (fun source_place =>
      r ← rename_dest new_dir new_name source_inode replace;
      match r with
      | inl e => fail e
      | inr dest => try (-5) (rixfs_read_inode old_dir) (fun old_parent =>
          if negb (is_dir old_parent) then fail (-5)
          else try (-5) (rixfs_read_inode new_dir) (fun new_parent =>
            if negb (is_dir new_parent) then fail (-5)
            else rename_commit (rename_collect source_place dest new_dir new_parent source_inode source_type new_name)))
      end))).
End Rename.
