(* ===== verification/RixFsck.v ===== *)
(** * Checking and repairing RixFS ([kernel/fs/rixfs_fsck.c])

    [fsck_repair_ignore_bitmap] is the argument [ignore]; the handle the checks work on is
    local to the call. *)
From stdpp Require Import base tactics list numbers.
From S2P Require Import Prelude Bytes Block Journal RixInode RixFs RixDir RixRename.

Definition RIXFS_FSCK_MAX_INODES : Z := 65536.
Definition sizeof_reachable : Z := (RIXFS_FSCK_MAX_INODES + 7) / 8.

Definition extent_overlap (a_start a_len b_start b_len : Z) : bool :=
  if (a_len =? 0) || (b_len =? 0) then false
  else if a_start <? b_start then b_start - a_start <? a_len else a_start - b_start <? b_len.

(** Two extents of an inode, and extents of two inodes. *)
Definition self_overlap (i : rixfs_inode_disk_t) : bool :=
  existsb (fun a => existsb (fun b => extent_overlap (extent_start i a) (extent_length i a) (extent_start i b) (extent_length i b))
                      (seqZ (a + 1) (RIXFS_DIRECT_EXTENTS - a - 1))) (seqZ 0 RIXFS_DIRECT_EXTENTS).
Definition inodes_overlap (i j : rixfs_inode_disk_t) : bool :=
  existsb (fun a => existsb (fun b => extent_overlap (extent_start i a) (extent_length i a) (extent_start j b) (extent_length j b))
                      (seqZ 0 RIXFS_DIRECT_EXTENTS)) (seqZ 0 RIXFS_DIRECT_EXTENTS).

Definition seen_bit (seen : list Z) (ino : Z) : bool := truthy (Z.land (aget 0 seen (Z.shiftr ino 3)) (Z.shiftl 1 (Z.land ino 7))).
Definition see (seen : list Z) (ino : Z) : list Z := aset (Z.shiftr ino 3) (Z.lor (aget 0 seen (Z.shiftr ino 3)) (Z.shiftl 1 (Z.land ino 7))) seen.

Section Check.
Context {W : Type} `{!Machine W}.

Definition bitmap_test (ignore : bool) (sec : Z) : FS W (Z + bool) :=
  if ignore then done true
  else
    f ← handle;
    if total_sectors (super f) <=? sec then fail (-1)
    else match bit_place f sec with
    | None => fail (-1)
    | Some (bsec, off) => with_page (-2) (r ← rd_sec bsec; mret (match r with inl e => inl e | inr b => inr (truthy (Z.land (aget 0 b off) (bit_mask sec))) end))
    end.

(** No inode before [ino] shares a sector with it. *)
Fixpoint check_prior (n : nat) (prior : Z) (i : rixfs_inode_disk_t) : FS W (Z + unit) :=
  match n with
  | O => done tt
  | S n => try (-10) (rixfs_read_inode prior) (fun other =>
      if negb (in_inode other =? 0) && inodes_overlap i other then fail (-9) else check_prior n (prior + 1) i)
  end.

(** Every sector of the list is marked as used. *)
Fixpoint check_used (ignore : bool) (l : list Z) (refs : Z) : FS W (Z + Z) :=
  match l with
  | [] => done refs
  | s :: l => try (-5) (bitmap_test ignore s) (fun used => if negb used then fail (-5) else check_used ignore l (u64 (refs + 1)))
  end.

(** The extents: the sectors they have, and those counted so far. *)
Fixpoint check_extents (ignore : bool) (es : list Z) (i : rixfs_inode_disk_t) (total refs : Z) : FS W (Z + (Z * Z)) :=
  match es with
  | [] => done (total, refs)
  | e :: es =>
    f ← handle;
    let start := extent_start i e in
    let n := extent_length i e in
    if n =? 0 then check_extents ignore es i total refs
    else if (start <? data_start_sector (super f)) || (total_sectors (super f) <=? start) || (total_sectors (super f) - start <? n) then fail (-3)
    else if UINT64_MAX - total <? n then fail (-4)
    else
      r ← check_used ignore (extent_sectors i e) refs;
      match r with inl x => fail x | inr refs => check_extents ignore es i (total + n) refs end
  end.

(** Every entry of a directory; [last] is the code for an entry that cannot be read. *)
Fixpoint each_entry {A} (n : nat) (dir off : Z) (unread : Z) (a : A) (body : rixfs_dirent_disk_t -> A -> FS W (Z + A)) : FS W (Z + A) :=
  match n with
  | O => fail unread
  | S n =>
    '(r, off') ← rixfs_readdir dir off (RIXFS_NAME_MAX + 1);
    match r with
    | inl e => if e =? 1 then done a else fail unread
    | inr (e, _) => r ← body e a; match r with inl x => fail x | inr a => each_entry n dir off' unread a body end
    end
  end.
(** An entry takes at least 16 bytes, so there are fewer entries than bytes. *)
Definition entry_turns (i : rixfs_inode_disk_t) : nat := S (Z.to_nat (in_size i)).

Definition check_entry (e : rixfs_dirent_disk_t) (_ : unit) : FS W (Z + unit) :=
  f ← handle;
  if (de_inode e =? 0) || (inode_count (super f) <? de_inode e) then fail (-8)
  else try (-8) (rixfs_read_inode (de_inode e)) (fun child =>
    if in_inode child =? 0 then fail (-8)
    else
      let t := Z.land (in_mode child) RIXFS_IFMT in
      let expected := if t =? RIXFS_IFDIR then RIXFS_DIR_TYPE_DIR else if t =? RIXFS_IFLNK then RIXFS_DIR_TYPE_SYMLINK else RIXFS_DIR_TYPE_FILE in
      if negb (de_type e =? expected) then fail (-8) else done tt).

(** The sectors referenced so far, with those of the inode. *)
Definition check_inode (ignore : bool) (ino refs : Z) : FS W (Z + Z) :=
  f ← handle;
  try (-1) (rixfs_read_inode ino) (fun i =>
    if in_inode i =? 0 then done refs
    else
      let t := Z.land (in_mode i) RIXFS_IFMT in
      if negb (t =? RIXFS_IFREG) && negb (t =? RIXFS_IFDIR) && negb (t =? RIXFS_IFLNK) then fail (-2)
      else if self_overlap i then fail (-9)
      else
        r ← check_prior (Z.to_nat (ino - 1)) 1 i;
        match r with
        | inl x => fail x
        | inr _ =>
          r ← check_extents ignore (seqZ 0 RIXFS_DIRECT_EXTENTS) i 0 refs;
          match r with
          | inl x => fail x
          | inr (total, refs) =>
            if (t =? RIXFS_IFREG) && (total <? sectors_for (sector_size (device f)) (in_size i)) then fail (-6)
            else if t =? RIXFS_IFDIR then
              r ← each_entry (entry_turns i) ino 0 (-7) tt check_entry;
              mret (match r with inl x => inl x | inr _ => inr refs end)
            else done refs
          end
        end).

(** How many entries name an inode. *)
Fixpoint count_links (n : nat) (dir target links : Z) : FS W (Z + Z) :=
  match n with
  | O => done links
  | S n => try (-1) (rixfs_read_inode dir) (fun i =>
      if (in_inode i =? 0) || negb (is_dir i) then count_links n (dir + 1) target links
      else
        r ← each_entry (entry_turns i) dir 0 (-2) links (fun e links =>
              if de_inode e =? target then if links =? UINT32_MAX then fail (-3) else done (links + 1) else done links);
        match r with inl x => fail x | inr links => count_links n (dir + 1) target links end)
  end.
Definition inode_link_count (target : Z) : FS W (Z + Z) := f ← handle; count_links (Z.to_nat (inode_count (super f))) 1 target 0.

(** One pass over the directories reached so far; whether something new was reached. *)
Fixpoint reach_pass (n : nat) (dir : Z) (seen : list Z) (changed : bool) : FS W (Z + (list Z * bool)) :=
  match n with
  | O => done (seen, changed)
  | S n =>
    if negb (seen_bit seen dir) then reach_pass n (dir + 1) seen changed
    else try (-2) (rixfs_read_inode dir) (fun i =>
      if negb (is_dir i) then reach_pass n (dir + 1) seen changed
      else
        f ← handle;
        r ← each_entry (entry_turns i) dir 0 (-3) (seen, changed) (fun e '(seen, changed) =>
              if (de_inode e =? 0) || (inode_count (super f) <? de_inode e) then fail (-3)
              else if seen_bit seen (de_inode e) then done (seen, changed) else done (see seen (de_inode e), true));
        match r with inl x => fail x | inr (seen, changed) => reach_pass n (dir + 1) seen changed end)
  end.
(** Each pass but the last reaches a new inode. *)
Fixpoint reach_loop (n : nat) (seen : list Z) : FS W (Z + list Z) :=
  match n with
  | O => done seen
  | S n =>
    f ← handle;
    r ← reach_pass (Z.to_nat (inode_count (super f))) 1 seen false;
    match r with
    | inl x => fail x
    | inr (seen, changed) => if (changed : bool) then reach_loop n seen else done seen
    end
  end.
Fixpoint all_reached (n : nat) (ino : Z) (seen : list Z) : FS W (Z + unit) :=
  match n with
  | O => done tt
  | S n => try (-4) (rixfs_read_inode ino) (fun i => if negb (in_inode i =? 0) && negb (seen_bit seen ino) then fail (-5) else all_reached n (ino + 1) seen)
  end.
Definition check_reachable : FS W (Z + unit) :=
  f ← handle;
  let bytes := u64 (inode_count (super f) + 7) / 8 in
  if (bytes =? 0) || (sizeof_reachable <? bytes) then fail (-1)
  else
    r ← reach_loop (S (Z.to_nat (inode_count (super f)))) (see (zeros sizeof_reachable) (root_inode (super f)));
    match r with inl x => fail x | inr seen => all_reached (Z.to_nat (inode_count (super f))) 1 seen end.

Fixpoint count_used (l : list Z) (total : Z) : FS W (Z + Z) :=
  match l with
  | [] => done total
  | s :: l => try (-2) (bitmap_test false s) (fun used => if used then if total =? UINT64_MAX then fail (-3) else count_used l (total + 1) else count_used l total)
  end.
Definition count_allocated_data_sectors : FS W (Z + Z) :=
  f ← handle;
  let ds := data_start_sector (super f) in
  if total_sectors (super f) <=? ds then fail (-1) else count_used (seqZ ds (total_sectors (super f) - ds)) 0.

(** The inodes one by one: how many are in use and how many sectors they have. *)
Fixpoint check_inodes (n : nat) (ignore : bool) (ino checked refs : Z) : FS W (Z + (Z * Z)) :=
  match n with
  | O => done (checked, refs)
  | S n => try (-4) (rixfs_read_inode ino) (fun i =>
      if in_inode i =? 0 then check_inodes n ignore (ino + 1) checked refs
      else if negb (in_inode i =? ino) then fail (-5)
      else
        r ← check_inode ignore ino refs;
        match r with inl x => fail (-10 + x) | inr refs => check_inodes n ignore (ino + 1) (checked + 1) refs end)
  end.

Definition root_bad : FS W bool :=
  f ← handle;
  r ← rixfs_read_inode (root_inode (super f));
  mret (match r with inl _ => true | inr i => negb (in_inode i =? root_inode (super f)) || negb (is_dir i) end).

Fixpoint check_links (n : nat) (ino : Z) : FS W (Z + unit) :=
  match n with
  | O => done tt
  | S n => try (-21) (rixfs_read_inode ino) (fun i =>
      f ← handle;
      if (in_inode i =? 0) || (ino =? root_inode (super f)) then check_links n (ino + 1)
      else try (-22) (inode_link_count ino) (fun links =>
        if links =? 0 then fail (-23)
        else if negb (is_dir i) && negb (in_links i =? links) then fail (-24)
        else check_links n (ino + 1)))
  end.

(** A call on a handle of its own. *)
Definition on_fresh {A} (d : rix_block_device_t) (m : FS W A) : FS W A :=
  outer ← handle;
  _ ← set_handle (fun _ => {| device := d; super := zero_super; mounted := false; meta_hint := 0 |});
  r ← m;
  _ ← rixfs_unmount;
  _ ← set_handle (fun _ => outer);
  mret r.

Definition fsck_body : FS W (Z + (Z * Z)) :=
  f ← handle;
  let n := Z.to_nat (inode_count (super f)) in
  if (root_inode (super f) =? 0) || (inode_count (super f) <? root_inode (super f)) then fail (-3)
  else
    r ← check_inodes n false 1 0 0;
    match r with
    | inl x => fail x
    | inr (checked, refs) =>
      bad ← root_bad;
      if (bad : bool) then fail (-20)
      else try (-25) check_reachable (fun _ => try (-26) count_allocated_data_sectors (fun allocated =>
        if negb (allocated =? refs) then fail (-26)
        else r ← check_links n 1; mret (match r with inl x => inl x | inr _ => inr (checked, refs) end)))
    end.
Definition rixfs_fsck (d : rix_block_device_t) : FS W (Z + (Z * Z)) := on_fresh d (try (-2) (rixfs_mount d) (fun _ => fsck_body)).

(** ** Repair of the bitmap *)

Definition repair_validate_structure : FS W (Z + unit) :=
  f ← handle;
  let n := Z.to_nat (inode_count (super f)) in
  if (root_inode (super f) =? 0) || (inode_count (super f) <? root_inode (super f)) then fail (-1)
  else
    r ← check_inodes n true 1 0 0;
    match r with
    | inl x => fail (if x =? -4 then -2 else -3)
    | inr _ =>
      bad ← root_bad;
      if (bad : bool) then fail (-4)
      else try (-4) check_reachable (fun _ =>
        r ← check_links n 1;
        match r with inl x => fail (if x =? -21 then -5 else -6) | inr _ => done tt end)
    end.

(** The bits of one bitmap sector that covers the sectors from [first] to [last]. *)
Definition want_bits (first last : Z) (l : list Z) (want : list Z) : list Z :=
  foldl (fun w s => if (first <=? s) && (s <? last) then aset (Z.shiftr (s - first) 3) (Z.lor (aget 0 w (Z.shiftr (s - first) 3)) (Z.shiftl 1 (Z.land s 7))) w else w) want l.
Fixpoint want_inodes (n : nat) (ino first last : Z) (want : list Z) : FS W (Z + list Z) :=
  match n with
  | O => done want
  | S n => try (-7) (rixfs_read_inode ino) (fun i =>
      want_inodes n (ino + 1) first last (if in_inode i =? 0 then want else want_bits first last (inode_sectors i) want))
  end.
(** The bits in which two bytes differ. *)
Definition delta_bits (x y : Z) : Z := countb (fun b => Z.testbit (Z.lxor x y) b) (seqZ 0 8).

(** One turn per sector of the bitmap; [changed] counts the bits that were wrong. *)
Fixpoint repair_loop (n : nat) (bs changed : Z) : FS W (Z + Z) :=
  match n with
  | O => done changed
  | S n =>
    f ← handle;
    let ss := sector_size (device f) in
    let total := total_sectors (super f) in
    let first := bs * ss * 8 in
    let last := if total <? first + ss * 8 then total else first + ss * 8 in
    try (-6) (rd_sec (u64 (bitmap_sector (super f) + bs))) (fun cur =>
      let want := want_bits first last (seqZ first ((if data_start_sector (super f) <? last then data_start_sector (super f) else last) - first)) (zeros ss) in
      try (-7) (want_inodes (Z.to_nat (inode_count (super f))) 1 first last want) (fun want =>
        let changed := u64 (changed + sumz (fun i => delta_bits (aget 0 cur i) (aget 0 want i)) (seqZ 0 ss)) in
        if bool_decide (take (Z.to_nat ss) cur = want) then repair_loop n (bs + 1) changed
        else try (-8) (wr_sec (u64 (bitmap_sector (super f) + bs)) want) (fun _ => repair_loop n (bs + 1) changed)))
  end.

Definition repair_body : FS W (Z + Z) :=
  try (-3) repair_validate_structure (fun _ =>
    f ← handle;
    let sb := super f in
    if (bitmap_sectors sb =? 0) || (u64 (bitmap_sectors sb * sector_size (device f)) <? total_sectors sb / 8) then fail (-4)
    else with_page (-5) (with_page (-5) (
      r ← repair_loop (Z.to_nat (bitmap_sectors sb)) 0 0;
      match r with
      | inl x => fail x
      | inr changed => try (-9) flush_dev (fun _ => done changed)
      end))).
Definition rixfs_fsck_repair (d : rix_block_device_t) : FS W (Z + Z) :=
  if (sector_size d =? 0) || (RIXFS_SECTOR_MAX <? sector_size d) then fail (-1)
  else on_fresh d (try (-2) (rixfs_mount d) (fun _ => repair_body)).
End Check.
