(* ===== verification/RixRules.v ===== *)
(** * Reasoning about RixFS on a reliable device

    [returns m f D Q]: on a device with the contents [D] the call [m] returns, and its
    result, the handle and the contents afterwards satisfy [Q]. *)
From stdpp Require Import base tactics list numbers.
From S2P Require Import Prelude Bytes Block Journal RixInode RixFs.

Import Disk (upd).

(** A device that carries out every request inside its range, and pages that do not run out. *)
Class Reliable (W : Type) `{!Machine W} := {
  sound : W -> Prop;
  content : W -> Z -> list Z;
  reliable_rd d s b w : dev_ok d -> 0 <= s < sector_count d -> sound w ->
    exists w', rd d s b w = (w', Some (0, content w s ++ drop (length (content w s)) b)) /\ sound w' /\ content w' = content w;
  reliable_wr d s b w : dev_ok d -> 0 <= s < sector_count d -> sound w ->
    exists w', wr d s b w = (w', Some 0) /\ sound w' /\ content w' = upd (content w) s (slice b 0 (sector_size d));
  reliable_flush d w : dev_ok d -> sound w -> exists w', flush d w = (w', Some 0) /\ sound w' /\ content w' = content w;
  reliable_alloc w : sound w -> exists q w', pmm_alloc_page w = (w', Some q) /\ q <> 0 /\ sound w' /\ content w' = content w;
  reliable_free q w : sound w -> exists w', pmm_free_page q w = (w', Some tt) /\ sound w' /\ content w' = content w;
}.

(** Every sector of the disk is full. *)
Definition disk_shape (f : rixfs_t) (D : Z -> list Z) : Prop := forall s, len (D s) = sector_size (device f).

Section Rules.
Context {W : Type} `{!Machine W} `{!Reliable W}.

Definition returns {A} (m : FS W A) (f : rixfs_t) (D : Z -> list Z) (Q : A -> rixfs_t -> (Z -> list Z) -> Prop) : Prop :=
  forall w, sound w -> content w = D -> exists a f' w', m f w = (w', Some (a, f')) /\ sound w' /\ Q a f' (content w').

Lemma returns_ret {A} (a : A) f D (Q : A -> rixfs_t -> (Z -> list Z) -> Prop) : Q a f D -> returns (mret a) f D Q.
Proof. intros HQ w Hw <-. by exists a, f, w. Qed.

Lemma returns_bind {A B} (m : FS W A) (k : A -> FS W B) f D Q : returns m f D (fun a f' D' => returns (k a) f' D' Q) -> returns (m ≫= k) f D Q.
Proof.
  intros Hm w Hw HD. destruct (Hm w Hw HD) as (a & f1 & w1 & E1 & Hw1 & Hk). destruct (Hk w1 Hw1 eq_refl) as (b & f2 & w2 & E2 & Hw2 & HQ).
  exists b, f2, w2. unfold mbind, FS_bind, mbind, IO_bind. by rewrite E1.
Qed.

Lemma returns_conseq {A} (m : FS W A) f D (Q Q' : A -> rixfs_t -> (Z -> list Z) -> Prop) : returns m f D Q -> (forall a f' D', Q a f' D' -> Q' a f' D') -> returns m f D Q'.
Proof. intros Hm HQ w Hw HD. destruct (Hm w Hw HD) as (a & f1 & w1 & E & H1 & H2). exists a, f1, w1. auto. Qed.

Lemma returns_handle {B} (k : rixfs_t -> FS W B) f D Q : returns (k f) f D Q -> returns (handle ≫= k) f D Q.
Proof. intros H. apply returns_bind. intros w Hw HD. exists f, f, w. by rewrite HD. Qed.

Lemma returns_set_handle {B} (g : rixfs_t -> rixfs_t) (k : unit -> FS W B) f D Q : returns (k tt) (g f) D Q -> returns (set_handle g ≫= k) f D Q.
Proof. intros H. apply returns_bind. intros w Hw HD. exists tt, (g f), w. by rewrite HD. Qed.

Lemma returns_try {A B} e (m : FS W (Z + A)) (k : A -> FS W (Z + B)) f D Q :
  returns m f D (fun r f' D' => match r with inl _ => Q (inl e) f' D' | inr a => returns (k a) f' D' Q end) -> returns (try e m k) f D Q.
Proof. intros H. apply returns_bind. eapply returns_conseq; [exact H|]. intros [x|a] f' D' H'; [by apply returns_ret|done]. Qed.

Lemma returns_with_page {A} e (body : FS W (Z + A)) f D Q : returns body f D Q -> returns (with_page e body) f D Q.
Proof.
  intros Hb w Hw HD. destruct (reliable_alloc w Hw) as (q & w1 & E1 & Hq & Hw1 & H1). rewrite HD in H1. destruct (Hb w1 Hw1 H1) as (a & f' & w2 & E2 & Hw2 & HQ).
  destruct (reliable_free q w2 Hw2) as (w3 & E3 & Hw3 & H3). exists a, f', w3. rewrite H3. split; [|done].
  unfold with_page, io, fail, mbind, FS_bind, mret, FS_ret, mbind, IO_bind, mret, IO_ret. rewrite E1. rewrite (proj2 (Z.eqb_neq q 0) Hq), E2. by rewrite E3.
Qed.

(** ** Sectors *)

Lemma rd_beyond d s b (w : W) : sector_count d <= s -> rd d s b w = (w, Some (-1, b)).
Proof.
  intros Hs. unfold rd, mbind, IO_bind, block_submit. cbn [op count buffer sector]. destruct (negb (has_submit d)); [done|]. destruct (decide _); [done|].
  rewrite (proj2 (Z.leb_le (sector_count d) s) Hs). by rewrite orb_true_r.
Qed.
Lemma wr_beyond d s b (w : W) : sector_count d <= s -> wr d s b w = (w, Some (-1)).
Proof.
  intros Hs. unfold wr, mbind, IO_bind, block_submit. cbn [op count buffer sector]. destruct (negb (has_submit d)); [done|]. destruct (decide _); [done|].
  rewrite (proj2 (Z.leb_le (sector_count d) s) Hs). by rewrite orb_true_r.
Qed.

Lemma returns_rd s f D Q : dev_ok (device f) -> disk_shape f D -> 0 <= s ->
  Q (if s <? sector_count (device f) then inr (D s) else inl (-1)) f D -> returns (rd_sec s) f D Q.
Proof.
  intros Hd Hs H0 HQ w Hw HD. unfold rd_sec, handle, io, mbind, FS_bind, mret, FS_ret, mbind, IO_bind, mret, IO_ret. destruct (s <? sector_count (device f)) eqn:E; bool_to_prop.
  - destruct (reliable_rd (device f) s (zeros (sector_size (device f))) w Hd ltac:(lia) Hw) as (w' & E1 & Hw' & H'). rewrite E1. cbn [truthy Z.eqb negb].
    exists (inr (D s)), f, w'. rewrite HD in *. rewrite H'. split; [|done]. rewrite drop_ge, app_nil_r; [done|]. unfold zeros. rewrite length_replicate. specialize (Hs s). lia.
  - rewrite rd_beyond by lia. cbn. exists (inl (-1)), f, w. by rewrite HD.
Qed.

Lemma returns_wr s b f D Q : dev_ok (device f) -> 0 <= s < sector_count (device f) ->
  Q (inr tt) f (upd D s (slice b 0 (sector_size (device f)))) -> returns (wr_sec s b) f D Q.
Proof.
  intros Hd Hs HQ w Hw HD. unfold wr_sec, code, handle, io, mbind, FS_bind, mret, FS_ret, mbind, IO_bind, mret, IO_ret.
  destruct (reliable_wr (device f) s b w Hd Hs Hw) as (w' & E1 & Hw' & H'). rewrite E1. cbn. exists (inr tt), f, w'. rewrite HD in H'. by rewrite H'.
Qed.
End Rules.

(** ** Memory as a device *)

Definition ram : Type := Z -> list Z.
Definition ram_submit (dev : rix_block_device_t) (b : rix_bio_t) : IO ram (Z * rix_bio_t) := fun m =>
  match op b with
  | RIX_BIO_READ =>
      let data := flat_map m (seqZ (sector b) (count b)) in
      (m, Some (0, Disk.set_buffer (data ++ drop (length data) (default [] (buffer b))) (set_state RIX_BIO_COMPLETE 0 b)))
  | RIX_BIO_WRITE => (Disk.apply_writes (Disk.chunks (sector_size dev) b) m, Some (0, set_state RIX_BIO_COMPLETE 0 b))
  | RIX_BIO_FLUSH => (m, Some (0, set_state RIX_BIO_COMPLETE 0 b))
  end.
#[export] Instance ram_machine : Machine ram := { submit := ram_submit; pmm_alloc_page := fun m => (m, Some 4096); pmm_free_page _ := fun m => (m, Some tt) }.

Lemma ram_request d b (m : ram) : dev_ok d -> count b = 1 -> op b <> RIX_BIO_FLUSH -> buffer b <> None -> buffer_size b = sector_size d -> 0 <= sector b < sector_count d ->
  block_submit (Some d) (Some b) m = (dispatch d b ≫= fun '(rc, b') => mret (rc, Some b')) m.
Proof.
  intros (H1 & H2 & H3 & H4) Hc Ho Hb Hs Hr. unfold block_submit. rewrite H1, Hc, Hs. cbn [negb]. destruct (decide _); [done|]. change (1 =? 0) with false. cbn [orb].
  destruct (buffer b); [|done]. rewrite (u64_id (sector_count d - sector b)) by (unfold is_u64; lia). unfold RIXFS_PAGE_SIZE in *.
  rewrite (u64_id (1 * sector_size d)) by (unfold is_u64; lia). rewrite Z.div_1_r, Z.mul_1_l, Z.eqb_refl, Z.ltb_irrefl. cbn [negb orb].
  rewrite (proj2 (Z.ltb_ge _ _)) by lia. rewrite (proj2 (Z.leb_gt _ _)) by lia. by rewrite (proj2 (Z.ltb_ge _ _)) by lia.
Qed.

#[export, program] Instance ram_reliable : Reliable ram := {| sound _ := True; content m := m |}.
Next Obligation.
  intros d s b m Hd Hs _. exists m. split; [|done]. unfold rd, mbind, IO_bind. rewrite ram_request by done. unfold dispatch, mbind, IO_bind. cbn [submit ram_machine].
  unfold ram_submit. cbn [op set_state sector count buffer]. change (seqZ s 1) with [Z.of_nat 0 + s]. rewrite Z.add_0_l. cbn. by rewrite app_nil_r.
Qed.
Next Obligation.
  intros d s b m Hd Hs _. exists (upd m s (slice b 0 (sector_size d))). split; [|done]. unfold wr, mbind, IO_bind. rewrite ram_request by done. unfold dispatch, mbind, IO_bind. cbn [submit ram_machine].
  unfold ram_submit. cbn [op set_state sector count buffer]. unfold Disk.chunks. cbn [op set_state sector count buffer default]. change (seqZ 0 1) with [0]. cbn. by rewrite Z.add_0_r.
Qed.
Next Obligation. intros d m (H1 & _) _. exists m. split; [|done]. unfold flush, mbind, IO_bind, block_submit. rewrite H1. cbn. done. Qed.
Next Obligation. intros m _. by exists 4096, m. Qed.
Next Obligation. intros q m _. by exists m. Qed.
