(* ===== verification/RixFiles.v ===== *)
(** * RixFS: what files hold

    The sectors of an inode, the bytes of a file, and the reads and writes of the code
    against them, on a reliable device. *)
From stdpp Require Import base tactics list numbers.
From S2P Require Import Prelude Bytes Block Journal RixInode RixFs RixRules.

Import Disk (upd).

(** ** Extents *)

Definition extent_ok (total s l : Z) : Prop := 0 <= s /\ 0 <= l /\ (0 < l -> s + l <= total).
Definition extents_ok (total : Z) (i : rixfs_inode_disk_t) : Prop :=
  length (in_extent_start i) = 4%nat /\ length (in_extent_length i) = 4%nat /\ forall e, 0 <= e < RIXFS_DIRECT_EXTENTS -> extent_ok total (extent_start i e) (extent_length i e).

Lemma extent_sectors_plain total i e : extents_ok total i -> total < 2 ^ 64 -> 0 <= e < RIXFS_DIRECT_EXTENTS -> extent_sectors i e = seqZ (extent_start i e) (extent_length i e).
Proof.
  intros (_ & _ & H) Ht He. destruct (H e He) as (H1 & H2 & H3). unfold extent_sectors.
  trans (Z.add (extent_start i e) <$> seqZ 0 (extent_length i e)); [|by rewrite fmap_add_seqZ, Z.add_0_r]. apply list_fmap_ext. intros k x Hx. apply lookup_seqZ in Hx as [-> Hx]. rewrite u64_id; [done|]. unfold is_u64. lia.
Qed.

Lemma map_found (l : list Z) (s n pos : Z) : 0 <= pos < n -> l = seqZ s n -> forall r : list Z, (l ++ r) !! Z.to_nat pos = Some (s + pos).
Proof. intros Hp -> r. rewrite lookup_app_l by (rewrite length_seqZ; lia). rewrite lookup_seqZ_lt by lia. f_equal. lia. Qed.

Lemma map_passed (l : list Z) (s n pos : Z) : n <= pos -> 0 <= n -> l = seqZ s n -> forall r : list Z, (l ++ r) !! Z.to_nat pos = r !! Z.to_nat (pos - n).
Proof. intros Hp Hn -> r. rewrite lookup_app_r by (rewrite length_seqZ; lia). rewrite length_seqZ. f_equal. lia. Qed.

(** The sectors from extent [e] on. *)
Definition sectors_from (i : rixfs_inode_disk_t) (e : Z) : list Z := flat_map (extent_sectors i) (seqZ e (RIXFS_DIRECT_EXTENTS - e)).

Lemma sectors_step total i e pos : extents_ok total i -> total < 2 ^ 64 -> 0 <= e < RIXFS_DIRECT_EXTENTS -> 0 <= pos ->
  sectors_from i e !! Z.to_nat pos = if pos <? extent_length i e then Some (extent_start i e + pos) else sectors_from i (e + 1) !! Z.to_nat (pos - extent_length i e).
Proof.
  intros Hok Ht He Hp. pose proof Hok as (_ & _ & H). destruct (H e He) as (H1 & H2 & H3). unfold sectors_from. rewrite seqZ_cons by lia. cbn [flat_map].
  pose proof (extent_sectors_plain total i e Hok Ht He) as Es. replace (Z.pred (RIXFS_DIRECT_EXTENTS - e)) with (RIXFS_DIRECT_EXTENTS - (e + 1)) by lia. replace (Z.succ e) with (e + 1) by lia.
  destruct (pos <? extent_length i e) eqn:E; bool_to_prop; [by apply (map_found _ _ (extent_length i e))|by apply (map_passed _ (extent_start i e))].
Qed.

(** [extent_map] and [dir_sector] index the list of sectors. *)
Lemma extent_map_spec total i l : extents_ok total i -> total < 2 ^ 64 -> 0 <= l -> extent_map i l = inode_sectors i !! Z.to_nat l.
Proof.
  intros Hok Ht Hl. unfold extent_map. pose proof Hok as (_ & _ & H). set (body := fun e pos => _).
  pose proof (for_inv (fun e pos => 0 <= pos /\ inode_sectors i !! Z.to_nat l = sectors_from i e !! Z.to_nat pos) (fun r => r = inode_sectors i !! Z.to_nat l) 0 RIXFS_DIRECT_EXTENTS body l
    ltac:(done) ltac:(by split)) as Hf.
  assert (Hstep : forall e pos, 0 <= e < 0 + RIXFS_DIRECT_EXTENTS -> 0 <= pos /\ inode_sectors i !! Z.to_nat l = sectors_from i e !! Z.to_nat pos ->
    match body e pos with inl p => 0 <= p /\ inode_sectors i !! Z.to_nat l = sectors_from i (e + 1) !! Z.to_nat p | inr r => r = inode_sectors i !! Z.to_nat l end).
  { intros e pos He [Hp ->]. destruct (H e He) as (H1 & H2 & H3). rewrite (sectors_step total) by done. unfold body. cbv zeta. destruct (extent_length i e =? 0) eqn:E0; bool_to_prop.
    - rewrite E0. rewrite (proj2 (Z.ltb_ge _ _)) by lia. split; [done|]. by rewrite Z.sub_0_r.
    - destruct (pos <? extent_length i e) eqn:E1; bool_to_prop; [|split; [lia|done]]. by rewrite (proj2 (Z.ltb_ge _ _)) by (unfold UINT64_MAX; lia). }
  specialize (Hf Hstep). destruct (for_ _ _ _ l) as [pos|r]; [|done]. destruct Hf as [_ ->]. by destruct (Z.to_nat pos).
Qed.

Lemma dir_sector_spec total i l : extents_ok total i -> total < 2 ^ 64 -> 0 <= l -> dir_sector i l = inode_sectors i !! Z.to_nat l.
Proof.
  intros Hok Ht Hl. unfold dir_sector. pose proof Hok as (_ & _ & H). set (body := fun e pos => _).
  pose proof (for_inv (fun e pos => 0 <= pos /\ inode_sectors i !! Z.to_nat l = sectors_from i e !! Z.to_nat pos) (fun s => inode_sectors i !! Z.to_nat l = Some s) 0 RIXFS_DIRECT_EXTENTS body l
    ltac:(done) ltac:(by split)) as Hf.
  assert (Hstep : forall e pos, 0 <= e < 0 + RIXFS_DIRECT_EXTENTS -> 0 <= pos /\ inode_sectors i !! Z.to_nat l = sectors_from i e !! Z.to_nat pos ->
    match body e pos with inl p => 0 <= p /\ inode_sectors i !! Z.to_nat l = sectors_from i (e + 1) !! Z.to_nat p | inr s => inode_sectors i !! Z.to_nat l = Some s end).
  { intros e pos He [Hp ->]. destruct (H e He) as (H1 & H2 & H3). rewrite (sectors_step total) by done. unfold body.
    destruct (pos <? extent_length i e) eqn:E1; bool_to_prop; [|split; [lia|done]]. rewrite u64_id; [done|]. unfold is_u64. lia. }
  specialize (Hf Hstep). destruct (for_ _ _ _ l) as [pos|s]; [|by rewrite Hf]. destruct Hf as [_ ->]. by destruct (Z.to_nat pos).
Qed.

Lemma sector_in_range total i k s : extents_ok total i -> total < 2 ^ 64 -> inode_sectors i !! k = Some s -> 0 <= s < total.
Proof.
  intros Hok Ht Hs. apply list_elem_of_lookup_2 in Hs. unfold inode_sectors in Hs. apply list_elem_of_In, in_flat_map in Hs as (e & He & Hs). apply list_elem_of_In in He, Hs.
  apply elem_of_seqZ in He. rewrite (extent_sectors_plain total) in Hs by done. apply elem_of_seqZ in Hs. destruct Hok as (_ & _ & H). destruct (H e He) as (H1 & H2 & H3). lia.
Qed.

(** ** The bytes of a file *)

Definition file_bytes (D : Z -> list Z) (i : rixfs_inode_disk_t) : list Z := concat (D <$> inode_sectors i).

Lemma concat_at (ss : Z) (L : list (list Z)) k v j : 0 < ss -> Forall (fun x => len x = ss) L -> L !! k = Some v -> 0 <= j < ss -> aget 0 (concat L) (Z.of_nat k * ss + j) = aget 0 v j.
Proof.
  intros Hss HL. revert k. induction HL as [|x L Hx _ IH]; intros [|k] Hk Hj; try done; cbn [concat].
  - injection Hk as ->. rewrite aget_app by lia. by rewrite (proj2 (Z.ltb_lt _ _)) by lia.
  - rewrite aget_app by nia. rewrite (proj2 (Z.ltb_ge _ _)) by nia. rewrite <- (IH k Hk Hj). f_equal. nia.
Qed.
Lemma length_concat (ss : Z) (L : list (list Z)) : Forall (fun x => len x = ss) L -> len (concat L) = len L * ss.
Proof. induction 1 as [|x L Hx _ IH]; [done|]. cbn [concat length]. rewrite length_app. lia. Qed.

Lemma sectors_full f D (l : list Z) : disk_shape f D -> Forall (fun x => len x = sector_size (device f)) (D <$> l).
Proof. intros Hs. apply Forall_fmap, Forall_true. intros s. apply Hs. Qed.

Lemma file_at f D i k s j : disk_shape f D -> 0 < sector_size (device f) -> inode_sectors i !! k = Some s -> 0 <= j < sector_size (device f) ->
  aget 0 (file_bytes D i) (Z.of_nat k * sector_size (device f) + j) = aget 0 (D s) j.
Proof. intros Hs H0 Hk Hj. unfold file_bytes. apply concat_at; try done; [by apply sectors_full|]. by rewrite list_lookup_fmap, Hk. Qed.

Lemma length_file f D i : disk_shape f D -> len (file_bytes D i) = len (inode_sectors i) * sector_size (device f).
Proof. intros Hs. unfold file_bytes. rewrite (length_concat (sector_size (device f))) by (by apply sectors_full). by rewrite length_fmap. Qed.

(** ** Inodes *)

(** The regions of a mounted file system lie where [rixfs_mount] checks that they lie, and
    do not overlap. *)
Definition layout (f : rixfs_t) : Prop :=
  let sb := super f in
  let ss := sector_size (device f) in
  let isec := (inode_count sb * RIXFS_INODE_SIZE + (ss - 1)) / ss in
  dev_ok (device f) /\ mounted f = true /\ total_sectors sb = sector_count (device f) /\ 0 <= inode_table_sector sb /\ 0 <= inode_count sb /\ inode_count sb * RIXFS_INODE_SIZE + ss < 2 ^ 64 /\
  inode_table_sector sb + isec <= data_start_sector sb /\ data_start_sector sb < total_sectors sb.

Definition inode_at (f : rixfs_t) (D : Z -> list Z) (ino : Z) : option rixfs_inode_disk_t :=
  match inode_location f ino with Some (s, o) => Some (inode_of (D s) o) | None => None end.

Lemma inode_location_ok f ino s o : layout f -> 0 <= ino -> inode_location f ino = Some (s, o) ->
  1 <= ino <= inode_count (super f) /\ inode_table_sector (super f) <= s < data_start_sector (super f) /\ 0 <= o /\ o + RIXFS_INODE_SIZE <= sector_size (device f) /\
  s = inode_table_sector (super f) + (ino - 1) * RIXFS_INODE_SIZE / sector_size (device f) /\ o = (ino - 1) * RIXFS_INODE_SIZE mod sector_size (device f).
Proof.
  intros (Hd & Hm & Ht & H0 & Hc & Hw & Hi & Hds) Hino E. unfold inode_location in E. rewrite Hm in E. cbn [negb orb] in E. destruct (_ || _) eqn:E1; [done|]. bool_to_prop.
  destruct Hd as (_ & _ & Hss & Hsc). unfold RIXFS_INODE_SIZE in *. rewrite (u64_id ((ino - 1) * 128)) in E by (unfold is_u64; lia).
  destruct (sector_size (device f) <? _) eqn:E3; bool_to_prop; [done|]. injection E as <- <-.
  pose proof (Z.div_mod ((ino - 1) * 128) (sector_size (device f)) ltac:(lia)) as Hdm. pose proof (Z.mod_pos_bound ((ino - 1) * 128) (sector_size (device f)) ltac:(lia)) as Hb.
  assert (Hq : (ino - 1) * 128 / sector_size (device f) < (inode_count (super f) * 128 + (sector_size (device f) - 1)) / sector_size (device f)).
  { pose proof (Z.div_mod (inode_count (super f) * 128 + (sector_size (device f) - 1)) (sector_size (device f)) ltac:(lia)). pose proof (Z.mod_pos_bound (inode_count (super f) * 128 + (sector_size (device f) - 1)) (sector_size (device f)) ltac:(lia)). nia. }
  assert (0 <= (ino - 1) * 128 / sector_size (device f)) by (apply Z.div_pos; lia). rewrite u64_id by (unfold is_u64; lia). repeat split; lia.
Qed.

Section Files.
Context {W : Type} `{!Machine W} `{!Reliable W}.

Lemma returns_read_inode f D ino Q : layout f -> disk_shape f D -> 0 <= ino ->
  Q (match inode_at f D ino with Some i => inr i | None => inl (-2) end) f D -> returns (rixfs_read_inode (W := W) ino) f D Q.
Proof.
  intros Hl Hs Hi HQ. pose proof Hl as (Hd & Hm & Ht & _ & _ & _ & _ & Hds). unfold rixfs_read_inode. apply returns_handle. rewrite Hm. cbn [negb]. unfold inode_at in HQ.
  destruct (inode_location f ino) as [[s o]|] eqn:E; [|by apply returns_ret]. destruct (inode_location_ok f ino s o Hl Hi E) as (_ & H2 & _). destruct Hl as (_ & _ & _ & H0 & _).
  apply returns_with_page, returns_bind, returns_rd; [done|done|lia|]. rewrite (proj2 (Z.ltb_lt _ _)) by lia. by apply returns_ret.
Qed.

(** ** Reading *)

Lemma copy_join n m buf pos B off t b : len buf >= Z.of_nat n + Z.of_nat m -> pos = Z.of_nat n -> (forall j, 0 <= j < Z.of_nat m -> aget 0 t (b + j) = aget 0 B (off + pos + j)) ->
  copy m (copy n buf 0 B off) pos t b = copy (n + m) buf 0 B off.
Proof.
  intros Hl -> Ht. apply list_ext_aget; [by rewrite !length_copy|]. intros k. rewrite !length_copy. intros Hk. rewrite (aget_copy m) by (rewrite ?length_copy; lia). rewrite !aget_copy by lia.
  destruct (_ && _) eqn:E1; bool_to_prop.
  - rewrite Ht by lia. rewrite (proj2 (Z.leb_le 0 k)), (proj2 (Z.ltb_lt _ _)) by lia. cbn [andb]. f_equal. lia.
  - apply andb_false_iff in E1. rewrite (proj2 (Z.leb_le 0 k)) by lia. cbn [andb]. destruct (k <? 0 + Z.of_nat n) eqn:E2, (k <? 0 + Z.of_nat (n + m)) eqn:E3; bool_to_prop; try done; [lia|].
    destruct E1 as [E1|E1]; bool_to_prop; lia.
Qed.

(** Where the sector [ls] of the file starts in the buffer. *)
Definition at_sector (ss off size ls : Z) : Z := if ls * ss <=? off then 0 else Z.min (ls * ss - off) size.

(** The part of sector [ls] that a request covers. *)
Lemma sector_part ss off size ls : 0 < ss -> 0 <= off -> 0 < size -> let first := off / ss in let last := (off + size - 1) / ss in first <= ls <= last ->
  let b := if ls =? first then off mod ss else 0 in let e := if ls =? last then (off + size - 1) mod ss + 1 else ss in
  0 <= b /\ b < e <= ss /\ off + at_sector ss off size ls = ls * ss + b /\ at_sector ss off size ls + (e - b) = at_sector ss off size (ls + 1) /\
  0 <= at_sector ss off size ls /\ at_sector ss off size (ls + 1) <= size.
Proof.
  intros Hss Ho Hz first last Hls b e. pose proof (Z.div_mod off ss ltac:(lia)) as D1. pose proof (Z.mod_pos_bound off ss ltac:(lia)) as B1.
  pose proof (Z.div_mod (off + size - 1) ss ltac:(lia)) as D2. pose proof (Z.mod_pos_bound (off + size - 1) ss ltac:(lia)) as B2. fold first in D1. fold last in D2.
  unfold b, e, at_sector. clear b e. destruct (ls =? first) eqn:E1, (ls =? last) eqn:E2; bool_to_prop.
  - rewrite E1 in *. rewrite <- E2 in *. destruct (first * ss <=? off) eqn:E3; bool_to_prop; [|nia]. destruct ((first + 1) * ss <=? off) eqn:E4; bool_to_prop; nia.
  - rewrite E1 in *. destruct (first * ss <=? off) eqn:E3; bool_to_prop; [|nia]. destruct ((first + 1) * ss <=? off) eqn:E4; bool_to_prop; [nia|]. assert ((first + 1) * ss <= last * ss) by nia. lia.
  - rewrite E2 in *. assert ((first + 1) * ss <= last * ss) by nia. destruct (last * ss <=? off) eqn:E3; bool_to_prop; [nia|]. destruct ((last + 1) * ss <=? off) eqn:E4; bool_to_prop; nia.
  - assert ((first + 1) * ss <= ls * ss) by nia. assert ((ls + 1) * ss <= last * ss) by nia. destruct (ls * ss <=? off) eqn:E3; bool_to_prop; [nia|].
    destruct ((ls + 1) * ss <=? off) eqn:E4; bool_to_prop; [nia|]. lia.
Qed.

Lemma at_last ss off size : 0 < ss -> 0 <= off -> 0 < size -> at_sector ss off size ((off + size - 1) / ss + 1) = size.
Proof.
  intros Hss Ho Hz. pose proof (Z.div_mod (off + size - 1) ss ltac:(lia)) as D2. pose proof (Z.mod_pos_bound (off + size - 1) ss ltac:(lia)) as B2. unfold at_sector.
  destruct (_ <=? off) eqn:E; bool_to_prop; nia.
Qed.
Lemma at_first ss off size : 0 < ss -> 0 <= off -> at_sector ss off size (off / ss) = 0.
Proof. intros Hss Ho. pose proof (Z.div_mod off ss ltac:(lia)). pose proof (Z.mod_pos_bound off ss ltac:(lia)). unfold at_sector. destruct (_ <=? off) eqn:E; bool_to_prop; nia. Qed.

Lemma not_mapped f D i ls : disk_shape f D -> inode_sectors i !! Z.to_nat ls = None -> 0 <= ls -> len (file_bytes D i) <= ls * sector_size (device f).
Proof. intros Hs E Hl. rewrite (length_file f) by done. apply lookup_ge_None in E. specialize (Hs 0). nia. Qed.

Lemma mapped f D i ls s : disk_shape f D -> 0 < sector_size (device f) -> 0 <= ls -> inode_sectors i !! Z.to_nat ls = Some s -> (ls + 1) * sector_size (device f) <= len (file_bytes D i).
Proof. intros Hs H0 Hl E. rewrite (length_file f) by done. apply lookup_lt_Some in E. nia. Qed.

Lemma io_read_loop f D i buf off size n : forall ls, layout f -> disk_shape f D -> extents_ok (total_sectors (super f)) i -> 0 <= off -> 0 < size -> size <= len buf ->
  let ss := sector_size (device f) in let first := off / ss in let last := (off + size - 1) / ss in
  first <= ls -> ls + Z.of_nat n = last + 1 -> ls = first \/ ls * ss <= len (file_bytes D i) ->
  returns (io_loop (W := W) n i ls first last off size false (copy (Z.to_nat (at_sector ss off size ls)) buf 0 (file_bytes D i) off) (at_sector ss off size ls)) f D
    (fun r f' D' => f' = f /\ D' = D /\ r = if off + size <=? len (file_bytes D i) then inr (copy (Z.to_nat size) buf 0 (file_bytes D i) off) else inl (-6)).
Proof.
  induction n as [|n IH]; intros ls Hl Hs Hx Ho Hz Hb ss first last Hf Hn Hc; pose proof Hl as (Hd & Hm & Ht & _ & _ & _ & _ & Hds); pose proof Hd as (_ & _ & Hss & Hsc); fold ss in Hss.
  - cbn [io_loop]. apply returns_ret. split; [done|]. split; [done|]. replace ls with (last + 1) in * by lia. unfold last in *. rewrite (at_last ss off size) by lia.
    assert (first <= (off + size - 1) / ss) by (apply Z.div_le_mono; lia). pose proof (Z.div_mod (off + size - 1) ss ltac:(lia)). pose proof (Z.mod_pos_bound (off + size - 1) ss ltac:(lia)).
    rewrite (proj2 (Z.leb_le _ _)); [done|]. nia.
  - cbn [io_loop]. apply returns_handle. fold ss. assert (0 <= first) by (apply Z.div_pos; lia).
    destruct (sector_part ss off size ls ltac:(lia) Ho Hz ltac:(fold first last; lia)) as (P1 & P2 & P3 & P4 & P5 & P6). fold first last in P1, P2, P3, P4.
    set (b := if ls =? first then off mod ss else 0) in *. set (e := if ls =? last then (off + size - 1) mod ss + 1 else ss) in *.
    rewrite (extent_map_spec (total_sectors (super f))) by (done || lia). destruct (inode_sectors i !! Z.to_nat ls) as [s|] eqn:Es.
    2: { apply returns_ret. split; [done|]. split; [done|]. pose proof (not_mapped f D i ls Hs Es ltac:(lia)). fold ss in H0.
         pose proof (Z.div_mod (off + size - 1) ss ltac:(lia)) as D2. pose proof (Z.mod_pos_bound (off + size - 1) ss ltac:(lia)). fold last in D2. rewrite (proj2 (Z.leb_gt _ _)); [done|]. nia. }
    destruct (sector_in_range _ _ _ _ Hx ltac:(lia) Es) as [Hs0 Hs1]. rewrite (proj2 (Z.leb_gt _ _)) by lia. apply returns_try, returns_rd; [done|done|done|].
    rewrite (proj2 (Z.ltb_lt _ _)) by lia. rewrite (copy_join _ _ buf _ (file_bytes D i) off (D s) b); [|lia|lia|].
    + rewrite P4. replace (Z.to_nat (at_sector ss off size ls) + Z.to_nat (e - b))%nat with (Z.to_nat (at_sector ss off size (ls + 1))) by lia. refine (IH (ls + 1) Hl Hs Hx Ho Hz Hb _ _ _); fold ss first last; [lia|lia|]. right. apply (mapped f D i ls s); (done || fold ss; lia).
    + intros j Hj. replace (off + at_sector ss off size ls + j) with (Z.of_nat (Z.to_nat ls) * ss + (b + j)) by (rewrite Z2Nat.id; lia). symmetry. apply (file_at f); try done; fold ss; lia.
Qed.

(** The result of a read: the bytes of the file, or an error. *)
Definition read_result (D : Z -> list Z) (i : rixfs_inode_disk_t) (off : Z) (buf : list Z) (size : Z) : Z + list Z :=
  if size =? 0 then inr buf
  else if in_size i <? off + size then inl (-4)
  else if off + size <=? len (file_bytes D i) then inr (copy (Z.to_nat size) buf 0 (file_bytes D i) off)
  else inl (-6).

Lemma returns_read f D ino i off buf size Q : layout f -> disk_shape f D -> inode_at f D ino = Some i -> 0 <= ino -> in_inode i = ino -> extents_ok (total_sectors (super f)) i ->
  0 <= off -> 0 <= size -> off + size <= UINT64_MAX -> size <= len buf -> Q (read_result D i off buf size) f D -> returns (rixfs_read (W := W) ino off buf size) f D Q.
Proof.
  intros Hl Hs Hi Hino Hin Hx Ho Hz Hw Hb HQ. pose proof Hl as (Hd & Hm & Ht & _ & _ & _ & _ & Hds). pose proof Hd as (_ & _ & Hss & Hsc).
  unfold rixfs_read, io_file. apply returns_handle. rewrite Hm. cbn [negb]. unfold read_result in HQ. destruct (size =? 0) eqn:E0; bool_to_prop; [by apply returns_ret|].
  rewrite (proj2 (Z.ltb_ge _ _)) by lia. apply returns_try, returns_read_inode; try done. rewrite Hi. rewrite Hin, Z.eqb_refl. cbn [negb orb].
  destruct (in_size i <? off + size) eqn:E1; bool_to_prop.
  { destruct (_ || _) eqn:E2; [by apply returns_ret|]. apply orb_false_iff in E2 as [E2 E3]; bool_to_prop. lia. }
  rewrite !(proj2 (Z.ltb_ge _ _)) by lia. cbn [orb]. apply returns_with_page. set (ss := sector_size (device f)) in *. eapply returns_conseq.
  - pose proof (io_read_loop f D i buf off size (Z.to_nat ((off + size - 1) / ss - off / ss + 1)) (off / ss) Hl Hs Hx Ho ltac:(lia) Hb) as H. cbv zeta in H. fold ss in H.
    rewrite (at_first ss off size) in H by lia. apply H; [lia| |by left]. assert (off / ss <= (off + size - 1) / ss) by (apply Z.div_le_mono; lia). lia.
  - intros r f' D' (-> & -> & ->). done.
Qed.

(** ** Writing *)

Lemma between a k b : (a <=? k) && (k <? b) = bool_decide (a <= k < b).
Proof. case_bool_decide as H; [by rewrite (proj2 (Z.leb_le a k)), (proj2 (Z.ltb_lt k b)) by lia|]. apply andb_false_iff. rewrite Z.leb_gt, Z.ltb_ge. lia. Qed.

Lemma copy_more n m B off buf : 0 <= off -> off + Z.of_nat n + Z.of_nat m <= len B -> copy m (copy n B off buf 0) (off + Z.of_nat n) buf (Z.of_nat n) = copy (n + m) B off buf 0.
Proof.
  intros Ho Hl. apply list_ext_aget; [by rewrite !length_copy|]. intros k. rewrite !length_copy. intros Hk. rewrite (aget_copy m) by (rewrite ?length_copy; lia). rewrite !aget_copy by lia.
  rewrite !between. repeat case_bool_decide; try lia; try done; f_equal; lia.
Qed.

Lemma upd_same D s v : upd D s v s = v.
Proof. unfold upd. by rewrite Z.eqb_refl. Qed.
Lemma upd_other D s v x : x <> s -> upd D s v x = D x.
Proof. intros H. unfold upd. by rewrite (proj2 (Z.eqb_neq x s) H). Qed.
Lemma shape_upd f D s v : disk_shape f D -> len v = sector_size (device f) -> disk_shape f (upd D s v).
Proof. intros Hs Hv x. destruct (decide (x = s)) as [->|Hx]; [by rewrite upd_same|]. rewrite upd_other by done. apply Hs. Qed.

(** One sector of a file changed. *)
Lemma file_upd f D i k s v : disk_shape f D -> 0 < sector_size (device f) -> NoDup (inode_sectors i) -> inode_sectors i !! k = Some s -> len v = sector_size (device f) ->
  file_bytes (upd D s v) i = copy (Z.to_nat (sector_size (device f))) (file_bytes D i) (Z.of_nat k * sector_size (device f)) v 0.
Proof.
  intros Hs H0 Hnd Hk Hv. pose proof (shape_upd f D s v Hs Hv) as Hs'. set (ss := sector_size (device f)) in *. apply list_ext_aget.
  - rewrite length_copy. pose proof (length_file f D i Hs). pose proof (length_file f (upd D s v) i Hs'). lia.
  - intros j Hj. rewrite (length_file f) in Hj by done. fold ss in Hj. pose proof (length_file f D i Hs) as Hl. fold ss in Hl. apply lookup_lt_Some in Hk as Hlt.
    rewrite aget_copy, between by (rewrite ?Z2Nat.id; nia). pose proof (Z.div_mod j ss ltac:(lia)) as D1. pose proof (Z.mod_pos_bound j ss ltac:(lia)) as B1.
    assert (0 <= j / ss) by (apply Z.div_pos; lia). destruct (lookup_lt_is_Some_2 (inode_sectors i) (Z.to_nat (j / ss))) as [s' Es']; [nia|].
    replace j with (Z.of_nat (Z.to_nat (j / ss)) * ss + j mod ss) at 1 by (rewrite Z2Nat.id; lia). rewrite (file_at f _ i _ s') by done.
    destruct (decide (Z.to_nat (j / ss) = k)) as [Ek|Ek].
    + rewrite Ek in Es'. rewrite Hk in Es'. injection Es' as <-. rewrite upd_same. rewrite bool_decide_eq_true_2 by (rewrite ?Z2Nat.id; nia). f_equal. nia.
    + rewrite upd_other by (intros ->; by eapply Ek, NoDup_lookup).
      rewrite bool_decide_eq_false_2 by (rewrite Z2Nat.id by lia; intros [? ?]; apply Ek; nia). rewrite <- (file_at f D i _ s') by done. f_equal. rewrite Z2Nat.id; lia.
Qed.

Lemma copy_twice n B o t b buf pos m ss : 0 <= o -> o + ss <= len B -> len t = ss -> 0 <= b -> b + Z.of_nat m <= ss -> n = Z.to_nat ss -> (forall j, 0 <= j < ss -> aget 0 t j = aget 0 B (o + j)) ->
  copy n B o (copy m t b buf pos) 0 = copy m B (o + b) buf pos.
Proof.
  intros Ho Hl Ht Hb Hm -> HB. apply list_ext_aget; [by rewrite !length_copy|]. intros k. rewrite !length_copy. intros Hk. rewrite !(aget_copy _ B) by lia. rewrite !between.
  case_bool_decide as H1; [|case_bool_decide; [lia|done]]. rewrite aget_copy by lia. rewrite between. repeat case_bool_decide; try lia; [f_equal; lia|]. rewrite HB by lia. f_equal. lia.
Qed.

Lemma io_write_loop f D i buf off size n : forall ls Dc, layout f -> disk_shape f Dc -> extents_ok (total_sectors (super f)) i -> NoDup (inode_sectors i) -> 0 <= off -> 0 < size ->
  off + size <= len (file_bytes D i) -> disk_shape f D ->
  let ss := sector_size (device f) in let first := off / ss in let last := (off + size - 1) / ss in
  first <= ls -> ls + Z.of_nat n = last + 1 ->
  file_bytes Dc i = copy (Z.to_nat (at_sector ss off size ls)) (file_bytes D i) off buf 0 -> (forall x, x ∉ inode_sectors i -> Dc x = D x) ->
  returns (io_loop (W := W) n i ls first last off size true buf (at_sector ss off size ls)) f Dc
    (fun r f' D' => r = inr buf /\ f' = f /\ disk_shape f D' /\ (forall x, x ∉ inode_sectors i -> D' x = D x) /\ file_bytes D' i = copy (Z.to_nat size) (file_bytes D i) off buf 0).
Proof.
  induction n as [|n IH]; intros ls Dc Hl Hs Hx Hnd Ho Hz Hb HsD ss first last Hf Hn HB Hout; pose proof Hl as (Hd & Hm & Ht & _ & _ & _ & _ & Hds); pose proof Hd as (_ & _ & Hss & Hsc); fold ss in Hss.
  - cbn [io_loop]. apply returns_ret. do 4 (split; [done|]). rewrite HB. replace ls with (last + 1) by lia. unfold last. by rewrite (at_last ss off size) by lia.
  - cbn [io_loop]. apply returns_handle. fold ss. assert (0 <= first) by (apply Z.div_pos; lia).
    destruct (sector_part ss off size ls ltac:(lia) Ho Hz ltac:(fold first last; lia)) as (P1 & P2 & P3 & P4 & P5 & P6). fold first last in P1, P2, P3, P4.
    set (b := if ls =? first then off mod ss else 0) in *. set (e := if ls =? last then (off + size - 1) mod ss + 1 else ss) in *.
    pose proof (length_file f D i HsD) as HL. fold ss in HL. destruct (lookup_lt_is_Some_2 (inode_sectors i) (Z.to_nat ls)) as [s Es]; [nia|].
    rewrite (extent_map_spec (total_sectors (super f))) by (done || lia). rewrite Es.
    destruct (sector_in_range _ _ _ _ Hx ltac:(lia) Es) as [Hs0 Hs1]. rewrite (proj2 (Z.leb_gt _ _)) by lia. apply returns_try, returns_rd; [done|done|done|].
    rewrite (proj2 (Z.ltb_lt _ _)) by lia. apply returns_try, returns_wr; [done|lia|]. set (t := copy (Z.to_nat (e - b)) (Dc s) b buf (at_sector ss off size ls)).
    assert (Hlt : len t = ss) by (unfold t; rewrite length_copy; apply Hs). fold ss. rewrite (slice_all t ss) by done. rewrite P4.
    refine (IH (ls + 1) _ Hl (shape_upd f Dc s t Hs Hlt) Hx Hnd Ho Hz Hb HsD _ _ _ _); fold ss first last; [lia|lia| |].
    + rewrite (file_upd f Dc i (Z.to_nat ls) s t) by (done || fold ss; lia). fold ss. unfold t. rewrite (copy_twice _ _ _ _ _ _ _ _ ss); try done; try lia.
      * rewrite HB. replace (Z.of_nat (Z.to_nat ls) * ss + b) with (off + Z.of_nat (Z.to_nat (at_sector ss off size ls))) by (rewrite !Z2Nat.id; lia).
        rewrite <- (Z2Nat.id (at_sector ss off size ls)) at 3 by lia. rewrite copy_more by lia. f_equal. lia.
      * pose proof (length_file f Dc i Hs) as HLc. fold ss in HLc. rewrite HLc. rewrite Z2Nat.id by lia. apply lookup_lt_Some in Es. nia.
      * intros j Hj. symmetry. apply (file_at f); try done; fold ss; lia.
    + intros x Hxs. rewrite upd_other; [by apply Hout|]. intros ->. apply Hxs. by eapply list_elem_of_lookup_2.
Qed.

Lemma returns_write f D ino i off buf Q : layout f -> disk_shape f D -> inode_at f D ino = Some i -> 0 <= ino -> in_inode i = ino -> extents_ok (total_sectors (super f)) i -> NoDup (inode_sectors i) ->
  in_size i <= len (file_bytes D i) -> 0 <= off -> off + len buf <= UINT64_MAX ->
  (len buf = 0 -> Q (inr tt) f D) -> (0 < len buf -> in_size i < off + len buf -> Q (inl (-4)) f D) ->
  (forall D', 0 < len buf -> off + len buf <= in_size i -> disk_shape f D' -> (forall x, x ∉ inode_sectors i -> D' x = D x) -> file_bytes D' i = copy (length buf) (file_bytes D i) off buf 0 -> Q (inr tt) f D') ->
  returns (rixfs_write (W := W) ino off buf (len buf)) f D Q.
Proof.
  intros Hl Hs Hi Hino Hin Hx Hnd Hc Ho Hw Q0 Q4 Q1. pose proof Hl as (Hd & Hm & Ht & _ & _ & _ & _ & Hds). pose proof Hd as (_ & _ & Hss & Hsc).
  unfold rixfs_write, io_file. apply returns_bind, returns_handle. rewrite Hm. cbn [negb]. destruct (len buf =? 0) eqn:E0; bool_to_prop; [apply returns_ret, returns_ret; by apply Q0|].
  rewrite (proj2 (Z.ltb_ge _ _)) by lia. apply returns_try, returns_read_inode; try done. rewrite Hi. rewrite Hin, Z.eqb_refl. cbn [negb orb].
  destruct (in_size i <? off + len buf) eqn:E1; bool_to_prop.
  { destruct (_ || _) eqn:E2; [apply returns_ret, returns_ret, Q4; lia|]. apply orb_false_iff in E2 as [E2 E3]; bool_to_prop. lia. }
  rewrite !(proj2 (Z.ltb_ge _ _)) by lia. cbn [orb]. apply returns_with_page. set (ss := sector_size (device f)) in *. eapply returns_conseq.
  - pose proof (io_write_loop f D i buf off (len buf) (Z.to_nat ((off + len buf - 1) / ss - off / ss + 1)) (off / ss) D Hl Hs Hx Hnd Ho ltac:(lia) ltac:(lia) Hs) as H. cbv zeta in H. fold ss in H.
    rewrite (at_first ss off (len buf)) in H by lia. apply H; [lia| |done|done]. assert (off / ss <= (off + len buf - 1) / ss) by (apply Z.div_le_mono; lia). lia.
  - intros r f' D' (-> & -> & H1 & H2 & H3). rewrite Nat2Z.id in H3. apply returns_ret. by apply Q1; [lia|lia| | |].
Qed.
End Files.

(** ** Files as arrays of bytes *)

Inductive file_op := FRead (ino off n : Z) | FWrite (ino off : Z) (buf : list Z).
Definition op_file (o : file_op) : Z := match o with FRead ino _ _ => ino | FWrite ino _ _ => ino end.
Definition op_ok (o : file_op) : Prop :=
  match o with FRead _ off n => 0 <= off /\ 0 <= n /\ off + n <= UINT64_MAX | FWrite _ off buf => 0 <= off /\ off + len buf <= UINT64_MAX end.

Definition exec_file {W} `{!Machine W} (o : file_op) : FS W (Z + list Z) :=
  match o with
  | FRead ino off n => rixfs_read ino off (zeros n) n
  | FWrite ino off buf => r ← rixfs_write ino off buf (len buf); mret (match r with inl e => inl e | inr _ => inr [] end)
  end.
Fixpoint exec_files {W} `{!Machine W} (l : list file_op) : FS W (list (Z + list Z)) :=
  match l with
  | [] => mret []
  | o :: l => r ← exec_file o; rs ← exec_files l; mret (r :: rs)
  end.

(** What the calls do to an array of bytes per file. *)
Definition spec_file (o : file_op) (st : Z -> list Z) : (Z + list Z) * (Z -> list Z) :=
  match o with
  | FRead ino off n => (if n =? 0 then inr [] else if len (st ino) <? off + n then inl (-4) else inr (slice (st ino) off n), st)
  | FWrite ino off buf =>
    if len buf =? 0 then (inr [], st)
    else if len (st ino) <? off + len buf then (inl (-4), st)
    else (inr [], upd st ino (copy (length buf) (st ino) off buf 0))
  end.
Fixpoint spec_files (l : list file_op) (st : Z -> list Z) : list (Z + list Z) * (Z -> list Z) :=
  match l with
  | [] => ([], st)
  | o :: l => let '(r, st) := spec_file o st in let '(rs, st) := spec_files l st in (r :: rs, st)
  end.

Definition file_data (D : Z -> list Z) (i : rixfs_inode_disk_t) : list Z := take (Z.to_nat (in_size i)) (file_bytes D i).

(** Files whose sectors are on the device behind the metadata, and no two of which share a
    sector; [I] gives their inodes. *)
Definition files_ok (f : rixfs_t) (D : Z -> list Z) (inos : list Z) (I : Z -> rixfs_inode_disk_t) : Prop :=
  NoDup inos /\ NoDup (flat_map (fun n => inode_sectors (I n)) inos) /\
  forall n, n ∈ inos -> 0 <= n /\ inode_at f D n = Some (I n) /\ in_inode (I n) = n /\ extents_ok (total_sectors (super f)) (I n) /\
    0 <= in_size (I n) <= len (file_bytes D (I n)) /\ Forall (fun s => data_start_sector (super f) <= s) (inode_sectors (I n)).

Lemma flat_map_disjoint {A} (g : A -> list Z) l x y s : NoDup (flat_map g l) -> NoDup l -> x ∈ l -> y ∈ l -> x <> y -> s ∈ g x -> s ∉ g y.
Proof.
  induction l as [|z l IH]; intros Hn Hl Hx Hy Hne Hs Hs'; [by apply not_elem_of_nil in Hx|]. cbn in Hn. apply list.NoDup_app in Hn as (H1 & H2 & H3). apply list.NoDup_cons in Hl as [Hz Hl].
  assert (Hin : forall y, y ∈ l -> s ∈ g y -> s ∈ flat_map g l).
  { intros w Hw Hsw. apply list_elem_of_In, in_flat_map. exists w. by rewrite <- !list_elem_of_In. }
  apply elem_of_cons in Hx as [->|Hx], Hy as [->|Hy]; [done|exact (H2 s Hs (Hin y Hy Hs'))|exact (H2 s Hs' (Hin x Hx Hs))|by apply IH].
Qed.
Lemma flat_map_nodup {A} (g : A -> list Z) l x : NoDup (flat_map g l) -> x ∈ l -> NoDup (g x).
Proof.
  induction l as [|z l IH]; intros Hn Hx; [by apply not_elem_of_nil in Hx|]. cbn in Hn. apply list.NoDup_app in Hn as (H1 & H2 & H3). apply elem_of_cons in Hx as [->|Hx]; [done|by apply IH].
Qed.

Lemma file_bytes_frame D D' i : (forall s, s ∈ inode_sectors i -> D' s = D s) -> file_bytes D' i = file_bytes D i.
Proof. intros H. unfold file_bytes. f_equal. apply list_fmap_ext. intros k s Hs. apply H. by eapply list_elem_of_lookup_2. Qed.

Lemma inode_frame f D D' n : layout f -> 0 <= n -> (forall s, s < data_start_sector (super f) -> D' s = D s) -> inode_at f D' n = inode_at f D n.
Proof.
  intros Hl Hn H. unfold inode_at. destruct (inode_location f n) as [[s o]|] eqn:E; [|done]. destruct (inode_location_ok f n s o Hl Hn E) as (_ & [_ H2] & _). by rewrite H.
Qed.

Lemma copy_take_prefix n B off buf k : 0 <= off -> off + Z.of_nat n <= Z.of_nat k -> (k <= length B)%nat -> take k (copy n B off buf 0) = copy n (take k B) off buf 0.
Proof.
  intros Ho Hk Hl. apply list_ext_aget; [by rewrite length_copy, !length_take, length_copy|]. intros j. rewrite length_take, length_copy. intros Hj.
  rewrite aget_take by lia. rewrite !aget_copy by (rewrite ?length_take; lia). rewrite !between. case_bool_decide; [done|]. by rewrite aget_take by lia.
Qed.

Section Arrays.
Context {W : Type} `{!Machine W} `{!Reliable W}.

(** One call, against the arrays. *)
Lemma exec_file_step f D inos I o st : layout f -> disk_shape f D -> files_ok f D inos I -> op_ok o -> op_file o ∈ inos -> (forall n, n ∈ inos -> st n = file_data D (I n)) ->
  returns (exec_file (W := W) o) f D (fun r f' D' => f' = f /\ r = (spec_file o st).1 /\ disk_shape f D' /\ files_ok f D' inos I /\
    (forall n, n ∈ inos -> (spec_file o st).2 n = file_data D' (I n)) /\ forall s, s ∉ flat_map (fun n => inode_sectors (I n)) inos -> D' s = D s).
Proof.
  intros Hl Hs (Hn1 & Hn2 & Hok) Ho Hin Hst. destruct (Hok _ Hin) as (H0 & Hi & Hino & Hx & Hc & Hds). set (i := I (op_file o)) in *.
  assert (Hlen : len (st (op_file o)) = in_size i) by (rewrite Hst by done; unfold file_data; fold i; rewrite length_take; lia). assert (Hsame : files_ok f D inos I) by done.
  destruct o as [ino off n|ino off buf]; cbn [op_file op_ok exec_file spec_file] in *.
  - destruct Ho as (Ho & Hz & Hw). apply (returns_read f D ino i); try done; [unfold zeros; rewrite length_replicate; lia|]. split; [done|]. split; [|done]. unfold read_result. cbn [fst].
    rewrite Hlen. destruct (n =? 0) eqn:E0; bool_to_prop; [by subst n|]. destruct (in_size i <? off + n) eqn:E1; bool_to_prop; [done|]. rewrite (proj2 (Z.leb_le _ _)) by lia. f_equal.
    assert (Hlz : len (zeros n) = n) by (unfold zeros; rewrite length_replicate; lia). rewrite (Hst ino Hin). fold i.
    apply list_ext_aget; [rewrite length_copy; pose proof (length_slice (file_data D i) off n); lia|]. intros k. rewrite length_copy. intros Hk. rewrite aget_copy, between by lia.
    rewrite bool_decide_eq_true_2 by lia. rewrite aget_slice by lia. unfold file_data. rewrite aget_take by lia. f_equal. lia.
  - destruct Ho as [Ho Hw]. pose proof (flat_map_nodup (fun n => inode_sectors (I n)) inos ino Hn2 Hin) as Hnd. fold i in Hnd. apply returns_bind.
    apply (returns_write f D ino i); try done; [lia|..].
    + intros E. apply returns_ret. rewrite E. cbn. done.
    + intros E1 E2. apply returns_ret. rewrite (proj2 (Z.eqb_neq _ 0)) by lia. rewrite Hlen, (proj2 (Z.ltb_lt _ _)) by lia. done.
    + intros D' E1 E2 Hs' Hout HB. apply returns_ret. rewrite (proj2 (Z.eqb_neq _ 0)) by lia. rewrite Hlen, (proj2 (Z.ltb_ge _ _)) by lia. cbn [fst snd].
      assert (Hmeta : forall s, s < data_start_sector (super f) -> D' s = D s) by (intros s Hsd; apply Hout; intros Hin'; rewrite list.Forall_forall in Hds; specialize (Hds s Hin'); lia).
      assert (Hoth : forall n, n ∈ inos -> n <> ino -> file_bytes D' (I n) = file_bytes D (I n)).
      { intros n Hn Hne. apply file_bytes_frame. intros s Hsn. apply Hout. apply (flat_map_disjoint (fun n => inode_sectors (I n)) inos n ino s); done. }
      split; [done|]. split; [done|]. split; [done|]. split; [|split].
      * split; [done|]. split; [done|]. intros n Hn. destruct (Hok n Hn) as (G0 & G1 & G2 & G3 & G4 & G5). rewrite (inode_frame f D D' n) by done. split; [done|]. split; [done|]. split; [done|]. split; [done|].
        split; [|done]. pose proof (length_file f D (I n) Hs). pose proof (length_file f D' (I n) Hs'). lia.
      * intros n Hn. destruct (decide (n = ino)) as [->|Hne].
        -- rewrite upd_same. rewrite Hst by done. unfold file_data. fold i. rewrite HB. by rewrite copy_take_prefix by lia.
        -- rewrite upd_other by done. rewrite Hst by done. unfold file_data. by rewrite Hoth.
      * intros s Hsn. apply Hout. intros Hsi. apply Hsn. apply list_elem_of_In, in_flat_map. exists ino. by rewrite <- !list_elem_of_In.
Qed.

(** C9: files are arrays of bytes. Take files on a mounted file system, no two of which
    share a sector, and any reads and writes of them through [rixfs_read] and [rixfs_write],
    in any order, within and beyond the ends of the files (offset and size of a request add up
    to less than 2^64), on a device that carries out what it is asked, while the page allocator
    has pages to give. Every call returns, with the result the call has on one array of bytes per
    file: a read gets exactly the bytes written last, a write that would pass the end of the
    file is refused and changes nothing, and a write to one file changes no other file. The
    handle is unchanged and so is every sector that belongs to none of the files: inodes,
    bitmap, journal and the data of other files. *)
Theorem rixfs_files_are_arrays f D inos I ops : layout f -> disk_shape f D -> files_ok f D inos I -> Forall op_ok ops -> Forall (fun o => op_file o ∈ inos) ops ->
  let '(rs, st) := spec_files ops (fun n => file_data D (I n)) in
  returns (exec_files (W := W) ops) f D (fun rs' f' D' => rs' = rs /\ f' = f /\ (forall n, n ∈ inos -> st n = file_data D' (I n) /\ inode_at f D' n = Some (I n)) /\
    forall s, s ∉ flat_map (fun n => inode_sectors (I n)) inos -> D' s = D s).
Proof.
  intros Hl Hs Hf Ho Hi. assert (Hgen : forall ops st D, disk_shape f D -> files_ok f D inos I -> Forall op_ok ops -> Forall (fun o => op_file o ∈ inos) ops -> (forall n, n ∈ inos -> st n = file_data D (I n)) ->
    returns (exec_files (W := W) ops) f D (fun rs' f' D' => rs' = (spec_files ops st).1 /\ f' = f /\ (forall n, n ∈ inos -> (spec_files ops st).2 n = file_data D' (I n) /\ inode_at f D' n = Some (I n)) /\
      forall s, s ∉ flat_map (fun n => inode_sectors (I n)) inos -> D' s = D s)).
  { clear Hs Hf Ho Hi D ops. induction ops as [|o ops IH]; intros st D Hs Hf Ho Hi Hst; cbn [exec_files spec_files].
    - apply returns_ret. split; [done|]. split; [done|]. split; [|done]. intros n Hn. split; [by apply Hst|]. by apply Hf.
    - apply list.Forall_cons in Ho as [Ho1 Ho], Hi as [Hi1 Hi]. apply returns_bind. eapply returns_conseq; [by apply (exec_file_step f D inos I o st)|].
      intros r f' D1 (-> & -> & Hs1 & Hf1 & Hst1 & Hout1). destruct (spec_file o st) as [r st1]. cbn [fst snd] in *. apply returns_bind. eapply returns_conseq; [by apply (IH st1)|].
      intros rs f' D2 (-> & -> & H2 & Hout2). destruct (spec_files ops st1) as [rs st2]. cbn [fst snd] in *. apply returns_ret. split; [done|]. split; [done|]. split; [done|].
      intros s Hsn. rewrite Hout2 by done. by apply Hout1. }
  pose proof (Hgen ops (fun n => file_data D (I n)) D Hs Hf Ho Hi ltac:(done)) as H. destruct (spec_files ops _) as [rs st]. exact H.
Qed.
End Arrays.
