(* ===== verification/RixDemo.v ===== *)
(** * RixFS on a small disk ([kernel/fs/rixfs_ops.c])

    A disk of 64 sectors in memory with an empty root directory, as [rixfs_format] leaves
    it, and what the code does to files on it. *)
From stdpp Require Import base tactics list numbers.
From S2P Require Import Prelude Bytes Block Journal RixInode RixFs RixDir RixRules RixFiles.

Definition demo_device : rix_block_device_t := {| sector_size := 512; sector_count := 64; max_sectors := 8; has_submit := true |}.
(** The inode table in sectors 1 and 2, the bitmap in 3, the journal in 4 to 20, data from 21 on. *)
Definition demo_super : rixfs_superblock_t :=
  {| magic := RIXFS_MAGIC; version := RIXFS_VERSION; header_size := 512; sb_sector_size := 512; flags := 0; total_sectors := 64; inode_table_sector := 1; inode_count := 8;
     data_start_sector := 21; root_inode := 1; generation := 1; checksum_field := 0; bitmap_sector := 3; bitmap_sectors := 1; journal_sector := 4; journal_sectors := 17;
     free_hint := 22; journal_generation := 0 |}.
Definition demo_handle : rixfs_t := {| device := demo_device; super := demo_super; mounted := true; meta_hint := 0 |}.
Definition demo_root : rixfs_inode_disk_t := set_in_links 0 (set_extent 0 21 1 (new_inode 1 (Z.lor RIXFS_IFDIR 0x1ed) 0 0)).
(** The sectors up to the root directory's are in use; what deleted files left is not zero. *)
Definition demo_disk : ram := fun s =>
  if s =? 1 then inode_bytes demo_root ++ zeros 384
  else if s =? 3 then [255; 255; 63] ++ zeros 509
  else if s <? 22 then zeros 512
  else replicate 512 9.

Definition demo_run {A} (m : FS ram A) : option A := fst <$> (m demo_handle demo_disk).2.

(** Two files; the first grows around the second, which is then deleted. *)
Definition grow_around : FS ram (Z + Z * Z) :=
  try (-1) (rixfs_create 1 [97] 0x1a4 0 0) (fun a => try (-2) (rixfs_truncate a 512) (fun _ =>
  try (-3) (rixfs_create 1 [98] 0x1a4 0 0) (fun b => try (-4) (rixfs_truncate b 512) (fun _ =>
  try (-5) (rixfs_truncate a 1024) (fun _ => try (-6) (rixfs_write a 0 (replicate 512 1 ++ replicate 512 2) 1024) (fun _ =>
  try (-7) (rixfs_unlink 1 [98]) (fun _ => done (a, b)))))))).
Definition read_back (ino n : Z) : FS ram (option (list Z)) := r ← rixfs_read ino 0 (zeros n) n; mret (match r with inr b => Some b | inl _ => None end).

(** Growing a file can destroy it. [alloc_sec_near] prefers the sector behind the first
    extent and [append_extent] joins it to that extent, so when the file has a later extent
    the new sector lands in the middle: here a file of one sector of ones and one of twos,
    grown by one byte with [rixfs_truncate], reads as ones, then the bytes of a deleted file,
    and the twos are where the file's end should be. *)
Theorem grow_corrupts_file :
  demo_run (try (-10) grow_around (fun '(a, _) => before ← read_back a 1024; t ← rixfs_truncate a 1025; after ← read_back a 1025; done (before, t, after))) =
    Some (inr (Some (replicate 512 1 ++ replicate 512 2), inr tt, Some (replicate 512 1 ++ replicate 512 9 ++ [2]))).
Proof. vm_compute. reflexivity. Qed.

(** ** Two files side by side *)

Definition pair_inode (n : Z) : rixfs_inode_disk_t :=
  if n =? 2 then set_in_size 600 (set_extent 1 25 1 (set_extent 0 22 1 (new_inode 2 (Z.lor RIXFS_IFREG 0x1a4) 0 0)))
  else set_in_size 700 (set_extent 0 23 2 (new_inode 3 (Z.lor RIXFS_IFREG 0x1a4) 0 0)).
Definition pair_disk : ram := fun s => if s =? 1 then inode_bytes demo_root ++ inode_bytes (pair_inode 2) ++ inode_bytes (pair_inode 3) ++ zeros 128 else zeros 512.
Definition pair_ops : list file_op := [FWrite 2 505 (replicate 20 7); FRead 2 510 4; FRead 3 0 3; FWrite 3 690 (replicate 20 8); FRead 2 503 4].

Lemma demo_layout : layout demo_handle.
Proof. vm_compute. intuition congruence. Qed.
Lemma pair_shape : disk_shape demo_handle pair_disk.
Proof. intros s. unfold pair_disk. destruct (s =? 1); reflexivity. Qed.
Lemma pair_files : files_ok demo_handle pair_disk [2; 3] pair_inode.
Proof.
  split; [apply (bool_decide_unpack _); vm_compute; exact I|]. split; [apply (bool_decide_unpack _); vm_compute; exact I|].
  intros n Hn. assert (n = 2 \/ n = 3) as [-> | ->] by (apply elem_of_cons in Hn as [->|Hn]; [by left|]; apply elem_of_cons in Hn as [->|Hn]; [by right|]; by apply not_elem_of_nil in Hn).
  all: split; [lia|]; split; [vm_compute; reflexivity|]; split; [reflexivity|]; split; [split; [done|]; split; [done|]; intros e He; assert (e = 0 \/ e = 1 \/ e = 2 \/ e = 3) as [-> | [-> | [-> | ->]]] by (unfold RIXFS_DIRECT_EXTENTS in He; lia); vm_compute; intuition congruence|].
  all: split; [vm_compute; intuition congruence|]; apply (bool_decide_unpack _); vm_compute; exact I.
Qed.

Lemma rixfs_files_are_arrays_witness : returns (exec_files (W := ram) pair_ops) demo_handle pair_disk (fun rs _ _ => rs = [inr []; inr (replicate 4 7); inr (zeros 3); inl (-4); inr [0; 0; 7; 7]]).
Proof.
  pose proof (rixfs_files_are_arrays (W := ram) demo_handle pair_disk [2; 3] pair_inode pair_ops demo_layout pair_shape pair_files) as H.
  assert (H1 : Forall op_ok pair_ops) by (repeat constructor; vm_compute; congruence).
  assert (H2 : Forall (fun o => op_file o ∈ [2; 3]) pair_ops) by (apply (bool_decide_unpack _); vm_compute; exact I).
  specialize (H H1 H2). assert (E : (spec_files pair_ops (fun n => file_data pair_disk (pair_inode n))).1 = [inr []; inr (replicate 4 7); inr (zeros 3); inl (-4); inr [0; 0; 7; 7]]) by (vm_compute; reflexivity).
  destruct (spec_files pair_ops _) as [rs st]. cbn [fst] in E. subst rs. eapply returns_conseq; [exact H|]. intros rs f D (-> & _). reflexivity.
Defined.
