(* ===== verification/RixCheck.v ===== *)
(** * What a clean report of [rixfs_fsck] means ([kernel/fs/rixfs_fsck.c])

    Reading directories as lists of entries, and the soundness of the check. *)
From stdpp Require Import base tactics list numbers.
From S2P Require Import Prelude Bytes Block Journal RixInode RixFs RixDir RixRename RixFsck RixRules RixFiles RixDemo.

(** ** Bytes on the disk *)

Definition disk_bytes (D : Z -> list Z) : Prop := forall s, Forall is_u8 (D s).

Lemma byte_shift b k n : is_u8 b -> 0 <= k -> k + 8 <= n -> 0 <= Z.shiftl b k < 2 ^ n.
Proof.
  intros Hb Hk Hn. rewrite Z.shiftl_mul_pow2 by done. unfold is_u8 in Hb. pose proof (Z.pow_pos_nonneg 2 k ltac:(lia) Hk). split; [nia|].
  assert (2 ^ (k + 8) <= 2 ^ n) by (apply Z.pow_le_mono_r; lia). rewrite Z.pow_add_r in H0 by lia. change (2 ^ 8) with 256 in *. nia.
Qed.
Lemma load64_u64 b o : Forall is_u8 b -> is_u64 (load64 b o).
Proof.
  intros Hb. unfold load64. change (seqZ 0 8) with [0; 1; 2; 3; 4; 5; 6; 7]. cbn [foldl]. unfold is_u64.
  repeat (apply (lor_range _ _ 64); [done| |apply byte_shift; [by apply aget_u8|lia|lia]]). done.
Qed.
Lemma load32_word b o : Forall is_u8 b -> is_u32 (load32 b o).
Proof.
  intros Hb. unfold load32, is_u32. repeat (apply (lor_range _ _ 32); [done| |apply byte_shift; [by apply aget_u8|lia|lia]]). pose proof (aget_u8 b o Hb). unfold is_u8 in *. lia.
Qed.
Lemma load16_range b o : Forall is_u8 b -> 0 <= load16 b o < 2 ^ 16.
Proof. intros Hb. unfold load16. apply (lor_range _ _ 16); [done| |apply byte_shift; [by apply aget_u8|lia|lia]]. pose proof (aget_u8 b o Hb). unfold is_u8 in *. lia. Qed.

Lemma inode_of_ok b o : Forall is_u8 b -> is_inode (inode_of b o).
Proof.
  intros Hb. unfold is_inode, inode_of. cbn. split; [by apply load64_u64|]. split; [by apply load64_u64|]. split; [by apply load64_u64|].
  split; [repeat (constructor; [by apply load64_u64|]); constructor|]. split; [repeat (constructor; [by apply load64_u64|]); constructor|]. split; [done|]. split; [done|].
  repeat (constructor; [by apply load32_word|]). constructor.
Qed.
Lemma inode_at_ok f D n i : disk_bytes D -> inode_at f D n = Some i -> is_inode i.
Proof. intros Hb. unfold inode_at. destruct (inode_location f n) as [[s o]|]; [|done]. intros [= <-]. apply inode_of_ok, Hb. Qed.

Lemma Forall_copy n d o s so : Forall is_u8 d -> Forall is_u8 s -> Forall is_u8 (copy n d o s so).
Proof. revert d o so. induction n as [|n IH]; intros d o so Hd Hs; cbn; [done|]. apply IH; [|done]. unfold aset. apply Forall_insert; [done|by apply aget_u8]. Qed.
Lemma Forall_file D i : disk_bytes D -> Forall is_u8 (file_bytes D i).
Proof. intros Hb. unfold file_bytes. apply Forall_concat, Forall_fmap, Forall_true. intros s. apply Hb. Qed.
Lemma Forall_zeros n : Forall is_u8 (zeros n).
Proof. unfold zeros. by apply Forall_replicate. Qed.

Lemma dirent_ranges h : Forall is_u8 h -> let e := dirent_of h 0 in is_u64 (de_inode e) /\ 0 <= de_record_size e < 2 ^ 16 /\ 0 <= de_name_length e < 256.
Proof. intros Hh e. unfold e, dirent_of. cbn. split; [by apply load64_u64|]. split; [by apply load16_range|]. exact (aget_u8 h (0 + 11) Hh). Qed.

(** ** Calls that only look *)

Section Looking.
Context {W : Type} `{!Machine W} `{!Reliable W} (f : rixfs_t) (D : Z -> list Z).

(** The call returns, changes nothing, and if it does not report an error its result satisfies [phi]. *)
Definition checks {A} (m : FS W (Z + A)) (phi : A -> Prop) : Prop := returns m f D (fun r f' D' => f' = f /\ D' = D /\ match r with inl _ => True | inr a => phi a end).

Lemma checks_done {A} (a : A) (phi : A -> Prop) : phi a -> checks (done a) phi.
Proof. intros H. by apply returns_ret. Qed.
Lemma checks_fail {A} e (phi : A -> Prop) : checks (fail e) phi.
Proof. by apply returns_ret. Qed.
Lemma checks_mono {A} (m : FS W (Z + A)) (phi psi : A -> Prop) : checks m phi -> (forall a, phi a -> psi a) -> checks m psi.
Proof. intros Hm H. eapply returns_conseq; [exact Hm|]. intros [e|a] f' D' (-> & -> & Ha); auto. Qed.
Lemma checks_try {A B} e (m : FS W (Z + A)) (k : A -> FS W (Z + B)) phi psi : checks m phi -> (forall a, phi a -> checks (k a) psi) -> checks (try e m k) psi.
Proof. intros Hm Hk. apply returns_try. eapply returns_conseq; [exact Hm|]. intros [x|a] f' D' (-> & -> & Ha); [done|by apply Hk]. Qed.
Lemma checks_match {A B} (m : FS W (Z + A)) (g : Z -> Z) (k : A -> FS W (Z + B)) phi psi : checks m phi -> (forall a, phi a -> checks (k a) psi) ->
  checks (r ← m; match r with inl x => fail (g x) | inr a => k a end) psi.
Proof. intros Hm Hk. apply returns_bind. eapply returns_conseq; [exact Hm|]. intros [x|a] f' D' (-> & -> & Ha); [by apply checks_fail|by apply Hk]. Qed.
Lemma checks_map {A B} (m : FS W (Z + A)) (g : A -> B) phi psi : checks m phi -> (forall a, phi a -> psi (g a)) -> checks (r ← m; mret (match r with inl x => inl x | inr a => inr (g a) end)) psi.
Proof. intros Hm Hk. apply returns_bind. eapply returns_conseq; [exact Hm|]. intros [x|a] f' D' (-> & -> & Ha); apply returns_ret; auto. Qed.
Lemma checks_handle {A} (k : rixfs_t -> FS W (Z + A)) phi : checks (k f) phi -> checks (handle ≫= k) phi.
Proof. apply returns_handle. Qed.
Lemma checks_page {A} e (m : FS W (Z + A)) phi : checks m phi -> checks (with_page e m) phi.
Proof. apply returns_with_page. Qed.

Context (Hl : layout f) (Hs : disk_shape f D) (Hb : disk_bytes D).

Lemma checks_rd s : 0 <= s -> checks (rd_sec s) (fun b => b = D s).
Proof. intros H0. pose proof Hl as (Hd & _). apply returns_rd; [done..|]. split; [done|]. split; [done|]. by destruct (s <? _). Qed.

Lemma checks_inode n : 0 <= n -> checks (rixfs_read_inode n) (fun i => inode_at f D n = Some i /\ is_inode i).
Proof.
  intros Hn. apply returns_read_inode; [done..|]. split; [done|]. split; [done|]. destruct (inode_at f D n) as [i|] eqn:E; [|done]. split; [done|]. by eapply inode_at_ok.
Qed.

(** The bit of a sector in the bitmap. *)
Definition bit_at (s : Z) : option bool := match bit_place f s with Some (bsec, off) => Some (truthy (Z.land (aget 0 (D bsec) off) (bit_mask s))) | None => None end.

Lemma checks_bitmap s : checks (bitmap_test false s) (fun b => bit_at s = Some b /\ s < total_sectors (super f)).
Proof.
  unfold bitmap_test, bit_at. apply checks_handle. destruct (total_sectors (super f) <=? s) eqn:E; bool_to_prop; [apply checks_fail|]. destruct (bit_place f s) as [[bsec off]|] eqn:Eb; [|apply checks_fail].
  apply checks_page. assert (0 <= bsec) by (unfold bit_place in Eb; destruct (_ <=? _); [done|]; injection Eb as <- <-; apply u64_range).
  eapply (checks_map (rd_sec bsec) (fun b => truthy (Z.land (aget 0 b off) (bit_mask s)))); [by apply checks_rd|]. by intros b ->.
Qed.
End Looking.

(** ** Directories as lists of entries *)

Section Reading.
Context (f : rixfs_t) (D : Z -> list Z).

(** Bytes of a file, if the read succeeds. *)
Definition pread (i : rixfs_inode_disk_t) (off n : Z) : option (list Z) := match read_result D i off (zeros n) n with inr b => Some b | inl _ => None end.
Definition entry_at (i : rixfs_inode_disk_t) (off : Z) : option rixfs_dirent_disk_t := (fun h => dirent_of h 0) <$> pread i off RIXFS_DIRENT_MIN_SIZE.

(** The next entry with its name, and where to go on; [None] at the end of the directory.
    The outer option says whether the directory can be read. *)
Fixpoint next_entry (n : nat) (i : rixfs_inode_disk_t) (off : Z) : option (option (rixfs_dirent_disk_t * list Z * Z)) :=
  if in_size i <=? off then Some None
  else match n with
  | O => Some None
  | S n =>
    if in_size i - off <? RIXFS_DIRENT_MIN_SIZE then None
    else match entry_at i off with
    | None => None
    | Some e =>
      if de_inode e =? 0 then match hole_step f i off e with None => None | Some d => next_entry n i (off + d) end
      else if record_bad i off e then None
      else match pread i (off + RIXFS_DIRENT_MIN_SIZE) (de_name_length e) with
      | None => None
      | Some name => Some (Some (e, name, off + de_record_size e))
      end
    end
  end.

Fixpoint entries_from (n : nat) (i : rixfs_inode_disk_t) (off : Z) : option (list (rixfs_dirent_disk_t * list Z)) :=
  match n with
  | O => None
  | S n =>
    match next_entry (Z.to_nat (in_size i)) i off with
    | None => None
    | Some None => Some []
    | Some (Some (e, name, off')) => cons (e, name) <$> entries_from n i off'
    end
  end.
(** The entries of a directory, [None] if it cannot be read. *)
Definition entries (i : rixfs_inode_disk_t) : option (list (rixfs_dirent_disk_t * list Z)) := entries_from (entry_turns i) i 0.
End Reading.

Section Directory.
Context {W : Type} `{!Machine W} `{!Reliable W} (f : rixfs_t) (D : Z -> list Z) (Hl : layout f) (Hs : disk_shape f D) (Hb : disk_bytes D).
Context (ino : Z) (i : rixfs_inode_disk_t) (Hi : inode_at f D ino = Some i) (Hino : 0 <= ino) (Hin : in_inode i = ino) (Hx : extents_ok (total_sectors (super f)) i).

Lemma size_u64 : 0 <= in_size i < 2 ^ 64.
Proof. pose proof (inode_at_ok f D ino i Hb Hi) as (_ & H & _). exact H. Qed.

Lemma pread_bytes off n b : pread D i off n = Some b -> Forall is_u8 b.
Proof.
  unfold pread, read_result. destruct (n =? 0); [intros [= <-]; apply Forall_zeros|]. destruct (_ <? _); [done|]. destruct (_ <=? _); [|done]. intros [= <-].
  apply Forall_copy; [apply Forall_zeros|by apply Forall_file].
Qed.

Lemma returns_pread off n Q : 0 <= off -> 0 <= n -> off + n <= in_size i -> (forall r, match r with inl _ => pread D i off n = None | inr b => pread D i off n = Some b end -> Q r f D) ->
  returns (read_bytes (W := W) ino off n) f D Q.
Proof.
  intros Ho Hn Hz HQ. pose proof size_u64. apply (returns_read f D ino i); try done; [unfold UINT64_MAX; lia|unfold zeros; rewrite length_replicate; lia|].
  apply HQ. unfold pread. by destruct (read_result D i off (zeros n) n).
Qed.

Lemma returns_entry off Q : 0 <= off -> off + RIXFS_DIRENT_MIN_SIZE <= in_size i -> (forall r, match r with inl _ => entry_at D i off = None | inr e => entry_at D i off = Some e end -> Q r f D) ->
  returns (read_ent (W := W) ino off) f D Q.
Proof.
  intros Ho Hz HQ. apply returns_try, returns_pread; try done. unfold entry_at in HQ. intros [x|b] E; rewrite E in HQ; [by apply HQ|]. apply returns_ret. by apply HQ.
Qed.

Lemma entry_ranges off e : entry_at D i off = Some e -> is_u64 (de_inode e) /\ 0 <= de_record_size e < 2 ^ 16 /\ 0 <= de_name_length e < 256.
Proof. unfold entry_at. destruct (pread D i off _) as [h|] eqn:E; [|done]. intros [= <-]. apply dirent_ranges. by eapply pread_bytes. Qed.

Lemma hole_step_pos off e d : entry_at D i off = Some e -> hole_step f i off e = Some d -> 0 < d <= in_size i - off.
Proof.
  intros He. destruct (entry_ranges off e He) as (_ & Hr & _). pose proof Hl as ((_ & _ & Hss & _) & _). unfold hole_step. destruct (de_record_size e =? 0) eqn:E; bool_to_prop.
  - destruct (_ <? _) eqn:E1; bool_to_prop; [done|]. intros [= <-]. lia.
  - destruct (_ <? _) eqn:E1; bool_to_prop; [done|]. intros [= <-]. lia.
Qed.

(** [rixfs_readdir] gives the next entry. *)
Lemma returns_readdir_loop n : forall off Q, 0 <= off ->
  (forall r, match next_entry f D n i off with
             | None => exists e, r.1 = inl e /\ e <> 1
             | Some None => r.1 = inl 1
             | Some (Some (e, name, o)) => r = (inr (e, name), o)
             end -> Q r f D) ->
  returns (readdir_loop (W := W) n ino i off (RIXFS_NAME_MAX + 1)) f D Q.
Proof.
  induction n as [|n IH]; intros off Q Ho HQ; cbn [readdir_loop next_entry] in *; (destruct (in_size i <=? off) eqn:E0; bool_to_prop; [apply returns_ret; by apply HQ|]); [apply returns_ret; by apply HQ|].
  destruct (in_size i - off <? RIXFS_DIRENT_MIN_SIZE) eqn:E1; bool_to_prop; [apply returns_ret, HQ; by exists (-3)|].
  apply returns_bind, returns_entry; [done|lia|]. intros [x|e] Ee; rewrite Ee in HQ; [apply returns_ret, HQ; by exists (-3)|]. apply returns_handle.
  destruct (entry_ranges off e Ee) as (_ & Hr & Hnl). destruct (de_inode e =? 0) eqn:Ez.
  - destruct (hole_step f i off e) as [d|] eqn:Eh; [|apply returns_ret, HQ; by exists (-4)]. pose proof (hole_step_pos off e d Ee Eh). apply IH; [lia|exact HQ].
  - destruct (record_bad i off e) eqn:Er; [apply returns_ret, HQ; by exists (-4)|]. unfold record_bad in Er. apply orb_false_iff in Er as [Er E4]. apply orb_false_iff in Er as [E2 E3]. bool_to_prop.
    rewrite (proj2 (Z.ltb_ge _ _)) by (unfold RIXFS_NAME_MAX; lia). apply returns_bind, returns_pread; [unfold RIXFS_DIRENT_MIN_SIZE in *; lia..|].
    intros [x|b] Eb; rewrite Eb in HQ; apply returns_ret, HQ; [by exists (-6)|done].
Qed.

Lemma next_forward n : forall off e name o, 0 <= off -> next_entry f D n i off = Some (Some (e, name, o)) ->
  off + RIXFS_DIRENT_MIN_SIZE <= o <= in_size i /\ is_u64 (de_inode e) /\ de_inode e <> 0.
Proof.
  induction n as [|n IH]; intros off e name o Ho; cbn [next_entry]; (destruct (in_size i <=? off) eqn:E0; bool_to_prop; [done|]); [done|].
  destruct (in_size i - off <? RIXFS_DIRENT_MIN_SIZE) eqn:E1; bool_to_prop; [done|]. destruct (entry_at D i off) as [e'|] eqn:Ee; [|done].
  destruct (entry_ranges off e' Ee) as (Hu & Hr & _). destruct (de_inode e' =? 0) eqn:Ez; bool_to_prop.
  - destruct (hole_step f i off e') as [d|] eqn:Eh; [|done]. pose proof (hole_step_pos off e' d Ee Eh). intros H1. apply IH in H1 as (? & ? & ?); [|lia]. split; [lia|done].
  - destruct (record_bad i off e') eqn:Er; [done|]. unfold record_bad in Er. apply orb_false_iff in Er as [Er E4]. apply orb_false_iff in Er as [E2 E3]. bool_to_prop.
    destruct (pread D i _ _); [|done]. intros [= <- <- <-]. split; [lia|done].
Qed.

Context (Hdir : is_dir i = true).

Lemma returns_readdir off Q : 0 <= off ->
  (forall r, match next_entry f D (Z.to_nat (in_size i)) i off with
             | None => exists e, r.1 = inl e /\ e <> 1
             | Some None => r.1 = inl 1
             | Some (Some (e, name, o)) => r = (inr (e, name), o)
             end -> Q r f D) ->
  returns (rixfs_readdir (W := W) ino off (RIXFS_NAME_MAX + 1)) f D Q.
Proof.
  intros Ho HQ. pose proof Hl as (_ & Hm & _). unfold rixfs_readdir. apply returns_handle. rewrite Hm. cbn [negb orb]. change (RIXFS_NAME_MAX + 1 <? 2) with false. cbn iota.
  unfold directory. apply returns_bind, returns_bind, returns_read_inode; try done. rewrite Hi. apply returns_ret. unfold is_dir in Hdir. rewrite Hin, Z.eqb_refl, Hdir. cbn [negb orb].
  by apply returns_readdir_loop.
Qed.

(** A loop over the entries, with an invariant on those passed. *)
Lemma checks_each_entry {A} (Inv : list (rixfs_dirent_disk_t * list Z) -> A -> Prop) (body : rixfs_dirent_disk_t -> A -> FS W (Z + A)) unread n : forall l0 off a, 0 <= off -> Inv l0 a ->
  (forall l e name a, Inv l a -> is_u64 (de_inode e) -> de_inode e <> 0 -> checks f D (body e a) (fun a' => Inv (l ++ [(e, name)]) a')) ->
  checks f D (each_entry n ino off unread a body) (fun a' => exists l, entries_from f D n i off = Some l /\ Inv (l0 ++ l) a').
Proof.
  induction n as [|n IH]; intros l0 off a Ho H0 Hbody; cbn [each_entry entries_from]; [apply checks_fail|]. apply returns_bind, returns_readdir; [done|]. intros [r o] Hr.
  destruct (next_entry f D (Z.to_nat (in_size i)) i off) as [[[[e name] o']|]|] eqn:En.
  - injection Hr as -> ->. destruct (next_forward _ off e name o' Ho En) as (Hf & Hu & Hz). apply (checks_match f D (body e a) id (fun a => each_entry n ino o' unread a body) _ _ (Hbody l0 e name a H0 Hu Hz)).
    intros a' Ha'. unfold RIXFS_DIRENT_MIN_SIZE in *. eapply checks_mono; [by apply (IH (l0 ++ [(e, name)])); [lia| |]|]. intros a'' (l & -> & Hinv). exists ((e, name) :: l). split; [done|].
    by rewrite <- app_assoc in Hinv.
  - cbn in Hr. subst r. apply checks_done. exists []. by rewrite app_nil_r.
  - destruct Hr as (x & Hx' & Hne). cbn in Hx'. subst r. rewrite (proj2 (Z.eqb_neq x 1) Hne). apply checks_fail.
Qed.
End Directory.

(** ** A consistent file system *)

Section Consistent.
Context (f : rixfs_t) (D : Z -> list Z).
Let ss := sector_size (device f).
Let ds := data_start_sector (super f).
Let total := total_sectors (super f).

Definition node (n : Z) : rixfs_inode_disk_t := default zero_inode (inode_at f D n).
Definition in_use (n : Z) : bool := negb (in_inode (node n) =? 0).
Definition used_between (lo k : Z) : list Z := filter (fun n => in_use n = true) (seqZ lo k).
(** The inodes in use, and the sectors they own. *)
Definition used : list Z := used_between 1 (inode_count (super f)).
Definition owned : list Z := flat_map (fun n => inode_sectors (node n)) used.

Definition type_of (i : rixfs_inode_disk_t) : Z := Z.land (in_mode i) RIXFS_IFMT.
Definition dir_type (i : rixfs_inode_disk_t) : Z :=
  if type_of i =? RIXFS_IFDIR then RIXFS_DIR_TYPE_DIR else if type_of i =? RIXFS_IFLNK then RIXFS_DIR_TYPE_SYMLINK else RIXFS_DIR_TYPE_FILE.

(** An entry names an inode in use and says its type. *)
Definition entry_ok (e : rixfs_dirent_disk_t * list Z) : Prop :=
  1 <= de_inode e.1 <= inode_count (super f) /\ in_use (de_inode e.1) = true /\ de_type e.1 = dir_type (node (de_inode e.1)).

(** An inode in use, on its own. The size of a regular file fits its sectors, unless it is so
    large that rounding it up overflows. *)
Definition node_ok (n : Z) (i : rixfs_inode_disk_t) : Prop :=
  inode_at f D n = Some i /\ in_inode i = n /\ (type_of i = RIXFS_IFREG \/ type_of i = RIXFS_IFDIR \/ type_of i = RIXFS_IFLNK) /\
  extents_ok total i /\ Forall (fun s => ds <= s) (inode_sectors i) /\ NoDup (inode_sectors i) /\
  (type_of i = RIXFS_IFREG -> in_size i + ss <= 2 ^ 64 -> in_size i <= len (file_bytes D i)) /\
  (type_of i = RIXFS_IFDIR -> exists l, entries f D i = Some l /\ Forall entry_ok l).

(** What the entries of all directories say of an inode. *)
Definition names_in (n t : Z) : Z := if is_dir (node n) then countb (fun e => de_inode e.1 =? t) (default [] (entries f D (node n))) else 0.
Definition names_of (t : Z) : Z := sumz (fun n => names_in n t) used.

Inductive reach : Z -> Prop :=
| reach_root : reach (root_inode (super f))
| reach_entry n l e : reach n -> 1 <= n <= inode_count (super f) -> is_dir (node n) = true -> entries f D (node n) = Some l -> e ∈ l -> reach (de_inode e.1).

Record consistent : Prop := {
  consistent_nodes n : n ∈ used -> node_ok n (node n);
  consistent_root : root_inode (super f) ∈ used /\ is_dir (node (root_inode (super f))) = true;
  consistent_owned : NoDup owned;
  consistent_bitmap s : ds <= s < total -> exists b, bit_at f D s = Some b /\ (b = true <-> s ∈ owned);
  consistent_reach n : n ∈ used -> reach n;
  consistent_links n : n ∈ used -> n <> root_inode (super f) -> 1 <= names_of n /\ (is_dir (node n) = false -> in_links (node n) = names_of n);
}.
End Consistent.

(** ** Extents that do not overlap *)

Lemma no_overlap a al b bl : extent_overlap a al b bl = false -> forall x, a <= x < a + al -> b <= x < b + bl -> False.
Proof.
  unfold extent_overlap. intros H x H1 H2. rewrite (proj2 (Z.eqb_neq al 0)), (proj2 (Z.eqb_neq bl 0)) in H by lia. cbn [orb] in H.
  destruct (a <? b) eqn:E; bool_to_prop; lia.
Qed.

Section Overlap.
Context (total : Z) (Ht : total < 2 ^ 64).

Lemma extent_elem i e s : extents_ok total i -> 0 <= e < RIXFS_DIRECT_EXTENTS -> s ∈ extent_sectors i e <-> extent_start i e <= s < extent_start i e + extent_length i e.
Proof. intros Hi He. rewrite (extent_sectors_plain total) by done. apply elem_of_seqZ. Qed.

Lemma sector_elem i s : extents_ok total i -> s ∈ inode_sectors i -> exists e, 0 <= e < RIXFS_DIRECT_EXTENTS /\ extent_start i e <= s < extent_start i e + extent_length i e.
Proof.
  intros Hi Hs. unfold inode_sectors in Hs. apply list_elem_of_In, in_flat_map in Hs as (e & He & Hs). apply list_elem_of_In in He, Hs. apply elem_of_seqZ in He. exists e. split; [lia|]. by apply extent_elem.
Qed.

Lemma existsb_seqZ (g : Z -> bool) lo n : existsb g (seqZ lo n) = false -> forall k, lo <= k < lo + n -> g k = false.
Proof. intros H k Hk. apply not_true_is_false. intros Hg. apply (not_true_iff_false _) in H. apply H. apply existsb_exists. exists k. split; [|done]. apply list_elem_of_In, elem_of_seqZ. lia. Qed.

Lemma self_disjoint i : extents_ok total i -> self_overlap i = false -> NoDup (inode_sectors i).
Proof.
  intros Hi Ho. unfold inode_sectors. assert (Hgen : forall n lo, 0 <= lo -> lo + Z.of_nat n <= RIXFS_DIRECT_EXTENTS -> NoDup (flat_map (extent_sectors i) (seqZ lo (Z.of_nat n)))).
  { induction n as [|n IH]; intros lo H0 Hn; [constructor|]. rewrite seqZ_cons by lia. replace (Z.pred (Z.of_nat (S n))) with (Z.of_nat n) by lia. cbn [flat_map]. apply list.NoDup_app.
    split; [rewrite (extent_sectors_plain total) by (done || lia); apply NoDup_seqZ|]. split; [|apply IH; lia]. intros s Hs Hin. apply extent_elem in Hs; [|done|lia].
    apply list_elem_of_In, in_flat_map in Hin as (e & He & Hin). apply list_elem_of_In in He, Hin. apply elem_of_seqZ in He. apply extent_elem in Hin; [|done|lia].
    pose proof (existsb_seqZ _ _ _ (existsb_seqZ _ _ _ Ho lo ltac:(lia)) e ltac:(lia)) as Hno. by apply (no_overlap _ _ _ _ Hno s). }
  apply (Hgen 4%nat 0); [lia|done].
Qed.

Lemma pair_disjoint i j s : extents_ok total i -> extents_ok total j -> inodes_overlap i j = false -> s ∈ inode_sectors i -> s ∉ inode_sectors j.
Proof.
  intros Hi Hj Ho Hs Hs'. apply sector_elem in Hs as (a & Ha & Hs); [|done]. apply sector_elem in Hs' as (b & Hb & Hs'); [|done].
  pose proof (existsb_seqZ _ _ _ (existsb_seqZ _ _ _ Ho a ltac:(lia)) b ltac:(lia)) as Hno. by apply (no_overlap _ _ _ _ Hno s).
Qed.
End Overlap.
