(* ===== verification/RixMount.v ===== *)
(** * Mounting on a reliable device ([kernel/fs/rixfs.c])

    On a device that does what it is told, the replay of the journal and [rixfs_mount]
    return, leave the disk well formed, and a mount that succeeds leaves a handle whose
    regions lie where the operations expect them. *)
From stdpp Require Import base tactics list numbers.
From S2P Require Import Prelude Bytes Block Journal RixInode RixFs RixRules RixFiles RixCheck.

(** Every sector is full and holds bytes. *)
Definition disk_ok (n : Z) (D : Z -> list Z) : Prop := forall s, len (D s) = n /\ Forall is_u8 (D s).

Lemma Forall_slice_u8 b o n : Forall is_u8 b -> Forall is_u8 (slice b o n).
Proof. intros Hb. unfold slice. apply Forall_fmap, Forall_true. intros k. by apply aget_u8. Qed.

Lemma disk_ok_upd n D s b : 0 <= n -> disk_ok n D -> Forall is_u8 b -> disk_ok n (Disk.upd D s (slice b 0 n)).
Proof. intros Hn HD Hb x. unfold Disk.upd. destruct (x =? s); [split; [by apply length_slice|by apply Forall_slice_u8]|apply HD]. Qed.

Section Mount.
Context {W : Type} `{!Machine W} `{!Reliable W}.

(** ** Calls below the handle *)

Definition ends {A} (m : IO W A) (D : Z -> list Z) (Q : A -> (Z -> list Z) -> Prop) : Prop :=
  forall w, sound w -> content w = D -> exists a w', m w = (w', Some a) /\ sound w' /\ Q a (content w').

Lemma ends_ret {A} (a : A) D (Q : A -> (Z -> list Z) -> Prop) : Q a D -> ends (mret a) D Q.
Proof. intros HQ w Hw <-. by exists a, w. Qed.

Lemma ends_bind {A B} (m : IO W A) (k : A -> IO W B) D Q : ends m D (fun a D' => ends (k a) D' Q) -> ends (m ≫= k) D Q.
Proof.
  intros Hm w Hw HD. destruct (Hm w Hw HD) as (a & w1 & E1 & Hw1 & Hk). destruct (Hk w1 Hw1 eq_refl) as (b & w2 & E2 & Hw2 & HQ).
  exists b, w2. unfold mbind, IO_bind. by rewrite E1.
Qed.

Lemma ends_conseq {A} (m : IO W A) D (Q Q' : A -> (Z -> list Z) -> Prop) : ends m D Q -> (forall a D', Q a D' -> Q' a D') -> ends m D Q'.
Proof. intros Hm HQ w Hw HD. destruct (Hm w Hw HD) as (a & w1 & E & H1 & H2). exists a, w1. auto. Qed.

Lemma ends_rd d s b D Q : dev_ok d -> 0 <= s < sector_count d -> Q (0, D s ++ drop (length (D s)) b) D -> ends (rd d s b) D Q.
Proof. intros Hd Hs HQ w Hw HD. destruct (reliable_rd d s b w Hd Hs Hw) as (w' & E & Hw' & H'). eexists _, w'. split; [exact E|]. split; [done|]. by rewrite H', HD. Qed.

Lemma ends_wr d s b D Q : dev_ok d -> 0 <= s < sector_count d -> Q 0 (Disk.upd D s (slice b 0 (sector_size d))) -> ends (wr d s b) D Q.
Proof. intros Hd Hs HQ w Hw HD. destruct (reliable_wr d s b w Hd Hs Hw) as (w' & E & Hw' & H'). exists 0, w'. split; [exact E|]. split; [done|]. by rewrite H', HD. Qed.

Lemma ends_flush d D Q : dev_ok d -> Q 0 D -> ends (flush d) D Q.
Proof. intros Hd HQ w Hw HD. destruct (reliable_flush d w Hd Hw) as (w' & E & Hw' & H'). exists 0, w'. split; [exact E|]. split; [done|]. by rewrite H', HD. Qed.

Lemma ends_alloc D (Q : Z -> (Z -> list Z) -> Prop) : (forall q, q <> 0 -> Q q D) -> ends pmm_alloc_page D Q.
Proof. intros HQ w Hw HD. destruct (reliable_alloc w Hw) as (q & w' & E & Hq & Hw' & H'). exists q, w'. split; [exact E|]. split; [done|]. rewrite H', HD. by apply HQ. Qed.

(** The page is given back and the code returned. *)
Lemma ends_free {A} q (a : A) D (Q : A -> (Z -> list Z) -> Prop) : Q a D -> ends (pmm_free_page q ≫= fun _ => mret a) D Q.
Proof.
  intros HQ. apply ends_bind. intros w Hw HD. destruct (reliable_free q w Hw) as (w' & E & Hw' & H'). exists tt, w'. split; [exact E|]. split; [done|]. rewrite H', HD. by apply ends_ret.
Qed.

Lemma ends_or_else a b D Q : ends a D (fun rc D' => if truthy rc then Q rc D' else ends b D' Q) -> ends (or_else a b) D Q.
Proof. intros H. apply ends_bind. eapply ends_conseq; [exact H|]. intros rc D'. cbn beta. intros H'. destruct (truthy rc); [by apply ends_ret|done]. Qed.

(** ** The journal *)

Context (f : rixfs_t) (Hd : dev_ok (device f)) (Ht : total_sectors (super f) = sector_count (device f)) (Hj : 0 <= journal_sector (super f)).
Abbreviation ss := (sector_size (device f)).
Abbreviation js := (journal_sector (super f)).

Lemma Hss : 0 <= ss.
Proof. destruct Hd as (_ & _ & H & _). lia. Qed.

Lemma read_bytes D s b : disk_ok ss D -> Forall is_u8 b -> Forall is_u8 (D s ++ drop (length (D s)) b).
Proof. intros HD Hb. apply Forall_app. split; [apply HD|by apply Forall_drop]. Qed.

Lemma tx_entries_ok buffer n i l : Forall is_u8 buffer -> tx_entries f buffer i n = Some l -> length l = n /\ Forall (fun e => 0 <= e.1 < sector_count (device f)) l.
Proof.
  intros Hb. revert i l. induction n as [|n IH]; intros i l E; cbn [tx_entries] in E; [by injection E as <-|]. destruct (_ || _) eqn:E1; [done|]. apply orb_false_iff in E1 as [E1 _]. bool_to_prop.
  destruct (tx_entries f buffer (i + 1) n) as [l'|] eqn:E2; [|done]. injection E as <-. destruct (IH _ _ E2) as [Hl Hf]. split; [cbn; congruence|]. constructor; [|done]. cbn.
  pose proof (load64_u64 buffer (24 + i * 16) Hb) as [H0 _]. lia.
Qed.

Lemma tx_copy_ends l : forall buffer i D, disk_ok ss D -> Forall is_u8 buffer -> 0 <= i -> js + 1 + i + len l <= sector_count (device f) -> Forall (fun e => 0 <= e.1 < sector_count (device f)) l ->
  ends (tx_copy f buffer i l) D (fun _ D' => disk_ok ss D').
Proof.
  induction l as [|[t sum] l IH]; intros buffer i D HD Hb Hi Hr Hf; cbn [tx_copy]; [by apply ends_ret|]. apply list.Forall_cons in Hf as [Ht0 Hf]. cbn [fst length] in *.
  destruct Hd as (_ & _ & _ & Hc). apply ends_bind. rewrite u64_id by (unfold is_u64; lia). apply ends_rd; [done|lia|]. cbn [truthy Z.eqb negb].
  pose proof (read_bytes D (js + 1 + i) buffer HD Hb) as Hb'. destruct (negb _); [by apply ends_ret|]. apply ends_bind, ends_wr; [done|lia|]. cbn [truthy Z.eqb negb].
  apply IH; [apply disk_ok_upd; [apply Hss|done..]|done|lia|lia|done].
Qed.

(** The record is cleared. *)
Lemma clear_ends D (Q : Z -> (Z -> list Z) -> Prop) : js < sector_count (device f) -> disk_ok ss D -> (forall D', disk_ok ss D' -> Q 0 D') ->
  ends (or_else (wr (device f) js (zeros ss)) (flush (device f))) D Q.
Proof.
  intros Hlt HD HQ. apply ends_or_else, ends_wr; [done|lia|]. cbn [truthy Z.eqb negb]. apply ends_flush; [done|]. apply HQ. apply disk_ok_upd; [apply Hss|done|apply Forall_zeros].
Qed.

Lemma replay_ends D : disk_ok ss D -> ends (journal_replay f) D (fun _ D' => disk_ok ss D').
Proof.
  intros HD. unfold journal_replay. destruct (journal_sectors (super f) <? 2) eqn:E0; [by apply ends_ret|]. destruct (_ || _) eqn:E1; [by apply ends_ret|].
  apply orb_false_iff in E1 as [E1 E2]. bool_to_prop. rewrite Ht in *. pose proof Hd as (_ & _ & _ & Hc). apply ends_bind, ends_alloc. intros q Hq. rewrite (proj2 (Z.eqb_neq q 0) Hq).
  apply ends_bind, ends_rd; [done|lia|]. cbn [truthy Z.eqb negb]. set (b := D js ++ _). assert (Hb : Forall is_u8 b) by (apply read_bytes; [done|apply Forall_zeros]).
  destruct (_ =? RIXFS_JOURNAL_TX_MAGIC).
  - destruct (_ || _) eqn:E3; [by apply ends_free|]. repeat match goal with H : _ || _ = false |- _ => apply orb_false_iff in H as [? ?] end. bool_to_prop.
    pose proof (load32_word b 16 Hb) as [Hc0 _]. destruct (tx_entries f b 0 _) as [l|] eqn:El; [|by apply ends_free]. destruct (tx_entries_ok _ _ _ _ Hb El) as [Hl Hf].
    apply ends_bind. eapply ends_conseq; [apply (tx_copy_ends l b 0); try done; lia|]. intros rc D1 HD1. destruct (truthy rc); [by apply ends_free|].
    apply ends_bind, ends_or_else, ends_flush; [done|]. cbn [truthy Z.eqb negb]. apply clear_ends; [lia|done|]. intros D2 HD2. by apply ends_free.
  - destruct (negb _); [by apply ends_free|]. destruct (_ || _ || _) eqn:E3; [by apply ends_free|].
    repeat match goal with H : _ || _ = false |- _ => apply orb_false_iff in H as [? ?] end. bool_to_prop. pose proof (load64_u64 b 8 Hb) as [Hb0 _].
    apply ends_bind. rewrite u64_id by (unfold is_u64; lia). apply ends_rd; [done|lia|]. cbn [truthy Z.eqb negb]. set (b2 := D (js + 1) ++ _).
    assert (Hb2 : Forall is_u8 b2) by by apply read_bytes. apply ends_bind. destruct (negb (_ =? _)); [apply ends_ret; by apply ends_free|].
    apply ends_or_else, ends_wr; [done|lia|]. cbn [truthy Z.eqb negb]. apply ends_flush; [done|]. cbn [truthy Z.eqb negb].
    apply ends_bind, clear_ends; [lia|apply disk_ok_upd; [apply Hss|done..]|]. intros D2 HD2. by apply ends_free.
Qed.
End Mount.

(** ** The mount *)

(** The superblock a mount reads. *)
Definition super_at (D : Z -> list Z) : rixfs_superblock_t := super_of (take (Z.to_nat sizeof_superblock) (D RIXFS_BLOCK_SECTOR)).

Lemma super_ok_layout d sb h : dev_ok d -> super_sane d sb = true -> super_fits d sb = true -> 0 <= inode_table_sector sb -> 0 <= inode_count sb ->
  inode_count sb * RIXFS_INODE_SIZE + sector_size d < 2 ^ 64 -> layout {| device := d; super := sb; mounted := true; meta_hint := h |} /\ root_inode sb <> 0.
Proof.
  intros Hd Hs Hf Hi Hc Hw. pose proof Hd as (_ & _ & Hss & _). unfold super_sane in Hs. apply negb_true_iff in Hs. unfold super_fits in Hf. apply negb_true_iff in Hf.
  repeat match goal with H : _ || _ = false |- _ => apply orb_false_iff in H as [? ?] end. bool_to_prop.
  rewrite (u64_id (inode_count sb * RIXFS_INODE_SIZE)) in * by (unfold is_u64, RIXFS_INODE_SIZE in *; lia). rewrite u64_id in * by (unfold is_u64, RIXFS_INODE_SIZE in *; lia).
  split; [|done]. unfold layout. cbn. repeat (split; [done|]). lia.
Qed.

Section MountRun.
Context {W : Type} `{!Machine W} `{!Reliable W}.

Lemma returns_io {A} (m : IO W A) f D Q : ends m D (fun a D' => Q a f D') -> returns (io m) f D Q.
Proof.
  intros Hm w Hw HD. destruct (Hm w Hw HD) as (a & w1 & E1 & Hw1 & HQ). exists a, f, w1. split; [|done]. unfold io, mbind, IO_bind. by rewrite E1.
Qed.

(** A mount returns; when it succeeds the handle has the superblock of the disk. *)
Lemma mount_returns d f0 D : dev_ok d -> disk_ok (sector_size d) D -> inode_count (super_at D) * RIXFS_INODE_SIZE + sector_size d < 2 ^ 64 ->
  returns (rixfs_mount d) f0 D (fun r f D' => disk_ok (sector_size d) D' /\ match r with inl _ => True | inr _ =>
    layout f /\ device f = d /\ super f = super_at D /\ 0 <= root_inode (super f) end).
Proof.
  intros Hd HD Hw. pose proof Hd as (_ & _ & Hss & Hc). unfold rixfs_mount. destruct (_ || _ || _); [by apply returns_ret|]. apply returns_bind, returns_with_page, returns_bind, returns_io, ends_rd; [done|unfold RIXFS_BLOCK_SECTOR; lia|].
  cbn [truthy Z.eqb negb]. destruct (sector_size d <? sizeof_superblock); [by apply returns_ret, returns_ret|]. cbv zeta.
  assert (Et : take (Z.to_nat sizeof_superblock) (D RIXFS_BLOCK_SECTOR ++ drop (length (D RIXFS_BLOCK_SECTOR)) (zeros RIXFS_PAGE_SIZE)) = take (Z.to_nat sizeof_superblock) (D RIXFS_BLOCK_SECTOR)).
  { rewrite take_app_le; [done|]. destruct (HD RIXFS_BLOCK_SECTOR) as [H _]. unfold sizeof_superblock. lia. }
  rewrite Et. set (raw := take _ _). assert (Hraw : Forall is_u8 raw) by (apply Forall_take, HD). set (sb := super_of raw). change (super_at D) with sb in *.
  destruct (_ || _); [by apply returns_ret, returns_ret|]. destruct (super_sane d sb) eqn:Es; cbn [negb]; [|by apply returns_ret, returns_ret]. destruct (negb (_ =? _)); [by apply returns_ret, returns_ret|].
  destruct (super_fits d sb) eqn:Ef; cbn [negb]; [|by apply returns_ret, returns_ret]. apply returns_set_handle, returns_ret. cbn beta iota.
  destruct (super_ok_layout d sb (meta_hint f0) Hd Es Ef) as [Hl Hr]; [apply (load64_u64 raw 32 Hraw)|apply (load64_u64 raw 40 Hraw)|done|]. apply returns_handle, returns_bind, returns_io.
  set (f := {| device := d; super := sb; mounted := true; meta_hint := meta_hint f0 |}) in *. assert (Hroot : 0 <= root_inode sb) by apply (load64_u64 raw 56 Hraw).
  eapply ends_conseq; [apply (replay_ends f); [done|apply Hl|apply (load64_u64 raw 96 Hraw)|done]|]. cbn beta. intros rc D' HD'. destruct (truthy rc).
  - apply returns_set_handle. by apply returns_ret.
  - by apply returns_ret.
Qed.
End MountRun.
