(* ===== verification/RixFsckSound.v ===== *)
(** * The soundness of [rixfs_fsck] ([kernel/fs/rixfs_fsck.c])

    Each loop of the check, with what it has established when it does not report an error,
    and the conclusion: a clean report means a consistent file system. *)
From stdpp Require Import base tactics list numbers.
From S2P Require Import Prelude Bytes Block Journal RixInode RixFs RixDir RixRename RixFsck RixRules RixFiles RixDemo RixCheck RixMount.

(** ** The set of inodes seen *)

Lemma seen_after seen a b : 0 <= a -> 0 <= b -> seen_bit (see seen a) b = true -> b = a \/ seen_bit seen b = true.
Proof.
  intros Ha Hb. unfold seen_bit, see. assert (H7 : forall x, 0 <= Z.land x 7) by (intros x; apply Z.land_nonneg; lia). rewrite !land_bit_test by apply H7.
  destruct (decide (Z.shiftr b 3 = Z.shiftr a 3)) as [E|E].
  - rewrite E. destruct (decide (Z.shiftr a 3 < len seen)) as [Hlt|Hge].
    + rewrite aget_aset_eq by (pose proof (proj2 (Z.shiftr_nonneg a 3) Ha); lia). rewrite lor_bit_testbit by apply H7. intros Hor. apply orb_true_iff in Hor as [Hor|Hor]; [by right|]. left. bool_to_prop.
      change 7 with (Z.ones 3) in Hor. rewrite !Z.land_ones in Hor by lia. rewrite !Z.shiftr_div_pow2 in E by lia. rewrite (Z.div_mod a (2 ^ 3)), (Z.div_mod b (2 ^ 3)) by lia. by rewrite E, Hor.
    + unfold aset. rewrite list_insert_ge by lia. by right.
  - rewrite aget_aset_ne by (done || by apply Z.shiftr_nonneg). by right.
Qed.

Section Loops.
Context {W : Type} `{!Machine W} `{!Reliable W} (f : rixfs_t) (D : Z -> list Z) (Hl : layout f) (Hs : disk_shape f D) (Hb : disk_bytes D).
Let ss := sector_size (device f).
Let ds := data_start_sector (super f).
Let total := total_sectors (super f).

Lemma total_u64 : total < 2 ^ 64.
Proof. unfold total. pose proof Hl as ((_ & _ & _ & H) & _ & -> & _). lia. Qed.

Lemma node_eq n i : inode_at f D n = Some i -> node f D n = i.
Proof. intros H. unfold node. by rewrite H. Qed.

(** ** Sectors and extents *)

Lemma checks_used l : forall refs, is_u64 refs -> checks f D (check_used (W := W) false l refs) (fun r => r = u64 (refs + len l) /\ Forall (fun s => bit_at f D s = Some true) l).
Proof.
  induction l as [|s l IH]; intros refs Hr; cbn [check_used]; [apply checks_done; split; [|constructor]; cbn; by rewrite Z.add_0_r, u64_id|].
  apply (checks_try f D _ _ _ _ _ (checks_bitmap f D Hl Hs s)). intros used [Hu _]. destruct used; cbn [negb]; [|apply checks_fail].
  eapply checks_mono; [apply IH, u64_range|]. intros r [-> HF]. split; [|by constructor]. cbn [length]. unfold u64. rewrite Zplus_mod_idemp_l. f_equal. lia.
Qed.

Lemma extent_u64 i e : is_inode i -> is_u64 (extent_start i e) /\ is_u64 (extent_length i e).
Proof.
  intros (_ & _ & _ & HF1 & HF2 & _). unfold extent_length, extent_start, aget.
  split; [destruct (in_extent_start i !! _) eqn:E|destruct (in_extent_length i !! _) eqn:E]; cbn; try done; by eapply Forall_lookup_1 in E.
Qed.

(** An extent inside the data area. *)
Definition extent_good (i : rixfs_inode_disk_t) (e : Z) : Prop := 0 < extent_length i e -> ds <= extent_start i e /\ extent_start i e + extent_length i e <= total.

Lemma len_extent i e : 0 <= extent_length i e -> len (extent_sectors i e) = extent_length i e.
Proof. intros H. unfold extent_sectors. rewrite length_fmap, length_seqZ. lia. Qed.

Lemma checks_extents i es : forall t refs, is_inode i -> is_u64 refs -> Forall (fun e => 0 <= e < RIXFS_DIRECT_EXTENTS) es ->
  checks f D (check_extents (W := W) false es i t refs) (fun r => r.1 = t + sumz (extent_length i) es /\ r.2 = u64 (refs + len (flat_map (extent_sectors i) es)) /\
    Forall (extent_good i) es /\ Forall (fun s => bit_at f D s = Some true) (flat_map (extent_sectors i) es)).
Proof.
  induction es as [|e es IH]; intros t refs Hi Hr Hes; cbn [check_extents flat_map sumz].
  - apply checks_done. cbn. rewrite !Z.add_0_r, u64_id by done. done.
  - inv Hes. apply checks_handle. destruct (extent_u64 i e Hi) as [Hst Hn]. unfold is_u64 in Hn, Hst. destruct (extent_length i e =? 0) eqn:E0; bool_to_prop.
    + eapply checks_mono; [by apply IH|]. intros r (-> & -> & HG & HB). assert (extent_sectors i e = []) as -> by (apply length_zero_iff_nil; pose proof (len_extent i e ltac:(lia)); lia).
      rewrite E0. split; [lia|]. split; [done|]. split; [|done]. constructor; [|done]. unfold extent_good. lia.
    + destruct (_ || _) eqn:E1; [apply checks_fail|]. apply orb_false_iff in E1 as [E1 E2]. apply orb_false_iff in E1 as [E1 E3]. bool_to_prop. destruct (_ <? _) eqn:E4; [apply checks_fail|].
      apply (checks_match f D _ id _ _ _ (checks_used (extent_sectors i e) refs Hr)). intros r1 [-> HF]. eapply checks_mono; [apply IH; [done|apply u64_range|done]|].
      intros r (-> & -> & HG & HB). rewrite length_app. unfold u64. rewrite Zplus_mod_idemp_l. split; [lia|]. split; [f_equal; lia|]. split; [constructor; [|done]; unfold extent_good, ds, total; lia|].
      by apply Forall_app.
Qed.

Lemma extents_of_good i : is_inode i -> Forall (extent_good i) (seqZ 0 RIXFS_DIRECT_EXTENTS) -> extents_ok total i /\ Forall (fun s => ds <= s < total) (inode_sectors i).
Proof.
  intros Hi HG. assert (Hx : extents_ok total i).
  { pose proof Hi as Hi'. destruct Hi as (_ & _ & _ & _ & _ & L1 & L2 & _). split; [done|]. split; [done|]. intros e He. rewrite list.Forall_forall in HG. specialize (HG e ltac:(apply elem_of_seqZ; lia)). unfold extent_good in HG.
    destruct (extent_u64 i e Hi') as [[H1 _] [H2 _]]. split; [done|]. split; [done|]. intros H. by apply HG. }
  split; [done|]. apply list.Forall_forall. intros s Hin. destruct (sector_elem total total_u64 i s Hx Hin) as (e & He & Hse). rewrite list.Forall_forall in HG. specialize (HG e ltac:(apply elem_of_seqZ; lia)). unfold extent_good in HG. lia.
Qed.

(** ** One inode *)

Lemma checks_prior i n : forall k, 0 <= k -> checks f D (check_prior (W := W) n k i) (fun _ => forall p, k <= p < k + Z.of_nat n -> in_use f D p = true -> inodes_overlap i (node f D p) = false).
Proof.
  induction n as [|n IH]; intros k Hk; cbn [check_prior]; [apply checks_done; lia|]. apply (checks_try f D _ _ _ _ _ (checks_inode f D Hl Hs Hb k Hk)). intros o [Ho _].
  destruct (_ && _) eqn:E; [apply checks_fail|]. eapply checks_mono; [apply IH; lia|]. intros u H p Hp Hu. destruct (decide (p = k)) as [Epk|]; [|apply H; [lia|done]]. rewrite Epk in *. clear p Epk.
  unfold in_use in Hu. rewrite (node_eq k o Ho) in *. by rewrite Hu in E.
Qed.

Lemma in_use_some n i : inode_at f D n = Some i -> in_use f D n = negb (in_inode i =? 0).
Proof. intros H. unfold in_use. by rewrite (node_eq n i H). Qed.

Lemma checks_entry e a : is_u64 (de_inode e) -> checks f D (check_entry (W := W) e a) (fun _ => forall name, entry_ok f D (e, name)).
Proof.
  intros [Hu _]. unfold check_entry. apply checks_handle. destruct (_ || _) eqn:E; [apply checks_fail|]. apply orb_false_iff in E as [E1 E2]. bool_to_prop.
  apply (checks_try f D _ _ _ _ _ (checks_inode f D Hl Hs Hb (de_inode e) Hu)). intros c [Hc _]. destruct (in_inode c =? 0) eqn:E3; [apply checks_fail|]. cbv zeta.
  destruct (negb _) eqn:E4; [apply checks_fail|]. apply checks_done. intros name. apply negb_false_iff in E4. bool_to_prop. split; [cbn; lia|]. cbn [fst]. rewrite (in_use_some _ c Hc), (node_eq _ c Hc). rewrite (proj2 (Z.eqb_neq _ _) E3). split; [done|].
  unfold dir_type, type_of. done.
Qed.

(** What the check of one inode has established. *)
Definition inode_checked (n : Z) : Prop :=
  node_ok f D n (node f D n) /\ Forall (fun s => ds <= s < total) (inode_sectors (node f D n)) /\ Forall (fun s => bit_at f D s = Some true) (inode_sectors (node f D n)) /\
  forall p, 1 <= p < n -> in_use f D p = true -> inodes_overlap (node f D n) (node f D p) = false.

Lemma type_cases t : negb (t =? RIXFS_IFREG) && negb (t =? RIXFS_IFDIR) && negb (t =? RIXFS_IFLNK) = false -> t = RIXFS_IFREG \/ t = RIXFS_IFDIR \/ t = RIXFS_IFLNK.
Proof. destruct (t =? RIXFS_IFREG) eqn:E1, (t =? RIXFS_IFDIR) eqn:E2, (t =? RIXFS_IFLNK) eqn:E3; bool_to_prop; auto; done. Qed.

Lemma enough_sectors i t : is_inode i -> disk_shape f D -> t = len (inode_sectors i) -> (t <? sectors_for ss (in_size i)) = false -> in_size i + ss <= 2 ^ 64 -> in_size i <= len (file_bytes D i).
Proof.
  intros (_ & Hz & _) Hsh -> E Hw. bool_to_prop. rewrite (length_file f D i Hsh). pose proof Hl as ((_ & _ & Hss & _) & _). fold ss in Hss |- *. unfold sectors_for in E. unfold is_u64 in Hz.
  rewrite u64_id in E by (unfold is_u64; lia). pose proof (Z.div_mod (in_size i + ss - 1) ss ltac:(lia)). pose proof (Z.mod_pos_bound (in_size i + ss - 1) ss ltac:(lia)). nia.
Qed.

Lemma sum_lengths i es : is_inode i -> sumz (extent_length i) es = len (flat_map (extent_sectors i) es).
Proof. intros Hi. induction es as [|e es IH]; [done|]. cbn [sumz flat_map]. rewrite length_app, IH. destruct (extent_u64 i e Hi) as [_ [H _]]. pose proof (len_extent i e H). lia. Qed.

Lemma checks_inode_ok n refs : 1 <= n -> is_u64 refs -> in_inode (node f D n) = n ->
  checks f D (check_inode (W := W) false n refs) (fun r => r = u64 (refs + len (inode_sectors (node f D n))) /\ inode_checked n).
Proof.
  intros Hn Hr Hin. unfold check_inode. apply checks_handle. apply (checks_try f D _ _ _ _ _ (checks_inode f D Hl Hs Hb n ltac:(lia))). intros i [Hi Hok]. rewrite (node_eq n i Hi) in Hin.
  rewrite (proj2 (Z.eqb_neq (in_inode i) 0)) by lia. cbv zeta. destruct (_ && _ && _) eqn:Et; [apply checks_fail|]. apply type_cases in Et. destruct (self_overlap i) eqn:Eo; [apply checks_fail|].
  apply (checks_match f D _ id _ _ _ (checks_prior i (Z.to_nat (n - 1)) 1 ltac:(lia))). intros u Hp. clear u.
  apply (checks_match f D _ id (fun '(t, r) => _) _ _ (checks_extents i (seqZ 0 RIXFS_DIRECT_EXTENTS) 0 refs Hok Hr ltac:(apply list.Forall_forall; intros e He; apply elem_of_seqZ in He; lia))).
  intros [t r] (Ht & Hr' & HG & HB). cbn [fst snd] in *. rewrite (sum_lengths i _ Hok), Z.add_0_l in Ht. destruct (extents_of_good i Hok HG) as [Hx Hd].
  assert (Hdone : (type_of i = RIXFS_IFREG -> in_size i + ss <= 2 ^ 64 -> in_size i <= len (file_bytes D i)) -> (type_of i = RIXFS_IFDIR -> exists l, entries f D i = Some l /\ Forall (entry_ok f D) l) -> inode_checked n).
  { intros H1 H2. unfold inode_checked. rewrite (node_eq n i Hi). split; [|split; [done|split; [done|]]].
    - repeat (split; [done|]). split; [apply (list.Forall_impl _ _ _ Hd); intros s; unfold ds; lia|]. split; [by apply (self_disjoint total total_u64)|]. done.
    - intros p Hp' Hu. apply Hp; [lia|done]. }
  rewrite (node_eq n i Hi). destruct (_ && _) eqn:E6; [apply checks_fail|].
  assert (Hreg : type_of i = RIXFS_IFREG -> in_size i + ss <= 2 ^ 64 -> in_size i <= len (file_bytes D i)).
  { intros Hreg. unfold type_of in Hreg. rewrite Hreg, Z.eqb_refl in E6. by apply (enough_sectors i t Hok Hs Ht). }
  destruct (_ =? RIXFS_IFDIR) eqn:E7; bool_to_prop.
  - eapply (checks_map f D _ (fun _ => r)).
    + apply (checks_each_entry f D Hl Hs Hb n i Hi ltac:(lia) Hin Hx) with (l0 := []) (Inv := fun l _ => Forall (entry_ok f D) l); [|done|constructor|].
      * unfold is_dir. by rewrite E7.
      * intros l e name [] HF Hu _. eapply checks_mono; [by apply checks_entry|]. intros u He. apply Forall_app. split; [done|]. by constructor.
    + intros [] (l & Hl' & HF). split; [done|]. apply Hdone; [done|]. intros _. by exists l.
  - apply checks_done. split; [done|]. apply Hdone; [done|]. intros H. by rewrite <- H in E7.
Qed.
(** ** All inodes *)

Definition owned_upto (k : Z) : list Z := flat_map (fun n => inode_sectors (node f D n)) (used_between f D 1 k).

Lemma used_snoc k : 0 <= k -> used_between f D 1 (k + 1) = used_between f D 1 k ++ (if in_use f D (1 + k) then [1 + k] else []).
Proof.
  intros Hk. unfold used_between. rewrite seqZ_app by lia. rewrite list.filter_app. f_equal. change (seqZ (1 + k) 1) with [Z.of_nat 0 + (1 + k)]. cbn [Z.of_nat]. rewrite Z.add_0_l.
  destruct (in_use f D (1 + k)) eqn:E; [by rewrite filter_cons_True by done|]. by rewrite filter_cons_False by (by rewrite E).
Qed.
Lemma elem_used k n : n ∈ used_between f D 1 k <-> in_use f D n = true /\ 1 <= n < 1 + k.
Proof. unfold used_between. rewrite list_elem_of_filter, elem_of_seqZ. done. Qed.

Lemma owned_disjoint k : Forall inode_checked (used_between f D 1 k) -> NoDup (owned_upto k).
Proof.
  intros HF. destruct (decide (0 <= k)) as [Hk|]; [|unfold owned_upto, used_between; by rewrite seqZ_nil by lia; constructor].
  revert HF. pattern k. apply natlike_ind; [constructor| |done]. clear k Hk. intros k Hk IH HF. unfold owned_upto in *. replace (Z.succ k) with (k + 1) in * by lia. rewrite used_snoc in * by done. destruct (in_use f D (1 + k)) eqn:E; [|by rewrite app_nil_r in *; auto].
  rewrite flat_map_app. cbn [flat_map]. rewrite app_nil_r. apply Forall_app in HF as [HF H1]. inv H1. destruct H2 as ((_ & _ & _ & Hx & _ & Hnd & _) & _ & _ & Hdis).
  apply list.NoDup_app. split; [by apply IH|]. split; [|done]. intros s Hin Hin'. apply list_elem_of_In, in_flat_map in Hin as (p & Hp & Hin). apply list_elem_of_In in Hp, Hin.
  rewrite list.Forall_forall in HF. destruct (HF p Hp) as ((_ & _ & _ & Hxp & _) & _). apply elem_used in Hp as [Hu Hp].
  by apply (pair_disjoint total total_u64 _ _ s Hx Hxp (Hdis p ltac:(lia) Hu)).
Qed.

Lemma checks_inodes n : forall k, 0 <= k -> Forall inode_checked (used_between f D 1 k) ->
  checks f D (check_inodes (W := W) n false (1 + k) (len (used_between f D 1 k)) (u64 (len (owned_upto k)))) (fun r =>
    r = (len (used_between f D 1 (k + Z.of_nat n)), u64 (len (owned_upto (k + Z.of_nat n)))) /\ Forall inode_checked (used_between f D 1 (k + Z.of_nat n))).
Proof.
  induction n as [|n IH]; intros k Hk HF; cbn [check_inodes]; [apply checks_done; by rewrite Z.add_0_r|]. replace (k + Z.of_nat (S n)) with ((k + 1) + Z.of_nat n) by lia. replace (1 + k + 1) with (1 + (k + 1)) by lia.
  apply (checks_try f D _ _ _ _ _ (checks_inode f D Hl Hs Hb (1 + k) ltac:(lia))). intros i [Hi _]. pose proof (used_snoc k Hk) as Hu. rewrite (in_use_some (1 + k) i Hi) in Hu. specialize (IH (k + 1) ltac:(lia)).
  destruct (in_inode i =? 0) eqn:E0; cbn [negb] in Hu.
  - rewrite app_nil_r in Hu. unfold owned_upto in *. rewrite Hu in IH. by apply IH.
  - destruct (negb _) eqn:E1; [apply checks_fail|]. apply negb_false_iff in E1. bool_to_prop.
    apply (checks_match f D _ (fun x => -10 + x) _ _ _ (checks_inode_ok (1 + k) (u64 (len (owned_upto k))) ltac:(lia) (u64_range _) ltac:(by rewrite (node_eq _ i Hi)))).
    intros r [-> Hck]. assert (HF' : Forall inode_checked (used_between f D 1 (k + 1))) by (rewrite Hu; apply Forall_app; split; [done|by constructor]). specialize (IH HF').
    assert (u64 (u64 (len (owned_upto k)) + len (inode_sectors (node f D (1 + k)))) = u64 (len (owned_upto (k + 1)))) as ->.
    { unfold owned_upto. rewrite Hu, flat_map_app. cbn [flat_map]. rewrite app_nil_r, length_app. unfold u64. rewrite Zplus_mod_idemp_l. f_equal. lia. }
    assert (len (used_between f D 1 k) + 1 = len (used_between f D 1 (k + 1))) as -> by (rewrite Hu, length_app; cbn; lia). exact IH.
Qed.

(** ** Reachability and links, once every inode was found in order *)

Context (Hall : Forall inode_checked (used f D)).
Let count := inode_count (super f).

Lemma used_ok n i : 1 <= n <= count -> inode_at f D n = Some i -> in_inode i <> 0 -> in_inode i = n /\ extents_ok total i /\ (is_dir i = true -> exists l, entries f D i = Some l /\ Forall (entry_ok f D) l).
Proof.
  intros Hn Hi Hz. rewrite list.Forall_forall in Hall. destruct (Hall n) as ((_ & H1 & _ & H2 & _ & _ & _ & H3) & _).
  { apply elem_used. rewrite (in_use_some n i Hi), (proj2 (Z.eqb_neq _ _) Hz). split; [done|]. unfold count in Hn. lia. }
  rewrite (node_eq n i Hi) in *. split; [done|]. split; [done|]. intros Hd. apply H3. unfold is_dir in Hd. unfold type_of. by bool_to_prop.
Qed.

(** What was seen is reachable, and in use. *)
Definition seen_ok (seen : list Z) : Prop := forall k, 0 <= k -> seen_bit seen k = true -> reach f D k /\ 1 <= k <= count /\ in_use f D k = true.

Lemma see_ok seen k : seen_ok seen -> reach f D k -> 1 <= k <= count -> in_use f D k = true -> seen_ok (see seen k).
Proof. intros H Hr Hk Hu j Hj Hb'. apply seen_after in Hb' as [->|Hb']; [done|by apply H|lia|done]. Qed.

Lemma checks_reach_pass n : forall k seen ch, 1 <= k -> k + Z.of_nat n <= count + 1 -> seen_ok seen -> checks f D (reach_pass (W := W) n k seen ch) (fun r => seen_ok r.1).
Proof.
  induction n as [|n IH]; intros k seen ch Hk Hn Hok; cbn [reach_pass]; [by apply checks_done|]. destruct (seen_bit seen k) eqn:E; cbn [negb]; [|apply IH; [lia..|done]].
  destruct (Hok k ltac:(lia) E) as (Hr & Hkc & Hu). apply (checks_try f D _ _ _ _ _ (checks_inode f D Hl Hs Hb k ltac:(lia))). intros i [Hi _]. destruct (is_dir i) eqn:Ed; cbn [negb]; [|apply IH; [lia..|done]].
  apply checks_handle. rewrite (in_use_some k i Hi) in Hu. apply negb_true_iff in Hu. bool_to_prop. destruct (used_ok k i Hkc Hi Hu) as (Hin & Hx & Hes). destruct (Hes Ed) as (l & Hel & HF).
  eapply (checks_match f D _ id (fun '(s, c) => reach_pass n (k + 1) s c)).
  - eapply (checks_each_entry f D Hl Hs Hb k i Hi ltac:(lia) Hin Hx Ed) with (l0 := [])
      (Inv := fun l' a => (forall q, l = l' ++ q -> seen_ok a.1)); [done|done|].
    intros l' e name [s c] Hinv Hue Hze. cbn [fst] in *.
    destruct (_ || _) eqn:E1; [apply checks_fail|]. apply orb_false_iff in E1 as [_ E1]. bool_to_prop.
    assert (Hin' : forall q, l = (l' ++ [(e, name)]) ++ q -> seen_ok s /\ reach f D (de_inode e) /\ 1 <= de_inode e <= count /\ in_use f D (de_inode e) = true).
    { intros q Hq. split; [apply (Hinv ((e, name) :: q)); by rewrite Hq, <- app_assoc|]. assert (Hel' : (e, name) ∈ l) by (rewrite Hq; rewrite !elem_of_app; left; right; constructor). rewrite list.Forall_forall in HF. destruct (HF _ Hel') as (H1 & H2 & _).
      split; [|done]. apply (reach_entry f D k l (e, name)); [done|done|by rewrite (node_eq k i Hi)..|done]. }
    destruct (seen_bit s (de_inode e)); apply checks_done; intros q Hq; destruct (Hin' q Hq) as (Hsk & ? & ? & ?); [done|]. by apply see_ok.
  - intros [s c] (l' & Hl' & Hinv). unfold entries in Hel. rewrite Hel in Hl'. injection Hl' as <-. apply IH; [lia..|]. apply (Hinv []). by rewrite app_nil_r.
Qed.

Lemma checks_reach_loop n : forall seen, seen_ok seen -> checks f D (reach_loop (W := W) n seen) seen_ok.
Proof.
  pose proof Hl as (_ & _ & _ & _ & Hc & _). induction n as [|n IH]; intros seen Hok; cbn [reach_loop]; [by apply checks_done|]. apply checks_handle.
  eapply (checks_match f D _ id (fun '(s, c) => if (c : bool) then reach_loop n s else done s)); [apply checks_reach_pass; [lia|unfold count; lia|done]|]. intros [s [|]] Hok'; [by apply IH|by apply checks_done].
Qed.

Lemma checks_all_reached n : forall k seen, 0 <= k -> seen_ok seen -> checks f D (all_reached (W := W) n k seen) (fun _ => forall p, k <= p < k + Z.of_nat n -> in_use f D p = true -> reach f D p).
Proof.
  induction n as [|n IH]; intros k seen Hk Hok; cbn [all_reached]; [apply checks_done; lia|]. apply (checks_try f D _ _ _ _ _ (checks_inode f D Hl Hs Hb k Hk)). intros i [Hi _].
  destruct (_ && _) eqn:E; [apply checks_fail|]. eapply checks_mono; [by apply IH; [lia|exact Hok]|]. intros u H p Hp Hu. destruct (decide (p = k)) as [Epk|]; [|apply H; [lia|done]].
  rewrite Epk in *. rewrite (in_use_some k i Hi) in Hu. rewrite Hu in E. cbn in E. apply negb_false_iff in E. by apply (Hok k Hk E).
Qed.
Lemma checks_count_links t n : forall k links, 1 <= k -> k + Z.of_nat n <= count + 1 ->
  checks f D (count_links (W := W) n k t links) (fun r => r = links + sumz (fun d => names_in f D d t) (used_between f D k (Z.of_nat n))).
Proof.
  induction n as [|n IH]; intros k links Hk Hn; cbn [count_links]; [apply checks_done; unfold used_between; rewrite seqZ_nil by lia; cbn; lia|]. apply (checks_try f D _ _ _ _ _ (checks_inode f D Hl Hs Hb k ltac:(lia))). intros i [Hi _].
  unfold used_between. rewrite seqZ_cons by lia. replace (Z.pred (Z.of_nat (S n))) with (Z.of_nat n) by lia. replace (Z.succ k) with (k + 1) by lia.
  pose proof (in_use_some k i Hi) as Hu. destruct (in_inode i =? 0) eqn:E0; cbn [negb orb] in *.
  - rewrite filter_cons_False by (by rewrite Hu). apply IH; lia.
  - rewrite filter_cons_True by done. cbn [sumz]. unfold names_in at 1. rewrite (node_eq k i Hi). destruct (is_dir i) eqn:Ed; cbn [negb].
    + bool_to_prop. destruct (used_ok k i ltac:(lia) Hi E0) as (Hin & Hx & _). eapply (checks_match f D _ id (count_links n (k + 1) t)).
      * apply (checks_each_entry f D Hl Hs Hb k i Hi ltac:(lia) Hin Hx Ed) with (l0 := []) (Inv := fun l a => a = links + countb (fun e => de_inode e.1 =? t) l); [done|unfold countb; cbn [sumz]; lia|].
        intros l e name a -> _ _. rewrite countb_app, countb_cons. cbn [fst]. change (countb (fun e => de_inode e.1 =? t) []) with 0. destruct (de_inode e =? t); [|apply checks_done; cbn; lia].
        destruct (_ =? UINT32_MAX); [apply checks_fail|apply checks_done; cbn; lia].
      * intros a (l & Hl' & ->). cbn [app]. unfold entries. rewrite Hl'. cbn [default]. eapply checks_mono; [apply IH; lia|]. intros r ->. unfold used_between. unfold id. lia.
    + rewrite Z.add_0_l. apply IH; lia.
Qed.

Lemma names_nonneg t : 0 <= names_of f D t.
Proof. apply sumz_nonneg, Forall_true. intros n. unfold names_in. destruct (is_dir _); [apply countb_nonneg|done]. Qed.

Lemma checks_links n : forall k, 1 <= k -> checks f D (check_links (W := W) n k) (fun _ => forall p, k <= p < k + Z.of_nat n -> in_use f D p = true -> p <> root_inode (super f) ->
  1 <= names_of f D p /\ (is_dir (node f D p) = false -> in_links (node f D p) = names_of f D p)).
Proof.
  pose proof Hl as (_ & _ & _ & _ & Hc & _). induction n as [|n IH]; intros k Hk; cbn [check_links]; [apply checks_done; lia|].
  apply (checks_try f D _ _ _ _ _ (checks_inode f D Hl Hs Hb k ltac:(lia))). intros i [Hi _]. apply checks_handle. pose proof (in_use_some k i Hi) as Hu. destruct (_ || _) eqn:E.
  - eapply checks_mono; [apply IH; lia|]. intros u H p Hp Hup Hr. destruct (decide (p = k)) as [Epk|]; [|apply H; [lia|done|done]]. rewrite Epk in *. rewrite Hu in Hup. apply negb_true_iff in Hup. rewrite Hup in E. cbn in E. bool_to_prop. done.
  - apply (checks_try f D _ _ _ _ _ (checks_handle f D _ _ (checks_count_links k (Z.to_nat (inode_count (super f))) 1 0 ltac:(lia) ltac:(unfold count; lia)))).
    intros r ->. rewrite Z2Nat.id by lia. rewrite Z.add_0_l. change (sumz _ _) with (names_of f D k). pose proof (names_nonneg k). destruct (names_of f D k =? 0) eqn:E1; [apply checks_fail|]. destruct (_ && _) eqn:E2; [apply checks_fail|].
    eapply checks_mono; [apply IH; lia|]. intros u H' p Hp Hup Hr. destruct (decide (p = k)) as [Epk|]; [|apply H'; [lia|done|done]]. rewrite Epk in *. rewrite (node_eq k i Hi). split; [bool_to_prop; lia|].
    intros Hd. rewrite Hd in E2. apply negb_false_iff in E2. by bool_to_prop.
Qed.

(** ** The bitmap *)

Definition marked (l : list Z) : list Z := filter (fun s => bit_at f D s = Some true) l.

Lemma checks_count l : forall t, checks f D (count_used (W := W) l t) (fun r => r = t + len (marked l) /\ Forall (fun s => is_Some (bit_at f D s)) l).
Proof.
  induction l as [|s l IH]; intros t; cbn [count_used]; [apply checks_done; cbn; split; [lia|constructor]|]. apply (checks_try f D _ _ _ _ _ (checks_bitmap f D Hl Hs s)). intros b [Hbit _]. unfold marked. destruct b.
  - rewrite filter_cons_True by done. destruct (_ =? _); [apply checks_fail|]. eapply checks_mono; [apply IH|]. intros r [-> HF]. split; [unfold marked; cbn [length]; lia|]. constructor; [by eexists|done].
  - rewrite filter_cons_False by (rewrite Hbit; congruence). eapply checks_mono; [apply IH|]. intros r [-> HF]. split; [done|]. constructor; [by eexists|done].
Qed.

Lemma owned_inside s : s ∈ owned f D -> ds <= s < total /\ bit_at f D s = Some true.
Proof.
  intros Hx. unfold owned in Hx. apply list_elem_of_In, in_flat_map in Hx as (n & Hn & Hx). apply list_elem_of_In in Hn, Hx. rewrite list.Forall_forall in Hall.
  destruct (Hall n Hn) as (_ & H1 & H2 & _). rewrite list.Forall_forall in H1, H2. auto.
Qed.
(** As many sectors marked as owned, and every one owned marked: they are the same. *)
Lemma bitmap_exact : len (marked (seqZ ds (total - ds))) = len (owned f D) -> forall s, ds <= s < total -> bit_at f D s = Some true -> s ∈ owned f D.
Proof.
  intros Hlen s Hr Hbit. assert (Hsub : owned f D ⊆+ marked (seqZ ds (total - ds))).
  { apply NoDup_submseteq; [by apply owned_disjoint|]. intros x Hx. destruct (owned_inside x Hx). apply list_elem_of_filter. split; [done|]. apply elem_of_seqZ. lia. }
  rewrite (submseteq_length_Permutation _ _ Hsub) by lia. apply list_elem_of_filter. split; [done|]. apply elem_of_seqZ. lia.
Qed.

Lemma owned_short : len (owned f D) < 2 ^ 64.
Proof.
  pose proof Hl as (_ & _ & _ & H0 & _ & _ & Hd & _). pose proof total_u64. assert (Hsub : owned f D ⊆+ seqZ ds (total - ds)).
  { apply NoDup_submseteq; [by apply owned_disjoint|]. intros x Hx. destruct (owned_inside x Hx). apply elem_of_seqZ. lia. }
  apply submseteq_length in Hsub. rewrite length_seqZ in Hsub. assert (0 <= (inode_count (super f) * RIXFS_INODE_SIZE + (sector_size (device f) - 1)) / sector_size (device f)).
  { pose proof Hl as ((_ & _ & Hss & _) & _ & _ & _ & Hc & _). unfold RIXFS_INODE_SIZE. apply Z.div_pos; lia. }
  unfold ds, total in *. lia.
Qed.
End Loops.

Section Sound.
Context {W : Type} `{!Machine W} `{!Reliable W} (f : rixfs_t) (D : Z -> list Z) (Hl : layout f) (Hs : disk_shape f D) (Hb : disk_bytes D).

Lemma checks_root : 0 <= root_inode (super f) -> returns (root_bad (W := W)) f D (fun bad f' D' => f' = f /\ D' = D /\
  (bad = false -> in_inode (node f D (root_inode (super f))) = root_inode (super f) /\ is_dir (node f D (root_inode (super f))) = true)).
Proof.
  intros H0. unfold root_bad. apply returns_handle, returns_bind, returns_read_inode; try done. unfold node. destruct (inode_at f D _) as [i|]; apply returns_ret; [|done]. cbn. repeat (split; [done|]).
  intros E. apply orb_false_iff in E as [E1 E2]. apply negb_false_iff in E1, E2. by bool_to_prop.
Qed.

Lemma checks_reachable : Forall (inode_checked f D) (used f D) -> 1 <= root_inode (super f) <= inode_count (super f) -> in_use f D (root_inode (super f)) = true ->
  checks f D (check_reachable (W := W)) (fun _ => forall n, n ∈ used f D -> reach f D n).
Proof.
  intros Hall Hr Hu. unfold check_reachable. apply checks_handle. destruct (_ || _); [apply checks_fail|].
  assert (H0 : seen_ok f D (see (zeros sizeof_reachable) (root_inode (super f)))).
  { apply see_ok; [|constructor|done|done]. intros k Hk Hsb. exfalso. unfold seen_bit, zeros, aget in Hsb. rewrite land_bit_test in Hsb by (apply Z.land_nonneg; lia).
    destruct (replicate _ _ !! _) as [x|] eqn:E in Hsb; cbn in Hsb; [apply lookup_replicate in E as [-> _]|]; by rewrite Z.bits_0 in Hsb. }
  apply (checks_match f D _ id _ _ _ (checks_reach_loop f D Hl Hs Hb Hall _ _ H0)). intros seen Hok.
  eapply checks_mono; [by apply (checks_all_reached f D Hl Hs Hb)|]. intros u H n Hn. apply elem_used in Hn as [Hu' Hn]. apply H; [lia|done].
Qed.

Lemma checks_allocated : checks f D (count_allocated_data_sectors (W := W)) (fun r => r = len (marked f D (seqZ (data_start_sector (super f)) (total_sectors (super f) - data_start_sector (super f)))) /\
  Forall (fun s => is_Some (bit_at f D s)) (seqZ (data_start_sector (super f)) (total_sectors (super f) - data_start_sector (super f)))).
Proof. unfold count_allocated_data_sectors. apply checks_handle. destruct (_ <=? _); [apply checks_fail|]. by apply checks_count. Qed.

(** What the check reports: the inodes in use and the sectors they own. *)
Definition fsck_report : Z * Z := (len (used f D), len (owned f D)).

(** After the mount the check only looks, and a clean report is right. *)
Lemma fsck_body_checks : 0 <= root_inode (super f) -> checks f D (fsck_body (W := W)) (fun r => consistent f D /\ r = fsck_report).
Proof.
  intros Hr0. pose proof Hl as (_ & _ & _ & _ & Hc & _). unfold fsck_body. apply checks_handle. destruct (_ || _) eqn:E0; [apply checks_fail|]. apply orb_false_iff in E0 as [E0 E1]. bool_to_prop.
  pose proof (checks_inodes f D Hl Hs Hb (Z.to_nat (inode_count (super f))) 0 ltac:(lia) ltac:(constructor)) as Hin. rewrite Z.add_0_l, Z2Nat.id in Hin by done.
  apply (checks_match f D _ id (fun '(c, r) => _) _ _ Hin). intros ? [-> Hall]. fold (used f D) in *. change (owned_upto f D (inode_count (super f))) with (owned f D).
  rewrite u64_id by (split; [lia|by apply owned_short]). apply returns_bind. eapply returns_conseq; [by apply checks_root|]. intros bad f' D' (-> & -> & Hroot).
  destruct bad; [apply checks_fail|]. destruct (Hroot eq_refl) as [Hri Hrd]. assert (Hru : in_use f D (root_inode (super f)) = true) by (unfold in_use; rewrite Hri; by apply negb_true_iff, Z.eqb_neq).
  eapply checks_try; [apply checks_reachable; [done|lia|done]|]. intros _u Hreach. eapply checks_try; [apply checks_allocated|]. intros al [-> Hbits]. destruct (negb _) eqn:Eal; [apply checks_fail|]. apply negb_false_iff in Eal. bool_to_prop.
  eapply (checks_map f D _ (fun _ => _)); [by apply (checks_links f D Hl Hs Hb Hall (Z.to_nat (inode_count (super f))) 1)|]. intros _v Hlinks. split; [|done].
  pose proof (proj1 (list.Forall_forall _ _) Hall) as Hall'. split.
  - intros n Hn. by apply Hall'.
  - split; [|done]. apply elem_used. split; [done|lia].
  - by apply (owned_disjoint f D Hl).
  - intros s Hr. rewrite list.Forall_forall in Hbits. destruct (Hbits s ltac:(apply elem_of_seqZ; lia)) as [b Eb]. exists b. split; [done|]. split.
    + intros ->. by apply (bitmap_exact f D Hl Hall).
    + intros Ho. destruct (owned_inside f D Hall s Ho). congruence.
  - done.
  - intros n Hn. apply elem_used in Hn as [Hu Hn]. apply Hlinks; [lia|done].
Qed.
End Sound.

(** The handle the check mounts on. *)
Definition fresh_handle (d : rix_block_device_t) : rixfs_t := {| device := d; super := zero_super; mounted := false; meta_hint := 0 |}.


(** The small disk with its superblock in place. *)
Definition checked_disk : ram := fun s => if s =? 0 then super_bytes (set_sb_checksum (hash64 (super_bytes demo_super) sizeof_superblock) demo_super) else demo_disk s.

Lemma checked_disk_ok : disk_ok 512 checked_disk.
Proof.
  intros s. unfold checked_disk, demo_disk. assert (H : forall l, (len l =? 512) && forallb (fun b => (0 <=? b) && (b <? 256)) l = true -> len l = 512 /\ Forall is_u8 l).
  { intros l Hl. apply andb_true_iff in Hl as [H1 H2]. split; [by apply Z.eqb_eq|]. apply list.Forall_forall. intros x Hx. apply list_elem_of_In in Hx. rewrite forallb_forall in H2. specialize (H2 x Hx).
    unfold is_u8. apply andb_true_iff in H2 as [H2 H3]. bool_to_prop. lia. }
  apply H. destruct (s =? 0); [vm_compute; reflexivity|]. destruct (s =? 1); [vm_compute; reflexivity|]. destruct (s =? 3); [vm_compute; reflexivity|]. destruct (s <? 22); vm_compute; reflexivity.
Qed.

