(* ===== verification/Tty.v ===== *)
(** * Terminals ([kernel/tty/tty.c], [tty.h], [font_psf.h])

    Four consoles with line editing, history, a VT100 subset drawn into the frame buffer,
    and four pseudo terminals. Pixels are written through [ink]: the addresses written, in
    order, with their values. The scheduler, the signal hook and the MMIO mapper are the
    class [TtyHost]; the font is the list [font] of its bytes. Buffers are lists, so
    the refusal of a null buffer does not arise. *)
From stdpp Require Import base tactics list numbers.
From S2P Require Import Prelude Lock Bytes.

Abbreviation len l := (Z.of_nat (length l)).

Definition RIX_TTY_COUNT : Z := 4.
Definition RIX_TTY_INPUT : Z := 4096.
Definition RIX_TTY_OUTPUT : Z := 4096.
Definition RIX_PTY_COUNT : Z := 4.
Definition RIX_TTY_MAX_ROWS : Z := 64.
Definition RIX_TTY_MAX_COLUMNS : Z := 128.
Definition RIX_TTY_KEY_UP : Z := 0x80.
Definition RIX_TTY_KEY_DOWN : Z := 0x81.
Definition RIX_TTY_KEY_LEFT : Z := 0x82.
Definition RIX_TTY_KEY_RIGHT : Z := 0x83.
Definition RIX_TTY_LINE_MAX : Z := 256.
Definition RIX_TTY_HISTORY_COUNT : Z := 32.
Definition RIX_TTY_LFLAG_CANONICAL : Z := 1.
Definition RIX_TTY_LFLAG_ECHO : Z := 2.
Definition RIX_TTY_LFLAG_ISIG : Z := 4.
Definition RIX_TTY_LFLAG_UTF8 : Z := 8.
Definition RIX_PSF2_MAGIC : Z := 0x864AB572.
Definition VT_NORMAL : Z := 0.
Definition VT_ESC : Z := 1.
Definition VT_CSI : Z := 2.
Definition CELLS : Z := RIX_TTY_MAX_ROWS * RIX_TTY_MAX_COLUMNS.

(** The fields nothing reads ([vt_value], [vt_param_count]) are left out; the wait queue is
    the host's. *)
Record rix_tty_t := {
  input : list Z; output : list Z; head : Z; tail : Z; count : Z; output_head : Z; output_tail : Z; output_count : Z;
  line_chars : Z; canonical_ready : Z; rows : Z; columns : Z; cursor_row : Z; cursor_column : Z; vt_state : Z; vt_value_index : Z;
  screen : list Z; screen_fg : list Z; screen_bg : list Z; fg_color : Z; bg_color : Z; bold : Z; canonical : Z; echo : Z; isig : Z; utf8 : Z;
  controlling : Z; session : Z; foreground_pgrp : Z; utf8_codepoint : Z; utf8_expected : Z; utf8_seen : Z; vt_params : list Z;
  edit_line : list Z; edit_length : Z; edit_cursor : Z; history : list (list Z); history_count : Z; history_cursor : Z }.
#[global] Instance tty_eta : Eta rix_tty_t := fun t =>
  {| input := input t; output := output t; head := head t; tail := tail t; count := count t; output_head := output_head t; output_tail := output_tail t; output_count := output_count t;
     line_chars := line_chars t; canonical_ready := canonical_ready t; rows := rows t; columns := columns t; cursor_row := cursor_row t; cursor_column := cursor_column t;
     vt_state := vt_state t; vt_value_index := vt_value_index t; screen := screen t; screen_fg := screen_fg t; screen_bg := screen_bg t; fg_color := fg_color t; bg_color := bg_color t;
     bold := bold t; canonical := canonical t; echo := echo t; isig := isig t; utf8 := utf8 t; controlling := controlling t; session := session t; foreground_pgrp := foreground_pgrp t;
     utf8_codepoint := utf8_codepoint t; utf8_expected := utf8_expected t; utf8_seen := utf8_seen t; vt_params := vt_params t; edit_line := edit_line t; edit_length := edit_length t;
     edit_cursor := edit_cursor t; history := history t; history_count := history_count t; history_cursor := history_cursor t |}.

Definition set_input (x : list Z) (t : rix_tty_t) : rix_tty_t := ltac:(upd t input x).
Definition set_output (x : list Z) (t : rix_tty_t) : rix_tty_t := ltac:(upd t output x).
Definition set_head (x : Z) (t : rix_tty_t) : rix_tty_t := ltac:(upd t head x).
Definition set_tail (x : Z) (t : rix_tty_t) : rix_tty_t := ltac:(upd t tail x).
Definition set_count (x : Z) (t : rix_tty_t) : rix_tty_t := ltac:(upd t count x).
Definition set_output_head (x : Z) (t : rix_tty_t) : rix_tty_t := ltac:(upd t output_head x).
Definition set_output_tail (x : Z) (t : rix_tty_t) : rix_tty_t := ltac:(upd t output_tail x).
Definition set_output_count (x : Z) (t : rix_tty_t) : rix_tty_t := ltac:(upd t output_count x).
Definition set_line_chars (x : Z) (t : rix_tty_t) : rix_tty_t := ltac:(upd t line_chars x).
Definition set_canonical_ready (x : Z) (t : rix_tty_t) : rix_tty_t := ltac:(upd t canonical_ready x).
Definition set_rows (x : Z) (t : rix_tty_t) : rix_tty_t := ltac:(upd t rows x).
Definition set_columns (x : Z) (t : rix_tty_t) : rix_tty_t := ltac:(upd t columns x).
Definition set_cursor_row (x : Z) (t : rix_tty_t) : rix_tty_t := ltac:(upd t cursor_row x).
Definition set_cursor_column (x : Z) (t : rix_tty_t) : rix_tty_t := ltac:(upd t cursor_column x).
Definition set_vt_state (x : Z) (t : rix_tty_t) : rix_tty_t := ltac:(upd t vt_state x).
Definition set_vt_value_index (x : Z) (t : rix_tty_t) : rix_tty_t := ltac:(upd t vt_value_index x).
Definition set_screen (x : list Z) (t : rix_tty_t) : rix_tty_t := ltac:(upd t screen x).
Definition set_screen_fg (x : list Z) (t : rix_tty_t) : rix_tty_t := ltac:(upd t screen_fg x).
Definition set_screen_bg (x : list Z) (t : rix_tty_t) : rix_tty_t := ltac:(upd t screen_bg x).
Definition set_fg_color (x : Z) (t : rix_tty_t) : rix_tty_t := ltac:(upd t fg_color x).
Definition set_bg_color (x : Z) (t : rix_tty_t) : rix_tty_t := ltac:(upd t bg_color x).
Definition set_bold (x : Z) (t : rix_tty_t) : rix_tty_t := ltac:(upd t bold x).
Definition set_canonical (x : Z) (t : rix_tty_t) : rix_tty_t := ltac:(upd t canonical x).
Definition set_echo (x : Z) (t : rix_tty_t) : rix_tty_t := ltac:(upd t echo x).
Definition set_isig (x : Z) (t : rix_tty_t) : rix_tty_t := ltac:(upd t isig x).
Definition set_utf8 (x : Z) (t : rix_tty_t) : rix_tty_t := ltac:(upd t utf8 x).
Definition set_controlling (x : Z) (t : rix_tty_t) : rix_tty_t := ltac:(upd t controlling x).
Definition set_session (x : Z) (t : rix_tty_t) : rix_tty_t := ltac:(upd t session x).
Definition set_foreground_pgrp (x : Z) (t : rix_tty_t) : rix_tty_t := ltac:(upd t foreground_pgrp x).
Definition set_vt_params (x : list Z) (t : rix_tty_t) : rix_tty_t := ltac:(upd t vt_params x).
Definition set_edit_line (x : list Z) (t : rix_tty_t) : rix_tty_t := ltac:(upd t edit_line x).
Definition set_edit_length (x : Z) (t : rix_tty_t) : rix_tty_t := ltac:(upd t edit_length x).
Definition set_edit_cursor (x : Z) (t : rix_tty_t) : rix_tty_t := ltac:(upd t edit_cursor x).
Definition set_history (x : list (list Z)) (t : rix_tty_t) : rix_tty_t := ltac:(upd t history x).
Definition set_history_count (x : Z) (t : rix_tty_t) : rix_tty_t := ltac:(upd t history_count x).
Definition set_history_cursor (x : Z) (t : rix_tty_t) : rix_tty_t := ltac:(upd t history_cursor x).
(** The state of the UTF-8 decoder. *)
Definition set_decoder (expected seen codepoint : Z) (t : rix_tty_t) : rix_tty_t :=
  {| input := input t; output := output t; head := head t; tail := tail t; count := count t; output_head := output_head t; output_tail := output_tail t; output_count := output_count t;
     line_chars := line_chars t; canonical_ready := canonical_ready t; rows := rows t; columns := columns t; cursor_row := cursor_row t; cursor_column := cursor_column t;
     vt_state := vt_state t; vt_value_index := vt_value_index t; screen := screen t; screen_fg := screen_fg t; screen_bg := screen_bg t; fg_color := fg_color t; bg_color := bg_color t;
     bold := bold t; canonical := canonical t; echo := echo t; isig := isig t; utf8 := utf8 t; controlling := controlling t; session := session t; foreground_pgrp := foreground_pgrp t;
     utf8_codepoint := codepoint; utf8_expected := expected; utf8_seen := seen; vt_params := vt_params t; edit_line := edit_line t; edit_length := edit_length t;
     edit_cursor := edit_cursor t; history := history t; history_count := history_count t; history_cursor := history_cursor t |}.

Record framebuffer_t := { pixels : Z; fb_size : Z; fb_width : Z; fb_height : Z; fb_pitch : Z; fb_format : Z; fb_columns : Z; fb_rows : Z }.

Record rix_pty_t := { opened : Z; slave : rix_tty_t; master_output : list Z; master_output_head : Z; master_output_tail : Z; master_output_count : Z }.

Definition ansi_colors : list Z :=
  [0x00000000; 0x00aa0000; 0x0000aa00; 0x00aa5500; 0x000000aa; 0x00aa00aa; 0x0000aaaa; 0x00aaaaaa;
   0x00555555; 0x00ff5555; 0x0055ff55; 0x00ffff55; 0x005555ff; 0x00ff55ff; 0x0055ffff; 0x00ffffff].

Definition get_fg_color (t : rix_tty_t) : Z :=
  aget 0 ansi_colors (if truthy (bold t) then (if fg_color t <? 8 then fg_color t + 8 else fg_color t) else fg_color t).
Definition get_bg_color (t : rix_tty_t) : Z := aget 0 ansi_colors (bg_color t).

(** ** The font *)

Record rix_psf2_header_t := { psf_magic : Z; psf_version : Z; psf_header_size : Z; psf_flags : Z; psf_glyph_count : Z; psf_bytes_per_glyph : Z; psf_height : Z; psf_width : Z }.
Definition word_at (b : list Z) (o : Z) : Z := Z.lor (Z.lor (Z.lor (aget 0 b o) (Z.shiftl (aget 0 b (o + 1)) 8)) (Z.shiftl (aget 0 b (o + 2)) 16)) (Z.shiftl (aget 0 b (o + 3)) 24).
Definition psf_of (font : list Z) : rix_psf2_header_t :=
  {| psf_magic := word_at font 0; psf_version := word_at font 4; psf_header_size := word_at font 8; psf_flags := word_at font 12; psf_glyph_count := word_at font 16;
     psf_bytes_per_glyph := word_at font 20; psf_height := word_at font 24; psf_width := word_at font 28 |}.

(** The code point at [p] of the Unicode table, and where the next item starts. *)
Definition psf_codepoint (font : list Z) (p : Z) : Z * Z :=
  let e := len font in
  let b k := aget 0 font (p + k) in
  let cp := b 0 in
  let tail k := Z.land (b k) 0x3f in
  if (0xc0 <=? cp) && (cp <? 0xe0) && (p + 1 <? e) then (Z.lor (Z.shiftl (Z.land cp 0x1f) 6) (tail 1), p + 2)
  else if (0xe0 <=? cp) && (cp <? 0xf0) && (p + 2 <? e) then (Z.lor (Z.lor (Z.shiftl (Z.land cp 0x0f) 12) (Z.shiftl (tail 1) 6)) (tail 2), p + 3)
  else if (0xf0 <=? cp) && (p + 3 <? e) then (Z.lor (Z.lor (Z.lor (Z.shiftl (Z.land cp 7) 18) (Z.shiftl (tail 1) 12)) (Z.shiftl (tail 2) 6)) (tail 3), p + 4)
  else (cp, p + 1).

(** The table: each turn passes a byte at least. *)
Fixpoint psf_table (n : nat) (font : list Z) (p glyph : Z) (ascii : list Z) : list Z :=
  match n with
  | O => ascii
  | S n =>
    if (p <? len font) && (glyph <? psf_glyph_count (psf_of font)) then
      if aget 0 font p =? 0xff then psf_table n font (p + 1) (glyph + 1) ascii
      else if aget 0 font p =? 0xfe then psf_table n font (p + 1) glyph ascii
      else let '(cp, p') := psf_codepoint font p in psf_table n font p' glyph (if cp <? 128 then aset cp (u8 glyph) ascii else ascii)
    else ascii
  end.

(** [psf_ascii] after [psf_init]. *)
Definition psf_init (font : list Z) : list Z :=
  let h := psf_of font in
  let zero := replicate 128 0 in
  if negb (psf_magic h =? RIX_PSF2_MAGIC) || (psf_header_size h <? 32) || (psf_glyph_count h =? 0) || (psf_bytes_per_glyph h =? 0) || (psf_width h =? 0) || (psf_height h =? 0) then zero
  else
    let ascii := for_all 0 (Z.min 128 (psf_glyph_count h)) (fun i a => aset i (u8 i) a) zero in
    if negb (truthy (Z.land (psf_flags h) 1)) then ascii
    else psf_table (length font) font (psf_header_size h + psf_glyph_count h * psf_bytes_per_glyph h) 0 ascii.

(** ** The screen *)

Section Screen.
Context (font : list Z) (psf_ascii : list Z) (framebuffer : framebuffer_t).
Abbreviation psf := (psf_of font).

Definition framebuffer_pixel (color : Z) : Z :=
  if fb_format framebuffer =? 1 then Z.lor (Z.lor (Z.shiftl (Z.land color 0x0000ff) 16) (Z.land color 0x00ff00)) (Z.shiftr (Z.land color 0xff0000) 16) else color.

(** The address of the pixel in column [x] of line [y]. *)
Definition pixel_address (y x : Z) : Z := pixels framebuffer + y * fb_pitch framebuffer + 4 * x.

Definition framebuffer_clear : list (Z * Z) :=
  if (pixels framebuffer =? 0) || (fb_pitch framebuffer =? 0) then []
  else flat_map (fun y => (fun x => (pixel_address y x, 0)) <$> seqZ 0 (fb_width framebuffer)) (seqZ 0 (fb_height framebuffer)).

Definition framebuffer_glyph (column row ch fg bg : Z) : list (Z * Z) :=
  if (pixels framebuffer =? 0) || (fb_columns framebuffer <=? column) || (fb_rows framebuffer <=? row) then []
  else
    let index := aget 0 psf_ascii (if ch <? 128 then ch else 63) in
    let index := if psf_glyph_count psf <=? index then 0 else index in
    let glyph := psf_header_size psf + index * psf_bytes_per_glyph psf in
    let bytes_per_line := u32 (psf_width psf + 7) / 8 in
    let x0 := u32 (column * psf_width psf) in
    let y0 := u32 (row * psf_height psf) in
    flat_map (fun y =>
      let py := u32 (y0 + y) in
      if fb_height framebuffer <=? py then []
      else flat_map (fun x =>
        let px := u32 (x0 + x) in
        if fb_width framebuffer <=? px then []
        else
          let bits := aget 0 font (glyph + y * bytes_per_line + x / 8) in
          [(pixel_address py px, framebuffer_pixel (if truthy (Z.land bits (Z.shiftr 0x80 (x mod 8))) then fg else bg))]) (seqZ 0 (psf_width psf))) (seqZ 0 (psf_height psf)).

(** A terminal with what has been drawn. *)
Definition vt : Type := rix_tty_t * list (Z * Z).
Definition edit (f : rix_tty_t -> rix_tty_t) (v : vt) : vt := (f v.1, v.2).
Definition glyph (column row ch fg bg : Z) (v : vt) : vt := (v.1, v.2 ++ framebuffer_glyph column row ch fg bg).

Definition cell (row column : Z) : Z := row * RIX_TTY_MAX_COLUMNS + column.
(** A cell gets a character in the current colours. *)
Definition set_cell (i ch : Z) (t : rix_tty_t) : rix_tty_t :=
  set_screen_bg (aset i (bg_color t) (screen_bg t)) (set_screen_fg (aset i (fg_color t) (screen_fg t)) (set_screen (aset i ch (screen t)) t)).
Definition move_cell (dst src : Z) (t : rix_tty_t) : rix_tty_t :=
  set_screen_bg (aset dst (aget 0 (screen_bg t) src) (screen_bg t)) (set_screen_fg (aset dst (aget 0 (screen_fg t) src) (screen_fg t)) (set_screen (aset dst (aget 0 (screen t) src) (screen t)) t)).
Definition colour (c other : Z) : Z := aget 0 ansi_colors (if c <? 16 then c else other).

Definition vt_clamp (value limit : Z) : Z := if limit <=? value then u16 (limit - 1) else value.

Definition vt_scroll_up (v : vt) : vt :=
  let t := v.1 in
  let v := edit (for_all 0 (rows t - 1) (fun r => for_all 0 (columns t) (fun c => move_cell (cell r c) (cell (r + 1) c)))) v in
  let v := edit (for_all 0 (columns t) (fun c => set_cell (cell (rows t - 1) c) 32)) v in
  for_all 0 (rows t) (fun r => for_all 0 (columns t) (fun c v =>
    let i := cell r c in glyph c r (aget 0 (screen v.1) i) (colour (aget 0 (screen_fg v.1) i) 7) (colour (aget 0 (screen_bg v.1) i) 0) v)) v.

Definition vt_move (row_delta column_delta : Z) (v : vt) : vt :=
  let t := v.1 in
  let row := cursor_row t + row_delta in
  let column := cursor_column t + column_delta in
  let column := if column <? 0 then 0 else column in
  let column := if columns t <=? u16 column then columns t - 1 else column in
  let v := edit (set_cursor_column (u16 column)) v in
  if rows t <=? row then edit (set_cursor_row (rows t - 1)) (vt_scroll_up v)
  else if row <? 0 then edit (set_cursor_row 0) v
  else edit (set_cursor_row (u16 row)) v.

Definition vt_clear_screen (v : vt) : vt :=
  let n := Z.to_nat CELLS in
  let v := edit (fun t => set_screen_bg (replicate n (bg_color t)) (set_screen_fg (replicate n (fg_color t)) (set_screen (replicate n 32) t))) v in
  for_all 0 (rows v.1) (fun r => for_all 0 (columns v.1) (fun c v => glyph c r 32 (get_fg_color v.1) (get_bg_color v.1) v)) v.

Definition vt_print (ch : Z) (v : vt) : vt :=
  let t := v.1 in
  let v := edit (set_cell (cell (cursor_row t) (cursor_column t)) ch) v in
  let v := glyph (cursor_column t) (cursor_row t) ch (get_fg_color t) (get_bg_color t) v in
  if columns t <=? cursor_column t + 1 then
    edit (fun t => let t := set_cursor_column 0 t in if cursor_row t + 1 <? rows t then set_cursor_row (cursor_row t + 1) t else t) v
  else edit (set_cursor_column (cursor_column t + 1)) v.

(** The cells of a row from [start] to [stop] are blanked. *)
Definition blank (row start stop : Z) (v : vt) : vt :=
  for_all start (stop - start) (fun column v => glyph column row 32 (get_fg_color v.1) (get_bg_color v.1) (edit (set_cell (cell row column) 32) v)) v.

Definition vt_erase_line (mode : Z) (v : vt) : vt :=
  let t := v.1 in
  let start := if (mode =? 1) || (mode =? 2) then 0 else cursor_column t in
  let stop := if mode =? 1 then cursor_column t else columns t in
  blank (cursor_row t) start stop v.

Definition vt_erase_display (mode : Z) (v : vt) : vt :=
  let t := v.1 in
  if mode =? 2 then vt_clear_screen v
  else if mode =? 0 then for_all (cursor_row t) (rows t - cursor_row t) (fun row => blank row (if row =? cursor_row t then cursor_column t else 0) (columns t)) v
  else if mode =? 1 then for_all 0 (cursor_row t + 1) (fun row => blank row 0 (if row =? cursor_row t then cursor_column t + 1 else columns t)) v
  else v.

(** One parameter of the colour sequence. *)
Definition vt_colour (p : Z) (t : rix_tty_t) : rix_tty_t :=
  if p =? 0 then set_bold 0 (set_bg_color 0 (set_fg_color 7 t))
  else if p =? 1 then set_bold 1 t
  else if p =? 22 then set_bold 0 t
  else if (30 <=? p) && (p <=? 37) then set_fg_color (p - 30) t
  else if (40 <=? p) && (p <=? 47) then set_bg_color (p - 40) t
  else if (90 <=? p) && (p <=? 97) then set_fg_color (p - 90 + 8) t
  else if (100 <=? p) && (p <=? 107) then set_bg_color (p - 100 + 8) t
  else t.

(** The final byte of a control sequence. *)
Definition vt_final (ch : Z) (v : vt) : vt :=
  let t := v.1 in
  let param0 := aget 0 (vt_params t) 0 in
  let param1 := aget 0 (vt_params t) 1 in
  let n := if param0 =? 0 then 1 else param0 in
  if ch =? 65 then vt_move (- n) 0 v
  else if ch =? 66 then vt_move n 0 v
  else if ch =? 67 then vt_move 0 n v
  else if ch =? 68 then vt_move 0 (- n) v
  else if ch =? 71 then edit (set_cursor_column (vt_clamp (u16 (param0 - 1)) (columns t))) v
  else if (ch =? 72) || (ch =? 102) then
    edit (fun t => set_cursor_column (vt_clamp (if param1 =? 0 then 0 else param1 - 1) (columns t)) (set_cursor_row (vt_clamp (if param0 =? 0 then 0 else param0 - 1) (rows t)) t)) v
  else if ch =? 74 then vt_erase_display param0 v
  else if ch =? 75 then vt_erase_line param0 v
  else if ch =? 109 then edit (for_all 0 (vt_value_index t + 1) (fun i t => vt_colour (aget 0 (vt_params t) i) t)) v
  else v.

(** The bytes that are not part of a UTF-8 sequence. *)
Definition vt_control (ch : Z) (v : vt) : vt :=
  let t := v.1 in
  if vt_state t =? VT_NORMAL then
    if ch =? 0x1b then edit (set_vt_state VT_ESC) v
    else if ch =? 10 then vt_move 1 0 (edit (set_cursor_column 0) v)
    else if ch =? 13 then edit (set_cursor_column 0) v
    else if ch =? 8 then vt_move 0 (-1) v
    else if (0x20 <=? ch) && negb (ch =? 0x7f) then vt_print ch v
    else v
  else if vt_state t =? VT_ESC then
    if ch =? 91 then edit (fun t => set_vt_params (replicate 8 0) (set_vt_value_index 0 (set_vt_state VT_CSI t))) v else edit (set_vt_state VT_NORMAL) v
  else if vt_state t =? VT_CSI then
    if (48 <=? ch) && (ch <=? 57) then
      edit (fun t => if vt_value_index t <? 8 then set_vt_params (aset (vt_value_index t) (u8 (aget 0 (vt_params t) (vt_value_index t) * 10 + (ch - 48))) (vt_params t)) t else t) v
    else if ch =? 59 then edit (fun t => if vt_value_index t <? 7 then set_vt_value_index (vt_value_index t + 1) t else t) v
    else edit (fun t => set_vt_params (replicate 8 0) (set_vt_value_index 0 (set_vt_state VT_NORMAL t))) (vt_final ch v)
  else v.

(** The lead byte of a UTF-8 sequence, or a byte that cannot be one. *)
Definition vt_lead (ch : Z) (v : vt) : vt :=
  if (utf8_expected v.1 =? 0) && (0x80 <=? ch) && (ch <=? 0xf4) then
    if (0xc2 <=? ch) && (ch <=? 0xdf) then edit (set_decoder 1 0 (Z.land ch 0x1f)) v
    else if (0xe0 <=? ch) && (ch <=? 0xef) then edit (set_decoder 2 0 (Z.land ch 0x0f)) v
    else if (0xf0 <=? ch) && (ch <=? 0xf4) then edit (set_decoder 3 0 (Z.land ch 0x07)) v
    else vt_print 63 v
  else vt_control ch v.

Definition vt_consume (ch : Z) (v : vt) : vt :=
  let t := v.1 in
  if truthy (utf8 t) && negb (utf8_expected t =? 0) then
    if Z.land ch 0xc0 =? 0x80 then
      let cp := u32 (Z.lor (Z.shiftl (utf8_codepoint t) 6) (Z.land ch 0x3f)) in
      let seen := u8 (utf8_seen t + 1) in
      if seen =? utf8_expected t then vt_print (if cp <=? 0x7f then cp else 63) (edit (set_decoder 0 0 0) v)
      else edit (set_decoder (utf8_expected t) seen cp) v
    else vt_lead ch (vt_print 63 (edit (set_decoder 0 0 0) v))
  else vt_lead ch v.

(** ** The output ring, the oldest byte of which is dropped when it is full *)

Definition ring_output (ch : Z) (t : rix_tty_t) : rix_tty_t :=
  let t := if RIX_TTY_OUTPUT <=? output_count t then set_output_count (output_count t - 1) (set_output_head ((output_head t + 1) mod RIX_TTY_OUTPUT) t) else t in
  set_output_count (output_count t + 1) (set_output_tail ((output_tail t + 1) mod RIX_TTY_OUTPUT) (set_output (aset (output_tail t) ch (output t)) t)).
Definition put_output (v : vt) (ch : Z) : vt := vt_consume ch (edit (ring_output ch) v).
End Screen.

(** ** The consoles *)

Record console := {
  ttys : list rix_tty_t; ptys : list rix_pty_t; framebuffer : framebuffer_t; psf_ascii : list Z; ink : list (Z * Z); signal_hook : Z;
  tty_output_lock : rix_spinlock_t; tty_input_lock : rix_spinlock_t }.
#[global] Instance console_eta : Eta console := fun c =>
  {| ttys := ttys c; ptys := ptys c; framebuffer := framebuffer c; psf_ascii := psf_ascii c; ink := ink c; signal_hook := signal_hook c; tty_output_lock := tty_output_lock c; tty_input_lock := tty_input_lock c |}.
Definition set_ttys (x : list rix_tty_t) (c : console) : console := ltac:(upd c ttys x).
Definition set_ptys (x : list rix_pty_t) (c : console) : console := ltac:(upd c ptys x).
Definition set_framebuffer (x : framebuffer_t) (c : console) : console := ltac:(upd c framebuffer x).
Definition set_psf_ascii (x : list Z) (c : console) : console := ltac:(upd c psf_ascii x).
Definition set_ink (x : list (Z * Z)) (c : console) : console := ltac:(upd c ink x).
Definition set_signal_hook (x : Z) (c : console) : console := ltac:(upd c signal_hook x).
Definition set_output_lock (x : rix_spinlock_t) (c : console) : console := ltac:(upd c tty_output_lock x).
Definition set_input_lock (x : rix_spinlock_t) (c : console) : console := ltac:(upd c tty_input_lock x).

Definition no_framebuffer (format : Z) : framebuffer_t := {| pixels := 0; fb_size := 0; fb_width := 0; fb_height := 0; fb_pitch := 0; fb_format := format; fb_columns := 0; fb_rows := 0 |}.
Definition zero_tty : rix_tty_t :=
  {| input := replicate (Z.to_nat RIX_TTY_INPUT) 0; output := replicate (Z.to_nat RIX_TTY_OUTPUT) 0; head := 0; tail := 0; count := 0; output_head := 0; output_tail := 0; output_count := 0;
     line_chars := 0; canonical_ready := 0; rows := 0; columns := 0; cursor_row := 0; cursor_column := 0; vt_state := 0; vt_value_index := 0; screen := replicate (Z.to_nat CELLS) 0;
     screen_fg := replicate (Z.to_nat CELLS) 0; screen_bg := replicate (Z.to_nat CELLS) 0; fg_color := 0; bg_color := 0; bold := 0; canonical := 0; echo := 0; isig := 0; utf8 := 0;
     controlling := 0; session := 0; foreground_pgrp := 0; utf8_codepoint := 0; utf8_expected := 0; utf8_seen := 0; vt_params := replicate 8 0; edit_line := replicate (Z.to_nat RIX_TTY_LINE_MAX) 0;
     edit_length := 0; edit_cursor := 0; history := replicate (Z.to_nat RIX_TTY_HISTORY_COUNT) (replicate (Z.to_nat RIX_TTY_LINE_MAX) 0); history_count := 0; history_cursor := 0 |}.
Definition zero_pty : rix_pty_t := {| opened := 0; slave := zero_tty; master_output := replicate (Z.to_nat RIX_TTY_OUTPUT) 0; master_output_head := 0; master_output_tail := 0; master_output_count := 0 |}.
(** The static variables before [tty_init]. *)
Definition zero_console : console :=
  {| ttys := replicate (Z.to_nat RIX_TTY_COUNT) zero_tty; ptys := replicate (Z.to_nat RIX_PTY_COUNT) zero_pty; framebuffer := no_framebuffer 0; psf_ascii := replicate 128 0; ink := []; signal_hook := 0;
     tty_output_lock := spin_free; tty_input_lock := spin_free |}.

(** What the terminals call: the signal hook, the wait queue of a console, the scheduler and
    the MMIO mapper. *)
Class TtyHost (W : Type) := {
  call_hook : Z -> Z -> Z -> M W Z;
  waitqueue_init : Z -> M W unit;
  wake_readers : Z -> M W unit;
  wait_prepare : Z -> M W Z;
  block_current : M W unit;
  vmm_map_mmio : Z -> Z -> M W Z;
}.

Section Consoles.
Context {W : Type} {HW : TtyHost W} (font : list Z).
Abbreviation st := (cpu * (console * W))%type.

Program Definition output_guard : HasGuard (console * W) := {|
  guard s := tty_output_lock s.1; with_guard l s := (set_output_lock l s.1, s.2) |}.
Next Obligation. done. Qed.
Next Obligation. by intros [[] ?]. Qed.
Next Obligation. done. Qed.
Program Definition input_guard : HasGuard (console * W) := {|
  guard s := tty_input_lock s.1; with_guard l s := (set_input_lock l s.1, s.2) |}.
Next Obligation. done. Qed.
Next Obligation. by intros [[] ?]. Qed.
Next Obligation. done. Qed.
Definition with_output {R} (body : M st R) : M st R := locked_section (G := output_guard) body.
Definition with_input {R} (body : M st R) : M st R := locked_section (G := input_guard) body.

Definition host {A} (m : M W A) : M st A := on_snd (on_snd m).
Definition consoles {A} (f : console -> A) : M st A := gets (fun s => f s.2.1).
Definition change (f : console -> console) : M st unit := modify (fun s => (s.1, (f s.2.1, s.2.2))).

Definition tty_valid (id : Z) : bool := id <? RIX_TTY_COUNT.
Definition tty_at (id : Z) (c : console) : rix_tty_t := aget zero_tty (ttys c) id.
Definition pty_at (id : Z) (c : console) : rix_pty_t := aget zero_pty (ptys c) id.
Definition tty (id : Z) : M st rix_tty_t := consoles (tty_at id).
Definition on_tty (id : Z) (f : rix_tty_t -> rix_tty_t) : M st unit := change (fun c => set_ttys (aset id (f (tty_at id c)) (ttys c)) c).
(** A change of a console that draws. *)
Definition on_vt (id : Z) (f : vt -> vt) (c : console) : console :=
  let v := f (tty_at id c, ink c) in set_ink v.2 (set_ttys (aset id v.1 (ttys c)) c).
Definition on_slave (id : Z) (f : rix_tty_t -> rix_tty_t) (c : console) : console :=
  let p := pty_at id c in
  set_ptys (aset id {| opened := opened p; slave := f (slave p); master_output := master_output p; master_output_head := master_output_head p; master_output_tail := master_output_tail p; master_output_count := master_output_count p |} (ptys c)) c.

(** ** Start-up *)

Definition tty_reset (t : rix_tty_t) : rix_tty_t :=
  {| input := input t; output := output t; head := 0; tail := 0; count := 0; output_head := 0; output_tail := 0; output_count := 0; line_chars := 0; canonical_ready := 0; rows := 25; columns := 80;
     cursor_row := 0; cursor_column := 0; vt_state := VT_NORMAL; vt_value_index := 0; screen := screen t; screen_fg := screen_fg t; screen_bg := screen_bg t; fg_color := 7; bg_color := 0; bold := 0;
     canonical := 1; echo := 1; isig := 1; utf8 := 1; controlling := 0; session := 0; foreground_pgrp := 0; utf8_codepoint := 0; utf8_expected := 0; utf8_seen := 0;
     vt_params := aset 1 0 (aset 0 0 (vt_params t)); edit_line := edit_line t; edit_length := 0; edit_cursor := 0; history := history t; history_count := 0; history_cursor := 0 |}.
Definition set_opened (x : Z) (p : rix_pty_t) : rix_pty_t :=
  {| opened := x; slave := slave p; master_output := master_output p; master_output_head := master_output_head p; master_output_tail := master_output_tail p; master_output_count := master_output_count p |}.

Definition tty_init : M st unit :=
  _ ← change (set_psf_ascii (psf_init font));
  _ ← mfor (Z.to_nat RIX_TTY_COUNT) 0 (fun i =>
    _ ← change (fun c => on_vt i (fun v => vt_clear_screen font (psf_ascii c) (framebuffer c) (edit tty_reset v)) c);
    host (waitqueue_init i));
  change (fun c => set_ptys (set_opened 0 <$> ptys c) c).

(** Whether the slot of the top-level table that holds an address is shared by all address spaces. *)
Definition shared_slot (base : Z) : bool :=
  let idx := Z.land (Z.shiftr base 39) 0x1ff in (idx =? 0) || (idx =? 2) || (idx =? 3) || (256 <=? idx).

Definition use_framebuffer (base size width height pitch format : Z) (c : console) : console :=
  let cw := if psf_width (psf_of font) =? 0 then 8 else psf_width (psf_of font) in
  let ch := if psf_height (psf_of font) =? 0 then 16 else psf_height (psf_of font) in
  let cols := Z.min (u16 (width / cw)) RIX_TTY_MAX_COLUMNS in
  let rws := Z.min (u16 (height / ch)) RIX_TTY_MAX_ROWS in
  let fb := {| pixels := base; fb_size := size; fb_width := width; fb_height := height; fb_pitch := pitch; fb_format := format; fb_columns := cols; fb_rows := rws |} in
  let c := set_ink (ink c ++ framebuffer_clear fb) (set_framebuffer fb c) in
  if (2 <=? cols) && (2 <=? rws) then set_ttys (aset 0 (set_rows rws (set_columns cols (tty_at 0 c))) (ttys c)) c else c.

Definition tty_set_framebuffer (base size width height pitch format : Z) : M st unit :=
  let required := if height =? 0 then 0 else u64 ((height - 1) * pitch + width * 4) in
  if (base =? 0) || (width =? 0) || (height =? 0) || (pitch <? width * 4) || (size <? required) || (negb (format =? 0) && negb (format =? 1)) then
    change (fun c => set_framebuffer (no_framebuffer (fb_format (framebuffer c))) c)
  else if shared_slot base then change (use_framebuffer base size width height pitch format)
  else
    mapped ← host (vmm_map_mmio base size);
    if mapped =? 0 then change (fun c => set_framebuffer (no_framebuffer (fb_format (framebuffer c))) c)
    else change (use_framebuffer mapped size width height pitch format).

Definition tty_set_signal_hook (hook : Z) : M st unit := change (set_signal_hook hook).

(** ** Output *)

(** The code and the number of bytes written. *)
Definition tty_output_nolock (id : Z) (buf : list Z) : M st (Z * Z) :=
  if negb (tty_valid id) then mret (-1, 0)
  else
    _ ← change (fun c => on_vt id (fun v => foldl (put_output font (psf_ascii c) (framebuffer c)) v buf) c);
    mret (0, len buf).
Definition tty_output (id : Z) (buf : list Z) : M st (Z * Z) := with_output (tty_output_nolock id buf).

Fixpoint drain_output (n : nat) (t : rix_tty_t) (got : list Z) : rix_tty_t * list Z :=
  match n with
  | O => (t, got)
  | S n =>
    if output_count t =? 0 then (t, got)
    else drain_output n (set_output_count (output_count t - 1) (set_output_head ((output_head t + 1) mod RIX_TTY_OUTPUT) t)) (got ++ [aget 0 (output t) (output_head t)])
  end.
(** The code and the bytes read. *)
Definition tty_read_output (id n : Z) : M st (Z * list Z) :=
  if negb (tty_valid id) then mret (-1, [])
  else
    t ← tty id;
    let '(t', got) := drain_output (Z.to_nat n) t [] in
    _ ← on_tty id (fun _ => t');
    mret (if len got =? 0 then -3 else 0, got).

Definition echo_bytes (id : Z) (data : list Z) : M st Z := '(rc, _) ← tty_output id data; mret (if rc =? 0 then 0 else -3).
Definition echo_quiet (id : Z) (data : list Z) : M st unit := _ ← tty_output id data; mret tt.

(** The decimal digits of a 16-bit number, most significant first. *)
Fixpoint digits (n : nat) (v : Z) (acc : list Z) : list Z :=
  match n with
  | O => acc
  | S n => if v =? 0 then acc else digits n (v / 10) ((48 + v mod 10) :: acc)
  end.
Definition tty_echo_left (id n : Z) : M st unit := if n =? 0 then mret tt else echo_quiet id ([0x1b; 91] ++ digits 5 n [] ++ [68]).

(** The edited line from [from] on. *)
Definition edit_from (t : rix_tty_t) (from : Z) : list Z := slice (edit_line t) from (edit_length t - from).
Definition tty_edit_echo_insert (id from : Z) : M st unit :=
  t ← tty id;
  _ ← (if from <? edit_length t then echo_quiet id (edit_from t from) else mret tt);
  tty_echo_left id (u16 (edit_length t - edit_cursor t)).
Definition tty_edit_echo_erase (id from : Z) : M st unit :=
  t ← tty id;
  _ ← echo_quiet id [8];
  _ ← (if from <? edit_length t then echo_quiet id (edit_from t from) else mret tt);
  _ ← echo_quiet id [32];
  tty_echo_left id (u16 (edit_length t - edit_cursor t + 1)).

(** ** The edited line and its history *)

Definition tty_edit_history_save (t : rix_tty_t) : rix_tty_t :=
  if edit_length t =? 0 then t
  else
    let t := if history_count t =? RIX_TTY_HISTORY_COUNT then set_history_count (history_count t - 1) (set_history (drop 1 (history t) ++ drop (Z.to_nat (RIX_TTY_HISTORY_COUNT - 1)) (history t)) t) else t in
    let line := aset (edit_length t) 0 (copy (Z.to_nat (edit_length t)) (aget [] (history t) (history_count t)) 0 (edit_line t) 0) in
    let t := set_history_count (history_count t + 1) (set_history (aset (history_count t) line (history t)) t) in
    set_history_cursor (history_count t) t.

(** The bytes of a line up to its terminator, copied over the front of [dst]; their number. *)
Fixpoint load_line (n : nat) (src : list Z) (i : Z) (dst : list Z) : list Z * Z :=
  match n with
  | O => (dst, i)
  | S n => if aget 0 src i =? 0 then (dst, i) else load_line n src (i + 1) (aset i (aget 0 src i) dst)
  end.

(** The recalled line without the echo. *)
Definition edit_recall (direction : Z) (t : rix_tty_t) : rix_tty_t :=
  let t := if direction =? RIX_TTY_KEY_UP then if history_cursor t =? 0 then t else set_history_cursor (history_cursor t - 1) t
           else if history_cursor t <? history_count t then set_history_cursor (history_cursor t + 1) t else t in
  let t := if history_cursor t =? history_count t then set_edit_length 0 t
           else let '(line, n) := load_line (Z.to_nat (RIX_TTY_LINE_MAX - 1)) (aget [] (history t) (history_cursor t)) 0 (edit_line t) in set_edit_length n (set_edit_line line t) in
  set_edit_cursor (edit_length t) t.
Definition tty_edit_load (id direction : Z) : M st unit :=
  t ← tty id;
  if history_count t =? 0 then mret tt
  else
    _ ← on_tty id (edit_recall direction);
    t' ← tty id;
    if echo t' =? 0 then mret tt
    else
      _ ← tty_echo_left id (edit_cursor t);
      _ ← echo_quiet id [0x1b; 91; 75];
      if edit_length t' =? 0 then mret tt else echo_quiet id (slice (edit_line t') 0 (edit_length t')).

(** ** Input *)

Fixpoint discard_loop (n : nat) (t : rix_tty_t) : rix_tty_t :=
  match n with
  | O => t
  | S n => discard_loop n (set_line_chars (line_chars t - 1) (set_count (if count t =? 0 then 0 else count t - 1) (set_tail ((tail t + RIX_TTY_INPUT - 1) mod RIX_TTY_INPUT) t)))
  end.
Definition tty_discard_current_line (t : rix_tty_t) : rix_tty_t := discard_loop (Z.to_nat (line_chars t)) t.

Definition is_control (ch : Z) : bool := (ch =? 0x03) || (ch =? 0x1a) || (ch =? 0x1c).
(** The signal goes to the foreground group of the terminal. *)
Definition tty_control_signal (get : console -> rix_tty_t) (put : (rix_tty_t -> rix_tty_t) -> console -> console) (ch : Z) : M st Z :=
  let signal := if ch =? 0x03 then 2 else if ch =? 0x1a then 20 else 3 in
  _ ← change (put tty_discard_current_line);
  hook ← consoles signal_hook;
  t ← consoles get;
  if (hook =? 0) || (foreground_pgrp t =? 0) then mret 0 else host (call_hook hook (foreground_pgrp t) signal).
Definition on_console (id : Z) (f : rix_tty_t -> rix_tty_t) (c : console) : console := set_ttys (aset id (f (tty_at id c)) (ttys c)) c.

Definition put_input (ch : Z) (t : rix_tty_t) : rix_tty_t :=
  set_count (u64 (count t + 1)) (set_tail ((tail t + 1) mod RIX_TTY_INPUT) (set_input (aset (tail t) ch (input t)) t)).

(** The arrow keys in canonical mode. *)
Definition edit_key (id ch : Z) : M st unit :=
  t ← tty id;
  if (ch =? RIX_TTY_KEY_UP) || (ch =? RIX_TTY_KEY_DOWN) then tty_edit_load id ch
  else if (ch =? RIX_TTY_KEY_LEFT) && truthy (edit_cursor t) then
    _ ← on_tty id (set_edit_cursor (edit_cursor t - 1));
    if truthy (echo t) then echo_quiet id [0x1b; 91; 68] else mret tt
  else if (ch =? RIX_TTY_KEY_RIGHT) && (edit_cursor t <? edit_length t) then
    _ ← on_tty id (set_edit_cursor (edit_cursor t + 1));
    if truthy (echo t) then echo_quiet id [0x1b; 91; 67] else mret tt
  else mret tt.

(** The byte before the cursor is taken out of the line. *)
Definition edit_erase (t : rix_tty_t) : rix_tty_t :=
  let line := for_all (edit_cursor t) (edit_length t - edit_cursor t) (fun i l => aset (i - 1) (aget 0 l i) l) (edit_line t) in
  let n := edit_length t - 1 in
  set_line_chars n (set_edit_length n (set_edit_cursor (edit_cursor t - 1) (set_edit_line line t))).
(** A byte is put in at the cursor; the bytes behind it move up, the last one first. *)
Definition edit_insert (ch : Z) (t : rix_tty_t) : rix_tty_t :=
  let line := for_all 0 (edit_length t - edit_cursor t) (fun k l => let i := edit_length t - k in aset i (aget 0 l (i - 1)) l) (edit_line t) in
  let n := edit_length t + 1 in
  set_line_chars n (set_edit_length n (set_edit_cursor (edit_cursor t + 1) (set_edit_line (aset (edit_cursor t) ch line) t))).
(** The line and a newline go to the input ring. *)
Definition edit_commit (t : rix_tty_t) : rix_tty_t :=
  let t := put_input 10 (for_all 0 (edit_length t) (fun i t => put_input (u8 (aget 0 (edit_line t) i)) t) t) in
  let t := tty_edit_history_save (set_canonical_ready (canonical_ready t + 1) t) in
  set_line_chars 0 (set_edit_cursor 0 (set_edit_length 0 t)).

Definition echo_newline (id ch : Z) : M st Z := if ch =? 13 then echo_bytes id [13; 10] else echo_bytes id [ch].

Definition tty_input_nolock (id ch : Z) : M st Z :=
  if negb (tty_valid id) then mret (-1)
  else
    t ← tty id;
    if truthy (canonical t) && truthy (isig t) && is_control ch then tty_control_signal (tty_at id) (on_console id) ch
    else if (RIX_TTY_KEY_UP <=? ch) && (ch <=? RIX_TTY_KEY_RIGHT) then
      if truthy (canonical t) then _ ← edit_key id ch; mret 0
      else if count t =? RIX_TTY_INPUT then mret (-2)
      else _ ← on_tty id (put_input ch); mret 0
    else if truthy (canonical t) && ((ch =? 8) || (ch =? 127)) then
      if truthy (edit_cursor t) then
        _ ← on_tty id edit_erase;
        _ ← (if truthy (echo t) then tty_edit_echo_erase id (edit_cursor t - 1) else mret tt);
        mret 0
      else mret 0
    else if truthy (canonical t) && ((ch =? 10) || (ch =? 13)) then
      if RIX_TTY_INPUT <? count t + edit_length t + 1 then mret (-2)
      else
        _ ← on_tty id edit_commit;
        if truthy (echo t) then echo_newline id ch else mret 0
    else if truthy (canonical t) then
      if (ch <? 0x20) || (ch =? 0x7f) || (RIX_TTY_LINE_MAX <=? edit_length t + 1) then mret 0
      else
        _ ← on_tty id (edit_insert ch);
        _ ← (if truthy (echo t) then tty_edit_echo_insert id (edit_cursor t) else mret tt);
        mret 0
    else if count t =? RIX_TTY_INPUT then mret (-2)
    else
      _ ← on_tty id (fun t => let t := put_input ch t in set_line_chars (if (ch =? 10) || (ch =? 13) then 0 else line_chars t + 1) t);
      if truthy (echo t) then echo_newline id ch else mret 0.

(** ** Reading *)

(** One turn per byte; a line ends the read in canonical mode. *)
Fixpoint read_loop (n : nat) (t : rix_tty_t) (got : list Z) : rix_tty_t * list Z :=
  match n with
  | O => (t, got)
  | S n =>
    if count t =? 0 then (t, got)
    else
      let ch := aget 0 (input t) (head t) in
      let t := set_count (count t - 1) (set_head ((head t + 1) mod RIX_TTY_INPUT) t) in
      let ch := if ch =? 13 then 10 else ch in
      if truthy (canonical t) && (ch =? 10) then (set_canonical_ready (canonical_ready t - 1) t, got ++ [ch])
      else read_loop n t (got ++ [ch])
  end.
Definition tty_read_nolock (id n : Z) : M st (Z * list Z) :=
  if negb (tty_valid id) then mret (-1, [])
  else
    t ← tty id;
    if truthy (canonical t) && (canonical_ready t =? 0) then mret (-3, [])
    else
      let '(t', got) := read_loop (Z.to_nat n) t [] in
      _ ← on_tty id (fun _ => t');
      mret (if len got =? 0 then -3 else 0, got).

Definition tty_input (id ch : Z) : M st Z :=
  rc ← with_input (tty_input_nolock id ch);
  _ ← (if tty_valid id then host (wake_readers id) else mret tt);
  mret rc.
Definition tty_read (id n : Z) : M st (Z * list Z) := with_input (tty_read_nolock id n).
(** Nothing to read: the caller is put on the queue of the console and marked as blocked
    before the lock is given up. *)
Definition tty_read_blocking (id n : Z) : M st (Z * list Z) := with_input (
  '(rc, got) ← tty_read_nolock id n;
  if rc =? 0 then mret (0, got)
  else if (rc =? -3) && (len got =? 0) && tty_valid id then
    r ← host (wait_prepare id);
    if r =? 0 then _ ← host block_current; mret (-3, []) else mret (rc, got)
  else mret (rc, got)).

(** ** Settings *)

Definition with_tty {R} (bad : R) (id : Z) (m : rix_tty_t -> M st R) : M st R := if tty_valid id then tty id ≫= m else mret bad.

Definition tty_set_canonical (id enabled : Z) : M st Z := with_tty (-1) id (fun _ => _ ← on_tty id (set_canonical (b2z (truthy enabled))); mret 0).
Definition tty_set_echo (id enabled : Z) : M st Z := with_tty (-1) id (fun _ => _ ← on_tty id (set_echo (b2z (truthy enabled))); mret 0).

Definition lflag_of (t : rix_tty_t) : Z :=
  Z.lor (Z.lor (Z.lor (if truthy (canonical t) then RIX_TTY_LFLAG_CANONICAL else 0) (if truthy (echo t) then RIX_TTY_LFLAG_ECHO else 0)) (if truthy (isig t) then RIX_TTY_LFLAG_ISIG else 0))
    (if truthy (utf8 t) then RIX_TTY_LFLAG_UTF8 else 0).
Definition lflag_bad (lflag : Z) : bool := truthy (Z.land lflag (not32 (Z.lor (Z.lor (Z.lor RIX_TTY_LFLAG_CANONICAL RIX_TTY_LFLAG_ECHO) RIX_TTY_LFLAG_ISIG) RIX_TTY_LFLAG_UTF8))).
Definition use_lflag (lflag : Z) (t : rix_tty_t) : rix_tty_t :=
  let has f := b2z (truthy (Z.land lflag f)) in
  let t := set_utf8 (has RIX_TTY_LFLAG_UTF8) (set_isig (has RIX_TTY_LFLAG_ISIG) (set_echo (has RIX_TTY_LFLAG_ECHO) (set_canonical (has RIX_TTY_LFLAG_CANONICAL) t))) in
  if Z.land lflag RIX_TTY_LFLAG_UTF8 =? 0 then set_decoder 0 0 0 t else t.
Definition tty_get_termios (id : Z) : M st (Z * Z) := with_tty (-1, 0) id (fun t => mret (0, lflag_of t)).
Definition tty_set_termios (id lflag : Z) : M st Z := with_tty (-1) id (fun _ => if lflag_bad lflag then mret (-1) else _ ← on_tty id (use_lflag lflag); mret 0).

Definition tty_set_foreground_pgrp (id pgrp : Z) : M st Z := with_tty (-1) id (fun _ => _ ← on_tty id (set_foreground_pgrp pgrp); mret 0).
Definition tty_get_foreground_pgrp (id : Z) : M st (Z * Z) := with_tty (-1, 0) id (fun t => mret (0, foreground_pgrp t)).
Definition tty_set_session (id sess control : Z) : M st Z := with_tty (-1) id (fun _ =>
  if truthy control && (sess =? 0) then mret (-1)
  else
    _ ← on_tty id (fun t => let t := set_controlling (b2z (truthy control)) (set_session sess t) in if truthy control then t else set_foreground_pgrp 0 t);
    mret 0).
Definition tty_get_session (id : Z) : M st (Z * (Z * Z)) := with_tty (-1, (0, 0)) id (fun t => mret (0, (session t, b2z (truthy (controlling t))))).
Definition tty_attach_session (id sess pgrp : Z) : M st Z := with_tty (-1) id (fun t =>
  if (sess =? 0) || (pgrp =? 0) then mret (-1)
  else if truthy (controlling t) && negb (session t =? sess) then mret (-2)
  else _ ← on_tty id (fun t => set_foreground_pgrp pgrp (set_controlling 1 (set_session sess t))); mret 0).
Definition tty_detach_session (id sess : Z) : M st Z := with_tty (-1) id (fun t =>
  if sess =? 0 then mret (-1)
  else if negb (truthy (controlling t)) then mret 0
  else if negb (session t =? sess) then mret (-2)
  else _ ← on_tty id (fun t => set_foreground_pgrp 0 (set_controlling 0 (set_session 0 t))); mret 0).

Definition tty_set_dimensions (id rws cols : Z) : M st Z := with_tty (-1) id (fun _ =>
  if (rws =? 0) || (cols =? 0) || (RIX_TTY_MAX_ROWS <? rws) || (RIX_TTY_MAX_COLUMNS <? cols) then mret (-1)
  else
    _ ← on_tty id (fun t => set_cursor_column (vt_clamp (cursor_column t) cols) (set_cursor_row (vt_clamp (cursor_row t) rws) (set_columns cols (set_rows rws t))));
    mret 0).
Definition tty_get_dimensions (id : Z) : M st (Z * (Z * Z)) := with_tty (-1, (0, 0)) id (fun t => mret (0, (rows t, columns t))).
Definition tty_get_cursor (id : Z) : M st (Z * (Z * Z)) := with_tty (-1, (0, 0)) id (fun t => mret (0, (cursor_row t, cursor_column t))).
Definition tty_read_screen (id capacity : Z) : M st (Z * list Z) := with_tty (-1, []) id (fun t =>
  if capacity <? rows t * columns t then mret (-1, [])
  else mret (0, flat_map (fun row => slice (screen t) (cell row 0) (columns t)) (seqZ 0 (rows t)))).

Definition banner : list Z := [82; 105; 120; 117; 114; 105; 79; 83; 32; 114; 101; 99; 111; 118; 101; 114; 121; 32; 99; 111; 110; 115; 111; 108; 101; 13; 10].
Definition tty_recover (id : Z) : M st Z := with_tty (-1) id (fun _ =>
  _ ← change (fun c => on_vt id (fun v => vt_clear_screen font (psf_ascii c) (framebuffer c) (edit (fun t =>
    set_bold 0 (set_bg_color 0 (set_fg_color 7 (set_cursor_column 0 (set_cursor_row 0 (set_vt_params (replicate 8 0) (set_vt_value_index 0 (set_vt_state VT_NORMAL
      (set_canonical_ready 0 (set_line_chars 0 (set_output_count 0 (set_output_tail 0 (set_output_head 0 (set_count 0 (set_tail 0 (set_head 0 t)))))))))))))))) v)) c);
  '(rc, _) ← tty_output id banner;
  mret (if rc =? 0 then 0 else -2)).

(** ** Pseudo terminals *)

Definition pty_valid (id : Z) (c : console) : bool := (id <? RIX_PTY_COUNT) && truthy (opened (pty_at id c)).
Definition with_pty {R} (bad : R) (id : Z) (m : M st R) : M st R := ok ← consoles (pty_valid id); if (ok : bool) then m else mret bad.
Definition on_pty (id : Z) (f : rix_pty_t -> rix_pty_t) (c : console) : console := set_ptys (aset id (f (pty_at id c)) (ptys c)) c.

(** A byte for the master; it is dropped when the queue is full. *)
Definition pty_queue_put (ch : Z) (p : rix_pty_t) : rix_pty_t :=
  if master_output_count p =? RIX_TTY_OUTPUT then p
  else {| opened := opened p; slave := slave p; master_output := aset (master_output_tail p) ch (master_output p); master_output_head := master_output_head p;
          master_output_tail := (master_output_tail p + 1) mod RIX_TTY_OUTPUT; master_output_count := master_output_count p + 1 |}.
Fixpoint pty_queue_get (n : nat) (p : rix_pty_t) (got : list Z) : rix_pty_t * list Z :=
  match n with
  | O => (p, got)
  | S n =>
    if master_output_count p =? 0 then (p, got)
    else pty_queue_get n {| opened := opened p; slave := slave p; master_output := master_output p; master_output_head := (master_output_head p + 1) mod RIX_TTY_OUTPUT;
                            master_output_tail := master_output_tail p; master_output_count := master_output_count p - 1 |} (got ++ [aget 0 (master_output p) (master_output_head p)])
  end.

Fixpoint pty_open_from (n : nat) (i : Z) : M st (Z * Z) :=
  match n with
  | O => mret (-2, 0)
  | S n =>
    p ← consoles (pty_at i);
    if truthy (opened p) then pty_open_from n (i + 1)
    else
      _ ← change (fun c =>
        let t := slave (pty_at i c) in
        let t := set_output_count (output_count t) (set_output_tail (output_tail t) (set_output_head (output_head t) (tty_reset t))) in
        let v := vt_clear_screen font (psf_ascii c) (framebuffer c) (t, ink c) in
        set_ink v.2 (on_pty i (fun p => {| opened := 1; slave := v.1; master_output := master_output p; master_output_head := 0; master_output_tail := 0; master_output_count := 0 |}) c));
      mret (0, i)
  end.
(** The code and the number of the terminal. *)
Definition tty_pty_open : M st (Z * Z) := pty_open_from (Z.to_nat RIX_PTY_COUNT) 0.
Definition tty_pty_close (id : Z) : M st Z := with_pty (-1) id (_ ← change (on_pty id (set_opened 0)); mret 0).
Definition tty_pty_get_termios (id : Z) : M st (Z * Z) := with_pty (-1, 0) id (p ← consoles (pty_at id); mret (0, lflag_of (slave p))).
Definition tty_pty_set_termios (id lflag : Z) : M st Z := with_pty (-1) id (if lflag_bad lflag then mret (-1) else _ ← change (on_slave id (use_lflag lflag)); mret 0).

(** A byte of the master that is neither a signal nor an erasure. *)
Definition pty_accept (ch : Z) (p : rix_pty_t) : rix_pty_t :=
  let t := put_input ch (slave p) in
  let t := if ch =? 10 then set_line_chars 0 (if truthy (canonical t) then set_canonical_ready (canonical_ready t + 1) t else t) else set_line_chars (line_chars t + 1) t in
  let p := {| opened := opened p; slave := t; master_output := master_output p; master_output_head := master_output_head p; master_output_tail := master_output_tail p; master_output_count := master_output_count p |} in
  if truthy (echo t) then pty_queue_put ch p else p.
Definition pty_erase (p : rix_pty_t) : rix_pty_t :=
  let t := slave p in
  if line_chars t =? 0 then p
  else
    let t := set_line_chars (line_chars t - 1) (set_count (u64 (count t - 1)) (set_tail ((tail t + RIX_TTY_INPUT - 1) mod RIX_TTY_INPUT) t)) in
    pty_queue_put 8 (pty_queue_put 32 (pty_queue_put 8
      {| opened := opened p; slave := t; master_output := master_output p; master_output_head := master_output_head p; master_output_tail := master_output_tail p; master_output_count := master_output_count p |})).

Fixpoint master_write_loop (id : Z) (buf : list Z) (n done : Z) : M st (Z * Z) :=
  match buf with
  | [] => mret (if done =? n then 0 else -2, done)
  | ch :: buf =>
    p ← consoles (pty_at id);
    let t := slave p in
    if truthy (canonical t) && truthy (isig t) && is_control ch then
      rc ← tty_control_signal (fun c => slave (pty_at id c)) (on_slave id) ch;
      if negb (rc =? 0) then mret (rc, 0) else master_write_loop id buf n (done + 1)
    else if truthy (canonical t) && ((ch =? 8) || (ch =? 127)) then
      _ ← change (on_pty id pty_erase);
      master_write_loop id buf n (done + 1)
    else if count t =? RIX_TTY_INPUT then mret (if done =? n then 0 else -2, done)
    else
      _ ← change (on_pty id (pty_accept ch));
      master_write_loop id buf n (done + 1)
  end.
(** The code and the number of bytes taken. *)
Definition tty_pty_master_write (id : Z) (buf : list Z) : M st (Z * Z) := with_pty (-1, 0) id (master_write_loop id buf (len buf) 0).
Definition tty_pty_master_read (id n : Z) : M st (Z * list Z) := with_pty (-1, []) id (
  p ← consoles (pty_at id);
  let '(p', got) := pty_queue_get (Z.to_nat n) p [] in
  _ ← change (on_pty id (fun _ => p'));
  mret (if len got =? 0 then -3 else 0, got)).
Fixpoint slave_write_loop (buf : list Z) (p : rix_pty_t) (done : Z) : rix_pty_t * Z :=
  match buf with
  | [] => (p, done)
  | ch :: buf => if master_output_count p <? RIX_TTY_OUTPUT then slave_write_loop buf (pty_queue_put ch p) (done + 1) else (p, done)
  end.
Definition tty_pty_slave_write (id : Z) (buf : list Z) : M st (Z * Z) := with_pty (-1, 0) id (
  p ← consoles (pty_at id);
  let '(p', done) := slave_write_loop buf p 0 in
  _ ← change (on_pty id (fun _ => p'));
  mret (if done =? len buf then 0 else -2, done)).

Fixpoint slave_read_loop (n : nat) (t : rix_tty_t) (got : list Z) : rix_tty_t * list Z :=
  match n with
  | O => (t, got)
  | S n =>
    if count t =? 0 then (t, got)
    else
      let ch := aget 0 (input t) (head t) in
      let t := set_count (count t - 1) (set_head ((head t + 1) mod RIX_TTY_INPUT) t) in
      if truthy (canonical t) && (ch =? 10) then (set_canonical_ready (canonical_ready t - 1) t, got ++ [ch])
      else slave_read_loop n t (got ++ [ch])
  end.
Definition tty_pty_slave_read (id n : Z) : M st (Z * list Z) := with_pty (-1, []) id (
  p ← consoles (pty_at id);
  let t := slave p in
  if truthy (canonical t) && (canonical_ready t =? 0) then mret (-3, [])
  else
    let '(t', got) := slave_read_loop (Z.to_nat n) t [] in
    _ ← change (on_slave id (fun _ => t'));
    mret (if len got =? 0 then -3 else 0, got)).
End Consoles.
