(* ===== verification/TtyInv.v ===== *)
(** * Terminals stay within bounds

    The cursor, the rings, the edited line and the history stay inside their arrays, and
    every pixel written lies inside the frame buffer. *)
From stdpp Require Import base tactics list numbers.
From S2P Require Import Prelude Lock Bytes Ring Tty.

(** ** Well-formed terminals *)

(** The part of a terminal that output changes. *)
Record screen_wf (t : rix_tty_t) : Prop := {
  wf_output : len (output t) = RIX_TTY_OUTPUT;
  wf_output_head : 0 <= output_head t < RIX_TTY_OUTPUT;
  wf_output_tail : 0 <= output_tail t < RIX_TTY_OUTPUT;
  wf_output_count : 0 <= output_count t <= RIX_TTY_OUTPUT;
  wf_screen : len (screen t) = CELLS;
  wf_screen_fg : len (screen_fg t) = CELLS;
  wf_screen_bg : len (screen_bg t) = CELLS;
  wf_rows : 1 <= rows t <= RIX_TTY_MAX_ROWS;
  wf_columns : 1 <= columns t <= RIX_TTY_MAX_COLUMNS;
  wf_row : 0 <= cursor_row t < RIX_TTY_MAX_ROWS;
  wf_column : 0 <= cursor_column t < RIX_TTY_MAX_COLUMNS;
  wf_params : len (vt_params t) = 8;
  wf_param : Forall is_u8 (vt_params t);
  wf_index : 0 <= vt_value_index t < 8;
  wf_fg : 0 <= fg_color t < 16;
  wf_bg : 0 <= bg_color t < 16;
}.
(** The part that input changes; [k] bounds the number of bytes in the input ring. *)
Record line_wf (k : Z) (t : rix_tty_t) : Prop := {
  wf_input : len (input t) = RIX_TTY_INPUT;
  wf_head : 0 <= head t < RIX_TTY_INPUT;
  wf_tail : 0 <= tail t < RIX_TTY_INPUT;
  wf_count : 0 <= count t <= k;
  wf_line_chars : 0 <= line_chars t;
  wf_edit : len (edit_line t) = RIX_TTY_LINE_MAX;
  wf_edit_cursor : 0 <= edit_cursor t <= edit_length t;
  wf_edit_length : edit_length t < RIX_TTY_LINE_MAX;
  wf_history : len (history t) = RIX_TTY_HISTORY_COUNT;
  wf_lines : Forall (fun l => len l = RIX_TTY_LINE_MAX) (history t);
  wf_history_count : 0 <= history_count t <= RIX_TTY_HISTORY_COUNT;
  wf_history_cursor : 0 <= history_cursor t <= history_count t;
}.
Arguments wf_input {k} t _.
Arguments wf_head {k} t _.
Arguments wf_tail {k} t _.
Arguments wf_count {k} t _.
Arguments wf_line_chars {k} t _.
Arguments wf_edit {k} t _.
Arguments wf_edit_cursor {k} t _.
Arguments wf_edit_length {k} t _.
Arguments wf_history {k} t _.
Arguments wf_lines {k} t _.
Arguments wf_history_count {k} t _.
Arguments wf_history_cursor {k} t _.
Definition wf_at (k : Z) (t : rix_tty_t) : Prop := screen_wf t /\ line_wf k t.
(** A console's ring holds what it has room for; the byte count of a pseudo terminal is
    any 64-bit number, because erasing can take it below zero. *)
Abbreviation tty_wf := (wf_at RIX_TTY_INPUT).
Abbreviation slave_wf := (wf_at UINT64_MAX).

(** Output leaves the part of the input alone. *)
Definition line_part (t : rix_tty_t) : list (list Z) * list (list Z) * list Z :=
  ([input t; edit_line t], history t,
   [head t; tail t; count t; line_chars t; canonical_ready t; canonical t; echo t; isig t; controlling t; session t; foreground_pgrp t; edit_length t; edit_cursor t; history_count t; history_cursor t]).
Definition same_line (t t' : rix_tty_t) : Prop := line_part t' = line_part t.

Lemma same_line_wf {k} t t' : same_line t t' -> line_wf k t -> line_wf k t'.
Proof. intros H Hw. unfold same_line, line_part in H. injection H as H. destruct Hw. split; congruence. Qed.

(** The frame buffer: the last pixel lies inside. *)
Definition fb_wf (fb : framebuffer_t) : Prop :=
  pixels fb <> 0 -> 0 <= fb_width fb /\ 0 <= fb_height fb /\ 0 <= fb_pitch fb /\ (fb_height fb - 1) * fb_pitch fb + fb_width fb * 4 <= fb_size fb.
Definition inside (fb : framebuffer_t) (w : Z * Z) : Prop := pixels fb <= w.1 /\ w.1 + 4 <= pixels fb + fb_size fb.

Lemma Forall_flat_map {A B} (P : B -> Prop) (g : A -> list B) l : (forall x, x ∈ l -> Forall P (g x)) -> Forall P (flat_map g l).
Proof.
  induction l as [|x l IH]; intros H; cbn; [constructor|]. apply Forall_app. split; [apply H; constructor|]. apply IH. intros y Hy. apply H. by constructor.
Qed.

Lemma pixel_inside fb y x v : fb_wf fb -> pixels fb <> 0 -> 0 <= y < fb_height fb -> 0 <= x < fb_width fb -> inside fb (pixel_address fb y x, v).
Proof.
  intros Hf Hp Hy Hx. destruct (Hf Hp) as (H1 & H2 & H3 & H4). unfold inside, pixel_address. cbn [fst].
  assert (0 <= y * fb_pitch fb <= (fb_height fb - 1) * fb_pitch fb) by nia. lia.
Qed.

Section Drawing.
Context (font : list Z) (ascii : list Z) (fb : framebuffer_t) (Hfb : fb_wf fb).

Lemma glyph_inside column row ch fg bg : Forall (inside fb) (framebuffer_glyph font ascii fb column row ch fg bg).
Proof.
  unfold framebuffer_glyph. destruct (_ || _) eqn:E; [constructor|]. bool_to_prop. cbv zeta. apply Forall_flat_map. intros y _. destruct (_ <=? _) eqn:Ey; bool_to_prop; [constructor|].
  apply Forall_flat_map. intros x _. destruct (fb_width fb <=? _) eqn:Ex; bool_to_prop; [constructor|]. constructor; [|constructor].
  pose proof (u32_range (u32 (column * psf_width (psf_of font)) + x)). pose proof (u32_range (u32 (row * psf_height (psf_of font)) + y)). unfold is_u32 in *.
  apply pixel_inside; [done|done|lia|lia].
Qed.
Lemma clear_inside : Forall (inside fb) (framebuffer_clear fb).
Proof.
  unfold framebuffer_clear. destruct (_ || _) eqn:E; [constructor|]. bool_to_prop. apply Forall_flat_map. intros y Hy. apply elem_of_seqZ in Hy. apply Forall_fmap, list.Forall_forall. intros x Hx. apply elem_of_seqZ in Hx.
  apply pixel_inside; [done|done|lia|lia].
Qed.

(** What a drawing function does to a well-formed screen. *)
Definition step (v v' : vt) : Prop :=
  screen_wf v'.1 /\ same_line v.1 v'.1 /\ exists new, v'.2 = v.2 ++ new /\ Forall (inside fb) new.

Lemma step_refl v : screen_wf v.1 -> step v v.
Proof. intros H. split; [done|]. split; [done|]. exists []. by rewrite app_nil_r. Qed.
Lemma step_trans v1 v2 v3 : step v1 v2 -> (screen_wf v2.1 -> step v2 v3) -> step v1 v3.
Proof.
  intros (H1 & S1 & n1 & E1 & F1) H. destruct (H H1) as (H2 & S2 & n2 & E2 & F2). split; [done|]. split; [unfold same_line in *; congruence|]. exists (n1 ++ n2).
  rewrite E2, E1, <- app_assoc. split; [done|]. by apply Forall_app.
Qed.
Lemma step_edit f v : screen_wf (f v.1) -> same_line v.1 (f v.1) -> step v (edit f v).
Proof. intros H1 H2. split; [done|]. split; [done|]. exists []. by rewrite app_nil_r. Qed.
Lemma step_glyph column row ch fg bg v : screen_wf v.1 -> step v (glyph font ascii fb column row ch fg bg v).
Proof. intros H. split; [done|]. split; [done|]. eexists. split; [done|apply glyph_inside]. Qed.
Lemma step_for lo n body v : screen_wf v.1 -> (forall i v, screen_wf v.1 -> step v (body i v)) -> step v (for_all lo n body v).
Proof.
  intros Hv Hb. destruct (decide (0 <= n)) as [Hn|Hn]; [|unfold for_all, for_, loop; destruct n; [by apply step_refl|lia|by apply step_refl]].
  apply (for_all_inv (fun _ => step v) lo n body v Hn); [by apply step_refl|]. intros i v' _ Hs. apply (step_trans _ v'); [done|]. apply Hb.
Qed.
Lemma wf_for {A} lo n (body : Z -> A -> A) (P : A -> Prop) a : P a -> (forall i a, P a -> P (body i a)) -> P (for_all lo n body a).
Proof.
  intros Hv Hb. destruct (decide (0 <= n)) as [Hn|Hn]; [|unfold for_all, for_, loop; destruct n; [done|lia|done]].
  apply (for_all_inv (fun _ => P) lo n body a Hn); [done|]. intros i a' _. apply Hb.
Qed.

Ltac screen := intros []; split; cbn in *; rewrite ?length_aset, ?length_replicate; try done; try lia.

Lemma wf_set_cell i ch t : screen_wf t -> screen_wf (set_cell i ch t).
Proof. screen. Qed.
Lemma wf_move_cell a b t : screen_wf t -> screen_wf (move_cell a b t).
Proof. screen. Qed.
Lemma wf_set_row r t : 0 <= r < RIX_TTY_MAX_ROWS -> screen_wf t -> screen_wf (set_cursor_row r t).
Proof. intros H. screen. Qed.
Lemma wf_set_column c t : 0 <= c < RIX_TTY_MAX_COLUMNS -> screen_wf t -> screen_wf (set_cursor_column c t).
Proof. intros H. screen. Qed.
Lemma wf_set_decoder a b c t : screen_wf t -> screen_wf (set_decoder a b c t).
Proof. screen. Qed.
Lemma wf_set_state s t : screen_wf t -> screen_wf (set_vt_state s t).
Proof. screen. Qed.
Lemma wf_reset_params t : screen_wf t -> screen_wf (set_vt_params (replicate 8 0) (set_vt_value_index 0 t)).
Proof. screen. repeat constructor; done. Qed.
Lemma wf_colour p t : 0 <= p -> screen_wf t -> screen_wf (vt_colour p t).
Proof.
  intros Hp H. unfold vt_colour. repeat (match goal with |- context [if ?b then _ else _] => destruct b eqn:?; bool_to_prop end); try done; destruct H; split; cbn; try done; lia.
Qed.
Lemma wf_ring ch t : screen_wf t -> screen_wf (ring_output ch t).
Proof.
  intros H. unfold ring_output. assert (Hm : forall x, 0 <= (x + 1) mod RIX_TTY_OUTPUT < RIX_TTY_OUTPUT) by (intros; by apply Z.mod_pos_bound).
  destruct (_ <=? _) eqn:E; bool_to_prop; destruct H; split; cbn in *; rewrite ?length_aset; try done; try apply Hm; unfold RIX_TTY_OUTPUT in *; lia.
Qed.

Lemma step_scroll v : screen_wf v.1 -> step v (vt_scroll_up font ascii fb v).
Proof.
  intros H. unfold vt_scroll_up. set (t := v.1) in *.
  eapply step_trans; [|intros Hw; apply step_for; [done|]; intros r v' Hv'; apply step_for; [done|]; intros c v'' Hv''; by apply step_glyph].
  apply (step_trans _ (edit (for_all 0 (rows t - 1) (fun r => for_all 0 (columns t) (fun c => move_cell (cell r c) (cell (r + 1) c)))) v)).
  - apply step_edit.
    + apply (wf_for _ _ _ screen_wf); [done|]. intros i a Ha. apply (wf_for _ _ _ screen_wf); [done|]. intros j b. apply wf_move_cell.
    + apply (wf_for _ _ _ (same_line t)); [done|]. intros i a Ha. apply (wf_for _ _ _ (same_line t)); [done|]. intros j b Hb. by unfold same_line in *.
  - intros Hw. apply step_edit.
    + apply (wf_for _ _ _ screen_wf); [done|]. intros i a. apply wf_set_cell.
    + set (v' := edit _ v) in *. apply (wf_for _ _ _ (same_line v'.1)); [done|]. intros i a Ha. by unfold same_line in *.
Qed.

Lemma step_move dr dc v : screen_wf v.1 -> -255 <= dc <= 255 -> -255 <= dr <= 255 -> step v (vt_move font ascii fb dr dc v).
Proof.
  intros H Hc Hr. unfold vt_move. set (t := v.1) in *. pose proof (wf_columns t H). pose proof (wf_column t H). pose proof (wf_row t H). pose proof (wf_rows t H). unfold RIX_TTY_MAX_COLUMNS, RIX_TTY_MAX_ROWS in *.
  set (col := if _ <? 0 then 0 else _). assert (Hcol : 0 <= col < 512) by (unfold col; case_if; lia). rewrite (u16_id col) by (unfold is_u16; lia).
  set (col2 := if columns t <=? col then _ else _). assert (Hcol2 : 0 <= col2 < 128) by (unfold col2; case_if; lia). rewrite (u16_id col2) by (unfold is_u16; lia).
  assert (S1 : step v (edit (set_cursor_column col2) v)) by (apply step_edit; [by apply wf_set_column|done]).
  destruct (rows t <=? cursor_row t + dr) eqn:E; bool_to_prop; [|destruct (cursor_row t + dr <? 0) eqn:E2; bool_to_prop].
  - apply (step_trans _ _ _ S1). intros Hw1. apply (step_trans _ _ _ (step_scroll _ Hw1)). intros Hw2. apply step_edit; [|done]. apply wf_set_row; [unfold RIX_TTY_MAX_ROWS; lia|done].
  - apply (step_trans _ _ _ S1). intros Hw1. apply step_edit; [|done]. by apply wf_set_row.
  - apply (step_trans _ _ _ S1). intros Hw1. apply step_edit; [|done]. rewrite u16_id by (unfold is_u16; lia). apply wf_set_row; [unfold RIX_TTY_MAX_ROWS; lia|done].
Qed.

Lemma step_clear v : screen_wf v.1 -> step v (vt_clear_screen font ascii fb v).
Proof.
  intros H. unfold vt_clear_screen. eapply step_trans; [apply step_edit|intros Hw; apply step_for; [done|]; intros r v' Hv'; apply step_for; [done|]; intros c v'' Hv''; by apply step_glyph]; [|done].
  assert (Hn : forall x : Z, len (replicate (Z.to_nat CELLS) x) = CELLS) by (intros x; rewrite length_replicate; apply Z2Nat.id; done).
  destruct H. split; try assumption; apply Hn.
Qed.

Lemma step_print ch v : screen_wf v.1 -> step v (vt_print font ascii fb ch v).
Proof.
  intros H. unfold vt_print. set (t := v.1) in *. pose proof (wf_columns t H). pose proof (wf_column t H). pose proof (wf_row t H). pose proof (wf_rows t H).
  set (v1 := edit (set_cell _ ch) v). assert (S1 : step v v1) by (apply step_edit; [by apply wf_set_cell|done]).
  set (v2 := glyph font ascii fb _ _ _ _ _ v1). assert (S2 : step v v2) by (apply (step_trans _ _ _ S1); intros; by apply step_glyph).
  assert (Hrows : rows v2.1 = rows t /\ cursor_row v2.1 = cursor_row t) by done.
  destruct (columns t <=? _) eqn:E; bool_to_prop; apply (step_trans _ _ _ S2); intros Hw2; apply step_edit.
  - cbn zeta. pose proof (wf_set_column 0 v2.1 ltac:(done) Hw2) as Hw3. destruct (_ <? _) eqn:E2; bool_to_prop; [|done]. apply wf_set_row; [|done]. change (0 <= cursor_row t + 1 < RIX_TTY_MAX_ROWS). change (cursor_row t + 1 < rows t) in E2. unfold RIX_TTY_MAX_ROWS in *. lia.
  - cbn zeta. by destruct (_ <? _).
  - apply wf_set_column; [unfold RIX_TTY_MAX_COLUMNS in *; lia|done].
  - done.
Qed.

Lemma step_blank row a b v : screen_wf v.1 -> step v (blank font ascii fb row a b v).
Proof.
  intros H. apply step_for; [done|]. intros i v' Hv'. eapply step_trans; [apply step_edit; [by apply wf_set_cell|done]|]. intros Hw. by apply step_glyph.
Qed.
Lemma step_erase_line m v : screen_wf v.1 -> step v (vt_erase_line font ascii fb m v).
Proof. intros H. by apply step_blank. Qed.
Lemma step_erase_display m v : screen_wf v.1 -> step v (vt_erase_display font ascii fb m v).
Proof.
  intros H. unfold vt_erase_display. destruct (m =? 2); [by apply step_clear|]. destruct (m =? 0); [apply step_for; [done|]; intros; by apply step_blank|].
  destruct (m =? 1); [apply step_for; [done|]; intros; by apply step_blank|]. by apply step_refl.
Qed.

Lemma clamp_range x n lim : 0 <= x < 2 ^ 16 -> 1 <= n <= lim -> lim <= 128 -> 0 <= vt_clamp x n < lim.
Proof. intros Hx Hn Hl. unfold vt_clamp. case_if; [rewrite u16_id by (unfold is_u16; lia)|]; lia. Qed.
Lemma param_range t i : screen_wf t -> 0 <= aget 0 (vt_params t) i < 256.
Proof. intros H. exact (aget_u8 _ i (wf_param t H)). Qed.

Lemma step_final ch v : screen_wf v.1 -> step v (vt_final font ascii fb ch v).
Proof.
  intros H. unfold vt_final. set (t := v.1) in *. pose proof (param_range t 0 H) as H0. pose proof (param_range t 1 H) as H1. set (p0 := aget 0 (vt_params t) 0) in *. set (p1 := aget 0 (vt_params t) 1) in *. cbv zeta.
  set (n := if p0 =? 0 then 1 else p0). assert (Hn : 0 <= n <= 255) by (unfold n; case_if; lia). pose proof (wf_columns t H) as Hc. pose proof (wf_rows t H) as Hr. unfold RIX_TTY_MAX_COLUMNS, RIX_TTY_MAX_ROWS in *.
  destruct (ch =? 65); [apply step_move; [done|lia|lia]|]. destruct (ch =? 66); [apply step_move; [done|lia|lia]|]. destruct (ch =? 67); [apply step_move; [done|lia|lia]|]. destruct (ch =? 68); [apply step_move; [done|lia|lia]|].
  destruct (ch =? 71); [apply step_edit; [|done]; apply wf_set_column; [|done]; apply clamp_range; [apply u16_range|unfold RIX_TTY_MAX_COLUMNS; lia|done]|].
  destruct (_ || _).
  { apply step_edit; [|done]. apply wf_set_column; [apply clamp_range; [case_if; lia|exact Hc|done]|]. apply wf_set_row; [apply clamp_range; [case_if; lia|exact Hr|done]|done]. }
  destruct (ch =? 74); [by apply step_erase_display|]. destruct (ch =? 75); [by apply step_erase_line|]. destruct (ch =? 109); [|by apply step_refl].
  apply step_edit.
  - apply (wf_for _ _ _ screen_wf); [done|]. intros i a Ha. apply wf_colour; [|done]. pose proof (param_range a i Ha). lia.
  - apply (wf_for _ _ _ (same_line t)); [done|]. intros i a Ha. unfold vt_colour. repeat (match goal with |- context [if ?b then _ else _] => destruct b end); by unfold same_line in *.
Qed.

Lemma step_control ch v : screen_wf v.1 -> step v (vt_control font ascii fb ch v).
Proof.
  intros H. unfold vt_control. set (t := v.1) in *. pose proof (wf_index t H) as Hi. destruct (vt_state t =? VT_NORMAL); [|destruct (vt_state t =? VT_ESC); [|destruct (vt_state t =? VT_CSI); [|by apply step_refl]]].
  - destruct (ch =? 0x1b); [apply step_edit; [by apply wf_set_state|done]|]. destruct (ch =? 10).
    { eapply step_trans; [apply step_edit; [by apply (wf_set_column 0)|done]|]. intros Hw. apply step_move; [done|lia|lia]. }
    destruct (ch =? 13); [apply step_edit; [by apply wf_set_column|done]|]. destruct (ch =? 8); [apply step_move; [done|lia|lia]|]. destruct (_ && _); [by apply step_print|by apply step_refl].
  - destruct (ch =? 91); apply step_edit; try done; [by apply (wf_reset_params (set_vt_state VT_CSI t)), wf_set_state|by apply wf_set_state].
  - destruct (_ && _).
    { apply step_edit; fold t; destruct (vt_value_index t <? 8); try done. destruct H; split; cbn in *; rewrite ?length_aset; try done. apply Forall_insert; [done|apply u8_range]. }
    destruct (ch =? 59); [apply step_edit; fold t; destruct (vt_value_index t <? 7) eqn:E7; bool_to_prop; try done; destruct H; split; cbn in *; try done; lia|].
    eapply step_trans; [by apply step_final|]. intros Hw. apply step_edit; [|done]. by apply (wf_reset_params (set_vt_state VT_NORMAL _)), wf_set_state.
Qed.

Lemma step_lead ch v : screen_wf v.1 -> step v (vt_lead font ascii fb ch v).
Proof.
  intros H. unfold vt_lead. destruct (_ && _ && _); [|by apply step_control].
  repeat (match goal with |- context [if ?b then _ else _] => destruct b; [apply step_edit; [by apply wf_set_decoder|done]|] end). by apply step_print.
Qed.

Lemma step_consume ch v : screen_wf v.1 -> step v (vt_consume font ascii fb ch v).
Proof.
  intros H. unfold vt_consume. destruct (_ && _); [|by apply step_lead]. cbv zeta. assert (Hd : forall a b c, step v (edit (set_decoder a b c) v)) by (intros; apply step_edit; [by apply wf_set_decoder|done]).
  destruct (_ =? 0x80); [destruct (_ =? _); [|done]|]; apply (step_trans _ _ _ (Hd 0 0 0)); intros Hw; [by apply step_print|].
  eapply step_trans; [by apply step_print|]. intros Hw'. by apply step_lead.
Qed.

Lemma step_put v ch : screen_wf v.1 -> step v (put_output font ascii fb v ch).
Proof. intros H. unfold put_output. eapply step_trans; [apply step_edit; [by apply wf_ring|]|intros Hw; by apply step_consume]. unfold ring_output. by destruct (_ <=? _). Qed.

Lemma step_puts buf : forall v, screen_wf v.1 -> step v (foldl (put_output font ascii fb) v buf).
Proof. induction buf as [|ch buf IH]; intros v H; [by apply step_refl|]. cbn [foldl]. eapply step_trans; [by apply step_put|]. intros Hw. by apply IH. Qed.
End Drawing.

(** ** The consoles *)

(** The arrays have their sizes, and the output ring is in order. *)
Record sized (t : rix_tty_t) : Prop := {
  sz_input : len (input t) = RIX_TTY_INPUT;
  sz_output : len (output t) = RIX_TTY_OUTPUT;
  sz_output_head : 0 <= output_head t < RIX_TTY_OUTPUT;
  sz_output_tail : 0 <= output_tail t < RIX_TTY_OUTPUT;
  sz_output_count : 0 <= output_count t <= RIX_TTY_OUTPUT;
  sz_screen : len (screen t) = CELLS;
  sz_screen_fg : len (screen_fg t) = CELLS;
  sz_screen_bg : len (screen_bg t) = CELLS;
  sz_params : len (vt_params t) = 8;
  sz_param : Forall is_u8 (vt_params t);
  sz_edit : len (edit_line t) = RIX_TTY_LINE_MAX;
  sz_history : len (history t) = RIX_TTY_HISTORY_COUNT;
  sz_lines : Forall (fun l => len l = RIX_TTY_LINE_MAX) (history t);
}.
Lemma wf_sized k t : wf_at k t -> sized t.
Proof. intros [[] []]. by split. Qed.

Definition queue_wf (p : rix_pty_t) : Prop :=
  len (master_output p) = RIX_TTY_OUTPUT /\ 0 <= master_output_head p < RIX_TTY_OUTPUT /\ 0 <= master_output_tail p < RIX_TTY_OUTPUT /\ 0 <= master_output_count p <= RIX_TTY_OUTPUT.
(** A pseudo terminal that was never opened has its arrays only. *)
Definition pty_wf (p : rix_pty_t) : Prop := sized (slave p) /\ (opened p <> 0 -> slave_wf (slave p)) /\ queue_wf p.
Lemma pty_wf_intro p : slave_wf (slave p) -> queue_wf p -> pty_wf p.
Proof. intros H1 H2. split; [by eapply wf_sized|]. done. Qed.
(** Everything is within its bounds and the frame buffer holds all its pixels. *)
Definition console_wf (c : console) : Prop :=
  len (ttys c) = RIX_TTY_COUNT /\ Forall tty_wf (ttys c) /\ len (ptys c) = RIX_PTY_COUNT /\ Forall pty_wf (ptys c) /\ fb_wf (framebuffer c).
Definition unlocked (c : console) : Prop := tty_output_lock c = spin_free /\ tty_input_lock c = spin_free.

(** What a call may do: the state stays well formed and what it draws lies inside the frame
    buffer there is when it returns. *)
Definition within (c c' : console) : Prop := console_wf c' /\ exists new, ink c' = ink c ++ new /\ Forall (inside (framebuffer c')) new.

Lemma Forall_cell {A} (P : A -> Prop) d l i : Forall P l -> 0 <= i < len l -> P (aget d l i).
Proof.
  intros Hl Hi. destruct (lookup_lt_is_Some_2 l (Z.to_nat i)) as [x E]; [lia|]. unfold aget. rewrite E. by eapply Forall_lookup_1.
Qed.

Lemma tty_at_wf id c : console_wf c -> 0 <= id < RIX_TTY_COUNT -> tty_wf (tty_at id c).
Proof. intros (Hn & Ht & _) Hid. apply (Forall_cell tty_wf zero_tty); [done|lia]. Qed.
Lemma pty_at_wf id c : console_wf c -> 0 <= id < RIX_PTY_COUNT -> pty_wf (pty_at id c).
Proof. intros (_ & _ & Hn & Hp & _) Hid. apply (Forall_cell pty_wf zero_pty); [done|lia]. Qed.

Lemma wf_set_ttys id t c : console_wf c -> tty_wf t -> console_wf (set_ttys (aset id t (ttys c)) c).
Proof. intros (H1 & H2 & H3 & H4 & H5) Ht. split; [cbn; by rewrite length_aset|]. split; [by apply Forall_aset|]. done. Qed.
Lemma wf_set_ptys id p c : console_wf c -> pty_wf p -> console_wf (set_ptys (aset id p (ptys c)) c).
Proof. intros (H1 & H2 & H3 & H4 & H5) Hp. split; [done|]. split; [done|]. split; [cbn; by rewrite length_aset|]. split; [by apply Forall_aset|done]. Qed.
Lemma wf_set_ink l c : console_wf c -> console_wf (set_ink l c).
Proof. done. Qed.

Lemma within_refl c : console_wf c -> within c c.
Proof. intros H. split; [done|]. exists []. by rewrite app_nil_r. Qed.
Lemma within_trans c1 c2 c3 : framebuffer c3 = framebuffer c2 -> within c1 c2 -> (console_wf c2 -> within c2 c3) -> within c1 c3.
Proof.
  intros Hf (H1 & n1 & E1 & F1) H. destruct (H H1) as (H2 & n2 & E2 & F2). split; [done|]. exists (n1 ++ n2). rewrite E2, E1, <- app_assoc. split; [done|]. apply Forall_app. by rewrite <- Hf in F1.
Qed.

(** A drawing function on one console. *)
Lemma within_vt id f c : console_wf c -> 0 <= id < RIX_TTY_COUNT -> (screen_wf (tty_at id c) -> step (framebuffer c) (tty_at id c, ink c) (f (tty_at id c, ink c))) -> within c (on_vt id f c).
Proof.
  intros Hc Hid Hf. pose proof (tty_at_wf id c Hc Hid) as [Hs Hl]. destruct (Hf Hs) as (H1 & H2 & new & H3 & H4). unfold on_vt. cbv zeta. split.
  - apply wf_set_ink, wf_set_ttys; [done|]. split; [done|]. by apply (same_line_wf _ _ H2).
  - exists new. split; [exact H3|]. exact H4.
Qed.

(** ** Pure changes of a terminal *)

Lemma mod_input x : 0 <= x mod RIX_TTY_INPUT < RIX_TTY_INPUT.
Proof. by apply Z.mod_pos_bound. Qed.
Lemma mod_output x : 0 <= x mod RIX_TTY_OUTPUT < RIX_TTY_OUTPUT.
Proof. by apply Z.mod_pos_bound. Qed.

Section Bound.
Context {k : Z}.

(** A change of the line that leaves the screen alone. *)
Definition screen_part (t : rix_tty_t) : list (list Z) * list Z :=
  ([output t; screen t; screen_fg t; screen_bg t; vt_params t],
   [output_head t; output_tail t; output_count t; rows t; columns t; cursor_row t; cursor_column t; vt_value_index t; fg_color t; bg_color t]).
Lemma same_screen_wf t t' : screen_part t' = screen_part t -> screen_wf t -> screen_wf t'.
Proof. intros H Hw. unfold screen_part in H. injection H as H. destruct Hw. split; congruence. Qed.

Lemma line_wf_put ch t : count t < k -> k <= UINT64_MAX -> line_wf k t -> line_wf k (put_input ch t).
Proof.
  intros Hc Hk H. pose proof (wf_count t H). unfold put_input, UINT64_MAX in *. rewrite u64_id by (unfold is_u64; lia). destruct H. split; cbn; rewrite ?length_aset; try done; [apply mod_input|lia].
Qed.

Lemma puts_wf n f t : line_wf k t -> k <= UINT64_MAX -> count t + n <= k -> 0 <= n ->
  let t' := for_all 0 n (fun i t => put_input (f i t) t) t in line_wf k t' /\ count t' = count t + n /\ screen_part t' = screen_part t /\ edit_length t' = edit_length t.
Proof.
  intros Hw Hk Hn H0. cbv zeta. apply (for_all_inv (fun i t' => line_wf k t' /\ count t' = count t + i /\ screen_part t' = screen_part t /\ edit_length t' = edit_length t) 0 n _ t H0); [split; [done|]; split; [lia|done]|].
  intros i a Hi (H1 & H2 & H3 & H4). split; [apply line_wf_put; [lia|done|done]|]. pose proof (wf_count t Hw). unfold UINT64_MAX in *. split; [cbn; rewrite u64_id by (unfold is_u64; lia); lia|done].
Qed.

(** The line goes into the next place of the history. *)
Definition save_line (t : rix_tty_t) : rix_tty_t :=
  let line := aset (edit_length t) 0 (copy (Z.to_nat (edit_length t)) (aget [] (history t) (history_count t)) 0 (edit_line t) 0) in
  let t := set_history_count (history_count t + 1) (set_history (aset (history_count t) line (history t)) t) in
  set_history_cursor (history_count t) t.
Lemma save_line_wf t : line_wf k t -> history_count t < RIX_TTY_HISTORY_COUNT -> line_wf k (save_line t).
Proof.
  intros Hu Hc. pose proof (wf_history_count t Hu). pose proof (wf_history t Hu).
  pose proof (Forall_cell (fun l => len l = RIX_TTY_LINE_MAX) [] (history t) (history_count t) (wf_lines t Hu) ltac:(lia)) as Hlen. destruct Hu. split; cbn; rewrite ?length_aset; try done; try lia.
  apply Forall_aset; [done|]. by rewrite length_aset, length_copy.
Qed.
Lemma history_save_wf t : line_wf k t -> line_wf k (tty_edit_history_save t).
Proof.
  intros H. unfold tty_edit_history_save. destruct (edit_length t =? 0) eqn:E0; [done|]. pose proof (wf_history_count t H) as Hc.
  destruct (history_count t =? RIX_TTY_HISTORY_COUNT) eqn:E; bool_to_prop; [|apply (save_line_wf t); [done|lia]].
  set (h := drop 1 (history t) ++ _). apply (save_line_wf (set_history_cursor 0 (set_history_count (history_count t - 1) (set_history h t)))); [|cbn; lia].
  pose proof (wf_history t H) as Hh. destruct H. split; cbn; try done; unfold h, RIX_TTY_HISTORY_COUNT in *; try lia.
  - rewrite length_app, !length_drop. lia.
  - apply Forall_app. split; by apply Forall_drop.
Qed.
Lemma history_save_part t : screen_part (tty_edit_history_save t) = screen_part t.
Proof. unfold tty_edit_history_save. destruct (_ =? 0); [done|]. by destruct (_ =? RIX_TTY_HISTORY_COUNT). Qed.

(** A change of the line. *)
Definition line_change (f : rix_tty_t -> rix_tty_t) (t : rix_tty_t) : Prop := wf_at k t -> wf_at k (f t).
Lemma line_change_intro f t : (line_wf k t -> line_wf k (f t)) -> screen_part (f t) = screen_part t -> line_change f t.
Proof. intros H1 H2 [Hs Hl]. split; [by apply (same_screen_wf t)|by apply H1]. Qed.

Lemma put_change ch t : count t < k -> k <= UINT64_MAX -> line_change (put_input ch) t.
Proof. intros Hc Hk. apply line_change_intro; [by apply line_wf_put|done]. Qed.

Lemma commit_change t : count t + edit_length t + 1 <= k -> k <= UINT64_MAX -> line_change edit_commit t.
Proof.
  intros Hc Hk [Hs Hl]. pose proof (wf_edit_cursor t Hl). unfold edit_commit.
  destruct (puts_wf (edit_length t) (fun i t => u8 (aget 0 (edit_line t) i)) t Hl Hk ltac:(lia) ltac:(lia)) as (H1 & H2 & H3 & H4). cbv zeta in H1, H2, H3. set (t1 := for_all 0 (edit_length t) _ t) in *.
  assert (Hp : line_wf k (put_input 10 t1)) by (apply line_wf_put; [lia|done|done]).
  assert (Hr : line_wf k (set_canonical_ready (canonical_ready (put_input 10 t1) + 1) (put_input 10 t1))) by (destruct Hp; by split).
  set (t2 := set_canonical_ready _ _) in *. pose proof (history_save_wf t2 Hr) as Hh. set (t3 := tty_edit_history_save t2) in *. split.
  - apply (same_screen_wf t); [|done]. trans (screen_part t3); [done|]. trans (screen_part t2); [apply history_save_part|]. exact H3.
  - destruct Hh. split; cbn; try done.
Qed.

Lemma erase_change t : 0 < edit_cursor t -> line_change edit_erase t.
Proof.
  intros Hc. apply line_change_intro; [|done]. intros H. pose proof (wf_edit_cursor t H). pose proof (wf_edit_length t H).
  assert (len (for_all (edit_cursor t) (edit_length t - edit_cursor t) (fun i l => aset (i - 1) (aget 0 l i) l) (edit_line t)) = RIX_TTY_LINE_MAX).
  { apply (wf_for _ _ _ (fun l => len l = RIX_TTY_LINE_MAX)); [apply (wf_edit t H)|]. intros i a Ha. by rewrite length_aset. }
  destruct H. split; cbn; try done; lia.
Qed.
Lemma insert_change ch t : edit_length t + 1 < RIX_TTY_LINE_MAX -> line_change (edit_insert ch) t.
Proof.
  intros Hc. apply line_change_intro; [|done]. intros H. pose proof (wf_edit_cursor t H). pose proof (wf_edit_length t H).
  assert (len (for_all 0 (edit_length t - edit_cursor t) (fun k l => let i := edit_length t - k in aset i (aget 0 l (i - 1)) l) (edit_line t)) = RIX_TTY_LINE_MAX).
  { apply (wf_for _ _ _ (fun l => len l = RIX_TTY_LINE_MAX)); [apply (wf_edit t H)|]. intros i a Ha. cbv zeta. by rewrite length_aset. }
  destruct H. split; cbn; rewrite ?length_aset; try done; lia.
Qed.
Lemma cursor_change x t : 0 <= x <= edit_length t -> line_change (set_edit_cursor x) t.
Proof. intros Hx. apply line_change_intro; [|done]. intros []. by split. Qed.

Lemma load_line_wf n : forall src i dst, 0 <= i -> len (load_line n src i dst).1 = len dst /\ i <= (load_line n src i dst).2 <= i + Z.of_nat n.
Proof.
  induction n as [|n IH]; intros src i dst Hi; cbn [load_line]; [cbn; lia|]. destruct (_ =? 0); [cbn; lia|]. destruct (IH src (i + 1) (aset i (aget 0 src i) dst) ltac:(lia)) as [-> H2]. rewrite length_aset. lia.
Qed.
Lemma recall_change d t : line_change (edit_recall d) t.
Proof.
  apply line_change_intro.
  - intros H. unfold edit_recall. set (t1 := if d =? RIX_TTY_KEY_UP then _ else _). assert (H1 : line_wf k t1).
    { pose proof (wf_history_cursor t H). unfold t1. repeat (match goal with |- context [if ?b then _ else _] => destruct b eqn:?; bool_to_prop end); try done; destruct H; split; cbn; try done; lia. }
    clearbody t1. destruct (_ =? _); [destruct H1; split; cbn; try done; unfold RIX_TTY_LINE_MAX; lia|]. pose proof (load_line_wf (Z.to_nat (RIX_TTY_LINE_MAX - 1)) (aget [] (history t1) (history_cursor t1)) 0 (edit_line t1) ltac:(lia)) as [L1 L2].
    destruct (load_line _ _ _ _) as [l n]. cbn [fst snd] in *. unfold RIX_TTY_LINE_MAX in *. destruct H1. split; cbn; unfold RIX_TTY_LINE_MAX in *; try done; lia.
  - unfold edit_recall. destruct (load_line _ _ _ _) as [l n] eqn:E. repeat (match goal with |- context [if ?b then _ else _] => destruct b end); try done; rewrite E; done.
Qed.

Lemma discard_loop_wf n : forall t, line_wf k t -> line_chars t = Z.of_nat n -> line_wf k (discard_loop n t) /\ screen_part (discard_loop n t) = screen_part t.
Proof.
  induction n as [|n IH]; intros t H Hn; cbn [discard_loop]; [done|]. set (t1 := set_line_chars _ _). pose proof (wf_count t H).
  assert (H1 : line_wf k t1) by (unfold t1; destruct H; split; cbn; try done; [apply mod_input|split_ifs; lia|lia]). destruct (IH t1 H1) as [H2 H3]; [cbn; lia|]. split; [done|]. by rewrite H3.
Qed.
Lemma discard_change t : line_change tty_discard_current_line t.
Proof. intros [Hs Hl]. pose proof (wf_line_chars t Hl). destruct (discard_loop_wf (Z.to_nat (line_chars t)) t Hl ltac:(lia)) as [H1 H2]. split; [by apply (same_screen_wf t)|done]. Qed.

(** The loops that take bytes out of the input ring. *)
Lemma taken_wf t : line_wf k t -> count t <> 0 -> line_wf k (set_count (count t - 1) (set_head ((head t + 1) mod RIX_TTY_INPUT) t)).
Proof. intros H Hc. destruct H. split; cbn; try done; [apply mod_input|lia]. Qed.
Lemma read_loop_wf n : forall t got, line_wf k t -> line_wf k (read_loop n t got).1 /\ screen_part (read_loop n t got).1 = screen_part t.
Proof.
  induction n as [|n IH]; intros t got H; cbn [read_loop]; [done|]. destruct (count t =? 0) eqn:E; [done|]. bool_to_prop. cbv zeta. pose proof (taken_wf t H E) as H1.
  destruct (_ && _); [split; [destruct H1; by split|done]|]. destruct (IH (set_count (count t - 1) (set_head ((head t + 1) mod RIX_TTY_INPUT) t)) (got ++ [if aget 0 (input t) (head t) =? 13 then 10 else aget 0 (input t) (head t)]) H1) as [H2 H3]. split; [done|]. by rewrite H3.
Qed.
Lemma slave_loop_wf n : forall t got, line_wf k t -> line_wf k (slave_read_loop n t got).1 /\ screen_part (slave_read_loop n t got).1 = screen_part t.
Proof.
  induction n as [|n IH]; intros t got H; cbn [slave_read_loop]; [done|]. destruct (count t =? 0) eqn:E; [done|]. bool_to_prop. cbv zeta. pose proof (taken_wf t H E) as H1.
  destruct (_ && _); [split; [destruct H1; by split|done]|]. destruct (IH _ (got ++ [aget 0 (input t) (head t)]) H1) as [H2 H3]. split; [done|]. by rewrite H3.
Qed.
Lemma drain_output_wf n : forall t got, wf_at k t -> wf_at k (drain_output n t got).1.
Proof.
  induction n as [|n IH]; intros t got H; cbn [drain_output]; [done|]. destruct (_ =? 0) eqn:E; [done|]. bool_to_prop. apply IH. destruct H as [Hs Hl]. split; [|destruct Hl; by split].
  pose proof (wf_output_count t Hs). destruct Hs. split; cbn; try done; [apply mod_output|lia].
Qed.

(** Settings touch neither an index nor an array. *)
Definition sizes (t : rix_tty_t) : list (list Z) * list (list Z) * list Z :=
  ([input t; edit_line t], history t, [head t; tail t; count t; line_chars t; edit_length t; edit_cursor t; history_count t; history_cursor t]).
Lemma setting_change f t : sizes (f t) = sizes t -> screen_part (f t) = screen_part t -> line_change f t.
Proof. intros H1 H2. apply line_change_intro; [|done]. intros Hw. unfold sizes in H1. injection H1 as H1. destruct Hw. split; congruence. Qed.
Lemma lflag_change l t : line_change (use_lflag l) t.
Proof. apply setting_change; unfold use_lflag; by destruct (_ =? 0). Qed.
Lemma dimensions_change r c t : 1 <= r <= RIX_TTY_MAX_ROWS -> 1 <= c <= RIX_TTY_MAX_COLUMNS ->
  line_change (fun t => set_cursor_column (vt_clamp (cursor_column t) c) (set_cursor_row (vt_clamp (cursor_row t) r) (set_columns c (set_rows r t)))) t.
Proof.
  intros Hr Hc [Hs Hl]. split; [|destruct Hl; by split]. pose proof (wf_row t Hs). pose proof (wf_column t Hs). unfold RIX_TTY_MAX_ROWS, RIX_TTY_MAX_COLUMNS in *.
  destruct Hs. split; cbn; try done; apply clamp_range; unfold RIX_TTY_MAX_ROWS, RIX_TTY_MAX_COLUMNS in *; lia.
Qed.

End Bound.

(** ** Calls *)

(** The calls of the host return. *)
Class HostReturns (W : Type) {HW : TtyHost W} := {
  host_ok : W -> Prop;
  hook_returns h p s w : host_ok w -> exists r w', call_hook h p s w = Some (r, w') /\ host_ok w';
  init_returns i w : host_ok w -> exists w', waitqueue_init i w = Some (tt, w') /\ host_ok w';
  wake_returns i w : host_ok w -> exists w', wake_readers i w = Some (tt, w') /\ host_ok w';
  prepare_returns i w : host_ok w -> exists r w', wait_prepare i w = Some (r, w') /\ host_ok w';
  block_returns w : host_ok w -> exists w', block_current w = Some (tt, w') /\ host_ok w';
  mmio_returns b n w : host_ok w -> exists r w', vmm_map_mmio b n w = Some (r, w') /\ host_ok w';
}.

Section Calls.
Context {W : Type} {HW : TtyHost W} {HR : HostReturns W} (font : list Z).
Abbreviation st := (cpu * (console * W))%type.

(** The call returns on the CPU it was made on, and [Q] holds of its result and the consoles. *)
Definition runs {A} (m : M st A) (c : console) (Q : A -> console -> Prop) : Prop :=
  forall k w, host_ok w -> exists a c' w', m (k, (c, w)) = Some (a, (k, (c', w'))) /\ host_ok w' /\ Q a c'.

Lemma runs_tret {A} (a : A) c (Q : A -> console -> Prop) : Q a c -> runs (mret a) c Q.
Proof. intros H k w Hw. by exists a, c, w. Qed.
Lemma runs_tbind {A B} (m : M st A) (f : A -> M st B) c Q : runs m c (fun a c' => runs (f a) c' Q) -> runs (m ≫= f) c Q.
Proof.
  intros H k w Hw. destruct (H k w Hw) as (a & c1 & w1 & E1 & Hw1 & H1). destruct (H1 k w1 Hw1) as (b & c2 & w2 & E2 & Hw2 & H2). exists b, c2, w2. split; [|done]. by rewrite (bind_Some _ _ _ a (k, (c1, w1))).
Qed.
Lemma runs_mono {A} (m : M st A) c (Q Q' : A -> console -> Prop) : runs m c Q -> (forall a c', Q a c' -> Q' a c') -> runs m c Q'.
Proof. intros H HQ k w Hw. destruct (H k w Hw) as (a & c1 & w1 & E1 & Hw1 & H1). exists a, c1, w1. auto. Qed.
Lemma runs_tchange f c (Q : unit -> console -> Prop) : Q tt (f c) -> runs (change f) c Q.
Proof. intros H k w Hw. by exists tt, (f c), w. Qed.
Lemma runs_consoles {A} (f : console -> A) c (Q : A -> console -> Prop) : Q (f c) c -> runs (consoles f) c Q.
Proof. intros H k w Hw. by exists (f c), c, w. Qed.
Lemma runs_thost {A} (m : M W A) c (Q : A -> console -> Prop) : (forall w, host_ok w -> exists r w', m w = Some (r, w') /\ host_ok w') -> (forall r, Q r c) -> runs (host m) c Q.
Proof. intros H HQ k w Hw. destruct (H w Hw) as (r & w' & E & Hw'). exists r, c, w'. split; [|done]. unfold host, on_snd. by rewrite E. Qed.
Lemma runs_output {A} (m : M st A) c (Q : A -> console -> Prop) : tty_output_lock c = spin_free -> runs m (set_output_lock spin_held c) (fun a c' => Q a (set_output_lock spin_free c')) -> runs (with_output m) c Q.
Proof.
  intros Hl H k w Hw. destruct (H (set_rflags (Z.clearbit (rflags k) IF_BIT) k) w Hw) as (a & c1 & w1 & E1 & Hw1 & H1). exists a, (set_output_lock spin_free c1), w1. split; [|done].
  unfold with_output. by apply (locked_section_run (G := output_guard) m k (c, w) a (c1, w1)).
Qed.
Lemma runs_input {A} (m : M st A) c (Q : A -> console -> Prop) : tty_input_lock c = spin_free -> runs m (set_input_lock spin_held c) (fun a c' => Q a (set_input_lock spin_free c')) -> runs (with_input m) c Q.
Proof.
  intros Hl H k w Hw. destruct (H (set_rflags (Z.clearbit (rflags k) IF_BIT) k) w Hw) as (a & c1 & w1 & E1 & Hw1 & H1). exists a, (set_input_lock spin_free c1), w1. split; [|done].
  unfold with_input. by apply (locked_section_run (G := input_guard) m k (c, w) a (c1, w1)).
Qed.
(** A call that changes neither the frame buffer nor the locks. *)
Definition tame (c c' : console) : Prop :=
  within c c' /\ framebuffer c' = framebuffer c /\ tty_output_lock c' = tty_output_lock c /\ tty_input_lock c' = tty_input_lock c.
Definition good (c : console) : Prop := console_wf c /\ tty_output_lock c = spin_free.

Lemma tamed_refl c : console_wf c -> tame c c.
Proof. intros H. split; [by apply within_refl|done]. Qed.
Lemma tamed_trans c1 c2 c3 : tame c1 c2 -> (console_wf c2 -> tame c2 c3) -> tame c1 c3.
Proof.
  intros (W1 & F1 & O1 & I1) H. destruct (H ltac:(apply W1)) as (W2 & F2 & O2 & I2). split; [apply (within_trans c1 c2 c3); done|]. split; [congruence|]. split; congruence.
Qed.
Lemma tame_good c c' : good c -> tame c c' -> good c'.
Proof. intros [_ H] ((Hw & _) & _ & Ho & _). split; [done|congruence]. Qed.
Lemma tame_tty id f c : console_wf c -> 0 <= id < RIX_TTY_COUNT -> line_change (k := RIX_TTY_INPUT) f (tty_at id c) -> tame c (on_console id f c).
Proof.
  intros Hc Hid Hf. split; [|done]. split; [apply wf_set_ttys; [done|]; by apply Hf, tty_at_wf|]. exists []. by rewrite app_nil_r.
Qed.
Lemma tame_pty id p c : console_wf c -> pty_wf p -> tame c (set_ptys (aset id p (ptys c)) c).
Proof. intros Hc Hp. split; [|done]. split; [by apply wf_set_ptys|]. exists []. by rewrite app_nil_r. Qed.

Lemma tty_at_same id t c : 0 <= id < RIX_TTY_COUNT -> len (ttys c) = RIX_TTY_COUNT -> tty_at id (set_ttys (aset id t (ttys c)) c) = t.
Proof. intros Hid Hn. unfold tty_at. cbn. apply aget_aset_eq. lia. Qed.
Lemma tty_at_other id j t c : 0 <= id -> 0 <= j -> j <> id -> tty_at j (set_ttys (aset id t (ttys c)) c) = tty_at j c.
Proof. intros. unfold tty_at. cbn. apply aget_aset_ne; lia. Qed.

(** Output on console [id] changes its screen and nothing else. *)
Definition echoed (id : Z) (c c' : console) : Prop :=
  tame c c' /\ same_line (tty_at id c) (tty_at id c') /\ (forall j, 0 <= j -> j <> id -> tty_at j c' = tty_at j c) /\ ptys c' = ptys c /\ signal_hook c' = signal_hook c.
Lemma echoed_refl id c : console_wf c -> echoed id c c.
Proof. intros H. split; [by apply tamed_refl|]. done. Qed.
Lemma echoed_trans id c1 c2 c3 : echoed id c1 c2 -> (good c1 -> echoed id c2 c3) -> good c1 -> echoed id c1 c3.
Proof.
  intros (T1 & L1 & O1 & P1 & S1) H Hg. destruct (H Hg) as (T2 & L2 & O2 & P2 & S2). split; [by apply (tamed_trans c1 c2 c3)|]. split; [unfold same_line in *; congruence|]. split; [|split; congruence].
  intros j Hj Hne. rewrite O2 by done. by apply O1.
Qed.

Lemma runs_tty_output id buf c (Q : Z * Z -> console -> Prop) : good c -> 0 <= id < RIX_TTY_COUNT -> (forall c', echoed id c c' -> good c' -> Q (0, len buf) c') -> runs (tty_output font id buf) c Q.
Proof.
  intros Hg Hid HQ. pose proof Hg as [Hc Ho]. apply runs_output; [done|]. unfold tty_output_nolock. unfold tty_valid. rewrite (proj2 (Z.ltb_lt _ _)) by lia. cbn [negb].
  apply runs_tbind, runs_tchange, runs_tret. set (c0 := set_output_lock spin_held c). set (f := fun v => _).
  assert (Hw : within c (on_vt id f c)) by (apply within_vt; [done|done|]; intros; apply step_puts; [apply Hc|done]).
  assert (Hs : step (framebuffer c) (tty_at id c, ink c) (f (tty_at id c, ink c))) by (apply step_puts; [apply Hc|by apply tty_at_wf]). destruct Hs as (_ & Hl & _).
  assert (He : echoed id c (set_output_lock spin_free (on_vt id f c0))).
  { split; [split; [exact Hw|done]|]. split; [|split; [|done]].
    - unfold on_vt. cbv zeta. change (tty_at id (set_output_lock _ ?x)) with (tty_at id x). unfold same_line in *. trans (line_part (f (tty_at id c, ink c)).1); [|done]. f_equal.
      change (tty_at id (set_ttys (aset id (f (tty_at id c, ink c)).1 (ttys c)) c) = (f (tty_at id c, ink c)).1). apply tty_at_same; [done|apply Hc].
    - intros j Hj Hne. change (tty_at j (set_ttys (aset id (f (tty_at id c, ink c)).1 (ttys c)) c) = tty_at j c). apply tty_at_other; lia. }
  apply HQ; [done|]. by apply (tame_good c), He.
Qed.
Lemma runs_echo id buf c (Q : unit -> console -> Prop) : good c -> 0 <= id < RIX_TTY_COUNT -> (forall c', echoed id c c' -> good c' -> Q tt c') -> runs (echo_quiet font id buf) c Q.
Proof. intros Hg Hid HQ. apply runs_tbind, runs_tty_output; [done..|]. intros c' He Hg'. apply runs_tret. by apply HQ. Qed.
Lemma runs_echo_bytes id buf c (Q : Z -> console -> Prop) : good c -> 0 <= id < RIX_TTY_COUNT -> (forall c', echoed id c c' -> good c' -> Q 0 c') -> runs (echo_bytes font id buf) c Q.
Proof. intros Hg Hid HQ. apply runs_tbind, runs_tty_output; [done..|]. intros c' He Hg'. apply runs_tret. by apply HQ. Qed.

(** A computation that only echoes. *)
Definition echoes {A} (id : Z) (m : M st A) : Prop := forall c, good c -> runs m c (fun _ c' => echoed id c c').
Lemma echoes_ret {A} id (a : A) : echoes id (mret a).
Proof. intros c Hg. apply runs_tret, echoed_refl, Hg. Qed.
Lemma echoes_bind {A B} id (m : M st A) (f : A -> M st B) : echoes id m -> (forall a, echoes id (f a)) -> echoes id (m ≫= f).
Proof.
  intros Hm Hf c Hg. apply runs_tbind. eapply runs_mono; [by apply Hm|]. intros a c1 H1. pose proof (tame_good _ _ Hg (proj1 H1)) as Hg1. eapply runs_mono; [by apply Hf|]. intros b c2 H2. by apply (echoed_trans id c c1 c2).
Qed.
Lemma echoes_quiet id buf : 0 <= id < RIX_TTY_COUNT -> echoes id (echo_quiet font id buf).
Proof. intros Hid c Hg. by apply runs_echo. Qed.
Lemma echoes_tty id : echoes id (tty (W := W) id).
Proof. intros c Hg. apply runs_consoles, echoed_refl, Hg. Qed.
Lemma echoes_left id n : 0 <= id < RIX_TTY_COUNT -> echoes id (tty_echo_left font id n).
Proof. intros Hid. unfold tty_echo_left. destruct (_ =? 0); [apply echoes_ret|by apply echoes_quiet]. Qed.
Lemma echoes_insert id from : 0 <= id < RIX_TTY_COUNT -> echoes id (tty_edit_echo_insert font id from).
Proof.
  intros Hid. apply echoes_bind; [apply echoes_tty|]. intros t. apply echoes_bind; [destruct (_ <? _); [by apply echoes_quiet|apply echoes_ret]|]. intros _. by apply echoes_left.
Qed.
Lemma echoes_erase id from : 0 <= id < RIX_TTY_COUNT -> echoes id (tty_edit_echo_erase font id from).
Proof.
  intros Hid. apply echoes_bind; [apply echoes_tty|]. intros t. apply echoes_bind; [by apply echoes_quiet|]. intros _. apply echoes_bind; [destruct (_ <? _); [by apply echoes_quiet|apply echoes_ret]|]. intros _.
  apply echoes_bind; [by apply echoes_quiet|]. intros _. by apply echoes_left.
Qed.
(** ** A key without its echo *)

Definition press_arrow (ch : Z) (t : rix_tty_t) : rix_tty_t :=
  if (ch =? RIX_TTY_KEY_UP) || (ch =? RIX_TTY_KEY_DOWN) then if history_count t =? 0 then t else edit_recall ch t
  else if (ch =? RIX_TTY_KEY_LEFT) && truthy (edit_cursor t) then set_edit_cursor (edit_cursor t - 1) t
  else if (ch =? RIX_TTY_KEY_RIGHT) && (edit_cursor t <? edit_length t) then set_edit_cursor (edit_cursor t + 1) t
  else t.
Definition press (ch : Z) (t : rix_tty_t) : Z * rix_tty_t :=
  if (RIX_TTY_KEY_UP <=? ch) && (ch <=? RIX_TTY_KEY_RIGHT) then
    if truthy (canonical t) then (0, press_arrow ch t) else if count t =? RIX_TTY_INPUT then (-2, t) else (0, put_input ch t)
  else if truthy (canonical t) && ((ch =? 8) || (ch =? 127)) then (0, if truthy (edit_cursor t) then edit_erase t else t)
  else if truthy (canonical t) && ((ch =? 10) || (ch =? 13)) then if RIX_TTY_INPUT <? count t + edit_length t + 1 then (-2, t) else (0, edit_commit t)
  else if truthy (canonical t) then (0, if (ch <? 0x20) || (ch =? 0x7f) || (RIX_TTY_LINE_MAX <=? edit_length t + 1) then t else edit_insert ch t)
  else if count t =? RIX_TTY_INPUT then (-2, t)
  else (0, let t := put_input ch t in set_line_chars (if (ch =? 10) || (ch =? 13) then 0 else line_chars t + 1) t).

Lemma arrow_change ch t : line_change (k := RIX_TTY_INPUT) (press_arrow ch) t.
Proof.
  intros Hw. unfold press_arrow. pose proof (wf_edit_cursor t (proj2 Hw)). destruct (_ || _); [destruct (_ =? 0); [done|by apply recall_change]|]. unfold truthy.
  destruct (_ && _) eqn:E1; [bool_to_prop; apply cursor_change; [lia|done]|]. destruct (_ && (_ <? _)) eqn:E2; [bool_to_prop; apply cursor_change; [lia|done]|done].
Qed.
Lemma press_wf ch t : tty_wf t -> tty_wf (press ch t).2.
Proof.
  intros Hw. pose proof (wf_count t (proj2 Hw)). pose proof (wf_edit_cursor t (proj2 Hw)). unfold press. destruct (_ && (ch <=? _)); [destruct (truthy _); [by apply arrow_change|]; destruct (_ =? RIX_TTY_INPUT) eqn:E; [done|]; bool_to_prop; apply put_change; [lia|done|done]|].
  destruct (_ && (_ || _)); [unfold truthy; destruct (edit_cursor t =? 0) eqn:E; [done|]; bool_to_prop; apply erase_change; [lia|done]|].
  destruct (_ && (_ || _)); [destruct (_ <? _) eqn:E; [done|]; bool_to_prop; apply commit_change; [lia|done|done]|].
  destruct (truthy (canonical t)); [destruct (_ || _) eqn:E; [done|]; bool_to_prop; apply insert_change; [lia|done]|]. destruct (_ =? RIX_TTY_INPUT) eqn:E; [done|]. bool_to_prop.
  destruct (put_change (k := RIX_TTY_INPUT) ch t ltac:(lia) ltac:(done) Hw) as [Hs Hl]. cbn [snd]. pose proof (wf_line_chars t (proj2 Hw)). split; [destruct Hs; by split|]. destruct Hl. split; cbn; try done. case_if; lia.
Qed.

Lemma on_console_id id c : 0 <= id < RIX_TTY_COUNT -> len (ttys c) = RIX_TTY_COUNT -> on_console id (fun _ => tty_at id c) c = c.
Proof.
  intros Hid Hn. unfold on_console, tty_at, aget, aset. destruct (lookup_lt_is_Some_2 (ttys c) (Z.to_nat id)) as [t E]; [lia|]. rewrite E. cbn [default]. rewrite list_insert_id by done. by destruct c.
Qed.
(** A change of console [id], and echo. *)
Definition pressed (id : Z) (c c' : console) (t : rix_tty_t) : Prop := echoed id (on_console id (fun _ => t) c) c'.

Lemma runs_on_tty id f c (Q : unit -> console -> Prop) : Q tt (on_console id (fun _ => f (tty_at id c)) c) -> runs (on_tty id f) c Q.
Proof. intros H. by apply runs_tchange. Qed.

Lemma good_press id c t : good c -> 0 <= id < RIX_TTY_COUNT -> tty_wf t -> good (on_console id (fun _ => t) c).
Proof. intros [Hc Ho] Hid Ht. split; [by apply wf_set_ttys|done]. Qed.

(** After a change of the console the code echoes if the console is set to. *)
Lemma runs_pressed {A} id c t (m : M st A) (a : A) : good c -> 0 <= id < RIX_TTY_COUNT -> tty_wf t -> echoes id m -> runs m (on_console id (fun _ => t) c) (fun _ c' => pressed id c c' t).
Proof. intros Hg Hid Ht Hm. apply Hm. by apply good_press. Qed.

Lemma echoes_if {A} id (b : bool) (m n : M st A) : echoes id m -> echoes id n -> echoes id (if b then m else n).
Proof. by destruct b. Qed.

Lemma runs_arrow id ch c : good c -> 0 <= id < RIX_TTY_COUNT -> runs (edit_key font id ch) c (fun _ c' => pressed id c c' (press_arrow ch (tty_at id c))).
Proof.
  intros Hg Hid. pose proof (tty_at_wf id c (proj1 Hg) Hid) as Hw. pose proof (proj1 Hg) as (Hn & _). unfold edit_key. apply runs_tbind, runs_consoles. unfold press_arrow. set (t := tty_at id c) in *.
  assert (Hsame : runs (mret tt) c (fun _ c' => pressed id c c' t)) by (apply runs_tret; unfold pressed, t; rewrite on_console_id by done; apply echoed_refl, Hg).
  pose proof (wf_edit_cursor t (proj2 Hw)). destruct (_ || _).
  - unfold tty_edit_load. apply runs_tbind, runs_consoles. fold t. destruct (history_count t =? 0); [done|]. apply runs_tbind, runs_on_tty. fold t. apply (runs_pressed id c _ _ tt); [done|done|by apply recall_change|].
    apply echoes_bind; [apply echoes_tty|]. intros t'. destruct (_ =? 0); [apply echoes_ret|]. apply echoes_bind; [by apply echoes_left|]. intros _. apply echoes_bind; [by apply echoes_quiet|]. intros _.
    apply echoes_if; [apply echoes_ret|by apply echoes_quiet].
  - unfold truthy. destruct (_ && negb _) eqn:E1; bool_to_prop.
    + apply runs_tbind, runs_on_tty. fold t. apply (runs_pressed id c _ _ tt); [done|done|apply cursor_change; [lia|done]|]. apply echoes_if; [by apply echoes_quiet|apply echoes_ret].
    + clear E1. destruct (_ && (_ <? _)) eqn:E2; bool_to_prop; [|done]. apply runs_tbind, runs_on_tty. fold t. apply (runs_pressed id c _ _ tt); [done|done|apply cursor_change; [lia|done]|].
      apply echoes_if; [by apply echoes_quiet|apply echoes_ret].
Qed.
(** Changing the console and then echoing, with a fixed code. *)
Lemma runs_then_echo id c f (m : M st unit) (r : Z) : good c -> 0 <= id < RIX_TTY_COUNT -> tty_wf (f (tty_at id c)) -> echoes id m ->
  runs (_ ← on_tty id f; _ ← m; mret r) c (fun rc c' => rc = r /\ pressed id c c' (f (tty_at id c))).
Proof.
  intros Hg Hid Ht Hm. apply runs_tbind, runs_on_tty, runs_tbind. eapply runs_mono; [by apply (runs_pressed id c _ m tt)|]. intros [] c' H. by apply runs_tret.
Qed.
Lemma runs_then_newline id c f (b : bool) ch : good c -> 0 <= id < RIX_TTY_COUNT -> tty_wf (f (tty_at id c)) ->
  runs (_ ← on_tty id f; if b then echo_newline font id ch else mret 0) c (fun rc c' => rc = 0 /\ pressed id c c' (f (tty_at id c))).
Proof.
  intros Hg Hid Ht. apply runs_tbind, runs_on_tty. set (c1 := on_console id _ c). pose proof (good_press id c _ Hg Hid Ht) as Hg1. fold c1 in Hg1.
  destruct b; [|apply runs_tret; split; [done|]; apply echoed_refl, Hg1]. unfold echo_newline. destruct (ch =? 13); apply runs_echo_bytes; try done; intros c' He _; by split.
Qed.

Definition signals (ch : Z) (t : rix_tty_t) : bool := truthy (canonical t) && truthy (isig t) && is_control ch.
Lemma runs_press id ch c : good c -> 0 <= id < RIX_TTY_COUNT -> signals ch (tty_at id c) = false ->
  runs (tty_input_nolock font id ch) c (fun rc c' => rc = (press ch (tty_at id c)).1 /\ pressed id c c' (press ch (tty_at id c)).2).
Proof.
  intros Hg Hid Hsig. pose proof (tty_at_wf id c (proj1 Hg) Hid) as Hw. pose proof (proj1 Hg) as (Hn & _). pose proof (press_wf ch _ Hw) as Hp. unfold tty_input_nolock, tty_valid. rewrite (proj2 (Z.ltb_lt _ _)) by lia. cbn [negb].
  apply runs_tbind, runs_consoles. unfold signals in Hsig. rewrite Hsig. unfold press in *. set (t := tty_at id c) in *.
  assert (Hsame : forall r : Z, runs (mret r) c (fun rc c' => rc = r /\ pressed id c c' t)) by (intros r; apply runs_tret; split; [done|]; unfold pressed, t; rewrite on_console_id by done; apply echoed_refl, Hg).
  destruct (_ && (ch <=? RIX_TTY_KEY_RIGHT)).
  { destruct (truthy (canonical t)); [apply runs_tbind; eapply runs_mono; [by apply runs_arrow|]; intros [] c' H; by apply runs_tret|]. destruct (count t =? RIX_TTY_INPUT); [apply Hsame|].
    apply runs_tbind, runs_on_tty, runs_tret. split; [done|]. apply echoed_refl. apply (good_press id c (put_input ch t)); done. }
  destruct (_ && ((ch =? 8) || _)); [destruct (truthy (edit_cursor t)); [|apply Hsame]; apply (runs_then_echo id c edit_erase); try done; apply echoes_if; [by apply echoes_erase|apply echoes_ret]|].
  destruct (_ && ((ch =? 10) || _)); [destruct (_ <? _); [apply Hsame|]; by apply (runs_then_newline id c edit_commit)|].
  destruct (truthy (canonical t)); [destruct (_ || _); [apply Hsame|]; apply (runs_then_echo id c (edit_insert ch)); try done; apply echoes_if; [by apply echoes_insert|apply echoes_ret]|].
  destruct (count t =? RIX_TTY_INPUT); [apply Hsame|]. by apply (runs_then_newline id c (fun t => set_line_chars (if (ch =? 10) || (ch =? 13) then 0 else line_chars (put_input ch t) + 1) (put_input ch t))).
Qed.

Lemma pressed_tame id c c' t : good c -> 0 <= id < RIX_TTY_COUNT -> tty_wf t -> pressed id c c' t -> tame c c'.
Proof. intros Hg Hid Ht (H & _). apply (tamed_trans c (on_console id (fun _ => t) c) c'); [apply tame_tty; [apply Hg|exact Hid|by intros ?]|done]. Qed.

(** ** Every call stays within bounds *)

Definition calm {A} (m : M st A) : Prop := forall c, good c -> runs m c (fun _ c' => tame c c').
Lemma calm_ret {A} (a : A) : calm (mret a).
Proof. intros c Hg. apply runs_tret, tamed_refl, Hg. Qed.
Lemma calm_bind {A B} (m : M st A) (f : A -> M st B) : calm m -> (forall a, calm (f a)) -> calm (m ≫= f).
Proof.
  intros Hm Hf c Hg. apply runs_tbind. eapply runs_mono; [by apply Hm|]. intros a c1 H1. pose proof (tame_good _ _ Hg H1) as Hg1. eapply runs_mono; [by apply Hf|]. intros b c2 H2. by apply (tamed_trans c c1 c2).
Qed.
Lemma calm_consoles {A} (f : console -> A) : calm (consoles f).
Proof. intros c Hg. apply runs_consoles, tamed_refl, Hg. Qed.
Lemma calm_host {A} (m : M W A) : (forall w, host_ok w -> exists r w', m w = Some (r, w') /\ host_ok w') -> calm (host m).
Proof. intros H c Hg. apply runs_thost; [done|]. intros r. apply tamed_refl, Hg. Qed.
Lemma calm_change f : (forall c, good c -> tame c (f c)) -> calm (change f).
Proof. intros H c Hg. by apply runs_tchange, H. Qed.
Lemma calm_on_tty id f : 0 <= id < RIX_TTY_COUNT -> (forall t, line_change (k := RIX_TTY_INPUT) f t) -> calm (on_tty id f).
Proof. intros Hid Hf. apply calm_change. intros c Hg. apply (tame_tty id f c); [apply Hg|done|apply Hf]. Qed.
Lemma calm_echoes {A} id (m : M st A) : echoes id m -> calm m.
Proof. intros H c Hg. eapply runs_mono; [by apply H|]. by intros a c' [Ht _]. Qed.
Lemma calm_if {A} (b : bool) (m n : M st A) : calm m -> calm n -> calm (if b then m else n).
Proof. by destruct b. Qed.

Lemma calm_signal get put ch : (forall c, good c -> tame c (put tty_discard_current_line c)) -> calm (tty_control_signal get put ch).
Proof.
  intros H. apply calm_bind; [by apply calm_change|]. intros _. apply calm_bind; [apply calm_consoles|]. intros h. apply calm_bind; [apply calm_consoles|]. intros t. apply calm_if; [apply calm_ret|]. apply calm_host. intros w. apply hook_returns.
Qed.
Lemma calm_input_nolock id ch : 0 <= id -> calm (tty_input_nolock font id ch).
Proof.
  intros Hid c Hg. unfold tty_input_nolock at 1. destruct (negb (tty_valid id)) eqn:E; [by apply calm_ret|]. apply negb_false_iff in E. unfold tty_valid in E. bool_to_prop.
  destruct (signals ch (tty_at id c)) eqn:Es.
  - apply runs_tbind, runs_consoles. unfold signals in Es. rewrite Es. apply calm_signal; [|done]. intros c1 Hg1. apply tame_tty; [apply Hg1|lia|apply discard_change].
  - pose proof (runs_press id ch c Hg ltac:(lia) Es) as H. unfold tty_input_nolock, tty_valid in H. rewrite (proj2 (Z.ltb_lt id RIX_TTY_COUNT) E) in H. cbn [negb] in H. eapply runs_mono; [exact H|]. intros rc c' [_ Hp].
    clear H. assert (Hr : 0 <= id < RIX_TTY_COUNT) by lia. eapply pressed_tame; [done|exact Hr| |exact Hp]. apply press_wf, tty_at_wf; [apply Hg|done].
Qed.
Lemma runs_with_input {A} (m : M st A) c : good c -> tty_input_lock c = spin_free -> calm m -> runs (with_input m) c (fun _ c' => tame c c').
Proof.
  intros Hg Hi Hm. apply runs_input; [done|]. eapply runs_mono; [apply Hm; exact Hg|]. intros a c' (Hw & Hf & Ho & _). split; [exact Hw|]. split; [exact Hf|]. split; [exact Ho|]. by rewrite Hi.
Qed.
Lemma calm_with_tty {R} (bad : R) id (m : rix_tty_t -> M st R) : 0 <= id -> (0 <= id < RIX_TTY_COUNT -> forall t, calm (m t)) -> calm (with_tty bad id m).
Proof.
  intros Hid Hm. unfold with_tty, tty_valid. destruct (id <? RIX_TTY_COUNT) eqn:E; [|apply calm_ret]. bool_to_prop. apply calm_bind; [apply calm_consoles|]. intros t. apply Hm. lia.
Qed.
Lemma calm_setting {R} id f (r : R) : 0 <= id < RIX_TTY_COUNT -> (forall t, line_change (k := RIX_TTY_INPUT) f t) -> calm (_ ← on_tty id f; mret r).
Proof. intros Hid Hf. apply calm_bind; [by apply calm_on_tty|]. intros _. apply calm_ret. Qed.

Lemma calm_read id n : 0 <= id -> calm (tty_read_nolock (W := W) id n).
Proof.
  intros Hid c Hg. unfold tty_read_nolock, tty_valid. destruct (id <? RIX_TTY_COUNT) eqn:E; cbn [negb]; [|by apply calm_ret]. bool_to_prop. apply runs_tbind, runs_consoles. destruct (_ && _); [by apply calm_ret|].
  destruct (tty_at_wf id c (proj1 Hg) ltac:(lia)) as [Hs Hl]. destruct (read_loop_wf (Z.to_nat n) (tty_at id c) [] Hl) as [H1 H2]. destruct (read_loop _ _ _) as [t' got]. cbn [fst] in *.
  apply runs_tbind, runs_on_tty, runs_tret. apply (tame_tty id (fun _ => t')); [apply Hg|lia|]. intros _. split; [by apply (same_screen_wf _ _ H2)|done].
Qed.
Lemma calm_read_output id n : 0 <= id -> calm (tty_read_output (W := W) id n).
Proof.
  intros Hid c Hg. unfold tty_read_output, tty_valid. destruct (id <? RIX_TTY_COUNT) eqn:E; cbn [negb]; [|by apply calm_ret]. bool_to_prop. apply runs_tbind, runs_consoles.
  pose proof (drain_output_wf (Z.to_nat n) (tty_at id c) [] (tty_at_wf id c (proj1 Hg) ltac:(lia))) as H1. destruct (drain_output _ _ _) as [t' got]. cbn [fst] in *.
  apply runs_tbind, runs_on_tty, runs_tret. apply (tame_tty id (fun _ => t')); [apply Hg|lia|]. by intros _.
Qed.
Lemma calm_output id buf : 0 <= id -> calm (tty_output font id buf).
Proof.
  intros Hid c Hg. destruct (tty_valid id) eqn:E; [unfold tty_valid in E; bool_to_prop; apply runs_tty_output; [done|lia|]; by intros c' [Ht _]|].
  apply runs_output; [apply Hg|]. unfold tty_output_nolock. rewrite E. cbn [negb]. apply runs_tret. destruct Hg as [Hc Ho]. pose proof (tamed_refl c Hc) as (H1 & H2 & H3 & H4). split; [exact H1|]. split; [done|]. split; [by rewrite Ho|done].
Qed.

Lemma wf_recover t : tty_wf t -> tty_wf (set_bold 0 (set_bg_color 0 (set_fg_color 7 (set_cursor_column 0 (set_cursor_row 0 (set_vt_params (replicate 8 0) (set_vt_value_index 0 (set_vt_state VT_NORMAL
      (set_canonical_ready 0 (set_line_chars 0 (set_output_count 0 (set_output_tail 0 (set_output_head 0 (set_count 0 (set_tail 0 (set_head 0 t)))))))))))))))).
Proof. intros [[] []]. split; split; cbn; try done; repeat constructor; done. Qed.
Lemma calm_recover id : 0 <= id -> calm (tty_recover font id).
Proof.
  intros Hid. apply calm_with_tty; [done|]. intros Hr t. apply calm_bind; [|intros _; apply calm_bind; [by apply calm_output|intros [rc n]; apply calm_ret]].
  apply calm_change. intros c [Hc Ho]. pose proof (tty_at_wf id c Hc Hr) as Hw. pose proof (wf_recover _ Hw) as [Hs Hl]. set (f := fun t => set_bold 0 _) in *. change (set_bold 0 _) with (f (tty_at id c)) in Hs, Hl.
  assert (S1 : step (framebuffer c) (f (tty_at id c), ink c) (vt_clear_screen font (psf_ascii c) (framebuffer c) (edit f (tty_at id c, ink c)))) by (apply (step_clear font _ _ ltac:(apply Hc) (f (tty_at id c), ink c)); exact Hs).
  destruct S1 as (H1 & H2 & new & H3 & H4). split; [|done]. split.
  - unfold on_vt. apply wf_set_ink, wf_set_ttys; [done|]. split; [exact H1|]. by apply (same_line_wf _ _ H2).
  - exists new. split; [exact H3|exact H4].
Qed.

(** ** Pseudo terminals *)

Lemma queue_put_wf ch p : queue_wf p -> queue_wf (pty_queue_put ch p) /\ slave (pty_queue_put ch p) = slave p /\ opened (pty_queue_put ch p) = opened p.
Proof.
  intros (H2 & H3 & H4 & H5). unfold pty_queue_put. destruct (_ =? _) eqn:E; [done|]. bool_to_prop. split; [|done]. unfold queue_wf. cbn. rewrite length_aset. split; [done|]. split; [done|]. split; [apply mod_output|lia].
Qed.
Lemma pty_put_wf ch p : pty_wf p -> pty_wf (pty_queue_put ch p).
Proof. intros (H1 & H2 & H3). destruct (queue_put_wf ch p H3) as (Hq & Hs & Ho). split; [by rewrite Hs|]. split; [by rewrite Hs, Ho|done]. Qed.
Lemma queue_get_wf n : forall p got, pty_wf p -> pty_wf (pty_queue_get n p got).1.
Proof.
  induction n as [|n IH]; intros p got H; cbn [pty_queue_get]; [done|]. destruct (_ =? 0) eqn:E; [done|]. bool_to_prop. apply IH. destruct H as (H1 & H2 & H3 & H4 & H5 & H6). split; [done|]. split; [done|]. unfold queue_wf. cbn. split; [done|]. split; [apply mod_output|]. split; [done|lia].
Qed.
Lemma slave_write_wf buf : forall p n, pty_wf p -> pty_wf (slave_write_loop buf p n).1.
Proof. induction buf as [|ch buf IH]; intros p n H; cbn [slave_write_loop]; [done|]. destruct (_ <? _); [|done]. by apply IH, pty_put_wf. Qed.
Lemma slave_put ch t : slave_wf t -> slave_wf (put_input ch t).
Proof.
  intros [Hs Hl]. split; [destruct Hs; by split|]. destruct Hl. split; cbn; rewrite ?length_aset; try done; [apply mod_input|]. pose proof (u64_range (count t + 1)). unfold is_u64, UINT64_MAX in *. lia.
Qed.
Lemma accept_wf ch p : slave_wf (slave p) -> queue_wf p -> pty_wf (pty_accept ch p).
Proof.
  intros H1 H2. pose proof (slave_put ch (slave p) H1) as [Hs Hl]. pose proof (wf_line_chars _ (proj2 H1)). unfold pty_accept. cbv zeta. set (t := if ch =? 10 then _ else _). assert (Ht : slave_wf t).
  { unfold t. destruct (ch =? 10); [destruct (truthy _)|]; (split; [destruct Hs; by split|]); destruct Hl; split; cbn; try done; lia. }
  clearbody t. destruct (truthy (echo t)); [apply pty_put_wf|]; by apply pty_wf_intro.
Qed.
Lemma erase_wf p : slave_wf (slave p) -> queue_wf p -> pty_wf (pty_erase p).
Proof.
  intros H1 H2. unfold pty_erase. cbv zeta. destruct (_ =? 0) eqn:E; [by apply pty_wf_intro|]. bool_to_prop. do 3 apply pty_put_wf. apply pty_wf_intro; [|done]. cbn. destruct H1 as [Hs Hl]. pose proof (wf_line_chars _ Hl).
  split; [destruct Hs; by split|]. pose proof (u64_range (count (slave p) - 1)). unfold is_u64, UINT64_MAX in *. destruct Hl. split; cbn; try done; [apply mod_input|lia|lia].
Qed.

Lemma reset_wf t k : sized t -> 0 <= k -> wf_at k (tty_reset t) /\ wf_at k (set_output_count (output_count t) (set_output_tail (output_tail t) (set_output_head (output_head t) (tty_reset t)))).
Proof.
  intros [] Hk. assert (H2 : Forall is_u8 (aset 1 0 (aset 0 0 (vt_params t)))) by (apply Forall_aset; [by apply Forall_aset|done]).
  split; split; split; cbn; rewrite ?length_aset; try done.
Qed.

(** An open pseudo terminal is changed. *)
Lemma calm_with_pty {R} (bad : R) id (m : M st R) : 0 <= id -> (forall c, good c -> 0 <= id < RIX_PTY_COUNT -> opened (pty_at id c) <> 0 -> runs m c (fun _ c' => tame c c')) -> calm (with_pty bad id m).
Proof.
  intros Hid Hm c Hg. apply runs_tbind, runs_consoles. destruct (pty_valid id c) eqn:E; [|by apply calm_ret]. unfold pty_valid, truthy in E. bool_to_prop. apply Hm; [done|lia|done].
Qed.
Lemma tame_on_pty id f c : good c -> 0 <= id < RIX_PTY_COUNT -> (pty_wf (pty_at id c) -> pty_wf (f (pty_at id c))) -> tame c (on_pty id f c).
Proof. intros Hg Hid Hf. apply tame_pty; [apply Hg|]. apply Hf, pty_at_wf; [apply Hg|done]. Qed.
Lemma tame_on_slave id f c : good c -> 0 <= id < RIX_PTY_COUNT -> opened (pty_at id c) <> 0 -> (slave_wf (slave (pty_at id c)) -> slave_wf (f (slave (pty_at id c)))) -> tame c (on_slave id f c).
Proof.
  intros Hg Hid Ho Hf. destruct (pty_at_wf id c (proj1 Hg) Hid) as (H1 & H2 & H3). apply tame_pty; [apply Hg|]. apply pty_wf_intro; [|done]. by apply Hf, H2.
Qed.
Lemma pty_still_open id f c : 0 <= id < RIX_PTY_COUNT -> len (ptys c) = RIX_PTY_COUNT -> pty_at id (on_pty id f c) = f (pty_at id c).
Proof. intros Hid Hn. unfold pty_at, on_pty. cbn. apply aget_aset_eq. lia. Qed.

Lemma calm_pty_close id : 0 <= id -> calm (tty_pty_close (W := W) id).
Proof. intros Hid. apply calm_with_pty; [done|]. intros c Hg Hr Ho. apply runs_tbind, runs_tchange, runs_tret. apply tame_on_pty; [done|done|]. intros (H1 & H2 & H3). done. Qed.
Lemma calm_pty_get_termios id : 0 <= id -> calm (tty_pty_get_termios (W := W) id).
Proof. intros Hid. apply calm_with_pty; [done|]. intros c Hg Hr Ho. apply runs_tbind, runs_consoles. by apply calm_ret. Qed.
Lemma calm_pty_set_termios id l : 0 <= id -> calm (tty_pty_set_termios (W := W) id l).
Proof.
  intros Hid. apply calm_with_pty; [done|]. intros c Hg Hr Ho. destruct (lflag_bad l); [by apply calm_ret|]. apply runs_tbind, runs_tchange, runs_tret. apply tame_on_slave; [done..|]. apply lflag_change.
Qed.
Lemma calm_pty_master_read id n : 0 <= id -> calm (tty_pty_master_read (W := W) id n).
Proof.
  intros Hid. apply calm_with_pty; [done|]. intros c Hg Hr Ho. apply runs_tbind, runs_consoles. pose proof (queue_get_wf (Z.to_nat n) (pty_at id c) [] (pty_at_wf id c (proj1 Hg) Hr)) as H.
  destruct (pty_queue_get _ _ _) as [p got]. apply runs_tbind, runs_tchange, runs_tret. by apply tame_on_pty.
Qed.
Lemma calm_pty_slave_write id buf : 0 <= id -> calm (tty_pty_slave_write (W := W) id buf).
Proof.
  intros Hid. apply calm_with_pty; [done|]. intros c Hg Hr Ho. apply runs_tbind, runs_consoles. pose proof (slave_write_wf buf (pty_at id c) 0 (pty_at_wf id c (proj1 Hg) Hr)) as H.
  destruct (slave_write_loop _ _ _) as [p n]. apply runs_tbind, runs_tchange, runs_tret. by apply tame_on_pty.
Qed.
Lemma calm_pty_slave_read id n : 0 <= id -> calm (tty_pty_slave_read (W := W) id n).
Proof.
  intros Hid. apply calm_with_pty; [done|]. intros c Hg Hr Ho. apply runs_tbind, runs_consoles. cbv zeta. destruct (_ && _); [by apply calm_ret|]. destruct (pty_at_wf id c (proj1 Hg) Hr) as (_ & H2 & _). destruct (H2 Ho) as [Hs Hl].
  destruct (slave_loop_wf (Z.to_nat n) (slave (pty_at id c)) [] Hl) as [L1 L2]. destruct (slave_read_loop _ _ _) as [t got]. apply runs_tbind, runs_tchange, runs_tret. apply tame_on_slave; [done..|]. intros _. split; [by apply (same_screen_wf _ _ L2)|done].
Qed.
Lemma calm_master_write id buf : forall n d c, good c -> 0 <= id < RIX_PTY_COUNT -> opened (pty_at id c) <> 0 -> runs (master_write_loop (W := W) id buf n d) c (fun _ c' => tame c c').
Proof.
  induction buf as [|ch buf IH]; intros n d c Hg Hr Ho; cbn [master_write_loop]; [by apply calm_ret|]. apply runs_tbind, runs_consoles. cbv zeta. pose proof (pty_at_wf id c (proj1 Hg) Hr) as (_ & H2 & H3). specialize (H2 Ho).
  assert (Hnext : forall f d', pty_wf (f (pty_at id c)) -> opened (f (pty_at id c)) = opened (pty_at id c) -> runs (_ ← change (on_pty id f); master_write_loop id buf n d') c (fun _ c' => tame c c')).
  { intros f d' Hf Hopen. apply runs_tbind, runs_tchange. assert (Ht : tame c (on_pty id f c)) by by apply tame_on_pty. eapply runs_mono; [apply IH; [by apply (tame_good c)|done|]|].
    - rewrite pty_still_open; [by rewrite Hopen|done|apply Hg].
    - intros a c' H. by apply (tamed_trans c (on_pty id f c) c'). }
  destruct (_ && _ && _).
  - unfold tty_control_signal. apply runs_tbind, runs_tbind, runs_tchange. set (c1 := on_slave id _ c). assert (Ht : tame c c1) by (apply tame_on_slave; [done..|]; apply discard_change).
    assert (Ho1 : opened (pty_at id c1) <> 0) by (unfold c1, on_slave, pty_at; cbn; rewrite aget_aset_eq by (destruct Hg as [(_ & _ & Hn & _) _]; lia); done). pose proof (tame_good _ _ Hg Ht) as Hg1.
    assert (Hrest : forall rc : Z, runs (if negb (rc =? 0) then mret (rc, 0) else master_write_loop id buf n (d + 1)) c1 (fun _ c' => tame c c')).
    { intros rc. destruct (negb _); [by apply runs_tret|]. eapply runs_mono; [by apply IH|]. intros a c' H. by apply (tamed_trans c c1 c'). }
    apply runs_tbind, runs_consoles, runs_tbind, runs_consoles. destruct (_ || _); [apply runs_tret; apply (Hrest 0)|]. apply runs_thost; [intros w; apply hook_returns|]. intros r. apply Hrest.
  - destruct (_ && _); [apply Hnext; [by apply erase_wf|]|]; [|destruct (_ =? RIX_TTY_INPUT); [by apply calm_ret|]; apply Hnext; [by apply accept_wf|]].
    + unfold pty_erase. cbv zeta. destruct (_ =? 0); [done|]. unfold pty_queue_put. by repeat (match goal with |- context [if ?b then _ else _] => destruct b end).
    + unfold pty_accept. cbv zeta. unfold pty_queue_put. by repeat (match goal with |- context [if ?b then _ else _] => destruct b end).
Qed.

Lemma within_open i c : good c -> 0 <= i < RIX_PTY_COUNT -> forall t, slave_wf t ->
  let v := vt_clear_screen font (psf_ascii c) (framebuffer c) (t, ink c) in
  tame c (set_ink v.2 (on_pty i (fun p => {| opened := 1; slave := v.1; master_output := master_output p; master_output_head := 0; master_output_tail := 0; master_output_count := 0 |}) c)).
Proof.
  intros [Hc Ho] Hi t [Hs Hl] v. destruct (step_clear font (psf_ascii c) (framebuffer c) ltac:(apply Hc) (t, ink c) Hs) as (H1 & H2 & new & H3 & H4). fold v in H1, H2, H3. split; [|done]. split; [|by exists new].
  apply wf_set_ink, wf_set_ptys; [done|]. destruct (pty_at_wf i c Hc Hi) as (_ & _ & Hq & _). apply pty_wf_intro; [split; [done|by apply (same_line_wf _ _ H2)]|]. done.
Qed.
Lemma calm_pty_open_from n : forall i, 0 <= i -> i + Z.of_nat n <= RIX_PTY_COUNT -> calm (pty_open_from font n i).
Proof.
  induction n as [|n IH]; intros i Hi Hn; cbn [pty_open_from]; [apply calm_ret|]. apply calm_bind; [apply calm_consoles|]. intros p. destruct (truthy _); [apply IH; lia|]. apply calm_bind; [|intros _; apply calm_ret].
  apply calm_change. intros c Hg. apply within_open; [done|lia|]. destruct (pty_at_wf i c (proj1 Hg) ltac:(lia)) as (H1 & _). by apply (reset_wf (slave (pty_at i c)) UINT64_MAX H1).
Qed.
(** ** The frame buffer *)

Lemma use_framebuffer_within base size width height pitch format c : good c -> base <> 0 -> 0 <= width -> 0 < height -> 0 <= pitch -> (height - 1) * pitch + width * 4 <= size ->
  within c (use_framebuffer font base size width height pitch format c) /\ tty_output_lock (use_framebuffer font base size width height pitch format c) = tty_output_lock c /\
  tty_input_lock (use_framebuffer font base size width height pitch format c) = tty_input_lock c.
Proof.
  intros [Hc Ho] Hb Hw Hh Hp Hs. unfold use_framebuffer. cbv zeta. set (cols := Z.min _ RIX_TTY_MAX_COLUMNS). set (rws := Z.min _ RIX_TTY_MAX_ROWS). set (fb := {| pixels := base; fb_size := size |}). set (c1 := set_ink _ _).
  assert (Hfb : fb_wf fb) by (intros _; cbn; lia). assert (H1 : within c c1).
  { split; [destruct Hc as (A & B & C & E & F); done|]. exists (framebuffer_clear fb). split; [done|by apply clear_inside]. }
  assert (Hcols : cols <= RIX_TTY_MAX_COLUMNS) by (unfold cols; lia). assert (Hrws : rws <= RIX_TTY_MAX_ROWS) by (unfold rws; lia). clearbody cols rws.
  destruct (_ && _) eqn:E; bool_to_prop; [|done]. split; [|done]. destruct H1 as [Hc1 H1]. split; [|exact H1]. apply wf_set_ttys; [done|]. destruct (tty_at_wf 0 c1 Hc1 ltac:(done)) as [Ht Hl]. split; [|destruct Hl; by split].
  destruct Ht. split; cbn; try done; lia.
Qed.
(** A call that keeps the locks. *)
Definition bounded {A} (m : M st A) : Prop := forall c, good c -> tty_input_lock c = spin_free -> runs m c (fun _ c' => within c c' /\ tty_output_lock c' = spin_free /\ tty_input_lock c' = spin_free).
Lemma calm_bounded {A} (m : M st A) : calm m -> bounded m.
Proof. intros Hm c Hg Hi. eapply runs_mono; [by apply Hm|]. intros a c' (H1 & H2 & H3 & H4). destruct Hg as [_ Ho]. split; [done|]. split; congruence. Qed.
Lemma input_bounded {A} (m : M st A) : calm m -> bounded (with_input m).
Proof. intros Hm c Hg Hi. eapply runs_mono; [by apply runs_with_input|]. intros a c' (H1 & H2 & H3 & H4). destruct Hg as [_ Ho]. split; [done|]. split; congruence. Qed.

Lemma no_framebuffer_within c f : good c -> within c (set_framebuffer (no_framebuffer f) c).
Proof. intros [(A & B & C & E & F) Ho]. split; [by repeat split|]. exists []. by rewrite app_nil_r. Qed.
Lemma framebuffer_bounded base size width height pitch format : 0 <= base -> is_u32 size -> is_u32 width -> is_u32 height -> is_u32 pitch -> bounded (tty_set_framebuffer font base size width height pitch format).
Proof.
  intros Hb Hs Hw Hh Hp c Hg Hi. unfold is_u32 in *. unfold tty_set_framebuffer. cbv zeta. pose proof (proj2 Hg) as Ho. assert (Hnone : runs (change (fun c => set_framebuffer (no_framebuffer (fb_format (framebuffer c))) c)) c (fun _ c' => within c c' /\ tty_output_lock c' = spin_free /\ tty_input_lock c' = spin_free)).
  { apply runs_tchange. split; [by apply no_framebuffer_within|done]. }
  destruct (_ || _) eqn:E; [done|]. apply orb_false_iff in E as [E _]. apply orb_false_iff in E as [E E5]. apply orb_false_iff in E as [E E4]. apply orb_false_iff in E as [E E3]. apply orb_false_iff in E as [E1 E2]. bool_to_prop.
  rewrite (proj2 (Z.eqb_neq height 0) E3) in E5. rewrite u64_id in E5 by (unfold is_u64; nia).
  assert (Huse : forall b, b <> 0 -> runs (change (use_framebuffer font b size width height pitch format)) c (fun _ c' => within c c' /\ tty_output_lock c' = spin_free /\ tty_input_lock c' = spin_free)).
  { intros b Hb0. apply runs_tchange. destruct (use_framebuffer_within b size width height pitch format c Hg Hb0 ltac:(lia) ltac:(lia) ltac:(lia) ltac:(lia)) as (H1 & H2 & H3). split; [done|]. split; congruence. }
  destruct (shared_slot base); [by apply Huse|]. apply runs_tbind, runs_thost; [intros w; apply mmio_returns|]. intros r. destruct (r =? 0) eqn:Er; bool_to_prop; [done|by apply Huse].
Qed.

(** ** Start-up *)

Lemma runs_mfor (I : Z -> console -> Prop) n body : forall i c, I i c -> (forall j c, i <= j < i + Z.of_nat n -> I j c -> runs (body j) c (fun _ c' => I (j + 1) c')) -> runs (mfor n i body) c (fun _ c' => I (i + Z.of_nat n) c').
Proof.
  induction n as [|n IH]; intros i c Hi Hb; cbn [mfor]; [apply runs_tret; by rewrite Z.add_0_r|]. apply runs_tbind. eapply runs_mono; [apply Hb; [lia|done]|]. intros [] c' H. replace (i + Z.of_nat (S n)) with (i + 1 + Z.of_nat n) by lia.
  apply IH; [done|]. intros j c2 Hj. apply Hb. lia.
Qed.

(** The consoles before [i] are set up, the others have their arrays. *)
Definition fresh (t : rix_tty_t) : Prop := exists t0, same_line (tty_reset t0) t.
Definition starting (i : Z) (c : console) : Prop :=
  len (ttys c) = RIX_TTY_COUNT /\ (forall j, 0 <= j < RIX_TTY_COUNT -> if j <? i then tty_wf (tty_at j c) /\ fresh (tty_at j c) else sized (tty_at j c)) /\ len (ptys c) = RIX_PTY_COUNT /\ Forall pty_wf (ptys c) /\ framebuffer c = no_framebuffer 0 /\ ink c = [] /\ unlocked c.

Lemma no_pixels new : Forall (inside (no_framebuffer 0)) new -> new = [].
Proof. destruct new as [|[a x] new]; [done|]. intros H. inv H. unfold inside in *. cbn in *. lia. Qed.

Lemma runs_init c : starting 0 c -> runs (tty_init font) c (fun _ c' => (console_wf c' /\ ink c' = [] /\ unlocked c') /\ forall j, 0 <= j < RIX_TTY_COUNT -> fresh (tty_at j c')).
Proof.
  intros H0. unfold tty_init. apply runs_tbind, runs_tchange, runs_tbind. eapply runs_mono; [apply (runs_mfor starting _ _ 0); [exact H0|]|].
  - intros i c1 Hi (Hn & Ht & Hpn & Hp & Hf & Hk & Hu). apply runs_tbind, runs_tchange, runs_thost; [intros w Hw; destruct (init_returns i w Hw) as (w' & E & Hw'); by exists tt, w'|]. intros _.
    change (0 + Z.of_nat (Z.to_nat RIX_TTY_COUNT)) with RIX_TTY_COUNT in Hi. pose proof (Ht i Hi) as Hsz. rewrite (proj2 (Z.ltb_ge i i)) in Hsz by lia. destruct (reset_wf (tty_at i c1) RIX_TTY_INPUT Hsz ltac:(done)) as [[Hs Hl] _].
    destruct (step_clear font (psf_ascii c1) (framebuffer c1) ltac:(by rewrite Hf) (edit tty_reset (tty_at i c1, ink c1)) Hs) as (S1 & S2 & new & S3 & S4). rewrite Hf in S4. apply no_pixels in S4. subst new. rewrite app_nil_r in S3.
    unfold on_vt. cbv zeta. set (v := vt_clear_screen _ _ _ _) in *. split; [cbn; by rewrite length_aset|]. split; [|split; [done|split; [done|split; [done|split; [exact (eq_trans S3 Hk)|done]]]]].
    intros j Hj. change (tty_at j (set_ink _ ?x)) with (tty_at j x). destruct (decide (j = i)) as [->|Hne].
    + rewrite tty_at_same by done. rewrite (proj2 (Z.ltb_lt i (i + 1))) by lia. split; [|by exists (tty_at i c1)]. split; [done|]. by apply (same_line_wf _ _ S2).
    + rewrite tty_at_other by lia. specialize (Ht j Hj). destruct (j <? i) eqn:E1, (j <? i + 1) eqn:E2; bool_to_prop; [exact Ht|exfalso; lia|exfalso; lia|exact Ht].
  - intros [] c1 (Hn & Ht & Hpn & Hp & Hf & Hk & Hu). apply runs_tchange. change (0 + Z.of_nat (Z.to_nat RIX_TTY_COUNT)) with RIX_TTY_COUNT in Ht. split; [|intros j Hj; specialize (Ht j Hj); rewrite (proj2 (Z.ltb_lt _ _)) in Ht by lia; apply Ht]. split; [|done]. split; [done|]. split; [|split; [cbn; by rewrite length_fmap|split; [|change (fb_wf (framebuffer c1)); by rewrite Hf]]].
    + change (Forall tty_wf (ttys c1)). apply list.Forall_forall. intros t Hin. apply list_elem_of_lookup in Hin as [j Hj]. pose proof (lookup_lt_Some _ _ _ Hj). specialize (Ht (Z.of_nat j) ltac:(lia)).
      rewrite (proj2 (Z.ltb_lt _ _)) in Ht by lia. apply proj1 in Ht. unfold tty_at, aget in Ht. rewrite Nat2Z.id, Hj in Ht. exact Ht.
    + cbn. apply Forall_fmap. apply (list.Forall_impl _ _ _ Hp). intros p (P1 & P2 & P3). done.
Qed.
Lemma sized_zero : sized zero_tty.
Proof.
  split; try (unfold zero_tty; cbn [input output screen screen_fg screen_bg vt_params edit_line history]; rewrite length_replicate; apply Z2Nat.id; done); try done; [by repeat constructor|].
  unfold zero_tty. cbn [history]. apply Forall_replicate. rewrite length_replicate. by apply Z2Nat.id.
Qed.
Lemma starting_zero : starting 0 zero_console.
Proof.
  split; [done|]. split; [|split; [done|split; [|done]]].
  - intros j Hj. rewrite (proj2 (Z.ltb_ge j 0)) by lia. unfold tty_at, zero_console. cbn [ttys]. apply (Forall_cell sized); [apply Forall_replicate, sized_zero|]. rewrite length_replicate. unfold RIX_TTY_COUNT in *. lia.
  - unfold zero_console. cbn [ptys]. apply Forall_replicate. split; [apply sized_zero|]. split; [done|]. split; [unfold zero_pty; cbn [master_output]; rewrite length_replicate; by apply Z2Nat.id|done].
Qed.
End Calls.
