(* ===== verification/TtyBounds.v ===== *)
(** * Any sequence of calls keeps the terminals within bounds *)
From stdpp Require Import base tactics list numbers.
From S2P Require Import Prelude Lock Bytes Tty TtyInv.

Inductive tty_call :=
| CSetFramebuffer (base size width height pitch format : Z)
| CSetSignalHook (hook : Z)
| COutput (id : Z) (buf : list Z)
| CReadOutput (id n : Z)
| CInput (id ch : Z)
| CRead (id n : Z)
| CReadBlocking (id n : Z)
| CSetCanonical (id on : Z)
| CSetEcho (id on : Z)
| CGetTermios (id : Z)
| CSetTermios (id lflag : Z)
| CSetForeground (id pgrp : Z)
| CGetForeground (id : Z)
| CSetSession (id session control : Z)
| CGetSession (id : Z)
| CAttachSession (id session pgrp : Z)
| CDetachSession (id session : Z)
| CSetDimensions (id rows columns : Z)
| CGetDimensions (id : Z)
| CGetCursor (id : Z)
| CReadScreen (id capacity : Z)
| CRecover (id : Z)
| CPtyOpen
| CPtyClose (id : Z)
| CPtyGetTermios (id : Z)
| CPtySetTermios (id lflag : Z)
| CPtyMasterWrite (id : Z) (buf : list Z)
| CPtyMasterRead (id n : Z)
| CPtySlaveWrite (id : Z) (buf : list Z)
| CPtySlaveRead (id n : Z).

(** The arguments are unsigned; those of the frame buffer are 32 bits wide but for the base. *)
Definition call_ok (x : tty_call) : Prop :=
  match x with
  | CSetFramebuffer base size width height pitch format => 0 <= base /\ is_u32 size /\ is_u32 width /\ is_u32 height /\ is_u32 pitch
  | CSetSignalHook _ | CPtyOpen => True
  | CSetDimensions id r c => 0 <= id /\ 0 <= r /\ 0 <= c
  | COutput id _ | CReadOutput id _ | CInput id _ | CRead id _ | CReadBlocking id _ | CSetCanonical id _ | CSetEcho id _ | CGetTermios id | CSetTermios id _ | CSetForeground id _ | CGetForeground id
  | CSetSession id _ _ | CGetSession id | CAttachSession id _ _ | CDetachSession id _ | CGetDimensions id | CGetCursor id | CReadScreen id _ | CRecover id
  | CPtyClose id | CPtyGetTermios id | CPtySetTermios id _ | CPtyMasterWrite id _ | CPtyMasterRead id _ | CPtySlaveWrite id _ | CPtySlaveRead id _ => 0 <= id
  end.

Section Bounds.
Context {W : Type} {HW : TtyHost W} {HR : HostReturns W} (font : list Z).
Abbreviation st := (cpu * (console * W))%type.

Definition void {A} (m : M st A) : M st unit := _ ← m; mret tt.
Definition exec_call (x : tty_call) : M st unit :=
  match x with
  | CSetFramebuffer base size width height pitch format => tty_set_framebuffer font base size width height pitch format
  | CSetSignalHook hook => tty_set_signal_hook hook
  | COutput id buf => void (tty_output font id buf)
  | CReadOutput id n => void (tty_read_output id n)
  | CInput id ch => void (tty_input font id ch)
  | CRead id n => void (tty_read id n)
  | CReadBlocking id n => void (tty_read_blocking id n)
  | CSetCanonical id on => void (tty_set_canonical id on)
  | CSetEcho id on => void (tty_set_echo id on)
  | CGetTermios id => void (tty_get_termios id)
  | CSetTermios id lflag => void (tty_set_termios id lflag)
  | CSetForeground id pgrp => void (tty_set_foreground_pgrp id pgrp)
  | CGetForeground id => void (tty_get_foreground_pgrp id)
  | CSetSession id session control => void (tty_set_session id session control)
  | CGetSession id => void (tty_get_session id)
  | CAttachSession id session pgrp => void (tty_attach_session id session pgrp)
  | CDetachSession id session => void (tty_detach_session id session)
  | CSetDimensions id rows columns => void (tty_set_dimensions id rows columns)
  | CGetDimensions id => void (tty_get_dimensions id)
  | CGetCursor id => void (tty_get_cursor id)
  | CReadScreen id capacity => void (tty_read_screen id capacity)
  | CRecover id => void (tty_recover font id)
  | CPtyOpen => void (tty_pty_open font)
  | CPtyClose id => void (tty_pty_close id)
  | CPtyGetTermios id => void (tty_pty_get_termios id)
  | CPtySetTermios id lflag => void (tty_pty_set_termios id lflag)
  | CPtyMasterWrite id buf => void (tty_pty_master_write id buf)
  | CPtyMasterRead id n => void (tty_pty_master_read id n)
  | CPtySlaveWrite id buf => void (tty_pty_slave_write id buf)
  | CPtySlaveRead id n => void (tty_pty_slave_read id n)
  end.

(** The consoles after each call. *)
Fixpoint exec_calls (l : list tty_call) : M st (list console) :=
  match l with
  | [] => mret []
  | x :: l => _ ← exec_call x; c ← consoles id; cs ← exec_calls l; mret (c :: cs)
  end.
Definition tty_session (l : list tty_call) : M st (list console) := _ ← tty_init font; c ← consoles id; cs ← exec_calls l; mret (c :: cs).

Fixpoint chain (R : console -> console -> Prop) (c : console) (l : list console) : Prop :=
  match l with
  | [] => True
  | c' :: l => R c c' /\ chain R c' l
  end.

Lemma bounded_void {A} (m : M st A) : bounded m -> bounded (void m).
Proof. intros Hm c Hg Hi. apply runs_tbind. eapply runs_mono; [by apply Hm|]. intros a c' H. by apply runs_tret. Qed.
Lemma calm_void {A} (m : M st A) : calm m -> bounded (void m).
Proof. intros Hm. by apply bounded_void, calm_bounded. Qed.

Lemma input_call_bounded id ch : 0 <= id -> bounded (tty_input font id ch).
Proof.
  intros Hid c Hg Hi. apply runs_tbind. eapply runs_mono; [apply (runs_with_input _ c Hg Hi), calm_input_nolock; done|]. intros rc c1 Ht.
  assert (Hw : within c c1 /\ tty_output_lock c1 = spin_free /\ tty_input_lock c1 = spin_free) by (destruct Ht as (H1 & H2 & H3 & H4), Hg as [_ Ho]; split; [done|]; split; congruence).
  destruct (tty_valid id); [|by apply runs_tbind, runs_tret, runs_tret]. apply runs_tbind, runs_thost; [intros w Hw'; destruct (wake_returns id w Hw') as (w' & E & Hw''); by exists tt, w'|]. intros _. by apply runs_tret.
Qed.
Lemma calm_blocking id n : 0 <= id -> bounded (tty_read_blocking id n).
Proof.
  intros Hid. apply input_bounded. apply calm_bind; [by apply calm_read|]. intros [rc got]. apply calm_if; [apply calm_ret|]. apply calm_if; [|apply calm_ret].
  apply calm_bind; [apply calm_host; intros w; apply prepare_returns|]. intros r. apply calm_if; [|apply calm_ret]. apply calm_bind; [|intros _; apply calm_ret].
  apply calm_host. intros w Hw. destruct (block_returns w Hw) as (w' & E & Hw'). by exists tt, w'.
Qed.

Ltac setting := apply calm_with_tty; [done|]; intros ? ?; first [apply calm_ret | apply calm_setting; [done|]; intros ?; by apply setting_change].

Lemma session_calm id s p : 0 <= id -> calm (tty_set_session id s p).
Proof. intros Hid. apply calm_with_tty; [done|]. intros Hr t. apply calm_if; [apply calm_ret|]. apply calm_setting; [done|]. intros u. apply setting_change; by destruct (truthy p). Qed.
Lemma attach_calm id s p : 0 <= id -> calm (tty_attach_session id s p).
Proof. intros Hid. apply calm_with_tty; [done|]. intros Hr t. apply calm_if; [apply calm_ret|]. apply calm_if; [apply calm_ret|]. apply calm_setting; [done|]. intros u. by apply setting_change. Qed.
Lemma detach_calm id s : 0 <= id -> calm (tty_detach_session id s).
Proof. intros Hid. apply calm_with_tty; [done|]. intros Hr t. do 3 (apply calm_if; [apply calm_ret|]). apply calm_setting; [done|]. intros u. by apply setting_change. Qed.
Lemma termios_calm id l : 0 <= id -> calm (tty_set_termios id l).
Proof. intros Hid. apply calm_with_tty; [done|]. intros Hr t. apply calm_if; [apply calm_ret|]. apply calm_setting; [done|]. intros u. apply lflag_change. Qed.
Lemma dimensions_calm id r c : 0 <= id -> 0 <= r -> 0 <= c -> calm (tty_set_dimensions id r c).
Proof.
  intros Hid Hr Hc. apply calm_with_tty; [done|]. intros Hi t. destruct (_ || _) eqn:E; [apply calm_ret|]. bool_to_prop. apply calm_setting; [done|]. intros u. apply dimensions_change; lia.
Qed.
Lemma read_screen_calm id n : 0 <= id -> calm (tty_read_screen id n).
Proof. intros Hid. apply calm_with_tty; [done|]. intros Hi t. apply calm_if; apply calm_ret. Qed.

Lemma call_bounded x : call_ok x -> bounded (exec_call x).
Proof.
  destruct x; cbn [call_ok exec_call]; intros Hok; try (destruct Hok as (? & ? & ? & ? & ?); by apply framebuffer_bounded); try (by apply bounded_void, input_call_bounded); try (by apply bounded_void, calm_blocking);
    try (apply bounded_void, input_bounded; by apply calm_read); try apply calm_void.
  - apply calm_bounded, calm_change. intros c [Hc Ho]. split; [|done]. split; [exact Hc|]. exists []. by rewrite app_nil_r.
  - by apply calm_output.
  - by apply calm_read_output.
  - setting.
  - setting.
  - setting.
  - by apply termios_calm.
  - setting.
  - setting.
  - by apply session_calm.
  - setting.
  - by apply attach_calm.
  - by apply detach_calm.
  - destruct Hok as (? & ? & ?). by apply dimensions_calm.
  - setting.
  - setting.
  - by apply read_screen_calm.
  - by apply calm_recover.
  - by apply calm_pty_open_from.
  - by apply calm_pty_close.
  - by apply calm_pty_get_termios.
  - by apply calm_pty_set_termios.
  - apply calm_with_pty; [done|]. intros c Hg Hr Ho. by apply calm_master_write.
  - by apply calm_pty_master_read.
  - by apply calm_pty_slave_write.
  - by apply calm_pty_slave_read.
Qed.

Lemma calls_bounded l : forall c, Forall call_ok l -> good c -> tty_input_lock c = spin_free -> runs (exec_calls l) c (fun cs _ => chain (fun c c' => within c c' /\ unlocked c') c cs).
Proof.
  induction l as [|x l IH]; intros c Hl Hg Hi; cbn [exec_calls]; [by apply runs_tret|]. apply list.Forall_cons in Hl as [Hx Hl]. apply runs_tbind. eapply runs_mono; [by apply call_bounded|]. intros [] c1 (H1 & H2 & H3).
  apply runs_tbind, runs_consoles, runs_tbind. eapply runs_mono; [apply IH; [done|split; [apply H1|done]|done]|]. intros cs c2 H. by apply runs_tret.
Qed.

(** C12: the terminals stay within their bounds. After [tty_init], any calls with any
    arguments of their types (keys, output with control sequences and broken UTF-8, resizing, frame buffers
    of any geometry, pseudo terminals) return, each with both locks released, and leave every index
    inside its array: cursors inside the screen, ring positions inside the rings, the edited
    line inside its buffer, the history inside its table, parameters and colours inside
    theirs. Every pixel a call writes lies inside the frame buffer that was passed to
    [tty_set_framebuffer]. *)
Theorem tty_stays_in_bounds (k : cpu) (w : W) l : host_ok w -> Forall call_ok l ->
  exists c cs c' w', tty_session l (k, (zero_console, w)) = Some (c :: cs, (k, (c', w'))) /\ console_wf c /\ unlocked c /\ ink c = [] /\
    chain (fun c c' => within c c' /\ unlocked c') c cs.
Proof.
  intros Hw Hl. assert (H : runs (tty_session l) zero_console (fun r _ => exists c cs, r = c :: cs /\ console_wf c /\ unlocked c /\ ink c = [] /\ chain (fun c c' => within c c' /\ unlocked c') c cs)).
  { apply runs_tbind. eapply runs_mono; [apply runs_init, starting_zero|]. intros [] c [(Hc & Hk & Ho & Hi) _]. apply runs_tbind, runs_consoles, runs_tbind. eapply runs_mono; [by apply calls_bounded|].
    intros cs c' Hch. apply runs_tret. by exists c, cs. }
  destruct (H k w Hw) as (r & c' & w' & E & _ & c & cs & -> & H1). by exists c, cs, c', w'.
Qed.
End Bounds.
