(* ===== verification/TtyLine.v ===== *)
(** * The line discipline of a console is a line editor

    The editor keeps the text before and after the cursor, the bytes of the finished lines
    that are still to be read and the lines to recall. Keys and reads of a console in
    canonical mode do what they do to the editor. *)
From stdpp Require Import base tactics list numbers.
From S2P Require Import Prelude Lock Bytes Tty TtyInv.

(** ** The editor *)

(** The text before the cursor is kept with its last byte first. *)
Record editor := { left : list Z; right : list Z; pending : list Z; past : list (list Z); browse : nat }.
Definition blank_editor : editor := {| left := []; right := []; pending := []; past := []; browse := 0 |}.
Definition set_text (l r : list Z) (e : editor) : editor := {| left := l; right := r; pending := pending e; past := past e; browse := browse e |}.
Definition text (e : editor) : list Z := reverse (left e) ++ right e.

(** The history keeps the last 32 lines that are not empty. *)
Definition remember (line : list Z) (past : list (list Z)) : list (list Z) :=
  (if (length past =? 32)%nat then drop 1 past else past) ++ [line].
(** The line to recall; past the last one an empty line. *)
Definition recall (n : nat) (e : editor) : editor :=
  {| left := reverse (default [] (past e !! n)); right := []; pending := pending e; past := past e; browse := n |}.

(** The finished line is to be read, with its newline. *)
Definition commit_line (e : editor) : editor :=
  let past' := if len (text e) =? 0 then past e else remember (text e) (past e) in
  {| left := []; right := []; pending := pending e ++ text e ++ [10]; past := past'; browse := if len (text e) =? 0 then browse e else length past' |}.

Definition editor_key (ch : Z) (e : editor) : Z * editor :=
  if ch =? RIX_TTY_KEY_UP then (0, match past e with [] => e | _ => recall (browse e - 1) e end)
  else if ch =? RIX_TTY_KEY_DOWN then (0, match past e with [] => e | _ => recall (if (browse e <? length (past e))%nat then browse e + 1 else browse e) e end)
  else if ch =? RIX_TTY_KEY_LEFT then (0, match left e with x :: l => set_text l (x :: right e) e | [] => e end)
  else if ch =? RIX_TTY_KEY_RIGHT then (0, match right e with x :: r => set_text (x :: left e) r e | [] => e end)
  else if (ch =? 8) || (ch =? 127) then (0, match left e with _ :: l => set_text l (right e) e | [] => e end)
  else if (ch =? 10) || (ch =? 13) then
    if RIX_TTY_INPUT <? len (pending e) + len (text e) + 1 then (-2, e)
    else (0, commit_line e)
  else if (ch <? 0x20) || (RIX_TTY_LINE_MAX <=? len (text e) + 1) then (0, e)
  else (0, set_text (ch :: left e) (right e) e).

(** At most [n] bytes, up to the end of the first line. *)
Fixpoint take_line (n : nat) (q : list Z) : list Z * list Z :=
  match n, q with
  | O, _ => ([], q)
  | _, [] => ([], [])
  | S n, x :: q => if x =? 10 then ([x], q) else let '(a, b) := take_line n q in (x :: a, b)
  end.
Definition newlines (q : list Z) : Z := len (filter (fun x => x = 10) q).
Definition editor_read (n : Z) (e : editor) : (Z * list Z) * editor :=
  if newlines (pending e) =? 0 then ((-3, []), e)
  else
    let '(a, b) := take_line (Z.to_nat n) (pending e) in
    ((if len a =? 0 then -3 else 0, a), {| left := left e; right := right e; pending := b; past := past e; browse := browse e |}).

(** ** A terminal and its editor *)

Definition row_holds (row l : list Z) : Prop := take (length l) row = l /\ aget 0 row (len l) = 0 /\ Forall (fun x => 0x20 <= x < 256) l /\ len l < RIX_TTY_LINE_MAX.
(** The ring holds the bytes [q]. *)
Record ring_is (t : rix_tty_t) (q : list Z) : Prop := {
  ri_view : ring_view RIX_TTY_INPUT (input t) (head t) (count t) = q;
  ri_tail : tail t = (head t + count t) mod RIX_TTY_INPUT;
}.
Record edits (t : rix_tty_t) (e : editor) : Prop := {
  ed_wf : line_wf RIX_TTY_INPUT t;
  ed_text : take (Z.to_nat (edit_length t)) (edit_line t) = text e;
  ed_cursor : edit_cursor t = len (left e);
  ed_bytes : Forall (fun x => 0x20 <= x < 256) (text e);
  ed_ring : ring_is t (pending e);
  ed_queue : Forall (fun x => x <> 13) (pending e);
  ed_ready : canonical_ready t = newlines (pending e);
  ed_past : history_count t = len (past e);
  ed_rows : forall i l, past e !! i = Some l -> row_holds (aget [] (history t) (Z.of_nat i)) l;
  ed_browse : history_cursor t = Z.of_nat (browse e);
  ed_mode : canonical t <> 0;
}.

Lemma same_line_edits t t' e : same_line t t' -> edits t e -> edits t' e.
Proof.
  intros Hs H. pose proof (same_line_wf _ _ Hs (ed_wf _ _ H)). unfold same_line, line_part in Hs. injection Hs as Hs. destruct H, ed_ring0. split; try done; [congruence|congruence| |congruence|congruence| |congruence|congruence].
  - split; congruence.
  - replace (history t') with (history t) by done. done.
Qed.
Lemma edits_fresh t : line_wf RIX_TTY_INPUT t -> fresh t -> edits t blank_editor.
Proof.
  intros Hw [t0 Hs]. unfold same_line, line_part in Hs. injection Hs as Hs. cbn in *. split; try done; cbn; try congruence.
  - replace (edit_length t) with 0 by congruence. done.
  - split; [|replace (count t) with 0 by congruence; replace (head t) with 0 by congruence; replace (tail t) with 0 by congruence; done]. replace (count t) with 0 by congruence. done.
Qed.

(** ** The ring *)

Lemma view_push cap d h n x : Z.of_nat (length d) = cap -> 0 <= h < cap -> 0 <= n < cap -> ring_view cap (aset ((h + n) mod cap) x d) h (n + 1) = ring_view cap d h n ++ [x].
Proof.
  intros Hl Hh Hn. pose proof (length_ring_view cap d h n ltac:(lia)). pose proof (length_ring_view cap (aset ((h + n) mod cap) x d) h (n + 1) ltac:(lia)).
  apply list_ext_aget; [rewrite length_app; cbn; lia|]. intros i Hi. rewrite aget_ring_view, aget_app by lia. pose proof (Z.mod_pos_bound (h + n) cap ltac:(lia)). pose proof (Z.mod_pos_bound (h + i) cap ltac:(lia)). case_if.
  - rewrite aget_ring_view by lia. apply aget_aset_ne; [lia|lia|]. rewrite !mod_once by lia. split_ifs; lia.
  - replace i with n by lia. rewrite aget_aset_eq by lia. by replace (n - len (ring_view cap d h n)) with 0 by lia.
Qed.
Lemma view_pop cap d h n : 0 <= h < cap -> 0 < n <= cap -> ring_view cap d h n = aget 0 d h :: ring_view cap d ((h + 1) mod cap) (n - 1).
Proof. intros Hh Hn. rewrite (ring_view_split cap d h n 1) by lia. change (ring_view cap d h 1) with [aget 0 d ((h + 0) mod cap)]. by rewrite Z.add_0_r, Z.mod_small. Qed.

Lemma put_ring ch t q : line_wf RIX_TTY_INPUT t -> ring_is t q -> count t < RIX_TTY_INPUT -> ring_is (put_input ch t) (q ++ [ch]).
Proof.
  intros Hw [Hv Ht] Hc. pose proof (wf_count t Hw). pose proof (wf_head t Hw). pose proof (wf_input t Hw). unfold RIX_TTY_INPUT in *. split; cbn; rewrite u64_id by (unfold is_u64; lia).
  - rewrite Ht. unfold RIX_TTY_INPUT in *. rewrite view_push by lia. congruence.
  - rewrite Ht. unfold RIX_TTY_INPUT in *. rewrite Zplus_mod_idemp_l. f_equal. lia.
Qed.

(** ** The line *)

Lemma take_aget (l k : list Z) n : 0 <= n <= len l -> len k = n -> (forall i, 0 <= i < n -> aget 0 l i = aget 0 k i) -> take (Z.to_nat n) l = k.
Proof.
  intros Hn Hk H. apply list_ext_aget; [rewrite length_take; lia|]. intros i Hi. rewrite length_take in Hi. rewrite aget_take by lia. apply H. lia.
Qed.
Lemma take_aget_inv (l k : list Z) n i : take (Z.to_nat n) l = k -> 0 <= i < n -> aget 0 l i = aget 0 k i.
Proof. intros <- Hi. by rewrite aget_take by lia. Qed.

Lemma insert_text (line a b : list Z) n ch : take (Z.to_nat n) line = a ++ b -> len (a ++ b) = n -> n < len line ->
  take (Z.to_nat (n + 1)) (aset (len a) ch (for_all 0 (n - len a) (fun k l => let i := n - k in aset i (aget 0 l (i - 1)) l) line)) = a ++ ch :: b.
Proof.
  intros Ht Hn Hl. rewrite length_app in Hn.
  pose proof (for_all_inv (fun k l => len l = len line /\ forall j, 0 <= j < len line -> aget 0 l j = if (n - k <? j) && (j <=? n) then aget 0 line (j - 1) else aget 0 line j) 0 (n - len a)
    (fun k l => let i := n - k in aset i (aget 0 l (i - 1)) l) line ltac:(lia)) as [H1 H2].
  - split; [done|]. intros j Hj. destruct (_ && _) eqn:E; bool_to_prop; [lia|done].
  - intros k l Hk [E1 E2]. cbv zeta. split; [by rewrite length_aset|]. intros j Hj. destruct (decide (j = n - k)) as [->|Hne].
    + rewrite aget_aset_eq by lia. rewrite E2 by lia. destruct (_ && _) eqn:E, (_ && (n - k <=? n)) eqn:E'; bool_to_prop; try lia; try done.
    + rewrite aget_aset_ne by lia. rewrite E2 by done. destruct ((n - k <? j) && _) eqn:E, ((n - (k + 1) <? j) && _) eqn:E'; bool_to_prop; try done; lia.
  - set (l := for_all _ _ _ _) in *. rewrite Z.add_0_l in H2. apply take_aget; [rewrite length_aset; lia|rewrite length_app; cbn; lia|]. intros i Hi. rewrite aget_app by lia. case_if.
    + rewrite aget_aset_ne by lia. rewrite H2 by lia. destruct (_ && _) eqn:E; bool_to_prop; [lia|]. rewrite (take_aget_inv _ _ _ i Ht) by lia. rewrite aget_app by lia. case_if; [done|lia].
    + destruct (decide (i = len a)) as [->|Hne]; [rewrite aget_aset_eq by lia; by rewrite Z.sub_diag|]. rewrite aget_aset_ne by lia. rewrite H2 by lia. destruct (_ && _) eqn:E; bool_to_prop; [|lia].
      rewrite (take_aget_inv _ _ _ (i - 1) Ht) by lia. rewrite aget_app by lia. case_if; [lia|]. unfold aget. replace (Z.to_nat (i - len a)) with (S (Z.to_nat (i - 1 - len a))) by lia. done.
Qed.
Lemma erase_text (line a b : list Z) n x : take (Z.to_nat n) line = a ++ x :: b -> len (a ++ x :: b) = n -> n <= len line ->
  take (Z.to_nat (n - 1)) (for_all (len a + 1) (n - (len a + 1)) (fun i l => aset (i - 1) (aget 0 l i) l) line) = a ++ b.
Proof.
  intros Ht Hn Hl. rewrite length_app in Hn. cbn in Hn.
  pose proof (for_all_inv (fun i l => len l = len line /\ forall j, 0 <= j < len line -> aget 0 l j = if (len a <=? j) && (j <? i - 1) then aget 0 line (j + 1) else aget 0 line j) (len a + 1) (n - (len a + 1))
    (fun i l => aset (i - 1) (aget 0 l i) l) line ltac:(lia)) as [H1 H2].
  - split; [done|]. intros j Hj. destruct (_ && _) eqn:E; bool_to_prop; [lia|done].
  - intros i l Hi [E1 E2]. split; [by rewrite length_aset|]. intros j Hj. destruct (decide (j = i - 1)) as [->|Hne].
    + rewrite aget_aset_eq by lia. rewrite E2 by lia. destruct (_ && _) eqn:E, (_ && (i - 1 <? _)) eqn:E'; bool_to_prop; try lia. f_equal. lia.
    + rewrite aget_aset_ne by lia. rewrite E2 by done. destruct (_ && (j <? i - 1)) eqn:E, (_ && (j <? i + 1 - 1)) eqn:E'; bool_to_prop; try done; lia.
  - set (l := for_all _ _ _ _) in *. apply take_aget; [lia|rewrite length_app; lia|]. intros i Hi. rewrite H2 by lia. rewrite (aget_app a b) by lia. destruct (i <? len a) eqn:Ei; bool_to_prop.
    + destruct (_ && _) eqn:E; bool_to_prop; [lia|]. rewrite (take_aget_inv _ _ _ i Ht) by lia. rewrite aget_app by lia. case_if; [done|lia].
    + destruct (_ && _) eqn:E; bool_to_prop; [|lia]. rewrite (take_aget_inv _ _ _ (i + 1) Ht) by lia. rewrite aget_app by lia. case_if; [lia|]. unfold aget. replace (Z.to_nat (i + 1 - len a)) with (S (Z.to_nat (i - len a))) by lia. done.
Qed.

(** ** The history *)

Lemma load_line_row n : forall src dst l i, row_holds src l -> 0 <= i <= len l -> len l - i <= Z.of_nat n -> len l <= len dst -> take (Z.to_nat i) dst = take (Z.to_nat i) l ->
  (load_line n src i dst).2 = len l /\ take (length l) (load_line n src i dst).1 = l.
Proof.
  induction n as [|n IH]; intros src dst l i Hr Hi Hn Hd Ht; cbn [load_line].
  - assert (i = len l) as -> by lia. rewrite Nat2Z.id, firstn_all in Ht. done.
  - destruct Hr as (R1 & R2 & R3 & R4). destruct (decide (i = len l)) as [->|Hne]; [rewrite R2; rewrite Nat2Z.id, firstn_all in Ht; done|].
    assert (Hx : aget 0 src i = aget 0 l i) by (apply (take_aget_inv src l (len l)); [by rewrite Nat2Z.id|lia]). rewrite Hx.
    assert (Hp : 0x20 <= aget 0 l i < 256) by (apply (Forall_cell (fun x => 0x20 <= x < 256)); [done|lia]). rewrite (proj2 (Z.eqb_neq _ _)) by lia.
    apply IH; [done|lia|lia|by rewrite length_aset|]. apply take_aget; [rewrite length_aset; lia|rewrite length_take; lia|]. intros j Hj. rewrite aget_take by lia. destruct (decide (j = i)) as [->|Hji]; [apply aget_aset_eq; lia|].
    rewrite aget_aset_ne by lia. rewrite (take_aget_inv _ _ _ j Ht) by lia. by rewrite aget_take by lia.
Qed.

Lemma saved_row (row line l : list Z) n : n = len l -> take (Z.to_nat n) line = l -> len row = RIX_TTY_LINE_MAX -> n < RIX_TTY_LINE_MAX -> Forall (fun x => 0x20 <= x < 256) l ->
  row_holds (aset n 0 (copy (Z.to_nat n) row 0 line 0)) l.
Proof.
  intros -> Ht Hr Hn Hl. rewrite Nat2Z.id in *. split; [|split; [apply aget_aset_eq; rewrite length_copy; lia|done]]. rewrite <- (Nat2Z.id (length l)) at 1. apply take_aget; [rewrite length_aset, length_copy; lia|done|].
  intros i Hi. rewrite aget_aset_ne by lia. rewrite aget_copy by (rewrite ?Nat2Z.id; lia). destruct (_ && _) eqn:E; bool_to_prop; [|lia]. replace (0 + (i - 0)) with i by lia. apply (take_aget_inv line l (len l)); [by rewrite Nat2Z.id|lia].
Qed.

(** ** The keys *)

Lemma edits_length t e : edits t e -> edit_length t = len (text e).
Proof.
  intros H. pose proof (wf_edit_cursor t (ed_wf _ _ H)). pose proof (wf_edit_length t (ed_wf _ _ H)). pose proof (wf_edit t (ed_wf _ _ H)). rewrite <- (ed_text _ _ H), length_take. lia.
Qed.
Lemma text_length e : len (text e) = len (left e) + len (right e).
Proof. unfold text. rewrite length_app, length_reverse. lia. Qed.

(** A change of the edited line alone. *)
Lemma edits_line t e f l r : edits t e -> line_wf RIX_TTY_INPUT (f t) -> take (Z.to_nat (edit_length (f t))) (edit_line (f t)) = reverse l ++ r -> edit_cursor (f t) = len l -> Forall (fun x => 0x20 <= x < 256) (reverse l ++ r) ->
  [input (f t)] = [input t] -> history (f t) = history t -> [head (f t); tail (f t); count (f t); canonical_ready (f t); canonical (f t); history_count (f t); history_cursor (f t)] = [head t; tail t; count t; canonical_ready t; canonical t; history_count t; history_cursor t] ->
  edits (f t) (set_text l r e).
Proof.
  intros H Hw Ht Hc Hb Hi Hh Hz. injection Hi as Hi. injection Hz as Hz. destruct H, ed_ring0. split; try done; cbn; try congruence.
  - split; congruence.
  - by rewrite Hh.
Qed.

Lemma edits_insert t e ch : edits t e -> 0x20 <= ch < 256 -> edit_length t + 1 < RIX_TTY_LINE_MAX -> line_wf RIX_TTY_INPUT (edit_insert ch t) -> edits (edit_insert ch t) (set_text (ch :: left e) (right e) e).
Proof.
  intros H Hch Hn Hw. pose proof (edits_length t e H) as Hl. pose proof (wf_edit t (ed_wf _ _ H)). apply edits_line; try done.
  - cbn [edit_insert edit_length edit_line set_line_chars set_edit_length set_edit_cursor set_edit_line]. rewrite (ed_cursor _ _ H), reverse_cons, <- app_assoc. rewrite <- (length_reverse (left e)). apply insert_text; [apply (ed_text _ _ H)|done|lia].
  - cbn. rewrite (ed_cursor _ _ H). cbn. lia.
  - pose proof (ed_bytes _ _ H) as Hb. unfold text in Hb. apply Forall_app in Hb as [B1 B2]. rewrite reverse_cons, <- app_assoc. apply Forall_app. split; [done|]. by constructor.
Qed.
Lemma edits_erase t e x l : edits t e -> left e = x :: l -> line_wf RIX_TTY_INPUT (edit_erase t) -> edits (edit_erase t) (set_text l (right e) e).
Proof.
  intros H Hx Hw. pose proof (edits_length t e H) as Hl. pose proof (ed_text _ _ H) as Ht. pose proof (ed_cursor _ _ H) as Hc. pose proof (ed_bytes _ _ H) as Hb. pose proof (wf_edit t (ed_wf _ _ H)). pose proof (wf_edit_length t (ed_wf _ _ H)). unfold text in *.
  rewrite Hx in *. rewrite reverse_cons, <- app_assoc in *. cbn in Hc. apply edits_line; try done.
  - cbn [edit_erase edit_length edit_line set_line_chars set_edit_length set_edit_cursor set_edit_line]. replace (edit_cursor t) with (len (reverse l) + 1) by (rewrite length_reverse; lia). apply (erase_text _ _ _ _ x); [done|done|lia].
  - cbn. lia.
  - apply Forall_app in Hb as [B1 B2]. inversion B2; subst. by apply Forall_app.
Qed.
Lemma edits_move t e n l r : edits t e -> reverse l ++ r = text e -> n = len l -> edits (set_edit_cursor n t) (set_text l r e).
Proof.
  intros H Ht ->. pose proof (edits_length t e H) as Hl. apply (edits_line t e (set_edit_cursor (len l))); try done.
  - destruct (ed_wf _ _ H). split; try done. cbn. rewrite Hl, <- Ht, length_app, length_reverse. lia.
  - cbn. rewrite Ht. apply (ed_text _ _ H).
  - rewrite Ht. apply (ed_bytes _ _ H).
Qed.

(** The line at the history cursor. *)
Definition load_current (t : rix_tty_t) : rix_tty_t :=
  let t := if history_cursor t =? history_count t then set_edit_length 0 t
           else let '(line, n) := load_line (Z.to_nat (RIX_TTY_LINE_MAX - 1)) (aget [] (history t) (history_cursor t)) 0 (edit_line t) in set_edit_length n (set_edit_line line t) in
  set_edit_cursor (edit_length t) t.
Lemma set_history_cursor_id t : set_history_cursor (history_cursor t) t = t.
Proof. by destruct t. Qed.
Lemma recall_steps d t : edit_recall d t = load_current (set_history_cursor (if d =? RIX_TTY_KEY_UP then Z.max 0 (history_cursor t - 1) else if history_cursor t <? history_count t then history_cursor t + 1 else history_cursor t) t) \/ history_cursor t < 0.
Proof.
  destruct (decide (history_cursor t < 0)) as [|Hc]; [by right|left]. change (edit_recall d t) with (load_current (if d =? RIX_TTY_KEY_UP then if history_cursor t =? 0 then t else set_history_cursor (history_cursor t - 1) t
    else if history_cursor t <? history_count t then set_history_cursor (history_cursor t + 1) t else t)). f_equal. destruct (d =? _).
  - destruct (_ =? 0) eqn:E; bool_to_prop; [rewrite Z.max_l by lia; rewrite <- E; symmetry; apply set_history_cursor_id|]. by rewrite Z.max_r by lia.
  - destruct (_ <? _); [done|]. symmetry. apply set_history_cursor_id.
Qed.
Lemma edits_load t e n : edits t e -> (n <= length (past e))%nat -> line_wf RIX_TTY_INPUT (load_current (set_history_cursor (Z.of_nat n) t)) -> edits (load_current (set_history_cursor (Z.of_nat n) t)) (recall n e).
Proof.
  intros H Hn Hw. unfold load_current in *. cbn [history_cursor history_count history edit_line set_history_cursor] in *. pose proof (ed_past _ _ H) as Hp. pose proof (wf_edit t (ed_wf _ _ H)) as He.
  destruct (_ =? _) eqn:E; bool_to_prop.
  - destruct H, ed_ring0. split; try done; cbn; rewrite lookup_ge_None_2 by lia; done.
  - destruct (lookup_lt_is_Some_2 (past e) n) as [l Hl]; [lia|]. pose proof (ed_rows _ _ H n l Hl) as Hr. pose proof Hr as (R1 & R2 & R3 & R4).
    destruct (load_line_row (Z.to_nat (RIX_TTY_LINE_MAX - 1)) (aget [] (history t) (Z.of_nat n)) (edit_line t) l 0 Hr) as [L1 L2]; [lia|lia|lia|done|].
    destruct (load_line _ _ _ _) as [line k]. cbn [fst snd] in *. subst k. destruct H, ed_ring0. split; try done; unfold text; cbn [left right recall edit_length edit_line edit_cursor set_edit_cursor set_edit_length set_edit_line]; rewrite Hl; cbn [default from_option]; rewrite ?reverse_involutive, ?app_nil_r, ?length_reverse, ?Nat2Z.id; done.
Qed.
Lemma edits_recall t e d n : edits t e -> line_wf RIX_TTY_INPUT (edit_recall d t) -> (n <= length (past e))%nat ->
  Z.of_nat n = (if d =? RIX_TTY_KEY_UP then Z.max 0 (history_cursor t - 1) else if history_cursor t <? history_count t then history_cursor t + 1 else history_cursor t) -> edits (edit_recall d t) (recall n e).
Proof.
  intros H Hw Hn Hz. pose proof (wf_history_cursor t (ed_wf _ _ H)). destruct (recall_steps d t) as [E|]; [|lia]. rewrite <- Hz in E. rewrite E in *. by apply edits_load.
Qed.

(** What the history holds. *)
Definition rows_hold (t : rix_tty_t) (h : list (list Z)) : Prop := history_count t = len h /\ forall i l, h !! i = Some l -> row_holds (aget [] (history t) (Z.of_nat i)) l.

Lemma save_line_rows t h l : rows_hold t h -> len (history t) = RIX_TTY_HISTORY_COUNT -> Forall (fun r => len r = RIX_TTY_LINE_MAX) (history t) -> len h < RIX_TTY_HISTORY_COUNT -> edit_length t = len l -> edit_length t < RIX_TTY_LINE_MAX ->
  take (Z.to_nat (edit_length t)) (edit_line t) = l -> Forall (fun x => 0x20 <= x < 256) l -> rows_hold (save_line t) (h ++ [l]) /\ history_cursor (save_line t) = len (h ++ [l]).
Proof.
  intros [Hc Hr] Hl Hs Hn Hel Hlm Ht Hb. unfold rows_hold, save_line. cbn. rewrite Hc, length_app. cbn. split; [|lia]. split; [lia|]. intros i x Hx. destruct (decide (i = length h)) as [->|Hne].
  - rewrite lookup_app_r, Nat.sub_diag in Hx by lia. injection Hx as <-. rewrite aget_aset_eq by lia. apply saved_row; try done. apply (Forall_cell (fun r => len r = RIX_TTY_LINE_MAX)); [done|lia].
  - assert (i < length h)%nat. { apply lookup_lt_Some in Hx. rewrite length_app in Hx. cbn in Hx. lia. } rewrite lookup_app_l in Hx by done. rewrite aget_aset_ne by lia. by apply Hr.
Qed.
Lemma save_rows t h l : line_wf RIX_TTY_INPUT t -> rows_hold t h -> edit_length t = len l -> take (Z.to_nat (edit_length t)) (edit_line t) = l -> Forall (fun x => 0x20 <= x < 256) l -> edit_length t <> 0 ->
  rows_hold (tty_edit_history_save t) (remember l h) /\ history_cursor (tty_edit_history_save t) = len (remember l h).
Proof.
  intros Hw [Hc Hr] Hel Ht Hb H0. unfold tty_edit_history_save, remember. rewrite (proj2 (Z.eqb_neq _ _) H0). pose proof (wf_history_count t Hw). pose proof (wf_history t Hw) as Hh. pose proof (wf_lines t Hw). pose proof (wf_edit_length t Hw).
  destruct (_ =? RIX_TTY_HISTORY_COUNT) eqn:E; bool_to_prop.
  - rewrite (proj2 (Nat.eqb_eq _ _)) by (unfold RIX_TTY_HISTORY_COUNT in *; lia). set (t1 := set_history_count _ (set_history _ t)). unfold RIX_TTY_HISTORY_COUNT in *. apply (save_line_rows t1 (drop 1 h) l); try done.
    + split; [cbn [t1 history_count set_history_count set_history]; rewrite length_drop; lia|]. intros i x Hx. rewrite lookup_drop in Hx. pose proof (lookup_lt_Some _ _ _ Hx). specialize (Hr _ _ Hx). unfold t1. cbn [history set_history_count set_history].
      unfold aget in *. rewrite lookup_app_l by (rewrite length_drop; lia). rewrite lookup_drop. rewrite Nat2Z.id in *. exact Hr.
    + cbn [t1 history set_history_count set_history]. rewrite length_app, !length_drop. unfold RIX_TTY_HISTORY_COUNT in *. lia.
    + cbn [t1 history set_history_count set_history]. apply Forall_app. split; by apply Forall_drop.
    + rewrite length_drop. unfold RIX_TTY_HISTORY_COUNT. lia.
  - rewrite (proj2 (Nat.eqb_neq _ _)) by (unfold RIX_TTY_HISTORY_COUNT in *; lia). apply (save_line_rows t h l); try done. lia.
Qed.
Lemma save_rest t : let t' := tty_edit_history_save t in [input t'; edit_line t'] = [input t; edit_line t] /\
  [head t'; tail t'; count t'; canonical_ready t'; canonical t'; edit_length t'; edit_cursor t'] = [head t; tail t; count t; canonical_ready t; canonical t; edit_length t; edit_cursor t].
Proof. cbv zeta. unfold tty_edit_history_save. destruct (_ =? 0); [done|]. by destruct (_ =? RIX_TTY_HISTORY_COUNT). Qed.

(** The bytes of the line go to the ring. *)
Definition line_bytes (t : rix_tty_t) : rix_tty_t := for_all 0 (edit_length t) (fun i t => put_input (u8 (aget 0 (edit_line t) i)) t) t.
Lemma line_bytes_ring t q l : line_wf RIX_TTY_INPUT t -> ring_is t q -> take (Z.to_nat (edit_length t)) (edit_line t) = l -> Forall (fun x => 0x20 <= x < 256) l -> edit_length t = len l -> count t + edit_length t < RIX_TTY_INPUT ->
  let t' := line_bytes t in line_wf RIX_TTY_INPUT t' /\ ring_is t' (q ++ l) /\ count t' = count t + edit_length t /\ t' = set_count (count t') (set_tail (tail t') (set_input (input t') t)).
Proof.
  intros Hw Hr Ht Hb Hn Hc. cbv zeta. pose proof (wf_count t Hw) as Hct. unfold RIX_TTY_INPUT in *.
  pose proof (for_all_inv (fun i t' => line_wf RIX_TTY_INPUT t' /\ ring_is t' (q ++ take (Z.to_nat i) l) /\ count t' = count t + i /\ t' = set_count (count t') (set_tail (tail t') (set_input (input t') t))) 0 (edit_length t)
    (fun i t => put_input (u8 (aget 0 (edit_line t) i)) t) t ltac:(lia)) as H.
  destruct H as (H1 & H2 & H3 & H4).
  - split; [done|]. cbn. rewrite app_nil_r. split; [done|]. split; [lia|]. by destruct t.
  - intros i a Hi (A1 & A2 & A3 & A4). assert (Hline : edit_line a = edit_line t) by by rewrite A4. assert (Hx : 0x20 <= aget 0 l i < 256) by (apply (Forall_cell (fun x => 0x20 <= x < 256)); [done|lia]).
    rewrite Hline, (take_aget_inv _ _ _ i Ht) by lia. rewrite u8_id by (unfold is_u8; lia). split; [apply line_wf_put; [unfold RIX_TTY_INPUT; lia|done|done]|]. split; [|split].
    + replace (Z.to_nat (i + 1)) with (S (Z.to_nat i)) by lia. rewrite (take_S_r l _ (aget 0 l i)), app_assoc; [apply put_ring; [done|done|unfold RIX_TTY_INPUT; lia]|]. unfold aget. destruct (lookup_lt_is_Some_2 l (Z.to_nat i)) as [x E]; [lia|]. by rewrite E.
    + cbn. rewrite u64_id by (unfold is_u64; lia). lia.
    + rewrite A4. done.
  - rewrite Z.add_0_l in *. rewrite take_ge in H2 by lia. done.
Qed.

Lemma newlines_app a b : newlines (a ++ b) = newlines a + newlines b.
Proof. unfold newlines. rewrite list.filter_app, length_app. lia. Qed.
Lemma newlines_text l : Forall (fun x => 0x20 <= x < 256) l -> newlines l = 0.
Proof. unfold newlines. induction 1 as [|x l Hx _ IH]; [done|]. rewrite filter_cons_False by lia. done. Qed.
Lemma edits_count t e : edits t e -> count t = len (pending e).
Proof. intros H. pose proof (wf_count t (ed_wf _ _ H)). destruct (ed_ring _ _ H) as [<- _]. rewrite length_ring_view; lia. Qed.

Lemma edits_commit t e : edits t e -> count t + edit_length t + 1 <= RIX_TTY_INPUT -> line_wf RIX_TTY_INPUT (edit_commit t) -> edits (edit_commit t) (commit_line e).
Proof.
  intros H Hc Hw. pose proof (edits_length t e H) as Hl. pose proof (edits_count t e H) as Hn. pose proof (wf_count t (ed_wf _ _ H)) as Hct. pose proof (ed_bytes _ _ H) as Hb.
  destruct (line_bytes_ring t (pending e) (text e) (ed_wf _ _ H) (ed_ring _ _ H) (ed_text _ _ H) Hb Hl ltac:(lia)) as (B1 & B2 & B3 & B4).
  unfold edit_commit in *. fold (line_bytes t) in *. set (t1 := line_bytes t) in *. pose proof (put_ring 10 t1 _ B1 B2 ltac:(lia)) as Hr. set (t2 := put_input 10 t1) in *.
  assert (Hw2 : line_wf RIX_TTY_INPUT t2) by (apply line_wf_put; [lia|done|done]).
  set (t3 := set_canonical_ready (canonical_ready t2 + 1) t2) in *. assert (Hw3 : line_wf RIX_TTY_INPUT t3) by (destruct Hw2; by split). destruct (save_rest t3) as [S1 S2]. injection S1 as S1. injection S2 as S2.
  assert (Hready : canonical_ready t2 = canonical_ready t) by (unfold t2; rewrite B4; done). assert (Hmode : canonical t3 = canonical t) by (unfold t3, t2; rewrite B4; done).
  assert (Hlen3 : edit_length t3 = edit_length t) by (unfold t3, t2; rewrite B4; done). assert (Hline3 : edit_line t3 = edit_line t) by (unfold t3, t2; rewrite B4; done).
  assert (Hrows3 : rows_hold t3 (past e)) by (unfold t3, t2, rows_hold; rewrite B4; split; [apply (ed_past _ _ H)|apply (ed_rows _ _ H)]).
  assert (Hbrowse : history_cursor t3 = history_cursor t) by (unfold t3, t2; rewrite B4; done).
  set (t4 := tty_edit_history_save t3) in *.
  assert (Hhist : rows_hold t4 (if len (text e) =? 0 then past e else remember (text e) (past e)) /\ history_cursor t4 = Z.of_nat (if len (text e) =? 0 then browse e else length (if len (text e) =? 0 then past e else remember (text e) (past e)))).
  { destruct (len (text e) =? 0) eqn:E; bool_to_prop.
    - unfold t4, tty_edit_history_save. rewrite Hlen3, Hl, E. cbn [Z.eqb]. split; [done|]. rewrite Hbrowse. apply (ed_browse _ _ H).
    - apply (save_rows t3 (past e) (text e)); try done; [congruence| |congruence]. rewrite Hlen3, Hline3. apply (ed_text _ _ H). }
  assert (Hring : tail t4 = tail t2 /\ head t4 = head t2 /\ count t4 = count t2 /\ input t4 = input t2) by (repeat split; assumption). destruct Hring as (G1 & G2 & G3 & G4).
  destruct Hhist as [[P1 P2] P3]. destruct Hr as [Hv Htl]. split; try done.
  - split; cbn [input head count tail set_line_chars set_edit_cursor set_edit_length pending commit_line]; rewrite ?G1, ?G2, ?G3, ?G4; [|done]. by rewrite app_assoc.
  - cbn [pending commit_line]. apply Forall_app. split; [apply (ed_queue _ _ H)|]. apply Forall_app. split; [|by repeat constructor]. apply (list.Forall_impl _ _ _ Hb). intros x Hx. lia.
  - cbn [canonical_ready set_line_chars set_edit_cursor set_edit_length pending commit_line]. rewrite !newlines_app, (newlines_text (text e)) by done. change (newlines [10]) with 1. rewrite <- (ed_ready _ _ H). replace (canonical_ready t4) with (canonical_ready t2 + 1) by (symmetry; assumption). lia.
  - change (canonical t4 <> 0). replace (canonical t4) with (canonical t) by (symmetry; trans (canonical t3); assumption). apply (ed_mode _ _ H).
Qed.

Lemma edits_arrow t e ch : edits t e -> line_wf RIX_TTY_INPUT (press_arrow ch t) -> RIX_TTY_KEY_UP <= ch <= RIX_TTY_KEY_RIGHT -> (editor_key ch e).1 = 0 /\ edits (press_arrow ch t) (editor_key ch e).2.
Proof.
  intros H Hw Hch. unfold press_arrow, editor_key, RIX_TTY_KEY_UP, RIX_TTY_KEY_DOWN, RIX_TTY_KEY_LEFT, RIX_TTY_KEY_RIGHT, truthy in *. pose proof (ed_past _ _ H) as Hp. pose proof (ed_browse _ _ H) as Hb. pose proof (ed_cursor _ _ H) as Hc. pose proof (edits_length t e H) as Hl.
  rewrite text_length in Hl. pose proof (wf_history_cursor t (ed_wf _ _ H)) as Hcur.
  destruct (ch =? 128) eqn:E1; bool_to_prop; [subst ch; cbn [orb fst snd] in *|].
  { split; [done|]. destruct (past e) as [|l h] eqn:E; cbn in Hp; [rewrite Hp; done|]. rewrite (proj2 (Z.eqb_neq _ _)) in * by lia. apply edits_recall; [done|done|rewrite E; cbn; lia|]. change (128 =? RIX_TTY_KEY_UP) with true. cbv iota. lia. }
  destruct (ch =? 129) eqn:E2; bool_to_prop; [subst ch; cbn [orb fst snd] in *|].
  { split; [done|]. destruct (past e) as [|l h] eqn:E; cbn in Hp; [rewrite Hp; done|]. rewrite (proj2 (Z.eqb_neq _ _)) in * by lia. assert (Hpe : length (past e) = S (length h)) by by rewrite E.
    apply edits_recall; [done|done|rewrite E; cbn [length]; destruct (Nat.ltb_spec (browse e) (S (length h))); lia|]. change (129 =? RIX_TTY_KEY_UP) with false. cbv iota. cbn [length]. destruct (Nat.ltb_spec (browse e) (S (length h))), (_ <? _) eqn:E3; bool_to_prop; lia. }
  cbn [orb] in *. destruct (ch =? 130) eqn:E3; bool_to_prop; cbn [andb fst snd] in *.
  { subst ch. split; [done|]. change (130 =? 131) with false in *. cbn [andb] in *. destruct (left e) as [|x l] eqn:E; cbn in Hc; [rewrite Hc; done|]. rewrite (proj2 (Z.eqb_neq _ _)) by lia. cbn [negb]. apply edits_move; [done| |lia]. unfold text. rewrite E, reverse_cons, <- app_assoc. done. }
  destruct (ch =? 131) eqn:E4; bool_to_prop; [|lia]. cbn [andb fst snd] in *. split; [done|]. destruct (right e) as [|x r] eqn:E; cbn in Hl; [rewrite (proj2 (Z.ltb_ge _ _)) by lia; done|]. rewrite (proj2 (Z.ltb_lt _ _)) by lia.
  apply edits_move; [done| |cbn; lia]. unfold text. by rewrite E, reverse_cons, <- app_assoc.
Qed.
Lemma edits_press t e ch : tty_wf t -> edits t e -> 0 <= ch < 256 -> (press ch t).1 = (editor_key ch e).1 /\ edits (press ch t).2 (editor_key ch e).2.
Proof.
  intros Ht H Hch. pose proof (proj2 (press_wf ch t Ht)) as Hw. unfold press in *. pose proof (ed_mode _ _ H) as Hm. pose proof (edits_length t e H) as Hl. pose proof (edits_count t e H) as Hn. pose proof (ed_cursor _ _ H) as Hc.
  unfold truthy in *. rewrite (proj2 (Z.eqb_neq _ _) Hm) in *. cbn [negb andb] in *. destruct (_ && (ch <=? _)) eqn:E; bool_to_prop.
  { destruct (edits_arrow t e ch H Hw ltac:(lia)) as [-> ?]. done. }
  unfold editor_key, RIX_TTY_KEY_UP, RIX_TTY_KEY_DOWN, RIX_TTY_KEY_LEFT, RIX_TTY_KEY_RIGHT in *. rewrite (proj2 (Z.eqb_neq ch 128)), (proj2 (Z.eqb_neq ch 129)), (proj2 (Z.eqb_neq ch 130)), (proj2 (Z.eqb_neq ch 131)) by lia.
  destruct ((ch =? 8) || _) eqn:E1.
  { cbn [fst snd] in *. split; [done|]. destruct (left e) as [|x l] eqn:El; cbn in Hc; [rewrite Hc; done|]. rewrite (proj2 (Z.eqb_neq _ _)) in * by lia. cbn [negb] in *. by apply (edits_erase t e x l). }
  destruct ((ch =? 10) || _) eqn:E2.
  { rewrite <- Hn, <- Hl. destruct (_ <? _) eqn:E3; [done|]. bool_to_prop. cbn [fst snd] in *. split; [done|]. apply edits_commit; [done|lia|done]. }
  apply orb_false_iff in E1 as [_ E1]. rewrite E1 in Hw |- *. rewrite orb_false_r in Hw |- *. rewrite <- Hl. cbn [fst snd] in *. destruct ((ch <? 0x20) || (RIX_TTY_LINE_MAX <=? edit_length t + 1)) eqn:E3; [done|]. bool_to_prop. cbn [fst snd]. split; [done|]. apply edits_insert; [done|lia|lia|done].
Qed.

(** ** Reading *)

Lemma read_loop_line n : forall t e got, edits t e ->
  (read_loop n t got).2 = got ++ (take_line n (pending e)).1 /\
  edits (read_loop n t got).1 {| left := left e; right := right e; pending := (take_line n (pending e)).2; past := past e; browse := browse e |}.
Proof.
  induction n as [|n IH]; intros t e got H; cbn [read_loop take_line fst snd]; [rewrite app_nil_r; split; [done|by destruct e]|].
  pose proof (edits_count t e H) as Hn. pose proof (wf_count t (ed_wf _ _ H)) as Hct. pose proof (wf_head t (ed_wf _ _ H)) as Hh. destruct (ed_ring _ _ H) as [Hv Ht]. pose proof (ed_queue _ _ H) as Hq. pose proof (ed_ready _ _ H) as Hr.
  destruct (count t =? 0) eqn:E0; bool_to_prop.
  { rewrite E0 in Hn. destruct e as [l r [|x q] h b]; [|cbn in Hn; lia]. cbn. rewrite app_nil_r. done. }
  rewrite (view_pop _ _ _ _ Hh) in Hv by (unfold RIX_TTY_INPUT in *; lia). destruct e as [l r q h b]. cbn [left right pending past browse] in *. subst q. set (x := aget 0 (input t) (head t)) in *. inversion Hq as [|? ? Hx Hq']; subst.
  rewrite (proj2 (Z.eqb_neq x 13)) by done. cbv zeta. set (t1 := set_count _ _). set (q := ring_view _ _ _ (count t - 1)) in *. change (canonical t1) with (canonical t). unfold truthy. rewrite (proj2 (Z.eqb_neq _ _) (ed_mode _ _ H)). cbn [negb andb].
  assert (Hw1 : line_wf RIX_TTY_INPUT t1) by (apply taken_wf; [apply (ed_wf _ _ H)|done]).
  assert (Hring1 : ring_is t1 q) by (split; [done|]; unfold t1; cbn; rewrite Ht, Zplus_mod_idemp_l; f_equal; lia).
  destruct (x =? 10) eqn:Ex; bool_to_prop; cbn [fst snd].
  - split; [done|]. destruct H, Hring1. split; try done; [destruct Hw1; by split|]. cbn [canonical_ready set_canonical_ready pending]. change (canonical_ready t1) with (canonical_ready t). rewrite Hr. unfold newlines. rewrite filter_cons_True by done. cbn. lia.
  - assert (H1 : edits t1 {| left := l; right := r; pending := q; past := h; browse := b |}).
    { destruct H. split; try done. cbn [pending]. change (canonical_ready t1) with (canonical_ready t). rewrite Hr. unfold newlines. by rewrite filter_cons_False. }
    destruct (IH t1 _ (got ++ [x]) H1) as [I1 I2]. cbn [left right pending past browse] in *. destruct (take_line n q) as [a c]. cbn [fst snd] in *. split; [rewrite I1, <- app_assoc; done|done].
Qed.

(** ** Sessions *)

(** What happens on the consoles: a key, a read, output of a program. *)
Inductive tty_event :=
| Key (id ch : Z)
| Read (id n : Z)
| Emit (id : Z) (buf : list Z).
(** The keys that send a signal (Ctrl-C, Ctrl-Z and Ctrl-\) are left out. *)
Definition event_ok (x : tty_event) : Prop :=
  match x with
  | Key id ch => 0 <= id < RIX_TTY_COUNT /\ 0 <= ch < 256 /\ is_control ch = false
  | Read id _ | Emit id _ => 0 <= id < RIX_TTY_COUNT
  end.
(** An editor per console; output changes none. *)
Definition edit_event (x : tty_event) (es : list editor) : (Z * list Z) * list editor :=
  match x with
  | Key id ch => let '(rc, e) := editor_key ch (aget blank_editor es id) in ((rc, []), aset id e es)
  | Read id n => let '(r, e) := editor_read n (aget blank_editor es id) in (r, aset id e es)
  | Emit _ buf => ((0, []), es)
  end.
Fixpoint edit_events (l : list tty_event) (es : list editor) : list (Z * list Z) :=
  match l with
  | [] => []
  | x :: l => let '(r, es) := edit_event x es in r :: edit_events l es
  end.

Section Session.
Context {W : Type} {HW : TtyHost W} {HR : HostReturns W} (font : list Z).
Abbreviation st := (cpu * (console * W))%type.

Definition tty_event_run (x : tty_event) : M st (Z * list Z) :=
  match x with
  | Key id ch => rc ← tty_input font id ch; mret (rc, [])
  | Read id n => tty_read id n
  | Emit id buf => '(rc, _) ← tty_output font id buf; mret (rc, [])
  end.
Fixpoint tty_events_run (l : list tty_event) : M st (list (Z * list Z)) :=
  match l with
  | [] => mret []
  | x :: l => r ← tty_event_run x; rs ← tty_events_run l; mret (r :: rs)
  end.

(** Each console is in step with its editor. *)
Definition linked (c : console) (es : list editor) : Prop :=
  good c /\ tty_input_lock c = spin_free /\ len es = RIX_TTY_COUNT /\ forall j, 0 <= j < RIX_TTY_COUNT -> edits (tty_at j c) (aget blank_editor es j).

Lemma linked_step id c c' es e : linked c es -> good c' -> tty_input_lock c' = spin_free -> 0 <= id < RIX_TTY_COUNT -> (forall j, 0 <= j -> j <> id -> tty_at j c' = tty_at j c) -> edits (tty_at id c') e -> linked c' (aset id e es).
Proof.
  intros (Hg & Hi & Hn & He) Hg' Hi' Hid Ho Hid'. split; [done|]. split; [done|]. split; [by rewrite length_aset|]. intros j Hj. destruct (decide (j = id)) as [->|Hne]; [by rewrite aget_aset_eq by lia|]. rewrite aget_aset_ne by lia. rewrite Ho by lia. by apply He.
Qed.

Lemma key_linked id ch c es : linked c es -> 0 <= id < RIX_TTY_COUNT -> 0 <= ch < 256 -> is_control ch = false ->
  runs (tty_event_run (Key id ch)) c (fun r c' => r = (edit_event (Key id ch) es).1 /\ linked c' (edit_event (Key id ch) es).2).
Proof.
  intros HL Hid Hch Hs. pose proof HL as (Hg & Hi & Hn & He). pose proof (tty_at_wf id c (proj1 Hg) Hid) as Hw. destruct (edits_press (tty_at id c) _ ch Hw (He id Hid) Hch) as [P1 P2].
  cbn [tty_event_run edit_event]. destruct (editor_key ch (aget blank_editor es id)) as [rc e]. cbn [fst snd] in *. unfold tty_input. apply runs_tbind, runs_tbind, runs_input; [done|].
  eapply runs_mono; [apply (runs_press font id ch (set_input_lock spin_held c) Hg Hid)|]. { unfold signals. by rewrite Hs, andb_false_r. } intros r c1 [-> Hp]. change (tty_at id (set_input_lock spin_held c)) with (tty_at id c) in *.
  rewrite P1. destruct Hp as ((Hwi & Hf & Ho & Hl) & Hsame & Hother & _).
  assert (HL' : linked (set_input_lock spin_free c1) (aset id e es)).
  { apply (linked_step id c); try done.
    - split; [apply Hwi|]. change (tty_output_lock c1 = spin_free). rewrite Ho. apply Hg.
    - intros j Hj Hne. change (tty_at j c1 = tty_at j c). rewrite Hother by done. change (tty_at j (on_console id (fun _ => (press ch (tty_at id c)).2) c) = tty_at j c). apply tty_at_other; lia.
    - change (tty_at id (set_input_lock spin_free c1)) with (tty_at id c1). apply (same_line_edits _ _ _ Hsame). change (edits (tty_at id (on_console id (fun _ => (press ch (tty_at id c)).2) c)) e). unfold on_console. rewrite tty_at_same; [done|done|apply Hg]. }
  unfold tty_valid. rewrite (proj2 (Z.ltb_lt _ _)) by lia. apply runs_tbind, runs_thost; [intros w Hw'; destruct (wake_returns id w Hw') as (w' & E & Hw''); by exists tt, w'|]. intros _. apply runs_tret, runs_tret. done.
Qed.
Lemma read_linked id n c es : linked c es -> 0 <= id < RIX_TTY_COUNT -> runs (tty_event_run (Read id n)) c (fun r c' => r = (edit_event (Read id n) es).1 /\ linked c' (edit_event (Read id n) es).2).
Proof.
  intros HL Hid. pose proof HL as (Hg & Hi & Hn & He). pose proof (He id Hid) as Hed. cbn [tty_event_run edit_event]. unfold editor_read. set (e := aget blank_editor es id) in *. apply runs_input; [done|]. unfold tty_read_nolock, tty_valid. rewrite (proj2 (Z.ltb_lt _ _)) by lia. cbn [negb].
  apply runs_tbind, runs_consoles. change (tty_at id (set_input_lock spin_held c)) with (tty_at id c). unfold truthy. rewrite (proj2 (Z.eqb_neq _ _) (ed_mode _ _ Hed)). cbn [negb andb]. rewrite (ed_ready _ _ Hed). destruct (newlines _ =? 0).
  - apply runs_tret. split; [done|]. apply (linked_step id c); try done.
  - destruct (read_loop_line (Z.to_nat n) (tty_at id c) e [] Hed) as [R1 R2]. destruct (tty_at_wf id c (proj1 Hg) Hid) as [Hsc Hln]. destruct (read_loop_wf (Z.to_nat n) (tty_at id c) [] Hln) as [W1 W2]. destruct (read_loop _ _ _) as [t' got], (take_line _ _) as [a b]. cbn [fst snd app] in *. subst got.
    apply runs_tbind, runs_on_tty, runs_tret. split; [done|]. assert (Hw' : tty_wf t') by (split; [by apply (same_screen_wf _ _ W2)|done]).
    apply (linked_step id c); try done.
    + exact (good_press id c t' Hg Hid Hw').
    + intros j Hj Hne. change (tty_at j (on_console id (fun _ => t') c) = tty_at j c). apply tty_at_other; lia.
    + change (edits (tty_at id (on_console id (fun _ => t') c)) {| left := left e; right := right e; pending := b; past := past e; browse := browse e |}). unfold on_console. rewrite tty_at_same; [done|done|apply Hg].
Qed.
Lemma emit_linked id buf c es : linked c es -> 0 <= id < RIX_TTY_COUNT -> runs (tty_event_run (Emit id buf)) c (fun r c' => r = (edit_event (Emit id buf) es).1 /\ linked c' (edit_event (Emit id buf) es).2).
Proof.
  intros (Hg & Hi & Hn & He) Hid. cbn [tty_event_run edit_event fst snd]. apply runs_tbind, runs_tty_output; [done|done|]. intros c' ((Hw & Hf & Ho & Hl) & Hsame & Hother & _) Hg'. apply runs_tret. split; [done|]. split; [done|]. split; [congruence|]. split; [done|].
  intros j Hj. destruct (decide (j = id)) as [->|Hne]; [by apply (same_line_edits _ _ _ Hsame), He|]. rewrite Hother by lia. by apply He.
Qed.
Lemma events_linked l : forall c es, linked c es -> Forall event_ok l -> runs (tty_events_run l) c (fun rs _ => rs = edit_events l es).
Proof.
  induction l as [|x l IH]; intros c es HL Hok; cbn [tty_events_run edit_events]; [by apply runs_tret|]. apply list.Forall_cons in Hok as [Hx Hok]. apply runs_tbind.
  assert (H : runs (tty_event_run x) c (fun r c' => r = (edit_event x es).1 /\ linked c' (edit_event x es).2)).
  { destruct x; cbn [event_ok] in Hx; [destruct Hx as (? & ? & ?); by apply key_linked|by apply read_linked|by apply emit_linked]. }
  eapply runs_mono; [exact H|]. intros r c' [-> HL']. destruct (edit_event x es) as [r es']. cbn [fst snd] in *. apply runs_tbind. eapply runs_mono; [by apply IH|]. intros rs c2 ->. by apply runs_tret.
Qed.

(** C11: the consoles are line editors. After [tty_init], any keys other than the three that
    send signals (Ctrl-C, Ctrl-Z and Ctrl-\, which discard input), any reads and any output on the
    four consoles give the results of four independent editors that know nothing of rings,
    shifted buffers or echo: printable keys go in at the cursor, erase takes out the byte
    before it, the arrows move the cursor or recall one of the last 32 lines, a newline
    hands the line over (or is refused with -2 when it does not fit), and a read returns the
    oldest finished line or the front of it, and -3 when there is none. *)
Theorem consoles_are_line_editors (k : cpu) (w : W) l : host_ok w -> Forall event_ok l ->
  exists s, (_ ← tty_init font; tty_events_run l) (k, (zero_console, w)) = Some (edit_events l (replicate 4 blank_editor), s).
Proof.
  intros Hw Hl. assert (H : runs (_ ← tty_init font; tty_events_run l) zero_console (fun r _ => r = edit_events l (replicate 4 blank_editor))).
  { apply runs_tbind. eapply runs_mono; [apply runs_init, starting_zero|]. intros [] c [(Hc & Hk & Ho & Hi) Hf]. apply events_linked; [|done]. split; [done|]. split; [done|]. split; [done|].
    intros j Hj. replace (aget blank_editor (replicate 4 blank_editor) j) with blank_editor by (unfold RIX_TTY_COUNT in *; unfold aget; by rewrite lookup_replicate_2 by lia). apply edits_fresh; [apply (tty_at_wf j c Hc Hj)|by apply Hf]. }
  destruct (H k w Hw) as (r & c' & w' & E & _ & ->). by eexists.
Qed.
End Session.
