(* ===== verification/TtyDemo.v ===== *)
(** * Terminals at work: concrete sessions, and two that go wrong *)
From stdpp Require Import base tactics list numbers.
From S2P Require Import Prelude Lock Bytes Tty TtyInv TtyBounds TtyLine.

(** A host whose calls return at once. *)
#[local] Instance quiet_host : TtyHost unit := {|
  call_hook _ _ _ := mret 0; waitqueue_init _ := mret tt; wake_readers _ := mret tt; wait_prepare _ := mret 0; block_current := mret tt; vmm_map_mmio b _ := mret b |}.
#[local] Program Instance quiet_returns : HostReturns unit := {| host_ok _ := True |}.
Solve Obligations with (intros; repeat eexists).

Definition shell_cpu : cpu := {| rflags := 0x202; cpu_pid := 1; cpu_index := 0 |}.
(** Three glyphs of two by two pixels. *)
Definition tiny_font : list Z :=
  [0x72; 0xb5; 0x4a; 0x86; 0; 0; 0; 0; 32; 0; 0; 0; 0; 0; 0; 0; 3; 0; 0; 0; 2; 0; 0; 0; 2; 0; 0; 0; 2; 0; 0; 0; 0x80; 0x40; 0xc0; 0x00; 0x40; 0xc0].

Definition bounds_calls : list tty_call :=
  [CSetFramebuffer 0xb8000 64 4 4 16 0; COutput 0 [65; 0x1b; 91; 50; 74; 0xe2; 66; 10]; CInput 0 104; CInput 0 10; CSetDimensions 0 2 2; COutput 0 [67; 68; 69; 70]; CReadBlocking 0 10; CPtyOpen; CPtyMasterWrite 0 [97; 127; 3]; CRecover 0].
Lemma tty_stays_in_bounds_witness : Forall call_ok bounds_calls /\ exists c cs c' w', tty_session (W := unit) tiny_font bounds_calls (shell_cpu, (zero_console, tt)) = Some (c :: cs, (shell_cpu, (c', w'))) /\ console_wf c /\ unlocked c /\ ink c = [] /\
  chain (fun c c' => within c c' /\ unlocked c') c cs.
Proof.
  assert (H : Forall call_ok bounds_calls) by (repeat constructor; cbn; unfold is_u32; lia). split; [exact H|]. exact (tty_stays_in_bounds tiny_font shell_cpu tt bounds_calls I H).
Defined.

(** "lx", left, "s", right, erase, enter: the line is "ls". *)
Definition typed : list tty_event :=
  [Key 1 108; Key 1 120; Key 1 0x82; Key 1 115; Key 1 0x83; Emit 1 [42; 0x1b; 91; 72]; Read 1 9; Key 1 127; Key 1 13; Key 2 0x80; Read 1 2; Read 1 9; Key 1 0x80; Key 1 33; Key 1 10; Read 1 9].
Lemma consoles_are_line_editors_witness : Forall event_ok typed /\ exists s, (_ ← tty_init (W := unit) tiny_font; tty_events_run tiny_font typed) (shell_cpu, (zero_console, tt)) =
  Some ([(0, []); (0, []); (0, []); (0, []); (0, []); (0, []); (-3, []); (0, []); (0, []); (0, []); (0, [108; 115]); (0, [10]); (0, []); (0, []); (0, []); (0, [108; 115; 33; 10])], s).
Proof.
  assert (H : Forall event_ok typed) by (repeat constructor; cbn; lia). split; [exact H|]. exact (consoles_are_line_editors tiny_font shell_cpu tt typed I H).
Defined.

(** ** Sessions that go wrong *)

(** A run from the zeroed consoles; the results of its steps. *)
Definition tried {A} (m : M (cpu * (console * unit)) A) : option A := fst <$> m (shell_cpu, (zero_console, tt)).
Fixpoint keys (id : Z) (l : list Z) : M (cpu * (console * unit)) unit := match l with [] => mret tt | ch :: l => _ ← tty_input tiny_font id ch; keys id l end.

Definition ctrl_c_session : M (cpu * (console * unit)) (list Z * list Z) :=
  _ ← tty_init tiny_font;
  _ ← keys 0 [108; 115; 10; 97; 98; 0x03];
  '(_, first) ← tty_read 0 64;
  _ ← keys 0 [10];
  '(_, second) ← tty_read 0 64;
  mret (first, second).
Definition pty_session : M (cpu * (console * unit)) (list (Z * list Z) * Z) :=
  _ ← tty_init tiny_font;
  '(_, id) ← tty_pty_open tiny_font;
  _ ← tty_pty_set_termios id 0;
  _ ← tty_pty_master_write id [97; 98; 99];
  got ← tty_pty_slave_read id 3;
  _ ← tty_pty_set_termios id RIX_TTY_LFLAG_CANONICAL;
  _ ← tty_pty_master_write id [127];
  n ← consoles (fun c => count (slave (pty_at id c)));
  _ ← tty_pty_set_termios id 0;
  more ← tty_pty_slave_read id 6;
  mret ([got; more], n).

(** An interrupt destroys finished lines and keeps the abandoned one. "ls" and enter are
    typed, then "ab" and Ctrl-C: the two bytes are taken from the end of the input ring, where
    the unfinished line no longer is, so the first read gives "l" instead of "ls" with its
    newline, and the next enter hands over "ab". *)
Theorem ctrl_c_eats_finished_line : tried ctrl_c_session = Some ([108], [97; 98; 10]).
Proof. vm_compute. reflexivity. Qed.

(** The same with an erasure on a pseudo terminal: the slave has read the three bytes that
    were typed before the erase key came, the byte count wraps below zero, and further reads
    return bytes nobody wrote. *)
Lemma pty_erase_underflow : tried pty_session = Some ([(0, [97; 98; 99]); (0, [0; 0; 0; 0; 0; 0])], UINT64_MAX).
Proof. vm_compute. reflexivity. Qed.
