(* ===== verification/Elf.v ===== *)
(** * Executable image checks ([kernel/elf/elf.c])

    Program images come from files, so every field is untrusted. Reads go
    through [copy_bytes], which yields [None] when the bytes asked for do not
    all lie in the image; a value of the functions below is [None] only when
    such a read happened. Pointers are taken to be non-null. *)
From stdpp Require Import base tactics list numbers.
From S2P Require Import Prelude Bytes.

Definition RIX_ELFCLASS64 : Z := 2.
Definition RIX_ELFDATA2LSB : Z := 1.
Definition RIX_ELF_MACHINE_X86_64 : Z := 62.
Definition RIX_PT_LOAD : Z := 1.
Definition RIX_PF_X : Z := 1.
Definition RIX_PF_W : Z := 2.

Record rix_elf64_ehdr_t := {
  ident : list Z; eh_type : Z; machine : Z; version : Z; eh_entry : Z; phoff : Z; shoff : Z; eh_flags : Z;
  ehsize : Z; phentsize : Z; phnum : Z; shentsize : Z; shnum : Z; shstrndx : Z }.

Record rix_elf64_phdr_t := {
  ph_type : Z; ph_flags : Z; ph_offset : Z; vaddr : Z; paddr : Z; filesz : Z; memsz : Z; align : Z }.

Definition sizeof_ehdr : Z := 64.
Definition sizeof_phdr : Z := 56.

Definition range_ok (size off len : Z) : bool := if size <? off then false else if size - off <? len then false else true.

(** The [n] bytes at [off], or nothing when they are not all there. *)
Definition copy_bytes (image : list Z) (off n : Z) : option (list Z) :=
  if (0 <=? off) && (off + n <=? Z.of_nat (length image)) then Some (slice image off n) else None.

Definition ehdr_of (b : list Z) : rix_elf64_ehdr_t := {|
  ident := slice b 0 16; eh_type := le_load 2 b 16; machine := le_load 2 b 18; version := le_load 4 b 20;
  eh_entry := le_load 8 b 24; phoff := le_load 8 b 32; shoff := le_load 8 b 40; eh_flags := le_load 4 b 48;
  ehsize := le_load 2 b 52; phentsize := le_load 2 b 54; phnum := le_load 2 b 56;
  shentsize := le_load 2 b 58; shnum := le_load 2 b 60; shstrndx := le_load 2 b 62 |}.

Definition phdr_of (b : list Z) : rix_elf64_phdr_t := {|
  ph_type := le_load 4 b 0; ph_flags := le_load 4 b 4; ph_offset := le_load 8 b 8; vaddr := le_load 8 b 16;
  paddr := le_load 8 b 24; filesz := le_load 8 b 32; memsz := le_load 8 b 40; align := le_load 8 b 48 |}.

Definition has_flag (flags mask : Z) : bool := truthy (Z.land flags mask).

(** Return code and what is stored through [out], if anything. *)
Definition elf64_program_header (image : list Z) (image_size index : Z) : option (Z * option rix_elf64_phdr_t) :=
  if image_size <? sizeof_ehdr then Some (-1, None)
  else b ← copy_bytes image 0 sizeof_ehdr;
    let h := ehdr_of b in
    if negb (phentsize h =? sizeof_phdr) || (phnum h <=? index) then Some (-1, None)
    else
      let off := u64 (phoff h + index * phentsize h) in
      if (off <? phoff h) || negb (range_ok image_size off sizeof_phdr) then Some (-1, None)
      else b ← copy_bytes image off sizeof_phdr; Some (0, Some (phdr_of b)).

(** A collected range: [load_start[n]], [load_end[n]], [load_flags[n]]. *)
Record load := { load_start : Z; load_end : Z; load_flags : Z }.

(** One turn of the loop over the program headers: the ranges collected so far,
    or the code's early return ([inr None] is an access outside the image). *)
Definition load_turn (image : list Z) (image_size i : Z) (loads : list load) : list load + option Z :=
  match elf64_program_header image image_size i with
  | None => inr None
  | Some (rc, p) =>
    if negb (rc =? 0) then inr (Some (-1)) else
    match p with
    | None => inr None
    | Some p =>
      if ph_type p =? RIX_PT_LOAD then
        if memsz p <? filesz p then inr (Some (-1))
        else if negb (range_ok image_size (ph_offset p) (filesz p)) then inr (Some (-1))
        else if truthy (memsz p) && (u64 (vaddr p + memsz p) <? vaddr p) then inr (Some (-1))
        else if truthy (align p) && negb (Z.land (align p) (align p - 1) =? 0) then inr (Some (-1))
        else if has_flag (ph_flags p) RIX_PF_W && has_flag (ph_flags p) RIX_PF_X then inr (Some (-1))
        else if memsz p =? 0 then inl loads
        else if 64 <=? Z.of_nat (length loads) then inr (Some (-1))
        else inl (loads ++ [{| load_start := vaddr p; load_end := u64 (vaddr p + memsz p); load_flags := ph_flags p |}])
      else inl loads
    end
  end.

Definition no_load : load := {| load_start := 0; load_end := 0; load_flags := 0 |}.

(** The two nested loops over pairs of ranges. *)
Definition loads_overlap (loads : list load) : bool :=
  match for_ 0 (Z.of_nat (length loads)) (fun i (_ : unit) =>
    match for_ (i + 1) (Z.of_nat (length loads) - (i + 1)) (fun j (_ : unit) =>
      let a := aget no_load loads i in let b := aget no_load loads j in
      if (load_start a <? load_end b) && (load_start b <? load_end a) then inr tt else inl tt) tt with
    | inr _ => inr tt
    | inl _ => inl tt
    end) tt with
  | inr _ => true
  | inl _ => false
  end.

Definition entry_in_loads (e : Z) (loads : list load) : bool :=
  match for_ 0 (Z.of_nat (length loads)) (fun i (_ : unit) =>
    let a := aget no_load loads i in
    if negb (has_flag (load_flags a) RIX_PF_X) then inl tt
    else if (load_start a <=? e) && (e <? load_end a) then inr tt else inl tt) tt with
  | inr _ => true
  | inl _ => false
  end.

Definition check_loads (image : list Z) (image_size : Z) (h : rix_elf64_ehdr_t) : option Z :=
  match for_ 0 (phnum h) (load_turn image image_size) [] with
  | inr r => r
  | inl loads =>
    if Z.of_nat (length loads) =? 0 then Some (-1)
    else if loads_overlap loads then Some (-1)
    else if negb (entry_in_loads (eh_entry h) loads) then Some (-1)
    else Some 0
  end.

(** The tests of the identification bytes and the fixed header fields. *)
Definition header_bad (h : rix_elf64_ehdr_t) : bool :=
  negb (aget 0 (ident h) 0 =? 0x7f) || negb (aget 0 (ident h) 1 =? 69) || negb (aget 0 (ident h) 2 =? 76) || negb (aget 0 (ident h) 3 =? 70)
  || (negb (aget 0 (ident h) 4 =? RIX_ELFCLASS64) || negb (aget 0 (ident h) 5 =? RIX_ELFDATA2LSB) || negb (aget 0 (ident h) 6 =? 1))
  || (negb (machine h =? RIX_ELF_MACHINE_X86_64) || negb (version h =? 1))
  || (negb (ehsize h =? sizeof_ehdr) || negb (phentsize h =? sizeof_phdr) || (phnum h =? 0)).

Definition elf64_validate (image : list Z) (image_size : Z) : option (Z * option rix_elf64_ehdr_t) :=
  if image_size <? sizeof_ehdr then Some (-1, None)
  else b ← copy_bytes image 0 sizeof_ehdr;
    let out := ehdr_of b in
    if header_bad out then Some (-1, Some out)
    else
      let phbytes := u64 (phentsize out * phnum out) in
      if truthy (phnum out) && negb (phbytes / phnum out =? phentsize out) then Some (-1, Some out)
      else if negb (range_ok image_size (phoff out) phbytes) then Some (-1, Some out)
      else rc ← check_loads image image_size out; Some (rc, Some out).

(** ** What an accepted image promises *)

Definition phdr_at (image : list Z) (h : rix_elf64_ehdr_t) (i : Z) : rix_elf64_phdr_t :=
  phdr_of (slice image (phoff h + i * sizeof_phdr) sizeof_phdr).

Definition is_load (p : rix_elf64_phdr_t) : Prop := ph_type p = RIX_PT_LOAD.

Definition header_ok (h : rix_elf64_ehdr_t) : Prop :=
  take 7 (ident h) = [0x7f; 69; 76; 70; 2; 1; 1] /\ machine h = 62 /\ version h = 1 /\
  ehsize h = 64 /\ phentsize h = 56 /\ phnum h <> 0.

(** The file part of a segment is in the image, its memory part does not wrap,
    its alignment is a power of two, and it is not both writable and executable. *)
Definition segment_ok (image_size : Z) (p : rix_elf64_phdr_t) : Prop :=
  filesz p <= memsz p /\ ph_offset p + filesz p <= image_size /\ vaddr p + memsz p < 2 ^ 64 /\
  (align p = 0 \/ exists k, 0 <= k /\ align p = 2 ^ k) /\
  ~ (Z.testbit (ph_flags p) 1 = true /\ Z.testbit (ph_flags p) 0 = true).

(** The non-empty loadable segments, in file order. *)
Definition segment (p : rix_elf64_phdr_t) : option load :=
  if (ph_type p =? RIX_PT_LOAD) && negb (memsz p =? 0)
  then Some {| load_start := vaddr p; load_end := vaddr p + memsz p; load_flags := ph_flags p |} else None.
Definition segments (image : list Z) (h : rix_elf64_ehdr_t) (n : Z) : list load := omap (fun i => segment (phdr_at image h i)) (seqZ 0 n).

Definition disjoint_ranges (a b : load) : Prop := load_end a <= load_start b \/ load_end b <= load_start a.

Record image_ok (image : list Z) (image_size : Z) (h : rix_elf64_ehdr_t) : Prop := {
  ok_size : 64 <= image_size;
  ok_out : h = ehdr_of (slice image 0 64);
  ok_header : header_ok h;
  ok_table : phoff h + phnum h * 56 <= image_size;
  ok_segments : forall i, 0 <= i < phnum h -> is_load (phdr_at image h i) -> segment_ok image_size (phdr_at image h i);
  ok_count : 1 <= Z.of_nat (length (segments image h (phnum h))) <= 64;
  ok_disjoint : forall i j a b, (i < j)%nat -> segments image h (phnum h) !! i = Some a -> segments image h (phnum h) !! j = Some b -> disjoint_ranges a b;
  ok_entry : exists a, a ∈ segments image h (phnum h) /\ Z.testbit (load_flags a) 0 = true /\ load_start a <= eh_entry h < load_end a;
}.

(** ** Proofs *)

Lemma range_ok_spec size off len : 0 <= len -> range_ok size off len = true <-> off + len <= size.
Proof. intros Hl. unfold range_ok. split; intros H; split_ifs; try lia; done. Qed.

Lemma copy_bytes_run image off n : 0 <= off -> off + n <= Z.of_nat (length image) -> copy_bytes image off n = Some (slice image off n).
Proof. intros H0 H1. unfold copy_bytes. case_if; [done|lia]. Qed.

Lemma has_flag_X f : has_flag f RIX_PF_X = Z.testbit f 0.
Proof. exact (land_bit_test f 0 ltac:(lia)). Qed.
Lemma has_flag_W f : has_flag f RIX_PF_W = Z.testbit f 1.
Proof. exact (land_bit_test f 1 ltac:(lia)). Qed.

Lemma header_bad_spec h : length (ident h) = 16%nat -> header_bad h = false <-> header_ok h.
Proof.
  intros Hl. unfold header_bad, header_ok, RIX_ELFCLASS64, RIX_ELFDATA2LSB, RIX_ELF_MACHINE_X86_64, sizeof_ehdr, sizeof_phdr.
  destruct (ident h) as [|a0 [|a1 [|a2 [|a3 [|a4 [|a5 [|a6 rest]]]]]]]; try done. cbn [take].
  change (aget 0 (a0 :: _) 0) with a0. change (aget 0 (a0 :: _) 1) with a1. change (aget 0 (a0 :: _) 2) with a2.
  change (aget 0 (a0 :: _) 3) with a3. change (aget 0 (a0 :: _) 4) with a4. change (aget 0 (a0 :: _) 5) with a5.
  change (aget 0 (a0 :: _) 6) with a6. rewrite !orb_false_iff, !negb_false_iff, !Z.eqb_eq, Z.eqb_neq.
  split; [intros; destruct_and?; subst; by repeat split|].
  intros (H & Hr). injection H as -> -> -> -> -> -> ->. destruct_and!. by repeat split.
Qed.

Lemma segments_step image h i : 0 <= i -> segments image h (i + 1) = segments image h i ++ from_option (fun x => [x]) [] (segment (phdr_at image h i)).
Proof.
  intros Hi. unfold segments. rewrite seqZ_app, omap_app, Z.add_0_l by lia. f_equal.
Qed.

Lemma segments_mono image h i n : 0 <= i <= n -> (length (segments image h i) <= length (segments image h n))%nat.
Proof.
  intros Hi. replace n with (i + (n - i)) by lia. unfold segments. rewrite seqZ_app, omap_app, length_app by lia. lia.
Qed.

Lemma loads_overlap_spec l : loads_overlap l = false <->
  forall i j a b, (i < j)%nat -> l !! i = Some a -> l !! j = Some b -> disjoint_ranges a b.
Proof.
  set (meets i j := let a := aget no_load l i in let b := aget no_load l j in (load_start a <? load_end b) && (load_start b <? load_end a)).
  set (inner i := match for_ (i + 1) (Z.of_nat (length l) - (i + 1)) (fun j (_ : unit) => if meets i j then inr tt else inl tt) tt with
    | inr _ => true | inl _ => false end).
  assert (Hin : forall i, inner i = true <-> exists j, i < j < Z.of_nat (length l) /\ meets i j = true).
  { intros i. unfold inner. destruct (for_search (meets i) (fun j _ => if meets i j then inr tt else inl tt)
      (i + 1) (Z.of_nat (length l) - (i + 1)) ltac:(done)) as [[-> Hf]|[-> (j & Hj & Hm)]]; split; try done.
    - intros (j & Hj & Hm). rewrite Hf in Hm; [done|lia].
    - intros _. exists j. split; [lia|done]. }
  unfold loads_overlap. match goal with |- context [for_ 0 _ ?b _] =>
    destruct (for_search inner b 0 (Z.of_nat (length l))) as [[-> Hf]|[-> (i & Hi & Hm)]] end.
  { intros i s. unfold inner, meets. by destruct (for_ (i + 1) _ _ _). }
  - split; [|done]. intros _ i j a b Hij Ha Hb. pose proof (lookup_lt_Some _ _ _ Hb).
    specialize (Hf (Z.of_nat i) ltac:(lia)). destruct (meets (Z.of_nat i) (Z.of_nat j)) eqn:E.
    + assert (inner (Z.of_nat i) = true); [|congruence]. apply Hin. exists (Z.of_nat j). split; [lia|done].
    + unfold meets, aget in E. rewrite !Nat2Z.id, Ha, Hb in E. cbn in E. unfold disjoint_ranges. bool_to_prop. destruct E; bool_to_prop; lia.
  - split; [done|]. intros Hd. apply Hin in Hm as (j & Hj & Hm).
    destruct (lookup_lt_is_Some_2 l (Z.to_nat i) ltac:(lia)) as [a Ha], (lookup_lt_is_Some_2 l (Z.to_nat j) ltac:(lia)) as [b Hb].
    specialize (Hd (Z.to_nat i) (Z.to_nat j) a b ltac:(lia) Ha Hb). unfold meets, aget in Hm. rewrite Ha, Hb in Hm. cbn in Hm. unfold disjoint_ranges in Hd. bool_to_prop. lia.
Qed.

Lemma entry_in_loads_spec e l : entry_in_loads e l = true <->
  exists a, a ∈ l /\ Z.testbit (load_flags a) 0 = true /\ load_start a <= e < load_end a.
Proof.
  set (f i := let a := aget no_load l i in Z.testbit (load_flags a) 0 && ((load_start a <=? e) && (e <? load_end a))).
  unfold entry_in_loads. match goal with |- context [for_ 0 _ ?b _] =>
    destruct (for_search f b 0 (Z.of_nat (length l))) as [[-> Hf]|[-> (i & Hi & Hm)]] end.
  { intros i s. unfold f. cbn zeta. rewrite has_flag_X. by destruct (Z.testbit _ 0). }
  - split; [done|]. intros (a & Ha & HX & Hr). apply list_elem_of_lookup_1 in Ha as [i Hi]. pose proof (lookup_lt_Some _ _ _ Hi).
    specialize (Hf (Z.of_nat i) ltac:(lia)). unfold f, aget in Hf. rewrite Nat2Z.id, Hi in Hf. cbv zeta in Hf.
    cbn [default from_option id] in Hf. rewrite HX in Hf. cbn [andb] in Hf. bool_to_prop. destruct Hf; bool_to_prop; lia.
  - split; [|done]. intros _. destruct (lookup_lt_is_Some_2 l (Z.to_nat i) ltac:(lia)) as [a Ha].
    unfold f, aget in Hm. rewrite Ha in Hm. cbv zeta in Hm. cbn [default from_option id] in Hm. bool_to_prop. exists a. split; [by eapply list_elem_of_lookup_2|]. split; [done|lia].
Qed.

Section Checks.
Context (image : list Z) (image_size : Z) (h : rix_elf64_ehdr_t).
Hypothesis (Hbytes : Forall is_u8 image).
Hypothesis (Hsize : 64 <= image_size <= Z.of_nat (length image)).
Hypothesis (Hwidth : is_u64 image_size).
Hypothesis (Hh : h = ehdr_of (slice image 0 64)).
Hypothesis (Hent : phentsize h = 56).
Hypothesis (Htable : phoff h + phnum h * 56 <= image_size).

Lemma slice_u8 off n : Forall is_u8 (slice image off n).
Proof using Hbytes. apply Forall_slice; [done|]. unfold is_u8. lia. Qed.

Lemma header_ranges : 0 <= phnum h < 2 ^ 16 /\ 0 <= phoff h /\ 0 <= eh_entry h.
Proof using Hbytes Hh.
  rewrite Hh. unfold ehdr_of. cbn [phnum phoff eh_entry].
  pose proof (le_load_range 2 (slice image 0 64) 56 (slice_u8 _ _)). pose proof (le_load_range 8 (slice image 0 64) 32 (slice_u8 _ _)).
  pose proof (le_load_range 8 (slice image 0 64) 24 (slice_u8 _ _)). lia.
Qed.

Lemma phdr_ranges i : let p := phdr_at image h i in
  is_u64 (vaddr p) /\ is_u64 (memsz p) /\ is_u64 (filesz p) /\ is_u64 (ph_offset p) /\ is_u64 (align p).
Proof using Hbytes. cbn. repeat split; apply (le_load_range 8), slice_u8. Qed.

Lemma program_header_run i : 0 <= i < phnum h -> elf64_program_header image image_size i = Some (0, Some (phdr_at image h i)).
Proof using All.
  intros Hi. pose proof header_ranges as (Hn & Ho & _). unfold elf64_program_header, sizeof_ehdr, sizeof_phdr. unfold is_u64 in Hwidth.
  case_if; [lia|]. rewrite copy_bytes_run by lia. cbn [mbind option_bind]. rewrite <- Hh, Hent.
  assert (Hoff : u64 (phoff h + i * 56) = phoff h + i * 56) by (apply u64_id; unfold is_u64; lia). rewrite Hoff.
  destruct (phnum h <=? i) eqn:E; bool_to_prop; [lia|]. change (56 =? 56) with true. cbn [negb orb].
  destruct (phoff h + i * 56 <? phoff h) eqn:E1; bool_to_prop; [lia|]. cbn [orb].
  rewrite (proj2 (range_ok_spec image_size (phoff h + i * 56) 56 ltac:(lia))) by lia. cbn [negb].
  rewrite copy_bytes_run by lia. done.
Qed.

Lemma load_turn_run i loads : 0 <= i < phnum h ->
  match load_turn image image_size i loads with
  | inl loads' => (is_load (phdr_at image h i) -> segment_ok image_size (phdr_at image h i)) /\
      loads' = loads ++ from_option (fun x => [x]) [] (segment (phdr_at image h i)) /\
      (loads' = loads \/ Z.of_nat (length loads') <= 64)
  | inr r => r = Some (-1) /\ (is_load (phdr_at image h i) /\ ~ segment_ok image_size (phdr_at image h i) \/
      64 <= Z.of_nat (length loads) /\ segment (phdr_at image h i) <> None)
  end.
Proof using All.
  intros Hi. unfold load_turn. rewrite program_header_run by done. cbn [Z.eqb negb].
  pose proof (phdr_ranges i) as (Hv & Hm & Hf & Ho & Hal). set (p := phdr_at image h i) in *. cbn zeta in *.
  unfold segment, segment_ok, is_load, is_u64 in *. rewrite has_flag_W, has_flag_X.
  destruct (ph_type p =? RIX_PT_LOAD) eqn:Et; bool_to_prop; cbn [andb]; [|split; [done|]; split; [by rewrite app_nil_r|by left]].
  assert (Hwrap : u64 (vaddr p + memsz p) <? vaddr p = negb (vaddr p + memsz p <? 2 ^ 64)).
  { unfold u64. destruct (vaddr p + memsz p <? 2 ^ 64) eqn:E; bool_to_prop; cbn [negb].
    - rewrite Z.mod_small by lia. apply Z.ltb_ge. lia.
    - rewrite <- (Z.mod_unique_pos _ (2 ^ 64) 1 (vaddr p + memsz p - 2 ^ 64)) by lia. apply Z.ltb_lt. lia. }
  pose proof (range_ok_spec image_size (ph_offset p) (filesz p) ltac:(lia)) as Hro.
  assert (Hpow : truthy (align p) && negb (Z.land (align p) (align p - 1) =? 0) = false <-> (align p = 0 \/ exists k, 0 <= k /\ align p = 2 ^ k)).
  { unfold truthy. destruct (align p =? 0) eqn:Ez; bool_to_prop; cbn [negb andb]; [intuition|].
    rewrite negb_false_iff, Z.eqb_eq, land_pred_pow2 by lia. intuition. }
  rewrite Hwrap. unfold truthy at 1.
  destruct (memsz p <? filesz p) eqn:E1; bool_to_prop; [split; [done|left; split; [done|lia]]|].
  destruct (range_ok image_size (ph_offset p) (filesz p)); cbn [negb].
  2: { split; [done|]. left. split; [done|]. intros (_ & H & _). apply Hro in H. done. }
  destruct (truthy (align p) && negb (Z.land (align p) (align p - 1) =? 0)) eqn:Ea.
  { destruct (memsz p =? 0), (vaddr p + memsz p <? 2 ^ 64); cbn [negb andb]; (split; [done|left; split; [done|]]);
      intros (_ & _ & _ & H & _); apply Hpow in H; done. }
  pose proof (proj1 Hro eq_refl) as Hfile. pose proof (proj1 Hpow eq_refl) as Halign.
  destruct (Z.testbit (ph_flags p) 1 && Z.testbit (ph_flags p) 0) eqn:Ex.
  { apply andb_true_iff in Ex. destruct (memsz p =? 0), (vaddr p + memsz p <? 2 ^ 64); cbn [negb andb]; (split; [done|left; split; [done|]]); tauto. }
  assert (Hx : ~ (Z.testbit (ph_flags p) 1 = true /\ Z.testbit (ph_flags p) 0 = true)) by (intros [H1 H2]; by rewrite H1, H2 in Ex).
  destruct (memsz p =? 0) eqn:E0; bool_to_prop; cbn [negb andb from_option].
  { split; [intros _; repeat split; [lia|lia|lia|done|done]|]. split; [by rewrite app_nil_r|by left]. }
  destruct (vaddr p + memsz p <? 2 ^ 64) eqn:E2; bool_to_prop; cbn [negb andb]; [|split; [done|left; split; [done|lia]]].
  destruct (64 <=? Z.of_nat (length loads)) eqn:E3; bool_to_prop; [split; [done|by right]|].
  rewrite u64_id by (unfold is_u64; lia). split; [intros _; repeat split; [lia|lia|lia|done|done]|]. split; [done|]. right. rewrite length_app. cbn. lia.
Qed.

Definition all_segments_ok (n : Z) : Prop := forall i, 0 <= i < n -> is_load (phdr_at image h i) -> segment_ok image_size (phdr_at image h i).

Lemma collect_loads :
  match for_ 0 (phnum h) (load_turn image image_size) [] with
  | inl loads => loads = segments image h (phnum h) /\ all_segments_ok (phnum h) /\ Z.of_nat (length loads) <= 64
  | inr r => r = Some (-1) /\ ~ (all_segments_ok (phnum h) /\ Z.of_nat (length (segments image h (phnum h))) <= 64)
  end.
Proof using All.
  pose proof header_ranges as (Hn & _).
  pose proof (for_inv (fun i loads => loads = segments image h i /\ all_segments_ok i /\ Z.of_nat (length loads) <= 64)
    (fun r => r = Some (-1) /\ ~ (all_segments_ok (phnum h) /\ Z.of_nat (length (segments image h (phnum h))) <= 64))
    0 (phnum h) (load_turn image image_size) [] ltac:(lia)) as H.
  destruct (for_ 0 (phnum h) _ []) as [loads|r]; apply H; clear H.
  1, 3: split; [done|]; split; [intros i Hi; lia|cbn; lia].
  all: intros i loads' Hi (-> & Hok & Hl); pose proof (load_turn_run i (segments image h i) ltac:(lia)) as Ht; pose proof (segments_step image h i ltac:(lia)) as Hs;
    destruct (load_turn _ _ _ _) as [l'|r'];
    [ destruct Ht as (Hs1 & -> & Hlen); split; [done|]; split; [|destruct Hlen as [->|]; lia];
      intros k Hk; destruct (decide (k = i)) as [->|]; [done|apply Hok; lia]
    | destruct Ht as (-> & Hbad); split; [done|]; intros [Hall Hmax]; destruct Hbad as [[Hl1 Hb]|[Hl1 Hb]];
      [by apply Hb, Hall; [lia|]|];
      pose proof (segments_mono image h (i + 1) (phnum h) ltac:(lia)) as Hm; rewrite Hs, length_app in Hm;
      destruct (segment _); [cbn in Hm; lia|done] ].
Qed.

Lemma check_loads_run : exists rc, check_loads image image_size h = Some rc /\ (rc = 0 \/ rc = -1) /\
  (rc = 0 <-> all_segments_ok (phnum h) /\ 1 <= Z.of_nat (length (segments image h (phnum h))) <= 64 /\
    (forall i j a b, (i < j)%nat -> segments image h (phnum h) !! i = Some a -> segments image h (phnum h) !! j = Some b -> disjoint_ranges a b) /\
    exists a, a ∈ segments image h (phnum h) /\ Z.testbit (load_flags a) 0 = true /\ load_start a <= eh_entry h < load_end a).
Proof using All.
  pose proof collect_loads as H. unfold check_loads. destruct (for_ 0 (phnum h) _ []) as [loads|r].
  2: { destruct H as (-> & Hno). exists (-1). split; [done|]. split; [by right|]. split; [done|]. tauto. }
  destruct H as (-> & Hok & Hl). pose proof (loads_overlap_spec (segments image h (phnum h))) as Ho.
  pose proof (entry_in_loads_spec (eh_entry h) (segments image h (phnum h))) as He.
  case_if; [exists (-1); split; [done|]; split; [by right|]; split; [done|]; lia|].
  destruct (loads_overlap _); [exists (-1); split; [done|]; split; [by right|]; split; [done|]; intros (_ & _ & Hd & _); by apply Ho in Hd|].
  destruct (entry_in_loads _ _); cbn [negb].
  - exists 0. split; [done|]. split; [by left|]. split; [|done]. intros _. split; [done|]. split; [lia|]. split; [by apply Ho|by apply He].
  - exists (-1). split; [done|]. split; [by right|]. split; [done|]. intros (_ & _ & _ & H). by apply He in H.
Qed.
End Checks.

(** C39: [elf64_validate] never reads outside the image it is given, and it
    accepts exactly the images whose header is an x86-64 ELF header with its
    program-header table inside the file, whose loadable segments have their file
    part inside the file, do not wrap, are aligned to powers of two and never
    writable and executable at once, of which 1 to 64 are non-empty, pairwise
    disjoint in memory, one of them executable and holding the entry point. *)
Theorem elf_validate_exact (image : list Z) (image_size : Z) :
  Forall is_u8 image -> 0 <= image_size <= Z.of_nat (length image) -> is_u64 image_size ->
  exists rc out, elf64_validate image image_size = Some (rc, out) /\ (rc = 0 \/ rc = -1) /\
    (forall h, rc = 0 /\ out = Some h <-> image_ok image image_size h).
Proof.
  intros Hb Hs Hw. unfold elf64_validate, sizeof_ehdr.
  destruct (image_size <? 64) eqn:E; bool_to_prop.
  { exists (-1), None. split; [done|]. split; [by right|]. intros h. split; [by intros [? ?]|]. intros []. lia. }
  rewrite copy_bytes_run by lia. cbn [mbind option_bind]. remember (ehdr_of (slice image 0 64)) as h eqn:Hh.
  assert (Hid : length (ident h) = 16%nat) by (rewrite Hh; cbn; pose proof (length_slice (slice image 0 64) 0 16); lia).
  pose proof (header_bad_spec h Hid) as Hhd. pose proof (header_ranges image h Hb Hh) as (Hn & Hpo & _).
  destruct (header_bad h).
  { exists (-1), (Some h). split; [done|]. split; [by right|]. intros h'. split; [by intros [? ?]|]. intros [? -> Hok]. rewrite <- Hh in Hok. by apply Hhd in Hok. }
  assert (Hok : header_ok h) by (by apply Hhd). pose proof Hok as (_ & _ & _ & _ & Hent & Hpn).
  assert (Hpb : u64 (phentsize h * phnum h) = 56 * phnum h) by (rewrite Hent; apply u64_id; unfold is_u64; lia). rewrite Hpb.
  assert (Hdiv : 56 * phnum h / phnum h = 56) by (apply Z.div_mul; lia). rewrite Hdiv, Hent. cbn [Z.eqb negb]. rewrite andb_false_r.
  pose proof (range_ok_spec image_size (phoff h) (56 * phnum h) ltac:(lia)) as Hro.
  destruct (range_ok _ _ _); cbn [negb].
  2: { exists (-1), (Some h). split; [done|]. split; [by right|]. intros h'. split; [by intros [? ?]|]. intros [? -> ? Ht].
       rewrite <- Hh in Ht. assert (false = true) by (apply Hro; lia). done. }
  pose proof (proj1 Hro eq_refl) as Ht.
  destruct (check_loads_run image image_size h Hb ltac:(lia) Hw Hh Hent ltac:(lia)) as (rc & -> & Hrc & Hiff). cbn [mbind option_bind].
  exists rc, (Some h). split; [done|]. split; [done|]. intros h'. split.
  - intros [-> H]. injection H as <-. destruct (proj1 Hiff eq_refl) as (H1 & H2 & H3 & H4). constructor; try done; lia.
  - intros [H1 -> H2 H3 H4 H5 H6 H7]. rewrite <- Hh in *. split; [by apply Hiff|done].
Qed.

(** A four-byte program loaded at [0x8000000000]. *)
Definition demo_elf : list Z :=
  [0x7f; 69; 76; 70; 2; 1; 1; 0; 0; 0; 0; 0; 0; 0; 0; 0; 2; 0; 62; 0; 1; 0; 0; 0]
  ++ [0; 0; 0; 0; 0x80; 0; 0; 0] ++ [64; 0; 0; 0; 0; 0; 0; 0] ++ replicate 12 0
  ++ [64; 0; 56; 0; 1; 0; 0; 0; 0; 0; 0; 0]
  ++ [1; 0; 0; 0; 5; 0; 0; 0] ++ [120; 0; 0; 0; 0; 0; 0; 0] ++ [0; 0; 0; 0; 0x80; 0; 0; 0] ++ replicate 8 0
  ++ [4; 0; 0; 0; 0; 0; 0; 0] ++ [4; 0; 0; 0; 0; 0; 0; 0] ++ [0; 16; 0; 0; 0; 0; 0; 0]
  ++ [0x90; 0x90; 0xeb; 0xfe].

Lemma demo_elf_bytes : Forall is_u8 demo_elf.
Proof. apply Forall_forall. intros x Hx. unfold is_u8. revert x Hx. apply Forall_forall. repeat (constructor; [lia|]). constructor. Qed.

Lemma elf_validate_exact_witness :
  elf64_validate demo_elf 124 = Some (0, Some (ehdr_of demo_elf)) /\ image_ok demo_elf 124 (ehdr_of demo_elf).
Proof.
  assert (E : elf64_validate demo_elf 124 = Some (0, Some (ehdr_of demo_elf))) by (vm_compute; reflexivity).
  split; [exact E|].
  destruct (elf_validate_exact demo_elf 124 demo_elf_bytes ltac:(vm_compute; split; discriminate) ltac:(unfold is_u64; lia)) as (rc & out & E' & _ & H).
  rewrite E in E'. injection E' as <- <-. by apply H.
Defined.
