(* ===== verification/LibcUtf8.v ===== *)
(** * UTF-8 conversion in the C library ([user/libc/src/libc.c])

    Bytes are integers of [0, 256), wide characters 32-bit signed integers, strings
    lists up to their first zero. Decoding is shown to accept exactly the encodings
    of Unicode scalar values, and the string conversions to be inverses. *)
From stdpp Require Import base tactics list numbers.
From S2P Require Import Prelude Bytes.

#[local] Ltac Zify.zify_post_hook ::= Z.to_euclidean_division_equations.

Definition utf8_length (lead : Z) : Z :=
  if lead <? 0x80 then 1
  else if (0xc2 <=? lead) && (lead <=? 0xdf) then 2
  else if (0xe0 <=? lead) && (lead <=? 0xef) then 3
  else if (0xf0 <=? lead) && (lead <=? 0xf4) then 4
  else 0.

(** The length and the character, [None] for the result -1. *)
Definition utf8_decode (text : list Z) (length : Z) : option (Z * Z) :=
  let t i := aget 0 text i in
  let need := utf8_length (t 0) in
  if (need =? 0) || (length <? need) then None
  else match for_ 1 (need - 1) (fun i (_ : unit) => if negb (Z.land (t i) 0xc0 =? 0x80) then inr tt else inl tt) tt with
  | inr _ => None
  | inl _ =>
    let tail i := Z.land (t i) 0x3f in
    let value :=
      if need =? 1 then t 0
      else if need =? 2 then Z.lor (Z.shiftl (Z.land (t 0) 0x1f) 6) (tail 1)
      else if need =? 3 then Z.lor (Z.lor (Z.shiftl (Z.land (t 0) 0x0f) 12) (Z.shiftl (tail 1) 6)) (tail 2)
      else Z.lor (Z.lor (Z.lor (Z.shiftl (Z.land (t 0) 0x07) 18) (Z.shiftl (tail 1) 12)) (Z.shiftl (tail 2) 6)) (tail 3) in
    if ((need =? 2) && (value <? 0x80)) || ((need =? 3) && (value <? 0x800)) || ((need =? 4) && (value <? 0x10000)) then None
    else if (0xd800 <=? value) && (value <=? 0xdfff) then None
    else if 0x10ffff <? u64 value then None
    else Some (need, value)
  end.

(** The bytes written, [None] for the result [(size_t)-1]. *)
Definition wcrtomb (value : Z) : option (list Z) :=
  let v := u64 value in
  if (0x10ffff <? v) || ((0xd800 <=? v) && (v <=? 0xdfff)) then None
  else
    let low k := u8 (Z.lor 0x80 (Z.land (Z.shiftr v k) 0x3f)) in
    Some (if v <? 0x80 then [u8 v]
          else if v <? 0x800 then [u8 (Z.lor 0xc0 (Z.shiftr v 6)); low 0]
          else if v <? 0x10000 then [u8 (Z.lor 0xe0 (Z.shiftr v 12)); low 6; low 0]
          else [u8 (Z.lor 0xf0 (Z.shiftr v 18)); low 12; low 6; low 0]).

Definition strlen (s : list Z) : Z := match list_find (fun c => c = 0) s with Some (n, _) => Z.of_nat n | None => Z.of_nat (length s) end.

Inductive wc_error := EINVAL | ERANGE.

(** One multibyte character: how many bytes it takes, and the character. *)
Definition mbrtowc (text : list Z) (length : Z) : wc_error + (Z * option Z) :=
  if length =? 0 then inl EINVAL
  else if aget 0 text 0 =? 0 then inr (0, Some 0)
  else match utf8_decode text length with None => inl EINVAL | Some (n, v) => inr (n, Some v) end.
Definition mbrlen (text : list Z) (length : Z) : wc_error + Z :=
  if length =? 0 then inl EINVAL
  else if aget 0 text 0 =? 0 then inr 0
  else match utf8_decode text length with None => inl EINVAL | Some (n, _) => inr n end.

(** The loop of [mbstowcs]: every turn takes at least one byte, so the length of the text is enough turns. *)
Fixpoint mbs_loop (fuel : nat) (p : list Z) (count capacity : Z) : wc_error + list Z :=
  if aget 0 p 0 =? 0 then inr []
  else match fuel with
  | O => inr []
  | S fuel =>
    if capacity <=? count + 1 then inl ERANGE
    else match utf8_decode p (strlen p) with
    | None => inl EINVAL
    | Some (n, v) => match mbs_loop fuel (drop (Z.to_nat n) p) (count + 1) capacity with inl e => inl e | inr l => inr (v :: l) end
    end
  end.
(** The wide characters stored before the final zero. *)
Definition mbstowcs (text : list Z) (capacity : Z) : wc_error + list Z :=
  match mbs_loop (length text) text 0 capacity with
  | inl e => inl e
  | inr l => if capacity <=? Z.of_nat (length l) then inl ERANGE else inr l
  end.

Fixpoint wcs_loop (text : list Z) (used capacity : Z) : wc_error + list Z :=
  match text with
  | [] => inr []
  | w :: text =>
    if w =? 0 then inr []
    else match wcrtomb w with
    | None => inl EINVAL
    | Some b =>
      if capacity <? used + Z.of_nat (length b) + 1 then inl ERANGE
      else match wcs_loop text (used + Z.of_nat (length b)) capacity with inl e => inl e | inr l => inr (b ++ l) end
    end
  end.
(** The bytes stored before the final zero. *)
Definition wcstombs (text : list Z) (capacity : Z) : wc_error + list Z :=
  match wcs_loop text 0 capacity with
  | inl e => inl e
  | inr l => if capacity <=? Z.of_nat (length l) then inl ERANGE else inr l
  end.

Definition wcslen (text : list Z) : Z := strlen text.

(** ** Arithmetic view *)

Definition scalar (v : Z) : Prop := 0 <= v <= 0x10ffff /\ ~ (0xd800 <= v <= 0xdfff).

(** The encoding of RFC 3629. *)
Definition encode (v : Z) : list Z :=
  if v <? 0x80 then [v]
  else if v <? 0x800 then [192 + v / 64; 128 + v mod 64]
  else if v <? 0x10000 then [224 + v / 4096; 128 + v / 64 mod 64; 128 + v mod 64]
  else [240 + v / 262144; 128 + v / 4096 mod 64; 128 + v / 64 mod 64; 128 + v mod 64].

Lemma low_bits x k : 0 <= k -> Z.land x (2 ^ k - 1) = x mod 2 ^ k.
Proof. intros Hk. rewrite <- Z.land_ones by done. by rewrite Z.ones_equiv, Z.sub_1_r. Qed.

Lemma tag_bits a b k : 0 <= k -> 0 <= b < 2 ^ k -> Z.lor (a * 2 ^ k) b = a * 2 ^ k + b.
Proof. intros Hk Hb. rewrite <- (Z.shiftl_mul_pow2 a k) by done. rewrite lor_shiftl by done. by rewrite Z.shiftl_mul_pow2. Qed.

Lemma wcrtomb_encode v : scalar v -> wcrtomb v = Some (encode v).
Proof.
  intros [Hv Hs]. unfold wcrtomb, encode. rewrite u64_id by (unfold is_u64; lia).
  destruct (_ || _) eqn:E; [exfalso; bool_to_prop; destruct E; bool_to_prop; lia|]. clear E. f_equal. cbv zeta.
  assert (Hlow : forall k, 0 <= k -> u8 (Z.lor 0x80 (Z.land (Z.shiftr v k) 0x3f)) = 128 + v / 2 ^ k mod 64).
  { intros k Hk. rewrite (low_bits _ 6), Z.shiftr_div_pow2 by done. change 0x80 with (2 * 2 ^ 6). rewrite tag_bits by (try done; apply Z.mod_pos_bound; lia).
    unfold u8. pose proof (Z.mod_pos_bound (v / 2 ^ k) 64 ltac:(lia)). change (2 ^ 6) with 64. change (2 ^ 8) with 256. rewrite Z.mod_small; lia. }
  rewrite !Hlow, !Z.shiftr_div_pow2 by done. change (2 ^ 0) with 1. change (2 ^ 6) with 64. change (2 ^ 12) with 4096. change (2 ^ 18) with 262144. rewrite Z.div_1_r.
  assert (Htag : forall a b k, 0 <= k -> 0 <= b < 2 ^ k -> 0 <= a * 2 ^ k + b < 256 -> u8 (Z.lor (a * 2 ^ k) b) = a * 2 ^ k + b).
  { intros a b k Hk Hb H. rewrite tag_bits by done. by apply Z.mod_small. }
  change 0xc0 with (6 * 2 ^ 5). change 0xe0 with (14 * 2 ^ 4). change 0xf0 with (30 * 2 ^ 3).
  split_ifs; try done.
  - unfold u8. rewrite Z.mod_small by lia. done.
  - rewrite (Htag 6 (v / 64) 5) by (change (2 ^ 5) with 32; lia). done.
  - rewrite (Htag 14 (v / 4096) 4) by (change (2 ^ 4) with 16; lia). done.
  - rewrite (Htag 30 (v / 262144) 3) by (change (2 ^ 3) with 8; lia). done.
Qed.

Lemma cont_byte b : 0 <= b < 256 -> (Z.land b 0xc0 =? 0x80) = (128 <=? b) && (b <? 192).
Proof.
  intros Hb. assert (H : forallb (fun b => Bool.eqb (Z.land b 0xc0 =? 0x80) ((128 <=? b) && (b <? 192))) (seqZ 0 256) = true) by (vm_compute; reflexivity).
  rewrite forallb_forall in H. apply eqb_prop, H. apply list_elem_of_In, elem_of_seqZ. lia.
Qed.

(** Decoding in terms of divisions; [t] gives the bytes. *)
Definition decode (t : Z -> Z) (len : Z) : option (Z * Z) :=
  let cont i := (128 <=? t i) && (t i <? 192) in
  let ok (need v lo : Z) := if (len <? need) || (v <? lo) || ((0xd800 <=? v) && (v <=? 0xdfff)) || (0x10ffff <? v) then None else Some (need, v) in
  if t 0 <? 128 then ok 1 (t 0) 0
  else if (194 <=? t 0) && (t 0 <=? 223) then if cont 1 then ok 2 ((t 0 - 192) * 64 + (t 1 - 128)) 128 else None
  else if (224 <=? t 0) && (t 0 <=? 239) then if cont 1 && cont 2 then ok 3 ((t 0 - 224) * 4096 + (t 1 - 128) * 64 + (t 2 - 128)) 2048 else None
  else if (240 <=? t 0) && (t 0 <=? 244) then
    if cont 1 && cont 2 && cont 3 then ok 4 ((t 0 - 240) * 262144 + (t 1 - 128) * 4096 + (t 2 - 128) * 64 + (t 3 - 128)) 65536 else None
  else None.

Lemma utf8_decode_arith text len : Forall is_u8 text -> utf8_decode text len = decode (aget 0 text) len.
Proof.
  intros Hb. assert (Hu : forall i, 0 <= aget 0 text i < 256) by (intros i; exact (aget_u8 text i Hb)).
  unfold utf8_decode, decode. set (t := aget 0 text) in *. clearbody t. cbv zeta.
  pose proof (Hu 0) as H0. pose proof (Hu 1) as H1. pose proof (Hu 2) as H2. pose proof (Hu 3) as H3.
  assert (Htail : forall i, Z.land (t i) 0x3f = t i mod 64) by (intros; by apply (low_bits _ 6)). rewrite !Htail.
  replace (Z.land (t 0) 0x1f) with (t 0 mod 32) by (symmetry; by apply (low_bits _ 5)).
  replace (Z.land (t 0) 0x0f) with (t 0 mod 16) by (symmetry; by apply (low_bits _ 4)).
  replace (Z.land (t 0) 0x07) with (t 0 mod 8) by (symmetry; by apply (low_bits _ 3)).
  assert (Hcont : forall n A (x y : A), match for_ 1 n (fun i (_ : unit) => if negb (Z.land (t i) 0xc0 =? 0x80) then inr tt else inl tt) tt with inr _ => x | inl _ => y end
    = if forallb (fun i => (128 <=? t i) && (t i <? 192)) (seqZ 1 n) then y else x).
  { intros n A x y. match goal with |- context [for_ 1 n ?b tt] => destruct (for_search (fun i => negb ((128 <=? t i) && (t i <? 192))) b 1 n) as [[-> H]|[-> (i & Hi & H)]] end.
    - intros i s. by rewrite cont_byte.
    - rewrite (proj2 (forallb_forall _ _)); [done|]. intros i Hi. apply list_elem_of_In, elem_of_seqZ in Hi. specialize (H i ltac:(lia)). by apply negb_false_iff in H.
    - destruct (forallb _ _) eqn:E; [|done]. rewrite forallb_forall in E. rewrite (E i) in H; [done|]. apply list_elem_of_In, elem_of_seqZ. lia. }
  rewrite Hcont. clear Hcont. unfold utf8_length.
  assert (Hlor2 : forall a b, 0 <= b < 64 -> Z.lor (Z.shiftl a 6) b = a * 64 + b) by (intros a b Hb'; by apply (lor_shiftl a b 6)).
  assert (Hlor3 : forall a b c, 0 <= b < 64 -> 0 <= c < 64 -> Z.lor (Z.lor (Z.shiftl a 12) (Z.shiftl b 6)) c = a * 4096 + b * 64 + c).
  { intros a b c Hb' Hc. rewrite (Z.shiftl_mul_pow2 b) by done. rewrite lor_shiftl by (try done; change (2 ^ 12) with 4096; change (2 ^ 6) with 64; lia).
    change (2 ^ 12) with 4096. change (2 ^ 6) with 64. replace (a * 4096 + b * 64) with ((a * 64 + b) * 2 ^ 6) by (change (2 ^ 6) with 64; lia). rewrite tag_bits by done. change (2 ^ 6) with 64. lia. }
  assert (Hlor4 : forall a b c d, 0 <= b < 64 -> 0 <= c < 64 -> 0 <= d < 64 ->
    Z.lor (Z.lor (Z.lor (Z.shiftl a 18) (Z.shiftl b 12)) (Z.shiftl c 6)) d = a * 262144 + b * 4096 + c * 64 + d).
  { intros a b c d Hb' Hc Hd. rewrite (Z.shiftl_mul_pow2 b), (Z.shiftl_mul_pow2 c) by done. rewrite lor_shiftl by (try done; change (2 ^ 18) with 262144; change (2 ^ 12) with 4096; lia).
    change (2 ^ 18) with 262144. change (2 ^ 12) with 4096. replace (a * 262144 + b * 4096) with ((a * 64 + b) * 2 ^ 12) by (change (2 ^ 12) with 4096; lia).
    rewrite tag_bits by (try done; change (2 ^ 12) with 4096; change (2 ^ 6) with 64; lia). change (2 ^ 12) with 4096.
    replace ((a * 64 + b) * 4096 + c * 2 ^ 6) with (((a * 64 + b) * 64 + c) * 2 ^ 6) by (change (2 ^ 6) with 64; lia). rewrite tag_bits by done. change (2 ^ 6) with 64. lia. }
  assert (Hu64 : forall v, 0 <= v < 2 ^ 31 -> u64 v = v) by (intros v Hv; apply u64_id; unfold is_u64; lia).
  rewrite Hlor2, Hlor3, Hlor4 by lia. clear Hlor2 Hlor3 Hlor4.
  destruct (t 0 <? 128) eqn:E1; [|destruct ((194 <=? t 0) && (t 0 <=? 223)) eqn:E2; [|destruct ((224 <=? t 0) && (t 0 <=? 239)) eqn:E3; [|destruct ((240 <=? t 0) && (t 0 <=? 244)) eqn:E4]]];
    bool_to_prop; cbn [Z.eqb Pos.eqb]; [| | | |done].
  - change (seqZ 1 (1 - 1)) with (@nil Z). cbn [forallb andb orb]. rewrite Hu64, (proj2 (Z.ltb_ge (t 0) 0)) by lia. cbn [orb].
    destruct (len <? 1), ((55296 <=? t 0) && (t 0 <=? 57343)), (1114111 <? t 0); done.
  - change (seqZ 1 (2 - 1)) with [1]. cbn [forallb andb orb]. rewrite andb_true_r.
    destruct ((128 <=? t 1) && (t 1 <? 192)) eqn:C; [bool_to_prop|by destruct (len <? 2)].
    replace (t 0 mod 32 * 64 + t 1 mod 64) with ((t 0 - 192) * 64 + (t 1 - 128)) by lia. rewrite Hu64 by lia. set (v := _ + _). rewrite !orb_false_r.
    destruct (len <? 2), (v <? 128), ((55296 <=? v) && (v <=? 57343)), (1114111 <? v); done.
  - change (seqZ 1 (3 - 1)) with [1; 2]. cbn [forallb andb orb]. rewrite andb_true_r.
    destruct ((128 <=? t 1) && (t 1 <? 192) && ((128 <=? t 2) && (t 2 <? 192))) eqn:C; [bool_to_prop|by destruct (len <? 3)].
    replace (t 0 mod 16 * 4096 + t 1 mod 64 * 64 + t 2 mod 64) with ((t 0 - 224) * 4096 + (t 1 - 128) * 64 + (t 2 - 128)) by lia. rewrite Hu64 by lia. set (v := _ + _). rewrite !orb_false_r.
    destruct (len <? 3), (v <? 2048), ((55296 <=? v) && (v <=? 57343)), (1114111 <? v); done.
  - change (seqZ 1 (4 - 1)) with [1; 2; 3]. cbn [forallb andb orb]. rewrite andb_true_r, (andb_assoc (_ && _) (_ && _) (_ && _)).
    destruct ((128 <=? t 1) && (t 1 <? 192) && ((128 <=? t 2) && (t 2 <? 192)) && ((128 <=? t 3) && (t 3 <? 192))) eqn:C; [bool_to_prop|by destruct (len <? 4)].
    replace (t 0 mod 8 * 262144 + t 1 mod 64 * 4096 + t 2 mod 64 * 64 + t 3 mod 64) with ((t 0 - 240) * 262144 + (t 1 - 128) * 4096 + (t 2 - 128) * 64 + (t 3 - 128)) by lia.
    rewrite Hu64 by lia. set (v := _ + _). destruct (len <? 4), (v <? 65536), ((55296 <=? v) && (v <=? 57343)), (1114111 <? v); done.
Qed.

(** ** Exactness *)

Lemma encode_length v : 1 <= Z.of_nat (length (encode v)) <= 4.
Proof. unfold encode. split_ifs; cbn; lia. Qed.

Lemma decode_encode (text : list Z) len n v : len <= Z.of_nat (length text) -> decode (aget 0 text) len = Some (n, v) -> (0 <= aget 0 text 0) ->
  scalar v /\ encode v = take (Z.to_nat n) text /\ 0 <= n <= len.
Proof.
  intros Hlen E H0. unfold decode in E. cbv zeta in E. unfold scalar.
  repeat match type of E with
  | (if ?b then _ else _) = _ => destruct b eqn:?
  end; try discriminate E; injection E as <- <-; bool_to_prop.
  - split; [lia|]. split; [|lia]. destruct text as [|a text]; [cbn in Hlen; lia|]. change (aget 0 (a :: text) 0) with a in *. unfold encode. split_ifs; try lia. done.
  - split; [lia|]. split; [|lia]. destruct text as [|a [|b text]]; [cbn in Hlen; lia..|]. change (aget 0 (a :: b :: text) 0) with a in *. change (aget 0 (a :: b :: text) 1) with b in *.
    unfold encode. split_ifs; try lia. change (take (Z.to_nat 2) (a :: b :: text)) with [a; b]. repeat f_equal; lia.
  - split; [lia|]. split; [|lia]. destruct text as [|a [|b [|c text]]]; [cbn in Hlen; lia..|]. change (aget 0 (a :: b :: c :: text) 0) with a in *.
    change (aget 0 (a :: b :: c :: text) 1) with b in *. change (aget 0 (a :: b :: c :: text) 2) with c in *.
    unfold encode. split_ifs; try lia. change (take (Z.to_nat 3) (a :: b :: c :: text)) with [a; b; c]. repeat f_equal; lia.
  - split; [lia|]. split; [|lia]. destruct text as [|a [|b [|c [|d text]]]]; [cbn in Hlen; lia..|]. change (aget 0 (a :: b :: c :: d :: text) 0) with a in *.
    change (aget 0 (a :: b :: c :: d :: text) 1) with b in *. change (aget 0 (a :: b :: c :: d :: text) 2) with c in *. change (aget 0 (a :: b :: c :: d :: text) 3) with d in *.
    unfold encode. split_ifs; try lia. change (take (Z.to_nat 4) (a :: b :: c :: d :: text)) with [a; b; c; d]. repeat f_equal; lia.
Qed.

(** Decides the tests of [decode]: each branch is absurd or the answer. *)
Ltac decide_all :=
  split_ifs; repeat match goal with H : _ \/ _ |- _ => destruct H; bool_to_prop end; try lia; repeat f_equal; lia.

Lemma encode_decode v rest len : scalar v -> Z.of_nat (length (encode v)) <= len -> decode (aget 0 (encode v ++ rest)) len = Some (Z.of_nat (length (encode v)), v).
Proof.
  intros [Hv Hs]. unfold encode. split_ifs; cbn [length app Z.of_nat Pos.of_succ_nat Pos.succ]; intros Hlen; unfold decode; cbv zeta;
    match goal with |- context [aget 0 ?l] => set (t := aget 0 l) end.
  - assert (T0 : t 0 = v) by done. rewrite T0. decide_all.
  - assert (T0 : t 0 = 192 + v / 64) by done. assert (T1 : t 1 = 128 + v mod 64) by done. rewrite T0, T1. decide_all.
  - assert (T0 : t 0 = 224 + v / 4096) by done. assert (T1 : t 1 = 128 + v / 64 mod 64) by done. assert (T2 : t 2 = 128 + v mod 64) by done. rewrite T0, T1, T2. decide_all.
  - assert (T0 : t 0 = 240 + v / 262144) by done. assert (T1 : t 1 = 128 + v / 4096 mod 64) by done. assert (T2 : t 2 = 128 + v / 64 mod 64) by done.
    assert (T3 : t 3 = 128 + v mod 64) by done. rewrite T0, T1, T2, T3. decide_all.
Qed.

(** C37: the decoder accepts exactly UTF-8. [utf8_decode] answers with a length and
    a character if and only if the character is a Unicode scalar value, its encoding
    (what [wcrtomb] writes) is as long as the answer says and stands at the front of
    the text, within the bytes given. Overlong forms, surrogates, values beyond
    U+10FFFF, stray continuation bytes and truncated sequences are all refused. *)
Theorem utf8_decode_exact (text : list Z) (len n v : Z) (Hb : Forall is_u8 text) (Hlen : len <= Z.of_nat (length text)) :
  utf8_decode text len = Some (n, v) ↔ scalar v ∧ wcrtomb v = Some (take (Z.to_nat n) text) ∧ 0 <= n <= len.
Proof.
  rewrite utf8_decode_arith by done. split.
  - intros E. destruct (decode_encode text len n v Hlen E) as (Hs & He & Hn); [apply (aget_u8 text 0 Hb)|]. split; [done|]. by rewrite wcrtomb_encode, He.
  - intros (Hs & He & Hn). rewrite wcrtomb_encode in He by done. injection He as He. assert (El : length (encode v) = Z.to_nat n) by (rewrite He, length_take; lia).
    rewrite <- (take_drop (Z.to_nat n) text), <- He, (encode_decode v _ len Hs) by lia. f_equal. f_equal. lia.
Qed.

Lemma utf8_decode_exact_witness : utf8_decode [0xe2; 0x82; 0xac; 0x21] 4 = Some (3, 0x20ac) ∧ scalar 0x20ac ∧ wcrtomb 0x20ac = Some [0xe2; 0x82; 0xac].
Proof.
  assert (H : utf8_decode [0xe2; 0x82; 0xac; 0x21] 4 = Some (3, 0x20ac)) by (vm_compute; reflexivity). split; [exact H|].
  apply (utf8_decode_exact [0xe2; 0x82; 0xac; 0x21] 4 3 0x20ac) in H as (Hs & Hw & _); [split; [exact Hs|exact Hw]| |cbn; lia].
  repeat (apply list.Forall_cons; split; [unfold is_u8; lia|]). apply list.Forall_nil. exact I.
Defined.

(** ** String conversions *)

(** A string and what lies behind its final zero. *)
Definition cstring (s rest : list Z) : list Z := s ++ 0 :: rest.

Lemma strlen_cstring s rest : Forall (fun c => c <> 0) s -> strlen (cstring s rest) = Z.of_nat (length s).
Proof.
  intros H. unfold strlen, cstring. rewrite list_find_app_r.
  - cbn. rewrite decide_True by done. cbn. lia.
  - apply list_find_None. done.
Qed.

Lemma cstring_u8 s rest : Forall is_u8 s -> Forall is_u8 rest -> Forall is_u8 (cstring s rest).
Proof. intros. apply Forall_app_2; [done|]. constructor; [unfold is_u8; lia|done]. Qed.

Lemma aget_front s rest : s <> [] -> aget 0 (cstring s rest) 0 = aget 0 s 0.
Proof. by destruct s. Qed.

Lemma encode_nonzero v : scalar v -> v <> 0 -> Forall (fun c => c <> 0) (encode v) /\ Forall is_u8 (encode v) /\ (1 <= length (encode v))%nat.
Proof.
  intros [Hv Hs] H. unfold encode. split_ifs; repeat (rewrite list.Forall_cons); rewrite ?list.Forall_nil; unfold is_u8; cbn; repeat split; lia.
Qed.

Lemma wcrtomb_scalar w b : - 2 ^ 31 <= w < 2 ^ 31 -> wcrtomb w = Some b -> scalar w /\ b = encode w.
Proof.
  intros Hw E. assert (Hs : scalar w).
  { revert E. unfold wcrtomb. cbv zeta. destruct (_ || _) eqn:Eo; [done|]. intros _. apply orb_false_iff in Eo as [E1 E2].
    apply andb_false_iff in E2. unfold u64 in *. unfold scalar. bool_to_prop.
    assert (0 <= w). { destruct (decide (0 <= w)); [done|]. assert (w mod 2 ^ 64 = w + 2 ^ 64) by (symmetry; apply (Z.mod_unique _ _ (-1)); lia). lia. }
    rewrite (Z.mod_small w) in * by lia. split; [lia|]. destruct E2; bool_to_prop; lia. }
  split; [done|]. rewrite wcrtomb_encode in E by done. by injection E.
Qed.

Lemma decode_front v bs rest : scalar v -> v <> 0 -> Forall (fun c => c <> 0) bs -> Forall is_u8 bs -> Forall is_u8 rest ->
  utf8_decode (cstring (encode v ++ bs) rest) (strlen (cstring (encode v ++ bs) rest)) = Some (Z.of_nat (length (encode v)), v).
Proof.
  intros Hs Hv Hb Hbu Hr. destruct (encode_nonzero v Hs Hv) as (Hn & Hu & Hl). rewrite strlen_cstring by (apply Forall_app_2; done).
  rewrite utf8_decode_arith by (apply cstring_u8; [apply Forall_app_2|]; done). unfold cstring. rewrite <- app_assoc. apply encode_decode; [done|]. rewrite length_app. lia.
Qed.

Definition encodes (ws : list Z) : list Z := concat (map encode ws).
Definition plain (v : Z) : Prop := scalar v /\ v <> 0.

Lemma encodes_bytes ws : Forall plain ws -> Forall (fun c => c <> 0) (encodes ws) /\ Forall is_u8 (encodes ws) /\ (length ws <= length (encodes ws))%nat.
Proof.
  induction 1 as [|v ws [Hs Hv] _ (IH1 & IH2 & IH3)]; [repeat constructor|]. destruct (encode_nonzero v Hs Hv) as (H1 & H2 & H3).
  unfold encodes in *. cbn [map concat length]. rewrite length_app. split; [by apply Forall_app_2|]. split; [by apply Forall_app_2|lia].
Qed.

Lemma wcs_loop_run ws rest used cap bs : Forall (fun w => - 2 ^ 31 <= w < 2 ^ 31 /\ w <> 0) ws ->
  wcs_loop (cstring ws rest) used cap = inr bs <->
  Forall plain ws /\ bs = encodes ws /\ (ws = [] \/ used + Z.of_nat (length bs) < cap).
Proof.
  intros H. revert used bs. induction H as [|w ws [Hw H0] _ IH]; intros used bs; cbn [cstring app wcs_loop].
  - split; [intros [= <-]; repeat split; auto|intros (_ & -> & _); done].
  - rewrite (proj2 (Z.eqb_neq w 0)) by done. destruct (wcrtomb w) as [b|] eqn:E.
    + destruct (wcrtomb_scalar w b Hw E) as [Hs ->]. specialize (IH (used + Z.of_nat (length (encode w)))). fold (cstring ws rest).
      assert (Hp : Forall plain (w :: ws) <-> Forall plain ws) by (rewrite list.Forall_cons; unfold plain at 1; tauto).
      destruct (Z.ltb_spec cap (used + Z.of_nat (length (encode w)) + 1)).
      * split; [done|]. intros (_ & -> & [?|Hf]); [done|]. unfold encodes in Hf. cbn [map concat] in Hf. rewrite length_app in Hf. lia.
      * destruct (wcs_loop (cstring ws rest) _ _) as [e|l] eqn:El; rewrite Hp.
        -- split; [done|]. intros (Hf & -> & [?|Hc]); [done|]. specialize (IH (encodes ws)). destruct IH as [_ IH]. unfold encodes in Hc. cbn [map concat] in Hc. rewrite length_app in Hc.
           discriminate IH. split; [done|]. split; [done|]. right. unfold encodes. lia.
        -- destruct (IH l) as [(Hf & -> & Hc) _]; [done|]. unfold encodes. cbn [map concat]. split; [|by intros (_ & -> & _)].
           intros [= <-]. split; [done|]. split; [done|]. right. rewrite length_app. destruct Hc as [->|Hc]; [cbn; lia|unfold encodes in Hc; lia].
    + split; [done|]. intros (Hf & _). apply list.Forall_cons in Hf as [[Hs _] _]. by rewrite wcrtomb_encode in E.
Qed.

Lemma mbs_loop_run ws rest fuel count cap : Forall plain ws -> Forall is_u8 rest -> (length ws <= fuel)%nat -> (ws = [] \/ count + Z.of_nat (length ws) < cap) ->
  mbs_loop fuel (cstring (encodes ws) rest) count cap = inr ws.
Proof.
  intros H Hr. revert fuel count. induction H as [|v ws [Hs Hv] H IH]; intros fuel count Hf Hc; [by destruct fuel|].
  destruct fuel as [|fuel]; cbn [length] in *; [lia|]. destruct (encode_nonzero v Hs Hv) as (Hn & Hu & Hl). destruct (encodes_bytes ws H) as (Hen & Heu & Hel).
  change (encodes (v :: ws)) with (encode v ++ encodes ws). cbn [mbs_loop].
  rewrite aget_front by (destruct (encode v); [cbn in Hl; lia|done]). destruct (encode v) as [|b bs] eqn:Ev; [cbn in Hl; lia|].
  apply list.Forall_cons in Hn as [Hb0 _]. change (aget 0 ((b :: bs) ++ encodes ws) 0) with b. rewrite (proj2 (Z.eqb_neq b 0)) by done.
  destruct Hc as [?|Hc]; [done|]. rewrite (proj2 (Z.leb_gt cap (count + 1))) by lia. rewrite <- Ev, decode_front by done.
  unfold cstring at 1. rewrite Nat2Z.id, <- app_assoc, drop_app_length, IH; [done|lia|]. destruct ws; [by left|right; cbn [length] in *; lia].
Qed.

Lemma decode_split bs rest n v : Forall (fun c => c <> 0) bs -> Forall is_u8 bs -> Forall is_u8 rest -> bs <> [] ->
  utf8_decode (cstring bs rest) (strlen (cstring bs rest)) = Some (n, v) -> plain v /\ exists tl, bs = encode v ++ tl /\ n = Z.of_nat (length (encode v)).
Proof.
  intros Hn Hu Hr Hne E. rewrite strlen_cstring, utf8_decode_arith in E by (done || by apply cstring_u8).
  assert (Hc : Forall is_u8 (cstring bs rest)) by by apply cstring_u8.
  destruct (decode_encode (cstring bs rest) (Z.of_nat (length bs)) n v) as (Hs & He & Hlen); [unfold cstring; rewrite length_app; lia|done|apply (aget_u8 _ 0 Hc)|].
  unfold cstring in He. rewrite take_app_le in He by lia. assert (El : length (encode v) = Z.to_nat n) by (rewrite He, length_take; lia).
  split; [|exists (drop (Z.to_nat n) bs); rewrite He at 1; rewrite take_drop; split; [done|lia]]. split; [done|]. intros ->. cbn in El, He.
  rewrite <- (take_drop (Z.to_nat n) bs) in Hn. apply Forall_app in Hn as [Hn _]. rewrite <- He in Hn. by apply list.Forall_cons in Hn as [? _].
Qed.

Lemma mbs_loop_inv fuel : forall bs rest count cap ws, Forall (fun c => c <> 0) bs -> Forall is_u8 bs -> Forall is_u8 rest -> (length bs <= fuel)%nat ->
  mbs_loop fuel (cstring bs rest) count cap = inr ws -> Forall plain ws /\ bs = encodes ws.
Proof.
  induction fuel as [|fuel IH]; intros bs rest count cap ws Hn Hu Hr Hf E.
  - destruct bs; [|cbn in Hf; lia]. cbn in E. injection E as <-. split; [constructor|done].
  - destruct (decide (bs = [])) as [->|Hne]; [cbn in E; injection E as <-; split; [constructor|done]|].
    cbn [mbs_loop] in E. rewrite aget_front in E by done. assert (H0 : aget 0 bs 0 <> 0) by (destruct bs; [done|]; by apply list.Forall_cons in Hn as [? _]).
    rewrite (proj2 (Z.eqb_neq _ 0)) in E by done. destruct (cap <=? count + 1); [done|]. destruct (utf8_decode _ _) as [[n v]|] eqn:Ed; [|done].
    destruct (decode_split bs rest n v Hn Hu Hr Hne Ed) as (Hp & tl & -> & ->). destruct (encode_nonzero v) as (_ & _ & Hl); [apply Hp..|].
    unfold cstring in E at 1. rewrite Nat2Z.id, <- app_assoc, drop_app_length in E. fold (cstring tl rest) in E. destruct (mbs_loop fuel (cstring tl rest) _ _) as [e|l] eqn:El; [done|].
    injection E as <-. apply Forall_app in Hn as [_ Hn]. apply Forall_app in Hu as [_ Hu]. rewrite length_app in Hf.
    destruct (IH tl rest (count + 1) cap l Hn Hu Hr ltac:(lia) El) as [Hl' ->]. split; [by constructor|done].
Qed.

(** C38: converting a string to bytes and back, or back and forth, is the identity.
    The bytes [wcstombs] writes for a wide string are read by [mbstowcs] as the same
    string whatever follows the final zero, and the wide string [mbstowcs] reads is
    written by [wcstombs] as the same bytes, given room for the result and its zero. *)
Theorem utf8_strings_inverse (ws bs rest rest' : list Z) (cap cap' : Z)
    (Hw : Forall (fun w => - 2 ^ 31 <= w < 2 ^ 31 ∧ w ≠ 0) ws) (Hb : Forall (fun b => is_u8 b ∧ b ≠ 0) bs) (Hr : Forall is_u8 rest) :
  (wcstombs (cstring ws rest') cap = inr bs → Z.of_nat (length ws) < cap' → mbstowcs (cstring bs rest) cap' = inr ws) ∧
  (mbstowcs (cstring bs rest) cap = inr ws → Z.of_nat (length bs) < cap' → wcstombs (cstring ws rest') cap' = inr bs).
Proof.
  apply list.Forall_and in Hb as [Hu Hn]. unfold wcstombs, mbstowcs. split.
  - destruct (wcs_loop _ _ _) as [|l] eqn:E; [done|]. destruct (cap <=? _); [done|]. intros [= ->] Hc. apply wcs_loop_run in E as (Hp & -> & _); [|done].
    destruct (encodes_bytes ws Hp) as (_ & _ & Hl). rewrite mbs_loop_run by (done || (unfold cstring; rewrite length_app; lia) || (right; lia)).
    rewrite (proj2 (Z.leb_gt _ _)) by lia. done.
  - destruct (mbs_loop _ _ _ _) as [|l] eqn:E; [done|]. destruct (cap <=? _); [done|]. intros [= ->] Hc.
    apply mbs_loop_inv in E as [Hp ->]; [|done..|unfold cstring; rewrite length_app; lia].
    rewrite (proj2 (wcs_loop_run ws rest' 0 cap' (encodes ws) Hw)) by (split; [done|]; split; [done|]; right; lia). rewrite (proj2 (Z.leb_gt _ _)) by lia. done.
Qed.

Lemma utf8_strings_inverse_witness :
  wcstombs (cstring [0x20ac; 0x41] []) 8 = inr [0xe2; 0x82; 0xac; 0x41] ∧ mbstowcs (cstring [0xe2; 0x82; 0xac; 0x41] [7]) 3 = inr [0x20ac; 0x41].
Proof.
  assert (H : wcstombs (cstring [0x20ac; 0x41] []) 8 = inr [0xe2; 0x82; 0xac; 0x41]) by (vm_compute; reflexivity). split; [exact H|].
  apply (utf8_strings_inverse [0x20ac; 0x41] [0xe2; 0x82; 0xac; 0x41] [7] [] 8 3); [..|exact H|cbn; lia];
    repeat (apply list.Forall_cons; split; [unfold is_u8; lia|]); apply list.Forall_nil; exact I.
Defined.
