(* ===== verification/Process.v ===== *)
(** * The process table ([kernel/process/process.h], [kernel/process/process.c], [kernel/process/capability.h])

    Creation, exit and wait, credentials, capabilities, sessions and listings: the
    functions of [process.c] that work on the table; those that build user processes are
    in [ProcessImage]. Switching to an address space ([process_activate]) is not modelled. What the table calls of the file system,
    the scheduler, the terminals, the lock-order checker and the memory managers is the
    interface [Host]; the socket tables embedded in the slots are kept there too. *)
From stdpp Require Import base tactics list numbers.
From S2P Require Import Prelude Lock Bytes.

Definition RIX_PROCESS_MAX : Z := 128.
Definition RIX_PROCESS_NAME_MAX : Z := 32.
Definition RIX_PROCESS_CWD_MAX : Z := 256.
Definition RIX_PROCESS_GROUP_MAX : Z := 8.
Definition RIX_SESSION_MAX : Z := RIX_PROCESS_MAX.
Definition RIX_SESSION_ACTIVE : Z := 1.
Definition RIX_TTY_COUNT : Z := 4.
Definition ANY_PID : Z := UINT64_MAX.

Definition RIX_CAP_DAC_OVERRIDE : Z := bit 0.
Definition RIX_CAP_SETUID : Z := bit 1.
Definition RIX_CAP_SETGID : Z := bit 2.
Definition RIX_CAP_KILL : Z := bit 3.
Definition RIX_CAP_TTY_ADMIN : Z := bit 4.
Definition RIX_CAP_ACL_ADMIN : Z := bit 5.
Definition RIX_CAP_SESSION_ADMIN : Z := bit 6.
Definition RIX_CAP_AUDIT_ADMIN : Z := bit 7.
Definition RIX_CAP_DELEGATE : Z := bit 8.
Definition RIX_CAP_ALL : Z :=
  Z.lor (Z.lor (Z.lor (Z.lor RIX_CAP_DAC_OVERRIDE RIX_CAP_SETUID) (Z.lor RIX_CAP_SETGID RIX_CAP_KILL))
               (Z.lor (Z.lor RIX_CAP_TTY_ADMIN RIX_CAP_ACL_ADMIN) (Z.lor RIX_CAP_SESSION_ADMIN RIX_CAP_AUDIT_ADMIN)))
        RIX_CAP_DELEGATE.

Inductive rix_process_state_t := RIX_PROC_UNUSED | RIX_PROC_RUNNING | RIX_PROC_SLEEPING | RIX_PROC_ZOMBIE.
#[export] Instance rix_process_state_eq_dec : EqDecision rix_process_state_t.
Proof. solve_decision. Defined.

(** ** Data *)

(** A slot of the table, without its sockets. *)
Record rix_process_t := {
  pid : Z; parent : Z; process_group : Z; session : Z; state : rix_process_state_t; uid : Z; gid : Z; capabilities : Z;
  pml4_phys : Z; heap_base : Z; heap_break : Z; kernel_stack : Z; kernel_stack_size : Z; exit_status : Z;
  fd_bitmap : Z; signal_pending : Z; signal_mask : Z; name : list Z; cwd : list Z }.

Record rix_session_info_t := { si_session : Z; leader : Z; si_uid : Z; controlling_tty : Z; flags : Z }.

Record rix_process_info_t := { i_pid : Z; i_parent : Z; i_uid : Z; i_gid : Z; i_state : Z; i_session : Z; i_name : list Z }.

(** The file's static variables. *)
Record procs := {
  table : list rix_process_t; supplementary_groups : list (list Z); supplementary_counts : list Z;
  real_uids : list Z; saved_uids : list Z; real_gids : list Z; saved_gids : list Z; audit_uids : list Z;
  sessions : list rix_session_info_t; current_pid : Z; next_pid : Z; live_count : Z;
  process_lock : rix_spinlock_t; process_lockdep_class : Z }.

#[export] Instance eta_process : Eta rix_process_t := fun p =>
  {| pid := pid p; parent := parent p; process_group := process_group p; session := session p; state := state p; uid := uid p;
     gid := gid p; capabilities := capabilities p; pml4_phys := pml4_phys p; heap_base := heap_base p; heap_break := heap_break p;
     kernel_stack := kernel_stack p; kernel_stack_size := kernel_stack_size p; exit_status := exit_status p;
     fd_bitmap := fd_bitmap p; signal_pending := signal_pending p; signal_mask := signal_mask p; name := name p; cwd := cwd p |}.
Definition set_pid (x : Z) (p : rix_process_t) : rix_process_t := ltac:(upd p pid x).
Definition set_parent (x : Z) (p : rix_process_t) : rix_process_t := ltac:(upd p parent x).
Definition set_process_group (x : Z) (p : rix_process_t) : rix_process_t := ltac:(upd p process_group x).
Definition set_session (x : Z) (p : rix_process_t) : rix_process_t := ltac:(upd p session x).
Definition set_state (x : rix_process_state_t) (p : rix_process_t) : rix_process_t := ltac:(upd p state x).
Definition set_uid (x : Z) (p : rix_process_t) : rix_process_t := ltac:(upd p uid x).
Definition set_gid (x : Z) (p : rix_process_t) : rix_process_t := ltac:(upd p gid x).
Definition set_capabilities (x : Z) (p : rix_process_t) : rix_process_t := ltac:(upd p capabilities x).
Definition set_pml4_phys (x : Z) (p : rix_process_t) : rix_process_t := ltac:(upd p pml4_phys x).
Definition set_heap_base (x : Z) (p : rix_process_t) : rix_process_t := ltac:(upd p heap_base x).
Definition set_heap_break (x : Z) (p : rix_process_t) : rix_process_t := ltac:(upd p heap_break x).
Definition set_kernel_stack (x : Z) (p : rix_process_t) : rix_process_t := ltac:(upd p kernel_stack x).
Definition set_kernel_stack_size (x : Z) (p : rix_process_t) : rix_process_t := ltac:(upd p kernel_stack_size x).
Definition set_exit_status (x : Z) (p : rix_process_t) : rix_process_t := ltac:(upd p exit_status x).
Definition set_name (x : list Z) (p : rix_process_t) : rix_process_t := ltac:(upd p name x).
Definition set_cwd (x : list Z) (p : rix_process_t) : rix_process_t := ltac:(upd p cwd x).

#[export] Instance eta_procs : Eta procs := fun T =>
  {| table := table T; supplementary_groups := supplementary_groups T; supplementary_counts := supplementary_counts T;
     real_uids := real_uids T; saved_uids := saved_uids T; real_gids := real_gids T; saved_gids := saved_gids T;
     audit_uids := audit_uids T; sessions := sessions T; current_pid := current_pid T; next_pid := next_pid T;
     live_count := live_count T; process_lock := process_lock T; process_lockdep_class := process_lockdep_class T |}.
Definition with_table (x : list rix_process_t) (T : procs) : procs := ltac:(upd T table x).
Definition with_supplementary_groups (x : list (list Z)) (T : procs) : procs := ltac:(upd T supplementary_groups x).
Definition with_supplementary_counts (x : list Z) (T : procs) : procs := ltac:(upd T supplementary_counts x).
Definition with_real_uids (x : list Z) (T : procs) : procs := ltac:(upd T real_uids x).
Definition with_saved_uids (x : list Z) (T : procs) : procs := ltac:(upd T saved_uids x).
Definition with_real_gids (x : list Z) (T : procs) : procs := ltac:(upd T real_gids x).
Definition with_saved_gids (x : list Z) (T : procs) : procs := ltac:(upd T saved_gids x).
Definition with_audit_uids (x : list Z) (T : procs) : procs := ltac:(upd T audit_uids x).
Definition with_sessions (x : list rix_session_info_t) (T : procs) : procs := ltac:(upd T sessions x).
Definition with_current_pid (x : Z) (T : procs) : procs := ltac:(upd T current_pid x).
Definition with_next_pid (x : Z) (T : procs) : procs := ltac:(upd T next_pid x).
Definition with_live_count (x : Z) (T : procs) : procs := ltac:(upd T live_count x).
Definition with_process_lock (x : rix_spinlock_t) (T : procs) : procs := ltac:(upd T process_lock x).
Definition with_process_lockdep_class (x : Z) (T : procs) : procs := ltac:(upd T process_lockdep_class x).

(** ** What the table needs of the other components *)

(** [space_of w] and [stack_of w] are the page-table roots and kernel stacks that
    have been handed out and not yet taken back, [threads_of w] the number of threads
    the scheduler counts for a process. A root stands for the address space built on it;
    [store_byte] writes physical memory. [address_space_create] and
    [address_space_clone] return their code and the root they leave in the descriptor,
    [elf_load_image] its code and the entry point. *)
Class Host (W : Type) := {
  host_ok : W -> Prop;
  space_of : W -> Z -> Prop;
  stack_of : W -> Z -> Prop;
  threads_of : W -> Z -> Z;
  lockdep_register : M (cpu * W) Z;
  lockdep_acquire : Z -> M (cpu * W) Z;
  lockdep_release : Z -> M (cpu * W) Z;
  vfs_clone_fds : Z -> Z -> M (cpu * W) Z;
  vfs_close_all : Z -> M (cpu * W) Z;
  scheduler_thread_detach_pid : Z -> M (cpu * W) unit;
  scheduler_wake_pid : Z -> M (cpu * W) unit;
  scheduler_thread_count_for_pid : Z -> M (cpu * W) Z;
  scheduler_block_current : M (cpu * W) unit;
  tty_get_session : Z -> M (cpu * W) (Z * (Z * Z));
  vmm_translate : Z -> M (cpu * W) Z;
  socket_table_init : Z -> M (cpu * W) unit;
  address_space_destroy : Z -> M (cpu * W) unit;
  kernel_stack_free : Z -> M (cpu * W) unit;
  address_space_create : M (cpu * W) (Z * Z);
  address_space_clone : Z -> M (cpu * W) (Z * Z);
  address_space_map : Z -> Z -> Z -> Z -> M (cpu * W) Z;
  address_space_translate : Z -> Z -> M (cpu * W) Z;
  elf_load_image : list Z -> Z -> Z -> M (cpu * W) (Z * Z);
  pmm_alloc_page : M (cpu * W) Z;
  pmm_free_page : Z -> M (cpu * W) unit;
  pmm_alloc_pages : Z -> M (cpu * W) Z;
  zero_page : Z -> M (cpu * W) unit;
  store_byte : Z -> Z -> M (cpu * W) unit;
}.

(** A call that returns, leaves the CPU as it was and neither hands out nor takes
    back a root or a stack. *)
Definition quiet {W A} `{!Host W} (m : M (cpu * W) A) : Prop := forall c w, host_ok w ->
  exists a w', m (c, w) = Some (a, (c, w')) /\ host_ok w' /\ (forall r, space_of w' r <-> space_of w r) /\ (forall k, stack_of w' k <-> stack_of w k).

(** A call that returns a code and a root: a new one, handed out by it, or none. *)
Definition hands_out_space {W} `{!Host W} (m : M (cpu * W) (Z * Z)) : Prop := forall c w, host_ok w ->
  exists rc r w', m (c, w) = Some ((rc, r), (c, w')) /\ host_ok w' /\ (forall k, stack_of w' k <-> stack_of w k) /\
    ((rc <> 0 /\ r = 0 /\ forall r', space_of w' r' <-> space_of w r') \/
     (rc = 0 /\ r <> 0 /\ ~ space_of w r /\ forall r', space_of w' r' <-> space_of w r' \/ r' = r)).

(** [KERNEL_STACK_PAGES] *)
Definition KERNEL_STACK_PAGES : Z := 8.

Class HostLaws (W : Type) `{!Host W} := {
  lockdep_register_quiet : quiet lockdep_register;
  lockdep_acquire_quiet k : quiet (lockdep_acquire k);
  lockdep_release_quiet k : quiet (lockdep_release k);
  vfs_clone_fds_quiet a b : quiet (vfs_clone_fds a b);
  vfs_close_all_quiet a : quiet (vfs_close_all a);
  thread_detach_quiet a : quiet (scheduler_thread_detach_pid a);
  wake_quiet a : quiet (scheduler_wake_pid a);
  lockdep_acquire_threads k c w rc c' w' : lockdep_acquire k (c, w) = Some (rc, (c', w')) -> forall x, threads_of w' x = threads_of w x;
  thread_count_law a c w : host_ok w -> exists w', scheduler_thread_count_for_pid a (c, w) = Some (threads_of w a, (c, w')) /\ host_ok w' /\
    (forall r, space_of w' r <-> space_of w r) /\ (forall k, stack_of w' k <-> stack_of w k);
  block_quiet : quiet scheduler_block_current;
  tty_quiet a : quiet (tty_get_session a);
  vmm_translate_quiet a : quiet (vmm_translate a);
  socket_table_init_quiet a : quiet (socket_table_init a);
  space_destroy_law r c w : host_ok w -> r = 0 \/ space_of w r ->
    exists w', address_space_destroy r (c, w) = Some (tt, (c, w')) /\ host_ok w' /\
      (forall r', space_of w' r' <-> space_of w r' /\ r' <> r) /\ (forall k, stack_of w' k <-> stack_of w k);
  stack_free_law k c w : host_ok w -> stack_of w k ->
    exists w', kernel_stack_free k (c, w) = Some (tt, (c, w')) /\ host_ok w' /\
      (forall r, space_of w' r <-> space_of w r) /\ (forall k', stack_of w' k' <-> stack_of w k' /\ k' <> k);
  space_create_law : hands_out_space address_space_create;
  space_clone_law r : hands_out_space (address_space_clone r);
  stack_alloc_law c w : host_ok w ->
    exists k w', pmm_alloc_pages KERNEL_STACK_PAGES (c, w) = Some (k, (c, w')) /\ host_ok w' /\ (forall r, space_of w' r <-> space_of w r) /\
      ((k = 0 /\ forall k', stack_of w' k' <-> stack_of w k') \/ (k <> 0 /\ ~ stack_of w k /\ forall k', stack_of w' k' <-> stack_of w k' \/ k' = k));
  space_map_quiet r va pa f : quiet (address_space_map r va pa f);
  space_translate_quiet r va : quiet (address_space_translate r va);
  elf_load_quiet image n r : quiet (elf_load_image image n r);
  page_alloc_quiet : quiet pmm_alloc_page;
  page_free_quiet pa : quiet (pmm_free_page pa);
  zero_page_quiet pa : quiet (zero_page pa);
  store_byte_quiet pa b : quiet (store_byte pa b);
}.

(** ** Table primitives *)

Definition no_process : rix_process_t :=
  {| pid := 0; parent := 0; process_group := 0; session := 0; state := RIX_PROC_UNUSED; uid := 0; gid := 0; capabilities := 0;
     pml4_phys := 0; heap_base := 0; heap_break := 0; kernel_stack := 0; kernel_stack_size := 0; exit_status := 0;
     fd_bitmap := 0; signal_pending := 0; signal_mask := 0; name := []; cwd := [] |}.
Definition no_session : rix_session_info_t := {| si_session := 0; leader := 0; si_uid := 0; controlling_tty := UINT32_MAX; flags := 0 |}.

Definition slot (T : procs) (i : Z) : rix_process_t := aget no_process (table T) i.
Definition put (i : Z) (p : rix_process_t) (T : procs) : procs := with_table (aset i p (table T)) T.
Definition on_slot (i : Z) (f : rix_process_t -> rix_process_t) (T : procs) : procs := put i (f (slot T i)) T.
Definition sess (T : procs) (i : Z) : rix_session_info_t := aget no_session (sessions T) i.
Definition put_sess (i : Z) (x : rix_session_info_t) (T : procs) : procs := with_sessions (aset i x (sessions T)) T.

Definition unused (p : rix_process_t) : bool := bool_decide (state p = RIX_PROC_UNUSED).
Definition zombie (p : rix_process_t) : bool := bool_decide (state p = RIX_PROC_ZOMBIE).
Definition dead (p : rix_process_t) : bool := unused p || zombie p.

(** The slot, in place of a pointer into the table. *)
Definition process_lookup (T : procs) (id : Z) : option Z :=
  match for_ 0 RIX_PROCESS_MAX (fun i (_ : unit) => if negb (unused (slot T i)) && (pid (slot T i) =? id) then inr i else inl tt) tt with
  | inr i => Some i
  | inl _ => None
  end.

Definition slot_of (T : procs) (id : Z) : Z :=
  match for_ 0 RIX_PROCESS_MAX (fun i (_ : unit) => if negb (unused (slot T i)) && (pid (slot T i) =? id) then inr i else inl tt) tt with
  | inr i => i
  | inl _ => -1
  end.

Definition process_current (T : procs) : Z := current_pid T.
Definition process_count (T : procs) : Z := live_count T.

(** Strings are buffers that end at their first zero byte. *)
Definition bounded_strlen (s : list Z) : Z :=
  match for_ 0 (RIX_PROCESS_NAME_MAX - 1) (fun n (_ : unit) => if aget 0 s n =? 0 then inr n else inl tt) tt with
  | inr n => n
  | inl _ => RIX_PROCESS_NAME_MAX - 1
  end.
Definition copy_name (d s : list Z) : list Z :=
  let n := bounded_strlen s in aset n 0 (copy (Z.to_nat n) d 0 s 0).

Definition copy_cwd (d s : list Z) : Z * list Z :=
  let n := match for_ 0 (RIX_PROCESS_CWD_MAX - 1) (fun n (_ : unit) => if aget 0 s n =? 0 then inr n else inl tt) tt with
           | inr n => n
           | inl _ => RIX_PROCESS_CWD_MAX - 1
           end in
  let d := copy (Z.to_nat n) d 0 s 0 in
  if negb (aget 0 s n =? 0) then (-1, d) else (0, aset n 0 d).

(** Zero when every pid is taken. *)
Definition allocate_pid (T : procs) : Z * procs :=
  match for_ 0 (RIX_PROCESS_MAX - 1) (fun _ next =>
    let candidate := next in
    let next := if RIX_PROCESS_MAX <=? u64 (next + 1) then 1 else u64 (next + 1) in
    if negb (candidate =? 0) && bool_decide (process_lookup T candidate = None) then inr (candidate, next) else inl next) (next_pid T) with
  | inr (candidate, next) => (candidate, with_next_pid next T)
  | inl next => (0, with_next_pid next T)
  end.

(** [clear_process], up to the sockets. *)
Definition cleared (p : rix_process_t) : rix_process_t :=
  {| pid := 0; parent := 0; process_group := 0; session := 0; state := RIX_PROC_UNUSED; uid := 0; gid := 0; capabilities := 0;
     pml4_phys := 0; heap_base := 0; heap_break := 0; kernel_stack := 0; kernel_stack_size := 0; exit_status := 0;
     fd_bitmap := 0; signal_pending := 0; signal_mask := 0; name := aset 0 0 (name p); cwd := aset 1 0 (aset 0 47 (cwd p)) |}.

(** ** Sessions *)

Definition session_register (T : procs) (sid lead who : Z) : Z * procs :=
  if sid =? 0 then (-1, T)
  else
    match for_ 0 RIX_SESSION_MAX (fun i (_ : unit) => if si_session (sess T i) =? sid then inr i else inl tt) tt with
    | inr i => (0, put_sess i {| si_session := si_session (sess T i); leader := lead; si_uid := who;
                                 controlling_tty := controlling_tty (sess T i); flags := RIX_SESSION_ACTIVE |} T)
    | inl _ =>
      match for_ 0 RIX_SESSION_MAX (fun i (_ : unit) => if si_session (sess T i) =? 0 then inr i else inl tt) tt with
      | inr i => (0, put_sess i {| si_session := sid; leader := lead; si_uid := who; controlling_tty := UINT32_MAX; flags := RIX_SESSION_ACTIVE |} T)
      | inl _ => (-1, T)
      end
    end.

Definition session_drop_if_empty (T : procs) (sid : Z) : procs :=
  if sid =? 0 then T
  else
    match for_ 1 (RIX_PROCESS_MAX - 1) (fun i (_ : unit) => if negb (dead (slot T i)) && (session (slot T i) =? sid) then inr tt else inl tt) tt with
    | inr _ => T
    | inl _ =>
      match for_ 0 RIX_SESSION_MAX (fun i (_ : unit) => if si_session (sess T i) =? sid then inr i else inl tt) tt with
      | inr i => put_sess i no_session T
      | inl _ => T
      end
    end.

(** ** Operations *)

Section Operations.
Context {W : Type} {HW : Host W}.
Abbreviation st := (cpu * (procs * W))%type.

#[global] Program Instance procs_guard : HasGuard (procs * W) := {|
  guard s := process_lock s.1;
  with_guard l s := (with_process_lock l s.1, s.2);
|}.
Next Obligation. done. Qed.
Next Obligation. by intros [[] ]. Qed.
Next Obligation. done. Qed.

Definition on_host {A} (m : M (cpu * W) A) : M st A := fun '(c, (T, w)) =>
  match m (c, w) with
  | Some (a, (c', w')) => Some (a, (c', (T, w')))
  | None => None
  end.
Definition reads {A} (f : procs -> A) : M st A := gets (fun '(_, (T, _)) => f T).
Definition update (f : procs -> procs) : M st unit := act (fun '(c, (T, w)) => (tt, (c, (f T, w)))).
Definition on_procs {A} (f : procs -> A * procs) : M st A := act (fun '(c, (T, w)) => let '(a, T') := f T in (a, (c, (T', w)))).

(** [PROCESS_GUARD]: the lock-order check, then the lock with interrupts masked;
    both are undone on every way out of the function. *)
Definition guarded {R} (body : M st R) : M st R :=
  k ← reads process_lockdep_class;
  rc ← on_host (lockdep_acquire k);
  irq ← rix_spin_lock_irqsave;
  r ← body;
  _ ← (if rc =? 0 then _ ← on_host (lockdep_release k); mret tt else mret tt);
  _ ← rix_spin_unlock_irqrestore irq;
  mret r.

Definition clear_process (i : Z) : M st unit :=
  _ ← update (on_slot i cleared); on_host (socket_table_init i).

Definition process_init : M st Z :=
  k ← on_host lockdep_register;
  _ ← update (with_process_lockdep_class k);
  _ ← mfor (Z.to_nat RIX_PROCESS_MAX) 0 (fun i =>
    _ ← clear_process i;
    update (fun T =>
      let T := with_supplementary_counts (aset i 0 (supplementary_counts T)) T in
      let T := with_audit_uids (aset i 0 (audit_uids T)) T in
      let T := with_real_uids (aset i 0 (real_uids T)) T in
      let T := with_saved_uids (aset i 0 (saved_uids T)) T in
      let T := with_real_gids (aset i 0 (real_gids T)) T in
      let T := with_saved_gids (aset i 0 (saved_gids T)) T in
      with_supplementary_groups (aset i (fill (Z.to_nat RIX_PROCESS_GROUP_MAX) (aget [] (supplementary_groups T) i) 0 0) (supplementary_groups T)) T));
  _ ← update (fun T =>
    let T := for_all 0 RIX_SESSION_MAX (fun i T => put_sess i no_session T) T in
    let T := with_live_count 1 (with_next_pid 1 (with_current_pid 0 T)) in
    on_slot 0 (fun p =>
      let p := set_state RIX_PROC_RUNNING (set_session 0 (set_process_group 0 (set_pid 0 p))) in
      let p := set_capabilities RIX_CAP_ALL p in
      set_name (copy_name (name p) [107; 101; 114; 110; 101; 108]) p) T);
  mret 0.

(** The result code and the buffer. *)
Definition process_getcwd (T : procs) (id : Z) (out : list Z) (capacity : Z) : Z * list Z :=
  match process_lookup T id with
  | None => (-1, out)
  | Some p =>
    if capacity =? 0 then (-1, out)
    else
      match for_ 0 capacity (fun n out =>
        if aget 0 (cwd (slot T p)) n =? 0 then inr (0, aset n 0 out)
        else if capacity <=? n + 1 then inr (-1, out)
        else inl (aset n (aget 0 (cwd (slot T p)) n) out)) out with
      | inr r => r
      | inl out => (-1, out)
      end
  end.

(** [va] is the address of the path. *)
Definition process_setcwd (id va : Z) (path : list Z) : M st Z := guarded (
  p ← reads (fun T => process_lookup T id);
  match p with
  | None => mret (-1)
  | Some p =>
    if (va =? 0) || (va <? 0x100000) || (0x10000000 <=? va) then mret (-1)
    else
      pa ← on_host (vmm_translate va);
      if pa =? 0 then mret (-1)
      else if aget 0 path 0 =? 0 then mret (-1)
      else on_procs (fun T => let '(rc, d) := copy_cwd (cwd (slot T p)) path in (rc, on_slot p (set_cwd d) T))
  end).

Definition process_uid (T : procs) (id : Z) : Z := match process_lookup T id with Some p => uid (slot T p) | None => UINT32_MAX end.
Definition process_gid (T : procs) (id : Z) : Z := match process_lookup T id with Some p => gid (slot T p) | None => UINT32_MAX end.

(** The credential calls look the process up twice, as a pointer and as a slot. *)
Definition with_process (id : Z) (f : Z -> Z -> procs -> Z * procs) (T : procs) : Z * procs :=
  match process_lookup T id with
  | None => (-1, T)
  | Some p => if slot_of T id <? 0 then (-1, T) else f p (slot_of T id) T
  end.

Definition setuid_body (id u : Z) : procs -> Z * procs := with_process id (fun p s T =>
  if (uid (slot T p) =? 0) && (Z.land (capabilities (slot T p)) RIX_CAP_SETUID =? 0) then (-1, T)
  else if uid (slot T p) =? 0 then
    let T := with_saved_uids (aset s u (saved_uids T)) (with_real_uids (aset s u (real_uids T)) T) in
    let T := on_slot p (set_uid u) T in
    (0, if negb (u =? 0) then on_slot p (set_capabilities 0) T else T)
  else if (u =? aget 0 (real_uids T) s) || (u =? aget 0 (saved_uids T) s) then (0, on_slot p (set_uid u) T)
  else (-1, T)).
Definition process_setuid (id u : Z) : M st Z := guarded (on_procs (setuid_body id u)).

Definition setgid_body (id g : Z) : procs -> Z * procs := with_process id (fun p s T =>
  if (uid (slot T p) =? 0) && (Z.land (capabilities (slot T p)) RIX_CAP_SETGID =? 0) then (-1, T)
  else if uid (slot T p) =? 0 then
    let T := with_saved_gids (aset s g (saved_gids T)) (with_real_gids (aset s g (real_gids T)) T) in
    (0, on_slot p (set_gid g) T)
  else if (g =? aget 0 (real_gids T) s) || (g =? aget 0 (saved_gids T) s) then (0, on_slot p (set_gid g) T)
  else (-1, T)).
Definition process_setgid (id g : Z) : M st Z := guarded (on_procs (setgid_body id g)).

Definition groups_of (T : procs) (s : Z) : list Z := aget [] (supplementary_groups T) s.

Definition process_in_group (T : procs) (id g : Z) : bool :=
  match process_lookup T id with
  | None => false
  | Some p =>
    if gid (slot T p) =? g then true
    else
      let s := slot_of T id in
      if s <? 0 then false
      else match for_ 0 (aget 0 (supplementary_counts T) s) (fun i (_ : unit) => if aget 0 (groups_of T s) i =? g then inr tt else inl tt) tt with
           | inr _ => true
           | inl _ => false
           end
  end.

(** [None] for a null [groups]; the result code, the count on success, and the buffer. *)
Definition getgroups_body (id : Z) (groups : option (list Z)) (capacity : Z) (T : procs) : Z * Z * option (list Z) :=
  match process_lookup T id with
  | None => (-1, 0, groups)
  | Some p =>
    let s := slot_of T id in
    let n := aget 0 (supplementary_counts T) s in
    if (s <? 0) || (negb (capacity =? 0) && (capacity <? n)) || (bool_decide (groups = None) && negb (capacity =? 0)) then (-1, 0, groups)
    else match groups with
         | Some g => if negb (capacity =? 0) then (0, n, Some (copy (Z.to_nat n) g 0 (groups_of T s) 0)) else (0, n, groups)
         | None => (0, n, groups)
         end
  end.
Definition process_getgroups (id : Z) (groups : option (list Z)) (capacity : Z) : M st (Z * Z * option (list Z)) :=
  guarded (reads (getgroups_body id groups capacity)).

Definition setgroups_body (id : Z) (groups : option (list Z)) (count : Z) (T : procs) : Z * procs :=
  match process_lookup T id with
  | None => (-1, T)
  | Some p =>
    let s := slot_of T id in
    if negb (uid (slot T p) =? 0) || (Z.land (capabilities (slot T p)) RIX_CAP_SETGID =? 0) || (s <? 0) || (RIX_PROCESS_GROUP_MAX <? count)
       || (negb (count =? 0) && bool_decide (groups = None)) then (-1, T)
    else
      let g := copy (Z.to_nat count) (groups_of T s) 0 (default [] groups) 0 in
      (0, with_supplementary_counts (aset s (u32 count) (supplementary_counts T)) (with_supplementary_groups (aset s g (supplementary_groups T)) T))
  end.
Definition process_setgroups (id : Z) (groups : option (list Z)) (count : Z) : M st Z := guarded (on_procs (setgroups_body id groups count)).

Definition exec_credentials_body (id u g : Z) (setuid_bit setgid_bit : bool) : procs -> Z * procs := with_process id (fun p s T =>
  let T := if setuid_bit then with_saved_uids (aset s u (saved_uids T)) (on_slot p (set_uid u) T) else T in
  let T := if setgid_bit then with_saved_gids (aset s g (saved_gids T)) (on_slot p (set_gid g) T) else T in
  (0, if setuid_bit || setgid_bit then on_slot p (set_capabilities 0) T else T)).
Definition process_apply_exec_credentials (id u g : Z) (setuid_bit setgid_bit : bool) : M st Z :=
  guarded (on_procs (exec_credentials_body id u g setuid_bit setgid_bit)).

(** ** Creation, exit, wait *)

(** Copies the identity of slot [s] to slot [i]. *)
Definition inherit_ids (i s : Z) (T : procs) : procs :=
  let T := with_real_uids (aset i (aget 0 (real_uids T) s) (real_uids T)) T in
  let T := with_saved_uids (aset i (aget 0 (saved_uids T) s) (saved_uids T)) T in
  let T := with_real_gids (aset i (aget 0 (real_gids T) s) (real_gids T)) T in
  let T := with_saved_gids (aset i (aget 0 (saved_gids T) s) (saved_gids T)) T in
  let T := with_audit_uids (aset i (aget 0 (audit_uids T) s) (audit_uids T)) T in
  let T := with_supplementary_counts (aset i (aget 0 (supplementary_counts T) s) (supplementary_counts T)) T in
  with_supplementary_groups (aset i (copy (Z.to_nat (aget 0 (supplementary_counts T) i)) (groups_of T i) 0 (groups_of T s) 0) (supplementary_groups T)) T.

Definition reset_ids (i : Z) (T : procs) : procs :=
  let T := with_supplementary_counts (aset i 0 (supplementary_counts T)) T in
  let T := with_audit_uids (aset i 0 (audit_uids T)) T in
  let T := with_real_uids (aset i 0 (real_uids T)) T in
  let T := with_saved_uids (aset i 0 (saved_uids T)) T in
  let T := with_real_gids (aset i 0 (real_gids T)) T in
  with_saved_gids (aset i 0 (saved_gids T)) T.

(** Directory, identity and groups from the parent's slot, if it has one. *)
Definition inherit_parent (i par : Z) (pp : option Z) (T : procs) : procs :=
  match pp with
  | Some q =>
    let T := on_slot i (set_cwd (copy_cwd (cwd (slot T i)) (cwd (slot T q))).2) T in
    let T := on_slot i (set_uid (uid (slot T q))) T in
    let T := on_slot i (set_gid (gid (slot T q))) T in
    let s := slot_of T par in
    if 0 <=? s then inherit_ids i s T else T
  | None => with_audit_uids (aset i (uid (slot T i)) (audit_uids T)) T
  end.

(** A fresh slot [i] for process [id], child of [par]. *)
Definition fill_slot (i id par : Z) (T : procs) : procs :=
  let T := reset_ids i T in
  let T := on_slot i (fun p => set_parent par (set_pid id p)) T in
  let pp := if negb (par =? 0) then process_lookup T par else None in
  let T := on_slot i (set_process_group (match pp with Some q => process_group (slot T q) | None => id end)) T in
  let T := on_slot i (set_session (match pp with Some q => session (slot T q) | None => id end)) T in
  let T := inherit_parent i par pp T in
  let T := on_slot i (set_state RIX_PROC_SLEEPING) T in
  on_slot i (set_capabilities (match pp with Some q => capabilities (slot T q) | None => if par =? 0 then RIX_CAP_ALL else 0 end)) T.

(** The result code and the new pid. *)
Definition process_create_locked (nm : list Z) (par : Z) : M st (Z * Z) :=
  bad ← reads (fun T => (aget 0 nm 0 =? 0) || (negb (par =? 0) && bool_decide (process_lookup T par = None)));
  if bad : bool then mret (-1, 0)
  else
    free ← reads (fun T => for_ 1 (RIX_PROCESS_MAX - 1) (fun i (_ : unit) => if unused (slot T i) then inr i else inl tt) tt);
    match free with
    | inl _ => mret (-1, 0)
    | inr i =>
      id ← on_procs allocate_pid;
      if id =? 0 then mret (-1, 0)
      else
        _ ← clear_process i;
        _ ← update (fill_slot i id par);
        rc ← (if negb (par =? 0) then on_host (vfs_clone_fds par id) else mret 0);
        if negb (rc =? 0) then
          _ ← on_host (vfs_close_all id);
          _ ← clear_process i;
          mret (-1, 0)
        else
          _ ← update (fun T => with_live_count (u64 (live_count T + 1)) (on_slot i (fun p => set_name (copy_name (name p) nm) p) T));
          mret (0, id)
    end.
Definition process_create (nm : list Z) (par : Z) : M st (Z * Z) := guarded (process_create_locked nm par).

Definition process_exit_locked (id status : Z) : M st Z :=
  p ← reads (fun T => process_lookup T id);
  match p with
  | None => mret (-1)
  | Some p =>
    z ← reads (fun T => zombie (slot T p));
    if (id =? 0) || (z : bool) then mret (-1)
    else
      sid ← reads (fun T => session (slot T p));
      _ ← on_host (vfs_close_all id);
      _ ← update (on_slot p (fun q => set_state RIX_PROC_ZOMBIE (set_exit_status status q)));
      _ ← on_host (scheduler_thread_detach_pid id);
      par ← reads (fun T => parent (slot T p));
      _ ← on_host (scheduler_wake_pid par);
      _ ← update (fun T => let T := if current_pid T =? id then with_current_pid 0 T else T in session_drop_if_empty T sid);
      mret 0
  end.
Definition process_exit (id status : Z) : M st Z := guarded (process_exit_locked id status).

(** Whether a child matches, and the zombie to reap. *)
Definition wait_find_locked (par wanted : Z) (T : procs) : bool * option Z :=
  match for_ 1 (RIX_PROCESS_MAX - 1) (fun i has =>
    let p := slot T i in
    if negb (unused p) && (parent p =? par) && ((wanted =? ANY_PID) || (pid p =? wanted)) then
      if zombie p then inr i else inl true
    else inl has) false with
  | inr i => (true, Some i)
  | inl has => (has, None)
  end.

(** The result code, and the status and pid of the child when it is zero. *)
Definition wait_reap_locked (i : Z) : M st (Z * option (Z * Z)) :=
  id ← reads (fun T => pid (slot T i));
  n ← on_host (scheduler_thread_count_for_pid id);
  if negb (n =? 0) then mret (1, None)
  else
    p ← reads (fun T => slot T i);
    _ ← on_host (vfs_close_all (pid p));
    _ ← on_host (address_space_destroy (pml4_phys p));
    _ ← update (on_slot i (set_pml4_phys 0));
    _ ← (if negb (kernel_stack p =? 0) then on_host (kernel_stack_free (kernel_stack p)) else mret tt);
    _ ← clear_process i;
    _ ← update (fun T =>
      let T := reset_ids i T in
      let T := if negb (live_count T =? 0) then with_live_count (live_count T - 1) T else T in
      session_drop_if_empty T (session p));
    mret (0, Some (exit_status p, pid p)).

Definition process_wait (par wanted : Z) : M st (Z * option (Z * Z)) := guarded (
  f ← reads (wait_find_locked par wanted);
  match f with
  | (false, _) => mret (2, None)
  | (true, None) => mret (1, None)
  | (true, Some i) => wait_reap_locked i
  end).

Definition process_wait_blocking (par wanted : Z) : M st (Z * option (Z * Z)) := guarded (
  f ← reads (wait_find_locked par wanted);
  match f with
  | (false, _) => mret (2, None)
  | (true, Some i) => wait_reap_locked i
  | (true, None) => _ ← on_host scheduler_block_current; mret (1, None)
  end).

(** ** Groups and sessions *)

Definition set_group_body (id g : Z) (T : procs) : Z * procs :=
  match process_lookup T id with
  | Some p => if g =? 0 then (-1, T) else (0, on_slot p (set_process_group g) T)
  | None => (-1, T)
  end.
Definition process_set_group (id g : Z) : M st Z := guarded (on_procs (set_group_body id g)).

Definition set_session_body (id s : Z) (T : procs) : Z * procs :=
  match process_lookup T id with
  | Some p => if s =? 0 then (-1, T) else (0, on_slot p (set_session s) T)
  | None => (-1, T)
  end.
Definition process_set_session (id s : Z) : M st Z := guarded (on_procs (set_session_body id s)).

Definition process_get_session (T : procs) (id : Z) : Z * option Z :=
  match process_lookup T id with
  | Some p => if unused (slot T p) then (-1, None) else (0, Some (session (slot T p)))
  | None => (-1, None)
  end.

Definition process_is_session_leader (T : procs) (id : Z) : bool :=
  match process_lookup T id with
  | Some p => negb (unused (slot T p)) && negb (zombie (slot T p)) && (session (slot T p) =? id)
  | None => false
  end.

(** The result code and the new session. *)
Definition create_session_body (id : Z) (T : procs) : (Z * Z) * procs :=
  match process_lookup T id with
  | Some p =>
    if unused (slot T p) || zombie (slot T p) || (process_group (slot T p) =? id) then ((-1, 0), T)
    else
      let old_session := session (slot T p) in
      let old_group := process_group (slot T p) in
      let T := on_slot p (fun q => set_process_group id (set_session id q)) T in
      let '(rc, T) := session_register T id id (uid (slot T p)) in
      if negb (rc =? 0) then ((-1, 0), on_slot p (fun q => set_process_group old_group (set_session old_session q)) T)
      else ((0, id), T)
  | None => ((-1, 0), T)
  end.
Definition process_create_session (id : Z) : M st (Z * Z) := guarded (on_procs (create_session_body id)).

Definition process_logout_session (id status : Z) : M st Z := guarded (
  p ← reads (fun T => process_lookup T id);
  match p with
  | None => mret (-1)
  | Some p =>
    p ← reads (fun T => slot T p);
    if unused p || zombie p || (session p =? 0) then mret (-1)
    else
      let sid := session p in
      _ ← mfor (Z.to_nat (RIX_PROCESS_MAX - 1)) 1 (fun i =>
        q ← reads (fun T => slot T i);
        if negb (unused q) && negb (zombie q) && negb (pid q =? id) && (session q =? sid)
        then _ ← process_exit_locked (pid q) status; mret tt else mret tt);
      mret 0
  end).

Definition leave_session_body (id : Z) (T : procs) : Z * procs :=
  match process_lookup T id with
  | Some p =>
    if unused (slot T p) || zombie (slot T p) then (-1, T)
    else
      let sid := session (slot T p) in
      (0, session_drop_if_empty (on_slot p (fun q => set_process_group id (set_session 0 q)) T) sid)
  | None => (-1, T)
  end.
Definition process_leave_session (id : Z) : M st Z := guarded (on_procs (leave_session_body id)).

(** The terminal a session controls, looked up afresh. *)
Fixpoint find_tty (n : nat) (tty sid : Z) : M st Z :=
  match n with
  | O => mret UINT32_MAX
  | S n =>
    '(rc, (s, controlling)) ← on_host (tty_get_session tty);
    if (rc =? 0) && negb (controlling =? 0) && (s =? sid) then mret tty else find_tty n (tty + 1) sid
  end.
Definition session_refresh_tty (i : Z) : M st unit :=
  x ← reads (fun T => sess T i);
  if si_session x =? 0 then mret tt
  else
    t ← find_tty (Z.to_nat RIX_TTY_COUNT) 0 (si_session x);
    update (put_sess i {| si_session := si_session x; leader := leader x; si_uid := si_uid x; controlling_tty := t; flags := flags x |}).

Fixpoint list_sessions_from (n : nat) (i : Z) : M st (list rix_session_info_t) :=
  match n with
  | O => mret []
  | S n =>
    x ← reads (fun T => sess T i);
    if si_session x =? 0 then list_sessions_from n (i + 1)
    else
      _ ← session_refresh_tty i;
      x ← reads (fun T => sess T i);
      l ← list_sessions_from n (i + 1);
      mret (x :: l)
  end.
(** The result code and the entries written. *)
Definition process_list_sessions (capacity : Z) : M st (Z * list rix_session_info_t) := guarded (
  total ← reads (fun T => countb (fun x => negb (si_session x =? 0)) (sessions T));
  if capacity <? total then mret (-1, [])
  else l ← list_sessions_from (Z.to_nat RIX_SESSION_MAX) 0; mret (0, l)).

Definition state_code (s : rix_process_state_t) : Z :=
  match s with RIX_PROC_UNUSED => 0 | RIX_PROC_RUNNING => 1 | RIX_PROC_SLEEPING => 2 | RIX_PROC_ZOMBIE => 3 end.
(** [old] is what the output slot held. *)
Definition info_of (p : rix_process_t) (old : rix_process_info_t) : rix_process_info_t :=
  {| i_pid := pid p; i_parent := parent p; i_uid := uid p; i_gid := gid p; i_state := state_code (state p); i_session := session p;
     i_name := copy_name (i_name old) (name p) |}.
Fixpoint list_processes_from (l : list rix_process_t) (out : list rix_process_info_t) : list rix_process_info_t :=
  match l, out with
  | p :: l, o :: out' => if unused p then list_processes_from l out else info_of p o :: list_processes_from l out'
  | _, _ => out
  end.
(** The result code, the count and the buffer. *)
Definition list_processes_body (out : list rix_process_info_t) (capacity : Z) (T : procs) : Z * Z * list rix_process_info_t :=
  let total := countb (fun p => negb (unused p)) (table T) in
  if capacity <? total then (-1, 0, out) else (0, total, list_processes_from (table T) out).
Definition process_list_processes (out : list rix_process_info_t) (capacity : Z) : M st (Z * Z * list rix_process_info_t) :=
  guarded (reads (list_processes_body out capacity)).

(** ** Capabilities *)

Definition capability_valid (mask : Z) : bool := negb (mask =? 0) && (Z.land mask (not64 RIX_CAP_ALL) =? 0).

Definition process_has_capability (T : procs) (id cap : Z) : bool :=
  match process_lookup T id with
  | Some p => capability_valid cap && (Z.land (capabilities (slot T p)) cap =? cap)
  | None => false
  end.

Definition process_get_capabilities (T : procs) (id : Z) : Z * option Z :=
  match process_lookup T id with
  | Some p => (0, Some (capabilities (slot T p)))
  | None => (-1, None)
  end.

Definition drop_capabilities_body (id mask : Z) (T : procs) : Z * procs :=
  match process_lookup T id with
  | Some p => if negb (capability_valid mask) then (-1, T)
              else (0, on_slot p (fun q => set_capabilities (Z.land (capabilities q) (not64 mask)) q) T)
  | None => (-1, T)
  end.
Definition process_drop_capabilities (id mask : Z) : M st Z := guarded (on_procs (drop_capabilities_body id mask)).

Definition delegate_body (par child mask : Z) (T : procs) : Z * procs :=
  match process_lookup T par, process_lookup T child with
  | Some p, Some c =>
    if (par =? child) || unused (slot T c) || zombie (slot T c) || negb (parent (slot T c) =? par) || negb (capability_valid mask)
       || negb (process_has_capability T par RIX_CAP_DELEGATE) || negb (process_has_capability T par mask)
       || truthy (Z.land mask RIX_CAP_DELEGATE) || truthy (Z.land (capabilities (slot T c)) mask) then (-1, T)
    else
      let T := on_slot c (fun q => set_capabilities (Z.lor (capabilities q) mask) q) T in
      (0, on_slot p (fun q => set_capabilities (Z.land (capabilities q) (not64 mask)) q) T)
  | _, _ => (-1, T)
  end.
Definition process_delegate_capabilities (par child mask : Z) : M st Z := guarded (on_procs (delegate_body par child mask)).

Definition process_get_audit_uid (T : procs) (id : Z) : Z * option Z :=
  match process_lookup T id with
  | Some p => if slot_of T id <? 0 then (-1, None) else (0, Some (aget 0 (audit_uids T) (slot_of T id)))
  | None => (-1, None)
  end.

Definition set_audit_uid_body (id u : Z) : procs -> Z * procs := with_process id (fun p s T =>
  if negb (process_has_capability T id RIX_CAP_AUDIT_ADMIN) then (-1, T)
  else (0, with_audit_uids (aset s u (audit_uids T)) T)).
Definition process_set_audit_uid (id u : Z) : M st Z := guarded (on_procs (set_audit_uid_body id u)).
End Operations.
