(* ===== verification/VfsPath.v ===== *)
(** * Path names ([kernel/vfs/vfs.c])

    [vfs_normalize_path] and [split_parent]. A C string is the list of its bytes
    before the terminator. The output buffer is kept as the bytes written so far,
    last one first, so that [output[len-1]] is its head. *)
From stdpp Require Import base tactics list numbers.
From S2P Require Import Prelude Lock Bytes Process.

Definition RIX_VFS_PATH_MAX : Z := 4096.
Definition RIX_VFS_NAME_MAX : Z := 255.
Definition SLASH : Z := 47.
Definition DOT : Z := 46.

Abbreviation len l := (Z.of_nat (length l)).

(** The string a buffer holds. *)
Fixpoint c_string (b : list Z) : list Z :=
  match b with
  | [] => []
  | c :: b => if c =? 0 then [] else c :: c_string b
  end.

(** ** Code *)

Fixpoint skip_slashes (p : list Z) : list Z :=
  match p with
  | c :: p' => if c =? SLASH then skip_slashes p' else p
  | [] => []
  end.

(** Up to the next slash: what was passed, and where [p] stands. *)
Fixpoint component (p : list Z) : list Z * list Z :=
  match p with
  | c :: p' => if c =? SLASH then ([], p) else let '(s, rest) := component p' in (c :: s, rest)
  | [] => ([], [])
  end.

Definition last_is_slash (out : list Z) : bool := match out with c :: _ => c =? SLASH | [] => false end.

Definition append_component (out : list Z) (cap : Z) (start : list Z) : option (list Z) :=
  if len start =? 0 then Some out
  else
    let add n out := if cap - len out <=? n then None else Some (reverse start ++ out) in
    if negb (len out =? 0) && negb (last_is_slash out) then
      if cap <=? len out + 1 then None else add (len start) (SLASH :: out)
    else add (len start) out.

(** [while(len>1&&output[len-1]!='/')len--] *)
Fixpoint back_to_slash (out : list Z) : list Z :=
  match out with
  | [] => []
  | c :: out' => if negb (len out' =? 0) && negb (c =? SLASH) then back_to_slash out' else out
  end.

Definition drop_component (out : list Z) : list Z :=
  if 1 <? len out then back_to_slash (if last_is_slash out then tail out else out) else out.

(** One turn per component; a component has at least one byte, so the length of the
    string is enough turns. *)
Fixpoint normalize_loop (turns : nat) (p out : list Z) (cap : Z) : option (list Z) :=
  match skip_slashes p with
  | [] => Some out
  | p =>
    match turns with
    | O => None
    | S turns =>
      let '(s, p) := component p in
      if bool_decide (s = [DOT]) then normalize_loop turns p out cap
      else if bool_decide (s = [DOT; DOT]) then normalize_loop turns p (drop_component out) cap
      else if RIX_VFS_NAME_MAX <? len s then None
      else match append_component out cap s with
           | None => None
           | Some out => normalize_loop turns p out cap
           end
    end
  end.

(** A relative path is joined to the working directory of the current process. *)
Definition join_cwd (T : procs) (input : list Z) : option (list Z) :=
  let '(rc, joined) := process_getcwd T (process_current T) (replicate (Z.to_nat RIX_VFS_PATH_MAX) 0) RIX_VFS_PATH_MAX in
  if negb (rc =? 0) then None
  else
    let base := c_string joined in
    let base := if negb (len base =? 0) && negb (last_is_slash (reverse base)) then base ++ [SLASH] else base in
    if negb (len input =? 0) && (RIX_VFS_PATH_MAX <=? len base + len input) then None else Some (base ++ input).

(** The output string, [None] for the result -1. *)
Definition vfs_normalize_path (T : procs) (input : list Z) (cap : Z) : option (list Z) :=
  if cap <? 2 then None
  else
    match (if match input with c :: _ => c =? SLASH | [] => false end then Some input else join_cwd T input) with
    | None => None
    | Some p =>
      match normalize_loop (length p) p [SLASH] cap with
      | None => None
      | Some out => Some (reverse (if (1 <? len out) && last_is_slash out then tail out else out))
      end
    end.

(** Where a buffer is filled until it would overflow: [joined_len+1>=sizeof]. *)
Definition split_parent (T : procs) (path : list Z) (pc nc : Z) : option (list Z * list Z) :=
  match vfs_normalize_path T path RIX_VFS_PATH_MAX with
  | None => None
  | Some norm =>
    if len norm <=? 1 then None
    else
      let '(rname, rest) := component (reverse norm) in
      let slash := len rest in
      let nl := len rname in
      if (nl =? 0) || (nc <=? nl) then None
      else if slash =? 1 then (if pc <? 2 then None else Some ([SLASH], reverse rname))
      else if pc <=? slash then None
      else Some (take (Z.to_nat (slash - 1)) norm, reverse rname)
  end.

(** ** Specification: resolving a list of names *)

Fixpoint split_at (p : list Z) : list (list Z) :=
  match p with
  | [] => [[]]
  | c :: p =>
    match split_at p with
    | [] => []
    | h :: t => if c =? SLASH then [] :: h :: t else (c :: h) :: t
    end
  end.
(** The names of a path: what stands between slashes and is not empty. *)
Definition names (p : list Z) : list (list Z) := filter (fun s => s <> []) (split_at p).

(** The path of the directories entered, innermost first. *)
Definition render (stack : list (list Z)) : list Z :=
  match stack with [] => [SLASH] | _ => concat (map (fun c => SLASH :: c) (reverse stack)) end.

Fixpoint resolve (cs stack : list (list Z)) (cap : Z) : option (list (list Z)) :=
  match cs with
  | [] => Some stack
  | c :: cs =>
    if bool_decide (c = [DOT]) then resolve cs stack cap
    else if bool_decide (c = [DOT; DOT]) then resolve cs (tail stack) cap
    else if (RIX_VFS_NAME_MAX <? len c) || (cap <=? len (render (c :: stack))) then None
    else resolve cs (c :: stack) cap
  end.

(** ** Proofs *)

Definition plain_name (c : list Z) : Prop := c <> [] /\ Forall (fun x => x <> SLASH) c.

Lemma split_at_cons p : exists h t, split_at p = h :: t.
Proof. induction p as [|c p (h & t & E)]; cbn; [eauto|]. rewrite E. destruct (c =? SLASH); eauto. Qed.

Lemma drop_empty (l : list (list Z)) : filter (fun s => s <> []) ([] :: l) = filter (fun s => s <> []) l.
Proof. apply filter_cons_False. intros H. by apply H. Qed.

Lemma names_slash p : names (SLASH :: p) = names p.
Proof. unfold names. cbn [split_at]. destruct (split_at_cons p) as (h & t & ->). rewrite Z.eqb_refl. apply drop_empty. Qed.

Lemma names_skip p : names (skip_slashes p) = names p.
Proof. induction p as [|c p IH]; [done|]. cbn [skip_slashes]. destruct (c =? SLASH) eqn:E; bool_to_prop; [subst c; by rewrite names_slash|done]. Qed.

Lemma skip_head p c q : skip_slashes p = c :: q -> c <> SLASH.
Proof. induction p as [|d p IH]; cbn; [done|]. destruct (d =? SLASH) eqn:E; bool_to_prop; [done|]. intros H. by simplify_eq. Qed.

Lemma component_plain p s q : component p = (s, q) -> Forall (fun x => x <> SLASH) s /\ p = s ++ q /\ (q = [] \/ exists q', q = SLASH :: q').
Proof.
  revert s q. induction p as [|c p IH]; intros s q E; cbn in E; [simplify_eq; split; [done|]; split; [done|by left]|].
  destruct (c =? SLASH) eqn:Ec; bool_to_prop.
  - simplify_eq. split; [done|]. split; [done|]. right. by exists p.
  - destruct (component p) as [s' q'] eqn:E'. simplify_eq. destruct (IH _ _ eq_refl) as (H1 & -> & H2). by split; [constructor|].
Qed.

Lemma split_at_app s q : Forall (fun x => x <> SLASH) s -> split_at (s ++ q) = match split_at q with h :: t => (s ++ h) :: t | [] => [] end.
Proof.
  induction 1 as [|c s Hc Hs IH]; cbn [app split_at]; [by destruct (split_at_cons q) as (h & t & ->)|].
  rewrite IH. destruct (split_at_cons q) as (h & t & ->). by rewrite (proj2 (Z.eqb_neq c SLASH) Hc).
Qed.

Lemma names_component p c q s r : p = c :: q -> c <> SLASH -> component p = (s, r) -> plain_name s /\ names p = s :: names r /\ (length r < length p)%nat.
Proof.
  intros -> Hc E. destruct (component_plain _ _ _ E) as (Hs & Ep & Hr).
  assert (Hn : s <> []). { intros ->. cbn in Ep. subst r. destruct Hr as [?|(q' & ?)]; [done|by simplify_eq]. }
  split; [done|]. split.
  - unfold names. rewrite Ep, split_at_app by done. destruct Hr as [->|(q' & ->)].
    + cbn [split_at]. rewrite app_nil_r, filter_cons_True by done. by rewrite drop_empty.
    + cbn [split_at]. destruct (split_at_cons q') as (h & t & ->).
      rewrite Z.eqb_refl, app_nil_r, filter_cons_True, drop_empty by done. done.
  - rewrite Ep, length_app. destruct s; [done|]. cbn. lia.
Qed.

(** The output buffer for a stack, last byte first. *)
Definition buffer_of (stack : list (list Z)) : list Z :=
  match stack with [] => [SLASH] | _ => concat (map (fun c => reverse c ++ [SLASH]) stack) end.

Lemma buffer_of_cons c s : buffer_of (c :: s) = reverse c ++ SLASH :: match s with [] => [] | _ => buffer_of s end.
Proof. destruct s; cbn; [by rewrite app_nil_r|by rewrite <- app_assoc]. Qed.

Lemma render_buffer s : reverse (buffer_of s) = render s.
Proof.
  destruct s as [|c s]; [done|]. unfold buffer_of, render. induction (c :: s) as [|d l IH]; [done|].
  cbn [map concat]. rewrite reverse_app, IH, reverse_app, reverse_involutive.
  replace (reverse (d :: l)) with (reverse l ++ [d]) by (symmetry; apply reverse_cons). rewrite map_app, concat_app. cbn. by rewrite app_nil_r.
Qed.
Lemma len_buffer s : len (buffer_of s) = len (render s).
Proof. by rewrite <- render_buffer, length_reverse. Qed.

(** A buffer for a stack, possibly with the slash a dropped name leaves. *)
Definition holds (s : list (list Z)) (out : list Z) : Prop := out = buffer_of s \/ (s <> [] /\ out = SLASH :: buffer_of s).

Lemma plain_head c r : plain_name c -> exists x q, reverse c ++ r = x :: q /\ x <> SLASH /\ (r <> [] -> q <> []).
Proof.
  intros [Hn Hf]. destruct (exists_last Hn) as (c' & a & ->). clear Hn. rename c' into c. rewrite reverse_app. cbn. exists a, (reverse c ++ r).
  apply list.Forall_app in Hf as [_ Hf]. apply list.Forall_cons in Hf as [Ha _]. repeat split; [done|]. intros Hr. by destruct (reverse c).
Qed.

Lemma buffer_head c s : plain_name c -> exists x q, buffer_of (c :: s) = x :: q /\ x <> SLASH /\ q <> [].
Proof. intros Hc. rewrite buffer_of_cons. destruct (plain_head c (SLASH :: match s with [] => [] | _ => buffer_of s end) Hc) as (x & q & E & H1 & H2). exists x, q. split; [done|]. split; [done|]. by apply H2. Qed.

Lemma back_over c r : Forall (fun x => x <> SLASH) c -> back_to_slash (c ++ SLASH :: r) = SLASH :: r.
Proof.
  induction 1 as [|x c Hx Hc IH]; cbn [app back_to_slash]; [by rewrite Z.eqb_refl, andb_false_r|].
  rewrite (proj2 (Z.eqb_neq x SLASH) Hx), (proj2 (Z.eqb_neq _ 0)) by (rewrite length_app; cbn [length]; lia). done.
Qed.

Lemma drop_holds c s out : plain_name c -> holds (c :: s) out -> holds s (drop_component out).
Proof.
  intros Hc H. assert (E : drop_component out = back_to_slash (buffer_of (c :: s))).
  { unfold drop_component. destruct (buffer_head c s Hc) as (x & q & E & Hx & Hq). destruct H as [->|[_ ->]]; rewrite E.
    - destruct q as [|y q]; [done|]. replace (1 <? len (x :: y :: q)) with true by (symmetry; apply Z.ltb_lt; cbn [length]; lia). cbn [last_is_slash]. by rewrite (proj2 (Z.eqb_neq x SLASH) Hx).
    - replace (1 <? len (SLASH :: x :: q)) with true by (symmetry; apply Z.ltb_lt; cbn [length]; lia). done. }
  rewrite E, buffer_of_cons, back_over by (apply Forall_reverse, Hc). destruct s as [|d s]; [by left|]. right. done.
Qed.

Lemma append_holds c s out cap : plain_name c -> Forall plain_name s -> holds s out ->
  append_component out cap c = if cap <=? len (render (c :: s)) then None else Some (buffer_of (c :: s)).
Proof.
  intros Hc Hs H. pose proof Hc as [Hn _]. assert (Hl : 1 <= len c) by (destruct c; [done|cbn [length]; lia]).
  unfold append_component. rewrite (proj2 (Z.eqb_neq (len c) 0)) by lia. rewrite <- len_buffer, buffer_of_cons.
  rewrite length_app, length_reverse, length_cons. destruct s as [|d s].
  - destruct H as [->|[? _]]; [|done]. cbn [buffer_of length]. rewrite (proj2 (Z.eqb_neq (Z.of_nat 1) 0)) by lia. cbn [last_is_slash].
    rewrite Z.eqb_refl. cbn [negb andb]. split_ifs; try done; lia.
  - apply list.Forall_cons in Hs as [Hd _]. destruct (buffer_head d s Hd) as (x & q & E & Hx & _). destruct H as [->|[_ ->]]; rewrite E.
    + cbn [last_is_slash]. rewrite (proj2 (Z.eqb_neq x SLASH) Hx). rewrite (proj2 (Z.eqb_neq (len (x :: q)) 0)) by (cbn [length]; lia). cbn [negb andb].
      rewrite length_cons. split_ifs; try done; cbn [length] in *; lia.
    + cbn [last_is_slash]. rewrite Z.eqb_refl, andb_false_r. rewrite length_cons. split_ifs; try done; cbn [length] in *; lia.
Qed.

Lemma normalize_loop_resolve turns : forall p s out cap, (length p <= turns)%nat -> Forall plain_name s -> holds s out ->
  match resolve (names p) s cap with
  | Some s' => Forall plain_name s' /\ exists out', normalize_loop turns p out cap = Some out' /\ holds s' out'
  | None => normalize_loop turns p out cap = None
  end.
Proof.
  induction turns as [|turns IH]; intros p s out cap Hp Hs Ho.
  - destruct p; [|cbn in Hp; lia]. cbn. split; [done|]. by exists out.
  - cbn [normalize_loop]. rewrite <- names_skip. pose proof (skip_head p) as Hh.
    assert (Hlen : (length (skip_slashes p) <= length p)%nat). { clear. induction p as [|c p IH]; cbn; [lia|]. destruct (c =? SLASH); cbn; lia. }
    destruct (skip_slashes p) as [|c q] eqn:E; [cbn; split; [done|]; by exists out|]. specialize (Hh c q eq_refl).
    destruct (component (c :: q)) as [x r] eqn:Ec. destruct (names_component _ c q x r eq_refl Hh Ec) as (Hx & -> & Hr). cbn [resolve].
    assert (Hr' : (length r <= turns)%nat) by (cbn [length] in *; lia).
    case_bool_decide; [by apply IH|]. case_bool_decide.
    + apply IH; [done| |].
      * destruct s; [done|]. by apply list.Forall_cons in Hs as [_ ?].
      * destruct s as [|d s]; [|apply list.Forall_cons in Hs as [? _]; by apply (drop_holds d)]. destruct Ho as [->|[? _]]; [by left|done].
    + destruct (RIX_VFS_NAME_MAX <? len x); [done|]. cbn [orb]. rewrite (append_holds x s) by done.
      destruct (cap <=? len (render (x :: s))); [done|]. apply IH; [done|by constructor|by left].
Qed.

(** The normal form is the rendering of the names resolved. *)
Lemma normalize_resolves T p cap : 2 <= cap ->
  vfs_normalize_path T (SLASH :: p) cap = render <$> resolve (names p) [] cap.
Proof.
  intros Hcap. unfold vfs_normalize_path. replace (cap <? 2) with false by (symmetry; apply Z.ltb_ge; lia). rewrite Z.eqb_refl.
  pose proof (normalize_loop_resolve (length (SLASH :: p)) (SLASH :: p) [] [SLASH] cap ltac:(done) ltac:(done) ltac:(by left)) as H.
  rewrite names_slash in H. destruct (resolve (names p) [] cap) as [s|]; [|by rewrite H]. destruct H as (Hs & out & -> & Ho). cbn. f_equal.
  rewrite <- render_buffer. f_equal. destruct s as [|c s].
  - destruct Ho as [->|[? _]]; done.
  - apply list.Forall_cons in Hs as [Hc _]. destruct (buffer_head c s Hc) as (x & q & E & Hx & Hq). destruct Ho as [->|[_ ->]]; rewrite E.
    + cbn [last_is_slash]. by rewrite (proj2 (Z.eqb_neq x SLASH) Hx), andb_false_r.
    + cbn [last_is_slash tail]. rewrite Z.eqb_refl. by replace (1 <? len (SLASH :: x :: q)) with true by (symmetry; apply Z.ltb_lt; cbn [length]; lia).
Qed.

(** Names that resolution keeps. *)
Definition kept_name (c : list Z) : Prop := plain_name c /\ c <> [DOT] /\ c <> [DOT; DOT] /\ len c <= RIX_VFS_NAME_MAX.
Definition fits (cap : Z) (s : list (list Z)) : Prop := Forall kept_name s /\ (s <> [] -> len (render s) < cap).

Lemma len_render_cons c s : len (render (c :: s)) = len c + 1 + match s with [] => 0 | _ => len (render s) end.
Proof. rewrite <- len_buffer, buffer_of_cons, length_app, length_reverse, length_cons. destruct s; [cbn [length]; lia|]. rewrite <- (len_buffer (l :: s)). lia. Qed.

Lemma fits_tail cap s : fits cap s -> fits cap (tail s).
Proof.
  intros [Hs Hl]. destruct s as [|c s]; [done|]. apply list.Forall_cons in Hs as [_ Hs]. split; [done|]. intros Hn. specialize (Hl ltac:(done)).
  rewrite len_render_cons in Hl. destruct s; [done|]. cbn [tail]. lia.
Qed.

Lemma resolve_fits cs : forall s cap s', Forall plain_name cs -> fits cap s -> resolve cs s cap = Some s' -> fits cap s'.
Proof.
  induction cs as [|c cs IH]; intros s cap s' Hc Hs E; cbn [resolve] in E; [by simplify_eq|]. apply list.Forall_cons in Hc as [Hc Hcs].
  case_bool_decide; [by apply (IH s cap s')|]. case_bool_decide; [apply (IH (tail s) cap s'); [done|by apply fits_tail|done]|].
  destruct (RIX_VFS_NAME_MAX <? len c) eqn:E1; [done|]. destruct (cap <=? len (render (c :: s))) eqn:E2; [done|]. bool_to_prop.
  apply (IH (c :: s) cap s'); [done| |exact E]. split; [|lia]. constructor; [done|apply Hs].
Qed.

Lemma resolve_kept l : forall s cap, fits cap (reverse l ++ s) -> resolve l s cap = Some (reverse l ++ s).
Proof.
  induction l as [|c l IH]; intros s cap Hf; [done|]. cbn [resolve].
  assert (Hf' : fits cap (reverse l ++ c :: s)) by (revert Hf; rewrite reverse_cons, <- app_assoc; exact id).
  assert (Hc : fits cap (c :: s)). { revert Hf'. clear. induction (reverse l) as [|d k IH]; [done|]. intros H. apply IH, (fits_tail cap (d :: k ++ c :: s)), H. }
  pose proof Hc as [Hk Hl]. apply list.Forall_cons in Hk as [(_ & H1 & H2 & H3) _]. specialize (Hl ltac:(done)).
  rewrite !bool_decide_eq_false_2 by done. rewrite (proj2 (Z.ltb_ge _ _) H3), (proj2 (Z.leb_gt _ _) Hl). cbn [orb].
  rewrite (IH (c :: s) cap Hf'). by rewrite reverse_cons, <- app_assoc.
Qed.

Lemma names_concat l : Forall plain_name l -> names (concat (map (cons SLASH) l)) = l.
Proof.
  induction 1 as [|c l [Hn Hc] Hl IH]; [done|]. cbn [map concat app]. rewrite names_slash. unfold names in *. rewrite split_at_app by done.
  destruct l as [|d l]; cbn [map concat app split_at] in *.
  - by rewrite app_nil_r, filter_cons_True by done.
  - destruct (split_at_cons (d ++ concat (map (cons SLASH) l))) as (h & t & E). rewrite E in *. rewrite Z.eqb_refl in *. cbn iota in *.
    rewrite drop_empty in IH. rewrite app_nil_r, filter_cons_True by done. by rewrite IH.
Qed.

Lemma names_plain p : Forall plain_name (names p).
Proof.
  apply list.Forall_forall. intros s Hs. unfold names in Hs. apply list_elem_of_filter in Hs as [Hn Hs]. split; [done|]. revert Hs. clear. revert s.
  assert (H : Forall (Forall (fun x => x <> SLASH)) (split_at p)); [|by apply list.Forall_forall].
  induction p as [|c p IH]; cbn [split_at]; [by constructor|]. destruct (split_at p) as [|h t]; [constructor|].
  apply list.Forall_cons in IH as [Hh Ht]. destruct (c =? SLASH) eqn:E; bool_to_prop; repeat constructor; done.
Qed.

Lemma render_names s : Forall plain_name s -> exists r, render s = SLASH :: r /\ names r = reverse s.
Proof.
  intros Hs. destruct s as [|c s]; [by exists []|]. set (l := c :: s) in *. assert (E : render l = concat (map (cons SLASH) (reverse l))) by done.
  destruct (reverse l) as [|d k] eqn:El; [by apply (f_equal reverse) in El; rewrite reverse_involutive in El|].
  exists (d ++ concat (map (cons SLASH) k)). split; [done|]. rewrite <- names_slash. apply (names_concat (d :: k)). rewrite <- El. by apply Forall_reverse.
Qed.

(** C34: path normalisation is name resolution. An absolute path is normalised to the
    rendering of its names with [.] dropped and [..] undoing the name before it, and is
    refused exactly when a name is longer than 255 bytes or a prefix does not fit the
    buffer. A result has only names that mean themselves, and is its own normal form. *)
Theorem vfs_normalize_exact (T : procs) (p : list Z) (cap : Z) (Hcap : 2 <= cap) :
  vfs_normalize_path T (SLASH :: p) cap = render <$> resolve (names p) [] cap /\
  forall q, vfs_normalize_path T (SLASH :: p) cap = Some q ->
    Forall kept_name (names q) /\ len q < cap /\ vfs_normalize_path T q cap = Some q.
Proof.
  split; [by apply normalize_resolves|]. intros q. rewrite normalize_resolves by done.
  destruct (resolve (names p) [] cap) as [s|] eqn:E; [|done]. intros [= <-].
  assert (Hf : fits cap s).
  { apply (resolve_fits (names p) [] cap s); [apply names_plain| |done]. split; [constructor|]. intros H. by destruct H. }
  assert (Hp : Forall plain_name s) by (destruct Hf as [Hk _]; apply (list.Forall_impl _ _ _ Hk); intros x Hx; apply Hx).
  destruct (render_names s Hp) as (r & Er & En). rewrite Er. rewrite names_slash, En, normalize_resolves, En by done. split; [apply Forall_reverse, Hf|].
  rewrite <- Er. split.
  - destruct s; [cbn; lia|]. by apply Hf.
  - rewrite resolve_kept; rewrite app_nil_r, reverse_involutive; done.
Qed.

Lemma vfs_normalize_exact_witness : exists T, vfs_normalize_path T [47; 97; 47; 46; 47; 98; 47; 46; 46; 47; 47; 99] 16 = Some [47; 97; 47; 99].
Proof.
  set (T := {| table := []; supplementary_groups := []; supplementary_counts := []; real_uids := []; saved_uids := []; real_gids := []; saved_gids := [];
     audit_uids := []; sessions := []; current_pid := 0; next_pid := 0; live_count := 0; process_lock := spin_free; process_lockdep_class := 0 |}).
  exists T. pose proof (vfs_normalize_exact T [97; 47; 46; 47; 98; 47; 46; 46; 47; 47; 99] 16 ltac:(lia)) as [H _]. exact H.
Defined.
