(* ===== verification/Vfs.v ===== *)
(** * The virtual file system ([kernel/vfs/vfs.h], [kernel/vfs/vfs.c])

    Path lookup with symbolic links and permissions, the descriptor tables of the
    processes, and pipes. The file system on disk ([kernel/fs]), the scheduler and the
    lock-order checker are the interface [Below]; the process table is the one of
    [Process], read without its lock. A pointer to a vnode is [node_ref]: lookups return
    the address of one of two static nodes, so two results can be the same node. A
    pointer to a pipe is the index of its slot. *)
From stdpp Require Import base tactics list numbers.
From S2P Require Import Prelude Lock Bytes Channel Pipe Process VfsPath.

Definition RIX_VFS_FD_MAX : Z := 64.
Definition RIX_VFS_O_WRONLY : Z := 1.
Definition RIX_VFS_O_RDWR : Z := 2.
Definition RIX_VFS_O_CREAT : Z := 4.
Definition RIX_VFS_O_TRUNC : Z := 8.
Definition RIX_VFS_O_APPEND : Z := 16.
Definition RIX_VFS_O_CLOEXEC : Z := 128.
Definition RIX_VFS_FD_CLOEXEC : Z := 1.
Definition RIX_VFS_ERR_PERMISSION : Z := -13.
Definition RIX_VFS_ERR_EXISTS : Z := -17.
Definition RIX_VFS_ERR_LOOP : Z := -40.
Definition RIX_VFS_DIR : Z := 1.
Definition RIX_VFS_FILE : Z := 2.
Definition RIX_VFS_SYMLINK : Z := 3.
Definition RIX_VFS_DEVICE : Z := 4.
Definition VFS_FD_PIPE_READ : Z := 5.
Definition VFS_FD_PIPE_WRITE : Z := 6.
Definition VFS_PIPE_MAX : Z := 32.
Definition RIX_VFS_STDIO_RESERVED : Z := 3.
Definition VFS_ACCESS_READ : Z := 4.
Definition VFS_ACCESS_WRITE : Z := 2.
Definition VFS_ACCESS_EXEC : Z := 1.
Definition RIX_VFS_MAX_SYMLINKS : Z := 8.
Definition RIXFS_DIR_TYPE_DIR : Z := 1.
Definition RIXFS_DIR_TYPE_FILE : Z := 2.
Definition RIXFS_DIR_TYPE_SYMLINK : Z := 3.
Definition RIXFS_IFMT : Z := 0xF000.
Definition RIXFS_IFLNK : Z := 0xA000.
Definition RIXFS_IFDIR : Z := 0x4000.
Definition RIXFS_ACL_VERSION : Z := 1.
Definition RIXFS_ACL_NONE : Z := UINT32_MAX.
Definition RIXFS_ACL_PERM_MASK : Z := 7.

(** ** Data *)

Record rix_vnode_t := { vn_inode : Z; vn_type : Z; vn_mode : Z; vn_uid : Z; vn_gid : Z; vn_size : Z }.

Record rixfs_inode_disk_t := {
  in_inode : Z; in_mode : Z; in_uid : Z; in_gid : Z; in_flags : Z; in_size : Z; in_generation : Z; in_extent_start : list Z;
  in_extent_length : list Z; in_links : Z; in_acl_user : Z; in_acl_user_perm : Z; in_acl_group : Z; in_acl_group_perm : Z; in_acl_mask : Z }.
#[export] Instance eta_inode : Eta rixfs_inode_disk_t := fun i =>
  {| in_inode := in_inode i; in_mode := in_mode i; in_uid := in_uid i; in_gid := in_gid i; in_flags := in_flags i; in_size := in_size i;
     in_generation := in_generation i; in_extent_start := in_extent_start i; in_extent_length := in_extent_length i; in_links := in_links i;
     in_acl_user := in_acl_user i; in_acl_user_perm := in_acl_user_perm i; in_acl_group := in_acl_group i;
     in_acl_group_perm := in_acl_group_perm i; in_acl_mask := in_acl_mask i |}.
Definition set_in_mode (x : Z) (i : rixfs_inode_disk_t) : rixfs_inode_disk_t := ltac:(upd i in_mode x).
Definition set_in_uid (x : Z) (i : rixfs_inode_disk_t) : rixfs_inode_disk_t := ltac:(upd i in_uid x).
Definition set_in_gid (x : Z) (i : rixfs_inode_disk_t) : rixfs_inode_disk_t := ltac:(upd i in_gid x).

Record rixfs_acl_t := { acl_version : Z; acl_user : Z; acl_user_perm : Z; acl_group : Z; acl_group_perm : Z; acl_mask : Z }.
Record rixfs_dirent_disk_t := { de_inode : Z; de_record_size : Z; de_type : Z; de_name_length : Z; de_flags : Z }.
Record rix_statfs_t := { st_block_size : Z; st_total_blocks : Z; st_free_blocks : Z; st_avail_blocks : Z; st_total_inodes : Z; st_free_inodes : Z }.

(** [fd_pipe] is the slot of the pipe, -1 for the null pointer. *)
Record vfs_fd_t := {
  fd_used : Z; fd_type : Z; fd_writable : Z; fd_append : Z; fd_cloexec : Z; fd_inode : Z; fd_offset : Z; fd_pipe : Z; fd_pipe_write : Z }.
#[export] Instance eta_fd : Eta vfs_fd_t := fun f =>
  {| fd_used := fd_used f; fd_type := fd_type f; fd_writable := fd_writable f; fd_append := fd_append f; fd_cloexec := fd_cloexec f;
     fd_inode := fd_inode f; fd_offset := fd_offset f; fd_pipe := fd_pipe f; fd_pipe_write := fd_pipe_write f |}.
Definition set_fd_used (x : Z) (f : vfs_fd_t) : vfs_fd_t := ltac:(upd f fd_used x).
Definition set_fd_append (x : Z) (f : vfs_fd_t) : vfs_fd_t := ltac:(upd f fd_append x).
Definition set_fd_cloexec (x : Z) (f : vfs_fd_t) : vfs_fd_t := ltac:(upd f fd_cloexec x).
Definition set_fd_offset (x : Z) (f : vfs_fd_t) : vfs_fd_t := ltac:(upd f fd_offset x).

(** A slot without its two wait queues, which the scheduler keeps. *)
Record vfs_pipe_slot_t := { ps_pipe : rix_pipe_t; ps_used : Z; ps_refs : Z }.
Definition set_ps_pipe (x : rix_pipe_t) (s : vfs_pipe_slot_t) : vfs_pipe_slot_t := {| ps_pipe := x; ps_used := ps_used s; ps_refs := ps_refs s |}.

Inductive queue := ReadQueue (slot : Z) | WriteQueue (slot : Z).

Inductive node_ref := RootNode | PathNode.

(** The file's static variables; of the mounts the root mount, whose file system is below. *)
Record vfs := {
  root : rix_vnode_t; active : Z; path_node : rix_vnode_t; fds : list (list vfs_fd_t); pipe_slots : list vfs_pipe_slot_t;
  vfs_lock : rix_spinlock_t; vfs_lockdep_class : Z }.
#[export] Instance eta_vfs : Eta vfs := fun v =>
  {| root := root v; active := active v; path_node := path_node v; fds := fds v; pipe_slots := pipe_slots v; vfs_lock := vfs_lock v;
     vfs_lockdep_class := vfs_lockdep_class v |}.
Definition with_root (x : rix_vnode_t) (v : vfs) : vfs := ltac:(upd v root x).
Definition with_active (x : Z) (v : vfs) : vfs := ltac:(upd v active x).
Definition with_path_node (x : rix_vnode_t) (v : vfs) : vfs := ltac:(upd v path_node x).
Definition with_fds (x : list (list vfs_fd_t)) (v : vfs) : vfs := ltac:(upd v fds x).
Definition with_pipe_slots (x : list vfs_pipe_slot_t) (v : vfs) : vfs := ltac:(upd v pipe_slots x).
Definition with_vfs_lock (x : rix_spinlock_t) (v : vfs) : vfs := ltac:(upd v vfs_lock x).
Definition with_vfs_lockdep_class (x : Z) (v : vfs) : vfs := ltac:(upd v vfs_lockdep_class x).

Definition set_vn_inode (x : Z) (n : rix_vnode_t) : rix_vnode_t :=
  {| vn_inode := x; vn_type := vn_type n; vn_mode := vn_mode n; vn_uid := vn_uid n; vn_gid := vn_gid n; vn_size := vn_size n |}.

Definition no_fd : vfs_fd_t :=
  {| fd_used := 0; fd_type := 0; fd_writable := 0; fd_append := 0; fd_cloexec := 0; fd_inode := 0; fd_offset := 0; fd_pipe := -1; fd_pipe_write := 0 |}.
Definition no_pipe : rix_pipe_t :=
  {| channel := {| data := []; head := 0; Channel.tail := 0; count := 0; closed := 0; lock := spin_free |}; read_open := 0; write_open := 0; read_refs := 0; write_refs := 0 |}.
Definition no_slot : vfs_pipe_slot_t := {| ps_pipe := no_pipe; ps_used := 0; ps_refs := 0 |}.

Definition fd_at (v : vfs) (ps fd : Z) : vfs_fd_t := aget no_fd (aget [] (fds v) ps) fd.
Definition put_fd (ps fd : Z) (f : vfs_fd_t) (v : vfs) : vfs := with_fds (aset ps (aset fd f (aget [] (fds v) ps)) (fds v)) v.
Definition on_fd (ps fd : Z) (f : vfs_fd_t -> vfs_fd_t) (v : vfs) : vfs := put_fd ps fd (f (fd_at v ps fd)) v.
Definition pslot (v : vfs) (i : Z) : vfs_pipe_slot_t := aget no_slot (pipe_slots v) i.
Definition put_pslot (i : Z) (s : vfs_pipe_slot_t) (v : vfs) : vfs := with_pipe_slots (aset i s (pipe_slots v)) v.

(** The node a lookup returned a pointer to, as it is now. *)
Definition node_of (v : vfs) (r : node_ref) : rix_vnode_t := match r with RootNode => root v | PathNode => path_node v end.

(** ** What the virtual file system needs of the other components

    The first argument of a file-system call says whether the pointer to the mounted
    file system is non-null. *)
Class Below (W : Type) := {
  below_ok : W -> Prop;
  lockdep_register : M (cpu * W) Z;
  lockdep_acquire : Z -> M (cpu * W) Z;
  lockdep_release : Z -> M (cpu * W) Z;
  super_root_inode : W -> Z;
  super_inode_count : W -> Z;
  device_sector_size : W -> option Z;
  rixfs_mount : Z -> M (cpu * W) Z;
  rixfs_unmount : M (cpu * W) unit;
  rixfs_read_inode : bool -> Z -> M (cpu * W) (Z * rixfs_inode_disk_t);
  rixfs_write_inode : bool -> Z -> rixfs_inode_disk_t -> M (cpu * W) Z;
  rixfs_lookup_name : bool -> Z -> list Z -> M (cpu * W) (Z * (Z * Z));
  rixfs_read : bool -> Z -> Z -> Z -> M (cpu * W) (Z * list Z);
  rixfs_write : bool -> Z -> Z -> list Z -> M (cpu * W) Z;
  rixfs_truncate : bool -> Z -> Z -> M (cpu * W) Z;
  rixfs_create : bool -> Z -> list Z -> Z -> Z -> Z -> M (cpu * W) (Z * Z);
  rixfs_mkdir : bool -> Z -> list Z -> Z -> Z -> Z -> M (cpu * W) (Z * Z);
  rixfs_symlink : bool -> Z -> list Z -> list Z -> Z -> Z -> M (cpu * W) (Z * Z);
  rixfs_link : bool -> Z -> Z -> list Z -> Z -> M (cpu * W) Z;
  rixfs_unlink : bool -> Z -> list Z -> M (cpu * W) Z;
  rixfs_rmdir : bool -> Z -> list Z -> M (cpu * W) Z;
  rixfs_rename : bool -> Z -> list Z -> Z -> list Z -> Z -> M (cpu * W) Z;
  rixfs_readdir : bool -> Z -> Z -> Z -> M (cpu * W) (Z * (Z * rixfs_dirent_disk_t * list Z));
  rixfs_get_acl : bool -> Z -> M (cpu * W) (Z * rixfs_acl_t);
  rixfs_set_acl : bool -> Z -> rixfs_acl_t -> M (cpu * W) Z;
  rixfs_clear_acl : bool -> Z -> M (cpu * W) Z;
  rixfs_statfs : bool -> M (cpu * W) (Z * (Z * Z * Z));
  rix_waitqueue_init : queue -> M (cpu * W) unit;
  scheduler_wake_queue : queue -> M (cpu * W) unit;
  scheduler_wait_prepare : queue -> M (cpu * W) Z;
  scheduler_block_current : M (cpu * W) unit;
}.

(** ** Operations *)

Section Operations.
Context {W : Type} {BW : Below W} (T : procs).
Abbreviation st := (cpu * (vfs * W))%type.

#[global] Program Instance vfs_guard : HasGuard (vfs * W) := {|
  guard s := vfs_lock s.1;
  with_guard l s := (with_vfs_lock l s.1, s.2);
|}.
Next Obligation. done. Qed.
Next Obligation. by intros [[] ]. Qed.
Next Obligation. done. Qed.

Definition below {A} (m : M (cpu * W) A) : M st A := fun '(c, (v, w)) =>
  match m (c, w) with
  | Some (a, (c', w')) => Some (a, (c', (v, w')))
  | None => None
  end.
Definition look {A} (f : vfs -> A) : M st A := gets (fun '(_, (v, _)) => f v).
Definition ask {A} (f : W -> A) : M st A := gets (fun '(_, (_, w)) => f w).
Definition change (f : vfs -> vfs) : M st unit := act (fun '(c, (v, w)) => (tt, (c, (f v, w)))).

(** [VFS_GUARD]. *)
Definition guarded {R} (body : M st R) : M st R :=
  k ← look vfs_lockdep_class;
  rc ← below (lockdep_acquire k);
  irq ← rix_spin_lock_irqsave;
  r ← body;
  _ ← (if rc =? 0 then _ ← below (lockdep_release k); mret tt else mret tt);
  _ ← rix_spin_unlock_irqrestore irq;
  mret r.

Definition vfs_root_fs : M st bool := look (fun v => truthy (active v)).

Definition permission_allowed (node : rix_vnode_t) (access : Z) : M st Z :=
  let me := process_current T in
  let who := process_uid T me in
  if (who =? 0) && process_has_capability T me RIX_CAP_DAC_OVERRIDE then mret 0
  else
    bits ← (if who =? vn_uid node then mret (Some (Z.land (Z.shiftr (vn_mode node) 6) 7))
            else
              fs ← vfs_root_fs;
              '(rc, acl) ← below (rixfs_get_acl fs (vn_inode node));
              if negb (rc =? 0) then mret None
              else if (acl_version acl =? RIXFS_ACL_VERSION) && negb (acl_user acl =? RIXFS_ACL_NONE) && (acl_user acl =? who) then
                mret (Some (Z.land (Z.land (acl_user_perm acl) RIXFS_ACL_PERM_MASK) (Z.land (acl_mask acl) RIXFS_ACL_PERM_MASK)))
              else if (acl_version acl =? RIXFS_ACL_VERSION) && negb (acl_group acl =? RIXFS_ACL_NONE) && process_in_group T me (acl_group acl) then
                mret (Some (Z.land (Z.land (acl_group_perm acl) RIXFS_ACL_PERM_MASK) (Z.land (acl_mask acl) RIXFS_ACL_PERM_MASK)))
              else if process_in_group T me (vn_gid node) then mret (Some (Z.land (Z.shiftr (vn_mode node) 3) 7))
              else mret (Some (Z.land (vn_mode node) 7)));
    match bits with
    | None => mret RIX_VFS_ERR_PERMISSION
    | Some bits => mret (if Z.land bits access =? access then 0 else RIX_VFS_ERR_PERMISSION)
    end.

Definition dirent_type (t : Z) : Z :=
  if t =? RIXFS_DIR_TYPE_DIR then RIX_VFS_DIR
  else if t =? RIXFS_DIR_TYPE_FILE then RIX_VFS_FILE
  else if t =? RIXFS_DIR_TYPE_SYMLINK then RIX_VFS_SYMLINK
  else RIX_VFS_DEVICE.

(** [pid_slot]: the row of a process in the descriptor table. *)
Definition pid_slot (id : Z) : option Z := if RIX_PROCESS_MAX <=? id then None else Some id.

(** ** Lookup *)

Definition vnode (ino type : Z) (i : rixfs_inode_disk_t) : rix_vnode_t :=
  {| vn_inode := ino; vn_type := type; vn_mode := in_mode i; vn_uid := in_uid i; vn_gid := in_gid i; vn_size := in_size i |}.

(** Appending to a buffer of [RIX_VFS_PATH_MAX] bytes that must keep room for the terminator. *)
Definition push_all (w s : list Z) : option (list Z) :=
  if negb (len s =? 0) && (RIX_VFS_PATH_MAX <=? len w + len s) then None else Some (w ++ s).
Definition push_slash (w : list Z) : option (list Z) :=
  if (len w =? 0) || negb (last_is_slash (reverse w)) then push_all w [SLASH] else Some w.

(** [while(d>1&&work[d-1]=='/')d--], on the bytes before the component, last one first. *)
Fixpoint strip_slashes (r : list Z) : list Z :=
  match r with
  | [] => []
  | c :: r' => if negb (len r' =? 0) && (c =? SLASH) then strip_slashes r' else r
  end.

(** The path a symbolic link leads to, before it is normalised. *)
Definition rebuild (before target rest : list Z) : option (list Z) :=
  match (if match target with c :: _ => c =? SLASH | [] => false end then push_all [] target
         else w ← push_all [] (reverse (strip_slashes (reverse before))); w ← push_slash w; push_all w target) with
  | None => None
  | Some w => if len rest =? 0 then Some w else w ← push_slash w; push_all w rest
  end.

(** A walk returns a code and a node, or starts again at another path. *)
Inductive walked := Return (rc : Z) (n : option node_ref) | Restart (work : list Z).

Definition follow_link (before rest : list Z) (ino : Z) (i : rixfs_inode_disk_t) : M st walked :=
  if RIX_VFS_PATH_MAX <=? in_size i then mret (Return (-1) None)
  else
    '(rc, bytes) ← (if in_size i =? 0 then mret (0, []) else below (rixfs_read true ino 0 (in_size i)));
    if negb (rc =? 0) then mret (Return (-1) None)
    else match rebuild before (c_string bytes) rest with
    | None => mret (Return (-1) None)
    | Some rebuilt => match vfs_normalize_path T rebuilt RIX_VFS_PATH_MAX with
                      | None => mret (Return (-1) None)
                      | Some work => mret (Restart work)
                      end
    end.

(** One turn per component of [p]; [before] is the part of the path already passed. *)
Fixpoint walk (turns : nat) (follow : bool) (before p : list Z) (ino : Z) (current : rix_vnode_t) : M st walked :=
  match p with
  | [] => mret (Return (-1) None)
  | _ =>
    match turns with
    | O => diverge
    | S turns =>
      rc ← permission_allowed current VFS_ACCESS_EXEC;
      if negb (rc =? 0) then mret (Return RIX_VFS_ERR_PERMISSION None)
      else
        let '(c, p1) := component p in
        if (len c =? 0) || (RIX_VFS_NAME_MAX <? len c) then mret (Return (-1) None)
        else
          '(rc, (next, t)) ← below (rixfs_lookup_name true ino c);
          if negb (rc =? 0) then mret (Return (-2) None)
          else
            '(rc, i) ← below (rixfs_read_inode true next);
            if negb (rc =? 0) then mret (Return (-1) None)
            else
              let rest := skip_slashes p1 in
              if (t =? RIXFS_DIR_TYPE_SYMLINK) && (follow || negb (len rest =? 0)) then follow_link before rest next i
              else if len rest =? 0 then
                _ ← change (with_path_node (vnode next (dirent_type t) i)); mret (Return 0 (Some PathNode))
              else if negb (Z.land (in_mode i) RIXFS_IFMT =? RIXFS_IFDIR) then mret (Return (-1) None)
              else walk turns follow (before ++ take (length p - length rest) p) rest next (vnode next RIX_VFS_DIR i)
    end
  end.

(** [restarts] are left: 9 at depth 0, none once the depth exceeds [RIX_VFS_MAX_SYMLINKS]. *)
Fixpoint lookup_restart (restarts : nat) (follow : bool) (work : list Z) : M st (Z * option node_ref) :=
  match restarts with
  | O => mret (RIX_VFS_ERR_LOOP, None)
  | S restarts =>
    ino ← ask super_root_inode;
    '(rc, i) ← below (rixfs_read_inode true ino);
    if negb (rc =? 0) then mret (-1, None)
    else if bool_decide (work = [SLASH]) then
      _ ← change (with_path_node (vnode ino RIX_VFS_DIR i)); mret (0, Some PathNode)
    else
      r ← walk (length work) follow (take 1 work) (drop 1 work) ino (vnode ino RIX_VFS_DIR i);
      match r with
      | Return rc n => mret (rc, n)
      | Restart work => lookup_restart restarts follow work
      end
  end.

Definition lookup_rixfs_path_ex (n : list Z) (follow : bool) : M st (Z * option node_ref) :=
  a ← look active;
  if negb (truthy a) then mret (-1, None)
  else if RIX_VFS_PATH_MAX <=? len n then mret (-1, None)
  else lookup_restart (Z.to_nat (RIX_VFS_MAX_SYMLINKS + 1)) follow n.

(** The code, the node, and the path written to [out->path]. *)
Definition lookup_with (follow : bool) (path : list Z) : M st (Z * option node_ref * list Z) :=
  match vfs_normalize_path T path RIX_VFS_PATH_MAX with
  | None => mret (-1, None, [])
  | Some norm =>
    if bool_decide (norm = [SLASH]) then mret (0, Some RootNode, norm)
    else '(rc, n) ← lookup_rixfs_path_ex norm follow; mret (rc, n, norm)
  end.
Definition vfs_lookup_locked (path : list Z) : M st (Z * option node_ref * list Z) := lookup_with true path.
Definition vfs_lookup_nofollow_locked (path : list Z) : M st (Z * option node_ref * list Z) := lookup_with false path.
Definition vfs_lookup (path : list Z) : M st (Z * option node_ref * list Z) := guarded (vfs_lookup_locked path).
Definition vfs_lookup_nofollow (path : list Z) : M st (Z * option node_ref * list Z) := guarded (vfs_lookup_nofollow_locked path).

Definition vfs_lookup_from_locked (base path : list Z) : M st (Z * option node_ref * list Z) :=
  if match path with c :: _ => c =? SLASH | [] => false end then vfs_lookup_locked path
  else match (w ← push_all [] base; w ← push_slash w; push_all w path) with
       | None => mret (-1, None, [])
       | Some joined => vfs_lookup_locked joined
       end.
Definition vfs_lookup_from (base path : list Z) : M st (Z * option node_ref * list Z) := guarded (vfs_lookup_from_locked base path).

(** ** Mounting *)

Definition vfs_init : M st Z :=
  k ← below lockdep_register;
  _ ← change (fun v =>
    let v := with_vfs_lockdep_class k v in
    let v := with_root {| vn_inode := 1; vn_type := RIX_VFS_DIR; vn_mode := 0x1ed; vn_uid := 0; vn_gid := 0; vn_size := 0 |} v in
    let v := with_active 0 v in
    let v := for_all 0 VFS_PIPE_MAX (fun i v => put_pslot i {| ps_pipe := ps_pipe (pslot v i); ps_used := 0; ps_refs := ps_refs (pslot v i) |} v) v in
    for_all 0 RIX_PROCESS_MAX (fun p v => for_all 0 RIX_VFS_FD_MAX (fun f v => on_fd p f (set_fd_used 0) v) v) v);
  mret 0.

Definition vfs_mount_root (device : Z) : M st Z := guarded (
  a ← look active;
  if (device =? 0) || truthy a then mret (-1)
  else
    r ← below (rixfs_mount device);
    if negb (r =? 0) then mret r
    else
      ino ← ask super_root_inode;
      _ ← change (fun v => with_root (set_vn_inode ino (root v)) (with_active 1 v));
      mret 0).

Definition vfs_root_active : M st Z := guarded (look (fun v => if truthy (active v) then 1 else 0)).

(** ** Descriptors *)

Definition bad_fd (fd : Z) : bool := (fd <? 0) || (RIX_VFS_FD_MAX <=? fd).
Definition is_pipe_type (t : Z) : bool := (t =? VFS_FD_PIPE_READ) || (t =? VFS_FD_PIPE_WRITE).

(** The first free descriptor from [lo] on, -1 if there is none. *)
Definition free_fd (v : vfs) (ps lo : Z) : Z :=
  match for_ lo (RIX_VFS_FD_MAX - lo) (fun i (_ : unit) => if negb (truthy (fd_used (fd_at v ps i))) then inr i else inl tt) tt with
  | inr i => i
  | inl _ => -1
  end.

(** The slot in use whose pipe has the given address. *)
Definition find_pipe (v : vfs) (p : Z) : option Z :=
  match for_ 0 VFS_PIPE_MAX (fun i (_ : unit) => if truthy (ps_used (pslot v i)) && (i =? p) then inr i else inl tt) tt with
  | inr i => Some i
  | inl _ => None
  end.

(** A pipe operation through its address. *)
Definition on_pipe {A} (p : Z) (m : M (cpu * option rix_pipe_t) A) : M st A := fun '(c, (v, w)) =>
  if p <? 0 then match m (c, None) with Some (a, (c', _)) => Some (a, (c', (v, w))) | None => None end
  else match m (c, Some (ps_pipe (pslot v p))) with
       | Some (a, (c', Some q)) => Some (a, (c', (put_pslot p (set_ps_pipe q (pslot v p)) v, w)))
       | _ => None
       end.
Definition plain {A} (f : option rix_pipe_t -> A * option rix_pipe_t) : M (cpu * option rix_pipe_t) A := fun '(c, p) =>
  let '(a, p') := f p in Some (a, (c, p')).
Definition pipe_close_end (f : vfs_fd_t) : M st Z :=
  on_pipe (fd_pipe f) (if truthy (fd_pipe_write f) then pipe_close_write else plain pipe_close_read).
Definition pipe_retain_end (f : vfs_fd_t) : M st Z :=
  on_pipe (fd_pipe f) (plain (if truthy (fd_pipe_write f) then pipe_retain_write else pipe_retain_read)).

(** A reference less; the last one frees the slot. *)
Definition drop_ref (s : vfs_pipe_slot_t) : vfs_pipe_slot_t :=
  let refs := if truthy (ps_refs s) then u8 (ps_refs s - 1) else ps_refs s in
  {| ps_pipe := ps_pipe s; ps_used := if truthy refs then ps_used s else 0; ps_refs := refs |}.

Definition vfs_close_locked (id fd : Z) : M st Z :=
  match pid_slot id with
  | None => mret (-1)
  | Some ps =>
    f ← look (fun v => fd_at v ps fd);
    if bad_fd fd || negb (truthy (fd_used f)) then mret (-1)
    else
      rc ← (if is_pipe_type (fd_type f) then
              i ← look (fun v => find_pipe v (fd_pipe f));
              match i with
              | None => mret (-1)
              | Some i =>
                rc ← pipe_close_end f;
                if negb (rc =? 0) then mret (-1)
                else
                  _ ← change (fun v => put_pslot i (drop_ref (pslot v i)) v);
                  _ ← below (scheduler_wake_queue (ReadQueue i));
                  _ ← below (scheduler_wake_queue (WriteQueue i));
                  mret 0
              end
            else mret 0);
      if negb (rc =? 0) then mret (-1)
      else _ ← change (on_fd ps fd (fun f => set_fd_cloexec 0 (set_fd_used 0 f))); mret 0
  end.
Definition vfs_close (id fd : Z) : M st Z := guarded (vfs_close_locked id fd).

(** A loop over the descriptors of a row that keeps a code. *)
Fixpoint each_fd (n : nat) (fd : Z) (rc : Z) (body : Z -> Z -> M st Z) : M st Z :=
  match n with
  | O => mret rc
  | S n => rc ← body fd rc; each_fd n (fd + 1) rc body
  end.

Definition vfs_close_all_locked (id : Z) : M st Z :=
  match pid_slot id with
  | None => mret (-1)
  | Some ps => each_fd (Z.to_nat RIX_VFS_FD_MAX) 0 0 (fun fd rc =>
      f ← look (fun v => fd_at v ps fd);
      if truthy (fd_used f) then r ← vfs_close_locked id fd; mret (if negb (r =? 0) then -1 else rc) else mret rc)
  end.
Definition vfs_close_all (id : Z) : M st Z := guarded (vfs_close_all_locked id).

Definition vfs_close_cloexec (id : Z) : M st Z := guarded (
  match pid_slot id with
  | None => mret (-1)
  | Some ps => each_fd (Z.to_nat RIX_VFS_FD_MAX) 0 0 (fun fd rc =>
      f ← look (fun v => fd_at v ps fd);
      if truthy (fd_used f) && truthy (fd_cloexec f) then _ ← vfs_close_locked id fd; mret 0 else mret 0)
  end).

Definition vfs_close_pipes_except (id keep_fd0 keep_fd1 : Z) : M st Z := guarded (
  match pid_slot id with
  | None => mret (-1)
  | Some ps =>
    if (keep_fd0 <? -1) || (RIX_VFS_FD_MAX <=? keep_fd0) || (keep_fd1 <? -1) || (RIX_VFS_FD_MAX <=? keep_fd1) then mret (-1)
    else each_fd (Z.to_nat RIX_VFS_FD_MAX) 0 0 (fun fd rc =>
      f ← look (fun v => fd_at v ps fd);
      if negb (rc =? 0) || negb (truthy (fd_used f)) || (fd =? keep_fd0) || (fd =? keep_fd1) then mret rc
      else if is_pipe_type (fd_type f) then r ← vfs_close_locked id fd; mret (if negb (r =? 0) then -1 else 0) else mret 0)
  end).

Definition vfs_unmount_root : M st Z := guarded (
  a ← look active;
  if negb (truthy a) then mret (-1)
  else
    rc ← mfor_rc (Z.to_nat RIX_PROCESS_MAX) 0 vfs_close_all_locked;
    if negb (rc =? 0) then mret (-1)
    else
      _ ← below rixfs_unmount;
      _ ← change (fun v => with_root (set_vn_inode 1 (root v)) (with_active 0 v));
      mret 0).

(** The copy to store, [inl] the code of a failure. *)
Definition retain_fd (source : vfs_fd_t) : M st (Z + vfs_fd_t) :=
  if negb (truthy (fd_used source)) then mret (inl (-1))
  else if is_pipe_type (fd_type source) then
    i ← look (fun v => find_pipe v (fd_pipe source));
    match i with
    | None => mret (inl (-4))
    | Some i =>
      s ← look (fun v => pslot v i);
      if ps_refs s =? UINT8_MAX then mret (inl (-2))
      else
        rc ← pipe_retain_end source;
        if negb (rc =? 0) then mret (inl (-3))
        else
          _ ← change (fun v => let s := pslot v i in put_pslot i {| ps_pipe := ps_pipe s; ps_used := ps_used s; ps_refs := u8 (ps_refs s + 1) |} v);
          mret (inr source)
    end
  else mret (inr source).

(** [vfs_dup_min]; [vfs_dup] is the case 0. *)
Definition dup_from (id old_fd lo : Z) : M st (Z * Z) :=
  match pid_slot id with
  | None => mret (-1, 0)
  | Some ps =>
    f ← look (fun v => fd_at v ps old_fd);
    if bad_fd old_fd || bad_fd lo || negb (truthy (fd_used f)) then mret (-1, 0)
    else
      fd ← look (fun v => free_fd v ps lo);
      if fd <? 0 then mret (-2, 0)
      else
        r ← retain_fd f;
        match r with
        | inl _ => mret (-2, 0)
        | inr copy => _ ← change (put_fd ps fd (set_fd_cloexec 0 copy)); mret (0, fd)
        end
  end.
Definition vfs_dup (id old_fd : Z) : M st (Z * Z) := guarded (dup_from id old_fd 0).
Definition vfs_dup_min (id old_fd minimum_fd : Z) : M st (Z * Z) := guarded (dup_from id old_fd minimum_fd).

(** Undoing [retain_fd] when the target cannot be closed. *)
Definition release_copy (copy : vfs_fd_t) : M st unit :=
  if is_pipe_type (fd_type copy) then
    i ← look (fun v => find_pipe v (fd_pipe copy));
    match i with
    | None => mret tt
    | Some i => rc ← pipe_close_end copy; if rc =? 0 then change (fun v => put_pslot i (drop_ref (pslot v i)) v) else mret tt
    end
  else mret tt.

Definition dup_to_locked (id old_fd new_fd : Z) : M st Z :=
  match pid_slot id with
  | None => mret (-1)
  | Some ps =>
    f ← look (fun v => fd_at v ps old_fd);
    if bad_fd old_fd || bad_fd new_fd || negb (truthy (fd_used f)) then mret (-1)
    else if old_fd =? new_fd then mret 0
    else
      r ← retain_fd f;
      match r with
      | inl _ => mret (-2)
      | inr copy =>
        let copy := set_fd_cloexec 0 copy in
        target ← look (fun v => fd_at v ps new_fd);
        rc ← (if truthy (fd_used target) then vfs_close_locked id new_fd else mret 0);
        if negb (rc =? 0) then _ ← release_copy copy; mret (-3)
        else _ ← change (put_fd ps new_fd copy); mret 0
      end
  end.
Definition vfs_dup_to (id old_fd new_fd : Z) : M st Z := guarded (dup_to_locked id old_fd new_fd).

(** Closing what a failed clone had copied. *)
Definition undo_clone (child : Z) (copied : Z) : M st Z :=
  each_fd (Z.to_nat RIX_VFS_FD_MAX) 0 0 (fun j rc => if Z.testbit copied j then _ ← vfs_close_locked child j; mret rc else mret rc).

Fixpoint clone_loop (n : nat) (i copied par child child_id : Z) : M st Z :=
  match n with
  | O => mret 0
  | S n =>
    f ← look (fun v => fd_at v par i);
    if negb (truthy (fd_used f)) then clone_loop n (i + 1) copied par child child_id
    else
      g ← look (fun v => fd_at v child i);
      if truthy (fd_used g) then _ ← undo_clone child_id copied; mret (-2)
      else
        r ← retain_fd f;
        match r with
        | inl _ => _ ← undo_clone child_id copied; mret (-3)
        | inr copy => _ ← change (put_fd child i copy); clone_loop n (i + 1) (Z.lor copied (bit i)) par child child_id
        end
  end.
Definition vfs_clone_fds (parent_pid child_pid : Z) : M st Z := guarded (
  match pid_slot parent_pid, pid_slot child_pid with
  | Some par, Some child => if parent_pid =? child_pid then mret (-1) else clone_loop (Z.to_nat RIX_VFS_FD_MAX) 0 0 par child child_pid
  | _, _ => mret (-1)
  end).

Definition vfs_fd_is_open (id fd : Z) : M st Z := guarded (
  match pid_slot id with
  | None => mret 0
  | Some ps => look (fun v => if bad_fd fd then 0 else if truthy (fd_used (fd_at v ps fd)) then 1 else 0)
  end).

(** A function that fails with -1 unless the descriptor is open. *)
Definition with_open {A} (fail : A) (id fd : Z) (body : Z -> vfs_fd_t -> M st A) : M st A := guarded (
  match pid_slot id with
  | None => mret fail
  | Some ps =>
    f ← look (fun v => fd_at v ps fd);
    if bad_fd fd || negb (truthy (fd_used f)) then mret fail else body ps f
  end).

Definition vfs_get_fd_flags (id fd : Z) : M st (Z * option Z) := with_open (-1, None) id fd (fun _ f =>
  mret (0, Some (Z.lor (if truthy (fd_writable f) then RIX_VFS_O_WRONLY else 0) (if truthy (fd_append f) then RIX_VFS_O_APPEND else 0)))).
Definition vfs_set_fd_flags (id fd flags : Z) : M st Z := with_open (-1) id fd (fun ps _ =>
  if negb (Z.land flags (not32 RIX_VFS_O_APPEND) =? 0) then mret (-1)
  else _ ← change (on_fd ps fd (set_fd_append (b2z (truthy (Z.land flags RIX_VFS_O_APPEND))))); mret 0).
Definition vfs_get_cloexec (id fd : Z) : M st (Z * option Z) := with_open (-1, None) id fd (fun _ f =>
  mret (0, Some (if truthy (fd_cloexec f) then RIX_VFS_FD_CLOEXEC else 0))).
Definition vfs_set_cloexec (id fd flags : Z) : M st Z := with_open (-1) id fd (fun ps _ =>
  if truthy (Z.land flags (not32 RIX_VFS_FD_CLOEXEC)) then mret (-1)
  else _ ← change (on_fd ps fd (set_fd_cloexec (b2z (truthy (Z.land flags RIX_VFS_FD_CLOEXEC))))); mret 0).

(** ** Opening *)

Definition WR : Z := Z.lor RIX_VFS_O_WRONLY RIX_VFS_O_RDWR.

(** The inode of a directory in which a name may be changed, or the code to return.
    A lookup gives a node exactly when its code is 0. *)
Definition writable_dir (par : list Z) (bad_parent : Z) : M st (Z + Z) :=
  '(rc, n, _) ← vfs_lookup_locked par;
  if rc =? RIX_VFS_ERR_PERMISSION then mret (inl RIX_VFS_ERR_PERMISSION)
  else match n with
  | None => mret (inl bad_parent)
  | Some n =>
    node ← look (fun v => node_of v n);
    if negb (rc =? 0) || negb (vn_type node =? RIX_VFS_DIR) then mret (inl bad_parent)
    else
      rc ← permission_allowed node (Z.lor VFS_ACCESS_WRITE VFS_ACCESS_EXEC);
      if negb (rc =? 0) then mret (inl rc) else mret (inr (vn_inode node))
  end.

Definition split_path (path : list Z) : option (list Z * list Z) := split_parent T path RIX_VFS_PATH_MAX (RIX_VFS_NAME_MAX + 1).

(** The directory a path's last name is in, and the name. *)
Definition parent_for (path : list Z) (bad_path bad_parent : Z) : M st (Z + Z * list Z) :=
  match split_path path with
  | None => mret (inl bad_path)
  | Some (par, nm) =>
    r ← writable_dir par bad_parent;
    match r with inl rc => mret (inl rc) | inr dir => mret (inr (dir, nm)) end
  end.

(** Creates the file and looks it up again. *)
Definition open_create (path : list Z) (mode : Z) : M st (Z + rix_vnode_t) :=
  r ← parent_for path (-3) (-4);
  match r with
  | inl rc => mret (inl rc)
  | inr (dir, nm) =>
    fs ← vfs_root_fs;
    if negb fs then mret (inl (-5))
    else
      '(rc, _) ← below (rixfs_create fs dir nm mode (process_uid T (process_current T)) (process_gid T (process_current T)));
      if negb (rc =? 0) then mret (inl (-6))
      else
        '(rc, n, _) ← vfs_lookup_locked path;
        match n with
        | Some n => if negb (rc =? 0) then mret (inl (-7)) else node ← look (fun v => node_of v n); mret (inr node)
        | None => mret (inl (-7))
        end
  end.

Definition open_access (node : rix_vnode_t) (flags : Z) : Z :=
  if vn_type node =? RIX_VFS_DIR then Z.lor VFS_ACCESS_READ VFS_ACCESS_EXEC
  else if truthy (Z.land flags WR) then VFS_ACCESS_WRITE else VFS_ACCESS_READ.

(** The descriptor for a node that may be opened. *)
Definition open_node (ps flags : Z) (node : rix_vnode_t) : M st (Z * Z) :=
  if negb (vn_type node =? RIX_VFS_FILE) && negb (vn_type node =? RIX_VFS_DIR) then mret (-8, 0)
  else if truthy (Z.land flags WR) && (vn_type node =? RIX_VFS_DIR) then mret (-9, 0)
  else
    rc ← permission_allowed node (open_access node flags);
    if negb (rc =? 0) then mret (rc, 0)
    else
      fd ← look (fun v => free_fd v ps RIX_VFS_STDIO_RESERVED);
      if fd <? 0 then mret (-10, 0)
      else
        let writable := b2z (truthy (Z.land flags WR)) in
        _ ← change (put_fd ps fd {| fd_used := 1; fd_type := u8 (vn_type node); fd_writable := writable;
              fd_append := b2z (truthy (Z.land flags RIX_VFS_O_APPEND)); fd_cloexec := b2z (truthy (Z.land flags RIX_VFS_O_CLOEXEC));
              fd_inode := vn_inode node; fd_offset := 0; fd_pipe := -1; fd_pipe_write := 0 |});
        fs ← vfs_root_fs;
        bad ← (if truthy (Z.land flags RIX_VFS_O_TRUNC) then
                 if negb (truthy writable) || negb (vn_type node =? RIX_VFS_FILE) then mret true
                 else rc ← below (rixfs_truncate fs (vn_inode node) 0); mret (negb (rc =? 0))
               else mret false);
        if (bad : bool) then _ ← change (on_fd ps fd (set_fd_used 0)); mret (-11, 0) else mret (0, fd).

Definition open_locked (id : Z) (path : list Z) (flags mode : Z) : M st (Z * Z) :=
  match pid_slot id with
  | None => mret (-1, 0)
  | Some ps =>
    '(rc, n, _) ← vfs_lookup_locked path;
    if rc =? RIX_VFS_ERR_PERMISSION then mret (RIX_VFS_ERR_PERMISSION, 0)
    else match n with
    | Some n => node ← look (fun v => node_of v n); open_node ps flags node
    | None =>
      if negb (truthy (Z.land flags RIX_VFS_O_CREAT)) then mret (-2, 0)
      else
        r ← open_create path mode;
        match r with
        | inl rc => mret (rc, 0)
        | inr node => open_node ps flags node
        end
    end
  end.
Definition vfs_open (id : Z) (path : list Z) (flags mode : Z) : M st (Z * Z) := guarded (open_locked id path flags mode).

Definition pipe_locked (id : Z) : M st (Z * (Z * Z)) :=
  match pid_slot id with
  | None => mret (-1, (0, 0))
  | Some ps =>
    rw ← look (fun v => for_ RIX_VFS_STDIO_RESERVED (RIX_VFS_FD_MAX - RIX_VFS_STDIO_RESERVED) (fun i r =>
           if truthy (fd_used (fd_at v ps i)) then inl r else if r <? 0 then inl i else inr (r, i)) (-1));
    match rw with
    | inl _ => mret (-2, (0, 0))
    | inr (r, w) =>
      i ← look (fun v => for_ 0 VFS_PIPE_MAX (fun i (_ : unit) => if negb (truthy (ps_used (pslot v i))) then inr i else inl tt) tt);
      match i with
      | inl _ => mret (-3, (0, 0))
      | inr i =>
        _ ← on_pipe i (fun '(c, p) => Some (tt, (c, pipe_init p)));
        _ ← below (rix_waitqueue_init (ReadQueue i));
        _ ← below (rix_waitqueue_init (WriteQueue i));
        _ ← change (fun v => put_pslot i {| ps_pipe := ps_pipe (pslot v i); ps_used := 1; ps_refs := 2 |} v);
        _ ← change (put_fd ps r {| fd_used := 1; fd_type := VFS_FD_PIPE_READ; fd_writable := 0; fd_append := 0; fd_cloexec := 0;
              fd_inode := 0; fd_offset := 0; fd_pipe := i; fd_pipe_write := 0 |});
        _ ← change (put_fd ps w {| fd_used := 1; fd_type := VFS_FD_PIPE_WRITE; fd_writable := 1; fd_append := 0; fd_cloexec := 0;
              fd_inode := 0; fd_offset := 0; fd_pipe := i; fd_pipe_write := 1 |});
        mret (0, (r, w))
      end
    end
  end.
Definition vfs_pipe (id : Z) : M st (Z * (Z * Z)) := guarded (pipe_locked id).

(** ** Data *)

(** Blocking on a queue of a pipe, if it is still in use and has room for a waiter. *)
Definition block_on (p : Z) (q : Z -> queue) : M st unit :=
  i ← look (fun v => find_pipe v p);
  match i with
  | None => mret tt
  | Some i => rc ← below (scheduler_wait_prepare (q i)); if rc =? 0 then below scheduler_block_current else mret tt
  end.
Definition wake_peer (p : Z) (q : Z -> queue) : M st unit :=
  i ← look (fun v => find_pipe v p);
  match i with None => mret tt | Some i => below (scheduler_wake_queue (q i)) end.

(** The code, what was stored through [out_read], and the buffer. *)
Definition vfs_read (id fd : Z) (buf : option (list Z)) (size : Z) : M st (Z * option Z * option (list Z)) :=
  with_open (-1, None, buf) id fd (fun ps f =>
  if bool_decide (buf = None) && negb (size =? 0) then mret (-1, None, buf)
  else if fd_type f =? VFS_FD_PIPE_READ then
    '(prc, got, buf') ← on_pipe (fd_pipe f) (pipe_read buf size (Some 0));
    let got := default 0 got in
    if negb (prc =? -3) || (0 <? got) then
      _ ← (if 0 <? got then wake_peer (fd_pipe f) WriteQueue else mret tt);
      mret (prc, Some got, buf')
    else _ ← block_on (fd_pipe f) ReadQueue; mret (-3, Some 0, buf')
  else if negb (fd_type f =? RIX_VFS_FILE) then mret (-2, None, buf)
  else
    fs ← vfs_root_fs;
    if negb fs then mret (-3, None, buf)
    else
      '(rc, i) ← below (rixfs_read_inode fs (fd_inode f));
      if negb (rc =? 0) then mret (-4, None, buf)
      else if in_size i <=? fd_offset f then mret (0, Some 0, buf)
      else
        let remain := in_size i - fd_offset f in
        let size := if remain <? size then remain else size in
        '(rc, bytes) ← below (rixfs_read fs (in_inode i) (fd_offset f) size);
        if negb (rc =? 0) then mret (-5, None, buf)
        else
          _ ← change (on_fd ps fd (fun f => set_fd_offset (u64 (fd_offset f + size)) f));
          mret (0, Some size, (fun b => copy (Z.to_nat size) b 0 bytes 0) <$> buf)).

Definition vfs_write (id fd : Z) (buf : option (list Z)) (size : Z) : M st (Z * option Z) :=
  with_open (-1, None) id fd (fun ps f =>
  if bool_decide (buf = None) && negb (size =? 0) then mret (-1, None)
  else if fd_type f =? VFS_FD_PIPE_WRITE then
    '(prc, wrote) ← on_pipe (fd_pipe f) (pipe_write buf size (Some 0));
    let wrote := default 0 wrote in
    _ ← (if 0 <? wrote then wake_peer (fd_pipe f) ReadQueue else mret tt);
    _ ← (if (prc =? -3) && (wrote =? 0) then block_on (fd_pipe f) WriteQueue else mret tt);
    mret (prc, Some wrote)
  else if negb (truthy (fd_writable f)) || negb (fd_type f =? RIX_VFS_FILE) then mret (-2, None)
  else
    fs ← vfs_root_fs;
    if negb fs then mret (-3, None)
    else
      '(rc, i) ← below (rixfs_read_inode fs (fd_inode f));
      if negb (rc =? 0) then mret (-4, None)
      else
        let off := if truthy (fd_append f) then in_size i else fd_offset f in
        if UINT64_MAX - size <? off then mret (-5, None)
        else
          rc ← (if in_size i <? off + size then below (rixfs_truncate fs (in_inode i) (off + size)) else mret 0);
          if negb (rc =? 0) then mret (-6, None)
          else
            rc ← (if negb (size =? 0) then below (rixfs_write fs (in_inode i) off (take (Z.to_nat size) (default [] buf))) else mret 0);
            if negb (rc =? 0) then mret (-7, None)
            else _ ← change (on_fd ps fd (set_fd_offset (off + size))); mret (0, Some size)).

Definition vfs_seek (id fd offset whence : Z) : M st (Z * option Z) :=
  with_open (-1, None) id fd (fun ps f =>
  if is_pipe_type (fd_type f) then mret (-2, None)
  else if negb (fd_type f =? RIX_VFS_FILE) then mret (-3, None)
  else
    base ← (if whence =? 1 then mret (inr (fd_offset f))
            else if whence =? 2 then
              fs ← vfs_root_fs;
              '(rc, i) ← below (rixfs_read_inode fs (fd_inode f));
              mret (if negb (rc =? 0) then inl (-4) else inr (in_size i))
            else mret (if negb (whence =? 0) then inl (-5) else inr 0));
    match base with
    | inl rc => mret (rc, None)
    | inr base =>
      if (offset <? 0) && (base <? - offset) then mret (-6, None)
      else
        let next := if offset <? 0 then base - (- offset) else u64 (base + offset) in
        if (next <? base) && (0 <=? offset) then mret (-6, None)
        else _ ← change (on_fd ps fd (set_fd_offset next)); mret (0, Some next)
    end).

(** The code, [*offset], and the entry with its name. *)
Definition vfs_readdir (id fd cap : Z) : M st (Z * option Z * option (Z * Z * list Z)) :=
  with_open (-1, None, None) id fd (fun ps f =>
  if negb (fd_type f =? RIX_VFS_DIR) then mret (-2, None, None)
  else
    fs ← vfs_root_fs;
    '(r, (off, e, nm)) ← below (rixfs_readdir fs (fd_inode f) (fd_offset f) cap);
    if negb (r =? 0) then mret (r, Some off, None)
    else _ ← change (on_fd ps fd (set_fd_offset off)); mret (0, Some off, Some (de_inode e, de_type e, nm))).

(** ** Attributes *)

(** What is done with the node of a path. *)
Definition with_node {A} (fail : Z -> A) (lookup : M st (Z * option node_ref * list Z)) (body : rix_vnode_t -> M st A) : M st A :=
  '(rc, n, _) ← lookup;
  match n with
  | Some n => if negb (rc =? 0) then mret (fail rc) else node ← look (fun v => node_of v n); body node
  | None => mret (fail rc)
  end.

Definition vfs_stat (path : list Z) : M st (Z * option rix_vnode_t) := guarded (
  with_node (fun rc => (rc, None)) (vfs_lookup_locked path) (fun node => mret (0, Some node))).
Definition vfs_lstat (path : list Z) : M st (Z * option rix_vnode_t) := guarded (
  with_node (fun rc => (rc, None)) (vfs_lookup_nofollow_locked path) (fun node => mret (0, Some node))).

Definition vfs_fstat (id fd : Z) : M st (Z * option rix_vnode_t) := with_open (-1, None) id fd (fun _ f =>
  if is_pipe_type (fd_type f) then mret (-22, None)
  else
    fs ← vfs_root_fs;
    if negb fs then mret (-2, None)
    else
      '(rc, i) ← below (rixfs_read_inode fs (fd_inode f));
      if negb (rc =? 0) then mret (-2, None)
      else
        let type := Z.land (in_mode i) RIXFS_IFMT in
        mret (0, Some (vnode (in_inode i) (if type =? RIXFS_IFDIR then RIX_VFS_DIR else if type =? RIXFS_IFLNK then RIX_VFS_SYMLINK else RIX_VFS_FILE) i))).

Definition vfs_access (path : list Z) (mode : Z) : M st Z := guarded (
  if truthy (Z.land mode (not32 (Z.lor (Z.lor VFS_ACCESS_READ VFS_ACCESS_WRITE) VFS_ACCESS_EXEC))) then mret (-1)
  else with_node id (vfs_lookup_locked path) (fun node => if mode =? 0 then mret 0 else permission_allowed node mode)).

Definition vfs_statfs (path : list Z) : M st (Z * option rix_statfs_t) := guarded (
  with_node (fun rc => (rc, None)) (vfs_lookup_locked path) (fun _ =>
    fs ← vfs_root_fs;
    if negb fs then mret (-2, None)
    else
      '(rc, (total, bfree, free_ino)) ← below (rixfs_statfs fs);
      if negb (rc =? 0) then mret (-3, None)
      else
        inodes ← ask super_inode_count;
        size ← ask device_sector_size;
        mret (0, Some {| st_block_size := default 512 size; st_total_blocks := total; st_free_blocks := bfree; st_avail_blocks := bfree;
                         st_total_inodes := inodes; st_free_inodes := free_ino |}))).

Definition vfs_chmod (path : list Z) (mode : Z) : M st Z := guarded (
  if truthy (Z.land mode (not32 0xfff)) then mret (-1)
  else with_node id (vfs_lookup_locked path) (fun node =>
    let me := process_current T in
    if (process_uid T me =? 0) && negb (process_has_capability T me RIX_CAP_DAC_OVERRIDE) then mret RIX_VFS_ERR_PERMISSION
    else if negb (process_uid T me =? 0) && negb (process_uid T me =? vn_uid node) then mret RIX_VFS_ERR_PERMISSION
    else
      fs ← vfs_root_fs;
      if negb fs then mret (-4)
      else
        '(rc, i) ← below (rixfs_read_inode fs (vn_inode node));
        if negb (rc =? 0) then mret (-5)
        else below (rixfs_write_inode fs (in_inode i) (set_in_mode (Z.lor (Z.land (in_mode i) RIXFS_IFMT) (Z.land mode 0xfff)) i)))).

Definition vfs_chown (path : list Z) (u g : Z) : M st Z := guarded (
  with_node id (vfs_lookup_locked path) (fun node =>
    let me := process_current T in
    let current_uid := process_uid T me in
    let privileged := (current_uid =? 0) && process_has_capability T me RIX_CAP_DAC_OVERRIDE in
    if negb privileged && negb (current_uid =? vn_uid node) then mret RIX_VFS_ERR_PERMISSION
    else if negb privileged && (negb (u =? current_uid) || (negb (process_in_group T me g) && negb (g =? process_gid T me))) then mret RIX_VFS_ERR_PERMISSION
    else
      fs ← vfs_root_fs;
      if negb fs then mret (-4)
      else
        '(rc, i) ← below (rixfs_read_inode fs (vn_inode node));
        if negb (rc =? 0) then mret (-5)
        else
          let i := if negb (in_uid i =? u) || negb (in_gid i =? g) then
                     let i := set_in_gid g (set_in_uid u i) in
                     if negb privileged then set_in_mode (Z.land (in_mode i) (not32 0xc00)) i else i
                   else i in
          below (rixfs_write_inode fs (in_inode i) i))).

(** ** Names *)

(** The node pointers of the two parents are kept until both permissions are checked. *)
Definition vfs_rename (old_path new_path : list Z) : M st Z := guarded (
  match split_path old_path, split_path new_path with
  | Some (old_parent, old_name), Some (new_parent, new_name) =>
    '(rc, old_dir, _) ← vfs_lookup_locked old_parent;
    if rc =? RIX_VFS_ERR_PERMISSION then mret rc
    else match old_dir with
    | None => mret (-1)
    | Some old_dir =>
      node ← look (fun v => node_of v old_dir);
      if negb (rc =? 0) || negb (vn_type node =? RIX_VFS_DIR) then mret (-1)
      else
        let old_parent_inode := vn_inode node in
        '(rc, new_dir, _) ← vfs_lookup_locked new_parent;
        if rc =? RIX_VFS_ERR_PERMISSION then mret rc
        else match new_dir with
        | None => mret (-1)
        | Some new_dir =>
          node ← look (fun v => node_of v new_dir);
          if negb (rc =? 0) || negb (vn_type node =? RIX_VFS_DIR) then mret (-1)
          else
            old_node ← look (fun v => node_of v old_dir);
            rc ← permission_allowed old_node (Z.lor VFS_ACCESS_WRITE VFS_ACCESS_EXEC);
            rc ← (if negb (rc =? 0) then mret rc
                  else new_node ← look (fun v => node_of v new_dir); permission_allowed new_node (Z.lor VFS_ACCESS_WRITE VFS_ACCESS_EXEC));
            if negb (rc =? 0) then mret RIX_VFS_ERR_PERMISSION
            else
              new_node ← look (fun v => node_of v new_dir);
              let new_parent_inode := vn_inode new_node in
              '(rc, source, _) ← vfs_lookup_nofollow_locked old_path;
              match source with
              | None => mret (-1)
              | Some source =>
                node ← look (fun v => node_of v source);
                if negb (rc =? 0) || (negb (vn_type node =? RIX_VFS_FILE) && negb (vn_type node =? RIX_VFS_SYMLINK)) then mret (-1)
                else
                  '(rc, destination, _) ← vfs_lookup_nofollow_locked new_path;
                  type ← look (fun v => match destination with Some d => vn_type (node_of v d) | None => 0 end);
                  if (rc =? 0) && negb (type =? RIX_VFS_FILE) && negb (type =? RIX_VFS_SYMLINK) then mret RIX_VFS_ERR_EXISTS
                  else if rc =? RIX_VFS_ERR_PERMISSION then mret rc
                  else if negb (rc =? -2) && negb (rc =? 0) then mret (-1)
                  else fs ← vfs_root_fs; below (rixfs_rename fs old_parent_inode old_name new_parent_inode new_name 1)
              end
        end
    end
  | _, _ => mret (-1)
  end).

(** What is done to a name in its directory. *)
Definition in_parent (path : list Z) (body : bool -> Z -> list Z -> M st Z) : M st Z := guarded (
  r ← parent_for path (-1) (-2);
  match r with
  | inl rc => mret rc
  | inr (dir, nm) => fs ← vfs_root_fs; body fs dir nm
  end).

Definition vfs_mkdir (path : list Z) (mode u g : Z) : M st Z :=
  in_parent path (fun fs dir nm => '(rc, _) ← below (rixfs_mkdir fs dir nm mode u g); mret rc).
Definition vfs_unlink (path : list Z) : M st Z := in_parent path (fun fs dir nm => below (rixfs_unlink fs dir nm)).
Definition vfs_rmdir (path : list Z) : M st Z := in_parent path (fun fs dir nm => below (rixfs_rmdir fs dir nm)).
Definition vfs_symlink (target path : list Z) : M st Z := in_parent path (fun fs dir nm =>
  match process_lookup T (process_current T) with
  | None => mret (-3)
  | Some p => '(rc, _) ← below (rixfs_symlink fs dir nm target (uid (slot T p)) (gid (slot T p))); mret rc
  end).

Definition vfs_link (old_path new_path : list Z) : M st Z := guarded (
  match split_path new_path with
  | None => mret (-1)
  | Some (par, nm) =>
    with_node (fun _ => -2) (vfs_lookup_nofollow_locked old_path) (fun source =>
      if negb (vn_type source =? RIX_VFS_FILE) && negb (vn_type source =? RIX_VFS_SYMLINK) then mret (-3)
      else
        r ← writable_dir par (-4);
        match r with
        | inl rc => mret rc
        | inr dir => fs ← vfs_root_fs; below (rixfs_link fs (vn_inode source) dir nm RIXFS_DIR_TYPE_FILE)
        end)
  end).

(** The code and the bytes of the target. *)
Definition vfs_readlink (path : list Z) (capacity : Z) : M st (Z * list Z) := guarded (
  if capacity =? 0 then mret (-1, [])
  else with_node (fun rc => (rc, [])) (vfs_lookup_nofollow_locked path) (fun node =>
    if negb (vn_type node =? RIX_VFS_SYMLINK) then mret (-22, [])
    else
      fs ← vfs_root_fs;
      if negb fs then mret (-3, [])
      else
        '(rc, i) ← below (rixfs_read_inode fs (vn_inode node));
        if negb (rc =? 0) then mret (-4, [])
        else if negb (Z.land (in_mode i) RIXFS_IFMT =? RIXFS_IFLNK) || (capacity <=? in_size i) then mret (-5, [])
        else
          '(rc, bytes) ← (if in_size i =? 0 then mret (0, []) else below (rixfs_read fs (vn_inode node) 0 (in_size i)));
          if negb (rc =? 0) then mret (-6, []) else mret (0, bytes))).

(** ** Access control lists: these take no lock *)

Definition acl_mutation_allowed (node : rix_vnode_t) : Z :=
  let me := process_current T in
  let who := process_uid T me in
  if who =? 0 then (if process_has_capability T me RIX_CAP_ACL_ADMIN then 0 else RIX_VFS_ERR_PERMISSION)
  else if who =? vn_uid node then 0 else RIX_VFS_ERR_PERMISSION.

Definition vfs_get_acl (path : list Z) : M st (Z * option rixfs_acl_t) :=
  with_node (fun rc => (rc, None)) (vfs_lookup_locked path) (fun node =>
    fs ← vfs_root_fs; '(rc, acl) ← below (rixfs_get_acl fs (vn_inode node)); mret (rc, Some acl)).
Definition vfs_set_acl (path : list Z) (acl : rixfs_acl_t) : M st Z :=
  with_node id (vfs_lookup_locked path) (fun node =>
    if negb (acl_mutation_allowed node =? 0) then mret (acl_mutation_allowed node)
    else fs ← vfs_root_fs; below (rixfs_set_acl fs (vn_inode node) acl)).
Definition vfs_clear_acl (path : list Z) : M st Z :=
  with_node id (vfs_lookup_locked path) (fun node =>
    if negb (acl_mutation_allowed node =? 0) then mret (acl_mutation_allowed node)
    else fs ← vfs_root_fs; below (rixfs_clear_acl fs (vn_inode node))).
End Operations.
