(* ===== verification/VfsFds.v ===== *)
(** * Descriptors and pipes ([kernel/vfs/vfs.c])

    Every pipe end is accounted for: the counts in a pipe slot are the numbers of
    descriptors, over all processes, that refer to it. *)
From stdpp Require Import base tactics list numbers.
From S2P Require Import Prelude Lock Bytes Channel Pipe Process VfsPath Vfs.

(** A call that returns and leaves the CPU as it was. *)
Definition quiet {W A} `{!Below W} (m : M (cpu * W) A) : Prop := forall c w, below_ok w ->
  exists a w', m (c, w) = Some (a, (c, w')) /\ below_ok w'.

Class BelowLaws (W : Type) `{!Below W} := {
  lockdep_register_quiet : quiet lockdep_register;
  lockdep_acquire_quiet k : quiet (lockdep_acquire k);
  lockdep_release_quiet k : quiet (lockdep_release k);
  rixfs_mount_quiet d : quiet (rixfs_mount d);
  rixfs_unmount_quiet : quiet rixfs_unmount;
  rixfs_read_inode_quiet f i : quiet (rixfs_read_inode f i);
  rixfs_write_inode_quiet f i x : quiet (rixfs_write_inode f i x);
  rixfs_lookup_name_quiet f d n : quiet (rixfs_lookup_name f d n);
  rixfs_read_quiet f i o n : quiet (rixfs_read f i o n);
  rixfs_write_quiet f i o b : quiet (rixfs_write f i o b);
  rixfs_truncate_quiet f i n : quiet (rixfs_truncate f i n);
  rixfs_create_quiet f d n m u g : quiet (rixfs_create f d n m u g);
  rixfs_mkdir_quiet f d n m u g : quiet (rixfs_mkdir f d n m u g);
  rixfs_symlink_quiet f d n t u g : quiet (rixfs_symlink f d n t u g);
  rixfs_link_quiet f i d n t : quiet (rixfs_link f i d n t);
  rixfs_unlink_quiet f d n : quiet (rixfs_unlink f d n);
  rixfs_rmdir_quiet f d n : quiet (rixfs_rmdir f d n);
  rixfs_rename_quiet f a b d e r : quiet (rixfs_rename f a b d e r);
  rixfs_readdir_quiet f d o n : quiet (rixfs_readdir f d o n);
  rixfs_get_acl_quiet f i : quiet (rixfs_get_acl f i);
  rixfs_set_acl_quiet f i a : quiet (rixfs_set_acl f i a);
  rixfs_clear_acl_quiet f i : quiet (rixfs_clear_acl f i);
  rixfs_statfs_quiet f : quiet (rixfs_statfs f);
  waitqueue_init_quiet q : quiet (rix_waitqueue_init q);
  wake_queue_quiet q : quiet (scheduler_wake_queue q);
  wait_prepare_quiet q : quiet (scheduler_wait_prepare q);
  block_current_quiet : quiet scheduler_block_current;
}.
Create HintDb vfs.
#[export] Hint Resolve lockdep_register_quiet lockdep_acquire_quiet lockdep_release_quiet rixfs_mount_quiet rixfs_unmount_quiet
  rixfs_read_inode_quiet rixfs_write_inode_quiet rixfs_lookup_name_quiet rixfs_read_quiet rixfs_write_quiet rixfs_truncate_quiet
  rixfs_create_quiet rixfs_mkdir_quiet rixfs_symlink_quiet rixfs_link_quiet rixfs_unlink_quiet rixfs_rmdir_quiet rixfs_rename_quiet
  rixfs_readdir_quiet rixfs_get_acl_quiet rixfs_set_acl_quiet rixfs_clear_acl_quiet rixfs_statfs_quiet waitqueue_init_quiet
  wake_queue_quiet wait_prepare_quiet block_current_quiet : vfs.

(** ** Accounting *)

(** An open read end ([w] is false) or write end of slot [i]. *)
Definition is_end (w : bool) (i : Z) (f : vfs_fd_t) : bool :=
  truthy (fd_used f) && is_pipe_type (fd_type f) && Bool.eqb (truthy (fd_pipe_write f)) w && (fd_pipe f =? i).
(** The ends of slot [i] among the descriptors of all processes and the copies [held]
    in local variables. *)
Definition ends (held : list vfs_fd_t) (w : bool) (i : Z) (v : vfs) : Z := sumz (countb (is_end w i)) (fds v) + countb (is_end w i) held.

Definition end_refs (w : bool) (p : rix_pipe_t) : Z := if w then write_refs p else read_refs p.

Definition fd_ok (f : vfs_fd_t) : Prop := truthy (fd_used f) = true -> is_pipe_type (fd_type f) = true ->
  0 <= fd_pipe f < VFS_PIPE_MAX /\ fd_type f = if truthy (fd_pipe_write f) then VFS_FD_PIPE_WRITE else VFS_FD_PIPE_READ.

Definition fds_shape (v : vfs) : Prop :=
  length (fds v) = Z.to_nat RIX_PROCESS_MAX /\ Forall (fun r => length r = Z.to_nat RIX_VFS_FD_MAX) (fds v) /\
  length (pipe_slots v) = Z.to_nat VFS_PIPE_MAX /\ Forall (fun s => len (data (channel (ps_pipe s))) = RIX_IPC_CAPACITY) (pipe_slots v).

Definition slot_exact (held : list vfs_fd_t) (v : vfs) (i : Z) : Prop :=
  let s := pslot v i in
  if truthy (ps_used s) then
    pipe_wf (ps_pipe s) /\ (forall w, end_refs w (ps_pipe s) = ends held w i v) /\
    ps_refs s = ends held false i v + ends held true i v /\ 1 <= ps_refs s <= UINT8_MAX
  else forall w, ends held w i v = 0.

Definition fds_ok (held : list vfs_fd_t) (v : vfs) : Prop :=
  fds_shape v /\ Forall (Forall fd_ok) (fds v) /\ Forall fd_ok held /\ forall i, 0 <= i < VFS_PIPE_MAX -> slot_exact held v i.

(** ** Running bodies under the lock *)

Section Rules.
Context {W : Type} {BW : Below W} {BL : BelowLaws W}.
Abbreviation st := (cpu * (vfs * W))%type.

Definition runs {R} (m : M st R) (v : vfs) (Q : R -> vfs -> Prop) : Prop := forall c w, below_ok w ->
  exists r v' w', m (c, (v, w)) = Some (r, (c, (v', w'))) /\ below_ok w' /\ vfs_lock v' = vfs_lock v /\ Q r v'.

Lemma vruns_ret {A} (a : A) v (Q : A -> vfs -> Prop) : Q a v -> runs (mret a) v Q.
Proof. intros HQ c w Hw. by exists a, v, w. Qed.

Lemma vruns_bind {A B} (m : M st A) (k : A -> M st B) v Q1 Q : runs m v Q1 -> (forall a v1, Q1 a v1 -> runs (k a) v1 Q) -> runs (m ≫= k) v Q.
Proof.
  intros Hm Hk c w Hw. destruct (Hm c w Hw) as (a & v1 & w1 & E1 & Hw1 & Hl1 & H1). destruct (Hk a v1 H1 c w1 Hw1) as (r & v2 & w2 & E2 & Hw2 & Hl2 & H2).
  exists r, v2, w2. rewrite (bind_Some _ _ _ _ _ E1). split; [done|]. split; [done|]. split; [congruence|done].
Qed.

Lemma vruns_conseq {A} (m : M st A) v (Q Q' : A -> vfs -> Prop) : runs m v Q -> (forall a v', Q a v' -> Q' a v') -> runs m v Q'.
Proof. intros Hm HQ c w Hw. destruct (Hm c w Hw) as (r & v' & w' & E & H1 & H2 & H3). exists r, v', w'. auto. Qed.

Lemma runs_look {A B} (f : vfs -> A) (k : A -> M st B) v Q : runs (k (f v)) v Q -> runs (look f ≫= k) v Q.
Proof. intros H. eapply (vruns_bind _ _ _ (fun a v' => a = f v /\ v' = v)); [|by intros a v1 [-> ->]]. intros c w Hw. by exists (f v), v, w. Qed.

Lemma runs_change {B} (f : vfs -> vfs) (k : unit -> M st B) v Q : vfs_lock (f v) = vfs_lock v -> runs (k tt) (f v) Q -> runs (change f ≫= k) v Q.
Proof. intros Hl H. eapply (vruns_bind _ _ _ (fun _ v' => v' = f v)); [|by intros [] v1 ->]. intros c w Hw. by exists tt, (f v), w. Qed.

Lemma runs_below {A} (m : M (cpu * W) A) v (Q : A -> vfs -> Prop) : quiet m -> (forall a, Q a v) -> runs (below m) v Q.
Proof. intros Hm HQ c w Hw. destruct (Hm c w Hw) as (a & w' & E & Hw'). exists a, v, w'. unfold below. by rewrite E. Qed.
Lemma runs_below_bind {A B} (m : M (cpu * W) A) (k : A -> M st B) v Q : quiet m -> (forall a, runs (k a) v Q) -> runs (below m ≫= k) v Q.
Proof. intros Hm Hk. eapply (vruns_bind _ _ _ (fun _ v' => v' = v)); [by apply runs_below|]. by intros a v1 ->. Qed.

Lemma runs_ask {A B} (f : W -> A) (k : A -> M st B) v Q : (forall a, runs (k a) v Q) -> runs (ask f ≫= k) v Q.
Proof. intros Hk. eapply (vruns_bind _ _ _ (fun _ v' => v' = v)); [|by intros a v1 ->]. intros c w Hw. by exists (f w), v, w. Qed.

(** The whole of a guarded call. *)
Lemma vguarded_run {R} (body : M st R) c v w (Q : R -> vfs -> Prop) :
  vfs_lock v = spin_free -> below_ok w -> runs body (with_vfs_lock spin_held v) Q ->
  exists r v' w', guarded body (c, (v, w)) = Some (r, (c, (with_vfs_lock spin_free v', w'))) /\ below_ok w' /\ Q r v'.
Proof.
  intros Hl Hw Hb. unfold guarded. rewrite (bind_Some _ _ _ (vfs_lockdep_class v) (c, (v, w))) by done. set (k := vfs_lockdep_class v).
  destruct (runs_below (lockdep_acquire k) v (fun _ v' => v' = v) (lockdep_acquire_quiet k) ltac:(done) c w Hw) as (rc & ? & w1 & E1 & Hw1 & _ & ->).
  rewrite (bind_Some _ _ _ _ _ E1). set (c' := set_rflags (Z.clearbit (rflags c) IF_BIT) c).
  rewrite (bind_Some _ _ _ (rflags c) (c', (with_vfs_lock spin_held v, w1))).
  2: { unfold rix_spin_lock_irqsave, on_fst, on_guard, mbind, M_bind. rewrite irq_save_run. cbn [guard vfs_guard fst]. by rewrite Hl. }
  destruct (Hb c' w1 Hw1) as (r & v' & w2 & E2 & Hw2 & Hl2 & HQ). rewrite (bind_Some _ _ _ _ _ E2).
  assert (Hrel : exists w3, (if rc =? 0 then _ ← below (lockdep_release k); mret tt else mret tt : M st unit) (c', (v', w2)) = Some (tt, (c', (v', w3))) /\ below_ok w3).
  { destruct (rc =? 0); [|by exists w2].
    destruct (runs_below (lockdep_release k) v' (fun _ v => v = v') (lockdep_release_quiet k) ltac:(done) c' w2 Hw2) as (a & ? & w3 & E3 & H3 & _ & ->).
    exists w3. by rewrite (bind_Some _ _ _ _ _ E3). }
  destruct Hrel as (w3 & E3 & Hw3). rewrite (bind_Some _ _ _ _ _ E3). exists r, v', w3.
  split; [|done]. unfold rix_spin_unlock_irqrestore, on_guard, on_fst, mbind, M_bind, mret, M_ret.
  cbn [guard vfs_guard fst]. rewrite Hl2. cbn -[rix_irq_restore]. by rewrite irq_restore_after_cli.
Qed.

(** ** Calls that leave descriptors and pipes alone *)

Definition still {A} (m : M st A) : Prop := forall v, runs m v (fun _ v' => exists n, v' = with_path_node n v).

Lemma still_ret {A} (a : A) : still (mret a).
Proof. intros v. apply vruns_ret. exists (path_node v). by destruct v. Qed.
Lemma still_bind {A B} (m : M st A) (k : A -> M st B) : still m -> (forall a, still (k a)) -> still (m ≫= k).
Proof. intros Hm Hk v. eapply vruns_bind; [apply Hm|]. intros a v1 (n & ->). eapply vruns_conseq; [apply Hk|]. intros b v2 (n' & ->). by exists n'. Qed.
Lemma still_below {A} (m : M (cpu * W) A) : quiet m -> still (below m).
Proof. intros Hm v. apply runs_below; [done|]. intros a. exists (path_node v). by destruct v. Qed.
Lemma still_look {A} (f : vfs -> A) : still (look f).
Proof. intros v c w Hw. exists (f v), v, w. split; [done|]. split; [done|]. split; [done|]. exists (path_node v). by destruct v. Qed.
Lemma still_ask {A} (f : W -> A) : still (ask f).
Proof. intros v c w Hw. exists (f w), v, w. split; [done|]. split; [done|]. split; [done|]. exists (path_node v). by destruct v. Qed.
Lemma still_path_node n : still (change (with_path_node n)).
Proof. intros v c w Hw. exists tt, (with_path_node n v), w. split; [done|]. split; [done|]. split; [done|]. by exists n. Qed.
End Rules.

Ltac still_step :=
  match goal with
  | |- forall _, _ => intros
  | |- still (_ ≫= _) => apply still_bind
  | |- still (mret _) => apply still_ret
  | |- still (below _) => apply still_below; auto with vfs
  | |- still (look _) => apply still_look
  | |- still vfs_root_fs => apply still_look
  | |- still (ask _) => apply still_ask
  | |- still (change (with_path_node _)) => apply still_path_node
  | |- still (if ?b then _ else _) => destruct b
  | |- still (let '(_, _) := ?x in _) => destruct x
  | |- still (match ?x with _ => _ end) => destruct x
  end.
Ltac still_tac := repeat (cbv beta zeta; first [still_step | solve [auto with vfs]]).

Section Lookup.
Context {W : Type} {BW : Below W} {BL : BelowLaws W} (T : procs).

Lemma permission_still n a : still (permission_allowed (W := W) T n a).
Proof. unfold permission_allowed. still_tac. Qed.
Hint Resolve permission_still : vfs.

Lemma follow_link_still b r i x : still (follow_link (W := W) T b r i x).
Proof. unfold follow_link. still_tac. Qed.
Hint Resolve follow_link_still : vfs.

Lemma skip_shorter p : (length (skip_slashes p) <= length p)%nat.
Proof. induction p as [|c p IH]; cbn; [lia|]. destruct (c =? SLASH); cbn; lia. Qed.

Lemma walk_still turns : forall follow before p ino cur, (length p <= turns)%nat -> still (walk (W := W) T turns follow before p ino cur).
Proof.
  induction turns as [|turns IH]; intros follow before p ino cur Hp; destruct p as [|x p]; try (cbn in Hp; lia); try apply still_ret.
  cbn [walk]. apply still_bind; [apply permission_still|]. intros rc. destruct (negb (rc =? 0)); [apply still_ret|].
  destruct (component (x :: p)) as [c p1] eqn:E. destruct (component_plain _ _ _ E) as (_ & Ep & _).
  destruct ((len c =? 0) || (RIX_VFS_NAME_MAX <? len c)) eqn:E1; [apply still_ret|]. bool_to_prop.
  assert (Hl : (length (skip_slashes p1) <= turns)%nat).
  { pose proof (skip_shorter p1). apply (f_equal length) in Ep. rewrite length_app in Ep. cbn [length] in *. lia. }
  still_tac.
Qed.

Lemma lookup_restart_still k : forall follow work, still (lookup_restart (W := W) T k follow work).
Proof.
  induction k as [|k IH]; intros follow work; cbn [lookup_restart]; [apply still_ret|]. still_tac.
  apply walk_still. rewrite length_drop. lia.
Qed.

Lemma lookup_still follow path : still (lookup_with (W := W) T follow path).
Proof. unfold lookup_with, lookup_rixfs_path_ex. still_tac. apply lookup_restart_still. Qed.
Lemma lookup_locked_still path : still (vfs_lookup_locked (W := W) T path).
Proof. apply lookup_still. Qed.
Lemma lookup_nofollow_still path : still (vfs_lookup_nofollow_locked (W := W) T path).
Proof. apply lookup_still. Qed.
End Lookup.
#[export] Hint Resolve permission_still lookup_still lookup_locked_still lookup_nofollow_still : vfs.

(** ** Accounting lemmas *)

Definition place (ps fd : Z) : Prop := 0 <= ps < RIX_PROCESS_MAX /\ 0 <= fd < RIX_VFS_FD_MAX.

Lemma fd_at_lookup v ps fd : fds_shape v -> place ps fd ->
  exists row, fds v !! Z.to_nat ps = Some row /\ row !! Z.to_nat fd = Some (fd_at v ps fd) /\ aget [] (fds v) ps = row.
Proof.
  intros (H1 & H2 & _) [Hp Hf]. destruct (lookup_lt_is_Some_2 (fds v) (Z.to_nat ps)) as [row Er]; [lia|].
  exists row. split; [done|]. assert (E : aget [] (fds v) ps = row) by (unfold aget; by rewrite Er). split; [|done].
  pose proof (proj1 (list.Forall_lookup _ _) H2 _ _ Er) as Hl. cbn in Hl. destruct (lookup_lt_is_Some_2 row (Z.to_nat fd)) as [f Ef]; [lia|].
  unfold fd_at. rewrite E. unfold aget. by rewrite Ef.
Qed.

Lemma total_put (P : vfs_fd_t -> bool) v ps fd f : fds_shape v -> place ps fd ->
  sumz (countb P) (fds (put_fd ps fd f v)) = sumz (countb P) (fds v) - b2z (P (fd_at v ps fd)) + b2z (P f).
Proof.
  intros Hs Hp. destruct (fd_at_lookup v ps fd Hs Hp) as (row & E1 & E2 & E3). unfold put_fd, aset. cbn [fds with_fds]. rewrite E3.
  rewrite (sumz_insert _ _ _ row) by done. unfold aset. rewrite (countb_insert _ _ _ _ f E2). lia.
Qed.

Lemma ends_put held w i v ps fd f : fds_shape v -> place ps fd ->
  ends held w i (put_fd ps fd f v) = ends held w i v - b2z (is_end w i (fd_at v ps fd)) + b2z (is_end w i f).
Proof. intros Hs Hp. unfold ends. rewrite total_put by done. lia. Qed.

Lemma vshape_put v ps fd f : fds_shape v -> place ps fd -> fds_shape (put_fd ps fd f v).
Proof.
  intros Hs Hp. destruct (fd_at_lookup v ps fd Hs Hp) as (row & E1 & E2 & E3). destruct Hs as (H1 & H2 & H3). unfold fds_shape, put_fd, aset. cbn [fds with_fds pipe_slots].
  rewrite length_insert, E3. split; [done|]. split; [|done]. apply Forall_insert; [done|]. rewrite length_insert. by apply (proj1 (list.Forall_lookup _ _) H2 _ _ E1).
Qed.

Lemma fds_put_ok v ps fd f : fds_shape v -> place ps fd -> Forall (Forall fd_ok) (fds v) -> fd_ok f -> Forall (Forall fd_ok) (fds (put_fd ps fd f v)).
Proof.
  intros Hs Hp Ho Hf. destruct (fd_at_lookup v ps fd Hs Hp) as (row & E1 & E2 & E3). unfold put_fd, aset. cbn [fds with_fds]. rewrite E3.
  apply Forall_insert; [done|]. apply Forall_insert; [|done]. by apply (proj1 (list.Forall_lookup _ _) Ho _ _ E1).
Qed.

Lemma fd_at_ok v ps fd : fds_shape v -> place ps fd -> Forall (Forall fd_ok) (fds v) -> fd_ok (fd_at v ps fd).
Proof.
  intros Hs Hp Ho. destruct (fd_at_lookup v ps fd Hs Hp) as (row & E1 & E2 & _).
  by apply (proj1 (list.Forall_lookup _ _) (proj1 (list.Forall_lookup _ _) Ho _ _ E1) _ _ E2).
Qed.

Lemma ends_nonneg held w i v : 0 <= ends held w i v.
Proof. unfold ends. pose proof (countb_nonneg (is_end w i) held). assert (0 <= sumz (countb (is_end w i)) (fds v)) by (apply sumz_nonneg, list.Forall_forall; intros; apply countb_nonneg). lia. Qed.

(** An open end is counted. *)
Lemma ends_at held w i v ps fd : fds_shape v -> place ps fd -> is_end w i (fd_at v ps fd) = true -> 1 <= ends held w i v.
Proof.
  intros Hs Hp He. destruct (fd_at_lookup v ps fd Hs Hp) as (row & E1 & E2 & _). unfold ends. pose proof (countb_nonneg (is_end w i) held).
  assert (countb (is_end w i) row <= sumz (countb (is_end w i)) (fds v)) by (apply (sumz_ge _ _ (Z.to_nat ps)); [apply list.Forall_forall; intros; apply countb_nonneg|done]).
  pose proof (countb_pos (is_end w i) row _ _ E2 He). lia.
Qed.

Lemma pslot_put v i s j : length (pipe_slots v) = Z.to_nat VFS_PIPE_MAX -> 0 <= i < VFS_PIPE_MAX -> 0 <= j -> pslot (put_pslot i s v) j = if j =? i then s else pslot v j.
Proof.
  intros Hl Hi Hj. unfold pslot, put_pslot. cbn [pipe_slots with_pipe_slots]. destruct (j =? i) eqn:E; bool_to_prop.
  - subst j. apply aget_aset_eq. lia.
  - apply aget_aset_ne; lia.
Qed.

(** A change of one slot, with the descriptors that go with it. *)
Lemma fds_ok_slot held held' v v' i s :
  fds_ok held v -> 0 <= i < VFS_PIPE_MAX -> fds_shape v' -> Forall (Forall fd_ok) (fds v') -> Forall fd_ok held' ->
  (forall j, 0 <= j < VFS_PIPE_MAX -> j <> i -> pslot v' j = pslot v j) -> pslot v' i = s ->
  (forall w j, j <> i -> ends held' w j v' = ends held w j v) -> slot_exact held' v' i -> fds_ok held' v'.
Proof.
  intros (_ & _ & _ & Hx) Hi Hs Ho Hh Hsame Hpi Hends Hslot. split; [done|]. split; [done|]. split; [done|]. intros j Hj.
  destruct (decide (j = i)) as [->|Hne]; [done|]. specialize (Hx j Hj). unfold slot_exact in *. rewrite Hsame by done. rewrite !(Hends _ j Hne).
  destruct (truthy (ps_used (pslot v j))).
  - destruct Hx as (H1 & H2 & H3). split; [done|]. split; [|done]. intros w. by rewrite Hends.
  - intros w. by rewrite Hends.
Qed.

(** A descriptor replaced by one that is the same end, or no end like it. *)
Lemma put_same held v ps fd f : fds_ok held v -> place ps fd -> fd_ok f -> (forall w i, is_end w i f = is_end w i (fd_at v ps fd)) -> fds_ok held (put_fd ps fd f v).
Proof.
  intros (Hs & Ho & Hh & Hx) Hp Hf He. split; [by apply vshape_put|]. split; [by apply fds_put_ok|]. split; [done|]. intros i Hi. specialize (Hx i Hi).
  assert (E : forall w, ends held w i (put_fd ps fd f v) = ends held w i v) by (intros w; rewrite ends_put, He by done; lia).
  unfold slot_exact in *. change (pslot (put_fd ps fd f v) i) with (pslot v i). rewrite !E. destruct (truthy (ps_used (pslot v i))); [|intros w; by rewrite E].
  destruct Hx as (H1 & H2 & H3). split; [done|]. split; [|done]. intros w. by rewrite E.
Qed.

(** Storing a held copy in a free descriptor. *)
Lemma install held v ps fd f g : fds_ok (f :: held) v -> place ps fd -> fd_ok g -> (forall w i, is_end w i g = is_end w i f) ->
  truthy (fd_used (fd_at v ps fd)) = false -> fds_ok held (put_fd ps fd g v).
Proof.
  intros (Hs & Ho & Hh & Hx) Hp Hg He Hu. split; [by apply vshape_put|]. split; [by apply fds_put_ok|]. apply list.Forall_cons in Hh as [_ Hh]. split; [done|]. intros i Hi.
  specialize (Hx i Hi). assert (E : forall w, ends held w i (put_fd ps fd g v) = ends (f :: held) w i v).
  { intros w. rewrite ends_put, He by done. unfold is_end at 1. rewrite Hu. unfold ends. rewrite countb_cons. cbn [andb b2z]. lia. }
  unfold slot_exact in *. change (pslot (put_fd ps fd g v) i) with (pslot v i). rewrite !E. destruct (truthy (ps_used (pslot v i))); [|intros w; by rewrite E].
  destruct Hx as (H1 & H2 & H3). split; [done|]. split; [|done]. intros w. by rewrite E.
Qed.

(** The slot of an open end is in use. *)
Lemma end_slot held v f : fds_ok held v -> fd_ok f -> truthy (fd_used f) = true -> is_pipe_type (fd_type f) = true ->
  is_end (truthy (fd_pipe_write f)) (fd_pipe f) f = true /\ 0 <= fd_pipe f < VFS_PIPE_MAX.
Proof. intros _ Hf Hu Ht. destruct (Hf Hu Ht) as [Hp _]. split; [|done]. unfold is_end. by rewrite Hu, Ht, eqb_reflx, Z.eqb_refl. Qed.

Lemma is_end_other f w i : is_end w i f = true -> forall w' i', is_end w' i' f = Bool.eqb w w' && (i =? i').
Proof.
  unfold is_end. intros H w' i'. bool_to_prop. apply eqb_prop in H1. rewrite H, H2, H1. subst i. done.
Qed.

Lemma used_slot held v i w : fds_ok held v -> 0 <= i < VFS_PIPE_MAX -> 1 <= ends held w i v -> truthy (ps_used (pslot v i)) = true.
Proof. intros (_ & _ & _ & Hx) Hi He. specialize (Hx i Hi). unfold slot_exact in Hx. destruct (truthy (ps_used (pslot v i))); [done|]. specialize (Hx w). lia. Qed.

Lemma find_pipe_used v i : 0 <= i < VFS_PIPE_MAX -> truthy (ps_used (pslot v i)) = true -> find_pipe v i = Some i.
Proof.
  intros Hi Hu. unfold find_pipe.
  destruct (for_first (fun j => truthy (ps_used (pslot v j)) && (j =? i)) (fun j (_ : unit) => if truthy (ps_used (pslot v j)) && (j =? i) then inr j else inl tt)
    0 VFS_PIPE_MAX ltac:(done)) as [[_ H]|(j & E & Hj & H)].
  - specialize (H i ltac:(lia)). by rewrite Hu, Z.eqb_refl in H.
  - rewrite E. bool_to_prop. by subst j.
Qed.

(** ** The pipe calls *)

Lemma retain_end w p : pipe_wf p -> 1 <= end_refs w p < UINT8_MAX -> exists p',
  (if w then pipe_retain_write else pipe_retain_read) (Some p) = (0, Some p') /\ pipe_wf p' /\
  end_refs w p' = end_refs w p + 1 /\ end_refs (negb w) p' = end_refs (negb w) p /\ channel p' = channel p.
Proof.
  intros Hwf Hr. pose proof Hwf as (H1 & H2 & H3 & H4 & H5 & H6). unfold UINT8_MAX in *. destruct w; cbn [end_refs negb] in *.
  - unfold pipe_retain_write. rewrite write_open_test by done. unfold truthy at 1. rewrite (proj2 (Z.eqb_neq _ 0)), (proj2 (Z.eqb_neq _ UINT8_MAX)) by (unfold UINT8_MAX; lia). cbn [negb orb].
    rewrite u8_id by (unfold is_u8 in *; lia). eexists. split; [done|]. split; [|done]. apply (refs_wf p); cbn; ends_arith.
  - unfold pipe_retain_read. rewrite read_open_test by done. unfold truthy at 1. rewrite (proj2 (Z.eqb_neq _ 0)), (proj2 (Z.eqb_neq _ UINT8_MAX)) by (unfold UINT8_MAX; lia). cbn [negb orb].
    rewrite u8_id by (unfold is_u8 in *; lia). eexists. split; [done|]. split; [|done]. apply (refs_wf p); cbn; ends_arith.
Qed.

Lemma close_end w p cp : pipe_wf p -> 1 <= end_refs w p -> exists p',
  (if w then pipe_close_write else plain pipe_close_read) (cp, Some p) = Some (0, (cp, Some p')) /\ pipe_wf p' /\
  end_refs w p' = end_refs w p - 1 /\ end_refs (negb w) p' = end_refs (negb w) p.
Proof.
  intros Hwf Hr. pose proof Hwf as (H1 & H2 & H3 & H4 & H5 & H6). destruct w; cbn [end_refs negb] in *.
  - unfold pipe_close_write. rewrite write_open_test by done. unfold truthy at 1 2. rewrite (proj2 (Z.eqb_neq _ 0)) by lia. cbn [negb orb].
    rewrite u8_id by (unfold is_u8 in *; lia). destruct (truthy (write_refs p - 1)) eqn:E; cbn [negb].
    + eexists. split; [done|]. split; [|done]. apply (refs_wf p); cbn; ends_arith.
    + destruct (close_refines cp (channel p) H1) as (ch & Ec & Hc & Ha). unfold on_channel. cbn [channel set_write]. rewrite Ec. eexists. split; [done|]. split; [|done].
      pose proof (f_equal fclosed Ha) as Hcl. cbn [fclosed abs] in Hcl. apply (refs_wf p); cbn; ends_arith.
  - unfold plain, pipe_close_read. rewrite read_open_test by done. unfold truthy at 1 2. rewrite (proj2 (Z.eqb_neq _ 0)) by lia. cbn [negb orb].
    rewrite u8_id by (unfold is_u8 in *; lia). eexists. split; [done|]. split; [|done]. destruct (truthy (read_refs p - 1)) eqn:E; cbn [negb]; apply (refs_wf p); cbn; ends_arith.
Qed.

(** ** Operations on descriptors *)

Lemma shape_pslot v i s : fds_shape v -> len (data (channel (ps_pipe s))) = RIX_IPC_CAPACITY -> fds_shape (put_pslot i s v).
Proof. intros (H1 & H2 & H3 & H4) Hd. split; [done|]. split; [done|]. cbn. unfold aset. rewrite length_insert. split; [done|]. by apply Forall_insert. Qed.

Lemma wf_data p : pipe_wf p -> len (data (channel p)) = RIX_IPC_CAPACITY.
Proof. intros [(H & _) _]. done. Qed.

Lemma fd_at_put v ps fd f ps' fd' : fds_shape v -> place ps fd -> place ps' fd' ->
  fd_at (put_fd ps fd f v) ps' fd' = if (ps' =? ps) && (fd' =? fd) then f else fd_at v ps' fd'.
Proof.
  intros Hs Hp Hp'. destruct (fd_at_lookup v ps fd Hs Hp) as (row & E1 & E2 & E3). pose proof (lookup_lt_Some _ _ _ E1). pose proof (lookup_lt_Some _ _ _ E2). unfold place in *.
  unfold fd_at, put_fd. cbn [fds with_fds]. rewrite E3. destruct (ps' =? ps) eqn:E; bool_to_prop; cbn [andb].
  - subst ps'. rewrite aget_aset_eq by lia. rewrite E3. destruct (fd' =? fd) eqn:E'; bool_to_prop; [subst fd'; by apply aget_aset_eq|apply aget_aset_ne; lia].
  - by rewrite aget_aset_ne by lia.
Qed.

Section Descriptors.
Context {W : Type} {BW : Below W} {BL : BelowLaws W}.
Abbreviation st := (cpu * (vfs * W))%type.

Lemma runs_on_pipe {A B} p (m : M (cpu * option rix_pipe_t) A) (k : A -> M st B) v (R : A -> rix_pipe_t -> Prop) Q : 0 <= p ->
  (forall c, exists a q, m (c, Some (ps_pipe (pslot v p))) = Some (a, (c, Some q)) /\ R a q) ->
  (forall a q, R a q -> runs (k a) (put_pslot p (set_ps_pipe q (pslot v p)) v) Q) -> runs (on_pipe p m ≫= k) v Q.
Proof.
  intros Hp Hm Hk. eapply (vruns_bind _ _ _ (fun a v' => exists q, R a q /\ v' = put_pslot p (set_ps_pipe q (pslot v p)) v)); [|intros a v1 (q & Hq & ->); by apply Hk].
  intros c w Hw. destruct (Hm c) as (a & q & E & Hq). exists a, (put_pslot p (set_ps_pipe q (pslot v p)) v), w. unfold on_pipe.
  rewrite (proj2 (Z.ltb_ge p 0) Hp), E. split; [done|]. split; [done|]. split; [done|]. by exists q.
Qed.

(** What an open end knows about its slot. *)
Lemma end_known held v w i : fds_ok held v -> 0 <= i < VFS_PIPE_MAX -> 1 <= ends held w i v ->
  truthy (ps_used (pslot v i)) = true /\ find_pipe v i = Some i /\ pipe_wf (ps_pipe (pslot v i)) /\
  (forall w, end_refs w (ps_pipe (pslot v i)) = ends held w i v) /\ ps_refs (pslot v i) = ends held false i v + ends held true i v /\ 1 <= ps_refs (pslot v i) <= UINT8_MAX.
Proof.
  intros Hok Hi He. pose proof (used_slot held v i w Hok Hi He) as Hu. split; [done|]. split; [by apply find_pipe_used|].
  destruct Hok as (_ & _ & _ & Hx). specialize (Hx i Hi). unfold slot_exact in Hx. by rewrite Hu in Hx.
Qed.

Lemma sum_bool (f : bool -> Z) w : f false + f true = f w + f (negb w).
Proof. destruct w; cbn; lia. Qed.

(** The state after an end was closed. *)
Lemma closed_ok held v ps fd w i p' v' :
  fds_ok held v -> place ps fd -> 0 <= i < VFS_PIPE_MAX -> is_end w i (fd_at v ps fd) = true ->
  pipe_wf p' -> end_refs w p' = end_refs w (ps_pipe (pslot v i)) - 1 -> end_refs (negb w) p' = end_refs (negb w) (ps_pipe (pslot v i)) ->
  fds v' = fds v -> (forall j, 0 <= j < VFS_PIPE_MAX -> pslot v' j = if j =? i then drop_ref (set_ps_pipe p' (pslot v i)) else pslot v j) -> fds_shape v' ->
  fds_ok held (on_fd ps fd (fun f => set_fd_cloexec 0 (set_fd_used 0 f)) v').
Proof.
  intros Hok Hp Hi He Hwf H1 H2 Hf Hps Hs'. pose proof Hok as (Hs & Ho & Hh & _).
  pose proof (ends_at held w i v ps fd Hs Hp He) as Hge. destruct (end_known held v w i Hok Hi Hge) as (Hu & _ & _ & Hr & Href & Hb).
  assert (Hat : fd_at v' ps fd = fd_at v ps fd) by (unfold fd_at; by rewrite Hf). unfold on_fd. rewrite Hat. set (g := set_fd_cloexec 0 _).
  assert (Hg : forall w j, is_end w j g = false) by done.
  assert (Hends : forall w' j, ends held w' j (put_fd ps fd g v') = ends held w' j v - b2z (Bool.eqb w w' && (i =? j))).
  { intros w' j. rewrite ends_put, Hat, Hg, (is_end_other _ _ _ He) by done. unfold ends. rewrite Hf. cbn [b2z]. lia. }
  apply (fds_ok_slot held held v _ i (drop_ref (set_ps_pipe p' (pslot v i)))); try done.
  - by apply vshape_put.
  - apply fds_put_ok; try done. by rewrite Hf.
  - intros j Hj Hne. change (pslot (put_fd ps fd g v') j) with (pslot v' j). rewrite Hps by done. by rewrite (proj2 (Z.eqb_neq j i) Hne).
  - change (pslot (put_fd ps fd g v') i) with (pslot v' i). rewrite Hps by done. by rewrite Z.eqb_refl.
  - intros w' j Hne. rewrite Hends, (proj2 (Z.eqb_neq i j)) by done. rewrite andb_false_r. cbn. lia.
  - unfold slot_exact. change (pslot (put_fd ps fd g v') i) with (pslot v' i). rewrite Hps, Z.eqb_refl by done. unfold drop_ref. cbn [set_ps_pipe ps_refs ps_used ps_pipe].
    rewrite (sum_bool (fun w => ends held w i v) w) in Href. pose proof (ends_nonneg held (negb w) i v).
    replace (truthy (ps_refs (pslot v i))) with true by (symmetry; apply negb_true_iff, Z.eqb_neq; lia). rewrite u8_id by (unfold is_u8, UINT8_MAX in *; lia).
    assert (Hw : forall w', ends held w' i (put_fd ps fd g v') = end_refs w' p').
    { intros w'. rewrite Hends, Z.eqb_refl, andb_true_r. destruct (Bool.eqb w w') eqn:E; [apply eqb_prop in E as <-; rewrite H1, Hr; cbn; lia|].
      apply eqb_false_iff in E. replace w' with (negb w) by (by destruct w, w'). rewrite H2, Hr. cbn. lia. }
    rewrite !Hw. destruct (truthy (ps_refs (pslot v i) - 1)) eqn:E.
    + rewrite Hu. split; [done|]. split; [intros w'; by rewrite Hw|]. rewrite (sum_bool (fun w => end_refs w p') w), H1, H2, !Hr. apply negb_true_iff, Z.eqb_neq in E. lia.
    + apply negb_false_iff, Z.eqb_eq in E. intros w'. rewrite Hw. assert (end_refs w p' = 0 /\ end_refs (negb w) p' = 0) by (rewrite H1, H2, !Hr; lia). destruct w, w'; cbn in *; lia.
Qed.

Definition keep {A} (held : list vfs_fd_t) : A -> vfs -> Prop := fun _ v' => fds_ok held v'.

Lemma pid_slot_Some id ps : 0 <= id -> pid_slot id = Some ps -> ps = id /\ 0 <= id < RIX_PROCESS_MAX.
Proof. unfold pid_slot. intros H. case_if; [done|]. intros [= <-]. done. Qed.

Lemma bad_fd_false fd : bad_fd fd = false -> 0 <= fd < RIX_VFS_FD_MAX.
Proof. unfold bad_fd. intros H. bool_to_prop. lia. Qed.

Lemma vclose_run held v id fd : fds_ok held v -> 0 <= id ->
  runs (vfs_close_locked (W := W) id fd) v (fun r v' => fds_ok held v' /\
    (place id fd -> truthy (fd_used (fd_at v id fd)) = true -> r = 0 /\ truthy (fd_used (fd_at v' id fd)) = false)).
Proof.
  intros Hok Hid. unfold vfs_close_locked. destruct (pid_slot id) as [ps|] eqn:Eps.
  2: { apply vruns_ret. split; [done|]. intros [Hp _]. unfold pid_slot in Eps. case_if; [lia|done]. }
  apply (pid_slot_Some id ps Hid) in Eps as [-> Hps]. apply runs_look. destruct (bad_fd fd || negb (truthy (fd_used (fd_at v id fd)))) eqn:Eb.
  { apply vruns_ret. split; [done|]. intros [_ Hp] Hu. rewrite Hu, orb_false_r in Eb. unfold bad_fd in Eb. bool_to_prop. lia. }
  apply orb_false_iff in Eb as [Eb Eu]. apply negb_false_iff in Eu. apply bad_fd_false in Eb. assert (Hp : place id fd) by done. pose proof Hok as (Hs & Ho & Hh & Hx).
  pose proof (fd_at_ok v id fd Hs Hp Ho) as Hf. set (f := fd_at v id fd) in *.
  destruct (is_pipe_type (fd_type f)) eqn:Et.
  - destruct (end_slot held v f Hok Hf Eu Et) as [He Hi]. set (i := fd_pipe f) in *. set (w := truthy (fd_pipe_write f)) in *.
    pose proof (ends_at held w i v id fd Hs Hp He) as Hge. destruct (end_known held v w i Hok Hi Hge) as (Hu & Hfind & Hwf & Hr & Href & Hb).
    eapply (vruns_bind _ _ _ (fun r v' => r = 0 /\ fds_ok held (on_fd id fd (fun f => set_fd_cloexec 0 (set_fd_used 0 f)) v') /\ fds_shape v')).
    + apply runs_look. rewrite Hfind. unfold pipe_close_end. fold i w.
      eapply (runs_on_pipe i _ _ _ (fun a q => a = 0 /\ pipe_wf q /\ end_refs w q = end_refs w (ps_pipe (pslot v i)) - 1 /\ end_refs (negb w) q = end_refs (negb w) (ps_pipe (pslot v i)))); [lia| |].
      { intros c. destruct (close_end w (ps_pipe (pslot v i)) c Hwf ltac:(rewrite Hr; lia)) as (q & E & H1 & H2 & H3). exists 0, q. split; [|done]. by destruct w. }
      intros rc q (-> & H1 & H2 & H3). cbn [Z.eqb negb]. set (v1 := put_pslot i (set_ps_pipe q (pslot v i)) v). apply runs_change; [done|].
      apply runs_below_bind; [auto with vfs|]. intros _. apply runs_below_bind; [auto with vfs|]. intros _. apply vruns_ret. split; [done|].
      assert (Hs1 : fds_shape v1) by (apply shape_pslot; [done|by apply wf_data]).
      assert (Hs2 : fds_shape (put_pslot i (drop_ref (pslot v1 i)) v1)). { apply shape_pslot; [done|]. unfold v1. rewrite pslot_put by (done || lia || apply Hs). rewrite Z.eqb_refl. by apply wf_data. }
      split; [|done]. apply (closed_ok held v id fd w i q); try done. intros j Hj. rewrite pslot_put by (apply Hs1 || lia). unfold v1. rewrite !pslot_put by (apply Hs || lia). rewrite Z.eqb_refl. by destruct (j =? i).
    + intros r v1 (-> & Hok1 & Hs1). cbn [Z.eqb negb]. apply runs_change; [done|]. apply vruns_ret. split; [done|]. intros _ _. split; [done|].
      unfold on_fd. by rewrite fd_at_put, !Z.eqb_refl by done.
  - eapply (vruns_bind _ _ _ (fun r v' => r = 0 /\ v' = v)); [by apply vruns_ret|]. intros r v1 [-> ->]. cbn [Z.eqb negb]. apply runs_change; [done|]. apply vruns_ret. split.
    + unfold on_fd. apply put_same; [done|done|by intros ?|]. fold f. intros w i. unfold is_end. rewrite Et, !andb_false_r. done.
    + intros _ _. split; [done|]. unfold on_fd. by rewrite fd_at_put, !Z.eqb_refl by done.
Qed.

Lemma close_keep held v id fd : fds_ok held v -> 0 <= id -> runs (vfs_close_locked (W := W) id fd) v (keep held).
Proof. intros Hok Hid. eapply vruns_conseq; [by apply vclose_run|]. by intros r v' [H _]. Qed.

Lemma each_fd_keep held n : forall fd rc (body : Z -> Z -> M st Z) v, 0 <= fd -> (forall fd rc v, 0 <= fd -> fds_ok held v -> runs (body fd rc) v (keep held)) ->
  fds_ok held v -> runs (each_fd n fd rc body) v (keep held).
Proof.
  induction n as [|n IH]; intros fd rc body v Hfd Hb Hok; [by apply vruns_ret|]. cbn [each_fd]. eapply vruns_bind; [by apply Hb|]. intros rc1 v1 Hok1. apply IH; [lia|done|done].
Qed.

Lemma close_all_keep held v id : fds_ok held v -> 0 <= id -> runs (vfs_close_all_locked (W := W) id) v (keep held).
Proof.
  intros Hok Hid. unfold vfs_close_all_locked. destruct (pid_slot id) as [ps|]; [|by apply vruns_ret]. apply each_fd_keep; [done| |done]. intros fd rc v1 Hfd Hok1. apply runs_look.
  destruct (truthy _); [|by apply vruns_ret]. eapply vruns_bind; [by apply close_keep|]. intros r v2 Hok2. by apply vruns_ret.
Qed.

Lemma retain_run held v f : fds_ok held v -> fd_ok f -> (forall w i, is_end w i f = true -> 1 <= ends held w i v) ->
  runs (retain_fd (W := W) f) v (fun r v' => match r with inl _ => fds_ok held v' | inr g => g = f /\ fds v' = fds v /\ fds_ok (f :: held) v' end).
Proof.
  intros Hok Hf Hcnt. unfold retain_fd. destruct (truthy (fd_used f)) eqn:Eu; cbn [negb]; [|by apply vruns_ret].
  destruct (is_pipe_type (fd_type f)) eqn:Et.
  2: { apply vruns_ret. split; [done|]. split; [done|]. destruct Hok as (Hs & Ho & Hh & Hx). split; [done|]. split; [done|]. split; [by constructor|].
       assert (E : forall w i, ends (f :: held) w i v = ends held w i v) by (intros w i; unfold ends; rewrite countb_cons; unfold is_end at 2; rewrite Et, andb_false_r; cbn; lia).
       intros i Hi. specialize (Hx i Hi). unfold slot_exact in *. rewrite !E. destruct (truthy (ps_used (pslot v i))); [|intros w; by rewrite E].
       destruct Hx as (H1 & H2 & H3). split; [done|]. split; [|done]. intros w. by rewrite E. }
  destruct (end_slot held v f Hok Hf Eu Et) as [He Hi]. set (i := fd_pipe f) in *. set (w := truthy (fd_pipe_write f)) in *.
  destruct (end_known held v w i Hok Hi (Hcnt w i He)) as (Hu & Hfind & Hwf & Hr & Href & Hb). pose proof (Hcnt w i He) as Hge.
  apply runs_look. rewrite Hfind. apply runs_look. destruct (ps_refs (pslot v i) =? UINT8_MAX) eqn:Em; [by apply vruns_ret|]. bool_to_prop.
  rewrite (sum_bool (fun w => ends held w i v) w) in Href. pose proof (ends_nonneg held (negb w) i v).
  unfold pipe_retain_end. fold i w.
  eapply (runs_on_pipe i _ _ _ (fun a q => a = 0 /\ pipe_wf q /\ end_refs w q = end_refs w (ps_pipe (pslot v i)) + 1 /\ end_refs (negb w) q = end_refs (negb w) (ps_pipe (pslot v i)))); [lia| |].
  { intros c. destruct (retain_end w (ps_pipe (pslot v i)) Hwf ltac:(rewrite Hr; lia)) as (q & E & H1 & H2 & H3 & _). exists 0, q. split; [|done]. unfold plain. by destruct w; rewrite E. }
  intros rc q (-> & H1 & H2 & H3). cbn [Z.eqb negb]. apply runs_change; [done|]. apply vruns_ret. split; [done|]. split; [done|]. pose proof Hok as (Hs & Ho & Hh & _).
  set (v1 := put_pslot i (set_ps_pipe q (pslot v i)) v). assert (Hs1 : fds_shape v1) by (apply shape_pslot; [done|by apply wf_data]).
  assert (E1 : pslot v1 i = set_ps_pipe q (pslot v i)) by (unfold v1; rewrite pslot_put by (apply Hs || lia); by rewrite Z.eqb_refl). rewrite E1. cbn [set_ps_pipe ps_pipe ps_used ps_refs].
  set (s := Build_vfs_pipe_slot_t _ _ _). assert (Hps : forall j, 0 <= j -> pslot (put_pslot i s v1) j = if j =? i then s else pslot v j).
  { intros j Hj. rewrite pslot_put by (apply Hs1 || lia). destruct (j =? i) eqn:E; [done|]. unfold v1. rewrite pslot_put by (apply Hs || lia). by rewrite E. }
  assert (Hends : forall w' j, ends (f :: held) w' j (put_pslot i s v1) = ends held w' j v + b2z (Bool.eqb w w' && (i =? j))).
  { intros w' j. unfold ends. rewrite countb_cons, (is_end_other _ _ _ He). cbn. lia. }
  apply (fds_ok_slot held (f :: held) v _ i s); try done.
  - apply shape_pslot; [done|]. by apply wf_data.
  - by constructor.
  - intros j Hj Hne. rewrite Hps by lia. by rewrite (proj2 (Z.eqb_neq j i) Hne).
  - rewrite Hps by lia. by rewrite Z.eqb_refl.
  - intros w' j Hne. rewrite Hends, (proj2 (Z.eqb_neq i j)) by done. rewrite andb_false_r. cbn. lia.
  - unfold slot_exact. rewrite Hps, Z.eqb_refl by lia. cbn [ps_used ps_pipe ps_refs s]. rewrite Hu. rewrite u8_id by (unfold is_u8, UINT8_MAX in *; lia).
    assert (Hw : forall w', ends (f :: held) w' i (put_pslot i s v1) = end_refs w' q).
    { intros w'. rewrite Hends, Z.eqb_refl, andb_true_r. destruct (Bool.eqb w w') eqn:E; [apply eqb_prop in E as <-; rewrite H2, Hr; cbn; lia|].
      apply eqb_false_iff in E. replace w' with (negb w) by (by destruct w, w'). rewrite H3, Hr. cbn. lia. }
    rewrite !Hw. split; [done|]. split; [intros w'; by rewrite Hw|]. rewrite (sum_bool (fun w => end_refs w q) w), H2, H3, !Hr. lia.
Qed.

Lemma retain_at held v ps fd : fds_ok held v -> place ps fd ->
  runs (retain_fd (W := W) (fd_at v ps fd)) v (fun r v' => match r with inl _ => fds_ok held v' | inr g => g = fd_at v ps fd /\ fds v' = fds v /\ fds_ok (fd_at v ps fd :: held) v' end).
Proof.
  intros Hok Hp. pose proof Hok as (Hs & Ho & _). apply retain_run; [done|by apply fd_at_ok|]. intros w i He. by apply (ends_at held w i v ps fd).
Qed.

Lemma free_fd_spec v ps lo : 0 <= lo -> (free_fd v ps lo = -1) \/ (lo <= free_fd v ps lo < RIX_VFS_FD_MAX /\ truthy (fd_used (fd_at v ps (free_fd v ps lo))) = false).
Proof.
  intros Hlo. unfold free_fd.
  destruct (for_first (fun i => negb (truthy (fd_used (fd_at v ps i)))) (fun i (_ : unit) => if negb (truthy (fd_used (fd_at v ps i))) then inr i else inl tt) lo (RIX_VFS_FD_MAX - lo) ltac:(done))
    as [[-> _]|(i & -> & Hi & Hu)]; [by left|]. right. split; [lia|]. by apply negb_true_iff.
Qed.

Lemma fd_ok_cloexec x f : fd_ok f -> fd_ok (set_fd_cloexec x f).
Proof. done. Qed.

Lemma dup_keep v id old_fd lo : fds_ok [] v -> 0 <= id -> runs (dup_from (W := W) id old_fd lo) v (keep []).
Proof.
  intros Hok Hid. unfold dup_from. destruct (pid_slot id) as [ps|] eqn:Eps; [|by apply vruns_ret]. apply (pid_slot_Some id ps Hid) in Eps as [-> Hps].
  apply runs_look. destruct (_ || _) eqn:Eb; [by apply vruns_ret|]. apply orb_false_iff in Eb as [Eb _]. apply orb_false_iff in Eb as [Eb El]. apply bad_fd_false in Eb, El.
  apply runs_look. destruct (free_fd_spec v id lo ltac:(lia)) as [->|[Hfd Hu]]; [by apply vruns_ret|]. rewrite (proj2 (Z.ltb_ge _ 0)) by lia. set (fd := free_fd v id lo) in *.
  eapply vruns_bind; [by apply (retain_at [])|]. intros [e|g] v1; [intros H; by apply vruns_ret|]. intros (-> & Hf & Hok1). apply runs_change; [done|]. apply vruns_ret.
  pose proof Hok as (Hs & Ho & _). apply (install [] v1 id fd (fd_at v id old_fd)); try done; [split; [done|lia]|apply fd_ok_cloexec; by apply fd_at_ok|].
  unfold fd_at. by rewrite Hf.
Qed.

Lemma install_copy held v ps fd f : fds_ok (f :: held) v -> place ps fd -> truthy (fd_used (fd_at v ps fd)) = false -> fds_ok held (put_fd ps fd f v).
Proof. intros Hok Hp Hu. apply (install held v ps fd f); try done. destruct Hok as (_ & _ & Hh & _). by apply list.Forall_cons in Hh as [? _]. Qed.

Lemma dup_to_keep v id old_fd new_fd : fds_ok [] v -> 0 <= id ->
  runs (dup_to_locked (W := W) id old_fd new_fd) v (keep []).
Proof.
  intros Hok Hid. unfold dup_to_locked. destruct (pid_slot id) as [ps|] eqn:Eps; [|by apply vruns_ret]. apply (pid_slot_Some id ps Hid) in Eps as [-> Hps].
  apply runs_look. destruct (_ || _) eqn:Eb; [by apply vruns_ret|]. apply orb_false_iff in Eb as [Eb _]. apply orb_false_iff in Eb as [Eb El]. apply bad_fd_false in Eb, El.
  destruct (old_fd =? new_fd); [by apply vruns_ret|]. assert (Hp : place id new_fd) by done.
  eapply vruns_bind; [by apply (retain_at [])|]. intros [e|g] v1; [intros H; by apply vruns_ret|]. intros (-> & Hf & Hok1). cbv zeta. set (g := fd_at v id old_fd) in *.
  apply runs_look. eapply (vruns_bind _ _ _ (fun r v' => r = 0 /\ fds_ok [g] v' /\ truthy (fd_used (fd_at v' id new_fd)) = false)).
  - destruct (truthy (fd_used (fd_at v1 id new_fd))) eqn:Eu; [|by apply vruns_ret].
    eapply vruns_conseq; [by apply (vclose_run [g])|]. intros r v2 [H1 H2]. destruct (H2 Hp Eu) as [-> H3]. done.
  - intros r v2 (-> & Hok2 & Hu). cbn [Z.eqb negb]. apply runs_change; [done|]. apply vruns_ret.
    apply (install [] v2 id new_fd g); try done. apply fd_ok_cloexec. destruct Hok2 as (_ & _ & Hh & _). by apply list.Forall_cons in Hh as [? _].
Qed.

Lemma undo_keep v id copied : fds_ok [] v -> 0 <= id -> runs (undo_clone (W := W) id copied) v (keep []).
Proof.
  intros Hok Hid. unfold undo_clone. apply each_fd_keep; [done| |done]. intros fd rc v1 Hfd Hok1. destruct (Z.testbit copied fd); [|by apply vruns_ret].
  eapply vruns_bind; [by apply close_keep|]. intros r v2 H. by apply vruns_ret.
Qed.

Lemma clone_keep n : forall i copied par child v, fds_ok [] v -> 0 <= par < RIX_PROCESS_MAX -> 0 <= child < RIX_PROCESS_MAX -> 0 <= i -> i + Z.of_nat n <= RIX_VFS_FD_MAX ->
  runs (clone_loop (W := W) n i copied par child child) v (keep []).
Proof.
  induction n as [|n IH]; intros i copied par child v Hok Hp Hc Hi Hn; [by apply vruns_ret|]. cbn [clone_loop]. apply runs_look. destruct (truthy (fd_used (fd_at v par i))); cbn [negb]; [|apply IH; try done; lia].
  apply runs_look. destruct (truthy (fd_used (fd_at v child i))) eqn:Eu; [eapply vruns_bind; [apply undo_keep; [done|lia]|]; intros r v1 H; by apply vruns_ret|].
  eapply vruns_bind; [apply (retain_at [] v par i); [done|split; [done|lia]]|]. intros [e|g] v1.
  - intros H. eapply vruns_bind; [apply undo_keep; [done|lia]|]. intros r v2 H2. by apply vruns_ret.
  - intros (-> & Hf & Hok1). apply runs_change; [done|]. apply IH; try done; try lia. apply install_copy; [done|split; [done|lia]|]. unfold fd_at. by rewrite Hf.
Qed.

(** A pipe call that keeps the counts. *)
Lemma slot_pipe held v i q : fds_ok held v -> 0 <= i < VFS_PIPE_MAX -> pipe_wf q -> (forall w, end_refs w q = end_refs w (ps_pipe (pslot v i))) ->
  fds_ok held (put_pslot i (set_ps_pipe q (pslot v i)) v).
Proof.
  intros Hok Hi Hwf Hr. pose proof Hok as (Hs & Ho & Hh & Hx). apply (fds_ok_slot held held v _ i (set_ps_pipe q (pslot v i))); try done.
  - apply shape_pslot; [done|by apply wf_data].
  - intros j Hj Hne. rewrite pslot_put by (apply Hs || lia). by rewrite (proj2 (Z.eqb_neq j i) Hne).
  - rewrite pslot_put by (apply Hs || lia). by rewrite Z.eqb_refl.
  - specialize (Hx i Hi). unfold slot_exact in *. rewrite pslot_put by (apply Hs || lia). rewrite Z.eqb_refl. cbn [set_ps_pipe ps_used ps_pipe ps_refs].
    destruct (truthy (ps_used (pslot v i))); [|done]. destruct Hx as (_ & H2 & H3). split; [done|]. split; [|done]. intros w. rewrite Hr. apply H2.
Qed.

Lemma read_counts p buf n : pipe_wf p -> 0 <= n <= len buf -> forall c, exists a q,
  pipe_read (Some buf) n (Some 0) (c, Some p) = Some (a, (c, Some q)) /\ pipe_wf q /\ forall w, end_refs w q = end_refs w p.
Proof.
  intros Hwf Hn c. unfold pipe_read. destruct (negb (truthy (read_open p))); [by exists (-1, Some 0, Some buf), p|].
  destruct (read_refines c (channel p) buf n (Some 0) (proj1 Hwf) Hn) as (rc & got & ch & E & Hch & Hf). unfold on_channel. cbn [fmap option_fmap option_map]. rewrite E.
  eexists _, _. split; [done|]. split; [|done]. apply pipe_wf_channel; [done..|]. apply (f_equal (fun x => fclosed (snd x))) in Hf. cbn [snd] in Hf. by rewrite Hf.
Qed.

Lemma write_counts p buf : pipe_wf p -> forall c, exists a q,
  pipe_write (Some buf) (len buf) (Some 0) (c, Some p) = Some (a, (c, Some q)) /\ pipe_wf q /\ forall w, end_refs w q = end_refs w p.
Proof.
  intros Hwf c. unfold pipe_write. destruct (negb (truthy (write_open p))); [by exists (-1, Some 0), p|]. destruct (negb (truthy (read_open p))); [by exists (-2, Some 0), p|].
  destruct (write_refines c (channel p) buf (Some 0) (proj1 Hwf)) as (rc & got & ch & E & Hch & Hf). unfold on_channel. cbn [fmap option_fmap option_map]. rewrite E.
  eexists _, _. split; [done|]. split; [|done]. apply pipe_wf_channel; [done..|]. apply (f_equal (fun x => fclosed (snd x))) in Hf. cbn [snd] in Hf. rewrite Hf. unfold fifo_write. destruct (fclosed (abs (channel p))) eqn:E'; by cbn.
Qed.

Lemma still_keep {A} (m : M st A) held v : still m -> fds_ok held v -> runs m v (keep held).
Proof. intros Hm Hok. eapply vruns_conseq; [apply Hm|]. intros a v' (n & ->). exact Hok. Qed.

Lemma keep_bind {A B} (m : M st A) (k : A -> M st B) held v : runs m v (keep held) -> (forall a v', fds_ok held v' -> runs (k a) v' (keep held)) -> runs (m ≫= k) v (keep held).
Proof. intros Hm Hk. by eapply vruns_bind. Qed.

Lemma below_keep {A B} (m : M (cpu * W) A) (k : A -> M st B) held v : quiet m -> (forall a, runs (k a) v (keep held)) -> runs (below m ≫= k) v (keep held).
Proof. apply runs_below_bind. Qed.

(** The pipe of an open end, and a call on it. *)
Lemma on_end_keep {A B} held v ps fd (m : M (cpu * option rix_pipe_t) A) (k : A -> M st B) : fds_ok held v -> place ps fd -> truthy (fd_used (fd_at v ps fd)) = true -> is_pipe_type (fd_type (fd_at v ps fd)) = true ->
  (forall p, pipe_wf p -> forall c, exists a q, m (c, Some p) = Some (a, (c, Some q)) /\ pipe_wf q /\ forall w, end_refs w q = end_refs w p) ->
  (forall a v', fds_ok held v' -> runs (k a) v' (keep held)) -> runs (on_pipe (fd_pipe (fd_at v ps fd)) m ≫= k) v (keep held).
Proof.
  intros Hok Hp Hu Ht Hm Hk. pose proof Hok as (Hs & Ho & _). pose proof (fd_at_ok v ps fd Hs Hp Ho) as Hf.
  destruct (end_slot held v _ Hok Hf Hu Ht) as [He Hi]. destruct (end_known held v _ _ Hok Hi (ends_at held _ _ v ps fd Hs Hp He)) as (_ & _ & Hwf & _).
  eapply (runs_on_pipe _ _ _ _ (fun a q => pipe_wf q /\ forall w, end_refs w q = end_refs w (ps_pipe (pslot v (fd_pipe (fd_at v ps fd)))))); [lia|by apply Hm|].
  intros a q [H1 H2]. apply Hk. by apply slot_pipe.
Qed.

Lemma on_fd_keep held v ps fd g : fds_ok held v -> place ps fd -> (forall f, fd_ok f -> fd_ok (g f)) -> (forall f w i, is_end w i (g f) = is_end w i f) -> fds_ok held (on_fd ps fd g v).
Proof. intros Hok Hp H1 H2. apply put_same; try done. apply H1. destruct Hok as (Hs & Ho & _). by apply fd_at_ok. Qed.

Lemma offset_keep held v ps fd x : fds_ok held v -> place ps fd -> fds_ok held (on_fd ps fd (set_fd_offset x) v).
Proof. intros Hok Hp. by apply on_fd_keep. Qed.
End Descriptors.

(** ** Whole calls *)

Section Calls.
Context {W : Type} {BW : Below W} {BL : BelowLaws W}.
Abbreviation st := (cpu * (vfs * W))%type.

Definition ready (v : vfs) (w : W) : Prop := vfs_lock v = spin_free /\ below_ok w /\ fds_ok [] v.

Definition call_ok {A} (m : M st A) : Prop := forall c v w, ready v w ->
  exists r v' w', m (c, (v, w)) = Some (r, (c, (v', w'))) /\ ready v' w'.

Lemma guarded_ok {A} (body : M st A) : (forall v, fds_ok [] v -> runs body v (keep [])) -> call_ok (guarded body).
Proof.
  intros Hb c v w (Hl & Hw & Hok). destruct (vguarded_run body c v w (keep []) Hl Hw) as (r & v' & w' & E & Hw' & Hok'); [by apply Hb|].
  exists r, (with_vfs_lock spin_free v'), w'. split; [done|]. done.
Qed.

Lemma guarded_still {A} (body : M st A) : still body -> call_ok (guarded body).
Proof. intros H. apply guarded_ok. intros v. by apply still_keep. Qed.

Lemma still_ok {A} (m : M st A) : still m -> call_ok m.
Proof.
  intros Hm c v w (Hl & Hw & Hok). destruct (Hm v c w Hw) as (r & v' & w' & E & Hw' & Hl' & n & ->). exists r, (with_path_node n v), w'. split; [done|]. by split.
Qed.

Lemma with_open_ok {A} (fail : A) id fd (body : Z -> vfs_fd_t -> M st A) : 0 <= id ->
  (forall v, fds_ok [] v -> place id fd -> truthy (fd_used (fd_at v id fd)) = true -> runs (body id (fd_at v id fd)) v (keep [])) -> call_ok (with_open fail id fd body).
Proof.
  intros Hid Hb. apply guarded_ok. intros v Hok. destruct (pid_slot id) as [ps|] eqn:Eps; [|by apply vruns_ret]. apply (pid_slot_Some id ps Hid) in Eps as [-> Hps].
  apply runs_look. destruct (_ || _) eqn:Eb; [by apply vruns_ret|]. apply orb_false_iff in Eb as [Eb Eu]. apply bad_fd_false in Eb. apply negb_false_iff in Eu. by apply Hb.
Qed.
End Calls.
