(* ===== verification/VfsToy.v ===== *)
(** * A file system in memory, and what [vfs_rename] does over it ([kernel/vfs/vfs.c])

    A concrete instance of the interface [Below]: directory entries and inodes as lists. *)
From stdpp Require Import base tactics list numbers.
From S2P Require Import Prelude Lock Bytes Channel Pipe Process VfsPath Vfs VfsFds.

Record toy := { entries : list (Z * list Z * (Z * Z)); inodes : list rixfs_inode_disk_t }.

Definition toy_inode (ino mode owner size : Z) : rixfs_inode_disk_t :=
  {| in_inode := ino; in_mode := mode; in_uid := owner; in_gid := owner; in_flags := 0; in_size := size; in_generation := 0; in_extent_start := [];
     in_extent_length := []; in_links := 1; in_acl_user := RIXFS_ACL_NONE; in_acl_user_perm := 0; in_acl_group := RIXFS_ACL_NONE; in_acl_group_perm := 0;
     in_acl_mask := 0 |}.
Definition toy_acl : rixfs_acl_t :=
  {| acl_version := RIXFS_ACL_VERSION; acl_user := RIXFS_ACL_NONE; acl_user_perm := 0; acl_group := RIXFS_ACL_NONE; acl_group_perm := 0; acl_mask := 0 |}.

Definition entry_is (d : Z) (nm : list Z) (e : Z * list Z * (Z * Z)) : bool := bool_decide (e.1 = (d, nm)).
Definition toy_find (w : toy) (d : Z) (nm : list Z) : option (Z * Z) := snd <$> List.find (entry_is d nm) (entries w).
Definition toy_remove (d : Z) (nm : list Z) (w : toy) : toy := {| entries := List.filter (fun e => negb (entry_is d nm e)) (entries w); inodes := inodes w |}.
Definition toy_enter (d : Z) (nm : list Z) (x : Z * Z) (w : toy) : toy := {| entries := (d, nm, x) :: entries (toy_remove d nm w); inodes := inodes w |}.

Definition toy_read_inode (i : Z) (w : toy) : Z * rixfs_inode_disk_t :=
  match List.find (fun n => in_inode n =? i) (inodes w) with Some n => (0, n) | None => (-1, toy_inode 0 0 0 0) end.
Definition toy_unlink (d : Z) (nm : list Z) (w : toy) : Z * toy :=
  match toy_find w d nm with Some _ => (0, toy_remove d nm w) | None => (-2, w) end.
Definition toy_rename (d : Z) (nm : list Z) (d' : Z) (nm' : list Z) (w : toy) : Z * toy :=
  match toy_find w d nm with Some x => (0, toy_enter d' nm' x (toy_remove d nm w)) | None => (-2, w) end.
Definition toy_make (d : Z) (nm : list Z) (type mode owner : Z) (w : toy) : Z * Z * toy :=
  let ino := len (inodes w) + 1 in
  (0, ino, toy_enter d nm (ino, type) {| entries := entries w; inodes := toy_inode ino mode owner 0 :: inodes w |}).

Definition just {A} (f : toy -> A * toy) : M (cpu * toy) A := fun '(c, w) => let '(a, w') := f w in Some (a, (c, w')).
Definition say {A} (a : A) : M (cpu * toy) A := just (fun w => (a, w)).
Lemma just_quiet {A} `{!Below toy} (f : toy -> A * toy) : (forall w, below_ok w) -> quiet (just f).
Proof. intros H c w _. unfold just. destruct (f w) as [a w']. by exists a, w'. Qed.

#[export] Instance toy_below : Below toy := {
  below_ok _ := True;
  lockdep_register := say 0; lockdep_acquire _ := say 0; lockdep_release _ := say 0;
  super_root_inode _ := 1; super_inode_count w := len (inodes w); device_sector_size _ := Some 512;
  rixfs_mount _ := say 0; rixfs_unmount := say tt;
  rixfs_read_inode _ i := just (fun w => (toy_read_inode i w, w));
  rixfs_write_inode _ i x := just (fun w => (0, {| entries := entries w; inodes := x :: List.filter (fun n => negb (in_inode n =? i)) (inodes w) |}));
  rixfs_lookup_name _ d nm := just (fun w => (match toy_find w d nm with Some x => (0, x) | None => (-2, (0, 0)) end, w));
  rixfs_read _ _ _ n := say (0, replicate (Z.to_nat n) 0); rixfs_write _ _ _ _ := say 0; rixfs_truncate _ _ _ := say 0;
  rixfs_create _ d nm mode u _ := just (toy_make d nm RIXFS_DIR_TYPE_FILE mode u);
  rixfs_mkdir _ d nm mode u _ := just (toy_make d nm RIXFS_DIR_TYPE_DIR (Z.lor RIXFS_IFDIR mode) u);
  rixfs_symlink _ d nm _ u _ := just (toy_make d nm RIXFS_DIR_TYPE_SYMLINK RIXFS_IFLNK u);
  rixfs_link _ i d nm t := just (fun w => (0, toy_enter d nm (i, t) w));
  rixfs_unlink _ d nm := just (toy_unlink d nm); rixfs_rmdir _ d nm := just (toy_unlink d nm);
  rixfs_rename _ d nm d' nm' _ := just (toy_rename d nm d' nm');
  rixfs_readdir _ _ off _ := say (-1, (off, {| de_inode := 0; de_record_size := 0; de_type := 0; de_name_length := 0; de_flags := 0 |}, []));
  rixfs_get_acl _ _ := say (0, toy_acl); rixfs_set_acl _ _ _ := say 0; rixfs_clear_acl _ _ := say 0;
  rixfs_statfs _ := say (0, (0, 0, 0));
  rix_waitqueue_init _ := say tt; scheduler_wake_queue _ := say tt; scheduler_wait_prepare _ := say 0; scheduler_block_current := say tt;
}.

#[export] Instance toy_laws : BelowLaws toy.
Proof. split; intros; by apply just_quiet. Qed.

(** ** A process, its files and the tables at start-up *)

Definition toy_process (who : Z) : rix_process_t := set_state RIX_PROC_RUNNING (set_pid 1 {|
  pid := 0; parent := 0; process_group := 0; session := 0; state := RIX_PROC_UNUSED; uid := who; gid := who; capabilities := 0; pml4_phys := 0; heap_base := 0; heap_break := 0;
  kernel_stack := 0; kernel_stack_size := 0; exit_status := 0; fd_bitmap := 0; signal_pending := 0; signal_mask := 0; name := []; cwd := [47; 0] |}).
Definition toy_procs (who : Z) : procs :=
  {| table := [no_process; toy_process who]; supplementary_groups := []; supplementary_counts := []; real_uids := []; saved_uids := []; real_gids := []; saved_gids := [];
     audit_uids := []; sessions := []; current_pid := 1; next_pid := 2; live_count := 1; process_lock := spin_free; process_lockdep_class := 0 |}.

Definition raw_pipe : rix_pipe_t :=
  {| channel := {| data := replicate (Z.to_nat RIX_IPC_CAPACITY) 0; head := 0; Channel.tail := 0; count := 0; closed := 0; lock := spin_free |};
     read_open := 0; write_open := 0; read_refs := 0; write_refs := 0 |}.
Definition raw_vfs : vfs :=
  let n := {| vn_inode := 0; vn_type := 0; vn_mode := 0; vn_uid := 0; vn_gid := 0; vn_size := 0 |} in
  {| root := n; active := 0; path_node := n; fds := replicate (Z.to_nat RIX_PROCESS_MAX) (replicate (Z.to_nat RIX_VFS_FD_MAX) no_fd);
     pipe_slots := replicate (Z.to_nat VFS_PIPE_MAX) {| ps_pipe := raw_pipe; ps_used := 0; ps_refs := 0 |}; vfs_lock := spin_free; vfs_lockdep_class := 0 |}.
Definition toy_cpu : cpu := {| rflags := 0; cpu_pid := 0; cpu_index := 0 |}.

Lemma vraw_shape : fds_shape raw_vfs.
Proof. split; [done|]. split; [by apply Forall_replicate|]. split; [done|]. by apply Forall_replicate. Qed.

(** [/a] belongs to the superuser and only he may write it; anyone may write [/b];
    [/a/f] is a file. *)
Definition two_dirs : toy :=
  {| entries := [(1, [97], (2, RIXFS_DIR_TYPE_DIR)); (1, [98], (3, RIXFS_DIR_TYPE_DIR)); (2, [102], (4, RIXFS_DIR_TYPE_FILE))];
     inodes := [toy_inode 1 0x41ed 0 0; toy_inode 2 0x41ed 0 0; toy_inode 3 0x41ff 0 0; toy_inode 4 0x81a4 0 0] |}.
Definition two_dirs_mounted : vfs := with_active 1 (with_root {| vn_inode := 1; vn_type := RIX_VFS_DIR; vn_mode := 0x1ed; vn_uid := 0; vn_gid := 0; vn_size := 0 |} raw_vfs).

Definition outcome {A} (m : M (cpu * (vfs * toy)) A) : option (A * list (Z * list Z * (Z * Z))) :=
  match m (toy_cpu, (two_dirs_mounted, two_dirs)) with Some (a, (_, (_, w))) => Some (a, entries w) | None => None end.

(** [vfs_rename] does not check the directory it takes the file from. Both lookups of
    a parent answer with the address of the same static node, so after the second lookup
    the two permission checks look at the new directory twice. Here an unprivileged process
    that may neither unlink [/a/f] nor write [/a] moves the file out of [/a] into a directory
    of its own; a rename within [/a] is refused. *)
Theorem vfs_rename_leaves_unchecked :
  outcome (vfs_unlink (toy_procs 1000) [47; 97; 47; 102]) = Some (RIX_VFS_ERR_PERMISSION, entries two_dirs) /\
  outcome (vfs_access (toy_procs 1000) [47; 97] VFS_ACCESS_WRITE) = Some (RIX_VFS_ERR_PERMISSION, entries two_dirs) /\
  outcome (vfs_rename (toy_procs 1000) [47; 97; 47; 102] [47; 98; 47; 102]) =
    Some (0, [(3, [102], (4, RIXFS_DIR_TYPE_FILE)); (1, [97], (2, RIXFS_DIR_TYPE_DIR)); (1, [98], (3, RIXFS_DIR_TYPE_DIR))]) /\
  outcome (vfs_rename (toy_procs 1000) [47; 97; 47; 102] [47; 97; 47; 103]) = Some (RIX_VFS_ERR_PERMISSION, entries two_dirs).
Proof. vm_compute. done. Qed.
