(* ===== verification/VfsCalls.v ===== *)
(** * Histories of the virtual file system ([kernel/vfs/vfs.c])

    Every call of the interface returns and keeps the accounting of [VfsFds]. *)
From stdpp Require Import base tactics list numbers.
From S2P Require Import Prelude Lock Bytes Channel Pipe Process VfsPath Vfs VfsFds VfsToy.

Ltac stays_step :=
  lazymatch goal with
  | |- still (permission_allowed _ _ _) => apply permission_still
  | |- still (vfs_lookup_locked _ _) => apply lookup_locked_still
  | |- still (vfs_lookup_nofollow_locked _ _) => apply lookup_nofollow_still
  | |- still (lookup_with _ _ _) => apply lookup_still
  | _ => still_step
  end.
Ltac stays := repeat (cbv beta zeta; stays_step).

(** ** The calls *)

Inductive vfs_call :=
| CMount (device : Z) | CUnmount | CRootActive
| CLookup (path : list Z) | CLookupNofollow (path : list Z) | CLookupFrom (base path : list Z)
| COpen (id : Z) (path : list Z) (flags mode : Z) | CPipe (id : Z)
| CDup (id fd : Z) | CDupMin (id fd lo : Z) | CDupTo (id old_fd new_fd : Z)
| CClose (id fd : Z) | CCloseAll (id : Z) | CCloseCloexec (id : Z) | CClosePipesExcept (id k0 k1 : Z) | CCloneFds (par child : Z)
| CFdIsOpen (id fd : Z) | CGetFdFlags (id fd : Z) | CSetFdFlags (id fd flags : Z) | CGetCloexec (id fd : Z) | CSetCloexec (id fd flags : Z)
| CRead (id fd : Z) (buf : list Z) | CWrite (id fd : Z) (buf : list Z) | CSeek (id fd offset whence : Z) | CReaddir (id fd cap : Z)
| CStat (path : list Z) | CLstat (path : list Z) | CFstat (id fd : Z) | CAccess (path : list Z) (mode : Z) | CStatfs (path : list Z)
| CChmod (path : list Z) (mode : Z) | CChown (path : list Z) (u g : Z) | CRename (old_path new_path : list Z)
| CMkdir (path : list Z) (mode u g : Z) | CUnlink (path : list Z) | CRmdir (path : list Z) | CSymlink (target path : list Z)
| CLink (old_path new_path : list Z) | CReadlink (path : list Z) (capacity : Z)
| CGetAcl (path : list Z) | CSetAcl (path : list Z) (acl : rixfs_acl_t) | CClearAcl (path : list Z).

(** Process ids are unsigned. *)
Definition call_wf (o : vfs_call) : Prop :=
  match o with
  | COpen id _ _ _ | CPipe id | CDup id _ | CDupMin id _ _ | CDupTo id _ _ | CClose id _ | CCloseAll id | CCloseCloexec id | CClosePipesExcept id _ _
  | CFdIsOpen id _ | CGetFdFlags id _ | CSetFdFlags id _ _ | CGetCloexec id _ | CSetCloexec id _ _ | CRead id _ _ | CWrite id _ _ | CSeek id _ _ _
  | CReaddir id _ _ | CFstat id _ => 0 <= id
  | CCloneFds a b => 0 <= a /\ 0 <= b
  | _ => True
  end.

Section Histories.
Context {W : Type} {BW : Below W} {BL : BelowLaws W}.
Abbreviation st := (cpu * (vfs * W))%type.

Definition code {A} (f : A -> Z) (m : M st A) : M st Z := r ← m; mret (f r).

(** A call with the process table it sees, and its result code. *)
Definition exec (T : procs) (o : vfs_call) : M st Z :=
  match o with
  | CMount d => vfs_mount_root d
  | CUnmount => vfs_unmount_root
  | CRootActive => vfs_root_active
  | CLookup p => code (fun r => r.1.1) (vfs_lookup T p)
  | CLookupNofollow p => code (fun r => r.1.1) (vfs_lookup_nofollow T p)
  | CLookupFrom b p => code (fun r => r.1.1) (vfs_lookup_from T b p)
  | COpen id p flags mode => code fst (vfs_open T id p flags mode)
  | CPipe id => code fst (vfs_pipe id)
  | CDup id fd => code fst (vfs_dup id fd)
  | CDupMin id fd lo => code fst (vfs_dup_min id fd lo)
  | CDupTo id a b => vfs_dup_to id a b
  | CClose id fd => vfs_close id fd
  | CCloseAll id => vfs_close_all id
  | CCloseCloexec id => vfs_close_cloexec id
  | CClosePipesExcept id a b => vfs_close_pipes_except id a b
  | CCloneFds a b => vfs_clone_fds a b
  | CFdIsOpen id fd => vfs_fd_is_open id fd
  | CGetFdFlags id fd => code fst (vfs_get_fd_flags id fd)
  | CSetFdFlags id fd x => vfs_set_fd_flags id fd x
  | CGetCloexec id fd => code fst (vfs_get_cloexec id fd)
  | CSetCloexec id fd x => vfs_set_cloexec id fd x
  | CRead id fd buf => code (fun r => r.1.1) (vfs_read id fd (Some buf) (len buf))
  | CWrite id fd buf => code fst (vfs_write id fd (Some buf) (len buf))
  | CSeek id fd off wh => code fst (vfs_seek id fd off wh)
  | CReaddir id fd cap => code (fun r => r.1.1) (vfs_readdir id fd cap)
  | CStat p => code fst (vfs_stat T p)
  | CLstat p => code fst (vfs_lstat T p)
  | CFstat id fd => code fst (vfs_fstat id fd)
  | CAccess p m => vfs_access T p m
  | CStatfs p => code fst (vfs_statfs T p)
  | CChmod p m => vfs_chmod T p m
  | CChown p u g => vfs_chown T p u g
  | CRename a b => vfs_rename T a b
  | CMkdir p m u g => vfs_mkdir T p m u g
  | CUnlink p => vfs_unlink T p
  | CRmdir p => vfs_rmdir T p
  | CSymlink t p => vfs_symlink T t p
  | CLink a b => vfs_link T a b
  | CReadlink p n => code fst (vfs_readlink T p n)
  | CGetAcl p => code fst (vfs_get_acl T p)
  | CSetAcl p a => vfs_set_acl T p a
  | CClearAcl p => vfs_clear_acl T p
  end.

(** Calls one after the other, each with its CPU; every result comes with the CPU as the call left it. *)
Fixpoint exec_all (ops : list (cpu * procs * vfs_call)) (v : vfs) (w : W) : option (list (Z * cpu) * (vfs * W)) :=
  match ops with
  | [] => Some ([], (v, w))
  | (c, T, o) :: ops =>
    match exec T o (c, (v, w)) with
    | Some (r, (c1, (v1, w1))) => match exec_all ops v1 w1 with Some (rs, s) => Some ((r, c1) :: rs, s) | None => None end
    | None => None
    end
  end.

Lemma code_ok {A} (f : A -> Z) (m : M st A) : call_ok m -> call_ok (code f m).
Proof. intros Hm c v w Hr. destruct (Hm c v w Hr) as (r & v' & w' & E & Hr'). exists (f r), v', w'. unfold code. by rewrite (bind_Some _ _ _ _ _ E). Qed.

Lemma with_node_still {A} (T : procs) (fail : Z -> A) follow p body : (forall n, still (body n)) -> still (with_node (W := W) fail (lookup_with T follow p) body).
Proof. intros Hb. unfold with_node. stays. apply Hb. Qed.

Lemma writable_dir_still (T : procs) p x : still (writable_dir (W := W) T p x).
Proof. unfold writable_dir. stays. Qed.
Lemma parent_for_still (T : procs) p x y : still (parent_for (W := W) T p x y).
Proof. unfold parent_for. stays. apply writable_dir_still. Qed.
Lemma in_parent_ok (T : procs) p body : (forall fs d n, still (body fs d n)) -> call_ok (in_parent (W := W) T p body).
Proof. intros Hb. apply guarded_still. stays; [apply parent_for_still|apply Hb]. Qed.

Lemma open_create_still (T : procs) p m : still (open_create (W := W) T p m).
Proof. unfold open_create. stays. apply parent_for_still. Qed.

(** ** Opening *)

Lemma file_type_ok t x y z i : t <> VFS_FD_PIPE_READ -> t <> VFS_FD_PIPE_WRITE ->
  forall w j u, is_end w j {| fd_used := u; fd_type := t; fd_writable := x; fd_append := y; fd_cloexec := z; fd_inode := i; fd_offset := 0; fd_pipe := -1; fd_pipe_write := 0 |} = false.
Proof. intros H1 H2 w j u. unfold is_end, is_pipe_type. cbn [fd_type]. rewrite (proj2 (Z.eqb_neq t _) H1), (proj2 (Z.eqb_neq t _) H2). by rewrite andb_false_r. Qed.

Lemma open_node_keep (T : procs) ps flags node v : fds_ok [] v -> 0 <= ps < RIX_PROCESS_MAX -> runs (open_node (W := W) T ps flags node) v (keep []).
Proof.
  intros Hok Hps. unfold open_node. destruct (_ && _) eqn:Et; [by apply vruns_ret|]. destruct (_ && (vn_type node =? RIX_VFS_DIR)); [by apply vruns_ret|].
  assert (Ht : u8 (vn_type node) <> VFS_FD_PIPE_READ /\ u8 (vn_type node) <> VFS_FD_PIPE_WRITE).
  { apply andb_false_iff in Et as [Et|Et]; apply negb_false_iff, Z.eqb_eq in Et; rewrite Et; done. }
  apply keep_bind; [apply still_keep; [apply permission_still|done]|]. intros rc v1 Hok1. destruct (negb (rc =? 0)); [by apply vruns_ret|]. apply runs_look.
  destruct (free_fd_spec v1 ps RIX_VFS_STDIO_RESERVED ltac:(done)) as [->|[Hfd Hu]]; [by apply vruns_ret|]. rewrite (proj2 (Z.ltb_ge _ 0)) by (unfold RIX_VFS_STDIO_RESERVED in *; lia).
  set (fd := free_fd v1 ps RIX_VFS_STDIO_RESERVED) in *. assert (Hp : place ps fd) by (unfold RIX_VFS_STDIO_RESERVED in *; split; [done|lia]). apply runs_change; [done|].
  set (f := Build_vfs_fd_t _ _ _ _ _ _ _ _ _). set (v2 := put_fd ps fd f v1).
  assert (Hok2 : fds_ok [] v2).
  { apply put_same; [done|done| |].
    - intros _ Hpt. unfold is_pipe_type in Hpt. cbn [fd_type f] in Hpt. destruct Ht as [H1 H2]. by rewrite (proj2 (Z.eqb_neq _ _) H1), (proj2 (Z.eqb_neq _ _) H2) in Hpt.
    - intros w i. unfold f. rewrite file_type_ok by apply Ht. unfold is_end. by rewrite Hu. }
  unfold vfs_root_fs. apply runs_look. eapply (vruns_bind _ _ _ (fun _ v' => v' = v2)).
  - destruct (truthy (Z.land flags RIX_VFS_O_TRUNC)); [|by apply vruns_ret]. destruct (_ || _); [by apply vruns_ret|]. apply runs_below_bind; [auto with vfs|]. intros rc'. by apply vruns_ret.
  - intros bad v3 ->. destruct bad; [|by apply vruns_ret]. apply runs_change; [done|]. apply vruns_ret. unfold on_fd. apply put_same; [done|done|by intros ?|].
    intros w i. unfold v2. rewrite fd_at_put, !Z.eqb_refl by (done || apply Hok1). cbn [andb]. unfold f. rewrite file_type_ok by apply Ht. done.
Qed.

Lemma vopen_ok (T : procs) id p flags mode : 0 <= id -> call_ok (vfs_open (W := W) T id p flags mode).
Proof.
  intros Hid. apply guarded_ok. intros v Hok. unfold open_locked. destruct (pid_slot id) as [ps|] eqn:Eps; [|by apply vruns_ret]. apply (pid_slot_Some id ps Hid) in Eps as [-> Hps].
  apply keep_bind; [apply still_keep; [apply lookup_still|done]|]. intros [[rc n] q] v1 Hok1. destruct (rc =? RIX_VFS_ERR_PERMISSION); [by apply vruns_ret|].
  destruct n as [n|]; [apply runs_look; by apply open_node_keep|]. destruct (negb _); [by apply vruns_ret|].
  apply keep_bind; [apply still_keep; [apply open_create_still|done]|]. intros [e|node] v2 Hok2; [by apply vruns_ret|by apply open_node_keep].
Qed.

(** ** New pipes *)

Lemma two_free v ps r w : for_ RIX_VFS_STDIO_RESERVED (RIX_VFS_FD_MAX - RIX_VFS_STDIO_RESERVED) (fun i r =>
    if truthy (fd_used (fd_at v ps i)) then inl r else if r <? 0 then inl i else inr (r, i)) (-1) = inr (r, w) ->
  0 <= r < w /\ w < RIX_VFS_FD_MAX /\ truthy (fd_used (fd_at v ps r)) = false /\ truthy (fd_used (fd_at v ps w)) = false.
Proof.
  intros E. pose proof (for_inv (fun i r => r = -1 \/ (0 <= r < i /\ truthy (fd_used (fd_at v ps r)) = false))
    (fun rw : Z * Z => 0 <= rw.1 < rw.2 /\ rw.2 < RIX_VFS_FD_MAX /\ truthy (fd_used (fd_at v ps rw.1)) = false /\ truthy (fd_used (fd_at v ps rw.2)) = false)
    RIX_VFS_STDIO_RESERVED (RIX_VFS_FD_MAX - RIX_VFS_STDIO_RESERVED) (fun i r =>
    if truthy (fd_used (fd_at v ps i)) then inl r else if r <? 0 then inl i else inr (r, i)) (-1) ltac:(done) ltac:(by left)) as H. rewrite E in H. apply H.
  intros i s Hi Hs. unfold RIX_VFS_STDIO_RESERVED, RIX_VFS_FD_MAX in *. destruct (truthy (fd_used (fd_at v ps i))) eqn:Eu; [destruct Hs as [?|[? ?]]; [by left|right; split; [lia|done]]|].
  destruct (s <? 0) eqn:Es; bool_to_prop; [right; split; [lia|done]|]. destruct Hs as [?|[? ?]]; [lia|]. cbn [fst snd]. split; [lia|]. split; [lia|]. done.
Qed.

Lemma pipe_ok id : 0 <= id -> call_ok (vfs_pipe (W := W) id).
Proof.
  intros Hid. apply guarded_ok. intros v Hok. unfold pipe_locked. destruct (pid_slot id) as [ps|] eqn:Eps; [|by apply vruns_ret]. apply (pid_slot_Some id ps Hid) in Eps as [-> Hps].
  apply runs_look. destruct (for_ RIX_VFS_STDIO_RESERVED _ _ _) as [x|[r w]] eqn:Erw; [by apply vruns_ret|]. apply two_free in Erw as (Hr & Hw & Hur & Huw).
  apply runs_look. destruct (for_first (fun i => negb (truthy (ps_used (pslot v i)))) (fun i (_ : unit) => if negb (truthy (ps_used (pslot v i))) then inr i else inl tt) 0 VFS_PIPE_MAX ltac:(done))
    as [[-> _]|(i & -> & Hi & Hu)]; [by apply vruns_ret|]. apply negb_true_iff in Hu.
  pose proof Hok as (Hs & Ho & _ & Hx). assert (Hd : len (data (channel (ps_pipe (pslot v i)))) = RIX_IPC_CAPACITY).
  { destruct Hs as (_ & _ & H3 & H4). destruct (lookup_lt_is_Some_2 (pipe_slots v) (Z.to_nat i)) as [s Es]; [lia|]. unfold pslot, aget. rewrite Es. exact (proj1 (list.Forall_lookup _ _) H4 _ _ Es). }
  eapply (runs_on_pipe i _ _ _ (fun _ q => pipe_wf q /\ forall w, end_refs w q = 1)); [lia| |].
  { intros c. destruct (pipe_init_wf (ps_pipe (pslot v i)) _ Hd eq_refl) as [H1 H2]. eexists tt, _. split; [reflexivity|]. split; [done|]. intros []; [exact (f_equal writers H2)|exact (f_equal readers H2)]. }
  intros [] q [Hq Hr1]. apply runs_below_bind; [auto with vfs|]. intros _. apply runs_below_bind; [auto with vfs|]. intros _. apply runs_change; [done|]. apply runs_change; [done|]. apply runs_change; [done|]. apply vruns_ret.
  set (v1 := put_pslot i (set_ps_pipe q (pslot v i)) v). assert (Hs1 : fds_shape v1) by (apply shape_pslot; [done|by apply wf_data]).
  assert (E1 : pslot v1 i = set_ps_pipe q (pslot v i)) by (unfold v1; rewrite pslot_put by (apply Hs || lia); by rewrite Z.eqb_refl). rewrite E1. cbn [set_ps_pipe ps_pipe].
  set (s := Build_vfs_pipe_slot_t _ _ _). set (v2 := put_pslot i s v1). assert (Hs2 : fds_shape v2) by (apply shape_pslot; [done|by apply wf_data]).
  set (fr := Build_vfs_fd_t _ VFS_FD_PIPE_READ _ _ _ _ _ _ _). set (fw := Build_vfs_fd_t _ VFS_FD_PIPE_WRITE _ _ _ _ _ _ _).
  assert (Hpr : place id r) by (split; [done|lia]). assert (Hpw : place id w) by (split; [done|lia]). assert (Hok1 : fd_ok fr) by done. assert (Hok2 : fd_ok fw) by done.
  assert (Hs3 : fds_shape (put_fd id r fr v2)) by (by apply vshape_put).
  assert (Hends : forall b j, ends [] b j (put_fd id w fw (put_fd id r fr v2)) = ends [] b j v + b2z (i =? j)).
  { intros b j. rewrite !ends_put by done. rewrite fd_at_put by done. replace (w =? r) with false by (symmetry; apply Z.eqb_neq; lia). rewrite andb_false_r.
    change (fd_at v2 id w) with (fd_at v id w). change (fd_at v2 id r) with (fd_at v id r). change (ends [] b j v2) with (ends [] b j v).
    unfold is_end. rewrite Hur, Huw. cbn [andb b2z fd_used fd_type fd_pipe fd_pipe_write fr fw]. destruct b, (i =? j); cbn; lia. }
  assert (Hsl : forall j, 0 <= j -> pslot (put_fd id w fw (put_fd id r fr v2)) j = if j =? i then s else pslot v j).
  { intros j Hj. change (pslot (put_fd id w fw (put_fd id r fr v2)) j) with (pslot v2 j). unfold v2. rewrite pslot_put by (apply Hs1 || lia). destruct (j =? i) eqn:E; [done|]. unfold v1. rewrite pslot_put by (apply Hs || lia). by rewrite E. }
  apply (fds_ok_slot [] [] v _ i s); try done.
  - by apply vshape_put.
  - apply fds_put_ok; try done. by apply fds_put_ok.
  - intros j Hj Hne. rewrite Hsl by lia. by rewrite (proj2 (Z.eqb_neq j i) Hne).
  - rewrite Hsl by lia. by rewrite Z.eqb_refl.
  - intros b j Hne. rewrite Hends, (proj2 (Z.eqb_neq i j)) by done. cbn. lia.
  - specialize (Hx i ltac:(lia)). unfold slot_exact in *. rewrite Hu in Hx. rewrite Hsl, Z.eqb_refl by lia. cbn [ps_used ps_pipe ps_refs s]. change (truthy 1) with true. cbn iota.
    rewrite !Hends, !Hx, Z.eqb_refl. split; [done|]. split; [intros b; rewrite Hends, Hx, Z.eqb_refl; apply Hr1|]. unfold UINT8_MAX. cbn. lia.
Qed.

(** ** Data *)

Lemma wake_peer_keep v p q : fds_ok [] v -> runs (wake_peer (W := W) p q) v (keep []).
Proof. intros Hok. apply still_keep; [|done]. unfold wake_peer. stays. Qed.
Lemma block_on_keep v p q : fds_ok [] v -> runs (block_on (W := W) p q) v (keep []).
Proof. intros Hok. apply still_keep; [|done]. unfold block_on. stays. Qed.

Lemma read_ok id fd buf : 0 <= id -> call_ok (vfs_read (W := W) id fd (Some buf) (len buf)).
Proof.
  intros Hid. apply with_open_ok; [done|]. intros v Hok Hp Hu. rewrite bool_decide_eq_false_2 by done. cbn [andb].
  destruct (fd_type (fd_at v id fd) =? VFS_FD_PIPE_READ) eqn:Et.
  - apply (on_end_keep [] v id fd); try done; [unfold is_pipe_type; by rewrite Et|intros p Hwf; apply read_counts; [done|lia]|].
    intros [[prc got] buf'] v1 Hok1. destruct (_ || _).
    + apply keep_bind; [|intros; by apply vruns_ret]. destruct (0 <? default 0 got); [by apply wake_peer_keep|by apply vruns_ret].
    + apply keep_bind; [by apply block_on_keep|]. intros; by apply vruns_ret.
  - destruct (negb _); [by apply vruns_ret|]. unfold vfs_root_fs. apply runs_look. destruct (negb _); [by apply vruns_ret|].
    apply below_keep; [auto with vfs|]. intros [rc i]. destruct (negb (rc =? 0)); [by apply vruns_ret|]. destruct (in_size i <=? _); [by apply vruns_ret|].
    apply below_keep; [auto with vfs|]. intros [rc' bytes]. destruct (negb (rc' =? 0)); [by apply vruns_ret|]. apply runs_change; [done|]. apply vruns_ret. by apply on_fd_keep.
Qed.

Lemma write_ok id fd buf : 0 <= id -> call_ok (vfs_write (W := W) id fd (Some buf) (len buf)).
Proof.
  intros Hid. apply with_open_ok; [done|]. intros v Hok Hp Hu. rewrite bool_decide_eq_false_2 by done. cbn [andb].
  destruct (fd_type (fd_at v id fd) =? VFS_FD_PIPE_WRITE) eqn:Et.
  - apply (on_end_keep [] v id fd); try done; [unfold is_pipe_type; by rewrite Et, orb_true_r|intros p Hwf; by apply write_counts|].
    intros [prc wrote] v1 Hok1. apply keep_bind; [destruct (0 <? _); [by apply wake_peer_keep|by apply vruns_ret]|]. intros _ v2 Hok2.
    apply keep_bind; [destruct (_ && _); [by apply block_on_keep|by apply vruns_ret]|]. intros _ v3 Hok3. by apply vruns_ret.
  - destruct (_ || _); [by apply vruns_ret|]. unfold vfs_root_fs. apply runs_look. destruct (negb _); [by apply vruns_ret|].
    apply below_keep; [auto with vfs|]. intros [rc i]. destruct (negb (rc =? 0)); [by apply vruns_ret|]. cbv zeta. destruct (_ <? _); [by apply vruns_ret|].
    apply keep_bind; [apply still_keep; [stays|done]|]. intros rc1 v1 Hok1. destruct (negb (rc1 =? 0)); [by apply vruns_ret|].
    apply keep_bind; [apply still_keep; [stays|done]|]. intros rc2 v2 Hok2. destruct (negb (rc2 =? 0)); [by apply vruns_ret|].
    apply runs_change; [done|]. apply vruns_ret. by apply offset_keep.
Qed.

Lemma seek_ok id fd off wh : 0 <= id -> call_ok (vfs_seek (W := W) id fd off wh).
Proof.
  intros Hid. apply with_open_ok; [done|]. intros v Hok Hp Hu. destruct (is_pipe_type _); [by apply vruns_ret|]. destruct (negb _); [by apply vruns_ret|].
  apply keep_bind; [apply still_keep; [stays|done]|]. intros [e|base] v1 Hok1; [by apply vruns_ret|]. destruct (_ && _); [by apply vruns_ret|]. cbv zeta. destruct (_ && _); [by apply vruns_ret|].
  apply runs_change; [done|]. apply vruns_ret. by apply offset_keep.
Qed.

Lemma readdir_ok id fd cap : 0 <= id -> call_ok (vfs_readdir (W := W) id fd cap).
Proof.
  intros Hid. apply with_open_ok; [done|]. intros v Hok Hp Hu. destruct (negb _); [by apply vruns_ret|]. unfold vfs_root_fs. apply runs_look.
  apply below_keep; [auto with vfs|]. intros [r [[off e] nm]]. destruct (negb (r =? 0)); [by apply vruns_ret|]. apply runs_change; [done|]. apply vruns_ret. by apply offset_keep.
Qed.

Lemma set_flags_ok id fd x : 0 <= id -> call_ok (vfs_set_fd_flags (W := W) id fd x) /\ call_ok (vfs_set_cloexec (W := W) id fd x).
Proof.
  intros Hid. split; (apply with_open_ok; [done|]; intros v Hok Hp Hu).
  all: match goal with |- runs (if ?b then _ else _) _ _ => destruct b end; [by apply vruns_ret|]; apply runs_change; [done|]; apply vruns_ret; by apply on_fd_keep.
Qed.

Lemma fstat_ok id fd : 0 <= id -> call_ok (vfs_fstat (W := W) id fd).
Proof. intros Hid. apply with_open_ok; [done|]. intros v Hok Hp Hu. apply still_keep; [stays|done]. Qed.

(** ** Closing *)

Lemma close_all_ok id : 0 <= id -> call_ok (vfs_close_all (W := W) id).
Proof. intros Hid. apply guarded_ok. intros v Hok. by apply close_all_keep. Qed.

Lemma close_cloexec_ok id : 0 <= id -> call_ok (vfs_close_cloexec (W := W) id).
Proof.
  intros Hid. apply guarded_ok. intros v Hok. destruct (pid_slot id) as [ps|]; [|by apply vruns_ret]. apply each_fd_keep; [done| |done]. intros fd rc v1 Hfd Hok1. apply runs_look.
  destruct (_ && _); [|by apply vruns_ret]. apply keep_bind; [by apply close_keep|]. intros r v2 Hok2. by apply vruns_ret.
Qed.

Lemma close_pipes_except_ok id a b : 0 <= id -> call_ok (vfs_close_pipes_except (W := W) id a b).
Proof.
  intros Hid. apply guarded_ok. intros v Hok. destruct (pid_slot id) as [ps|]; [|by apply vruns_ret]. destruct (_ || _); [by apply vruns_ret|].
  apply each_fd_keep; [done| |done]. intros fd rc v1 Hfd Hok1. apply runs_look. destruct (_ || _); [by apply vruns_ret|]. destruct (is_pipe_type _); [|by apply vruns_ret].
  apply keep_bind; [by apply close_keep|]. intros r v2 Hok2. by apply vruns_ret.
Qed.

Lemma unmount_ok : call_ok (vfs_unmount_root (W := W)).
Proof.
  apply guarded_ok. intros v Hok. apply runs_look. destruct (negb _); [by apply vruns_ret|].
  assert (Hloop : forall n i v, 0 <= i -> fds_ok [] v -> runs (mfor_rc n i (vfs_close_all_locked (W := W))) v (keep [])).
  { induction n as [|n IH]; intros i v0 Hi Hok0; [by apply vruns_ret|]. cbn [mfor_rc]. apply keep_bind; [by apply close_all_keep|]. intros rc v1 Hok1. destruct (rc =? 0); [apply IH; [lia|done]|by apply vruns_ret]. }
  apply keep_bind; [by apply Hloop|]. intros rc v1 Hok1. destruct (negb (rc =? 0)); [by apply vruns_ret|]. apply below_keep; [auto with vfs|]. intros _. apply runs_change; [done|]. by apply vruns_ret.
Qed.

Lemma mount_ok d : call_ok (vfs_mount_root (W := W) d).
Proof.
  apply guarded_ok. intros v Hok. apply runs_look. destruct (_ || _); [by apply vruns_ret|]. apply below_keep; [auto with vfs|]. intros r. destruct (negb _); [by apply vruns_ret|].
  apply runs_ask. intros ino. apply runs_change; [done|]. by apply vruns_ret.
Qed.

(** ** Names *)

Lemma rename_ok (T : procs) a b : call_ok (vfs_rename (W := W) T a b).
Proof. apply guarded_still. stays. Qed.

Lemma link_ok (T : procs) a b : call_ok (vfs_link (W := W) T a b).
Proof. apply guarded_still. destruct (split_path T b) as [[par nm]|]; [|stays]. apply with_node_still. intros n. stays. apply writable_dir_still. Qed.

Lemma clone_ok a b : 0 <= a -> 0 <= b -> call_ok (vfs_clone_fds (W := W) a b).
Proof.
  intros Ha Hb. apply guarded_ok. intros v Hok. destruct (pid_slot a) as [pa|] eqn:Ea; [|by apply vruns_ret]. destruct (pid_slot b) as [pb|] eqn:Eb; [|by apply vruns_ret].
  apply (pid_slot_Some a pa Ha) in Ea as [-> Hpa]. apply (pid_slot_Some b pb Hb) in Eb as [-> Hpb]. case_if; [by apply vruns_ret|]. by apply clone_keep.
Qed.

(** Calls that only look names up. *)
Ltac name_call := apply guarded_still;
  lazymatch goal with
  | |- still (if ?b then _ else _) => destruct b; [apply still_ret|apply with_node_still; by stays]
  | _ => apply with_node_still; by stays
  end.

Lemma vexec_ok (T : procs) o : call_wf o -> call_ok (exec T o).
Proof.
  destruct o; cbn [call_wf exec]; intros Hid; repeat lazymatch goal with |- call_ok (code _ _) => apply code_ok end;
  lazymatch goal with
  | |- call_ok (vfs_mount_root _) => apply mount_ok
  | |- call_ok vfs_unmount_root => apply unmount_ok
  | |- call_ok (vfs_open _ _ _ _ _) => by apply vopen_ok
  | |- call_ok (vfs_pipe _) => by apply pipe_ok
  | |- call_ok (vfs_dup _ _) => apply guarded_ok; intros v Hok; by apply dup_keep
  | |- call_ok (vfs_dup_min _ _ _) => apply guarded_ok; intros v Hok; by apply dup_keep
  | |- call_ok (vfs_dup_to _ _ _) => apply guarded_ok; intros v Hok; by apply dup_to_keep
  | |- call_ok (vfs_close _ _) => apply guarded_ok; intros v Hok; by apply close_keep
  | |- call_ok (vfs_close_all _) => by apply close_all_ok
  | |- call_ok (vfs_close_cloexec _) => by apply close_cloexec_ok
  | |- call_ok (vfs_close_pipes_except _ _ _) => by apply close_pipes_except_ok
  | |- call_ok (vfs_clone_fds _ _) => apply clone_ok; apply Hid
  | |- call_ok (vfs_set_fd_flags _ _ _) => exact (proj1 (set_flags_ok _ _ _ Hid))
  | |- call_ok (vfs_set_cloexec _ _ _) => exact (proj2 (set_flags_ok _ _ _ Hid))
  | |- call_ok (vfs_get_fd_flags _ _) => apply with_open_ok; [done|]; intros; by apply vruns_ret
  | |- call_ok (vfs_get_cloexec _ _) => apply with_open_ok; [done|]; intros; by apply vruns_ret
  | |- call_ok (vfs_read _ _ _ _) => by apply read_ok
  | |- call_ok (vfs_write _ _ _ _) => by apply write_ok
  | |- call_ok (vfs_seek _ _ _ _) => by apply seek_ok
  | |- call_ok (vfs_readdir _ _ _) => by apply readdir_ok
  | |- call_ok (vfs_fstat _ _) => by apply fstat_ok
  | |- call_ok (vfs_rename _ _ _) => apply rename_ok
  | |- call_ok (vfs_link _ _ _) => apply link_ok
  | |- call_ok (vfs_mkdir _ _ _ _ _) => apply in_parent_ok; by stays
  | |- call_ok (vfs_unlink _ _) => apply in_parent_ok; by stays
  | |- call_ok (vfs_rmdir _ _) => apply in_parent_ok; by stays
  | |- call_ok (vfs_symlink _ _ _) => apply in_parent_ok; by stays
  | |- call_ok (vfs_get_acl _ _) => apply still_ok, with_node_still; by stays
  | |- call_ok (vfs_set_acl _ _ _) => apply still_ok, with_node_still; by stays
  | |- call_ok (vfs_clear_acl _ _) => apply still_ok, with_node_still; by stays
  | |- call_ok (vfs_lookup_from _ _ _) => apply guarded_still; unfold vfs_lookup_from_locked; by stays
  | |- call_ok (vfs_lookup _ _) => apply guarded_still; by stays
  | |- call_ok (vfs_lookup_nofollow _ _) => apply guarded_still; by stays
  | |- call_ok vfs_root_active => apply guarded_still; by stays
  | |- call_ok (vfs_fd_is_open _ _) => apply guarded_still; by stays
  | _ => name_call
  end.
Qed.

(** ** The start *)

Definition all_closed (P F : Z) (v : vfs) : Prop := forall p f, place p f -> p < P \/ (p = P /\ f < F) -> truthy (fd_used (fd_at v p f)) = false.
Definition all_free (n : Z) (v : vfs) : Prop := forall i, 0 <= i < n -> truthy (ps_used (pslot v i)) = false.

Lemma fresh_ok v : fds_shape v -> all_closed RIX_PROCESS_MAX 0 v -> all_free VFS_PIPE_MAX v -> fds_ok [] v.
Proof.
  intros Hs Hc Hf. assert (Hrow : Forall (Forall (fun f => truthy (fd_used f) = false)) (fds v)).
  { apply list.Forall_lookup. intros p row Ep. apply list.Forall_lookup. intros f x Ex. destruct Hs as (H1 & H2 & _). pose proof (proj1 (list.Forall_lookup _ _) H2 _ _ Ep) as Hl. cbn in Hl.
    apply lookup_lt_Some in Ep as Hp. apply lookup_lt_Some in Ex as Hx. specialize (Hc (Z.of_nat p) (Z.of_nat f)). unfold fd_at, aget in Hc. rewrite !Nat2Z.id, Ep in Hc. cbn in Hc. rewrite Ex in Hc.
    apply Hc; [|left]; unfold place; lia. }
  split; [done|]. split; [|split; [done|]].
  - eapply list.Forall_impl; [exact Hrow|]. intros row Hr. eapply list.Forall_impl; [exact Hr|]. intros f Hu Hu'. cbn in Hu. congruence.
  - intros i Hi. unfold slot_exact. rewrite Hf by done. intros w. unfold ends. cbn. rewrite Z.add_0_r. clear - Hrow. induction Hrow as [|row rows Hr _ IH]; [done|]. cbn. rewrite IH, Z.add_0_r. clear - Hr.
    induction Hr as [|f row Hf _ IH]; [done|]. rewrite countb_cons, IH. unfold is_end. by rewrite Hf.
Qed.

Lemma close_row p v : 0 <= p < RIX_PROCESS_MAX -> fds_shape v -> all_closed p 0 v -> all_free VFS_PIPE_MAX v ->
  let v' := for_all 0 RIX_VFS_FD_MAX (fun f v => on_fd p f (set_fd_used 0) v) v in
  fds_shape v' /\ all_closed (p + 1) 0 v' /\ all_free VFS_PIPE_MAX v' /\ vfs_lock v' = vfs_lock v.
Proof.
  intros Hp Hs Hc Hf v'. assert (H : fds_shape v' /\ all_closed p (0 + RIX_VFS_FD_MAX) v' /\ all_free VFS_PIPE_MAX v' /\ vfs_lock v' = vfs_lock v).
  { refine (for_all_inv (fun n v' => fds_shape v' /\ all_closed p n v' /\ all_free VFS_PIPE_MAX v' /\ vfs_lock v' = vfs_lock v) 0 RIX_VFS_FD_MAX _ v _ _ _); [done|done|].
    intros f u Hfd (H1 & H2 & H3 & H4). assert (Hpl : place p f) by (split; [done|lia]). unfold on_fd. split; [by apply vshape_put|]. split; [|done].
    intros p' f' Hpl' Hlt. rewrite fd_at_put by done. destruct ((p' =? p) && (f' =? f)) eqn:E; [done|]. apply H2; [done|]. apply andb_false_iff in E as [E|E]; bool_to_prop; lia. }
  destruct H as (H1 & H2 & H3). split; [done|]. split; [|done]. intros p' f' Hpl Hlt. apply H2; [done|]. unfold place in Hpl. lia.
Qed.

Lemma vfs_init_ready c v w : vfs_lock v = spin_free -> fds_shape v -> below_ok w ->
  exists v' w', vfs_init (c, (v, w)) = Some (0, (c, (v', w'))) /\ ready v' w'.
Proof.
  intros Hl Hs Hw. unfold vfs_init. destruct (runs_below lockdep_register v (fun _ v' => v' = v) lockdep_register_quiet ltac:(done) c w Hw) as (k & ? & w1 & E1 & Hw1 & _ & ->).
  rewrite (bind_Some _ _ _ _ _ E1). unfold mbind, M_bind, change, act, mret, M_ret. eexists _, w1. split; [reflexivity|]. set (v0 := with_active 0 _). set (v1 := for_all 0 VFS_PIPE_MAX _ _).
  assert (H : fds_shape v1 /\ all_free (0 + VFS_PIPE_MAX) v1 /\ vfs_lock v1 = vfs_lock v).
  { refine (for_all_inv (fun n v' => fds_shape v' /\ all_free n v' /\ vfs_lock v' = vfs_lock v) 0 VFS_PIPE_MAX _ v0 _ _ _); [done|split; [done|split; [|done]]; intros i Hi; lia|].
    intros i u Hi (H1 & H2 & H3). split; [apply shape_pslot; [done|]|split; [|done]].
    - cbn [ps_pipe]. destruct H1 as (_ & _ & H4 & H5). destruct (lookup_lt_is_Some_2 (pipe_slots u) (Z.to_nat i)) as [s Es]; [lia|]. unfold pslot, aget. rewrite Es. exact (proj1 (list.Forall_lookup _ _) H5 _ _ Es).
    - intros j Hj. rewrite pslot_put by (apply H1 || lia). destruct (j =? i) eqn:E; [done|]. bool_to_prop. apply H2. lia. }
  destruct H as (Hs1 & Hf1 & Hl1). set (v2 := for_all 0 RIX_PROCESS_MAX _ _).
  assert (H : fds_shape v2 /\ all_closed (0 + RIX_PROCESS_MAX) 0 v2 /\ all_free VFS_PIPE_MAX v2 /\ vfs_lock v2 = vfs_lock v).
  { refine (for_all_inv (fun n v' => fds_shape v' /\ all_closed n 0 v' /\ all_free VFS_PIPE_MAX v' /\ vfs_lock v' = vfs_lock v) 0 RIX_PROCESS_MAX _ v1 _ _ _); [done| |].
    - split; [done|]. split; [intros p f Hpl Hlt; unfold place in Hpl; lia|done].
    - intros p u Hp (H1 & H2 & H3 & H4). destruct (close_row p u ltac:(lia) H1 H2 H3) as (G1 & G2 & G3 & G4). split; [done|]. split; [done|]. split; [done|congruence]. }
  destruct H as (Hs2 & Hc2 & Hf2 & Hl2). split; [congruence|]. split; [done|]. by apply fresh_ok.
Qed.

Lemma exec_all_ready ops : Forall (fun x => call_wf x.2) ops -> forall v w, ready v w ->
  exists rs v' w', exec_all ops v w = Some (rs, (v', w')) /\ rs.*2 = (fun x => x.1.1) <$> ops /\ ready v' w'.
Proof.
  induction 1 as [|[[c T] o] ops Ho _ IH]; intros v w Hr; cbn [exec_all]; [by exists [], v, w|].
  destruct (vexec_ok T o Ho c v w Hr) as (r & v1 & w1 & -> & Hr1). destruct (IH v1 w1 Hr1) as (rs & v2 & w2 & -> & Hl & Hr2). exists ((r, c) :: rs), v2, w2. split; [done|]. split; [|done]. cbn. by rewrite Hl.
Qed.

(** C13: the accounting of pipes. Take any memory for the descriptor table and the pipe
    slots, initialise it, and make any calls of the interface, on any CPUs and with any
    process tables (so on behalf of any process and with any permissions), over any file
    system, scheduler and lock-order checker whose calls return. Then [vfs_init] returns
    0, every call returns, on a CPU that is as it was before the call (the interrupt flag
    included), the lock is free afterwards, and the books balance: for every slot in use the pipe's reader and writer counts are the
    numbers of read and write descriptors open on it in all processes, and the slot's
    own count is their sum, between 1 and 255; no open descriptor is on a free slot, so
    no slot is handed out twice and none is kept without an owner. *)
Theorem vfs_pipes_accounted c v w ops : vfs_lock v = spin_free -> fds_shape v -> below_ok w -> Forall (fun x => call_wf x.2) ops ->
  exists v1 w1 rs v2 w2, vfs_init (c, (v, w)) = Some (0, (c, (v1, w1))) /\ exec_all ops v1 w1 = Some (rs, (v2, w2)) /\ rs.*2 = (fun x => x.1.1) <$> ops /\ vfs_lock v2 = spin_free /\
  (forall i, 0 <= i < VFS_PIPE_MAX -> let s := pslot v2 i in
     if truthy (ps_used s) then
       read_refs (ps_pipe s) = ends [] false i v2 /\ write_refs (ps_pipe s) = ends [] true i v2 /\
       ps_refs s = ends [] false i v2 + ends [] true i v2 /\ 1 <= ps_refs s <= UINT8_MAX
     else ends [] false i v2 = 0 /\ ends [] true i v2 = 0) /\
  (forall p f, place p f -> truthy (fd_used (fd_at v2 p f)) = true -> is_pipe_type (fd_type (fd_at v2 p f)) = true ->
     0 <= fd_pipe (fd_at v2 p f) < VFS_PIPE_MAX /\ truthy (ps_used (pslot v2 (fd_pipe (fd_at v2 p f)))) = true).
Proof.
  intros Hl Hs Hw Ho. destruct (vfs_init_ready c v w Hl Hs Hw) as (v1 & w1 & E1 & Hr1). destruct (exec_all_ready ops Ho v1 w1 Hr1) as (rs & v2 & w2 & E2 & Hn & Hl2 & _ & Hok).
  exists v1, w1, rs, v2, w2. do 4 (split; [done|]). pose proof Hok as (Hs2 & Hf2 & _ & Hx). split.
  - intros i Hi s. specialize (Hx i Hi). unfold slot_exact in Hx. fold s in Hx. destruct (truthy (ps_used s)); [|split; apply Hx]. destruct Hx as (_ & H1 & H2 & H3).
    split; [apply (H1 false)|]. split; [apply (H1 true)|done].
  - intros p f Hp Hu Ht. destruct (end_slot [] v2 _ Hok (fd_at_ok v2 p f Hs2 Hp Hf2) Hu Ht) as [He Hi]. split; [done|]. by destruct (end_known [] v2 _ _ Hok Hi (ends_at [] _ _ v2 p f Hs2 Hp He)).
Qed.
End Histories.

(** A pipe is made, shared with a child, written, read and closed on both sides. *)
Definition pipe_history : list (cpu * procs * vfs_call) :=
  (fun o => (toy_cpu, toy_procs 1000, o)) <$> [CPipe 1; CCloneFds 1 2; CClose 1 3; CWrite 1 4 [104; 105]; CRead 2 3 [0; 0; 0]; CClose 2 4; CDupTo 2 3 0; CClose 1 4].

Definition after_history (s : option (Z * (cpu * (vfs * toy)))) : option (list (Z * cpu) * (vfs * toy)) :=
  match s with Some (_, (_, (v, w))) => exec_all pipe_history v w | None => None end.
Definition counts (v : vfs) : Z * Z * Z := (read_refs (ps_pipe (pslot v 0)), ends [] false 0 v, ends [] true 0 v).

Lemma vfs_pipes_accounted_witness : vfs_lock raw_vfs = spin_free /\ fds_shape raw_vfs /\ below_ok two_dirs /\ Forall (fun x => call_wf x.2) pipe_history /\
  exists rs v2 w2, after_history (vfs_init (toy_cpu, (raw_vfs, two_dirs))) = Some (rs, (v2, w2)) /\ rs.*2 = replicate 8 toy_cpu /\ counts v2 = (2, 2, 0).
Proof.
  assert (Hwf : Forall (fun x => call_wf x.2) pipe_history) by (unfold pipe_history; cbn; repeat constructor; cbn; lia).
  assert (Hb : below_ok two_dirs) by exact I.
  assert (Hc : (fun x => counts x.2.1) <$> after_history (vfs_init (toy_cpu, (raw_vfs, two_dirs))) = Some (2, 2, 0)) by (vm_compute; reflexivity).
  split; [reflexivity|]. split; [exact vraw_shape|]. split; [exact Hb|]. split; [exact Hwf|].
  destruct (vfs_pipes_accounted toy_cpu raw_vfs two_dirs pipe_history eq_refl vraw_shape Hb Hwf) as (v1 & w1 & rs & v2 & w2 & E1 & E2 & Hn & _).
  rewrite E1 in *. unfold after_history in *. rewrite E2 in *. exists rs, v2, w2. split; [reflexivity|]. split; [exact Hn|]. injection Hc as H1 H2 H3. unfold counts. rewrite H1, H2, H3. reflexivity.
Defined.
