(* ===== verification/ProcessImage.v ===== *)
(** * User processes ([kernel/process/process.c])

    The calls that give a process its address space, its stacks and its program:
    [process_create_user], [process_fork] and [process_exec_user_with_args] with the
    argument block it builds. Memory, address spaces and the ELF loader are operations of
    the class [Host]. The diagnostic messages are left out. *)
From stdpp Require Import base tactics list numbers.
From S2P Require Import Prelude Lock Bytes Paging Process.

Definition USER_STACK_TOP : Z := 0x7FFFFFFFF000.
Definition USER_STACK_PAGES : Z := 32.
Definition USER_STACK_BASE : Z := USER_STACK_TOP - USER_STACK_PAGES * 4096.
Definition KERNEL_STACK_SIZE : Z := KERNEL_STACK_PAGES * 4096.
Definition RIX_AUXV_AT_NULL : Z := 0.
Definition RIX_PROCESS_ARG_MAX : Z := 16.
Definition RIX_PROCESS_ARG_TEXT_MAX : Z := 128.
Definition RIX_USER_HEAP_BASE : Z := 0x8001000000.

Section Operations.
Context {W : Type} {HW : Host W}.
Abbreviation st := (cpu * (procs * W))%type.

(** ** Stacks *)

(** The user stack, page by page from page [i]: 0, -5 (no page) or -6 (not mapped). *)
Fixpoint map_user_stack (n : nat) (i root : Z) : M st Z :=
  match n with
  | O => mret 0
  | S n =>
    pa ← on_host pmm_alloc_page;
    if pa =? 0 then mret (-5)
    else
      _ ← on_host (zero_page pa);
      mc ← on_host (address_space_map root (USER_STACK_BASE + i * 4096) pa (Z.lor (Z.lor RIXURI_PTE_WRITE RIXURI_PTE_USER) RIXURI_PTE_NX));
      if negb (mc =? 0) then _ ← on_host (pmm_free_page pa); mret (-6)
      else map_user_stack n (i + 1) root
  end.

Definition zero_stack (ks : Z) : M st unit :=
  mfor (Z.to_nat KERNEL_STACK_PAGES) 0 (fun page => on_host (zero_page (ks + page * 4096))).

(** ** The argument block *)

Fixpoint write_bytes (root address : Z) (n : nat) (i : Z) (src : list Z) : M st Z :=
  match n with
  | O => mret 0
  | S n =>
    pa ← on_host (address_space_translate root (u64 (address + i)));
    if pa =? 0 then mret (-1)
    else _ ← on_host (store_byte pa (aget 0 src i)); write_bytes root address n (i + 1) src
  end.

Definition stack_write (root address : Z) (src : list Z) (length : Z) : M st Z :=
  if (address <? USER_STACK_BASE) || (u64 (USER_STACK_TOP - address) <? length) then mret (-1)
  else write_bytes root address (Z.to_nat length) 0 src.

Definition stack_write_u64 (root address value : Z) : M st Z :=
  stack_write root address ((fun i => Z.land (Z.shiftr value (8 * i)) 0xff) <$> seqZ 0 8) 8.

(** The new stack pointer, where the string starts; [None] is a null pointer. *)
Definition stack_copy_string (root sp : Z) (source : option (list Z)) : M st (option Z) :=
  match source with
  | None => mret None
  | Some source =>
    match for_ 0 RIX_PROCESS_ARG_TEXT_MAX (fun n (_ : unit) => if aget 0 source n =? 0 then inr n else inl tt) tt with
    | inl _ => mret None
    | inr length =>
      if sp <? USER_STACK_BASE + length + 1 then mret None
      else
        let sp := sp - (length + 1) in
        rc ← stack_write root sp source length;
        if negb (rc =? 0) then mret None
        else
          rc ← stack_write root (sp + length) [0] 1;
          mret (if negb (rc =? 0) then None else Some sp)
    end
  end.

(** The strings from the last to the first; [done] holds the addresses of those already copied. *)
Fixpoint copy_strings (root sp : Z) (l : list (option (list Z))) (done : list Z) : M st (option (Z * list Z)) :=
  match l with
  | [] => mret (Some (sp, done))
  | s :: l =>
    o ← stack_copy_string root sp s;
    match o with
    | None => mret None
    | Some sp => copy_strings root sp l (sp :: done)
    end
  end.

(** Words pushed one below the other. *)
Fixpoint push_words (root sp : Z) (l : list Z) : M st (option Z) :=
  match l with
  | [] => mret (Some sp)
  | v :: l =>
    rc ← stack_write_u64 root (sp - 8) v;
    if negb (rc =? 0) then mret None else push_words root (sp - 8) l
  end.

(** The new stack pointer. Above it: the count, the arguments, a zero, the
    environment, a zero, and the end of the auxiliary vector. *)
Definition stack_build_args (root : Z) (argv envp : list (option (list Z))) : M st (option Z) :=
  let argc := Z.of_nat (length argv) in
  let envc := Z.of_nat (length envp) in
  if (RIX_PROCESS_ARG_MAX <? argc) || (RIX_PROCESS_ARG_MAX <? envc) then mret None
  else
    o ← copy_strings root USER_STACK_TOP (rev argv) [];
    match o with
    | None => mret None
    | Some (sp, arg_address) =>
      o ← copy_strings root sp (rev envp) [];
      match o with
      | None => mret None
      | Some (sp, env_address) =>
        let sp := Z.land sp (not64 0xF) in
        let vector_words := argc + envc + 5 in
        if (sp <? USER_STACK_BASE) || ((sp - USER_STACK_BASE) / 8 <? vector_words + Z.land vector_words 1) then mret None
        else
          push_words root sp
            ((if truthy (Z.land vector_words 1) then [0] else []) ++ [RIX_AUXV_AT_NULL; RIX_AUXV_AT_NULL; 0]
             ++ rev env_address ++ [0] ++ rev arg_address ++ [argc])
      end
    end.

(** ** Creation, fork, exec *)

(** What the failing paths undo for process [id] in slot [p]. *)
Definition discard (id p : Z) : M st unit :=
  _ ← on_host (vfs_close_all id);
  r ← reads (fun T => pml4_phys (slot T p));
  _ ← on_host (address_space_destroy r);
  _ ← update (on_slot p (set_pml4_phys 0));
  k ← reads (fun T => kernel_stack (slot T p));
  _ ← (if negb (k =? 0) then on_host (kernel_stack_free k) else mret tt);
  _ ← clear_process p;
  update (fun T => if negb (live_count T =? 0) then with_live_count (live_count T - 1) T else T).

(** The code, and the pid, entry point and stack pointer when it is zero. *)
Definition create_user_locked (nm : list Z) (par : Z) (image : list Z) (image_size : Z) : M st (Z * (Z * Z * Z)) :=
  bad ← reads (fun T => (aget 0 nm 0 =? 0) || (image_size =? 0) || (negb (par =? 0) && bool_decide (process_lookup T par = None)));
  if bad : bool then mret (-1, (0, 0, 0))
  else
    '(rc, id) ← process_create_locked nm par;
    if negb (rc =? 0) then mret (-2, (0, 0, 0))
    else
      rc ← (if par =? 0 then on_procs (fun T => session_register T id id 0) else mret 0);
      if negb (rc =? 0) then _ ← process_exit_locked id 127; mret (-3, (0, 0, 0))
      else
        p ← reads (fun T => process_lookup T id);
        match p with
        | None => mret (-3, (0, 0, 0))
        | Some p =>
          '(rc, r) ← on_host address_space_create;
          _ ← update (on_slot p (set_pml4_phys r));
          if negb (rc =? 0) then _ ← discard id p; mret (-4, (0, 0, 0))
          else
            _ ← update (on_slot p (fun q => set_heap_break RIX_USER_HEAP_BASE (set_heap_base RIX_USER_HEAP_BASE q)));
            rc ← map_user_stack (Z.to_nat USER_STACK_PAGES) 0 r;
            if negb (rc =? 0) then _ ← discard id p; mret (rc, (0, 0, 0))
            else
              '(rc, entry) ← on_host (elf_load_image image image_size r);
              if negb (rc =? 0) then _ ← discard id p; mret (-7, (0, 0, 0))
              else
                ks ← on_host (pmm_alloc_pages KERNEL_STACK_PAGES);
                if ks =? 0 then _ ← discard id p; mret (-8, (0, 0, 0))
                else
                  _ ← zero_stack ks;
                  _ ← update (on_slot p (fun q => set_state RIX_PROC_SLEEPING (set_kernel_stack_size KERNEL_STACK_SIZE (set_kernel_stack ks q))));
                  mret (0, (id, entry, USER_STACK_TOP))
        end.
Definition process_create_user (nm : list Z) (par : Z) (image : list Z) (image_size : Z) : M st (Z * (Z * Z * Z)) :=
  guarded (create_user_locked nm par image image_size).

(** The name fork-child. *)
Definition fork_name : list Z := [102; 111; 114; 107; 45; 99; 104; 105; 108; 100; 0].

(** The failing path of [process_fork]: a fork that fails has no kernel stack yet. *)
Definition discard_fork (id p : Z) : M st unit :=
  _ ← on_host (vfs_close_all id);
  r ← reads (fun T => pml4_phys (slot T p));
  _ ← on_host (address_space_destroy r);
  _ ← update (on_slot p (set_pml4_phys 0));
  _ ← clear_process p;
  update (fun T => if negb (live_count T =? 0) then with_live_count (live_count T - 1) T else T).

(** The code and the pid of the child. *)
Definition fork_locked (par user_rip user_rsp : Z) : M st (Z * Z) :=
  if (user_rip =? 0) || (user_rsp =? 0) then mret (-1, 0)
  else
    pp ← reads (fun T => process_lookup T par);
    match pp with
    | None => mret (-1, 0)
    | Some pp =>
      root ← reads (fun T => pml4_phys (slot T pp));
      if root =? 0 then mret (-1, 0)
      else
        '(rc, child) ← process_create_locked fork_name par;
        if negb (rc =? 0) then mret (-1, 0)
        else
          cp ← reads (fun T => process_lookup T child);
          match cp with
          | None => mret (-1, 0)
          | Some cp =>
            root ← reads (fun T => pml4_phys (slot T pp));
            '(rc, r) ← on_host (address_space_clone root);
            _ ← update (on_slot cp (set_pml4_phys r));
            if negb (rc =? 0) then _ ← discard_fork child cp; mret (-1, 0)
            else
              ks ← on_host (pmm_alloc_pages KERNEL_STACK_PAGES);
              if ks =? 0 then _ ← discard_fork child cp; mret (-1, 0)
              else
                _ ← zero_stack ks;
                _ ← update (on_slot cp (fun q => set_state RIX_PROC_SLEEPING (set_kernel_stack_size KERNEL_STACK_SIZE (set_kernel_stack ks q))));
                mret (0, child)
          end
    end.
Definition process_fork (par user_rip user_rsp : Z) : M st (Z * Z) := guarded (fork_locked par user_rip user_rsp).

(** The code, entry point and stack pointer. *)
Definition exec_user_locked (id : Z) (image : list Z) (image_size : Z) (argv envp : list (option (list Z))) : M st (Z * (Z * Z)) :=
  if (image_size =? 0) || (RIX_PROCESS_ARG_MAX <? Z.of_nat (length argv)) || (RIX_PROCESS_ARG_MAX <? Z.of_nat (length envp)) then mret (-1, (0, 0))
  else
    p ← reads (fun T => process_lookup T id);
    match p with
    | None => mret (-1, (0, 0))
    | Some p =>
      root ← reads (fun T => pml4_phys (slot T p));
      if root =? 0 then mret (-1, (0, 0))
      else
        n ← on_host (scheduler_thread_count_for_pid id);
        if 1 <? n then mret (-1, (0, 0))
        else
          '(rc, replacement) ← on_host address_space_create;
          if negb (rc =? 0) then mret (-1, (0, 0))
          else
            let fail : M st (Z * (Z * Z)) := _ ← on_host (address_space_destroy replacement); mret (-1, (0, 0)) in
            rc ← map_user_stack (Z.to_nat USER_STACK_PAGES) 0 replacement;
            if negb (rc =? 0) then fail
            else
              '(rc, entry) ← on_host (elf_load_image image image_size replacement);
              if negb (rc =? 0) then fail
              else
                o ← stack_build_args replacement argv envp;
                match o with
                | None => fail
                | Some user_stack =>
                  root ← reads (fun T => pml4_phys (slot T p));
                  _ ← on_host (address_space_destroy root);
                  _ ← update (on_slot p (fun q => set_heap_break RIX_USER_HEAP_BASE (set_heap_base RIX_USER_HEAP_BASE (set_pml4_phys replacement q))));
                  mret (0, (entry, user_stack))
                end
    end.
Definition process_exec_user_with_args (id : Z) (image : list Z) (image_size : Z) (argv envp : list (option (list Z))) : M st (Z * (Z * Z)) :=
  guarded (exec_user_locked id image image_size argv envp).

(** The program is called program; the guard is taken here and again in the call. *)
Definition process_exec_user (id : Z) (image : list Z) (image_size : Z) : M st (Z * (Z * Z)) :=
  guarded (process_exec_user_with_args id image image_size [Some [112; 114; 111; 103; 114; 97; 109; 0]] []).
End Operations.
