(* ===== verification/ProcessArgs.v ===== *)
(** * The argument block of a new program ([kernel/process/process.c])

    What [stack_build_args] leaves on the user stack: the strings, the vector of
    pointers to them and the alignment the program starts with. The bytes a program
    sees through its page tables are the class [UserStack]. *)
From stdpp Require Import base tactics list numbers.
From S2P Require Import Prelude Lock Bytes Process ProcessImage.

(** What the argument block needs of memory: [user_byte w root a] is the byte that a
    program with the tables at [root] reads at address [a]. A stack is mapped when every
    one of its bytes has a place of its own, which no other address of the space shares;
    translation finds it, and a store there changes the one byte. *)
Class UserStack (W : Type) `{!Host W} := {
  stack_mapped : W -> Z -> Prop;
  user_byte : W -> Z -> Z -> Z;
  stack_byte_law root a c w : stack_mapped w root -> USER_STACK_BASE <= a < USER_STACK_TOP ->
    exists pa, pa <> 0 /\ address_space_translate root a (c, w) = Some (pa, (c, w)) /\
      forall b, is_u8 b -> exists w', store_byte pa b (c, w) = Some (tt, (c, w')) /\ stack_mapped w' root /\
        forall a', user_byte w' root a' = if a' =? a then b else user_byte w root a';
}.

(** The characters of a C string. *)
Fixpoint text (s : list Z) : list Z :=
  match s with
  | [] => []
  | b :: s => if b =? 0 then [] else b :: text s
  end.

(** A pointer that is not null to a string that is not too long. *)
Definition arg_ok (s : option (list Z)) : Prop :=
  match s with
  | Some s => Z.of_nat (length (text s)) < RIX_PROCESS_ARG_TEXT_MAX
  | None => False
  end.
#[global] Instance arg_ok_dec s : Decision (arg_ok s).
Proof. destruct s; cbn; apply _. Defined.

Definition chars_ok (s : option (list Z)) : Prop :=
  match s with Some s => Forall is_u8 s | None => True end.

Section Layout.
Context {W : Type} {HW : Host W} {HU : UserStack W}.
Abbreviation st := (cpu * (procs * W))%type.

(** The eight bytes of the word [v], the lowest first. *)
Definition word_at (w : W) (root a v : Z) : Prop :=
  forall i, 0 <= i < 8 -> user_byte w root (a + i) = Z.land (Z.shiftr v (8 * i)) 0xff.

Definition words_at (w : W) (root a : Z) (l : list Z) : Prop :=
  forall (i : nat) v, l !! i = Some v -> word_at w root (a + 8 * Z.of_nat i) v.

(** The string [s] with its terminator, inside [[lo, hi)]. *)
Definition string_at (w : W) (root lo hi : Z) (s : option (list Z)) (a : Z) : Prop :=
  match s with
  | Some s => lo <= a /\ a + Z.of_nat (length (text s)) < hi /\
      (forall (i : nat) b, text s !! i = Some b -> user_byte w root (a + Z.of_nat i) = b) /\
      user_byte w root (a + Z.of_nat (length (text s))) = 0
  | None => False
  end.

(** Nothing but [[lo, hi)] has changed. *)
Definition only_between (root lo hi : Z) (w w' : W) : Prop :=
  stack_mapped w' root /\ forall a, ~ (lo <= a < hi) -> user_byte w' root a = user_byte w root a.

Lemma only_between_refl root lo w : stack_mapped w root -> only_between root lo lo w w.
Proof. intros H. by split. Qed.

Lemma only_between_trans root lo mid hi w w' w'' : lo <= mid <= hi ->
  only_between root mid hi w w' -> only_between root lo mid w' w'' -> only_between root lo hi w w''.
Proof. intros Hm [_ H1] [Hs H2]. split; [done|]. intros a Ha. rewrite H2, H1 by lia. done. Qed.

Lemma word_at_frame root lo hi w w' a v : only_between root lo hi w w' -> hi <= a -> word_at w root a v -> word_at w' root a v.
Proof. intros [_ H] Ha Hv i Hi. rewrite H by lia. by apply Hv. Qed.

Lemma string_at_frame root lo hi l h w w' s a : only_between root lo hi w w' -> hi <= l -> string_at w root l h s a -> string_at w' root l h s a.
Proof.
  intros [_ H] Hl. destruct s as [s|]; [|done]. intros (Ha & Hh & Ht & H0). split; [done|]. split; [done|]. split.
  - intros i b Hb. rewrite H by lia. by apply Ht.
  - by rewrite H by lia.
Qed.

Lemma string_at_widen w root lo hi lo' hi' s a : lo' <= lo -> hi <= hi' -> string_at w root lo hi s a -> string_at w root lo' hi' s a.
Proof. destruct s as [s|]; [|done]. intros Hl Hh (? & ? & ? & ?). split; [lia|]. split; [lia|done]. Qed.

(** ** Writing *)

Lemma on_host_bind {A B} (m : M (cpu * W) A) (k : A -> M st B) c T w a c' w' :
  m (c, w) = Some (a, (c', w')) -> (x ← on_host m; k x) (c, (T, w)) = k a (c', (T, w')).
Proof. intros H. unfold mbind, M_bind, on_host. by rewrite H. Qed.

Lemma bind_step {A B} (m : M st A) (k : A -> M st B) s a s' : m s = Some (a, s') -> (x ← m; k x) s = k a s'.
Proof. intros H. unfold mbind, M_bind. by rewrite H. Qed.

Lemma write_bytes_law root c T src n : forall address i w, stack_mapped w root -> (forall j, is_u8 (aget 0 src j)) ->
  USER_STACK_BASE <= address + i -> address + i + Z.of_nat n <= USER_STACK_TOP ->
  exists w', write_bytes root address n i src (c, (T, w)) = Some (0, (c, (T, w'))) /\
    only_between root (address + i) (address + i + Z.of_nat n) w w' /\
    forall a, address + i <= a < address + i + Z.of_nat n -> user_byte w' root a = aget 0 src (a - address).
Proof.
  unfold USER_STACK_BASE, USER_STACK_TOP, USER_STACK_PAGES in *.
  induction n as [|n IH]; intros address i w Hm Hb Hlo Hhi; cbn [write_bytes].
  { exists w. split; [done|]. split; [|lia]. replace (_ + Z.of_nat 0) with (address + i) by lia. by apply only_between_refl. }
  rewrite u64_id by (unfold is_u64; lia).
  destruct (stack_byte_law root (address + i) c w Hm) as (pa & Hpa & Ht & Hst); [unfold USER_STACK_BASE, USER_STACK_TOP, USER_STACK_PAGES; lia|].
  destruct (Hst _ (Hb i)) as (w1 & Hs & Hm1 & Hw1).
  destruct (IH address (i + 1) w1 Hm1 Hb) as (w2 & Hrun & [Hm2 Ho] & Hin); [lia..|].
  exists w2. split.
  { rewrite (on_host_bind _ _ _ _ _ _ _ _ Ht), (proj2 (Z.eqb_neq _ _)) by done. by rewrite (on_host_bind _ _ _ _ _ _ _ _ Hs). }
  split; [split; [done|]|].
  - intros a Ha. rewrite Ho, Hw1 by lia. rewrite (proj2 (Z.eqb_neq _ _)) by lia. done.
  - intros a Ha. destruct (decide (a = address + i)) as [->|Hne].
    + rewrite Ho, Hw1 by lia. rewrite Z.eqb_refl. f_equal. lia.
    + rewrite Hin by lia. done.
Qed.

Lemma stack_write_law root c T src address length w : stack_mapped w root -> (forall j, is_u8 (aget 0 src j)) -> 0 <= length ->
  USER_STACK_BASE <= address -> address + length <= USER_STACK_TOP ->
  exists w', stack_write root address src length (c, (T, w)) = Some (0, (c, (T, w'))) /\
    only_between root address (address + length) w w' /\
    forall a, address <= a < address + length -> user_byte w' root a = aget 0 src (a - address).
Proof.
  intros Hm Hb Hn Hlo Hhi. unfold stack_write.
  destruct (write_bytes_law root c T src (Z.to_nat length) address 0 w Hm Hb) as (w' & Hrun & Ho & Hin); [lia..|].
  rewrite Z.add_0_r, Z2Nat.id in Ho, Hin by lia. exists w'. split; [|done].
  unfold USER_STACK_BASE, USER_STACK_TOP, USER_STACK_PAGES in *. rewrite u64_id by (unfold is_u64; lia).
  rewrite !(proj2 (Z.ltb_ge _ _)) by lia. done.
Qed.

Lemma word_bytes v j : is_u8 (aget 0 ((fun i => Z.land (Z.shiftr v (8 * i)) 0xff) <$> seqZ 0 8) j).
Proof.
  unfold aget. destruct (_ !! _) as [b|] eqn:E; [|cbn; unfold is_u8; lia].
  apply list_lookup_fmap_Some in E as (i & -> & _). cbn [default id]. change 0xff with (Z.ones 8). unfold id, is_u8. rewrite Z.land_ones by lia.
  pose proof (Z.mod_pos_bound (Z.shiftr v (8 * i)) (2 ^ 8)). lia.
Qed.

Lemma stack_write_u64_law root c T address v w : stack_mapped w root -> USER_STACK_BASE <= address -> address + 8 <= USER_STACK_TOP ->
  exists w', stack_write_u64 root address v (c, (T, w)) = Some (0, (c, (T, w'))) /\
    only_between root address (address + 8) w w' /\ word_at w' root address v.
Proof.
  intros Hm Hlo Hhi. destruct (stack_write_law root c T _ address 8 w Hm (word_bytes v)) as (w' & Hrun & Ho & Hin); [lia..|].
  exists w'. split; [done|]. split; [done|]. intros i Hi. rewrite Hin by lia. rewrite lookup_seqZ_fmap by lia. do 3 f_equal. lia.
Qed.

(** ** Strings *)

Lemma text_scan s :
  match for_ 0 RIX_PROCESS_ARG_TEXT_MAX (fun n (_ : unit) => if aget 0 s n =? 0 then inr n else inl tt) tt with
  | inr n => n = Z.of_nat (length (text s)) /\ n < RIX_PROCESS_ARG_TEXT_MAX
  | inl _ => RIX_PROCESS_ARG_TEXT_MAX <= Z.of_nat (length (text s))
  end.
Proof.
  assert (Hin : forall (n : nat), (n < length (text s))%nat -> aget 0 s (Z.of_nat n) <> 0).
  { induction s as [|b s IH]; intros n Hn; cbn in Hn; [lia|]. destruct (b =? 0) eqn:E; bool_to_prop; cbn in Hn; [lia|].
    destruct n as [|n]; [done|]. unfold aget in *. rewrite Nat2Z.id in *. cbn. specialize (IH n ltac:(lia)). by rewrite Nat2Z.id in IH. }
  assert (Hend : aget 0 s (Z.of_nat (length (text s))) = 0).
  { clear Hin. unfold aget. rewrite Nat2Z.id. induction s as [|b s IH]; [done|]. cbn. destruct (b =? 0) eqn:E; bool_to_prop; [by subst|]. exact IH. }
  refine (for_inv (fun i (_ : unit) => i <= Z.of_nat (length (text s))) (fun n => n = Z.of_nat (length (text s)) /\ n < RIX_PROCESS_ARG_TEXT_MAX)
    0 RIX_PROCESS_ARG_TEXT_MAX _ tt _ _ _); [done|lia|].
  intros i [] Hi Hle. cbn. destruct (decide (i = Z.of_nat (length (text s)))) as [->|Hne].
  - rewrite Hend. cbn. lia.
  - specialize (Hin (Z.to_nat i) ltac:(lia)). rewrite Z2Nat.id in Hin by lia. rewrite (proj2 (Z.eqb_neq _ _)) by done. lia.
Qed.

Lemma text_prefix s i b : text s !! i = Some b -> aget 0 s (Z.of_nat i) = b.
Proof.
  unfold aget. rewrite Nat2Z.id. revert i. induction s as [|x s IH]; intros i Hi; [done|]. cbn in Hi. destruct (x =? 0); [done|].
  destruct i as [|i]; cbn in *; [congruence|by apply IH].
Qed.

Lemma chars_at s j : Forall is_u8 s -> is_u8 (aget 0 s j).
Proof. intros H. unfold aget. destruct (_ !! _) as [b|] eqn:E; [|cbn; unfold is_u8; lia]. by eapply Forall_lookup_1 in E. Qed.

Lemma copy_string_refused root c T w sp s : ~ arg_ok s -> stack_copy_string root sp s (c, (T, w)) = Some (None, (c, (T, w))).
Proof.
  destruct s as [s|]; [|done]. cbn [arg_ok stack_copy_string]. intros H. pose proof (text_scan s) as Hs.
  destruct (for_ _ _ _ _) as [[]|n]; [done|lia].
Qed.

Lemma copy_string_law root c T w sp s : stack_mapped w root -> arg_ok s -> chars_ok s ->
  USER_STACK_BASE + RIX_PROCESS_ARG_TEXT_MAX <= sp <= USER_STACK_TOP ->
  exists a w', stack_copy_string root sp s (c, (T, w)) = Some (Some a, (c, (T, w'))) /\
    sp - RIX_PROCESS_ARG_TEXT_MAX <= a < sp /\ only_between root a sp w w' /\ string_at w' root a sp s a.
Proof.
  destruct s as [s|]; [|done]. cbn [arg_ok chars_ok stack_copy_string]. intros Hm Hok Hc Hsp. pose proof (text_scan s) as Hs.
  destruct (for_ _ _ _ _) as [[]|n]; [lia|]. destruct Hs as [-> Hn]. unfold RIX_PROCESS_ARG_TEXT_MAX in *.
  set (n := Z.of_nat (length (text s))) in *. rewrite (proj2 (Z.ltb_ge _ _)) by lia. cbv zeta.
  destruct (stack_write_law root c T s (sp - (n + 1)) n w Hm (fun j => chars_at s j Hc)) as (w1 & R1 & [Hm1 Ho1] & Hi1); [lia..|].
  destruct (stack_write_law root c T [0] (sp - (n + 1) + n) 1 w1 Hm1 (fun j => chars_at [0] j ltac:(repeat constructor; done)))
    as (w2 & R2 & [Hm2 Ho2] & Hi2); [lia..|].
  exists (sp - (n + 1)), w2. split; [|split; [lia|split]].
  - rewrite (bind_step _ _ _ _ _ R1). cbn [Z.eqb negb]. by rewrite (bind_step _ _ _ _ _ R2).
  - split; [done|]. intros a Ha. by rewrite Ho2, Ho1 by lia.
  - split; [lia|]. split; [lia|]. split.
    + intros i b Hb. pose proof (lookup_lt_Some _ _ _ Hb). rewrite Ho2, Hi1 by lia. rewrite <- (text_prefix s i b Hb). f_equal. lia.
    + rewrite Hi2 by lia. replace (_ - _) with 0 by lia. done.
Qed.

Lemma copy_strings_law root c T l : forall w sp done, stack_mapped w root -> Forall chars_ok l ->
  USER_STACK_BASE + RIX_PROCESS_ARG_TEXT_MAX * Z.of_nat (length l) <= sp <= USER_STACK_TOP ->
  if bool_decide (Forall arg_ok l) then
    exists sp' addresses w', copy_strings root sp l done (c, (T, w)) = Some (Some (sp', rev addresses ++ done), (c, (T, w'))) /\
      sp - RIX_PROCESS_ARG_TEXT_MAX * Z.of_nat (length l) <= sp' <= sp /\ only_between root sp' sp w w' /\
      Forall2 (string_at w' root sp' sp) l addresses
  else exists w', copy_strings root sp l done (c, (T, w)) = Some (None, (c, (T, w'))).
Proof.
  induction l as [|s l IH]; intros w sp done Hm Hc Hsp; cbn [copy_strings].
  { rewrite bool_decide_true by constructor. exists sp, [], w. split; [reflexivity|]. split; [cbn; lia|]. split; [by apply only_between_refl|constructor]. }
  apply Forall_cons_iff in Hc as [Hs Hc]. cbn [length] in Hsp. unfold RIX_PROCESS_ARG_TEXT_MAX in Hsp.
  destruct (decide (arg_ok s)) as [Hok|Hbad].
  - destruct (copy_string_law root c T w sp s Hm Hok Hs) as (a & w1 & R1 & Ha & Ho1 & Hs1); [unfold RIX_PROCESS_ARG_TEXT_MAX; lia|].
    unfold RIX_PROCESS_ARG_TEXT_MAX in Ha. rewrite (bind_step _ _ _ _ _ R1). cbv iota.
    specialize (IH w1 a (a :: done) (proj1 Ho1) Hc ltac:(unfold RIX_PROCESS_ARG_TEXT_MAX; lia)).
    rewrite (bool_decide_ext (Forall arg_ok (s :: l)) (Forall arg_ok l)) by (rewrite Forall_cons_iff; tauto).
    case_bool_decide as Hall; [|done]. destruct IH as (sp' & addresses & w2 & R2 & Hsp2 & Ho2 & Hf).
    exists sp', (a :: addresses), w2. cbn [rev length]. rewrite <- app_assoc. split; [done|]. unfold RIX_PROCESS_ARG_TEXT_MAX in *.
    split; [lia|]. split; [eapply only_between_trans; [|done..]; lia|]. constructor.
    + eapply string_at_widen; [| |eapply string_at_frame; [exact Ho2| |exact Hs1]]; lia.
    + eapply Forall2_impl; [|exact Hf]. intros x y. apply string_at_widen; lia.
  - rewrite bool_decide_false by (rewrite Forall_cons_iff; tauto). exists w. by rewrite (bind_step _ _ _ _ _ (copy_string_refused root c T w sp s Hbad)).
Qed.

(** ** Words *)

Lemma push_words_law root c T l : forall w sp, stack_mapped w root ->
  USER_STACK_BASE + 8 * Z.of_nat (length l) <= sp <= USER_STACK_TOP ->
  exists w', push_words root sp l (c, (T, w)) = Some (Some (sp - 8 * Z.of_nat (length l)), (c, (T, w'))) /\
    only_between root (sp - 8 * Z.of_nat (length l)) sp w w' /\ words_at w' root (sp - 8 * Z.of_nat (length l)) (rev l).
Proof.
  induction l as [|v l IH]; intros w sp Hm Hsp; cbn [push_words].
  { exists w. cbn [length]. rewrite Z.mul_0_r, Z.sub_0_r. split; [done|]. split; [by apply only_between_refl|]. by intros i v. }
  cbn [length rev] in *.
  destruct (stack_write_u64_law root c T (sp - 8) v w Hm) as (w1 & R1 & Ho1 & Hv); [lia..|]. replace (sp - 8 + 8) with sp in Ho1 by lia.
  destruct (IH w1 (sp - 8) (proj1 Ho1)) as (w2 & R2 & Ho2 & Hl); [lia|].
  replace (sp - 8 * Z.of_nat (S (length l))) with (sp - 8 - 8 * Z.of_nat (length l)) by lia.
  exists w2. split; [by rewrite (bind_step _ _ _ _ _ R1)|]. split; [eapply only_between_trans; [|done..]; lia|].
  intros i x Hx. apply lookup_app_Some in Hx as [Hx|[Hi Hx]]; [by apply Hl|].
  rewrite length_rev in Hi, Hx. destruct (i - length l)%nat eqn:E; [|done]. injection Hx as <-.
  eapply word_at_frame; [exact Ho2|lia|]. replace (_ + _) with (sp - 8) by lia. done.
Qed.

(** ** The block *)

(** At [sp] the count and the pointers to the arguments, a zero, the pointers to the
    environment, a zero and the end of the auxiliary vector; above them the strings. *)
Definition argument_block (w : W) (root sp : Z) (argv envp : list (option (list Z))) : Prop :=
  exists arg_address env_address,
    words_at w root sp ([Z.of_nat (length argv)] ++ arg_address ++ [0] ++ env_address ++ [0; RIX_AUXV_AT_NULL; RIX_AUXV_AT_NULL]) /\
    let top := sp + 8 * Z.of_nat (length argv + length envp + 5) in
    Forall2 (string_at w root top USER_STACK_TOP) argv arg_address /\
    Forall2 (string_at w root top USER_STACK_TOP) envp env_address.

Definition args_ok (l : list (option (list Z))) : Prop := Z.of_nat (length l) <= RIX_PROCESS_ARG_MAX /\ Forall arg_ok l.
#[local] Instance args_ok_dec l : Decision (args_ok l).
Proof. unfold args_ok. apply _. Defined.

Lemma Forall2_unrev {A B} (P : A -> B -> Prop) l k : Forall2 P (rev l) k -> Forall2 P l (rev k).
Proof. intros H. apply (Forall2_reverse P) in H. unfold reverse in H. by rewrite <- !rev_alt, rev_involutive in H. Qed.

Lemma align16 sp : 0 <= sp < 2 ^ 64 -> exists k, Z.land sp (not64 0xF) = 16 * k /\ 16 * k <= sp < 16 * k + 16.
Proof.
  intros Hsp. exists (sp / 16). pose proof (Z.div_mod sp 16). pose proof (Z.mod_pos_bound sp 16).
  split; [|lia]. change 0xF with (2 ^ 4 - 1). rewrite land_not64_low by lia. change (2 ^ 4) with 16. lia.
Qed.

(** The strings of one vector, in the order of the vector. *)
Lemma copy_vector root c T w sp l : stack_mapped w root -> Forall chars_ok l -> Z.of_nat (length l) <= RIX_PROCESS_ARG_MAX ->
  USER_STACK_BASE + 2048 <= sp <= USER_STACK_TOP ->
  if bool_decide (Forall arg_ok l) then
    exists sp' addresses w', copy_strings root sp (rev l) [] (c, (T, w)) = Some (Some (sp', addresses), (c, (T, w'))) /\
      sp - 2048 <= sp' <= sp /\ only_between root sp' sp w w' /\ Forall2 (string_at w' root sp' sp) l addresses
  else exists w', copy_strings root sp (rev l) [] (c, (T, w)) = Some (None, (c, (T, w'))).
Proof.
  intros Hm Hc Hn Hsp. unfold RIX_PROCESS_ARG_MAX in Hn.
  assert (Hrev : forall P : option (list Z) -> Prop, Forall P (rev l) <-> Forall P l) by (intros P; rewrite <- (Forall_reverse P l); unfold reverse; by rewrite <- rev_alt).
  pose proof (copy_strings_law root c T (rev l) w sp [] Hm ltac:(by apply Hrev)) as H.
  unfold RIX_PROCESS_ARG_TEXT_MAX in H. rewrite length_rev in H. specialize (H ltac:(lia)).
  rewrite (bool_decide_ext _ _ (Hrev arg_ok)) in H. case_bool_decide; [|done]. destruct H as (sp' & addresses & w' & R & Hsp' & Ho & Hf).
  exists sp', (rev addresses), w'. rewrite app_nil_r in R. split; [done|]. split; [lia|]. split; [done|]. by apply Forall2_unrev.
Qed.

(** The words of the vector, from the top down. *)
Lemma push_vector root c T w k (pad arg_address env_address : list Z) (argc : Z) :
  let n := Z.of_nat (length pad + length arg_address + length env_address + 5) in
  stack_mapped w root -> USER_STACK_BASE + 8 * n <= 16 * k <= USER_STACK_TOP -> Z.even n = true ->
  exists w', push_words root (16 * k) (pad ++ [RIX_AUXV_AT_NULL; RIX_AUXV_AT_NULL; 0] ++ rev env_address ++ [0] ++ rev arg_address ++ [argc]) (c, (T, w))
      = Some (Some (16 * k - 8 * n), (c, (T, w'))) /\
    only_between root (16 * k - 8 * n) (16 * k) w w' /\ (16 * k - 8 * n) mod 16 = 0 /\
    words_at w' root (16 * k - 8 * n) ([argc] ++ arg_address ++ [0] ++ env_address ++ [0; RIX_AUXV_AT_NULL; RIX_AUXV_AT_NULL]).
Proof.
  intros n Hm Hk He. set (l := pad ++ _). assert (Hl : Z.of_nat (length l) = n) by (unfold l, n; rewrite !length_app, !length_rev; cbn; lia).
  destruct (push_words_law root c T l w (16 * k) Hm) as (w' & R & Ho & Hw); rewrite Hl in *; [lia|].
  exists w'. split; [done|]. split; [done|]. split.
  - apply Z.even_spec in He as [m ->]. replace (16 * k - 8 * (2 * m)) with ((k - m) * 16) by lia. apply Z.mod_mul. lia.
  - intros i v Hv. apply Hw. unfold l. rewrite !rev_app_distr, !rev_involutive. cbn [rev app] in *. rewrite <- !app_assoc. cbn [app].
    apply (lookup_app_l_Some _ (rev pad)) in Hv. cbn [app] in Hv. rewrite <- app_assoc in Hv. cbn [app] in Hv. by rewrite <- app_assoc in Hv.
Qed.

(** An odd vector is padded to an even one. *)
Lemma padding v : 0 <= v -> let pad := if truthy (Z.land v 1) then [0] else [] in
  Z.of_nat (length pad) = Z.land v 1 /\ 0 <= Z.land v 1 <= 1 /\ Z.even (v + Z.land v 1) = true.
Proof.
  intros Hv. assert (Z.land v 1 = v mod 2) as -> by (apply (Z.land_ones v 1); lia). pose proof (Z.mod_pos_bound v 2). pose proof (Z.div_mod v 2).
  split; [|split; [lia|]].
  - unfold truthy. destruct (v mod 2 =? 0) eqn:E; bool_to_prop; cbn; lia.
  - apply Z.even_spec. exists (v / 2 + v mod 2). lia.
Qed.

(** C23: the argument block of a new program. On a mapped stack the call returns, with the
    lock, the process table and the CPU untouched. It succeeds exactly when there are at
    most 16 arguments and 16 environment strings, none a null pointer and each of fewer
    than 128 characters: the stack always has room for them. Then the new stack pointer is a
    multiple of 16; at it the program finds the count, a pointer to every argument, a zero,
    a pointer to every environment string, a zero and an empty auxiliary vector; every
    pointer leads to its string with its terminator, above the vector and inside the stack;
    and no byte below the stack pointer or outside the stack has changed. *)
Theorem stack_build_args_layout root argv envp c T w (Hm : stack_mapped w root) (Ha : Forall chars_ok argv) (He : Forall chars_ok envp) :
  (args_ok argv /\ args_ok envp /\
   exists sp w', stack_build_args root argv envp (c, (T, w)) = Some (Some sp, (c, (T, w'))) /\
     USER_STACK_BASE <= sp < USER_STACK_TOP /\ sp mod 16 = 0 /\ argument_block w' root sp argv envp /\ only_between root sp USER_STACK_TOP w w') \/
  (~ (args_ok argv /\ args_ok envp) /\ exists w', stack_build_args root argv envp (c, (T, w)) = Some (None, (c, (T, w')))).
Proof.
  unfold stack_build_args, args_ok. cbv zeta. destruct (_ || _) eqn:En; bool_to_prop.
  { right. split; [lia|by exists w]. }
  pose proof (copy_vector root c T w USER_STACK_TOP argv Hm Ha ltac:(lia) ltac:(unfold USER_STACK_BASE, USER_STACK_TOP, USER_STACK_PAGES; lia)) as H1.
  case_bool_decide as A1; [|right; split; [tauto|]; destruct H1 as (w1 & R1); exists w1; by rewrite (bind_step _ _ _ _ _ R1)].
  destruct H1 as (sp1 & aa & w1 & R1 & Hs1 & Ho1 & Hf1). rewrite (bind_step _ _ _ _ _ R1). cbv iota beta.
  pose proof (copy_vector root c T w1 sp1 envp (proj1 Ho1) He ltac:(lia) ltac:(unfold USER_STACK_BASE, USER_STACK_TOP, USER_STACK_PAGES in *; lia)) as H2.
  case_bool_decide as A2; [|right; split; [tauto|]; destruct H2 as (w2 & R2); exists w2; by rewrite (bind_step _ _ _ _ _ R2)].
  destruct H2 as (sp2 & ea & w2 & R2 & Hs2 & Ho2 & Hf2). rewrite (bind_step _ _ _ _ _ R2). cbv iota beta.
  left. split; [split; [lia|done]|]. split; [split; [lia|done]|].
  pose proof (Forall2_length Hf1) as Hl1. pose proof (Forall2_length Hf2) as Hl2.
  destruct (align16 sp2) as (k & -> & Hk); [unfold USER_STACK_BASE, USER_STACK_TOP, USER_STACK_PAGES in *; lia|].
  set (v := _ + _ + 5). destruct (padding v) as (Hp & Hp' & Hev); [lia|]. set (pad := if truthy _ then _ else _) in *.
  unfold RIX_PROCESS_ARG_MAX in *.
  assert (Hroom : USER_STACK_BASE + 512 <= 16 * k <= USER_STACK_TOP) by (unfold USER_STACK_BASE, USER_STACK_TOP, USER_STACK_PAGES in *; lia).
  rewrite (proj2 (Z.ltb_ge _ _)) by lia. rewrite (proj2 (Z.ltb_ge _ _)) by (apply Z.div_le_lower_bound; lia). cbn [orb].
  assert (Hn : Z.of_nat (length pad + length aa + length ea + 5) = v + Z.land v 1) by lia.
  destruct (push_vector root c T w2 k pad aa ea (Z.of_nat (length argv)) (proj1 Ho2)) as (w3 & R3 & Ho3 & H16 & Hw); rewrite Hn in *; [lia|done|].
  eexists _, w3. split; [exact R3|]. split; [lia|]. split; [done|]. split.
  - exists aa, ea. split; [done|]. cbv zeta. split.
    + eapply Forall2_impl; [|exact Hf1]. intros x y Hxy.
      apply (string_at_widen _ _ sp1 USER_STACK_TOP); [lia..|]. eapply string_at_frame, string_at_frame, Hxy; [exact Ho3|lia|exact Ho2|lia].
    + eapply Forall2_impl; [|exact Hf2]. intros x y Hxy.
      apply (string_at_widen _ _ sp2 sp1); [lia..|]. eapply string_at_frame, Hxy; [exact Ho3|lia].
  - eapply only_between_trans; [|exact Ho1|]; [lia|]. eapply only_between_trans; [|exact Ho2|]; [lia|].
    destruct Ho3 as [Hm3 Ho3]. split; [done|]. intros a Hout. apply Ho3. lia.
Qed.
End Layout.

(** ** A flat memory *)

(** A memory in which every user address is its own physical address. *)
Definition flat : Type := Z -> Z.

#[local] Instance flat_host : Host flat := {|
  host_ok _ := True; space_of _ _ := False; stack_of _ _ := False; threads_of _ _ := 0;
  lockdep_register := mret 1; lockdep_acquire _ := mret 0; lockdep_release _ := mret 0;
  vfs_clone_fds _ _ := mret 0; vfs_close_all _ := mret 0; scheduler_thread_detach_pid _ := mret tt; scheduler_wake_pid _ := mret tt;
  scheduler_thread_count_for_pid _ := mret 0; scheduler_block_current := mret tt; tty_get_session _ := mret (-1, (0, 0));
  vmm_translate a := mret a; socket_table_init _ := mret tt; address_space_destroy _ := mret tt; kernel_stack_free _ := mret tt;
  address_space_create := mret (-1, 0); address_space_clone _ := mret (-1, 0); address_space_map _ _ _ _ := mret (-1);
  address_space_translate _ a := mret a; elf_load_image _ _ _ := mret (-1, 0);
  pmm_alloc_page := mret 0; pmm_free_page _ := mret tt; pmm_alloc_pages _ := mret 0; zero_page _ := mret tt;
  store_byte pa b := fun '(c, w) => Some (tt, (c, fun a => if a =? pa then b else w a));
|}.

#[local] Program Instance flat_stack : UserStack flat := {| stack_mapped _ _ := True; user_byte w _ a := w a |}.
Next Obligation.
  intros root a c w _ Ha. exists a. unfold USER_STACK_BASE, USER_STACK_TOP, USER_STACK_PAGES in Ha. split; [lia|]. split; [done|].
  intros b _. eexists. split; [reflexivity|]. done.
Qed.

(** The strings ls, -l and A=1. *)
Definition demo_argv : list (option (list Z)) := [Some [108; 115; 0]; Some [45; 108; 0]].
Definition demo_envp : list (option (list Z)) := [Some [65; 61; 49; 0]].
Definition no_procs : procs :=
  {| table := []; supplementary_groups := []; supplementary_counts := []; real_uids := []; saved_uids := []; real_gids := []; saved_gids := [];
     audit_uids := []; sessions := []; current_pid := 0; next_pid := 1; live_count := 0; process_lock := spin_free; process_lockdep_class := 0 |}.
Definition some_cpu : cpu := {| rflags := 512; cpu_pid := 1; cpu_index := 0 |}.

(** The program starts with its stack pointer at 0x7fffffffefb0. *)
Lemma stack_build_args_layout_witness :
  exists w', stack_build_args 0x1000 demo_argv demo_envp (some_cpu, (no_procs, (fun _ => 0) : flat)) = Some (Some 0x7fffffffefb0, (some_cpu, (no_procs, w'))) /\
    argument_block w' 0x1000 0x7fffffffefb0 demo_argv demo_envp /\ word_at w' 0x1000 0x7fffffffefb0 2.
Proof.
  destruct (stack_build_args_layout (HU := flat_stack) 0x1000 demo_argv demo_envp some_cpu no_procs (fun _ => 0)) as [(_ & _ & sp & w' & E & _ & _ & Hb & _)|(Hno & _)].
  - exact I.
  - repeat constructor; done.
  - repeat constructor; done.
  - assert (F : option_map fst (stack_build_args 0x1000 demo_argv demo_envp (some_cpu, (no_procs, (fun _ => 0) : flat))) = Some (Some 0x7fffffffefb0)) by (vm_compute; reflexivity).
    rewrite E in F. injection F as ->. exists w'. split; [exact E|]. split; [exact Hb|]. destruct Hb as (aa & ea & Hw & _).
    specialize (Hw 0%nat 2 eq_refl). cbn in Hw. exact Hw.
  - exfalso. apply Hno. split; (split; [vm_compute; done|]); repeat constructor; done.
Defined.
