(* ===== verification/ProcessTable.v ===== *)
(** * What the process table guarantees

    The invariant of the table and the histories of its operations: process ids are
    unique, roots and stacks belong to one process each, the tree of processes
    behaves as its abstract specification says, and neither capabilities nor
    identities can be made up. *)
From stdpp Require Import base tactics list numbers.
From S2P Require Import Prelude Lock Bytes Process ProcessImage.

(** ** The invariant *)

Definition index (i : Z) : Prop := 0 <= i < RIX_PROCESS_MAX.
Definition used (T : procs) (i : Z) : bool := negb (unused (slot T i)).

(** The arrays have their sizes. *)
Definition shape_ok (T : procs) : Prop :=
  length (table T) = 128%nat /\ length (real_uids T) = 128%nat /\ length (saved_uids T) = 128%nat /\ length (real_gids T) = 128%nat /\
  length (saved_gids T) = 128%nat /\ length (audit_uids T) = 128%nat /\ length (sessions T) = 128%nat /\
  length (supplementary_counts T) = 128%nat /\ length (supplementary_groups T) = 128%nat.

(** Slot 0 is the kernel; the others have ids of their own; the counters agree. *)
Definition ids_ok (T : procs) : Prop :=
  used T 0 = true /\ pid (slot T 0) = 0 /\
  (forall i, index i -> i <> 0 -> used T i = true -> 1 <= pid (slot T i) < 128) /\
  (forall i j, index i -> index j -> used T i = true -> used T j = true -> pid (slot T i) = pid (slot T j) -> i = j) /\
  1 <= next_pid T < 128 /\
  live_count T = countb (fun p => negb (unused p)) (table T).

Definition caps_ok (T : procs) : Prop := forall i, index i -> 0 <= capabilities (slot T i) < 512.

(** A slot in use holds a resource or none, nobody else holds the same, and none is lost. *)
Definition resources_ok (S : Z -> Prop) (f : rix_process_t -> Z) (T : procs) : Prop :=
  (forall i, index i -> used T i = true -> f (slot T i) <> 0 -> S (f (slot T i))) /\
  (forall i j, index i -> index j -> used T i = true -> used T j = true -> f (slot T i) <> 0 -> f (slot T i) = f (slot T j) -> i = j) /\
  (forall x, x <> 0 -> S x -> exists i, index i /\ used T i = true /\ f (slot T i) = x).

Section Table.
Context {W : Type} {HW : Host W}.

Definition procs_ok (T : procs) (w : W) : Prop :=
  shape_ok T /\ ids_ok T /\ caps_ok T /\ resources_ok (space_of w) pml4_phys T /\ resources_ok (stack_of w) kernel_stack T.

(** Between calls the table lock is free. *)
Definition ready (T : procs) (w : W) : Prop := process_lock T = spin_free /\ host_ok w /\ procs_ok T w.
End Table.

(** ** Lookup *)

Lemma lookup_cases T id :
  (process_lookup T id = None /\ forall i, index i -> used T i = true -> pid (slot T i) <> id) \/
  (exists i, process_lookup T id = Some i /\ slot_of T id = i /\ index i /\ used T i = true /\ pid (slot T i) = id).
Proof.
  unfold process_lookup, slot_of. match goal with |- context [for_ 0 _ ?b tt] => destruct (for_first (fun i => used T i && (pid (slot T i) =? id)) b 0 RIX_PROCESS_MAX) as [[-> H]|(i & -> & Hi & H)] end.
  - done.
  - left. split; [done|]. intros i Hi Hu He. specialize (H i ltac:(unfold index in Hi; lia)). rewrite Hu, (proj2 (Z.eqb_eq _ _) He) in H. done.
  - right. exists i. bool_to_prop. repeat split; [done..|unfold index; lia|unfold index; lia|done|done].
Qed.

Lemma lookup_Some T id i : process_lookup T id = Some i -> index i /\ used T i = true /\ pid (slot T i) = id /\ slot_of T id = i.
Proof. intros E. destruct (lookup_cases T id) as [[E' _]|(j & E' & H)]; rewrite E in E'; [done|]. injection E' as ->. tauto. Qed.

Lemma lookup_used T i : ids_ok T -> index i -> used T i = true -> process_lookup T (pid (slot T i)) = Some i.
Proof.
  intros (_ & _ & _ & Hu & _) Hi Hui. destruct (lookup_cases T (pid (slot T i))) as [[_ H]|(j & E & _ & Hj & Huj & He)]; [by destruct (H i Hi Hui)|].
  rewrite E. f_equal. by apply Hu.
Qed.

Lemma lookup_None T id : process_lookup T id = None -> forall i, index i -> used T i = true -> pid (slot T i) <> id.
Proof. intros E. destruct (lookup_cases T id) as [[_ H]|(j & E' & _)]; [done|]. congruence. Qed.

(** Two tables with the same ids in the same slots. *)
Definition same_ids (T T' : procs) : Prop := forall i, index i -> used T' i = used T i /\ (used T i = true -> pid (slot T' i) = pid (slot T i)).

Lemma lookup_same_ids T T' id : ids_ok T' -> same_ids T T' -> process_lookup T' id = process_lookup T id.
Proof.
  intros Hok Hs. destruct (process_lookup T id) as [i|] eqn:E.
  - apply lookup_Some in E as (Hi & Hu & He & _). destruct (Hs i Hi) as [Hu' He']. rewrite <- He, <- He' by done. apply lookup_used; [done..|congruence].
  - destruct (process_lookup T' id) as [i|] eqn:E'; [|done]. apply lookup_Some in E' as (Hi & Hu & He & _). destruct (Hs i Hi) as [Hu' He'].
    destruct (lookup_None T id E i Hi); [congruence|]. rewrite <- He'; congruence.
Qed.

(** ** Slots *)

Lemma slot_put T i j p : length (table T) = 128%nat -> index i -> index j -> slot (put i p T) j = if j =? i then p else slot T j.
Proof.
  unfold index, RIX_PROCESS_MAX. intros Hl Hi Hj. unfold slot, put. cbn [table with_table]. destruct (j =? i) eqn:E; bool_to_prop.
  - subst. apply aget_aset_eq. lia.
  - apply aget_aset_ne; lia.
Qed.

Lemma count_put T i p : length (table T) = 128%nat -> index i ->
  countb (fun p => negb (unused p)) (aset i p (table T)) = countb (fun p => negb (unused p)) (table T) - b2z (used T i) + b2z (negb (unused p)).
Proof.
  unfold index, RIX_PROCESS_MAX. intros Hl Hi. unfold used, slot, aset, aget.
  destruct (lookup_lt_is_Some_2 (table T) (Z.to_nat i)) as [x Hx]; [lia|]. rewrite Hx. cbn [default from_option id]. by rewrite (countb_insert _ _ _ x).
Qed.

(** ** Changes that keep every process in its slot *)

(** What a change that neither creates, ends nor reaps leaves alone. *)
Definition keeps (p p' : rix_process_t) : Prop :=
  state p' = state p /\ pid p' = pid p /\ parent p' = parent p /\ exit_status p' = exit_status p /\
  pml4_phys p' = pml4_phys p /\ kernel_stack p' = kernel_stack p /\ (0 <= capabilities p < 512 -> 0 <= capabilities p' < 512).

Definition tame (T T' : procs) : Prop :=
  (shape_ok T -> shape_ok T') /\ next_pid T' = next_pid T /\ live_count T' = live_count T /\ process_lock T' = process_lock T /\
  process_lockdep_class T' = process_lockdep_class T /\ (shape_ok T -> forall i, index i -> keeps (slot T i) (slot T' i)).

Lemma keeps_refl p : keeps p p.
Proof. unfold keeps. tauto. Qed.

Lemma keeps_trans p q r : keeps p q -> keeps q r -> keeps p r.
Proof. unfold keeps. intros (? & ? & ? & ? & ? & ? & ?) (? & ? & ? & ? & ? & ? & ?). repeat split; [congruence..| |]; intuition. Qed.

Lemma tame_refl T : tame T T.
Proof. unfold tame. intuition. apply keeps_refl. Qed.

Lemma tame_trans T1 T2 T3 : tame T1 T2 -> tame T2 T3 -> tame T1 T3.
Proof.
  intros (S1 & ? & ? & ? & ? & K1) (S2 & ? & ? & ? & ? & K2). split; [tauto|]. repeat (split; [congruence|]).
  intros Hs i Hi. eapply keeps_trans; [by apply K1|]. apply K2; tauto.
Qed.

(** Arrays beside the table. *)
Lemma tame_arrays T T' : table T' = table T -> next_pid T' = next_pid T -> live_count T' = live_count T -> process_lock T' = process_lock T ->
  process_lockdep_class T' = process_lockdep_class T -> (shape_ok T -> shape_ok T') -> tame T T'.
Proof. intros Ht ? ? ? ? Hs. split; [done|]. repeat (split; [done|]). intros _ i _. unfold slot. rewrite Ht. apply keeps_refl. Qed.

Lemma shape_put T i p : shape_ok T -> shape_ok (put i p T).
Proof. unfold shape_ok, put. cbn [table real_uids saved_uids real_gids saved_gids audit_uids sessions supplementary_counts supplementary_groups with_table]. by rewrite length_aset. Qed.

Lemma tame_on_slot T i f : index i -> keeps (slot T i) (f (slot T i)) -> tame T (on_slot i f T).
Proof.
  intros Hi Hk. unfold on_slot. split; [apply shape_put|]. repeat (split; [done|]). intros Hs j Hj. rewrite slot_put by (done || apply Hs).
  case_if; [by subst|apply keeps_refl].
Qed.

Lemma countb_pointwise {A} (f : A -> bool) (d : A) l l' : length l' = length l ->
  (forall i, 0 <= i < Z.of_nat (length l) -> f (aget d l' i) = f (aget d l i)) -> countb f l' = countb f l.
Proof.
  revert l'. induction l as [|x l IH]; intros [|y l'] Hl H; try done. rewrite !countb_cons.
  specialize (H 0 ltac:(cbn; lia)) as H0. change (f y = f x) in H0. rewrite H0, (IH l'); [done|by injection Hl|].
  intros i Hi. specialize (H (i + 1) ltac:(cbn [length]; lia)). unfold aget in *. rewrite Z2Nat.inj_add in H by lia.
  replace (Z.to_nat i + Z.to_nat 1)%nat with (S (Z.to_nat i)) in H by lia. exact H.
Qed.

Lemma keeps_used p p' : keeps p p' -> unused p' = unused p.
Proof. intros (E & _). unfold unused. by rewrite E. Qed.

Lemma tame_same_ids T T' : shape_ok T -> tame T T' -> same_ids T T'.
Proof.
  intros Hs (_ & _ & _ & _ & _ & K) i Hi. specialize (K Hs i Hi). unfold used. rewrite (keeps_used _ _ K). split; [done|]. intros _. apply K.
Qed.

(** ** Operations and their specification *)

Inductive proc_op :=
  | OCreate (nm : list Z) (par : Z) | OSpawn (nm : list Z) (par : Z) (image : list Z) (size : Z) | OFork (par rip rsp : Z)
  | OImage (id : Z) (image : list Z) (size : Z) (argv envp : list (option (list Z)))
  | OExit (id status : Z) | OWait (blocking : bool) (par wanted : Z) | OLogout (id status : Z)
  | OSetUid (id u : Z) | OSetGid (id g : Z) | OSetGroups (id : Z) (groups : option (list Z)) (count : Z)
  | OExec (id u g : Z) (setuid_bit setgid_bit : bool) | OSetGroup (id g : Z) | OSetSession (id s : Z) | OCreateSession (id : Z)
  | OLeaveSession (id : Z) | ODrop (id mask : Z) | ODelegate (par child mask : Z) | OSetAudit (id u : Z)
  | OSetCwd (id va : Z) (path : list Z) | OListSessions (capacity : Z).

(** The tree of processes: parent, and exit status of a zombie. *)
Definition node_of (T : procs) (id : Z) : option (Z * option Z) :=
  match process_lookup T id with
  | Some i => Some (parent (slot T i), if zombie (slot T i) then Some (exit_status (slot T i)) else None)
  | None => None
  end.

Definition wanted_ok (wanted id : Z) : Prop := wanted = ANY_PID \/ id = wanted.

(** A new process [id] with parent [par] joins the tree, in the given state. *)
Definition joins (a : Z -> option (Z * option Z)) (par id : Z) (s : option Z) (a' : Z -> option (Z * option Z)) : Prop :=
  1 <= id < 128 /\ a id = None /\ (par = 0 \/ a par <> None) /\ forall x, a' x = if x =? id then Some (par, s) else a x.

(** A child of [par] that the wait asks for. *)
Definition awaited (a : Z -> option (Z * option Z)) (par wanted x : Z) (s : option Z) : Prop := x <> 0 /\ a x = Some (par, s) /\ wanted_ok wanted x.

(** The file system does not give a new process the descriptors of [par]. *)
Definition fds_refused {W} `{!Host W} (par : Z) : Prop := exists id c (w : W) rc s, host_ok w /\ vfs_clone_fds par id (c, w) = Some (rc, s) /\ rc <> 0.

(** The abstract tree before and after an operation with its result: code and up to
    two values. [threads x] is the number of threads the scheduler counts for [x]. *)
Definition tree_step (W : Type) `{!Host W} (a : Z -> option (Z * option Z)) (threads : Z -> Z) (o : proc_op) (r : Z * Z * Z) (a' : Z -> option (Z * option Z)) : Prop :=
  let '(code, v1, v2) := r in
  match o with
  | OCreate nm par =>
      (code = 0 /\ joins a par v1 None a') \/
      (code = -1 /\ (aget 0 nm 0 = 0 \/ (par <> 0 /\ a par = None) \/ (forall x, 1 <= x < 128 -> a x <> None) \/ fds_refused (W := W) par) /\ forall x, a' x = a x)
  | OSpawn _ par _ _ =>
      (code = 0 /\ joins a par v1 None a') \/
      (code = -3 /\ par = 0 /\ exists id, joins a par id (Some 127) a') \/
      (-8 <= code < 0 /\ forall x, a' x = a x)
  | OFork par _ _ => (code = 0 /\ joins a par v1 None a') \/ (code = -1 /\ forall x, a' x = a x)
  | OExit id st =>
      (code = 0 /\ id <> 0 /\ exists par, a id = Some (par, None) /\ forall x, a' x = if x =? id then Some (par, Some st) else a x) \/
      (code = -1 /\ (forall par, a id = Some (par, None) -> id = 0) /\ forall x, a' x = a x)
  | OWait _ par wanted =>
      (code = 0 /\ awaited a par wanted v2 (Some v1) /\ threads v2 = 0 /\ forall x, a' x = if x =? v2 then None else a x) \/
      (code = 1 /\ (exists x s, awaited a par wanted x s) /\
        ((forall x s, awaited a par wanted x s -> s = None) \/ (exists x s, awaited a par wanted x (Some s) /\ threads x <> 0)) /\ forall x, a' x = a x) \/
      (code = 2 /\ (forall x s, ~ awaited a par wanted x s) /\ forall x, a' x = a x)
  | OLogout id st =>
      (code = 0 \/ code = -1) /\
      (forall x, a' x = a x \/ (code = 0 /\ x <> id /\ x <> 0 /\ exists par, a x = Some (par, None) /\ a' x = Some (par, Some st)))
  | _ => forall x, a' x = a x
  end.

(** ** Credentials *)

Record cred := { c_caps : Z; c_uid : Z; c_real : Z; c_saved : Z }.
Definition cred_of (T : procs) (i : Z) : cred :=
  {| c_caps := capabilities (slot T i); c_uid := uid (slot T i); c_real := aget 0 (real_uids T) i; c_saved := aget 0 (saved_uids T) i |}.
Definition full_cred : cred := {| c_caps := RIX_CAP_ALL; c_uid := 0; c_real := 0; c_saved := 0 |}.

(** [c] are the credentials of the process in slot [i] after the operation, when it was there before. *)
Definition cred_change (o : proc_op) (T : procs) (i : Z) (c : cred) : Prop :=
  let old := cred_of T i in
  c = old \/
  match o with
  | OSetUid id u => id = pid (slot T i) /\
      ((c_uid old = 0 /\ Z.testbit (c_caps old) 1 = true /\ c = {| c_caps := if u =? 0 then c_caps old else 0; c_uid := u; c_real := u; c_saved := u |}) \/
       (c_uid old <> 0 /\ (u = c_real old \/ u = c_saved old) /\ c = {| c_caps := c_caps old; c_uid := u; c_real := c_real old; c_saved := c_saved old |}))
  | OExec id u g su sg => id = pid (slot T i) /\
      c = {| c_caps := if su || sg then 0 else c_caps old; c_uid := if su then u else c_uid old; c_real := c_real old; c_saved := if su then u else c_saved old |}
  | ODrop id mask => id = pid (slot T i) /\
      c = {| c_caps := Z.land (c_caps old) (not64 mask); c_uid := c_uid old; c_real := c_real old; c_saved := c_saved old |}
  | ODelegate par child mask =>
      (par = pid (slot T i) /\ c = {| c_caps := Z.land (c_caps old) (not64 mask); c_uid := c_uid old; c_real := c_real old; c_saved := c_saved old |}) \/
      (child = pid (slot T i) /\ parent (slot T i) = par /\ exists j, process_lookup T par = Some j /\ j <> i /\
         Z.testbit (c_caps (cred_of T j)) 8 = true /\ Z.land (c_caps (cred_of T j)) mask = mask /\ Z.testbit mask 8 = false /\
         c = {| c_caps := Z.lor (c_caps old) mask; c_uid := c_uid old; c_real := c_real old; c_saved := c_saved old |})
  | _ => False
  end.

(** The parent of the process an operation creates. *)
Definition creates (o : proc_op) : option Z := match o with OCreate _ par | OSpawn _ par _ _ | OFork par _ _ => Some par | _ => None end.

(** Every process after the operation: one that was there, or the child just created. *)
Definition cred_step (o : proc_op) (T T' : procs) : Prop := forall i, index i -> used T' i = true ->
  (used T i = true /\ pid (slot T' i) = pid (slot T i) /\ cred_change o T i (cred_of T' i)) \/
  (used T i = false /\ exists par, creates o = Some par /\
     ((par = 0 /\ cred_of T' i = full_cred) \/ (par <> 0 /\ exists j, process_lookup T par = Some j /\ cred_of T' i = cred_of T j))).

(** What even an exit leaves alone. *)
Definition lasts (p p' : rix_process_t) : Prop :=
  unused p' = unused p /\ pid p' = pid p /\ parent p' = parent p /\ pml4_phys p' = pml4_phys p /\ kernel_stack p' = kernel_stack p /\
  (0 <= capabilities p < 512 -> 0 <= capabilities p' < 512).

Definition stays (T T' : procs) : Prop :=
  shape_ok T' /\ next_pid T' = next_pid T /\ live_count T' = live_count T /\ (forall i, index i -> lasts (slot T i) (slot T' i)).

Lemma tame_stays T T' : shape_ok T -> tame T T' -> stays T T'.
Proof.
  intros Hs (S & ? & ? & _ & _ & K). split; [by apply S|]. repeat (split; [done|]). intros i Hi. pose proof (K Hs i Hi) as Hk. split; [by apply keeps_used|].
  destruct Hk as (_ & ? & ? & _ & ? & ? & ?). done.
Qed.

Lemma stays_same_ids T T' : stays T T' -> same_ids T T'.
Proof. intros (_ & _ & _ & K) i Hi. destruct (K i Hi) as (Hu & Hp & _). unfold used. by rewrite Hu. Qed.

(** The same ids in the same slots. *)
Lemma ids_same T T' : shape_ok T -> shape_ok T' -> next_pid T' = next_pid T -> live_count T' = live_count T ->
  (forall i, index i -> used T' i = used T i) -> (forall i, index i -> pid (slot T' i) = pid (slot T i)) -> ids_ok T -> ids_ok T'.
Proof.
  intros Hs S En El Hu Hp (I0 & I1 & I2 & I3 & I4 & I5). assert (H0 : index 0) by (unfold index, RIX_PROCESS_MAX; lia).
  split; [by rewrite Hu|]. split; [by rewrite Hp|]. split; [intros i Hi; rewrite Hu, Hp by done; by apply I2|].
  split; [intros i j Hi Hj; rewrite !Hu, !Hp by done; by apply I3|]. split; [lia|]. rewrite El, I5. symmetry.
  apply (countb_pointwise _ no_process); [rewrite (proj1 Hs); apply S|]. rewrite (proj1 Hs). intros i Hi. exact (Hu i Hi).
Qed.

Section TableFacts.
Context {W : Type} {HW : Host W}.

Lemma stays_ok T T' w : stays T T' -> procs_ok T w -> procs_ok T' w.
Proof.
  intros HT (Hs & Hids0 & Hc & (R1 & R2 & R5) & (R3 & R4 & R6)). pose proof (stays_same_ids T T' HT) as Hids.
  destruct HT as (S & En & El & K). split; [done|].
  assert (Hu : forall i, index i -> used T' i = used T i) by (intros; by apply Hids).
  assert (Hp : forall i, index i -> pid (slot T' i) = pid (slot T i)) by (intros i Hi; apply (K i Hi)).
  assert (Hm : forall i, index i -> pml4_phys (slot T' i) = pml4_phys (slot T i)) by (intros i Hi; apply (K i Hi)).
  assert (Hk : forall i, index i -> kernel_stack (slot T' i) = kernel_stack (slot T i)) by (intros i Hi; apply (K i Hi)).
  split; [|split; [|split]].
  - by apply (ids_same T).
  - intros i Hi. apply (K i Hi), Hc, Hi.
  - split; [intros i Hi; rewrite Hu, Hm by done; by apply R1|]. split; [intros i j Hi Hj; rewrite !Hu, !Hm by done; by apply R2|].
    intros x Hx HS. destruct (R5 x Hx HS) as (i & Hi & H). exists i. by rewrite Hu, Hm.
  - split; [intros i Hi; rewrite Hu, Hk by done; by apply R3|]. split; [intros i j Hi Hj; rewrite !Hu, !Hk by done; by apply R4|].
    intros x Hx HS. destruct (R6 x Hx HS) as (i & Hi & H). exists i. by rewrite Hu, Hk.
Qed.

Lemma tame_ok T T' w : tame T T' -> procs_ok T w -> procs_ok T' w.
Proof. intros HT Hok. apply (stays_ok T); [|done]. apply tame_stays; [apply Hok|done]. Qed.

Context {HL : HostLaws W}.
Abbreviation st := (cpu * (procs * W))%type.

Definition exec (o : proc_op) : M st (Z * Z * Z) :=
  let code (m : M st Z) := rc ← m; mret (rc, 0, 0) in
  match o with
  | OCreate nm par => '(rc, id) ← process_create nm par; mret (rc, id, 0)
  | OSpawn nm par image size => '(rc, (id, _, _)) ← process_create_user nm par image size; mret (rc, id, 0)
  | OFork par rip rsp => '(rc, id) ← process_fork par rip rsp; mret (rc, id, 0)
  | OImage id image size argv envp => '(rc, (entry, sp)) ← process_exec_user_with_args id image size argv envp; mret (rc, entry, sp)
  | OExit id s => code (process_exit id s)
  | OWait b par wanted => '(rc, o) ← (if b then process_wait_blocking par wanted else process_wait par wanted);
      mret (match o with Some (s, id) => (rc, s, id) | None => (rc, 0, 0) end)
  | OLogout id s => code (process_logout_session id s)
  | OSetUid id u => code (process_setuid id u)
  | OSetGid id g => code (process_setgid id g)
  | OSetGroups id g n => code (process_setgroups id g n)
  | OExec id u g su sg => code (process_apply_exec_credentials id u g su sg)
  | OSetGroup id g => code (process_set_group id g)
  | OSetSession id s => code (process_set_session id s)
  | OCreateSession id => '(rc, s) ← process_create_session id; mret (rc, s, 0)
  | OLeaveSession id => code (process_leave_session id)
  | ODrop id m => code (process_drop_capabilities id m)
  | ODelegate p c m => code (process_delegate_capabilities p c m)
  | OSetAudit id u => code (process_set_audit_uid id u)
  | OSetCwd id va path => code (process_setcwd id va path)
  | OListSessions n => '(rc, _) ← process_list_sessions n; mret (rc, 0, 0)
  end.

(** ** Running under the guard *)

Definition same_res (w w' : W) : Prop := (forall r, space_of w' r <-> space_of w r) /\ (forall k, stack_of w' k <-> stack_of w k).

Lemma same_res_refl w : same_res w w.
Proof. by split. Qed.

Lemma same_res_trans w1 w2 w3 : same_res w1 w2 -> same_res w2 w3 -> same_res w1 w3.
Proof. intros [A B] [C D]. split; intros x; [rewrite C; apply A|rewrite D; apply B]. Qed.

Lemma res_ok_ext S S' f T : (forall x, S' x <-> S x) -> resources_ok S f T -> resources_ok S' f T.
Proof. intros H (A & B & C). split; [intros i Hi Hu Hn; by apply H, A|]. split; [done|]. intros x Hx HS. apply C; [done|]. by apply H. Qed.

Lemma procs_ok_host T w w' : same_res w w' -> procs_ok T w -> procs_ok T w'.
Proof. intros [A B] (H1 & H2 & H3 & H4 & H5). repeat (split; [done|]). split; [by apply (res_ok_ext (space_of w))|by apply (res_ok_ext (stack_of w))]. Qed.

Lemma on_host_run {A} (m : M (cpu * W) A) c (T : procs) w : quiet m -> host_ok w ->
  exists a w', on_host m (c, (T, w)) = Some (a, (c, (T, w'))) /\ host_ok w' /\ same_res w w'.
Proof. intros Hq Hw. destruct (Hq c w Hw) as (a & w' & E & Hw' & Hs). exists a, w'. unfold on_host. by rewrite E. Qed.

Lemma on_host_inv {A} (m : M (cpu * W) A) c (T : procs) w a w' : on_host m (c, (T, w)) = Some (a, (c, (T, w'))) -> m (c, w) = Some (a, (c, w')).
Proof. unfold on_host. destruct (m (c, w)) as [[a1 [c1 w1]]|]; [|done]. intros E. by injection E as -> -> ->. Qed.

(** A body run with the lock held that ends with [Q]. *)
Definition runs {R} (body : M st R) (T : procs) (w : W) (Q : R -> procs -> W -> Prop) : Prop := forall c,
  exists r T' w', body (c, (T, w)) = Some (r, (c, (T', w'))) /\ process_lock T' = process_lock T /\ host_ok w' /\ Q r T' w'.

Lemma guarded_run {R} (body : M st R) c T w (Q : R -> procs -> W -> Prop) :
  process_lock T = spin_free -> host_ok w ->
  (forall w1, host_ok w1 -> same_res w w1 -> (forall x, threads_of w1 x = threads_of w x) -> runs body (with_process_lock spin_held T) w1 Q) ->
  exists r T' w' w'', guarded body (c, (T, w)) = Some (r, (c, (with_process_lock spin_free T', w''))) /\ host_ok w'' /\ same_res w' w'' /\ Q r T' w'.
Proof.
  intros Hl Hw Hb. unfold guarded. rewrite (bind_Some _ _ _ (process_lockdep_class T) (c, (T, w))) by done.
  set (k := process_lockdep_class T). destruct (on_host_run (lockdep_acquire k) c T w (lockdep_acquire_quiet k) Hw) as (rc & w1 & E1 & Hw1 & Hs1).
  rewrite (bind_Some _ _ _ _ _ E1). set (c' := set_rflags (Z.clearbit (rflags c) IF_BIT) c).
  rewrite (bind_Some _ _ _ (rflags c) (c', (with_process_lock spin_held T, w1))).
  2: { unfold rix_spin_lock_irqsave, on_fst, on_guard, mbind, M_bind. rewrite irq_save_run. cbn [guard procs_guard fst]. by rewrite Hl. }
  pose proof (lockdep_acquire_threads _ _ _ _ _ _ (on_host_inv _ _ _ _ _ _ E1)) as Ht1.
  destruct (Hb w1 Hw1 Hs1 Ht1 c') as (r & T' & w2 & E2 & Hl2 & Hw2 & HQ). rewrite (bind_Some _ _ _ _ _ E2).
  assert (Hrel : exists w3, (if rc =? 0 then _ ← on_host (lockdep_release k); mret tt else mret tt : M st unit) (c', (T', w2)) = Some (tt, (c', (T', w3)))
    /\ host_ok w3 /\ same_res w2 w3).
  { destruct (rc =? 0); [|by exists w2; split; [done|]; split; [done|]; apply same_res_refl].
    destruct (on_host_run (lockdep_release k) c' T' w2 (lockdep_release_quiet k) Hw2) as (a & w3 & E3 & H3 & Hs3). exists w3. by rewrite (bind_Some _ _ _ _ _ E3). }
  destruct Hrel as (w3 & E3 & Hw3 & Hs3). rewrite (bind_Some _ _ _ _ _ E3). exists r, T', w2, w3.
  split; [|done]. unfold rix_spin_unlock_irqrestore, on_guard, on_fst, mbind, M_bind, mret, M_ret.
  cbn [guard procs_guard fst]. rewrite Hl2. cbn -[rix_irq_restore]. by rewrite irq_restore_after_cli.
Qed.

(** ** Calls that keep the tree *)

Lemma tame_node T T' w x : procs_ok T w -> tame T T' -> node_of T' x = node_of T x.
Proof.
  intros Hok HT. pose proof (tame_ok _ _ _ HT Hok) as (_ & Hids & _). unfold node_of. pose proof Hok as (Hs & _).
  rewrite (lookup_same_ids T T' x Hids (tame_same_ids T T' Hs HT)). destruct (process_lookup T x) as [i|] eqn:E; [|done].
  apply lookup_Some in E as (Hi & _). destruct HT as (_ & _ & _ & _ & _ & K). destruct (K Hs i Hi) as (E1 & _ & E2 & E3 & _). unfold zombie. by rewrite E1, E2, E3.
Qed.

Definition step_ok (o : proc_op) (T : procs) (w : W) (r : Z * Z * Z) (T' : procs) (w' : W) : Prop :=
  procs_ok T' w' /\ tree_step W (node_of T) (threads_of w) o r (node_of T') /\ cred_step o T T'.

Definition keeps_tree (o : proc_op) : bool := match o with OCreate _ _ | OSpawn _ _ _ _ | OFork _ _ _ | OExit _ _ | OWait _ _ _ | OLogout _ _ => false | _ => true end.

Lemma tame_step o T w r T' w' : keeps_tree o = true -> procs_ok T w -> same_res w w' -> tame T T' ->
  (forall i, index i -> used T i = true -> cred_change o T i (cred_of T' i)) -> step_ok o T w r T' w'.
Proof.
  intros Ho Hok Hs HT Hc. split; [|split].
  - apply (procs_ok_host _ w); [done|]. by apply (tame_ok T).
  - destruct r as [[code v1] v2]. destruct o; try done; cbn; intros x; by apply (tame_node _ _ w).
  - intros i Hi Hu. left. destruct (tame_same_ids T T' (proj1 Hok) HT i Hi) as [Eu Ep]. rewrite Eu in Hu. split; [done|]. split; [by apply Ep|]. by apply Hc.
Qed.

Lemma tree_step_threads a th th' o r a' : (forall x, th x = th' x) -> tree_step W a th o r a' -> tree_step W a th' o r a'.
Proof. intros E. destruct r as [[code v1] v2], o; try done. cbn. setoid_rewrite E. done. Qed.

Lemma runs_conseq {A} (m : M st A) T w (Q Q' : A -> procs -> W -> Prop) : runs m T w Q -> (forall a T' w', Q a T' w' -> Q' a T' w') -> runs m T w Q'.
Proof. intros H HQ c. destruct (H c) as (a & T' & w' & E & Hl & Hw & Hq). exists a, T', w'. eauto. Qed.

(** A guarded call whose body meets its specification for any state of the lock. *)
Lemma guarded_step {R} o (body : M st R) (res : R -> Z * Z * Z) c T w : ready T w ->
  (forall T0 w0, host_ok w0 -> procs_ok T0 w0 -> runs body T0 w0 (fun r T' w' => step_ok o T0 w0 (res r) T' w')) ->
  exists r T' w', guarded body (c, (T, w)) = Some (r, (c, (T', w'))) /\ ready T' w' /\ step_ok o T w (res r) T' w'.
Proof.
  intros (Hl & Hw & Hok) Hb.
  destruct (guarded_run body c T w (fun r T' w' => step_ok o T w (res r) T' w') Hl Hw) as (r & T' & w' & w'' & E & Hw'' & Hs & Hok' & Htr & Hcr).
  { intros w1 Hw1 Hs1 Ht1. apply (procs_ok_host _ _ _ Hs1) in Hok. eapply runs_conseq; [exact (Hb (with_process_lock spin_held T) w1 Hw1 Hok)|].
    cbn beta. intros r T' w' (A & B & C). split; [done|]. split; [by eapply tree_step_threads|exact C]. }
  exists r, (with_process_lock spin_free T'), w''. split; [done|]. apply (procs_ok_host _ _ _ Hs) in Hok'. split; [split; [done|]; split; [done|exact Hok']|].
  split; [exact Hok'|]. split; [exact Htr|exact Hcr].
Qed.

Lemma runs_bind {A B} (m : M st A) (k : A -> M st B) T w Q1 Q : runs m T w Q1 ->
  (forall a T1 w1, process_lock T1 = process_lock T -> host_ok w1 -> Q1 a T1 w1 -> runs (k a) T1 w1 Q) -> runs (m ≫= k) T w Q.
Proof.
  intros Hm Hk c. destruct (Hm c) as (a & T1 & w1 & E1 & Hl & Hw & H1). destruct (Hk a T1 w1 Hl Hw H1 c) as (r & T2 & w2 & E2 & Hl2 & Hw2 & H2).
  exists r, T2, w2. rewrite (bind_Some _ _ _ _ _ E1). split; [done|]. split; [congruence|done].
Qed.

Lemma runs_ret {A} (a : A) T w (Q : A -> procs -> W -> Prop) : host_ok w -> Q a T w -> runs (mret a) T w Q.
Proof. intros Hw HQ c. by exists a, T, w. Qed.

Lemma runs_reads {A B} (f : procs -> A) (k : A -> M st B) T w Q : runs (k (f T)) T w Q -> runs (reads f ≫= k) T w Q.
Proof. intros H c. destruct (H c) as (a & T' & w' & E & HQ). exists a, T', w'. by rewrite (bind_Some _ _ _ (f T) (c, (T, w))). Qed.

Lemma runs_host {A B} (m : M (cpu * W) A) (k : A -> M st B) T w Q : quiet m -> host_ok w ->
  (forall a w', host_ok w' -> same_res w w' -> runs (k a) T w' Q) -> runs (on_host m ≫= k) T w Q.
Proof.
  intros Hm Hw Hk c. destruct (on_host_run m c T w Hm Hw) as (a & w1 & E & Hw1 & Hs). destruct (Hk a w1 Hw1 Hs c) as (r & T2 & w2 & E2 & HQ).
  exists r, T2, w2. by rewrite (bind_Some _ _ _ _ _ E).
Qed.

Lemma runs_update {B} (f : procs -> procs) (k : unit -> M st B) T w Q : process_lock (f T) = process_lock T -> runs (k tt) (f T) w Q -> runs (update f ≫= k) T w Q.
Proof. intros Hl H c. destruct (H c) as (r & T2 & w2 & E2 & Hl2 & HQ). exists r, T2, w2. rewrite (bind_Some _ _ _ tt (c, (f T, w))) by done. split; [done|]. split; [congruence|done]. Qed.

Lemma runs_update_eq {B} (f : procs -> procs) (k : unit -> M st B) T T' w Q : f T = T' -> process_lock T' = process_lock T -> runs (k tt) T' w Q -> runs (update f ≫= k) T w Q.
Proof. intros <-. apply runs_update. Qed.

Lemma on_procs_runs {A} (f : procs -> A * procs) T w (Q : A -> procs -> W -> Prop) : host_ok w -> process_lock (f T).2 = process_lock T ->
  Q (f T).1 (f T).2 w -> runs (on_procs f) T w Q.
Proof. intros Hw Hl HQ c. exists (f T).1, (f T).2, w. unfold on_procs, act. by destruct (f T). Qed.

(** A pure body that keeps the tree. *)
Lemma pure_step o (f : procs -> Z * procs) c T w : keeps_tree o = true -> ready T w ->
  (forall T0, shape_ok T0 -> caps_ok T0 -> ids_ok T0 -> tame T0 (f T0).2 /\ (forall i, index i -> used T0 i = true -> cred_change o T0 i (cred_of (f T0).2 i))) ->
  exists r T' w', (rc ← guarded (on_procs f); mret (rc, 0, 0) : M st _) (c, (T, w)) = Some (r, (c, (T', w'))) /\ ready T' w' /\ step_ok o T w r T' w'.
Proof.
  intros Ho Hr Hf. destruct (guarded_step o (on_procs f) (fun rc => (rc, 0, 0)) c T w Hr) as (r & T' & w' & E & Hr' & Hst).
  { intros T0 w0 Hw0 Hok. destruct (Hf T0) as [HT Hc]; [apply Hok..|]. apply on_procs_runs; [done|apply HT|]. by apply (tame_step _ _ w0). }
  exists (r, 0, 0), T', w'. by rewrite (bind_Some _ _ _ _ _ E).
Qed.
End TableFacts.

(** Credentials after an update of one slot. *)
Lemma cred_on_slot T i j f : shape_ok T -> index i -> index j ->
  cred_of (on_slot i f T) j = if j =? i then {| c_caps := capabilities (f (slot T i)); c_uid := uid (f (slot T i)); c_real := c_real (cred_of T i); c_saved := c_saved (cred_of T i) |}
                             else cred_of T j.
Proof. intros Hs Hi Hj. unfold cred_of, on_slot. rewrite slot_put by (done || apply Hs). case_if; [by subst|done]. Qed.

Lemma aget_128 {A} (d : A) (l : list A) i j x : length l = 128%nat -> index i -> index j -> aget d (aset i x l) j = if j =? i then x else aget d l j.
Proof.
  unfold index, RIX_PROCESS_MAX. intros Hl Hi Hj. destruct (j =? i) eqn:E; bool_to_prop; [subst; apply aget_aset_eq; lia|apply aget_aset_ne; lia].
Qed.

(** ** The pure bodies *)

Lemma on_slot_twice T i f g : shape_ok T -> index i -> on_slot i f (on_slot i g T) = on_slot i (fun p => f (g p)) T.
Proof.
  intros Hs Hi. assert (E : slot (on_slot i g T) i = g (slot T i)) by (unfold on_slot; by rewrite slot_put, Z.eqb_refl by (done || apply Hs)).
  unfold on_slot at 1. rewrite E. unfold on_slot, put, with_table, aset. cbn. by rewrite list_insert_insert_eq.
Qed.

(** What [pure_step] asks of a body at a table. *)
Definition pure_ok (o : proc_op) (T T' : procs) : Prop :=
  tame T T' /\ (forall i, index i -> used T i = true -> cred_change o T i (cred_of T' i)).

Lemma pure_same o T : pure_ok o T T.
Proof. split; [apply tame_refl|]. intros. by left. Qed.

Ltac keep := unfold keeps; cbn; repeat split; first [done|tauto|lia].
Ltac shape := unfold shape_ok; cbn; rewrite ?length_aset; tauto.

(** An update of fields that credentials do not mention. *)
Lemma pure_plain o T i f : shape_ok T -> index i -> keeps (slot T i) (f (slot T i)) ->
  capabilities (f (slot T i)) = capabilities (slot T i) -> uid (f (slot T i)) = uid (slot T i) -> pure_ok o T (on_slot i f T).
Proof.
  intros Hs Hi Hk Hc Hu. split; [by apply tame_on_slot|]. intros j Hj _. left. rewrite cred_on_slot by done. case_if; [|done]. subst. by rewrite Hc, Hu.
Qed.

(** Arrays beside the table that credentials do not mention. *)
Lemma pure_arrays o T T' : shape_ok T -> table T' = table T -> next_pid T' = next_pid T -> live_count T' = live_count T -> process_lock T' = process_lock T ->
  process_lockdep_class T' = process_lockdep_class T -> real_uids T' = real_uids T -> saved_uids T' = saved_uids T -> shape_ok T' -> pure_ok o T T'.
Proof.
  intros Hs Ht ? ? ? ? Hr Hsv Hs'. split; [by apply tame_arrays|]. intros j Hj _. left. unfold cred_of, slot. by rewrite Ht, Hr, Hsv.
Qed.

Lemma pure_trans o T T1 T2 : shape_ok T -> pure_ok o T T1 -> tame T1 T2 -> (forall i, index i -> cred_of T2 i = cred_of T1 i) -> pure_ok o T T2.
Proof. intros Hs [H1 H2] H3 H4. split; [by apply (tame_trans _ T1)|]. intros i Hi Hu. rewrite H4 by done. by apply H2. Qed.

Lemma with_process_cases id f T :
  with_process id f T = (-1, T) \/ (exists p, process_lookup T id = Some p /\ index p /\ used T p = true /\ pid (slot T p) = id /\ with_process id f T = f p p T).
Proof.
  unfold with_process. destruct (process_lookup T id) as [p|] eqn:E; [|by left]. apply lookup_Some in E as (Hi & Hu & Hp & Hs). rewrite Hs.
  destruct (p <? 0) eqn:E0; [by left|]. right. by exists p.
Qed.

Lemma setuid_ok id u T : shape_ok T -> caps_ok T -> pure_ok (OSetUid id u) T (setuid_body id u T).2.
Proof.
  intros Hs Hc. unfold setuid_body. match goal with |- context [with_process id ?f T] => destruct (with_process_cases id f T) as [->|(p & El & Hi & Hu & Hp & ->)] end; [apply pure_same|].
  assert (Hcp : 0 <= capabilities (slot T p) < 512) by by apply Hc. cbv zeta.
  destruct (uid (slot T p) =? 0) eqn:E0; cbn [andb].
  - change RIX_CAP_SETUID with (bit 1). destruct (Z.land (capabilities (slot T p)) (bit 1) =? 0) eqn:E1; [apply pure_same|]. bool_to_prop. cbn [snd].
    set (T1 := with_saved_uids _ (with_real_uids _ T)). assert (Hs1 : shape_ok T1) by (revert Hs; unfold T1; shape).
    assert (Ht : tame T T1) by (apply tame_arrays; try done).
    assert (Hcap : Z.testbit (capabilities (slot T p)) 1 = true).
    { rewrite <- (land_bit_test (capabilities (slot T p)) 1) by lia. unfold truthy. by rewrite (proj2 (Z.eqb_neq _ _) E1). }
    set (g := fun q => if negb (u =? 0) then set_capabilities 0 (set_uid u q) else set_uid u q).
    assert (Eg : (if negb (u =? 0) then on_slot p (set_capabilities 0) (on_slot p (set_uid u) T1) else on_slot p (set_uid u) T1) = on_slot p g T1).
    { unfold g. destruct (negb (u =? 0)); [by rewrite on_slot_twice|done]. }
    rewrite Eg. split.
    + eapply tame_trans; [exact Ht|]. apply tame_on_slot; [done|]. unfold g. destruct (negb (u =? 0)); keep.
    + intros j Hj Huj. rewrite cred_on_slot by done. case_if; [|].
      * subst j. right. split; [done|]. left. split; [done|]. split; [done|]. change (slot T1 p) with (slot T p). unfold g, cred_of, T1. cbn.
        rewrite !aget_128 by (done || apply Hs). rewrite Z.eqb_refl. destruct (u =? 0); done.
      * left. unfold cred_of, T1. cbn. rewrite !aget_128 by (done || apply Hs). by rewrite (proj2 (Z.eqb_neq j p)).
  - bool_to_prop. destruct ((u =? aget 0 (real_uids T) p) || (u =? aget 0 (saved_uids T) p)) eqn:E1; [|apply pure_same]. cbn [snd]. bool_to_prop.
    split; [apply tame_on_slot; [done|keep]|]. intros j Hj Huj. rewrite cred_on_slot by done. case_if; [|by left]. subst j. right. split; [done|]. right.
    split; [done|]. split; [|done]. destruct E1; bool_to_prop; [by left|by right].
Qed.

Lemma setgid_ok id g T : shape_ok T -> pure_ok (OSetGid id g) T (setgid_body id g T).2.
Proof.
  intros Hs. unfold setgid_body. match goal with |- context [with_process id ?f T] => destruct (with_process_cases id f T) as [->|(p & El & Hi & Hu & Hp & ->)] end; [apply pure_same|].
  cbv zeta. case_if; [apply pure_same|]. case_if; [|case_if; [apply pure_plain; try done; keep|apply pure_same]]. cbn [snd].
  match goal with |- context [on_slot p _ ?t] => assert (H1 : pure_ok (OSetGid id g) T t) by (apply pure_arrays; try done; revert Hs; shape) end.
  eapply pure_trans; [done|exact H1|apply tame_on_slot; [done|keep]|]. intros j Hj. rewrite cred_on_slot; [|revert Hs; shape|done..]. by case_if; subst.
Qed.

Lemma setgroups_ok id g n T : shape_ok T -> pure_ok (OSetGroups id g n) T (setgroups_body id g n T).2.
Proof.
  intros Hs. unfold setgroups_body. destruct (process_lookup T id) as [p|]; [|apply pure_same]. cbv zeta. case_if; [apply pure_same|].
  apply pure_arrays; try done. revert Hs. shape.
Qed.

Lemma set_audit_ok id u T : shape_ok T -> pure_ok (OSetAudit id u) T (set_audit_uid_body id u T).2.
Proof.
  intros Hs. unfold set_audit_uid_body. match goal with |- context [with_process id ?f T] => destruct (with_process_cases id f T) as [->|(p & El & Hi & Hu & Hp & ->)] end; [apply pure_same|].
  case_if; [apply pure_same|]. apply pure_arrays; try done. revert Hs. shape.
Qed.

Lemma set_group_ok id g T : shape_ok T -> pure_ok (OSetGroup id g) T (set_group_body id g T).2.
Proof.
  intros Hs. unfold set_group_body. destruct (process_lookup T id) as [p|] eqn:E; [|apply pure_same]. apply lookup_Some in E as (Hi & _).
  case_if; [apply pure_same|]. apply pure_plain; try done; keep.
Qed.

Lemma set_session_ok id x T : shape_ok T -> pure_ok (OSetSession id x) T (set_session_body id x T).2.
Proof.
  intros Hs. unfold set_session_body. destruct (process_lookup T id) as [p|] eqn:E; [|apply pure_same]. apply lookup_Some in E as (Hi & _).
  case_if; [apply pure_same|]. apply pure_plain; try done; keep.
Qed.

(** The session table is beside the process table. *)
Lemma drop_session_arrays T x : exists l, session_drop_if_empty T x = with_sessions l T /\ length l = length (sessions T).
Proof.
  assert (H0 : exists l, T = with_sessions l T /\ length l = length (sessions T)) by (exists (sessions T); by destruct T).
  unfold session_drop_if_empty. case_if; [done|]. case_match; [|done]. case_match; [done|]. eexists. split; [reflexivity|]. apply length_aset.
Qed.

Lemma register_arrays T x y z : exists l, (session_register T x y z).2 = with_sessions l T /\ length l = length (sessions T).
Proof.
  assert (H0 : exists l, T = with_sessions l T /\ length l = length (sessions T)) by (exists (sessions T); by destruct T).
  unfold session_register. case_if; [done|]. case_match; [case_match; [done|]|]; (eexists; split; [reflexivity|]; apply length_aset).
Qed.

Lemma tame_sessions T l : length l = length (sessions T) -> tame T (with_sessions l T).
Proof. intros Hl. apply tame_arrays; try done. unfold shape_ok. cbn. by rewrite Hl. Qed.

Lemma leave_session_ok id T : shape_ok T -> pure_ok (OLeaveSession id) T (leave_session_body id T).2.
Proof.
  intros Hs. unfold leave_session_body. destruct (process_lookup T id) as [p|] eqn:E; [|apply pure_same]. apply lookup_Some in E as (Hi & _).
  case_if; [apply pure_same|]. cbv zeta. cbn [snd]. set (T1 := on_slot p _ T). destruct (drop_session_arrays T1 (session (slot T p))) as (l & -> & Hl).
  apply (pure_trans _ _ T1); [done|apply pure_plain; try done; keep|by apply tame_sessions|done].
Qed.

Lemma create_session_ok id T : shape_ok T -> pure_ok (OCreateSession id) T (create_session_body id T).2.
Proof.
  intros Hs. unfold create_session_body. destruct (process_lookup T id) as [p|] eqn:E; [|apply pure_same]. apply lookup_Some in E as (Hi & _).
  case_if; [apply pure_same|]. cbv zeta. set (T1 := on_slot p _ T). destruct (register_arrays T1 id id (uid (slot T1 p))) as (l & El & Hl).
  destruct (session_register T1 id id _) as [rc T2]. cbn [snd] in El. subst T2.
  assert (HP1 : pure_ok (OCreateSession id) T T1) by (apply pure_plain; try done; keep).
  assert (Hs1 : shape_ok T1) by (by apply shape_put).
  assert (HP2 : pure_ok (OCreateSession id) T (with_sessions l T1)) by (eapply pure_trans; [done|exact HP1|by apply tame_sessions|done]).
  case_if; [|exact HP2]. eapply pure_trans; [done|exact HP2|apply tame_on_slot; [done|keep]|]. intros j Hj.
  cbn [snd]. rewrite cred_on_slot; [|revert Hs1; unfold shape_ok; cbn; by rewrite Hl|done..]. by case_if; subst.
Qed.

Lemma exec_credentials_ok id u g su sg T : shape_ok T -> caps_ok T -> pure_ok (OExec id u g su sg) T (exec_credentials_body id u g su sg T).2.
Proof.
  intros Hs Hc. unfold exec_credentials_body. match goal with |- context [with_process id ?f T] => destruct (with_process_cases id f T) as [->|(p & El & Hi & Hu & Hp & ->)] end; [apply pure_same|].
  cbv zeta. cbn [snd]. set (T1 := if su then _ else T). set (T2 := if sg then _ else T1).
  assert (H1 : tame T T1 /\ shape_ok T1 /\ forall j, index j -> cred_of T1 j = if (j =? p) && su then {| c_caps := c_caps (cred_of T p); c_uid := u; c_real := c_real (cred_of T p); c_saved := u |} else cred_of T j).
  { unfold T1. destruct su; [|split; [apply tame_refl|]; split; [done|]; intros; by rewrite andb_false_r].
    assert (Hs1 : shape_ok (on_slot p (set_uid u) T)) by by apply shape_put.
    split; [apply (tame_trans _ (on_slot p (set_uid u) T)); [apply tame_on_slot; [done|keep]|apply tame_arrays; try done; shape]|]. split; [revert Hs1; shape|].
    intros j Hj. rewrite andb_true_r. unfold cred_of at 1. cbn [saved_uids with_saved_uids real_uids]. rewrite aget_128 by (done || apply Hs).
    change (slot (with_saved_uids _ _) j) with (slot (on_slot p (set_uid u) T) j). unfold on_slot. rewrite slot_put by (done || apply Hs). case_if; [by subst|done]. }
  destruct H1 as (Ht1 & Hs1 & Ec1).
  assert (H2 : tame T T2 /\ shape_ok T2 /\ forall j, index j -> cred_of T2 j = cred_of T1 j).
  { unfold T2. destruct sg; [|done]. assert (Hs2 : shape_ok (on_slot p (set_gid g) T1)) by by apply shape_put.
    split; [eapply tame_trans; [exact Ht1|]; apply (tame_trans _ (on_slot p (set_gid g) T1)); [apply tame_on_slot; [done|keep]|apply tame_arrays; try done; shape]|].
    split; [revert Hs2; shape|]. intros j Hj. change (cred_of (on_slot p (set_gid g) T1) j = cred_of T1 j). rewrite cred_on_slot by done. by case_if; subst. }
  destruct H2 as (Ht2 & Hs2 & Ec2). split.
  - destruct (su || sg); [|done]. eapply tame_trans; [exact Ht2|]. apply tame_on_slot; [done|keep].
  - intros j Hj Huj. destruct (decide (j = p)) as [->|Hne].
    + right. split; [done|]. destruct (su || sg) eqn:E.
      * rewrite cred_on_slot, Z.eqb_refl by done. change (uid (set_capabilities 0 (slot T2 p))) with (c_uid (cred_of T2 p)).
        rewrite Ec2, Ec1, Z.eqb_refl by done. by destruct su.
      * rewrite Ec2, Ec1, Z.eqb_refl by done. destruct su; [done|]. by destruct (cred_of T p).
    + left. destruct (su || sg).
      * rewrite cred_on_slot, (proj2 (Z.eqb_neq j p)) by done. rewrite Ec2, Ec1, (proj2 (Z.eqb_neq j p)) by done. done.
      * rewrite Ec2, Ec1, (proj2 (Z.eqb_neq j p)) by done. done.
Qed.

Lemma drop_ok id mask T : shape_ok T -> caps_ok T -> pure_ok (ODrop id mask) T (drop_capabilities_body id mask T).2.
Proof.
  intros Hs Hc. unfold drop_capabilities_body. destruct (process_lookup T id) as [p|] eqn:E; [|apply pure_same]. apply lookup_Some in E as (Hi & Hu & Hp & _).
  case_if; [apply pure_same|]. cbn [snd]. split.
  - apply tame_on_slot; [done|]. unfold keeps. cbn. repeat split; try done; apply (land_range _ _ 9); lia.
  - intros j Hj _. rewrite cred_on_slot by done. case_if; [|by left]. subst. by right.
Qed.

Lemma delegate_ok par child mask T : shape_ok T -> caps_ok T -> ids_ok T -> pure_ok (ODelegate par child mask) T (delegate_body par child mask T).2.
Proof.
  intros Hs Hc Hids. unfold delegate_body. destruct (process_lookup T par) as [p|] eqn:Ep; [|apply pure_same]. destruct (process_lookup T child) as [c|] eqn:Ec; [|apply pure_same].
  case_if; [apply pure_same|]. cbv zeta. cbn [snd]. unfold process_has_capability in *. rewrite Ep in *.
  pose proof (lookup_Some _ _ _ Ep) as (Hi & Hu & Hpp & _). pose proof (lookup_Some _ _ _ Ec) as (Hj & Huc & Hpc & _).
  repeat match goal with H : _ = false |- _ => apply orb_false_iff in H as [? ?] || apply negb_false_iff in H end. bool_to_prop.
  assert (Hne : p <> c) by congruence.
  repeat match goal with H : _ && _ = true |- _ => apply andb_true_iff in H as [? ?] end. bool_to_prop.
  assert (Hm : 0 <= mask < 512).
  { match goal with H : Z.land _ mask = mask |- _ => rewrite <- H end. by apply (land_range _ _ 9), Hc. }
  assert (Hd : Z.testbit (capabilities (slot T p)) 8 = true).
  { rewrite <- land_bit_test by lia. change (bit 8) with RIX_CAP_DELEGATE. match goal with H : Z.land _ RIX_CAP_DELEGATE = _ |- _ => rewrite H end. done. }
  assert (Hn : Z.testbit mask 8 = false) by (rewrite <- land_bit_test by lia; change (bit 8) with RIX_CAP_DELEGATE; match goal with H : Z.land mask RIX_CAP_DELEGATE = 0 |- _ => rewrite H end; done).
  set (T1 := on_slot c _ T). assert (Hs1 : shape_ok T1) by by apply shape_put.
  assert (Ht1 : tame T T1).
  { apply tame_on_slot; [done|]. unfold keeps. cbn. repeat split; try done; apply (lor_range _ _ 9); lia. }
  assert (Es : slot T1 p = slot T p) by (unfold T1, on_slot; rewrite slot_put, (proj2 (Z.eqb_neq p c)) by (done || apply Hs); done).
  split.
  - eapply tame_trans; [exact Ht1|]. apply tame_on_slot; [done|]. rewrite Es. unfold keeps. cbn. repeat split; try done; apply (land_range _ _ 9); lia.
  - intros k Hk _. rewrite cred_on_slot, Es by done. destruct (k =? p) eqn:Ekp; bool_to_prop.
    + subst k. right. left. split; [done|]. unfold cred_of, T1. cbn. done.
    + unfold T1. rewrite cred_on_slot by done. destruct (k =? c) eqn:Ekc; bool_to_prop; [|by left]. subst k. right. right. split; [done|]. split; [done|].
      exists p. repeat (split; [done|]). done.
Qed.

(** ** Exit *)

(** The table after process [p] ended. *)
Definition ended (p st : Z) (T T' : procs) : Prop := exists cur l, length l = length (sessions T) /\
  T' = with_sessions l (with_current_pid cur (on_slot p (fun q => set_state RIX_PROC_ZOMBIE (set_exit_status st q)) T)).

Lemma ended_slot p st T T' i : shape_ok T -> index p -> index i -> ended p st T T' ->
  slot T' i = if i =? p then set_state RIX_PROC_ZOMBIE (set_exit_status st (slot T p)) else slot T i.
Proof. intros Hs Hp Hi (cur & l & Hl & ->). change (slot (on_slot p (fun q => set_state RIX_PROC_ZOMBIE (set_exit_status st q)) T) i = if i =? p then set_state RIX_PROC_ZOMBIE (set_exit_status st (slot T p)) else slot T i).
  unfold on_slot. by rewrite slot_put by (done || apply Hs). Qed.

Lemma ended_stays p st T T' : shape_ok T -> index p -> used T p = true -> ended p st T T' -> stays T T'.
Proof.
  intros Hs Hp Hu HE. split; [|split; [|split]].
  - destruct HE as (cur & l & Hl & ->). pose proof (shape_put T p (set_state RIX_PROC_ZOMBIE (set_exit_status st (slot T p))) Hs) as H. revert H. unfold shape_ok. cbn. by rewrite Hl.
  - destruct HE as (cur & l & _ & ->). done.
  - destruct HE as (cur & l & _ & ->). done.
  - intros i Hi. rewrite (ended_slot _ _ _ _ _ Hs Hp Hi HE). destruct (i =? p) eqn:E; [|unfold lasts; tauto]. bool_to_prop. subst i.
    unfold lasts. cbn. split; [|tauto]. unfold used in Hu. by destruct (unused (slot T p)).
Qed.

Lemma ended_node p st T T' x : shape_ok T -> ids_ok T -> ids_ok T' -> index p -> used T p = true -> ended p st T T' ->
  node_of T' x = if x =? pid (slot T p) then Some (parent (slot T p), Some st) else node_of T x.
Proof.
  intros Hs Hids Hids' Hp Hu HE. pose proof (stays_same_ids _ _ (ended_stays _ _ _ _ Hs Hp Hu HE)) as Hsame. unfold node_of.
  rewrite (lookup_same_ids T T' x Hids' Hsame). destruct (x =? pid (slot T p)) eqn:E; bool_to_prop.
  - subst x. rewrite lookup_used by done. by rewrite (ended_slot _ _ _ _ _ Hs Hp Hp HE), Z.eqb_refl.
  - destruct (process_lookup T x) as [i|] eqn:El; [|done]. apply lookup_Some in El as (Hi & _ & Hx & _).
    rewrite (ended_slot _ _ _ _ _ Hs Hp Hi HE), (proj2 (Z.eqb_neq i p)) by congruence. done.
Qed.

Section Effects.
Context {W : Type} {HW : Host W} {HL : HostLaws W}.
Abbreviation st := (cpu * (procs * W))%type.

Lemma exit_locked_run id s T w : host_ok w -> ids_ok T ->
  runs (process_exit_locked id s) T w (fun rc T' w' => same_res w w' /\
    ((rc = -1 /\ T' = T /\ (forall par, node_of T id = Some (par, None) -> id = 0)) \/
     (rc = 0 /\ id <> 0 /\ exists p, process_lookup T id = Some p /\ zombie (slot T p) = false /\ ended p s T T'))).
Proof.
  intros Hw Hids. unfold process_exit_locked. apply runs_reads. destruct (process_lookup T id) as [p|] eqn:El.
  2: { apply runs_ret; [done|]. split; [apply same_res_refl|]. left. repeat (split; [done|]). unfold node_of. by rewrite El. }
  apply runs_reads. destruct ((id =? 0) || zombie (slot T p)) eqn:E.
  { apply runs_ret; [done|]. split; [apply same_res_refl|]. left. repeat (split; [done|]). unfold node_of. rewrite El. intros par H.
    destruct (zombie (slot T p)); [done|]. rewrite orb_false_r in E. by bool_to_prop. }
  apply orb_false_iff in E as [E0 Ez]. bool_to_prop. apply runs_reads. apply runs_host; [apply vfs_close_all_quiet|done|]. intros a w1 Hw1 Hs1.
  apply runs_update; [done|]. apply runs_host; [apply thread_detach_quiet|done|]. intros _ w2 Hw2 Hs2. apply runs_reads.
  apply runs_host; [apply wake_quiet|done|]. intros _ w3 Hw3 Hs3.
  set (T1 := on_slot p _ T).
  assert (Hc : exists cur, (if current_pid T1 =? id then with_current_pid 0 T1 else T1) = with_current_pid cur T1).
  { case_if; [by exists 0|]. exists (current_pid T1). by destruct T1. }
  apply runs_update.
  { destruct Hc as [cur ->]. destruct (drop_session_arrays (with_current_pid cur T1) (session (slot T p))) as (l & -> & _). done. }
  apply runs_ret; [done|]. split; [by repeat (eapply same_res_trans; [eassumption|])|]. right. split; [done|]. split; [done|]. exists p. split; [done|]. split; [done|].
  destruct Hc as [cur ->]. destruct (drop_session_arrays (with_current_pid cur T1) (session (slot T p))) as (l & -> & Hl). by exists cur, l.
Qed.

Lemma stays_cred_step o T T' : stays T T' -> (forall i, index i -> cred_of T' i = cred_of T i) -> cred_step o T T'.
Proof.
  intros HT Hc i Hi Hu. destruct (stays_same_ids _ _ HT i Hi) as [Eu Ep]. rewrite Eu in Hu. left. split; [done|]. split; [by apply Ep|]. left. by apply Hc.
Qed.

Lemma ended_cred p s T T' i : shape_ok T -> index p -> index i -> ended p s T T' -> cred_of T' i = cred_of T i.
Proof.
  intros Hs Hp Hi HE. pose proof (ended_slot _ _ _ _ _ Hs Hp Hi HE) as E. unfold cred_of. rewrite E. destruct HE as (cur & l & _ & ->). cbn. case_if; [by subst|done].
Qed.

Lemma exit_step id s T w : host_ok w -> procs_ok T w ->
  runs (process_exit_locked id s) T w (fun rc T' w' => step_ok (OExit id s) T w (rc, 0, 0) T' w').
Proof.
  intros Hw Hok. eapply runs_conseq; [apply exit_locked_run; [done|apply Hok]|]. cbn beta. intros rc T' w' (Hs & H). apply (procs_ok_host _ _ _ Hs) in Hok as Hok'.
  pose proof Hok as (Hsh & Hids & _). destruct H as [(-> & -> & Hn)|(-> & H0 & p & El & Ez & HE)].
  - split; [done|]. split; [by right|]. apply stays_cred_step; [|done]. apply tame_stays; [done|apply tame_refl].
  - apply lookup_Some in El as (Hi & Hu & Hx & _). pose proof (ended_stays _ _ _ _ Hsh Hi Hu HE) as HT. pose proof (stays_ok _ _ _ HT Hok') as Hok2.
    split; [done|]. split; [|apply stays_cred_step; [done|]; intros i Hi'; by apply (ended_cred p s)].
    left. split; [done|]. split; [done|]. exists (parent (slot T p)). split.
    + unfold node_of. rewrite <- Hx, lookup_used by done. by rewrite Ez.
    + intros x. rewrite (ended_node p s T T') by (done || apply Hok2). by rewrite Hx.
Qed.

(** ** Logout *)

Definition logged (id s : Z) (T T' : procs) : Prop := stays T T' /\ ids_ok T' /\
  (forall x, node_of T' x = node_of T x \/ (x <> id /\ x <> 0 /\ exists par, node_of T x = Some (par, None) /\ node_of T' x = Some (par, Some s))) /\
  (forall i, index i -> cred_of T' i = cred_of T i).

Lemma stays_trans T1 T2 T3 : stays T1 T2 -> stays T2 T3 -> stays T1 T3.
Proof.
  intros (? & ? & ? & K1) (? & ? & ? & K2). split; [done|]. repeat (split; [congruence|]). intros i Hi.
  destruct (K1 i Hi) as (? & ? & ? & ? & ? & ?), (K2 i Hi) as (? & ? & ? & ? & ? & ?). unfold lasts. repeat (split; [congruence|]). tauto.
Qed.

Lemma logged_step id s T T1 T2 p : shape_ok T -> logged id s T T1 -> index p -> used T1 p = true -> pid (slot T1 p) <> id -> pid (slot T1 p) <> 0 ->
  zombie (slot T1 p) = false -> ended p s T1 T2 -> ids_ok T2 -> logged id s T T2.
Proof.
  intros Hs (HT & Hids & Hn & Hc) Hp Hu Hne H0 Hz HE Hids2. assert (Hs1 : shape_ok T1) by apply HT.
  split; [eapply stays_trans; [done|]; by apply (ended_stays p s)|]. split; [done|]. split.
  - intros x. rewrite (ended_node p s T1 T2) by done. destruct (x =? pid (slot T1 p)) eqn:E; [|apply Hn]. bool_to_prop. subst x. right. split; [done|]. split; [done|].
    exists (parent (slot T1 p)). split; [|done]. destruct (Hn (pid (slot T1 p))) as [E|(_ & _ & par & _ & E)].
    + rewrite <- E. unfold node_of. rewrite lookup_used by done. by rewrite Hz.
    + revert E. unfold node_of. rewrite lookup_used, Hz by done. done.
  - intros i Hi. rewrite <- Hc by done. by apply (ended_cred p s).
Qed.

Lemma logout_step id s T w : host_ok w -> procs_ok T w ->
  runs (p ← reads (fun T => process_lookup T id);
        match p with
        | None => mret (-1)
        | Some p =>
          p ← reads (fun T => slot T p);
          if unused p || zombie p || (session p =? 0) then mret (-1)
          else
            let sid := session p in
            _ ← mfor (Z.to_nat (RIX_PROCESS_MAX - 1)) 1 (fun i =>
              q ← reads (fun T => slot T i);
              if negb (unused q) && negb (zombie q) && negb (pid q =? id) && (session q =? sid)
              then _ ← process_exit_locked (pid q) s; mret tt else mret tt);
            mret 0
        end : M st Z) T w (fun rc T' w' => step_ok (OLogout id s) T w (rc, 0, 0) T' w').
Proof.
  intros Hw Hok. pose proof Hok as (Hs & Hids & _).
  assert (Hsame : forall rc, rc = -1 -> step_ok (OLogout id s) T w (rc, 0, 0) T w).
  { intros rc ->. split; [done|]. split; [|apply stays_cred_step; [apply tame_stays; [done|apply tame_refl]|done]]. split; [by right|]. by left. }
  apply runs_reads. destruct (process_lookup T id) as [p|]; [|by apply runs_ret; [|apply Hsame]]. apply runs_reads.
  destruct (unused (slot T p) || _ || _); [by apply runs_ret; [|apply Hsame]|]. cbv zeta. intros c.
  set (I := fun (k : Z) (x : st) => exists T1 w1, x = (c, (T1, w1)) /\ process_lock T1 = process_lock T /\ host_ok w1 /\ same_res w w1 /\ logged id s T T1).
  match goal with |- context [mfor ?n 1 ?b] => destruct (mfor_run I n 1 b (c, (T, w))) as (x & E & T1 & w1 & -> & Hl1 & Hw1 & Hs1 & HL1) end.
  { exists T, w. do 3 (split; [done|]). split; [apply same_res_refl|]. split; [apply tame_stays; [done|apply tame_refl]|]. split; [done|]. split; [by left|done]. }
  { intros k x Hk (T1 & w1 & -> & Hl1 & Hw1 & Hs1 & HL1). pose proof HL1 as (HT1 & Hids1 & _).
    rewrite (bind_Some _ _ _ (slot T1 k) (c, (T1, w1))) by done. assert (Hik : index k) by (unfold index, RIX_PROCESS_MAX in *; lia).
    destruct (_ && _ && _ && _) eqn:E; [|exists (c, (T1, w1)); split; [done|]; by exists T1, w1].
    apply andb_true_iff in E as [E _]. apply andb_true_iff in E as [E Ep]. apply andb_true_iff in E as [Eu Ez]. bool_to_prop.
    assert (Huk : used T1 k = true) by (unfold used; by rewrite Eu).
    destruct (exit_locked_run (pid (slot T1 k)) s T1 w1 Hw1 Hids1 c) as (rc & T2 & w2 & E2 & Hl2 & Hw2 & Hs2 & H2). rewrite (bind_Some _ _ _ _ _ E2).
    exists (c, (T2, w2)). split; [done|]. exists T2, w2. split; [done|]. split; [congruence|]. split; [done|]. split; [by eapply same_res_trans|].
    destruct H2 as [(_ & -> & _)|(_ & H0 & q & Eq & Hz & HE)]; [done|]. rewrite lookup_used in Eq by done. injection Eq as <-.
    pose proof (ended_stays _ _ _ _ (proj1 HT1) Hik Huk HE) as HT2.
    assert (Hok1 : procs_ok T1 w1) by (apply (procs_ok_host _ _ _ Hs1); by apply (stays_ok T)).
    apply (logged_step id s T T1 T2 k); try done. apply (stays_ok _ _ _ HT2 Hok1). }
  exists 0, T1, w1. rewrite (bind_Some _ _ _ _ _ E). split; [done|]. split; [done|]. split; [done|]. destruct HL1 as (HT1 & Hids1 & Hn & Hc).
  split; [apply (procs_ok_host _ _ _ Hs1); by apply (stays_ok T)|]. split; [|by apply stays_cred_step]. split; [by left|].
  intros y. destruct (Hn y) as [?|?]; [by left|right; tauto].
Qed.

(** ** Wait *)

Definition matches (par wanted : Z) (p : rix_process_t) : bool :=
  negb (unused p) && (parent p =? par) && ((wanted =? ANY_PID) || (pid p =? wanted)).

Lemma wait_find_cases par wanted T :
  (exists i, wait_find_locked par wanted T = (true, Some i) /\ index i /\ i <> 0 /\ matches par wanted (slot T i) = true /\ zombie (slot T i) = true) \/
  (wait_find_locked par wanted T = (true, None) /\ (exists i, index i /\ i <> 0 /\ matches par wanted (slot T i) = true) /\
    forall i, index i -> i <> 0 -> matches par wanted (slot T i) = true -> zombie (slot T i) = false) \/
  (wait_find_locked par wanted T = (false, None) /\ forall i, index i -> i <> 0 -> matches par wanted (slot T i) = false).
Proof.
  unfold wait_find_locked. match goal with |- context [for_ 1 ?n ?b false] =>
    pose proof (for_inv (fun k (has : bool) => (if has then exists i, index i /\ i <> 0 /\ matches par wanted (slot T i) = true
                                      else forall i, 1 <= i < k -> matches par wanted (slot T i) = false) /\
                                      forall i, 1 <= i < k -> matches par wanted (slot T i) = true -> zombie (slot T i) = false)
      (fun i => index i /\ i <> 0 /\ matches par wanted (slot T i) = true /\ zombie (slot T i) = true) 1 n b false) as H end.
  specialize (H ltac:(unfold RIX_PROCESS_MAX; lia) ltac:(cbn; split; intros; lia)).
  match type of H with ?A -> _ => assert (Hstep : A) end.
  { intros k has Hk [IH IHz]. fold (matches par wanted (slot T k)). assert (Hik : index k /\ k <> 0) by (unfold index, RIX_PROCESS_MAX in *; lia).
    destruct (matches par wanted (slot T k)) eqn:E; [destruct (zombie (slot T k)) eqn:Ez; [tauto|]|].
    - split; [exists k; tauto|]. intros i Hi. destruct (decide (i = k)) as [->|]; [done|]. apply IHz. lia.
    - split; [destruct has; [done|]|]; intros i Hi; (destruct (decide (i = k)) as [->|]; [first [done|congruence]|]); [apply IH|apply IHz]; lia. }
  specialize (H Hstep). assert (Hin : forall i, index i -> i <> 0 -> 1 <= i < 1 + (RIX_PROCESS_MAX - 1)) by (unfold index, RIX_PROCESS_MAX; lia).
  destruct (for_ 1 _ _ false) as [[]|i].
  - right. left. split; [done|]. destruct H as [H Hz]. split; [done|]. intros i Hi H0. apply Hz. by apply Hin.
  - right. right. split; [done|]. intros i Hi H0. apply H. by apply Hin.
  - left. by exists i.
Qed.

Lemma matches_node par wanted T i : ids_ok T -> index i -> i <> 0 -> matches par wanted (slot T i) = true ->
  pid (slot T i) <> 0 /\ wanted_ok wanted (pid (slot T i)) /\ used T i = true /\
  node_of T (pid (slot T i)) = Some (par, if zombie (slot T i) then Some (exit_status (slot T i)) else None).
Proof.
  intros Hids Hi H0 H. unfold matches in H. apply andb_true_iff in H as [H Hw]. apply andb_true_iff in H as [Hu Hp]. fold (used T i) in Hu. bool_to_prop.
  pose proof Hids as (_ & _ & Hr & _). specialize (Hr i Hi H0 Hu). split; [lia|]. split; [|split; [done|]].
  - destruct Hw as [Hw|Hw]; bool_to_prop; [by left|by right].
  - unfold node_of. rewrite lookup_used by done. by rewrite Hp.
Qed.

Lemma awaited_slot par wanted T x s : ids_ok T -> awaited (node_of T) par wanted x s ->
  exists i, index i /\ i <> 0 /\ matches par wanted (slot T i) = true /\ s = if zombie (slot T i) then Some (exit_status (slot T i)) else None.
Proof.
  intros Hids (Hx & Hn & Hwt). unfold node_of in Hn. destruct (process_lookup T x) as [i|] eqn:El; [|done]. apply lookup_Some in El as (Hi & Hu & Hpx & _).
  injection Hn as Hpar Hs. exists i. split; [done|]. split; [intros ->; destruct Hids as (_ & Hz0 & _); congruence|]. split; [|done].
  unfold matches. unfold used in Hu. rewrite Hu, Hpar, Z.eqb_refl, Hpx. cbn [andb]. apply orb_true_iff. destruct Hwt as [->| ->]; [left|right]; apply Z.eqb_refl.
Qed.

(** The table after slot [i] was given back. *)
Definition freed (i : Z) (T T' : procs) : Prop :=
  shape_ok T' /\ next_pid T' = next_pid T /\ live_count T' = live_count T - 1 /\
  (forall j, index j -> j <> i -> slot T' j = slot T j /\ cred_of T' j = cred_of T j) /\ unused (slot T' i) = true /\ capabilities (slot T' i) = 0.

Lemma freed_ids i T T' : shape_ok T -> ids_ok T -> index i -> i <> 0 -> used T i = true -> freed i T T' -> ids_ok T'.
Proof.
  intros Hs (I0 & I1 & I2 & I3 & I4 & I5) Hi H0 Hu (Hs' & En & El & Ho & Hf & _).
  assert (H00 : index 0) by (unfold index, RIX_PROCESS_MAX; lia).
  assert (Hu' : forall j, index j -> used T' j = true -> j <> i /\ used T j = true /\ slot T' j = slot T j).
  { intros j Hj Huj. destruct (decide (j = i)) as [->|Hne]; [unfold used in Huj; by rewrite Hf in Huj|]. destruct (Ho j Hj Hne) as [E _]. unfold used in *. by rewrite E in Huj. }
  destruct (Ho 0 H00 ltac:(done)) as [E0 _]. split; [unfold used; by rewrite E0|]. split; [by rewrite E0|]. split; [|split; [|split; [lia|]]].
  - intros j Hj Hj0 Huj. destruct (Hu' j Hj Huj) as (_ & Huj' & ->). by apply I2.
  - intros j k Hj Hk Huj Huk. destruct (Hu' j Hj Huj) as (_ & ? & ->), (Hu' k Hk Huk) as (_ & ? & ->). by apply I3.
  - assert (Ec : countb (fun p => negb (unused p)) (table T') = countb (fun p => negb (unused p)) (aset i (slot T' i) (table T))).
    { apply (countb_pointwise _ no_process); [rewrite length_aset, (proj1 Hs); apply Hs'|]. rewrite length_aset, (proj1 Hs). intros j Hj.
      change (aget no_process (table T') j) with (slot T' j). change (aget no_process (aset i (slot T' i) (table T)) j) with (slot (put i (slot T' i) T) j).
      rewrite slot_put by (done || apply Hs || (unfold index, RIX_PROCESS_MAX; lia)). destruct (j =? i) eqn:E; bool_to_prop; [by subst|].
      by destruct (Ho j ltac:(unfold index, RIX_PROCESS_MAX; lia) E) as [-> _]. }
    rewrite El, I5, Ec, count_put by (done || apply Hs). rewrite Hu, Hf. cbn. lia.
Qed.

Lemma freed_resources i T T' S S' f : index i -> resources_ok S f T -> used T i = true -> freed i T T' ->
  (forall x, x <> 0 -> S' x <-> S x /\ x <> f (slot T i)) -> resources_ok S' f T'.
Proof.
  intros Hi (R1 & R2 & R3) Hu (_ & _ & _ & Ho & Hf & _) HS.
  assert (Hu' : forall j, index j -> used T' j = true -> j <> i /\ used T j = true /\ slot T' j = slot T j).
  { intros j Hj Huj. destruct (decide (j = i)) as [->|Hne]; [unfold used in Huj; by rewrite Hf in Huj|]. destruct (Ho j Hj Hne) as [E _]. unfold used in *. by rewrite E in Huj. }
  split; [|split].
  - intros j Hj Huj. destruct (Hu' j Hj Huj) as (Hne & Hu2 & ->). intros Hn. apply HS; [done|]. split; [by apply R1|]. intros E. destruct Hne. by apply R2.
  - intros j k Hj Hk Huj Huk. destruct (Hu' j Hj Huj) as (_ & ? & ->), (Hu' k Hk Huk) as (_ & ? & ->). by apply R2.
  - intros x Hx HSx. apply HS in HSx as [HSx Hne]; [|done]. destruct (R3 x Hx HSx) as (j & Hj & Huj & Ej). exists j. assert (Hji : j <> i) by congruence.
    destruct (Ho j Hj Hji) as [E _]. unfold used in *. by rewrite E.
Qed.

Lemma freed_node i T T' x : ids_ok T -> ids_ok T' -> index i -> used T i = true -> freed i T T' -> node_of T' x = if x =? pid (slot T i) then None else node_of T x.
Proof.
  intros Hids Hids' Hi Hu (_ & _ & _ & Ho & Hf & _). unfold node_of. destruct (x =? pid (slot T i)) eqn:E; bool_to_prop.
  - subst x. destruct (process_lookup T' (pid (slot T i))) as [j|] eqn:El; [|done]. apply lookup_Some in El as (Hj & Huj & Hp & _).
    destruct (decide (j = i)) as [->|Hne]; [unfold used in Huj; by rewrite Hf in Huj|]. destruct (Ho j Hj Hne) as [Es _]. unfold used in Huj. rewrite Es in Hp, Huj.
    destruct Hne. destruct Hids as (_ & _ & _ & H & _). by apply H.
  - destruct (process_lookup T x) as [j|] eqn:El.
    + apply lookup_Some in El as (Hj & Huj & Hp & _). assert (Hne : j <> i) by congruence. destruct (Ho j Hj Hne) as [Es _].
      rewrite <- Hp, <- Es. rewrite lookup_used; [by rewrite Es|done..|]. unfold used in *. by rewrite Es.
    + destruct (process_lookup T' x) as [j|] eqn:El'; [|done]. apply lookup_Some in El' as (Hj & Huj & Hp & _).
      destruct (decide (j = i)) as [->|Hne]; [unfold used in Huj; by rewrite Hf in Huj|]. destruct (Ho j Hj Hne) as [Es _]. unfold used in Huj. rewrite Es in Hp, Huj.
      by destruct (lookup_None T x El j Hj).
Qed.

Lemma runs_clear i {B} (k : unit -> M st B) T w Q : host_ok w ->
  (forall w', host_ok w' -> same_res w w' -> runs (k tt) (on_slot i cleared T) w' Q) -> runs (clear_process i ≫= k) T w Q.
Proof.
  intros Hw Hk c. unfold clear_process.
  destruct (on_host_run (socket_table_init i) c (on_slot i cleared T) w (socket_table_init_quiet i) Hw) as ([] & w1 & E & Hw1 & Hs1).
  destruct (Hk w1 Hw1 Hs1 c) as (r & T2 & w2 & E2 & Hl2 & HQ). exists r, T2, w2. split; [|by split].
  rewrite (bind_Some _ _ _ tt (c, (on_slot i cleared T, w1))); [done|]. by rewrite (bind_Some _ _ _ tt (c, (on_slot i cleared T, w))).
Qed.

Lemma freed_intro i T T' n l : shape_ok T -> index i -> length l = length (sessions T) -> n = live_count T - 1 ->
  T' = with_sessions l (with_live_count n (reset_ids i (on_slot i cleared (on_slot i (set_pml4_phys 0) T)))) -> freed i T T'.
Proof.
  intros Hs Hi Hl Hn ->. rewrite on_slot_twice by done. set (T1 := on_slot i _ T). assert (Hs1 : shape_ok T1) by by apply shape_put.
  assert (Es : forall j, index j -> slot T1 j = if j =? i then cleared (set_pml4_phys 0 (slot T i)) else slot T j).
  { intros j Hj. unfold T1, on_slot. by rewrite slot_put by (done || apply Hs). }
  split; [revert Hs1; unfold shape_ok, reset_ids; cbn; rewrite !length_aset, Hl; tauto|]. split; [done|]. split; [done|]. split; [|].
  - intros j Hj Hne. assert (E : slot T1 j = slot T j) by (rewrite Es, (proj2 (Z.eqb_neq j i)) by done; done). split; [exact E|].
    unfold cred_of, reset_ids. cbn. change (aget no_process _ j) with (slot T1 j). rewrite !aget_128 by (done || apply Hs). rewrite (proj2 (Z.eqb_neq j i)) by done.
    change (slot (with_sessions l _) j) with (slot T1 j). by rewrite E.
  - change (slot (with_sessions l _) i) with (slot T1 i). rewrite Es, Z.eqb_refl by done. done.
Qed.

(** Giving a root back, and a kernel stack if there is one. *)
Lemma runs_destroy {B} r (k : unit -> M st B) T w Q : host_ok w -> r = 0 \/ space_of w r ->
  (forall w', host_ok w' -> (forall x, space_of w' x <-> space_of w x /\ x <> r) -> (forall y, stack_of w' y <-> stack_of w y) -> runs (k tt) T w' Q) ->
  runs (on_host (address_space_destroy r) ≫= k) T w Q.
Proof.
  intros Hw Hr Hk c. destruct (space_destroy_law r c w Hw Hr) as (w' & E & Hw' & A & B'). destruct (Hk w' Hw' A B' c) as (a & T2 & w2 & E2 & H2).
  exists a, T2, w2. rewrite (bind_Some _ _ _ tt (c, (T, w'))); [done|]. unfold on_host. by rewrite E.
Qed.

Lemma runs_free_stack {B} ks (k : unit -> M st B) T w Q : host_ok w -> ks = 0 \/ stack_of w ks ->
  (forall w', host_ok w' -> (forall x, space_of w' x <-> space_of w x) -> (forall y, y <> 0 -> stack_of w' y <-> stack_of w y /\ y <> ks) -> runs (k tt) T w' Q) ->
  runs ((if negb (ks =? 0) then on_host (kernel_stack_free ks) else mret tt) ≫= k) T w Q.
Proof.
  intros Hw Hks Hk. destruct (ks =? 0) eqn:E; bool_to_prop; cbn [negb].
  - intros c. destruct (Hk w Hw) with (c := c) as (a & T2 & w2 & E2 & H2); [done|intros; subst; tauto|]. by exists a, T2, w2.
  - destruct Hks as [|Hks]; [done|]. intros c. destruct (stack_free_law ks c w Hw Hks) as (w' & E' & Hw' & A & B').
    destruct (Hk w' Hw' A (fun y _ => B' y) c) as (a & T2 & w2 & E2 & H2). exists a, T2, w2. rewrite (bind_Some _ _ _ tt (c, (T, w'))); [done|]. unfold on_host. by rewrite E'.
Qed.

(** What the slot holds was handed out. *)
Lemma slot_holds S f T i : resources_ok S f T -> index i -> used T i = true -> f (slot T i) = 0 \/ S (f (slot T i)).
Proof. intros (R & _) Hi Hu. destruct (decide (f (slot T i) = 0)); [by left|right; by apply R]. Qed.

(** A slot given back with what it held. *)
Lemma freed_ok i T T' w w' : procs_ok T w -> index i -> i <> 0 -> used T i = true -> freed i T T' ->
  (forall x, space_of w' x <-> space_of w x /\ x <> pml4_phys (slot T i)) -> (forall y, y <> 0 -> stack_of w' y <-> stack_of w y /\ y <> kernel_stack (slot T i)) ->
  procs_ok T' w'.
Proof.
  intros (Hs & Hids & Hcap & HR1 & HR2) Hi H0 Hu HF Hsp Hst. split; [apply HF|]. split; [by apply (freed_ids i T)|]. split; [|split].
  - intros j Hj. destruct HF as (_ & _ & _ & Ho & _ & Hc). destruct (decide (j = i)) as [->|Hne]; [lia|]. destruct (Ho j Hj Hne) as [-> _]. by apply Hcap.
  - by apply (freed_resources i T _ (space_of w) _ pml4_phys).
  - by apply (freed_resources i T _ (stack_of w) _ kernel_stack).
Qed.

Lemma live_count_pos T i : shape_ok T -> ids_ok T -> index i -> used T i = true -> live_count T <> 0.
Proof.
  intros Hs (_ & _ & _ & _ & _ & ->) Hi Hu. unfold used, slot, aget in Hu. destruct (table T !! Z.to_nat i) as [p|] eqn:Ep; [|done]. cbn in Hu.
  pose proof (countb_pos (fun p => negb (unused p)) _ _ _ Ep Hu). lia.
Qed.

Lemma reap_run i T w : host_ok w -> procs_ok T w -> index i -> i <> 0 -> used T i = true ->
  runs (wait_reap_locked i) T w (fun r T' w' =>
    (r = (1, None) /\ T' = T /\ same_res w w' /\ threads_of w (pid (slot T i)) <> 0) \/
    (r = (0, Some (exit_status (slot T i), pid (slot T i))) /\ freed i T T' /\ procs_ok T' w' /\ threads_of w (pid (slot T i)) = 0)).
Proof.
  intros Hw Hok Hi H0 Hu. pose proof Hok as (Hs & Hids & _). unfold wait_reap_locked. apply runs_reads.
  set (n := threads_of w (pid (slot T i))). apply (runs_bind _ _ _ _ (fun a T1 w1 => a = n /\ T1 = T /\ same_res w w1)).
  { intros c. destruct (thread_count_law (pid (slot T i)) c w Hw) as (w1 & E & Hw1 & A & B). exists n, T, w1. unfold on_host. by rewrite E. }
  intros ? ? w1 _ Hw1 (-> & -> & Hs1). destruct (n =? 0) eqn:En; cbn [negb]; bool_to_prop; [|apply runs_ret; [done|]; by left].
  apply runs_reads. apply runs_host; [apply vfs_close_all_quiet|done|]. intros a w2 Hw2 Hs2.
  assert (Hok2 : procs_ok T w2) by (apply (procs_ok_host _ w); [by eapply same_res_trans|done]). pose proof Hok2 as (_ & _ & _ & HR1 & HR2).
  apply runs_destroy; [done|by apply (slot_holds (space_of w2) pml4_phys)|]. intros w3 Hw3 Hsp3 Hst3. apply runs_update; [done|].
  apply runs_free_stack; [done|rewrite Hst3; by apply (slot_holds (stack_of w2) kernel_stack)|]. intros w4 Hw4 Hsp4 Hst4.
  apply runs_clear; [done|]. intros w5 Hw5 [Hs5 Hs5'].
  set (T2 := on_slot i cleared _). pose proof (live_count_pos T i Hs Hids Hi Hu : live_count T2 <> 0) as Elc.
  destruct (drop_session_arrays (with_live_count (live_count T - 1) (reset_ids i T2)) (session (slot T i))) as (l & Eu & Hl).
  assert (Ef : (let T3 := reset_ids i T2 in let T4 := if negb (live_count T3 =? 0) then with_live_count (live_count T3 - 1) T3 else T3 in
    session_drop_if_empty T4 (session (slot T i))) = with_sessions l (with_live_count (live_count T - 1) (reset_ids i T2))).
  { cbv zeta. change (live_count (reset_ids i T2)) with (live_count T). change (live_count T2) with (live_count T) in Elc. rewrite (proj2 (Z.eqb_neq _ 0) Elc). exact Eu. }
  eapply (runs_update_eq _ _ _ _ _ _ Ef); [done|]. apply runs_ret; [done|]. right. split; [done|].
  assert (HF : freed i T (with_sessions l (with_live_count (live_count T - 1) (reset_ids i T2)))) by by eapply freed_intro.
  split; [done|]. split; [|done]. apply (freed_ok i T _ w2); try done.
  - intros x. by rewrite Hs5, Hsp4, Hsp3.
  - intros y Hy. by rewrite Hs5', Hst4, Hst3.
Qed.

Lemma freed_cred_step o i T T' : index i -> used T i = true -> freed i T T' -> cred_step o T T'.
Proof.
  intros Hi Hu (_ & _ & _ & Ho & Hf & _) j Hj Huj. left. destruct (decide (j = i)) as [->|Hne]; [unfold used in Huj; by rewrite Hf in Huj|].
  destruct (Ho j Hj Hne) as [Es Ec]. unfold used in *. rewrite Es in *. split; [done|]. split; [done|]. by left.
Qed.

Definition wait_result (r : Z * option (Z * Z)) : Z * Z * Z := match r with (rc, Some (s, id)) => (rc, s, id) | (rc, None) => (rc, 0, 0) end.

Lemma wait_step b par wanted T w : host_ok w -> procs_ok T w ->
  runs (f ← reads (wait_find_locked par wanted);
        match f with
        | (false, _) => mret (2, None)
        | (true, Some i) => wait_reap_locked i
        | (true, None) => if b : bool then _ ← on_host scheduler_block_current; mret (1, None) else mret (1, None)
        end : M st _) T w (fun r T' w' => step_ok (OWait b par wanted) T w (wait_result r) T' w').
Proof.
  intros Hw Hok. pose proof Hok as (Hs & Hids & _). apply runs_reads.
  assert (Hsame : forall w', same_res w w' -> procs_ok T w' /\ cred_step (OWait b par wanted) T T).
  { intros w' Hsw. split; [by apply (procs_ok_host _ w)|]. apply stays_cred_step; [apply tame_stays; [done|apply tame_refl]|done]. }
  destruct (wait_find_cases par wanted T) as [(i & -> & Hi & H0 & Hm & Hz)|[(-> & (i & Hi & H0 & Hm) & Hlive)|(-> & Hnone)]].
  - destruct (matches_node par wanted T i Hids Hi H0 Hm) as (Hp & Hwt & Hu & Hnode). rewrite Hz in Hnode.
    assert (Haw : awaited (node_of T) par wanted (pid (slot T i)) (Some (exit_status (slot T i)))) by done.
    eapply runs_conseq; [by apply reap_run|]. cbn beta. intros r T' w' [(-> & -> & Hsw & Hth)|(-> & HF & Hok' & Hth)].
    + destruct (Hsame w' Hsw). split; [done|]. split; [|done]. right. left. split; [done|]. split; [by eexists _, _|]. split; [|done]. right. by eexists _, _.
    + split; [done|]. split; [|by apply (freed_cred_step _ i)]. left. repeat (split; [done|]). intros x. apply freed_node; try done. apply Hok'.
  - destruct (matches_node par wanted T i Hids Hi H0 Hm) as (Hp & Hwt & Hu & Hnode).
    assert (Hok1 : forall w', same_res w w' -> step_ok (OWait b par wanted) T w (wait_result (1, None)) T w').
    { intros w' Hsw. destruct (Hsame w' Hsw). split; [done|]. split; [|done]. right. left. split; [done|]. split; [by eexists (pid (slot T i)), _|]. split; [|done].
      left. intros x s Hx. destruct (awaited_slot par wanted T x s Hids Hx) as (j & Hj & Hj0 & Hmj & ->). by rewrite Hlive. }
    destruct b; [apply runs_host; [apply block_quiet|done|]; intros ? w1 Hw1 Hs1; apply runs_ret; [done|]; by apply Hok1|].
    apply runs_ret; [done|]. apply Hok1, same_res_refl.
  - apply runs_ret; [done|]. destruct (Hsame w (same_res_refl w)). split; [done|]. split; [|done]. right. right. split; [done|]. split; [|done].
    intros x s Hx. destruct (awaited_slot par wanted T x s Hids Hx) as (j & Hj & Hj0 & Hmj & _). by rewrite Hnone in Hmj.
Qed.

(** ** Creation *)

Lemma lookup_stable T T' id : ids_ok T -> same_ids T T' -> process_lookup T' id = process_lookup T id.
Proof.
  intros (_ & _ & _ & Huniq & _) Hs. destruct (process_lookup T' id) as [j|] eqn:E'.
  - apply lookup_Some in E' as (Hj & Huj & Hpj & _). destruct (Hs j Hj) as [Eu Ep]. rewrite Eu in Huj. rewrite Ep in Hpj by done.
    destruct (process_lookup T id) as [i|] eqn:E; [|by destruct (lookup_None T id E j Hj)]. apply lookup_Some in E as (Hi & Hu & Hp & _). f_equal. apply Huniq; congruence.
  - destruct (process_lookup T id) as [i|] eqn:E; [|done]. apply lookup_Some in E as (Hi & Hu & Hp & _). destruct (Hs i Hi) as [Eu Ep].
    destruct (lookup_None T' id E' i Hi); [congruence|]. rewrite Ep by done. done.
Qed.

(** Ids are tried in a circle from [next_pid], so a failing search has seen them all. *)
Lemma allocate_run T : 1 <= next_pid T < 128 ->
  exists n, (allocate_pid T).2 = with_next_pid n T /\ 1 <= n < 128 /\
    (((allocate_pid T).1 = 0 /\ forall x, 1 <= x < 128 -> process_lookup T x <> None) \/ (1 <= (allocate_pid T).1 < 128 /\ process_lookup T (allocate_pid T).1 = None)).
Proof.
  intros Hn. unfold allocate_pid. match goal with |- context [for_ 0 ?k ?b (next_pid T)] =>
    pose proof (for_inv (fun t n => n = 1 + (next_pid T - 1 + t) mod 127 /\ forall x, 1 <= x < 128 -> (x - next_pid T) mod 127 < t -> process_lookup T x <> None)
      (fun '(c, n) => 1 <= n < 128 /\ 1 <= c < 128 /\ process_lookup T c = None) 0 k b (next_pid T)) as H end.
  match type of H with ?A -> ?B -> ?C -> _ => assert (HC : C) end.
  { intros i n Hi [En Hs]. cbv zeta. unfold RIX_PROCESS_MAX in *. pose proof (Z.mod_pos_bound (next_pid T - 1 + i) 127 ltac:(lia)) as Hb.
    rewrite u64_id by (unfold is_u64; lia).
    assert (Hnext : (if 128 <=? n + 1 then 1 else n + 1) = 1 + (next_pid T - 1 + (i + 1)) mod 127).
    { rewrite Z.add_assoc, <- (Z.add_mod_idemp_l (next_pid T - 1 + i)) by lia. replace ((next_pid T - 1 + i) mod 127) with (n - 1) by lia.
      destruct (128 <=? n + 1) eqn:E; bool_to_prop; [replace n with 127 by lia; done|]. rewrite Z.mod_small; lia. }
    destruct (n =? 0) eqn:E0; bool_to_prop; [lia|]. cbn [negb andb]. pose proof (Z.mod_pos_bound (next_pid T - 1 + (i + 1)) 127 ltac:(lia)).
    destruct (bool_decide _) eqn:E; bool_to_prop; [split; [lia|]; split; [lia|done]|]. split; [done|]. intros x Hx Hlt.
    destruct (decide ((x - next_pid T) mod 127 = i)) as [Ei|]; [|apply Hs; lia]. replace x with n; [done|].
    rewrite En, <- Ei, Z.add_mod_idemp_r by lia. replace (next_pid T - 1 + (x - next_pid T)) with (x - 1) by lia. rewrite Z.mod_small; lia. }
  specialize (H ltac:(unfold RIX_PROCESS_MAX; lia)). match type of H with ?B -> _ => assert (HB : B) end.
  { split; [rewrite Z.add_0_r, Z.mod_small; lia|]. intros x Hx Hlt. pose proof (Z.mod_pos_bound (x - next_pid T) 127 ltac:(lia)). lia. }
  specialize (H HB HC). destruct (for_ 0 _ _ _) as [n|[c n]]; cbn [fst snd].
  - destruct H as [En Hs]. pose proof (Z.mod_pos_bound (next_pid T - 1 + (0 + (RIX_PROCESS_MAX - 1))) 127 ltac:(lia)). exists n. split; [done|]. split; [lia|]. left. split; [done|].
    intros x Hx. apply Hs; [done|]. pose proof (Z.mod_pos_bound (x - next_pid T) 127 ltac:(lia)). unfold RIX_PROCESS_MAX. lia.
  - destruct H as (H1 & H2 & H3). exists n. split; [done|]. split; [done|]. by right.
Qed.

(** With every slot in use, every id is taken. *)
Lemma full_ids T : ids_ok T -> (forall i, 1 <= i < 128 -> unused (slot T i) = false) -> forall x, 1 <= x < 128 -> process_lookup T x <> None.
Proof.
  intros Hids Hfull x Hx El. pose proof Hids as (_ & _ & Hr & Huniq & _).
  assert (Hi : forall i, i ∈ seqZ 1 127 -> index i /\ i <> 0 /\ used T i = true).
  { intros i Hi. apply elem_of_seqZ in Hi. unfold index, RIX_PROCESS_MAX, used. rewrite Hfull by lia. lia. }
  set (l := (fun i => pid (slot T i)) <$> seqZ 1 127). assert (Hnd : NoDup l).
  { apply NoDup_fmap_2_strong; [|apply NoDup_seqZ]. intros i j Hii Hjj. destruct (Hi i Hii) as (? & _ & ?), (Hi j Hjj) as (? & _ & ?). by apply Huniq. }
  assert (Hsub : l ⊆+ seqZ 1 127).
  { apply NoDup_submseteq; [done|]. intros y Hy. apply list_elem_of_fmap in Hy as (i & -> & Hii). destruct (Hi i Hii) as (A & B & C). apply elem_of_seqZ. pose proof (Hr i A B C). lia. }
  apply submseteq_length_Permutation in Hsub; [|unfold l; rewrite length_fmap; lia].
  assert (Hin : x ∈ l) by (rewrite Hsub; apply elem_of_seqZ; lia). apply list_elem_of_fmap in Hin as (i & -> & Hii). destruct (Hi i Hii) as (? & _ & ?).
  by destruct (lookup_None T _ El i).
Qed.

Lemma slot_on_slot T i f j : shape_ok T -> index i -> index j -> slot (on_slot i f T) j = if j =? i then f (slot T i) else slot T j.
Proof. intros Hs Hi Hj. unfold on_slot. by rewrite slot_put by (done || apply Hs). Qed.

(** [T'] differs from [T] in slot [i] at most. *)
Definition only (i : Z) (T T' : procs) : Prop :=
  shape_ok T' /\ next_pid T' = next_pid T /\ live_count T' = live_count T /\ process_lock T' = process_lock T /\
  (forall j, index j -> j <> i -> slot T' j = slot T j /\ cred_of T' j = cred_of T j).

Lemma only_refl i T : shape_ok T -> only i T T.
Proof. intros Hs. by do 4 (split; [done|]). Qed.

Lemma only_trans i T1 T2 T3 : only i T1 T2 -> only i T2 T3 -> only i T1 T3.
Proof.
  intros (? & ? & ? & ? & K1) (? & ? & ? & ? & K2). split; [done|]. repeat (split; [congruence|]). intros j Hj Hne.
  destruct (K1 j Hj Hne) as [E1 E2], (K2 j Hj Hne) as [E3 E4]. split; congruence.
Qed.

Lemma only_on_slot i f T : shape_ok T -> index i -> only i T (on_slot i f T).
Proof.
  intros Hs Hi. split; [by apply shape_put|]. do 3 (split; [done|]). intros j Hj Hne. rewrite cred_on_slot, slot_on_slot by done.
  by rewrite (proj2 (Z.eqb_neq j i)).
Qed.

Lemma only_reset i T : shape_ok T -> index i -> only i T (reset_ids i T).
Proof.
  intros Hs Hi. split; [revert Hs; unfold shape_ok, reset_ids; cbn; rewrite !length_aset; tauto|]. do 3 (split; [done|]). intros j Hj Hne. split; [done|].
  unfold cred_of, reset_ids. cbn. rewrite !aget_128 by (done || apply Hs). by rewrite (proj2 (Z.eqb_neq j i)).
Qed.

Lemma only_inherit i s T : shape_ok T -> index i -> only i T (inherit_ids i s T).
Proof.
  intros Hs Hi. split; [revert Hs; unfold shape_ok, inherit_ids; cbn; rewrite !length_aset; tauto|]. do 3 (split; [done|]). intros j Hj Hne. split; [done|].
  unfold cred_of, inherit_ids. cbn. rewrite !aget_128 by (done || apply Hs). by rewrite (proj2 (Z.eqb_neq j i)).
Qed.

Lemma inherit_cred i s T : shape_ok T -> index i ->
  cred_of (inherit_ids i s T) i = {| c_caps := capabilities (slot T i); c_uid := uid (slot T i); c_real := c_real (cred_of T s); c_saved := c_saved (cred_of T s) |}.
Proof.
  intros Hs Hi. unfold cred_of at 1. unfold inherit_ids. cbn. change (slot (with_supplementary_groups _ _) i) with (slot T i).
  rewrite !aget_128 by (done || apply Hs). by rewrite Z.eqb_refl.
Qed.

(** The new process in slot [i]. *)
Definition born (i id par : Z) (c : cred) (T T' : procs) : Prop :=
  only i T T' /\ pid (slot T' i) = id /\ parent (slot T' i) = par /\ state (slot T' i) = RIX_PROC_SLEEPING /\
  pml4_phys (slot T' i) = pml4_phys (slot T i) /\ kernel_stack (slot T' i) = kernel_stack (slot T i) /\ cred_of T' i = c.

Definition parent_cred (par : Z) (T : procs) : option cred :=
  if par =? 0 then Some full_cred else match process_lookup T par with Some q => Some (cred_of T q) | None => None end.

Lemma inherit_parent_run i par c T T4 pp : shape_ok T -> ids_ok T -> index i -> unused (slot T i) = true -> only i T T4 -> unused (slot T4 i) = true -> uid (slot T4 i) = 0 ->
  c_real (cred_of T4 i) = 0 -> c_saved (cred_of T4 i) = 0 ->
  match pp with Some q => process_lookup T par = Some q /\ c = cred_of T q | None => c = full_cred end ->
  let T5 := inherit_parent i par pp T4 in
  only i T T5 /\ keeps (slot T4 i) (slot T5 i) /\ uid (slot T5 i) = c_uid c /\ c_real (cred_of T5 i) = c_real c /\ c_saved (cred_of T5 i) = c_saved c.
Proof.
  intros Hs Hids Hi Hun O4 Hun4 Huid Hr0 Hs0 Hpp. assert (Hs4 : shape_ok T4) by apply O4. destruct pp as [q|]; cbn [inherit_parent].
  2: { subst c. cbv zeta. split; [|split; [apply keeps_refl|done]]. eapply only_trans; [exact O4|].
       split; [revert Hs4; unfold shape_ok; cbn; rewrite length_aset; tauto|]. do 3 (split; [done|]). done. }
  destruct Hpp as [El ->]. pose proof (lookup_Some _ _ _ El) as (Hq & Huq & Hpq & _).
  assert (Hqi : q <> i) by (intros ->; unfold used in Huq; by rewrite Hun in Huq).
  cbv zeta. set (Ta := on_slot i (set_cwd _) T4). assert (Oa : only i T4 Ta) by by apply only_on_slot. assert (Hsa : shape_ok Ta) by apply Oa.
  set (Tb := on_slot i (set_uid _) Ta). assert (Ob : only i Ta Tb) by by apply only_on_slot. assert (Hsb : shape_ok Tb) by apply Ob.
  set (Tc := on_slot i (set_gid _) Tb). assert (Oc : only i Tb Tc) by by apply only_on_slot. assert (Hsc : shape_ok Tc) by apply Oc.
  assert (O : only i T Tc) by (do 2 (eapply only_trans; [|eassumption]); by eapply only_trans).
  assert (Ec : slot Tc i = set_gid (gid (slot Tb q)) (set_uid (uid (slot Ta q)) (slot Ta i))) by (unfold Tc, Tb; rewrite !slot_on_slot, !Z.eqb_refl by done; done).
  assert (Ea : exists d, slot Ta i = set_cwd d (slot T4 i)) by (eexists; unfold Ta; rewrite slot_on_slot, Z.eqb_refl by done; done). destruct Ea as [d Ea].
  assert (Eq : slot Ta q = slot T q).
  { destruct Oa as (_ & _ & _ & _ & Oa). destruct (Oa q Hq Hqi) as [-> _]. destruct O4 as (_ & _ & _ & _ & O4). by destruct (O4 q Hq Hqi) as [-> _]. }
  assert (Eu : used Tc i = false) by (unfold used; rewrite Ec, Ea; change (negb (unused (slot T4 i)) = false); by rewrite Hun4).
  assert (Esl : slot_of Tc par = q).
  { assert (Elc : process_lookup Tc par = Some q); [|by apply lookup_Some in Elc as (_ & _ & _ & ?)].
    rewrite <- El. apply lookup_stable; [done|]. intros j Hj. destruct (decide (j = i)) as [->|Hne].
    - rewrite Eu. unfold used. rewrite Hun. done.
    - destruct O as (_ & _ & _ & _ & O). destruct (O j Hj Hne) as [E _]. unfold used. by rewrite E. }
  rewrite Esl, (proj2 (Z.leb_le 0 q)) by (unfold index in Hq; lia). split; [eapply only_trans; [exact O|by apply only_inherit]|].
  rewrite inherit_cred by done. change (slot (inherit_ids i q Tc) i) with (slot Tc i). rewrite Ec, Ea, Eq. split; [keep|]. split; [done|].
  destruct O as (_ & _ & _ & _ & O). destruct (O q Hq Hqi) as [_ Eqc]. by rewrite Eqc.
Qed.

Lemma fill_slot_born i id par c T : shape_ok T -> ids_ok T -> index i -> unused (slot T i) = true -> uid (slot T i) = 0 -> parent_cred par T = Some c ->
  born i id par c T (fill_slot i id par T).
Proof.
  intros Hs Hids Hi Hun Huid Hc. unfold fill_slot. set (T1 := reset_ids i T).
  assert (O1 : only i T T1) by by apply only_reset. assert (Hs1 : shape_ok T1) by apply O1.
  set (T2 := on_slot i (fun p => set_parent par (set_pid id p)) T1). assert (O2 : only i T T2) by (eapply only_trans; [exact O1|by apply only_on_slot]).
  assert (Hs2 : shape_ok T2) by apply O2.
  assert (E2 : slot T2 i = set_parent par (set_pid id (slot T i))) by (unfold T2; rewrite slot_on_slot, Z.eqb_refl by done; done).
  assert (El : process_lookup T2 par = process_lookup T par).
  { apply lookup_stable; [done|]. intros j Hj. destruct (decide (j = i)) as [->|Hne].
    - unfold used. rewrite E2. change (unused (set_parent par (set_pid id (slot T i)))) with (unused (slot T i)). rewrite Hun. done.
    - destruct O2 as (_ & _ & _ & _ & O2). destruct (O2 j Hj Hne) as [E _]. unfold used. by rewrite E. }
  set (pp := if negb (par =? 0) then process_lookup T2 par else None).
  set (T3 := on_slot i (set_process_group _) T2). assert (O3 : only i T T3) by (eapply only_trans; [exact O2|by apply only_on_slot]). assert (Hs3 : shape_ok T3) by apply O3.
  assert (E3 : exists g, slot T3 i = set_process_group g (slot T2 i)) by (eexists; unfold T3; rewrite slot_on_slot, Z.eqb_refl by done; done).
  set (T4 := on_slot i (set_session _) T3). assert (O4 : only i T T4) by (eapply only_trans; [exact O3|by apply only_on_slot]). assert (Hs4 : shape_ok T4) by apply O4.
  assert (E4 : exists g s, slot T4 i = set_session s (set_process_group g (slot T2 i))).
  { destruct E3 as [g E3]. eexists g, _. unfold T4. rewrite slot_on_slot, Z.eqb_refl, E3 by done. done. }
  assert (C4 : c_real (cred_of T4 i) = 0 /\ c_saved (cred_of T4 i) = 0).
  { unfold cred_of, T4, T3, T2, T1, reset_ids. cbn. rewrite !aget_128 by (done || apply Hs). by rewrite Z.eqb_refl. }
  destruct C4 as [C4 C4']. clearbody T3 T4. destruct E4 as (g & s & E4). rewrite E2 in E4.
  assert (Hpp : match pp with Some q => process_lookup T par = Some q /\ c = cred_of T q | None => c = full_cred end).
  { unfold pp. rewrite El. unfold parent_cred in Hc. destruct (par =? 0); cbn [negb]; [by injection Hc|]. destruct (process_lookup T par); [|done]. by injection Hc. }
  destruct (inherit_parent_run i par c T T4 pp) as (O5 & K5 & U5 & R5 & V5); try done; [by rewrite E4..|].
  set (T5 := inherit_parent i par pp T4) in *. assert (Hs5 : shape_ok T5) by apply O5.
  set (T6 := on_slot i (set_state RIX_PROC_SLEEPING) T5). assert (O6 : only i T T6) by (eapply only_trans; [exact O5|by apply only_on_slot]). assert (Hs6 : shape_ok T6) by apply O6.
  assert (E6 : slot T6 i = set_state RIX_PROC_SLEEPING (slot T5 i)) by (unfold T6; rewrite slot_on_slot, Z.eqb_refl by done; done).
  set (cap := match pp with Some q => capabilities (slot T6 q) | None => _ end). unfold born. rewrite slot_on_slot, cred_on_slot, Z.eqb_refl, E6 by done.
  split; [eapply only_trans; [exact O6|by apply only_on_slot]|]. destruct K5 as (_ & Kp & Kq & _ & Km & Kk & _). rewrite E4 in Kp, Kq, Km, Kk.
  cbn -[slot cred_of]. do 5 (split; [done|]). change (c_real (cred_of T6 i)) with (c_real (cred_of T5 i)). change (c_saved (cred_of T6 i)) with (c_saved (cred_of T5 i)).
  rewrite U5, R5, V5. assert (Ecap : cap = c_caps c); [|rewrite Ecap; by destruct c].
  unfold cap, pp in *. rewrite El in *. destruct (par =? 0) eqn:E0; cbn [negb] in *; [by rewrite Hpp|]. unfold parent_cred in Hc. rewrite E0 in Hc.
  destruct (process_lookup T par) as [q|] eqn:Elq; [|done]. destruct Hpp as [_ ->]. apply lookup_Some in Elq as (Hq & Huq & _).
  destruct O6 as (_ & _ & _ & _ & O6). destruct (O6 q Hq) as [-> _]; [|done]. intros ->. unfold used in Huq. by rewrite Hun in Huq.
Qed.

(** A change of a slot that is free before and after. *)
Lemma only_same_ids i T T' : only i T T' -> unused (slot T i) = true -> unused (slot T' i) = true -> same_ids T T'.
Proof.
  intros (_ & _ & _ & _ & O) Hu Hu' j Hj. destruct (decide (j = i)) as [->|Hne]; [unfold used; by rewrite Hu, Hu'|].
  destruct (O j Hj Hne) as [E _]. unfold used. by rewrite E.
Qed.

Lemma only_count i T T' : shape_ok T -> only i T T' -> index i ->
  countb (fun p => negb (unused p)) (table T') = countb (fun p => negb (unused p)) (table T) - b2z (used T i) + b2z (used T' i).
Proof.
  intros Hs (Hs' & _ & _ & _ & O) Hi. unfold used at 2. rewrite <- (count_put T i (slot T' i)) by (done || apply Hs).
  apply (countb_pointwise _ no_process); [rewrite length_aset, (proj1 Hs); apply Hs'|]. rewrite length_aset, (proj1 Hs). intros j Hj.
  change (aget no_process (table T') j) with (slot T' j). change (aget no_process (aset i (slot T' i) (table T)) j) with (slot (put i (slot T' i) T) j).
  assert (Hij : index j) by (unfold index, RIX_PROCESS_MAX; lia). rewrite slot_put by (done || apply Hs). destruct (j =? i) eqn:E; bool_to_prop; [by subst|].
  by destruct (O j Hij E) as [-> _].
Qed.

Lemma only_free_ok i T T' w : procs_ok T w -> only i T T' -> index i -> unused (slot T i) = true -> unused (slot T' i) = true -> 0 <= capabilities (slot T' i) < 512 ->
  procs_ok T' w /\ (forall x, node_of T' x = node_of T x) /\ (forall o, cred_step o T T').
Proof.
  intros (Hs & Hids & Hc & HR1 & HR2) HO Hi Hu Hu' Hcap. pose proof (only_same_ids _ _ _ HO Hu Hu') as Hsame. pose proof (only_count _ _ _ Hs HO Hi) as Hcnt.
  destruct HO as (Hs' & En & El & _ & O).
  assert (Hk : forall j, index j -> used T' j = true -> j <> i /\ used T j = true /\ slot T' j = slot T j /\ cred_of T' j = cred_of T j).
  { intros j Hj Huj. destruct (decide (j = i)) as [->|Hne]; [unfold used in Huj; by rewrite Hu' in Huj|]. destruct (O j Hj Hne) as [E1 E2]. unfold used in *. by rewrite E1 in *. }
  pose proof Hids as (I0 & I1 & I2 & I3 & I4 & I5). assert (H0 : index 0) by (unfold index, RIX_PROCESS_MAX; lia).
  assert (Hi0 : 0 <> i) by (intros <-; unfold used in I0; by rewrite Hu in I0). destruct (O 0 H0 Hi0) as [E0 _].
  assert (Hids' : ids_ok T').
  { split; [unfold used; by rewrite E0|]. split; [by rewrite E0|]. split; [intros j Hj Hj0 Huj; destruct (Hk j Hj Huj) as (_ & ? & -> & _); by apply I2|].
    split; [intros j k Hj Hk' Huj Huk; destruct (Hk j Hj Huj) as (_ & ? & -> & _), (Hk k Hk' Huk) as (_ & ? & -> & _); by apply I3|].
    split; [lia|]. rewrite El, I5, Hcnt. unfold used. rewrite Hu, Hu'. cbn. lia. }
  split; [|split].
  - split; [done|]. split; [done|]. split; [intros j Hj; destruct (decide (j = i)) as [->|Hne]; [done|]; destruct (O j Hj Hne) as [-> _]; by apply Hc|].
    assert (Hres : forall S f, resources_ok S f T -> resources_ok S f T'); [|split; by apply Hres].
    intros S f (R1 & R2 & R3). split; [intros j Hj Huj; destruct (Hk j Hj Huj) as (_ & ? & -> & _); by apply R1|]. split.
    + intros j k Hj Hk' Huj Huk; destruct (Hk j Hj Huj) as (_ & ? & -> & _), (Hk k Hk' Huk) as (_ & ? & -> & _). by apply R2.
    + intros x Hx HS. destruct (R3 x Hx HS) as (j & Hj & Huj & Ej). exists j. assert (Hji : j <> i) by (intros ->; unfold used in Huj; by rewrite Hu in Huj).
      destruct (O j Hj Hji) as [E _]. unfold used in *. by rewrite E.
  - intros x. unfold node_of. rewrite (lookup_stable T T' x Hids Hsame). destruct (process_lookup T x) as [j|] eqn:E; [|done]. apply lookup_Some in E as (Hj & Huj & _).
    assert (Huj' : used T' j = true) by (destruct (Hsame j Hj); congruence). by destruct (Hk j Hj Huj') as (_ & _ & -> & _).
  - intros o j Hj Huj. destruct (Hk j Hj Huj) as (_ & ? & -> & ->). left. split; [done|]. split; [done|]. by left.
Qed.

(** A slot that comes into use holds nothing yet. *)
Lemma resources_add i f S T T' : resources_ok S f T -> only i T T' -> unused (slot T i) = true -> f (slot T' i) = 0 -> resources_ok S f T'.
Proof.
  intros (A & B & C) (_ & _ & _ & _ & O) Hu Hf.
  assert (Hj : forall j, index j -> used T' j = true -> f (slot T' j) <> 0 -> used T j = true /\ slot T' j = slot T j).
  { intros j Hj Huj Hn. destruct (decide (j = i)) as [->|Hne]; [done|]. destruct (O j Hj Hne) as [E _]. unfold used in *. by rewrite E in *. }
  split; [|split].
  - intros j Hij Huj Hn. destruct (Hj j Hij Huj Hn) as [Hu' Es]. rewrite Es in *. by apply A.
  - intros j k Hij Hik Huj Huk Hn Ef. destruct (Hj j Hij Huj Hn) as [Hu' Esj], (Hj k Hik Huk ltac:(congruence)) as [Hu'' Esk]. rewrite Esj, Esk in *. by apply B.
  - intros x Hx HS. destruct (C x Hx HS) as (j & Hij & Huj & Ej). exists j. assert (Hji : j <> i) by (intros ->; unfold used in Huj; by rewrite Hu in Huj).
    destruct (O j Hij Hji) as [E _]. unfold used in *. by rewrite E.
Qed.

(** A slot that comes into use. *)
Lemma born_ok i id par c nm T T' T2 w : procs_ok T w -> index i -> unused (slot T i) = true -> pml4_phys (slot T i) = 0 -> kernel_stack (slot T i) = 0 ->
  1 <= id < 128 -> process_lookup T id = None -> 0 <= c_caps c < 512 -> born i id par c T T' ->
  T2 = with_live_count (u64 (live_count T' + 1)) (on_slot i (fun p => set_name (copy_name (name p) nm) p) T') ->
  procs_ok T2 w /\ (forall x, node_of T2 x = if x =? id then Some (par, None) else node_of T x) /\ used T2 i = true /\ cred_of T2 i = c /\
  (forall j, index j -> j <> i -> slot T2 j = slot T j /\ cred_of T2 j = cred_of T j).
Proof.
  intros (Hs & Hids & Hc & HR1 & HR2) Hi Hu Hm Hk Hid Hfresh Hcc (HO & Bp & Bq & Bs & Bm & Bk & Bc) ET2.
  assert (Hs' : shape_ok T') by apply HO. set (T1 := on_slot i (fun p => set_name (copy_name (name p) nm) p) T') in *.
  assert (HO1 : only i T T1) by (eapply only_trans; [exact HO|by apply only_on_slot]). assert (Hs1 : shape_ok T1) by apply HO1.
  assert (E1 : slot T1 i = set_name (copy_name (name (slot T' i)) nm) (slot T' i)) by (unfold T1; by rewrite slot_on_slot, Z.eqb_refl).
  assert (C1 : cred_of T1 i = c) by (unfold T1; rewrite cred_on_slot, Z.eqb_refl by done; rewrite <- Bc; done).
  assert (Hu1 : used T1 i = true) by (unfold used, unused; rewrite E1; cbn; by rewrite Bs).
  pose proof (only_count _ _ _ Hs HO1 Hi) as Hcnt. rewrite Hu1 in Hcnt. unfold used in Hcnt. rewrite Hu in Hcnt. cbn [negb b2z] in Hcnt.
  pose proof Hids as (I0 & I1 & I2 & I3 & I4 & I5). assert (H0 : index 0) by (unfold index, RIX_PROCESS_MAX; lia).
  assert (Hi0 : 0 <> i) by (intros <-; unfold used in I0; by rewrite Hu in I0). pose proof HO1 as (_ & En & El & _ & O). destruct (O 0 H0 Hi0) as [E0 _].
  assert (Elc : live_count T2 = live_count T + 1).
  { subst T2. cbn. change (live_count T') with (live_count T1). rewrite El. apply u64_id. rewrite I5. pose proof (countb_nonneg (fun p => negb (unused p)) (table T)).
    pose proof (countb_le_length (fun p => negb (unused p)) (table T)). rewrite (proj1 Hs) in *. unfold is_u64. lia. }
  assert (Hj : forall j, index j -> used T1 j = true -> (j = i /\ pid (slot T1 j) = id) \/ (j <> i /\ used T j = true /\ slot T1 j = slot T j)).
  { intros j Hj Huj. destruct (decide (j = i)) as [->|Hne]; [left; split; [done|]; by rewrite E1|]. right. split; [done|]. destruct (O j Hj Hne) as [E _]. unfold used in *. by rewrite E in *. }
  assert (Hfr : forall j, index j -> used T j = true -> pid (slot T j) <> id) by (by apply lookup_None).
  assert (Hpi : pid (slot T1 i) = id) by by rewrite E1.
  assert (Hids2 : ids_ok T2).
  { subst T2. split; [change (used T1 0 = true); unfold used; by rewrite E0|]. split; [change (pid (slot T1 0) = 0); by rewrite E0|]. split; [|split; [|split]].
    - intros j Hij Hj0 Huj. change (1 <= pid (slot T1 j) < 128). destruct (Hj j Hij Huj) as [[-> ->]|(_ & ? & ->)]; [done|by apply I2].
    - intros j k Hij Hik Huj Huk Ep. change (pid (slot T1 j) = pid (slot T1 k)) in Ep.
      destruct (Hj j Hij Huj) as [[-> Epj]|(_ & Huj' & Esj)], (Hj k Hik Huk) as [[-> Epk]|(_ & Huk' & Esk)]; [done| | |].
      + rewrite Epj, Esk in Ep. by destruct (Hfr k Hik Huk').
      + rewrite Epk, Esj in Ep. by destruct (Hfr j Hij Huj').
      + rewrite Esj, Esk in Ep. by apply I3.
    - change (1 <= next_pid T1 < 128). lia.
    - rewrite Elc. change (table (with_live_count _ T1)) with (table T1). lia. }
  split; [|split; [|split; [|split]]].
  - split; [subst T2; exact Hs1|]. split; [done|]. split; [|split].
    + intros j Hij. subst T2. change (0 <= capabilities (slot T1 j) < 512). destruct (decide (j = i)) as [->|Hne]; [|destruct (O j Hij Hne) as [-> _]; by apply Hc].
      change (capabilities (slot T1 i)) with (c_caps (cred_of T1 i)). by rewrite C1.
    + subst T2. apply (resources_add i pml4_phys _ T T1); [done..|rewrite E1; cbn; congruence].
    + subst T2. apply (resources_add i kernel_stack _ T T1); [done..|rewrite E1; cbn; congruence].
  - intros x. unfold node_of at 1. destruct (x =? id) eqn:Ex; bool_to_prop.
    + subst x. rewrite <- Hpi at 1. replace (pid (slot T1 i)) with (pid (slot T2 i)) by (by subst T2). rewrite lookup_used; [|done..|subst T2; exact Hu1].
      assert (Es2 : slot T2 i = slot T1 i) by by subst T2. rewrite Es2, E1. unfold zombie. cbn. by rewrite Bs, Bq.
    + unfold node_of. destruct (process_lookup T x) as [j|] eqn:Ej.
      * apply lookup_Some in Ej as (Hij & Huj & Hpx & _). assert (Hne : j <> i) by (intros ->; unfold used in Huj; by rewrite Hu in Huj). destruct (O j Hij Hne) as [Es _].
        assert (Es2 : slot T2 j = slot T j) by (rewrite <- Es; by subst T2). rewrite <- Hpx, <- Es2, lookup_used; [by rewrite Es2|done..|]. unfold used. by rewrite Es2.
      * destruct (process_lookup T2 x) as [j|] eqn:Ej2; [|done]. apply lookup_Some in Ej2 as (Hij & Huj & Hpx & _).
        assert (Huj1 : used T1 j = true) by (by subst T2). assert (Hpx1 : pid (slot T1 j) = x) by (by subst T2).
        destruct (Hj j Hij Huj1) as [[-> E]|(_ & Hu' & Es)]; [congruence|]. rewrite Es in Hpx1. by destruct (lookup_None T x Ej j Hij Hu').
  - by subst T2.
  - by subst T2.
  - intros j Hij Hne. subst T2. exact (O j Hij Hne).
Qed.

Lemma next_pid_ok n T w : 1 <= n < 128 -> procs_ok T w -> procs_ok (with_next_pid n T) w.
Proof. intros Hn (H1 & (I0 & I1 & I2 & I3 & I4 & I5) & H3). split; [exact H1|]. split; [|exact H3]. split; [exact I0|]. split; [exact I1|]. split; [exact I2|]. split; [exact I3|]. split; [exact Hn|exact I5]. Qed.

Lemma runs_close_all id {B} (k : Z -> M st B) T w Q : host_ok w -> (forall a w', host_ok w' -> same_res w w' -> runs (k a) T w' Q) -> runs (on_host (vfs_close_all id) ≫= k) T w Q.
Proof. intros. apply runs_host; [apply vfs_close_all_quiet|done|done]. Qed.

(** A slot just filled: it holds no root and no stack yet. *)
Definition newborn (id : Z) (T : procs) : Prop := exists i, process_lookup T id = Some i /\ i <> 0 /\ state (slot T i) = RIX_PROC_SLEEPING /\
  pml4_phys (slot T i) = 0 /\ kernel_stack (slot T i) = 0.

Lemma clone_run par id T w : host_ok w ->
  runs (if negb (par =? 0) then on_host (vfs_clone_fds par id) else mret 0 : M st Z) T w (fun rc T' w' => T' = T /\ same_res w w' /\ (rc <> 0 -> fds_refused (W := W) par)).
Proof.
  intros Hw. destruct (negb (par =? 0)); [|apply runs_ret; [done|]; split; [done|]; split; [apply same_res_refl|done]]. intros c0.
  destruct (on_host_run (vfs_clone_fds par id) c0 T w (vfs_clone_fds_quiet par id) Hw) as (a & w' & E & Hw' & Hs'). exists a, T, w'.
  split; [done|]. split; [done|]. split; [done|]. split; [done|]. split; [done|]. intros Ha. exists id, c0, w, a, (c0, w'). split; [done|]. split; [by eapply on_host_inv|done].
Qed.

(** The credentials a new process starts with. *)
Lemma origin_cred i par T T1 T2 w : procs_ok T w -> only i T1 T2 -> unused (slot T i) = true ->
  (forall j, slot T1 j = slot T j /\ cred_of T1 j = cred_of T j) -> (forall x, process_lookup T2 x = process_lookup T x) ->
  negb (par =? 0) = false \/ bool_decide (process_lookup T par = None) = false ->
  exists c, parent_cred par T2 = Some c /\ 0 <= c_caps c < 512 /\ ((par = 0 /\ c = full_cred) \/ (par <> 0 /\ exists j, process_lookup T par = Some j /\ c = cred_of T j)) /\
    (par = 0 \/ node_of T par <> None).
Proof.
  intros Hok (_ & _ & _ & _ & O2) Hun H1 Hlk2 Epar. unfold parent_cred. rewrite Hlk2.
  destruct (par =? 0) eqn:Ez; bool_to_prop; [exists full_cred; split; [done|]; split; [change (c_caps full_cred) with 511; lia|]; split; [by left|by left]|].
  destruct Epar as [?|Epar]; [done|]. bool_to_prop. unfold node_of. destruct (process_lookup T par) as [j|] eqn:Ej; [|congruence]. exists (cred_of T2 j). split; [done|].
  pose proof (lookup_Some _ _ _ Ej) as (Hij & Huj & _). assert (Hne : j <> i) by (intros ->; unfold used in Huj; by rewrite Hun in Huj).
  destruct (O2 j Hij Hne) as [_ ->]. rewrite (proj2 (H1 j)). split; [by apply Hok|]. split; [right; split; [done|]; by exists j|by right].
Qed.

Lemma create_run nm par T w : host_ok w -> procs_ok T w ->
  runs (process_create_locked nm par) T w (fun r T' w' => step_ok (OCreate nm par) T w (r.1, r.2, 0) T' w' /\ (r.1 = 0 -> newborn r.2 T')).
Proof.
  intros Hw Hok. pose proof Hok as (Hs & Hids & _). unfold process_create_locked.
  assert (Hfail : forall T' w', same_res w w' -> procs_ok T' w -> (forall x, node_of T' x = node_of T x) -> (forall o, cred_step o T T') ->
    (aget 0 nm 0 = 0 \/ (par <> 0 /\ node_of T par = None) \/ (forall x, 1 <= x < 128 -> node_of T x <> None) \/ fds_refused (W := W) par) ->
    step_ok (OCreate nm par) T w (-1, 0, 0) T' w' /\ (-1 = 0 -> newborn 0 T')).
  { intros T' w' Hsw Hok' Hn Hcr Hwhy. split; [|done]. split; [by apply (procs_ok_host _ w)|]. split; [by right|apply Hcr]. }
  assert (Hno : forall x, process_lookup T x <> None -> node_of T x <> None) by (intros x; unfold node_of; by destruct (process_lookup T x)).
  assert (Hsame : forall o, cred_step o T T) by (intros o; apply stays_cred_step; [apply tame_stays; [done|apply tame_refl]|done]).
  apply runs_reads. destruct ((aget 0 nm 0 =? 0) || _) eqn:Ebad; [apply runs_ret; [done|]; apply Hfail; try done|].
  { apply orb_true_iff in Ebad as [E|E]; [left; by bool_to_prop|right; left]. apply andb_true_iff in E as [E1 E2]. bool_to_prop. unfold node_of. by rewrite E2. }
  apply orb_false_iff in Ebad as [_ Epar]. apply runs_reads.
  match goal with |- context [for_ 1 ?n ?b tt] => destruct (for_first (fun i => unused (slot T i)) b 1 n) as [[-> Hfull]|(i & -> & Hi & Hun)] end; [done|apply runs_ret; [done|]; apply Hfail; try done|].
  { right. right. left. intros x Hx. apply Hno. apply full_ids; [done..|]. done. }
  assert (Hii : index i) by (unfold index, RIX_PROCESS_MAX in *; lia). pose proof Hids as (_ & _ & _ & _ & Hnp & _).
  destruct (allocate_run T Hnp) as (n & En & Hn & Hid). set (id := (allocate_pid T).1) in *.
  pose proof (next_pid_ok n T w Hn Hok) as Hok1. set (T1 := with_next_pid n T) in *.
  assert (Hal : runs (on_procs allocate_pid) T w (fun a T' w' => a = id /\ T' = T1 /\ w' = w)) by (apply on_procs_runs; [done|by rewrite En|by rewrite En]).
  eapply runs_bind; [exact Hal|]. clear Hal. intros ? ? ? _ _ (-> & -> & ->).
  destruct (id =? 0) eqn:E0; bool_to_prop; [apply runs_ret; [done|]; apply Hfail; try done|].
  { destruct Hid as [[_ Hid]|[Hid _]]; [|lia]. right. right. left. intros x Hx. by apply Hno, Hid. }
  destruct Hid as [[Hid _]|[Hid Hfresh]]; [done|].
  apply runs_clear; [done|]. intros w1 Hw1 Hs1. set (T2 := on_slot i cleared T1). assert (HO2 : only i T1 T2) by (by apply only_on_slot; [apply Hok1|]).
  assert (E2 : slot T2 i = cleared (slot T1 i)) by (unfold T2; rewrite slot_on_slot, Z.eqb_refl by (done || apply Hok1); done).
  destruct (only_free_ok i T1 T2 w Hok1 HO2 Hii Hun) as (Hok2 & Hn2 & Hc2); [by rewrite E2|rewrite E2; cbn; lia|].
  assert (Hlk2 : forall x, process_lookup T2 x = process_lookup T x).
  { intros x. apply (lookup_stable T1 T2); [apply Hok1|]. apply (only_same_ids i); [done|exact Hun|by rewrite E2]. }
  destruct (origin_cred i par T T1 T2 w Hok HO2 Hun (fun j => conj eq_refl eq_refl) Hlk2) as (c & Hpc & Hcc & Horigin & Hparent); [exact Epar|].
  assert (HB : born i id par c T2 (fill_slot i id par T2)) by (apply fill_slot_born; try done; [apply Hok2..|by rewrite E2|by rewrite E2]).
  apply runs_update; [apply HB|]. set (T3 := fill_slot i id par T2) in *.
  eapply runs_bind; [by apply (clone_run par id T3 w1)|]. intros rc T3' w2 _ Hw2 (-> & Hs2 & Hwhy). destruct (rc =? 0) eqn:Erc; cbn [negb]; bool_to_prop.
  - apply runs_update; [done|]. apply runs_ret; [done|].
    destruct (born_ok i id par c nm T2 T3 _ w Hok2 Hii ltac:(by rewrite E2) ltac:(by rewrite E2) ltac:(by rewrite E2) Hid ltac:(by rewrite Hlk2) Hcc HB eq_refl) as (Hok4 & Hn4 & Hu4 & Hc4 & Ho4).
    cbn [fst snd]. split.
    2: { intros _. exists i. set (T4 := with_live_count _ _) in *. assert (Es : slot T4 i = set_name (copy_name (name (slot T3 i)) nm) (slot T3 i)).
      { change (slot T4 i) with (slot (on_slot i (fun p => set_name (copy_name (name p) nm) p) T3) i). by rewrite slot_on_slot, Z.eqb_refl by (done || apply HB). }
      destruct HB as (_ & Hpid & _ & Hst & Hpm & Hks & _). split; [rewrite <- Hpid; change (pid (slot T3 i)) with (pid (set_name (copy_name (name (slot T3 i)) nm) (slot T3 i)));
        rewrite <- Es; apply lookup_used; [apply Hok4|done|done]|]. split; [unfold RIX_PROCESS_MAX in Hi; lia|]. rewrite Es. cbn. by rewrite Hst, Hpm, Hks, E2. }
    split; [apply (procs_ok_host _ w); [by eapply same_res_trans|done]|]. split.
    + left. split; [done|]. split; [done|]. split; [unfold node_of; by rewrite Hfresh|]. split; [done|]. intros x. rewrite Hn4, Hn2. done.
    + intros j Hij Huj. destruct (decide (j = i)) as [->|Hne].
      * right. split; [unfold used; by rewrite Hun|]. exists par. split; [done|]. rewrite Hc4. done.
      * left. destruct (Ho4 j Hij Hne) as [E4 E4']. destruct HO2 as (_ & _ & _ & _ & O2). destruct (O2 j Hij Hne) as [E3 E3']. rewrite E4, E3. split; [|split; [done|left; by rewrite E4', E3']].
        unfold used in *. rewrite E4, E3 in Huj. done.
  - apply runs_close_all; [done|]. intros a w3 Hw3 Hs3. apply runs_clear; [done|]. intros w4 Hw4 Hs4. apply runs_ret; [done|]. cbn [fst snd].
    assert (HO3 : only i T1 T3) by (eapply only_trans; [exact HO2|apply HB]). assert (HO4 : only i T1 (on_slot i cleared T3)) by (eapply only_trans; [exact HO3|apply only_on_slot; [apply HO3|done]]).
    assert (E4 : slot (on_slot i cleared T3) i = cleared (slot T3 i)) by (rewrite slot_on_slot, Z.eqb_refl by (done || apply HO3); done).
    destruct (only_free_ok i T1 _ w Hok1 HO4 Hii Hun) as (Hok4 & Hn4 & Hc4); [by rewrite E4|rewrite E4; cbn; lia|].
    apply Hfail; [by repeat (eapply same_res_trans; [eassumption|])|done|exact Hn4|exact Hc4|]. right. right. right. by apply Hwhy.
Qed.

(** ** Working directory and session list *)

Lemma setcwd_step id va path T w : host_ok w -> procs_ok T w ->
  runs (p ← reads (fun T => process_lookup T id);
        match p with
        | None => mret (-1)
        | Some p =>
          if (va =? 0) || (va <? 0x100000) || (0x10000000 <=? va) then mret (-1)
          else
            pa ← on_host (vmm_translate va);
            if pa =? 0 then mret (-1)
            else if aget 0 path 0 =? 0 then mret (-1)
            else on_procs (fun T => let '(rc, d) := copy_cwd (cwd (slot T p)) path in (rc, on_slot p (set_cwd d) T))
        end : M st Z) T w (fun rc T' w' => step_ok (OSetCwd id va path) T w (rc, 0, 0) T' w').
Proof.
  intros Hw Hok. pose proof Hok as (Hs & _).
  assert (Hsame : forall rc w', same_res w w' -> step_ok (OSetCwd id va path) T w (rc, 0, 0) T w').
  { intros rc w' Hsw. apply (tame_step _ _ w); try done; first [apply tame_refl|intros; by left]. }
  apply runs_reads. destruct (process_lookup T id) as [p|] eqn:El; [|apply runs_ret; [done|apply Hsame, same_res_refl]]. apply lookup_Some in El as (Hi & _).
  destruct (_ || _ || _); [apply runs_ret; [done|apply Hsame, same_res_refl]|]. apply runs_host; [apply vmm_translate_quiet|done|]. intros pa w1 Hw1 Hs1.
  destruct (pa =? 0); [apply runs_ret; [done|by apply Hsame]|]. destruct (aget 0 path 0 =? 0); [apply runs_ret; [done|by apply Hsame]|].
  set (d := (copy_cwd (cwd (slot T p)) path).2). destruct (pure_plain (OSetCwd id va path) T p (set_cwd d)) as [HT Hc]; try done.
  apply on_procs_runs; [done| |].
  - destruct (copy_cwd _ _). done.
  - subst d. destruct (copy_cwd _ _) as [rc d]. cbn [fst snd] in *. by apply (tame_step _ _ w).
Qed.

(** Only the session table changes. *)
Definition sessions_only (T T' : procs) : Prop := exists l, T' = with_sessions l T /\ length l = length (sessions T).

Lemma find_tty_run n tty sid T w : host_ok w -> runs (find_tty n tty sid) T w (fun _ T' w' => T' = T /\ same_res w w').
Proof.
  revert tty w. induction n as [|n IH]; intros tty w Hw; cbn [find_tty]; [apply runs_ret; [done|]; split; [done|apply same_res_refl]|].
  apply runs_host; [apply tty_quiet|done|]. intros [rc [x y]] w1 Hw1 Hs1. destruct (_ && _ && _); [by apply runs_ret|].
  eapply runs_conseq; [by apply IH|]. cbn. intros _ T' w' [-> ?]. split; [done|]. by eapply same_res_trans.
Qed.

Lemma list_sessions_run n i T w : host_ok w -> runs (list_sessions_from n i) T w (fun _ T' w' => sessions_only T T' /\ same_res w w').
Proof.
  assert (Hrefl : forall T, sessions_only T T) by (intros T0; exists (sessions T0); by destruct T0).
  revert i T w. induction n as [|n IH]; intros i T w Hw; cbn [list_sessions_from]; [apply runs_ret; [done|]; split; [apply Hrefl|apply same_res_refl]|].
  apply runs_reads. destruct (si_session (sess T i) =? 0) eqn:E; [by apply IH|].
  assert (Href : runs (session_refresh_tty i) T w (fun _ T' w' => sessions_only T T' /\ same_res w w')).
  { unfold session_refresh_tty. apply runs_reads. rewrite E. eapply runs_bind; [by apply find_tty_run|]. cbn beta. intros t T1 w1 _ Hw1 [-> Hs1].
    intros c. eexists tt, _, w1. split; [reflexivity|]. split; [done|]. split; [done|]. split; [|done]. eexists. split; [reflexivity|]. apply length_aset. }
  eapply runs_bind; [exact Href|]. intros _ T1 w1 _ Hw1 [[l [-> Hl]] Hs1]. apply runs_reads. eapply runs_bind; [by apply IH|]. cbn beta. intros r T2 w2 _ Hw2 [[l2 [-> Hl2]] Hs2].
  apply runs_ret; [done|]. split; [|by eapply same_res_trans]. exists l2. split; [done|]. by rewrite Hl2.
Qed.

Lemma list_sessions_step n T w : host_ok w -> procs_ok T w ->
  runs (total ← reads (fun T => countb (fun x => negb (si_session x =? 0)) (sessions T));
        if n <? total then mret (-1, [])
        else l ← list_sessions_from (Z.to_nat RIX_SESSION_MAX) 0; mret (0, l) : M st _) T w (fun r T' w' => step_ok (OListSessions n) T w (r.1, 0, 0) T' w').
Proof.
  intros Hw Hok. apply runs_reads. destruct (_ <? _).
  - apply runs_ret; [done|]. apply (tame_step _ _ w); try done; first [apply same_res_refl|apply tame_refl|intros; by left].
  - eapply runs_bind; [by apply list_sessions_run|]. cbn beta. intros l T1 w1 _ Hw1 [[k [-> Hk]] Hs1]. apply runs_ret; [done|].
    apply (tame_step _ _ w); try done; first [by apply tame_sessions|intros; by left].
Qed.

(** ** Address spaces, stacks and programs *)

(** A computation that leaves the table, the roots and the stacks alone and returns with [P]. *)
Definition calm {A} (P : A -> Prop) (m : M st A) : Prop := forall T w, host_ok w -> runs m T w (fun a T' w' => P a /\ T' = T /\ same_res w w').

Lemma placid_ret {A} (P : A -> Prop) a : P a -> calm P (mret a).
Proof. intros Ha T w Hw. apply runs_ret; [done|]. split; [done|]. split; [done|apply same_res_refl]. Qed.

Lemma placid_host {A} (m : M (cpu * W) A) : quiet m -> calm (fun _ => True) (on_host m).
Proof. intros Hq T w Hw c. destruct (on_host_run m c T w Hq Hw) as (a & w' & E & Hw' & Hs). by exists a, T, w'. Qed.

Lemma placid_bind {A B} P Q (m : M st A) (k : A -> M st B) : calm P m -> (forall a, P a -> calm Q (k a)) -> calm Q (m ≫= k).
Proof.
  intros Hm Hk T w Hw. eapply runs_bind; [by apply Hm|]. cbn beta. intros a T1 w1 _ Hw1 (Ha & -> & Hs1). eapply runs_conseq; [by apply Hk|].
  cbn beta. intros b T2 w2 (Hb & -> & Hs2). split; [done|]. split; [done|]. by eapply same_res_trans.
Qed.

Lemma runs_calm {A B} P (m : M st A) (k : A -> M st B) T w Q : calm P m -> host_ok w ->
  (forall a w', P a -> host_ok w' -> same_res w w' -> runs (k a) T w' Q) -> runs (m ≫= k) T w Q.
Proof. intros Hm Hw Hk. eapply runs_bind; [by apply Hm|]. cbn beta. intros a T1 w1 _ Hw1 (Ha & -> & Hs1). by apply Hk. Qed.

Ltac calm := repeat first
  [ apply placid_ret; done
  | eapply placid_bind; [first [eassumption | apply placid_host; eauto using space_map_quiet, space_translate_quiet, page_alloc_quiet, page_free_quiet, zero_page_quiet, store_byte_quiet]|intros ? ?]
  | case_match ].

Lemma map_user_stack_calm n i r : calm (fun rc => rc = 0 \/ rc = -5 \/ rc = -6) (map_user_stack n i r).
Proof. revert i. induction n as [|n IH]; intros i; cbn [map_user_stack]; calm; first [apply placid_ret; lia|apply IH]. Qed.

Lemma write_bytes_calm r a n i src : calm (fun _ => True) (write_bytes r a n i src).
Proof. revert i. induction n as [|n IH]; intros i; cbn [write_bytes]; calm. apply IH. Qed.

Lemma stack_write_calm r a src n : calm (fun _ => True) (stack_write r a src n).
Proof. unfold stack_write. case_match; [by apply placid_ret|apply write_bytes_calm]. Qed.

Lemma stack_copy_string_calm r sp s : calm (fun _ => True) (stack_copy_string r sp s).
Proof.
  destruct s as [s|]; cbn [stack_copy_string]; [|by apply placid_ret]. case_match; [by apply placid_ret|]. case_match; [by apply placid_ret|].
  eapply placid_bind; [apply stack_write_calm|]. intros rc _. case_match; [by apply placid_ret|]. eapply placid_bind; [apply stack_write_calm|]. intros ? _. by apply placid_ret.
Qed.

Lemma copy_strings_calm r sp l acc : calm (fun _ => True) (copy_strings r sp l acc).
Proof.
  revert sp acc. induction l as [|s l IH]; intros sp acc; cbn [copy_strings]; [by apply placid_ret|]. eapply placid_bind; [apply stack_copy_string_calm|].
  intros [sp'|] _; [apply IH|by apply placid_ret].
Qed.

Lemma push_words_calm r sp l : calm (fun _ => True) (push_words r sp l).
Proof.
  revert sp. induction l as [|v l IH]; intros sp; cbn [push_words]; [by apply placid_ret|]. eapply placid_bind; [apply stack_write_calm|].
  intros rc _. case_match; [by apply placid_ret|apply IH].
Qed.

Lemma stack_build_args_calm r argv envp : calm (fun _ => True) (stack_build_args r argv envp).
Proof.
  unfold stack_build_args. cbv zeta. case_match; [by apply placid_ret|]. eapply placid_bind; [apply copy_strings_calm|]. intros [[sp la]|] _; [|by apply placid_ret].
  eapply placid_bind; [apply copy_strings_calm|]. intros [[sp' le]|] _; [|by apply placid_ret]. case_match; [by apply placid_ret|apply push_words_calm].
Qed.

Lemma zero_stack_calm ks : calm (fun _ => True) (zero_stack ks).
Proof.
  unfold zero_stack. generalize 0. induction (Z.to_nat KERNEL_STACK_PAGES) as [|n IH]; intros i; cbn [mfor]; [by apply placid_ret|].
  eapply placid_bind; [apply placid_host, zero_page_quiet|]. intros _ _. apply IH.
Qed.

(** A new root, or none. *)
Lemma runs_new_space {B} m (k : Z * Z -> M st B) T w Q : hands_out_space m -> host_ok w ->
  (forall rc r w', host_ok w' -> (forall y, stack_of w' y <-> stack_of w y) ->
     (rc <> 0 /\ r = 0 /\ forall x, space_of w' x <-> space_of w x) \/ (rc = 0 /\ r <> 0 /\ ~ space_of w r /\ forall x, space_of w' x <-> space_of w x \/ x = r) ->
     runs (k (rc, r)) T w' Q) -> runs (on_host m ≫= k) T w Q.
Proof.
  intros Hm Hw Hk c. destruct (Hm c w Hw) as (rc & r & w' & E & Hw' & Hst & Hsp). destruct (Hk rc r w' Hw' Hst Hsp c) as (a & T2 & w2 & E2 & H2).
  exists a, T2, w2. rewrite (bind_Some _ _ _ (rc, r) (c, (T, w'))); [done|]. unfold on_host. by rewrite E.
Qed.

Lemma runs_new_stack {B} (k : Z -> M st B) T w Q : host_ok w ->
  (forall ks w', host_ok w' -> (forall x, space_of w' x <-> space_of w x) ->
     (ks = 0 /\ forall y, stack_of w' y <-> stack_of w y) \/ (ks <> 0 /\ ~ stack_of w ks /\ forall y, stack_of w' y <-> stack_of w y \/ y = ks) -> runs (k ks) T w' Q) ->
  runs (on_host (pmm_alloc_pages KERNEL_STACK_PAGES) ≫= k) T w Q.
Proof.
  intros Hw Hk c. destruct (stack_alloc_law c w Hw) as (ks & w' & E & Hw' & Hsp & Hst). destruct (Hk ks w' Hw' Hsp Hst c) as (a & T2 & w2 & E2 & H2).
  exists a, T2, w2. rewrite (bind_Some _ _ _ ks (c, (T, w'))); [done|]. unfold on_host. by rewrite E.
Qed.

(** A process changes what it holds. *)
Lemma resources_swap i f g T S S' : shape_ok T -> index i -> used T i = true -> unused (f (slot T i)) = false -> resources_ok S g T ->
  (forall x, x <> 0 -> S' x <-> (S x /\ x <> g (slot T i)) \/ x = g (f (slot T i))) ->
  (S (g (f (slot T i))) -> g (f (slot T i)) = 0 \/ g (f (slot T i)) = g (slot T i)) -> resources_ok S' g (on_slot i f T).
Proof.
  intros Hs Hi Hu Hf (R1 & R2 & R3) HS Hnew. assert (Es : forall j, index j -> slot (on_slot i f T) j = if j =? i then f (slot T i) else slot T j) by (intros; by apply slot_on_slot).
  assert (Hj : forall j, index j -> used (on_slot i f T) j = true -> j <> i -> used T j = true /\ slot (on_slot i f T) j = slot T j).
  { intros j Hj Huj Hne. unfold used in *. rewrite Es, (proj2 (Z.eqb_neq j i)) in * by done. done. }
  assert (Ei : slot (on_slot i f T) i = f (slot T i)) by (by rewrite Es, Z.eqb_refl).
  assert (Hother : forall j, index j -> used T j = true -> j <> i -> g (slot T j) <> 0 -> S (g (slot T j)) /\ g (slot T j) <> g (slot T i)).
  { intros j Hij Huj Hne Hn. split; [by apply R1|]. intros E. destruct Hne. by apply R2. }
  assert (Hdiff : forall j, index j -> used T j = true -> j <> i -> g (slot T j) <> 0 -> g (slot T j) <> g (f (slot T i))).
  { intros j Hij Huj Hne Hn E. destruct (Hother j Hij Huj Hne Hn) as [A B]. rewrite E in A. destruct (Hnew A); congruence. }
  split; [|split].
  - intros j Hij Huj Hn. apply HS; [done|]. destruct (decide (j = i)) as [->|Hne]; [rewrite Ei; by right|]. destruct (Hj j Hij Huj Hne) as [Hu' E]. rewrite E in *. left. by apply Hother.
  - intros j k Hij Hik Huj Huk Hn E. destruct (decide (j = i)) as [->|Hj'], (decide (k = i)) as [->|Hk']; [done| | |].
    + destruct (Hj k Hik Huk Hk') as [Hu' Ek]. rewrite Ei, Ek in *. by destruct (Hdiff k Hik Hu' Hk' ltac:(congruence)).
    + destruct (Hj j Hij Huj Hj') as [Hu' Ej]. rewrite Ei, Ej in *. by destruct (Hdiff j Hij Hu' Hj' Hn).
    + destruct (Hj j Hij Huj Hj') as [Hu' Ej], (Hj k Hik Huk Hk') as [Hu'' Ek]. rewrite Ej, Ek in *. by apply R2.
  - intros x Hx HSx. apply HS in HSx as [[HSx Hne]| ->]; [|exists i; unfold used; by rewrite Ei, Hf|done]. destruct (R3 x Hx HSx) as (j & Hij & Huj & Ej). exists j.
    assert (Hji : j <> i) by congruence. unfold used in *. rewrite Es, (proj2 (Z.eqb_neq j i)) by done. done.
Qed.

(** Every process of [T'] was one of [T], with the same id and credentials. *)
Definition shrinks (T T' : procs) : Prop := forall i, index i -> used T' i = true -> used T i = true /\ pid (slot T' i) = pid (slot T i) /\ cred_of T' i = cred_of T i.

Lemma shrinks_cred_step o T T' : shrinks T T' -> cred_step o T T'.
Proof. intros H i Hi Hu. destruct (H i Hi Hu) as (? & ? & ?). left. split; [done|]. split; [done|]. by left. Qed.

Lemma freed_shrinks i T T' : freed i T T' -> shrinks T T'.
Proof.
  intros (_ & _ & _ & Ho & Hf & _) j Hj Huj. destruct (decide (j = i)) as [->|Hne]; [unfold used in Huj; by rewrite Hf in Huj|].
  destruct (Ho j Hj Hne) as [Es Ec]. unfold used in *. by rewrite Es in *.
Qed.

Lemma stays_shrinks T T' : stays T T' -> (forall i, index i -> cred_of T' i = cred_of T i) -> shrinks T T'.
Proof. intros HT Hc i Hi Hu. destruct (stays_same_ids _ _ HT i Hi) as [Eu Ep]. rewrite Eu in Hu. split; [done|]. split; [by apply Ep|by apply Hc]. Qed.

(** A change of what the process in slot [i] holds, and of nothing the tree or the credentials mention. *)
Definition same_face (p q : rix_process_t) : Prop :=
  state q = state p /\ pid q = pid p /\ parent q = parent p /\ exit_status q = exit_status p /\ capabilities q = capabilities p /\ uid q = uid p.

Lemma dress_ok i f T w w' : procs_ok T w -> index i -> used T i = true -> same_face (slot T i) (f (slot T i)) ->
  resources_ok (space_of w') pml4_phys (on_slot i f T) -> resources_ok (stack_of w') kernel_stack (on_slot i f T) ->
  procs_ok (on_slot i f T) w' /\ (forall x, process_lookup (on_slot i f T) x = process_lookup T x) /\
  (forall x, node_of (on_slot i f T) x = node_of T x) /\ shrinks T (on_slot i f T).
Proof.
  intros (Hs & Hids & Hc & _) Hi Hu (F1 & F2 & F3 & F4 & F5 & F6) HR1 HR2. set (T' := on_slot i f T). assert (Hs' : shape_ok T') by by apply shape_put.
  assert (Es : forall j, index j -> slot T' j = if j =? i then f (slot T i) else slot T j) by (intros; by apply slot_on_slot).
  assert (Hf : forall j, index j -> same_face (slot T j) (slot T' j)).
  { intros j Hj. rewrite Es by done. destruct (j =? i) eqn:E; bool_to_prop; [by subst|by repeat split]. }
  assert (Hus : forall j, index j -> used T' j = used T j) by (intros j Hj; unfold used, unused; by rewrite (proj1 (Hf j Hj))).
  assert (Hids' : ids_ok T') by (apply (ids_same T); try done; intros j Hj; apply (Hf j Hj)).
  assert (Hlk : forall x, process_lookup T' x = process_lookup T x).
  { intros x. apply lookup_same_ids; [done|]. intros j Hj. split; [by apply Hus|]. intros _. apply (Hf j Hj). }
  split; [|split; [done|split]].
  - split; [done|]. split; [done|]. split; [|done]. intros j Hj. destruct (Hf j Hj) as (_ & _ & _ & _ & -> & _). by apply Hc.
  - intros x. unfold node_of. rewrite Hlk. destruct (process_lookup T x) as [j|] eqn:El; [|done]. apply lookup_Some in El as (Hj & _).
    destruct (Hf j Hj) as (A & _ & B & C & _). unfold zombie. by rewrite A, B, C.
  - intros j Hj Huj. rewrite Hus in Huj by done. split; [done|]. split; [apply (Hf j Hj)|]. unfold T'. rewrite cred_on_slot by done.
    destruct (j =? i) eqn:E; bool_to_prop; [|done]. subst j. by rewrite F5, F6.
Qed.

(** Process [id], new in slot [p], holds root [r] and stack [k]. *)
Definition raised (T : procs) (par id p r k : Z) (T' : procs) (w : W) : Prop :=
  procs_ok T' w /\ joins (node_of T) par id None (node_of T') /\ (forall o, creates o = Some par -> cred_step o T T') /\
  process_lookup T' id = Some p /\ p <> 0 /\ state (slot T' p) = RIX_PROC_SLEEPING /\ pml4_phys (slot T' p) = r /\ kernel_stack (slot T' p) = k.

Lemma cred_step_creates o o' T T1 T2 : creates o = creates o' -> (forall i c, cred_change o T i c -> c = cred_of T i) -> cred_step o T T1 -> shrinks T1 T2 -> cred_step o' T T2.
Proof.
  intros Ho Hc H1 H2 i Hi Hu. destruct (H2 i Hi Hu) as (Hu1 & -> & ->). destruct (H1 i Hi Hu1) as [(A & B & C)|(A & par & B & C)].
  - left. split; [done|]. split; [done|]. left. by apply Hc.
  - right. split; [done|]. exists par. by rewrite <- Ho.
Qed.

Lemma joins_ext a par id s a' a'' : joins a par id s a' -> (forall x, a'' x = a' x) -> joins a par id s a''.
Proof. intros (A & B & C & D) H. split; [done|]. split; [done|]. split; [done|]. intros x. by rewrite H, D. Qed.

Lemma raised_step T par id p r k T1 w1 T2 w2 : raised T par id p r k T1 w1 -> procs_ok T2 w2 -> (forall x, process_lookup T2 x = process_lookup T1 x) ->
  (forall x, node_of T2 x = node_of T1 x) -> shrinks T1 T2 -> state (slot T2 p) = state (slot T1 p) ->
  raised T par id p (pml4_phys (slot T2 p)) (kernel_stack (slot T2 p)) T2 w2.
Proof.
  intros (_ & HJ & HC & Hl & H0 & Hst & _) Hok Hlk Hn Hsh Hs. split; [done|]. split; [by eapply joins_ext|]. split; [|rewrite Hlk, Hs; by repeat split].
  intros o Ho. apply (cred_step_creates (OCreate [] par) o T T1); [done| |by apply HC|done]. intros i c [->|[]]. done.
Qed.

Lemma raised_dress T par id p r k T1 w1 f w2 : raised T par id p r k T1 w1 -> same_face (slot T1 p) (f (slot T1 p)) ->
  let r' := pml4_phys (f (slot T1 p)) in let k' := kernel_stack (f (slot T1 p)) in
  (forall x, x <> 0 -> space_of w2 x <-> (space_of w1 x /\ x <> r) \/ x = r') -> (space_of w1 r' -> r' = 0 \/ r' = r) ->
  (forall x, x <> 0 -> stack_of w2 x <-> (stack_of w1 x /\ x <> k) \/ x = k') -> (stack_of w1 k' -> k' = 0 \/ k' = k) ->
  raised T par id p r' k' (on_slot p f T1) w2.
Proof.
  intros HR Hf r' k' H1 H2 H3 H4. pose proof HR as (Hok & _ & _ & Hl & _ & Hst & Er & Ek). pose proof (lookup_Some _ _ _ Hl) as (Hp & Hu & _). pose proof Hok as (Hs & _ & _ & R1 & R2).
  assert (Hnu : unused (f (slot T1 p)) = false) by (unfold unused; rewrite (proj1 Hf), Hst; done).
  destruct (dress_ok p f T1 w1 w2 Hok Hp Hu Hf) as (Hok2 & Hlk & Hn & Hsh); [apply (resources_swap p f _ T1 (space_of w1)); try done; by rewrite Er|apply (resources_swap p f _ T1 (stack_of w1)); try done; by rewrite Ek|].
  assert (Es : slot (on_slot p f T1) p = f (slot T1 p)) by (by rewrite slot_on_slot, Z.eqb_refl).
  pose proof (raised_step _ _ _ _ _ _ _ _ _ _ HR Hok2 Hlk Hn Hsh) as H. rewrite Es in H. apply H. apply Hf.
Qed.

(** The world may change as long as the roots and stacks stay. *)
Lemma raised_host T par id p r k T1 w1 w2 : raised T par id p r k T1 w1 -> same_res w1 w2 -> raised T par id p r k T1 w2.
Proof. intros (Hok & H) Hs. split; [by apply (procs_ok_host _ w1)|done]. Qed.

Lemma create_raised nm par T w : host_ok w -> procs_ok T w ->
  runs (process_create_locked nm par) T w (fun r T' w' =>
    (r.1 = 0 /\ exists p, raised T par r.2 p 0 0 T' w') \/
    (r.1 = -1 /\ procs_ok T' w' /\ (forall x, node_of T' x = node_of T x) /\ (forall o, creates o = Some par -> cred_step o T T'))).
Proof.
  intros Hw Hok. eapply runs_conseq; [by apply create_run|]. cbn beta. intros [rc id] T' w' ((Hok' & Ht & Hc) & Hnew). cbn [fst snd] in *.
  assert (HC : forall o, creates o = Some par -> cred_step o T T').
  { intros o Ho. apply (cred_step_creates (OCreate nm par) o T T'); [done|intros i c [->|[]]; done|done|]. intros i _ Hu. done. }
  destruct Ht as [(-> & HJ)|(-> & _ & Hn)]; [left|by right]. split; [done|]. destruct (Hnew eq_refl) as (p & Hl & H0 & Hst & Hr & Hk). by exists p.
Qed.

Lemma freed_plain p T : shape_ok T -> index p ->
  freed p T (with_live_count (live_count T - 1) (on_slot p cleared (on_slot p (set_pml4_phys 0) T))).
Proof.
  intros Hs Hp. rewrite on_slot_twice by done. set (f := fun q => cleared (set_pml4_phys 0 q)). set (T1 := on_slot p f T). assert (HO : only p T T1) by by apply only_on_slot.
  destruct HO as (Hs1 & En & El & _ & Ho). split; [exact Hs1|]. split; [exact En|]. split; [done|]. split; [exact Ho|].
  change (slot (with_live_count (live_count T - 1) T1) p) with (slot T1 p). unfold T1. by rewrite slot_on_slot, Z.eqb_refl.
Qed.

(** The failing paths leave the table as it was. *)
Lemma discard_tail p T w1 w2 w3 : procs_ok T w1 -> index p -> p <> 0 -> used T p = true -> host_ok w3 ->
  (forall x, space_of w2 x <-> space_of w1 x /\ x <> pml4_phys (slot T p)) -> (forall x, space_of w3 x <-> space_of w2 x) ->
  (forall y, y <> 0 -> stack_of w3 y <-> stack_of w1 y /\ y <> kernel_stack (slot T p)) ->
  runs (clear_process p ≫= fun _ => update (fun T => if negb (live_count T =? 0) then with_live_count (live_count T - 1) T else T)) (on_slot p (set_pml4_phys 0) T) w3
    (fun _ T' w' => freed p T T' /\ procs_ok T' w').
Proof.
  intros Hok Hp H0 Hu Hw3 Hsp2 Hsp3 Hst3. pose proof Hok as (Hs & Hids & _). apply runs_clear; [done|]. intros w4 Hw4 [Hsp4 Hst4].
  pose proof (freed_plain p T Hs Hp) as HF. set (T1 := on_slot p cleared _) in *. pose proof (live_count_pos T p Hs Hids Hp Hu : live_count T1 <> 0) as Elc.
  intros c. exists tt, (with_live_count (live_count T - 1) T1), w4. split; [unfold update, act; by rewrite (proj2 (Z.eqb_neq _ 0) Elc)|]. split; [done|]. split; [done|]. split; [done|].
  apply (freed_ok p T _ w1); try done.
  - intros x. by rewrite Hsp4, Hsp3, Hsp2.
  - intros y Hy. by rewrite Hst4, Hst3.
Qed.

Lemma raised_freed T par id p r k T1 w1 T2 w2 : raised T par id p r k T1 w1 -> freed p T1 T2 -> procs_ok T2 w2 ->
  (forall x, node_of T2 x = node_of T x) /\ (forall o, creates o = Some par -> cred_step o T T2).
Proof.
  intros (Hok & HJ & HC & Hl & H0 & _) HF Hok2. pose proof (lookup_Some _ _ _ Hl) as (Hp & Hu & Hpid & _). destruct HJ as (_ & Hfr & _ & HJ). split.
  - intros x. rewrite (freed_node p T1 T2 x) by (done || apply Hok || apply Hok2). rewrite Hpid, HJ. destruct (x =? id) eqn:E; [|done]. bool_to_prop. by subst x.
  - intros o Ho. apply (cred_step_creates (OCreate [] par) o T T1); [done|intros i c [->|[]]; done|by apply HC|]. by eapply freed_shrinks.
Qed.

(** A failing path run on a raised process undoes it. *)
Definition undone (T : procs) (par : Z) (T' : procs) (w' : W) : Prop :=
  procs_ok T' w' /\ (forall x, node_of T' x = node_of T x) /\ (forall o, creates o = Some par -> cred_step o T T').

Lemma discard_run T par id p r k T1 w1 {B} (b : B) : host_ok w1 -> raised T par id p r k T1 w1 -> runs (_ ← discard id p; mret b) T1 w1 (fun a T' w' => a = b /\ undone T par T' w').
Proof.
  intros Hw HR. pose proof HR as (_ & _ & _ & Hl & H0 & _ & Er & Ek). pose proof (lookup_Some _ _ _ Hl) as (Hp & Hu & _). unfold discard.
  apply (runs_bind _ _ _ _ (fun _ => undone T par)); [|intros; apply runs_ret; done].
  apply runs_host; [apply vfs_close_all_quiet|done|]. intros ? w2 Hw2 Hs2. apply (raised_host _ _ _ _ _ _ _ _ w2) in HR; [|done]. pose proof HR as (Hok & _). pose proof Hok as (Hs & _ & _ & R1 & R2).
  apply runs_reads. apply runs_destroy; [done|by apply (slot_holds _ pml4_phys)|]. intros w3 Hw3 Hsp3 Hst3. apply runs_update; [done|]. apply runs_reads.
  assert (Eks : kernel_stack (slot (on_slot p (set_pml4_phys 0) T1) p) = kernel_stack (slot T1 p)) by (by rewrite slot_on_slot, Z.eqb_refl). rewrite Eks.
  apply runs_free_stack; [done|rewrite Hst3; by apply (slot_holds _ kernel_stack)|]. intros w4 Hw4 Hsp4 Hst4.
  eapply runs_conseq; [apply (discard_tail p T1 w2 w3 w4); try done|].
  { intros y Hy. by rewrite Hst4, Hst3. }
  cbn beta. intros _ T' w' [HF Hok']. split; [done|]. by apply (raised_freed _ _ _ _ _ _ _ _ _ w' HR).
Qed.

Lemma discard_fork_run T par id p r T1 w1 {B} (b : B) : host_ok w1 -> raised T par id p r 0 T1 w1 -> runs (_ ← discard_fork id p; mret b) T1 w1 (fun a T' w' => a = b /\ undone T par T' w').
Proof.
  intros Hw HR. pose proof HR as (_ & _ & _ & Hl & H0 & _ & Er & Ek). pose proof (lookup_Some _ _ _ Hl) as (Hp & Hu & _). unfold discard_fork.
  apply (runs_bind _ _ _ _ (fun _ => undone T par)); [|intros; apply runs_ret; done].
  apply runs_host; [apply vfs_close_all_quiet|done|]. intros ? w2 Hw2 Hs2. apply (raised_host _ _ _ _ _ _ _ _ w2) in HR; [|done]. pose proof HR as (Hok & _). pose proof Hok as (Hs & _ & _ & R1 & R2).
  apply runs_reads. apply runs_destroy; [done|by apply (slot_holds _ pml4_phys)|]. intros w3 Hw3 Hsp3 Hst3. apply runs_update; [done|].
  eapply runs_conseq; [apply (discard_tail p T1 w2 w3 w3); try done|].
  { intros y Hy. rewrite Hst3, Ek. tauto. }
  cbn beta. intros _ T' w' [HF Hok']. split; [done|]. by apply (raised_freed _ _ _ _ _ _ _ _ _ w' HR).
Qed.

Lemma undone_step o par T w T' w' code v : creates o = Some par -> undone T par T' w' ->
  match o with OSpawn _ _ _ _ => -8 <= code < 0 | OFork _ _ _ => code = -1 | _ => False end -> step_ok o T w (code, v, 0) T' w'.
Proof.
  intros Ho (Hok & Hn & Hc) Hcode. split; [done|]. split; [|by apply Hc]. destruct o; try done; cbn.
  - right. by right.
  - by right.
Qed.

Lemma undone_refl T par w w' : procs_ok T w -> same_res w w' -> undone T par T w'.
Proof. intros Hok Hs. split; [by apply (procs_ok_host _ w)|]. split; [done|]. intros o _. by apply shrinks_cred_step. Qed.

Lemma raised_done o par id p r k T w T' w' : creates o = Some par -> (match o with OSpawn _ _ _ _ | OFork _ _ _ => True | _ => False end) ->
  raised T par id p r k T' w' -> step_ok o T w (0, id, 0) T' w'.
Proof. intros Ho Hk (Hok & HJ & HC & _). split; [done|]. split; [|by apply HC]. destruct o; try done; injection Ho as ->; by left. Qed.

(** The new session, if any, is beside the table. *)
Lemma session_register_run T par id p r k T1 w1 : host_ok w1 -> raised T par id p r k T1 w1 ->
  runs (if par =? 0 then on_procs (fun T => session_register T id id 0) else mret 0 : M st Z) T1 w1 (fun rc T2 w2 => raised T par id p r k T2 w2 /\ (rc <> 0 -> par = 0)).
Proof.
  intros Hw HR. destruct (par =? 0) eqn:E; bool_to_prop; [|by apply runs_ret]. destruct (register_arrays T1 id id 0) as (l & El & Hl).
  apply on_procs_runs; [done|by rewrite El|]. rewrite El. split; [|done]. pose proof HR as (Hok & _ & _ & _ & _ & _ & <- & <-).
  apply (raised_step _ _ _ _ _ _ T1 w1 (with_sessions l T1) w1) in HR; [done|apply (tame_ok T1); [by apply tame_sessions|done]|done|done| |done]. intros i _ Hu. done.
Qed.

(** A process that is ended before it was given anything. *)
Lemma raised_exit nm image size id p r k T w T1 w1 : host_ok w1 -> raised T 0 id p r k T1 w1 ->
  runs (_ ← process_exit_locked id 127; mret (-3, (0, 0, 0))) T1 w1 (fun r T' w' => step_ok (OSpawn nm 0 image size) T w (r.1, r.2.1.1, 0) T' w').
Proof.
  intros Hw (Hok & HJ & HC & Hl & H0 & Hst & _). pose proof Hok as (Hs & Hids & _). pose proof (lookup_Some _ _ _ Hl) as (Hp & Hu & Hpid & _).
  eapply runs_bind; [by apply exit_locked_run|]. cbn beta. intros rc T2 w2 _ Hw2 (Hsw & H). apply runs_ret; [done|]. cbn [fst snd]. destruct HJ as (J1 & J2 & J3 & J4).
  assert (Hn1 : node_of T1 id = Some (0, None)) by (by rewrite J4, Z.eqb_refl). destruct H as [(_ & _ & H)|(_ & _ & q & Eq & Hz & HE)]; [specialize (H 0 Hn1); lia|].
  rewrite Hl in Eq. injection Eq as <-. pose proof (ended_stays _ _ _ _ Hs Hp Hu HE) as HT. pose proof (stays_ok _ _ _ HT Hok) as Hok2.
  split; [by apply (procs_ok_host _ w1)|]. split.
  - right. left. split; [done|]. split; [done|]. exists id. split; [done|]. split; [done|]. split; [done|]. intros x. rewrite (ended_node p 127 T1 T2) by (done || apply Hok2).
    rewrite Hpid. unfold node_of in Hn1. rewrite Hl in Hn1. injection Hn1 as -> _. destruct (x =? id) eqn:E; [done|]. by rewrite J4, E.
  - apply (cred_step_creates (OCreate [] 0) _ T T1); [done|intros i c [->|[]]; done|by apply HC|]. apply stays_shrinks; [done|]. intros i Hi. by apply (ended_cred p 127).
Qed.

Lemma raised_stack T par id p r T1 w1 ks w2 : raised T par id p r 0 T1 w1 -> ks <> 0 -> (forall x, space_of w2 x <-> space_of w1 x) ->
  ~ stack_of w1 ks -> (forall y, stack_of w2 y <-> stack_of w1 y \/ y = ks) ->
  raised T par id p r ks (on_slot p (fun q => set_state RIX_PROC_SLEEPING (set_kernel_stack_size KERNEL_STACK_SIZE (set_kernel_stack ks q))) T1) w2.
Proof.
  intros HR Hks Hsp Hno Hst. pose proof HR as (Hok & _ & _ & Hl & _ & Hstate & Er & _). pose proof (lookup_Some _ _ _ Hl) as (Hp & Hu & _). pose proof Hok as (_ & _ & _ & (R1 & _) & _).
  pose proof (raised_dress T par id p r 0 T1 w1 (fun q => set_state RIX_PROC_SLEEPING (set_kernel_stack_size KERNEL_STACK_SIZE (set_kernel_stack ks q))) w2 HR) as H. cbn -[slot on_slot] in H. rewrite Er in H. apply H.
  - by repeat split.
  - intros x Hx. rewrite Hsp. destruct (decide (x = r)) as [->|]; [|tauto]. split; [by right|]. intros _. rewrite <- Er. apply R1; [done..|congruence].
  - by right.
  - intros y Hy. rewrite Hst. tauto.
  - done.
Qed.

Lemma raised_space T par id p T1 w1 rc r w2 : raised T par id p 0 0 T1 w1 -> (forall y, stack_of w2 y <-> stack_of w1 y) ->
  (rc <> 0 /\ r = 0 /\ forall x, space_of w2 x <-> space_of w1 x) \/ (rc = 0 /\ r <> 0 /\ ~ space_of w1 r /\ forall x, space_of w2 x <-> space_of w1 x \/ x = r) ->
  raised T par id p r 0 (on_slot p (set_pml4_phys r) T1) w2.
Proof.
  intros HR Hst Hsp. pose proof HR as (_ & _ & _ & _ & _ & _ & _ & Ek). pose proof (raised_dress T par id p 0 0 T1 w1 (set_pml4_phys r) w2 HR) as H. cbn -[slot on_slot] in H. rewrite Ek in H.
  destruct Hsp as [(_ & -> & Hsp)|(_ & Hr & Hno & Hsp)]; apply H; try (by repeat split); try (by left); try (intros x Hx; rewrite ?Hsp, ?Hst; tauto).
Qed.

Lemma raised_heap T par id p r T1 w1 : raised T par id p r 0 T1 w1 ->
  raised T par id p r 0 (on_slot p (fun q => set_heap_break RIX_USER_HEAP_BASE (set_heap_base RIX_USER_HEAP_BASE q)) T1) w1.
Proof.
  intros HR. pose proof HR as (Hok & _ & _ & Hl & _ & _ & Er & Ek). pose proof (lookup_Some _ _ _ Hl) as (Hp & Hu & _). pose proof Hok as (_ & _ & _ & (R1 & _) & _).
  pose proof (raised_dress T par id p r 0 T1 w1 (fun q => set_heap_break RIX_USER_HEAP_BASE (set_heap_base RIX_USER_HEAP_BASE q)) w1 HR) as H. cbn -[slot on_slot] in H. rewrite Er, Ek in H. apply H.
  - by repeat split.
  - intros x Hx. destruct (decide (x = r)) as [->|]; [|tauto]. split; [by right|]. intros _. rewrite <- Er. apply R1; [done..|congruence].
  - by right.
  - intros y Hy. tauto.
  - by left.
Qed.

Lemma spawn_step nm par image size T w : host_ok w -> procs_ok T w ->
  runs (create_user_locked nm par image size) T w (fun r T' w' => step_ok (OSpawn nm par image size) T w (r.1, r.2.1.1, 0) T' w').
Proof.
  intros Hw Hok. unfold create_user_locked. set (o := OSpawn nm par image size).
  assert (Hun : forall code T' w', -8 <= code < 0 -> undone T par T' w' -> step_ok o T w (code, 0, 0) T' w') by (intros; by apply (undone_step _ par)).
  assert (Hdis : forall code id p r k T1 w1, -8 <= code < 0 -> host_ok w1 -> raised T par id p r k T1 w1 ->
    runs (_ ← discard id p; mret (code, (0, 0, 0))) T1 w1 (fun r T' w' => step_ok o T w (r.1, r.2.1.1, 0) T' w')).
  { intros code id p r k T1 w1 Hcode Hw1 HR. eapply runs_conseq; [by eapply discard_run|]. cbn beta. intros ? T' w' [-> HU]. by apply Hun. }
  apply runs_reads. destruct (_ || _ || _); [apply runs_ret; [done|]; cbn [fst snd]; apply Hun; [lia|by apply (undone_refl T par w)]|].
  eapply runs_bind; [by apply create_raised|]. cbn beta. intros [rc id] T1 w1 _ Hw1 [(E & p & HR)|(E & Hok1 & Hn1 & Hc1)]; cbn [fst snd] in *; subst rc; cbn [negb Z.eqb].
  2: { apply runs_ret; [done|]. cbn [fst snd]; apply Hun; [lia|done]. }
  eapply runs_bind; [by eapply session_register_run|]. cbn beta. intros rc T1b w1b _ Hw1b (HRb & Hpar). destruct (rc =? 0) eqn:Erc; bool_to_prop; cbn [negb].
  2: { specialize (Hpar Erc). subst par. by eapply raised_exit. }
  apply runs_reads. pose proof HRb as (_ & _ & _ & -> & _). cbn beta iota. apply runs_new_space; [apply space_create_law|done|]. intros rc2 r w2 Hw2 Hst2 Hsp2. cbn beta iota.
  apply runs_update; [done|]. pose proof (raised_space _ _ _ _ _ _ _ _ _ HRb Hst2 Hsp2) as HR2. destruct (rc2 =? 0) eqn:E2; cbn [negb]; [|apply (Hdis (-4) id p r 0); [lia|done..]].
  apply runs_update; [done|]. apply raised_heap in HR2. eapply runs_calm; [apply map_user_stack_calm|done|]. intros rc3 w3 H3 Hw3 Hs3. cbn beta in H3. apply (raised_host _ _ _ _ _ _ _ _ w3) in HR2; [|done].
  destruct (rc3 =? 0) eqn:E3; bool_to_prop; cbn [negb]; [|apply (Hdis rc3 id p r 0); [lia|done..]].
  apply runs_host; [apply elf_load_quiet|done|]. intros [rc4 entry] w4 Hw4 Hs4. apply (raised_host _ _ _ _ _ _ _ _ w4) in HR2; [|done].
  destruct (rc4 =? 0) eqn:E4; cbn [negb]; [|apply (Hdis (-7) id p r 0); [lia|done..]].
  apply runs_new_stack; [done|]. intros ks w5 Hw5 Hsp5 Hst5. destruct (ks =? 0) eqn:E5; bool_to_prop.
  { destruct Hst5 as [(_ & Hst5)|(? & _)]; [|done]. apply (Hdis (-8) id p r 0); [lia|done|]. by apply (raised_host _ _ _ _ _ _ _ w4). }
  destruct Hst5 as [(? & _)|(Hks & Hno & Hst5)]; [done|]. eapply runs_calm; [apply zero_stack_calm|done|]. intros _ w6 _ Hw6 Hs6. apply runs_update; [done|]. apply runs_ret; [done|]. cbn [fst snd].
  apply (raised_done o par id p r ks); [done..|]. apply (raised_host _ _ _ _ _ _ _ w5); [|done]. by apply (raised_stack _ _ _ _ _ _ w4).
Qed.

Lemma fork_step par rip rsp T w : host_ok w -> procs_ok T w ->
  runs (fork_locked par rip rsp) T w (fun r T' w' => step_ok (OFork par rip rsp) T w (r.1, r.2, 0) T' w').
Proof.
  intros Hw Hok. unfold fork_locked. set (o := OFork par rip rsp).
  assert (Hun : forall T' w', undone T par T' w' -> step_ok o T w (-1, 0, 0) T' w') by (intros; by apply (undone_step _ par)).
  assert (Hsame : runs (mret (-1, 0) : M st (Z * Z)) T w (fun r T' w' => step_ok o T w (r.1, r.2, 0) T' w')).
  { apply runs_ret; [done|]. apply Hun. by apply (undone_refl T par w). }
  assert (Hdis : forall id p r T1 w1, host_ok w1 -> raised T par id p r 0 T1 w1 ->
    runs (_ ← discard_fork id p; mret (-1, 0)) T1 w1 (fun r T' w' => step_ok o T w (r.1, r.2, 0) T' w')).
  { intros id p r T1 w1 Hw1 HR. eapply runs_conseq; [by eapply discard_fork_run|]. cbn beta. intros ? T' w' [-> HU]. by apply Hun. }
  destruct (_ || _); [done|]. apply runs_reads. destruct (process_lookup T par) as [pp|] eqn:Epp; [|done]. apply runs_reads. destruct (pml4_phys (slot T pp) =? 0); [done|].
  eapply runs_bind; [by apply create_raised|]. cbn beta. intros [rc id] T1 w1 _ Hw1 [(E & p & HR)|(E & Hok1 & Hn1 & Hc1)]; cbn [fst snd] in *; subst rc; cbn [negb Z.eqb].
  2: { apply runs_ret; [done|]. by apply Hun. }
  apply runs_reads. pose proof HR as (_ & _ & _ & -> & _). cbn beta iota. apply runs_reads. apply runs_new_space; [apply space_clone_law|done|]. intros rc2 r w2 Hw2 Hst2 Hsp2. cbn beta iota.
  apply runs_update; [done|]. pose proof (raised_space _ _ _ _ _ _ _ _ _ HR Hst2 Hsp2) as HR2. destruct (rc2 =? 0) eqn:E2; cbn [negb]; [|by apply (Hdis id p r)].
  apply runs_new_stack; [done|]. intros ks w5 Hw5 Hsp5 Hst5. destruct (ks =? 0) eqn:E5; bool_to_prop.
  { destruct Hst5 as [(_ & Hst5)|(? & _)]; [|done]. apply (Hdis id p r); [done|]. by apply (raised_host _ _ _ _ _ _ _ w2). }
  destruct Hst5 as [(? & _)|(Hks & Hno & Hst5)]; [done|]. eapply runs_calm; [apply zero_stack_calm|done|]. intros _ w6 _ Hw6 Hs6. apply runs_update; [done|]. apply runs_ret; [done|]. cbn [fst snd].
  apply (raised_done o par id p r ks); [done..|]. apply (raised_host _ _ _ _ _ _ _ w5); [|done]. by apply (raised_stack _ _ _ _ _ _ w2).
Qed.

Lemma thread_count_quiet a : quiet (scheduler_thread_count_for_pid a).
Proof. intros c w Hw. destruct (thread_count_law a c w Hw) as (w' & E & H). by exists (threads_of w a), w'. Qed.

Lemma image_step id image size argv envp T w : host_ok w -> procs_ok T w ->
  runs (exec_user_locked id image size argv envp) T w (fun r T' w' => step_ok (OImage id image size argv envp) T w (r.1, r.2.1, r.2.2) T' w').
Proof.
  intros Hw Hok. unfold exec_user_locked. set (o := OImage id image size argv envp). pose proof Hok as (Hs & _ & _ & HR1 & HR2).
  assert (Hsame : forall w', host_ok w' -> same_res w w' -> runs (mret (-1, (0, 0)) : M st _) T w' (fun r T' w' => step_ok o T w (r.1, r.2.1, r.2.2) T' w')).
  { intros w' Hw' Hsw. apply runs_ret; [done|]. apply (tame_step _ _ w); try done; first [apply tame_refl|intros; by left]. }
  destruct (_ || _ || _); [by apply Hsame|]. apply runs_reads. destruct (process_lookup T id) as [p|] eqn:El; [|by apply Hsame]. apply lookup_Some in El as (Hp & Hu & _).
  apply runs_reads. destruct (pml4_phys (slot T p) =? 0) eqn:E0; bool_to_prop; [by apply Hsame|]. apply runs_host; [apply thread_count_quiet|done|]. intros n w1 Hw1 Hs1.
  destruct (1 <? n); [by apply Hsame|]. apply runs_new_space; [apply space_create_law|done|]. intros rc r w2 Hw2 Hst2 Hsp2. cbn beta iota zeta.
  destruct (rc =? 0) eqn:E2; bool_to_prop; cbn [negb].
  2: { destruct Hsp2 as [(_ & _ & Hsp2)|(? & _)]; [|done]. apply Hsame; [done|]. by eapply same_res_trans. }
  destruct Hsp2 as [(? & _)|(_ & Hr & Hno & Hsp2)]; [done|]. destruct Hs1 as [Hsp1 Hst1].
  assert (Hfail : forall w3, host_ok w3 -> same_res w2 w3 ->
    runs (_ ← on_host (address_space_destroy r); mret (-1, (0, 0)) : M st _) T w3 (fun r T' w' => step_ok o T w (r.1, r.2.1, r.2.2) T' w')).
  { intros w3 Hw3 [Hsp3 Hst3]. apply runs_destroy; [done|right; rewrite Hsp3, Hsp2; by right|]. intros w4 Hw4 Hsp4 Hst4. apply Hsame; [done|]. split.
    - intros x. rewrite Hsp4, Hsp3, Hsp2, Hsp1. rewrite Hsp1 in Hno. split; [tauto|]. intros Hx. split; [by left|]. by intros ->.
    - intros y. by rewrite Hst4, Hst3, Hst2, Hst1. }
  eapply runs_calm; [apply map_user_stack_calm|done|]. intros rc3 w3 _ Hw3 Hs3. destruct (rc3 =? 0); cbn [negb]; [|by apply Hfail].
  apply runs_host; [apply elf_load_quiet|done|]. intros [rc4 entry] w4 Hw4 Hs4. assert (Hs24 : same_res w2 w4) by by eapply same_res_trans. destruct (rc4 =? 0); cbn [negb]; [|by apply Hfail].
  eapply runs_calm; [apply stack_build_args_calm|done|]. intros [sp|] w5 _ Hw5 Hs5; [|apply Hfail; [done|by eapply same_res_trans]].
  assert (Hs25 : same_res w2 w5) by by eapply same_res_trans. destruct Hs25 as [Hsp5 Hst5]. apply runs_reads. rewrite Hsp1 in Hno.
  assert (Hroot : space_of w (pml4_phys (slot T p))) by by apply HR1. assert (Hne : pml4_phys (slot T p) <> r) by (intros E; by rewrite E in Hroot).
  apply runs_destroy; [done|right; rewrite Hsp5, Hsp2, Hsp1; by left|]. intros w6 Hw6 Hsp6 Hst6. apply runs_update; [done|]. apply runs_ret; [done|]. cbn [fst snd].
  set (f := fun q => set_heap_break _ _). destruct (dress_ok p f T w w6 Hok Hp Hu) as (Hok' & _ & Hn & Hsh); [by repeat split| | |].
  - apply (resources_swap p f _ T (space_of w)); try done; [|].
    + by apply negb_true_iff.
    + intros x Hx. rewrite Hsp6, Hsp5, Hsp2, Hsp1. change (pml4_phys (f (slot T p))) with r. split; [tauto|]. intros [?| ->]; [tauto|]. split; [by right|congruence].
  - apply (resources_swap p f _ T (stack_of w)); try done.
    + by apply negb_true_iff.
    + intros y Hy. rewrite Hst6, Hst5, Hst2, Hst1. change (kernel_stack (f (slot T p))) with (kernel_stack (slot T p)).
      destruct (decide (y = kernel_stack (slot T p))) as [->|]; [|tauto]. split; [by right|]. intros _. by apply HR2.
    + intros _. by right.
  - split; [done|]. split; [exact Hn|]. by apply shrinks_cred_step.
Qed.

(** [process_exec_user] takes the process lock and then calls a function that takes it again. *)
Theorem process_exec_user_never_returns (c : cpu) (T : procs) (w : W) (id : Z) (image : list Z) (size : Z) : ready T w -> process_exec_user id image size (c, (T, w)) = None.
Proof.
  intros (Hl & Hw & _). unfold process_exec_user. generalize [Some [112; 114; 111; 103; 114; 97; 109; 0]]. intros argv. unfold guarded at 1.
  rewrite (bind_Some _ _ _ (process_lockdep_class T) (c, (T, w))) by done. set (k := process_lockdep_class T).
  destruct (on_host_run (lockdep_acquire k) c T w (lockdep_acquire_quiet k) Hw) as (rc & w1 & E1 & Hw1 & _). rewrite (bind_Some _ _ _ _ _ E1).
  set (c' := set_rflags (Z.clearbit (rflags c) IF_BIT) c). rewrite (bind_Some _ _ _ (rflags c) (c', (with_process_lock spin_held T, w1))).
  2: { unfold rix_spin_lock_irqsave, on_fst, on_guard, mbind, M_bind. rewrite irq_save_run. cbn [guard procs_guard fst]. by rewrite Hl. }
  set (T1 := with_process_lock spin_held T). cut (process_exec_user_with_args id image size argv [] (c', (T1, w1)) = None).
  { intros E. unfold mbind at 1, M_bind at 1. by rewrite E. }
  unfold process_exec_user_with_args, guarded. rewrite (bind_Some _ _ _ (process_lockdep_class T1) (c', (T1, w1))) by done.
  destruct (on_host_run (lockdep_acquire (process_lockdep_class T1)) c' T1 w1 (lockdep_acquire_quiet _) Hw1) as (rc' & w2 & E2 & _). rewrite (bind_Some _ _ _ _ _ E2).
  unfold rix_spin_lock_irqsave, on_fst, on_guard, mbind, M_bind. rewrite irq_save_run. done.
Qed.

(** ** Every operation *)

Lemma call_run o c T w : ready T w -> exists r T' w', exec o (c, (T, w)) = Some (r, (c, (T', w'))) /\ ready T' w' /\ step_ok o T w r T' w'.
Proof.
  intros Hr. destruct o; cbn [exec].
  - destruct (guarded_step (OCreate nm par) (process_create_locked nm par) (fun r => (r.1, r.2, 0)) c T w Hr) as ([rc id] & T' & w' & E & H1 & H2).
    { intros. eapply runs_conseq; [by apply create_run|]. by intros ? ? ? [? _]. }
    exists (rc, id, 0), T', w'. unfold process_create. by rewrite (bind_Some _ _ _ _ _ E).
  - destruct (guarded_step (OSpawn nm par image size) _ (fun r => (r.1, r.2.1.1, 0)) c T w Hr (fun T0 w0 Hw0 Hok0 => spawn_step nm par image size T0 w0 Hw0 Hok0)) as ([rc [[id entry] sp]] & T' & w' & E & H1 & H2).
    exists (rc, id, 0), T', w'. unfold process_create_user. by rewrite (bind_Some _ _ _ _ _ E).
  - destruct (guarded_step (OFork par rip rsp) _ (fun r => (r.1, r.2, 0)) c T w Hr (fun T0 w0 Hw0 Hok0 => fork_step par rip rsp T0 w0 Hw0 Hok0)) as ([rc id] & T' & w' & E & H1 & H2).
    exists (rc, id, 0), T', w'. unfold process_fork. by rewrite (bind_Some _ _ _ _ _ E).
  - destruct (guarded_step (OImage id image size argv envp) _ (fun r => (r.1, r.2.1, r.2.2)) c T w Hr (fun T0 w0 Hw0 Hok0 => image_step id image size argv envp T0 w0 Hw0 Hok0)) as ([rc [entry sp]] & T' & w' & E & H1 & H2).
    exists (rc, entry, sp), T', w'. unfold process_exec_user_with_args. by rewrite (bind_Some _ _ _ _ _ E).
  - destruct (guarded_step (OExit id status) (process_exit_locked id status) (fun rc => (rc, 0, 0)) c T w Hr) as (rc & T' & w' & E & H1 & H2); [intros; by apply exit_step|].
    exists (rc, 0, 0), T', w'. unfold process_exit. by rewrite (bind_Some _ _ _ _ _ E).
  - destruct (guarded_step (OWait blocking par wanted) _ wait_result c T w Hr (fun T0 w0 Hw0 Hok0 => wait_step blocking par wanted T0 w0 Hw0 Hok0)) as ([rc o] & T' & w' & E & H1 & H2).
    exists (wait_result (rc, o)), T', w'. unfold process_wait_blocking, process_wait.
    rewrite (bind_Some _ _ _ (rc, o) (c, (T', w'))); [by destruct o as [[]|]|]. rewrite <- E. by destruct blocking.
  - destruct (guarded_step (OLogout id status) _ (fun rc => (rc, 0, 0)) c T w Hr (fun T0 w0 Hw0 Hok0 => logout_step id status T0 w0 Hw0 Hok0)) as (rc & T' & w' & E & H1 & H2).
    exists (rc, 0, 0), T', w'. unfold process_logout_session. by rewrite (bind_Some _ _ _ _ _ E).
  - apply pure_step; [done..|]. intros. by apply setuid_ok.
  - apply pure_step; [done..|]. intros. by apply setgid_ok.
  - apply pure_step; [done..|]. intros. by apply setgroups_ok.
  - apply pure_step; [done..|]. intros. by apply exec_credentials_ok.
  - apply pure_step; [done..|]. intros. by apply set_group_ok.
  - apply pure_step; [done..|]. intros. by apply set_session_ok.
  - destruct (guarded_step (OCreateSession id) (on_procs (create_session_body id)) (fun r => (r.1, r.2, 0)) c T w Hr) as ([rc x] & T' & w' & E & H1 & H2).
    { intros T0 w0 Hw0 Hok0. destruct (create_session_ok id T0) as [HT Hc]; [apply Hok0|]. apply on_procs_runs; [done|apply HT|]. apply (tame_step _ _ w0); try done; apply same_res_refl. }
    exists (rc, x, 0), T', w'. unfold process_create_session. by rewrite (bind_Some _ _ _ _ _ E).
  - apply pure_step; [done..|]. intros. by apply leave_session_ok.
  - apply pure_step; [done..|]. intros. by apply drop_ok.
  - apply pure_step; [done..|]. intros. by apply delegate_ok.
  - apply pure_step; [done..|]. intros. by apply set_audit_ok.
  - destruct (guarded_step (OSetCwd id va path) _ (fun rc => (rc, 0, 0)) c T w Hr (fun T0 w0 Hw0 Hok0 => setcwd_step id va path T0 w0 Hw0 Hok0)) as (rc & T' & w' & E & H1 & H2).
    exists (rc, 0, 0), T', w'. unfold process_setcwd. by rewrite (bind_Some _ _ _ _ _ E).
  - destruct (guarded_step (OListSessions capacity) _ (fun r => (r.1, 0, 0)) c T w Hr (fun T0 w0 Hw0 Hok0 => list_sessions_step capacity T0 w0 Hw0 Hok0)) as ([rc l] & T' & w' & E & H1 & H2).
    exists (rc, 0, 0), T', w'. unfold process_list_sessions. by rewrite (bind_Some _ _ _ _ _ E).
Qed.

Fixpoint exec_all (ops : list proc_op) : M st (list (Z * Z * Z)) :=
  match ops with
  | [] => mret []
  | o :: ops => r ← exec o; rs ← exec_all ops; mret (r :: rs)
  end.

(** A history: every step meets its specification. *)
Inductive history : procs -> W -> list proc_op -> list (Z * Z * Z) -> procs -> W -> Prop :=
  | history_nil T w : history T w [] [] T w
  | history_cons o ops r rs T w T1 w1 T2 w2 : step_ok o T w r T1 w1 -> history T1 w1 ops rs T2 w2 -> history T w (o :: ops) (r :: rs) T2 w2.

Lemma calls_run ops c T w : ready T w -> exists rs T' w', exec_all ops (c, (T, w)) = Some (rs, (c, (T', w'))) /\ ready T' w' /\ history T w ops rs T' w'.
Proof.
  revert T w. induction ops as [|o ops IH]; intros T w Hr; cbn [exec_all]; [exists [], T, w; split; [done|]; split; [done|constructor]|].
  destruct (call_run o c T w Hr) as (r & T1 & w1 & E1 & Hr1 & S1). destruct (IH T1 w1 Hr1) as (rs & T2 & w2 & E2 & Hr2 & H2).
  exists (r :: rs), T2, w2. rewrite (bind_Some _ _ _ _ _ E1), (bind_Some _ _ _ _ _ E2). split; [done|]. split; [done|]. by econstructor.
Qed.

(** The abstract tree and the thread counts along a history; the scheduler may change
    the counts at every step. *)
Inductive tree_trace : (Z -> option (Z * option Z)) * (Z -> Z) -> list proc_op -> list (Z * Z * Z) -> (Z -> option (Z * option Z)) * (Z -> Z) -> Prop :=
  | trace_nil a th : tree_trace (a, th) [] [] (a, th)
  | trace_cons a th o r a1 th1 ops rs x : tree_step W a th o r a1 -> tree_trace (a1, th1) ops rs x -> tree_trace (a, th) (o :: ops) (r :: rs) x.

Lemma history_trace T w ops rs T' w' : history T w ops rs T' w' -> tree_trace (node_of T, threads_of w) ops rs (node_of T', threads_of w').
Proof. induction 1 as [|o ops r rs T w T1 w1 T2 w2 (_ & Ht & _) _ IH]; [constructor|by econstructor]. Qed.

(** C6: the process table implements the tree of processes. From any table that meets
    the invariant, any sequence of creations, spawns, forks, program replacements, exits,
    waits, logouts and credential, group, session and directory calls returns with the
    lock free again and the interrupt flag as before, and every call answers as the
    abstract tree does. A new process has an id nobody has and a parent that is in the
    table (it may have ended), or none; a plain creation is refused only for an empty name,
    an unknown parent, when all 127 ids are taken, or when the file system refuses the
    descriptors. A spawn or fork that fails leaves the tree as it was, except that a spawn
    without a parent that finds no session free leaves the new process behind as a zombie
    with status 127. An exit marks one process that has not ended and records its status. A wait
    hands out the status of an ended child of the caller that matches the request and for
    which the scheduler counts no thread, and removes exactly that process; it reports 2
    exactly when no child matches, and 1 only when some child matches and either none of
    those has ended or one that has still has threads. A logout may end processes
    other than the caller and the kernel, with the given status. Every other call
    leaves the tree alone. *)
Theorem process_table_refines_tree (c : cpu) (T : procs) (w : W) (ops : list proc_op) (Hr : ready T w) :
  ∃ rs T' w', exec_all ops (c, (T, w)) = Some (rs, (c, (T', w'))) ∧ ready T' w' ∧ tree_trace (node_of T, threads_of w) ops rs (node_of T', threads_of w').
Proof. destruct (calls_run ops c T w Hr) as (rs & T' & w' & E & Hr' & Hh). exists rs, T', w'. split; [done|]. split; [done|]. by apply history_trace. Qed.

(** ** Privilege *)

(** Calls that do not come from the kernel's own process and do not run a program with the set-user-id bit. *)
Definition user_op (o : proc_op) : Prop :=
  match o with
  | OCreate _ par | OSpawn _ par _ _ | OFork par _ _ => par <> 0
  | ODelegate par _ _ => par <> 0
  | OExec _ _ _ su _ => su = false
  | _ => True
  end.

Definition user_process (T : procs) (i : Z) : Prop := index i /\ i <> 0 /\ used T i = true.
Definition holds (T : procs) (b : Z) : Prop := exists j, user_process T j /\ Z.testbit (c_caps (cred_of T j)) b = true.
Definition goes_by (c : cred) (u : Z) : Prop := u = c_uid c \/ u = c_real c \/ u = c_saved c.
Definition identity (T : procs) (u : Z) : Prop := exists j, user_process T j /\ goes_by (cred_of T j) u.

Lemma lookup_user T id j : ids_ok T -> id <> 0 -> process_lookup T id = Some j -> user_process T j.
Proof. intros (_ & H0 & _) Hid E. apply lookup_Some in E as (Hj & Hu & Hp & _). split; [done|]. split; [|done]. intros ->. congruence. Qed.

Lemma step_holds o T w0 r T' w b : ids_ok T -> caps_ok T -> user_op o -> 0 <= b -> step_ok o T w0 r T' w -> holds T' b -> holds T b.
Proof.
  intros Hids Hcaps Ho Hb (_ & _ & Hc) (i & (Hi & H0 & Hu) & Ht). specialize (Hc i Hi Hu). set (c' := cred_of T' i) in *. clearbody c'. destruct Hc as [(Hui & _ & Hcc)|(Hui & par & Hcr & Hnew)].
  - assert (Hold : Z.testbit (c_caps (cred_of T i)) b = true -> holds T b) by (intros; by exists i).
    destruct Hcc as [->|Hcc]; [by apply Hold|]. destruct o; try done.
    + destruct Hcc as [_ [(_ & _ & ->)|(_ & _ & ->)]]; [|by apply Hold]. cbn in Ht. case_if; [by apply Hold|by rewrite Z.bits_0 in Ht].
    + destruct Hcc as [_ ->]. cbn in Ht. case_if; [by rewrite Z.bits_0 in Ht|by apply Hold].
    + destruct Hcc as [_ ->]. cbn in Ht. rewrite Z.land_spec in Ht. apply andb_true_iff in Ht as [Ht _]. by apply Hold.
    + destruct Hcc as [[_ ->]|(_ & _ & j & Ej & _ & _ & Hm & _ & ->)].
      * cbn in Ht. rewrite Z.land_spec in Ht. apply andb_true_iff in Ht as [Ht _]. by apply Hold.
      * cbn in Ht. rewrite Z.lor_spec in Ht. apply orb_true_iff in Ht as [Ht|Ht]; [by apply Hold|]. exists j. split; [by apply (lookup_user T par)|].
        rewrite <- Hm, Z.land_spec in Ht. by apply andb_true_iff in Ht as [Ht _].
  - destruct Hnew as [[-> _]|(Hp & j & Ej & Ec)]; [destruct o; try done; by injection Hcr|]. exists j. split; [by apply (lookup_user T par)|]. by rewrite <- Ec.
Qed.

Lemma step_identity o T w0 r T' w u : ids_ok T -> user_op o -> ~ holds T 1 -> step_ok o T w0 r T' w -> identity T' u -> identity T u.
Proof.
  intros Hids Ho Hcap (_ & _ & Hc) (i & (Hi & H0 & Hu) & Hg). specialize (Hc i Hi Hu). set (c' := cred_of T' i) in *. clearbody c'. destruct Hc as [(Hui & _ & Hcc)|(Hui & par & Hcr & Hnew)].
  - assert (Hold : goes_by (cred_of T i) u -> identity T u) by (intros; by exists i). unfold goes_by in *.
    destruct Hcc as [->|Hcc]; [by apply Hold|]. destruct o; try done.
    + destruct Hcc as [_ [(_ & Hb & _)|(_ & Hor & ->)]]; [destruct Hcap; by exists i|]. cbn in Hg. apply Hold. destruct Hg as [->|Hg]; [right|by right]. tauto.
    + destruct Hcc as [_ ->]. cbn in Ho. subst setuid_bit. cbn in Hg. by apply Hold.
    + destruct Hcc as [_ ->]. by apply Hold.
    + destruct Hcc as [[_ ->]|(_ & _ & j & _ & _ & _ & _ & _ & ->)]; by apply Hold.
  - destruct Hnew as [[-> _]|(Hp & j & Ej & Ec)]; [destruct o; try done; by injection Hcr|]. exists j. split; [by apply (lookup_user T par)|]. by rewrite <- Ec.
Qed.

Lemma history_privilege T w ops rs T' w' : procs_ok T w -> Forall user_op ops -> history T w ops rs T' w' ->
  (forall b, 0 <= b -> holds T' b -> holds T b) /\ (~ holds T 1 -> forall u, identity T' u -> identity T u).
Proof.
  intros Hok Hops H. revert Hok Hops. induction H as [|o ops r rs T w T1 w1 T2 w2 Hst _ IH]; intros Hok Hops; [done|].
  apply list.Forall_cons in Hops as [Ho Hops]. pose proof Hok as (_ & Hids & Hcaps & _). destruct IH as [A B]; [apply Hst|done|]. split.
  - intros b Hb H2. eapply step_holds; try done. by apply A.
  - intros Hn u Hu. eapply step_identity; try done. apply B; [|done]. intros H1. apply Hn. by eapply step_holds.
Qed.

(** C14: privilege cannot be made up. Whatever user processes do with fork, exit,
    wait, set-id calls, capability drops and delegation, groups and sessions, every
    capability that some user process holds afterwards was held by a user process
    before, and when none of them held [RIX_CAP_SETUID], every user id one of them
    goes by (effective, real or saved) was one a user process went by before. The
    exceptions are the ones meant: processes the kernel itself creates, capabilities
    the kernel itself delegates, and programs with the set-user-id bit. *)
Theorem no_privilege_from_nothing (c : cpu) (T : procs) (w : W) (ops : list proc_op) (Hr : ready T w) (Hops : Forall user_op ops) :
  ∃ rs T' w', exec_all ops (c, (T, w)) = Some (rs, (c, (T', w'))) ∧
    (∀ b, 0 <= b → holds T' b → holds T b) ∧ (¬ holds T 1 → ∀ u, identity T' u → identity T u).
Proof.
  destruct (calls_run ops c T w Hr) as (rs & T' & w' & E & _ & Hh). exists rs, T', w'. split; [done|]. destruct Hr as (_ & _ & Hok). by apply (history_privilege T w ops rs T' w').
Qed.

(** ** Initialisation *)

(** Slots below [k] are free. *)
Definition blank (k : Z) (T : procs) : Prop := shape_ok T /\ process_lock T = spin_free /\ forall j, 0 <= j < k ->
  unused (slot T j) = true /\ capabilities (slot T j) = 0 /\ pml4_phys (slot T j) = 0 /\ kernel_stack (slot T j) = 0.

Lemma blank_step k T : index k -> blank k T -> blank (k + 1) (on_slot k cleared T).
Proof.
  intros Hk (Hs & Hl & Hb). split; [by apply shape_put|]. split; [done|]. intros j Hj. rewrite slot_on_slot by (done || (unfold index, RIX_PROCESS_MAX in *; lia)).
  destruct (j =? k) eqn:E; bool_to_prop; [by subst|]. apply Hb. lia.
Qed.

Lemma blank_arrays k T T' : blank k T -> table T' = table T -> process_lock T' = process_lock T -> shape_ok T' -> blank k T'.
Proof. intros (Hs & Hl & Hb) Et El Hs'. split; [done|]. split; [congruence|]. intros j Hj. unfold slot. rewrite Et. by apply Hb. Qed.

Lemma sessions_loop n T : 0 <= n -> exists l, for_all 0 n (fun i T => put_sess i no_session T) T = with_sessions l T /\ length l = length (sessions T).
Proof.
  intros Hn. apply (for_all_inv (fun _ T' => exists l, T' = with_sessions l T /\ length l = length (sessions T)) 0 n); [done|exists (sessions T); by destruct T|].
  intros i T' _ (l & -> & Hl). eexists. split; [reflexivity|]. cbn. by rewrite length_aset.
Qed.

Lemma blank_ready T p : blank 128 T -> next_pid T = 1 -> live_count T = 1 -> unused p = false -> pid p = 0 -> pml4_phys p = 0 -> kernel_stack p = 0 -> 0 <= capabilities p < 512 ->
  forall w, (forall r, ~ space_of w r) -> (forall k, ~ stack_of w k) -> procs_ok (put 0 p T) w.
Proof.
  intros (Hs & _ & Hb) Hn Hc Hu Hp Hm Hk Hcap w Hnsp Hnst. assert (H0 : index 0) by (unfold index, RIX_PROCESS_MAX; lia).
  assert (Hsl : forall j, index j -> slot (put 0 p T) j = if j =? 0 then p else slot T j) by (intros j Hj; by apply slot_put; [apply Hs|..]).
  assert (Hus : forall j, index j -> used (put 0 p T) j = true -> j = 0 /\ slot (put 0 p T) j = p).
  { intros j Hj Huj. unfold used in Huj. rewrite Hsl in * by done. destruct (j =? 0) eqn:E; bool_to_prop; [done|]. destruct (Hb j Hj) as [Hf _]. by rewrite Hf in Huj. }
  assert (H00 : slot (put 0 p T) 0 = p) by (by rewrite Hsl).
  split; [by apply shape_put|]. split; [|split; [|split]].
  - split; [unfold used; by rewrite H00, Hu|]. split; [by rewrite H00|]. split; [intros j Hj Hj0 Huj; by destruct (Hus j Hj Huj)|].
    split; [intros j k Hj Hk' Huj Huk _; destruct (Hus j Hj Huj) as [-> _], (Hus k Hk' Huk) as [-> _]; done|]. split; [cbn; lia|].
    cbn [table put with_table live_count]. rewrite count_put by (done || apply Hs). rewrite Hu, Hc. assert (E : countb (fun p => negb (unused p)) (table T) = 0).
    { pose proof (countb_nonneg (fun p => negb (unused p)) (table T)) as Hge. destruct (decide (1 <= countb (fun p => negb (unused p)) (table T))) as [Hpos|]; [|lia].
      apply countb_witness in Hpos as (i & x & Hi & Hx). pose proof (lookup_lt_Some _ _ _ Hi) as Hlt. rewrite (proj1 Hs) in Hlt.
      destruct (Hb (Z.of_nat i) ltac:(lia)) as [Hf _]. unfold slot, aget in Hf. rewrite Nat2Z.id, Hi in Hf. cbn in Hf. by rewrite Hf in Hx. }
    rewrite E. unfold used. destruct (Hb 0 ltac:(lia)) as [-> _]. done.
  - intros j Hj. rewrite Hsl by done. case_if; [done|]. destruct (Hb j Hj) as (_ & -> & _). lia.
  - split; [intros j Hj Huj; destruct (Hus j Hj Huj) as [_ ->]; done|]. split; [|intros x _ HS; by destruct (Hnsp x)].
    intros j k Hj Hk' Huj Huk. destruct (Hus j Hj Huj) as [-> _], (Hus k Hk' Huk) as [-> _]. done.
  - split; [intros j Hj Huj; destruct (Hus j Hj Huj) as [_ ->]; done|]. split; [|intros x _ HS; by destruct (Hnst x)].
    intros j k Hj Hk' Huj Huk. destruct (Hus j Hj Huj) as [-> _], (Hus k Hk' Huk) as [-> _]. done.
Qed.

Lemma init_run c T w : shape_ok T -> process_lock T = spin_free -> host_ok w -> (forall r, ~ space_of w r) -> (forall k, ~ stack_of w k) ->
  exists T' w', process_init (c, (T, w)) = Some (0, (c, (T', w'))) /\ ready T' w'.
Proof.
  intros Hs Hl Hw Hnsp Hnst. unfold process_init. destruct (on_host_run lockdep_register c T w lockdep_register_quiet Hw) as (k & w1 & E1 & Hw1 & Hs1). rewrite (bind_Some _ _ _ _ _ E1).
  rewrite (bind_Some _ _ _ tt (c, (with_process_lockdep_class k T, w1))) by done.
  match goal with |- context [mfor ?n 0 ?b] => destruct (mfor_run (fun j x => exists T' w', x = (c, (T', w')) /\ host_ok w' /\ same_res w w' /\ blank j T') n 0 b (c, (with_process_lockdep_class k T, w1))) as (x & E2 & T2 & w2 & -> & Hw2 & Hs2 & HB) end.
  - exists (with_process_lockdep_class k T), w1. split; [done|]. split; [done|]. split; [done|]. split; [exact Hs|]. split; [exact Hl|]. intros j Hj. lia.
  - intros j x Hj (T' & w' & -> & Hw' & Hsw & HB). assert (Hij : index j) by (unfold index, RIX_PROCESS_MAX in *; lia). pose proof (blank_step j T' Hij HB) as HB1.
    destruct (on_host_run (socket_table_init j) c (on_slot j cleared T') w' (socket_table_init_quiet j) Hw') as ([] & w'' & E & Hw'' & Hsw').
    rewrite (bind_Some _ _ _ tt (c, (on_slot j cleared T', w''))); [|unfold clear_process; by rewrite (bind_Some _ _ _ tt (c, (on_slot j cleared T', w')))].
    eexists. split; [reflexivity|]. eexists _, w''. split; [reflexivity|]. split; [done|]. split; [by eapply same_res_trans|]. eapply blank_arrays; [exact HB1|done|done|].
    destruct HB1 as [HS1 _]. revert HS1. unfold shape_ok. cbn. rewrite !length_aset. tauto.
  - rewrite (bind_Some _ _ _ _ _ E2). eexists _, w2. split; [reflexivity|]. destruct (sessions_loop RIX_SESSION_MAX T2) as (l & El & Hll); [done|].
    assert (HB3 : blank 128 (with_live_count 1 (with_next_pid 1 (with_current_pid 0 (with_sessions l T2))))).
    { eapply blank_arrays; [exact HB|done|done|]. destruct HB as [HS _]. revert HS. unfold shape_ok. cbn. by rewrite Hll. }
    cbv beta zeta. rewrite El. set (T3 := with_live_count 1 _) in *. unfold on_slot.
    split; [apply HB3|]. split; [done|]. destruct Hs2 as [Hsp2 Hst2]. apply blank_ready; try done.
    3: intros r; rewrite Hsp2; apply Hnsp. 3: intros r; rewrite Hst2; apply Hnst.
    1, 2: destruct HB3 as (_ & _ & Hb3); destruct (Hb3 0 ltac:(lia)) as (_ & _ & Hm0 & Hk0); done.
Qed.

(** C22: the invariant of the process table. Boot, with no address space and no kernel
    stack handed out yet, and then any sequence of creations, spawns, forks, program
    replacements, exits, waits, logouts and credential, group, session and directory calls:
    every call returns with the lock free, no two processes have the same id, the same
    address space or the same kernel stack, looking an id up finds the process that has it,
    and the count of processes is right. The address spaces and kernel stacks in the
    table are handed out and not taken back, and none is lost: every one handed out and not
    taken back belongs to a process in the table, also after spawns, forks and replacements
    that failed half way. *)
Theorem process_table_invariant (c : cpu) (T : procs) (w : W) (ops : list proc_op)
    (Hs : shape_ok T) (Hl : process_lock T = spin_free) (Hw : host_ok w) (Hsp : ∀ r, ¬ space_of w r) (Hst : ∀ k, ¬ stack_of w k) :
  ∃ rs T' w', (_ ← process_init; exec_all ops : M st _) (c, (T, w)) = Some (rs, (c, (T', w'))) ∧ process_lock T' = spin_free ∧
    process_count T' = countb (λ p, negb (unused p)) (table T') ∧
    (∀ i, index i → used T' i = true →
      process_lookup T' (pid (slot T' i)) = Some i ∧
      (pml4_phys (slot T' i) ≠ 0 → space_of w' (pml4_phys (slot T' i))) ∧ (kernel_stack (slot T' i) ≠ 0 → stack_of w' (kernel_stack (slot T' i))) ∧
      ∀ j, index j → used T' j = true → j ≠ i → pid (slot T' j) ≠ pid (slot T' i) ∧
        (pml4_phys (slot T' i) ≠ 0 → pml4_phys (slot T' j) ≠ pml4_phys (slot T' i)) ∧ (kernel_stack (slot T' i) ≠ 0 → kernel_stack (slot T' j) ≠ kernel_stack (slot T' i))) ∧
    (∀ r, r ≠ 0 → space_of w' r → ∃ i, index i ∧ used T' i = true ∧ pml4_phys (slot T' i) = r) ∧
    (∀ k, k ≠ 0 → stack_of w' k → ∃ i, index i ∧ used T' i = true ∧ kernel_stack (slot T' i) = k).
Proof.
  destruct (init_run c T w Hs Hl Hw Hsp Hst) as (T1 & w1 & E1 & Hr1). destruct (calls_run ops c T1 w1 Hr1) as (rs & T' & w' & E2 & (Hl' & _ & Hok) & _).
  exists rs, T', w'. rewrite (bind_Some _ _ _ _ _ E1). split; [done|]. split; [done|]. destruct Hok as (_ & Hids & _ & (R1 & R2 & R5) & (R3 & R4 & R6)).
  pose proof Hids as (_ & _ & _ & I3 & _ & I5). split; [done|]. split; [|done]. intros i Hi Hu. split; [by apply lookup_used|]. split; [by apply R1|]. split; [by apply R3|].
  intros j Hj Huj Hne. split; [intros E; by destruct Hne; apply I3|]. split; intros Hn E; destruct Hne; symmetry; [by apply R2|by apply R4].
Qed.
End Effects.

(** ** Example: a host that only keeps account of roots and stacks *)

Definition ledger : Type := list Z * list Z.

(** A page none of the listed ones. *)
Definition fresh (l : list Z) : Z := 4096 + foldr Z.max 0 l.

Lemma fresh_new l : fresh l <> 0 /\ fresh l ∉ l.
Proof.
  assert (H : forall x, x ∈ l -> x <= foldr Z.max 0 l) by (induction l as [|y l IH]; [by intros x ?%elem_of_nil|]; intros x [->|Hx]%elem_of_cons; cbn; [lia|]; specialize (IH x Hx); lia).
  assert (H0 : 0 <= foldr Z.max 0 l) by (clear; induction l as [|y l IH]; cbn; lia). unfold fresh. split; [lia|]. intros Hin. specialize (H _ Hin). lia.
Qed.

#[global] Instance ledger_host : Host ledger := {|
  host_ok _ := True; space_of w r := r ∈ w.1; stack_of w k := k ∈ w.2; threads_of _ _ := 0;
  lockdep_register := mret 1; lockdep_acquire _ := mret 0; lockdep_release _ := mret 0;
  vfs_clone_fds _ _ := mret 0; vfs_close_all _ := mret 0; scheduler_thread_detach_pid _ := mret tt; scheduler_wake_pid _ := mret tt;
  scheduler_thread_count_for_pid _ := mret 0; scheduler_block_current := mret tt; tty_get_session _ := mret (-1, (0, 0));
  vmm_translate a := mret a; socket_table_init _ := mret tt;
  address_space_destroy r := act (fun '(c, w) => (tt, (c, (filter (fun x => x <> r) w.1, w.2))));
  kernel_stack_free k := act (fun '(c, w) => (tt, (c, (w.1, filter (fun x => x <> k) w.2))));
  address_space_create := act (fun '(c, w) => ((0, fresh w.1), (c, (fresh w.1 :: w.1, w.2))));
  address_space_clone _ := act (fun '(c, w) => ((0, fresh w.1), (c, (fresh w.1 :: w.1, w.2))));
  address_space_map _ _ _ _ := mret 0; address_space_translate _ va := mret va; elf_load_image image _ _ := mret (if aget 0 image 0 =? 127 then 0 else -1, 0x400000);
  pmm_alloc_page := mret 4096; pmm_free_page _ := mret tt; zero_page _ := mret tt; store_byte _ _ := mret tt;
  pmm_alloc_pages _ := act (fun '(c, w) => (fresh w.2, (c, (w.1, fresh w.2 :: w.2))));
|}.

Lemma ret_quiet {A} (a : A) : quiet (mret a : M (cpu * ledger) A).
Proof. intros c w _. exists a, w. by repeat split. Qed.

Lemma fresh_space (w : ledger) x : x ∈ fresh w.1 :: w.1 <-> x ∈ w.1 \/ x = fresh w.1.
Proof. rewrite elem_of_cons. tauto. Qed.

#[global] Instance ledger_laws : HostLaws ledger.
Proof.
  split; intros; try apply ret_quiet.
  - injection H as <- <- <-. done.
  - eexists. split; [reflexivity|]. done.
  - eexists. split; [reflexivity|]. split; [done|]. split; [|done]. intros r'. cbn. rewrite list_elem_of_filter. tauto.
  - eexists. split; [reflexivity|]. split; [done|]. split; [done|]. intros k'. cbn. rewrite list_elem_of_filter. tauto.
  - intros c w _. eexists _, _, _. split; [reflexivity|]. split; [done|]. split; [done|]. right. destruct (fresh_new w.1). repeat (split; [done|]). apply fresh_space.
  - intros c w _. eexists _, _, _. split; [reflexivity|]. split; [done|]. split; [done|]. right. destruct (fresh_new w.1). repeat (split; [done|]). apply fresh_space.
  - eexists _, _. split; [reflexivity|]. split; [done|]. split; [done|]. right. destruct (fresh_new w.2). repeat (split; [done|]). intros k'. cbn. rewrite elem_of_cons. tauto.
Qed.

Definition raw_procs : procs :=
  {| table := replicate 128 {| pid := 7; parent := 7; process_group := 7; session := 7; state := RIX_PROC_RUNNING; uid := 7; gid := 7; capabilities := 7; pml4_phys := 7;
       heap_base := 7; heap_break := 7; kernel_stack := 7; kernel_stack_size := 7; exit_status := 7; fd_bitmap := 7; signal_pending := 7; signal_mask := 7;
       name := replicate 32 7; cwd := replicate 256 7 |};
     supplementary_groups := replicate 128 (replicate 8 7); supplementary_counts := replicate 128 7; real_uids := replicate 128 7; saved_uids := replicate 128 7;
     real_gids := replicate 128 7; saved_gids := replicate 128 7; audit_uids := replicate 128 7; sessions := replicate 128 no_session;
     current_pid := 7; next_pid := 7; live_count := 7; process_lock := spin_free; process_lockdep_class := 0 |}.
Definition proc_cpu : cpu := {| rflags := 512; cpu_pid := 0; cpu_index := 0 |}.

(** Init (1) is spawned from an image and forks 2, which drops privileges, loads another
    image and forks 3; a bad image fails; 3 exits with 42 and 2 collects it. *)
Definition demo_calls : list proc_op :=
  [OSpawn [105; 0] 0 [127] 1; OFork 1 0x400000 0x7000; OSetUid 2 1000; OImage 2 [127] 1 [Some [108; 115; 0]] []; OFork 2 0x400000 0x7000; OSpawn [98; 0] 2 [0] 1;
   OWait false 2 3; OExit 3 42; OWait true 2 ANY_PID; OWait false 2 ANY_PID].

Example demo_calls_results :
  option_map fst ((_ ← process_init; exec_all demo_calls) (proc_cpu, (raw_procs, ([], []) : ledger)))
  = Some [(0, 1, 0); (0, 2, 0); (0, 0, 0); (0, 0x400000, 0x7fffffffefc0); (0, 3, 0); (-7, 0, 0); (1, 0, 0); (0, 0, 0); (0, 42, 3); (2, 0, 0)].
Proof. vm_compute. reflexivity. Qed.

Lemma raw_shape : shape_ok raw_procs.
Proof. by repeat split. Qed.

Lemma nothing_held (x : Z) : x ∉ ([] : list Z).
Proof. apply not_elem_of_nil. Qed.

Lemma process_table_invariant_witness :
  ∃ rs T' w', (_ ← process_init; exec_all demo_calls) (proc_cpu, (raw_procs, ([], []) : ledger)) = Some (rs, (proc_cpu, (T', w'))) ∧
    process_count T' = 3 ∧ pml4_phys (slot T' 1) ≠ 0 ∧ kernel_stack (slot T' 1) ≠ 0 ∧ pml4_phys (slot T' 2) ≠ pml4_phys (slot T' 1) ∧ kernel_stack (slot T' 2) ≠ kernel_stack (slot T' 1) ∧
    ∀ r, r ≠ 0 → r ∈ w'.1 → ∃ i, index i ∧ used T' i = true ∧ pml4_phys (slot T' i) = r.
Proof.
  destruct (process_table_invariant (HW := ledger_host) (HL := ledger_laws) proc_cpu raw_procs ([], []) demo_calls raw_shape eq_refl I nothing_held nothing_held)
    as (rs & T' & w' & E & _ & Hc & Hi & Hsp & _).
  assert (F : option_map (fun '(_, (_, (T, _))) => (process_count T, used T 1 && used T 2, negb (pml4_phys (slot T 1) =? 0) && negb (kernel_stack (slot T 1) =? 0)))
    ((_ ← process_init; exec_all demo_calls) (proc_cpu, (raw_procs, ([], []) : ledger))) = Some (3, true, true)) by (vm_compute; reflexivity).
  rewrite E in F. cbn -[slot process_count used] in F. injection F as F1 F2 F3. apply andb_true_iff in F2 as [U1 U2]. apply andb_true_iff in F3 as [N1 N2].
  apply negb_true_iff, Z.eqb_neq in N1, N2. destruct (Hi 1) as (_ & _ & _ & H12); [unfold index, RIX_PROCESS_MAX; lia|done|].
  destruct (H12 2) as (_ & A & B); [unfold index, RIX_PROCESS_MAX; lia|done|lia|].
  exists rs, T', w'. split; [exact E|]. split; [done|]. split; [done|]. split; [done|]. split; [by apply A|]. split; [by apply B|]. exact Hsp.
Defined.

(** The table after boot with processes 1 and 2, the second an ordinary user's. *)
Definition demo_state : procs * ledger :=
  match (_ ← process_init; exec_all [OSpawn [105; 0] 0 [127] 1; OFork 1 0x400000 0x7000; OSetUid 2 1000]) (proc_cpu, (raw_procs, ([], []) : ledger)) with
  | Some (_, (_, x)) => x
  | None => (raw_procs, ([], []))
  end.

Lemma demo_state_ready : ready demo_state.1 demo_state.2.
Proof.
  destruct (init_run (HW := ledger_host) proc_cpu raw_procs ([], []) raw_shape eq_refl I nothing_held nothing_held) as (T1 & w1 & E1 & Hr1).
  destruct (calls_run [OSpawn [105; 0] 0 [127] 1; OFork 1 0x400000 0x7000; OSetUid 2 1000] proc_cpu T1 w1 Hr1) as (rs & T2 & w2 & E2 & Hr2 & _).
  unfold demo_state. rewrite (bind_Some _ _ _ _ _ E1), E2. exact Hr2.
Qed.

Lemma process_table_refines_tree_witness :
  ∃ rs T' w', exec_all [OFork 2 0x400000 0x7000; OExit 3 5; OWait false 2 3] (proc_cpu, demo_state) = Some (rs, (proc_cpu, (T', w'))) ∧
    rs = [(0, 3, 0); (0, 0, 0); (0, 5, 3)] ∧
    tree_trace (HW := ledger_host) (node_of demo_state.1, λ _, 0) [OFork 2 0x400000 0x7000; OExit 3 5; OWait false 2 3] rs (node_of T', λ _, 0).
Proof.
  destruct (process_table_refines_tree (HW := ledger_host) (HL := ledger_laws) proc_cpu demo_state.1 demo_state.2 [OFork 2 0x400000 0x7000; OExit 3 5; OWait false 2 3] demo_state_ready) as (rs & T' & w' & E & _ & Ht).
  assert (F : option_map fst (exec_all [OFork 2 0x400000 0x7000; OExit 3 5; OWait false 2 3] (proc_cpu, (demo_state.1, demo_state.2))) = Some [(0, 3, 0); (0, 0, 0); (0, 5, 3)])
    by (vm_compute; reflexivity).
  rewrite E in F. injection F as F. exists rs, T', w'. split; [|split; [exact F|exact Ht]]. rewrite <- E. by destruct demo_state.
Defined.

Lemma no_privilege_from_nothing_witness :
  ∃ rs T' w', exec_all [OCreate [97; 0] 2; OSetUid 3 0; ODrop 1 2; OSetUid 1 1000] (proc_cpu, demo_state) = Some (rs, (proc_cpu, (T', w'))) ∧
    (∀ b, 0 <= b → holds T' b → holds demo_state.1 b) ∧ (¬ holds demo_state.1 1 → ∀ u, identity T' u → identity demo_state.1 u).
Proof.
  destruct (no_privilege_from_nothing (HW := ledger_host) (HL := ledger_laws) proc_cpu demo_state.1 demo_state.2 [OCreate [97; 0] 2; OSetUid 3 0; ODrop 1 2; OSetUid 1 1000] demo_state_ready) as (rs & T' & w' & E & H).
  { repeat constructor; cbn; lia. }
  exists rs, T', w'. split; [|exact H]. rewrite <- E. by destruct demo_state.
Defined.
