(* ===== verification/Scheduler.v ===== *)
(** * The scheduler ([kernel/sched/scheduler.h], [kernel/sched/scheduler.c])

    The task table with its per-CPU run queues, current slots, quanta and idle
    contexts. A pointer to a task is its slot, a pointer to a wait queue an integer
    (0 is null) that selects a queue of [queues]. [cpu_index] of a [cpu] is what
    [smp_cpu_id] returns on it. The stack pointer and FPU image a CPU holds are
    [cpu_rsp] and [cpu_fpu], so that a context switch is a transition like any other.
    Boot and trace messages and the CR3 trace ring are not modelled. *)
From stdpp Require Import base tactics list numbers gmap.
From S2P Require Import Prelude Lock Runqueue Thread WaitQueue.

Definition RIX_MAX_TASKS : Z := 32.
Definition RIX_STACK_SIZE : Z := 16384.
Definition SMP_MAX_CPUS : Z := 64.
Definition RIX_PREEMPT_QUANTUM_TICKS : Z := 10.
Definition RIX_PRIO_MAX : Z := 1.

(** ** Data *)

Inductive task_state_t := TASK_UNUSED | TASK_RUNNABLE | TASK_RUNNING | TASK_DEAD | TASK_BLOCKED.

#[export] Instance task_state_eq_dec : EqDecision task_state_t.
Proof. solve_decision. Defined.

Definition in_state (a b : task_state_t) : bool := bool_decide (a = b).

Record rix_user_context_t := {
  r15 : Z; r14 : Z; r13 : Z; r12 : Z; r11 : Z; r10 : Z; r9 : Z; r8 : Z;
  rbp : Z; rdi : Z; rsi : Z; rdx : Z; rcx : Z; rbx : Z; rax : Z; rip : Z; uc_rflags : Z; uc_rsp : Z }.

#[export] Instance eta_context : Eta rix_user_context_t := fun c =>
  {| r15 := r15 c; r14 := r14 c; r13 := r13 c; r12 := r12 c; r11 := r11 c; r10 := r10 c; r9 := r9 c; r8 := r8 c;
     rbp := rbp c; rdi := rdi c; rsi := rsi c; rdx := rdx c; rcx := rcx c; rbx := rbx c; rax := rax c;
     rip := rip c; uc_rflags := uc_rflags c; uc_rsp := uc_rsp c |}.
Definition set_rax (x : Z) (c : rix_user_context_t) : rix_user_context_t := ltac:(upd c rax x).
Definition zero_context : rix_user_context_t :=
  {| r15 := 0; r14 := 0; r13 := 0; r12 := 0; r11 := 0; r10 := 0; r9 := 0; r8 := 0;
     rbp := 0; rdi := 0; rsi := 0; rdx := 0; rcx := 0; rbx := 0; rax := 0; rip := 0; uc_rflags := 0; uc_rsp := 0 |}.

(** [stack_frame] is the part of [stack] that [task_init_stack] writes: the words
    from the initial stack pointer up to the top. *)
Record rix_task_t := {
  task_id : Z; task_state : task_state_t; task_tid : Z; rsp : Z; task_entry : Z; arg : Z; process_pid : Z;
  user_entry : Z; user_stack : Z; user_return : Z; user_context_valid : Z; ap_ok : Z; affinity : Z;
  run_cpu : Z; migrations : Z; prio : Z; run_ticks : Z; stamp : Z; voluntary : Z; involuntary : Z;
  user_context : rix_user_context_t; stack_frame : list Z; wait_wq : Z; wait_handle : rix_wait_handle_t; fpu : list Z }.

#[export] Instance eta_task : Eta rix_task_t := fun t =>
  {| task_id := task_id t; task_state := task_state t; task_tid := task_tid t; rsp := rsp t; task_entry := task_entry t; arg := arg t;
     process_pid := process_pid t; user_entry := user_entry t; user_stack := user_stack t; user_return := user_return t;
     user_context_valid := user_context_valid t; ap_ok := ap_ok t; affinity := affinity t; run_cpu := run_cpu t; migrations := migrations t;
     prio := prio t; run_ticks := run_ticks t; stamp := stamp t; voluntary := voluntary t; involuntary := involuntary t;
     user_context := user_context t; stack_frame := stack_frame t; wait_wq := wait_wq t; wait_handle := wait_handle t; fpu := fpu t |}.

Definition set_task_state (x : task_state_t) (t : rix_task_t) : rix_task_t := ltac:(upd t task_state x).
Definition set_task_id (x : Z) (t : rix_task_t) : rix_task_t := ltac:(upd t task_id x).
Definition set_task_tid (x : Z) (t : rix_task_t) : rix_task_t := ltac:(upd t task_tid x).
Definition set_rsp (x : Z) (t : rix_task_t) : rix_task_t := ltac:(upd t rsp x).
Definition set_ap_ok (x : Z) (t : rix_task_t) : rix_task_t := ltac:(upd t ap_ok x).
Definition set_affinity (x : Z) (t : rix_task_t) : rix_task_t := ltac:(upd t affinity x).
Definition set_run_cpu (x : Z) (t : rix_task_t) : rix_task_t := ltac:(upd t run_cpu x).
Definition set_migrations (x : Z) (t : rix_task_t) : rix_task_t := ltac:(upd t migrations x).
Definition set_prio (x : Z) (t : rix_task_t) : rix_task_t := ltac:(upd t prio x).
Definition set_run_ticks (x : Z) (t : rix_task_t) : rix_task_t := ltac:(upd t run_ticks x).
Definition set_stamp (x : Z) (t : rix_task_t) : rix_task_t := ltac:(upd t stamp x).
Definition set_voluntary (x : Z) (t : rix_task_t) : rix_task_t := ltac:(upd t voluntary x).
Definition set_involuntary (x : Z) (t : rix_task_t) : rix_task_t := ltac:(upd t involuntary x).
Definition set_stack_frame (x : list Z) (t : rix_task_t) : rix_task_t := ltac:(upd t stack_frame x).
Definition set_wait_wq (x : Z) (t : rix_task_t) : rix_task_t := ltac:(upd t wait_wq x).
Definition set_wait_handle (x : rix_wait_handle_t) (t : rix_task_t) : rix_task_t := ltac:(upd t wait_handle x).
Definition set_fpu (x : list Z) (t : rix_task_t) : rix_task_t := ltac:(upd t fpu x).

Definition no_handle : rix_wait_handle_t := {| index := 0; hgen := 0 |}.

(** A slot as [scheduler_init] leaves it in zeroed memory. *)
Definition unused_task : rix_task_t :=
  {| task_id := 0; task_state := TASK_UNUSED; task_tid := 0; rsp := 0; task_entry := 0; arg := 0; process_pid := 0;
     user_entry := 0; user_stack := 0; user_return := UINT64_MAX; user_context_valid := 0; ap_ok := 0; affinity := UINT64_MAX;
     run_cpu := UINT32_MAX; migrations := 0; prio := 0; run_ticks := 0; stamp := 0; voluntary := 0; involuntary := 0;
     user_context := zero_context; stack_frame := []; wait_wq := 0; wait_handle := no_handle; fpu := [] |}.

(** A wakeup IPI, broadcast or to one CPU. *)
Inductive ipi := WakeupAps | Wakeup (c : Z).

Record scheduler := {
  ticks : Z; tasks : list rix_task_t; cpu_current : list Z; sched_lock : rix_spinlock_t; next_id : Z; cpu_rq : list rix_runqueue_t;
  cpu_idle_rsp : list Z; cpu_idle_valid : list Z; cpu_idle_tmp : list Z; cpu_idle_fpu : list (list Z); fpu_template : list Z;
  cpu_preempt_depth : list Z; cpu_need_resched : list Z; cpu_quantum_left : list Z; cpu_in_idle : list Z;
  thread_tab : thread_table; queues : gmap Z rix_waitqueue_t; cpu_rsp : list Z; cpu_fpu : list (list Z); ipis : list ipi }.

#[export] Instance eta_scheduler : Eta scheduler := fun s =>
  {| ticks := ticks s; tasks := tasks s; cpu_current := cpu_current s; sched_lock := sched_lock s; next_id := next_id s; cpu_rq := cpu_rq s;
     cpu_idle_rsp := cpu_idle_rsp s; cpu_idle_valid := cpu_idle_valid s; cpu_idle_tmp := cpu_idle_tmp s; cpu_idle_fpu := cpu_idle_fpu s;
     fpu_template := fpu_template s; cpu_preempt_depth := cpu_preempt_depth s; cpu_need_resched := cpu_need_resched s;
     cpu_quantum_left := cpu_quantum_left s; cpu_in_idle := cpu_in_idle s; thread_tab := thread_tab s; queues := queues s;
     cpu_rsp := cpu_rsp s; cpu_fpu := cpu_fpu s; ipis := ipis s |}.

Definition with_ticks (x : Z) (s : scheduler) : scheduler := ltac:(upd s ticks x).
Definition with_tasks (x : list rix_task_t) (s : scheduler) : scheduler := ltac:(upd s tasks x).
Definition with_cpu_current (x : list Z) (s : scheduler) : scheduler := ltac:(upd s cpu_current x).
Definition with_sched_lock (x : rix_spinlock_t) (s : scheduler) : scheduler := ltac:(upd s sched_lock x).
Definition with_next_id (x : Z) (s : scheduler) : scheduler := ltac:(upd s next_id x).
Definition with_cpu_rq (x : list rix_runqueue_t) (s : scheduler) : scheduler := ltac:(upd s cpu_rq x).
Definition with_cpu_idle_rsp (x : list Z) (s : scheduler) : scheduler := ltac:(upd s cpu_idle_rsp x).
Definition with_cpu_idle_valid (x : list Z) (s : scheduler) : scheduler := ltac:(upd s cpu_idle_valid x).
Definition with_cpu_idle_tmp (x : list Z) (s : scheduler) : scheduler := ltac:(upd s cpu_idle_tmp x).
Definition with_cpu_idle_fpu (x : list (list Z)) (s : scheduler) : scheduler := ltac:(upd s cpu_idle_fpu x).
Definition with_cpu_preempt_depth (x : list Z) (s : scheduler) : scheduler := ltac:(upd s cpu_preempt_depth x).
Definition with_cpu_need_resched (x : list Z) (s : scheduler) : scheduler := ltac:(upd s cpu_need_resched x).
Definition with_cpu_quantum_left (x : list Z) (s : scheduler) : scheduler := ltac:(upd s cpu_quantum_left x).
Definition with_cpu_in_idle (x : list Z) (s : scheduler) : scheduler := ltac:(upd s cpu_in_idle x).
Definition with_thread_tab (x : thread_table) (s : scheduler) : scheduler := ltac:(upd s thread_tab x).
Definition with_queues (x : gmap Z rix_waitqueue_t) (s : scheduler) : scheduler := ltac:(upd s queues x).
Definition with_cpu_rsp (x : list Z) (s : scheduler) : scheduler := ltac:(upd s cpu_rsp x).
Definition with_cpu_fpu (x : list (list Z)) (s : scheduler) : scheduler := ltac:(upd s cpu_fpu x).
Definition send_ipi (x : ipi) (s : scheduler) : scheduler := ltac:(upd s ipis (ipis s ++ [x])).

#[export] Instance scheduler_guard : HasGuard scheduler.
Proof. refine {| guard := sched_lock; with_guard := with_sched_lock |}; by intros; destruct o. Defined.

Definition task (s : scheduler) (i : Z) : rix_task_t := aget unused_task (tasks s) i.
Definition on_task (i : Z) (f : rix_task_t -> rix_task_t) (s : scheduler) : scheduler := with_tasks (aset i (f (task s i)) (tasks s)) s.
Definition current (s : scheduler) (me : Z) : Z := aget 0 (cpu_current s) me.
Definition empty_rq : rix_runqueue_t := {| mask := 0; cursor := 0; hipri_streak := 0 |}.
Definition rq (s : scheduler) (c : Z) : rix_runqueue_t := aget empty_rq (cpu_rq s) c.

(** What the scheduler needs of the platform: the index of the boot CPU (negative
    when unknown), where the task stacks lie and the address of [task_bootstrap]. *)
Class Platform := { smp_bsp_index : Z; stack_of : Z -> Z; task_bootstrap_addr : Z }.

(** What the scheduler reads of a process: its state, page table and kernel stack. *)
Record proc_view := { view_state : Z; view_pml4 : Z; view_kernel_stack : Z }.

Section Model.
Context {P : Platform}.

Definition sched_cpu (c : cpu) : Z :=
  if (0 <=? cpu_index c) && (cpu_index c <? SMP_MAX_CPUS) then cpu_index c
  else if (0 <=? smp_bsp_index) && (smp_bsp_index <? SMP_MAX_CPUS) then smp_bsp_index
  else 0.

(** ** Run-queue masks *)

Definition rq_cpu_is_bsp (c : Z) : bool := c =? smp_bsp_index.

Definition rq_eligible (ts : list rix_task_t) (c i : Z) : bool :=
  let t := aget unused_task ts i in
  if (RIX_MAX_TASKS <=? i) || (SMP_MAX_CPUS <=? c) then false
  else if negb (truthy (Z.land (affinity t) (bit c))) then false
  else if rq_cpu_is_bsp c then true
  else negb (i =? 0) && (process_pid t =? 0) && truthy (ap_ok t).

Definition rq_add (i : Z) (q : rix_runqueue_t) : rix_runqueue_t := default q (rq_add_locked (Some q) i).
Definition rq_remove (i : Z) (q : rix_runqueue_t) : rix_runqueue_t := default q (rq_remove_locked (Some q) i).

Definition rq_add_eligible_locked (i : Z) (s : scheduler) : scheduler :=
  with_cpu_rq (for_all 0 SMP_MAX_CPUS (fun c qs => if rq_eligible (tasks s) c i then aset c (rq_add i (aget empty_rq qs c)) qs else qs) (cpu_rq s)) s.
Definition rq_remove_all_locked (i : Z) (s : scheduler) : scheduler :=
  with_cpu_rq (for_all 0 SMP_MAX_CPUS (fun c qs => aset c (rq_remove i (aget empty_rq qs c)) qs) (cpu_rq s)) s.
Definition rq_resync_locked (i : Z) (s : scheduler) : scheduler :=
  let s := rq_remove_all_locked i s in
  if (i <? RIX_MAX_TASKS) && in_state (task_state (task s i)) TASK_RUNNABLE then rq_add_eligible_locked i s else s.

(** The slot found by the loops over tasks 1.. that look for an id. *)
Definition find_task (id : Z) (s : scheduler) : option Z :=
  match for_ 1 (RIX_MAX_TASKS - 1) (fun i (_ : unit) => if (task_id (task s i) =? id) && negb (in_state (task_state (task s i)) TASK_UNUSED) then inr i else inl tt) tt with
  | inr i => Some i
  | inl _ => None
  end.

Definition scheduler_task_allow_ap (id : Z) : M (cpu * scheduler) Z :=
  if id =? 0 then mret (-1)
  else locked (fun _ s =>
    match find_task id s with
    | Some i => if process_pid (task s i) =? 0 then (0, rq_resync_locked i (on_task i (set_ap_ok 1) s)) else (-1, s)
    | None => (-1, s)
    end).

Definition scheduler_set_affinity (id m : Z) : M (cpu * scheduler) Z :=
  if (id =? 0) || (m =? 0) then mret (-1)
  else if (smp_bsp_index <? 0) || (SMP_MAX_CPUS <=? smp_bsp_index) then mret (-1)
  else locked (fun _ s =>
    match find_task id s with
    | Some i =>
      let base_allowed := if (process_pid (task s i) =? 0) && truthy (ap_ok (task s i)) then UINT64_MAX else bit smp_bsp_index in
      if negb (truthy (Z.land m base_allowed)) then (-1, s)
      else (0, rq_resync_locked i (on_task i (set_affinity m) s))
    | None => (-1, s)
    end).

Definition scheduler_set_priority (id level : Z) : M (cpu * scheduler) Z :=
  if (id =? 0) || (RIX_PRIO_MAX <? level) then mret (-1)
  else locked (fun _ s =>
    match find_task id s with
    | Some i => if (0 <? level) && negb (process_pid (task s i) =? 0) then (-1, s) else (0, on_task i (set_prio (u8 level)) s)
    | None => (-1, s)
    end).

(** ** Selection *)

(** One pick on a queue: the slot, or a negative number. *)
Definition rq_pick (q : rix_runqueue_t) (himask : Z) : Z * rix_runqueue_t :=
  let '(i, q') := rq_pick_locked (Some q) himask in (i, default q q').

Definition himask (s : scheduler) : Z :=
  for_all 0 RIX_MAX_TASKS (fun i h => if truthy (prio (task s i)) then Z.lor h (bit i) else h) 0.

(** A task this CPU may claim. *)
Definition claimable (s : scheduler) (me i : Z) : bool := in_state (task_state (task s i)) TASK_RUNNABLE && rq_eligible (tasks s) me i.

(** The picks from one's own queue; a slot that may not run is dropped from it. *)
Definition pick_own (me h : Z) (s : scheduler) : option Z * rix_runqueue_t :=
  match for_ 0 RIX_MAX_TASKS (fun _ q =>
    let '(pi, q) := rq_pick q h in
    if pi <? 0 then inr (None, q)
    else if claimable s me pi then inr (Some pi, q)
    else inl (rq_remove pi q)) (rq s me) with
  | inl q => (None, q)
  | inr r => r
  end.

(** The picks from a copy of the boot CPU's queue; the copy's cursor and streak are kept on success. *)
Definition pick_stolen (me h : Z) (s : scheduler) : option (Z * rix_runqueue_t) :=
  match for_ 0 RIX_MAX_TASKS (fun _ tmp =>
    let '(pi, tmp) := rq_pick tmp h in
    if pi <? 0 then inr None
    else if claimable s me pi then inr (Some (pi, {| mask := mask (rq s me); cursor := cursor tmp; hipri_streak := hipri_streak tmp |}))
    else inl (set_mask (Z.land (mask tmp) (not32 (bit pi))) tmp))
    {| mask := mask (rq s smp_bsp_index); cursor := cursor (rq s me); hipri_streak := hipri_streak (rq s me) |} with
  | inl _ => None
  | inr r => r
  end.

Definition sched_pick_locked (me old : Z) (s : scheduler) : Z * scheduler :=
  if SMP_MAX_CPUS <=? me then (old, s)
  else
    let h := himask s in
    let '(found, q) := pick_own me h s in
    let s := with_cpu_rq (aset me q (cpu_rq s)) s in
    match found with
    | Some i => (i, s)
    | None =>
      if negb (rq_cpu_is_bsp me) && (0 <=? smp_bsp_index) && (smp_bsp_index <? SMP_MAX_CPUS) then
        match pick_stolen me h s with
        | Some (i, q) => (i, with_cpu_rq (aset me q (cpu_rq s)) s)
        | None => (old, s)
        end
      else (old, s)
    end.

Definition rq_note_claim_locked (me next : Z) (s : scheduler) : scheduler :=
  if (RIX_MAX_TASKS <=? next) || (SMP_MAX_CPUS <=? me) then s
  else
    let t := task s next in
    let s := if negb (run_cpu t =? UINT32_MAX) && negb (run_cpu t =? me) then on_task next (set_migrations (u32 (migrations t + 1))) s else s in
    on_task next (set_run_cpu me) s.

(** Whether every bit of every mask is what the task table asks for. *)
Definition rq_verify_locked (s : scheduler) : bool :=
  match for_ 0 SMP_MAX_CPUS (fun c (_ : unit) =>
    match for_ 0 RIX_MAX_TASKS (fun i (_ : unit) => if Bool.eqb (rq_contains_locked (Some (rq s c)) i) (claimable s c i) then inl tt else inr tt) tt with
    | inl _ => inl tt
    | inr _ => inr tt
    end) tt with
  | inl _ => true
  | inr _ => false
  end.

Definition scheduler_current_migrations (c : cpu) (s : scheduler) : Z := migrations (task s (current s (sched_cpu c))).
Definition scheduler_current_run_ticks (c : cpu) (s : scheduler) : Z := run_ticks (task s (current s (sched_cpu c))).
Definition scheduler_current_id (c : cpu) (s : scheduler) : Z := task_id (task s (current s (sched_cpu c))).
Definition scheduler_current_tid (c : cpu) (s : scheduler) : Z := task_tid (task s (current s (sched_cpu c))).

(** ** Start, clock and quanta *)

(** [template] is the image that [fninit; fxsave] gives; [s] is the memory before, of
    which the wait queues and the registers stay. *)
Definition scheduler_init (template : list Z) (s : scheduler) : scheduler :=
  let per_cpu {A} (x : A) := replicate (Z.to_nat SMP_MAX_CPUS) x in
  let '(_, boot_tid, tab) := thread_alloc_locked (fun _ => None) 0 true thread_table_init in
  let fresh (i : Z) := let t := task s i in
    {| task_id := 0; task_state := TASK_UNUSED; task_tid := 0; rsp := 0; task_entry := 0; arg := 0; process_pid := 0;
       user_entry := 0; user_stack := 0; user_return := UINT64_MAX; user_context_valid := 0; ap_ok := 0; affinity := UINT64_MAX;
       run_cpu := UINT32_MAX; migrations := 0; prio := 0; run_ticks := 0; stamp := 0; voluntary := 0; involuntary := 0;
       user_context := user_context t; stack_frame := stack_frame t; wait_wq := wait_wq t; wait_handle := wait_handle t; fpu := fpu t |} in
  {| ticks := 0;
     tasks := aset 0 (set_task_tid (default 0 boot_tid) (set_task_state TASK_RUNNING (fresh 0))) (fresh <$> seqZ 0 RIX_MAX_TASKS);
     cpu_current := per_cpu 0; sched_lock := spin_free; next_id := 1; cpu_rq := per_cpu empty_rq;
     cpu_idle_rsp := per_cpu 0; cpu_idle_valid := per_cpu 0; cpu_idle_tmp := per_cpu 0; cpu_idle_fpu := per_cpu template; fpu_template := template;
     cpu_preempt_depth := per_cpu 0; cpu_need_resched := per_cpu 0; cpu_quantum_left := per_cpu RIX_PREEMPT_QUANTUM_TICKS; cpu_in_idle := per_cpu 0;
     thread_tab := tab; queues := queues s; cpu_rsp := cpu_rsp s; cpu_fpu := cpu_fpu s; ipis := ipis s |}.

Definition scheduler_tick (s : scheduler) : scheduler := with_ticks (u64 (ticks s + 1)) s.

Definition scheduler_preempt_disable (c : cpu) (s : scheduler) : scheduler :=
  let me := sched_cpu c in with_cpu_preempt_depth (aset me (u32 (aget 0 (cpu_preempt_depth s) me + 1)) (cpu_preempt_depth s)) s.
Definition scheduler_preempt_enable (c : cpu) (s : scheduler) : scheduler :=
  let me := sched_cpu c in
  if truthy (aget 0 (cpu_preempt_depth s) me) then with_cpu_preempt_depth (aset me (aget 0 (cpu_preempt_depth s) me - 1) (cpu_preempt_depth s)) s else s.
Definition scheduler_preempt_is_disabled (c : cpu) (s : scheduler) : bool := truthy (aget 0 (cpu_preempt_depth s) (sched_cpu c)).
Definition scheduler_need_resched (c : cpu) (s : scheduler) : bool := truthy (aget 0 (cpu_need_resched s) (sched_cpu c)).
Definition scheduler_clear_need_resched (c : cpu) (s : scheduler) : scheduler := with_cpu_need_resched (aset (sched_cpu c) 0 (cpu_need_resched s)) s.

Definition ready_task (t : rix_task_t) : bool := in_state (task_state t) TASK_RUNNABLE || in_state (task_state t) TASK_RUNNING.
Definition scheduler_runnable_count (s : scheduler) : Z :=
  for_all 0 RIX_MAX_TASKS (fun i n => if ready_task (task s i) then n + 1 else n) 0.

(** A runnable kernel thread that application processors may take. *)
Definition ap_work (i : Z) (t : rix_task_t) : bool := negb (i =? 0) && (process_pid t =? 0) && truthy (ap_ok t).
Definition ap_eligible_runnable (s : scheduler) : bool :=
  match for_ 1 (RIX_MAX_TASKS - 1) (fun i (_ : unit) =>
    if in_state (task_state (task s i)) TASK_RUNNABLE && (process_pid (task s i) =? 0) && truthy (ap_ok (task s i)) then inr tt else inl tt) tt with
  | inr _ => true
  | inl _ => false
  end.

Definition preempt_arm_cpu (c : Z) (is_ap : bool) (s : scheduler) : scheduler :=
  if truthy (aget 0 (cpu_preempt_depth s) c) then s
  else if scheduler_runnable_count s <? 2 then s
  else let s := with_cpu_need_resched (aset c 1 (cpu_need_resched s)) s in if is_ap then send_ipi (Wakeup c) s else s.

(** One tick off a CPU's quantum; when none is left it is filled up and the CPU armed. *)
Definition quantum_tick (c : Z) (is_ap : bool) (s : scheduler) : scheduler :=
  let left := aget 0 (cpu_quantum_left s) c in
  let left := if truthy left then left - 1 else left in
  let s := with_cpu_quantum_left (aset c left (cpu_quantum_left s)) s in
  if truthy left then s
  else preempt_arm_cpu c is_ap (with_cpu_quantum_left (aset c RIX_PREEMPT_QUANTUM_TICKS (cpu_quantum_left s)) s).

(** [online_count] and [online] are [smp_online_count()] and whether [smp_cpu_state(c)] is [SMP_CPU_ONLINE]. *)
Definition scheduler_preempt_tick (online_count : Z) (online : Z -> bool) (c : cpu) (s : scheduler) : scheduler :=
  let me := sched_cpu c in
  if negb (me =? smp_bsp_index) then s
  else
    let s := quantum_tick me false s in
    if online_count <=? 1 then s
    else if negb (ap_eligible_runnable s) then s
    else for_all 0 SMP_MAX_CPUS (fun k s => if (k =? smp_bsp_index) || negb (online k) then s else quantum_tick k true s) s.

Definition scheduler_should_yield_from_irq (c : cpu) (s : scheduler) : bool * scheduler :=
  let me := sched_cpu c in
  if truthy (aget 0 (cpu_preempt_depth s) me) || negb (truthy (aget 0 (cpu_need_resched s) me)) then (false, s)
  else if truthy (aget 0 (cpu_in_idle s) me) then (false, s)
  else
    let cur := current s me in
    if (RIX_MAX_TASKS <=? cur) || negb (in_state (task_state (task s cur)) TASK_RUNNING) then (false, s)
    else if scheduler_runnable_count s <? 2 then
      (false, with_cpu_quantum_left (aset me RIX_PREEMPT_QUANTUM_TICKS (cpu_quantum_left s)) (with_cpu_need_resched (aset me 0 (cpu_need_resched s)) s))
    else (true, s).

(** ** Waiting *)

(** A call on the queue at [p]; the queue takes its own lock. *)
Definition on_queue {A} (p : Z) (m : M (cpu * option rix_waitqueue_t) A) : M (cpu * scheduler) A := fun '(c, s) =>
  match m (c, queues s !! p) with
  | Some (a, (c', q)) => Some (a, (c', match q with Some q => with_queues (<[p := q]> (queues s)) s | None => s end))
  | None => None
  end.

Definition bind_wait (i p : Z) (h : rix_wait_handle_t) (s : scheduler) : scheduler := on_task i (fun t => set_wait_handle h (set_wait_wq p t)) s.

Definition scheduler_wait_prepare (wq : Z) : M (cpu * scheduler) (Z * option rix_wait_handle_t) :=
  if wq =? 0 then mret (-1, None)
  else locked_section (fun '(c, s) =>
    let i := current s (sched_cpu c) in
    if truthy (wait_wq (task s i)) then Some ((-1, None), (c, s))
    else match on_queue wq (rix_waitqueue_prepare (task_id (task s i)) true) (c, s) with
    | Some ((0, Some h), (c, s)) => Some ((0, Some h), (c, bind_wait i wq h s))
    | Some (_, (c, s)) => Some ((-1, None), (c, s))
    | None => None
    end).

Definition scheduler_block_current : M (cpu * scheduler) unit :=
  locked (fun c s =>
    let i := current s (sched_cpu c) in let t := task s i in
    let s := match task_state t with
             | TASK_RUNNING => on_task i (fun t => set_task_state TASK_BLOCKED (set_run_ticks (u64 (run_ticks t + (ticks s - stamp t))) t)) s
             | TASK_RUNNABLE => on_task i (set_task_state TASK_BLOCKED) s
             | _ => s
             end in
    (tt, rq_remove_all_locked i s)).

(** Gives the task's waiter back and unbinds it. *)
Definition task_drop_waiter (i : Z) : M (cpu * scheduler) unit := fun '(c, s) =>
  let t := task s i in
  if wait_wq t =? 0 then Some (tt, (c, s))
  else match on_queue (wait_wq t) (rix_waitqueue_remove (wait_handle t)) (c, s) with
  | Some (_, (c, s)) => Some (tt, (c, bind_wait i 0 no_handle s))
  | None => None
  end.

(** Runs without the scheduler's lock. *)
Definition scheduler_wait_take : M (cpu * scheduler) Z := fun '(c, s) =>
  let i := current s (sched_cpu c) in let t := task s i in
  if wait_wq t =? 0 then Some (1, (c, s))
  else match on_queue (wait_wq t) (rix_waitqueue_take_wakeup (wait_handle t)) (c, s) with
  | Some (rc, (c, s)) => match task_drop_waiter i (c, s) with Some (_, r) => Some (rc, r) | None => None end
  | None => None
  end.

Definition scheduler_wait_abort : M (cpu * scheduler) unit :=
  locked_section (fun '(c, s) =>
    let i := current s (sched_cpu c) in
    match task_drop_waiter i (c, s) with
    | Some (_, (c, s)) =>
      Some (tt, (c, if in_state (task_state (task s i)) TASK_BLOCKED then rq_add_eligible_locked i (on_task i (set_task_state TASK_RUNNABLE) s) else s))
    | None => None
    end).

(** Makes every blocked task that [f] selects runnable; whether an application processor has new work. *)
Definition wake_tasks (f : rix_task_t -> bool) (s : scheduler) : bool * scheduler :=
  for_all 0 RIX_MAX_TASKS (fun i '(ap, s) =>
    if in_state (task_state (task s i)) TASK_BLOCKED && f (task s i) then
      let s := rq_add_eligible_locked i (on_task i (set_task_state TASK_RUNNABLE) s) in (ap || ap_work i (task s i), s)
    else (ap, s)) (false, s).

(** Wakes under the lock, then sends the IPI without it. *)
Definition wake_and_kick (f : rix_task_t -> bool) : M (cpu * scheduler) unit :=
  ap ← locked (fun _ => wake_tasks f);
  modify (fun '(c, s) => (c, if ap : bool then send_ipi WakeupAps s else s)).

Definition scheduler_wake_queue (wq : Z) : M (cpu * scheduler) unit :=
  if wq =? 0 then mret tt
  else _ ← on_queue wq rix_waitqueue_wake_all; wake_and_kick (fun t => wait_wq t =? wq).
Definition scheduler_wake_pid (pid : Z) : M (cpu * scheduler) unit := wake_and_kick (fun t => process_pid t =? pid).

Definition scheduler_thread_count_for_pid (pid : Z) : M (cpu * scheduler) Z := locked (fun _ s => (thread_count_locked pid (thread_tab s), s)).
Definition scheduler_thread_detach_pid (pid : Z) : M (cpu * scheduler) unit :=
  locked (fun _ s => (tt, with_thread_tab (thread_detach_pid_locked pid (thread_tab s)) s)).
Definition scheduler_list_threads (out : bool) (capacity : Z) (count : bool) : M (cpu * scheduler) (Z * option (list rix_thread_info_t * Z)) :=
  if negb count then mret (-1, None) else locked (fun _ s => (thread_list_locked out capacity count (thread_tab s), s)).

(** ** Birth and death *)

Definition task_mark_dead_locked (i : Z) : M (cpu * scheduler) unit := fun '(c, s) =>
  let t := task s i in
  let s := if in_state (task_state t) TASK_RUNNING then on_task i (set_run_ticks (u64 (run_ticks t + (ticks s - stamp t)))) s else s in
  match task_drop_waiter i (c, on_task i (set_task_state TASK_DEAD) s) with
  | None => None
  | Some (_, (c, s)) =>
    let s := if truthy (task_tid (task s i)) then on_task i (set_task_tid 0) (with_thread_tab (thread_free_locked (task_tid (task s i)) (thread_tab s)) s) else s in
    Some (tt, (c, rq_remove_all_locked i s))
  end.

(** A slot as [task_alloc] hands it out. *)
Definition recycled (t : rix_task_t) : rix_task_t :=
  set_involuntary 0 (set_voluntary 0 (set_stamp 0 (set_run_ticks 0 (set_prio 0 (set_migrations 0 (set_run_cpu UINT32_MAX
    (set_affinity UINT64_MAX (set_task_tid 0 (set_wait_handle no_handle (set_wait_wq 0 t)))))))))).

Definition free_task (t : rix_task_t) : bool := in_state (task_state t) TASK_UNUSED || in_state (task_state t) TASK_DEAD.
Definition task_alloc (s : scheduler) : option (Z * scheduler) :=
  match for_ 1 (RIX_MAX_TASKS - 1) (fun i (_ : unit) => if free_task (task s i) then inr i else inl tt) tt with
  | inr i => Some (i, on_task i recycled s)
  | inl _ => None
  end.

Definition task_bind_thread_locked (proc_state : Z -> option Z) (i : Z) (s : scheduler) : Z * scheduler :=
  match thread_alloc_locked proc_state (process_pid (task s i)) true (thread_tab s) with
  | (0, Some tid, tab) => (0, on_task i (set_task_tid tid) (with_thread_tab tab s))
  | (_, _, tab) => (-4, on_task i (fun t => set_task_tid 0 (set_task_state TASK_UNUSED t)) (with_thread_tab tab s))
  end.

(** The words a new task is started from: six registers, the entry and the padding, and the address of the first. *)
Definition task_init_stack (i : Z) (s : scheduler) : scheduler :=
  let top := Z.land (stack_of i + RIX_STACK_SIZE) (not64 0xF) in
  on_task i (fun t => set_fpu (fpu_template s) (set_rsp (top - 64) (set_stack_frame (replicate 6 0 ++ [task_bootstrap_addr; 0]) t))) s.

(** The next task id; zero is skipped. *)
Definition take_id (s : scheduler) : Z * scheduler :=
  let '(id, s) := (next_id s, with_next_id (u64 (next_id s + 1)) s) in
  if id =? 0 then (next_id s, with_next_id (u64 (next_id s + 1)) s) else (id, s).

(** What the four calls that create a task share: a slot, an id, the fields [fill]
    gives, a stack, a thread object and the run-queue bits, under the lock; then the
    kick. [full] is the code for a full table. *)
Definition create_locked (view : Z -> option proc_view) (full : Z) (fill : rix_task_t -> rix_task_t) (s : scheduler) : (Z * option Z) * scheduler :=
  match task_alloc s with
  | None => ((full, None), s)
  | Some (i, s) =>
    let '(id, s) := take_id s in
    let s := task_init_stack i (on_task i (fun t => set_ap_ok 0 (set_task_state TASK_RUNNABLE (fill (set_task_id id t)))) s) in
    match task_bind_thread_locked (fun pid => view_state <$> view pid) i s with
    | (0, s) => ((0, Some id), rq_add_eligible_locked i s)
    | (_, s) => ((-4, None), s)
    end
  end.
Definition create_task (view : Z -> option proc_view) (full : Z) (fill : rix_task_t -> rix_task_t) : M (cpu * scheduler) (Z * option Z) :=
  r ← locked (fun _ => create_locked view full fill);
  if fst r =? 0 then _ ← modify (fun '(c, s) => (c, send_ipi WakeupAps s)); mret r else mret r.

(** The fields every creation writes besides the state and the id. *)
Definition fill_task (entry a pid uentry ustack ureturn valid : Z) (uc : option rix_user_context_t) (t : rix_task_t) : rix_task_t :=
  {| task_id := task_id t; task_state := task_state t; task_tid := task_tid t; rsp := rsp t; task_entry := entry; arg := a;
     process_pid := pid; user_entry := uentry; user_stack := ustack; user_return := ureturn;
     user_context_valid := valid; ap_ok := ap_ok t; affinity := affinity t; run_cpu := run_cpu t; migrations := migrations t;
     prio := prio t; run_ticks := run_ticks t; stamp := stamp t; voluntary := voluntary t; involuntary := involuntary t;
     user_context := default (user_context t) uc; stack_frame := stack_frame t; wait_wq := wait_wq t; wait_handle := wait_handle t; fpu := fpu t |}.

Definition scheduler_create_kernel_thread (view : Z -> option proc_view) (entry a : Z) : M (cpu * scheduler) (Z * option Z) :=
  if entry =? 0 then mret (-1, None) else create_task view (-1) (fill_task entry a 0 0 0 UINT64_MAX 0 None).

(** A process that can be entered: it has a page table and a kernel stack. *)
Definition enterable (view : Z -> option proc_view) (pid : Z) : bool :=
  match view pid with Some p => truthy (view_pml4 p) && truthy (view_kernel_stack p) | None => false end.

Definition scheduler_create_user_process (view : Z -> option proc_view) (pid entry ustack : Z) : M (cpu * scheduler) (Z * option Z) :=
  if (pid =? 0) || (entry =? 0) || (ustack =? 0) then mret (-1, None)
  else if negb (enterable view pid) then mret (-2, None)
  else create_task view (-3) (fill_task 0 0 pid entry ustack UINT64_MAX 0 None).
Definition scheduler_create_fork_child (view : Z -> option proc_view) (pid entry ustack return_value : Z) : M (cpu * scheduler) (Z * option Z) :=
  if (pid =? 0) || (entry =? 0) || (ustack =? 0) then mret (-1, None)
  else if negb (enterable view pid) then mret (-1, None)
  else create_task view (-1) (fill_task 0 0 pid entry ustack return_value 0 None).
Definition scheduler_create_fork_child_context (view : Z -> option proc_view) (pid : Z) (context : option rix_user_context_t) : M (cpu * scheduler) (Z * option Z) :=
  match context with
  | None => mret (-1, None)
  | Some uc =>
    if (pid =? 0) || negb (enterable view pid) then mret (-1, None)
    else create_task view (-1) (fill_task 0 0 pid (rip uc) (uc_rsp uc) 0 1 (Some (set_rax 0 uc)))
  end.

(** ** Switching *)

(** [fxsave] to and [fxrstor] from images, and the stack pointer likewise. *)
Definition load_context (me new_rsp : Z) (image : list Z) (s : scheduler) : scheduler :=
  with_cpu_rsp (aset me new_rsp (cpu_rsp s)) (with_cpu_fpu (aset me image (cpu_fpu s)) s).
Definition save_context (me i : Z) (s : scheduler) : scheduler :=
  on_task i (fun t => set_rsp (aget 0 (cpu_rsp s) me) (set_fpu (aget [] (cpu_fpu s) me) t)) s.

(** [fpu_switch] and [rix_context_switch] between two tasks. *)
Definition switch_tasks (me old next : Z) (s : scheduler) : scheduler :=
  load_context me (rsp (task s next)) (fpu (task s next)) (save_context me old s).
(** From a task to the idle context: the stack pointer goes to the scratch slot. *)
Definition switch_to_idle (me old idle : Z) (s : scheduler) : scheduler :=
  let s1 := on_task old (set_fpu (aget [] (cpu_fpu s) me)) s in
  load_context me idle (aget [] (cpu_idle_fpu s) me) (with_cpu_idle_tmp (aset me (aget 0 (cpu_rsp s) me) (cpu_idle_tmp s1)) s1).
(** From the idle context to a task. *)
Definition switch_from_idle (me next : Z) (s : scheduler) : scheduler :=
  load_context me (rsp (task s next)) (fpu (task s next))
    (with_cpu_idle_rsp (aset me (aget 0 (cpu_rsp s) me) (cpu_idle_rsp s)) (with_cpu_idle_fpu (aset me (aget [] (cpu_fpu s) me) (cpu_idle_fpu s)) s)).

(** What a yield decided under the lock: go on, leave for the idle context whose stack
    pointer is given, or switch from one slot to another. *)
Inductive decision := Continue | ToIdle (old idle : Z) | Switch (old next : Z).

(** The claim of a slot by a CPU. *)
Definition claim (me next : Z) (s : scheduler) : scheduler :=
  let s := on_task next (set_task_state TASK_RUNNING) s in
  let s := with_cpu_current (aset me next (cpu_current s)) s in
  on_task next (set_stamp (ticks s)) (rq_note_claim_locked me next (rq_remove_all_locked next s)).

(** The section of [scheduler_yield] under the lock; [None] when [rq_verify_locked] finds drift and freezes. *)
Definition yield_locked (me : Z) (armed : bool) (s : scheduler) : option (decision * scheduler) :=
  let old := current s me in
  let flipped := in_state (task_state (task s old)) TASK_RUNNING in
  let s := if flipped then rq_add_eligible_locked old (on_task old (fun t => set_run_ticks (u64 (run_ticks t + (ticks s - stamp t))) (set_task_state TASK_RUNNABLE t)) s) else s in
  if negb (rq_verify_locked s) then None
  else
    let '(next, s) := sched_pick_locked me old s in
    if next =? old then
      let s := if flipped then on_task old (set_stamp (ticks s)) (rq_remove_all_locked old (on_task old (set_task_state TASK_RUNNING) s)) else s in
      if in_state (task_state (task s old)) TASK_RUNNING then Some (Continue, s)
      else if truthy (aget 0 (cpu_idle_valid s) me) then Some (ToIdle old (aget 0 (cpu_idle_rsp s) me), s)
      else Some (Continue, s)
    else
      let s := if flipped then on_task old (fun t => if armed then set_involuntary (u32 (involuntary t + 1)) t else set_voluntary (u32 (voluntary t + 1)) t) s else s in
      Some (Switch old next, claim me next s).

(** From the entry of [scheduler_yield] to the release of the lock, interrupts off. *)
Definition yield_select : M (cpu * scheduler) decision := fun '(c, s) =>
  let me := sched_cpu c in
  let armed := truthy (aget 0 (cpu_need_resched s) me) in
  let s := with_cpu_quantum_left (aset me RIX_PREEMPT_QUANTUM_TICKS (cpu_quantum_left s)) (with_cpu_need_resched (aset me 0 (cpu_need_resched s)) s) in
  (_ ← on_guard rix_spin_lock;
   d ← (fun '(c, s) => match yield_locked me armed s with Some (d, s) => Some (d, (c, s)) | None => None end);
   _ ← on_guard rix_spin_unlock;
   mret d) (c, s).

Definition switch (me : Z) (d : decision) (s : scheduler) : scheduler :=
  match d with
  | Continue => s
  | ToIdle old idle => switch_to_idle me old idle s
  | Switch old next => switch_tasks me old next s
  end.

(** [scheduler_yield] up to and including the context switch; [flags] is what the
    yielding task will restore when it is resumed. *)
Definition scheduler_yield : M (cpu * scheduler) (Z * decision) :=
  flags ← on_fst read_rflags;
  _ ← on_fst cli;
  d ← yield_select;
  _ ← modify (fun '(c, s) => (c, switch (sched_cpu c) d s));
  match d with
  | Continue => _ ← on_fst (rix_irq_restore flags); mret (flags, d)
  | _ => mret (flags, d)
  end.

(** What runs in the task a switch resumes inside [scheduler_yield]: its address space
    is loaded ([activate] is [process_activate]); a task whose space cannot be loaded dies. *)
Definition yield_resume (activate : Z -> Z) (flags : Z) : M (cpu * scheduler) unit :=
  _ ← (fun '(c, s) =>
    let i := current s (sched_cpu c) in
    if truthy (process_pid (task s i)) && negb (activate (process_pid (task s i)) =? 0) then
      (_ ← on_guard rix_spin_lock; _ ← task_mark_dead_locked i; on_guard rix_spin_unlock) (c, s)
    else Some (tt, (c, s)));
  on_fst (rix_irq_restore flags).

(** Death and the first yield after it; the code yields for ever. *)
Definition task_returned : M (cpu * scheduler) (Z * decision) :=
  _ ← locked_section (fun '(c, s) => task_mark_dead_locked (current s (sched_cpu c)) (c, s));
  scheduler_yield.
Definition scheduler_exit_current : M (cpu * scheduler) (Z * decision) :=
  _ ← on_fst cli;
  _ ← on_guard rix_spin_lock;
  _ ← (fun '(c, s) => task_mark_dead_locked (current s (sched_cpu c)) (c, s));
  _ ← on_guard rix_spin_unlock;
  scheduler_yield.

(** How a new task starts: in a thread function, in user mode (with a page table, an
    entry and a stack, or a whole context), or not at all. *)
Inductive start := StartThread (entry a : Z) | StartUser (pml4 entry ustack : Z) | StartContext (pml4 : Z) (uc : rix_user_context_t) | StartFails.

Definition task_bootstrap (view : Z -> option proc_view) (activate : Z -> Z) (validate : Z -> Z -> Z -> Z) : M (cpu * scheduler) start := fun '(c, s) =>
  let t := task s (current s (sched_cpu c)) in
  let dead := match task_returned (c, s) with Some (_, r) => Some (StartFails, r) | None => None end in
  if truthy (process_pid t) then
    match view (process_pid t) with
    | None => dead
    | Some p =>
      if negb (activate (process_pid t) =? 0) then dead
      else if negb (validate (process_pid t) (user_entry t) (user_stack t) =? 0) then dead
      else if truthy (user_context_valid t) then Some (StartContext (view_pml4 p) (user_context t), (c, s))
      else Some (StartUser (view_pml4 p) (user_entry t) (user_stack t), (c, s))
    end
  else on_fst (_ ← sti; mret (StartThread (task_entry t) (arg t))) (c, s).

(** ** Idle application processors *)

Inductive idle_turn := Parked | Halted | Ran (next : Z).

(** One turn of the loop of [scheduler_ap_idle]; [is_bsp] is the flag of this CPU's entry, [None] without one. *)
Definition scheduler_ap_idle (is_bsp : option bool) : M (cpu * scheduler) idle_turn := fun '(c, s) =>
  if (cpu_index c <? 0) || (SMP_MAX_CPUS <=? cpu_index c) || default true is_bsp then Some (Halted, (c, s))
  else
    let me := cpu_index c in
    let s := with_cpu_idle_valid (aset me 1 (cpu_idle_valid s)) (with_cpu_idle_rsp (aset me (aget 0 (cpu_rsp s) me) (cpu_idle_rsp s)) s) in
    (_ ← on_fst sti;
     r ← locked_section (fun '(c, s) =>
       let old := current s me in
       if negb (rq_verify_locked s) then None
       else
         let '(next, s) := sched_pick_locked me old s in
         if (next =? old) || negb (in_state (task_state (task s next)) TASK_RUNNABLE) then
           Some (Parked, (c, with_cpu_in_idle (aset me 1 (cpu_in_idle s)) s))
         else Some (Ran next, (c, claim me next (with_cpu_in_idle (aset me 0 (cpu_in_idle s)) s))));
     match r with
     | Ran next => _ ← modify (fun '(c, s) => (c, switch_from_idle me next s)); mret r
     | _ => mret r
     end) (c, s).

(** What an interrupt does to a parked CPU: it leaves the [hlt]. *)
Definition ap_unpark (c : cpu) (s : scheduler) : scheduler := with_cpu_in_idle (aset (cpu_index c) 0 (cpu_in_idle s)) s.
End Model.
