(* ===== verification/SchedulerInv.v ===== *)
(** * The scheduler's invariant ([kernel/sched/scheduler.c])

    The run-queue masks are a cache of the task table. Every operation, on any CPU,
    keeps the cache exact, so that the check in front of every pick never finds drift
    and freezes the machine, and no operation blocks on a lock. *)
From stdpp Require Import base tactics list numbers gmap.
From S2P Require Import Prelude Lock Runqueue Thread WaitQueue Scheduler.

Section Inv.
Context {P : Platform}.

(** ** The invariant *)

Definition masks_at (s : scheduler) (i : Z) : Prop := forall c, 0 <= c < 64 -> Z.testbit (mask (rq s c)) i = claimable s c i.
Definition masks (s : scheduler) : Prop := forall i, 0 <= i < 32 -> masks_at s i.
Definition masks_but (k : Z) (s : scheduler) : Prop := forall i, 0 <= i < 32 -> i <> k -> masks_at s i.
Definition absent (i : Z) (s : scheduler) : Prop := forall c, 0 <= c < 64 -> Z.testbit (mask (rq s c)) i = false.

Definition shape (s : scheduler) : Prop :=
  length (tasks s) = 32%nat /\ length (cpu_rq s) = 64%nat /\ Forall rq_wf (cpu_rq s) /\
  length (cpu_current s) = 64%nat /\ Forall (fun i => 0 <= i < 32) (cpu_current s) /\
  map_Forall (fun _ q => wq_lock q = spin_free) (queues s).

Definition good (s : scheduler) : Prop := shape s /\ masks s.
Definition sched_ok (s : scheduler) : Prop := good s /\ sched_lock s = spin_free.

(** ** Slots *)

Lemma task_on_task s i j f : length (tasks s) = 32%nat -> 0 <= i < 32 -> 0 <= j < 32 -> task (on_task i f s) j = if j =? i then f (task s i) else task s j.
Proof.
  intros Hl Hi Hj. unfold task, on_task. cbn [tasks with_tasks]. destruct (Z.eqb_spec j i) as [->|Hne].
  - apply aget_aset_eq. lia.
  - apply aget_aset_ne; lia.
Qed.

Lemma claimable_on_task s i f c j : length (tasks s) = 32%nat -> 0 <= i < 32 -> 0 <= j < 32 -> j <> i -> claimable (on_task i f s) c j = claimable s c j.
Proof.
  intros Hl Hi Hj Hne. pose proof (task_on_task s i j f Hl Hi Hj) as E. rewrite (proj2 (Z.eqb_neq j i)) in E by done.
  unfold claimable, rq_eligible. fold (task (on_task i f s) j). fold (task s j). by rewrite E.
Qed.

(** What decides whether a task may be claimed. *)
Definition claim_view (t : rix_task_t) : task_state_t * Z * Z * Z := (task_state t, affinity t, process_pid t, ap_ok t).

Lemma claimable_view s s' c i : claim_view (task s' i) = claim_view (task s i) -> claimable s' c i = claimable s c i.
Proof.
  intros E. unfold claim_view in E. injection E as E1 E2 E3 E4. unfold claimable, rq_eligible. fold (task s' i). fold (task s i). by rewrite E1, E2, E3, E4.
Qed.

Lemma shape_on_task s i f : shape s -> shape (on_task i f s).
Proof. intros (H1 & H). split; [|exact H]. cbn [on_task with_tasks tasks]. by rewrite length_aset. Qed.

Lemma masks_but_on_task s i f : shape s -> 0 <= i < 32 -> masks_but i s -> masks_but i (on_task i f s).
Proof. intros (Hl & _) Hi H j Hj Hne c Hc. rewrite claimable_on_task by done. by apply H. Qed.

Lemma masks_weaken s i : masks s -> masks_but i s.
Proof. intros H j Hj _. by apply H. Qed.

Lemma masks_complete s i : masks_but i s -> masks_at s i -> masks s.
Proof. intros H Hi j Hj. destruct (decide (j = i)) as [->|]; [done|by apply H]. Qed.

Lemma masks_on_task s i f : shape s -> 0 <= i < 32 -> claim_view (f (task s i)) = claim_view (task s i) -> masks s -> masks (on_task i f s).
Proof.
  intros Hs Hi E H. apply (masks_complete _ i); [apply masks_but_on_task; [done..|by apply masks_weaken]|]. intros c Hc.
  rewrite (claimable_view s). - by apply H. - rewrite task_on_task by (apply Hs || done). by rewrite Z.eqb_refl.
Qed.

Lemma good_on_task s i f : 0 <= i < 32 -> claim_view (f (task s i)) = claim_view (task s i) -> good s -> good (on_task i f s).
Proof. intros Hi E [Hs Hm]. split; [by apply shape_on_task|by apply masks_on_task]. Qed.

Lemma absent_idle s i : 0 <= i < 32 -> masks s -> task_state (task s i) <> TASK_RUNNABLE -> absent i s.
Proof. intros Hi H Hst c Hc. rewrite H by done. unfold claimable, in_state. by rewrite bool_decide_eq_false_2. Qed.

Lemma masks_absent s i : masks_but i s -> absent i s -> task_state (task s i) <> TASK_RUNNABLE -> masks s.
Proof. intros H Ha Hst. apply (masks_complete _ i H). intros c Hc. rewrite Ha by done. unfold claimable, in_state. by rewrite bool_decide_eq_false_2. Qed.

(** ** The masks *)

Lemma rq_wf_mask q : rq_wf q -> is_u32 (mask q).
Proof. by intros (H & _). Qed.

Lemma rq_add_bits q i j : rq_wf q -> 0 <= i < 32 -> 0 <= j < 32 -> Z.testbit (mask (rq_add i q)) j = Z.testbit (mask q) j || (j =? i).
Proof.
  intros Hq Hi Hj. unfold rq_add, rq_add_locked, RIX_RQ_SLOTS. rewrite (proj2 (Z.leb_gt 32 i)) by lia. cbn [default mask set_mask id]. rewrite lor_bit_testbit by lia. done.
Qed.
Lemma rq_add_wf q i : rq_wf q -> 0 <= i < 32 -> rq_wf (rq_add i q).
Proof.
  intros (Hm & Hq) Hi. unfold rq_add, rq_add_locked, RIX_RQ_SLOTS. rewrite (proj2 (Z.leb_gt 32 i)) by lia. split; [|exact Hq].
  cbn. apply lor_range; [lia|done|apply bit_range; lia].
Qed.
Lemma rq_remove_bits q i j : rq_wf q -> 0 <= i < 32 -> 0 <= j < 32 -> Z.testbit (mask (rq_remove i q)) j = Z.testbit (mask q) j && negb (j =? i).
Proof.
  intros Hq Hi Hj. unfold rq_remove, rq_remove_locked, RIX_RQ_SLOTS. rewrite (proj2 (Z.leb_gt 32 i)) by lia. cbn [default mask set_mask id].
  rewrite land_not32_testbit by (try apply Hq; lia). done.
Qed.
Lemma rq_remove_wf q i : rq_wf q -> 0 <= i < 32 -> rq_wf (rq_remove i q).
Proof.
  intros (Hm & Hq) Hi. unfold rq_remove, rq_remove_locked, RIX_RQ_SLOTS. rewrite (proj2 (Z.leb_gt 32 i)) by lia. split; [|exact Hq].
  cbn. apply land_range; [lia|done].
Qed.

Lemma rq_good s c : shape s -> 0 <= c < 64 -> rq_wf (rq s c).
Proof.
  intros (_ & Hl & Hf & _) Hc. unfold rq, aget. destruct (cpu_rq s !! Z.to_nat c) as [q|] eqn:E; [by eapply Forall_lookup_1|]. apply lookup_ge_None in E. lia.
Qed.

(** A loop over all CPUs that updates each queue on its own. *)
Lemma each_rq (g : Z -> list rix_runqueue_t -> list rix_runqueue_t) (f : Z -> rix_runqueue_t -> rix_runqueue_t) qs :
  length qs = 64%nat -> Forall rq_wf qs -> (forall c q, rq_wf q -> rq_wf (f c q)) ->
  (forall c qs, 0 <= c < 64 -> length qs = 64%nat -> g c qs = aset c (f c (aget empty_rq qs c)) qs) ->
  let r := for_all 0 SMP_MAX_CPUS g qs in
  length r = 64%nat /\ Forall rq_wf r /\ forall c, 0 <= c < 64 -> aget empty_rq r c = f c (aget empty_rq qs c).
Proof.
  intros Hl Hf Hw Hg r.
  assert (H : length r = 64%nat /\ Forall rq_wf r /\ forall c, 0 <= c < 64 -> aget empty_rq r c = if c <? 0 + 64 then f c (aget empty_rq qs c) else aget empty_rq qs c).
  - unfold r. refine (for_all_inv (fun k r => length r = 64%nat /\ Forall rq_wf r /\ forall c, 0 <= c < 64 -> aget empty_rq r c = if c <? k then f c (aget empty_rq qs c) else aget empty_rq qs c) 0 64 _ qs _ _ _).
    + lia.
    + split; [done|]. split; [done|]. intros c Hc. by rewrite (proj2 (Z.ltb_ge c 0)) by lia.
    + intros k r0 Hk (H1 & H2 & H3). rewrite Hg by (done || lia). split; [by rewrite length_aset|].
      assert (Hwf : rq_wf (aget empty_rq r0 k)).
      { unfold aget. destruct (r0 !! Z.to_nat k) as [q|] eqn:E; [by eapply Forall_lookup_1|]. apply lookup_ge_None in E. lia. }
      split; [by apply Forall_insert; [|apply Hw]|]. intros c Hc. destruct (decide (c = k)) as [->|Hne].
      * rewrite aget_aset_eq by lia. rewrite H3 by done. by rewrite (proj2 (Z.ltb_ge k k)), (proj2 (Z.ltb_lt k (k + 1))) by lia.
      * rewrite aget_aset_ne by lia. rewrite H3 by done. destruct (Z.ltb_spec c k), (Z.ltb_spec c (k + 1)); done || lia.
  - destruct H as (H1 & H2 & H3). split; [done|]. split; [done|]. intros c Hc. rewrite H3 by done. by rewrite (proj2 (Z.ltb_lt c (0 + 64))) by lia.
Qed.


Lemma aset_same qs c : 0 <= c < Z.of_nat (length qs) -> aset c (aget empty_rq qs c) qs = qs.
Proof. intros Hc. unfold aset, aget. apply list_insert_id. destruct (qs !! Z.to_nat c) eqn:E; [done|]. apply lookup_ge_None in E. lia. Qed.

Lemma add_eligible_rq s i : shape s -> 0 <= i < 32 -> shape (rq_add_eligible_locked i s) /\
  forall c, 0 <= c < 64 -> rq (rq_add_eligible_locked i s) c = if rq_eligible (tasks s) c i then rq_add i (rq s c) else rq s c.
Proof.
  intros (H1 & H2 & H3 & H4) Hi. unfold rq_add_eligible_locked, rq, shape. cbn [with_cpu_rq cpu_rq tasks cpu_current queues].
  destruct (each_rq (fun c qs => if rq_eligible (tasks s) c i then aset c (rq_add i (aget empty_rq qs c)) qs else qs)
    (fun c q => if rq_eligible (tasks s) c i then rq_add i q else q) (cpu_rq s) H2 H3) as (E1 & E2 & E3); [| |done].
  - intros c q Hq. case_if; [by apply rq_add_wf|done].
  - intros c qs Hc Hl. destruct (rq_eligible (tasks s) c i); [done|]. symmetry. apply aset_same. lia.
Qed.

Lemma remove_all_rq s i : shape s -> 0 <= i < 32 -> shape (rq_remove_all_locked i s) /\
  forall c, 0 <= c < 64 -> rq (rq_remove_all_locked i s) c = rq_remove i (rq s c).
Proof.
  intros (H1 & H2 & H3 & H4) Hi. unfold rq_remove_all_locked, rq, shape. cbn [with_cpu_rq cpu_rq tasks cpu_current queues].
  destruct (each_rq (fun c qs => aset c (rq_remove i (aget empty_rq qs c)) qs) (fun c q => rq_remove i q) (cpu_rq s) H2 H3) as (E1 & E2 & E3); [|done..].
  intros c q Hq. by apply rq_remove_wf.
Qed.

(** Claims look at the task table only. *)
Lemma claimable_tasks s s' c i : tasks s' = tasks s -> claimable s' c i = claimable s c i.
Proof. intros E. unfold claimable, task. by rewrite E. Qed.

Lemma add_eligible_good s i : shape s -> 0 <= i < 32 -> masks_but i s -> absent i s -> task_state (task s i) = TASK_RUNNABLE -> good (rq_add_eligible_locked i s).
Proof.
  intros Hs Hi Hm Ha Hst. destruct (add_eligible_rq s i Hs Hi) as [Hs' Hr]. split; [done|]. intros j Hj c Hc. rewrite (claimable_tasks s) by done.
  rewrite Hr by done. pose proof (rq_good s c Hs Hc) as Hq. destruct (decide (j = i)) as [->|Hne].
  - unfold claimable, in_state. rewrite bool_decide_eq_true_2 by done. cbn [andb]. case_if; [by rewrite rq_add_bits, Z.eqb_refl, orb_true_r|by apply Ha].
  - rewrite <- (Hm j Hj Hne c Hc). case_if; [|done]. rewrite rq_add_bits by done. by rewrite (proj2 (Z.eqb_neq j i)), orb_false_r.
Qed.

Lemma remove_all_spec s i : shape s -> 0 <= i < 32 -> masks_but i s ->
  shape (rq_remove_all_locked i s) /\ masks_but i (rq_remove_all_locked i s) /\ absent i (rq_remove_all_locked i s).
Proof.
  intros Hs Hi Hm. destruct (remove_all_rq s i Hs Hi) as [Hs' Hr]. split; [done|]. split.
  - intros j Hj Hne c Hc. rewrite (claimable_tasks s) by done. rewrite Hr, rq_remove_bits by (done || by apply rq_good). rewrite (proj2 (Z.eqb_neq j i)), andb_true_r by done. by apply Hm.
  - intros c Hc. rewrite Hr, rq_remove_bits by (done || by apply rq_good). by rewrite Z.eqb_refl, andb_false_r.
Qed.

Lemma remove_all_good s i : shape s -> 0 <= i < 32 -> masks_but i s -> task_state (task s i) <> TASK_RUNNABLE -> good (rq_remove_all_locked i s).
Proof. intros Hs Hi Hm Hst. destruct (remove_all_spec s i Hs Hi Hm) as (Hs' & Hm' & Ha). split; [done|]. by apply (masks_absent _ i). Qed.

Lemma resync_good s i : shape s -> 0 <= i < 32 -> masks_but i s -> good (rq_resync_locked i s).
Proof.
  intros Hs Hi Hm. destruct (remove_all_spec s i Hs Hi Hm) as (Hs' & Hm' & Ha). unfold rq_resync_locked, RIX_MAX_TASKS. rewrite (proj2 (Z.ltb_lt i 32)) by lia. cbn [andb].
  destruct (in_state _ _) eqn:E; unfold in_state in E; bool_to_prop; [by apply add_eligible_good|]. split; [done|]. by apply (masks_absent _ i).
Qed.

(** A slot's state becomes runnable and its bits are added; or it is claimed or stopped and they are removed. *)
Lemma make_runnable s i f : good s -> 0 <= i < 32 -> task_state (task s i) <> TASK_RUNNABLE -> task_state (f (task s i)) = TASK_RUNNABLE ->
  good (rq_add_eligible_locked i (on_task i f s)).
Proof.
  intros [Hs Hm] Hi Hst Hf. apply add_eligible_good; [by apply shape_on_task|done|apply masks_but_on_task; [done..|by apply masks_weaken]| |].
  - intros c Hc. exact (absent_idle s i Hi Hm Hst c Hc).
  - rewrite task_on_task by (apply Hs || done). by rewrite Z.eqb_refl.
Qed.

Lemma make_idle s i f : good s -> 0 <= i < 32 -> task_state (f (task s i)) <> TASK_RUNNABLE -> good (rq_remove_all_locked i (on_task i f s)).
Proof.
  intros [Hs Hm] Hi Hf. apply remove_all_good; [by apply shape_on_task|done|apply masks_but_on_task; [done..|by apply masks_weaken]|].
  rewrite task_on_task by (apply Hs || done). by rewrite Z.eqb_refl.
Qed.

Lemma current_range s me : shape s -> 0 <= me < 64 -> 0 <= current s me < 32.
Proof.
  intros (_ & _ & _ & Hl & Hf & _) Hme. unfold current, aget. destruct (cpu_current s !! Z.to_nat me) as [i|] eqn:E; [exact (Forall_lookup_1 _ _ _ _ Hf E)|]. apply lookup_ge_None in E. lia.
Qed.

Lemma sched_cpu_range c : 0 <= sched_cpu c < 64.
Proof. unfold sched_cpu, SMP_MAX_CPUS. split_ifs; lia. Qed.

(** The check in front of a pick succeeds. *)
Lemma verify_good s : good s -> rq_verify_locked s = true.
Proof.
  intros [Hs Hm]. unfold rq_verify_locked.
  assert (Hin : forall c, 0 <= c < 64 -> for_ 0 RIX_MAX_TASKS (fun i (_ : unit) => if Bool.eqb (rq_contains_locked (Some (rq s c)) i) (claimable s c i) then inl tt else inr tt) tt = inl tt).
  { intros c Hc. match goal with |- ?x = _ => pose proof (for_inv (R := unit) (fun _ _ => True) (fun _ => False) 0 32 (fun i (_ : unit) => if Bool.eqb (rq_contains_locked (Some (rq s c)) i) (claimable s c i) then inl tt else inr tt) tt ltac:(lia) I) as H end.
    unfold RIX_MAX_TASKS. destruct (for_ 0 32 _ tt) as [[]|]; [done|]. exfalso. apply H. intros i [] Hi _.
    rewrite contains_testbit by (lia || (apply rq_wf_mask, rq_good; done)). rewrite (proj2 (Z.ltb_lt i 32)) by lia. cbn [andb]. rewrite Hm by (done || lia). by rewrite eqb_reflx. }
  match goal with |- match for_ _ _ ?b _ with _ => _ end = _ => pose proof (for_inv (R := unit) (fun _ _ => True) (fun _ => False) 0 64 b tt ltac:(lia) I) as H end.
  unfold SMP_MAX_CPUS. destruct (for_ 0 64 _ tt) as [[]|]; [done|]. exfalso. apply H. intros c [] Hc _. by rewrite Hin by lia.
Qed.

(** ** Picks *)

Lemma himask_nonneg s : 0 <= himask s.
Proof.
  unfold himask. refine (for_all_inv (fun _ h => 0 <= h) 0 RIX_MAX_TASKS _ 0 _ _ _); [done..|]. intros i h Hi Hh. case_if; [|done].
  apply Z.lor_nonneg. split; [done|]. apply Z.shiftl_nonneg. lia.
Qed.

Lemma claimable_high s me i : 32 <= i -> claimable s me i = false.
Proof. intros Hi. unfold claimable, rq_eligible, RIX_MAX_TASKS. rewrite (proj2 (Z.leb_le 32 i)) by lia. by rewrite andb_false_r. Qed.

Lemma pick_own_spec s me h : good s -> 0 <= me < 64 -> 0 <= h ->
  exists r q, pick_own me h s = (r, q) /\ rq_wf q /\ mask q = mask (rq s me) /\
  match r with Some i => 0 <= i < 32 /\ claimable s me i = true | None => forall i, 0 <= i -> claimable s me i = false end.
Proof.
  intros [Hs Hm] Hme Hh. pose proof (rq_good s me Hs Hme) as Hq. unfold pick_own.
  match goal with |- context [for_ 0 RIX_MAX_TASKS ?b ?x] => pose proof (for_inv (fun k q => k = 0 /\ q = rq s me)
    (fun '(r, q) => rq_wf q /\ mask q = mask (rq s me) /\ match r with Some i => 0 <= i < 32 /\ claimable s me i = true | None => forall i, 0 <= i -> claimable s me i = false end) 0 32 b x ltac:(lia) ltac:(done)) as H end.
  unfold RIX_MAX_TASKS. match type of H with ?A -> _ => assert (Hstep : A) end.
  { clear H. intros k q0 Hk [-> ->]. unfold rq_pick. destruct (decide (mask (rq s me) = 0)) as [E|E].
    - unfold rq_pick_locked. rewrite E. cbn. split; [done|]. split; [done|]. intros i Hi. destruct (decide (i < 32)); [|apply claimable_high; lia]. rewrite <- Hm by lia. by rewrite E, Z.testbit_0_l.
    - destruct (rq_pick_spec (rq s me) h Hq E Hh) as (i & q' & -> & Hq' & Em & Hb & _). cbn [default id]. pose proof (pow2_testbit_range _ _ (rq_wf_mask _ Hq) Hb) as Hi.
      rewrite (proj2 (Z.ltb_ge i 0)) by lia. rewrite Hm in Hb by lia. rewrite Hb. rewrite Em. done. }
  specialize (H Hstep). destruct (for_ 0 32 _ _) as [q|[r q]]; [lia|]. exists r, q. done.
Qed.

Lemma pick_stolen_none s me h : (forall i, 0 <= i -> claimable s me i = false) -> pick_stolen me h s = None.
Proof.
  intros Hc. unfold pick_stolen.
  match goal with |- context [for_ 0 RIX_MAX_TASKS ?b ?x] => pose proof (for_inv (fun _ _ => True) (fun r => r = None) 0 32 b x ltac:(lia) I) as H end.
  unfold RIX_MAX_TASKS in *. destruct (for_ 0 32 _ _) as [q|r]; [done|]. apply H. intros k q Hk _. destruct (rq_pick q h) as [pi q']. destruct (Z.ltb_spec pi 0); [done|]. by rewrite Hc.
Qed.

Lemma with_rq_good s me q : good s -> 0 <= me < 64 -> rq_wf q -> mask q = mask (rq s me) -> good (with_cpu_rq (aset me q (cpu_rq s)) s).
Proof.
  intros [(H1 & H2 & H3 & H4) Hm] Hme Hq E. split.
  - split; [done|]. split; [cbn; by rewrite length_aset|]. split; [by apply Forall_insert|done].
  - intros i Hi c Hc. rewrite (claimable_tasks s) by done. rewrite <- Hm by done. unfold rq. cbn [with_cpu_rq cpu_rq]. destruct (decide (c = me)) as [->|Hne].
    + rewrite aget_aset_eq by lia. by rewrite E.
    + by rewrite aget_aset_ne by lia.
Qed.

Lemma sched_pick_spec s me old : good s -> 0 <= me < 64 ->
  exists n qs, sched_pick_locked me old s = (n, with_cpu_rq qs s) /\ good (with_cpu_rq qs s) /\
  ((0 <= n < 32 /\ claimable s me n = true) \/ (n = old /\ forall i, 0 <= i -> claimable s me i = false)).
Proof.
  intros Hg Hme. unfold sched_pick_locked, SMP_MAX_CPUS. rewrite (proj2 (Z.leb_gt 64 me)) by lia.
  destruct (pick_own_spec s me (himask s) Hg Hme (himask_nonneg s)) as (r & q & -> & Hq & Em & Hr).
  pose proof (with_rq_good s me q Hg Hme Hq Em) as Hg'. destruct r as [i|]; [eexists _, _; split; [done|]; split; [done|by left]|].
  rewrite pick_stolen_none. 2: { intros i Hi. rewrite (claimable_tasks s) by done. by apply Hr. }
  case_if; eexists _, _; (split; [done|]; split; [done|by right]).
Qed.

(** ** What most operations leave alone

    [tame s s']: the saved contexts, the registers and the current slots are the same,
    no slot has come into use and none has been opened to other CPUs. *)

Definition slot_tame (t t' : rix_task_t) : Prop :=
  rsp t' = rsp t /\ fpu t' = fpu t /\ ap_ok t' = ap_ok t /\ (free_task t = true -> free_task t' = true).
Definition tame_slots (s s' : scheduler) : Prop :=
  cpu_rsp s' = cpu_rsp s /\ cpu_fpu s' = cpu_fpu s /\ fpu_template s' = fpu_template s /\ cpu_idle_valid s' = cpu_idle_valid s /\
  forall i, 0 <= i < 32 -> slot_tame (task s i) (task s' i).
Definition tame (s s' : scheduler) : Prop := cpu_current s' = cpu_current s /\ tame_slots s s'.

#[export] Instance tame_slots_preorder : PreOrder tame_slots.
Proof.
  split; [intros s; by repeat split|]. intros s1 s2 s3 (A1 & A2 & A3 & A5 & A4) (B1 & B2 & B3 & B5 & B4). do 4 (split; [congruence|]).
  intros i Hi. destruct (A4 i Hi) as (C1 & C2 & C3 & C4), (B4 i Hi) as (D1 & D2 & D3 & D4). split; [congruence|]. split; [congruence|]. split; [congruence|auto].
Qed.
#[export] Instance tame_preorder : PreOrder tame.
Proof. split; [intros s; split; [done|reflexivity]|]. intros s1 s2 s3 [A1 A2] [B1 B2]. split; [congruence|by transitivity s2]. Qed.

Lemma slots_on_task s i f : shape s -> 0 <= i < 32 -> slot_tame (task s i) (f (task s i)) -> tame_slots s (on_task i f s).
Proof.
  intros Hs Hi Hf. do 4 (split; [done|]). intros j Hj. rewrite task_on_task by (apply Hs || done). destruct (Z.eqb_spec j i) as [->|]; [done|]. by repeat split.
Qed.
Lemma tame_on_task s i f : shape s -> 0 <= i < 32 -> slot_tame (task s i) (f (task s i)) -> tame s (on_task i f s).
Proof. intros Hs Hi Hf. split; [done|by apply slots_on_task]. Qed.

Lemma tame_fields s s' : tasks s' = tasks s -> cpu_current s' = cpu_current s -> cpu_rsp s' = cpu_rsp s -> cpu_fpu s' = cpu_fpu s -> fpu_template s' = fpu_template s -> cpu_idle_valid s' = cpu_idle_valid s -> tame s s'.
Proof. intros E1 E2 E3 E4 E5 E6. split; [done|]. do 4 (split; [done|]). intros i _. unfold task. rewrite E1. by repeat split. Qed.

(** A state change that does not free a slot's neighbours: from any state that is not free. *)
Lemma slot_tame_live t t' : rsp t' = rsp t -> fpu t' = fpu t -> ap_ok t' = ap_ok t -> free_task t = false -> slot_tame t t'.
Proof. intros E1 E2 E3 E4. split; [done|]. split; [done|]. split; [done|]. by rewrite E4. Qed.

(** ** Operations

    [keeps m]: started in a good state, the computation returns in a good state,
    leaves the CPU and the lock as they were and is tame. *)

Definition keeps {A} (m : M (cpu * scheduler) A) : Prop := forall c s, good s ->
  exists a s', m (c, s) = Some (a, (c, s')) /\ good s' /\ sched_lock s' = sched_lock s /\ tame s s'.

(** The fields the invariant speaks of. *)
Lemma good_fields s s' : tasks s' = tasks s -> cpu_rq s' = cpu_rq s -> cpu_current s' = cpu_current s -> queues s' = queues s -> good s -> good s'.
Proof.
  intros E1 E2 E3 E4 [(H1 & H2 & H3 & H4 & H5 & H6) Hm]. split; [unfold shape; by rewrite E1, E2, E3, E4|].
  intros i Hi c Hc. rewrite (claimable_tasks s) by done. unfold rq. rewrite E2. by apply Hm.
Qed.

Lemma locked_section_keeps {A} (m : M (cpu * scheduler) A) c s : sched_ok s -> keeps m ->
  exists a s', locked_section m (c, s) = Some (a, (c, s')) /\ sched_ok s' /\ tame s s'.
Proof.
  intros [Hg Hl] Hk. destruct (Hk (set_rflags (Z.clearbit (rflags c) IF_BIT) c) (with_guard spin_held s)) as (a & s' & E & Hg' & _ & Ht); [by apply (good_fields s)|].
  exists a, (with_guard spin_free s'). split; [by apply locked_section_run|]. split; [split; [by apply (good_fields s')|done]|exact Ht].
Qed.

Lemma pure_keeps {A} (f : cpu -> scheduler -> A * scheduler) :
  (forall c s, good s -> good (f c s).2 /\ sched_lock (f c s).2 = sched_lock s /\ tame s (f c s).2) -> keeps (fun '(c, s) => let '(r, s') := f c s in Some (r, (c, s'))).
Proof. intros H c s Hg. destruct (H c s Hg) as [H1 H2]. destruct (f c s) as [r s'] eqn:E. by exists r, s'. Qed.

Lemma on_task_lock i f s : sched_lock (on_task i f s) = sched_lock s.
Proof. done. Qed.

Lemma find_task_range id s i : find_task id s = Some i -> 1 <= i < 32.
Proof.
  unfold find_task, RIX_MAX_TASKS. intros H.
  destruct (for_first (fun i => (task_id (task s i) =? id) && negb (in_state (task_state (task s i)) TASK_UNUSED)) (fun i (_ : unit) => if (task_id (task s i) =? id) && negb (in_state (task_state (task s i)) TASK_UNUSED) then inr i else inl tt) 1 (32 - 1)) as [[E _]|(k & E & Hk & _)]; [done|..].
  - rewrite E in H. done.
  - rewrite E in H. injection H as <-. lia.
Qed.

Lemma resync_lock i s : sched_lock (rq_resync_locked i s) = sched_lock s.
Proof. unfold rq_resync_locked. by case_if. Qed.

Lemma retag_good s i f : good s -> 0 <= i < 32 -> good (rq_resync_locked i (on_task i f s)).
Proof. intros [Hs Hm] Hi. apply resync_good; [by apply shape_on_task|done|]. apply masks_but_on_task; [done..|by apply masks_weaken]. Qed.

(** [ok m]: the exported call, started between operations. *)
Definition ok {A} (m : M (cpu * scheduler) A) : Prop := forall c s, sched_ok s -> exists a s', m (c, s) = Some (a, (c, s')) /\ sched_ok s' /\ tame s s'.

Lemma ok_ret {A} (a : A) : ok (mret a).
Proof. intros c s H. exists a, s. split; [done|]. split; [done|reflexivity]. Qed.

Lemma ok_locked {A} (f : cpu -> scheduler -> A * scheduler) : (forall c s, good s -> good (f c s).2 /\ sched_lock (f c s).2 = sched_lock s /\ tame s (f c s).2) -> ok (locked f).
Proof. intros H c s Hok. apply locked_section_keeps; [done|by apply pure_keeps]. Qed.

Lemma ok_bind {A B} (m : M (cpu * scheduler) A) (k : A -> M (cpu * scheduler) B) : ok m -> (forall a, ok (k a)) -> ok (m ≫= k).
Proof.
  intros Hm Hk c s Hok. destruct (Hm c s Hok) as (a & s' & E & Hok' & Ht). destruct (Hk a c s' Hok') as (b & s'' & E' & H & Ht'). exists b, s''.
  rewrite (bind_Some _ _ _ a (c, s')) by done. split; [done|]. split; [done|by transitivity s'].
Qed.

Lemma ok_modify (f : cpu -> scheduler -> scheduler) : (forall c s, sched_ok s -> sched_ok (f c s) /\ tame s (f c s)) -> ok (modify (fun '(c, s) => (c, f c s))).
Proof. intros H c s Hok. exists tt, (f c s). split; [done|by apply H]. Qed.

Lemma resync_fields i s : tasks (rq_resync_locked i s) = tasks s /\ cpu_current (rq_resync_locked i s) = cpu_current s /\
  cpu_rsp (rq_resync_locked i s) = cpu_rsp s /\ cpu_fpu (rq_resync_locked i s) = cpu_fpu s /\ fpu_template (rq_resync_locked i s) = fpu_template s /\
  cpu_idle_valid (rq_resync_locked i s) = cpu_idle_valid s.
Proof. unfold rq_resync_locked. by case_if. Qed.

Lemma resync_tame i s : tame s (rq_resync_locked i s).
Proof. destruct (resync_fields i s) as (E1 & E2 & E3 & E4 & E5 & E6). by apply tame_fields. Qed.

(** Opening a task to all CPUs is the one call that is not tame. *)
Lemma allow_ap_run id c s : sched_ok s -> exists a s', scheduler_task_allow_ap id (c, s) = Some (a, (c, s')) /\ sched_ok s'.
Proof.
  intros [Hg Hl]. unfold scheduler_task_allow_ap. case_if; [by exists (-1), s|]. rewrite locked_run by done.
  set (sl := with_guard spin_held s). assert (Hgl : good sl) by by apply (good_fields s). destruct (find_task id sl) as [i|] eqn:Ef.
  2: { eexists _, _. split; [done|]. split; [by apply (good_fields s)|done]. }
  apply find_task_range in Ef. case_if; eexists _, _; (split; [done|]; split; [|done]).
  - apply (good_fields (rq_resync_locked i (on_task i (set_ap_ok 1) sl))); [done..|]. apply retag_good; [done|lia].
  - by apply (good_fields s).
Qed.

Lemma set_affinity_ok id m : ok (scheduler_set_affinity id m).
Proof.
  unfold scheduler_set_affinity. case_if; [apply ok_ret|]. case_if; [apply ok_ret|]. apply ok_locked. intros c s Hg.
  destruct (find_task id s) as [i|] eqn:Ef; [|done]. apply find_task_range in Ef. cbv zeta. destruct (negb _); [done|]. cbn [snd]. rewrite resync_lock. split; [apply retag_good; [done|lia]|]. split; [done|].
  etransitivity; [|apply resync_tame]. apply tame_on_task; [apply Hg|lia|done].
Qed.

Lemma set_priority_ok id level : ok (scheduler_set_priority id level).
Proof.
  unfold scheduler_set_priority. case_if; [apply ok_ret|]. apply ok_locked. intros c s Hg. destruct (find_task id s) as [i|] eqn:Ef; [|done]. apply find_task_range in Ef.
  case_if; [done|]. split; [apply good_on_task; [lia|done..]|]. split; [done|]. apply tame_on_task; [apply Hg|lia|done].
Qed.

(** Changes outside the fields of the invariant. *)
Lemma sched_ok_fields s s' : tasks s' = tasks s -> cpu_rq s' = cpu_rq s -> cpu_current s' = cpu_current s -> queues s' = queues s -> sched_lock s' = sched_lock s -> sched_ok s -> sched_ok s'.
Proof. intros E1 E2 E3 E4 E5 [Hg Hl]. split; [by apply (good_fields s)|congruence]. Qed.

Definition same_core (s s' : scheduler) : Prop :=
  (tasks s' = tasks s /\ cpu_rq s' = cpu_rq s /\ cpu_current s' = cpu_current s /\ queues s' = queues s /\ sched_lock s' = sched_lock s) /\
  (cpu_rsp s' = cpu_rsp s /\ cpu_fpu s' = cpu_fpu s /\ fpu_template s' = fpu_template s /\ cpu_idle_valid s' = cpu_idle_valid s).

Lemma same_core_refl s : same_core s s.
Proof. done. Qed.
Lemma same_core_trans s1 s2 s3 : same_core s1 s2 -> same_core s2 s3 -> same_core s1 s3.
Proof. unfold same_core. intros ((A1 & A2 & A3 & A4 & A5) & A6 & A7 & A8 & A9) ((B1 & B2 & B3 & B4 & B5) & B6 & B7 & B8 & B9). by rewrite B1, B2, B3, B4, B5, B6, B7, B8, B9. Qed.
Lemma same_core_ok s s' : same_core s s' -> sched_ok s -> sched_ok s' /\ tame s s'.
Proof. intros ((E1 & E2 & E3 & E4 & E5) & E6 & E7 & E8 & E9) H. split; [by apply (sched_ok_fields s)|by apply tame_fields]. Qed.

Lemma arm_core c b s : same_core s (preempt_arm_cpu c b s).
Proof. unfold preempt_arm_cpu. case_if; [done|]. case_if; [done|]. by destruct b. Qed.

Lemma quantum_core c b s : same_core s (quantum_tick c b s).
Proof. unfold quantum_tick. cbv zeta. match goal with |- same_core _ (if ?x then _ else _) => destruct x end; [done|]. eapply same_core_trans; [|apply arm_core]. done. Qed.

Lemma preempt_tick_core n on c s : same_core s (scheduler_preempt_tick n on c s).
Proof.
  unfold scheduler_preempt_tick. cbv zeta. case_if; [done|]. pose proof (quantum_core (sched_cpu c) false s) as Hq. case_if; [done|]. case_if; [done|].
  apply (for_all_inv (fun (_ : Z) s' => same_core s s') 0 SMP_MAX_CPUS); [done|done|]. intros k s' Hk H. case_if; [done|]. eapply same_core_trans; [done|apply quantum_core].
Qed.

Lemma should_yield_core c s : same_core s (scheduler_should_yield_from_irq c s).2.
Proof. unfold scheduler_should_yield_from_irq. cbv zeta. do 4 (case_if; [done|]). done. Qed.

(** ** Waiting *)

(** A call on a queue returns and leaves the queue's lock free. *)
Definition wq_call {A} (m : M (cpu * option rix_waitqueue_t) A) : Prop :=
  (forall c q, wq_lock q = spin_free -> exists r q', m (c, Some q) = Some (r, (c, Some q')) /\ wq_lock q' = spin_free) /\
  (forall c, exists r, m (c, None) = Some (r, (c, None))).

Lemma null_check_call {A} (d : A) (body : cpu -> rix_waitqueue_t -> A * rix_waitqueue_t) : wq_call (null_check d (locked body)).
Proof.
  split; [|by eexists]. intros c q Hq. unfold null_check. rewrite locked_run by done. destruct (body _ _) as [r q']. by exists r, (with_guard spin_free q').
Qed.

Lemma wake_all_call : wq_call rix_waitqueue_wake_all.
Proof. apply null_check_call. Qed.
Lemma prepare_call id : wq_call (rix_waitqueue_prepare id true).
Proof. apply null_check_call. Qed.
Lemma take_call h : wq_call (rix_waitqueue_take_wakeup h).
Proof. apply null_check_call. Qed.
Lemma remove_call h : wq_call (rix_waitqueue_remove h).
Proof. apply null_check_call. Qed.

Lemma on_queue_run {A} p (m : M (cpu * option rix_waitqueue_t) A) c s : wq_call m -> shape s ->
  exists a qs, on_queue p m (c, s) = Some (a, (c, with_queues qs s)) /\ shape (with_queues qs s).
Proof.
  intros [Hs Hn] (H1 & H2 & H3 & H4 & H5 & H6). unfold on_queue. destruct (queues s !! p) as [q|] eqn:E.
  - destruct (Hs c q) as (r & q' & -> & Hq'); [by eapply (map_Forall_lookup_1 (fun _ q => wq_lock q = spin_free))|]. exists r, (<[p := q']> (queues s)). split; [done|].
    do 5 (split; [done|]). by apply map_Forall_insert_2.
  - destruct (Hn c) as (r & ->). exists r, (queues s). split; [by destruct s|done].
Qed.

Lemma bind_wait_good i p h s : 0 <= i < 32 -> good s -> good (bind_wait i p h s).
Proof. intros Hi Hg. by apply good_on_task. Qed.

(** What [task_drop_waiter] leaves of a task. *)
Definition unbound (t : rix_task_t) : rix_task_t := if wait_wq t =? 0 then t else set_wait_handle no_handle (set_wait_wq 0 t).

Lemma on_task_id i s : length (tasks s) = 32%nat -> 0 <= i < 32 -> on_task i (fun t => t) s = s.
Proof.
  intros Hl Hi. unfold on_task, with_tasks. destruct s; cbn in *. f_equal. apply list_insert_id. unfold task, aget. cbn. destruct (_ !! _) eqn:E; [done|]. apply lookup_ge_None in E. lia.
Qed.

Lemma drop_waiter_run i c s : 0 <= i < 32 -> shape s ->
  exists qs, task_drop_waiter i (c, s) = Some (tt, (c, on_task i unbound (with_queues qs s))) /\ shape (with_queues qs s).
Proof.
  intros Hi Hs. unfold task_drop_waiter. destruct (wait_wq (task s i) =? 0) eqn:E.
  - exists (queues s). split; [|done]. replace (with_queues (queues s) s) with s by by destruct s. do 3 f_equal. rewrite <- (on_task_id i s) at 1 by (apply Hs || done).
    unfold on_task, unbound. by rewrite E.
  - destruct (on_queue_run (wait_wq (task s i)) (rix_waitqueue_remove (wait_handle (task s i))) c s (remove_call _) Hs) as (a & qs & Eq & Hs'). rewrite Eq.
    exists qs. split; [|done]. unfold bind_wait, on_task, unbound, task in *. cbn [with_queues tasks] in *. by rewrite E.
Qed.

Lemma unbound_tame t : slot_tame t (unbound t).
Proof. unfold unbound. case_if; by repeat split. Qed.

Lemma unbound_view t : claim_view (unbound t) = claim_view t.
Proof. unfold unbound. by case_if. Qed.

Lemma queues_good s qs : good s -> shape (with_queues qs s) -> good (with_queues qs s).
Proof. intros [Hs Hm] Hs'. by split. Qed.

Lemma wait_prepare_ok wq : ok (scheduler_wait_prepare wq).
Proof.
  unfold scheduler_wait_prepare. case_if; [apply ok_ret|]. intros c0 s0 Hok. apply locked_section_keeps; [done|]. intros c s Hg. pose proof (current_range s (sched_cpu c) (proj1 Hg) (sched_cpu_range c)) as Hi.
  case_if; [by eexists _, s|]. destruct (on_queue_run wq (rix_waitqueue_prepare (task_id (task s (current s (sched_cpu c)))) true) c s (prepare_call _) (proj1 Hg)) as ([rc h] & qs & -> & Hs'). pose proof (queues_good s qs Hg Hs') as Hg'.
  assert (Ht : tame s (with_queues qs s)) by by apply tame_fields.
  destruct rc; [destruct h as [h|]|..]; try by eexists _, _. eexists _, _. split; [done|]. split; [by apply bind_wait_good|]. split; [done|].
  etransitivity; [exact Ht|]. by apply tame_on_task.
Qed.

Lemma block_ok : ok scheduler_block_current.
Proof.
  apply ok_locked. intros c s Hg. pose proof (current_range s (sched_cpu c) (proj1 Hg) (sched_cpu_range c)) as Hi. cbv zeta. cbn [snd].
  destruct (task_state (task s (current s (sched_cpu c)))) eqn:E.
  1, 4, 5: split; [apply remove_all_good; [apply Hg|done|apply masks_weaken, Hg|congruence]|]; split; [done|]; by apply tame_fields.
  all: split; [by apply make_idle|]; split; [done|]; (etransitivity; [apply (tame_on_task s (current s (sched_cpu c)))|by apply tame_fields]); [apply Hg|done|];
    apply slot_tame_live; [done..|]; unfold free_task; by rewrite E.
Qed.

Lemma wait_take_ok : ok scheduler_wait_take.
Proof.
  intros c s [Hg Hl]. unfold scheduler_wait_take. pose proof (current_range s (sched_cpu c) (proj1 Hg) (sched_cpu_range c)) as Hi. cbv zeta. case_if; [by exists 1, s; split; [|split; [|reflexivity]]|].
  destruct (on_queue_run (wait_wq (task s (current s (sched_cpu c)))) (rix_waitqueue_take_wakeup (wait_handle (task s (current s (sched_cpu c))))) c s (take_call _) (proj1 Hg)) as (rc & qs & -> & Hs').
  destruct (drop_waiter_run (current s (sched_cpu c)) c _ Hi Hs') as (qs' & -> & Hs''). eexists _, _. split; [done|]. split; [split; [|done]|].
  - apply good_on_task; [done|apply unbound_view|]. by apply queues_good; [apply queues_good|].
  - etransitivity; [|apply tame_on_task; [apply Hs''|done|apply unbound_tame]]. by apply tame_fields.
Qed.

Lemma wait_abort_ok : ok scheduler_wait_abort.
Proof.
  intros c0 s0 Hok. apply locked_section_keeps; [done|]. intros c s Hg. pose proof (current_range s (sched_cpu c) (proj1 Hg) (sched_cpu_range c)) as Hi. cbv zeta.
  destruct (drop_waiter_run (current s (sched_cpu c)) c s Hi (proj1 Hg)) as (qs & -> & Hs').
  pose proof (good_on_task _ (current s (sched_cpu c)) unbound Hi (unbound_view _) (queues_good s qs Hg Hs')) as Hg'. assert (Ht : tame s (on_task (current s (sched_cpu c)) unbound (with_queues qs s))).
  { etransitivity; [|apply tame_on_task; [apply Hs'|done|apply unbound_tame]]. by apply tame_fields. }
  eexists _, _. split; [done|]. destruct (in_state _ _) eqn:E; [|done]. unfold in_state in E. bool_to_prop.
  split; [apply make_runnable; [done..| |done]; congruence|]. split; [done|]. etransitivity; [exact Ht|].
  etransitivity; [apply (tame_on_task _ (current s (sched_cpu c)) (set_task_state TASK_RUNNABLE)); [apply Hg'|done|]|by apply tame_fields].
  apply slot_tame_live; [done..|]. unfold free_task. by rewrite E.
Qed.

Lemma wake_tasks_good f s : good s -> good (wake_tasks f s).2 /\ sched_lock (wake_tasks f s).2 = sched_lock s /\ tame s (wake_tasks f s).2.
Proof.
  intros Hg. unfold wake_tasks.
  apply (for_all_inv (fun (_ : Z) (x : bool * scheduler) => good x.2 /\ sched_lock x.2 = sched_lock s /\ tame s x.2) 0 RIX_MAX_TASKS); [done|by split; [|split; [|reflexivity]]|].
  intros i [ap s'] Hi (Hg' & Hl & Ht). cbn [snd] in *. destruct (_ && _) eqn:E; [|done]. apply andb_true_iff in E as [E _]. unfold in_state in E. bool_to_prop. unfold RIX_MAX_TASKS in Hi.
  split; [apply make_runnable; [done|lia|congruence|done]|]. split; [done|]. etransitivity; [exact Ht|]. etransitivity; [apply (tame_on_task s' i (set_task_state TASK_RUNNABLE)); [apply Hg'|lia|]|by apply tame_fields].
  apply slot_tame_live; [done..|]. unfold free_task. by rewrite E.
Qed.

Lemma wake_and_kick_ok f : ok (wake_and_kick f).
Proof.
  unfold wake_and_kick. apply ok_bind; [apply ok_locked; intros c s; apply wake_tasks_good|]. intros ap. apply (ok_modify (fun _ s => if ap : bool then send_ipi WakeupAps s else s)).
  intros c s Hok. destruct ap; [|split; [done|reflexivity]]. split; [by apply (sched_ok_fields s)|by apply tame_fields].
Qed.

Lemma wake_queue_ok wq : ok (scheduler_wake_queue wq).
Proof.
  unfold scheduler_wake_queue. case_if; [apply ok_ret|]. apply ok_bind; [|intros _; apply wake_and_kick_ok]. intros c s [Hg Hl].
  destruct (on_queue_run wq rix_waitqueue_wake_all c s wake_all_call (proj1 Hg)) as (a & qs & -> & Hs'). eexists _, _. split; [done|]. split; [split; [by apply queues_good|done]|by apply tame_fields].
Qed.

(** ** Birth and death *)

(** Exact except possibly for one slot. *)
Definition near (i : Z) (s : scheduler) : Prop := shape s /\ masks_but i s.

Lemma good_near i s : good s -> near i s.
Proof. intros [Hs Hm]. split; [done|by apply masks_weaken]. Qed.
Lemma near_on_task i f s : 0 <= i < 32 -> near i s -> near i (on_task i f s).
Proof. intros Hi [Hs Hm]. split; [by apply shape_on_task|by apply masks_but_on_task]. Qed.
Lemma near_fields i s s' : tasks s' = tasks s -> cpu_rq s' = cpu_rq s -> cpu_current s' = cpu_current s -> queues s' = queues s -> near i s -> near i s'.
Proof.
  intros E1 E2 E3 E4 [Hs Hm]. split; [unfold shape in *; by rewrite E1, E2, E3, E4|]. intros j Hj Hne c Hc. rewrite (claimable_tasks s) by done. unfold rq. rewrite E2. by apply Hm.
Qed.

Lemma task_on_same s i f : shape s -> 0 <= i < 32 -> task (on_task i f s) i = f (task s i).
Proof. intros Hs Hi. rewrite task_on_task by (apply Hs || done). by rewrite Z.eqb_refl. Qed.

Lemma unbound_state t : task_state (unbound t) = task_state t.
Proof. unfold unbound. by case_if. Qed.

(** What [task_mark_dead_locked] does: the task is dead, holds no thread and no waiter. *)
Definition buried (now : Z) (t : rix_task_t) : rix_task_t :=
  set_task_tid 0 (unbound (set_task_state TASK_DEAD (if in_state (task_state t) TASK_RUNNING then set_run_ticks (u64 (run_ticks t + (now - stamp t))) t else t))).

Lemma on_task_twice i f g s : shape s -> 0 <= i < 32 -> on_task i g (on_task i f s) = on_task i (fun t => g (f t)) s.
Proof.
  intros Hs Hi. unfold on_task at 1. rewrite task_on_same by done. unfold on_task, with_tasks. cbn. unfold aset. by rewrite list_insert_insert_eq.
Qed.

Lemma set_task_tid_same t : task_tid t = 0 -> set_task_tid 0 t = t.
Proof. destruct t. cbn. by intros ->. Qed.

Lemma mark_dead_run i c s : 0 <= i < 32 -> shape s -> exists qs,
  task_mark_dead_locked i (c, s) = Some (tt, (c, rq_remove_all_locked i (on_task i (buried (ticks s))
    (with_thread_tab (if truthy (task_tid (task s i)) then thread_free_locked (task_tid (task s i)) (thread_tab s) else thread_tab s) (with_queues qs s))))) /\
  shape (with_queues qs s).
Proof.
  intros Hi Hs. unfold task_mark_dead_locked. cbv zeta. set (t := task s i).
  set (f := fun t => set_task_state TASK_DEAD (if in_state (task_state t) TASK_RUNNING then set_run_ticks (u64 (run_ticks t + (ticks s - stamp t))) t else t)).
  assert (E : on_task i (set_task_state TASK_DEAD) (if in_state (task_state t) TASK_RUNNING then on_task i (set_run_ticks (u64 (run_ticks t + (ticks s - stamp t)))) s else s) = on_task i f s).
  { unfold f. destruct (in_state (task_state t) TASK_RUNNING) eqn:Et; [rewrite on_task_twice by done|]; unfold on_task; fold t; by rewrite Et. }
  rewrite E. clear E. destruct (drop_waiter_run i c (on_task i f s) Hi (shape_on_task _ _ _ Hs)) as (qs & -> & Hs'). exists qs.
  assert (Eq : on_task i unbound (with_queues qs (on_task i f s)) = on_task i (fun t => unbound (f t)) (with_queues qs s)).
  { change (with_queues qs (on_task i f s)) with (on_task i f (with_queues qs s)). apply on_task_twice; [|done]. split; [apply Hs|apply Hs']. }
  rewrite Eq. clear Eq. assert (Hs2 : shape (with_queues qs s)) by (split; [apply Hs|apply Hs']). split; [|done]. rewrite task_on_same by done.
  assert (Etid : task_tid (unbound (f (task (with_queues qs s) i))) = task_tid t) by (unfold unbound, f; by repeat case_if). rewrite Etid.
  destruct (truthy (task_tid t)) eqn:Ez.
  - match goal with |- context [with_thread_tab ?x (on_task i ?g ?y)] => change (with_thread_tab x (on_task i g y)) with (on_task i g (with_thread_tab x y)) end.
    rewrite on_task_twice; [done| |done]. exact Hs2.
  - unfold truthy in Ez. apply negb_false_iff in Ez. bool_to_prop. replace (with_thread_tab (thread_tab s) (with_queues qs s)) with (with_queues qs s) by by destruct s.
    assert (Eb : buried (ticks s) (task (with_queues qs s) i) = unbound (f (task (with_queues qs s) i))) by (apply set_task_tid_same; by rewrite Etid).
    unfold on_task. by rewrite Eb.
Qed.

Lemma buried_state now t : task_state (buried now t) = TASK_DEAD.
Proof. unfold buried. cbn [set_task_tid task_state]. rewrite unbound_state. done. Qed.

Lemma buried_tame now t : slot_tame t (buried now t).
Proof.
  unfold slot_tame, free_task. rewrite buried_state. unfold buried, unbound. cbn [set_task_tid rsp fpu ap_ok].
  repeat case_if; cbn; by repeat split.
Qed.

Lemma mark_dead_keeps i : 0 <= i < 32 -> keeps (task_mark_dead_locked i).
Proof.
  intros Hi c s Hg. destruct (mark_dead_run i c s Hi (proj1 Hg)) as (qs & -> & Hs'). eexists _, _. split; [done|].
  set (s1 := with_thread_tab _ _). assert (Hg1 : good s1) by (apply (good_fields (with_queues qs s)); [done..|by apply queues_good]).
  split; [apply make_idle; [done..|by rewrite buried_state]|]. split; [done|]. transitivity s1; [by apply tame_fields|].
  etransitivity; [apply (tame_on_task s1 i (buried (ticks s))); [apply Hg1|done|apply buried_tame]|by apply tame_fields].
Qed.

Lemma task_alloc_spec s : match task_alloc s with
  | None => forall i, 1 <= i < 32 -> free_task (task s i) = false
  | Some (i, s') => 1 <= i < 32 /\ free_task (task s i) = true /\ s' = on_task i recycled s
  end.
Proof.
  unfold task_alloc, RIX_MAX_TASKS.
  destruct (for_first (fun i => free_task (task s i)) (fun i (_ : unit) => if free_task (task s i) then inr i else inl tt) 1 (32 - 1)) as [[-> H]|(i & -> & Hi & H)]; [done| |].
  - intros i Hi. apply H. lia.
  - split; [lia|done].
Qed.

Lemma free_not_runnable t : free_task t = true -> task_state t <> TASK_RUNNABLE.
Proof. unfold free_task, in_state. intros H E. by rewrite E in H. Qed.

(** A task just filled in, before it has a thread. *)
Definition newborn (template : list Z) (id sp : Z) (fill : rix_task_t -> rix_task_t) (t : rix_task_t) : rix_task_t :=
  set_fpu template (set_rsp sp (set_stack_frame (replicate 6 0 ++ [task_bootstrap_addr; 0]) (set_ap_ok 0 (set_task_state TASK_RUNNABLE (fill (set_task_id id (recycled t))))))).
Definition top_of (i : Z) : Z := Z.land (stack_of i + RIX_STACK_SIZE) (not64 0xF) - 64.

Lemma take_id_spec s : exists id n, take_id s = (id, with_next_id n s).
Proof. unfold take_id. cbv zeta. case_if; eexists _, _; by f_equal. Qed.

(** What creation does, branch by branch. *)
Lemma create_locked_run view full fill s : shape s ->
  (create_locked view full fill s = ((full, None), s) /\ forall i, 1 <= i < 32 -> free_task (task s i) = false) \/
  exists i id n, 1 <= i < 32 /\ free_task (task s i) = true /\
    let s1 := on_task i (newborn (fpu_template s) id (top_of i) fill) (with_next_id n s) in
    let '(r, tid, tab) := thread_alloc_locked (fun pid => view_state <$> view pid) (process_pid (task s1 i)) true (thread_tab s) in
    create_locked view full fill s = match r, tid with
    | 0, Some tid => ((0, Some id), rq_add_eligible_locked i (on_task i (set_task_tid tid) (with_thread_tab tab s1)))
    | _, _ => ((-4, None), on_task i (fun t => set_task_tid 0 (set_task_state TASK_UNUSED t)) (with_thread_tab tab s1))
    end.
Proof.
  intros Hs. unfold create_locked. pose proof (task_alloc_spec s) as Ha. destruct (task_alloc s) as [[i s0]|]; [|by left]. right. destruct Ha as (Hi & Hf & ->).
  destruct (take_id_spec (on_task i recycled s)) as (id & n & ->). exists i, id, n. split; [done|]. split; [done|].
  assert (E : task_init_stack i (on_task i (fun t => set_ap_ok 0 (set_task_state TASK_RUNNABLE (fill (set_task_id id t)))) (with_next_id n (on_task i recycled s)))
    = on_task i (newborn (fpu_template s) id (top_of i) fill) (with_next_id n s)).
  { change (with_next_id n (on_task i recycled s)) with (on_task i recycled (with_next_id n s)). rewrite on_task_twice by (lia || exact Hs). unfold task_init_stack. cbv zeta. rewrite on_task_twice by (lia || exact Hs). done. }
  rewrite E. cbv zeta. set (s1 := on_task i _ (with_next_id n s)). unfold task_bind_thread_locked. change (thread_tab s1) with (thread_tab s).
  destruct (thread_alloc_locked _ _ _ _) as [[r tid] tab]. destruct r; [destruct tid|..]; done.
Qed.

(** What a creation does to the slots: a free one may come into use, with the first context of its stack. *)
Definition slot_grows (template : list Z) (i : Z) (t t' : rix_task_t) : Prop :=
  slot_tame t t' \/ 1 <= i /\ free_task t = true /\ ap_ok t' = 0 /\ (free_task t' = true \/ rsp t' = top_of i /\ fpu t' = template).
Definition grow (s s' : scheduler) : Prop :=
  cpu_current s' = cpu_current s /\ cpu_rsp s' = cpu_rsp s /\ cpu_fpu s' = cpu_fpu s /\ fpu_template s' = fpu_template s /\ cpu_idle_valid s' = cpu_idle_valid s /\
  forall i, 0 <= i < 32 -> slot_grows (fpu_template s) i (task s i) (task s' i).

Lemma tame_grow s s' : tame s s' -> grow s s'.
Proof. intros (E1 & E2 & E3 & E4 & E5 & H). do 5 (split; [done|]). intros i Hi. left. by apply H. Qed.

Lemma grow_one s s' i f : shape s -> 1 <= i < 32 -> tasks s' = aset i (f (task s i)) (tasks s) -> cpu_current s' = cpu_current s -> cpu_rsp s' = cpu_rsp s -> cpu_fpu s' = cpu_fpu s ->
  fpu_template s' = fpu_template s -> cpu_idle_valid s' = cpu_idle_valid s -> slot_grows (fpu_template s) i (task s i) (f (task s i)) -> grow s s'.
Proof.
  intros Hs Hi Et E1 E2 E3 E4 E5 Hf. do 5 (split; [done|]). intros j Hj. assert (Ej : task s' j = task (on_task i f s) j) by (unfold task, on_task; cbn [with_tasks tasks]; by rewrite Et).
  rewrite Ej, task_on_task by (apply Hs || lia). destruct (Z.eqb_spec j i) as [->|]; [done|]. left. by repeat split.
Qed.

Lemma create_locked_good view full fill s : good s -> good (create_locked view full fill s).2 /\ sched_lock (create_locked view full fill s).2 = sched_lock s.
Proof.
  intros Hg. destruct (create_locked_run view full fill s (proj1 Hg)) as [[-> _]|(i & id & n & Hi & Hf & H)]; [done|].
  assert (Hi' : 0 <= i < 32) by lia. set (s1 := on_task i _ _) in H. cbv zeta in H. destruct (thread_alloc_locked _ _ _ _) as [[r tid] tab]. rewrite H.
  assert (Hn : near i s1) by (apply near_on_task; [done|]; apply (near_fields i s); [done..|by apply good_near]).
  assert (Ha : absent i s1) by exact (absent_idle s i Hi' (proj2 Hg) (free_not_runnable _ Hf)).
  assert (Hn2 : near i (with_thread_tab tab s1)) by by apply (near_fields i s1).
  assert (Hfail : good (on_task i (fun t => set_task_tid 0 (set_task_state TASK_UNUSED t)) (with_thread_tab tab s1))).
  { destruct (near_on_task i (fun t => set_task_tid 0 (set_task_state TASK_UNUSED t)) _ Hi' Hn2) as [Hs3 Hm3]. split; [done|]. apply (masks_absent _ i); [done|exact Ha|].
    rewrite task_on_same by (done || apply Hn2). done. }
  destruct r; [destruct tid as [tid|]|..]; try done. cbn [snd]. split; [|done]. destruct (near_on_task i (set_task_tid tid) _ Hi' Hn2) as [Hs3 Hm3].
  apply add_eligible_good; [done..|exact Ha|]. rewrite task_on_same by (done || apply Hn2). change (task (with_thread_tab tab s1) i) with (task s1 i). unfold s1. by rewrite task_on_same by (done || apply Hg).
Qed.

Lemma create_locked_grow view full fill s : good s -> grow s (create_locked view full fill s).2.
Proof.
  intros Hg. destruct (create_locked_run view full fill s (proj1 Hg)) as [[-> _]|(i & id & n & Hi & Hf & H)]; [apply tame_grow; reflexivity|].
  cbv zeta in H. set (g := newborn (fpu_template s) id (top_of i) fill) in H. destruct (thread_alloc_locked _ _ _ _) as [[r tid] tab]. rewrite H. assert (Hi' : 0 <= i < 32) by lia.
  assert (Hfail : grow s (on_task i (fun t => set_task_tid 0 (set_task_state TASK_UNUSED t)) (with_thread_tab tab (on_task i g (with_next_id n s))))).
  { apply (grow_one s _ i (fun t => set_task_tid 0 (set_task_state TASK_UNUSED (g t)))); [apply Hg|done| |done..|].
    - change (with_thread_tab tab (on_task i g (with_next_id n s))) with (on_task i g (with_thread_tab tab (with_next_id n s))). rewrite on_task_twice; [done|exact (proj1 Hg)|done].
    - right. split; [lia|]. split; [done|]. split; [done|by left]. }
  destruct r; [destruct tid as [tid|]|..]; try exact Hfail. cbn [snd]. apply (grow_one s _ i (fun t => set_task_tid tid (g t))); [apply Hg|done| |done..|].
  - change (with_thread_tab tab (on_task i g (with_next_id n s))) with (on_task i g (with_thread_tab tab (with_next_id n s))). cbn [rq_add_eligible_locked with_cpu_rq tasks]. rewrite on_task_twice; [done|exact (proj1 Hg)|done].
  - right. split; [lia|]. split; [done|]. split; [done|by right].
Qed.

Lemma create_task_run view full fill c s : sched_ok s -> exists a s', create_task view full fill (c, s) = Some (a, (c, s')) /\ sched_ok s' /\ grow s s'.
Proof.
  intros [Hg Hl]. unfold create_task. set (sl := with_guard spin_held s). assert (Hgl : good sl) by by apply (good_fields s).
  destruct (create_locked view full fill sl) as [r s1] eqn:E. pose proof (create_locked_good view full fill sl Hgl) as [Hg1 _]. pose proof (create_locked_grow view full fill sl Hgl) as Hgr.
  rewrite E in Hg1, Hgr. cbn [snd] in Hg1, Hgr. assert (Hok : sched_ok (with_guard spin_free s1)) by (split; [by apply (good_fields s1)|done]).
  rewrite (bind_Some _ _ _ r (c, with_guard spin_free s1)). 2: { rewrite locked_run by done. fold sl. by rewrite E. }
  case_if; eexists _, _; (split; [done|]); [split; [by apply (sched_ok_fields (with_guard spin_free s1))|]|split; [done|]]; exact Hgr.
Qed.

(** ** Switching *)

Lemma note_claim_good me next s : 0 <= next < 32 -> good s -> good (rq_note_claim_locked me next s).
Proof.
  intros Hn Hg. unfold rq_note_claim_locked. case_if; [done|]. cbv zeta. apply good_on_task; [done..|]. case_if; [by apply good_on_task|done].
Qed.

Lemma note_claim_fields me next s : sched_lock (rq_note_claim_locked me next s) = sched_lock s /\ cpu_current (rq_note_claim_locked me next s) = cpu_current s.
Proof. unfold rq_note_claim_locked. case_if; [done|]. by case_if. Qed.

Lemma claim_good me next s : 0 <= me < 64 -> 0 <= next < 32 -> good s -> good (claim me next s).
Proof.
  intros Hme Hn Hg. unfold claim. cbv zeta. apply good_on_task; [done..|]. apply note_claim_good; [done|].
  set (s1 := with_cpu_current _ _). assert (Hn1 : near next s1).
  { destruct (near_on_task next (set_task_state TASK_RUNNING) s Hn (good_near _ _ Hg)) as [Hs Hm]. split; [|exact Hm]. destruct Hs as (H1 & H2 & H3 & H4 & H5 & H6).
    do 3 (split; [done|]). split; [cbn; by rewrite length_aset|]. split; [cbn; by apply Forall_insert|done]. }
  apply remove_all_good; [apply Hn1|done|apply Hn1|]. change (task s1 next) with (task (on_task next (set_task_state TASK_RUNNING) s) next). rewrite task_on_same by (done || apply Hg). done.
Qed.

Lemma note_claim_tame me next s : shape s -> 0 <= next < 32 -> tame s (rq_note_claim_locked me next s).
Proof.
  intros Hs Hn. unfold rq_note_claim_locked. case_if; [reflexivity|]. cbv zeta. case_if; [|by apply tame_on_task].
  transitivity (on_task next (set_migrations (u32 (migrations (task s next) + 1))) s); [by apply tame_on_task|]. apply tame_on_task; [by apply shape_on_task|done|done].
Qed.

Lemma claim_tame me next s : 0 <= me < 64 -> good s -> 0 <= next < 32 -> task_state (task s next) = TASK_RUNNABLE -> tame_slots s (claim me next s).
Proof.
  intros Hme Hg Hn Hst. unfold claim. cbv zeta. set (s1 := on_task next (set_task_state TASK_RUNNING) s). set (s2 := rq_remove_all_locked next _).
  assert (H1 : tame_slots s s1) by (apply slots_on_task; [apply Hg|done|]; apply slot_tame_live; [done..|]; unfold free_task; by rewrite Hst).
  assert (Hs1 : shape s1) by (apply shape_on_task, Hg). assert (Hs2 : shape s2).
  { apply remove_all_rq; [|done]. destruct Hs1 as (A1 & A2 & A3 & A4 & A5 & A6). do 3 (split; [done|]). split; [cbn; by rewrite length_aset|]. split; [cbn; by apply Forall_insert|done]. }
  assert (H2 : tame_slots s1 s2) by (do 4 (split; [done|]); intros i Hi; by repeat split).
  pose proof (note_claim_tame me next s2 Hs2 Hn) as [E3 H3]. transitivity s1; [done|]. transitivity s2; [done|]. etransitivity; [exact H3|]. apply slots_on_task; [|done|done].
  unfold rq_note_claim_locked. case_if; [done|]. case_if; by repeat apply shape_on_task.
Qed.

Lemma claim_fields me next s : sched_lock (claim me next s) = sched_lock s /\ cpu_current (claim me next s) = aset me next (cpu_current s).
Proof. unfold claim. cbv zeta. split; [exact (proj1 (note_claim_fields me next _))|exact (proj2 (note_claim_fields me next _))]. Qed.

(** The state in which a yield picks: the yielding task is runnable again. *)
Definition flipped (me : Z) (s : scheduler) : bool := in_state (task_state (task s (current s me))) TASK_RUNNING.
Definition flip (me : Z) (s : scheduler) : scheduler :=
  if flipped me s then rq_add_eligible_locked (current s me) (on_task (current s me) (fun t => set_run_ticks (u64 (run_ticks t + (ticks s - stamp t))) (set_task_state TASK_RUNNABLE t)) s) else s.

Lemma flip_good me s : 0 <= me < 64 -> good s -> good (flip me s).
Proof.
  intros Hme Hg. pose proof (current_range s me (proj1 Hg) Hme) as Hi. unfold flip, flipped. destruct (in_state _ _) eqn:E; [|done]. unfold in_state in E. bool_to_prop.
  apply make_runnable; [done|done|congruence|done].
Qed.

Lemma flip_tame me s : 0 <= me < 64 -> good s -> tame s (flip me s).
Proof.
  intros Hme Hg. pose proof (current_range s me (proj1 Hg) Hme) as Hi. unfold flip, flipped. destruct (in_state _ _) eqn:E; [|reflexivity]. unfold in_state in E. bool_to_prop.
  etransitivity; [apply (tame_on_task s (current s me) (fun t => set_run_ticks (u64 (run_ticks t + (ticks s - stamp t))) (set_task_state TASK_RUNNABLE t))); [apply Hg|done|]|by apply tame_fields].
  apply slot_tame_live; [done..|]. unfold free_task. by rewrite E.
Qed.

Lemma yield_locked_run me armed s : 0 <= me < 64 -> good s -> exists d s', yield_locked me armed s = Some (d, s') /\ good s' /\ sched_lock s' = sched_lock s /\ tame_slots s s' /\
  cpu_current s' = match d with Switch _ next => aset me next (cpu_current s) | _ => cpu_current s end /\
  match d with
  | Switch old next => old = current s me /\ next <> old /\ 0 <= next < 32 /\ claimable s me next = true
  | ToIdle old idle => old = current s me /\ flipped me s = false /\ idle = aget 0 (cpu_idle_rsp s) me /\ truthy (aget 0 (cpu_idle_valid s) me) = true /\ (claimable s me old = true \/ forall i, 0 <= i -> claimable s me i = false)
  | Continue => claimable (flip me s) me (current s me) = true \/ forall i, 0 <= i -> claimable (flip me s) me i = false
  end.
Proof.
  intros Hme Hg. pose proof (current_range s me (proj1 Hg) Hme) as Hi. unfold yield_locked. cbv zeta. fold (flipped me s). fold (flip me s). pose proof (flip_good me s Hme Hg) as Hgf.
  rewrite (verify_good _ Hgf). cbn [negb]. destruct (sched_pick_spec (flip me s) me (current s me) Hgf Hme) as (n & qs & -> & Hgp & Hn).
  assert (Hfl : sched_lock (flip me s) = sched_lock s) by (unfold flip; by case_if). set (s2 := with_cpu_rq qs (flip me s)) in *.
  assert (Hfs : task_state (task s2 (current s me)) = if flipped me s then TASK_RUNNABLE else task_state (task s (current s me))).
  { unfold s2. change (task (with_cpu_rq qs (flip me s)) (current s me)) with (task (flip me s) (current s me)). unfold flip. case_if; [|done].
    match goal with |- task_state (task (rq_add_eligible_locked ?i ?x) ?j) = _ => change (task (rq_add_eligible_locked i x) j) with (task x j) end. by rewrite task_on_same by (done || apply Hg). }
  assert (Ht2 : tame s s2) by (transitivity (flip me s); [by apply flip_tame|by apply tame_fields]).
  destruct (Z.eqb_spec n (current s me)) as [->|Hne].
  - assert (Hc : claimable (flip me s) me (current s me) = true \/ forall i, 0 <= i -> claimable (flip me s) me i = false) by (destruct Hn as [[_ ?]|[_ ?]]; [by left|by right]).
    destruct (flipped me s) eqn:Ef.
    + set (s3 := rq_remove_all_locked _ _). assert (Hg3 : good (on_task (current s me) (set_stamp (ticks s2)) s3)) by (apply good_on_task; [done..|]; by apply make_idle).
      assert (Et : in_state (task_state (task (on_task (current s me) (set_stamp (ticks s2)) s3) (current s me))) TASK_RUNNING = true).
      { rewrite task_on_same; [|destruct (make_idle s2 (current s me) (set_task_state TASK_RUNNING) Hgp Hi) as [? _]; done|done]. change (task s3 (current s me)) with (task (on_task (current s me) (set_task_state TASK_RUNNING) s2) (current s me)).
        rewrite task_on_same by (done || apply Hgp). done. }
      assert (Ht3 : tame s (on_task (current s me) (set_stamp (ticks s2)) s3)).
      { transitivity s2; [done|]. transitivity s3.
        - etransitivity; [apply (tame_on_task s2 (current s me) (set_task_state TASK_RUNNING)); [apply Hgp|done|]|by apply tame_fields]. apply slot_tame_live; [done..|]. unfold free_task. by rewrite Hfs.
        - apply tame_on_task; [apply (make_idle s2 (current s me) (set_task_state TASK_RUNNING)); done|done|done]. }
      change (ticks s3) with (ticks s2). rewrite Et. eexists _, _. split; [done|]. split; [done|]. split; [done|]. split; [apply Ht3|]. split; [apply Ht3|done].
    + rewrite Hfs. unfold flipped in Ef. rewrite Ef. assert (Efl : flip me s = s) by (unfold flip, flipped; by rewrite Ef). destruct (truthy _) eqn:Ev.
      * eexists _, _. split; [done|]. split; [done|]. split; [done|]. split; [apply Ht2|]. split; [apply Ht2|]. split; [done|]. split; [done|]. split; [unfold s2; by rewrite Efl|]. split; [unfold s2 in Ev; by rewrite Efl in Ev|]. by rewrite Efl in Hc.
      * eexists _, _. split; [done|]. split; [done|]. split; [done|]. split; [apply Ht2|]. split; [apply Ht2|done].
  - destruct Hn as [[Hn Hc]|[? _]]; [|done]. set (s3 := if flipped me s then _ else s2).
    assert (Hg3 : good s3 /\ sched_lock s3 = sched_lock s) by (unfold s3; case_if; [split; [by apply good_on_task; [| by destruct armed|]|done]|done]).
    assert (Ht3 : tame s2 s3) by (unfold s3; case_if; [apply tame_on_task; [apply Hgp|done|by destruct armed]|reflexivity]).
    assert (Hst : task_state (task s3 n) = TASK_RUNNABLE).
    { unfold claimable, in_state in Hc. apply andb_true_iff in Hc as [Hc _]. bool_to_prop. rewrite <- Hc. change (task (flip me s) n) with (task s2 n). unfold s3. case_if; [|done].
      rewrite task_on_task by (done || apply Hgp). by rewrite (proj2 (Z.eqb_neq n (current s me))). }
    eexists _, _. split; [done|]. split; [apply claim_good; [done..|apply Hg3]|]. split; [by rewrite (proj1 (claim_fields _ _ _)), (proj2 Hg3)|].
    split; [transitivity s2; [apply Ht2|]; transitivity s3; [apply Ht3|]; apply claim_tame; [done|apply Hg3|done|done]|].
    split; [rewrite (proj2 (claim_fields _ _ _)), (proj1 Ht3), (proj1 Ht2); done|]. split; [done|]. split; [done|]. split; [done|].
    rewrite <- Hc. apply claimable_view. unfold flip. case_if; [|done].
    match goal with |- claim_view (task s n) = claim_view (task (rq_add_eligible_locked ?i ?x) ?j) => change (task (rq_add_eligible_locked i x) j) with (task x j) end.
    rewrite task_on_task by (done || apply Hg). by rewrite (proj2 (Z.eqb_neq n (current s me))).
Qed.

(** Calls that also change the flags of the CPU they run on. *)
Definition runs_ok {A} (m : M (cpu * scheduler) A) : Prop := forall c s, sched_ok s ->
  exists a c' s', m (c, s) = Some (a, (c', s')) /\ sched_ok s' /\ cpu_index c' = cpu_index c.

Lemma ok_runs {A} (m : M (cpu * scheduler) A) : ok m -> runs_ok m.
Proof. intros H c s Hok. destruct (H c s Hok) as (a & s' & E & Hok' & _). by exists a, c, s'. Qed.

Lemma runs_seq {A B} (m : M (cpu * scheduler) A) (k : A -> M (cpu * scheduler) B) : runs_ok m -> (forall a, runs_ok (k a)) -> runs_ok (m ≫= k).
Proof.
  intros Hm Hk c s Hok. destruct (Hm c s Hok) as (a & c1 & s1 & E & Hok1 & E1). destruct (Hk a c1 s1 Hok1) as (b & c2 & s2 & E2 & Hok2 & E3).
  exists b, c2, s2. rewrite (bind_Some _ _ _ a (c1, s1)) by done. split; [done|]. split; [done|congruence].
Qed.

Lemma runs_cpu {A} (m : M cpu A) : (forall c, exists a c', m c = Some (a, c') /\ cpu_index c' = cpu_index c) -> runs_ok (on_fst m).
Proof. intros H c s Hok. destruct (H c) as (a & c' & E & Ei). exists a, c', s. unfold on_fst. by rewrite E. Qed.

Lemma restore_runs flags : runs_ok (on_fst (rix_irq_restore flags)).
Proof. apply runs_cpu. intros c. unfold rix_irq_restore. case_if; by eexists _, _. Qed.
Lemma cli_runs : runs_ok (on_fst cli).
Proof. apply runs_cpu. intros c. by eexists _, _. Qed.
Lemma sti_runs : runs_ok (on_fst sti).
Proof. apply runs_cpu. intros c. by eexists _, _. Qed.

(** A section between [rix_spin_lock] and [rix_spin_unlock]. *)
Lemma plain_section {A} (m : M (cpu * scheduler) A) : keeps m -> ok (_ ← on_guard rix_spin_lock; a ← m; _ ← on_guard rix_spin_unlock; mret a).
Proof.
  intros Hk c s [Hg Hl]. destruct (Hk c (with_sched_lock spin_held s)) as (a & s' & E & Hg' & Hl' & Ht); [by apply (good_fields s)|].
  exists a, (with_sched_lock spin_free s'). split; [|split; [split; [by apply (good_fields s')|done]|exact Ht]].
  unfold mbind, M_bind, on_guard. cbn [guard scheduler_guard with_guard]. rewrite Hl. cbn. rewrite E. done.
Qed.

(** A decision a switch can act on. *)
Definition decision_ok (d : decision) : Prop :=
  match d with Continue => True | ToIdle old _ => 0 <= old < 32 | Switch old next => 0 <= old < 32 /\ 0 <= next < 32 end.

(** Context switches touch nothing the invariant speaks of. *)
Lemma load_context_ok me sp image s : sched_ok s -> sched_ok (load_context me sp image s).
Proof. by apply sched_ok_fields. Qed.

Lemma sched_ok_on_task i f s : 0 <= i < 32 -> claim_view (f (task s i)) = claim_view (task s i) -> sched_ok s -> sched_ok (on_task i f s).
Proof. intros Hi Ef [Hg Hl]. split; [by apply good_on_task|done]. Qed.

Lemma switch_ok me d s : decision_ok d -> sched_ok s -> sched_ok (switch me d s).
Proof.
  intros Hd Hok. destruct d as [|old idle|old next]; [done|..]; cbn [switch].
  - unfold switch_to_idle. cbv zeta. apply load_context_ok. eapply sched_ok_fields; [..|apply (sched_ok_on_task old (set_fpu (aget [] (cpu_fpu s) me)) s); done]; done.
  - apply load_context_ok. apply sched_ok_on_task; [apply Hd|done|done].
Qed.

(** What the part of a yield before the switch decides, and how little else it changes. *)
Definition yield_outcome (me : Z) (s s' : scheduler) (d : decision) : Prop :=
  tame_slots s s' /\ cpu_current s' = match d with Switch _ next => aset me next (cpu_current s) | _ => cpu_current s end /\
  match d with
  | Switch old next => old = current s me /\ next <> old /\ 0 <= next < 32 /\ claimable s me next = true
  | ToIdle old idle => old = current s me /\ flipped me s = false /\ idle = aget 0 (cpu_idle_rsp s) me /\ truthy (aget 0 (cpu_idle_valid s) me) = true /\ (claimable s me old = true \/ forall i, 0 <= i -> claimable s me i = false)
  | Continue => claimable (flip me s) me (current s me) = true \/ forall i, 0 <= i -> claimable (flip me s) me i = false
  end.

Lemma yield_select_run c s : sched_ok s -> exists d s', yield_select (c, s) = Some (d, (c, s')) /\ sched_ok s' /\ decision_ok d /\ yield_outcome (sched_cpu c) s s' d.
Proof.
  intros Hok. unfold yield_select. cbv zeta. set (s1 := with_cpu_quantum_left _ _). set (armed := truthy _). assert (Hok1 : sched_ok s1) by by apply (sched_ok_fields s).
  destruct Hok1 as [Hg1 Hl1]. destruct (yield_locked_run (sched_cpu c) armed (with_sched_lock spin_held s1) (sched_cpu_range c)) as (d & s' & E & Hg' & Hl' & Ht & Ec & Hd); [by apply (good_fields s1)|].
  exists d, (with_sched_lock spin_free s'). pose proof (current_range s (sched_cpu c) (proj1 (proj1 Hok)) (sched_cpu_range c)) as Hi.
  split; [|split; [split; [by apply (good_fields s')|done]|split; [|split; [exact Ht|split; [exact Ec|]]]]].
  - unfold mbind, M_bind, on_guard. cbn [guard scheduler_guard with_guard]. rewrite Hl1. cbn. rewrite E. done.
  - destruct d as [|old idle|old next]; [done|destruct Hd as [-> _]; done|destruct Hd as (-> & _ & ? & _); done].
  - assert (Ef : tasks (flip (sched_cpu c) (with_sched_lock spin_held s1)) = tasks (flip (sched_cpu c) s)).
    { unfold flip. change (flipped (sched_cpu c) (with_sched_lock spin_held s1)) with (flipped (sched_cpu c) s). by destruct (flipped _ _). }
    destruct d; [|exact Hd..]. destruct Hd as [Hd|Hd]; [left; rewrite <- Hd; by apply claimable_tasks|right; intros i Hi0; rewrite <- (Hd i Hi0); by apply claimable_tasks].
Qed.

Lemma yield_runs : runs_ok scheduler_yield.
Proof.
  unfold scheduler_yield. apply runs_seq; [apply runs_cpu; intros c; by eexists _, _|]. intros flags. apply runs_seq; [apply cli_runs|]. intros _ c s Hok.
  destruct (yield_select_run c s Hok) as (d & s1 & E1 & Hok1 & Hd & _). rewrite (bind_Some _ _ _ d (c, s1)) by done.
  rewrite (bind_Some _ _ _ tt (c, switch (sched_cpu c) d s1)) by done. pose proof (switch_ok (sched_cpu c) d s1 Hd Hok1) as Hok2.
  destruct d; [|by eexists _, _, _..]. assert (H : runs_ok (_ ← on_fst (rix_irq_restore flags); mret (flags, Continue))) by (apply runs_seq; [apply restore_runs|intros _; apply ok_runs, ok_ret]).
  exact (H c _ Hok2).
Qed.

Lemma resume_runs activate flags : runs_ok (yield_resume activate flags).
Proof.
  unfold yield_resume. apply runs_seq; [|intros _; apply restore_runs]. intros c s Hok. pose proof (current_range s (sched_cpu c) (proj1 (proj1 Hok)) (sched_cpu_range c)) as Hi. cbv zeta. case_if; [|by eexists _, _, _].
  destruct (plain_section _ (mark_dead_keeps _ Hi) c s Hok) as (a & s' & E & Hok' & _). exists tt, c, s'. split; [|done]. revert E. unfold mbind, M_bind, mret, M_ret.
  destruct (on_guard rix_spin_lock (c, s)) as [[? [? ?]]|]; [|done]. destruct (task_mark_dead_locked _ _) as [[[] [? ?]]|]; [|done]. destruct (on_guard rix_spin_unlock _) as [[[] [? ?]]|]; [|done]. by intros [= <- <- <-].
Qed.

Lemma mark_current_keeps : keeps (fun '(c, s) => task_mark_dead_locked (current s (sched_cpu c)) (c, s)).
Proof. intros c s Hg. apply mark_dead_keeps; [|done]. apply current_range; [apply Hg|apply sched_cpu_range]. Qed.

Lemma returned_runs : runs_ok task_returned.
Proof. unfold task_returned. apply runs_seq; [|intros _; apply yield_runs]. apply ok_runs. intros c s Hok. apply locked_section_keeps; [done|apply mark_current_keeps]. Qed.

Lemma exit_runs : runs_ok scheduler_exit_current.
Proof.
  unfold scheduler_exit_current. apply runs_seq; [apply cli_runs|]. intros _ c s Hok. destruct (plain_section _ mark_current_keeps c s Hok) as (a & s' & E & Hok' & _).
  destruct (yield_runs c s' Hok') as (b & c2 & s2 & E2 & H2). exists b, c2, s2. split; [|done]. revert E. unfold mbind, M_bind, mret, M_ret.
  destruct (on_guard rix_spin_lock (c, s)) as [[? [? ?]]|]; [|done]. destruct (task_mark_dead_locked _ _) as [[? [? ?]]|]; [|done]. destruct (on_guard rix_spin_unlock _) as [[? [? ?]]|]; [|done]. by intros [= <- <- <-].
Qed.

Lemma bootstrap_runs view activate validate : runs_ok (task_bootstrap view activate validate).
Proof.
  intros c s Hok. unfold task_bootstrap. cbv zeta. destruct (returned_runs c s Hok) as (a & c' & s' & E & H). rewrite E.
  case_if; [|by eexists _, _, _]. destruct (view _); [|by eexists _, _, _]. repeat (case_if; [by eexists _, _, _|]). by eexists _, _, _.
Qed.

Lemma idle_locked_run me s : 0 <= me < 64 -> good s -> let old := current s me in exists r s',
  (if negb (rq_verify_locked s) then None
   else let '(next, s) := sched_pick_locked me old s in
     if (next =? old) || negb (in_state (task_state (task s next)) TASK_RUNNABLE) then Some (Parked, with_cpu_in_idle (aset me 1 (cpu_in_idle s)) s)
     else Some (Ran next, claim me next (with_cpu_in_idle (aset me 0 (cpu_in_idle s)) s))) = Some (r, s') /\ good s' /\ sched_lock s' = sched_lock s /\
  match r with Ran next => 0 <= next < 32 /\ next <> old /\ claimable s me next = true | Parked => tame s s' /\ (claimable s me old = true \/ forall i, 0 <= i -> claimable s me i = false) | Halted => False end.
Proof.
  intros Hme Hg old. rewrite (verify_good _ Hg). cbn [negb]. destruct (sched_pick_spec s me old Hg Hme) as (n & qs & -> & Hgp & Hn). destruct (Z.eqb_spec n old) as [->|Hne]; cbn [orb].
  - eexists _, _. split; [done|]. split; [by apply (good_fields (with_cpu_rq qs s))|]. split; [done|]. split; [by apply tame_fields|]. destruct Hn as [[_ ?]|[_ ?]]; [by left|by right].
  - destruct Hn as [[Hn Hc]|[? _]]; [|done]. assert (Est : in_state (task_state (task (with_cpu_rq qs s) n)) TASK_RUNNABLE = true) by (unfold claimable in Hc; by apply andb_true_iff in Hc as [? _]).
    rewrite Est. cbn [negb]. eexists _, _. split; [done|]. split; [apply claim_good; [done..|]; by apply (good_fields (with_cpu_rq qs s))|]. split; [by rewrite (proj1 (claim_fields _ _ _))|done].
Qed.

Lemma idle_runs is_bsp : runs_ok (scheduler_ap_idle is_bsp).
Proof.
  intros c s Hok. unfold scheduler_ap_idle. destruct (_ || _ || _) eqn:E; [by eexists _, _, _|]. cbv zeta. apply orb_false_iff in E as [E _]. apply orb_false_iff in E as [E1 E2]. bool_to_prop. unfold SMP_MAX_CPUS in E2.
  set (s1 := with_cpu_idle_valid _ _). assert (Hok1 : sched_ok s1) by by apply (sched_ok_fields s). clearbody s1. assert (Hme : 0 <= cpu_index c < 64) by lia.
  refine (runs_seq _ _ sti_runs _ c s1 Hok1). revert Hme. generalize (cpu_index c) as me. intros me Hme _. apply runs_seq.
  - intros c0 s0 [Hg0 Hl0]. destruct (idle_locked_run me (with_guard spin_held s0) Hme) as (r & s' & E & Hg' & Hl & _); [by apply (good_fields s0)|]. exists r, c0, (with_guard spin_free s').
    split; [|split; [split; [by apply (good_fields s')|done]|done]]. apply locked_section_run; [done|]. revert E. cbv zeta.
    destruct (negb _); [done|]. destruct (sched_pick_locked _ _ _) as [n sp]. destruct (_ || _); by intros [= <- <-].
  - intros r c0 s0 Hok0. destruct r; by eexists _, _, _.
Qed.

(** ** Histories *)

Inductive op :=
| AllowAp (id : Z) | SetAffinity (id m : Z) | SetPriority (id level : Z)
| Tick | PreemptTick (online_count : Z) (online : Z -> bool) | PreemptDisable | PreemptEnable | ClearResched | ShouldYield
| WaitPrepare (wq : Z) | Block | WaitTake | WaitAbort | WakeQueue (wq : Z) | WakePid (pid : Z) | DetachPid (pid : Z)
| CreateKernel (view : Z -> option proc_view) (entry a : Z) | CreateUser (view : Z -> option proc_view) (pid entry ustack : Z)
| CreateFork (view : Z -> option proc_view) (pid entry ustack return_value : Z) | CreateContext (view : Z -> option proc_view) (pid : Z) (uc : option rix_user_context_t)
| Yield | Resume (activate : Z -> Z) (flags : Z) | Return | Exit | Bootstrap (view : Z -> option proc_view) (activate : Z -> Z) (validate : Z -> Z -> Z -> Z)
| Idle (is_bsp : option bool) | Unpark | Compute (sp : Z) (image : list Z).

Definition quietly {A} (m : M (cpu * scheduler) A) : M (cpu * scheduler) unit := _ ← m; mret tt.
Definition change (f : cpu -> scheduler -> scheduler) : M (cpu * scheduler) unit := modify (fun '(c, s) => (c, f c s)).

(** [Compute] is the running code: it moves the stack pointer and the FPU state of its CPU. *)
Definition exec (o : op) : M (cpu * scheduler) unit :=
  match o with
  | AllowAp id => quietly (scheduler_task_allow_ap id)
  | SetAffinity id m => quietly (scheduler_set_affinity id m)
  | SetPriority id level => quietly (scheduler_set_priority id level)
  | Tick => change (fun _ => scheduler_tick)
  | PreemptTick n on => change (scheduler_preempt_tick n on)
  | PreemptDisable => change scheduler_preempt_disable
  | PreemptEnable => change scheduler_preempt_enable
  | ClearResched => change scheduler_clear_need_resched
  | ShouldYield => change (fun c s => (scheduler_should_yield_from_irq c s).2)
  | WaitPrepare wq => quietly (scheduler_wait_prepare wq)
  | Block => scheduler_block_current
  | WaitTake => quietly scheduler_wait_take
  | WaitAbort => scheduler_wait_abort
  | WakeQueue wq => scheduler_wake_queue wq
  | WakePid pid => scheduler_wake_pid pid
  | DetachPid pid => scheduler_thread_detach_pid pid
  | CreateKernel view entry a => quietly (scheduler_create_kernel_thread view entry a)
  | CreateUser view pid entry ustack => quietly (scheduler_create_user_process view pid entry ustack)
  | CreateFork view pid entry ustack rv => quietly (scheduler_create_fork_child view pid entry ustack rv)
  | CreateContext view pid uc => quietly (scheduler_create_fork_child_context view pid uc)
  | Yield => quietly scheduler_yield
  | Resume activate flags => yield_resume activate flags
  | Return => quietly task_returned
  | Exit => quietly scheduler_exit_current
  | Bootstrap view activate validate => quietly (task_bootstrap view activate validate)
  | Idle is_bsp => quietly (scheduler_ap_idle is_bsp)
  | Unpark => change ap_unpark
  | Compute sp image => change (fun c => load_context (sched_cpu c) sp image)
  end.

(** Operations in sequence, each on a CPU of its own. *)
Fixpoint run (steps : list (cpu * op)) (s : scheduler) : option scheduler :=
  match steps with
  | [] => Some s
  | (c, o) :: steps => match exec o (c, s) with Some (_, (_, s')) => run steps s' | None => None end
  end.

Lemma quietly_runs {A} (m : M (cpu * scheduler) A) : runs_ok m -> runs_ok (quietly m).
Proof. intros H. apply runs_seq; [done|]. intros _. apply ok_runs, ok_ret. Qed.

Lemma change_runs f : (forall c s, sched_ok s -> sched_ok (f c s)) -> runs_ok (change f).
Proof. intros H c s Hok. exists tt, c, (f c s). split; [done|]. split; [by apply H|done]. Qed.

Lemma create_task_runs view full fill : runs_ok (create_task view full fill).
Proof. intros c s Hok. destruct (create_task_run view full fill c s Hok) as (a & s' & E & Hok' & _). by exists a, c, s'. Qed.

Lemma exec_runs o : runs_ok (exec o).
Proof.
  destruct o; cbn [exec]; try apply change_runs; try (intros c s; apply sched_ok_fields; done); try apply quietly_runs.
  - intros c s Hok. destruct (allow_ap_run id c s Hok) as (a & s' & E & Hok'). by exists a, c, s'.
  - apply ok_runs, set_affinity_ok.
  - apply ok_runs, set_priority_ok.
  - intros c s Hok. apply (same_core_ok s); [apply preempt_tick_core|done].
  - intros c s Hok. unfold scheduler_preempt_enable. case_if; [by apply (sched_ok_fields s)|done].
  - intros c s Hok. apply (same_core_ok s); [apply should_yield_core|done].
  - apply ok_runs, wait_prepare_ok.
  - apply ok_runs, block_ok.
  - apply ok_runs, wait_take_ok.
  - apply ok_runs, wait_abort_ok.
  - apply ok_runs, wake_queue_ok.
  - apply ok_runs, wake_and_kick_ok.
  - apply ok_runs, ok_locked. intros c s Hg. split; [by apply (good_fields s)|]. split; [done|by apply tame_fields].
  - unfold scheduler_create_kernel_thread. case_if; [apply ok_runs, ok_ret|apply create_task_runs].
  - unfold scheduler_create_user_process. repeat (case_if; [apply ok_runs, ok_ret|]). apply create_task_runs.
  - unfold scheduler_create_fork_child. repeat (case_if; [apply ok_runs, ok_ret|]). apply create_task_runs.
  - unfold scheduler_create_fork_child_context. destruct uc; [|apply ok_runs, ok_ret]. case_if; [apply ok_runs, ok_ret|apply create_task_runs].
  - apply yield_runs.
  - apply resume_runs.
  - apply returned_runs.
  - apply exit_runs.
  - apply bootstrap_runs.
  - apply idle_runs.
Qed.

Lemma sched_run_ok steps : forall s, sched_ok s -> exists s', run steps s = Some s' /\ sched_ok s'.
Proof.
  induction steps as [|[c o] steps IH]; intros s Hok; [by exists s|]. cbn [run]. destruct (exec_runs o c s Hok) as (a & c' & s' & -> & Hok' & _). by apply IH.
Qed.

Lemma sched_init_ok template mem : map_Forall (fun _ q => wq_lock q = spin_free) (queues mem) -> sched_ok (scheduler_init template mem).
Proof.
  intros Hq. unfold scheduler_init. destruct (thread_alloc_locked _ _ _ _) as [[rc tid] tab]. split; [|done]. split.
  - split; [done|]. split; [done|]. split; [by apply Forall_replicate|]. split; [done|]. split; [|done]. apply Forall_replicate. lia.
  - intros i Hi c Hc. unfold rq. cbn [cpu_rq]. unfold aget at 1. rewrite lookup_replicate_2 by (unfold SMP_MAX_CPUS; lia). cbn [default mask empty_rq id]. rewrite Z.testbit_0_l.
    unfold claimable, task. cbn [tasks]. symmetry. destruct (decide (i = 0)) as [->|Hne]; [done|].
    rewrite aget_aset_ne by lia. unfold aget. rewrite list_lookup_fmap, lookup_seqZ_lt by (unfold RIX_MAX_TASKS; lia). done.
Qed.

(** C15: the run-queue masks never drift and the scheduler never freezes. From
    [scheduler_init], any sequence of scheduler operations, each issued by any CPU,
    runs to its end (no call spins on a lock or stops in [rq_verify_locked]), and at
    the end slot [i] is in the run queue of CPU [k] exactly when the task is RUNNABLE
    and CPU [k] may run it. *)
Theorem scheduler_masks_exact template mem steps (Hq : map_Forall (fun _ q => wq_lock q = spin_free) (queues mem)) :
  ∃ s, run steps (scheduler_init template mem) = Some s ∧ sched_lock s = spin_free ∧ rq_verify_locked s = true ∧
  ∀ k i, 0 <= k < 64 → 0 <= i < 32 → rq_contains_locked (Some (rq s k)) i = true ↔ task_state (task s i) = TASK_RUNNABLE ∧ rq_eligible (tasks s) k i = true.
Proof.
  destruct (sched_run_ok steps _ (sched_init_ok template mem Hq)) as (s & E & [Hg Hl]). exists s. split; [done|]. split; [done|]. split; [by apply verify_good|]. intros k i Hk Hi.
  rewrite contains_testbit by (lia || (apply rq_wf_mask, rq_good; [apply Hg|done])). rewrite (proj2 (Z.ltb_lt i 32)) by lia. cbn [andb].
  rewrite (proj2 Hg) by done. unfold claimable, in_state. by rewrite andb_true_iff, bool_decide_eq_true.
Qed.
End Inv.

(** A machine with two CPUs, of which 0 boots. *)
Definition demo_platform : Platform := {| smp_bsp_index := 0; stack_of := fun i => 0x100000 + i * 0x4000; task_bootstrap_addr := 0xffff |}.
Definition zero_memory : scheduler :=
  {| ticks := 0; tasks := []; cpu_current := []; sched_lock := spin_free; next_id := 0; cpu_rq := []; cpu_idle_rsp := []; cpu_idle_valid := []; cpu_idle_tmp := [];
     cpu_idle_fpu := []; fpu_template := []; cpu_preempt_depth := []; cpu_need_resched := []; cpu_quantum_left := []; cpu_in_idle := [];
     thread_tab := thread_table_init; queues := {[ 0x500 := fresh_queue ]}; cpu_rsp := replicate 64 0; cpu_fpu := replicate 64 []; ipis := [] |}.
Definition cpu0 : cpu := {| rflags := 0x202; cpu_pid := 0; cpu_index := 0 |}.
Definition cpu1 : cpu := {| rflags := 0x202; cpu_pid := 0; cpu_index := 1 |}.
Definition no_process (_ : Z) : option proc_view := None.

Lemma zero_queues : map_Forall (fun _ q => wq_lock q = spin_free) (queues zero_memory).
Proof. apply map_Forall_singleton. reflexivity. Qed.

Lemma scheduler_masks_exact_witness :
  ∃ s, run (P := demo_platform) [(cpu0, CreateKernel no_process 7 8); (cpu0, AllowAp 1); (cpu1, Idle (Some false)); (cpu1, WaitPrepare 0x500); (cpu1, Block); (cpu0, WakeQueue 0x500)]
         (scheduler_init [] zero_memory) = Some s ∧ task_state (task s 1) = TASK_RUNNABLE ∧ rq_contains_locked (Some (rq s 1)) 1 = true.
Proof.
  destruct (scheduler_masks_exact (P := demo_platform) [] zero_memory [(cpu0, CreateKernel no_process 7 8); (cpu0, AllowAp 1); (cpu1, Idle (Some false)); (cpu1, WaitPrepare 0x500); (cpu1, Block); (cpu0, WakeQueue 0x500)] zero_queues) as (s & E & _ & _ & H).
  exists s. split; [exact E|]. assert (Et : task_state (task s 1) = TASK_RUNNABLE /\ rq_eligible (P := demo_platform) (tasks s) 1 1 = true).
  { revert E. vm_compute. intros [= <-]. split; reflexivity. }
  split; [apply Et|]. apply (H 1 1); [lia|lia|exact Et].
Defined.
