(* ===== verification/SchedulerSwitch.v ===== *)
(** * Placement and contexts ([kernel/sched/scheduler.c])

    Which tasks a CPU may take, and that tasks bound to the boot CPU resume exactly
    where they were left; then what goes wrong on other CPUs. *)
From stdpp Require Import base tactics list numbers gmap.
From S2P Require Import Prelude Lock Runqueue Thread WaitQueue Scheduler SchedulerInv.

Section Placement.
Context {P : Platform}.

(** A CPU may run the task: its affinity has the CPU's bit, and a CPU other than the
    boot CPU only takes kernel threads that were opened to it, never slot 0. *)
Definition may_run (me i : Z) (t : rix_task_t) : Prop :=
  Z.testbit (affinity t) me = true /\ (me <> smp_bsp_index -> i <> 0 /\ process_pid t = 0 /\ ap_ok t <> 0).

Lemma claimable_spec s me i : 0 <= me < 64 -> 0 <= i < 32 -> claimable s me i = true <-> task_state (task s i) = TASK_RUNNABLE /\ may_run me i (task s i).
Proof.
  intros Hme Hi. unfold claimable, rq_eligible, may_run, in_state, rq_cpu_is_bsp, RIX_MAX_TASKS, SMP_MAX_CPUS. fold (task s i). rewrite andb_true_iff, bool_decide_eq_true.
  rewrite (proj2 (Z.leb_gt 32 i)), (proj2 (Z.leb_gt 64 me)) by lia. cbn [orb]. rewrite land_bit_test by lia. destruct (Z.testbit (affinity (task s i)) me); cbn [negb]; [|naive_solver].
  destruct (Z.eqb_spec me smp_bsp_index) as [->|Hne]; [naive_solver|]. unfold truthy. rewrite !andb_true_iff, !negb_true_iff, !Z.eqb_neq, Z.eqb_eq. naive_solver.
Qed.

Lemma reachable_ok template mem steps s : map_Forall (fun _ q => wq_lock q = spin_free) (queues mem) -> run steps (scheduler_init template mem) = Some s -> sched_ok s.
Proof. intros Hq E. destruct (sched_run_ok steps _ (sched_init_ok template mem Hq)) as (s' & E' & Hok). congruence. Qed.

(** A CPU only takes tasks it may run, and idles only when there is none. In any
    reachable state, the task a yield or an idle turn switches to is RUNNABLE, has the
    CPU in its affinity and, on a CPU other than the boot CPU, is a kernel thread
    opened by [scheduler_task_allow_ap]; it becomes the CPU's current task. When a
    yield does not switch, the yielding task itself was the pick, or no task at all was
    runnable for this CPU. *)
Theorem claims_respect_placement template mem steps s c
    (Hq : map_Forall (fun _ q => wq_lock q = spin_free) (queues mem)) (Hrun : run steps (scheduler_init template mem) = Some s) :
  let me := sched_cpu c in
  let picked i := task_state (task s i) = TASK_RUNNABLE ∧ may_run me i (task s i) in
  ∃ d s', yield_select (c, s) = Some (d, (c, s')) ∧
  match d with
  | Switch old next => old = current s me ∧ next ≠ old ∧ 0 <= next < 32 ∧ picked next ∧ current s' me = next
  | ToIdle _ _ => current s' me = current s me ∧ (picked (current s me) ∨ ∀ i, 0 <= i < 32 → ¬ picked i)
  | Continue => current s' me = current s me ∧ (may_run me (current s me) (task s (current s me)) ∨ ∀ i, 0 <= i < 32 → ¬ picked i)
  end.
Proof.
  intros me picked. pose proof (reachable_ok _ _ _ _ Hq Hrun) as Hok. pose proof (sched_cpu_range c) as Hme. fold me in Hme. destruct (yield_select_run c s Hok) as (d & s' & E & Hok' & _ & Ht & Ec & Hd). fold me in Ec, Hd.
  pose proof (current_range s me (proj1 (proj1 Hok)) Hme) as Hi. exists d, s'. split; [done|].
  assert (Hnone : forall s0, (forall i, 0 <= i < 32 -> i <> current s me -> claim_view (task s0 i) = claim_view (task s i)) -> (forall i, 0 <= i -> claimable s0 me i = false) ->
    (claimable s0 me (current s me) = false -> task_state (task s (current s me)) <> TASK_RUNNABLE \/ ~ may_run me (current s me) (task s (current s me))) -> forall i, 0 <= i < 32 -> ~ picked i).
  { intros s0 Hv Hn Hc i Hi0 [Hst Hm]. destruct (decide (i = current s me)) as [->|Hne].
    - destruct (Hc (Hn (current s me) (proj1 Hi))); done.
    - assert (H : claimable s me i = true) by by apply claimable_spec. rewrite <- (claimable_view s s0) in H; [by rewrite Hn in H by lia|by apply Hv]. }
  destruct d as [|old idle|old next].
  - unfold current. rewrite Ec. split; [done|]. fold (current s me).
    assert (Hview : affinity (task (flip me s) (current s me)) = affinity (task s (current s me)) /\ process_pid (task (flip me s) (current s me)) = process_pid (task s (current s me)) /\ ap_ok (task (flip me s) (current s me)) = ap_ok (task s (current s me))).
    { unfold flip. case_if; [|done]. match goal with |- context [task (rq_add_eligible_locked ?i ?x) ?j] => change (task (rq_add_eligible_locked i x) j) with (task x j) end. by rewrite task_on_same by (apply Hok || done). }
    destruct Hview as (V1 & V2 & V3). destruct Hd as [Hd|Hd].
    + left. apply claimable_spec in Hd as [_ Hd]; [|done..]. unfold may_run in *. by rewrite V1, V2, V3 in Hd.
    + right. apply (Hnone (flip me s)); [|done|].
      * intros i Hi0 Hne. unfold flip. case_if; [|done]. match goal with |- context [task (rq_add_eligible_locked ?i ?x) ?j] => change (task (rq_add_eligible_locked i x) j) with (task x j) end.
        rewrite task_on_task by (apply Hok || done). by rewrite (proj2 (Z.eqb_neq i (current s me))).
      * intros Hf. destruct (decide (task_state (task s (current s me)) = TASK_RUNNABLE)) as [Est|]; [|by left]. right. intros Hm.
        assert (Hx : claimable (flip me s) me (current s me) = true); [|congruence]. apply claimable_spec; [done..|]. split; [|unfold may_run; by rewrite V1, V2, V3].
        unfold flip, flipped. rewrite Est. done.
  - destruct Hd as (-> & Hf & _ & _ & Hd). unfold current at 1 2. rewrite Ec. split; [done|]. destruct Hd as [Hd|Hd]; [left; by apply claimable_spec|].
    right. intros i Hi0 Hp. specialize (Hd i ltac:(lia)). rewrite (proj2 (claimable_spec s me i Hme Hi0) Hp) in Hd. done.
  - destruct Hd as (-> & Hne & Hn & Hd). split; [done|]. split; [done|]. split; [done|]. split; [by apply claimable_spec|]. unfold current. rewrite Ec. destruct (proj1 (proj1 Hok)) as (_ & _ & _ & Hl & _). apply aget_aset_eq. lia.
Qed.
End Placement.

(** ** Contexts on the boot CPU *)
Section Contexts.
Context {P : Platform}.
Context (Hb : 0 <= smp_bsp_index < 64).

(** Operations that leave contexts alone, whoever issues them. *)
Definition calm (o : op) : bool :=
  match o with
  | AllowAp _ | CreateKernel _ _ _ | CreateUser _ _ _ _ | CreateFork _ _ _ _ _ | CreateContext _ _ _
  | Yield | Return | Exit | Bootstrap _ _ _ | Idle _ | Compute _ _ => false
  | _ => true
  end.
Definition creates (o : op) : bool :=
  match o with CreateKernel _ _ _ | CreateUser _ _ _ _ | CreateFork _ _ _ _ _ | CreateContext _ _ _ => true | _ => false end.

(** The discipline of a kernel that opens no task to other CPUs: the boot CPU does
    anything but open tasks and idle, and creates nothing after its task has died; the
    others idle, compute and serve interrupts, but neither switch nor create. *)
Definition allowed (s : scheduler) (c : cpu) (o : op) : bool :=
  match o with
  | AllowAp _ => false
  | Idle _ => negb (sched_cpu c =? smp_bsp_index)
  | Yield | Return | Exit | Bootstrap _ _ _ | Resume _ _ => sched_cpu c =? smp_bsp_index
  | _ => if creates o then (sched_cpu c =? smp_bsp_index) && negb (free_task (task s (current s smp_bsp_index))) else true
  end.

(** What the registers of the boot CPU hold. *)
Definition registers (s : scheduler) : Z * list Z := (aget 0 (cpu_rsp s) smp_bsp_index, aget [] (cpu_fpu s) smp_bsp_index).
Definition context (t : rix_task_t) : Z * list Z := (rsp t, fpu t).

(** The contexts slots were left with: the registers when the boot CPU leaves a slot,
    the first frame of the stack when a slot comes into use. *)
Definition saved (s s' : scheduler) (ctx : Z -> Z * list Z) (i : Z) : Z * list Z :=
  if (i =? current s smp_bsp_index) && negb (current s' smp_bsp_index =? i) then registers s
  else if free_task (task s i) && negb (free_task (task s' i)) then (top_of i, fpu_template s)
  else ctx i.

(** The states a disciplined kernel reaches, with the contexts its slots were left with. *)
Inductive reaches (template : list Z) (mem : scheduler) : scheduler -> (Z -> Z * list Z) -> Prop :=
| reaches_start : reaches template mem (scheduler_init template mem) (fun _ => (0, []))
| reaches_step s ctx c o r c' s' :
    reaches template mem s ctx -> allowed s c o = true -> exec o (c, s) = Some (r, (c', s')) -> reaches template mem s' (saved s s' ctx).

Definition intact (s : scheduler) (ctx : Z -> Z * list Z) : Prop :=
  sched_ok s /\ length (cpu_rsp s) = 64%nat /\ length (cpu_fpu s) = 64%nat /\ aget 0 (cpu_idle_valid s) smp_bsp_index = 0 /\
  (forall i, 0 <= i < 32 -> ap_ok (task s i) = 0) /\
  (forall i, 0 <= i < 32 -> i <> current s smp_bsp_index -> free_task (task s i) = false -> context (task s i) = ctx i).

(** *** Operations without a switch *)

Lemma ok_exec {A} (m : M (cpu * scheduler) A) c s r c' s' : ok m -> sched_ok s -> m (c, s) = Some (r, (c', s')) -> sched_ok s' /\ tame s s'.
Proof. intros H Hok E. destruct (H c s Hok) as (a & s1 & E1 & H1). rewrite E in E1. injection E1 as <- <- <-. done. Qed.

Lemma quietly_inv {A} (m : M (cpu * scheduler) A) c s r x : quietly m (c, s) = Some (r, x) -> exists a, m (c, s) = Some (a, x).
Proof. intros E. apply bind_inv in E as (a & [c1 s1] & E & E'). injection E' as _ <-. by exists a. Qed.

Lemma resume_tame activate flags c s r c' s' : sched_ok s -> yield_resume activate flags (c, s) = Some (r, (c', s')) -> sched_ok s' /\ tame s s'.
Proof.
  intros Hok E. unfold yield_resume in E. apply bind_inv in E as ([] & [c1 s1] & E1 & E2).
  assert (Es : s1 = s') by (unfold on_fst in E2; destruct (rix_irq_restore flags c1) as [[? ?]|]; [by injection E2|done]). subst s'. clear E2.
  pose proof (current_range s (sched_cpu c) (proj1 (proj1 Hok)) (sched_cpu_range c)) as Hi. case_if; [|by injection E1 as <- <-; split; [|reflexivity]].
  destruct (plain_section _ (mark_dead_keeps _ Hi) c s Hok) as (a & s2 & E & Hok' & Ht). revert E E1. unfold mbind, M_bind, mret, M_ret.
  destruct (on_guard rix_spin_lock (c, s)) as [[? [? ?]]|]; [|done]. destruct (task_mark_dead_locked _ _) as [[[] [? ?]]|]; [|done]. destruct (on_guard rix_spin_unlock _) as [[[] [? ?]]|]; [|done].
  intros [= <- <- <-] [= <- <-]. done.
Qed.

Lemma exec_calm o c s r c' s' : calm o = true -> sched_ok s -> exec o (c, s) = Some (r, (c', s')) -> sched_ok s' /\ tame s s'.
Proof.
  intros Hc Hok E. destruct o; try done; cbn [exec] in E.
  - apply quietly_inv in E as (a & E). by eapply ok_exec; [apply set_affinity_ok|..].
  - apply quietly_inv in E as (a & E). by eapply ok_exec; [apply set_priority_ok|..].
  - injection E as _ _ <-. split; [by apply (sched_ok_fields s)|by apply tame_fields].
  - injection E as _ _ <-. apply (same_core_ok s); [apply preempt_tick_core|done].
  - injection E as _ _ <-. split; [by apply (sched_ok_fields s)|by apply tame_fields].
  - injection E as _ _ <-. unfold scheduler_preempt_enable. case_if; [|split; [done|reflexivity]]. split; [by apply (sched_ok_fields s)|by apply tame_fields].
  - injection E as _ _ <-. split; [by apply (sched_ok_fields s)|by apply tame_fields].
  - injection E as _ _ <-. apply (same_core_ok s); [apply should_yield_core|done].
  - apply quietly_inv in E as (a & E). by eapply ok_exec; [apply wait_prepare_ok|..].
  - by eapply ok_exec; [apply block_ok|..].
  - apply quietly_inv in E as (a & E). by eapply ok_exec; [apply wait_take_ok|..].
  - by eapply ok_exec; [apply wait_abort_ok|..].
  - by eapply ok_exec; [apply wake_queue_ok|..].
  - by eapply ok_exec; [apply wake_and_kick_ok|..].
  - eapply ok_exec; [|done..]. apply ok_locked. intros c0 s0 Hg. split; [by apply (good_fields s0)|]. split; [done|by apply tame_fields].
  - by eapply resume_tame.
  - injection E as _ _ <-. split; [by apply (sched_ok_fields s)|by apply tame_fields].
Qed.

Lemma ret_grow {A} (a : A) c s b x : sched_ok s -> mret (M := M (cpu * scheduler)) a (c, s) = Some (b, x) -> sched_ok x.2 /\ grow s x.2.
Proof. intros Hok [= _ <-]. split; [done|]. apply tame_grow. reflexivity. Qed.

Lemma create_grow view full fill c s b x : sched_ok s -> create_task view full fill (c, s) = Some (b, x) -> sched_ok x.2 /\ grow s x.2.
Proof. intros Hok E. destruct (create_task_run view full fill c s Hok) as (a & s' & E' & H). rewrite E in E'. by injection E' as _ ->. Qed.

Lemma exec_creates o c s r c' s' : creates o = true -> sched_ok s -> exec o (c, s) = Some (r, (c', s')) -> sched_ok s' /\ grow s s'.
Proof.
  intros Hc Hok E. change s' with ((c', s').2). destruct o; try done; cbn [exec] in E; apply quietly_inv in E as (rr & E).
  - unfold scheduler_create_kernel_thread in E. case_if; [by eapply ret_grow|by eapply create_grow].
  - unfold scheduler_create_user_process in E. repeat (case_if; [by eapply ret_grow|]). by eapply create_grow.
  - unfold scheduler_create_fork_child in E. repeat (case_if; [by eapply ret_grow|]). by eapply create_grow.
  - unfold scheduler_create_fork_child_context in E. destruct uc; [|by eapply ret_grow]. case_if; [by eapply ret_grow|by eapply create_grow].
Qed.

(** *** The invariant *)

Definition mild (s s' : scheduler) : Prop :=
  current s' smp_bsp_index = current s smp_bsp_index /\ length (cpu_rsp s') = length (cpu_rsp s) /\ length (cpu_fpu s') = length (cpu_fpu s) /\
  aget 0 (cpu_idle_valid s') smp_bsp_index = aget 0 (cpu_idle_valid s) smp_bsp_index /\ forall i, 0 <= i < 32 -> slot_tame (task s i) (task s' i).

Lemma tame_mild s s' : tame s s' -> mild s s'.
Proof. intros (E1 & E2 & E3 & E4 & E5 & H). unfold mild, current. by rewrite E1, E2, E3, E5. Qed.

(** No slot comes into use: only the slot that is left gets a new context. *)
Lemma saved_settled s s' ctx i : 0 <= i < 32 -> slot_tame (task s i) (task s' i) ->
  saved s s' ctx i = if (i =? current s smp_bsp_index) && negb (current s' smp_bsp_index =? i) then registers s else ctx i.
Proof.
  intros Hi (_ & _ & _ & Hf). unfold saved. case_if; [done|]. destruct (free_task (task s i)); [|done]. by rewrite Hf.
Qed.

Lemma context_tame t t' : slot_tame t t' -> context t' = context t.
Proof. intros (E1 & E2 & _). unfold context. by rewrite E1, E2. Qed.

Lemma live_tame t t' : slot_tame t t' -> free_task t' = false -> free_task t = false.
Proof. intros (_ & _ & _ & Hf) H. destruct (free_task t); [|done]. by rewrite Hf in H. Qed.

Lemma intact_mild s s' ctx : intact s ctx -> sched_ok s' -> mild s s' -> intact s' (saved s s' ctx).
Proof.
  intros (_ & H1 & H2 & H3 & H4 & H5) Hok (E1 & E2 & E3 & E4 & Ht). split; [done|]. split; [congruence|]. split; [congruence|]. split; [congruence|]. split.
  - intros i Hi. destruct (Ht i Hi) as (_ & _ & -> & _). by apply H4.
  - intros i Hi Hne Hf. rewrite saved_settled by (done || by apply Ht). rewrite E1 in *. rewrite (proj2 (Z.eqb_neq i (current s smp_bsp_index))) by done. cbn [andb].
    rewrite (context_tame _ _ (Ht i Hi)). apply H5; [done..|]. eapply live_tame; [by apply Ht|done].
Qed.

Lemma intact_grow s s' ctx : intact s ctx -> sched_ok s' -> grow s s' -> intact s' (saved s s' ctx).
Proof.
  intros (_ & H1 & H2 & H3 & H4 & H5) Hok (E1 & E2 & E3 & E4 & E5 & Hg). split; [done|]. split; [congruence|]. split; [congruence|]. split; [congruence|].
  assert (Ec : current s' smp_bsp_index = current s smp_bsp_index) by (unfold current; by rewrite E1). split.
  - intros i Hi. destruct (Hg i Hi) as [(_ & _ & -> & _)|(_ & _ & -> & _)]; [by apply H4|done].
  - intros i Hi Hne Hf. rewrite Ec in Hne. unfold saved. rewrite (proj2 (Z.eqb_neq i (current s smp_bsp_index))) by done. cbn [andb]. destruct (Hg i Hi) as [Ht|(_ & Hfree & _ & Hn)].
    + rewrite (live_tame _ _ Ht Hf). cbn [andb]. rewrite (context_tame _ _ Ht). apply H5; [done..|]. by eapply live_tame.
    + rewrite Hfree, Hf. cbn [andb negb]. destruct Hn as [Hn|[Er Ef]]; [congruence|]. unfold context. by rewrite Er, Ef.
Qed.

Lemma intact_ext s ctx ctx' : (forall i, 0 <= i < 32 -> i <> current s smp_bsp_index -> free_task (task s i) = false -> ctx' i = ctx i) -> intact s ctx -> intact s ctx'.
Proof. intros He (H1 & H2 & H3 & H4 & H5 & H6). do 5 (split; [done|]). intros i Hi Hne Hf. rewrite He by done. by apply H6. Qed.

(** *** The switch *)

Lemma yield_inv c s x : scheduler_yield (c, s) = Some x -> sched_ok s -> exists d s1, sched_ok s1 /\ yield_outcome (sched_cpu c) s s1 d /\ x.2.2 = switch (sched_cpu c) d s1.
Proof.
  intros E Hok. unfold scheduler_yield in E. apply bind_inv in E as (flags & [c1 s1] & E1 & E). injection E1 as <- <- <-. apply bind_inv in E as ([] & [c2 s2] & E2 & E). injection E2 as <- <-.
  destruct (yield_select_run (set_rflags (Z.clearbit (rflags c) IF_BIT) c) s Hok) as (d & s' & E3 & Hok' & _ & Ho). rewrite (bind_Some _ _ _ _ _ E3) in E. exists d, s'. split; [done|]. split; [exact Ho|].
  apply bind_inv in E as ([] & [c4 s4] & E4 & E). injection E4 as <- <-. destruct d; [|by injection E as <-..].
  apply bind_inv in E as ([] & [c5 s5] & E5 & E). injection E as <-. unfold on_fst in E5. destruct (rix_irq_restore _ _) as [[? ?]|]; [|done]. injection E5 as _ _ <-. done.
Qed.

Lemma aget_aset_in {A} (d : A) l i x : length l = 64%nat -> 0 <= i < 64 -> aget d (aset i x l) i = x.
Proof. intros Hl Hi. apply aget_aset_eq. lia. Qed.

Lemma yield_intact c s ctx x : sched_cpu c = smp_bsp_index -> intact s ctx -> scheduler_yield (c, s) = Some x ->
  intact x.2.2 (saved s x.2.2 ctx) /\ (forall i, 0 <= i < 32 -> free_task (task s i) = true -> free_task (task x.2.2 i) = true) /\
  (if current x.2.2 smp_bsp_index =? current s smp_bsp_index then registers x.2.2 = registers s else registers x.2.2 = ctx (current x.2.2 smp_bsp_index)).
Proof.
  intros Ec Hin E. pose proof Hin as (Hok & H1 & H2 & H3 & H4 & H5). pose proof (switch_ok (sched_cpu c)) as Hsw.
  destruct (yield_select_run c s Hok) as (d0 & s0 & E0 & _). destruct (yield_inv c s x E Hok) as (d & s1 & Hok1 & (Ht & Ecur & Hd) & Ex). rewrite Ec in *.
  pose proof (current_range s smp_bsp_index (proj1 (proj1 Hok)) Hb) as Hi. destruct Ht as (T1 & T2 & T3 & T4 & T5). rewrite Ex. destruct d as [|old idle|old next]; cbn [switch].
  - assert (Hm : mild s s1) by (unfold mild, current; by rewrite Ecur, T1, T2, T4). split; [by apply intact_mild|]. split; [intros i Hi0; apply T5; done|].
    rewrite (proj1 Hm), Z.eqb_refl. unfold registers. by rewrite T1, T2.
  - destruct Hd as (_ & _ & _ & Hv & _). by rewrite H3 in Hv.
  - destruct Hd as (-> & Hne & Hn & Hcl). apply claimable_spec in Hcl as [Hst _]; [|done..].
    set (old := current s smp_bsp_index) in *. set (s' := switch_tasks smp_bsp_index old next s1).
    assert (Hlen : length (tasks s1) = 32%nat) by apply Hok1. assert (Hlr : length (cpu_rsp s1) = 64%nat) by congruence. assert (Hlf : length (cpu_fpu s1) = 64%nat) by congruence.
    assert (Et : forall i, 0 <= i < 32 -> task s' i = if i =? old then set_rsp (registers s).1 (set_fpu (registers s).2 (task s1 old)) else task s1 i).
    { intros i Hi0. unfold s', switch_tasks, save_context, registers. cbn [fst snd]. rewrite <- T1, <- T2.
      match goal with |- task (load_context _ _ _ ?y) i = _ => change (task (load_context smp_bsp_index (rsp (task s1 next)) (fpu (task s1 next)) y) i) with (task y i) end. by rewrite task_on_task. }
    assert (Ecur' : current s' smp_bsp_index = next).
    { unfold s', switch_tasks, current. cbn [load_context with_cpu_rsp with_cpu_fpu cpu_current save_context on_task with_tasks]. rewrite Ecur. apply aget_aset_in; [|done]. destruct (proj1 (proj1 Hok)) as (_ & _ & _ & Hl & _). done. }
    assert (Hslot : forall i, 0 <= i < 32 -> free_task (task s i) = true -> free_task (task s' i) = true).
    { intros i Hi0 Hf. rewrite Et by done. destruct (T5 i Hi0) as (_ & _ & _ & Hfr). destruct (Z.eqb_spec i old) as [->|]; [|by apply Hfr]. exact (Hfr Hf). }
    split; [|split; [done|]].
    + split; [|split; [|split; [|split; [|split]]]].
      * apply (Hsw (Switch old next) s1); [done|done].
      * unfold s', switch_tasks. cbn. rewrite length_aset. done.
      * unfold s', switch_tasks. cbn. rewrite length_aset. done.
      * unfold s', switch_tasks. cbn [load_context with_cpu_rsp with_cpu_fpu cpu_idle_valid save_context on_task with_tasks]. congruence.
      * intros i Hi0. rewrite Et by done. destruct (T5 i Hi0) as (_ & _ & Ha & _). destruct (Z.eqb_spec i old) as [->|]; cbn; rewrite Ha; by apply H4.
      * intros i Hi0 Hne' Hf. rewrite Ecur' in Hne'. unfold saved. fold old. rewrite Ecur'. destruct (free_task (task s i)) eqn:Efr; [by rewrite Hslot in Hf|]. rewrite Et in * by done.
        destruct (Z.eqb_spec i old) as [->|Hio]; cbn [andb].
        -- rewrite (proj2 (Z.eqb_neq next old)) by done. by destruct (registers s).
        -- rewrite (context_tame _ _ (T5 i Hi0)). by apply H5.
    + rewrite Ecur', (proj2 (Z.eqb_neq next old)) by done. transitivity (context (task s1 next)).
      * unfold registers, s', switch_tasks, context. cbn [load_context with_cpu_rsp with_cpu_fpu cpu_rsp cpu_fpu save_context on_task with_tasks]. by rewrite !aget_aset_in.
      * rewrite (context_tame _ _ (T5 next Hn)). apply H5; [done..|]. unfold free_task. by rewrite Hst.
Qed.

(** Death first, then a yield. *)
Lemma dead_yield_intact c s s0 ctx x : sched_cpu c = smp_bsp_index -> intact s ctx -> sched_ok s0 -> tame s s0 -> scheduler_yield (c, s0) = Some x -> intact x.2.2 (saved s x.2.2 ctx).
Proof.
  intros Ec Hin Hok0 Ht E. pose proof (intact_mild s s0 ctx Hin Hok0 (tame_mild _ _ Ht)) as Hin0. destruct (yield_intact c s0 _ x Ec Hin0 E) as (H & Hfr & _).
  destruct Ht as (Tc & T1 & T2 & _ & _ & Ht). eapply intact_ext; [|exact H]. intros i Hi Hne Hf.
  assert (Ecur : current s0 smp_bsp_index = current s smp_bsp_index) by (unfold current; by rewrite Tc).
  assert (Hf0 : free_task (task s0 i) = false) by (destruct (free_task (task s0 i)) eqn:Ef; [by rewrite Hfr in Hf|done]).
  unfold saved at 1 2. rewrite Ecur, Hf0, (live_tame _ _ (Ht i Hi) Hf0). cbn [andb]. unfold registers. rewrite T1, T2. case_if; [done|]. unfold saved. rewrite Ecur, (live_tame _ _ (Ht i Hi) Hf0). cbn [andb].
  destruct (Z.eqb_spec i (current s smp_bsp_index)) as [->|]; [|done]. cbn [andb]. by rewrite Z.eqb_refl.
Qed.

Lemma returned_intact c s ctx x : sched_cpu c = smp_bsp_index -> intact s ctx -> task_returned (c, s) = Some x -> intact x.2.2 (saved s x.2.2 ctx).
Proof.
  intros Ec Hin E. unfold task_returned in E. destruct (locked_section_keeps (fun '(c, s) => task_mark_dead_locked (current s (sched_cpu c)) (c, s)) c s (proj1 Hin) mark_current_keeps) as (a & s0 & E0 & Hok0 & Ht).
  rewrite (bind_Some _ _ _ _ _ E0) in E. by eapply dead_yield_intact.
Qed.

Lemma exit_intact c s ctx x : sched_cpu c = smp_bsp_index -> intact s ctx -> scheduler_exit_current (c, s) = Some x -> intact x.2.2 (saved s x.2.2 ctx).
Proof.
  intros Ec Hin E. unfold scheduler_exit_current in E. apply bind_inv in E as ([] & [c1 s1] & E1 & E). injection E1 as <- <-. set (c1 := set_rflags (Z.clearbit (rflags c) IF_BIT) c) in *.
  destruct (plain_section _ mark_current_keeps c1 s (proj1 Hin)) as (a & s0 & E0 & Hok0 & Ht). apply (dead_yield_intact c1 s s0 ctx x); [done..|]. revert E0 E. unfold mbind, M_bind, mret, M_ret.
  destruct (on_guard rix_spin_lock (c1, s)) as [[? [? ?]]|]; [|done]. destruct (task_mark_dead_locked _ _) as [[? [? ?]]|]; [|done]. destruct (on_guard rix_spin_unlock _) as [[? [? ?]]|]; [|done].
  by intros [= <- <- <-].
Qed.

Lemma bootstrap_intact view activate validate c s ctx x : sched_cpu c = smp_bsp_index -> intact s ctx -> task_bootstrap view activate validate (c, s) = Some x -> intact x.2.2 (saved s x.2.2 ctx).
Proof.
  intros Ec Hin E. unfold task_bootstrap in E. cbv zeta in E. assert (Hsame : intact s (saved s s ctx)) by (apply intact_mild; [done|apply Hin|apply tame_mild; reflexivity]).
  assert (Hdead : match task_returned (c, s) with Some (_, r) => Some (StartFails, r) | None => None end = Some x -> intact x.2.2 (saved s x.2.2 ctx)).
  { destruct (task_returned (c, s)) as [y|] eqn:Er; [|done]. destruct y as [a y]. intros [= <-]. exact (returned_intact c s ctx _ Ec Hin Er). }
  case_if; [|by injection E as <-]. destruct (view _); [|by apply Hdead]. case_if; [by apply Hdead|]. case_if; [by apply Hdead|]. case_if; by injection E as <-.
Qed.

(** A CPU other than the boot CPU finds nothing to run. *)
Lemma idle_intact is_bsp c s ctx x : sched_cpu c <> smp_bsp_index -> intact s ctx -> scheduler_ap_idle is_bsp (c, s) = Some x -> intact x.2.2 (saved s x.2.2 ctx).
Proof.
  intros Ec Hin E. unfold scheduler_ap_idle in E. destruct (_ || _ || _) eqn:Eg.
  { injection E as <-. apply intact_mild; [done|apply Hin|apply tame_mild; reflexivity]. }
  cbv zeta in E. apply orb_false_iff in Eg as [Eg _]. apply orb_false_iff in Eg as [E1 E2]. bool_to_prop. unfold SMP_MAX_CPUS in E2.
  assert (Eme : sched_cpu c = cpu_index c) by (unfold sched_cpu, SMP_MAX_CPUS; by rewrite (proj2 (Z.leb_le 0 _)), (proj2 (Z.ltb_lt _ 64)) by lia). rewrite Eme in Ec. set (me := cpu_index c) in *.
  set (s1 := with_cpu_idle_valid _ _) in E. assert (Hok1 : sched_ok s1) by (apply (sched_ok_fields s); [done..|apply Hin]).
  assert (Hm1 : mild s s1) by (split; [done|]; split; [done|]; split; [done|]; split; [cbn; apply aget_aset_ne; lia|]; intros i Hi; by repeat split).
  apply bind_inv in E as ([] & [c1 s1'] & Es & E). injection Es as <- <-.
  destruct (idle_locked_run me (with_guard spin_held s1) ltac:(lia)) as (r & s2 & Er & Hg2 & Hl2 & Hr); [apply (good_fields s1); [done..|apply Hok1]|].
  rewrite (bind_Some _ _ _ r (set_rflags (Z.setbit (rflags c) IF_BIT) c, with_guard spin_free s2)) in E.
  2: { apply locked_section_run; [apply Hok1|]. revert Er. cbv zeta. destruct (negb _); [done|]. destruct (sched_pick_locked _ _ _) as [n sp]. destruct (_ || _); by intros [= <- <-]. }
  destruct r as [| |next]; [|done|].
  - injection E as <-. cbn [fst snd]. assert (Hok2 : sched_ok (with_guard spin_free s2)) by (split; [by apply (good_fields s2)|done]).
    assert (Hm2 : mild s (with_guard spin_free s2)). { destruct Hm1 as (A1 & A2 & A3 & A4 & A5), (tame_mild _ _ (proj1 Hr)) as (B1 & B2 & B3 & B4 & B5).
      split; [etransitivity; [exact B1|exact A1]|]. split; [etransitivity; [exact B2|exact A2]|]. split; [etransitivity; [exact B3|exact A3]|]. split; [etransitivity; [exact B4|exact A4]|].
      intros i Hi. destruct (A5 i Hi) as (C1 & C2 & C3 & C4), (B5 i Hi) as (D1 & D2 & D3 & D4). split; [etransitivity; [exact D1|exact C1]|]. split; [etransitivity; [exact D2|exact C2]|].
      split; [etransitivity; [exact D3|exact C3]|]. intros H. exact (D4 (C4 H)). }
    by apply intact_mild.
  - destruct Hr as (Hn & _ & Hcl). exfalso. apply claimable_spec in Hcl as [_ [_ Hcl]]; [|lia|done]. destruct (Hcl Ec) as (_ & _ & Hap). apply Hap. destruct Hin as (_ & _ & _ & _ & H4 & _). exact (H4 next Hn).
Qed.

Lemma step_intact s ctx c o r c' s' : intact s ctx -> allowed s c o = true -> exec o (c, s) = Some (r, (c', s')) -> intact s' (saved s s' ctx).
Proof.
  intros Hin Ha E. destruct (calm o) eqn:Ecalm.
  { destruct (exec_calm o c s r c' s' Ecalm (proj1 Hin) E) as [Hok Ht]. apply intact_mild; [done..|by apply tame_mild]. }
  destruct (creates o) eqn:Ecr.
  { destruct (exec_creates o c s r c' s' Ecr (proj1 Hin) E) as [Hok Hg]. by apply intact_grow. }
  destruct o; try done; cbn [allowed] in Ha; cbn [exec] in E; bool_to_prop; try apply quietly_inv in E as (y & E); try change s' with ((y, (c', s')).2.2).
  - exact (proj1 (yield_intact c s ctx _ Ha Hin E)).
  - by eapply returned_intact.
  - by eapply exit_intact.
  - by eapply bootstrap_intact.
  - by eapply idle_intact.
  - injection E as _ _ <-. apply intact_mild; [done|apply load_context_ok; apply Hin|].
    split; [done|]. split; [cbn; apply length_aset|]. split; [cbn; apply length_aset|]. split; [done|]. intros i Hi. by repeat split.
Qed.

Lemma start_intact template mem : map_Forall (fun _ q => wq_lock q = spin_free) (queues mem) -> length (cpu_rsp mem) = 64%nat -> length (cpu_fpu mem) = 64%nat ->
  intact (scheduler_init template mem) (fun _ => (0, [])).
Proof.
  intros Hq H1 H2. split; [by apply sched_init_ok|]. unfold scheduler_init. destruct (thread_alloc_locked _ _ _ _) as [[rc tid] tab]. split; [done|]. split; [done|].
  split; [cbn; unfold aget; rewrite lookup_replicate_2 by (unfold SMP_MAX_CPUS; lia); done|]. unfold task, current. cbn [tasks cpu_current]. split.
  - intros i Hi. destruct (decide (i = 0)) as [->|]; [done|]. rewrite aget_aset_ne by lia. unfold aget. rewrite list_lookup_fmap, lookup_seqZ_lt by (unfold RIX_MAX_TASKS; lia). done.
  - intros i Hi Hne. unfold aget in Hne at 1. rewrite lookup_replicate_2 in Hne by (unfold SMP_MAX_CPUS; lia). cbn in Hne.
    rewrite aget_aset_ne by lia. unfold aget. rewrite list_lookup_fmap, lookup_seqZ_lt by (unfold RIX_MAX_TASKS; lia). done.
Qed.

Lemma reaches_intact template mem s ctx : map_Forall (fun _ q => wq_lock q = spin_free) (queues mem) -> length (cpu_rsp mem) = 64%nat -> length (cpu_fpu mem) = 64%nat ->
  reaches template mem s ctx -> intact s ctx.
Proof. intros Hq H1 H2. induction 1; [by apply start_intact|by eapply step_intact]. Qed.

(** C8: on the boot CPU every task resumes exactly where it was left. As long as no
    task is opened to other CPUs, only the boot CPU creates tasks, and it creates none
    between the death of its current task and its next switch (a creation could reuse
    the slot the CPU still runs on), after any interleaving of creations, deaths, blocks,
    wakeups, ticks and yields, on the boot CPU and on idle CPUs beside it, a yield of
    the boot CPU returns; either its current task goes on with its registers unchanged,
    or the stack pointer and FPU state it loads are those the next task was left with:
    what the boot CPU held when it last left that task, or the first frame of its
    stack for a task that never ran. *)
Theorem bsp_resumes_where_left template mem s ctx c
    (Hq : map_Forall (fun _ q => wq_lock q = spin_free) (queues mem)) (H1 : length (cpu_rsp mem) = 64%nat) (H2 : length (cpu_fpu mem) = 64%nat)
    (Hr : reaches template mem s ctx) (Hc : sched_cpu c = smp_bsp_index) :
  ∃ r c' s', scheduler_yield (c, s) = Some (r, (c', s')) ∧
  (if current s' smp_bsp_index =? current s smp_bsp_index then registers s' = registers s else registers s' = ctx (current s' smp_bsp_index)).
Proof.
  pose proof (reaches_intact template mem s ctx Hq H1 H2 Hr) as Hin. destruct (yield_runs c s (proj1 Hin)) as (r & c' & s' & E & _). exists r, c', s'. split; [done|].
  exact (proj2 (proj2 (yield_intact c s ctx _ Hc Hin E))).
Qed.
End Contexts.

(** ** Runs *)

(** A history followed step by step, as long as the discipline holds. *)
Fixpoint follow {P : Platform} (steps : list (cpu * op)) (s : scheduler) (ctx : Z -> Z * list Z) : option (scheduler * (Z -> Z * list Z)) :=
  match steps with
  | [] => Some (s, ctx)
  | (c, o) :: steps =>
    if allowed s c o then match exec o (c, s) with Some (_, (_, s')) => follow steps s' (saved s s' ctx) | None => None end else None
  end.

Lemma follow_reaches {P : Platform} template mem steps : forall s ctx s' ctx', reaches template mem s ctx -> follow steps s ctx = Some (s', ctx') -> reaches template mem s' ctx'.
Proof.
  induction steps as [|[c o] steps IH]; intros s ctx s' ctx' Hr E; cbn [follow] in E; [by injection E as <- <-|]. destruct (allowed s c o) eqn:Ea; [|done].
  destruct (exec o (c, s)) as [[[] [c1 s1]]|] eqn:Ee; [|done]. eapply IH; [|exact E]. by eapply reaches_step.
Qed.

(** The boot thread computes, creates a thread and yields twice: the first pick is the boot thread itself, the second the new one, which computes. *)
Definition demo_steps : list (cpu * op) :=
  [(cpu0, Compute 0x9000 [1]); (cpu0, CreateKernel no_process 7 8); (cpu0, Yield); (cpu0, Yield); (cpu1, Idle (Some false)); (cpu0, Compute 0x8000 [2])].
Definition demo_run : option (scheduler * (Z -> Z * list Z)) := follow (P := demo_platform) demo_steps (scheduler_init [0] zero_memory) (fun _ => (0, [])).

Lemma demo_reaches s ctx : demo_run = Some (s, ctx) -> reaches (P := demo_platform) [0] zero_memory s ctx.
Proof. unfold demo_run. apply follow_reaches. apply reaches_start. Qed.

Lemma demo_facts : match demo_run with
  | Some (s, ctx) => registers (P := demo_platform) s = (0x8000, [2]) /\ current s 0 = 1 /\ ctx 0 = (0x9000, [1]) /\
      match scheduler_yield (P := demo_platform) (cpu0, s) with Some (_, (_, s')) => current s' 0 = 0 | None => False end
  | None => False
  end.
Proof. vm_compute. repeat split. Qed.

Lemma bsp_resumes_where_left_witness :
  match demo_run with
  | Some (s, ctx) => ∃ r c' s', scheduler_yield (P := demo_platform) (cpu0, s) = Some (r, (c', s')) ∧ registers (P := demo_platform) s = (0x8000, [2]) ∧ registers (P := demo_platform) s' = (0x9000, [1])
  | None => False
  end.
Proof.
  pose proof demo_facts as Hs. pose proof demo_reaches as Hreach. revert Hs Hreach. destruct demo_run as [[s ctx]|]; [|exact (fun H _ => H)]. intros (Er & Ec & Ex & Ec') Hreach.
  destruct (bsp_resumes_where_left (P := demo_platform) ltac:(cbn; lia) [0] zero_memory s ctx cpu0 zero_queues eq_refl eq_refl (Hreach s ctx eq_refl) eq_refl) as (r & c' & s' & Ey & H).
  exists r, c', s'. split; [exact Ey|]. split; [exact Er|]. rewrite Ey in Ec'. change (smp_bsp_index (Platform := demo_platform)) with 0 in H. rewrite Ec', Ec in H. exact (eq_trans H Ex).
Defined.

Lemma claims_respect_placement_witness :
  match run (P := demo_platform) [(cpu0, CreateKernel no_process 7 8); (cpu0, Yield)] (scheduler_init [0] zero_memory) with
  | Some s => ∃ d s', yield_select (P := demo_platform) (cpu0, s) = Some (d, (cpu0, s')) ∧ d = Switch 0 1 ∧ task_state (task s 1) = TASK_RUNNABLE ∧ current s' 0 = 1
  | None => False
  end.
Proof.
  assert (Ed : match run (P := demo_platform) [(cpu0, CreateKernel no_process 7 8); (cpu0, Yield)] (scheduler_init [0] zero_memory) with
    | Some s => match yield_select (P := demo_platform) (cpu0, s) with Some (d, _) => d = Switch 0 1 | None => False end | None => False end) by (vm_compute; reflexivity).
  revert Ed. destruct (run (P := demo_platform) _ _) as [s|] eqn:E; [|exact (fun H => H)]. intros Ed.
  destruct (claims_respect_placement (P := demo_platform) [0] zero_memory _ s cpu0 zero_queues E) as (d & s' & Ey & Hd). exists d, s'. split; [exact Ey|].
  rewrite Ey in Ed. subst d. destruct Hd as (_ & _ & _ & [Hst _] & Hc). split; [reflexivity|]. split; [exact Hst|exact Hc].
Defined.

(** ** What the discipline rules out *)

(** Two threads opened to both CPUs; the boot CPU runs the first, whose stack pointer moves. *)
Definition shared_run : option scheduler :=
  run (P := demo_platform) [(cpu0, CreateKernel no_process 7 8); (cpu0, CreateKernel no_process 7 9); (cpu0, AllowAp 1); (cpu0, Yield); (cpu0, Yield); (cpu0, Compute 0x8000 [2])]
    (scheduler_init [0] zero_memory).

(** A thread opened to other CPUs can be taken while its context is still
    unsaved. The lock is released before [rix_context_switch]: between the two the
    other CPU claims the yielding thread and loads the stack pointer of its last switch
    (here the first frame of its stack), not the one the boot CPU still holds. *)
Theorem yield_races_with_claim :
  match shared_run with
  | Some s => current s 0 = 1 ∧ aget 0 (cpu_rsp s) 0 = 0x8000 ∧
    match yield_select (P := demo_platform) (cpu0, s) with
    | Some (Switch 1 _, (_, s1)) =>
      match scheduler_ap_idle (P := demo_platform) (Some false) (cpu1, s1) with
      | Some (Ran 1, (_, s2)) => aget 0 (cpu_rsp s2) 0 = 0x8000 ∧ aget 0 (cpu_rsp s2) 1 = top_of (P := demo_platform) 1 ∧ aget 0 (cpu_rsp s2) 1 ≠ 0x8000
      | _ => False
      end
    | _ => False
    end
  | None => False
  end.
Proof. vm_compute. repeat split; discriminate. Qed.

(** A thread that blocks on a CPU other than the boot CPU with nothing else to run
    loses its context. [scheduler_yield] leaves for the idle context and saves the
    stack pointer in a scratch slot, although the thread is only blocked; once it is
    woken, the next CPU to take it starts it from its first frame again. *)
Theorem blocked_thread_restarts :
  match run (P := demo_platform) [(cpu0, CreateKernel no_process 7 8); (cpu0, AllowAp 1); (cpu1, Idle (Some false)); (cpu1, Compute 0x8000 [2]); (cpu1, WaitPrepare 0x500);
    (cpu1, Block); (cpu1, Yield); (cpu0, WakeQueue 0x500); (cpu0, Yield); (cpu0, Yield)] (scheduler_init [0] zero_memory) with
  | Some s => current s 0 = 1 ∧ task_state (task s 1) = TASK_RUNNING ∧ aget 0 (cpu_rsp s) 0 = top_of (P := demo_platform) 1 ∧ aget 0 (cpu_idle_tmp s) 1 = 0x8000
  | None => False
  end.
Proof. vm_compute. repeat split. Qed.

(** A successful [scheduler_set_affinity] can leave a task with no CPU that runs
    it. The mask is only checked against CPU numbers, not against the CPUs that exist:
    a runnable thread pinned to CPU 40 is in the queue of no other CPU. *)
Theorem affinity_can_strand :
  match run (P := demo_platform) [(cpu0, CreateKernel no_process 7 8); (cpu0, AllowAp 1)] (scheduler_init [0] zero_memory) with
  | Some s => match scheduler_set_affinity (P := demo_platform) 1 (bit 40) (cpu0, s) with
    | Some (rc, (_, s')) => rc = 0 ∧ task_state (task s' 1) = TASK_RUNNABLE ∧ forallb (fun k => (k =? 40) || negb (rq_contains_locked (Some (rq s' k)) 1)) (seqZ 0 64) = true
    | None => False
    end
  | None => False
  end.
Proof. vm_compute. repeat split. Qed.
